(* ===== verification/_CoqProject ===== *)
-Q . S2P
Prelude.v
RustString.v
Errors.v
Models.v
Paths.v
Memory.v
MemoryProps.v
Connections.v
Cache.v
StorageApi.v
Effects.v
Crypto.v
Notify.v
NotifyProps.v
Broadcast.v
AccountServices.v
FileService.v
FileServiceProps.v
VersionService.v
Auth.v
OAuth.v
AuthHandlers.v
AuthHandlersProps.v
Domain.v
DomainProps.v
EventBus.v
MySql.v
MySqlFile.v
MySqlWatcher.v
MySqlProps.v
MySqlWatcherProps.v
MySqlVersions.v
Config.v
ConfigProps.v
FileStore.v
FileStoreProps.v
Schema.v
SchemaProps.v
Startup.v
StartupProps.v
Http.v
Lifecycle.v
LifecycleProps.v
Monitor.v
Registry.v
FileHandlers.v
FileHandlersProps.v
ServerState.v
Subscriptions.v
SubscriptionsProps.v
DeviceHandlers.v
WatcherHandlers.v
WatcherHandlersProps.v
Service.v
ServiceProps.v
StorageInvariant.v
MySqlServer.v
MySqlServerProps.v
Interleave.v
Middleware.v
Plugins.v
WatchPath.v
