(* ===== verification/Prelude.v ===== *)
(** * Verification of the COSMIC sync server

    The server (Rust crate under src/src) keeps the files of an account in step
    across its devices.  A client authenticates with a bearer token, uploads,
    lists, downloads and deletes files over gRPC, groups folders under watchers
    with conditions, and holds open streams on which the server announces the
    changes made by the other devices.

    ** Parts and files

    A request enters through a handler, which verifies its token, calls a
    service, and publishes events; services work on the trait [Storage] and
    announce changes through the notification manager.

    - [Prelude.v]: results, machine integers with their wrap-around, hash maps
      with an arbitrary iteration order (class [HashIter]), list lemmas, the hint
      database [rust_bool].  [RustString.v]: the string operations the source
      uses, on bytes.  [Effects.v]: the state monad of services and handlers, with
      error values and panics, and the assertions a computation preserves.
    - [Errors.v] (error.rs, storage/mod.rs): [StorageError], [SyncError], gRPC
      statuses and the conversions between them.
    - [Models.v] (models/, utils/time.rs): rows, protocol messages, conversions.
    - [Paths.v] (utils/helpers.rs, utils/validator.rs, validation.rs): path
      normalisation with its memo table, validators.
    - [Memory.v], [MemoryProps.v] (storage/memory.rs): the in-memory storage; one
      definition per method on the record [StorageData].
    - [StorageApi.v] (trait [Storage] of storage/mod.rs): the class the services
      are written against, its laws, and the proof that the in-memory storage
      satisfies them.  The MySQL storage does not (it numbers revisions itself and
      updates the row of an identifier whoever owns it): what rests on the laws is stated
      for the in-memory storage, or holds for the storages that meet them.
    - [Connections.v] (server/connection_tracker.rs, connection_cleanup.rs, the
      client store of app_state.rs).  [Cache.v] (storage/cache.rs).
    - [Crypto.v] (utils/crypto.rs): identifiers and metadata encryption; the
      primitives are the class [CryptoApi] with laws in [AeadLaws],
      [Base64RoundTrip], [Base64Lengths] and [HexLaws].
    - [Notify.v], [NotifyProps.v] (server/notification_manager.rs): subscribers and
      broadcasts, each at once.  [Broadcast.v]: broadcasts of file updates as tasks over
      channels of 1024 messages, with the lock of the table of subscribers, clients that read
      or go away, and requests that are cancelled.
    - [AccountServices.v] (services/encryption_service.rs, device_service.rs).
    - [FileService.v], [FileServiceProps.v] (services/file_service.rs): the file
      service with its contents cache, over any storage.
    - [VersionService.v] (services/version_service.rs): history and restoring.
    - [Auth.v] (auth/oauth.rs, auth/token.rs): verification of tokens.  [OAuth.v]
      (auth/oauth.rs): the exchange of a code, the account and token of a log-in.
    - [AuthHandlers.v], [AuthHandlersProps.v] (handlers/auth_handler.rs,
      handlers/oauth.rs, services/auth_service.rs, the sessions of app_state.rs):
      log-in, status, registration and callback requests, over sessions behind a
      lock that a panic poisons.
    - [Domain.v], [DomainProps.v] (domain/): entities with their event logs, value
      objects, conflict resolution and priorities, the event dispatcher.
    - [EventBus.v] (server/event_bus.rs, bin/rabbit_consumer.rs): topics, messages,
      and the consumer's decisions for each delivery.
    - [MySql.v], [MySqlFile.v], [MySqlWatcher.v], [MySqlVersions.v] (storage/mysql*.rs)
      and [MySqlProps.v], [MySqlWatcherProps.v]: the database storage.  A table is the
      list of its rows, [Db] the record of the tables, and [Conn] adds the number of
      the next statement; [exec], [query] and [transaction] are the statements,
      which fail where a fault oracle says.
    - [FileStore.v], [FileStoreProps.v] (storage/file_storage.rs): the two contents
      storages behind one trait ([ContentStore]); S3 itself is the class [S3Api] with its
      laws in [S3Laws], and [fs_allowed] the specification both storages are compared
      with.
    - [Schema.v], [SchemaProps.v] (storage/mysql.rs): creation and migration of the
      tables as statements on a description of columns, indexes and foreign keys.
    - [MySqlServer.v], [MySqlServerProps.v] (impl Storage of storage/mysql.rs): the MySQL
      storage as an instance of the interface, so that services, handlers and streams
      run on it, and what every request preserves.  [Interleave.v]: requests for keys,
      log-ins and changes of keys (services/encryption_service.rs, auth/oauth.rs,
      storage/mysql_file.rs) as programs of statements that run interleaved.
    - [Config.v], [ConfigProps.v] (config/): the settings and where each value comes
      from, over a sequence of requests to Secrets Manager.
    - [Startup.v], [StartupProps.v] (main.rs, server/startup.rs, container/, the
      constructors of app_state.rs and the factories of storage/mod.rs): the ways a
      server is started, on the record [Process] of what is global to the process.
    - [Http.v] (handlers/health.rs, metrics.rs, api.rs, the routes of startup.rs).
    - [Lifecycle.v], [LifecycleProps.v] (server/common/, server/components/): the
      service manager over a class of components, and the server as such a component.
    - [Monitor.v] (monitoring.rs): the performance counters.  [Registry.v]
      (container/registry.rs): shared services and their factories.
    - [FileHandlers.v], [FileHandlersProps.v] (handlers/file/,
      handlers/file_handler.rs, utils/response.rs): the six file requests.  [WatchPath.v]:
      whether an uploaded file lies in the folder of its watcher.
    - [ServerState.v] (server/app_state.rs, connection_handler.rs): creation of
      watchers, watcher broadcasts, loss and recovery of a connection.
    - [Subscriptions.v], [SubscriptionsProps.v] (server/service.rs): the streams,
      the initial transfer of pending files, the timer and the monitor.
    - [DeviceHandlers.v] (handlers/device_handler.rs, sync_handler.rs): the device,
      key, history and restore requests.
    - [WatcherHandlers.v], [WatcherHandlersProps.v] (handlers/watcher_handler.rs,
      utils/auth.rs): the requests on watcher groups and presets, and the combined
      synchronisation of a configuration.

    - [Service.v], [ServiceProps.v] (server/service.rs): the methods of the two gRPC
      services as one inductive type of requests, served on the state all handlers
      share.  [StorageInvariant.v]: the assertions on the storage that every request
      preserves, against the class [StorageInvariant] of what the operations of the
      trait preserve, and its instances for the in-memory storage.
    - [Middleware.v], [Plugins.v] (abstractions/): the middleware pipeline and the plugin
      manager.  The directory is not declared in lib.rs, so that no server runs them.

    ** How the code is modelled

    A mutable structure behind a mutex or a concurrent map is a value passed
    through its operations; each method runs to completion under its lock, and
    where the source releases the lock between a look-up and a store the
    interleaving is written out ([create_after_miss]).  Integers are [Z] with the
    wrap-around of a release build where the source computes; strings are byte
    strings.  The clock, random draws and identifiers are arguments, in the order
    the code reads them.  A hash map is iterated in an order given by [HashIter],
    of which only the set of entries is known.  Logging is left out, except where
    a log line can panic.  Library code is a parameter: the hash, cipher and
    encodings ([CryptoApi]), Unicode case mapping ([Unicode]), the range of chrono
    dates ([Chrono]), the regex crate, the authentication server, the openness of
    a channel, the order in which concurrent look-ups complete, the contents storage
    ([FileStorage]); the MySQL branch of [ensure_server_ids_for_upload] is one for the
    handlers, defined in MySqlServer.v.  For the log-in these are the answers of the provider and the JSON parser ([LoginEnv]); for
    the database the collation ([Collation]), the decoding of columns ([Utf8],
    [FileColumns], [WatcherColumns], [Sqlx]), the numbers of new rows ([auto_id]), what
    other connections commit during a wait, and which statements fail; for the schema
    also whether TEXT columns take defaults; for the configuration the environment, the
    answers of Secrets Manager, JSON and hexadecimal texts; for the start-up which
    connections are refused, the broker, the parsers of URLs and socket addresses and how
    the servers end; for the consumer whether a text is JSON.  Every assumption on them
    is met by a concrete instance in the examples.

    ** What the theorems show

    - The whole service: every sequence of requests keeps the storage well formed, on
      the in-memory storage as on the MySQL storage with failing statements, a client without a live token learns nothing and changes nothing through the
      requests that insist on one, and only a log-in gives out tokens.
    - Storage: every reachable state is well formed; deletion respects owners;
      watchers, groups and conditions are created, replaced and removed as a
      whole.
    - File service: on the in-memory storage the cache agrees with the stored contents
      and reading through it is reading without it, but for contents written past it
      ([store_file_data_stale]); a stored file is read back, a deleted one is not found,
      and the right devices hear of either.
    - Notifications: exactly the open channels of the account, less the source,
      receive a broadcast, and the receiver can decrypt its metadata; over bounded
      channels a broadcast does the same while there is room, whatever else goes on, and one
      client that does not read stops all broadcasts of file updates until the one that
      waits for it is cancelled.
    - Keys: however requests, log-ins and changes overlap, an account has one key at
      most, and it was there or was made for this account by one of them; once it is
      there the requests agree on it.  Two first requests need not.
    - Versions: restoring adds one row with the newest revision to the database, the
      history is the newest versions in the time range.
    - Requests and streams: no file, key or version request and no stream does
      anything without a live token; an upload is stored for the account of the
      token and a listing holds exactly the files of the group from other devices (on the
      in-memory storage); an initial transfer announces exactly the pending files, when they fit
      the channel; a monitored subscriber is dropped after three failed pings.
    - Watcher requests: the group requests of an account leave the groups of the
      others alone, presets are read back as stored, and a synchronisation always
      answers with counters and conflicts that agree.
    - Log-in: the session table runs the log-in protocol of every device whatever the
      interleaving, a device whose user logged in receives the token and the key of the
      account, and a status answer only hands out what a log-in put there.
    - Database: whatever statements fail, a write is applied whole or not at all, and
      what succeeds is what would have been done without failures; a stored file is
      read back whether or not it is encrypted, the watcher tables stay consistent
      under every request, failure and work of other connections, the numbers of client and server translate
      into each other, and the encryption of old rows keeps their texts.
    - Contents: S3 behind its cells answers like a plain map of contents, through every
      failure, and in S3 as in the database confirmed contents are read back.  Schema: a migration
      that runs to its end has added every column.
    - Configuration and start-up: sizes are read exactly, an outage of Secrets Manager
      leaves the environment, a server that the legacy way has run is within the
      documented bounds, and which databases and which key a server works with.
    - Managed components: every running task of a service has a handle, whatever fails
      and however often it is restarted, but for two tasks for each start of a service that
      was not stopped; the histories are windows of what was recorded.
    - Consumer and domain layer: every delivery is acknowledged once and published
      at most once; the event log of an account determines its state.
    - Abstractions: a pipeline runs its members in the stable order of their priorities
      and lets nobody past the guard of the protected paths without an accepted token;
      the dependencies of every loaded plugin are loaded, and none is left half started.
    - Limits of the code: theorems such as [initial_transfer_blocks],
      [transfer_watermark_skips], [stale_timeout_unsubscribes],
      [delete_file_notifies], [download_any_owner],
      [unauthenticated_group_deletion], [sync_changes_foreign_group],
      [callback_takes_over_account], [stateless_callback_completes_all],
      [retried_message_is_lost], [mysql_encrypted_versions_pile_up],
      [mysql_watcher_resent], [preset_account_unreadable],
      [generated_key_metadata_in_clear], [fresh_database_refuses_inserts],
      [failed_bucket_check_is_final], [started_server_has_no_key],
      [container_databases], [readiness_is_never_answered],
      [second_start_leaks_tasks], [restarts_pile_up_tasks],
      [concurrent_gets_create_twice], [first_requests_disagree], [failed_lookup_replaces_key],
      [stalled_client_stops_all] and [anonymous_requests_unlimited] state where it falls short of what it
      means to do.

    ** Fuel and bounds

    Recursion is structural throughout; [chunks] takes the length of the list as
    fuel, which [concat_chunks] shows is enough.  The retry loop of the connection
    handler recurses on its number of attempts, and the loops of a synchronisation
    on the groups and watchers of the request.  The loop that creates an account in
    the database has no bound in the code: [create_account_loop] takes fuel, answers
    [Panicked] when it is used up (the class [World] has the fuel, [account_attempts]), and [create_account_terminates] shows that
    it is enough to have more attempts than statements are left that may fail.  The wait for a group makes fifteen
    attempts ([group_wait_exact]); the shut-down looks at the connections at most a
    hundred and one times, which is the fuel of [shutdown_wait]
    ([shutdown_waits_for_connections]).

    ** Not modelled

    The broker's protocol, HTML pages, logging and its set-up, floating-point rates and
    percentages (the query monitor of storage/mod.rs keeps nothing else but counters), and
    serialisation by serde: input and output, or code of other crates.
    The traits of abstractions/services.rs and of the domain's repositories have no
    implementation; storage/mysql_storage.rs, an earlier storage on an earlier schema, is
    not declared as a module.  The broadcasts of watcher groups and presets wait on their
    channels as those of files do; the bound is modelled for the latter.  Requests to
    the database are interleaved statement by statement for keys and where the code waits
    for another connection.  The interface of the storage has no panics and look-ups do not
    change its state: on the MySQL storage an error stands for a panic of the cipher and
    for an endless creation of an account (the first needs a server with a key,
    [store_file_info_answers], the second a database that fails without end,
    [create_account_answers]), and two look-ups of one method between two updates meet
    the same failures. *)

From stdpp Require Export base gmap strings list fin_maps sorting pretty.
From Stdlib Require Export Ascii ZArith Lia.

#[global] Open Scope Z_scope.

(** ** Results

    [Result<T, E>] of the source. *)

Inductive result (A E : Type) : Type :=
| Ok (a : A)
| Err (e : E).

Arguments Ok {A E} a.
Arguments Err {A E} e.

#[global] Instance Ok_inj {A E} : Inj (=) (=) (@Ok A E).
Proof. by intros ?? [=]. Qed.
#[global] Instance Err_inj {A E} : Inj (=) (=) (@Err A E).
Proof. by intros ?? [=]. Qed.

Definition is_ok {A E} (r : result A E) : bool :=
  match r with Ok _ => true | Err _ => false end.

(** [r?] followed by the rest of the function. *)
Definition res_bind {A B E} (r : result A E) (k : A → result B E) : result B E :=
  match r with Ok a => k a | Err e => Err e end.

(** [r.map_err(f)]. *)
Definition map_err {A E F} (f : E → F) (r : result A E) : result A F :=
  match r with Ok a => Ok a | Err e => Err (f e) end.

Declare Scope rust_scope.
Delimit Scope rust_scope with rust.

(** The boolean comparisons of the source; every type they are used at has a
    decidable equality. *)
Notation "a == b" := (bool_decide (a = b)) (at level 70, no associativity) : rust_scope.
Notation "a != b" := (negb (bool_decide (a = b))) (at level 70, no associativity) : rust_scope.
Notation "x <-? r ; k" := (res_bind r (λ x, k)) (at level 100, r at next level, right associativity) : rust_scope.

#[global] Open Scope rust_scope.

(** ** Machine integers

    A [w]-bit integer is a [Z]; the wrap-around of the release profile
    (Cargo.toml enables overflow checks in the development profile only) is
    written out at every increment. *)

Definition i32_min : Z := - 2 ^ 31.
Definition i32_max : Z := 2 ^ 31 - 1.
Definition i64_min : Z := - 2 ^ 63.
Definition i64_max : Z := 2 ^ 63 - 1.
Definition u64_max : Z := 2 ^ 64 - 1.

Definition wrap_i32 (z : Z) : Z := (z + 2 ^ 31) mod 2 ^ 32 - 2 ^ 31.
Definition wrap_i64 (z : Z) : Z := (z + 2 ^ 63) mod 2 ^ 64 - 2 ^ 63.
Definition wrap_u64 (z : Z) : Z := z mod 2 ^ 64.
Definition wrap_u32 (z : Z) : Z := z mod 2 ^ 32.

Lemma wrap_i32_id z : i32_min ≤ z ≤ i32_max → wrap_i32 z = z.
Proof. unfold wrap_i32, i32_min, i32_max. intros. rewrite Z.mod_small; lia. Qed.

Lemma wrap_i32_range z : i32_min ≤ wrap_i32 z ≤ i32_max.
Proof.
  unfold wrap_i32, i32_min, i32_max.
  pose proof (Z.mod_pos_bound (z + 2 ^ 31) (2 ^ 32)). lia.
Qed.

Lemma wrap_i64_id z : i64_min ≤ z ≤ i64_max → wrap_i64 z = z.
Proof. unfold wrap_i64, i64_min, i64_max. intros. rewrite Z.mod_small; lia. Qed.

Lemma wrap_i64_range z : i64_min ≤ wrap_i64 z ≤ i64_max.
Proof.
  unfold wrap_i64, i64_min, i64_max.
  pose proof (Z.mod_pos_bound (z + 2 ^ 63) (2 ^ 64)). lia.
Qed.

Lemma wrap_u64_id z : 0 ≤ z ≤ u64_max → wrap_u64 z = z.
Proof. unfold wrap_u64, u64_max. intros. rewrite Z.mod_small; lia. Qed.

Lemma wrap_u64_range z : 0 ≤ wrap_u64 z ≤ u64_max.
Proof.
  unfold wrap_u64, u64_max. pose proof (Z.mod_pos_bound z (2 ^ 64)). lia.
Qed.

Lemma wrap_i32_max_succ : wrap_i32 (i32_max + 1) = i32_min.
Proof. reflexivity. Qed.

(** ** Booleans

    [simplify_bool] turns boolean guards of the source into propositions. *)

Create Rewrite HintDb rust_bool.
#[export] Hint Rewrite andb_true_iff orb_true_iff negb_true_iff negb_false_iff
  andb_false_iff orb_false_iff
  bool_decide_eq_true bool_decide_eq_false
  Z.ltb_lt Z.ltb_ge Z.leb_le Z.leb_gt Z.eqb_eq Z.eqb_neq : rust_bool.

Ltac simplify_bool :=
  repeat match goal with
  | H : _ && _ = true |- _ => apply andb_true_iff in H as [? ?]
  | H : _ || _ = false |- _ => apply orb_false_iff in H as [? ?]
  end;
  autorewrite with rust_bool in *; destruct_and?; simplify_eq/=.

(** Case analysis on the scrutinee of a [match] or [if] of the goal. *)
Ltac step_case :=
  match goal with
  | |- context [match ?x with _ => _ end] => destruct x eqn:?; simplify_eq/=
  end.

(** ** Hash maps

    A [HashMap<K, V>] is a finite map together with an iteration order the
    language leaves unspecified: [hm_iter] is any function that lists every
    entry exactly once, and every result about a loop over a map is proved for
    all of them. *)

Class HashIter := {
  hm_iter : ∀ {K : Type} `{Countable K} {V : Type}, gmap K V → list (K * V);
  hm_iter_perm : ∀ {K : Type} `{Countable K} {V : Type} (m : gmap K V),
    hm_iter m ≡ₚ map_to_list m
}.

(** One admissible order, for evaluation. *)
Definition canonical_iter : HashIter :=
  {| hm_iter K _ _ V m := map_to_list m;
     hm_iter_perm K _ _ V m := Permutation_refl _ |}.

Section hash_map.
Context `{HI : HashIter} {K : Type} `{Countable K} {V : Type}.
Implicit Types (m : gmap K V) (k : K) (v : V) (P : K → V → bool).

(** [m.values()] and [m.keys()]. *)
Definition hm_values m : list V := (hm_iter m).*2.
Definition hm_keys m : list K := (hm_iter m).*1.

(** A [for (k, v) in &m { if P { return Some(..) } }] loop. *)
Definition hm_find P m : option (K * V) :=
  List.find (λ kv, P kv.1 kv.2) (hm_iter m).

(** [m.iter().filter(P)], and its projections to keys and values. *)
Definition hm_filter P m : list (K * V) :=
  List.filter (λ kv, P kv.1 kv.2) (hm_iter m).
Definition hm_filter_values (Q : V → bool) m : list V :=
  List.filter Q (hm_values m).
Definition hm_filter_keys P m : list K := (hm_filter P m).*1.

(** [for k in ks { m.remove(&k); }]. *)
Definition hm_remove_all (ks : list K) m : gmap K V :=
  foldl (λ acc k, delete k acc) m ks.

(** [m.retain(P)]. *)
Definition hm_retain P m : gmap K V :=
  filter (λ kv : K * V, P kv.1 kv.2 = true) m.

(** [m.contains_key(&k)]. *)
Definition hm_contains k m : bool := bool_decide (is_Some (m !! k)).

Lemma elem_of_hm_iter m k v : (k, v) ∈ hm_iter m ↔ m !! k = Some v.
Proof. by rewrite hm_iter_perm, elem_of_map_to_list. Qed.

Lemma hm_iter_length m : length (hm_iter m) = size m.
Proof. rewrite hm_iter_perm. apply length_map_to_list. Qed.

Lemma hm_iter_NoDup_keys m : NoDup (hm_iter m).*1.
Proof. rewrite hm_iter_perm. apply NoDup_fst_map_to_list. Qed.

Lemma hm_iter_NoDup m : NoDup (hm_iter m).
Proof. rewrite hm_iter_perm. apply NoDup_map_to_list. Qed.

Lemma hm_find_Some P m k v :
  hm_find P m = Some (k, v) → m !! k = Some v ∧ P k v = true.
Proof.
  unfold hm_find. intros [Hin HP]%List.find_some.
  by rewrite <-list_elem_of_In, elem_of_hm_iter in Hin.
Qed.

Lemma hm_find_None P m :
  hm_find P m = None ↔ ∀ k v, m !! k = Some v → P k v = false.
Proof.
  unfold hm_find. split.
  - intros HN k v Hk. apply elem_of_hm_iter, list_elem_of_In in Hk.
    apply (List.find_none _ _ HN _ Hk).
  - intros HF. destruct (List.find _ _) as [[k v]|] eqn:E; [|done].
    apply hm_find_Some in E as [E1 E2]. by rewrite (HF _ _ E1) in E2.
Qed.

Lemma hm_find_complete P m k v :
  m !! k = Some v → P k v = true → is_Some (hm_find P m).
Proof.
  intros Hk HP. destruct (hm_find P m) eqn:E; [by eexists|].
  rewrite hm_find_None in E. by rewrite (E _ _ Hk) in HP.
Qed.

Lemma elem_of_hm_filter P m k v :
  (k, v) ∈ hm_filter P m ↔ m !! k = Some v ∧ P k v = true.
Proof.
  unfold hm_filter. rewrite list_elem_of_In, filter_In, <-list_elem_of_In.
  by rewrite elem_of_hm_iter.
Qed.

Lemma elem_of_hm_filter_keys P m k :
  k ∈ hm_filter_keys P m ↔ ∃ v, m !! k = Some v ∧ P k v = true.
Proof.
  unfold hm_filter_keys. rewrite list_elem_of_fmap. split.
  - intros ([k' v] & -> & Hin). apply elem_of_hm_filter in Hin. eauto.
  - intros (v & Hk). exists (k, v). by rewrite elem_of_hm_filter.
Qed.

Lemma elem_of_hm_values m v : v ∈ hm_values m ↔ ∃ k, m !! k = Some v.
Proof.
  unfold hm_values. rewrite list_elem_of_fmap. split.
  - intros ([k v'] & -> & Hin). apply elem_of_hm_iter in Hin. eauto.
  - intros (k & Hk). exists (k, v). by rewrite elem_of_hm_iter.
Qed.

Lemma elem_of_hm_filter_values Q m v :
  v ∈ hm_filter_values Q m ↔ (∃ k, m !! k = Some v) ∧ Q v = true.
Proof.
  unfold hm_filter_values. rewrite list_elem_of_In, filter_In, <-list_elem_of_In.
  by rewrite elem_of_hm_values.
Qed.

(** When every value names its own key, values are listed once. *)
Lemma hm_filter_values_NoDup (key : V → K) Q m :
  (∀ k v, m !! k = Some v → key v = k) → NoDup (hm_filter_values Q m).
Proof.
  intros Hkey. unfold hm_filter_values, hm_values.
  apply NoDup_ListNoDup, List.NoDup_filter, NoDup_ListNoDup.
  apply (NoDup_fmap_1 key). rewrite <-list_fmap_compose.
  replace ((key ∘ snd) <$> hm_iter m) with (hm_iter m).*1.
  { apply hm_iter_NoDup_keys. }
  apply list_fmap_ext. intros i [k v] Hi; simpl. symmetry. apply Hkey.
  apply elem_of_hm_iter, list_elem_of_lookup. eauto.
Qed.

Lemma lookup_hm_remove_all ks m k :
  hm_remove_all ks m !! k = if bool_decide (k ∈ ks) then None else m !! k.
Proof.
  unfold hm_remove_all. revert m.
  induction ks as [|k' ks IH]; intros m.
  { by rewrite bool_decide_eq_false_2 by apply not_elem_of_nil. }
  cbn [foldl]. rewrite IH, lookup_delete.
  destruct (decide (k ∈ ks)) as [Hin|Hin], (decide (k' = k)) as [->|Hne];
    rewrite ?(bool_decide_eq_true_2 (k ∈ ks)), ?(bool_decide_eq_false_2 (k ∈ ks)) by done.
  - by rewrite bool_decide_eq_true_2 by (by left).
  - by rewrite bool_decide_eq_true_2 by (by right).
  - by rewrite bool_decide_eq_true_2 by (by left).
  - rewrite bool_decide_eq_false_2; [done|]. by intros [?|?]%elem_of_cons.
Qed.

(** Properties of all entries survive the removals. *)
Lemma map_Forall_remove_all (Q : K → V → Prop) ks m :
  map_Forall Q m → map_Forall Q (hm_remove_all ks m).
Proof.
  intros HQ k v. rewrite lookup_hm_remove_all. case_bool_decide; [done|]. apply HQ.
Qed.

Lemma lookup_hm_retain_Some P m k v :
  hm_retain P m !! k = Some v ↔ m !! k = Some v ∧ P k v = true.
Proof. unfold hm_retain. by rewrite map_lookup_filter_Some. Qed.

Lemma lookup_hm_retain P m k :
  hm_retain P m !! k =
    match m !! k with Some v => if P k v then Some v else None | None => None end.
Proof.
  apply option_eq. intros v. rewrite lookup_hm_retain_Some.
  destruct (m !! k) as [v'|]; [|by split; [intros []|]].
  destruct (P k v') eqn:E; (split; [intros [? ?]|intros ?]); split_and?; congruence.
Qed.

Lemma hm_contains_true k m : hm_contains k m = true ↔ ∃ v, m !! k = Some v.
Proof. unfold hm_contains. by rewrite bool_decide_eq_true. Qed.

Lemma hm_contains_false k m : hm_contains k m = false ↔ m !! k = None.
Proof. unfold hm_contains. by rewrite bool_decide_eq_false, eq_None_not_Some. Qed.

(** The number of values a loop counts does not depend on the order. *)
Lemma hm_filter_values_perm Q m :
  hm_filter_values Q m ≡ₚ List.filter Q (map_to_list m).*2.
Proof.
  unfold hm_filter_values, hm_values. generalize (hm_iter_perm m).
  intros Hp. induction Hp; simpl; repeat case_match; econstructor; eauto.
Qed.

End hash_map.

(** ** Lists *)

Lemma elem_of_mapM_Some {A B} (f : A → option B) l k y :
  mapM f l = Some k → y ∈ k ↔ ∃ x, x ∈ l ∧ f x = Some y.
Proof.
  intros Hm%mapM_Some. split.
  - intros [i Hi]%list_elem_of_lookup. destruct (Forall2_lookup_r _ _ _ _ _ Hm Hi) as (x & Hx & ?).
    exists x. split; [|done]. by eapply list_elem_of_lookup_2.
  - intros (x & [i Hi]%list_elem_of_lookup & Hx). destruct (Forall2_lookup_l _ _ _ _ _ Hm Hi) as (y' & Hy & ?).
    simplify_eq. by eapply list_elem_of_lookup_2.
Qed.

Lemma list_fmap_id_ext {A} (f : A → A) (l : list A) : (∀ x, f x = x) → f <$> l = l.
Proof. intros Hf. induction l as [|x l IH]; [done|]. cbn. by rewrite Hf, IH. Qed.

Lemma filter_length_le {A} (Q : A → bool) l : (length (List.filter Q l) ≤ length l)%nat.
Proof. induction l as [|x l IH]; cbn; [lia|]. destruct (Q x); cbn; lia. Qed.

(** [m.keys().max().map_or(1, |id| id + 1)] on [i32] keys. *)
Definition next_key_i32 `{HashIter} {V} (m : gmap Z V) : Z :=
  match hm_keys m with
  | [] => 1
  | k :: ks => wrap_i32 (foldl Z.max k ks + 1)
  end.

Lemma foldl_max_spec (ks : list Z) (a : Z) :
  a ≤ foldl Z.max a ks ∧ (∀ k, k ∈ ks → k ≤ foldl Z.max a ks) ∧
  (foldl Z.max a ks = a ∨ foldl Z.max a ks ∈ ks).
Proof.
  revert a. induction ks as [|k ks IH]; intros a; simpl.
  { split_and!; [lia|set_solver|auto]. }
  destruct (IH (Z.max a k)) as (H1 & H2 & H3). split_and!; [lia|..].
  - intros k' [->|Hk]%elem_of_cons; [lia|auto].
  - destruct H3 as [H3|H3]; [|set_solver].
    rewrite H3. destruct (Z.max_spec a k) as [[? ->]|[? ->]]; set_solver.
Qed.

(** The allocated key is above every key in use, as long as the counter has
    not reached [i32::MAX]. *)
Lemma next_key_i32_above `{HashIter} {V} (m : gmap Z V) :
  (∀ k v, m !! k = Some v → i32_min ≤ k < i32_max) →
  ∀ k v, m !! k = Some v → k < next_key_i32 m.
Proof.
  intros Hr k v Hk. unfold next_key_i32, hm_keys.
  destruct (hm_iter m).*1 as [|k0 ks] eqn:E.
  { apply elem_of_hm_iter, (list_elem_of_fmap_2 fst) in Hk. rewrite E in Hk. set_solver. }
  destruct (foldl_max_spec ks k0) as (H1 & H2 & H3).
  assert (Hin : ∀ k', k' ∈ k0 :: ks → i32_min ≤ k' < i32_max).
  { intros k'. rewrite <-E, list_elem_of_fmap. intros ([? v'] & -> & Hv).
    apply elem_of_hm_iter in Hv. eauto. }
  assert (k ∈ k0 :: ks) as Hkin.
  { rewrite <-E. by apply elem_of_hm_iter, (list_elem_of_fmap_2 fst) in Hk. }
  assert (i32_min ≤ foldl Z.max k0 ks < i32_max) by (apply Hin; set_solver).
  assert (k ≤ foldl Z.max k0 ks) by (apply elem_of_cons in Hkin as [->|]; auto).
  rewrite wrap_i32_id; lia.
Qed.

Lemma next_key_i32_range `{HashIter} {V} (m : gmap Z V) :
  i32_min ≤ next_key_i32 m ≤ i32_max.
Proof.
  unfold next_key_i32. case_match; [vm_compute; split; discriminate|apply wrap_i32_range].
Qed.

(** Enough for freshness: no overflow has been reached. *)
Lemma next_key_i32_fresh `{HashIter} {V} (m : gmap Z V) :
  (∀ k v, m !! k = Some v → i32_min ≤ k < i32_max) → m !! next_key_i32 m = None.
Proof.
  intros Hr. destruct (m !! next_key_i32 m) as [v|] eqn:E; [|done].
  pose proof (next_key_i32_above m Hr _ _ E). lia.
Qed.
