(* ===== verification/RustString.v ===== *)
(** * Strings of the Rust standard library

    A [String] or [&str] is the list of its UTF-8 bytes, a [string] of [ascii].
    This file models the methods the server calls on strings ([starts_with],
    [ends_with], [contains], [find], [split], [join], [trim], slicing,
    [to_lowercase]) and the ["account:device"] keys that several components
    build with [format!]. *)

From S2P Require Import Prelude.

#[global] Open Scope string_scope.
#[global] Open Scope Z_scope.
#[global] Arguments String.append : simpl nomatch.

(** [s.len()]: the number of bytes. *)
Definition str_len (s : string) : Z := Z.of_nat (String.length s).

(** [s.is_empty()]. *)
Definition str_is_empty (s : string) : bool :=
  match s with EmptyString => true | String _ _ => false end.

(** [s.starts_with(p)] for a string pattern. *)
Fixpoint starts_with (p s : string) : bool :=
  match p, s with
  | EmptyString, _ => true
  | String a p', String b s' => bool_decide (a = b) && starts_with p' s'
  | String _ _, EmptyString => false
  end.

(** [s.ends_with(p)] for a string pattern. *)
Fixpoint ends_with (p s : string) : bool :=
  bool_decide (s = p) ||
  match s with EmptyString => false | String _ s' => ends_with p s' end.

(** [s.contains(p)] for a string pattern. *)
Fixpoint str_contains (p s : string) : bool :=
  starts_with p s ||
  match s with EmptyString => false | String _ s' => str_contains p s' end.

(** [s.contains(c)] for an ASCII character. *)
Fixpoint contains_char (c : ascii) (s : string) : bool :=
  match s with
  | EmptyString => false
  | String a s' => bool_decide (a = c) || contains_char c s'
  end.

(** [s.find(c)]: the byte offset of the first occurrence. *)
Fixpoint find_char (c : ascii) (s : string) : option nat :=
  match s with
  | EmptyString => None
  | String a s' => if bool_decide (a = c) then Some O else S <$> find_char c s'
  end.

(** [&s[n..]]. *)
Fixpoint str_drop (n : nat) (s : string) : string :=
  match n, s with
  | S n', String _ s' => str_drop n' s'
  | _, _ => s
  end.

(** [s.chars().all(p)] for a predicate that is false outside ASCII. *)
Fixpoint str_all (p : ascii → bool) (s : string) : bool :=
  match s with
  | EmptyString => true
  | String a s' => p a && str_all p s'
  end.

(** [s.split(c)]: always at least one piece. *)
Fixpoint split_char (c : ascii) (s : string) : list string :=
  match s with
  | EmptyString => [""]
  | String a s' =>
      if bool_decide (a = c) then "" :: split_char c s'
      else match split_char c s' with
           | w :: ws => String a w :: ws
           | [] => [String a ""]
           end
  end.

(** [v.join(sep)]. *)
Fixpoint str_join (sep : string) (v : list string) : string :=
  match v with
  | [] => ""
  | [w] => w
  | w :: ws => w +:+ sep +:+ str_join sep ws
  end.

(** ASCII classes. *)
Definition byte_val (a : ascii) : Z := Z.of_nat (Ascii.nat_of_ascii a).
Definition in_range (lo hi : Z) (a : ascii) : bool := (lo <=? byte_val a) && (byte_val a <=? hi).
Definition is_ascii_digit (a : ascii) : bool := in_range 48 57 a.
Definition is_ascii_hexdigit (a : ascii) : bool :=
  in_range 48 57 a || in_range 65 70 a || in_range 97 102 a.
Definition is_ascii_alphanumeric (a : ascii) : bool :=
  in_range 48 57 a || in_range 65 90 a || in_range 97 122 a.
Definition is_ascii_byte (a : ascii) : bool := byte_val a <? 128.

(** The UTF-8 encodings, one to three bytes long, of the characters with the
    Unicode property White_Space, which [trim] removes. *)
Definition ws1 (a : ascii) : bool := in_range 9 13 a || (byte_val a =? 32).
Definition ws2 (a b : ascii) : bool :=
  (byte_val a =? 194) && ((byte_val b =? 133) || (byte_val b =? 160)).
Definition ws3 (a b c : ascii) : bool :=
  ((byte_val a =? 225) && (byte_val b =? 154) && (byte_val c =? 128))
  || ((byte_val a =? 226) && (byte_val b =? 128)
      && (in_range 128 138 c || (byte_val c =? 168) || (byte_val c =? 169) || (byte_val c =? 175)))
  || ((byte_val a =? 226) && (byte_val b =? 129) && (byte_val c =? 159))
  || ((byte_val a =? 227) && (byte_val b =? 128) && (byte_val c =? 128)).

(** [s.trim_start()]. *)
Fixpoint trim_start (s : string) : string :=
  match s with
  | EmptyString => EmptyString
  | String a s1 =>
      if ws1 a then trim_start s1 else
      match s1 with
      | EmptyString => s
      | String b s2 =>
          if ws2 a b then trim_start s2 else
          match s2 with
          | EmptyString => s
          | String c s3 => if ws3 a b c then trim_start s3 else s
          end
      end
  end.

(** [s.trim_end()]: cut at the first position from which only white space is
    left. *)
Fixpoint trim_end (s : string) : string :=
  match s with
  | EmptyString => EmptyString
  | String a s' => if str_is_empty (trim_start s) then EmptyString else String a (trim_end s')
  end.

(** [s.trim()]. *)
Definition trim (s : string) : string := trim_end (trim_start s).

(** [s.to_lowercase()] follows the Unicode tables; on ASCII it maps A-Z to a-z.
    The table outside ASCII stays a parameter. *)
Definition ascii_lower (a : ascii) : ascii :=
  if in_range 65 90 a then Ascii.ascii_of_nat (Ascii.nat_of_ascii a + 32) else a.
Fixpoint str_map (f : ascii → ascii) (s : string) : string :=
  match s with EmptyString => EmptyString | String a s' => String (f a) (str_map f s') end.

Class Unicode := {
  to_lowercase : string → string;
  to_lowercase_ascii : ∀ s, str_all is_ascii_byte s = true →
    to_lowercase s = str_map ascii_lower s
}.
Definition ascii_unicode : Unicode :=
  {| to_lowercase := str_map ascii_lower; to_lowercase_ascii s _ := eq_refl |}.

(** ["{a}:{b}"]: the key of devices, connections and subscribers. *)
Definition pair_key (a b : string) : string := a +:+ ":" +:+ b.

(** ** Facts about append, prefixes and suffixes *)

Lemma app_str_nil_r s : s +:+ "" = s.
Proof. induction s as [|a s IH]; [done|]. cbn. by rewrite IH. Qed.

Lemma app_str_assoc s t u : (s +:+ t) +:+ u = s +:+ t +:+ u.
Proof. induction s as [|a s IH]; [done|]. cbn. by rewrite IH. Qed.

Lemma app_str_inv_l s t u : s +:+ t = s +:+ u → t = u.
Proof. apply (inj (String.append s)). Qed.

Lemma length_app_str s t : String.length (s +:+ t) = (String.length s + String.length t)%nat.
Proof. induction s as [|a s IH]; [done|]. cbn. by rewrite IH. Qed.

Lemma app_str_eq_inv_len s1 s2 t1 t2 :
  String.length s1 = String.length s2 → s1 +:+ t1 = s2 +:+ t2 → s1 = s2 ∧ t1 = t2.
Proof.
  revert s2. induction s1 as [|a s1 IH]; intros [|b s2] Hl Heq; simplify_eq/=; [done|].
  destruct (IH s2) as [-> ->]; auto.
Qed.

Lemma starts_with_spec p s : starts_with p s = true ↔ ∃ t, s = p +:+ t.
Proof.
  revert s. induction p as [|a p IH]; intros s; cbn; [naive_solver|].
  destruct s as [|b s]; [naive_solver|].
  rewrite andb_true_iff, bool_decide_eq_true, IH. naive_solver.
Qed.

Lemma ends_with_spec p s : ends_with p s = true ↔ ∃ t, s = t +:+ p.
Proof.
  induction s as [|a s IH]; cbn; rewrite orb_true_iff, bool_decide_eq_true.
  - split; [intros [<-|]; [by exists ""|done]|]. intros [[|? t] Ht]; simplify_eq/=; by left.
  - rewrite IH. split.
    + intros [<-|[t ->]]; [by exists ""|by exists (String a t)].
    + intros [[|b t] Ht]; simplify_eq/=; [by left|right; eauto].
Qed.

Lemma starts_with_app p t : starts_with p (p +:+ t) = true.
Proof. apply starts_with_spec. eauto. Qed.

Lemma str_contains_app p s t : str_contains p (s +:+ p +:+ t) = true.
Proof.
  induction s as [|a s IH]; cbn.
  - destruct (p +:+ t) eqn:E; cbn; by rewrite <-E, starts_with_app.
  - by rewrite IH, orb_true_r.
Qed.

Lemma contains_char_app c s t :
  contains_char c (s +:+ t) = contains_char c s || contains_char c t.
Proof. induction s as [|a s IH]; cbn; [done|]. by rewrite IH, orb_assoc. Qed.

Lemma find_char_None c s : find_char c s = None ↔ contains_char c s = false.
Proof.
  induction s as [|a s IH]; cbn; [done|]. case_bool_decide; cbn; [done|].
  by rewrite fmap_None.
Qed.

(** The found offset splits the string at the first occurrence. *)
Lemma find_char_Some c s n :
  find_char c s = Some n →
  ∃ p t, s = p +:+ String c t ∧ str_drop n s = String c t ∧ contains_char c p = false.
Proof.
  revert n. induction s as [|a s IH]; intros n; cbn; [done|].
  case_bool_decide as Ha; [intros ?; simplify_eq; by exists "", s|].
  intros (n' & Hn & ->)%fmap_Some. destruct (IH _ Hn) as (p & t & -> & Hd & Hp).
  exists (String a p), t. cbn. by rewrite bool_decide_eq_false_2.
Qed.

(** ** Splitting and joining *)

Lemma split_char_nonempty c s : split_char c s ≠ [].
Proof. destruct s; cbn; repeat case_match; done. Qed.

Lemma str_join_cons sep w ws : ws ≠ [] → str_join sep (w :: ws) = w +:+ sep +:+ str_join sep ws.
Proof. by destruct ws. Qed.

Lemma join_split c s : str_join (String c "") (split_char c s) = s.
Proof.
  induction s as [|a s IH]; cbn; [done|]. pose proof (split_char_nonempty c s) as Hne.
  case_bool_decide as Ha.
  - rewrite str_join_cons by done. cbn. by rewrite IH, Ha.
  - destruct (split_char c s) as [|w [|w' ws]] eqn:E; [done| |].
    + by rewrite <-IH.
    + rewrite str_join_cons in IH |- * by done. by rewrite <-IH.
Qed.

Lemma split_char_none c s : contains_char c s = false → split_char c s = [s].
Proof.
  induction s as [|a s IH]; cbn; [done|]. case_bool_decide; [done|]. intros Hs.
  by rewrite IH.
Qed.

Lemma split_char_app c s t :
  contains_char c s = false → split_char c (s +:+ String c t) = s :: split_char c t.
Proof.
  induction s as [|a s IH]; cbn; [by rewrite bool_decide_eq_true_2|].
  case_bool_decide; [done|]. intros Hs. by rewrite IH.
Qed.

Lemma split_char_pieces c s w : w ∈ split_char c s → contains_char c w = false.
Proof.
  revert w. induction s as [|a s IH]; intros w; cbn; [set_solver|].
  pose proof (split_char_nonempty c s). case_bool_decide as Ha.
  - intros [->|Hw]%elem_of_cons; auto.
  - destruct (split_char c s) as [|w' ws]; [done|].
    intros [->|Hw]%elem_of_cons; [|apply IH; by right].
    cbn. rewrite bool_decide_eq_false_2 by done. apply IH. by left.
Qed.

(** ** Keys *)

Lemma split_pair_key a b :
  contains_char ":" a = false → contains_char ":" b = false →
  split_char ":" (pair_key a b) = [a; b].
Proof. intros Ha Hb. unfold pair_key. cbn. by rewrite split_char_app, split_char_none. Qed.

(** A key determines the pair when the account part has no colon: account
    hashes are hexadecimal digests. *)
Lemma pair_key_inj a a' b b' :
  contains_char ":" a = false → contains_char ":" a' = false →
  pair_key a b = pair_key a' b' → a = a' ∧ b = b'.
Proof.
  unfold pair_key. cbn. intros Ha Ha' Heq.
  apply (f_equal (split_char ":")) in Heq as Hs. rewrite !split_char_app in Hs by done.
  injection Hs as -> _. apply app_str_inv_l in Heq. by simplify_eq.
Qed.

(** [key.starts_with("{a}:")] selects exactly the keys of account [a]. *)
Lemma starts_with_pair_key a a' b :
  contains_char ":" a = false → contains_char ":" a' = false →
  starts_with (a +:+ ":") (pair_key a' b) = true ↔ a = a'.
Proof.
  intros Ha Ha'. rewrite starts_with_spec. split.
  - intros [t Ht]. rewrite app_str_assoc in Ht. cbn in Ht.
    by destruct (pair_key_inj a' a b t) as [-> _].
  - intros <-. exists b. by rewrite app_str_assoc.
Qed.

(** [key.ends_with(":{d}")] selects exactly the keys of device [d]. *)
Lemma ends_with_pair_key a b d :
  contains_char ":" b = false → contains_char ":" d = false →
  ends_with (":" +:+ d) (pair_key a b) = true ↔ b = d.
Proof.
  intros Hb Hd. rewrite ends_with_spec. split; [|intros ->; eexists; reflexivity].
  unfold pair_key. cbn. intros [t Ht].
  enough (Hgen : ∀ x y, x +:+ String ":" b = y +:+ String ":" d → b = d) by eauto.
  clear t Ht. intros x. induction x as [|c x IH]; intros [|e y] Heq; simplify_eq/=; [done|..].
  - by rewrite contains_char_app, orb_true_r in Hb.
  - by rewrite contains_char_app, orb_true_r in Hd.
  - eauto.
Qed.

(** ** Trimming *)

(** The white-space encodings form a prefix code, so trimming a concatenation
    starts with trimming its first part. *)
Lemma trim_start_app p w : trim_start p = "" → trim_start (p +:+ w) = trim_start w.
Proof.
  remember (String.length p) as n eqn:Hn. assert (String.length p ≤ n)%nat as Hle by lia.
  clear Hn. revert p Hle. induction n as [|n IH]; intros p Hle; destruct p as [|a p];
    cbn in Hle; try lia; [done|done|].
  cbn. destruct (ws1 a); [intros; apply IH; auto; lia|].
  destruct p as [|b p]; [done|]. cbn in *. destruct (ws2 a b); [intros; apply IH; auto; lia|].
  destruct p as [|c p]; [done|]. cbn in *. destruct (ws3 a b c); [intros; apply IH; auto; lia|done].
Qed.

Lemma trim_end_decomp s : ∃ w, s = trim_end s +:+ w ∧ trim_start w = "".
Proof.
  induction s as [|a s [w [IH Hw]]]; [by exists ""|].
  cbn [trim_end]. destruct (str_is_empty (trim_start (String a s))) eqn:E.
  - exists (String a s). by destruct (trim_start (String a s)).
  - exists w. cbn. by rewrite <-IH.
Qed.

Lemma trim_start_trim_end s : trim_start (trim_end s) = "" → trim_start s = "".
Proof.
  destruct (trim_end_decomp s) as (w & Heq & Hw). intros Hp.
  rewrite Heq, trim_start_app; auto.
Qed.

Lemma trim_end_idem s : trim_end (trim_end s) = trim_end s.
Proof.
  induction s as [|a s IH]; [done|]. cbn [trim_end].
  destruct (str_is_empty (trim_start (String a s))) eqn:E; [done|]. cbn [trim_end].
  destruct (str_is_empty (trim_start (String a (trim_end s)))) eqn:E'; [|by rewrite IH].
  assert (Hx : trim_end (String a s) = String a (trim_end s)) by (cbn [trim_end]; by rewrite E).
  rewrite <-Hx in E'. destruct (trim_start (trim_end (String a s))) eqn:E2; [|done].
  apply trim_start_trim_end in E2. by rewrite E2 in E.
Qed.

Lemma trim_end_suffix p s : trim_end (p +:+ s) = p +:+ s → trim_end s = s.
Proof.
  induction p as [|a p IH]; [done|]. cbn [String.append trim_end].
  destruct (str_is_empty _); [done|]. intros Heq. simplify_eq. auto.
Qed.

(** A byte that starts no white-space encoding. *)
Definition solid (a : ascii) : bool :=
  negb (ws1 a) && negb (byte_val a =? 194) && negb (byte_val a =? 225)
  && negb (byte_val a =? 226) && negb (byte_val a =? 227).

Lemma trim_start_solid a s : solid a = true → trim_start (String a s) = String a s.
Proof.
  unfold solid. rewrite !andb_true_iff, !negb_true_iff. intros [[[[H1 H2] H3] H4] H5].
  cbn. rewrite H1. destruct s as [|b s]; [done|]. unfold ws2. rewrite H2. cbn.
  destruct s as [|c s]; [done|]. unfold ws3. by rewrite H3, H4, H5.
Qed.

Lemma trim_end_solid a s : solid a = true → trim_end (String a s) = String a (trim_end s).
Proof. intros Ha. cbn [trim_end]. by rewrite trim_start_solid. Qed.

Lemma trim_solid a s : solid a = true → trim (String a s) = String a (trim_end s).
Proof. intros Ha. unfold trim. by rewrite trim_start_solid, trim_end_solid. Qed.

(** The result of [trim] has no trailing white space left. *)
Lemma trim_end_trim s : trim_end (trim s) = trim s.
Proof. apply trim_end_idem. Qed.

Lemma str_is_empty_true s : str_is_empty s = true ↔ s = "".
Proof. by destruct s. Qed.

Create HintDb rust_str.
#[export] Hint Resolve trim_end_trim trim_end_idem : rust_str.
