(* ===== verification/Errors.v ===== *)
(** * Error values (src/error.rs, the error part of src/storage/mod.rs)

    Every fallible operation of the server returns one of these sums; the
    layers convert between them and into gRPC status codes. *)

From S2P Require Import Prelude RustString.

(** [storage::StorageError]. *)
Inductive StorageError :=
| Database (s : string) | Connection (s : string) | PoolExhausted (s : string)
| QueryTimeout (s : string) | Transaction (s : string) | NotFound (s : string)
| SerializationError (s : string) | DeserializationError (s : string)
| InvalidData (s : string) | NotImplemented (s : string) | General (s : string)
| PermissionDenied (s : string) | ValidationError (s : string)
| ConfigurationError (s : string) | NetworkError (s : string) | S3Error (s : string)
| CacheError (s : string) | NotSupported (s : string) | Internal (s : string).

(** The [Display] texts derived by thiserror. *)
Definition StorageError_fmt (e : StorageError) : string :=
  match e with
  | Database s => "Database error: " +:+ s
  | Connection s => "Connection error: " +:+ s
  | PoolExhausted s => "Connection pool exhausted: " +:+ s
  | QueryTimeout s => "Query timeout: " +:+ s
  | Transaction s => "Transaction error: " +:+ s
  | NotFound s => "Not found: " +:+ s
  | SerializationError s => "Serialization error: " +:+ s
  | DeserializationError s => "Deserialization error: " +:+ s
  | InvalidData s => "Invalid data: " +:+ s
  | NotImplemented s => "Not implemented: " +:+ s
  | General s => "General error: " +:+ s
  | PermissionDenied s => "Permission denied: " +:+ s
  | ValidationError s => "Validation error: " +:+ s
  | ConfigurationError s => "Configuration error: " +:+ s
  | NetworkError s => "Network error: " +:+ s
  | S3Error s => "S3 error: " +:+ s
  | CacheError s => "Cache error: " +:+ s
  | NotSupported s => "Operation not supported: " +:+ s
  | Internal s => "Internal error: " +:+ s
  end.

(** [StorageError::is_retryable]. *)
Definition StorageError_is_retryable (e : StorageError) : bool :=
  match e with
  | Connection _ | PoolExhausted _ | QueryTimeout _ | NetworkError _ => true
  | _ => false
  end.

(** [StorageError::category]. *)
Definition StorageError_category (e : StorageError) : string :=
  match e with
  | Database _ => "database" | Connection _ => "connection" | PoolExhausted _ => "pool"
  | QueryTimeout _ => "timeout" | Transaction _ => "transaction" | NotFound _ => "not_found"
  | SerializationError _ => "serialization" | DeserializationError _ => "deserialization"
  | InvalidData _ => "validation" | PermissionDenied _ => "permission"
  | ValidationError _ => "validation" | ConfigurationError _ => "config"
  | NetworkError _ => "network" | S3Error _ => "s3" | CacheError _ => "cache"
  | NotSupported _ => "not_supported" | Internal _ => "internal"
  | NotImplemented _ => "not_implemented" | General _ => "general"
  end.

(** [error::SyncError], also called [AppError]; constructors carry the prefix
    [SE_]. *)
Inductive SyncError :=
| SE_Storage (s : string) | SE_Database (s : string) | SE_Config (s : string)
| SE_Authentication (s : string) | SE_Authorization (s : string) | SE_Validation (s : string)
| SE_Network (s : string) | SE_Serialization (s : string) | SE_NotFound (s : string)
| SE_InvalidRequest (s : string) | SE_ServiceUnavailable (s : string) | SE_Timeout (s : string)
| SE_RateLimit (s : string) | SE_Internal (s : string) | SE_ExternalService (s : string)
| SE_FileSystem (s : string) | SE_Encryption (s : string).

Definition SyncError_fmt (e : SyncError) : string :=
  match e with
  | SE_Storage s => "Storage error: " +:+ s
  | SE_Database s => "Database error: " +:+ s
  | SE_Config s => "Configuration error: " +:+ s
  | SE_Authentication s => "Authentication error: " +:+ s
  | SE_Authorization s => "Authorization error: " +:+ s
  | SE_Validation s => "Validation error: " +:+ s
  | SE_Network s => "Network error: " +:+ s
  | SE_Serialization s => "Serialization error: " +:+ s
  | SE_NotFound s => "Not found: " +:+ s
  | SE_InvalidRequest s => "Invalid request: " +:+ s
  | SE_ServiceUnavailable s => "Service unavailable: " +:+ s
  | SE_Timeout s => "Timeout: " +:+ s
  | SE_RateLimit s => "Rate limit exceeded: " +:+ s
  | SE_Internal s => "Internal server error: " +:+ s
  | SE_ExternalService s => "External service error: " +:+ s
  | SE_FileSystem s => "File system error: " +:+ s
  | SE_Encryption s => "Encryption error: " +:+ s
  end.

(** [SyncError::is_retryable]. *)
Definition SyncError_is_retryable (e : SyncError) : bool :=
  match e with
  | SE_Network _ | SE_ServiceUnavailable _ | SE_Timeout _ | SE_ExternalService _ => true
  | _ => false
  end.

(** [SyncError::http_status_code]. *)
Definition http_status_code (e : SyncError) : Z :=
  match e with
  | SE_Storage _ => 500 | SE_Database _ => 500 | SE_Config _ => 500
  | SE_Authentication _ => 401 | SE_Authorization _ => 403 | SE_Validation _ => 400
  | SE_Network _ => 502 | SE_Serialization _ => 400 | SE_NotFound _ => 404
  | SE_InvalidRequest _ => 400 | SE_ServiceUnavailable _ => 503 | SE_Timeout _ => 408
  | SE_RateLimit _ => 429 | SE_Internal _ => 500 | SE_ExternalService _ => 502
  | SE_FileSystem _ => 500 | SE_Encryption _ => 500
  end.

(** [SyncError::category]. *)
Definition SyncError_category (e : SyncError) : string :=
  match e with
  | SE_Storage _ => "storage" | SE_Database _ => "database" | SE_Config _ => "config"
  | SE_Authentication _ => "auth" | SE_Authorization _ => "auth" | SE_Validation _ => "validation"
  | SE_Network _ => "network" | SE_Serialization _ => "serialization" | SE_NotFound _ => "not_found"
  | SE_InvalidRequest _ => "invalid_request" | SE_ServiceUnavailable _ => "service_unavailable"
  | SE_Timeout _ => "timeout" | SE_RateLimit _ => "rate_limit" | SE_Internal _ => "internal"
  | SE_ExternalService _ => "external_service" | SE_FileSystem _ => "filesystem"
  | SE_Encryption _ => "encryption"
  end.

(** The errors of other libraries, as far as the conversions tell them apart: the
    variants that are matched, with the texts their own [Display] gives. *)
Inductive SqlxError :=
| Sqlx_RowNotFound | Sqlx_Database (db_err : string) | Sqlx_Io (io_err : string)
| Sqlx_PoolTimedOut | Sqlx_PoolClosed | Sqlx_other (text : string).

Inductive IoErrorKind := Io_NotFound | Io_PermissionDenied | Io_TimedOut | Io_InvalidInput | Io_other.

(** [impl From<sqlx::Error> for SyncError]. *)
Definition SyncError_from_sqlx (err : SqlxError) : SyncError :=
  match err with
  | Sqlx_RowNotFound => SE_NotFound "Record not found"
  | Sqlx_Database db_err => SE_Database ("Database error: " +:+ db_err)
  | Sqlx_Io io_err => SE_Network ("Database I/O error: " +:+ io_err)
  | Sqlx_PoolTimedOut => SE_Timeout "Database connection pool timeout"
  | Sqlx_PoolClosed => SE_ServiceUnavailable "Database connection pool closed"
  | Sqlx_other text => SE_Database ("Database error: " +:+ text)
  end.

(** [impl From<std::io::Error> for SyncError]. *)
Definition SyncError_from_io (kind : IoErrorKind) (text : string) : SyncError :=
  match kind with
  | Io_NotFound => SE_NotFound text
  | Io_PermissionDenied => SE_Authorization text
  | Io_TimedOut => SE_Timeout text
  | Io_InvalidInput => SE_InvalidRequest text
  | Io_other => SE_FileSystem ("I/O error: " +:+ text)
  end.

(** [impl From<serde_json::Error> for SyncError]. *)
Definition SyncError_from_json (text : string) : SyncError := SE_Serialization ("JSON error: " +:+ text).

(** [impl From<reqwest::Error> for SyncError]. *)
Definition SyncError_from_reqwest (is_timeout is_connect : bool) (text : string) : SyncError :=
  if is_timeout then SE_Timeout ("HTTP timeout: " +:+ text)
  else if is_connect then SE_Network ("HTTP connection error: " +:+ text)
  else SE_ExternalService ("HTTP error: " +:+ text).

(** [impl From<SyncError> for actix_web::Error]: the status of the response. *)
Definition actix_status (error : SyncError) : Z :=
  match http_status_code error with
  | 400 => 400 | 401 => 401 | 403 => 403 | 404 => 404 | 408 => 408
  | 429 => 429 | 500 => 500 | 502 => 502 | 503 => 503 | _ => 500
  end.

(** [ErrorContext]: of a result, of an option. *)
Definition result_with_context {T E} (into : E → SyncError) (f : string) (r : T + E) : T + SyncError :=
  match r with
  | inl x => inl x
  | inr e => inr (SE_Internal (f +:+ ": " +:+ SyncError_fmt (into e)))
  end.

Definition option_with_context {T} (f : string) (o : option T) : T + SyncError :=
  match o with Some x => inl x | None => inr (SE_NotFound f) end.

(** [impl From<StorageError> for SyncError]. *)
Definition SyncError_from_StorageError (err : StorageError) : SyncError :=
  match err with
  | NotFound msg => SE_NotFound msg
  | PermissionDenied msg => SE_Authorization msg
  | ValidationError msg => SE_Validation msg
  | ConfigurationError msg => SE_Config msg
  | NetworkError msg => SE_Network msg
  | QueryTimeout msg => SE_Timeout msg
  | _ => SE_Storage (StorageError_fmt err)
  end.

(** The gRPC codes the server uses, as tonic names them. *)
Inductive Code :=
| Code_NotFound | Code_Unauthenticated | Code_PermissionDenied | Code_InvalidArgument
| Code_DeadlineExceeded | Code_Unavailable | Code_ResourceExhausted | Code_Internal
| Code_Other.
#[global] Instance Code_eq_dec : EqDecision Code.
Proof. solve_decision. Defined.

Record Status := mkStatus { st_code : Code; st_message : string }.

(** [impl From<SyncError> for tonic::Status]. *)
Definition Status_from_SyncError (error : SyncError) : Status :=
  let code := match error with
    | SE_Storage _ => Code_Internal | SE_Database _ => Code_Internal
    | SE_Config _ => Code_Internal | SE_Authentication _ => Code_Unauthenticated
    | SE_Authorization _ => Code_PermissionDenied | SE_Validation _ => Code_InvalidArgument
    | SE_Network _ => Code_Unavailable | SE_Serialization _ => Code_InvalidArgument
    | SE_NotFound _ => Code_NotFound | SE_InvalidRequest _ => Code_InvalidArgument
    | SE_ServiceUnavailable _ => Code_Unavailable | SE_Timeout _ => Code_DeadlineExceeded
    | SE_RateLimit _ => Code_ResourceExhausted | SE_Internal _ => Code_Internal
    | SE_ExternalService _ => Code_Unavailable | SE_FileSystem _ => Code_Internal
    | SE_Encryption _ => Code_Internal
    end in
  mkStatus code (SyncError_fmt error).

(** [impl From<tonic::Status> for SyncError]. *)
Definition SyncError_from_Status (status : Status) : SyncError :=
  match st_code status with
  | Code_NotFound => SE_NotFound (st_message status)
  | Code_Unauthenticated => SE_Authentication (st_message status)
  | Code_PermissionDenied => SE_Authorization (st_message status)
  | Code_InvalidArgument => SE_InvalidRequest (st_message status)
  | Code_DeadlineExceeded => SE_Timeout (st_message status)
  | Code_Unavailable => SE_ServiceUnavailable (st_message status)
  | Code_ResourceExhausted => SE_RateLimit (st_message status)
  | Code_Internal | Code_Other => SE_Internal ("gRPC error: " +:+ st_message status)
  end.

(** An error that crosses a gRPC boundary and is converted back keeps its
    status code, and is retryable afterwards exactly when it was before. *)
Theorem status_roundtrip e :
  st_code (Status_from_SyncError (SyncError_from_Status (Status_from_SyncError e))) =
    st_code (Status_from_SyncError e)
  ∧ SyncError_is_retryable (SyncError_from_Status (Status_from_SyncError e)) =
    SyncError_is_retryable e.
Proof. by destruct e. Qed.

(** The conversion of storage errors never makes an error retryable that was
    not, but it loses the retryable status of connection and pool errors, which
    become plain storage errors. *)
Theorem storage_error_retryable e :
  SyncError_is_retryable (SyncError_from_StorageError e) =
    match e with
    | Connection _ | PoolExhausted _ => false
    | _ => StorageError_is_retryable e
    end.
Proof. by destruct e. Qed.

(** The two HTTP answers agree: the response that the web framework makes of an error
    carries the code that the error names. *)
Theorem actix_status_exact e : actix_status e = http_status_code e.
Proof. by destruct e. Qed.

(** An error that is worth a retry is never the fault of the request, in either
    protocol: its HTTP code is 5xx or the time-out 408, and its gRPC code one of the
    two that clients retry. *)
Theorem retryable_is_not_a_client_fault e :
  SyncError_is_retryable e = true →
  (500 ≤ http_status_code e ∨ http_status_code e = 408)
  ∧ st_code (Status_from_SyncError e) ∈ [Code_Unavailable; Code_DeadlineExceeded].
Proof. destruct e; try discriminate; intros _; (split; [cbn; lia | cbn; set_solver]). Qed.

Example retryable_is_not_a_client_fault_example : 500 ≤ http_status_code (SE_Network "reset") ∨
  http_status_code (SE_Network "reset") = 408.
Proof. apply (retryable_is_not_a_client_fault (SE_Network "reset")). reflexivity. Qed.

(** A context that is added to an error makes it an internal one, whatever it was: the
    code is 500, and no error is worth a retry any more.  The old error survives only
    in the text. *)
Theorem context_forgets_the_kind {T E} (into : E → SyncError) f (e : E) err :
  result_with_context (T := T) into f (inr e) = inr err →
  http_status_code err = 500 ∧ SyncError_is_retryable err = false
  ∧ SyncError_fmt err = "Internal server error: " +:+ f +:+ ": " +:+ SyncError_fmt (into e).
Proof. by intros [= <-]. Qed.
