(* ===== verification/Models.v ===== *)
(** * Data models (src/models, src/utils/time.rs, messages of proto/sync.proto)

    One record per struct, one inductive per enum, and the [From] conversions
    between the stored models and the protocol messages.  The types of the
    protocol (module [sync] of the source, generated from proto/sync.proto)
    carry the prefix [sync_].  [Utc::now()] is an argument of every function
    that reads the clock. *)

From S2P Require Import Prelude RustString.

(** ** Time

    A [DateTime<Utc>] of the chrono crate is observed through
    [timestamp()], the Unix seconds, and [nanosecond()], the nanoseconds since
    that second; instants are compared in this order. *)

Record DateTime := mkDateTime { dt_timestamp : Z; dt_nanosecond : Z }.
#[global] Instance DateTime_eq_dec : EqDecision DateTime.
Proof. solve_decision. Defined.

Definition dt_leb (a b : DateTime) : bool :=
  (dt_timestamp a <? dt_timestamp b)
  || ((dt_timestamp a =? dt_timestamp b) && (dt_nanosecond a <=? dt_nanosecond b)).
Definition dt_ltb (a b : DateTime) : bool := negb (dt_leb b a).

(** [DateTime::from_timestamp], also reached as [Utc.timestamp_opt(..).single()],
    is partial: seconds outside the supported calendar range and nanoseconds out
    of range give [None].  Every instant of the years 1970 to 9999 is
    representable. *)
Class Chrono := {
  from_timestamp : Z → Z → option DateTime;
  from_timestamp_fields : ∀ s n d,
    from_timestamp s n = Some d → d = mkDateTime s n;
  from_timestamp_calendar : ∀ s n,
    0 ≤ s ≤ 253402300799 → 0 ≤ n < 10 ^ 9 → from_timestamp s n = Some (mkDateTime s n)
}.

(** A concrete instance with chrono's documented range (years -262143 to
    262142), used for evaluation. *)
Definition chrono_range : Chrono.
Proof.
  refine {| from_timestamp s n :=
    if (-8334601228800 <=? s) && (s <=? 8210266876799) && (0 <=? n) && (n <? 10 ^ 9)
    then Some (mkDateTime s n) else None |}.
  - intros s n d. case_match; [|done]. by intros [= <-].
  - intros s n Hs Hn. assert (10 ^ 9 = 1000000000) as H9 by done. rewrite H9 in *.
    rewrite !(proj2 (andb_true_iff _ _)); [done|]. rewrite !andb_true_iff, !Z.leb_le, Z.ltb_lt. lia.
Defined.

(** [prost_types::Timestamp]. *)
Record Timestamp := mkTimestamp { ts_seconds : Z; ts_nanos : Z }.
#[global] Instance Timestamp_eq_dec : EqDecision Timestamp.
Proof. solve_decision. Defined.

Section time.
Context `{Chrono}.

Definition timestamp_to_datetime (ts : Timestamp) (now : DateTime) : DateTime :=
  default now (from_timestamp (ts_seconds ts) (wrap_u32 (ts_nanos ts))).

Definition datetime_to_timestamp (dt : DateTime) : Timestamp :=
  mkTimestamp (dt_timestamp dt) (wrap_i32 (dt_nanosecond dt)).

End time.

(** [dt + duration] for a duration in nanoseconds; chrono panics when the result
    leaves its range, which is [None] here. *)
Definition dt_add `{Chrono} (dt : DateTime) (nanos : Z) : option DateTime :=
  let n := dt_nanosecond dt + nanos in
  from_timestamp (dt_timestamp dt + n / 10 ^ 9) (n mod 10 ^ 9).

(** [Duration::hours(h)], in nanoseconds; the constructor panics outside the
    range of milliseconds it stores. *)
Definition duration_hours (h : Z) : option Z :=
  if (- (i64_max / 1000) <=? h * 3600) && (h * 3600 <=? i64_max / 1000)
  then Some (h * 3600 * 10 ^ 9) else None.

(** [Utc::now() - Duration::hours(h)]. *)
Definition hours_before `{Chrono} (now : DateTime) (h : Z) : option DateTime :=
  match duration_hours h with
  | Some n => dt_add now (- n)
  | None => None
  end.

(** An instant chrono can produce. *)
Definition dt_valid `{Chrono} (d : DateTime) : Prop :=
  from_timestamp (dt_timestamp d) (dt_nanosecond d) = Some d ∧ 0 ≤ dt_nanosecond d < 2 * 10 ^ 9.

Lemma dt_leb_refl a : dt_leb a a = true.
Proof. unfold dt_leb. rewrite Z.eqb_refl, Z.leb_refl. by destruct (_ <? _). Qed.

Lemma dt_leb_trans a b c : dt_leb a b = true → dt_leb b c = true → dt_leb a c = true.
Proof.
  unfold dt_leb. rewrite !orb_true_iff, !andb_true_iff, !Z.ltb_lt, !Z.eqb_eq, !Z.leb_le. lia.
Qed.

Lemma dt_leb_total a b : dt_leb a b = true ∨ dt_leb b a = true.
Proof.
  unfold dt_leb. rewrite !orb_true_iff, !andb_true_iff, !Z.ltb_lt, !Z.eqb_eq, !Z.leb_le. lia.
Qed.

Lemma dt_leb_antisym a b : dt_leb a b = true → dt_leb b a = true → a = b.
Proof.
  destruct a, b. unfold dt_leb; cbn.
  rewrite !orb_true_iff, !andb_true_iff, !Z.ltb_lt, !Z.eqb_eq, !Z.leb_le. intros. f_equal; lia.
Qed.

Lemma dt_ltb_not a b : dt_ltb a b = true ↔ dt_leb b a = false.
Proof. unfold dt_ltb. by rewrite negb_true_iff. Qed.

(** ** Accounts and tokens (models/account.rs, models/auth.rs) *)

Record Account := mkAccount {
  a_account_hash : string;
  a_id : string;
  a_email : string;
  a_name : string;
  a_user_type : string;
  a_password_hash : string;
  a_salt : string;
  a_is_active : bool;
  a_created_at : DateTime;
  a_last_login : DateTime;
  a_updated_at : DateTime;
  a_user_id : string
}.

Record AuthToken := mkAuthToken {
  at_token_id : string;
  at_account_hash : string;
  at_access_token : string;
  at_refresh_token : option string;
  at_created_at : DateTime;
  at_expires_at : DateTime;
  at_is_valid : bool;
  at_token_type : string;
  at_scope : option string
}.

Record AuthResult := mkAuthResult {
  ar_valid : bool;
  ar_account_hash : string;
  ar_error_message : option string;
  ar_expires_at : option DateTime
}.

(** ** Devices (models/device.rs) *)

Record Device := mkDevice {
  d_user_id : string;
  d_account_hash : string;
  d_device_hash : string;
  d_updated_at : DateTime;
  d_registered_at : DateTime;
  d_last_sync : DateTime;
  d_is_active : bool;
  d_os_version : string;
  d_app_version : string
}.
#[global] Instance Device_eq_dec : EqDecision Device.
Proof. solve_decision. Defined.

Record DeviceInfo := mkDeviceInfo {
  di_device_hash : string;
  di_account_hash : string;
  di_is_active : bool;
  di_os_version : string;
  di_app_version : string;
  di_registered_at : DateTime;
  di_last_sync_time : option DateTime
}.

Record sync_DeviceInfo := mk_sync_DeviceInfo {
  sdi_account_hash : string;
  sdi_is_active : bool;
  sdi_device_hash : string;
  sdi_os_version : string;
  sdi_app_version : string;
  sdi_registered_at : option Timestamp;
  sdi_last_sync_time : option Timestamp
}.

(** [impl From<&Device> for DeviceInfo]. *)
Definition DeviceInfo_from_Device (device : Device) : DeviceInfo :=
  {| di_device_hash := d_device_hash device;
     di_account_hash := d_account_hash device;
     di_is_active := d_is_active device;
     di_os_version := d_os_version device;
     di_app_version := d_app_version device;
     di_registered_at := d_registered_at device;
     di_last_sync_time := Some (d_last_sync device) |}.

(** [impl From<&DeviceInfo> for Device]. *)
Definition Device_from_DeviceInfo (info : DeviceInfo) (now : DateTime) : Device :=
  {| d_user_id := "";
     d_updated_at := default now (di_last_sync_time info);
     d_registered_at := di_registered_at info;
     d_device_hash := di_device_hash info;
     d_account_hash := di_account_hash info;
     d_last_sync := default now (di_last_sync_time info);
     d_is_active := di_is_active info;
     d_os_version := di_os_version info;
     d_app_version := di_app_version info |}.

(** [impl From<sync::DeviceInfo> for Device]. *)
Definition Device_from_sync `{Chrono} (info : sync_DeviceInfo) (now : DateTime) : Device :=
  let conv := λ ts, default now (from_timestamp (ts_seconds ts) (wrap_u32 (ts_nanos ts))) in
  let registered_at := default now (conv <$> sdi_registered_at info) in
  let last_sync := default now (conv <$> sdi_last_sync_time info) in
  {| d_user_id := "";
     d_updated_at := last_sync;
     d_registered_at := registered_at;
     d_device_hash := sdi_device_hash info;
     d_account_hash := sdi_account_hash info;
     d_last_sync := last_sync;
     d_is_active := sdi_is_active info;
     d_os_version := sdi_os_version info;
     d_app_version := sdi_app_version info |}.

(** [impl From<&Device> for sync::DeviceInfo]. *)
Definition sync_DeviceInfo_from_Device (device : Device) : sync_DeviceInfo :=
  {| sdi_account_hash := d_account_hash device;
     sdi_is_active := d_is_active device;
     sdi_device_hash := d_device_hash device;
     sdi_os_version := d_os_version device;
     sdi_app_version := d_app_version device;
     sdi_registered_at := Some (mkTimestamp (dt_timestamp (d_registered_at device)) 0);
     sdi_last_sync_time := Some (mkTimestamp (dt_timestamp (d_last_sync device)) 0) |}.

(** [Device::new]. *)
Definition Device_new (account_hash device_hash : string) (is_active : bool)
    (os_version app_version : string) (now : DateTime) : Device :=
  {| d_user_id := account_hash;
     d_account_hash := account_hash;
     d_device_hash := device_hash;
     d_is_active := is_active;
     d_os_version := os_version;
     d_app_version := app_version;
     d_updated_at := now;
     d_registered_at := now;
     d_last_sync := now |}.

(** [Device::update_info]. *)
Definition Device_update_info (d : Device) (is_active : option bool)
    (os_version app_version : option string) (now : DateTime) : Device :=
  {| d_user_id := d_user_id d;
     d_account_hash := d_account_hash d;
     d_device_hash := d_device_hash d;
     d_is_active := default (d_is_active d) is_active;
     d_os_version := default (d_os_version d) os_version;
     d_app_version := default (d_app_version d) app_version;
     d_updated_at := now;
     d_registered_at := d_registered_at d;
     d_last_sync := d_last_sync d |}.

(** [Device::update_last_sync]; the clock is read twice. *)
Definition Device_update_last_sync (d : Device) (now1 now2 : DateTime) : Device :=
  {| d_user_id := d_user_id d;
     d_account_hash := d_account_hash d;
     d_device_hash := d_device_hash d;
     d_is_active := d_is_active d;
     d_os_version := d_os_version d;
     d_app_version := d_app_version d;
     d_updated_at := now2;
     d_registered_at := d_registered_at d;
     d_last_sync := now1 |}.

(** [Device::deactivate]. *)
Definition Device_deactivate (d : Device) (now : DateTime) : Device :=
  {| d_user_id := d_user_id d;
     d_account_hash := d_account_hash d;
     d_device_hash := d_device_hash d;
     d_is_active := false;
     d_os_version := d_os_version d;
     d_app_version := d_app_version d;
     d_updated_at := now;
     d_registered_at := d_registered_at d;
     d_last_sync := d_last_sync d |}.

(** ** Files (models/file.rs) *)

Record SyncFile := mkSyncFile {
  sf_id : string;
  sf_user_id : string;
  sf_device_hash : string;
  sf_group_id : Z;
  sf_watcher_id : Z;
  sf_file_id : Z;
  sf_filename : string;
  sf_file_hash : string;
  sf_file_path : string;
  sf_file_size : Z;
  sf_mime_type : string;
  sf_modified_time : Z;
  sf_is_encrypted : bool;
  sf_upload_time : DateTime;
  sf_last_updated : DateTime;
  sf_is_deleted : bool;
  sf_revision : Z
}.

(** [SyncFile::new]; the generated file id and UUID are arguments. *)
Definition SyncFile_new (uuid : string) (generated_file_id : Z)
    (user_id device_hash : string) (group_id watcher_id : Z)
    (filename file_hash file_path : string) (file_size : Z) (mime_type : string)
    (modified_time : Z) (is_encrypted : bool) (revision : Z) (now : DateTime) : SyncFile :=
  {| sf_id := uuid; sf_user_id := user_id; sf_device_hash := device_hash;
     sf_group_id := group_id; sf_watcher_id := watcher_id; sf_file_id := generated_file_id;
     sf_filename := filename; sf_file_hash := file_hash; sf_file_path := file_path;
     sf_file_size := file_size; sf_mime_type := mime_type; sf_modified_time := modified_time;
     sf_is_encrypted := is_encrypted; sf_upload_time := now; sf_last_updated := now;
     sf_is_deleted := false; sf_revision := revision |}.

(** [SyncFile::update_metadata]. *)
Definition SyncFile_update_metadata (f : SyncFile) (file_hash : string) (file_size : Z)
    (mime_type : string) (modified_time : Z) (now : DateTime) : SyncFile :=
  {| sf_id := sf_id f; sf_user_id := sf_user_id f; sf_device_hash := sf_device_hash f;
     sf_group_id := sf_group_id f; sf_watcher_id := sf_watcher_id f; sf_file_id := sf_file_id f;
     sf_filename := sf_filename f; sf_file_hash := file_hash; sf_file_path := sf_file_path f;
     sf_file_size := file_size; sf_mime_type := mime_type; sf_modified_time := modified_time;
     sf_is_encrypted := sf_is_encrypted f; sf_upload_time := sf_upload_time f;
     sf_last_updated := now; sf_is_deleted := sf_is_deleted f; sf_revision := sf_revision f |}.

(** The field updates of [mark_as_deleted] and [restore]. *)
Definition SyncFile_set_deleted (f : SyncFile) (deleted : bool) (now : DateTime) : SyncFile :=
  {| sf_id := sf_id f; sf_user_id := sf_user_id f; sf_device_hash := sf_device_hash f;
     sf_group_id := sf_group_id f; sf_watcher_id := sf_watcher_id f; sf_file_id := sf_file_id f;
     sf_filename := sf_filename f; sf_file_hash := sf_file_hash f; sf_file_path := sf_file_path f;
     sf_file_size := sf_file_size f; sf_mime_type := sf_mime_type f;
     sf_modified_time := sf_modified_time f; sf_is_encrypted := sf_is_encrypted f;
     sf_upload_time := sf_upload_time f; sf_last_updated := now; sf_is_deleted := deleted;
     sf_revision := sf_revision f |}.
Definition SyncFile_mark_as_deleted (f : SyncFile) (now : DateTime) : SyncFile :=
  SyncFile_set_deleted f true now.
Definition SyncFile_restore (f : SyncFile) (now : DateTime) : SyncFile :=
  SyncFile_set_deleted f false now.

Record FileInfo := mkFileInfo {
  fi_file_id : Z;
  fi_filename : string;
  fi_file_hash : string;
  fi_device_hash : string;
  fi_group_id : Z;
  fi_watcher_id : Z;
  fi_is_encrypted : bool;
  fi_file_path : string;
  fi_updated_time : Timestamp;
  fi_revision : Z;
  fi_account_hash : string;
  fi_size : Z;
  fi_key_id : option string
}.
#[global] Instance FileInfo_eq_dec : EqDecision FileInfo.
Proof. solve_decision. Defined.

(** [file_info.file_id = id]. *)
Definition fi_with_file_id (f : FileInfo) (id : Z) : FileInfo :=
  {| fi_file_id := id; fi_filename := fi_filename f; fi_file_hash := fi_file_hash f;
     fi_device_hash := fi_device_hash f; fi_group_id := fi_group_id f;
     fi_watcher_id := fi_watcher_id f; fi_is_encrypted := fi_is_encrypted f;
     fi_file_path := fi_file_path f; fi_updated_time := fi_updated_time f;
     fi_revision := fi_revision f; fi_account_hash := fi_account_hash f;
     fi_size := fi_size f; fi_key_id := fi_key_id f |}.

(** The message [sync::FileInfo]. *)
Record sync_FileInfo := mk_sync_FileInfo {
  sfi_file_id : Z;
  sfi_filename : string;
  sfi_file_hash : string;
  sfi_updated_time : option Timestamp;
  sfi_device_hash : string;
  sfi_group_id : Z;
  sfi_watcher_id : Z;
  sfi_is_encrypted : bool;
  sfi_file_path : string;
  sfi_revision : Z;
  sfi_file_size : Z
}.

(** [impl From<&FileInfo> for sync::FileInfo], [FileInfo::to_sync_file]. *)
Definition to_sync_file (f : FileInfo) : sync_FileInfo :=
  {| sfi_file_id := fi_file_id f; sfi_filename := fi_filename f;
     sfi_file_hash := fi_file_hash f; sfi_device_hash := fi_device_hash f;
     sfi_group_id := fi_group_id f; sfi_watcher_id := fi_watcher_id f;
     sfi_is_encrypted := fi_is_encrypted f; sfi_file_path := fi_file_path f;
     sfi_updated_time := Some (fi_updated_time f); sfi_revision := fi_revision f;
     sfi_file_size := fi_size f |}.

(** [impl From<sync::FileInfo> for FileInfo]. *)
Definition FileInfo_from_sync (p : sync_FileInfo) (now : DateTime) : FileInfo :=
  {| fi_file_id := sfi_file_id p; fi_filename := sfi_filename p;
     fi_file_hash := sfi_file_hash p; fi_device_hash := sfi_device_hash p;
     fi_group_id := sfi_group_id p; fi_watcher_id := sfi_watcher_id p;
     fi_is_encrypted := sfi_is_encrypted p; fi_file_path := sfi_file_path p;
     fi_updated_time := default (mkTimestamp (dt_timestamp now) 0) (sfi_updated_time p);
     fi_revision := sfi_revision p; fi_account_hash := ""; fi_size := sfi_file_size p;
     fi_key_id := None |}.

Record FileInfoData := mkFileInfoData {
  fid_file_id : Z;
  fid_filename : string;
  fid_file_hash : string;
  fid_updated_time : Timestamp;
  fid_device_hash : string;
  fid_group_id : Z;
  fid_watcher_id : Z;
  fid_is_encrypted : bool;
  fid_file_path : string;
  fid_revision : Z
}.

(** [impl From<FileInfo> for FileInfoData]. *)
Definition FileInfoData_from_FileInfo (f : FileInfo) : FileInfoData :=
  {| fid_file_id := fi_file_id f; fid_filename := fi_filename f;
     fid_file_hash := fi_file_hash f; fid_updated_time := fi_updated_time f;
     fid_device_hash := fi_device_hash f; fid_group_id := fi_group_id f;
     fid_watcher_id := fi_watcher_id f; fid_is_encrypted := fi_is_encrypted f;
     fid_file_path := fi_file_path f; fid_revision := fi_revision f |}.

Record SyncFileInfo := mkSyncFileInfo {
  sync_fi_file_id : Z;
  sync_fi_filename : string;
  sync_fi_file_hash : string;
  sync_fi_device_hash : string;
  sync_fi_group_id : Z;
  sync_fi_watcher_id : Z;
  sync_fi_is_encrypted : bool;
  sync_fi_file_path : string;
  sync_fi_upload_time : DateTime
}.

(** [impl From<FileInfoData> for SyncFileInfo]. *)
Definition SyncFileInfo_from_FileInfoData `{Chrono} (f : FileInfoData) (now : DateTime) : SyncFileInfo :=
  {| sync_fi_file_id := fid_file_id f; sync_fi_filename := fid_filename f;
     sync_fi_file_hash := fid_file_hash f; sync_fi_device_hash := fid_device_hash f;
     sync_fi_group_id := fid_group_id f; sync_fi_watcher_id := fid_watcher_id f;
     sync_fi_is_encrypted := fid_is_encrypted f; sync_fi_file_path := fid_file_path f;
     sync_fi_upload_time :=
       default now (from_timestamp (ts_seconds (fid_updated_time f))
                      (wrap_u32 (ts_nanos (fid_updated_time f)))) |}.

(** [impl From<SyncFileInfo> for FileInfoData]. *)
Definition FileInfoData_from_SyncFileInfo (f : SyncFileInfo) : FileInfoData :=
  {| fid_file_id := sync_fi_file_id f; fid_filename := sync_fi_filename f;
     fid_file_hash := sync_fi_file_hash f;
     fid_updated_time := mkTimestamp (dt_timestamp (sync_fi_upload_time f))
                           (wrap_i32 (dt_nanosecond (sync_fi_upload_time f)));
     fid_device_hash := sync_fi_device_hash f; fid_group_id := sync_fi_group_id f;
     fid_watcher_id := sync_fi_watcher_id f; fid_is_encrypted := sync_fi_is_encrypted f;
     fid_file_path := sync_fi_file_path f; fid_revision := 0 |}.

Record FileNotice := mkFileNotice {
  fn_account_hash : string;
  fn_device_hash : string;
  fn_path : string;
  fn_action : string;
  fn_timestamp : Z;
  fn_file_id : Z;
  fn_group_id : Z;
  fn_watcher_id : Z;
  fn_revision : Z
}.

(** ** Watchers (models/watcher.rs) *)

Record Condition := mkCondition { c_key : string; c_value : list string }.
#[global] Instance Condition_eq_dec : EqDecision Condition.
Proof. solve_decision. Defined.

Record sync_ConditionData := mk_sync_ConditionData { scd_key : string; scd_value : list string }.
#[global] Instance sync_ConditionData_eq_dec : EqDecision sync_ConditionData.
Proof. solve_decision. Defined.

(** The model's own copy of the message. *)
Record ConditionData := mkConditionData { cd_key : string; cd_value : list string }.

Inductive ConditionType := Union | Subtract.
#[global] Instance ConditionType_eq_dec : EqDecision ConditionType.
Proof. solve_decision. Defined.

(** [impl Display for ConditionType]. *)
Definition ConditionType_fmt (t : ConditionType) : string :=
  match t with Union => "union" | Subtract => "subtract" end.

(** [impl FromStr for ConditionType]. *)
Definition ConditionType_from_str `{Unicode} (s : string) : result ConditionType string :=
  if to_lowercase s == "union" then Ok Union
  else if to_lowercase s == "subtract" then Ok Subtract
  else Err ("Invalid condition type: " +:+ s).

Record WatcherGroup := mkWatcherGroup {
  wg_id : Z;
  wg_group_id : Z;
  wg_account_hash : string;
  wg_title : string;
  wg_created_at : DateTime;
  wg_updated_at : DateTime;
  wg_is_active : bool;
  wg_watcher_ids : list Z
}.
#[global] Instance WatcherGroup_eq_dec : EqDecision WatcherGroup.
Proof. solve_decision. Defined.

Record WatcherCondition := mkWatcherCondition {
  wc_id : option Z;
  wc_account_hash : string;
  wc_watcher_id : Z;
  wc_local_watcher_id : Z;
  wc_local_group_id : Z;
  wc_condition_type : ConditionType;
  wc_key : string;
  wc_value : list string;
  wc_operator : string;
  wc_created_at : DateTime;
  wc_updated_at : DateTime
}.
#[global] Instance WatcherCondition_eq_dec : EqDecision WatcherCondition.
Proof. solve_decision. Defined.

Record Watcher := mkWatcher {
  w_id : Z;
  w_watcher_id : Z;
  w_account_hash : string;
  w_group_id : Z;
  w_local_group_id : Z;
  w_title : string;
  w_folder : string;
  w_union_conditions : list Condition;
  w_subtracting_conditions : list Condition;
  w_recursive_path : bool;
  w_preset : bool;
  w_custom_type : string;
  w_update_mode : string;
  w_is_active : bool;
  w_extra_json : string;
  w_created_at : DateTime;
  w_updated_at : DateTime
}.

(** The message [sync::WatcherData]. *)
Record sync_WatcherData := mk_sync_WatcherData {
  swd_watcher_id : Z;
  swd_folder : string;
  swd_union_conditions : list sync_ConditionData;
  swd_subtracting_conditions : list sync_ConditionData;
  swd_recursive_path : bool;
  swd_preset : bool;
  swd_custom_type : string;
  swd_update_mode : string;
  swd_is_active : bool;
  swd_extra_json : string
}.

Record WatcherData := mkWatcherData {
  wd_watcher_id : Z;
  wd_folder : string;
  wd_union_conditions : list ConditionData;
  wd_subtracting_conditions : list ConditionData;
  wd_recursive_path : bool;
  wd_preset : bool;
  wd_custom_type : string;
  wd_update_mode : string;
  wd_is_active : bool;
  wd_extra_json : string
}.

Record sync_WatcherGroupData := mk_sync_WatcherGroupData {
  swgd_group_id : Z;
  swgd_title : string;
  swgd_watchers : list sync_WatcherData;
  swgd_last_updated : option Timestamp
}.

Record WatcherGroupData := mkWatcherGroupData {
  wgd_group_id : Z;
  wgd_title : string;
  wgd_watchers : list WatcherData;
  wgd_last_updated : Timestamp
}.

(** Conversions of conditions; the source writes the same struct literal at
    each use. *)
Definition Condition_from_sync (c : sync_ConditionData) : Condition :=
  mkCondition (scd_key c) (scd_value c).
Definition sync_ConditionData_from_Condition (c : Condition) : sync_ConditionData :=
  mk_sync_ConditionData (c_key c) (c_value c).
Definition ConditionData_from_sync (c : sync_ConditionData) : ConditionData :=
  mkConditionData (scd_key c) (scd_value c).
Definition sync_ConditionData_from_model (c : ConditionData) : sync_ConditionData :=
  mk_sync_ConditionData (cd_key c) (cd_value c).
Definition Condition_from_ConditionData (c : ConditionData) : Condition :=
  mkCondition (cd_key c) (cd_value c).
Definition ConditionData_from_Condition (c : Condition) : ConditionData :=
  mkConditionData (c_key c) (c_value c).

(** [impl From<&sync::WatcherData> for WatcherData]. *)
Definition WatcherData_from_sync (p : sync_WatcherData) : WatcherData :=
  {| wd_watcher_id := swd_watcher_id p; wd_folder := swd_folder p;
     wd_union_conditions := ConditionData_from_sync <$> swd_union_conditions p;
     wd_subtracting_conditions := ConditionData_from_sync <$> swd_subtracting_conditions p;
     wd_recursive_path := swd_recursive_path p; wd_preset := swd_preset p;
     wd_custom_type := swd_custom_type p; wd_update_mode := swd_update_mode p;
     wd_is_active := swd_is_active p; wd_extra_json := swd_extra_json p |}.

(** [impl From<&WatcherData> for sync::WatcherData]. *)
Definition sync_WatcherData_from_model (w : WatcherData) : sync_WatcherData :=
  {| swd_watcher_id := wd_watcher_id w; swd_folder := wd_folder w;
     swd_union_conditions := sync_ConditionData_from_model <$> wd_union_conditions w;
     swd_subtracting_conditions := sync_ConditionData_from_model <$> wd_subtracting_conditions w;
     swd_recursive_path := wd_recursive_path w; swd_preset := wd_preset w;
     swd_custom_type := wd_custom_type w; swd_update_mode := wd_update_mode w;
     swd_is_active := wd_is_active w; swd_extra_json := wd_extra_json w |}.

(** [impl From<&Watcher> for WatcherData]. *)
Definition WatcherData_from_Watcher (w : Watcher) : WatcherData :=
  {| wd_watcher_id := w_watcher_id w; wd_folder := w_folder w;
     wd_union_conditions := ConditionData_from_Condition <$> w_union_conditions w;
     wd_subtracting_conditions := ConditionData_from_Condition <$> w_subtracting_conditions w;
     wd_recursive_path := w_recursive_path w; wd_preset := w_preset w;
     wd_custom_type := w_custom_type w; wd_update_mode := w_update_mode w;
     wd_is_active := w_is_active w; wd_extra_json := w_extra_json w |}.

(** [impl From<&Watcher> for sync::WatcherData]. *)
Definition sync_WatcherData_from_Watcher (w : Watcher) : sync_WatcherData :=
  {| swd_watcher_id := w_watcher_id w; swd_folder := w_folder w;
     swd_union_conditions := sync_ConditionData_from_Condition <$> w_union_conditions w;
     swd_subtracting_conditions := sync_ConditionData_from_Condition <$> w_subtracting_conditions w;
     swd_recursive_path := w_recursive_path w; swd_preset := w_preset w;
     swd_custom_type := w_custom_type w; swd_update_mode := w_update_mode w;
     swd_is_active := w_is_active w; swd_extra_json := w_extra_json w |}.

(** [impl From<WatcherData> for Watcher]; the clock is read twice. *)
Definition Watcher_from_WatcherData (w : WatcherData) (now1 now2 : DateTime) : Watcher :=
  {| w_id := 0; w_watcher_id := wd_watcher_id w; w_account_hash := ""; w_group_id := 0;
     w_local_group_id := 0; w_title := ""; w_folder := wd_folder w;
     w_union_conditions := Condition_from_ConditionData <$> wd_union_conditions w;
     w_subtracting_conditions := Condition_from_ConditionData <$> wd_subtracting_conditions w;
     w_recursive_path := wd_recursive_path w; w_preset := wd_preset w;
     w_custom_type := wd_custom_type w; w_update_mode := wd_update_mode w;
     w_is_active := wd_is_active w; w_extra_json := wd_extra_json w;
     w_created_at := now1; w_updated_at := now2 |}.

(** [impl From<&WatcherGroup> for WatcherGroupData]. *)
Definition WatcherGroupData_from_WatcherGroup (g : WatcherGroup) : WatcherGroupData :=
  {| wgd_group_id := wg_group_id g; wgd_title := wg_title g; wgd_watchers := [];
     wgd_last_updated := datetime_to_timestamp (wg_updated_at g) |}.

(** [impl From<&WatcherGroup> for sync::WatcherGroupData]. *)
Definition sync_WatcherGroupData_from_WatcherGroup (g : WatcherGroup) : sync_WatcherGroupData :=
  {| swgd_group_id := wg_group_id g; swgd_title := wg_title g; swgd_watchers := [];
     swgd_last_updated := Some (datetime_to_timestamp (wg_updated_at g)) |}.

(** [impl From<&sync::WatcherGroupData> for WatcherGroupData]. *)
Definition WatcherGroupData_from_sync (p : sync_WatcherGroupData) : WatcherGroupData :=
  {| wgd_group_id := swgd_group_id p; wgd_title := swgd_title p;
     wgd_watchers := WatcherData_from_sync <$> swgd_watchers p;
     wgd_last_updated := default (mkTimestamp 0 0) (swgd_last_updated p) |}.

(** [impl From<WatcherGroupData> for sync::WatcherGroupData]. *)
Definition sync_WatcherGroupData_from_model (g : WatcherGroupData) : sync_WatcherGroupData :=
  {| swgd_group_id := wgd_group_id g; swgd_title := wgd_title g;
     swgd_watchers := sync_WatcherData_from_model <$> wgd_watchers g;
     swgd_last_updated := Some (wgd_last_updated g) |}.

(** [WatcherGroupData::create_watcher_group]. *)
Definition create_watcher_group `{Chrono} (g : WatcherGroupData) (account_hash : string)
    (now : DateTime) : WatcherGroup :=
  let updated_at := timestamp_to_datetime (wgd_last_updated g) now in
  {| wg_id := 0; wg_group_id := wgd_group_id g; wg_account_hash := account_hash;
     wg_title := wgd_title g; wg_created_at := updated_at; wg_updated_at := updated_at;
     wg_is_active := true; wg_watcher_ids := [] |}.

(** [impl From<sync::WatcherGroupData> for WatcherGroup]. *)
Definition WatcherGroup_from_sync `{Chrono} (p : sync_WatcherGroupData)
    (now_updated now_created : DateTime) : WatcherGroup :=
  let updated_at := match swgd_last_updated p with
                    | Some ts => timestamp_to_datetime ts now_updated
                    | None => now_updated
                    end in
  {| wg_id := 0; wg_group_id := swgd_group_id p; wg_account_hash := ""; wg_title := "";
     wg_created_at := now_created; wg_updated_at := updated_at; wg_is_active := true;
     wg_watcher_ids := [] |}.

(** [impl From<sync::RegisterWatcherGroupRequest> for WatcherGroup], on the
    fields the conversion reads. *)
Definition WatcherGroup_from_request (group_id : Z) (account_hash title : string)
    (now : DateTime) : WatcherGroup :=
  {| wg_id := 0; wg_group_id := group_id; wg_account_hash := account_hash; wg_title := title;
     wg_created_at := now; wg_updated_at := now; wg_is_active := true; wg_watcher_ids := [] |}.

(** ** Facts about the conversions *)

Lemma wrap_u32_i32 z : 0 ≤ z < 2 ^ 31 → wrap_u32 (wrap_i32 z) = z.
Proof.
  intros. rewrite wrap_i32_id by (unfold i32_min, i32_max; lia).
  unfold wrap_u32. apply Z.mod_small. lia.
Qed.

Lemma timestamp_to_datetime_to_timestamp `{Chrono} d now :
  dt_valid d → timestamp_to_datetime (datetime_to_timestamp d) now = d.
Proof.
  intros [Hd Hn]. unfold timestamp_to_datetime, datetime_to_timestamp; cbn.
  by rewrite wrap_u32_i32, Hd by lia.
Qed.

Lemma sync_WatcherData_model_sync p :
  sync_WatcherData_from_model (WatcherData_from_sync p) = p.
Proof.
  destruct p as [? ? us ss]. unfold sync_WatcherData_from_model, WatcherData_from_sync; cbn.
  rewrite <-!list_fmap_compose. f_equal; apply list_fmap_id_ext; by intros [].
Qed.

Lemma sync_WatcherData_paths w :
  sync_WatcherData_from_Watcher w = sync_WatcherData_from_model (WatcherData_from_Watcher w).
Proof.
  destruct w. unfold sync_WatcherData_from_model; cbn. by rewrite <-!list_fmap_compose.
Qed.

(** A group message that carries a time stamp survives the round trip through
    the model; a message without one comes back with the epoch. *)
Lemma sync_WatcherGroupData_model_sync p :
  sync_WatcherGroupData_from_model (WatcherGroupData_from_sync p) =
    mk_sync_WatcherGroupData (swgd_group_id p) (swgd_title p) (swgd_watchers p)
      (Some (default (mkTimestamp 0 0) (swgd_last_updated p))).
Proof.
  unfold sync_WatcherGroupData_from_model, WatcherGroupData_from_sync; cbn. f_equal.
  rewrite <-list_fmap_compose. apply list_fmap_id_ext. apply sync_WatcherData_model_sync.
Qed.

Lemma from_timestamp_seconds `{Chrono} d :
  dt_valid d → 0 ≤ dt_timestamp d ≤ 253402300799 →
  from_timestamp (dt_timestamp d) 0 = Some (mkDateTime (dt_timestamp d) 0).
Proof. intros. apply from_timestamp_calendar; lia. Qed.

(** A device sent over the protocol and read back keeps its identity, its
    state and its times to the second; the owner name and the update time are
    not transported. *)
Lemma Device_proto_roundtrip `{Chrono} d now :
  0 ≤ dt_timestamp (d_registered_at d) ≤ 253402300799 →
  0 ≤ dt_timestamp (d_last_sync d) ≤ 253402300799 →
  Device_from_sync (sync_DeviceInfo_from_Device d) now =
    mkDevice "" (d_account_hash d) (d_device_hash d)
      (mkDateTime (dt_timestamp (d_last_sync d)) 0)
      (mkDateTime (dt_timestamp (d_registered_at d)) 0)
      (mkDateTime (dt_timestamp (d_last_sync d)) 0)
      (d_is_active d) (d_os_version d) (d_app_version d).
Proof.
  intros H1 H2. unfold Device_from_sync, sync_DeviceInfo_from_Device; cbn.
  change (wrap_u32 0) with 0. by rewrite !from_timestamp_calendar by lia.
Qed.

(** Metadata sent to a client and converted back loses the owner and the key
    only. *)
Lemma FileInfo_proto_roundtrip f now :
  FileInfo_from_sync (to_sync_file f) now =
    mkFileInfo (fi_file_id f) (fi_filename f) (fi_file_hash f) (fi_device_hash f)
      (fi_group_id f) (fi_watcher_id f) (fi_is_encrypted f) (fi_file_path f)
      (fi_updated_time f) (fi_revision f) "" (fi_size f) None.
Proof. done. Qed.

Lemma ConditionType_roundtrip `{Unicode} t : ConditionType_from_str (ConditionType_fmt t) = Ok t.
Proof. unfold ConditionType_from_str. destruct t; by rewrite to_lowercase_ascii. Qed.
