(* ===== verification/Paths.v ===== *)
(** * Path normalisation and input validation
    (src/utils/helpers.rs, src/utils/validator.rs, src/validation.rs)

    [normalize_path_preserve_tilde] maps every path a client sends to the form
    the server stores, behind a process-wide memo table; the validators accept
    or reject file names, hashes and watcher folders. *)

From S2P Require Import Prelude RustString.

(** ** Normalisation *)

(** The branches of [normalize_path_preserve_tilde] after the memo lookup. *)
Definition normalize_uncached (path : string) : string :=
  if str_is_empty path then "~/" else
  let trimmed_path := trim path in
  if str_is_empty trimmed_path then "~/" else
  if (trimmed_path == "~") || (trimmed_path == "~/.") then "~/" else
  if starts_with "~/" trimmed_path then trimmed_path else
  if starts_with "/" trimmed_path then
    if starts_with "/home/" trimmed_path then
      if str_len trimmed_path <=? 6 then "~" else
      let after_home := str_drop 6 trimmed_path in
      match find_char "/" after_home with
      | Some slash_pos =>
          let remaining_path := str_drop slash_pos after_home in
          if str_is_empty remaining_path || (remaining_path == "/") then "~"
          else "~" +:+ remaining_path
      | None => "~"
      end
    else if trimmed_path == "/" then "~" else "~" +:+ trimmed_path
  else if starts_with "./" trimmed_path then
    if str_len trimmed_path <=? 2 then "~" else
    let after_dot := str_drop 2 trimmed_path in
    if str_is_empty after_dot then "~" else "~/" +:+ after_dot
  else if starts_with ".config/" trimmed_path || starts_with ".local/" trimmed_path
          || starts_with ".cache/" trimmed_path then "~/" +:+ trimmed_path
  else if negb (contains_char "/" trimmed_path) then "~/" +:+ trimmed_path
  else "~/" +:+ trimmed_path.

(** [NORMALIZE_CACHE]: the memo table, or [None] once the mutex is poisoned
    (then [lock()] returns [Err] and the table is neither read nor written). *)
Abbreviation NormalizeCache := (option (gmap string string)).

Definition cache_insert (path v : string) (cache : NormalizeCache) : NormalizeCache :=
  if str_len path <=? 256 then <[path := v]> <$> cache else cache.

(** [normalize_path_preserve_tilde]: every return path stores its value first. *)
Definition normalize_path_preserve_tilde (path : string) (cache : NormalizeCache)
    : string * NormalizeCache :=
  let hit := if str_len path <=? 256 then c ← cache; c !! path else None in
  match hit with
  | Some v => (v, cache)
  | None => let v := normalize_uncached path in (v, cache_insert path v cache)
  end.

(** [is_home_relative_path]. *)
Definition is_home_relative_path (path : string) : bool :=
  starts_with "~/" path || (path == "~").

(** [canonicalize_home_path]. *)
Definition canonicalize_home_path (path : string) : string :=
  if starts_with "~/" path then path
  else if path == "~" then "~"
  else path.

(** Every memoised value is the value the branches compute. *)
Definition cache_ok (cache : NormalizeCache) : Prop :=
  ∀ c p v, cache = Some c → c !! p = Some v → v = normalize_uncached p.

(** ** Validation *)

(** [utils::validator::validate_device_hash]. *)
Definition validate_device_hash (device_hash : string) : bool := negb (str_is_empty device_hash).

(** The characters a file name may not contain: / \ : * ? quote < > | *)
Definition forbidden_filename_bytes : list Z := [47; 92; 58; 42; 63; 34; 60; 62; 124].

(** [utils::validator::validate_filename]. *)
Definition validate_filename (filename : string) : bool :=
  negb (str_is_empty filename)
  && str_all (λ a, negb (bool_decide (byte_val a ∈ forbidden_filename_bytes))) filename.

(** [validation::validate_hash] and its two aliases. *)
Definition validate_hash (hash : string) : bool :=
  (str_len hash =? 64) && str_all is_ascii_hexdigit hash.

(** [validation::validate_file_path]. *)
Definition validate_file_path (path : string) : bool :=
  negb (str_contains ".." path) && negb (starts_with "/" path) && negb (str_is_empty path).

(** The segments the folder check skips. *)
Definition skipped_segment (seg : string) : bool :=
  str_is_empty seg || (seg == "~") || (seg == ".") || (seg == "..").

Definition numeric_only (seg : string) : bool := str_all is_ascii_digit seg.

(** The loop of [validate_watcher_folder_with_options] over the segments:
    [Err seg] names the first segment that is rejected. *)
Fixpoint check_segments (allowed : string → bool) (segs : list string) : result unit string :=
  match segs with
  | [] => Ok tt
  | seg :: rest =>
      if skipped_segment seg then check_segments allowed rest
      else if numeric_only seg && negb (allowed seg) then Err seg
      else check_segments allowed rest
  end.

Section validator.
(** [Regex::new(p).ok()] of the regex crate, as the compiled match function. *)
Context (regex_new : string → option (string → bool)).

Definition segment_allowed (whitelist_csv : string) (regex_pattern : option string)
    (seg : string) : bool :=
  let whitelist := List.filter (λ s, negb (str_is_empty s)) (trim <$> split_char "," whitelist_csv) in
  let regex_opt := match regex_pattern with
                   | Some pat => if str_is_empty (trim pat) then None else regex_new (trim pat)
                   | None => None
                   end in
  bool_decide (seg ∈ whitelist) || match regex_opt with Some re => re seg | None => false end.

(** [validate_watcher_folder_with_options]. *)
Definition validate_watcher_folder_with_options (folder : string) (allow_numeric : bool)
    (whitelist_csv : string) (regex_pattern : option string) : result unit string :=
  if allow_numeric then Ok tt
  else map_err (λ seg,
    "Watcher folder contains numeric-only segment '" +:+ seg +:+
    "' which is not allowed (enable allow_numeric or whitelist/regex)")
    (check_segments (segment_allowed whitelist_csv regex_pattern) (split_char "/" folder)).

(** [validate_watcher_folder] reads the same three options from the
    environment, [env] being [std::env::var(_).ok()]. *)
Definition validate_watcher_folder (env : string → option string) (folder : string)
    : result unit string :=
  let allow_numeric := default "0" (env "WATCHER_FOLDER_ALLOW_NUMERIC") == "1" in
  if allow_numeric then Ok tt
  else map_err (λ seg,
    "Watcher folder contains numeric-only segment '" +:+ seg +:+
    "' which is not allowed (set WATCHER_FOLDER_ALLOW_NUMERIC=1 or whitelist/regex)")
    (check_segments
       (segment_allowed (default "" (env "WATCHER_FOLDER_NUMERIC_SEGMENT_WHITELIST"))
                        (env "WATCHER_FOLDER_NUMERIC_SEGMENT_REGEX"))
       (split_char "/" folder)).

End validator.

(** ** Properties of normalisation *)

Lemma str_drop_app p t : str_drop (String.length p) (p +:+ t) = t.
Proof. induction p as [|a p IH]; [by destruct t|done]. Qed.

Lemma trim_end_tilde u : trim_end ("~/" +:+ u) = "~/" +:+ trim_end u.
Proof. cbn [String.append]. by rewrite !trim_end_solid. Qed.

(** The shapes of a normalised path: [~], [~/], or [~/] followed by a
    non-empty rest without trailing white space. *)
Inductive normal_form : string → Prop :=
| nf_home : normal_form "~"
| nf_home_slash : normal_form "~/"
| nf_below u : u ≠ "" → trim_end u = u → normal_form ("~/" +:+ u).

Create HintDb paths.
#[export] Hint Constructors normal_form : paths.

Lemma nf_slash t p : trim_end (p +:+ String "/" t) = p +:+ String "/" t →
  String "/" t ≠ "/" → normal_form ("~" +:+ String "/" t).
Proof.
  intros Ht%trim_end_suffix Hne. apply (nf_below t); [congruence|].
  by apply (trim_end_suffix "/").
Qed.

Lemma normalize_normal_form path : normal_form (normalize_uncached path).
Proof.
  unfold normalize_uncached. destruct (str_is_empty path); [constructor|].
  pose proof (trim_end_trim path) as Htrim. revert Htrim. generalize (trim path) as t. intros t Ht.
  destruct (str_is_empty t) eqn:Hne; [constructor|].
  destruct (_ || _); [constructor|].
  assert (t ≠ "") as Ht0 by (intros ->; done).
  destruct (starts_with "~/" t) eqn:E1.
  { apply starts_with_spec in E1 as [u ->]. destruct u as [|a u]; [constructor|].
    apply nf_below; [done|]. by apply trim_end_suffix in Ht. }
  destruct (starts_with "/" t) eqn:E2.
  { destruct (starts_with "/home/" t) eqn:E3.
    - apply starts_with_spec in E3 as [u ->].
      change 6%nat with (String.length "/home/"). rewrite str_drop_app.
      case_match; [constructor|]. destruct (find_char "/" u) as [n|] eqn:E4; [|constructor].
      destruct (find_char_Some _ _ _ E4) as (p & v & -> & -> & _). cbn [str_is_empty orb].
      case_bool_decide; [constructor|]. rewrite <-app_str_assoc in Ht. by eapply nf_slash.
    - apply starts_with_spec in E2 as [u ->]. case_bool_decide; [constructor|].
      by apply (nf_slash u ""). }
  destruct (starts_with "./" t) eqn:E5.
  { apply starts_with_spec in E5 as [u ->].
    change 2%nat with (String.length "./"). rewrite str_drop_app.
    case_match; [constructor|]. destruct u as [|a u]; [constructor|].
    apply nf_below; [done|]. by apply trim_end_suffix in Ht. }
  repeat case_match; by apply nf_below.
Qed.

Lemma normal_form_trim r : normal_form r → trim r = r.
Proof.
  intros [| |u Hu Ht]; [done|done|]. change (trim (String "~" ("/" +:+ u)) = "~/" +:+ u).
  rewrite trim_solid by done. change ("~" +:+ trim_end ("/" +:+ u) = "~/" +:+ u).
  cbn [String.append]. by rewrite trim_end_solid, Ht.
Qed.

(** A normal form other than [~] and [~/.] is a fixed point. *)
Lemma normalize_fixed r : normal_form r → r ≠ "~" → r ≠ "~/." → normalize_uncached r = r.
Proof.
  intros Hnf H1 H2. unfold normalize_uncached. rewrite (normal_form_trim _ Hnf).
  rewrite !bool_decide_eq_false_2 by done. by destruct Hnf.
Qed.

(** Every path is normalised to [~] or to a path below [~/]. *)
Theorem normalize_home_relative path :
  is_home_relative_path (normalize_uncached path) = true.
Proof. by destruct (normalize_normal_form path). Qed.

(** Normalising a stored path again gives the stored path, except for the
    two spellings [~] and [~/.] of the home directory, which become [~/]; and a
    second application always reaches a fixed point. *)
Theorem normalize_idempotent path :
  normalize_uncached (normalize_uncached path) =
    (if (normalize_uncached path == "~") || (normalize_uncached path == "~/.") then "~/"
     else normalize_uncached path)
  ∧ normalize_uncached (normalize_uncached (normalize_uncached path)) =
    normalize_uncached (normalize_uncached path).
Proof.
  pose proof (normalize_normal_form path) as Hnf. revert Hnf.
  generalize (normalize_uncached path) as r. intros r Hnf.
  destruct (decide (r = "~")) as [->|H1]; [done|].
  destruct (decide (r = "~/.")) as [->|H2]; [done|].
  rewrite !(normalize_fixed r) by done. by rewrite !bool_decide_eq_false_2.
Qed.

(** The home directory has two stored spellings: an absolute path to it is
    stored as [~], which normalises to the different string [~/]. *)
Theorem normalize_home_twice user :
  contains_char "/" user = false → trim_end user = user → user ≠ "" →
  normalize_uncached ("/home/" +:+ user) = "~"
  ∧ normalize_uncached (normalize_uncached ("/home/" +:+ user)) = "~/".
Proof.
  intros Hc Ht Hne. enough (Heq : normalize_uncached ("/home/" +:+ user) = "~") by by rewrite Heq.
  assert (trim ("/home/" +:+ user) = "/home/" +:+ user) as Htr.
  { cbn [String.append]. rewrite trim_solid by done. by rewrite !trim_end_solid, Ht by done. }
  unfold normalize_uncached. rewrite Htr. cbn -[str_len].
  repeat case_match; try done. by apply find_char_None in Hc; destruct user; simplify_eq.
Qed.

Lemma normalize_home_twice_witness :
  normalize_uncached ("/home/" +:+ "alice") = "~"
  ∧ normalize_uncached (normalize_uncached ("/home/" +:+ "alice")) = "~/".
Proof. by apply (normalize_home_twice "alice"). Defined.

(** The memo table is transparent: over a table that holds only computed
    values the function returns what the branches compute, and leaves such a
    table, with no entry lost. *)
Theorem normalize_memo path cache :
  cache_ok cache →
  (normalize_path_preserve_tilde path cache).1 = normalize_uncached path
  ∧ cache_ok (normalize_path_preserve_tilde path cache).2
  ∧ ∀ c c', cache = Some c → (normalize_path_preserve_tilde path cache).2 = Some c' → c ⊆ c'.
Proof.
  intros Hok. unfold normalize_path_preserve_tilde, cache_insert.
  destruct cache as [c|]; cbn; [|by repeat case_match].
  destruct (str_len path <=? 256); cbn; [|naive_solver].
  destruct (c !! path) as [v|] eqn:E; cbn.
  { split_and!; [by eapply Hok|done|naive_solver]. }
  split_and!; [done| |].
  - intros c' p v [= <-]. rewrite lookup_insert. case_decide; naive_solver.
  - intros c1 c2 [= <-] [= <-]. by apply insert_subseteq.
Qed.

Lemma normalize_memo_witness :
  (normalize_path_preserve_tilde "/etc/hosts" (Some ∅)).1 = normalize_uncached "/etc/hosts".
Proof. apply (normalize_memo "/etc/hosts" (Some ∅)). intros c p v [= <-] Hl. done. Defined.

(** ** Properties of validation *)

Lemma check_segments_ok allowed segs :
  check_segments allowed segs = Ok tt ↔
  ∀ seg, seg ∈ segs → skipped_segment seg = false → numeric_only seg = true → allowed seg = true.
Proof.
  induction segs as [|s segs IH]; cbn [check_segments].
  { split; [|done]. by intros _ seg ?%elem_of_nil. }
  setoid_rewrite elem_of_cons.
  destruct (skipped_segment s) eqn:E1; [rewrite IH; naive_solver congruence|].
  destruct (numeric_only s) eqn:E2, (allowed s) eqn:E3; cbn;
    try (rewrite IH; naive_solver congruence).
  split; [done|]. intros Hall. rewrite (Hall s) in E3; [done|by left|done|done].
Qed.

Lemma check_segments_err allowed segs seg :
  check_segments allowed segs = Err seg →
  seg ∈ segs ∧ skipped_segment seg = false ∧ numeric_only seg = true ∧ allowed seg = false.
Proof.
  rewrite list_elem_of_In.
  induction segs as [|s segs IH]; cbn [check_segments]; [done|].
  destruct (skipped_segment s) eqn:E1; [naive_solver|].
  destruct (numeric_only s) eqn:E2, (allowed s) eqn:E3; cbn; naive_solver.
Qed.

(** A watcher folder is accepted exactly when the check is switched off or
    every numeric-only segment is white-listed or matched by the pattern, and a
    rejection names such a segment. *)
Theorem validate_watcher_folder_spec regex_new folder allow_numeric csv pat :
  (validate_watcher_folder_with_options regex_new folder allow_numeric csv pat = Ok tt ↔
   allow_numeric = true ∨
   ∀ seg, seg ∈ split_char "/" folder → skipped_segment seg = false → numeric_only seg = true →
     segment_allowed regex_new csv pat seg = true)
  ∧ ∀ e, validate_watcher_folder_with_options regex_new folder allow_numeric csv pat = Err e →
     ∃ seg, seg ∈ split_char "/" folder ∧ numeric_only seg = true ∧
       segment_allowed regex_new csv pat seg = false ∧ str_contains seg e = true.
Proof.
  unfold validate_watcher_folder_with_options. destruct allow_numeric; [naive_solver|].
  rewrite <-check_segments_ok.
  destruct (check_segments _ _) as [[]|seg] eqn:E; cbn [map_err]; [naive_solver|].
  split; [naive_solver|]. intros e He. apply (inj Err) in He as <-. destruct (check_segments_err _ _ _ E) as (?&?&?&?).
  exists seg. split_and!; try done. exact (str_contains_app seg _ _).
Qed.
