(* ===== verification/Memory.v ===== *)
(** * The in-memory storage (src/storage/memory.rs)

    [StorageData] is the record behind the mutex of [MemoryStorage]; every
    method locks it for its whole body, so a method is a function of the state:
    a query returns a result, an update a result and the next state.  Loops
    over a [HashMap] use the unspecified order of [HashIter]. *)

From S2P Require Import Prelude RustString Errors Models Paths.

Record StorageData := mkStorageData {
  accounts : gmap string Account;
  devices : gmap string Device;
  files : gmap Z FileInfo;
  file_data : gmap Z (list Byte.byte);
  watcher_groups : gmap Z WatcherGroup;
  watchers : gmap Z Watcher;
  watcher_presets : gmap string (list string);
  auth_tokens : gmap string AuthToken;
  encryption_keys : gmap string string;
  next_file_id : Z;
  next_condition_id : Z;
  watcher_conditions : gmap Z WatcherCondition
}.

(** [StorageData::new]. *)
Definition StorageData_new : StorageData :=
  {| accounts := ∅; devices := ∅; files := ∅; file_data := ∅; watcher_groups := ∅;
     watchers := ∅; watcher_presets := ∅; auth_tokens := ∅; encryption_keys := ∅;
     next_file_id := 1; next_condition_id := 1; watcher_conditions := ∅ |}.

(** Assignments to one field. *)
Definition set_accounts x d :=
  mkStorageData x (devices d) (files d) (file_data d) (watcher_groups d) (watchers d)
    (watcher_presets d) (auth_tokens d) (encryption_keys d) (next_file_id d)
    (next_condition_id d) (watcher_conditions d).
Definition set_devices x d :=
  mkStorageData (accounts d) x (files d) (file_data d) (watcher_groups d) (watchers d)
    (watcher_presets d) (auth_tokens d) (encryption_keys d) (next_file_id d)
    (next_condition_id d) (watcher_conditions d).
Definition set_files x d :=
  mkStorageData (accounts d) (devices d) x (file_data d) (watcher_groups d) (watchers d)
    (watcher_presets d) (auth_tokens d) (encryption_keys d) (next_file_id d)
    (next_condition_id d) (watcher_conditions d).
Definition set_file_data x d :=
  mkStorageData (accounts d) (devices d) (files d) x (watcher_groups d) (watchers d)
    (watcher_presets d) (auth_tokens d) (encryption_keys d) (next_file_id d)
    (next_condition_id d) (watcher_conditions d).
Definition set_watcher_groups x d :=
  mkStorageData (accounts d) (devices d) (files d) (file_data d) x (watchers d)
    (watcher_presets d) (auth_tokens d) (encryption_keys d) (next_file_id d)
    (next_condition_id d) (watcher_conditions d).
Definition set_watchers x d :=
  mkStorageData (accounts d) (devices d) (files d) (file_data d) (watcher_groups d) x
    (watcher_presets d) (auth_tokens d) (encryption_keys d) (next_file_id d)
    (next_condition_id d) (watcher_conditions d).
Definition set_watcher_presets x d :=
  mkStorageData (accounts d) (devices d) (files d) (file_data d) (watcher_groups d) (watchers d)
    x (auth_tokens d) (encryption_keys d) (next_file_id d)
    (next_condition_id d) (watcher_conditions d).
Definition set_auth_tokens x d :=
  mkStorageData (accounts d) (devices d) (files d) (file_data d) (watcher_groups d) (watchers d)
    (watcher_presets d) x (encryption_keys d) (next_file_id d)
    (next_condition_id d) (watcher_conditions d).
Definition set_encryption_keys x d :=
  mkStorageData (accounts d) (devices d) (files d) (file_data d) (watcher_groups d) (watchers d)
    (watcher_presets d) (auth_tokens d) x (next_file_id d)
    (next_condition_id d) (watcher_conditions d).
Definition set_next_file_id x d :=
  mkStorageData (accounts d) (devices d) (files d) (file_data d) (watcher_groups d) (watchers d)
    (watcher_presets d) (auth_tokens d) (encryption_keys d) x
    (next_condition_id d) (watcher_conditions d).
Definition set_next_condition_id x d :=
  mkStorageData (accounts d) (devices d) (files d) (file_data d) (watcher_groups d) (watchers d)
    (watcher_presets d) (auth_tokens d) (encryption_keys d) (next_file_id d)
    x (watcher_conditions d).
Definition set_watcher_conditions x d :=
  mkStorageData (accounts d) (devices d) (files d) (file_data d) (watcher_groups d) (watchers d)
    (watcher_presets d) (auth_tokens d) (encryption_keys d) (next_file_id d)
    (next_condition_id d) x.

Abbreviation Res A := (result A StorageError).

Section operations.
Context `{HI : HashIter} `{UC : Unicode} `{CH : Chrono}.
Implicit Types (d : StorageData).

(** ** Accounts *)

Definition create_account (account : Account) d : Res unit * StorageData :=
  (Ok tt, set_accounts (<[a_account_hash account := account]> (accounts d)) d).

Definition get_account_by_id (id : string) d : Res (option Account) :=
  Ok (snd <$> hm_find (λ _ account, a_user_id account == id) (accounts d)).

Definition get_account_by_email (email : string) d : Res (option Account) :=
  Ok (snd <$> hm_find (λ _ account, to_lowercase (a_email account) == to_lowercase email)
                (accounts d)).

Definition get_account_by_hash (account_hash : string) d : Res (option Account) :=
  Ok (accounts d !! account_hash).

Definition update_account (account : Account) d : Res unit * StorageData :=
  (Ok tt, set_accounts (<[a_account_hash account := account]> (accounts d)) d).

Definition delete_account (account_hash : string) d : Res unit * StorageData :=
  (Ok tt, set_accounts (delete account_hash (accounts d)) d).

Definition list_accounts (limit : option Z) (offset : option Z) d : Res (list Account) :=
  Ok (hm_values (accounts d)).

(** ** Tokens *)

Definition create_auth_token (auth_token : AuthToken) d : Res unit * StorageData :=
  (Ok tt, set_auth_tokens (<[at_access_token auth_token := auth_token]> (auth_tokens d)) d).

Definition get_auth_token (token : string) d : Res (option AuthToken) :=
  Ok (auth_tokens d !! token).

Definition validate_auth_token (token account_hash : string) d : Res bool :=
  match auth_tokens d !! token with
  | Some auth_token => Ok (at_account_hash auth_token == account_hash)
  | None => Ok false
  end.

Definition update_auth_token (auth_token : AuthToken) d : Res unit * StorageData :=
  (Ok tt, set_auth_tokens (<[at_access_token auth_token := auth_token]> (auth_tokens d)) d).

Definition delete_auth_token (token : string) d : Res unit * StorageData :=
  (Ok tt, set_auth_tokens (delete token (auth_tokens d)) d).

(** ** Devices *)

Definition register_device (device : Device) d : Res unit * StorageData :=
  let key := pair_key (d_account_hash device) (d_device_hash device) in
  (Ok tt, set_devices (<[key := device]> (devices d)) d).

Definition get_device (account_hash device_hash : string) d : Res (option Device) :=
  Ok (devices d !! pair_key account_hash device_hash).

Definition list_devices (account_hash : string) d : Res (list Device) :=
  Ok (hm_filter_values (λ device, d_account_hash device == account_hash) (devices d)).

Definition update_device (device : Device) d : Res unit * StorageData :=
  let key := pair_key (d_account_hash device) (d_device_hash device) in
  (Ok tt, set_devices (<[key := device]> (devices d)) d).

Definition delete_device (account_hash device_hash : string) d : Res unit * StorageData :=
  (Ok tt, set_devices (delete (pair_key account_hash device_hash) (devices d)) d).

Definition validate_device (account_hash device_hash : string) d : Res bool :=
  Ok (hm_contains (pair_key account_hash device_hash) (devices d)).

Definition get_devices_for_account (account_hash : string) d : Res (list Device) :=
  Ok (hm_filter_values (λ device, d_account_hash device == account_hash) (devices d)).

(** ** Files *)

Definition store_file_info (file : FileInfo) d : Res Z * StorageData :=
  let '(file_id, d) :=
    if fi_file_id file =? 0
    then (next_file_id d, set_next_file_id (wrap_u64 (next_file_id d + 1)) d)
    else (fi_file_id file, d) in
  let file_info := fi_with_file_id file file_id in
  (Ok file_id, set_files (<[file_id := file_info]> (files d)) d).

Definition get_file_info (file_id : Z) d : Res (option FileInfo) := Ok (files d !! file_id).

Definition get_file_info_by_path (account_hash file_path : string) (group_id : Z) d
    : Res (option FileInfo) :=
  Ok (snd <$> hm_find (λ _ file,
        (fi_account_hash file == account_hash) && (fi_file_path file == file_path)
        && (fi_group_id file =? group_id)) (files d)).

Definition get_file_by_hash (account_hash file_hash : string) d : Res (option FileInfo) :=
  Ok (snd <$> hm_find (λ _ file,
        (fi_account_hash file == account_hash) && (fi_file_hash file == file_hash)) (files d)).

(** [if let Some(time) = upload_time_from { seconds >= time } else { true }]. *)
Definition since (upload_time_from : option Z) (file : FileInfo) : bool :=
  match upload_time_from with
  | Some time => time <=? ts_seconds (fi_updated_time file)
  | None => true
  end.

Definition list_files (account_hash : string) (group_id : Z) (upload_time_from : option Z) d
    : Res (list FileInfo) :=
  Ok (hm_filter_values (λ file,
        (fi_account_hash file == account_hash) && (fi_group_id file =? group_id)
        && since upload_time_from file) (files d)).

Definition list_files_except_device (account_hash : string) (group_id : Z)
    (exclude_device_hash : string) (upload_time_from : option Z) d : Res (list FileInfo) :=
  Ok (hm_filter_values (λ file,
        (fi_account_hash file == account_hash) && (fi_group_id file =? group_id)
        && (fi_device_hash file != exclude_device_hash)
        && since upload_time_from file) (files d)).

Definition delete_file (account_hash : string) (file_id : Z) d : Res unit * StorageData :=
  match files d !! file_id with
  | Some file =>
      if fi_account_hash file == account_hash then
        (Ok tt, set_files (delete file_id (files d))
                  (set_file_data (delete file_id (file_data d)) d))
      else (Err (PermissionDenied ("File not owned by user: " +:+ account_hash)), d)
  | None => (Err (NotFound ("File not found: " +:+ pretty file_id)), d)
  end.

Definition store_file_data (file_id : Z) (data_bytes : list Byte.byte) d : Res unit * StorageData :=
  (Ok tt, set_file_data (<[file_id := data_bytes]> (file_data d)) d).

Definition get_file_data (file_id : Z) d : Res (option (list Byte.byte)) :=
  Ok (file_data d !! file_id).

Definition find_file_by_path_and_name (account_hash file_path filename : string) (revision : Z) d
    : Res (option FileInfo) :=
  Ok (snd <$> hm_find (λ _ file,
        (fi_account_hash file == account_hash) && (fi_file_path file == file_path)
        && (fi_filename file == filename)
        && ((revision =? 0) || (fi_revision file =? revision))) (files d)).

Definition find_file_by_criteria (account_hash : string) (group_id watcher_id : Z)
    (file_path filename : string) d : Res (option FileInfo) :=
  Ok (snd <$> hm_find (λ _ file,
        (fi_account_hash file == account_hash) && (fi_group_id file =? group_id)
        && (fi_watcher_id file =? watcher_id) && (fi_file_path file == file_path)
        && (fi_filename file == filename)) (files d)).

Definition get_file_info_include_deleted (file_id : Z) d : Res (option (FileInfo * bool)) :=
  x <-? get_file_info file_id d;
  match x with
  | Some info => Ok (Some (info, false))
  | None => Ok None
  end.

Definition check_file_exists (file_id : Z) d : Res (bool * bool) :=
  match files d !! file_id with
  | Some _ => Ok (true, false)
  | None => Ok (false, false)
  end.

(** ** Encryption keys *)

Definition store_encryption_key (account_hash encryption_key : string) d : Res unit * StorageData :=
  (Ok tt, set_encryption_keys (<[account_hash := encryption_key]> (encryption_keys d)) d).

Definition get_encryption_key (account_hash : string) d : Res (option string) :=
  Ok (encryption_keys d !! account_hash).

(** ** Watcher groups *)

Definition wg_with_id (g : WatcherGroup) (id : Z) (ids : list Z) : WatcherGroup :=
  mkWatcherGroup id (wg_group_id g) (wg_account_hash g) (wg_title g) (wg_created_at g)
    (wg_updated_at g) (wg_is_active g) ids.

Definition register_watcher_group (account_hash device_hash : string)
    (watcher_group : WatcherGroup) d : Res Z * StorageData :=
  let server_id := next_key_i32 (watcher_groups d) in
  let group := wg_with_id watcher_group server_id (wg_watcher_ids watcher_group) in
  (Ok server_id, set_watcher_groups (<[server_id := group]> (watcher_groups d)) d).

Definition get_watcher_groups (account_hash : string) d : Res (list WatcherGroup) :=
  Ok (hm_filter_values (λ group, wg_account_hash group == account_hash) (watcher_groups d)).

Definition get_user_watcher_group (account_hash : string) (group_id : Z) d
    : Res (option WatcherGroup) :=
  match watcher_groups d !! group_id with
  | Some group => if wg_account_hash group == account_hash then Ok (Some group) else Ok None
  | None => Ok None
  end.

Definition update_watcher_group (account_hash : string) (watcher_group : WatcherGroup) d
    : Res unit * StorageData :=
  let id := wg_id watcher_group in
  match watcher_groups d !! id with
  | Some group =>
      if wg_account_hash group != account_hash
      then (Err (PermissionDenied "Not the owner of the watcher group"), d)
      else (Ok tt, set_watcher_groups (<[id := watcher_group]> (watcher_groups d)) d)
  | None => (Err (NotFound "Watcher group not found"), d)
  end.

Definition delete_watcher_group (account_hash : string) (group_id : Z) d
    : Res unit * StorageData :=
  match watcher_groups d !! group_id with
  | Some group =>
      if wg_account_hash group == account_hash then
        let watcher_ids := hm_filter_keys (λ _ w,
          (w_account_hash w == account_hash) && (w_group_id w =? group_id)) (watchers d) in
        let condition_ids := hm_filter_keys (λ _ c,
          bool_decide (wc_watcher_id c ∈ watcher_ids)) (watcher_conditions d) in
        let d := set_watcher_conditions (hm_remove_all condition_ids (watcher_conditions d)) d in
        let d := set_watchers (hm_remove_all watcher_ids (watchers d)) d in
        (Ok tt, set_watcher_groups (delete group_id (watcher_groups d)) d)
      else (Err (PermissionDenied "Not the owner of the watcher group"), d)
  | None => (Err (NotFound "Watcher group not found"), d)
  end.

Definition get_watcher_group_by_account_and_id (account_hash : string) (group_id : Z) d
    : Res (option sync_WatcherGroupData) :=
  match watcher_groups d !! group_id with
  | Some group =>
      if wg_account_hash group != account_hash then Ok None
      else Ok (Some (mk_sync_WatcherGroupData (wg_group_id group) (wg_title group) [] None))
  | None => Ok None
  end.

(** ** Presets *)

Definition register_watcher_preset_proto (account_hash device_hash : string)
    (presets : list string) d : Res unit * StorageData :=
  (Ok tt, set_watcher_presets (<[account_hash := presets]> (watcher_presets d)) d).

Definition update_watcher_preset_proto (account_hash device_hash : string)
    (presets : list string) d : Res unit * StorageData :=
  (Ok tt, set_watcher_presets (<[account_hash := presets]> (watcher_presets d)) d).

Definition get_watcher_preset (account_hash : string) d : Res (list string) :=
  Ok (default [] (watcher_presets d !! account_hash)).

(** ** Watchers *)

(** Paths are normalised through the memo table, which is transparent. *)
Definition find_watcher_by_folder (account_hash : string) (group_id : Z) (folder : string) d
    : Res (option Z) :=
  let normalized_folder := normalize_uncached folder in
  Ok (fst <$> hm_find (λ _ watcher,
        (w_account_hash watcher == account_hash) && (w_group_id watcher =? group_id)
        && (w_folder watcher == normalized_folder)) (watchers d)).

(** Allocation of the next condition id and insertion of the condition. *)
Definition insert_condition (mk : Z → WatcherCondition) d : StorageData :=
  let condition_id := next_condition_id d in
  let d := set_next_condition_id (wrap_i64 (condition_id + 1)) d in
  set_watcher_conditions (<[condition_id := mk condition_id]> (watcher_conditions d)) d.

Definition insert_conditions (mks : list (Z → WatcherCondition)) d : StorageData :=
  foldl (λ acc mk, insert_condition mk acc) d mks.

(** The condition row built for one condition of the request. *)
Definition condition_row (account_hash : string) (server_watcher_id local_watcher_id group_id : Z)
    (ty : ConditionType) (at_time : DateTime) (c : sync_ConditionData) (condition_id : Z)
    : WatcherCondition :=
  {| wc_id := Some condition_id; wc_account_hash := account_hash;
     wc_watcher_id := server_watcher_id; wc_local_watcher_id := local_watcher_id;
     wc_local_group_id := group_id; wc_condition_type := ty; wc_key := scd_key c;
     wc_value := scd_value c; wc_operator := "equals"; wc_created_at := at_time;
     wc_updated_at := at_time |}.

(** The [Watcher] struct built for the request. *)
Definition watcher_row (account_hash : string) (group_id next_id : Z)
    (watcher_data : sync_WatcherData) (at_time : DateTime) : Watcher :=
  {| w_id := next_id; w_watcher_id := swd_watcher_id watcher_data;
     w_account_hash := account_hash; w_group_id := group_id; w_local_group_id := group_id;
     w_title := "Watcher " +:+ pretty next_id;
     w_folder := normalize_uncached (swd_folder watcher_data);
     w_union_conditions := Condition_from_sync <$> swd_union_conditions watcher_data;
     w_subtracting_conditions := Condition_from_sync <$> swd_subtracting_conditions watcher_data;
     w_recursive_path := swd_recursive_path watcher_data; w_preset := swd_preset watcher_data;
     w_custom_type := swd_custom_type watcher_data; w_update_mode := swd_update_mode watcher_data;
     w_created_at := at_time; w_updated_at := at_time; w_is_active := true;
     w_extra_json := swd_extra_json watcher_data |}.

(** The last step of a creation: the group lists its new watcher. *)
Definition add_watcher_to_group (group_id next_id : Z) d : StorageData :=
  match watcher_groups d !! group_id with
  | Some group =>
      if bool_decide (next_id ∈ wg_watcher_ids group) then d
      else set_watcher_groups
             (<[group_id := wg_with_id group (wg_id group) (wg_watcher_ids group ++ [next_id])]>
                (watcher_groups d)) d
  | None => d
  end.

(** [now] is the clock of the fallback for a time stamp out of range. *)
Definition create_watcher_with_conditions (account_hash : string) (group_id : Z)
    (watcher_data : sync_WatcherData) (timestamp : Z) (now : DateTime) d : Res Z * StorageData :=
  let next_id := next_key_i32 (watchers d) in
  let at_time := default now (from_timestamp timestamp 0) in
  let watcher := watcher_row account_hash group_id next_id watcher_data at_time in
  let d := set_watchers (<[next_id := watcher]> (watchers d)) d in
  let row := condition_row account_hash next_id (swd_watcher_id watcher_data) group_id in
  let d := insert_conditions (row Union at_time <$> swd_union_conditions watcher_data) d in
  let d := insert_conditions (row Subtract at_time <$> swd_subtracting_conditions watcher_data) d in
  (Ok next_id, add_watcher_to_group group_id next_id d).

(** The message built from a stored watcher. *)
Definition get_watcher_by_group_and_id (account_hash : string) (group_id watcher_id : Z) d
    : Res (option sync_WatcherData) :=
  Ok (sync_WatcherData_from_Watcher ∘ snd <$> hm_find (λ _ watcher,
        (w_account_hash watcher == account_hash) && (w_local_group_id watcher =? group_id)
        && (w_watcher_id watcher =? watcher_id)) (watchers d)).

(** ** Client and server identifiers *)

Definition get_server_group_id (account_hash : string) (client_group_id : Z) d
    : Res (option Z) :=
  Ok (fst <$> hm_find (λ _ group,
        (wg_account_hash group == account_hash) && (wg_group_id group =? client_group_id))
        (watcher_groups d)).

Definition get_server_ids (account_hash : string) (client_group_id client_watcher_id : Z) d
    : Res (option (Z * Z)) :=
  let server_group_id := fst <$> hm_find (λ _ group,
        (wg_account_hash group == account_hash) && (wg_group_id group =? client_group_id))
        (watcher_groups d) in
  match server_group_id with
  | Some group_id =>
      Ok ((λ kw, (group_id, kw.1)) <$> hm_find (λ _ watcher,
            (w_account_hash watcher == account_hash)
            && (w_local_group_id watcher =? client_group_id)
            && (w_watcher_id watcher =? client_watcher_id)) (watchers d))
  | None => Ok None
  end.

Definition get_client_watcher_id (account_hash : string)
    (server_group_id server_watcher_id : Z) d : Res (option (Z * Z)) :=
  Ok (Some (server_group_id, server_watcher_id)).

Definition check_duplicate_watcher_group (account_hash : string) (local_group_id : Z) d
    : Res (option Z) :=
  Ok (fst <$> hm_find (λ _ group,
        (wg_account_hash group == account_hash) && (wg_group_id group =? local_group_id))
        (watcher_groups d)).

Definition check_duplicate_watcher (account_hash : string) (local_watcher_id : Z) d
    : Res (option Z) :=
  Ok (fst <$> hm_find (λ _ watcher,
        (w_account_hash watcher == account_hash) && (w_watcher_id watcher =? local_watcher_id))
        (watchers d)).

(** ** Conditions *)

Definition wc_with_id (c : WatcherCondition) (id : option Z) (watcher_id : Z) : WatcherCondition :=
  mkWatcherCondition id (wc_account_hash c) watcher_id (wc_local_watcher_id c)
    (wc_local_group_id c) (wc_condition_type c) (wc_key c) (wc_value c) (wc_operator c)
    (wc_created_at c) (wc_updated_at c).

Definition create_watcher_condition (condition : WatcherCondition) d : Res Z * StorageData :=
  (Ok (next_condition_id d),
   insert_condition (λ new_id, wc_with_id condition (Some new_id) (wc_watcher_id condition)) d).

Definition get_watcher_conditions (account_hash : string) (watcher_id : Z) d
    : Res (list WatcherCondition) :=
  Ok (hm_filter_values (λ condition,
        (wc_watcher_id condition =? watcher_id) && (wc_account_hash condition == account_hash))
        (watcher_conditions d)).

Definition update_watcher_condition (condition : WatcherCondition) d : Res unit * StorageData :=
  match wc_id condition with
  | None => (Err (ValidationError "Condition ID is required for update"), d)
  | Some condition_id =>
      if hm_contains condition_id (watcher_conditions d) then
        (Ok tt, set_watcher_conditions (<[condition_id := condition]> (watcher_conditions d)) d)
      else (Err (NotFound ("Condition with ID " +:+ pretty condition_id +:+ " not found")), d)
  end.

Definition delete_watcher_condition (condition_id : Z) d : Res unit * StorageData :=
  match watcher_conditions d !! condition_id with
  | Some _ => (Ok tt, set_watcher_conditions (delete condition_id (watcher_conditions d)) d)
  | None => (Err (NotFound ("Condition with ID " +:+ pretty condition_id +:+ " not found")), d)
  end.

Definition remove_conditions_of (watcher_id : Z) d : StorageData :=
  let condition_ids := hm_filter_keys (λ _ condition, wc_watcher_id condition =? watcher_id)
                         (watcher_conditions d) in
  set_watcher_conditions (hm_remove_all condition_ids (watcher_conditions d)) d.

Definition delete_all_watcher_conditions (watcher_id : Z) d : Res unit * StorageData :=
  (Ok tt, remove_conditions_of watcher_id d).

Definition save_watcher_conditions (watcher_id : Z) (conditions : list WatcherCondition) d
    : Res unit * StorageData :=
  let d := remove_conditions_of watcher_id d in
  (Ok tt, insert_conditions
            ((λ condition new_id, wc_with_id condition (Some new_id) watcher_id) <$> conditions) d).

Definition register_watcher_condition (account_hash : string) (condition : WatcherCondition) d
    : Res Z * StorageData := create_watcher_condition condition d.

Definition get_watcher_condition (condition_id : Z) d : Res (option WatcherCondition) :=
  Ok (watcher_conditions d !! condition_id).

Definition get_watcher_conditions_by_watcher (account_hash : string) (watcher_id : Z) d
    : Res (list WatcherCondition) := get_watcher_conditions account_hash watcher_id d.

(** ** Methods without storage behind them *)

Definition store_file_notice (file_notice : FileNotice) d : Res unit * StorageData := (Ok tt, d).
Definition get_file_notices (account_hash device_hash : string) d : Res (list FileNotice) := Ok [].
Definition delete_file_notice (account_hash device_hash : string) (file_id : Z) d
    : Res unit * StorageData := (Ok tt, d).
Definition get_file_history (account_hash file_path : string) (group_id : Z) d
    : Res (list SyncFile) := Ok [].
Definition get_file_versions_by_id (account_hash : string) (file_id : Z) d
    : Res (list SyncFile) := Ok [].
Definition get_file_by_revision (account_hash : string) (file_id revision : Z) d : Res SyncFile :=
  Err (NotFound ("File version not found in MemoryStorage: file_id=" +:+ pretty file_id
                 +:+ ", revision=" +:+ pretty revision)).
Definition store_file (file : SyncFile) d : Res unit * StorageData := (Ok tt, d).
Definition cleanup_expired_tokens d : Res Z * StorageData := (Ok 0, d).
Definition purge_deleted_files_older_than (ttl_secs : Z) d : Res Z * StorageData := (Ok 0, d).
Definition trim_old_revisions (max_revisions : Z) d : Res Z * StorageData := (Ok 0, d).
Definition batch_store_files (files : list FileInfo) d : Res (list (Z * bool)) * StorageData :=
  (Err (NotImplemented "batch_store_files not implemented"), d).
Definition batch_delete_files (account_hash : string) (file_ids : list Z) d
    : Res (list bool) * StorageData :=
  (Err (NotImplemented "batch_delete_files not implemented"), d).
Definition batch_create_accounts (accs : list Account) d : Res (list bool) * StorageData :=
  (Err (NotImplemented "batch_create_accounts not implemented"), d).
Definition update_encryption_key (account_hash encryption_key : string) d : Res unit * StorageData :=
  (Err (NotImplemented "update_encryption_key not implemented"), d).
Definition delete_encryption_key (account_hash : string) d : Res unit * StorageData :=
  (Err (NotImplemented "delete_encryption_key not implemented"), d).

End operations.
