(* ===== verification/MemoryProps.v ===== *)
(** * Correctness of the in-memory storage

    The well-formedness of the state and its preservation by every update; the
    behaviour of each group of methods (files, devices, tokens, groups,
    watchers, conditions) against the finite map it implements. *)

From S2P Require Import Prelude RustString Errors Models Paths Memory.

Section props.
Context `{HI : HashIter} `{UC : Unicode} `{CH : Chrono}.
Implicit Types (d : StorageData).

(** ** Well-formed states *)

Definition i32 (z : Z) : Prop := i32_min ≤ z ≤ i32_max.
Definition i64 (z : Z) : Prop := i64_min ≤ z ≤ i64_max.
Definition u64 (z : Z) : Prop := 0 ≤ z ≤ u64_max.

(** Every row is stored under the key it carries, and every identifier fits
    its machine type. *)
Record wf d : Prop := {
  wf_accounts : map_Forall (λ k a, a_account_hash a = k) (accounts d);
  wf_tokens : map_Forall (λ k t, at_access_token t = k) (auth_tokens d);
  wf_devices : map_Forall (λ k v, pair_key (d_account_hash v) (d_device_hash v) = k) (devices d);
  wf_files : map_Forall (λ k f, fi_file_id f = k ∧ u64 k) (files d);
  wf_groups : map_Forall (λ k g, wg_id g = k ∧ i32 k) (watcher_groups d);
  wf_watchers : map_Forall (λ k w, w_id w = k ∧ i32 k) (watchers d);
  wf_conditions : map_Forall (λ k c, wc_id c = Some k ∧ i64 k) (watcher_conditions d);
  wf_next_file_id : u64 (next_file_id d);
  wf_next_condition_id : i64 (next_condition_id d)
}.

(** One update of the storage; arguments are values of their Rust types. *)
Inductive step : StorageData → StorageData → Prop :=
| step_create_account a d : step d (create_account a d).2
| step_update_account a d : step d (update_account a d).2
| step_delete_account h d : step d (delete_account h d).2
| step_create_auth_token t d : step d (create_auth_token t d).2
| step_update_auth_token t d : step d (update_auth_token t d).2
| step_delete_auth_token t d : step d (delete_auth_token t d).2
| step_register_device v d : step d (register_device v d).2
| step_update_device v d : step d (update_device v d).2
| step_delete_device a h d : step d (delete_device a h d).2
| step_store_file_info f d : u64 (fi_file_id f) → step d (store_file_info f d).2
| step_delete_file a i d : step d (delete_file a i d).2
| step_store_file_data i bs d : step d (store_file_data i bs d).2
| step_store_encryption_key a k d : step d (store_encryption_key a k d).2
| step_register_watcher_group a h g d : step d (register_watcher_group a h g d).2
| step_update_watcher_group a g d : i32 (wg_id g) → step d (update_watcher_group a g d).2
| step_delete_watcher_group a i d : step d (delete_watcher_group a i d).2
| step_register_watcher_preset a h ps d : step d (register_watcher_preset_proto a h ps d).2
| step_update_watcher_preset a h ps d : step d (update_watcher_preset_proto a h ps d).2
| step_create_watcher a g w t now d : step d (create_watcher_with_conditions a g w t now d).2
| step_create_condition c d : step d (create_watcher_condition c d).2
| step_update_condition c d : step d (update_watcher_condition c d).2
| step_delete_condition i d : step d (delete_watcher_condition i d).2
| step_delete_all_conditions i d : step d (delete_all_watcher_conditions i d).2
| step_save_conditions i cs d : step d (save_watcher_conditions i cs d).2.

(** The states the server can be in. *)
Inductive reachable : StorageData → Prop :=
| reachable_new : reachable StorageData_new
| reachable_step d d' : reachable d → step d d' → reachable d'.

(** *** Rows inserted by the condition loops *)

Lemma insert_condition_wf mk d :
  (∀ i, wc_id (mk i) = Some i) → wf d → wf (insert_condition mk d).
Proof.
  intros Hmk []. constructor; cbn; auto.
  - apply map_Forall_insert_2; auto.
  - apply wrap_i64_range.
Qed.

Lemma insert_conditions_wf mks d :
  Forall (λ mk, ∀ i, wc_id (mk i) = Some i) mks → wf d → wf (insert_conditions mks d).
Proof.
  unfold insert_conditions. intros Hmks. revert d.
  induction Hmks; intros d Hd; cbn; auto using insert_condition_wf.
Qed.

(** The loops touch the condition table and its counter only. *)
Lemma insert_conditions_frame mks d :
  insert_conditions mks d =
    set_next_condition_id (next_condition_id (insert_conditions mks d))
      (set_watcher_conditions (watcher_conditions (insert_conditions mks d)) d).
Proof.
  unfold insert_conditions. revert d. induction mks as [|mk mks IH]; intros d; [by destruct d|].
  cbn. rewrite IH at 1. by destruct d.
Qed.

Lemma insert_conditions_groups mks d : watcher_groups (insert_conditions mks d) = watcher_groups d.
Proof. by rewrite insert_conditions_frame. Qed.

Lemma insert_conditions_watchers mks d : watchers (insert_conditions mks d) = watchers d.
Proof. by rewrite insert_conditions_frame. Qed.

Lemma remove_conditions_of_wf i d : wf d → wf (remove_conditions_of i d).
Proof. intros []. constructor; cbn; auto. by apply map_Forall_remove_all. Qed.

Lemma condition_row_ids account sid lid gid ty t cs :
  Forall (λ mk, ∀ i, wc_id (mk i) = Some i) (condition_row account sid lid gid ty t <$> cs).
Proof. by apply Forall_fmap, Forall_true. Qed.

End props.

Create HintDb mem.
#[export] Hint Resolve map_Forall_empty wrap_u64_range wrap_i64_range next_key_i32_range
  condition_row_ids : mem.
#[export] Hint Unfold i32 i64 u64 : mem.

Section wf_preservation.
Context `{HI : HashIter} `{UC : Unicode} `{CH : Chrono}.
Implicit Types (d : StorageData).

Lemma wf_new : wf StorageData_new.
Proof. constructor; cbn; by auto with mem. Qed.

(** A row replaced in one table. *)
Ltac wf_solve :=
  match goal with H : wf _ |- wf _ => destruct H; constructor; cbn; auto with mem end;
  repeat first [ apply map_Forall_insert_2 | apply map_Forall_delete | apply map_Forall_remove_all ];
  auto with mem.

Lemma store_file_info_wf f d : u64 (fi_file_id f) → wf d → wf (store_file_info f d).2.
Proof.
  intros Hf Hd. unfold store_file_info. destruct (fi_file_id f =? 0); cbn; destruct Hd.
  - constructor; cbn; auto; [by apply map_Forall_insert_2|apply wrap_u64_range].
  - constructor; cbn; auto. by apply map_Forall_insert_2.
Qed.

Lemma register_watcher_group_wf a h g d : wf d → wf (register_watcher_group a h g d).2.
Proof.
  intros []. constructor; cbn; auto.
  apply map_Forall_insert_2; [|done]. split; [done|apply next_key_i32_range].
Qed.

Lemma update_watcher_group_wf a g d : i32 (wg_id g) → wf d → wf (update_watcher_group a g d).2.
Proof.
  intros Hg Hd. unfold update_watcher_group. repeat case_match; cbn; auto. wf_solve.
Qed.

Lemma delete_watcher_group_wf a i d : wf d → wf (delete_watcher_group a i d).2.
Proof.
  intros Hd. unfold delete_watcher_group. repeat case_match; cbn; auto. wf_solve.
Qed.

Lemma create_watcher_wf a g w t now d :
  wf d → wf (create_watcher_with_conditions a g w t now d).2.
Proof.
  intros Hd. unfold create_watcher_with_conditions; cbn [snd].
  match goal with |- wf (add_watcher_to_group _ _ ?d0) => set (d1 := d0); assert (wf d1) as Hd1 end.
  { subst d1. do 2 (apply insert_conditions_wf; [apply condition_row_ids|]).
    destruct Hd. constructor; cbn; auto.
    apply map_Forall_insert_2; [|done]. split; [done|apply next_key_i32_range]. }
  clearbody d1. unfold add_watcher_to_group.
  destruct (watcher_groups d1 !! g) as [grp|] eqn:E; [|done]. case_bool_decide; [done|].
  pose proof (wf_groups _ Hd1 _ _ E). destruct Hd1; constructor; cbn; auto.
  by apply map_Forall_insert_2.
Qed.

Lemma update_condition_wf c d : wf d → wf (update_watcher_condition c d).2.
Proof.
  intros Hd. unfold update_watcher_condition. destruct (wc_id c) as [i|] eqn:E; [|done].
  destruct (hm_contains _ _) eqn:E2; [|done]. apply hm_contains_true in E2 as [c' Hc'].
  pose proof (wf_conditions _ Hd _ _ Hc') as [_ Hi].
  destruct Hd; constructor; cbn; auto. by apply map_Forall_insert_2.
Qed.

Lemma save_conditions_wf i cs d : wf d → wf (save_watcher_conditions i cs d).2.
Proof.
  intros Hd. apply insert_conditions_wf; [|by apply remove_conditions_of_wf].
  by apply Forall_fmap, Forall_true.
Qed.

Lemma step_wf d d' : step d d' → wf d → wf d'.
Proof.
  destruct 1; intros Hd;
    eauto using store_file_info_wf, register_watcher_group_wf, update_watcher_group_wf,
      delete_watcher_group_wf, create_watcher_wf, update_condition_wf, save_conditions_wf,
      insert_condition_wf, remove_conditions_of_wf; try solve [wf_solve].
  - unfold delete_file. repeat case_match; cbn; auto. wf_solve.
  - unfold delete_watcher_condition. repeat case_match; cbn; auto. wf_solve.
Qed.

(** C1: in every state the storage can reach, each account, token, device, file,
    group, watcher and condition is stored under the key it carries and every
    identifier is in the range of its machine type. *)
Theorem reachable_wf d : reachable d → wf d.
Proof. induction 1; eauto using wf_new, step_wf. Qed.

End wf_preservation.

(** ** Files *)

Section files.
Context `{HI : HashIter} `{UC : Unicode} `{CH : Chrono}.
Implicit Types (d : StorageData).

(** Storing metadata returns the identifier under which it can be read back,
    the given one or the next of the counter, and changes no other file and no
    content. *)
Theorem store_file_info_get f d :
  let id := if fi_file_id f =? 0 then next_file_id d else fi_file_id f in
  let '(r, d') := store_file_info f d in
  r = Ok id
  ∧ get_file_info id d' = Ok (Some (fi_with_file_id f id))
  ∧ (∀ j, j ≠ id → get_file_info j d' = get_file_info j d)
  ∧ (∀ j, get_file_data j d' = get_file_data j d).
Proof.
  unfold store_file_info, get_file_info, get_file_data. destruct (fi_file_id f =? 0); cbn;
    split_and!; auto; try (intros j Hj); by rewrite ?lookup_insert_eq, ?lookup_insert_ne.
Qed.

(** Deletion succeeds exactly for the owner of an existing file; it removes
    metadata and content of that file and of no other, and a refused deletion
    changes nothing. *)
Theorem delete_file_spec a i d :
  match delete_file a i d with
  | (Ok _, d') =>
      (∃ f, files d !! i = Some f ∧ fi_account_hash f = a)
      ∧ get_file_info i d' = Ok None ∧ get_file_data i d' = Ok None
      ∧ ∀ j, j ≠ i → get_file_info j d' = get_file_info j d ∧ get_file_data j d' = get_file_data j d
  | (Err (PermissionDenied _), d') => d' = d ∧ ∃ f, files d !! i = Some f ∧ fi_account_hash f ≠ a
  | (Err (NotFound _), d') => d' = d ∧ files d !! i = None
  | _ => False
  end.
Proof.
  unfold delete_file, get_file_info, get_file_data. destruct (files d !! i) as [f|] eqn:E; [|done].
  case_bool_decide; [|eauto]. cbn.
  split_and!; [eauto|by rewrite lookup_delete_eq..|].
  intros j Hj. by rewrite !lookup_delete_ne by done.
Qed.

(** A listing holds exactly the files of the account and group that are
    recent enough, each once, whatever the iteration order of the table. *)
Theorem list_files_exact a g t d :
  wf d →
  ∃ l, list_files a g t d = Ok l ∧ NoDup l
  ∧ ∀ f, f ∈ l ↔ files d !! fi_file_id f = Some f ∧ fi_account_hash f = a ∧ fi_group_id f = g
                  ∧ since t f = true.
Proof.
  intros Hwf. eexists. split; [done|]. split.
  { apply (hm_filter_values_NoDup fi_file_id). intros k v Hk. by destruct (wf_files _ Hwf _ _ Hk). }
  intros f. rewrite elem_of_hm_filter_values. autorewrite with rust_bool. split.
  - intros [[k Hk] [[? ?] ?]]. destruct (wf_files _ Hwf _ _ Hk) as [<- _]. auto.
  - intros (? & ? & ? & ?). eauto 6.
Qed.

(** The listing for a device is the listing of the group without the files
    that device uploaded. *)
Theorem list_files_except_device_filter a g dev t d :
  ∃ l, list_files a g t d = Ok l
  ∧ list_files_except_device a g dev t d = Ok (List.filter (λ f, fi_device_hash f != dev) l).
Proof.
  eexists. split; [done|]. unfold list_files_except_device. f_equal.
  unfold hm_filter_values. induction (hm_values (files d)) as [|f l IH]; [done|]. cbn.
  destruct (fi_account_hash f == a), (fi_group_id f =? g), (since t f); cbn;
    destruct (fi_device_hash f != dev) eqn:E; cbn; rewrite ?E; congruence.
Qed.

(** A search by group, watcher, path and name finds a matching file if there
    is one and never returns another file. *)
Theorem find_file_by_criteria_spec a g w p n d :
  let matches := λ f, fi_account_hash f = a ∧ fi_group_id f = g ∧ fi_watcher_id f = w
                      ∧ fi_file_path f = p ∧ fi_filename f = n in
  match find_file_by_criteria a g w p n d with
  | Ok (Some f) => (∃ i, files d !! i = Some f) ∧ matches f
  | Ok None => ∀ i f, files d !! i = Some f → ¬ matches f
  | Err _ => False
  end.
Proof.
  unfold find_file_by_criteria. destruct (hm_find _ _) as [[i f]|] eqn:E; cbn.
  - apply hm_find_Some in E as [? E]. autorewrite with rust_bool in E. naive_solver.
  - intros i f Hi (?&?&?&?&?). rewrite hm_find_None in E. specialize (E _ _ Hi).
    rewrite !bool_decide_eq_true_2, !(proj2 (Z.eqb_eq _ _)) in E by done. done.
Qed.

(** The same for a search by path, name and revision, revision 0 standing for
    any. *)
Lemma find_file_by_path_and_name_spec a p n rev d :
  let matches := λ f, fi_account_hash f = a ∧ fi_file_path f = p ∧ fi_filename f = n
                      ∧ (rev = 0 ∨ fi_revision f = rev) in
  match find_file_by_path_and_name a p n rev d with
  | Ok (Some f) => (∃ i, files d !! i = Some f) ∧ matches f
  | Ok None => ∀ i f, files d !! i = Some f → ¬ matches f
  | Err _ => False
  end.
Proof.
  unfold find_file_by_path_and_name. destruct (hm_find _ _) as [[i f]|] eqn:E; cbn.
  - apply hm_find_Some in E as [? E]. autorewrite with rust_bool in E. naive_solver.
  - intros i f Hi Hm. rewrite hm_find_None in E. specialize (E _ _ Hi).
    autorewrite with rust_bool in E. naive_solver.
Qed.

(** The counter of generated file identifiers ignores identifiers chosen by
    the caller: a file stored under the counter's next value is replaced by the
    next file stored without an identifier. *)
Theorem generated_file_id_overwrites f g d :
  fi_file_id f ≠ 0 → fi_file_id f = next_file_id d → fi_file_id g = 0 →
  let d1 := (store_file_info f d).2 in
  let '(r, d2) := store_file_info g d1 in
  r = Ok (fi_file_id f)
  ∧ get_file_info (fi_file_id f) d2 = Ok (Some (fi_with_file_id g (fi_file_id f))).
Proof.
  intros Hf Hn Hg. unfold store_file_info, get_file_info. rewrite Hg.
  rewrite (proj2 (Z.eqb_neq _ _) Hf). cbn. rewrite <-Hn. by rewrite lookup_insert_eq.
Qed.

End files.

(** A file row for the examples. *)
Definition sample_file (id : Z) (account name : string) : FileInfo :=
  mkFileInfo id name "hash" "dev1" 1 1 false "~/docs" (mkTimestamp 100 0) 1 account 3 None.

(** Two files, the second with a generated identifier. *)
Definition sample_files : StorageData :=
  (store_file_info (sample_file 0 "alice" "b.txt")
    (store_file_info (sample_file 7 "alice" "a.txt") StorageData_new).2).2.

Lemma sample_files_wf : wf sample_files.
Proof.
  apply store_file_info_wf; [|apply store_file_info_wf; [|apply wf_new]]; vm_compute; by split.
Qed.

Lemma reachable_wf_witness : wf (store_file_info (sample_file 7 "alice" "a.txt") StorageData_new).2.
Proof.
  apply (reachable_wf (HI := canonical_iter) (CH := chrono_range)).
  eapply reachable_step; [apply reachable_new|].
  apply step_store_file_info. vm_compute. by split.
Defined.

Lemma list_files_exact_witness :
  ∃ l, list_files (HI := canonical_iter) "alice" 1 (Some 50) sample_files = Ok l
    ∧ sample_file 7 "alice" "a.txt" ∈ l ∧ sample_file 1 "alice" "b.txt" ∈ l.
Proof.
  destruct (list_files_exact (HI := canonical_iter) "alice" 1 (Some 50) sample_files sample_files_wf)
    as (l & ? & _ & Hl).
  exists l. split; [done|]. split; apply Hl; by vm_compute.
Defined.

Lemma generated_file_id_overwrites_witness :
  let d1 := (store_file_info (sample_file 1 "alice" "a.txt") StorageData_new).2 in
  let '(r, d2) := store_file_info (sample_file 0 "bob" "b.txt") d1 in
  r = Ok 1 ∧ get_file_info 1 d2 = Ok (Some (sample_file 1 "bob" "b.txt")).
Proof.
  by apply (generated_file_id_overwrites (sample_file 1 "alice" "a.txt")
              (sample_file 0 "bob" "b.txt") StorageData_new).
Defined.

(** ** Devices and tokens *)

Section devices.
Context `{HI : HashIter}.
Implicit Types (d : StorageData).

(** Devices of different accounts are kept apart when account hashes hold no
    colon: registering or deleting a device is visible for that account and
    device and for nothing else. *)
Theorem device_isolation a h v d :
  contains_char ":" a = false → contains_char ":" (d_account_hash v) = false →
  get_device a h (register_device v d).2 =
    (if decide (a = d_account_hash v ∧ h = d_device_hash v) then Ok (Some v) else get_device a h d)
  ∧ get_device a h (delete_device (d_account_hash v) (d_device_hash v) d).2 =
    (if decide (a = d_account_hash v ∧ h = d_device_hash v) then Ok None else get_device a h d).
Proof.
  intros Ha Hv. unfold get_device, register_device, delete_device; cbn.
  destruct (decide (a = d_account_hash v ∧ h = d_device_hash v)) as [[-> ->]|Hne].
  - by rewrite lookup_insert_eq, lookup_delete_eq.
  - assert (pair_key (d_account_hash v) (d_device_hash v) ≠ pair_key a h).
    { intros Heq. apply Hne. destruct (pair_key_inj _ _ _ _ Hv Ha Heq); auto. }
    by rewrite lookup_insert_ne, lookup_delete_ne.
Qed.

Lemma validate_device_spec a h d :
  validate_device a h d = Ok true ↔ ∃ v, get_device a h d = Ok (Some v).
Proof.
  unfold validate_device, get_device. split.
  - intros E%(inj Ok). apply hm_contains_true in E as [v ->]. eauto.
  - intros [v Hv]. f_equal. apply hm_contains_true. naive_solver.
Qed.

(** Listing devices returns exactly the registered devices of the account. *)
Lemma list_devices_exact a d :
  wf d →
  ∃ l, list_devices a d = Ok l ∧ get_devices_for_account a d = Ok l ∧ NoDup l
  ∧ ∀ v, v ∈ l ↔ get_device a (d_device_hash v) d = Ok (Some v) ∧ d_account_hash v = a.
Proof.
  intros Hwf. eexists. split_and!; [done|done|..].
  { apply (hm_filter_values_NoDup (λ v, pair_key (d_account_hash v) (d_device_hash v))).
    intros k v Hk. by apply (wf_devices _ Hwf). }
  intros v. rewrite elem_of_hm_filter_values. autorewrite with rust_bool. unfold get_device. split.
  - intros [[k Hk] <-]. by rewrite (wf_devices _ Hwf _ _ Hk), Hk.
  - intros [Hk <-]. naive_solver.
Qed.

(** A token is valid for an account exactly when it is stored for that
    account; neither its expiry nor its validity flag is consulted. *)
Theorem validate_auth_token_spec t a d :
  validate_auth_token t a d = Ok true ↔
  ∃ tok, get_auth_token t d = Ok (Some tok) ∧ at_account_hash tok = a.
Proof.
  unfold validate_auth_token, get_auth_token. destruct (auth_tokens d !! t) as [tok|]; [|naive_solver].
  split.
  - intros E%(inj Ok). apply bool_decide_eq_true in E. eauto.
  - intros (tok' & [= <-] & <-). by rewrite bool_decide_eq_true_2.
Qed.

End devices.

Definition sample_device (account dev : string) : Device :=
  Device_new account dev true "Pop!_OS 22.04" "1.0" (mkDateTime 1000 0).

Lemma device_isolation_witness :
  get_device "bob" "dev1" (delete_device "alice" "dev1"
     (register_device (sample_device "bob" "dev1") StorageData_new).2).2
  = Ok (Some (sample_device "bob" "dev1")).
Proof.
  destruct (device_isolation "bob" "dev1" (sample_device "alice" "dev1")
    (register_device (sample_device "bob" "dev1") StorageData_new).2 eq_refl eq_refl) as [_ H].
  exact H.
Defined.

(** ** Watcher groups *)

Section groups.
Context `{HI : HashIter} `{UC : Unicode} `{CH : Chrono}.
Implicit Types (d : StorageData).

(** Until the group counter reaches [i32::MAX] a new group gets an identifier
    above all identifiers in use, so that no group is replaced, and is found
    under the client's group number. *)
Theorem register_watcher_group_fresh a h g d :
  wf d → (∀ i g', watcher_groups d !! i = Some g' → i < i32_max) →
  ∃ id, (register_watcher_group a h g d).1 = Ok id
  ∧ (∀ i g', watcher_groups d !! i = Some g' → i < id)
  ∧ watcher_groups (register_watcher_group a h g d).2 =
      <[id := wg_with_id g id (wg_watcher_ids g)]> (watcher_groups d)
  ∧ ∃ s, get_server_group_id (wg_account_hash g) (wg_group_id g)
           (register_watcher_group a h g d).2 = Ok (Some s).
Proof.
  intros Hwf Hmax. eexists. split; [done|].
  assert (∀ k v, watcher_groups d !! k = Some v → i32_min ≤ k < i32_max) as Hr.
  { intros k v Hk. destruct (wf_groups _ Hwf _ _ Hk) as [_ [? _]]. eauto. }
  split_and!; [by eapply next_key_i32_above|done|].
  unfold get_server_group_id; cbn.
  match goal with |- context [hm_find ?P ?m] =>
    destruct (hm_find_complete P m (next_key_i32 (watcher_groups d))
      (wg_with_id g (next_key_i32 (watcher_groups d)) (wg_watcher_ids g))) as [[s ?] ->] end; eauto.
  - by rewrite lookup_insert_eq.
  - cbn. by rewrite bool_decide_eq_true_2, Z.eqb_refl.
Qed.

(** Group identifiers wrap around: once a group has identifier [i32::MAX] the
    next one gets [i32::MIN]. *)
Theorem register_watcher_group_wraps a h g g' d :
  wf d → watcher_groups d !! i32_max = Some g' →
  (register_watcher_group a h g d).1 = Ok i32_min.
Proof.
  intros Hwf Hg'. unfold register_watcher_group, next_key_i32, hm_keys; cbn. f_equal.
  destruct (hm_iter (watcher_groups d)).*1 as [|k0 ks] eqn:E.
  { apply elem_of_hm_iter, (list_elem_of_fmap_2 fst) in Hg'. rewrite E in Hg'.
    by apply elem_of_nil in Hg'. }
  assert (∀ k, k ∈ k0 :: ks → k ≤ i32_max) as Hle.
  { intros k. rewrite <-E, list_elem_of_fmap. intros ([? v] & -> & Hv).
    apply elem_of_hm_iter in Hv. by destruct (wf_groups _ Hwf _ _ Hv) as [_ []]. }
  assert (i32_max ∈ k0 :: ks) as Hin.
  { rewrite <-E. by apply elem_of_hm_iter, (list_elem_of_fmap_2 fst) in Hg'. }
  destruct (foldl_max_spec ks k0) as (H1 & H2 & H3).
  enough (foldl Z.max k0 ks = i32_max) as -> by apply wrap_i32_max_succ.
  apply Z.le_antisymm.
  - apply Hle. apply elem_of_cons. destruct H3; auto.
  - apply elem_of_cons in Hin as [->|Hin]; auto.
Qed.

(** Deleting a group removes the group, its account's watchers in it and
    their conditions, and leaves every other group, watcher and condition as it
    was; a refused deletion changes nothing. *)
Theorem delete_watcher_group_cascade a i d :
  let gone := λ w, w_account_hash w = a ∧ w_group_id w = i in
  match delete_watcher_group a i d with
  | (Ok _, d') =>
      watcher_groups d' = delete i (watcher_groups d)
      ∧ (∀ k w, watchers d' !! k = Some w ↔ watchers d !! k = Some w ∧ ¬ gone w)
      ∧ (∀ k c, watcher_conditions d' !! k = Some c ↔
           watcher_conditions d !! k = Some c
           ∧ ∀ w, watchers d !! wc_watcher_id c = Some w → ¬ gone w)
  | (Err _, d') => d' = d ∧ ∀ g, watcher_groups d !! i = Some g → wg_account_hash g ≠ a
  end.
Proof.
  intros gone. unfold delete_watcher_group. destruct (watcher_groups d !! i) as [g|] eqn:E; [|done].
  case_bool_decide as Hg; [|naive_solver]. cbn.
  set (ids := hm_filter_keys _ (watchers d)).
  assert (Hids : ∀ k, k ∈ ids ↔ ∃ w, watchers d !! k = Some w ∧ gone w).
  { intros k. unfold ids. rewrite elem_of_hm_filter_keys.
    setoid_rewrite andb_true_iff. setoid_rewrite bool_decide_eq_true.
    by setoid_rewrite Z.eqb_eq. }
  split_and!; [done|..].
  - intros k w. rewrite lookup_hm_remove_all. case_bool_decide as Hk; rewrite Hids in Hk; naive_solver.
  - intros k c. rewrite lookup_hm_remove_all. case_bool_decide as Hk;
      rewrite elem_of_hm_filter_keys in Hk; setoid_rewrite bool_decide_eq_true in Hk;
      setoid_rewrite Hids in Hk; naive_solver.
Qed.

(** An update is accepted for the owner of an existing group only. *)
Lemma update_watcher_group_spec a g d :
  match update_watcher_group a g d with
  | (Ok _, d') => (∃ g0, watcher_groups d !! wg_id g = Some g0 ∧ wg_account_hash g0 = a)
                  ∧ d' = set_watcher_groups (<[wg_id g := g]> (watcher_groups d)) d
  | (Err _, d') => d' = d ∧ ∀ g0, watcher_groups d !! wg_id g = Some g0 → wg_account_hash g0 ≠ a
  end.
Proof.
  unfold update_watcher_group. destruct (watcher_groups d !! wg_id g) as [g0|]; [|done].
  case_bool_decide; naive_solver.
Qed.

End groups.

(** ** Conditions *)

(** Condition identifiers in use are below the counter. *)
Definition fresh_conditions (d : StorageData) : Prop :=
  ∀ k c, watcher_conditions d !! k = Some c → k < next_condition_id d.

Section conditions.
Context `{HI : HashIter} `{UC : Unicode} `{CH : Chrono}.
Implicit Types (d : StorageData).

(** Without overflow the loop stores the rows under consecutive identifiers. *)
Lemma insert_conditions_lookup mks d :
  i64_min ≤ next_condition_id d → next_condition_id d + Z.of_nat (length mks) ≤ i64_max →
  next_condition_id (insert_conditions mks d) = next_condition_id d + Z.of_nat (length mks)
  ∧ ∀ k, watcher_conditions (insert_conditions mks d) !! k =
      match (if k <? next_condition_id d then None
             else mks !! Z.to_nat (k - next_condition_id d)) with
      | Some mk => Some (mk k)
      | None => watcher_conditions d !! k
      end.
Proof.
  unfold insert_conditions. revert d.
  induction mks as [|mk mks IH]; intros d Hlo Hhi; cbn [foldl length] in *.
  { split; [cbn; lia|]. intros k. by destruct (k <? _). }
  assert (Hn : next_condition_id (insert_condition mk d) = next_condition_id d + 1).
  { cbn. apply wrap_i64_id. lia. }
  destruct (IH (insert_condition mk d)) as [IH1 IH2]; [rewrite Hn; lia..|].
  split; [rewrite IH1, Hn; lia|]. intros k. rewrite IH2, Hn.
  destruct (Z.ltb_spec k (next_condition_id d + 1)), (Z.ltb_spec k (next_condition_id d)); try lia; cbn.
  - rewrite lookup_insert_ne by lia. done.
  - replace k with (next_condition_id d) by lia. rewrite Z.sub_diag. cbn. by rewrite lookup_insert_eq.
  - replace (Z.to_nat (k - next_condition_id d)) with (S (Z.to_nat (k - (next_condition_id d + 1))))
      by lia. cbn. destruct (mks !! _); [done|]. by rewrite lookup_insert_ne by lia.
Qed.

(** From a state with fresh identifiers the new rows join the old ones. *)
Lemma insert_conditions_elem mks d k c :
  i64_min ≤ next_condition_id d → next_condition_id d + Z.of_nat (length mks) ≤ i64_max →
  fresh_conditions d →
  watcher_conditions (insert_conditions mks d) !! k = Some c ↔
    watcher_conditions d !! k = Some c
    ∨ ∃ i mk, mks !! i = Some mk ∧ k = next_condition_id d + Z.of_nat i ∧ c = mk k.
Proof.
  intros Hlo Hhi Hf. destruct (insert_conditions_lookup mks d Hlo Hhi) as [_ ->].
  destruct (Z.ltb_spec k (next_condition_id d)) as [Hk|Hk].
  { split; [by left|]. intros [|(i & mk & _ & -> & _)]; [done|lia]. }
  assert (Hnone : watcher_conditions d !! k = None).
  { destruct (watcher_conditions d !! k) eqn:E; [|done]. apply Hf in E. lia. }
  rewrite Hnone. split.
  - destruct (mks !! _) as [mk|] eqn:E; [|done]. intros [= <-]. right.
    exists (Z.to_nat (k - next_condition_id d)), mk. split_and!; [done|lia|done].
  - intros [?|(i & mk & Hi & -> & ->)]; [done|].
    replace (Z.to_nat (next_condition_id d + Z.of_nat i - next_condition_id d)) with i by lia.
    by rewrite Hi.
Qed.

Lemma insert_conditions_fresh mks d :
  i64_min ≤ next_condition_id d → next_condition_id d + Z.of_nat (length mks) ≤ i64_max →
  fresh_conditions d → fresh_conditions (insert_conditions mks d).
Proof.
  intros Hlo Hhi Hf k c. rewrite insert_conditions_elem by done.
  destruct (insert_conditions_lookup mks d Hlo Hhi) as [-> _].
  intros [Hk|(i & mk & Hi & -> & _)]; [apply Hf in Hk; lia|]. apply lookup_lt_Some in Hi. lia.
Qed.

Lemma lookup_remove_conditions_of w d k c :
  watcher_conditions (remove_conditions_of w d) !! k = Some c ↔
  watcher_conditions d !! k = Some c ∧ wc_watcher_id c ≠ w.
Proof.
  unfold remove_conditions_of; cbn. rewrite lookup_hm_remove_all.
  case_bool_decide as Hk; rewrite elem_of_hm_filter_keys in Hk;
    setoid_rewrite Z.eqb_eq in Hk; naive_solver.
Qed.

Lemma remove_conditions_of_fresh w d : fresh_conditions d → fresh_conditions (remove_conditions_of w d).
Proof. intros Hf k c [Hk _]%lookup_remove_conditions_of. by apply Hf in Hk. Qed.

(** Saving the conditions of a watcher replaces them: afterwards the watcher
    has exactly the given conditions, under new identifiers, and the conditions
    of every other watcher are unchanged. *)
Theorem save_watcher_conditions_replaces w cs d :
  wf d → fresh_conditions d → next_condition_id d + Z.of_nat (length cs) ≤ i64_max →
  let d' := (save_watcher_conditions w cs d).2 in
  (∀ a, ∃ l, get_watcher_conditions a w d' = Ok l ∧ NoDup l
     ∧ ∀ c, c ∈ l ↔ ∃ i c0, cs !! i = Some c0 ∧ wc_account_hash c0 = a
                       ∧ c = wc_with_id c0 (Some (next_condition_id d + Z.of_nat i)) w)
  ∧ (∀ k c, wc_watcher_id c ≠ w →
       watcher_conditions d' !! k = Some c ↔ watcher_conditions d !! k = Some c).
Proof.
  intros Hwf Hf Hhi d'.
  assert (Hwf' : wf d') by by apply save_conditions_wf.
  assert (Hd' : ∀ k c, watcher_conditions d' !! k = Some c ↔
    (watcher_conditions d !! k = Some c ∧ wc_watcher_id c ≠ w)
    ∨ ∃ i c0, cs !! i = Some c0 ∧ k = next_condition_id d + Z.of_nat i
               ∧ c = wc_with_id c0 (Some k) w).
  { intros k c. unfold d', save_watcher_conditions; cbn [snd].
    rewrite insert_conditions_elem, lookup_remove_conditions_of;
      [|apply (wf_next_condition_id _ Hwf)|by rewrite length_fmap|by apply remove_conditions_of_fresh].
    setoid_rewrite list_lookup_fmap_Some. naive_solver. }
  clearbody d'. split.
  - intros a. eexists. split_and!; [done|..].
    + apply (hm_filter_values_NoDup (default 0 ∘ wc_id)). intros k c Hk. cbn.
      by destruct (wf_conditions _ Hwf' _ _ Hk) as [-> _].
    + intros c. rewrite elem_of_hm_filter_values. autorewrite with rust_bool.
      setoid_rewrite Hd'. split.
      * intros [[k [[_ ?]|(i & c0 & ? & -> & ->)]] [? <-]]; [done|]. by exists i, c0.
      * intros (i & c0 & ? & <- & ->). split; [|done]. eexists. right. by exists i, c0.
  - intros k c Hne. rewrite Hd'. split; [|by auto].
    by intros [[? ?]|(i & c0 & _ & _ & ->)].
Qed.

(** ** Watchers *)

(** The rows of the request, in the order of their identifiers. *)
Definition request_rows (a : string) (g id : Z) (w : sync_WatcherData) (t : DateTime)
    : list (Z → WatcherCondition) :=
  (condition_row a id (swd_watcher_id w) g Union t <$> swd_union_conditions w)
  ++ (condition_row a id (swd_watcher_id w) g Subtract t <$> swd_subtracting_conditions w).

Lemma insert_conditions_app m1 m2 d :
  insert_conditions (m1 ++ m2) d = insert_conditions m2 (insert_conditions m1 d).
Proof. unfold insert_conditions. apply foldl_app. Qed.

Lemma add_watcher_to_group_frame g id d :
  watchers (add_watcher_to_group g id d) = watchers d
  ∧ watcher_conditions (add_watcher_to_group g id d) = watcher_conditions d
  ∧ next_condition_id (add_watcher_to_group g id d) = next_condition_id d.
Proof. unfold add_watcher_to_group. by repeat case_match. Qed.

Lemma add_watcher_to_group_lists g id d grp :
  watcher_groups d !! g = Some grp →
  ∃ grp', watcher_groups (add_watcher_to_group g id d) !! g = Some grp' ∧ id ∈ wg_watcher_ids grp'.
Proof.
  intros Hg. unfold add_watcher_to_group. rewrite Hg. case_bool_decide; [eauto|]. cbn.
  eexists. rewrite lookup_insert_eq. split; [done|]. cbn. rewrite elem_of_app, list_elem_of_singleton.
  auto.
Qed.

(** A creation is one row in the table of watchers, the rows of its conditions,
    and the entry in its group. *)
Lemma create_watcher_unfold a g w t now d :
  let id := next_key_i32 (watchers d) in
  let at_time := default now (from_timestamp t 0) in
  create_watcher_with_conditions a g w t now d =
    (Ok id, add_watcher_to_group g id (insert_conditions (request_rows a g id w at_time)
              (set_watchers (<[id := watcher_row a g id w at_time]> (watchers d)) d))).
Proof. cbn zeta. unfold request_rows. by rewrite insert_conditions_app. Qed.

Lemma create_watcher_watchers a g w t now d :
  let id := next_key_i32 (watchers d) in
  watchers (create_watcher_with_conditions a g w t now d).2 =
    <[id := watcher_row a g id w (default now (from_timestamp t 0))]> (watchers d).
Proof.
  cbn zeta. rewrite create_watcher_unfold. cbn [snd].
  destruct (add_watcher_to_group_frame g (next_key_i32 (watchers d))
    (insert_conditions (request_rows a g (next_key_i32 (watchers d)) w (default now (from_timestamp t 0)))
      (set_watchers (<[next_key_i32 (watchers d) := watcher_row a g (next_key_i32 (watchers d)) w
         (default now (from_timestamp t 0))]> (watchers d)) d))) as [-> _].
  by rewrite insert_conditions_watchers.
Qed.

(** Creating a watcher below [i32::MAX] replaces no watcher, stores one row
    per condition of the request after the existing rows, and adds the new
    identifier to the group. *)
Theorem create_watcher_spec a g w t now d :
  wf d → fresh_conditions d →
  (∀ k v, watchers d !! k = Some v → k < i32_max) →
  next_condition_id d + Z.of_nat (length (swd_union_conditions w)
                                  + length (swd_subtracting_conditions w)) ≤ i64_max →
  let '(r, d') := create_watcher_with_conditions a g w t now d in
  ∃ id watcher, r = Ok id ∧ watchers d !! id = None
  ∧ watchers d' = <[id := watcher]> (watchers d)
  ∧ sync_WatcherData_from_Watcher watcher =
      mk_sync_WatcherData (swd_watcher_id w) (normalize_uncached (swd_folder w))
        (swd_union_conditions w) (swd_subtracting_conditions w) (swd_recursive_path w)
        (swd_preset w) (swd_custom_type w) (swd_update_mode w) true (swd_extra_json w)
  ∧ (∀ k c, watcher_conditions d' !! k = Some c ↔
       watcher_conditions d !! k = Some c
       ∨ ∃ i mk, request_rows a g id w (default now (from_timestamp t 0)) !! i = Some mk
                 ∧ k = next_condition_id d + Z.of_nat i ∧ c = mk k)
  ∧ fresh_conditions d'
  ∧ (∀ grp, watcher_groups d !! g = Some grp →
       ∃ grp', watcher_groups d' !! g = Some grp' ∧ id ∈ wg_watcher_ids grp').
Proof.
  intros Hwf Hf Hmax Hhi. pose proof (create_watcher_watchers a g w t now d) as Hws.
  rewrite create_watcher_unfold in Hws |- *. cbn [snd] in Hws.
  set (id := next_key_i32 (watchers d)) in *. set (at_time := default now (from_timestamp t 0)) in *.
  set (d0 := set_watchers _ d) in *. set (rows := request_rows a g id w at_time) in *.
  assert (Hlen : next_condition_id d0 + Z.of_nat (length rows) ≤ i64_max).
  { unfold rows, request_rows. by rewrite length_app, !length_fmap. }
  assert (Hlo : i64_min ≤ next_condition_id d0) by apply (wf_next_condition_id _ Hwf).
  destruct (add_watcher_to_group_frame g id (insert_conditions rows d0)) as (_ & Hc & Hn).
  exists id, (watcher_row a g id w at_time). split_and!; [done| |done| | | |].
  - apply next_key_i32_fresh. intros k v Hk. split; [|eauto].
    by destruct (wf_watchers _ Hwf _ _ Hk) as [_ []].
  - unfold watcher_row, sync_WatcherData_from_Watcher; cbn. rewrite <-!list_fmap_compose.
    f_equal; apply list_fmap_id_ext; by intros [].
  - intros k c. rewrite Hc. by apply (insert_conditions_elem rows d0).
  - unfold fresh_conditions. rewrite Hc, Hn. by apply insert_conditions_fresh.
  - intros grp Hgrp. apply (add_watcher_to_group_lists _ _ _ grp). by rewrite insert_conditions_groups.
Qed.

(** The row of a watcher stores the server's group identifier as its client
    group: when the two differ, a new watcher is not found under the client's
    identifiers. *)
Theorem created_watcher_not_found_by_client_ids a g w t now c wid d :
  c ≠ g →
  (∀ k v, watchers d !! k = Some v → w_account_hash v = a → w_local_group_id v ≠ c) →
  get_server_ids a c wid (create_watcher_with_conditions a g w t now d).2 = Ok None.
Proof.
  intros Hne Hold. unfold get_server_ids. case_match; [|done].
  f_equal. apply fmap_None, hm_find_None. intros k v. rewrite create_watcher_watchers.
  intros Hk. assert (w_account_hash v = a → w_local_group_id v ≠ c) as Hv.
  { apply lookup_insert_Some in Hk as [[_ <-]|[_ Hk]]; [done|eauto]. }
  destruct (bool_decide_reflect (w_account_hash v = a)) as [Ha|]; [|done].
  by rewrite (proj2 (Z.eqb_neq _ _) (Hv Ha)).
Qed.

End conditions.

(** *** Examples *)

Definition sample_group (client_id : Z) : WatcherGroup :=
  mkWatcherGroup 0 client_id "alice" "Documents" (mkDateTime 1000 0) (mkDateTime 1000 0) true [].

Definition sample_watcher : sync_WatcherData :=
  mk_sync_WatcherData 5 "~/docs" [mk_sync_ConditionData "extension" ["txt"]]
    [mk_sync_ConditionData "name" ["tmp"]] true false "" "" true "".

Definition sample_groups (id : Z) : StorageData :=
  set_watcher_groups {[ id := wg_with_id (sample_group 3) id [] ]} StorageData_new.

Lemma sample_groups_wf id : i32 id → wf (sample_groups id).
Proof.
  intros. destruct wf_new. constructor; cbn; auto. by apply map_Forall_insert_2.
Qed.

Lemma sample_fresh id : fresh_conditions (sample_groups id).
Proof. intros k c. cbn. by rewrite lookup_empty. Qed.

Lemma register_watcher_group_fresh_witness :
  ∃ id, (register_watcher_group (HI := canonical_iter) "alice" "dev1" (sample_group 4) (sample_groups 1)).1
        = Ok id ∧ 1 < id.
Proof.
  destruct (register_watcher_group_fresh (HI := canonical_iter) "alice" "dev1" (sample_group 4)
    (sample_groups 1)) as (id & Hid & Hlt & _).
  - by apply sample_groups_wf.
  - intros i g'. cbn. intros [<- _]%lookup_singleton_Some. done.
  - exists id. split; [done|]. apply (Hlt 1 (wg_with_id (sample_group 3) 1 [])). done.
Defined.

Lemma register_watcher_group_wraps_witness :
  (register_watcher_group (HI := canonical_iter) "alice" "dev1" (sample_group 4)
    (sample_groups i32_max)).1 = Ok (-2147483648).
Proof.
  apply (register_watcher_group_wraps (HI := canonical_iter) _ _ _
    (wg_with_id (sample_group 3) i32_max []) (sample_groups i32_max)).
  - by apply sample_groups_wf.
  - done.
Defined.

Definition sample_condition (key : string) : WatcherCondition :=
  mkWatcherCondition None "alice" 1 5 3 Union key ["v"] "equals" (mkDateTime 1000 0) (mkDateTime 1000 0).

Lemma save_watcher_conditions_replaces_witness :
  let d' := (save_watcher_conditions (HI := canonical_iter) 9
               [sample_condition "a"; sample_condition "b"] (sample_groups 1)).2 in
  ∃ l, get_watcher_conditions (HI := canonical_iter) "alice" 9 d' = Ok l
     ∧ wc_with_id (sample_condition "b") (Some 2) 9 ∈ l.
Proof.
  intros d'. destruct (save_watcher_conditions_replaces (HI := canonical_iter) 9
    [sample_condition "a"; sample_condition "b"] (sample_groups 1)) as [H _].
  - by apply sample_groups_wf.
  - apply sample_fresh.
  - done.
  - destruct (H "alice") as (l & Hl & _ & Hin). exists l. split; [exact Hl|].
    apply Hin. by exists 1%nat, (sample_condition "b").
Defined.

Lemma create_watcher_spec_witness :
  let d' := (create_watcher_with_conditions (HI := canonical_iter) (CH := chrono_range)
               "alice" 1 sample_watcher 1000 (mkDateTime 0 0) (sample_groups 1)).2 in
  fresh_conditions d'.
Proof.
  intros d'. pose proof (create_watcher_spec (HI := canonical_iter) (CH := chrono_range)
    "alice" 1 sample_watcher 1000 (mkDateTime 0 0) (sample_groups 1)) as H.
  destruct H as (id & w & _ & _ & _ & _ & _ & Hf & _).
  - by apply sample_groups_wf.
  - apply sample_fresh.
  - intros k v. cbn. by rewrite lookup_empty.
  - done.
  - exact Hf.
Defined.

Lemma created_watcher_not_found_by_client_ids_witness :
  get_server_ids (HI := canonical_iter) "alice" 3 5
    (create_watcher_with_conditions (HI := canonical_iter) (CH := chrono_range)
       "alice" 1 sample_watcher 1000 (mkDateTime 0 0) (sample_groups 1)).2 = Ok None.
Proof.
  apply (created_watcher_not_found_by_client_ids (HI := canonical_iter) (CH := chrono_range)).
  - done.
  - intros k v. cbn. by rewrite lookup_empty.
Defined.
