(* ===== verification/Connections.v ===== *)
(** * Connections (src/server/connection_tracker.rs, connection_cleanup.rs,
    connection_handler.rs, and the [ClientStore] of src/server/app_state.rs)

    The tracker and the client store are maps behind a lock; every method is a
    function of the map and, where the code reads it, of the clock.  A panic of
    the clock arithmetic leaves the map as it is and is [None]. *)

From S2P Require Import Prelude RustString Models.

(** ** The connection tracker *)

Record ConnectionState := mkConnectionState {
  cs_device_hash : string;
  cs_account_hash : string;
  cs_connected_at : DateTime;
  cs_last_activity : DateTime;
  cs_disconnected_at : option DateTime;
  cs_connection_count : Z;
  cs_is_active : bool;
  cs_last_sync_time : option DateTime
}.

Definition ConnectionState_new (device_hash account_hash : string) (now : DateTime)
    : ConnectionState :=
  {| cs_device_hash := device_hash; cs_account_hash := account_hash; cs_connected_at := now;
     cs_last_activity := now; cs_disconnected_at := None; cs_connection_count := 1;
     cs_is_active := true; cs_last_sync_time := None |}.

Definition state_update_activity (now : DateTime) (s : ConnectionState) : ConnectionState :=
  mkConnectionState (cs_device_hash s) (cs_account_hash s) (cs_connected_at s) now
    (cs_disconnected_at s) (cs_connection_count s) (cs_is_active s) (cs_last_sync_time s).

Definition state_mark_disconnected (now : DateTime) (s : ConnectionState) : ConnectionState :=
  mkConnectionState (cs_device_hash s) (cs_account_hash s) (cs_connected_at s)
    (cs_last_activity s) (Some now) (cs_connection_count s) false (cs_last_sync_time s).

Definition state_mark_reconnected (now : DateTime) (s : ConnectionState) : ConnectionState :=
  mkConnectionState (cs_device_hash s) (cs_account_hash s) now now None
    (wrap_u64 (cs_connection_count s + 1)) true (cs_last_sync_time s).

Definition state_update_sync_time (now : DateTime) (s : ConnectionState) : ConnectionState :=
  mkConnectionState (cs_device_hash s) (cs_account_hash s) (cs_connected_at s)
    (cs_last_activity s) (cs_disconnected_at s) (cs_connection_count s) (cs_is_active s) (Some now).

Abbreviation Tracker := (gmap string ConnectionState).

Definition ConnectionTracker_new : Tracker := ∅.

Definition register_connection (device_hash account_hash : string) (now : DateTime) (t : Tracker)
    : string * Tracker :=
  let connection_key := pair_key account_hash device_hash in
  match t !! connection_key with
  | Some existing => (connection_key, <[connection_key := state_mark_reconnected now existing]> t)
  | None => (connection_key, <[connection_key := ConnectionState_new device_hash account_hash now]> t)
  end.

(** [if let Some(state) = connections.get_mut(key) { f(state) }]. *)
Definition with_connection (f : ConnectionState → ConnectionState) (key : string) (t : Tracker)
    : Tracker :=
  match t !! key with Some s => <[key := f s]> t | None => t end.

Definition update_activity (connection_key : string) (now : DateTime) (t : Tracker) : Tracker :=
  with_connection (state_update_activity now) connection_key t.
Definition mark_disconnected (connection_key : string) (now : DateTime) (t : Tracker) : Tracker :=
  with_connection (state_mark_disconnected now) connection_key t.
Definition update_sync_time (connection_key : string) (now : DateTime) (t : Tracker) : Tracker :=
  with_connection (state_update_sync_time now) connection_key t.

Definition get_connection_state (connection_key : string) (t : Tracker) : option ConnectionState :=
  t !! connection_key.

Definition get_last_disconnect_time (device_hash account_hash : string) (t : Tracker)
    : option DateTime :=
  match t !! pair_key account_hash device_hash with
  | Some s => cs_disconnected_at s
  | None => None
  end.

Record ConnectionStats := mkConnectionStats {
  total_connections : Z;
  active_connections : Z;
  inactive_connections : Z
}.

Section tracker.
Context `{HI : HashIter} `{CH : Chrono}.
Implicit Types (t : Tracker).

Definition get_active_connections (account_hash : string) t : list ConnectionState :=
  hm_filter_values (λ s, (cs_account_hash s == account_hash) && cs_is_active s) t.

Definition get_total_active_connections t : Z :=
  Z.of_nat (length (hm_filter_values cs_is_active t)).

(** [total - active] is on [usize]. *)
Definition get_stats t : ConnectionStats :=
  let total := Z.of_nat (size t) in
  let active := Z.of_nat (length (hm_filter_values cs_is_active t)) in
  mkConnectionStats total active (wrap_u64 (total - active)).

Definition cleanup_old_connections (max_age_hours : Z) (now : DateTime) t : option Tracker :=
  match hours_before now max_age_hours with
  | Some cutoff =>
      Some (hm_retain (λ _ s,
        match cs_disconnected_at s with
        | Some disconnected_at => dt_ltb cutoff disconnected_at
        | None => true
        end) t)
  | None => None
  end.

(** The operations as steps; the clock of a step is not constrained. *)
Inductive tracker_step : Tracker → Tracker → Prop :=
| step_register dev acc now t : tracker_step t (register_connection dev acc now t).2
| step_activity key now t : tracker_step t (update_activity key now t)
| step_disconnect key now t : tracker_step t (mark_disconnected key now t)
| step_sync key now t : tracker_step t (update_sync_time key now t)
| step_cleanup h now t t' : cleanup_old_connections h now t = Some t' → tracker_step t t'.

Definition tracker_reachable : Tracker → Prop := rtc tracker_step ConnectionTracker_new.

(** The invariant of one record: stored under the key of its account and
    device, active exactly while it carries no disconnection time. *)
Definition connection_ok (key : string) (s : ConnectionState) : Prop :=
  key = pair_key (cs_account_hash s) (cs_device_hash s)
  ∧ (cs_is_active s = true ↔ cs_disconnected_at s = None)
  ∧ 0 ≤ cs_connection_count s ≤ u64_max.

Lemma with_connection_ok f key t :
  (∀ s, connection_ok key s → connection_ok key (f s)) →
  map_Forall connection_ok t → map_Forall connection_ok (with_connection f key t).
Proof.
  intros Hf Ht. unfold with_connection. destruct (t !! key) eqn:E; [|done].
  apply map_Forall_insert_2; eauto.
Qed.

Lemma tracker_step_ok t t' :
  tracker_step t t' → map_Forall connection_ok t → map_Forall connection_ok t'.
Proof.
  destruct 1 as [dev acc now t|key now t|key now t|key now t|h now t t' Hc]; intros Ht;
    try (apply with_connection_ok; [|done]; by intros s (? & ? & ?)).
  - unfold register_connection. destruct (t !! _) as [s|] eqn:E; cbn; apply map_Forall_insert_2; auto.
    + destruct (Ht _ _ E) as (? & ? & ?). split; [done|]. split; [done|]. apply wrap_u64_range.
    + by split; [|split].
  - unfold cleanup_old_connections in Hc. destruct (hours_before now h); simplify_eq.
    intros k s [Hk _]%lookup_hm_retain_Some. eauto.
Qed.

(** In every state of the tracker a record is stored under the key of its
    account and device, and it is active exactly when it carries no
    disconnection time. *)
Theorem tracker_reachable_ok t :
  tracker_reachable t → map_Forall connection_ok t.
Proof.
  intros Hr. cut (map_Forall connection_ok ConnectionTracker_new); [|apply map_Forall_empty].
  induction Hr; eauto using tracker_step_ok.
Qed.

(** A cleanup keeps exactly the records that are not disconnected since the
    cut-off. *)
Lemma cleanup_lookup h now t t' cutoff k s :
  hours_before now h = Some cutoff → cleanup_old_connections h now t = Some t' →
  t' !! k = Some s ↔ t !! k = Some s
    ∧ ∀ d, cs_disconnected_at s = Some d → dt_ltb cutoff d = true.
Proof.
  unfold cleanup_old_connections. intros -> [= <-]. rewrite lookup_hm_retain_Some.
  destruct (cs_disconnected_at s); naive_solver.
Qed.

(** A cleanup removes exactly the records disconnected at or before the
    cut-off; in particular it never removes an active connection, and it
    changes no record it keeps. *)
Theorem cleanup_removes_only_old h now t t' cutoff :
  map_Forall connection_ok t → hours_before now h = Some cutoff →
  cleanup_old_connections h now t = Some t' →
  t' ⊆ t
  ∧ (∀ k s, t !! k = Some s → cs_is_active s = true → t' !! k = Some s)
  ∧ (∀ k s, t !! k = Some s → t' !! k = None ↔
       ∃ d, cs_disconnected_at s = Some d ∧ dt_leb d cutoff = true).
Proof.
  intros Hok Hcut Hc. pose proof (λ k s, cleanup_lookup h now t t' cutoff k s Hcut Hc) as Hl.
  split_and!.
  - apply map_subseteq_spec. intros k s. rewrite Hl. by intros [].
  - intros k s Hk Ha. rewrite Hl. split; [done|].
    apply (Hok k s Hk) in Ha. by rewrite Ha.
  - intros k s Hk. split.
    + intros Hnone. destruct (cs_disconnected_at s) as [d|] eqn:Ed.
      * exists d. split; [done|]. destruct (dt_leb d cutoff) eqn:E; [done|].
        exfalso. assert (t' !! k = Some s) as Hs; [|by rewrite Hs in Hnone].
        apply Hl. split; [done|]. intros d' Hd'. simplify_eq. unfold dt_ltb. by rewrite E.
      * exfalso. assert (t' !! k = Some s) as Hs; [|by rewrite Hs in Hnone].
        apply Hl. split; [done|]. by rewrite Ed.
    + intros (d & Hd & Hle). destruct (t' !! k) as [s'|] eqn:E; [|done].
      apply Hl in E as [E Hlt]. simplify_eq. specialize (Hlt _ Hd). unfold dt_ltb in Hlt.
      by rewrite Hle in Hlt.
Qed.

(** The records an account sees as active are exactly its active ones. *)
Lemma elem_of_get_active_connections a t s :
  s ∈ get_active_connections a t ↔
  (∃ k, t !! k = Some s) ∧ cs_account_hash s = a ∧ cs_is_active s = true.
Proof.
  unfold get_active_connections. rewrite elem_of_hm_filter_values. by autorewrite with rust_bool.
Qed.

(** A registration makes the connection of that account and device active
    and counts it, clears its disconnection time, and leaves the connections
    under every other key as they were. *)
Theorem register_connection_spec dev acc now t :
  map_Forall connection_ok t →
  let '(key, t') := register_connection dev acc now t in
  key = pair_key acc dev
  ∧ (∃ s, get_connection_state key t' = Some s ∧ cs_is_active s = true
      ∧ cs_connected_at s = now ∧ cs_last_activity s = now
      ∧ cs_connection_count s =
          match get_connection_state key t with
          | Some old => wrap_u64 (cs_connection_count old + 1)
          | None => 1
          end
      ∧ s ∈ get_active_connections (cs_account_hash s) t')
  ∧ get_last_disconnect_time dev acc t' = None
  ∧ (∀ k, k ≠ key → get_connection_state k t' = get_connection_state k t).
Proof.
  intros Hok. unfold register_connection, get_connection_state, get_last_disconnect_time.
  destruct (t !! pair_key acc dev) as [old|] eqn:E; split_and!; try done;
    rewrite ?lookup_insert_eq; try (by intros k Hk; rewrite lookup_insert_ne);
    eexists; split_and!; try done; rewrite ?E; try done; apply elem_of_get_active_connections;
    split; eauto; exists (pair_key acc dev); by rewrite lookup_insert_eq.
Qed.

Lemma active_le_size t : (length (hm_filter_values cs_is_active t) ≤ size t)%nat.
Proof.
  unfold hm_filter_values, hm_values. rewrite <-(hm_iter_length t), <-(length_fmap snd (hm_iter t)).
  apply filter_length_le.
Qed.

(** The statistics are consistent: the subtraction does not underflow, active
    and inactive connections add up to the total, and the active count is the
    number of active records. *)
Theorem get_stats_sum t :
  Z.of_nat (size t) ≤ u64_max →
  let s := get_stats t in
  total_connections s = active_connections s + inactive_connections s
  ∧ 0 ≤ inactive_connections s
  ∧ active_connections s = get_total_active_connections t.
Proof.
  intros Hs. pose proof (active_le_size t). unfold get_stats, get_total_active_connections; cbn.
  rewrite wrap_u64_id by lia. lia.
Qed.

(** The time of a disconnection is available for recovery: it survives every
    cleanup whose cut-off lies before it, until the device connects again. *)
Theorem disconnect_time_recoverable dev acc now t h now' cutoff t' s :
  get_connection_state (pair_key acc dev) t = Some s →
  hours_before now' h = Some cutoff → dt_ltb cutoff now = true →
  cleanup_old_connections h now' (mark_disconnected (pair_key acc dev) now t) = Some t' →
  get_last_disconnect_time dev acc t' = Some now
  ∧ get_last_disconnect_time dev acc (register_connection dev acc now' t').2 = None.
Proof.
  intros Hs Hcut Hlt Hc. unfold mark_disconnected, with_connection in Hc.
  unfold get_connection_state in Hs. rewrite Hs in Hc.
  assert (t' !! pair_key acc dev = Some (state_mark_disconnected now s)) as Ht'.
  { rewrite (cleanup_lookup _ _ _ _ _ _ _ Hcut Hc), lookup_insert_eq. split; [done|].
    by intros d [= <-]. }
  unfold get_last_disconnect_time, register_connection. rewrite Ht'. split; [done|].
  cbn. by rewrite lookup_insert_eq.
Qed.

(** *** The cleanup scheduler *)

(** One round of the scheduler's loop: the totals it compares for its log line
    and the cleaned map. *)
Definition cleanup_round (max_age_hours : Z) (now : DateTime) t
    : option (ConnectionStats * ConnectionStats * Tracker) :=
  let stats_before := get_stats t in
  match cleanup_old_connections max_age_hours now t with
  | Some t' => Some (stats_before, get_stats t', t')
  | None => None
  end.

(** [create_default_cleanup_scheduler]: interval and age, in hours. *)
Definition default_cleanup_interval_hours : Z := 6.
Definition default_max_age_hours : Z := 24.

Lemma hours_before_default now :
  86400 ≤ dt_timestamp now ≤ 253402300799 → 0 ≤ dt_nanosecond now < 10 ^ 9 →
  hours_before now default_max_age_hours =
    Some (mkDateTime (dt_timestamp now - 86400) (dt_nanosecond now)).
Proof.
  intros Hs Hn. unfold hours_before, default_max_age_hours, dt_add.
  change (duration_hours 24) with (Some (86400 * 10 ^ 9)). cbv zeta iota beta.
  assert (Hd : (dt_nanosecond now + - (86400 * 10 ^ 9)) / 10 ^ 9 = -86400).
  { symmetry. apply (Z.div_unique _ _ _ (dt_nanosecond now)); lia. }
  assert (Hm : (dt_nanosecond now + - (86400 * 10 ^ 9)) mod 10 ^ 9 = dt_nanosecond now).
  { symmetry. apply (Z.mod_unique _ _ (-86400)); lia. }
  rewrite Hd, Hm. apply from_timestamp_calendar; lia.
Qed.

(** With the default age the round of the scheduler succeeds at every clock
    of the years 1970 to 9999 and removes exactly the records that have been
    disconnected for 24 hours or more. *)
Theorem cleanup_round_default now t :
  86400 ≤ dt_timestamp now ≤ 253402300799 → 0 ≤ dt_nanosecond now < 10 ^ 9 →
  ∃ before after t', cleanup_round default_max_age_hours now t = Some (before, after, t')
  ∧ before = get_stats t ∧ after = get_stats t'
  ∧ ∀ k s, t' !! k = Some s ↔ t !! k = Some s
      ∧ ∀ d, cs_disconnected_at s = Some d →
          dt_timestamp now - 86400 < dt_timestamp d
          ∨ (dt_timestamp now - 86400 = dt_timestamp d ∧ dt_nanosecond now < dt_nanosecond d).
Proof.
  intros Hs Hn. pose proof (hours_before_default now Hs Hn) as Hcut.
  unfold cleanup_round. destruct (cleanup_old_connections default_max_age_hours now t) as [t'|] eqn:E;
    [|by unfold cleanup_old_connections in E; rewrite Hcut in E].
  do 3 eexists. split_and!; try done. intros k s. rewrite (cleanup_lookup _ _ _ _ _ k s Hcut E).
  assert (Hlt : ∀ d, dt_ltb (mkDateTime (dt_timestamp now - 86400) (dt_nanosecond now)) d = true ↔
    dt_timestamp now - 86400 < dt_timestamp d
    ∨ (dt_timestamp now - 86400 = dt_timestamp d ∧ dt_nanosecond now < dt_nanosecond d)).
  { intros d. unfold dt_ltb, dt_leb; cbn.
    rewrite negb_true_iff, orb_false_iff, andb_false_iff, Z.ltb_ge, Z.eqb_neq, Z.leb_gt. lia. }
  by setoid_rewrite Hlt.
Qed.

End tracker.

(** *** Examples *)

Definition t0 : DateTime := mkDateTime 1000000 0.
Definition sample_tracker : Tracker :=
  mark_disconnected "acc:dev2" (mkDateTime 1000100 0)
    (register_connection "dev2" "acc" t0 (register_connection "dev1" "acc" t0 ∅).2).2.

Lemma sample_tracker_reachable : tracker_reachable (CH := chrono_range) sample_tracker.
Proof.
  apply (rtc_l _ _ (register_connection "dev1" "acc" t0 ∅).2); [apply step_register|].
  apply (rtc_l _ _ (register_connection "dev2" "acc" t0 (register_connection "dev1" "acc" t0 ∅).2).2);
    [apply step_register|].
  apply rtc_once. apply step_disconnect.
Qed.

Lemma sample_tracker_ok : map_Forall connection_ok sample_tracker.
Proof.
  pose proof sample_tracker_reachable as Hr. unfold tracker_reachable in Hr.
  cut (map_Forall connection_ok ConnectionTracker_new); [|apply map_Forall_empty].
  induction Hr; eauto using tracker_step_ok.
Qed.

Lemma tracker_reachable_ok_witness :
  tracker_reachable (CH := chrono_range) sample_tracker ∧ map_Forall connection_ok sample_tracker.
Proof.
  split; [exact sample_tracker_reachable|].
  apply (tracker_reachable_ok (CH := chrono_range)). exact sample_tracker_reachable.
Defined.

Lemma cleanup_removes_only_old_witness :
  ∃ t', cleanup_old_connections (CH := chrono_range) 24 (mkDateTime 1086500 0) sample_tracker = Some t'
  ∧ t' !! "acc:dev2" = None ∧ t' !! "acc:dev1" = Some (ConnectionState_new "dev1" "acc" t0).
Proof.
  destruct (cleanup_old_connections (CH := chrono_range) 24 (mkDateTime 1086500 0) sample_tracker)
    as [t'|] eqn:E; [|vm_compute in E; discriminate E].
  destruct (cleanup_removes_only_old (CH := chrono_range) 24 (mkDateTime 1086500 0) sample_tracker t'
    (mkDateTime 1000100 0) sample_tracker_ok eq_refl E) as (_ & Hkeep & Hgone).
  exists t'. split; [reflexivity|]. split.
  - apply (Hgone "acc:dev2" (state_mark_disconnected (mkDateTime 1000100 0)
      (ConnectionState_new "dev2" "acc" t0))); [vm_compute; reflexivity|].
    exists (mkDateTime 1000100 0). split; vm_compute; reflexivity.
  - apply Hkeep; vm_compute; reflexivity.
Defined.

Lemma register_connection_spec_witness :
  get_last_disconnect_time "dev2" "acc" (register_connection "dev2" "acc" t0 sample_tracker).2 = None.
Proof.
  pose proof (register_connection_spec (HI := canonical_iter) "dev2" "acc" t0 sample_tracker
    sample_tracker_ok) as H.
  exact (proj1 (proj2 (proj2 H))).
Defined.

Lemma get_stats_sum_witness :
  let s := get_stats (HI := canonical_iter) sample_tracker in
  total_connections s = active_connections s + inactive_connections s.
Proof. apply (get_stats_sum (HI := canonical_iter) sample_tracker). vm_compute. discriminate. Defined.

Lemma disconnect_time_recoverable_witness :
  ∃ t', cleanup_old_connections (CH := chrono_range) 24 (mkDateTime 1050000 0)
          (mark_disconnected "acc:dev1" (mkDateTime 1000200 0) sample_tracker) = Some t'
  ∧ get_last_disconnect_time "dev1" "acc" t' = Some (mkDateTime 1000200 0).
Proof.
  destruct (cleanup_old_connections (CH := chrono_range) 24 (mkDateTime 1050000 0)
          (mark_disconnected "acc:dev1" (mkDateTime 1000200 0) sample_tracker)) as [t'|] eqn:E;
    [|vm_compute in E; discriminate E].
  exists t'. split; [reflexivity|].
  apply (disconnect_time_recoverable (CH := chrono_range) "dev1" "acc" (mkDateTime 1000200 0)
    sample_tracker 24 (mkDateTime 1050000 0) (mkDateTime 963600 0) t'
    (ConnectionState_new "dev1" "acc" t0)); [vm_compute; reflexivity..|exact E].
Defined.

Lemma cleanup_round_default_witness :
  ∃ before after t', cleanup_round (HI := canonical_iter) (CH := chrono_range) 24
     (mkDateTime 1086500 0) sample_tracker = Some (before, after, t').
Proof.
  destruct (cleanup_round_default (HI := canonical_iter) (CH := chrono_range)
    (mkDateTime 1086500 0) sample_tracker) as (b & a & t' & H & _); [cbn; lia..|].
  eauto.
Defined.

(** ** The client store (src/server/app_state.rs) *)

Record ClientConnection := mkClientConnection {
  cc_client_id : string;
  cc_connected : bool;
  cc_connected_at : option DateTime;
  cc_last_seen : DateTime;
  cc_account_hash : option string;
  cc_device_hash : option string
}.

Abbreviation ClientStore := (gmap string ClientConnection).

Definition ClientStore_new : ClientStore := ∅.

Definition set_client_connected (client_id : string) (connected : bool) (now : DateTime)
    (c : ClientStore) : ClientStore :=
  match c !! client_id with
  | Some conn =>
      <[client_id := mkClientConnection (cc_client_id conn) connected
          (if connected then Some now else cc_connected_at conn) now
          (cc_account_hash conn) (cc_device_hash conn)]> c
  | None =>
      <[client_id := mkClientConnection client_id connected
          (if connected then Some now else None) now None None]> c
  end.

Definition update_client_auth (client_id : string) (account_hash device_hash : option string)
    (now : DateTime) (c : ClientStore) : ClientStore :=
  match c !! client_id with
  | Some conn =>
      <[client_id := mkClientConnection (cc_client_id conn) (cc_connected conn)
          (cc_connected_at conn) now account_hash device_hash]> c
  | None => c
  end.

Definition is_client_connected (client_id : string) (c : ClientStore) : bool :=
  match c !! client_id with Some conn => cc_connected conn | None => false end.

Definition get_client_connection (client_id : string) (c : ClientStore)
    : option ClientConnection := c !! client_id.

Section client_store.
Context `{HI : HashIter} `{CH : Chrono}.
Implicit Types (c : ClientStore).

Definition get_connected_clients c : list ClientConnection :=
  hm_filter_values cc_connected c.

Definition get_connected_clients_by_account (account_hash : string) c : list ClientConnection :=
  hm_filter_values (λ conn, cc_connected conn && (cc_account_hash conn == Some account_hash)) c.

Definition cleanup_disconnected_clients (retention_hours : Z) (now : DateTime) c
    : option ClientStore :=
  match hours_before now retention_hours with
  | Some cutoff_time =>
      let to_remove := hm_filter_keys (λ _ conn,
        negb (cc_connected conn) && dt_ltb (cc_last_seen conn) cutoff_time) c in
      Some (hm_remove_all to_remove c)
  | None => None
  end.

(** The counters of [get_connection_stats]: total, connected, disconnected. *)
Definition get_connection_stats c : Z * Z * Z :=
  let '(connected_count, total_count) :=
    foldl (λ '(n, total) kv,
             ((if cc_connected kv.2 then n + 1 else n), total + 1)) (0, 0) (hm_iter c) in
  (total_count, connected_count, total_count - connected_count).

Lemma cleanup_clients_lookup h now c c' cutoff k conn :
  hours_before now h = Some cutoff → cleanup_disconnected_clients h now c = Some c' →
  c' !! k = Some conn ↔
  c !! k = Some conn ∧ (cc_connected conn = true ∨ dt_leb cutoff (cc_last_seen conn) = true).
Proof.
  unfold cleanup_disconnected_clients. intros -> [= <-]. rewrite lookup_hm_remove_all.
  case_bool_decide as Hk; rewrite elem_of_hm_filter_keys in Hk.
  - destruct Hk as (v & Hv & E). split; [done|]. intros [Hc Hor]. simplify_eq.
    unfold dt_ltb in E. destruct Hor as [Ho|Ho]; rewrite Ho in E; cbn in E; try done.
    by rewrite andb_false_r in E.
  - split; [|by intros []]. intros Hc. split; [done|].
    destruct (cc_connected conn) eqn:E1; [by left|right].
    destruct (dt_leb cutoff (cc_last_seen conn)) eqn:E2; [done|].
    destruct Hk. exists conn. unfold dt_ltb. by rewrite E1, E2.
Qed.

(** The cleanup of the client store keeps every connected client and every
    client seen since the cut-off, and removes all others. *)
Theorem cleanup_disconnected_clients_spec h now c c' cutoff :
  hours_before now h = Some cutoff → cleanup_disconnected_clients h now c = Some c' →
  (∀ id, is_client_connected id c' = is_client_connected id c)
  ∧ (∀ k conn, c' !! k = Some conn ↔ c !! k = Some conn
       ∧ (cc_connected conn = true ∨ dt_leb cutoff (cc_last_seen conn) = true)).
Proof.
  intros Hcut Hc. pose proof (λ k v, cleanup_clients_lookup h now c c' cutoff k v Hcut Hc) as Hl.
  split; [|done]. intros id. unfold is_client_connected.
  destruct (c' !! id) as [v|] eqn:E.
  - apply Hl in E as [-> _]. done.
  - destruct (c !! id) as [v|] eqn:E'; [|done]. destruct (cc_connected v) eqn:Ev; [|done].
    rewrite (proj2 (Hl id v)) in E; [done|]. auto.
Qed.

Lemma is_client_connected_set id b now c :
  is_client_connected id (set_client_connected id b now c) = b.
Proof.
  unfold is_client_connected, set_client_connected.
  destruct (c !! id); by rewrite lookup_insert_eq.
Qed.

(** The store answers the last status set for a client, whatever else was
    set for other clients. *)
Theorem set_client_connected_get id b now c id' :
  is_client_connected id' (set_client_connected id b now c) =
    (if decide (id' = id) then b else is_client_connected id' c)
  ∧ ∃ conn, get_client_connection id (set_client_connected id b now c) = Some conn
      ∧ cc_last_seen conn = now ∧ (b = true → cc_connected_at conn = Some now).
Proof.
  unfold is_client_connected, set_client_connected, get_client_connection.
  destruct (c !! id) as [conn|] eqn:E; (split;
    [destruct (decide (id' = id)) as [->|]; by rewrite ?lookup_insert_eq, ?lookup_insert_ne
    |rewrite lookup_insert_eq; eexists; split; [done|]; split; [done|]; by intros ->]).
Qed.

Lemma stats_fold (l : list (string * ClientConnection)) n m :
  foldl (λ '(n, total) kv, ((if cc_connected kv.2 then n + 1 else n), total + 1)) (n, m) l
  = (n + Z.of_nat (length (List.filter cc_connected l.*2)), m + Z.of_nat (length l)).
Proof.
  revert n m. induction l as [|[k v] l IH]; intros n m; cbn; [f_equal; lia|].
  rewrite IH. destruct (cc_connected v); cbn; f_equal; lia.
Qed.

(** The loop of the statistics counts the clients and the connected clients;
    the two differ by the clients reported as disconnected, which are never
    negative. *)
Theorem get_connection_stats_spec c :
  get_connection_stats c =
    (Z.of_nat (size c), Z.of_nat (length (get_connected_clients c)),
     Z.of_nat (size c) - Z.of_nat (length (get_connected_clients c)))
  ∧ (length (get_connected_clients c) ≤ size c)%nat.
Proof.
  unfold get_connection_stats, get_connected_clients, hm_filter_values, hm_values.
  rewrite stats_fold, hm_iter_length. split; [done|].
  rewrite <-(hm_iter_length c), <-(length_fmap snd (hm_iter c)). apply filter_length_le.
Qed.

End client_store.

Lemma cleanup_disconnected_clients_spec_witness :
  ∃ c', cleanup_disconnected_clients (HI := canonical_iter) (CH := chrono_range) 24
          (mkDateTime 1100000 0) (set_client_connected "c1" true t0 ∅) = Some c'
  ∧ is_client_connected "c1" c' = true.
Proof.
  destruct (cleanup_disconnected_clients (HI := canonical_iter) (CH := chrono_range) 24
          (mkDateTime 1100000 0) (set_client_connected "c1" true t0 ∅)) as [c'|] eqn:E;
    [|vm_compute in E; discriminate E].
  exists c'. split; [reflexivity|].
  destruct (cleanup_disconnected_clients_spec (HI := canonical_iter) (CH := chrono_range) 24
    (mkDateTime 1100000 0) (set_client_connected "c1" true t0 ∅) c' (mkDateTime 1013600 0)
    eq_refl E) as [H _].
  rewrite H. vm_compute. reflexivity.
Defined.
