(* ===== verification/Cache.v ===== *)
(** * The cache with expiry (src/storage/cache.rs)

    [MemoryCache<T>] maps keys to entries with an optional expiry; the map is
    behind a lock, so a method is a function of the map and the clock. *)

From S2P Require Import Prelude RustString Models.

Record CacheEntry (T : Type) := mkCacheEntry {
  ce_data : T;
  ce_created_at : DateTime;
  ce_expires_at : option DateTime
}.
Arguments mkCacheEntry {T}.
Arguments ce_data {T}.
Arguments ce_created_at {T}.
Arguments ce_expires_at {T}.

Section cache.
Context `{HI : HashIter} `{CH : Chrono} {T : Type}.

Record MemoryCache := mkMemoryCache {
  mc_storage : gmap string (CacheEntry T);
  mc_default_ttl : option Z
}.
Implicit Types (c : MemoryCache).

(** [CacheEntry::new]; the addition panics outside chrono's range. *)
Definition CacheEntry_new (data : T) (ttl : option Z) (now : DateTime) : option (CacheEntry T) :=
  match ttl with
  | Some duration =>
      match dt_add now duration with
      | Some expires_at => Some (mkCacheEntry data now (Some expires_at))
      | None => None
      end
  | None => Some (mkCacheEntry data now None)
  end.

Definition is_expired (e : CacheEntry T) (now : DateTime) : bool :=
  match ce_expires_at e with
  | Some expires_at => dt_ltb expires_at now
  | None => false
  end.

Definition MemoryCache_new (default_ttl : option Z) : MemoryCache := mkMemoryCache ∅ default_ttl.

Definition cache_get (key : string) (now : DateTime) c : option T * MemoryCache :=
  match mc_storage c !! key with
  | Some entry =>
      if is_expired entry now
      then (None, mkMemoryCache (delete key (mc_storage c)) (mc_default_ttl c))
      else (Some (ce_data entry), c)
  | None => (None, c)
  end.

(** [ttl.or(self.default_ttl)]. *)
Definition option_or {A} (a b : option A) : option A :=
  match a with Some x => Some x | None => b end.

Definition cache_set (key : string) (value : T) (ttl : option Z) (now : DateTime) c
    : option MemoryCache :=
  match CacheEntry_new value (option_or ttl (mc_default_ttl c)) now with
  | Some entry => Some (mkMemoryCache (<[key := entry]> (mc_storage c)) (mc_default_ttl c))
  | None => None
  end.

Definition cache_remove (key : string) c : bool * MemoryCache :=
  (bool_decide (is_Some (mc_storage c !! key)),
   mkMemoryCache (delete key (mc_storage c)) (mc_default_ttl c)).

Definition cleanup_expired (now : DateTime) c : MemoryCache :=
  mkMemoryCache (hm_retain (λ _ entry,
    match ce_expires_at entry with
    | Some expires_at => dt_leb now expires_at
    | None => true
    end) (mc_storage c)) (mc_default_ttl c).

Definition cache_size c : Z := Z.of_nat (size (mc_storage c)).

Definition cache_clear c : MemoryCache := mkMemoryCache ∅ (mc_default_ttl c).

(** *** What a reader observes

    The reference model: the value of a key at an instant. *)

Definition value_at c (key : string) (now : DateTime) : option T :=
  match mc_storage c !! key with
  | Some e => if is_expired e now then None else Some (ce_data e)
  | None => None
  end.

(** Two caches no reader can tell apart from an instant on. *)
Definition same_from (now : DateTime) c1 c2 : Prop :=
  mc_default_ttl c1 = mc_default_ttl c2
  ∧ ∀ key now', dt_leb now now' = true → value_at c1 key now' = value_at c2 key now'.

#[global] Instance same_from_equivalence now : Equivalence (same_from now).
Proof.
  split.
  - by intros c.
  - intros c1 c2 [? H]. split; [done|]. intros. by rewrite H.
  - intros c1 c2 c3 [? H1] [? H2]. split; [congruence|]. intros. by rewrite H1, H2.
Qed.

Lemma is_expired_mono e now now' :
  dt_leb now now' = true → is_expired e now = true → is_expired e now' = true.
Proof.
  intros Hle. unfold is_expired, dt_ltb. destruct (ce_expires_at e) as [x|]; [|done].
  rewrite !negb_true_iff. destruct (dt_leb now' x) eqn:E; [|done].
  by rewrite (dt_leb_trans _ _ _ Hle E).
Qed.

Lemma value_at_delete c k key now :
  value_at (mkMemoryCache (delete k (mc_storage c)) (mc_default_ttl c)) key now
  = if decide (key = k) then None else value_at c key now.
Proof.
  unfold value_at; cbn. destruct (decide (key = k)) as [->|]; by rewrite ?lookup_delete_eq, ?lookup_delete_ne.
Qed.

(** A lookup returns the value of the key at that instant, and the entry it
    may drop is never observed by a later lookup. *)
Theorem cache_get_observes key now c :
  (cache_get key now c).1 = value_at c key now ∧ same_from now (cache_get key now c).2 c.
Proof.
  unfold cache_get. destruct (mc_storage c !! key) as [e|] eqn:E;
    [destruct (is_expired e now) eqn:Ee|]; unfold value_at at 1; rewrite E, ?Ee; split; try done.
  split; [done|]. intros key' now' Hle. cbn [snd]. rewrite value_at_delete.
  destruct (decide (key' = key)) as [->|]; [|done]. unfold value_at.
  by rewrite E, (is_expired_mono e now now').
Qed.

(** Clearing expired entries is invisible to every lookup from that instant
    on, and what it leaves has not expired. *)
Theorem cleanup_expired_invisible now c :
  same_from now (cleanup_expired now c) c
  ∧ map_Forall (λ _ e, is_expired e now = false) (mc_storage (cleanup_expired now c)).
Proof.
  split.
  - split; [done|]. intros key now' Hle. unfold value_at, cleanup_expired; cbn.
    rewrite lookup_hm_retain. destruct (mc_storage c !! key) as [e|]; [|done].
    destruct (is_expired e now') eqn:Ee.
    + destruct (match ce_expires_at e with Some _ => _ | None => _ end); [by rewrite Ee|done].
    + assert (match ce_expires_at e with Some x => dt_leb now x | None => true end = true) as ->.
      { unfold is_expired, dt_ltb in Ee. destruct (ce_expires_at e) as [x|]; [|done].
        apply negb_false_iff in Ee. by apply (dt_leb_trans now now'). }
      by rewrite Ee.
  - intros k e [_ He]%lookup_hm_retain_Some. unfold is_expired, dt_ltb.
    destruct (ce_expires_at e); [|done]. by rewrite He.
Qed.

(** A value set with a time to live is returned by lookups up to its expiry
    and not after, and lookups of other keys are unaffected. *)
Theorem cache_set_get key v ttl now c c' key' now' :
  cache_set key v ttl now c = Some c' →
  value_at c' key' now' =
    if decide (key' = key) then
      match option_or ttl (mc_default_ttl c) with
      | Some d => match dt_add now d with
                  | Some x => if dt_leb now' x then Some v else None
                  | None => None
                  end
      | None => Some v
      end
    else value_at c key' now'.
Proof.
  unfold cache_set, CacheEntry_new, value_at. intros Hs.
  destruct (option_or ttl (mc_default_ttl c)) as [d|];
    [destruct (dt_add now d) as [x|]|]; simplify_eq; cbn;
    (destruct (decide (key' = key)) as [->|Hne];
      [rewrite lookup_insert_eq|by rewrite lookup_insert_ne]); [|done].
  unfold is_expired, dt_ltb; cbn. by destruct (dt_leb now' x).
Qed.

(** A removed key is not found, and the answer says whether an entry was there. *)
Lemma cache_remove_spec key c :
  ((cache_remove key c).1 = true ↔ is_Some (mc_storage c !! key))
  ∧ ∀ key' now, value_at (cache_remove key c).2 key' now =
      if decide (key' = key) then None else value_at c key' now.
Proof.
  split; [by unfold cache_remove; cbn; rewrite bool_decide_eq_true|].
  intros key' now. apply value_at_delete.
Qed.

End cache.

Arguments MemoryCache : clear implicits.

Lemma cache_set_get_witness :
  ∃ c', cache_set (CH := chrono_range) "k" 7%nat (Some (60 * 10 ^ 9)) (mkDateTime 1000 0)
          (MemoryCache_new None) = Some c'
  ∧ value_at c' "k" (mkDateTime 1060 0) = Some 7%nat
  ∧ value_at c' "k" (mkDateTime 1060 1) = None.
Proof.
  destruct (cache_set (CH := chrono_range) "k" 7%nat (Some (60 * 10 ^ 9)) (mkDateTime 1000 0)
          (MemoryCache_new None)) as [c'|] eqn:E; [|vm_compute in E; discriminate E].
  exists c'. split; [reflexivity|].
  split; rewrite (cache_set_get _ _ _ _ _ _ _ _ E); vm_compute; reflexivity.
Defined.
