(* ===== verification/StorageApi.v ===== *)
(** * The storage interface (trait [Storage] of src/storage/mod.rs)

    The services hold an [Arc<dyn Storage>]: [Storage] is the dictionary of the
    trait methods they call, and [StorageLaws] what they rely on.  The services
    are modelled and verified against the class; the in-memory storage is an
    instance of both. *)

From S2P Require Import Prelude RustString Errors Models Paths Memory MemoryProps.

(** A query reads the state; an update returns the next one.  [now] is the
    clock a method reads. *)
Class Storage (S : Type) := {
  s_get_encryption_key : string → S → Res (option string);
  s_store_encryption_key : string → string → S → Res unit * S;
  s_register_device : Device → S → Res unit * S;
  s_get_device : string → string → S → Res (option Device);
  s_list_devices : string → S → Res (list Device);
  s_update_device : Device → S → Res unit * S;
  s_delete_device : string → string → S → Res unit * S;
  s_validate_device : string → string → S → Res bool;
  s_get_devices_for_account : string → S → Res (list Device);
  s_store_file_info : FileInfo → S → Res Z * S;
  s_get_file_info : Z → S → Res (option FileInfo);
  s_list_files : string → Z → option Z → S → Res (list FileInfo);
  s_list_files_except_device : string → Z → string → option Z → S → Res (list FileInfo);
  s_delete_file : string → Z → S → Res unit * S;
  s_store_file_data : Z → list Byte.byte → S → Res unit * S;
  s_get_file_data : Z → S → Res (option (list Byte.byte));
  s_find_file_by_path_and_name : string → string → string → Z → S → Res (option FileInfo);
  s_find_file_by_criteria : string → Z → Z → string → string → S → Res (option FileInfo);
  s_get_file_info_include_deleted : Z → S → Res (option (FileInfo * bool));
  s_check_file_exists : Z → S → Res (bool * bool);
  s_get_file_history : string → string → Z → S → Res (list SyncFile);
  s_get_file_versions_by_id : string → Z → S → Res (list SyncFile);
  s_get_file_by_revision : string → Z → Z → S → Res SyncFile;
  s_store_file : SyncFile → S → Res unit * S;
  s_get_server_group_id : string → Z → S → Res (option Z);
  s_get_server_ids : string → Z → Z → S → Res (option (Z * Z));
  s_find_watcher_by_folder : string → Z → string → S → Res (option Z);
  s_create_watcher_with_conditions : string → Z → sync_WatcherData → Z → DateTime → S → Res Z * S;
  s_save_watcher_conditions : Z → list WatcherCondition → S → Res unit * S;
  s_get_watcher_group_by_account_and_id : string → Z → S → Res (option sync_WatcherGroupData);
  s_get_watcher_groups : string → S → Res (list WatcherGroup);
  s_register_watcher_group : string → string → WatcherGroup → S → Res Z * S;
  s_get_user_watcher_group : string → Z → S → Res (option WatcherGroup);
  s_update_watcher_group : string → WatcherGroup → S → Res unit * S;
  s_delete_watcher_group : string → Z → S → Res unit * S;
  s_get_watcher_preset : string → S → Res (list string);
  s_register_watcher_preset_proto : string → string → list string → S → Res unit * S;
  s_update_watcher_preset_proto : string → string → list string → S → Res unit * S;
  s_get_client_watcher_id : string → Z → Z → S → Res (option (Z * Z));
  s_get_auth_token : string → S → Res (option AuthToken);
  s_get_account_by_hash : string → S → Res (option Account);
  s_create_account : Account → S → Res unit * S
}.

(** What a successful update means for later reads.  The in-memory storage meets this
    ([memory_storage_laws]); the MySQL storage does not: it stores a revision of its own,
    and stores over the row of an identifier whoever owns it. *)
Class StorageLaws (S : Type) `{Storage S} := {
  (** Metadata stored under an identifier is read back; nothing else changes. *)
  law_store_file_info : ∀ f s id s',
    s_store_file_info f s = (Ok id, s') →
    (fi_file_id f ≠ 0 → id = fi_file_id f)
    ∧ s_get_file_info id s' = Ok (Some (fi_with_file_id f id))
    ∧ (∀ j, j ≠ id → s_get_file_info j s' = s_get_file_info j s)
    ∧ (∀ j, s_get_file_data j s' = s_get_file_data j s);
  (** Content stored under an identifier is read back; metadata is untouched. *)
  law_store_file_data : ∀ i bs s s',
    s_store_file_data i bs s = (Ok tt, s') →
    s_get_file_data i s' = Ok (Some bs)
    ∧ (∀ j, j ≠ i → s_get_file_data j s' = s_get_file_data j s)
    ∧ (∀ j, s_get_file_info j s' = s_get_file_info j s);
  (** A failed store leaves the state as it is. *)
  law_store_file_info_err : ∀ f s e s', s_store_file_info f s = (Err e, s') → s' = s;
  law_store_file_data_err : ∀ i bs s e s', s_store_file_data i bs s = (Err e, s') → s' = s;
  (** Devices and contents are kept apart. *)
  law_register_device : ∀ v s j,
    s_get_file_data j (s_register_device v s).2 = s_get_file_data j s
    ∧ s_get_file_info j (s_register_device v s).2 = s_get_file_info j s;
  (** Accounts are kept apart from files, keys and tokens. *)
  law_create_account : ∀ a s,
    (∀ j, s_get_file_data j (s_create_account a s).2 = s_get_file_data j s)
    ∧ (∀ j, s_get_file_info j (s_create_account a s).2 = s_get_file_info j s)
    ∧ (∀ j, s_get_file_info_include_deleted j (s_create_account a s).2
            = s_get_file_info_include_deleted j s)
    ∧ (∀ j, s_check_file_exists j (s_create_account a s).2 = s_check_file_exists j s)
    ∧ (∀ b, s_get_encryption_key b (s_create_account a s).2 = s_get_encryption_key b s);
  (** A deletion is accepted for the owner only, and removes the file. *)
  law_delete_file : ∀ a i s s',
    s_delete_file a i s = (Ok tt, s') →
    (∃ f, s_get_file_info i s = Ok (Some f) ∧ fi_account_hash f = a)
    ∧ s_get_file_info i s' = Ok None ∧ s_get_file_data i s' = Ok None
    ∧ (∀ j, j ≠ i → s_get_file_info j s' = s_get_file_info j s
                    ∧ s_get_file_data j s' = s_get_file_data j s);
  (** A failed deletion leaves the state as it is. *)
  law_delete_file_err : ∀ a i s e s', s_delete_file a i s = (Err e, s') → s' = s;
  (** The look-up that includes deleted files extends the one that does not. *)
  law_include_deleted : ∀ i s f,
    s_get_file_info_include_deleted i s = Ok (Some (f, false)) → s_get_file_info i s = Ok (Some f);
  law_include_deleted_none : ∀ i s,
    s_get_file_info_include_deleted i s = Ok None → s_get_file_info i s = Ok None;
  (** Keys are kept per account. *)
  law_store_encryption_key : ∀ a k s s',
    s_store_encryption_key a k s = (Ok tt, s') →
    s_get_encryption_key a s' = Ok (Some k)
    ∧ ∀ b, b ≠ a → s_get_encryption_key b s' = s_get_encryption_key b s;
  (** A watcher created where there was none is found by its folder. *)
  law_create_watcher : ∀ a g w t now s id s',
    s_find_watcher_by_folder a g (swd_folder w) s = Ok None →
    s_create_watcher_with_conditions a g w t now s = (Ok id, s') →
    s_find_watcher_by_folder a g (swd_folder w) s' = Ok (Some id);
  (** Saving conditions leaves the look-up of watchers as it is. *)
  law_save_conditions : ∀ i cs s s' a g folder,
    s_save_watcher_conditions i cs s = (Ok tt, s') →
    s_find_watcher_by_folder a g folder s' = s_find_watcher_by_folder a g folder s
}.

(** ** The in-memory storage implements the interface *)

Section memory.
Context `{HI : HashIter} `{CH : Chrono}.

#[global] Instance memory_storage : Storage StorageData := {|
  s_get_encryption_key := get_encryption_key;
  s_store_encryption_key := store_encryption_key;
  s_register_device := register_device;
  s_get_device := get_device;
  s_list_devices := list_devices;
  s_update_device := update_device;
  s_delete_device := delete_device;
  s_validate_device := validate_device;
  s_get_devices_for_account := get_devices_for_account;
  s_store_file_info := store_file_info;
  s_get_file_info := get_file_info;
  s_list_files := list_files;
  s_list_files_except_device := list_files_except_device;
  s_delete_file := delete_file;
  s_store_file_data := store_file_data;
  s_get_file_data := get_file_data;
  s_find_file_by_path_and_name := find_file_by_path_and_name;
  s_find_file_by_criteria := find_file_by_criteria;
  s_get_file_info_include_deleted := get_file_info_include_deleted;
  s_check_file_exists := check_file_exists;
  s_get_file_history := get_file_history;
  s_get_file_versions_by_id := get_file_versions_by_id;
  s_get_file_by_revision := get_file_by_revision;
  s_store_file := store_file;
  s_get_server_group_id := get_server_group_id;
  s_get_server_ids := get_server_ids;
  s_find_watcher_by_folder := find_watcher_by_folder;
  s_create_watcher_with_conditions := create_watcher_with_conditions;
  s_save_watcher_conditions := save_watcher_conditions;
  s_get_watcher_group_by_account_and_id := get_watcher_group_by_account_and_id;
  s_get_watcher_groups := get_watcher_groups;
  s_register_watcher_group := register_watcher_group;
  s_get_user_watcher_group := get_user_watcher_group;
  s_update_watcher_group := update_watcher_group;
  s_delete_watcher_group := delete_watcher_group;
  s_get_watcher_preset := get_watcher_preset;
  s_register_watcher_preset_proto := register_watcher_preset_proto;
  s_update_watcher_preset_proto := update_watcher_preset_proto;
  s_get_client_watcher_id := get_client_watcher_id;
  s_get_auth_token := get_auth_token;
  s_get_account_by_hash := get_account_by_hash;
  s_create_account := create_account
|}.

Lemma memory_find_created a g w t now (s : StorageData) :
  find_watcher_by_folder a g (swd_folder w) s = Ok None →
  find_watcher_by_folder a g (swd_folder w) (create_watcher_with_conditions a g w t now s).2
  = Ok (Some (next_key_i32 (watchers s))).
Proof.
  unfold find_watcher_by_folder. rewrite create_watcher_watchers. intros Hnone%(inj Ok).
  apply fmap_None in Hnone. rewrite hm_find_None in Hnone.
  match goal with |- context [hm_find ?P (<[?k := ?v]> ?m)] =>
    destruct (hm_find_complete P (<[k := v]> m) k v) as [[i v'] Hi] end.
  - apply lookup_insert_eq.
  - cbn. by rewrite !bool_decide_eq_true_2, Z.eqb_refl by done.
  - rewrite Hi. apply hm_find_Some in Hi as [Hi HP]. cbn. do 2 f_equal.
    apply lookup_insert_Some in Hi as [[-> _]|[_ Hi]]; [done|]. by rewrite (Hnone _ _ Hi) in HP.
Qed.

#[global] Instance memory_storage_laws : StorageLaws StorageData.
Proof.
  split; cbn.
  - intros f s id s'. unfold store_file_info, get_file_info, get_file_data.
    destruct (Z.eqb_spec (fi_file_id f) 0); intros [= <- <-]; cbn;
      (split_and!; [done|by rewrite lookup_insert_eq|intros; by rewrite lookup_insert_ne|done]).
  - intros i bs s s' [= <-]. unfold get_file_data, get_file_info; cbn.
    split_and!; [by rewrite lookup_insert_eq|intros; by rewrite lookup_insert_ne|done].
  - intros f s e s'. unfold store_file_info. by destruct (fi_file_id f =? 0).
  - intros i bs s e s' [=].
  - done.
  - done.
  - intros a i s s'. unfold delete_file, get_file_info, get_file_data.
    destruct (files s !! i) as [f|]; [|done]. case_bool_decide; [|done]. intros [= <-]; cbn.
    split_and!; [eauto|by rewrite lookup_delete_eq..|]. intros. by rewrite !lookup_delete_ne.
  - intros a i s e s'. unfold delete_file. repeat case_match; by intros [= <-].
  - intros i s f. unfold get_file_info_include_deleted, get_file_info; cbn.
    case_match; naive_solver.
  - intros i s. unfold get_file_info_include_deleted, get_file_info; cbn. by case_match.
  - intros a k s s' [= <-]. unfold get_encryption_key; cbn. split; [by rewrite lookup_insert_eq|].
    intros. by rewrite lookup_insert_ne.
  - intros a g w t now s id s' Hnone Heq. pose proof (memory_find_created a g w t now s Hnone) as H.
    rewrite Heq in H. injection Heq as <- _. exact H.
  - intros i cs s s' a g folder [= <-]. unfold find_watcher_by_folder.
    by rewrite insert_conditions_watchers.
Qed.

End memory.
