(* ===== verification/Effects.v ===== *)
(** * Effects

    Services and handlers run in a state monad with two ways to stop: an error
    value ([?] in the source) and a panic. *)

From S2P Require Import Prelude Errors Memory.

Inductive outcome (A E : Type) :=
| Returned (r : result A E)
| Panicked.
Arguments Returned {A E} r.
Arguments Panicked {A E}.

Definition ME (St E A : Type) : Type := St → outcome A E * St.
Abbreviation M St A := (ME St StorageError A).

Definition ret {St E A} (a : A) : ME St E A := λ st, (Returned (Ok a), st).
Definition throw {St E A} (e : E) : ME St E A := λ st, (Returned (Err e), st).

(** [m?; k]. *)
Definition mthen {St E A B} (m : ME St E A) (k : A → ME St E B) : ME St E B := λ st,
  match m st with
  | (Returned (Ok a), st') => k a st'
  | (Returned (Err e), st') => (Returned (Err e), st')
  | (Panicked, st') => (Panicked, st')
  end.

(** [match m { Ok(a) => .., Err(e) => .. }]. *)
Definition mtry {St E E' A B} (m : ME St E A) (k : result A E → ME St E' B) : ME St E' B := λ st,
  match m st with
  | (Returned r, st') => k r st'
  | (Panicked, st') => (Panicked, st')
  end.

(** [m.map_err(f)]. *)
Definition mmap_err {St E E' A} (f : E → E') (m : ME St E A) : ME St E' A := λ st,
  match m st with
  | (Returned r, st') => (Returned (map_err f r), st')
  | (Panicked, st') => (Panicked, st')
  end.

Notation "x ←? m ; k" := (mthen m (λ x, k)) (at level 100, m at next level, right associativity) : rust_scope.

(** A computation on a part of the state. *)
Definition on_part {St P E A} (get : St → P) (set : P → St → St) (m : ME P E A) : ME St E A := λ st,
  let '(r, p) := m (get st) in (r, set p st).

(** One step of the monad whose result is known to be a success. *)
Lemma mthen_ok {St E A B} (m : ME St E A) (k : A → ME St E B) st b st' :
  mthen m k st = (Returned (Ok b), st') →
  ∃ a st1, m st = (Returned (Ok a), st1) ∧ k a st1 = (Returned (Ok b), st').
Proof. unfold mthen. destruct (m st) as [[[a|e]|] st1]; try done. eauto. Qed.

Lemma mmap_err_ok {St E E' A} (f : E → E') (m : ME St E A) st a st' :
  mmap_err f m st = (Returned (Ok a), st') → m st = (Returned (Ok a), st').
Proof. unfold mmap_err. destruct (m st) as [[[x|e]|] st1]; by intros [= <- <-]. Qed.

Ltac bind_ok H :=
  let a := fresh "a" in let st := fresh "st" in let Ha := fresh "Ha" in
  apply mthen_ok in H as (a & st & Ha & H).

(** ** What a computation preserves *)

(** However the computation ends, an assertion on the state that holds before it
    holds after it. *)
Definition preserves {St E A} (Q : St → Prop) (m : ME St E A) : Prop := ∀ st, Q st → Q (m st).2.

Section preserves.
Context {St : Type} (Q : St → Prop).

Lemma preserves_ret {E A} (a : A) : preserves Q (ret (E := E) a).
Proof. by intros st. Qed.

Lemma preserves_throw {E A} (e : E) : preserves Q (throw (A := A) e).
Proof. by intros st. Qed.

Lemma preserves_mthen {E A B} (m : ME St E A) (k : A → ME St E B) :
  preserves Q m → (∀ a, preserves Q (k a)) → preserves Q (mthen m k).
Proof.
  intros Hm Hk st Hst. unfold mthen. specialize (Hm st Hst).
  destruct (m st) as [[[a|e]|] st1]; cbn in *; [by apply Hk|done..].
Qed.

Lemma preserves_mtry {E E' A B} (m : ME St E A) (k : result A E → ME St E' B) :
  preserves Q m → (∀ r, preserves Q (k r)) → preserves Q (mtry m k).
Proof.
  intros Hm Hk st Hst. unfold mtry. specialize (Hm st Hst).
  destruct (m st) as [[r|] st1]; cbn in *; [by apply Hk|done].
Qed.

Lemma preserves_mmap_err {E E' A} (f : E → E') (m : ME St E A) : preserves Q m → preserves Q (mmap_err f m).
Proof. intros Hm st Hst. unfold mmap_err. specialize (Hm st Hst). by destruct (m st) as [[r|] st1]. Qed.

(** Lifting from a part of the state. *)
Lemma preserves_on_part {P E A} (R : P → Prop) (get : St → P) (set : P → St → St) (m : ME P E A) :
  (∀ st, Q st → R (get st)) → (∀ p st, Q st → R p → Q (set p st)) →
  preserves R m → preserves Q (on_part get set m).
Proof.
  intros Hget Hset Hm st Hst. unfold on_part. specialize (Hm (get st) (Hget st Hst)).
  destruct (m (get st)) as [r p]; cbn in *. by apply Hset.
Qed.

End preserves.

Create HintDb preserves.
#[export] Hint Resolve preserves_ret preserves_throw preserves_mthen preserves_mtry preserves_mmap_err : preserves.
