(* ===== verification/Crypto.v ===== *)
(** * Cryptographic helpers (src/utils/crypto.rs)

    The primitives are code of other crates and arguments of the model:
    AES-256-GCM, HMAC-SHA-256, SHA-256, the hexadecimal and the base64 codecs.
    Random bytes ([OsRng], [thread_rng]) and the clock are arguments of the
    functions that draw them. *)

From S2P Require Import Prelude RustString.

Abbreviation bytes := (list Byte.byte).

(** [s.as_bytes()]. *)
Definition as_bytes (s : string) : bytes := String.list_byte_of_string s.

(** The operations of the crates [aes_gcm], [hmac], [sha2], [hex] and
    [base64]. [aes_encrypt] is [None] where the crate returns an error. *)
Class CryptoApi := {
  aes_encrypt : bytes → bytes → bytes → bytes → option bytes;  (* key nonce msg aad *)
  aes_decrypt : bytes → bytes → bytes → bytes → option bytes;  (* key nonce ct aad *)
  hmac_sha256 : bytes → bytes → bytes;
  sha256_digest : bytes → bytes;
  hex_encode : bytes → string;
  hex_decode : string → option bytes;
  b64_encode_no_pad : bytes → string;
  b64_decode_no_pad : string → option bytes;
  b64_decode_std : string → option bytes
}.

(** Authenticated decryption inverts encryption under the same key, nonce and
    associated data; encryption fails only for inputs above 64 GiB. *)
Class AeadLaws `{CryptoApi} := {
  aes_decrypt_encrypt : ∀ key nonce m aad c,
    aes_encrypt key nonce m aad = Some c → aes_decrypt key nonce c aad = Some m;
  aes_encrypt_total : ∀ key nonce m aad,
    length key = 32%nat → length nonce = 12%nat →
    Z.of_nat (length m) ≤ 2 ^ 36 → Z.of_nat (length aad) ≤ 2 ^ 36 →
    is_Some (aes_encrypt key nonce m aad)
}.

(** Decoding inverts encoding. *)
Class Base64RoundTrip `{CryptoApi} := {
  b64_decode_encode : ∀ bs, b64_decode_no_pad (b64_encode_no_pad bs) = Some bs
}.

(** The base64 alphabet packs three bytes into four characters: the length of a
    text the decoder accepts, without and with padding. *)
Class Base64Lengths `{CryptoApi} := {
  b64_no_pad_length : ∀ s bs, b64_decode_no_pad s = Some bs →
    str_len s = (4 * Z.of_nat (length bs) + 2) / 3;
  b64_std_length : ∀ s bs, b64_decode_std s = Some bs →
    str_len s = 4 * ((Z.of_nat (length bs) + 2) / 3)
}.

(** Two lower-case hexadecimal digits per byte. *)
Definition hex_digit (n : nat) : ascii := Ascii.ascii_of_nat (if (n <? 10)%nat then 48 + n else 87 + n).
Fixpoint hex_text (bs : bytes) : string :=
  match bs with
  | [] => ""
  | b :: bs => let n := Byte.to_nat b in
      String (hex_digit (n / 16)) (String (hex_digit (n mod 16)) (hex_text bs))
  end.

Class HexLaws `{CryptoApi} := { hex_encode_text : ∀ bs, hex_encode bs = hex_text bs }.

Section crypto.
Context `{CA : CryptoApi}.

(** The [OsRng] bytes are the argument. *)
Definition generate_encryption_key (random : bytes) : string := hex_encode random.

(** [None] is the panic of [expect("encrypt")]. *)
Definition aead_encrypt (nonce_bytes key_bytes plaintext aad : bytes) : option bytes :=
  match aes_encrypt key_bytes nonce_bytes plaintext aad with
  | Some ct => Some (nonce_bytes ++ ct)%list
  | None => None
  end.

Definition aead_decrypt (key_bytes blob aad : bytes) : result bytes string :=
  if (length blob <? 12)%nat then Err "cipher blob too short"
  else
    let nonce_b := take 12 blob in
    let ct := drop 12 blob in
    match aes_decrypt key_bytes nonce_b ct aad with
    | Some m => Ok m
    | None => Err "decrypt failed"
    end.

Definition make_eq_index (account_salt : bytes) (normalized_path : string) : bytes :=
  hmac_sha256 account_salt (as_bytes normalized_path).

Definition make_token_path `{Unicode} (account_salt : bytes) (normalized_path : string) : string :=
  let tokens := (λ seg, b64_encode_no_pad (make_eq_index account_salt (to_lowercase seg)))
                  <$> List.filter (λ seg, negb (str_is_empty seg)) (split_char "/" normalized_path) in
  str_join "/" tokens.

Definition sha256_as_string (input : string) : string := hex_encode (sha256_digest (as_bytes input)).

Definition sha256 (input : string) : string := sha256_as_string input.

Definition sha256_as_string_truncated (input : string) (length : nat) : string :=
  hex_encode (take length (sha256_digest (as_bytes input))).

Definition generate_account_hash (account_hash : string) : string := sha256 account_hash.

Definition generate_account_hash_from_email (user_id email : string) : string :=
  sha256_as_string (pair_key user_id email).

Definition generate_account_hash_from_email_only (email : string) : string := sha256_as_string email.

Definition test_account_hash : string :=
  "209f313bf330cf40fe89fae938babbeba7ec95d31237f77cf19de418c0d50a0a".

Definition generate_account_hash_for_client (email name user_id : string) : string :=
  let hash_email := sha256_as_string email in
  if (email == "test@example.com") || str_contains "test" email then test_account_hash
  else hash_email.

Definition generate_device_hash (user_id registered_at : string) : string :=
  sha256_as_string (pair_key user_id registered_at).

(** [u64::from_str_radix(s, 16)] on a text without sign. *)
Definition hex_val (a : ascii) : option Z :=
  let n := byte_val a in
  if (48 <=? n) && (n <=? 57) then Some (n - 48)
  else if (97 <=? n) && (n <=? 102) then Some (n - 87)
  else if (65 <=? n) && (n <=? 70) then Some (n - 55)
  else None.

Fixpoint hex_acc (acc : Z) (s : string) : option Z :=
  match s with
  | EmptyString => Some acc
  | String a s =>
      match hex_val a with
      | Some d => if acc * 16 + d <=? u64_max then hex_acc (acc * 16 + d) s else None
      | None => None
      end
  end.

(** A single leading [+] is accepted. *)
Definition u64_from_str_radix_16 (s : string) : option Z :=
  match s with
  | EmptyString => None
  | String "+" (String a s) => hex_acc 0 (String a s)
  | _ => hex_acc 0 s
  end.

(** [if value > i64::MAX as u64 { value & (i64::MAX as u64) } else { value }]. *)
Definition clamp_i64 (value : Z) : Z :=
  if i64_max <? value then Z.land value i64_max else value.

(** The clock in seconds and nanoseconds since the epoch, and the random 16
    bits, are arguments. *)
Definition generate_file_id (now_secs subsec_nanos random_part : Z)
    (user_id filename file_hash : string) : Z :=
  let timestamp_nanos := now_secs * 10 ^ 9 + subsec_nanos in
  let input := user_id +:+ ":" +:+ filename +:+ ":" +:+ file_hash +:+ ":" +:+ pretty timestamp_nanos
                 +:+ ":" +:+ pretty random_part in
  let hash_str := sha256_as_string_truncated input 8 in
  match u64_from_str_radix_16 hash_str with
  | Some value => clamp_i64 value
  | None => clamp_i64 (Z.lxor (Z.lxor now_secs random_part) subsec_nanos)
  end.

Definition derive_salt (key_bytes : bytes) (label account_hash : string) : bytes :=
  hmac_sha256 key_bytes (as_bytes label ++ as_bytes ":" ++ as_bytes account_hash)%list.

(** ** Properties *)

(** Decryption returns the plaintext of an encryption under the same key and
    associated data, whatever the random nonce. *)
Theorem aead_roundtrip `{!AeadLaws} nonce key m aad blob :
  length nonce = 12%nat → aead_encrypt nonce key m aad = Some blob →
  aead_decrypt key blob aad = Ok m.
Proof.
  intros Hn. unfold aead_encrypt, aead_decrypt.
  destruct (aes_encrypt key nonce m aad) as [ct|] eqn:E; intros; simplify_eq.
  rewrite length_app, Hn. cbn -[take drop]. rewrite <-Hn, take_app_length, drop_app_length.
  by rewrite (aes_decrypt_encrypt _ _ _ _ _ E).
Qed.

Lemma clamp_i64_range v : 0 ≤ v → 0 ≤ clamp_i64 v ≤ i64_max.
Proof.
  intros Hv. unfold clamp_i64. destruct (Z.ltb_spec i64_max v); [|lia].
  assert (Hm : i64_max = Z.ones 63) by done. rewrite Hm, Z.land_ones by lia.
  pose proof (Z.mod_pos_bound v (2 ^ 63)). rewrite Z.ones_equiv. lia.
Qed.

Lemma hex_acc_nonneg s : ∀ acc v, 0 ≤ acc → hex_acc acc s = Some v → 0 ≤ v.
Proof.
  induction s as [|a s IH]; intros acc v Hacc; cbn [hex_acc]; [by intros [= <-]|].
  destruct (hex_val a) as [d|] eqn:E; [|done]. case_match; [|done]. apply IH.
  unfold hex_val in E. repeat case_match; simplify_eq; simplify_bool; lia.
Qed.

Lemma u64_from_str_radix_16_nonneg s v : u64_from_str_radix_16 s = Some v → 0 ≤ v.
Proof.
  unfold u64_from_str_radix_16. repeat case_match; try done; apply hex_acc_nonneg; lia.
Qed.

(** A generated file identifier fits a signed 64-bit integer, on the path of
    the digest and on the fallback of the clock. *)
Theorem generate_file_id_range secs nanos r user name hash :
  0 ≤ secs → 0 ≤ nanos → 0 ≤ r →
  0 ≤ generate_file_id secs nanos r user name hash ≤ i64_max.
Proof.
  intros Hs Hn Hr. unfold generate_file_id.
  destruct (u64_from_str_radix_16 _) as [v|] eqn:E.
  - apply clamp_i64_range. by apply u64_from_str_radix_16_nonneg in E.
  - apply clamp_i64_range. repeat (apply Z.lxor_nonneg; split; intros; try lia).
Qed.

(** Every e-mail address that contains the word test is given the same
    account hash, so two such users share an account. *)
Theorem test_emails_share_account email email' name name' id id' :
  str_contains "test" email = true → str_contains "test" email' = true →
  generate_account_hash_for_client email name id = generate_account_hash_for_client email' name' id'.
Proof. unfold generate_account_hash_for_client. intros -> ->. by rewrite !orb_true_r. Qed.

Lemma str_join_snoc sep ws w : ws ≠ [] → str_join sep (ws ++ [w])%list = str_join sep ws +:+ sep +:+ w.
Proof.
  induction ws as [|v ws IH]; [done|]. intros _. destruct ws as [|u ws].
  { cbn [app str_join]. done. }
  change ((v :: u :: ws) ++ [w])%list with (v :: ((u :: ws) ++ [w]))%list.
  rewrite str_join_cons by done. rewrite IH by done. rewrite (str_join_cons sep v) by done.
  by rewrite !app_str_assoc.
Qed.

Lemma split_char_concat c s t :
  split_char c (s +:+ String c t) = (split_char c s ++ split_char c t)%list.
Proof.
  induction s as [|a s IH]; cbn; [by rewrite bool_decide_eq_true_2|]. rewrite IH.
  case_bool_decide; [done|]. pose proof (split_char_nonempty c s).
  by destruct (split_char c s).
Qed.

(** Token paths follow the directory tree: the token path of an entry is the
    one of its directory, a slash, and the token of its name, and it does not
    depend on the case of the name. *)
Theorem make_token_path_child `{Unicode} salt dir seg name :
  seg ∈ split_char "/" dir → seg ≠ "" → contains_char "/" name = false → name ≠ "" →
  make_token_path salt (dir +:+ "/" +:+ name) =
    make_token_path salt dir +:+ "/" +:+ b64_encode_no_pad (make_eq_index salt (to_lowercase name)).
Proof.
  intros Hin Hseg Hname Hne. unfold make_token_path. cbn [String.append].
  rewrite split_char_concat.
  rewrite (split_char_none _ name Hname), List.filter_app, fmap_app. cbn [List.filter].
  destruct (str_is_empty name) eqn:E; [by apply str_is_empty_true in E|]. cbn [negb fmap list_fmap].
  apply str_join_snoc. intros Hnil. apply fmap_nil_inv in Hnil.
  assert (seg ∈ List.filter (λ s, negb (str_is_empty s)) (split_char "/" dir)) as Hs.
  { rewrite list_elem_of_In, filter_In, <-list_elem_of_In. split; [done|]. by destruct seg. }
  rewrite Hnil in Hs. by apply elem_of_nil in Hs.
Qed.

End crypto.

(** A concrete instance, for evaluation: no cipher, text as bytes. *)
Definition plain_crypto : CryptoApi := {|
  aes_encrypt _ _ m _ := Some m; aes_decrypt _ _ c _ := Some c;
  hmac_sha256 k m := m; sha256_digest m := m; hex_encode := hex_text; hex_decode _ := None;
  b64_encode_no_pad bs := String.string_of_list_byte bs;
  b64_decode_no_pad s := Some (as_bytes s); b64_decode_std s := None |}.

Definition plain_aead : @AeadLaws plain_crypto.
Proof. split; cbn; [by intros ????? [= <-]|eauto]. Defined.

Definition plain_base64 : @Base64RoundTrip plain_crypto.
Proof. split. cbn. intros bs. f_equal. apply String.list_byte_of_string_of_list_byte. Defined.

(** Another instance, whose decoder accepts texts of the length of a key and
    only those. *)
Definition zero_key : bytes := replicate 32 Byte.x00.
Definition key_crypto : CryptoApi := {|
  aes_encrypt _ _ m _ := Some m; aes_decrypt _ _ c _ := Some c;
  hmac_sha256 k m := m; sha256_digest m := m; hex_encode := hex_text; hex_decode _ := None;
  b64_encode_no_pad bs := "";
  b64_decode_no_pad s := if str_len s =? 43 then Some zero_key else None;
  b64_decode_std s := if str_len s =? 44 then Some zero_key else None |}.

Definition key_aead : @AeadLaws key_crypto.
Proof. split; cbn; [by intros ????? [= <-]|eauto]. Defined.

Definition key_base64 : @Base64Lengths key_crypto.
Proof.
  split; cbn; intros s bs; (case_match; [|done]); intros [= <-];
    match goal with H : _ = true |- _ => apply Z.eqb_eq in H; rewrite H end; reflexivity.
Defined.

Definition nonce0 : bytes := replicate 12 Byte.x00.

Lemma aead_roundtrip_witness :
  ∃ blob, aead_encrypt (CA := plain_crypto) nonce0 [] (as_bytes "~/docs") (as_bytes "acc:dev") = Some blob
  ∧ aead_decrypt (CA := plain_crypto) [] blob (as_bytes "acc:dev") = Ok (as_bytes "~/docs").
Proof.
  eexists. split; [reflexivity|].
  apply (aead_roundtrip (CA := plain_crypto) (H := plain_aead) nonce0); reflexivity.
Defined.

Lemma generate_file_id_range_witness :
  0 ≤ generate_file_id (CA := plain_crypto) 1700000000 5 7 "u" "f" "h" ≤ i64_max.
Proof. apply (generate_file_id_range (CA := plain_crypto)); lia. Defined.

Lemma test_emails_share_account_witness :
  generate_account_hash_for_client (CA := plain_crypto) "contest@a.org" "" "1"
  = generate_account_hash_for_client (CA := plain_crypto) "latest@b.org" "" "2".
Proof. apply (test_emails_share_account (CA := plain_crypto)); reflexivity. Defined.

Lemma make_token_path_child_witness :
  make_token_path (CA := plain_crypto) (H := ascii_unicode) []
    ("~/docs" +:+ "/" +:+ "A.txt") = "~/docs/a.txt".
Proof.
  rewrite (make_token_path_child (CA := plain_crypto) (H := ascii_unicode) [] "~/docs" "docs" "A.txt").
  - vm_compute. reflexivity.
  - vm_compute. right. left.
  - discriminate.
  - reflexivity.
  - discriminate.
Defined.
