(* ===== verification/Notify.v ===== *)
(** * Notifications (src/server/notification_manager.rs)

    Subscribers are kept in one map per kind of notification, from
    ["account:device"] to the sending half of a channel.  Channels are code of
    the tokio crate: [is_open] says whether the receiver of a channel still
    exists, so that a send is delivered.  A broadcast returns its result and the
    log of what it delivered, by subscriber; [None] is the panic of
    [aead_encrypt]. *)

From S2P Require Import Prelude RustString Errors Models Memory StorageApi Crypto.

(** The identity of a channel. *)
Definition Sender : Type := Z.

Inductive NotificationError :=
| SendError (msg : string)
| SubscriberNotFound (msg : string)
| NE_Internal (msg : string).

Record FileUpdateNotification := mkFileUpdateNotification {
  fun_account_hash : string;
  fun_device_hash : string;
  fun_file_info : option sync_FileInfo;
  fun_update_type : Z;
  fun_timestamp : Z
}.

Record WatcherGroupUpdateNotification := mkWatcherGroupUpdateNotification {
  wgn_account_hash : string;
  wgn_device_hash : string;
  wgn_group_data : option sync_WatcherGroupData;
  wgn_update_type : Z;
  wgn_timestamp : Z
}.

Record WatcherPresetUpdateNotification := mkWatcherPresetUpdateNotification {
  wpn_account_hash : string;
  wpn_device_hash : string;
  wpn_presets : list string;
  wpn_update_type : Z;
  wpn_timestamp : Z
}.

Record NotificationManager := mkNotificationManager {
  file_update_subscribers : gmap string Sender;
  file_update_alias_accounts : gmap string string;
  watcher_group_update_subscribers : gmap string Sender;
  watcher_preset_update_subscribers : gmap string Sender;
  transport_encrypt_metadata : bool
}.

Definition NotificationManager_new : NotificationManager := mkNotificationManager ∅ ∅ ∅ ∅ true.

Abbreviation NRes A := (result A NotificationError).

(** ** Registration *)

Definition set_transport_encrypt_metadata (enabled : bool) (nm : NotificationManager)
    : NotificationManager :=
  mkNotificationManager (file_update_subscribers nm) (file_update_alias_accounts nm)
    (watcher_group_update_subscribers nm) (watcher_preset_update_subscribers nm) enabled.

Definition register_file_update_subscriber (key : string) (sender : Sender)
    (nm : NotificationManager) : NRes unit * NotificationManager :=
  (Ok tt, mkNotificationManager (<[key := sender]> (file_update_subscribers nm))
            (file_update_alias_accounts nm) (watcher_group_update_subscribers nm)
            (watcher_preset_update_subscribers nm) (transport_encrypt_metadata nm)).

Definition register_file_update_subscriber_with_alias (key : string) (sender : Sender)
    (original_account_hash : string) (nm : NotificationManager) : NRes unit * NotificationManager :=
  (Ok tt, mkNotificationManager (<[key := sender]> (file_update_subscribers nm))
            (<[key := original_account_hash]> (file_update_alias_accounts nm))
            (watcher_group_update_subscribers nm)
            (watcher_preset_update_subscribers nm) (transport_encrypt_metadata nm)).

Definition unregister_file_update_subscriber (key : string) (nm : NotificationManager)
    : NRes bool * NotificationManager :=
  let removed := hm_contains key (file_update_subscribers nm) in
  (Ok removed, mkNotificationManager (delete key (file_update_subscribers nm))
                 (delete key (file_update_alias_accounts nm)) (watcher_group_update_subscribers nm)
                 (watcher_preset_update_subscribers nm) (transport_encrypt_metadata nm)).

Definition register_watcher_group_update_subscriber (key : string) (sender : Sender)
    (nm : NotificationManager) : NRes unit * NotificationManager :=
  (Ok tt, mkNotificationManager (file_update_subscribers nm) (file_update_alias_accounts nm)
            (<[key := sender]> (watcher_group_update_subscribers nm))
            (watcher_preset_update_subscribers nm) (transport_encrypt_metadata nm)).

Definition unregister_watcher_group_update_subscriber (key : string) (nm : NotificationManager)
    : NRes bool * NotificationManager :=
  (Ok (hm_contains key (watcher_group_update_subscribers nm)),
   mkNotificationManager (file_update_subscribers nm) (file_update_alias_accounts nm)
     (delete key (watcher_group_update_subscribers nm))
     (watcher_preset_update_subscribers nm) (transport_encrypt_metadata nm)).

Definition register_watcher_preset_update_subscriber (key : string) (sender : Sender)
    (nm : NotificationManager) : NRes unit * NotificationManager :=
  (Ok tt, mkNotificationManager (file_update_subscribers nm) (file_update_alias_accounts nm)
            (watcher_group_update_subscribers nm)
            (<[key := sender]> (watcher_preset_update_subscribers nm)) (transport_encrypt_metadata nm)).

Definition unregister_watcher_preset_update_subscriber (key : string) (nm : NotificationManager)
    : NRes bool * NotificationManager :=
  (Ok (hm_contains key (watcher_preset_update_subscribers nm)),
   mkNotificationManager (file_update_subscribers nm) (file_update_alias_accounts nm)
     (watcher_group_update_subscribers nm)
     (delete key (watcher_preset_update_subscribers nm)) (transport_encrypt_metadata nm)).

Definition is_watcher_group_subscriber_active (key : string) (nm : NotificationManager) : bool :=
  hm_contains key (watcher_group_update_subscribers nm).

Definition get_watcher_group_subscribers `{HashIter} (nm : NotificationManager) : NRes (list string) :=
  Ok (hm_keys (watcher_group_update_subscribers nm)).

Definition get_file_update_alias_account (key : string) (nm : NotificationManager) : option string :=
  file_update_alias_accounts nm !! key.

(** ** Broadcasts *)

Section broadcast.
Context `{HI : HashIter} `{CA : CryptoApi} {S : Type} `{ST : Storage S}.
Context (is_open : Sender → bool) (send_error : string).
Implicit Types (nm : NotificationManager) (s : S).

Definition parse_account_key (k : string) : option bytes :=
  match b64_decode_no_pad k with
  | Some bs => if (length bs =? 32)%nat then Some bs else
      match b64_decode_std k with
      | Some bs => if (length bs =? 32)%nat then Some bs else None
      | None => None
      end
  | None =>
      match b64_decode_std k with
      | Some bs => if (length bs =? 32)%nat then Some bs else None
      | None => None
      end
  end.

(** Path and name replaced by their ciphertext; [nonces] are the two draws of
    [OsRng]. *)
Definition seal_file_info (nonces : bytes * bytes) (key : bytes) (aad : string) (fi : sync_FileInfo)
    : option sync_FileInfo :=
  match aead_encrypt nonces.1 key (as_bytes (sfi_file_path fi)) (as_bytes aad),
        aead_encrypt nonces.2 key (as_bytes (sfi_filename fi)) (as_bytes aad) with
  | Some ct_path, Some ct_name =>
      Some (mk_sync_FileInfo (sfi_file_id fi) (b64_encode_no_pad ct_name) (sfi_file_hash fi)
              (sfi_updated_time fi) (sfi_device_hash fi) (sfi_group_id fi) (sfi_watcher_id fi)
              (sfi_is_encrypted fi) (b64_encode_no_pad ct_path) (sfi_revision fi) (sfi_file_size fi))
  | _, _ => None
  end.

(** [device_key.split(':')], the device when there are two parts. *)
Definition aad_device (device_key device_hash : string) : string :=
  match split_char ":" device_key with
  | [_; dev] => dev
  | _ => device_hash
  end.

(** The message for one subscriber: alias, then metadata encryption. *)
Definition message_for nm s (notification : FileUpdateNotification)
    (nonces : string → bytes * bytes) (device_key : string) : option FileUpdateNotification :=
  let account_hash := fun_account_hash notification in
  let acc := default account_hash (file_update_alias_accounts nm !! device_key) in
  let with_info fi := mkFileUpdateNotification acc (fun_device_hash notification) fi
                        (fun_update_type notification) (fun_timestamp notification) in
  match fun_file_info notification with
  | Some fi =>
      if transport_encrypt_metadata nm then
        match s_get_encryption_key account_hash s with
        | Ok (Some kstr) =>
            match parse_account_key kstr with
            | Some key =>
                let dev := aad_device device_key (fun_device_hash notification) in
                let aad := pair_key account_hash dev in
                match seal_file_info (nonces device_key) key aad fi with
                | Some fi' => Some (with_info (Some fi'))
                | None => None
                end
            | None => Some (with_info (Some fi))
            end
        | _ => Some (with_info (Some fi))
        end
      else Some (with_info (Some fi))
  | None => Some (with_info None)
  end.

(** The guards of the loop. *)
Definition file_target (notification : FileUpdateNotification) (exclude_source : bool)
    (device_key : string) : bool :=
  starts_with (fun_account_hash notification +:+ ":") device_key
  && (if exclude_source then negb (ends_with (":" +:+ fun_device_hash notification) device_key)
      else true).

Fixpoint file_loop nm s (notification : FileUpdateNotification) (exclude_source : bool)
    (nonces : string → bytes * bytes) (entries : list (string * Sender))
    (sent_count : Z) (errors : list string) (log : list (string * FileUpdateNotification))
    : option (Z * list string * list (string * FileUpdateNotification)) :=
  match entries with
  | [] => Some (sent_count, errors, log)
  | (device_key, sender) :: entries =>
      if file_target notification exclude_source device_key then
        match message_for nm s notification nonces device_key with
        | Some notif =>
            if is_open sender then
              file_loop nm s notification exclude_source nonces entries (sent_count + 1) errors
                (log ++ [(device_key, notif)])
            else
              file_loop nm s notification exclude_source nonces entries sent_count
                (errors ++ ["Failed to send notification to " +:+ device_key +:+ ": " +:+ send_error])
                log
        | None => None
        end
      else file_loop nm s notification exclude_source nonces entries sent_count errors log
  end.

Definition broadcast_file_update_internal nm s (notification : FileUpdateNotification)
    (exclude_source : bool) (nonces : string → bytes * bytes)
    : option (NRes Z * list (string * FileUpdateNotification)) :=
  match file_loop nm s notification exclude_source nonces
          (hm_iter (file_update_subscribers nm)) 0 [] [] with
  | Some (sent_count, errors, log) =>
      match errors with
      | _ :: _ => if sent_count =? 0 then Some (Err (SendError (str_join "; " errors)), log)
                  else Some (Ok sent_count, log)
      | [] => Some (Ok sent_count, log)
      end
  | None => None
  end.

Definition broadcast_file_update nm s notification nonces :=
  broadcast_file_update_internal nm s notification true nonces.

Definition broadcast_file_update_including_source nm s notification nonces :=
  broadcast_file_update_internal nm s notification false nonces.

(** The guards of the two watcher broadcasts, which share their text. *)
Definition watcher_target (account_hash : string) (exclude_device_hash : option string)
    (subscriber_key : string) : bool :=
  match split_char ":" subscriber_key with
  | [subscriber_account_hash; subscriber_device_hash] =>
      (subscriber_account_hash == account_hash)
      && match exclude_device_hash with
         | Some exclude_hash => subscriber_device_hash != exclude_hash
         | None => true
         end
  | _ => false
  end.

(** The loop: the deliveries, in order; failures are only counted for the log
    line. *)
Definition watcher_loop {U} (account_hash : string) (exclude_device_hash : option string) (update : U)
    (entries : list (string * Sender)) : list (string * U) :=
  foldl (λ log entry,
    if watcher_target account_hash exclude_device_hash entry.1 then
      if is_open entry.2 then (log ++ [(entry.1, update)])%list else log
    else log) [] entries.

Definition broadcast_watcher_group_update nm (account_hash : string)
    (exclude_device_hash : option string) (update : WatcherGroupUpdateNotification)
    : NRes unit * list (string * WatcherGroupUpdateNotification) :=
  (Ok tt, watcher_loop account_hash exclude_device_hash update
            (hm_iter (watcher_group_update_subscribers nm))).

Definition broadcast_watcher_preset_update nm (account_hash : string)
    (exclude_device_hash : option string) (update : WatcherPresetUpdateNotification)
    : NRes unit * list (string * WatcherPresetUpdateNotification) :=
  (Ok tt, watcher_loop account_hash exclude_device_hash update
            (hm_iter (watcher_preset_update_subscribers nm))).

Definition ping_watcher_group_subscriber nm (key : string)
    (notification : WatcherGroupUpdateNotification)
    : NRes unit * list (string * WatcherGroupUpdateNotification) :=
  match watcher_group_update_subscribers nm !! key with
  | Some sender =>
      if is_open sender then (Ok tt, [(key, notification)])
      else (Err (SendError ("Failed to send ping to " +:+ key +:+ ": " +:+ send_error)), [])
  | None => (Err (SubscriberNotFound ("Subscriber not found: " +:+ key)), [])
  end.

End broadcast.
