(* ===== verification/NotifyProps.v ===== *)
(** * Correctness of the notification manager

    Who receives a broadcast and what: exact recipients of each loop, isolation
    of accounts, the result against the deliveries, and the encryption of file
    metadata in transit. *)

From S2P Require Import Prelude RustString Errors Models Memory MemoryProps StorageApi Crypto Notify.

Section file_broadcast.
Context `{HI : HashIter} `{CA : CryptoApi} {S : Type} `{ST : Storage S}.
Context (is_open : Sender → bool) (send_error : string).
Implicit Types (nm : NotificationManager) (s : S) (n : FileUpdateNotification).

(** A subscriber is selected by the loop and its channel accepts the message. *)
Definition reached n (exclude : bool) (e : string * Sender) : bool :=
  file_target n exclude e.1 && is_open e.2.

Lemma file_loop_spec nm s n ex nonces entries :
  ∀ sent errs log sent' errs' log',
  file_loop is_open send_error nm s n ex nonces entries sent errs log = Some (sent', errs', log') →
  ∃ new, log' = (log ++ new)%list ∧ sent' = sent + Z.of_nat (length new)
  ∧ new.*1 = (List.filter (reached n ex) entries).*1
  ∧ Forall (λ km, message_for nm s n nonces km.1 = Some km.2) new
  ∧ (errs' = [] ↔ errs = [] ∧ ∀ e, e ∈ entries → file_target n ex e.1 = true → is_open e.2 = true).
Proof.
  induction entries as [|[k c] entries IH]; intros sent errs log sent' errs' log'; cbn [file_loop].
  { intros [= <- <- <-]. exists []. rewrite app_nil_r. split_and!; try done; [cbn; lia|].
    split; [|by intros []]. intros ->. split; [done|]. by intros e ?%elem_of_nil. }
  assert (Hr : reached n ex (k, c) = file_target n ex k && is_open c) by done.
  cbn [List.filter]. rewrite Hr; clear Hr.
  destruct (file_target n ex k) eqn:Et; cbn [andb].
  - destruct (message_for nm s n nonces k) as [m|] eqn:Em; [|done].
    destruct (is_open c) eqn:Eo; intros (new & -> & -> & Hk & Hm & He)%IH.
    + exists ((k, m) :: new). rewrite <-app_assoc. split_and!; try done.
      * cbn [length]. lia.
      * cbn. by rewrite Hk.
      * by constructor.
      * rewrite He. f_equiv. split; [|by intros Hall e Hin; apply Hall; right].
        intros Hall e [->|Hin]%elem_of_cons Hte; [done|auto].
    + exists new. split_and!; try done.
      rewrite He. split; [intros [[_ ?]%app_eq_nil _]; done|].
      intros [_ Hall]. specialize (Hall (k, c) (list_elem_of_here _ _) Et). cbn in Hall. congruence.
  - intros (new & -> & -> & Hk & Hm & He)%IH. exists new. split_and!; try done.
    rewrite He. f_equiv. split; [|by intros Hall e Hin; apply Hall; right].
    intros Hall e [->|Hin]%elem_of_cons Hte; [cbn in Hte; congruence|auto].
Qed.

(** The subscribers a broadcast reaches, as entries of the map. *)
Lemma elem_of_reached n ex nm k :
  k ∈ (List.filter (reached n ex) (hm_iter (file_update_subscribers nm))).*1 ↔
  ∃ c, file_update_subscribers nm !! k = Some c ∧ file_target n ex k = true ∧ is_open c = true.
Proof.
  rewrite list_elem_of_fmap. setoid_rewrite list_elem_of_In. setoid_rewrite filter_In. split.
  - intros ([k' c] & -> & Hin%list_elem_of_In & Hr). apply elem_of_hm_iter in Hin.
    unfold reached in Hr; cbn in Hr. apply andb_true_iff in Hr as []. eauto.
  - intros (c & Hk & Ht & Ho). exists (k, c). split; [done|]. split.
    + by apply list_elem_of_In, elem_of_hm_iter.
    + unfold reached; cbn. by rewrite Ht, Ho.
Qed.

Lemma NoDup_reached n ex nm :
  NoDup (List.filter (reached n ex) (hm_iter (file_update_subscribers nm))).*1.
Proof.
  pose proof (hm_iter_NoDup_keys (file_update_subscribers nm)) as Hnd.
  induction (hm_iter (file_update_subscribers nm)) as [|e l IH]; [constructor|].
  cbn in Hnd |- *. apply NoDup_cons in Hnd as [Hni Hnd]. destruct (reached n ex e); cbn; [|auto].
  constructor; [|auto]. rewrite list_elem_of_fmap in Hni |- *. intros (e' & Heq & Hin).
  apply Hni. exists e'. split; [done|]. rewrite list_elem_of_In in Hin |- *.
  by apply filter_In in Hin as [].
Qed.

(** The subscribers a broadcast delivers to, in the order of the loop. *)
Lemma broadcast_log_keys nm s n ex nonces r log :
  broadcast_file_update_internal is_open send_error nm s n ex nonces = Some (r, log) →
  log.*1 = (List.filter (reached n ex) (hm_iter (file_update_subscribers nm))).*1.
Proof.
  unfold broadcast_file_update_internal.
  destruct (file_loop _ _ _ _ _ _ _ _ _ _ _) as [[[sent errs] log']|] eqn:E; [|done].
  apply file_loop_spec in E as (new & -> & _ & Hk & _). cbn [app].
  intros Hr. by repeat case_match; simplify_eq.
Qed.

(** C26: a broadcast delivers exactly one message to every subscriber the loop
    selects whose channel is open, and to nobody else; the message is the one
    built for that subscriber; the result is an error exactly when a subscriber is
    selected and none was reached, and the number of deliveries otherwise. *)
Theorem broadcast_file_update_exact nm s n ex nonces r log :
  broadcast_file_update_internal is_open send_error nm s n ex nonces = Some (r, log) →
  NoDup log.*1
  ∧ (∀ k, k ∈ log.*1 ↔ ∃ c, file_update_subscribers nm !! k = Some c
                          ∧ file_target n ex k = true ∧ is_open c = true)
  ∧ (∀ k m, (k, m) ∈ log → message_for nm s n nonces k = Some m)
  ∧ match r with
    | Ok cnt => cnt = Z.of_nat (length log)
                ∧ (log = [] → ∀ k c, file_update_subscribers nm !! k = Some c → file_target n ex k = false)
    | Err _ => log = [] ∧ ∃ k c, file_update_subscribers nm !! k = Some c
                 ∧ file_target n ex k = true ∧ is_open c = false
    end.
Proof.
  unfold broadcast_file_update_internal.
  destruct (file_loop _ _ _ _ _ _ _ _ _ _ _) as [[[sent errs] log']|] eqn:E; [|done].
  apply file_loop_spec in E as (new & -> & -> & Hk & Hm & He). cbn [app] in *.
  intros Hr. assert (log = new) as -> by (by repeat case_match; simplify_eq).
  rewrite Hk. split_and!.
  - apply NoDup_reached.
  - apply elem_of_reached.
  - intros k m Hin. rewrite Forall_forall in Hm. by apply (Hm (k, m)).
  - assert (Hnone : ∀ k c, new = [] → file_update_subscribers nm !! k = Some c → is_open c = true →
      file_target n ex k = false).
    { intros k c -> Hc Ho. destruct (file_target n ex k) eqn:Et; [|done]. exfalso.
      assert (Hin : k ∈ ([] : list (string * FileUpdateNotification)).*1)
        by (rewrite Hk; apply elem_of_reached; eauto). by apply elem_of_nil in Hin. }
    destruct errs as [|e errs].
    { injection Hr as <-. split; [lia|]. intros -> k c Hc. destruct (is_open c) eqn:Eo; [by apply (Hnone k c)|].
      destruct (file_target n ex k) eqn:Et; [|done]. destruct He as [He _]. destruct (He eq_refl) as [_ He'].
      specialize (He' (k, c)). cbn in He'.
      rewrite He' in Eo; [done|by apply elem_of_hm_iter|done]. }
    destruct (Z.eqb_spec (0 + Z.of_nat (length new)) 0); simplify_eq;
      [|split; [lia|intros ->; cbn in *; lia]].
    split; [destruct new; [done|cbn in *; lia]|].
    destruct (decide (Exists (λ e, file_target n ex e.1 = true ∧ is_open e.2 = false)
      (hm_iter (file_update_subscribers nm)))) as [Hx|Hx].
    + apply Exists_exists in Hx as ([k c] & Hin & ? & ?). apply elem_of_hm_iter in Hin. eauto.
    + exfalso. enough (e :: errs = []) by done. apply He. split; [done|]. intros e' Hin Ht.
      destruct (is_open e'.2) eqn:Eo; [done|]. destruct Hx. apply Exists_exists. eauto.
Qed.

End file_broadcast.

(** ** Recipients by account and device *)

(** Hashes are hexadecimal digests: no colon. *)
Definition plain (h : string) : Prop := contains_char ":" h = false.

Lemma file_target_pair_key n ex a d :
  plain (fun_account_hash n) → plain (fun_device_hash n) → plain a → plain d →
  file_target n ex (pair_key a d) = true ↔
  a = fun_account_hash n ∧ (ex = true → d ≠ fun_device_hash n).
Proof.
  intros Hacc Hdev Ha Hd. unfold file_target. rewrite andb_true_iff, starts_with_pair_key by done.
  destruct ex.
  - rewrite negb_true_iff, <-not_true_iff_false, ends_with_pair_key by done. naive_solver.
  - naive_solver.
Qed.

Lemma watcher_target_pair_key acc ex a d :
  plain a → plain d →
  watcher_target acc ex (pair_key a d) = true ↔ a = acc ∧ ex ≠ Some d.
Proof.
  intros Ha Hd. unfold watcher_target. rewrite split_pair_key by done.
  rewrite andb_true_iff, bool_decide_eq_true. destruct ex as [e|]; [|naive_solver].
  rewrite negb_true_iff, bool_decide_eq_false. naive_solver.
Qed.

Section recipients.
Context `{HI : HashIter} `{CA : CryptoApi} {S : Type} `{ST : Storage S}.
Context (is_open : Sender → bool) (send_error : string).
Implicit Types (nm : NotificationManager) (s : S) (n : FileUpdateNotification).

(** A file update reaches a connected device exactly when the device belongs
    to the account of the update and, unless the source is included, is not the
    device the update comes from. *)
Theorem file_update_recipients nm s n ex nonces r log a d c :
  plain (fun_account_hash n) → plain (fun_device_hash n) → plain a → plain d →
  broadcast_file_update_internal is_open send_error nm s n ex nonces = Some (r, log) →
  file_update_subscribers nm !! pair_key a d = Some c → is_open c = true →
  pair_key a d ∈ log.*1 ↔ a = fun_account_hash n ∧ (ex = true → d ≠ fun_device_hash n).
Proof.
  intros Hacc Hdev Ha Hd Hb Hc Ho. rewrite (broadcast_log_keys _ _ _ _ _ _ _ _ _ Hb).
  rewrite elem_of_reached, <-(file_target_pair_key n ex a d) by done.
  split; [by intros (c' & _ & ? & _)|eauto].
Qed.

(** The deliveries of a watcher broadcast. *)
Lemma watcher_loop_spec {U} acc ex (u : U) entries log :
  foldl (λ log entry,
    if watcher_target acc ex entry.1 then
      if is_open entry.2 then (log ++ [(entry.1, u)])%list else log
    else log) log entries
  = (log ++ ((λ e, (e.1, u)) <$>
      List.filter (λ e : string * Sender, watcher_target acc ex e.1 && is_open e.2) entries))%list.
Proof.
  revert log. induction entries as [|[k c] l IH]; intros log; cbn [foldl List.filter fst snd].
  { by rewrite app_nil_r. }
  rewrite IH. destruct (watcher_target acc ex k), (is_open c); cbn; by rewrite <- ?app_assoc.
Qed.

Lemma elem_of_watcher_loop {U} acc ex (u : U) (subs : gmap string Sender) k m :
  (k, m) ∈ watcher_loop is_open acc ex u (hm_iter subs) ↔
  m = u ∧ ∃ c, subs !! k = Some c ∧ watcher_target acc ex k = true ∧ is_open c = true.
Proof.
  unfold watcher_loop. rewrite watcher_loop_spec. cbn [app]. rewrite list_elem_of_fmap. split.
  - intros ([k' c] & Heq & Hin). simplify_eq/=. rewrite list_elem_of_In, filter_In in Hin.
    destruct Hin as [Hin Ht]. apply list_elem_of_In, elem_of_hm_iter in Hin. cbn in Ht.
    apply andb_true_iff in Ht as []. eauto.
  - intros (-> & c & Hk & Ht & Ho). exists (k, c). split; [done|].
    rewrite list_elem_of_In, filter_In. split; [by apply list_elem_of_In, elem_of_hm_iter|].
    cbn. by rewrite Ht, Ho.
Qed.

(** Group and preset updates are delivered unchanged to exactly the connected
    devices of the account other than the excluded one. *)
Theorem watcher_update_recipients nm acc ex ug up a d c :
  plain a → plain d → is_open c = true →
  (watcher_group_update_subscribers nm !! pair_key a d = Some c →
   ∀ u, (pair_key a d, u) ∈ (broadcast_watcher_group_update is_open nm acc ex ug).2
        ↔ u = ug ∧ a = acc ∧ ex ≠ Some d)
  ∧ (watcher_preset_update_subscribers nm !! pair_key a d = Some c →
     ∀ u, (pair_key a d, u) ∈ (broadcast_watcher_preset_update is_open nm acc ex up).2
          ↔ u = up ∧ a = acc ∧ ex ≠ Some d).
Proof.
  intros Ha Hd Ho. split; intros Hc u; cbn [snd broadcast_watcher_group_update
    broadcast_watcher_preset_update]; rewrite elem_of_watcher_loop, <-watcher_target_pair_key by done;
    (f_equiv; split; [by intros (? & _ & ? & _)|eauto]).
Qed.

(** Keys that are not of the form account:device are treated differently by
    the two kinds of broadcast: a device hash with a colon is served by file
    updates and skipped by watcher updates. *)
Theorem colon_key_divergence n acc d1 d2 :
  plain acc → plain d1 → plain d2 → fun_account_hash n = acc →
  file_target n false (pair_key acc (pair_key d1 d2)) = true
  ∧ watcher_target acc None (pair_key acc (pair_key d1 d2)) = false.
Proof.
  intros Ha H1 H2 Hn. split.
  - unfold file_target. rewrite Hn, andb_true_r. apply starts_with_spec.
    exists (pair_key d1 d2). by rewrite app_str_assoc.
  - unfold watcher_target, pair_key. cbn [String.append].
    by rewrite split_char_app, split_char_app, split_char_none.
Qed.

End recipients.

(** ** Metadata in transit *)

Section transit.
Context `{HI : HashIter} `{CA : CryptoApi} {S : Type} `{ST : Storage S}.
Context (is_open : Sender → bool) (send_error : string).
Implicit Types (nm : NotificationManager) (s : S) (n : FileUpdateNotification).

(** What a device does with a message: decode and decrypt path and name. *)
Definition open_field (key : bytes) (aad field : string) : option bytes :=
  match b64_decode_no_pad field with
  | Some blob => match aead_decrypt key blob (as_bytes aad) with Ok m => Some m | Err _ => None end
  | None => None
  end.

Lemma open_sealed `{!AeadLaws} `{!Base64RoundTrip} nonce key aad m blob :
  length nonce = 12%nat → aead_encrypt nonce key m (as_bytes aad) = Some blob →
  open_field key aad (b64_encode_no_pad blob) = Some m.
Proof.
  intros Hn. unfold aead_encrypt. destruct (aes_encrypt _ _ _ _) as [ct|] eqn:E; [|done].
  intros [= <-]. unfold open_field. rewrite b64_decode_encode. unfold aead_decrypt.
  rewrite length_app, Hn. cbn -[take drop]. rewrite <-Hn, take_app_length, drop_app_length.
  by rewrite (aes_decrypt_encrypt _ _ _ _ _ E).
Qed.

(** C36: with a usable account key and encryption enabled, the device a message is
    sent to recovers path and name of the file with the account key and its own
    identity as associated data; the account is replaced by the alias the device
    subscribed under, if any, and every other field travels unchanged. *)
Theorem message_metadata_roundtrip `{!AeadLaws} `{!Base64RoundTrip} nm s n nonces a d fi kstr key m :
  plain a → plain d → a = fun_account_hash n → transport_encrypt_metadata nm = true →
  fun_file_info n = Some fi → s_get_encryption_key a s = Ok (Some kstr) →
  parse_account_key kstr = Some key →
  length (nonces (pair_key a d)).1 = 12%nat → length (nonces (pair_key a d)).2 = 12%nat →
  message_for nm s n nonces (pair_key a d) = Some m →
  ∃ sealed_path sealed_name,
      m = mkFileUpdateNotification (default a (file_update_alias_accounts nm !! pair_key a d)) (fun_device_hash n)
            (Some (mk_sync_FileInfo (sfi_file_id fi) sealed_name (sfi_file_hash fi) (sfi_updated_time fi)
                     (sfi_device_hash fi) (sfi_group_id fi) (sfi_watcher_id fi) (sfi_is_encrypted fi) sealed_path
                     (sfi_revision fi) (sfi_file_size fi)))
            (fun_update_type n) (fun_timestamp n)
      ∧ open_field key (pair_key a d) sealed_path = Some (as_bytes (sfi_file_path fi))
      ∧ open_field key (pair_key a d) sealed_name = Some (as_bytes (sfi_filename fi)).
Proof.
  intros Ha Hd -> Hen Hfi Hk Hp Hn1 Hn2. unfold message_for. rewrite Hfi, Hen, Hk, Hp.
  unfold aad_device. rewrite split_pair_key by done. unfold seal_file_info.
  destruct (aead_encrypt _.1 _ _ _) as [ct1|] eqn:E1; [|done].
  destruct (aead_encrypt _.2 _ _ _) as [ct2|] eqn:E2; [|done].
  intros [= <-]. do 2 eexists. split; [reflexivity|]. split; [exact (open_sealed _ _ _ _ _ Hn1 E1)|exact (open_sealed _ _ _ _ _ Hn2 E2)].
Qed.

Lemma parse_account_key_length `{!Base64Lengths} k key :
  parse_account_key k = Some key → length key = 32%nat ∧ (str_len k = 43 ∨ str_len k = 44).
Proof.
  assert (Hstd : ∀ bs, b64_decode_std k = Some bs → (length bs =? 32)%nat = true →
    length bs = 32%nat ∧ (str_len k = 43 ∨ str_len k = 44)).
  { intros bs Hb%b64_std_length Hl%Nat.eqb_eq. rewrite Hl in Hb. split; [done|]. by right. }
  unfold parse_account_key. destruct (b64_decode_no_pad k) as [b1|] eqn:E1.
  - destruct (length b1 =? 32)%nat eqn:El.
    + intros [= <-]. apply Nat.eqb_eq in El. apply b64_no_pad_length in E1. rewrite El in E1.
      split; [done|]. by left.
    + destruct (b64_decode_std k) as [b2|]; [|done]. case_match; [|done]. intros [= <-]. eauto.
  - destruct (b64_decode_std k) as [b2|]; [|done]. case_match; [|done]. intros [= <-]. eauto.
Qed.

(** The message carries the metadata as it is. *)
Definition in_clear (n m : FileUpdateNotification) : Prop := fun_file_info m = fun_file_info n.

(** An account key that is not 43 or 44 characters long is not a 32-byte
    base64 key: metadata then travels in clear although encryption is
    enabled. *)
Theorem short_key_metadata_in_clear `{!Base64Lengths} nm s n nonces k kstr :
  s_get_encryption_key (fun_account_hash n) s = Ok (Some kstr) →
  str_len kstr ≠ 43 → str_len kstr ≠ 44 →
  ∃ m, message_for nm s n nonces k = Some m ∧ in_clear n m.
Proof.
  intros Hk H43 H44. unfold message_for, in_clear. rewrite Hk.
  destruct (parse_account_key kstr) as [key|] eqn:E.
  { apply parse_account_key_length in E as [_ [?|?]]; done. }
  destruct (fun_file_info n) as [fi|] eqn:Ef; [|eauto].
  destruct (transport_encrypt_metadata nm); eauto.
Qed.

(** No subscriber makes a broadcast panic while paths, names and hashes are
    below 64 GiB. *)
Theorem broadcast_no_panic `{!AeadLaws} `{!Base64Lengths} nm s n ex nonces :
  (∀ fi, fun_file_info n = Some fi →
     Z.of_nat (length (as_bytes (sfi_file_path fi))) ≤ 2 ^ 36
     ∧ Z.of_nat (length (as_bytes (sfi_filename fi))) ≤ 2 ^ 36) →
  (∀ k, length (nonces k).1 = 12%nat ∧ length (nonces k).2 = 12%nat) →
  (∀ k c, file_update_subscribers nm !! k = Some c →
     Z.of_nat (length (as_bytes (pair_key (fun_account_hash n)
       (aad_device k (fun_device_hash n))))) ≤ 2 ^ 36) →
  is_Some (broadcast_file_update_internal is_open send_error nm s n ex nonces).
Proof.
  intros Hlen Hnon Haad. unfold broadcast_file_update_internal.
  assert (Hmsg : ∀ k c, (k, c) ∈ hm_iter (file_update_subscribers nm) →
    is_Some (message_for nm s n nonces k)).
  { intros k c Hin%elem_of_hm_iter. unfold message_for.
    destruct (fun_file_info n) as [fi|]; [|eauto]. destruct (transport_encrypt_metadata nm); [|eauto].
    destruct (s_get_encryption_key _ s) as [[kstr|]|]; [|eauto..].
    destruct (parse_account_key kstr) as [key|] eqn:Ek; [|eauto].
    apply parse_account_key_length in Ek as [Hkey _].
    destruct (Hlen fi eq_refl) as [H1 H2]. destruct (Hnon k) as [H3 H4].
    unfold seal_file_info, aead_encrypt.
    destruct (aes_encrypt_total _ _ _ _ Hkey H3 H1 (Haad _ _ Hin)) as [? ->].
    destruct (aes_encrypt_total _ _ _ _ Hkey H4 H2 (Haad _ _ Hin)) as [? ->]. eauto. }
  assert (Hloop : ∀ entries sent errs log,
    (∀ k c, (k, c) ∈ entries → is_Some (message_for nm s n nonces k)) →
    is_Some (file_loop is_open send_error nm s n ex nonces entries sent errs log)).
  { induction entries as [|[k c] l IH]; intros sent errs log Hall; cbn [file_loop]; [eauto|].
    destruct (Hall k c (list_elem_of_here _ _)) as [m ->].
    repeat case_match; apply IH; intros; eapply Hall; by right. }
  destruct (Hloop _ 0 [] [] Hmsg) as [[[sent errs] log] ->].
  repeat case_match; eauto.
Qed.

End transit.

(** ** Examples *)

Section examples.
#[local] Existing Instance canonical_iter.
#[local] Existing Instance chrono_range.

Definition sample_sync_file : sync_FileInfo := to_sync_file (sample_file 1 "acc" "a.txt").

Definition sample_update : FileUpdateNotification :=
  mkFileUpdateNotification "acc" "dev1" (Some sample_sync_file) 0 100.

(** Two devices of one account and one of another. *)
Definition sample_manager : NotificationManager :=
  (register_file_update_subscriber "acc:dev1" 1
    (register_file_update_subscriber_with_alias "acc:dev2" 2 "alias"
      (register_file_update_subscriber "other:dev3" 3
        (register_watcher_group_update_subscriber "acc:dev2" 4 NotificationManager_new).2).2).2).2.

Definition key32 : string := "0123456789abcdef0123456789abcdef".

(** The storage with an account key of 32 characters. *)
Definition sample_keys : StorageData := (store_encryption_key "acc" key32 StorageData_new).2.

Definition sample_nonces (k : string) : bytes * bytes := (nonce0, nonce0).

Lemma broadcast_file_update_exact_witness :
  ∃ r log, broadcast_file_update_internal (CA := key_crypto) (λ _, true) "closed" sample_manager
    sample_keys sample_update true sample_nonces = Some (r, log)
  ∧ NoDup log.*1 ∧ "acc:dev2" ∈ log.*1.
Proof.
  destruct (broadcast_file_update_internal (CA := key_crypto) (λ _, true) "closed" sample_manager
    sample_keys sample_update true sample_nonces) as [[r log]|] eqn:E;
    [|vm_compute in E; discriminate E].
  destruct (broadcast_file_update_exact (CA := key_crypto) (λ _, true) "closed" sample_manager
    sample_keys sample_update true sample_nonces r log E) as (Hn & Hk & _).
  exists r, log. split; [reflexivity|]. split; [exact Hn|]. apply Hk. exists 2.
  split; [vm_compute; reflexivity|]. split; vm_compute; reflexivity.
Defined.

Lemma file_update_recipients_witness :
  ∃ r log, broadcast_file_update_internal (CA := key_crypto) (λ _, true) "closed" sample_manager
    sample_keys sample_update true sample_nonces = Some (r, log)
  ∧ ("acc:dev1" ∈ log.*1 ↔ "acc" = "acc" ∧ (true = true → "dev1" ≠ "dev1")).
Proof.
  destruct (broadcast_file_update_internal (CA := key_crypto) (λ _, true) "closed" sample_manager
    sample_keys sample_update true sample_nonces) as [[r log]|] eqn:E;
    [|vm_compute in E; discriminate E].
  exists r, log. split; [reflexivity|].
  exact (file_update_recipients (CA := key_crypto) (λ _, true) "closed" sample_manager sample_keys
    sample_update true sample_nonces r log "acc" "dev1" 1 eq_refl eq_refl eq_refl eq_refl E
    eq_refl eq_refl).
Defined.

Lemma watcher_update_recipients_witness :
  ("acc:dev2", mkWatcherGroupUpdateNotification "acc" "dev1" None 0 100) ∈
  (broadcast_watcher_group_update (λ _, true) sample_manager "acc" (Some "dev1")
    (mkWatcherGroupUpdateNotification "acc" "dev1" None 0 100)).2.
Proof.
  apply (watcher_update_recipients (λ _, true) sample_manager "acc" (Some "dev1")
    (mkWatcherGroupUpdateNotification "acc" "dev1" None 0 100)
    (mkWatcherPresetUpdateNotification "acc" "dev1" [] 0 100) "acc" "dev2" 4);
    try reflexivity.
  split; [reflexivity|]. split; [reflexivity|discriminate].
Defined.

Lemma colon_key_divergence_witness :
  file_target sample_update false "acc:dev:9" = true ∧ watcher_target "acc" None "acc:dev:9" = false.
Proof. apply (colon_key_divergence sample_update "acc" "dev" "9"); reflexivity. Defined.

Lemma message_metadata_roundtrip_witness :
  ∃ m fi', message_for (CA := plain_crypto) sample_manager sample_keys sample_update sample_nonces
    "acc:dev2" = Some m ∧ fun_file_info m = Some fi' ∧ fun_account_hash m = "alias"
  ∧ open_field (CA := plain_crypto) (as_bytes key32) "acc:dev2" (sfi_file_path fi')
    = Some (as_bytes "~/docs").
Proof.
  destruct (message_for (CA := plain_crypto) sample_manager sample_keys sample_update sample_nonces
    "acc:dev2") as [m|] eqn:E; [|vm_compute in E; discriminate E].
  destruct (message_metadata_roundtrip (CA := plain_crypto) (H := plain_aead) (H0 := plain_base64)
    sample_manager sample_keys sample_update sample_nonces "acc" "dev2" sample_sync_file key32
    (as_bytes key32) m) as (sealed_path & sealed_name & -> & Hp & _); try reflexivity; [exact E|].
  do 2 eexists. split; [reflexivity|]. split; [reflexivity|]. split; [reflexivity|exact Hp].
Defined.

Lemma short_key_metadata_in_clear_witness :
  ∃ m, message_for (CA := key_crypto) sample_manager sample_keys sample_update sample_nonces
    "acc:dev2" = Some m ∧ in_clear sample_update m.
Proof.
  apply (short_key_metadata_in_clear (CA := key_crypto) (H := key_base64)) with (kstr := key32);
    [reflexivity|vm_compute; discriminate..].
Defined.

Lemma broadcast_no_panic_witness :
  is_Some (broadcast_file_update_internal (CA := key_crypto) (λ _, true) "closed" sample_manager
    sample_keys sample_update true sample_nonces).
Proof.
  apply (broadcast_no_panic (CA := key_crypto) (λ _, true) "closed" (H := key_aead) (H0 := key_base64)
    sample_manager sample_keys sample_update true sample_nonces).
  - intros fi [= <-]. split; vm_compute; discriminate.
  - intros k. split; reflexivity.
  - intros k c Hk. apply elem_of_map_to_list in Hk. vm_compute in Hk.
    repeat (apply elem_of_cons in Hk as [[= -> ->]|Hk]; [vm_compute; discriminate|]).
    by apply elem_of_nil in Hk.
Defined.

End examples.
