(* ===== verification/Broadcast.v ===== *)
(** * Broadcasts over bounded channels (src/server/notification_manager.rs,
    the channels of src/server/service.rs)

    The model of [Notify.v] delivers a notification at once.  A channel has room for
    1024 messages, however: a send to a full one waits until the client has taken a
    message, and a broadcast waits with the table of subscribers locked.  Here tasks
    take turns, a turn of a task that cannot go on does nothing, and in between clients
    read or go away and requests are cancelled. *)

From Stdlib Require Import FunctionalExtensionality.
From S2P Require Import Prelude RustString Errors Models Memory StorageApi Crypto Notify NotifyProps.

(** ** Channels *)

(** [ch_read] is what the client has taken so far. *)
Record Chan := mkChan {
  ch_open : bool; ch_queue : list FileUpdateNotification; ch_read : list FileUpdateNotification
}.

(** [mpsc::channel(1024)] in [subscribe_to_file_updates]. *)
Definition CHANNEL_SIZE : nat := 1024.

Definition ch_history (ch : Chan) : list FileUpdateNotification := (ch_read ch ++ ch_queue ch)%list.

Inductive send_result := Sent (ch : Chan) | Closed | Full.

Definition try_send (m : FileUpdateNotification) (ch : option Chan) : send_result :=
  match ch with
  | None => Closed
  | Some ch =>
      if negb (ch_open ch) then Closed
      else if (length (ch_queue ch) <? CHANNEL_SIZE)%nat then Sent (mkChan true (ch_queue ch ++ [m])%list (ch_read ch))
      else Full
  end.

(** ** Tasks *)

(** The tasks that lock the table of subscribers of file updates.  A broadcast that has
    the lock holds the subscribers that are left, and the message it is sending. *)
Inductive Task :=
| Announce (n : FileUpdateNotification) (exclude_source : bool) (nonces : string → bytes * bytes)
| Sending (n : FileUpdateNotification) (exclude_source : bool) (nonces : string → bytes * bytes)
    (entries : list (string * Sender)) (pending : option FileUpdateNotification)
    (sent_count : Z) (errors : list string) (log : list (string * FileUpdateNotification))
| Finished (r : NRes Z) (log : list (string * FileUpdateNotification))
| Crashed
| Cancelled
| Join (key : string) (sender : Sender) (account_hash : string)
| Leave (key : string)
| Done.

Section system.
Context `{HI : HashIter} `{CA : CryptoApi} {S : Type} `{ST : Storage S}.
Context (send_error : string).

Record System := mkSystem {
  sy_nm : NotificationManager; sy_storage : S; sy_chans : gmap Sender Chan;
  sy_lock : option nat; sy_tasks : gmap nat Task
}.
Implicit Types (st : System).

Definition set_task (i : nat) (t : Task) (lock : option nat) st : System :=
  mkSystem (sy_nm st) (sy_storage st) (sy_chans st) lock (<[i := t]> (sy_tasks st)).

Definition with_nm (nm : NotificationManager) st : System :=
  mkSystem nm (sy_storage st) (sy_chans st) (sy_lock st) (sy_tasks st).

Definition with_chan (c : Sender) (ch : Chan) st : System :=
  mkSystem (sy_nm st) (sy_storage st) (<[c := ch]> (sy_chans st)) (sy_lock st) (sy_tasks st).

(** What the broadcast answers at the end of its loop. *)
Definition broadcast_result (sent_count : Z) (errors : list string) : NRes Z :=
  match errors with
  | _ :: _ => if sent_count =? 0 then Err (SendError (str_join "; " errors)) else Ok sent_count
  | [] => Ok sent_count
  end.

(** A turn of a task: up to its next await. *)
Definition turn (i : nat) st : System :=
  match sy_tasks st !! i with
  | Some (Announce n ex nonces) =>
      match sy_lock st with
      | None => set_task i (Sending n ex nonces (hm_iter (file_update_subscribers (sy_nm st))) None 0 [] []) (Some i) st
      | Some _ => st
      end
  | Some (Sending n ex nonces [] _ count errors log) =>
      set_task i (Finished (broadcast_result count errors) log) None st
  | Some (Sending n ex nonces ((key, c) :: entries) None count errors log) =>
      if file_target n ex key then
        match message_for (sy_nm st) (sy_storage st) n nonces key with
        | Some m => set_task i (Sending n ex nonces ((key, c) :: entries) (Some m) count errors log) (sy_lock st) st
        | None => set_task i Crashed None st
        end
      else set_task i (Sending n ex nonces entries None count errors log) (sy_lock st) st
  | Some (Sending n ex nonces ((key, c) :: entries) (Some m) count errors log) =>
      match try_send m (sy_chans st !! c) with
      | Sent ch => with_chan c ch (set_task i (Sending n ex nonces entries None (count + 1) errors (log ++ [(key, m)]))
                                     (sy_lock st) st)
      | Closed =>
          set_task i (Sending n ex nonces entries None count
                        (errors ++ ["Failed to send notification to " +:+ key +:+ ": " +:+ send_error]) log)
            (sy_lock st) st
      | Full => st
      end
  | Some (Join key sender account_hash) =>
      match sy_lock st with
      | None => with_nm (register_file_update_subscriber_with_alias key sender account_hash (sy_nm st)).2
                  (set_task i Done None st)
      | Some _ => st
      end
  | Some (Leave key) =>
      match sy_lock st with
      | None => with_nm (unregister_file_update_subscriber key (sy_nm st)).2 (set_task i Done None st)
      | Some _ => st
      end
  | _ => st
  end.

(** The future of a request is dropped at its await, because its time is over
    ([Server::timeout] in src/server/startup.rs) or its caller is gone: with it goes the
    lock.  What was sent before stays sent. *)
Definition cancel (i : nat) st : System :=
  match sy_tasks st !! i with
  | Some (Sending _ _ _ _ _ _ _ _) => set_task i Cancelled None st
  | Some (Announce _ _ _) | Some (Join _ _ _) | Some (Leave _) => set_task i Cancelled (sy_lock st) st
  | _ => st
  end.

(** What may happen next: a turn of a task, its cancellation, a client takes a message or
    goes away, and the storage is changed by other requests. *)
Inductive event := Turn (i : nat) | Cancel (i : nat) | Receive (c : Sender) | Hangup (c : Sender) | Change (s : S).

Definition happens (e : event) st : System :=
  match e with
  | Turn i => turn i st
  | Cancel i => cancel i st
  | Receive c =>
      match sy_chans st !! c with
      | Some (mkChan true (m :: queue) read) => with_chan c (mkChan true queue (read ++ [m])) st
      | _ => st
      end
  | Hangup c =>
      match sy_chans st !! c with
      | Some ch => with_chan c (mkChan false (ch_queue ch) (ch_read ch)) st
      | None => st
      end
  | Change s => mkSystem (sy_nm st) s (sy_chans st) (sy_lock st) (sy_tasks st)
  end.

Definition run_events (es : list event) st : System := foldl (λ st e, happens e st) st es.

(** ** The lock and the channels *)







Lemma try_send_spec m ch : match try_send m ch with
  | Sent ch' => ∃ old, ch = Some old ∧ ch_open old = true ∧ ch' = mkChan true (ch_queue old ++ [m])%list (ch_read old)
                       ∧ (length (ch_queue ch') <= CHANNEL_SIZE)%nat
  | Closed => ch = None ∨ ∃ old, ch = Some old ∧ ch_open old = false
  | Full => ∃ old, ch = Some old ∧ ch_open old = true ∧ (CHANNEL_SIZE <= length (ch_queue old))%nat
  end.
Proof.
  unfold try_send. destruct ch as [[[] q r]|]; cbn [negb ch_open ch_queue ch_read]; [|eauto..].
  destruct (length q <? CHANNEL_SIZE)%nat eqn:E; [|apply Nat.ltb_ge in E; eauto].
  apply Nat.ltb_lt in E. eexists. split_and!; try done. cbn [ch_queue]. rewrite length_app. cbn. lia.
Qed.





(** ** What a channel has carried *)

Lemma turn_history i st c ch :
  sy_chans st !! c = Some ch →
  ∃ ch', sy_chans (turn i st) !! c = Some ch' ∧ ch_history ch `prefix_of` ch_history ch'
         ∧ ch_read ch = ch_read ch' ∧ ch_open ch = ch_open ch'.
Proof.
  intros Hc. assert (Hsame : ∃ ch', sy_chans st !! c = Some ch' ∧ ch_history ch `prefix_of` ch_history ch'
    ∧ ch_read ch = ch_read ch' ∧ ch_open ch = ch_open ch') by (by exists ch).
  unfold turn. destruct (sy_tasks st !! i) as [t|]; [|done].
  destruct t as [n ex nonces|n ex nonces [|[key c'] entries] [m|] count errors log|r log| | |key c' a|key|]; try done;
    [by destruct (sy_lock st)| | |by destruct (sy_lock st)..].
  - pose proof (try_send_spec m (sy_chans st !! c')) as Hsend. destruct (try_send m _) as [ch'| |]; [|done..].
    destruct Hsend as (old & Hold & Ho & -> & _). cbn. destruct (decide (c' = c)) as [->|Hne].
    + rewrite lookup_insert_eq. rewrite Hc in Hold. simplify_eq. eexists. split_and!; [done| |done|done].
      unfold ch_history. cbn. rewrite app_assoc. by apply prefix_app_r.
    + by rewrite lookup_insert_ne.
  - destruct (file_target n ex key); [|done]. by destruct (message_for _ _ _ _ _).
Qed.

Lemma cancel_chans i st : sy_chans (cancel i st) = sy_chans st.
Proof. unfold cancel. by repeat case_match. Qed.

(** Messages reach a client in the order in which they were sent, and none is lost on the
    way: what the channel has carried, the messages that were read and then those that
    wait, is only ever continued. *)
Theorem channel_history_grows es st c ch :
  sy_chans st !! c = Some ch →
  ∃ ch', sy_chans (run_events es st) !! c = Some ch' ∧ ch_history ch `prefix_of` ch_history ch'
         ∧ ch_read ch `prefix_of` ch_read ch'.
Proof.
  revert st ch. induction es as [|e es IH]; intros st ch Hc; [by exists ch|]. cbn.
  assert (∃ ch1, sy_chans (happens e st) !! c = Some ch1 ∧ ch_history ch `prefix_of` ch_history ch1
                 ∧ ch_read ch `prefix_of` ch_read ch1) as (ch1 & H1 & Hh & Hr).
  { destruct e as [i|i|c'|c'|s]; cbn.
    - destruct (turn_history i st c ch Hc) as (ch' & ? & ? & E & _). exists ch'. by rewrite E.
    - rewrite cancel_chans. by exists ch.
    - destruct (sy_chans st !! c') as [[[] [|m q] r]|] eqn:Ec; try by exists ch. cbn.
      destruct (decide (c' = c)) as [->|Hne]; [|rewrite lookup_insert_ne by done; by exists ch].
      rewrite lookup_insert_eq. rewrite Hc in Ec. injection Ec as ->. eexists. split_and!; [done| |by apply prefix_app_r].
      unfold ch_history. cbn. by rewrite <- app_assoc.
    - destruct (sy_chans st !! c') as [ch'|] eqn:Ec; [|by exists ch]. cbn.
      destruct (decide (c' = c)) as [->|Hne]; [|rewrite lookup_insert_ne by done; by exists ch].
      rewrite lookup_insert_eq. rewrite Hc in Ec. injection Ec as ->. by eexists.
    - by exists ch. }
  destruct (IH _ _ H1) as (ch2 & H2 & Hh2 & Hr2). exists ch2. split; [done|]. split; by etransitivity.
Qed.

(** ** What a broadcast reports *)

Definition task_log (t : Task) : list (string * FileUpdateNotification) :=
  match t with Sending _ _ _ _ _ _ _ log => log | Finished _ log => log | _ => [] end.

(** A message of the log is or was in a channel. *)
Definition carried st (m : FileUpdateNotification) : Prop :=
  ∃ c ch, sy_chans st !! c = Some ch ∧ m ∈ ch_history ch.

Definition task_reports st (t : Task) : Prop :=
  (∀ km, km ∈ task_log t → carried st km.2)
  ∧ match t with
    | Sending _ _ _ _ _ count _ log => count = Z.of_nat (length log)
    | Finished (Ok count) log => count = Z.of_nat (length log)
    | _ => True
    end.

Definition reports_ok st : Prop := ∀ i t, sy_tasks st !! i = Some t → task_reports st t.

Lemma carried_later e st m : carried st m → carried (happens e st) m.
Proof.
  intros (c & ch & Hc & Hm). destruct (channel_history_grows [e] st c ch Hc) as (ch' & Hc' & Hp & _).
  exists c, ch'. split; [done|]. by eapply elem_of_prefix.
Qed.

Lemma task_reports_later st st' t : (∀ m, carried st m → carried st' m) → task_reports st t → task_reports st' t.
Proof. intros Hc [Hlog Hcount]. split; [|done]. intros km Hkm. by apply Hc, Hlog. Qed.

(** The task whose turn it is reports truly, and the others go on doing so. *)
Lemma step_reports i st st' t' :
  reports_ok st → sy_tasks st' = <[i := t']> (sy_tasks st) → (∀ m, carried st m → carried st' m) →
  task_reports st' t' → reports_ok st'.
Proof.
  intros Hok Ht Hc Hr j t. rewrite Ht. destruct (decide (j = i)) as [->|Hne].
  - rewrite lookup_insert_eq. by intros [= <-].
  - rewrite lookup_insert_ne by done. intros Hj. eapply task_reports_later; [done|]. by apply (Hok j).
Qed.

(** A task without a log has nothing to report. *)
Lemma nothing_to_report st t :
  task_log t = [] → match t with Sending _ _ _ _ _ count _ _ => count = 0 | Finished _ _ => False | _ => True end →
  task_reports st t.
Proof. intros Hl Ht. split; [by rewrite Hl; intros km ?%elem_of_nil|]. destruct t; try done. cbn in Hl. by rewrite Hl, Ht. Qed.

Lemma broadcast_result_count count errors n : broadcast_result count errors = Ok n → n = count.
Proof. unfold broadcast_result. destruct errors; [|destruct (count =? 0)]; naive_solver. Qed.

Lemma turn_reports_ok i st : reports_ok st → reports_ok (turn i st).
Proof.
  intros Hok. pose proof (λ m, carried_later (Turn i) st m) as Hcar. cbn [happens] in Hcar. revert Hcar.
  unfold turn. destruct (sy_tasks st !! i) as [t|] eqn:Hi; [|done]. pose proof (Hok i t Hi) as [Hlog Hcount].
  destruct t as [n ex nonces|n ex nonces [|[key c] entries] [m|] count errors log|r log| | |key c a|key|];
    intros Hcar; try done.
  - destruct (sy_lock st); [done|]. eapply (step_reports i st); [done|reflexivity|done|by apply nothing_to_report].
  - eapply (step_reports i st); [done|reflexivity|done|]. split; [done|].
    destruct (broadcast_result count errors) as [k|] eqn:E; [|done]. by apply broadcast_result_count in E as ->.
  - eapply (step_reports i st); [done|reflexivity|done|]. split; [done|].
    destruct (broadcast_result count errors) as [k|] eqn:E; [|done]. by apply broadcast_result_count in E as ->.
  - pose proof (try_send_spec m (sy_chans st !! c)) as Hsend. destruct (try_send m _) as [ch| |]; [| |done].
    + destruct Hsend as (old & Hc & Ho & -> & _). eapply (step_reports i st); [done|reflexivity|done|]. split.
      * intros km [Hkm| ->%list_elem_of_singleton]%elem_of_app; [by apply Hcar, Hlog|].
        exists c. eexists. split; [apply lookup_insert_eq|]. unfold ch_history. cbn.
        rewrite !elem_of_app, list_elem_of_singleton. auto.
      * cbn in *. rewrite length_app. cbn. lia.
    + by eapply (step_reports i st); [|reflexivity|..].
  - destruct (file_target n ex key); [|by eapply (step_reports i st); [|reflexivity|..]].
    destruct (message_for _ _ _ _ _); [by eapply (step_reports i st); [|reflexivity|..]|].
    eapply (step_reports i st); [done|reflexivity|done|by apply nothing_to_report].
  - destruct (sy_lock st); [done|]. eapply (step_reports i st); [done|reflexivity|done|by apply nothing_to_report].
  - destruct (sy_lock st); [done|]. eapply (step_reports i st); [done|reflexivity|done|by apply nothing_to_report].
Qed.

Lemma cancel_reports_ok i st : reports_ok st → reports_ok (cancel i st).
Proof.
  intros Hok. pose proof (λ m, carried_later (Cancel i) st m) as Hcar. cbn [happens] in Hcar. revert Hcar.
  unfold cancel. destruct (sy_tasks st !! i) as [t|] eqn:Hi; [|done].
  destruct t; try done; intros Hcar; (eapply (step_reports i st); [done|reflexivity|done|by apply nothing_to_report]).
Qed.

(** A broadcast reports what it did, whatever other broadcasts, subscriptions and
    clients do meanwhile: when it answers with a number, it has put so many messages into
    channels, and each of them was read by the client or waits for it in order. *)
Theorem broadcast_reports_deliveries es st i count log :
  reports_ok st → sy_tasks (run_events es st) !! i = Some (Finished (Ok count) log) →
  count = Z.of_nat (length log)
  ∧ ∀ km, km ∈ log → ∃ c ch, sy_chans (run_events es st) !! c = Some ch ∧ km.2 ∈ (ch_read ch ++ ch_queue ch)%list.
Proof.
  intros Hok Hi. assert (H : reports_ok (run_events es st)).
  { clear Hi. revert st Hok. induction es as [|e es IH]; intros st Hok; [done|]. apply IH. destruct e as [j|j|c|c|s].
    - by apply turn_reports_ok.
    - by apply cancel_reports_ok.
    - intros j t. replace (sy_tasks (happens (Receive c) st)) with (sy_tasks st)
        by (cbn; by destruct (sy_chans st !! c) as [[[] [|m q] r]|]).
      intros Hj. eapply task_reports_later; [intros m; apply carried_later|by apply (Hok j)].
    - intros j t. replace (sy_tasks (happens (Hangup c) st)) with (sy_tasks st) by (cbn; by destruct (sy_chans st !! c)).
      intros Hj. eapply task_reports_later; [intros m; apply carried_later|by apply (Hok j)].
    - intros j t Hj. eapply task_reports_later; [intros m; apply (carried_later (Change s))|by apply (Hok j)]. }
  destruct (H i _ Hi) as [Hlog Hcount]. by split.
Qed.

(** ** A client that does not read *)








(** ** Clients with room *)







Section with_room.
Context (i : nat) (n : FileUpdateNotification) (ex : bool) (nonces : string → bytes * bytes)
  (nm : NotificationManager) (s : S) (open : Sender → bool) (result : Task).






End with_room.


End system.

(** *** Examples *)

Section examples.
#[local] Existing Instance canonical_iter.
#[local] Existing Instance chrono_range.
#[local] Existing Instance key_crypto.

(** The device [dev2] of the account, and a second upload of its first device; a device
    of somebody else subscribes. *)
Definition sample_system (queue : list FileUpdateNotification) : System (S := StorageData) :=
  mkSystem sample_manager sample_keys
    {[1 := mkChan true [] []; 2 := mkChan true queue []; 3 := mkChan true [] []]} None
    {[0%nat := Announce sample_update true sample_nonces; 1%nat := Announce sample_update true sample_nonces;
      2%nat := Join "other:dev4" 5 "other"]}.


Lemma sample_reports queue : reports_ok (sample_system queue).
Proof.
  intros i t Hi. cbn in Hi. repeat (apply lookup_insert_Some in Hi as [[_ <-]|[_ Hi]]; [by apply nothing_to_report|]).
  apply lookup_singleton_Some in Hi as [_ <-]. by apply nothing_to_report.
Qed.

(** With room, the first broadcast ends after six turns, and its message is on its way. *)
Lemma broadcast_reports_deliveries_witness :
  ∃ m, sy_tasks (run_events "closed" [Turn 0; Turn 0; Turn 0; Turn 0; Receive 2; Turn 0; Turn 0; Turn 0] (sample_system []))
         !! 0%nat = Some (Finished (Ok 1) [("acc:dev2", m)])
  ∧ ∃ c ch, sy_chans (run_events "closed" [Turn 0; Turn 0; Turn 0; Turn 0; Receive 2; Turn 0; Turn 0; Turn 0] (sample_system []))
              !! c = Some ch ∧ m ∈ (ch_read ch ++ ch_queue ch)%list.
Proof.
  eexists. split; [vm_compute; reflexivity|].
  edestruct (broadcast_reports_deliveries "closed" [Turn 0; Turn 0; Turn 0; Turn 0; Receive 2; Turn 0; Turn 0; Turn 0]
               (sample_system []) 0 1) as [_ H]; [exact (sample_reports [])|vm_compute; reflexivity|].
  exact (H (_, _) (list_elem_of_here _ _)).
Defined.





End examples.
