(* ===== verification/AccountServices.v ===== *)
(** * Encryption keys and devices (src/services/encryption_service.rs,
    src/services/device_service.rs)

    Both services hold the storage behind its interface; [DeviceService] also
    keeps a table of registrations of its own.  The random characters of a new
    key are an argument. *)

From S2P Require Import Prelude RustString Errors Models Memory MemoryProps StorageApi Crypto Notify NotifyProps.

Definition ENCRYPTION_KEY_LENGTH : nat := 32.

(** [sample_iter(&Alphanumeric).take(32)], from an infinite stream of draws. *)
Definition generate_account_key (draw : nat → ascii) : string :=
  String.string_of_list_ascii (draw <$> seq 0 ENCRYPTION_KEY_LENGTH).

Section encryption_service.
Context {S : Type} `{ST : Storage S}.
Implicit Types (s : S).

Definition get_or_create_key (account_hash : string) (draw : nat → ascii) s : Res string * S :=
  match s_get_encryption_key account_hash s with
  | Ok (Some key) => (Ok key, s)
  | Ok None =>
      let new_key := generate_account_key draw in
      match s_store_encryption_key account_hash new_key s with
      | (Ok _, s') => (Ok new_key, s')
      | (Err e, s') => (Err e, s')
      end
  | Err e => (Err e, s)
  end.

Definition request_encryption_key (account_hash device_hash : string) (draw : nat → ascii) s
    : Res string * S := get_or_create_key account_hash draw s.

Definition update_key (account_hash new_key : string) s : Res unit * S :=
  if str_len new_key <? Z.of_nat ENCRYPTION_KEY_LENGTH
  then (Err (ValidationError ("Encryption key must be at least " +:+ pretty ENCRYPTION_KEY_LENGTH
                              +:+ " characters")), s)
  else
    match s_store_encryption_key account_hash new_key s with
    | (Ok _, s') => (Ok tt, s')
    | (Err e, s') => (Err e, s')
    end.

Definition service_update_encryption_key (account_hash device_hash new_key : string) s
    : Res unit * S := update_key account_hash new_key s.

(** The first key of an account stays its key: once a request returned a key,
    every later request of any device returns the same one and changes
    nothing. *)
Theorem get_or_create_key_stable `{!StorageLaws S} a draw s k s' :
  get_or_create_key a draw s = (Ok k, s') →
  s_get_encryption_key a s' = Ok (Some k)
  ∧ ∀ dev draw', request_encryption_key a dev draw' s' = (Ok k, s').
Proof.
  intros Hg. assert (Hk : s_get_encryption_key a s' = Ok (Some k)).
  { unfold get_or_create_key in Hg. destruct (s_get_encryption_key a s) as [[k0|]|e] eqn:E;
      [by simplify_eq| |done].
    destruct (s_store_encryption_key a _ s) as [[[]|e] s0] eqn:Es; simplify_eq.
    by destruct (law_store_encryption_key _ _ _ _ Es). }
  split; [done|]. intros dev draw'. unfold request_encryption_key, get_or_create_key. by rewrite Hk.
Qed.

(** An update is refused below 32 characters without touching the storage,
    and an accepted one is what later requests return, other accounts keeping
    theirs. *)
Theorem update_key_spec `{!StorageLaws S} a k s r s' :
  update_key a k s = (r, s') →
  match r with
  | Ok _ => 32 ≤ str_len k
      ∧ (∀ draw, get_or_create_key a draw s' = (Ok k, s'))
      ∧ (∀ b, b ≠ a → s_get_encryption_key b s' = s_get_encryption_key b s)
  | Err (ValidationError _) => str_len k < 32 ∧ s' = s ∨ 32 ≤ str_len k
  | Err _ => 32 ≤ str_len k
  end.
Proof.
  unfold update_key. destruct (Z.ltb_spec (str_len k) (Z.of_nat ENCRYPTION_KEY_LENGTH)) as [Hl|Hl];
    change (Z.of_nat ENCRYPTION_KEY_LENGTH) with 32 in Hl.
  - intros [= <- <-]. by left.
  - destruct (s_store_encryption_key a k s) as [[[]|e] s0] eqn:Es; intros [= <- <-].
    + destruct (law_store_encryption_key _ _ _ _ Es) as [Hk Ho]. split_and!; [done| |done].
      intros draw. unfold get_or_create_key. by rewrite Hk.
    + destruct e; auto.
Qed.

Lemma generate_account_key_length draw : str_len (generate_account_key draw) = 32.
Proof. reflexivity. Qed.

(** The keys the service generates are 32 characters, which is not the length
    of a 32-byte key in base64: for an account whose key was generated, file
    metadata is broadcast in clear. *)
Theorem generated_key_metadata_in_clear `{CA : CryptoApi} `{!Base64Lengths} `{!StorageLaws S}
    nm n a draw nonces k s key s' :
  fun_account_hash n = a → s_get_encryption_key a s = Ok None →
  get_or_create_key a draw s = (Ok key, s') →
  ∃ m, message_for nm s' n nonces k = Some m ∧ in_clear n m.
Proof.
  intros Ha Hnone Hg. unfold get_or_create_key in Hg. rewrite Hnone in Hg.
  destruct (s_store_encryption_key a _ s) as [[[]|e] s0] eqn:Es; simplify_eq.
  destruct (law_store_encryption_key _ _ _ _ Es) as [Hk _].
  unfold message_for, in_clear. rewrite Hk.
  destruct (parse_account_key _) as [key|] eqn:E.
  { by apply parse_account_key_length in E as [_ [?|?]]. }
  destruct (fun_file_info n) as [fi|] eqn:Ef; [|eauto].
  destruct (transport_encrypt_metadata nm); eauto.
Qed.

(** *** Two requests for a new account

    The look-up and the insertion are two awaits: another request may run
    between them. *)

Definition create_after_miss (account_hash : string) (draw : nat → ascii) s : Res string * S :=
  let new_key := generate_account_key draw in
  match s_store_encryption_key account_hash new_key s with
  | (Ok _, s') => (Ok new_key, s')
  | (Err e, s') => (Err e, s')
  end.

Lemma get_or_create_key_miss a draw s :
  s_get_encryption_key a s = Ok None → get_or_create_key a draw s = create_after_miss a draw s.
Proof. unfold get_or_create_key. by intros ->. Qed.

(** When two devices request the key of a new account and both look it up
    before either stores, both succeed and the first is left with a key the
    account does not have. *)
Theorem concurrent_key_creation `{!StorageLaws S} a draw1 draw2 s k1 s1 k2 s2 :
  s_get_encryption_key a s = Ok None →
  generate_account_key draw1 ≠ generate_account_key draw2 →
  create_after_miss a draw1 s = (Ok k1, s1) →
  create_after_miss a draw2 s1 = (Ok k2, s2) →
  (∀ draw, get_or_create_key a draw s2 = (Ok k2, s2)) ∧ k1 ≠ k2.
Proof.
  unfold create_after_miss. intros _ Hne H1 H2.
  destruct (s_store_encryption_key a _ s) as [[[]|e] s1'] eqn:E1; simplify_eq.
  destruct (s_store_encryption_key a _ s1) as [[[]|e] s2'] eqn:E2; simplify_eq.
  destruct (law_store_encryption_key _ _ _ _ E2) as [Hk _]. split; [|done].
  intros draw. unfold get_or_create_key. by rewrite Hk.
Qed.

End encryption_service.

(** ** Devices *)

Section device_service.
Context {S : Type} `{ST : Storage S} `{CH : Chrono}.
Implicit Types (s : S) (regs : gmap string Device).

(** [DeviceService::create_account]; the three UUIDs are arguments. *)
Definition device_create_account (uuid1 uuid2 uuid3 : string) (name : option string) (now : DateTime)
    : Account :=
  let user_email := "user_" +:+ uuid2 +:+ "@example.com" in
  {| a_account_hash := uuid3; a_id := uuid1; a_email := user_email;
     a_name := default "New User" name; a_user_type := ""; a_password_hash := ""; a_salt := "";
     a_is_active := true; a_created_at := now; a_last_login := now; a_updated_at := now;
     a_user_id := user_email |}.

Definition save_encryption_key (account_hash encryption_key : string) s : Res unit * S :=
  s_store_encryption_key account_hash encryption_key s.

Definition device_register (device : Device) s : Res unit * S := s_register_device device s.

(** Storage first, then the registrations in memory. *)
Definition device_get regs (device_hash account_hash : string) s : Res (option Device) :=
  device_result <-? s_get_device account_hash device_hash s;
  match device_result with
  | Some device => Ok (Some device)
  | None =>
      match regs !! device_hash with
      | Some device => if d_account_hash device == account_hash then Ok (Some device) else Ok None
      | None => Ok None
      end
  end.

Definition device_update (device : Device) s : Res unit * S := s_update_device device s.
Definition device_list (account_hash : string) s : Res (list Device) := s_list_devices account_hash s.
Definition device_delete (account_hash device_hash : string) s : Res unit * S :=
  s_delete_device account_hash device_hash s.

Definition to_proto_device_info (device : Device) : sync_DeviceInfo :=
  {| sdi_account_hash := d_account_hash device; sdi_is_active := d_is_active device;
     sdi_device_hash := d_device_hash device; sdi_os_version := d_os_version device;
     sdi_app_version := d_app_version device;
     sdi_registered_at := Some (mkTimestamp (dt_timestamp (d_registered_at device)) 0);
     sdi_last_sync_time := Some (mkTimestamp (dt_timestamp (d_last_sync device)) 0) |}.

(** [DateTime::from(UNIX_EPOCH + Duration::from_secs(seconds as u64))]: the
    addition panics above [i64::MAX] seconds and the conversion outside chrono's
    range. *)
Definition system_time_secs (seconds : Z) : option DateTime :=
  let u := wrap_u64 seconds in
  if u <=? i64_max then from_timestamp u 0 else None.

Definition proto_time (ts : option Timestamp) (now : DateTime) : option DateTime :=
  match ts with
  | Some ts => system_time_secs (ts_seconds ts)
  | None => Some now
  end.

(** [None] is a panic. *)
Definition from_proto_device_info (info : sync_DeviceInfo) (now : DateTime) : option Device :=
  match proto_time (sdi_registered_at info) now with
  | Some registered_at =>
      match proto_time (sdi_last_sync_time info) now with
      | Some last_sync =>
          Some (mkDevice "" (sdi_account_hash info) (sdi_device_hash info) last_sync registered_at
                  last_sync (sdi_is_active info) (sdi_os_version info) (sdi_app_version info))
      | None => None
      end
  | None => None
  end.

(** A device found for an account belongs to that account, in the storage of
    the account or in the service's own registrations. *)
Theorem device_get_owner regs dh a s d :
  (∀ v, s_get_device a dh s = Ok (Some v) → d_account_hash v = a) →
  device_get regs dh a s = Ok (Some d) → d_account_hash d = a.
Proof.
  intros Hs. unfold device_get, res_bind.
  destruct (s_get_device a dh s) as [[v|]|] eqn:E; [intros [= <-]; by apply Hs| |done].
  destruct (regs !! dh) as [v|]; [|done]. case_bool_decide; [|done]. by intros [= <-].
Qed.

(** A device sent to a client and read back keeps everything but its owner
    and the fractions of its times. *)
Theorem device_info_roundtrip d now :
  0 ≤ dt_timestamp (d_registered_at d) ≤ 253402300799 →
  0 ≤ dt_timestamp (d_last_sync d) ≤ 253402300799 →
  from_proto_device_info (to_proto_device_info d) now =
    Some (mkDevice "" (d_account_hash d) (d_device_hash d)
      (mkDateTime (dt_timestamp (d_last_sync d)) 0)
      (mkDateTime (dt_timestamp (d_registered_at d)) 0)
      (mkDateTime (dt_timestamp (d_last_sync d)) 0)
      (d_is_active d) (d_os_version d) (d_app_version d)).
Proof.
  intros H1 H2. unfold from_proto_device_info, proto_time, to_proto_device_info, system_time_secs; cbn.
  rewrite !wrap_u64_id by (unfold u64_max; lia).
  rewrite !(proj2 (Z.leb_le _ _)) by (unfold i64_max; lia).
  by rewrite !from_timestamp_calendar by lia.
Qed.

(** The conversion panics on every message with a time before 1970. *)
Theorem negative_time_panics info ts now :
  sdi_registered_at info = Some ts → i64_min ≤ ts_seconds ts < 0 →
  from_proto_device_info info now = None.
Proof.
  intros Hts Hneg. unfold from_proto_device_info, proto_time, system_time_secs. rewrite Hts.
  assert (wrap_u64 (ts_seconds ts) = ts_seconds ts + 2 ^ 64) as ->.
  { unfold wrap_u64, i64_min in *. symmetry. apply (Z.mod_unique _ _ (-1)); lia. }
  rewrite (proj2 (Z.leb_gt _ _)) by (unfold i64_min, i64_max in *; lia). done.
Qed.

End device_service.

(** ** Examples *)

Section examples.
#[local] Existing Instance canonical_iter.
#[local] Existing Instance chrono_range.

Definition draw_a (i : nat) : ascii := "a".
Definition draw_b (i : nat) : ascii := "b".

Lemma get_or_create_key_stable_witness :
  ∃ s', get_or_create_key "acc" draw_a StorageData_new = (Ok (generate_account_key draw_a), s')
  ∧ request_encryption_key "acc" "dev2" draw_b s' = (Ok (generate_account_key draw_a), s').
Proof.
  eexists. split; [reflexivity|].
  apply (get_or_create_key_stable "acc" draw_a StorageData_new). reflexivity.
Defined.

Lemma update_key_spec_witness :
  update_key "acc" "short" StorageData_new =
    (Err (ValidationError "Encryption key must be at least 32 characters"), StorageData_new)
  ∧ (str_len "short" < 32 ∧ StorageData_new = StorageData_new ∨ 32 ≤ str_len "short").
Proof.
  split; [reflexivity|].
  exact (update_key_spec "acc" "short" StorageData_new
    (Err (ValidationError "Encryption key must be at least 32 characters")) StorageData_new eq_refl).
Defined.

Lemma generated_key_metadata_in_clear_witness :
  ∃ m, message_for (CA := key_crypto) sample_manager
         (get_or_create_key "acc" draw_a StorageData_new).2 sample_update sample_nonces "acc:dev2" = Some m
  ∧ in_clear sample_update m.
Proof.
  apply (generated_key_metadata_in_clear (CA := key_crypto) (H := key_base64) sample_manager
    sample_update "acc" draw_a sample_nonces "acc:dev2" StorageData_new (generate_account_key draw_a));
    reflexivity.
Defined.

Lemma concurrent_key_creation_witness :
  let s1 := (create_after_miss "acc" draw_a StorageData_new).2 in
  let s2 := (create_after_miss "acc" draw_b s1).2 in
  get_or_create_key "acc" draw_a s2 = (Ok (generate_account_key draw_b), s2).
Proof.
  intros s1 s2.
  apply (concurrent_key_creation "acc" draw_a draw_b StorageData_new (generate_account_key draw_a) s1
    (generate_account_key draw_b) s2); [reflexivity|vm_compute; discriminate|reflexivity..].
Defined.

Lemma device_get_owner_witness :
  device_get {[ "dev1" := sample_device "acc" "dev1" ]} "dev1" "acc" StorageData_new
    = Ok (Some (sample_device "acc" "dev1"))
  ∧ d_account_hash (sample_device "acc" "dev1") = "acc".
Proof.
  split; [vm_compute; reflexivity|].
  apply (device_get_owner {[ "dev1" := sample_device "acc" "dev1" ]} "dev1" "acc" StorageData_new);
    [vm_compute; discriminate|vm_compute; reflexivity].
Defined.

Lemma device_info_roundtrip_witness :
  is_Some (from_proto_device_info (to_proto_device_info (sample_device "acc" "dev1")) (mkDateTime 5 0)).
Proof.
  eexists. apply (device_info_roundtrip (sample_device "acc" "dev1")); split; vm_compute; discriminate.
Defined.

Lemma negative_time_panics_witness :
  from_proto_device_info (mk_sync_DeviceInfo "acc" true "dev" "" "" (Some (mkTimestamp (-1) 0)) None)
    (mkDateTime 5 0) = None.
Proof.
  apply (negative_time_panics _ (mkTimestamp (-1) 0)); [reflexivity|].
  split; vm_compute; [discriminate|reflexivity].
Defined.

End examples.
