(* ===== verification/FileService.v ===== *)
(** * The file service (src/services/file_service.rs)

    The service keeps a cache of file contents in front of the storage (and of
    an optional separate file storage), and broadcasts every change.  Its
    methods run in a state monad over the service's state with two ways to
    stop: an error value ([?] in the source) and a panic.  Deliveries of
    notifications are appended to a log in the state. *)

From S2P Require Import Prelude RustString Errors Models Paths Memory MemoryProps StorageApi Effects Crypto Notify.

(** The separate store of contents (trait [FileStorage] of src/storage/mod.rs);
    a store returns the location of the data. *)
Class FileStorage (F : Type) := {
  f_store_file_data : Z → bytes → F → Res string * F;
  f_get_file_data : Z → F → Res (option bytes)
}.

Class FileStorageLaws (F : Type) `{FileStorage F} := {
  law_f_store : ∀ i bs f loc f',
    f_store_file_data i bs f = (Ok loc, f') →
    f_get_file_data i f' = Ok (Some bs)
    ∧ ∀ j, j ≠ i → f_get_file_data j f' = f_get_file_data j f;
  law_f_store_err : ∀ i bs f e f', f_store_file_data i bs f = (Err e, f') → f' = f
}.

(** The values of the enum [file_update_notification::UpdateType]. *)
Definition Uploaded : Z := 0.
Definition Updated : Z := 1.
Definition Deleted : Z := 2.

Record UploadFileRequest := mkUploadFileRequest {
  ufr_account_hash : string;
  ufr_device_hash : string;
  ufr_filename : string;
  ufr_file_path : string;
  ufr_file_data : bytes;
  ufr_file_hash : string;
  ufr_auth_token : string;
  ufr_group_id : Z;
  ufr_watcher_id : Z;
  ufr_is_encrypted : bool;
  ufr_revision : Z;
  ufr_updated_time : option Timestamp;
  ufr_file_size : Z;
  ufr_key_id : string
}.

Section file_service.
Context `{HI : HashIter} `{CA : CryptoApi} {S : Type} `{ST : Storage S} {F : Type} `{FST : FileStorage F}.
Context (is_open : Sender → bool) (send_error : string).

Record FileService := mkFileService {
  fs_files : gmap Z bytes;
  fs_storage : S;
  fs_file_storage : option F;
  fs_notification_manager : option NotificationManager;
  fs_delivered : list (string * FileUpdateNotification)
}.

Definition FileService_with (s : S) (f : option F) (nm : option NotificationManager) : FileService :=
  mkFileService ∅ s f nm [].

Implicit Types (st : FileService).

(** Calls of the storage behind the service. *)
Definition read {A} (q : S → Res A) : M FileService A := λ st, (Returned (q (fs_storage st)), st).

Definition write {A} (u : S → Res A * S) : M FileService A := λ st,
  let '(r, s') := u (fs_storage st) in
  (Returned r, mkFileService (fs_files st) s' (fs_file_storage st) (fs_notification_manager st)
                 (fs_delivered st)).

(** The cache [files]. *)
Definition files_insert (i : Z) (data : bytes) : M FileService unit := λ st,
  (Returned (Ok tt), mkFileService (<[i := data]> (fs_files st)) (fs_storage st) (fs_file_storage st)
                       (fs_notification_manager st) (fs_delivered st)).

Definition files_remove (i : Z) : M FileService unit := λ st,
  (Returned (Ok tt), mkFileService (delete i (fs_files st)) (fs_storage st) (fs_file_storage st)
                       (fs_notification_manager st) (fs_delivered st)).

Definition files_get (i : Z) : M FileService (option bytes) := λ st,
  (Returned (Ok (fs_files st !! i)), st).

(** The broadcast; its result is only logged. *)
Definition notify (n : FileUpdateNotification) (exclude_source : bool) (nonces : string → bytes * bytes)
    : M FileService unit := λ st,
  match fs_notification_manager st with
  | None => (Returned (Ok tt), st)
  | Some nm =>
      match broadcast_file_update_internal is_open send_error nm (fs_storage st) n exclude_source nonces with
      | Some (_, log) =>
          (Returned (Ok tt), mkFileService (fs_files st) (fs_storage st) (fs_file_storage st)
                               (fs_notification_manager st) (fs_delivered st ++ log)%list)
      | None => (Panicked, st)
      end
  end.

(** [prepare_metadata]: path and name encrypted under the server key when it has
    32 bytes; the indices it computes are dropped.  [None] is a panic. *)
Definition prepare_metadata (server_encode_key : option bytes) (nonces : bytes * bytes) (fi : FileInfo)
    : option FileInfo :=
  let aad := fi_account_hash fi +:+ ":" +:+ pretty (fi_group_id fi) +:+ ":" +:+ pretty (fi_watcher_id fi) in
  match server_encode_key with
  | Some kv =>
      if (length kv =? 32)%nat then
        match aead_encrypt nonces.1 kv (as_bytes (fi_file_path fi)) (as_bytes aad),
              aead_encrypt nonces.2 kv (as_bytes (fi_filename fi)) (as_bytes aad) with
        | Some ct_path, Some ct_name =>
            Some (mkFileInfo (fi_file_id fi) (b64_encode_no_pad ct_name) (fi_file_hash fi)
                    (fi_device_hash fi) (fi_group_id fi) (fi_watcher_id fi) (fi_is_encrypted fi)
                    (b64_encode_no_pad ct_path) (fi_updated_time fi) (fi_revision fi)
                    (fi_account_hash fi) (fi_size fi) (fi_key_id fi))
        | _, _ => None
        end
      else Some fi
  | None => Some fi
  end.

(** ** Identifiers *)

Definition convert_client_group_to_server (account_hash : string) (client_group_id : Z)
    : M FileService (option Z) := read (s_get_server_group_id account_hash client_group_id).

Definition convert_client_ids_to_server (account_hash : string) (client_group_id client_watcher_id : Z)
    : M FileService (option (Z * Z)) :=
  read (s_get_server_ids account_hash client_group_id client_watcher_id).

(** [mysql] is [ensure_server_ids_for] of the MySQL storage, when the storage is
    one. *)
Definition ensure_server_ids_for_upload
    (mysql : option (string → string → Z → Z → option string → S → Res (Z * Z) * S))
    (account_hash device_hash : string) (client_group_id client_watcher_id : Z)
    (normalized_file_path : option string) : M FileService (Z * Z) :=
  match mysql with
  | Some ensure =>
      write (ensure account_hash device_hash client_group_id client_watcher_id normalized_file_path)
  | None =>
      ids ←? read (s_get_server_ids account_hash client_group_id client_watcher_id);
      match ids with
      | Some (group_id, watcher_id) => ret (group_id, watcher_id)
      | None => ret (0, 0)
      end
  end.

Definition build_file_info_for_upload (req : UploadFileRequest) (file_id : Z)
    (normalized_file_path : string) (server_group_id server_watcher_id : Z) (now : DateTime)
    : FileInfo :=
  {| fi_file_id := file_id; fi_filename := ufr_filename req; fi_file_hash := ufr_file_hash req;
     fi_device_hash := ufr_device_hash req; fi_group_id := server_group_id;
     fi_watcher_id := server_watcher_id; fi_is_encrypted := ufr_is_encrypted req;
     fi_file_path := normalized_file_path;
     fi_updated_time := mkTimestamp (dt_timestamp now) 0; fi_revision := ufr_revision req;
     fi_account_hash := ufr_account_hash req; fi_size := ufr_file_size req;
     fi_key_id := if str_is_empty (ufr_key_id req) then None else Some (ufr_key_id req) |}.

(** ** Contents *)

Definition store_file_data_internal (file_id : Z) (data : bytes) : M FileService unit := λ st,
  match fs_file_storage st with
  | Some f =>
      let '(r, f') := f_store_file_data file_id data f in
      (Returned (match r with Ok _ => Ok tt | Err e => Err e end),
       mkFileService (fs_files st) (fs_storage st) (Some f') (fs_notification_manager st)
         (fs_delivered st))
  | None => write (s_store_file_data file_id data) st
  end.

(** The notification of a change of a file. *)
Definition file_notification (file_info : FileInfo) (update_type : Z) (now : DateTime)
    : FileUpdateNotification :=
  mkFileUpdateNotification (fi_account_hash file_info) (fi_device_hash file_info)
    (Some (to_sync_file file_info)) update_type (dt_timestamp now).

Definition send_file_update_notification_with_options (file_info : FileInfo) (update_type : Z)
    (include_source_device : bool) (now : DateTime) nonces : M FileService unit :=
  notify (file_notification file_info update_type now) (negb include_source_device) nonces.

Definition send_file_update_notification (file_info : FileInfo) (update_type : Z) (now : DateTime)
    nonces : M FileService unit :=
  send_file_update_notification_with_options file_info update_type false now nonces.

Definition store_file_with_update_type (file_info : FileInfo) (data : bytes) (update_type : Z)
    (now : DateTime) nonces : M FileService unit :=
  _ ←? write (s_store_file_info file_info);
  _ ←? store_file_data_internal (fi_file_id file_info) data;
  _ ←? files_insert (fi_file_id file_info) data;
  send_file_update_notification file_info update_type now nonces.

Definition svc_store_file (file_info : FileInfo) (data : bytes) (now : DateTime) nonces
    : M FileService unit := store_file_with_update_type file_info data Uploaded now nonces.

Definition svc_get_file_data (file_id : Z) : M FileService (option bytes) :=
  cached_data ←? files_get file_id;
  match cached_data with
  | Some data => ret (Some data)
  | None => read (s_get_file_data file_id)
  end.

Definition copy_file_data (source_file_id target_file_id : Z) : M FileService unit :=
  source_data ←? svc_get_file_data source_file_id;
  match source_data with
  | Some data =>
      _ ←? store_file_data_internal target_file_id data;
      files_insert target_file_id data
  | None => throw (NotFound ("Source file data not found: " +:+ pretty source_file_id))
  end.

Definition svc_restore_file_version (source_file_info target_file_info : FileInfo)
    : M FileService unit :=
  _ ←? copy_file_data (fi_file_id source_file_info) (fi_file_id target_file_info);
  file_data ←? svc_get_file_data (fi_file_id target_file_info);
  files_insert (fi_file_id target_file_info) (default [] file_data).

Definition send_file_restore_notification (file_info : FileInfo) (now : DateTime) nonces
    : M FileService unit :=
  send_file_update_notification_with_options file_info Updated true now nonces.

Definition svc_get_file_info (file_id : Z) : M FileService (option FileInfo) :=
  read (s_get_file_info file_id).

(** [f.into()] is the identity: both names denote the model [FileInfo]. *)
Definition svc_list_files (group_id : Z) (account_hash : string) : M FileService (list FileInfo) :=
  read (s_list_files account_hash group_id None).

Definition list_files_filtered_by_device (group_id : Z) (account_hash device_hash : string)
    : M FileService (list FileInfo) :=
  read (s_list_files_except_device account_hash group_id device_hash None).

Definition svc_get_file_info_include_deleted (file_id : Z) : M FileService (option (FileInfo * bool)) :=
  read (s_get_file_info_include_deleted file_id).

Definition svc_delete_file (file_id : Z) (now : DateTime) nonces : M FileService unit :=
  file_info_result ←? read (s_get_file_info_include_deleted file_id);
  match file_info_result with
  | Some (file_info, is_deleted) =>
      if is_deleted then ret tt
      else
        _ ←? write (s_delete_file (fi_account_hash file_info) file_id);
        _ ←? files_remove file_id;
        notify (file_notification file_info Deleted now) true nonces
  | None => throw (NotFound ("파일을 찾을 수 없음: " +:+ pretty file_id))
  end.

Definition svc_register_device (device : Device) : M FileService unit := write (s_register_device device).

Definition svc_store_file_info (file_info : FileInfo) : M FileService unit :=
  _ ←? write (s_store_file_info file_info); ret tt.

Definition svc_store_file_data (file_id : Z) (file_data : bytes) : M FileService unit :=
  write (s_store_file_data file_id file_data).

(** The read of the contents behind the cache. *)
Definition backing_get (file_id : Z) st : Res (option bytes) :=
  match fs_file_storage st with
  | Some f => f_get_file_data file_id f
  | None => s_get_file_data file_id (fs_storage st)
  end.

Definition get_file_uncached (file_id : Z) : M FileService (FileInfo * bytes) :=
  file_info ←? read (s_get_file_info file_id);
  match file_info with
  | Some info =>
      data ←? (λ st, (Returned (backing_get file_id st), st));
      match data with
      | Some file_data => _ ←? files_insert file_id file_data; ret (info, file_data)
      | None => throw (NotFound "File not found")
      end
  | None => throw (NotFound "File not found")
  end.

Definition get_file (file_id : Z) : M FileService (FileInfo * bytes) :=
  cached_data ←? files_get file_id;
  match cached_data with
  | Some data =>
      file_info ←? read (s_get_file_info file_id);
      match file_info with
      | Some info => ret (info, data)
      | None => get_file_uncached file_id
      end
  | None => get_file_uncached file_id
  end.

Definition find_file_by_local_path (account_hash file_path filename : string) (revision : Z)
    : M FileService (option FileInfo) :=
  read (s_find_file_by_path_and_name account_hash (normalize_uncached file_path) filename revision).

(** The path a file is searched under. *)
Definition criteria_search_path (file_path file_name : string) : string :=
  let normalized_file_path := normalize_uncached file_path in
  if ends_with ("/" +:+ file_name) normalized_file_path || ends_with file_name normalized_file_path
  then normalized_file_path
  else if ends_with "/" normalized_file_path then normalized_file_path +:+ file_name
  else if negb (str_is_empty normalized_file_path) then normalized_file_path +:+ "/" +:+ file_name
  else file_name.

Definition svc_find_file_by_criteria (account_hash : string) (group_id watcher_id : Z)
    (file_path file_name : string) : M FileService (option FileInfo) :=
  read (s_find_file_by_criteria account_hash group_id watcher_id
          (criteria_search_path file_path file_name) file_name).

(** The error is an [io::Error] with the text. *)
Definition svc_check_file_exists (file_id : Z) st : result (bool * bool) string :=
  match s_check_file_exists file_id (fs_storage st) with
  | Ok r => Ok r
  | Err e => Err ("Failed to check file existence: " +:+ StorageError_fmt e)
  end.

Definition check_file_exists_rpc (file_id : Z) : M FileService bool := λ st,
  match s_check_file_exists file_id (fs_storage st) with
  | Ok (exists_, is_deleted) => (Returned (Ok exists_), st)
  | Err e => (Returned (Err (General ("Failed to check file existence: " +:+ StorageError_fmt e))), st)
  end.

End file_service.

Arguments FileService : clear implicits.
