(* ===== verification/FileServiceProps.v ===== *)
(** * Correctness of the file service

    The cache of contents is coherent with the storage behind it and
    transparent; store, read, copy, restore and delete behave as one map; who is
    notified of a change.  The service is verified for every storage that obeys
    the laws of the interface. *)

From S2P Require Import Prelude RustString Errors Models Paths Memory MemoryProps StorageApi Effects Crypto Notify NotifyProps FileService.

Section props.
Context `{HI : HashIter} `{CA : CryptoApi} {S : Type} `{SL : StorageLaws S}
  {F : Type} `{FL : FileStorageLaws F}.
Context (is_open : Sender → bool) (send_error : string).
Abbreviation FS := (FileService S F).
Implicit Types (st : FS).

(** *** Frames *)

(** Everything but the log is as it was. *)
Lemma notify_frame n ex nonces st r st' :
  notify is_open send_error n ex nonces st = (r, st') →
  fs_files st' = fs_files st ∧ fs_storage st' = fs_storage st
  ∧ fs_file_storage st' = fs_file_storage st.
Proof. unfold notify. repeat case_match; intros [= <- <-]; by repeat split. Qed.

Lemma backing_get_ext i st st' :
  fs_storage st' = fs_storage st → fs_file_storage st' = fs_file_storage st →
  backing_get i st' = backing_get i st.
Proof. unfold backing_get. by intros -> ->. Qed.

(** Storing contents: on success they are what is read back. *)
Lemma store_internal_spec i bs st r st' :
  store_file_data_internal i bs st = (r, st') →
  fs_files st' = fs_files st ∧ fs_delivered st' = fs_delivered st
  ∧ fs_notification_manager st' = fs_notification_manager st
  ∧ (∀ j, s_get_file_info j (fs_storage st') = s_get_file_info j (fs_storage st))
  ∧ match r with
    | Returned (Ok _) => backing_get i st' = Ok (Some bs)
        ∧ ∀ j, j ≠ i → backing_get j st' = backing_get j st
    | Returned (Err _) => ∀ j, backing_get j st' = backing_get j st
    | Panicked => False
    end.
Proof.
  unfold store_file_data_internal, write, backing_get.
  destruct (fs_file_storage st) as [f|] eqn:Ef.
  - destruct (f_store_file_data i bs f) as [[loc|e] f'] eqn:E; intros [= <- <-]; cbn;
      split_and!; try done.
    + by apply law_f_store in E as [].
    + by apply law_f_store in E as [].
    + by apply law_f_store_err in E as ->.
  - destruct (s_store_file_data i bs (fs_storage st)) as [[[]|e] s'] eqn:E; intros [= <- <-]; cbn;
      rewrite ?Ef.
    + apply law_store_file_data in E as (? & ? & ?). by split_and!.
    + apply law_store_file_data_err in E as ->. by split_and!.
Qed.

(** *** Coherence *)

(** Every cached content is the one behind the cache, except of the files [D]. *)
Definition coherent_but (D : gset Z) st : Prop :=
  ∀ i bs, i ∉ D → fs_files st !! i = Some bs → backing_get i st = Ok (Some bs).

Section but.
Context (D : gset Z).
Abbreviation coherent := (coherent_but D).

Lemma coherent_ext st st' :
  fs_files st' = fs_files st → (∀ i, backing_get i st' = backing_get i st) →
  coherent st → coherent st'.
Proof. intros Hf Hb Hc i bs Hi. rewrite Hf, Hb. by apply Hc. Qed.

Lemma files_insert_coherent i bs st :
  (i ∉ D → backing_get i st = Ok (Some bs)) → coherent st → coherent (files_insert i bs st).2.
Proof.
  intros Hb Hc j bs' Hj. cbn. intros [[<- <-]|[? ?]]%lookup_insert_Some; [by apply Hb|by apply Hc].
Qed.

Lemma files_remove_coherent i st st0 :
  fs_files st = fs_files st0 → (∀ j, j ≠ i → backing_get j st = backing_get j st0) →
  coherent st0 → coherent (files_remove i st).2.
Proof.
  intros Hf Hb Hc j bs HD. cbn. rewrite lookup_delete_Some, Hf. intros [Hne Hj].
  change (backing_get j st = Ok (Some bs)). rewrite Hb by congruence. by apply Hc.
Qed.

Lemma notify_coherent n ex nonces st :
  coherent st → coherent (notify is_open send_error n ex nonces st).2.
Proof.
  destruct (notify is_open send_error n ex nonces st) as [r st'] eqn:E. cbn.
  apply notify_frame in E as (Hf & Hs & Hfs). apply coherent_ext; [done|].
  intros i. by apply backing_get_ext.
Qed.

(** Storing contents and caching them. *)
Lemma store_and_cache_coherent {B} i bs (k : unit → M FS B) st :
  (∀ st, coherent st → coherent (k tt st).2) → coherent st →
  coherent (mthen (store_file_data_internal i bs) (λ _, mthen (files_insert i bs) k) st).2.
Proof.
  intros Hk Hc. unfold mthen at 1.
  destruct (store_file_data_internal i bs st) as [[[[]|e]|] st1] eqn:E;
    apply store_internal_spec in E as (Hf & _ & _ & _ & Hb); [|by apply (coherent_ext st)|done].
  destruct Hb as [Hb1 Hb2]. unfold mthen; cbn. apply Hk.
  intros j bs' HD. cbn. change (backing_get j _) with (backing_get j st1).
  intros [[<- <-]|[? Hj]]%lookup_insert_Some; [done|]. rewrite Hb2 by done.
  rewrite Hf in Hj. by apply Hc.
Qed.

Lemma store_info_coherent f st :
  coherent st →
  ∀ r st', write (s_store_file_info f) st = (r, st') → coherent st'.
Proof.
  intros Hc r st'. unfold write.
  destruct (s_store_file_info f (fs_storage st)) as [[id|e] s'] eqn:E; intros [= <- <-].
  - apply (coherent_ext st); [done| |done]. intros i. unfold backing_get; cbn.
    destruct (fs_file_storage st); [done|]. by apply law_store_file_info in E as (_ & _ & _ & ->).
  - apply law_store_file_info_err in E as ->. by apply (coherent_ext st).
Qed.

Lemma store_file_coherent f bs ty now nonces st :
  coherent st → coherent (store_file_with_update_type is_open send_error f bs ty now nonces st).2.
Proof.
  intros Hc. unfold store_file_with_update_type. unfold mthen at 1.
  destruct (write (s_store_file_info f) st) as [[[id|e]|] st1] eqn:E;
    pose proof (store_info_coherent f st Hc _ _ E) as H1; [|done..].
  apply store_and_cache_coherent; [|done]. intros st2 H2. by apply notify_coherent.
Qed.

Lemma copy_coherent src dst st : coherent st → coherent (copy_file_data src dst st).2.
Proof.
  intros Hc. unfold copy_file_data, svc_get_file_data, mthen at 1 2, files_get.
  assert (Hd : ∀ bs : bytes, coherent (mthen (store_file_data_internal dst bs)
    (λ _ : unit, files_insert dst bs) st).2).
  { intros bs. pose proof (store_and_cache_coherent dst bs (λ _, ret tt) st) as Hsc.
    apply Hsc; [|done]. auto. }
  destruct (fs_files st !! src) as [bs|]; [apply Hd|]. unfold read.
  destruct (s_get_file_data src (fs_storage st)) as [[bs|]|e]; [apply Hd|done..].
Qed.

(** After a copy the target is cached, so that the second read of a restore
    finds what was stored. *)
Lemma copy_cached src dst st st' :
  copy_file_data src dst st = (Returned (Ok tt), st') → is_Some (fs_files st' !! dst).
Proof.
  unfold copy_file_data, svc_get_file_data, mthen at 1 2, files_get, read.
  assert (Hd : ∀ bs : bytes, mthen (store_file_data_internal dst bs)
    (λ _ : unit, files_insert dst bs) st = (Returned (Ok tt), st') → is_Some (fs_files st' !! dst)).
  { intros bs. unfold mthen. destruct (store_file_data_internal dst bs st) as [[[[]|e]|] st1]; try done.
    intros [= <-]. cbn. rewrite lookup_insert_eq. eauto. }
  destruct (fs_files st !! src) as [bs|]; [apply Hd|].
  destruct (s_get_file_data src (fs_storage st)) as [[bs|]|e]; [apply Hd|done..].
Qed.

Lemma restore_coherent f1 f2 st : coherent st → coherent (svc_restore_file_version f1 f2 st).2.
Proof.
  intros Hc. unfold svc_restore_file_version. unfold mthen at 1.
  pose proof (copy_coherent (fi_file_id f1) (fi_file_id f2) st Hc) as H1.
  destruct (copy_file_data (fi_file_id f1) (fi_file_id f2) st) as [[[[]|e]|] st1] eqn:E; [|done..].
  apply copy_cached in E as [bs Hbs]. unfold svc_get_file_data, mthen, files_get.
  rewrite Hbs. cbn [ret default]. apply files_insert_coherent; [|done]. intros Hi. by apply H1.
Qed.

Lemma delete_coherent i now nonces st :
  coherent st → coherent (svc_delete_file is_open send_error i now nonces st).2.
Proof.
  intros Hc. unfold svc_delete_file, mthen at 1, read.
  destruct (s_get_file_info_include_deleted i (fs_storage st)) as [[[f del]|]|e]; [|done..].
  destruct del; [done|]. unfold mthen at 1, write.
  destruct (s_delete_file (fi_account_hash f) i (fs_storage st)) as [[[]|e] s'] eqn:E.
  - unfold mthen. cbn. apply notify_coherent.
    apply (files_remove_coherent i (mkFileService (fs_files st) s' (fs_file_storage st)
      (fs_notification_manager st) (fs_delivered st)) st); [done| |done]. intros j Hj. unfold backing_get; cbn.
    destruct (fs_file_storage st); [done|].
    apply law_delete_file in E as (_ & _ & _ & Hoth). by apply Hoth.
  - apply law_delete_file_err in E as ->. by apply (coherent_ext st).
Qed.

Lemma get_file_uncached_coherent i st : coherent st → coherent (get_file_uncached i st).2.
Proof.
  intros Hc. unfold get_file_uncached, mthen, read.
  destruct (s_get_file_info i (fs_storage st)) as [[f|]|]; [|done..].
  destruct (backing_get i st) as [[bs|]|] eqn:Eb; [|done..]. by apply files_insert_coherent.
Qed.

Lemma get_file_coherent i st : coherent st → coherent (get_file i st).2.
Proof.
  intros Hc. unfold get_file, mthen, files_get.
  destruct (fs_files st !! i); [|by apply get_file_uncached_coherent]. unfold read.
  destruct (s_get_file_info i (fs_storage st)) as [[f|]|]; [done| |done].
  by apply get_file_uncached_coherent.
Qed.

End but.

(** *** The calls of the service *)

(** The public calls that change something. *)
Inductive svc_call :=
| CallStore (f : FileInfo) (data : bytes) (update_type : Z) (now : DateTime) (nonces : string → bytes * bytes)
| CallCopy (source target : Z)
| CallRestore (source target : FileInfo)
| CallDelete (file_id : Z) (now : DateTime) (nonces : string → bytes * bytes)
| CallGet (file_id : Z)
| CallStoreInfo (f : FileInfo)
| CallStoreData (file_id : Z) (data : bytes)
| CallRegister (device : Device)
| CallNotifyRestore (f : FileInfo) (now : DateTime) (nonces : string → bytes * bytes).

Definition run_call (call : svc_call) st : FS :=
  match call with
  | CallStore f data ty now nonces => (store_file_with_update_type is_open send_error f data ty now nonces st).2
  | CallCopy i j => (copy_file_data i j st).2
  | CallRestore f g => (svc_restore_file_version f g st).2
  | CallDelete i now nonces => (svc_delete_file is_open send_error i now nonces st).2
  | CallGet i => (get_file i st).2
  | CallStoreInfo f => (svc_store_file_info f st).2
  | CallStoreData i data => (svc_store_file_data i data st).2
  | CallRegister device => (svc_register_device device st).2
  | CallNotifyRestore f now nonces => (send_file_restore_notification is_open send_error f now nonces st).2
  end.

(** The files whose contents were written past the cache. *)
Definition bypassed (calls : list svc_call) : gset Z :=
  list_to_set (omap (λ call, match call with CallStoreData i _ => Some i | _ => None end) calls).

Lemma store_data_coherent D i data st :
  i ∈ D → coherent_but D st → coherent_but D (svc_store_file_data i data st).2.
Proof.
  intros Hi Hc j bs Hj. unfold svc_store_file_data, write.
  destruct (s_store_file_data i data (fs_storage st)) as [r s'] eqn:E. cbn. intros Hf. specialize (Hc j bs Hj Hf).
  revert Hc. unfold backing_get; cbn. destruct (fs_file_storage st); [done|]. destruct r as [[]|e].
  - apply law_store_file_data in E as (_ & Hother & _). rewrite Hother; [done|set_solver].
  - by apply law_store_file_data_err in E as ->.
Qed.

Lemma run_call_coherent D call st :
  (∀ i data, call = CallStoreData i data → i ∈ D) → coherent_but D st → coherent_but D (run_call call st).
Proof.
  destruct call as [| | | | |f|i data|v|]; intros HD Hc; cbn [run_call];
    auto using store_file_coherent, copy_coherent, restore_coherent, delete_coherent, get_file_coherent, notify_coherent.
  - unfold svc_store_file_info, mthen.
    destruct (write (s_store_file_info f) st) as [[[id|e]|] st1] eqn:E;
      by eapply store_info_coherent in E.
  - eapply store_data_coherent; [by eapply HD|done].
  - unfold svc_register_device, write. destruct (s_register_device v (fs_storage st)) as [r s'] eqn:E.
    apply (coherent_ext _ st); [done| |done]. intros i. unfold backing_get; cbn.
    destruct (fs_file_storage st); [done|]. pose proof (law_register_device v (fs_storage st) i) as H'.
    rewrite E in H'. by destruct H'.
  - by apply notify_coherent.
Qed.

Lemma run_calls_coherent calls st D :
  bypassed calls ⊆ D → coherent_but D st → coherent_but D (foldl (λ st call, run_call call st) st calls).
Proof.
  revert st. induction calls as [|call calls IH]; intros st HD Hc; [done|]. cbn. apply IH.
  - unfold bypassed in *. cbn in HD. destruct call; cbn in HD; set_solver.
  - apply run_call_coherent; [|done]. intros i data ->. unfold bypassed in HD. cbn in HD. set_solver.
Qed.

Lemma empty_coherent D st : fs_files st = ∅ → coherent_but D st.
Proof. intros He i bs _. by rewrite He, lookup_empty. Qed.

(** The answer of a read, from the cache, the metadata and the contents behind
    the cache. *)
Definition get_file_answer (cached : option bytes) (info : Res (option FileInfo))
    (data : Res (option bytes)) : outcome (FileInfo * bytes) StorageError :=
  match info with
  | Ok (Some f) =>
      match cached with
      | Some bs => Returned (Ok (f, bs))
      | None =>
          match data with
          | Ok (Some bs) => Returned (Ok (f, bs))
          | Ok None => Returned (Err (NotFound "File not found"))
          | Err e => Returned (Err e)
          end
      end
  | Ok None => Returned (Err (NotFound "File not found"))
  | Err e => Returned (Err e)
  end.

Lemma get_file_value i st :
  (get_file i st).1 =
    get_file_answer (fs_files st !! i) (s_get_file_info i (fs_storage st)) (backing_get i st).
Proof.
  assert (Hu : (get_file_uncached i st).1 =
    get_file_answer None (s_get_file_info i (fs_storage st)) (backing_get i st)).
  { unfold get_file_uncached, mthen, read, get_file_answer.
    destruct (s_get_file_info i (fs_storage st)) as [[f|]|]; [|done..].
    by destruct (backing_get i st) as [[bs|]|]. }
  unfold get_file, mthen, files_get. destruct (fs_files st !! i); [|done]. unfold read.
  destruct (s_get_file_info i (fs_storage st)) as [[f|]|]; done.
Qed.

Lemma get_file_from_backing i st D :
  i ∉ D → coherent_but D st →
  (get_file i st).1 =
    (get_file i (mkFileService ∅ (fs_storage st) (fs_file_storage st)
                   (fs_notification_manager st) (fs_delivered st))).1.
Proof.
  intros Hi Hc. rewrite !get_file_value; cbn [fs_files fs_storage]. rewrite lookup_empty.
  change (backing_get i (mkFileService _ _ _ _ _)) with (backing_get i st).
  destruct (fs_files st !! i) as [bs|] eqn:E; [|done]. apply (Hc _ _ Hi) in E. rewrite E.
  by destruct (s_get_file_info i (fs_storage st)) as [[f|]|].
Qed.

(** *** Store, read, delete *)

(** The effect of a successful store. *)
Lemma store_file_effect f bs ty now nonces st st' :
  fi_file_id f ≠ 0 →
  store_file_with_update_type is_open send_error f bs ty now nonces st = (Returned (Ok tt), st') →
  s_get_file_info (fi_file_id f) (fs_storage st') = Ok (Some (fi_with_file_id f (fi_file_id f)))
  ∧ fs_files st' !! fi_file_id f = Some bs
  ∧ backing_get (fi_file_id f) st' = Ok (Some bs)
  ∧ ∃ st1, fs_notification_manager st1 = fs_notification_manager st
      ∧ fs_delivered st1 = fs_delivered st
      ∧ send_file_update_notification is_open send_error f ty now nonces st1 = (Returned (Ok tt), st').
Proof.
  intros Hid. unfold store_file_with_update_type, mthen at 1.
  destruct (write (s_store_file_info f) st) as [[[id|e]|] st1] eqn:E1; [|done..].
  unfold write in E1. destruct (s_store_file_info f (fs_storage st)) as [r s1] eqn:Es.
  simplify_eq. apply law_store_file_info in Es as (Heq & Hget & _).
  rewrite (Heq Hid) in Hget. unfold mthen at 1.
  destruct (store_file_data_internal (fi_file_id f) bs _) as [[[[]|e]|] st2] eqn:E2; [|done..].
  apply store_internal_spec in E2 as (_ & Hd & Hnm & Hi & Hb & _). cbn in Hd, Hnm, Hi.
  unfold mthen. cbn [files_insert]. intros Hn.
  pose proof (notify_frame _ _ _ _ _ _ Hn) as (Hf & Hs & Hfs). cbn in Hf, Hs, Hfs.
  split_and!.
  - by rewrite Hs, Hi.
  - by rewrite Hf, lookup_insert_eq.
  - by rewrite (backing_get_ext _ st2).
  - eexists. split_and!; [| |exact Hn]; done.
Qed.

Lemma stored_file_is_read f bs ty now nonces st st' :
  fi_file_id f ≠ 0 →
  store_file_with_update_type is_open send_error f bs ty now nonces st = (Returned (Ok tt), st') →
  get_file (fi_file_id f) st' = (Returned (Ok (f, bs)), st')
  ∧ svc_get_file_data (fi_file_id f) st' = (Returned (Ok (Some bs)), st')
  ∧ backing_get (fi_file_id f) st' = Ok (Some bs).
Proof.
  intros Hid Hst. destruct (store_file_effect f bs ty now nonces st st' Hid Hst) as (Hi & Hf & Hb & _).
  replace (fi_with_file_id f (fi_file_id f)) with f in Hi by (by destruct f).
  unfold get_file, svc_get_file_data, mthen, files_get, read. rewrite Hf, Hi. done.
Qed.

(** Who a notification reaches. *)
Lemma notify_recipients n nonces nm st st' a d c :
  plain (fun_account_hash n) → plain (fun_device_hash n) → plain a → plain d →
  fs_notification_manager st = Some nm →
  file_update_subscribers nm !! pair_key a d = Some c → is_open c = true →
  notify is_open send_error n true nonces st = (Returned (Ok tt), st') →
  ∃ log, fs_delivered st' = (fs_delivered st ++ log)%list
  ∧ (pair_key a d ∈ log.*1 ↔ a = fun_account_hash n ∧ d ≠ fun_device_hash n).
Proof.
  intros Hacc Hdev Ha Hd Hnm Hc Ho Hn. unfold notify in Hn. rewrite Hnm in Hn.
  destruct (broadcast_file_update_internal _ _ _ _ _ _ _) as [[r log]|] eqn:E; simplify_eq.
  exists log. split; [done|].
  rewrite (broadcast_log_keys _ _ _ _ _ _ _ _ _ E), elem_of_reached.
  pose proof (file_target_pair_key n true a d Hacc Hdev Ha Hd) as Ht. split.
  - intros (c' & _ & Hft & _). apply Ht in Hft as [? Hne]. split; [done|by apply Hne].
  - intros [? ?]. exists c. split; [done|]. split; [|done]. apply Ht. auto.
Qed.

(** An upload is announced to exactly the other connected devices of the
    account. *)
Theorem store_file_notifies f bs ty now nonces nm st st' a d c :
  plain (fi_account_hash f) → plain (fi_device_hash f) → plain a → plain d →
  fi_file_id f ≠ 0 → fs_notification_manager st = Some nm →
  file_update_subscribers nm !! pair_key a d = Some c → is_open c = true →
  store_file_with_update_type is_open send_error f bs ty now nonces st = (Returned (Ok tt), st') →
  ∃ log, fs_delivered st' = (fs_delivered st ++ log)%list
  ∧ (pair_key a d ∈ log.*1 ↔ a = fi_account_hash f ∧ d ≠ fi_device_hash f).
Proof.
  intros Hacc Hdev Ha Hd Hid Hnm Hc Ho Hst.
  destruct (store_file_effect f bs ty now nonces st st' Hid Hst) as (_ & _ & _ & st1 & Hnm1 & Hd1 & Hn).
  rewrite <- Hd1. rewrite <- Hnm1 in Hnm.
  by apply (notify_recipients (file_notification f ty now) nonces nm st1 st' a d c).
Qed.

(** A deletion is announced to the other connected devices of the account than
    the one that uploaded the file, whoever asked for it: the uploader, which
    still has the file, never hears of a deletion by another device. *)
Theorem delete_file_notifies i now nonces nm st st' f a d c :
  plain (fi_account_hash f) → plain (fi_device_hash f) → plain a → plain d →
  fs_notification_manager st = Some nm →
  file_update_subscribers nm !! pair_key a d = Some c → is_open c = true →
  s_get_file_info_include_deleted i (fs_storage st) = Ok (Some (f, false)) →
  svc_delete_file is_open send_error i now nonces st = (Returned (Ok tt), st') →
  ∃ log, fs_delivered st' = (fs_delivered st ++ log)%list
  ∧ (pair_key a d ∈ log.*1 ↔ a = fi_account_hash f ∧ d ≠ fi_device_hash f).
Proof.
  intros Hacc Hdev Ha Hd Hnm Hc Ho Hinc. unfold svc_delete_file, mthen at 1, read. rewrite Hinc.
  unfold mthen at 1, write. destruct (s_delete_file (fi_account_hash f) i (fs_storage st)) as [[[]|e] s'];
    [|done]. unfold mthen. cbn [files_remove]. intros Hn.
  by apply (notify_recipients _ _ nm _ _ a d c) in Hn.
Qed.

(** A deletion removes the metadata, the cached contents and the contents the
    metadata storage holds, so that the file is not found afterwards; other files
    are read as before. *)
Theorem delete_file_get_file i now nonces st f st' :
  s_get_file_info_include_deleted i (fs_storage st) = Ok (Some (f, false)) →
  svc_delete_file is_open send_error i now nonces st = (Returned (Ok tt), st') →
  get_file i st' = (Returned (Err (NotFound "File not found")), st')
  ∧ fs_files st' !! i = None
  ∧ s_get_file_data i (fs_storage st') = Ok None
  ∧ ∀ j, j ≠ i → (get_file j st').1 = (get_file j st).1.
Proof.
  intros Hinc. unfold svc_delete_file, mthen at 1, read. rewrite Hinc. unfold mthen at 1, write.
  destruct (s_delete_file (fi_account_hash f) i (fs_storage st)) as [[[]|e] s'] eqn:E; [|done].
  apply law_delete_file in E as (_ & Hi & Hd & Hoth). unfold mthen. cbn [files_remove].
  intros Hn. pose proof (notify_frame _ _ _ _ _ _ Hn) as (Hf & Hs & Hfs). cbn in Hf, Hs, Hfs.
  split_and!.
  - unfold get_file, get_file_uncached, mthen, files_get, read. rewrite Hf, lookup_delete_eq, Hs, Hi.
    done.
  - by rewrite Hf, lookup_delete_eq.
  - by rewrite Hs.
  - intros j Hj. destruct (Hoth j Hj) as [Hji Hjd].
    assert (Hb : backing_get j st' = backing_get j st).
    { unfold backing_get. rewrite Hfs, Hs. by destruct (fs_file_storage st). }
    by rewrite !get_file_value, Hf, lookup_delete_ne, Hs, Hji, Hb.
Qed.

(** After a restart, with contents in the separate file storage, the two
    reading methods differ: [get_file] finds the contents, [get_file_data] asks
    the metadata storage, which has none. *)
Theorem get_file_data_ignores_file_storage i info bs s f nm :
  s_get_file_info i s = Ok (Some info) → s_get_file_data i s = Ok None →
  f_get_file_data i f = Ok (Some bs) →
  let st := FileService_with s (Some f) nm in
  (get_file i st).1 = Returned (Ok (info, bs))
  ∧ (svc_get_file_data i st).1 = Returned (Ok None)
  ∧ (copy_file_data i (i + 1) st).1 =
      Returned (Err (NotFound ("Source file data not found: " +:+ pretty i))).
Proof.
  intros Hi Hd Hf st. assert (Hg : svc_get_file_data i st = (Returned (Ok None), st)).
  { unfold svc_get_file_data, mthen, files_get, st, FileService_with; cbn [fs_files].
    rewrite lookup_empty. unfold read; cbn [fs_storage]. by rewrite Hd. }
  split_and!; [|by rewrite Hg|unfold copy_file_data, mthen at 1; by rewrite Hg].
  rewrite get_file_value. unfold st, FileService_with, backing_get.
  cbn [fs_files fs_storage fs_file_storage]. by rewrite lookup_empty, Hi, Hf.
Qed.

(** Contents written with [store_file_data] are not seen while older contents
    of the file are cached. *)
Theorem store_file_data_stale i old new st st' :
  fs_files st !! i = Some old → svc_store_file_data i new st = (Returned (Ok tt), st') →
  svc_get_file_data i st' = (Returned (Ok (Some old)), st').
Proof.
  intros Hc. unfold svc_store_file_data, write.
  destruct (s_store_file_data i new (fs_storage st)) as [r s']. intros [= -> <-].
  unfold svc_get_file_data, mthen, files_get; cbn. by rewrite Hc.
Qed.

(** A copy makes the target read what the source read, and a restore to
    another identifier leaves both readable with the source's contents. *)
Theorem restore_copies_contents f1 f2 st bs st' :
  svc_get_file_data (fi_file_id f1) st = (Returned (Ok (Some bs)), st) →
  svc_restore_file_version f1 f2 st = (Returned (Ok tt), st') →
  svc_get_file_data (fi_file_id f2) st' = (Returned (Ok (Some bs)), st')
  ∧ backing_get (fi_file_id f2) st' = Ok (Some bs).
Proof.
  intros Hsrc. unfold svc_restore_file_version, copy_file_data. unfold mthen at 1 2. rewrite Hsrc.
  unfold mthen at 1.
  destruct (store_file_data_internal (fi_file_id f2) bs st) as [[[[]|e]|] st1] eqn:E; [|done..].
  apply store_internal_spec in E as (_ & _ & _ & _ & Hb & _).
  unfold mthen, files_insert, svc_get_file_data, mthen, files_get; cbn.
  rewrite lookup_insert_eq; cbn. intros [= <-]; cbn. by rewrite lookup_insert_eq.
Qed.

End props.

(** ** With the in-memory storage *)

(** A file storage for evaluation: a map of contents. *)
#[global] Instance map_file_storage : FileStorage (gmap Z bytes) := {|
  f_store_file_data i bs f := (Ok ("map:" +:+ pretty i), <[i := bs]> f);
  f_get_file_data i f := Ok (f !! i)
|}.

#[global] Instance map_file_storage_laws : FileStorageLaws (gmap Z bytes).
Proof.
  split; cbn; [|done]. intros i bs f loc f' [= <- <-].
  split; [by rewrite lookup_insert_eq|]. intros. by rewrite lookup_insert_ne.
Qed.

(** No separate storage of contents, as in [FileService::with_storage]. *)
#[global] Instance no_file_storage : FileStorage Empty_set := {|
  f_store_file_data _ _ f := match f : Empty_set with end;
  f_get_file_data _ f := match f : Empty_set with end
|}.

#[global] Instance no_file_storage_laws : FileStorageLaws Empty_set.
Proof. by split. Qed.

Section memory.
Context `{HI : HashIter} `{CA : CryptoApi} `{CH : Chrono}.
Context (is_open : Sender → bool) (send_error : string).

(** A service as [FileService::with_storage] and [with_storage_and_notifications] make it
    on an in-memory storage, after a sequence of calls. *)
Definition service_after (storage : StorageData) (nm : option NotificationManager) (calls : list svc_call)
    : FileService StorageData Empty_set :=
  foldl (λ st call, run_call is_open send_error call st) (FileService_with storage None nm) calls.

Lemma service_after_coherent storage nm calls :
  coherent_but (bypassed calls) (service_after storage nm calls).
Proof. apply run_calls_coherent; [done|by apply empty_coherent]. Qed.

Lemma service_after_no_storage storage nm calls : fs_file_storage (service_after storage nm calls) = None.
Proof. by destruct (fs_file_storage _) as [[]|]. Qed.

(** C6: on the in-memory storage without a separate storage of contents, whatever files are
    stored, copied, restored, deleted and read: every cached content is the one the
    storage holds, except of files whose contents were also written past the cache, with
    [store_file_data], which no other code of the server calls. *)
Theorem cache_coherent storage nm calls i bs :
  let st := service_after storage nm calls in
  i ∉ bypassed calls → fs_files st !! i = Some bs → get_file_data i (fs_storage st) = Ok (Some bs).
Proof.
  intros st Hi Hf. pose proof (service_after_coherent storage nm calls i bs Hi Hf) as H.
  unfold backing_get in H. by rewrite service_after_no_storage in H.
Qed.

(** C7: on the in-memory storage without a separate storage of contents the cache is
    transparent: after any calls, reading a file that was not written past the cache, with
    [store_file_data], gives the same answer with the cache and with an empty one. *)
Theorem get_file_transparent storage nm calls i :
  let st := service_after storage nm calls in
  i ∉ bypassed calls →
  (get_file i st).1 =
    (get_file i (mkFileService ∅ (fs_storage st) (fs_file_storage st)
                   (fs_notification_manager st) (fs_delivered st))).1.
Proof. intros st Hi. by apply (get_file_from_backing i st (bypassed calls)), service_after_coherent. Qed.

(** C25: on the in-memory storage without a separate storage of contents, a file that was
    stored under an identifier other than 0 is read back: metadata, and contents through
    either reading method, from the cache and from the storage behind it. *)
Theorem store_file_get_file f bs ty now nonces (st st' : FileService StorageData Empty_set) :
  fi_file_id f ≠ 0 →
  store_file_with_update_type is_open send_error f bs ty now nonces st = (Returned (Ok tt), st') →
  get_file (fi_file_id f) st' = (Returned (Ok (f, bs)), st')
  ∧ svc_get_file_data (fi_file_id f) st' = (Returned (Ok (Some bs)), st')
  ∧ get_file_info (fi_file_id f) (fs_storage st') = Ok (Some f)
  ∧ get_file_data (fi_file_id f) (fs_storage st') = Ok (Some bs).
Proof.
  intros Hid Hst. destruct (stored_file_is_read is_open send_error f bs ty now nonces st st' Hid Hst) as (H1 & H2 & H3).
  destruct (store_file_effect is_open send_error f bs ty now nonces st st' Hid Hst) as (Hi & _).
  split_and!; [done|done| |].
  - replace (fi_with_file_id f (fi_file_id f)) with f in Hi by (by destruct f). exact Hi.
  - unfold backing_get in H3. by destruct (fs_file_storage st') as [[]|].
Qed.

(** Stored without an identifier, a file's metadata goes under the generated
    one and its contents under 0: the file cannot be read back. *)
Theorem store_without_id_splits f bs ty now nonces d nm st' :
  fi_file_id f = 0 → next_file_id d ≠ 0 → files d !! 0 = None → file_data d !! next_file_id d = None →
  store_file_with_update_type is_open send_error f bs ty now nonces
    (FileService_with (F := gmap Z bytes) d None nm) = (Returned (Ok tt), st') →
  s_get_file_info (next_file_id d) (fs_storage st') = Ok (Some (fi_with_file_id f (next_file_id d)))
  ∧ s_get_file_data 0 (fs_storage st') = Ok (Some bs)
  ∧ (get_file (next_file_id d) st').1 = Returned (Err (NotFound "File not found"))
  ∧ (get_file 0 st').1 = Returned (Err (NotFound "File not found")).
Proof.
  intros Hid Hnz Hf0 Hd0. unfold store_file_with_update_type, store_file_data_internal, mthen at 1 2 3,
    write, FileService_with. cbn [fs_storage s_store_file_info memory_storage fs_file_storage].
  unfold store_file_info. rewrite Hid, Z.eqb_refl. cbn [fs_storage files_insert]. intros Hn.
  pose proof (notify_frame _ _ _ _ _ _ _ _ Hn) as (Hf & Hs & Hfs).
  cbn [fs_files fs_storage fs_file_storage] in Hf, Hs, Hfs.
  rewrite !get_file_value. unfold backing_get. rewrite Hfs, Hf, Hs. cbn.
  unfold get_file_info, get_file_data; cbn.
  rewrite !lookup_insert_eq, !lookup_insert_ne, !lookup_empty, Hf0, Hd0 by done. done.
Qed.

End memory.

(** *** Examples *)

Section examples.
#[local] Existing Instance canonical_iter.
#[local] Existing Instance chrono_range.
#[local] Existing Instance key_crypto.

Definition all_open (c : Sender) : bool := true.
Definition some_bytes : bytes := as_bytes "contents".

(** A service in front of a separate file storage, with three subscribers. *)
Definition svc0 : FileService StorageData (gmap Z bytes) :=
  FileService_with StorageData_new (Some ∅) (Some sample_manager).

Definition upload (st : FileService StorageData (gmap Z bytes)) :=
  store_file_with_update_type all_open "closed" (sample_file 7 "acc" "a.txt") some_bytes Uploaded
    (mkDateTime 100 0) sample_nonces st.

Definition svc1 : FileService StorageData (gmap Z bytes) := (upload svc0).2.

Lemma svc1_upload : upload svc0 = (Returned (Ok tt), svc1).
Proof. unfold svc1. destruct (upload svc0) as [r st] eqn:E. vm_compute in E. by injection E as <-. Qed.

(** A file is stored, read, written past the cache and copied. *)
Definition sample_calls : list svc_call :=
  [CallStore (sample_file 7 "acc" "a.txt") some_bytes Uploaded (mkDateTime 100 0) sample_nonces;
   CallStore (sample_file 8 "acc" "b.txt") some_bytes Uploaded (mkDateTime 100 0) sample_nonces;
   CallGet 7; CallStoreData 8 []; CallCopy 8 7].

Lemma cache_coherent_witness :
  get_file_data 7 (fs_storage (service_after all_open "closed" StorageData_new None sample_calls)) = Ok (Some some_bytes).
Proof.
  apply (cache_coherent all_open "closed" StorageData_new None sample_calls 7 some_bytes);
    [by apply (bool_decide_unpack _); vm_compute|vm_compute; reflexivity].
Defined.

Lemma get_file_transparent_witness :
  let st := service_after all_open "closed" StorageData_new None sample_calls in
  (get_file 7 st).1 =
    (get_file 7 (mkFileService ∅ (fs_storage st) (fs_file_storage st)
                   (fs_notification_manager st) (fs_delivered st))).1.
Proof.
  apply (get_file_transparent all_open "closed" StorageData_new None sample_calls 7).
  by apply (bool_decide_unpack _); vm_compute.
Defined.

Lemma store_file_get_file_witness :
  ∃ st', get_file 7 st' = (Returned (Ok (sample_file 7 "acc" "a.txt", some_bytes)), st').
Proof.
  pose (st := FileService_with (F := Empty_set) StorageData_new None (Some sample_manager)).
  exists (store_file_with_update_type all_open "closed" (sample_file 7 "acc" "a.txt") some_bytes Uploaded
    (mkDateTime 100 0) sample_nonces st).2.
  apply (store_file_get_file all_open "closed" (sample_file 7 "acc" "a.txt") some_bytes Uploaded
    (mkDateTime 100 0) sample_nonces st); [discriminate|vm_compute; reflexivity].
Defined.

Lemma store_file_notifies_witness :
  ∃ log, fs_delivered svc1 = log ∧ "acc:dev2" ∈ log.*1.
Proof.
  destruct (store_file_notifies all_open "closed" (sample_file 7 "acc" "a.txt") some_bytes Uploaded
    (mkDateTime 100 0) sample_nonces sample_manager svc0 svc1 "acc" "dev2" 2) as (log & Hd & Hin);
    [reflexivity..|discriminate|reflexivity|reflexivity|reflexivity|exact svc1_upload|].
  exists log. split; [exact Hd|]. apply Hin. split; [reflexivity|discriminate].
Defined.

Lemma delete_file_get_file_witness :
  ∃ st', svc_delete_file all_open "closed" 7 (mkDateTime 200 0) sample_nonces svc1 = (Returned (Ok tt), st')
  ∧ (get_file 7 st').1 = Returned (Err (NotFound "File not found")).
Proof.
  destruct (svc_delete_file all_open "closed" 7 (mkDateTime 200 0) sample_nonces svc1)
    as [r st'] eqn:E.
  assert (r = Returned (Ok tt)) as -> by (vm_compute in E; injection E; congruence).
  exists st'. split; [reflexivity|].
  destruct (delete_file_get_file all_open "closed" 7 (mkDateTime 200 0) sample_nonces svc1
    (sample_file 7 "acc" "a.txt") st') as (H & _); [vm_compute; reflexivity|exact E|].
  by rewrite H.
Defined.

Lemma delete_file_notifies_witness :
  ∃ st' log, svc_delete_file all_open "closed" 7 (mkDateTime 200 0) sample_nonces svc1 = (Returned (Ok tt), st')
  ∧ fs_delivered st' = (fs_delivered svc1 ++ log)%list ∧ "acc:dev1" ∉ log.*1.
Proof.
  destruct (svc_delete_file all_open "closed" 7 (mkDateTime 200 0) sample_nonces svc1)
    as [r st'] eqn:E.
  assert (r = Returned (Ok tt)) as -> by (vm_compute in E; injection E; congruence).
  destruct (delete_file_notifies all_open "closed" 7 (mkDateTime 200 0) sample_nonces sample_manager svc1 st'
    (sample_file 7 "acc" "a.txt") "acc" "dev1" 1) as (log & Hd & Hin);
    [reflexivity..|vm_compute; reflexivity|exact E|].
  exists st', log. split; [reflexivity|]. split; [exact Hd|]. rewrite Hin. intros [_ H]. by apply H.
Defined.

Lemma get_file_data_ignores_file_storage_witness :
  let st := FileService_with (fs_storage svc1) (Some ({[ 7 := some_bytes ]} : gmap Z bytes)) None in
  (svc_get_file_data 7 st).1 = Returned (Ok None).
Proof.
  apply (get_file_data_ignores_file_storage 7 (sample_file 7 "acc" "a.txt") some_bytes
    (fs_storage svc1) ({[ 7 := some_bytes ]} : gmap Z bytes) None); vm_compute; reflexivity.
Defined.

Lemma store_file_data_stale_witness :
  ∃ st', svc_store_file_data 7 (as_bytes "new") svc1 = (Returned (Ok tt), st')
  ∧ svc_get_file_data 7 st' = (Returned (Ok (Some some_bytes)), st').
Proof.
  eexists. split; [reflexivity|].
  apply (store_file_data_stale 7 some_bytes (as_bytes "new") svc1); [vm_compute; reflexivity|reflexivity].
Defined.

Lemma restore_copies_contents_witness :
  ∃ st', svc_restore_file_version (sample_file 7 "acc" "a.txt") (sample_file 8 "acc" "a.txt") svc1
      = (Returned (Ok tt), st')
  ∧ svc_get_file_data 8 st' = (Returned (Ok (Some some_bytes)), st').
Proof.
  eexists. split; [reflexivity|].
  apply (restore_copies_contents (sample_file 7 "acc" "a.txt") (sample_file 8 "acc" "a.txt") svc1);
    reflexivity.
Defined.

Lemma store_without_id_splits_witness :
  ∃ st', store_file_with_update_type all_open "closed" (sample_file 0 "acc" "a.txt") some_bytes Uploaded
      (mkDateTime 100 0) sample_nonces (FileService_with (F := gmap Z bytes) StorageData_new None None)
      = (Returned (Ok tt), st')
  ∧ (get_file 1 st').1 = Returned (Err (NotFound "File not found")).
Proof.
  eexists. split; [reflexivity|].
  apply (store_without_id_splits all_open "closed" (sample_file 0 "acc" "a.txt") some_bytes Uploaded
    (mkDateTime 100 0) sample_nonces StorageData_new None); try reflexivity. discriminate.
Defined.

End examples.
