(* ===== verification/VersionService.v ===== *)
(** * File history and restoration (src/services/version_service.rs)

    The service reads the history of a file from the storage and restores a
    version through the file service.  It runs in the monad of the file service
    with [AppError] as its error. *)

From S2P Require Import Prelude RustString Errors Models Paths Memory MemoryProps StorageApi Effects Crypto Notify NotifyProps FileService FileServiceProps.

Record FileVersionInfo := mkFileVersionInfo {
  fvi_file_id : Z;
  fvi_revision : Z;
  fvi_filename : string;
  fvi_file_path : string;
  fvi_file_hash : string;
  fvi_created_time : option Timestamp;
  fvi_device_hash : string;
  fvi_group_id : Z;
  fvi_watcher_id : Z;
  fvi_file_size : Z;
  fvi_change_description : string;
  fvi_is_deleted : bool
}.

Record GetFileHistoryRequest := mkGetFileHistoryRequest {
  ghr_account_hash : string;
  ghr_device_hash : string;
  ghr_auth_token : string;
  ghr_file_path : string;
  ghr_folder_path : option string;
  ghr_start_time : option Timestamp;
  ghr_end_time : option Timestamp;
  ghr_max_versions : option Z;
  ghr_change_count_threshold : option Z;
  ghr_group_id : Z;
  ghr_watcher_id : option Z
}.

Record GetFileHistoryResponse := mkGetFileHistoryResponse {
  ghp_success : bool;
  ghp_return_message : string;
  ghp_versions : list FileVersionInfo;
  ghp_total_versions : Z;
  ghp_has_more : bool
}.

Record RestoreFileVersionRequest := mkRestoreFileVersionRequest {
  rvr_account_hash : string;
  rvr_device_hash : string;
  rvr_auth_token : string;
  rvr_file_id : Z;
  rvr_target_revision : Z;
  rvr_broadcast_to_all_devices : bool;
  rvr_restore_reason : string
}.

Record RestoreFileVersionResponse := mkRestoreFileVersionResponse {
  rvp_success : bool;
  rvp_return_message : string;
  rvp_new_revision : Z;
  rvp_restored_file_info : option sync_FileInfo;
  rvp_notified_devices : Z
}.

Record BroadcastFileRestoreRequest := mkBroadcastFileRestoreRequest {
  brr_account_hash : string;
  brr_source_device_hash : string;
  brr_auth_token : string;
  brr_file_id : Z;
  brr_restored_revision : Z;
  brr_new_revision : Z;
  brr_file_info : option sync_FileInfo;
  brr_restore_reason : string
}.

Record BroadcastFileRestoreResponse := mkBroadcastFileRestoreResponse {
  brp_success : bool;
  brp_return_message : string;
  brp_notified_device_hashes : list string;
  brp_total_notified : Z
}.

(** ** Conversions *)

Definition sync_file_to_version_info (file : SyncFile) (change_description : option string)
    : FileVersionInfo :=
  {| fvi_file_id := sf_file_id file; fvi_revision := sf_revision file;
     fvi_filename := sf_filename file; fvi_file_path := sf_file_path file;
     fvi_file_hash := sf_file_hash file;
     fvi_created_time := Some (datetime_to_timestamp (sf_upload_time file));
     fvi_device_hash := sf_device_hash file; fvi_group_id := sf_group_id file;
     fvi_watcher_id := sf_watcher_id file; fvi_file_size := wrap_u64 (sf_file_size file);
     fvi_change_description := default "" change_description; fvi_is_deleted := sf_is_deleted file |}.

Definition sync_file_to_file_info (file : SyncFile) : sync_FileInfo :=
  {| sfi_file_id := sf_file_id file; sfi_filename := sf_filename file;
     sfi_file_hash := sf_file_hash file;
     sfi_updated_time := Some (datetime_to_timestamp (sf_last_updated file));
     sfi_device_hash := sf_device_hash file; sfi_group_id := sf_group_id file;
     sfi_watcher_id := sf_watcher_id file; sfi_is_encrypted := sf_is_encrypted file;
     sfi_file_path := sf_file_path file; sfi_revision := sf_revision file;
     sfi_file_size := wrap_u64 (sf_file_size file) |}.

Definition sync_file_to_file_info_model (file : SyncFile) : FileInfo :=
  {| fi_file_id := sf_file_id file; fi_filename := sf_filename file;
     fi_file_hash := sf_file_hash file; fi_device_hash := sf_device_hash file;
     fi_group_id := sf_group_id file; fi_watcher_id := sf_watcher_id file;
     fi_is_encrypted := sf_is_encrypted file; fi_file_path := sf_file_path file;
     fi_updated_time := datetime_to_timestamp (sf_last_updated file);
     fi_revision := sf_revision file; fi_account_hash := sf_user_id file;
     fi_size := wrap_u64 (sf_file_size file); fi_key_id := None |}.

(** ** History *)

(** [files.sort_by(|a, b| b.revision.cmp(&a.revision))], a stable sort. *)
Fixpoint insert_by_revision (f : SyncFile) (l : list SyncFile) : list SyncFile :=
  match l with
  | [] => [f]
  | g :: l' => if sf_revision g <=? sf_revision f then f :: l else g :: insert_by_revision f l'
  end.

Definition sort_by_revision_desc (l : list SyncFile) : list SyncFile := foldr insert_by_revision [] l.

Section history.
Context `{CH : Chrono}.

(** The two [retain] filters. *)
Definition in_time_range (request : GetFileHistoryRequest) (now : DateTime) (f : SyncFile) : bool :=
  match ghr_start_time request with
  | Some start_time => dt_leb (timestamp_to_datetime start_time now) (sf_upload_time f)
  | None => true
  end
  && match ghr_end_time request with
     | Some end_time => dt_leb (sf_upload_time f) (timestamp_to_datetime end_time now)
     | None => true
     end.

Definition history_limit (max_versions : option Z) : option nat :=
  match max_versions with
  | Some m => if 0 <? m then Some (Z.to_nat m) else None
  | None => Some 50%nat
  end.

Definition apply_history_filters (files : list SyncFile) (request : GetFileHistoryRequest)
    (now : DateTime) : list SyncFile :=
  let files :=
    match ghr_start_time request with
    | Some start_time =>
        List.filter (λ f, dt_leb (timestamp_to_datetime start_time now) (sf_upload_time f)) files
    | None => files
    end in
  let files :=
    match ghr_end_time request with
    | Some end_time =>
        List.filter (λ f, dt_leb (sf_upload_time f) (timestamp_to_datetime end_time now)) files
    | None => files
    end in
  let files := sort_by_revision_desc files in
  match history_limit (ghr_max_versions request) with
  | Some n => take n files
  | None => files
  end.

(** *** The sort *)

Lemma insert_by_revision_perm f l : insert_by_revision f l ≡ₚ f :: l.
Proof.
  induction l as [|g l IH]; cbn; [done|]. destruct (_ <=? _); [done|]. rewrite IH. constructor.
Qed.

Lemma sort_perm l : sort_by_revision_desc l ≡ₚ l.
Proof. induction l as [|f l IH]; cbn; [done|]. by rewrite insert_by_revision_perm, IH. Qed.

(** Newest first. *)
Definition newest_first : relation SyncFile := λ f g, sf_revision g ≤ sf_revision f.

Lemma insert_sorted f l :
  StronglySorted newest_first l → StronglySorted newest_first (insert_by_revision f l).
Proof.
  induction 1 as [|g l Hs IH Hall]; cbn; [repeat constructor|].
  destruct (Z.leb_spec (sf_revision g) (sf_revision f)).
  - constructor; [by constructor|]. constructor; [done|].
    eapply Forall_impl; [done|]. unfold newest_first. intros h Hh. lia.
  - constructor; [done|]. rewrite insert_by_revision_perm. constructor; [|done].
    unfold newest_first. lia.
Qed.

Lemma sort_sorted l : StronglySorted newest_first (sort_by_revision_desc l).
Proof. induction l; cbn; [constructor|by apply insert_sorted]. Qed.

Lemma StronglySorted_take_drop (l : list SyncFile) n x y :
  StronglySorted newest_first l → x ∈ take n l → y ∈ drop n l → sf_revision y ≤ sf_revision x.
Proof.
  intros Hs. revert n. induction Hs as [|z l Hs IH Hall]; intros [|n]; cbn [take drop];
    try (by intros ?%elem_of_nil).
  intros [->|Hx]%elem_of_cons Hy; [|by eapply IH].
  rewrite Forall_forall in Hall. apply Hall. rewrite <-(take_drop n l), elem_of_app. by right.
Qed.

Lemma filter_filter {A} (P Q : A → bool) l :
  List.filter Q (List.filter P l) = List.filter (λ x, P x && Q x) l.
Proof.
  induction l as [|x l IH]; [done|]. cbn. destruct (P x); cbn; [|done]. destruct (Q x); congruence.
Qed.

Lemma filters_range files request now :
  match ghr_end_time request with
  | Some e => List.filter (λ f, dt_leb (sf_upload_time f) (timestamp_to_datetime e now))
      (match ghr_start_time request with
       | Some b => List.filter (λ f, dt_leb (timestamp_to_datetime b now) (sf_upload_time f)) files
       | None => files end)
  | None => (match ghr_start_time request with
       | Some b => List.filter (λ f, dt_leb (timestamp_to_datetime b now) (sf_upload_time f)) files
       | None => files end)
  end = List.filter (in_time_range request now) files.
Proof.
  unfold in_time_range. destruct (ghr_start_time request), (ghr_end_time request);
    rewrite ?filter_filter; try (apply List.filter_ext; intros f; by rewrite ?andb_true_r).
  induction files as [|f l IH]; [done|]. cbn [List.filter andb]. f_equal. exact IH.
Qed.

(** The history returned is the newest part of the stored versions in the
    requested time range: newest first, at most as many as asked for (50 by
    default, all for a limit of zero or less), and no version left out is newer
    than one returned. *)
Theorem apply_history_filters_spec files request now :
  ∃ dropped,
    let kept := apply_history_filters files request now in
    (kept ++ dropped)%list ≡ₚ List.filter (in_time_range request now) files
    ∧ StronglySorted newest_first kept
    ∧ (∀ x y, x ∈ kept → y ∈ dropped → sf_revision y ≤ sf_revision x)
    ∧ match history_limit (ghr_max_versions request) with
      | Some n => (length kept ≤ n)%nat ∧ (dropped ≠ [] → length kept = n)
      | None => dropped = []
      end.
Proof.
  set (sorted := sort_by_revision_desc (List.filter (in_time_range request now) files)).
  assert (Heq : apply_history_filters files request now =
    match history_limit (ghr_max_versions request) with Some n => take n sorted | None => sorted end).
  { unfold apply_history_filters, sorted. by rewrite filters_range. }
  pose proof (sort_sorted (List.filter (in_time_range request now) files)) as Hs.
  exists (match history_limit (ghr_max_versions request) with Some n => drop n sorted | None => [] end).
  cbn zeta. rewrite Heq. destruct (history_limit _) as [n|].
  - rewrite take_drop. split_and!.
    + apply sort_perm.
    + fold sorted in Hs. rewrite <-(take_drop n sorted) in Hs. by apply StronglySorted_app in Hs as (_ & ? & _).
    + intros x y. by apply StronglySorted_take_drop.
    + rewrite length_take. lia.
    + intros Hd. rewrite length_take.
      assert (length (drop n sorted) ≠ 0%nat) by (by destruct (drop n sorted)).
      rewrite length_drop in *. lia.
  - rewrite app_nil_r. split_and!; [apply sort_perm|done| |done]. by intros x y _ ?%elem_of_nil.
Qed.

End history.

(** ** The service *)

Section version_service.
Context `{HI : HashIter} `{CA : CryptoApi} `{CH : Chrono} {S : Type} `{ST : Storage S}
  {F : Type} `{FST : FileStorage F}.
Context (is_open : Sender → bool) (send_error : string).
Abbreviation FS := (FileService S F).
Abbreviation VM A := (ME FS SyncError A).
Implicit Types (st : FS).

Definition storage_failure (what : string) (e : StorageError) : SyncError :=
  SE_Storage (what +:+ ": " +:+ StorageError_fmt e).

(** Lengths are [usize]; [total_versions] is cut to [i32] and widened again for
    the comparison. *)
Definition version_get_file_history (request : GetFileHistoryRequest) (now : DateTime)
    : VM GetFileHistoryResponse :=
  if str_is_empty (ghr_account_hash request) || str_is_empty (ghr_file_path request) then
    ret (mkGetFileHistoryResponse false "Account hash and file path are required" [] 0 false)
  else
    files ←? mmap_err (storage_failure "Failed to get file history")
               (read (s_get_file_history (ghr_account_hash request) (ghr_file_path request)
                        (ghr_group_id request)));
    let total_before_filter := wrap_i32 (Z.of_nat (length files)) in
    let files := apply_history_filters files request now in
    let has_more := Z.of_nat (length files) <? wrap_u64 total_before_filter in
    let versions := (λ f, sync_file_to_version_info f None) <$> files in
    ret (mkGetFileHistoryResponse true
           ("Found " +:+ pretty (length versions) +:+ " versions") versions total_before_filter has_more).

Definition broadcast_file_restore (request : BroadcastFileRestoreRequest)
    : VM BroadcastFileRestoreResponse :=
  devices ←? mmap_err (storage_failure "Failed to get devices")
               (read (s_get_devices_for_account (brr_account_hash request)));
  let notified_device_hashes := d_device_hash <$>
    List.filter (λ device, d_device_hash device != brr_source_device_hash request) devices in
  let total_notified := wrap_i32 (Z.of_nat (length notified_device_hashes)) in
  ret (mkBroadcastFileRestoreResponse true ("Notified " +:+ pretty total_notified +:+ " devices")
         notified_device_hashes total_notified).

(** [files.iter().map(|f| f.revision).max().unwrap_or(0)]. *)
Definition max_revision (files : list SyncFile) : Z :=
  match files with
  | [] => 0
  | f :: files => foldl Z.max (sf_revision f) (sf_revision <$> files)
  end.

Definition restored_version (target_file : SyncFile) (new_revision : Z) (device_hash : string)
    (now1 now2 : DateTime) : SyncFile :=
  {| sf_id := sf_id target_file; sf_user_id := sf_user_id target_file;
     sf_device_hash := device_hash; sf_group_id := sf_group_id target_file;
     sf_watcher_id := sf_watcher_id target_file; sf_file_id := sf_file_id target_file;
     sf_filename := sf_filename target_file; sf_file_hash := sf_file_hash target_file;
     sf_file_path := sf_file_path target_file; sf_file_size := sf_file_size target_file;
     sf_mime_type := sf_mime_type target_file; sf_modified_time := sf_modified_time target_file;
     sf_is_encrypted := sf_is_encrypted target_file; sf_upload_time := now1; sf_last_updated := now2;
     sf_is_deleted := false; sf_revision := new_revision |}.

(** The last part of the restoration: the broadcast on request. *)
Definition notify_restore (request : RestoreFileVersionRequest) (new_revision : Z)
    (restored_file_info : sync_FileInfo) : VM Z :=
  if rvr_broadcast_to_all_devices request then
    mtry (broadcast_file_restore
            (mkBroadcastFileRestoreRequest (rvr_account_hash request) (rvr_device_hash request)
               (rvr_auth_token request) (rvr_file_id request) (rvr_target_revision request)
               new_revision (Some restored_file_info) (rvr_restore_reason request)))
         (λ r, match r with
               | Ok broadcast_response => ret (brp_total_notified broadcast_response)
               | Err _ => ret 0
               end)
  else ret 0.

(** [now1] to [now3] are the three readings of the clock. *)
Definition version_restore_file_version (request : RestoreFileVersionRequest)
    (now1 now2 now3 : DateTime) nonces : VM RestoreFileVersionResponse :=
  if str_is_empty (rvr_account_hash request) || (rvr_file_id request =? 0) then
    ret (mkRestoreFileVersionResponse false "Account hash and file ID are required" 0 None 0)
  else
    target_file ←? mmap_err (storage_failure "Failed to get file version")
      (read (s_get_file_by_revision (rvr_account_hash request) (rvr_file_id request)
               (rvr_target_revision request)));
    current_files ←? mmap_err (storage_failure "Failed to get current file versions")
      (read (s_get_file_history (rvr_account_hash request) (sf_file_path target_file)
               (sf_group_id target_file)));
    let new_revision := wrap_i64 (max_revision current_files + 1) in
    let restored_file := restored_version target_file new_revision (rvr_device_hash request) now1 now2 in
    let source_file_info := sync_file_to_file_info_model target_file in
    let target_file_info := sync_file_to_file_info_model restored_file in
    _ ←? mmap_err (storage_failure "Failed to restore file data")
           (svc_restore_file_version source_file_info target_file_info);
    _ ←? mmap_err (storage_failure "Failed to store restored file version")
           (write (s_store_file restored_file));
    _ ←? mmap_err (storage_failure "")
           (send_file_restore_notification is_open send_error target_file_info now3 nonces);
    let restored_file_info := sync_file_to_file_info restored_file in
    notified_devices ←? notify_restore request new_revision restored_file_info;
    ret (mkRestoreFileVersionResponse true ("File restored to revision " +:+ pretty new_revision)
           new_revision (Some restored_file_info) notified_devices).

Definition get_file_versions (account_hash : string) (file_id : Z) : VM (list FileVersionInfo) :=
  files ←? mmap_err (storage_failure "Failed to get file versions")
             (read (s_get_file_versions_by_id account_hash file_id));
  ret ((λ f, sync_file_to_version_info f None) <$> files).

Definition create_file_version (file : SyncFile) (change_description : option string) : VM Z :=
  _ ←? mmap_err (storage_failure "Failed to create file version") (write (s_store_file file));
  ret (sf_revision file).

(** *** Properties *)

Lemma max_revision_spec files f : f ∈ files → sf_revision f ≤ max_revision files.
Proof.
  destruct files as [|g files]; [by intros ?%elem_of_nil|]. cbn.
  destruct (foldl_max_spec (sf_revision <$> files) (sf_revision g)) as (H1 & H2 & _).
  intros [->|Hf]%elem_of_cons; [done|]. apply H2. apply list_elem_of_fmap. eauto.
Qed.

Lemma max_revision_elem files f : f ∈ files → ∃ g, g ∈ files ∧ sf_revision g = max_revision files.
Proof.
  destruct files as [|g files]; [by intros ?%elem_of_nil|]. intros _. cbn.
  destruct (foldl_max_spec (sf_revision <$> files) (sf_revision g)) as (_ & _ & [->|Hin]).
  - exists g. split; [left|done].
  - apply list_elem_of_fmap in Hin as (h & -> & ?). exists h. split; [by right|done].
Qed.

Lemma read_ok {A} (q : S → Res A) st a st' :
  read q st = (Returned (Ok a), st') → q (fs_storage st) = Ok a ∧ st' = st.
Proof. unfold read. by intros [= -> ->]. Qed.

Lemma mapped_read_ok {A E} (f : StorageError → E) (q : S → Res A) st a st' :
  mmap_err f (read q) st = (Returned (Ok a), st') → q (fs_storage st) = Ok a ∧ st' = st.
Proof. intros Hr%mmap_err_ok. by apply read_ok. Qed.

Lemma notify_restore_frame request rev info st r st' :
  notify_restore request rev info st = (r, st') → st' = st ∧ ∃ n, r = Returned (Ok n).
Proof.
  unfold notify_restore. destruct (rvr_broadcast_to_all_devices request); [|intros [= <- <-]; eauto].
  unfold mtry, broadcast_file_restore, mthen, mmap_err, read.
  destruct (s_get_devices_for_account _ (fs_storage st)); cbn; intros [= <- <-]; eauto.
Qed.

(** The parts of a successful restoration. *)
Lemma restore_ok request now1 now2 now3 nonces st resp st' :
  str_is_empty (rvr_account_hash request) = false → rvr_file_id request ≠ 0 →
  version_restore_file_version request now1 now2 now3 nonces st = (Returned (Ok resp), st') →
  ∃ target current st1 s2,
    s_get_file_by_revision (rvr_account_hash request) (rvr_file_id request)
      (rvr_target_revision request) (fs_storage st) = Ok target
    ∧ s_get_file_history (rvr_account_hash request) (sf_file_path target) (sf_group_id target)
        (fs_storage st) = Ok current
    ∧ let restored := restored_version target (wrap_i64 (max_revision current + 1)) (rvr_device_hash request) now1 now2 in
      svc_restore_file_version (sync_file_to_file_info_model target) (sync_file_to_file_info_model restored) st
        = (Returned (Ok tt), st1)
    ∧ s_store_file restored (fs_storage st1) = (Ok tt, s2)
    ∧ fs_storage st' = s2 ∧ fs_files st' = fs_files st1
    ∧ rvp_success resp = true ∧ rvp_new_revision resp = wrap_i64 (max_revision current + 1)
    ∧ rvp_restored_file_info resp = Some (sync_file_to_file_info restored).
Proof.
  intros Hacc Hid. unfold version_restore_file_version.
  rewrite Hacc, (proj2 (Z.eqb_neq _ _) Hid). cbn [orb]. intros H0.
  bind_ok H0. apply mapped_read_ok in Ha as [Ht ->].
  bind_ok H0. apply mapped_read_ok in Ha as [Hc ->].
  bind_ok H0. apply mmap_err_ok in Ha. destruct a1. rename st0 into st1.
  bind_ok H0. apply mmap_err_ok in Ha0. unfold write in Ha0.
  destruct (s_store_file _ _) as [r2 s2] eqn:E2. injection Ha0 as -> <-. destruct a1.
  bind_ok H0. apply mmap_err_ok in Ha0.
  apply notify_frame in Ha0 as (Hf & Hs & _). cbn in Hf, Hs.
  bind_ok H0. apply notify_restore_frame in Ha0 as [-> _]. injection H0 as <- <-.
  exists a, a0, st1, s2. split_and!; try done.
Qed.

(** A restore broadcast lists exactly the devices of the account other than
    the requesting one. *)
Theorem broadcast_file_restore_devices request st devices :
  s_get_devices_for_account (brr_account_hash request) (fs_storage st) = Ok devices →
  Z.of_nat (length devices) ≤ i32_max →
  ∃ resp, broadcast_file_restore request st = (Returned (Ok resp), st)
  ∧ (∀ h, h ∈ brp_notified_device_hashes resp ↔
       h ≠ brr_source_device_hash request ∧ ∃ v, v ∈ devices ∧ d_device_hash v = h)
  ∧ brp_total_notified resp = Z.of_nat (length (brp_notified_device_hashes resp)).
Proof.
  intros Hd Hlen. unfold broadcast_file_restore, mthen, mmap_err, read. rewrite Hd. cbn.
  eexists. split; [done|]. cbn. split.
  - intros h. rewrite list_elem_of_fmap. setoid_rewrite list_elem_of_In. setoid_rewrite filter_In.
    setoid_rewrite negb_true_iff. setoid_rewrite bool_decide_eq_false. split.
    + intros (v & -> & Hin & Hne). eauto.
    + intros (Hne & v & Hin & <-). eauto.
  - apply wrap_i32_id. rewrite length_fmap.
    pose proof (filter_length_le (λ device, d_device_hash device != brr_source_device_hash request) devices).
    unfold i32_min. lia.
Qed.

(** A history request answers with the conversion of the filtered versions;
    [has_more] says that some stored version is not in the answer, because of
    the limit or because of the time range. *)
Theorem get_file_history_response request now st files :
  str_is_empty (ghr_account_hash request) = false → str_is_empty (ghr_file_path request) = false →
  s_get_file_history (ghr_account_hash request) (ghr_file_path request) (ghr_group_id request)
    (fs_storage st) = Ok files →
  Z.of_nat (length files) ≤ i32_max →
  ∃ resp, version_get_file_history request now st = (Returned (Ok resp), st)
  ∧ ghp_success resp = true
  ∧ fvi_revision <$> ghp_versions resp = sf_revision <$> apply_history_filters files request now
  ∧ ghp_total_versions resp = Z.of_nat (length files)
  ∧ (ghp_has_more resp = true ↔ (length (ghp_versions resp) < length files)%nat).
Proof.
  intros Ha Hp Hf Hlen. unfold version_get_file_history. rewrite Ha, Hp. cbn [orb].
  unfold mthen, mmap_err, read. rewrite Hf. cbn [map_err]. eexists. split; [done|]. cbn.
  assert (Hw : wrap_i32 (Z.of_nat (length files)) = Z.of_nat (length files)).
  { apply wrap_i32_id. unfold i32_min. lia. }
  rewrite Hw, wrap_u64_id by (unfold i32_max, u64_max in *; lia).
  split_and!; [done| |done|].
  - by rewrite <-list_fmap_compose.
  - rewrite Z.ltb_lt, length_fmap. lia.
Qed.

End version_service.

(** ** Restorations *)

Section restorations.
Context `{HI : HashIter} `{CA : CryptoApi} `{CH : Chrono} {S : Type} `{SL : StorageLaws S}
  {F : Type} `{FL : FileStorageLaws F}.
Context (is_open : Sender → bool) (send_error : string).
Abbreviation FS := (FileService S F).
Implicit Types (st : FS).

(** A restoration of contents sends nothing. *)
Lemma svc_restore_frame f1 f2 st r st' :
  svc_restore_file_version f1 f2 st = (r, st') →
  fs_notification_manager st' = fs_notification_manager st ∧ fs_delivered st' = fs_delivered st.
Proof.
  assert (Hg : ∀ i st r st', svc_get_file_data i st = (r, st') → st' = st).
  { intros i st0 r0 st0'. unfold svc_get_file_data, mthen, files_get, read, ret.
    destruct (fs_files st0 !! i); by intros [= <- <-]. }
  assert (Hc : ∀ i j st r st', copy_file_data i j st = (r, st') →
    fs_notification_manager st' = fs_notification_manager st ∧ fs_delivered st' = fs_delivered st).
  { intros i j st0 r0 st0'. unfold copy_file_data, mthen.
    destruct (svc_get_file_data i st0) as [[[[bs|]|e]|] st1] eqn:E; apply Hg in E as ->;
      try (by intros [= <- <-]).
    destruct (store_file_data_internal j bs st0) as [[[[]|e]|] st2] eqn:E;
      apply store_internal_spec in E as (_ & ? & ? & _ & ?); by intros [= <- <-]. }
  unfold svc_restore_file_version, mthen.
  destruct (copy_file_data _ _ st) as [[[[]|e]|] st1] eqn:E; apply Hc in E as [? ?];
    try (by intros [= <- <-]).
  destruct (svc_get_file_data _ st1) as [[[d|e]|] st2] eqn:E; apply Hg in E as ->;
    by intros [= <- <-].
Qed.

(** A restoration is announced to every connected device of the account, the
    requesting one included. *)
Theorem restore_notifies_all request now1 now2 now3 nonces nm st resp st' target a d c :
  str_is_empty (rvr_account_hash request) = false → rvr_file_id request ≠ 0 →
  s_get_file_by_revision (rvr_account_hash request) (rvr_file_id request)
    (rvr_target_revision request) (fs_storage st) = Ok target →
  plain (sf_user_id target) → plain (rvr_device_hash request) → plain a → plain d →
  fs_notification_manager st = Some nm →
  file_update_subscribers nm !! pair_key a d = Some c → is_open c = true →
  version_restore_file_version is_open send_error request now1 now2 now3 nonces st
    = (Returned (Ok resp), st') →
  ∃ log, fs_delivered st' = (fs_delivered st ++ log)%list
  ∧ (pair_key a d ∈ log.*1 ↔ a = sf_user_id target).
Proof.
  intros Hacc Hid Ht Hu Hdev Ha Hd Hnm Hc Ho. unfold version_restore_file_version.
  rewrite Hacc, (proj2 (Z.eqb_neq _ _) Hid). cbn [orb]. intros Hr.
  apply mthen_ok in Hr as (tg & st1 & Hm & Hr). apply mapped_read_ok in Hm as [Ht' ->].
  rewrite Ht in Ht'. injection Ht' as <-.
  apply mthen_ok in Hr as (cur & st1 & Hm & Hr). apply mapped_read_ok in Hm as [_ ->].
  apply mthen_ok in Hr as ([] & st1 & Hm & Hr). apply mmap_err_ok, svc_restore_frame in Hm as [Hn1 Hd1].
  apply mthen_ok in Hr as ([] & st2 & Hm & Hr). apply mmap_err_ok in Hm. unfold write in Hm.
  destruct (s_store_file _ (fs_storage st1)) as [rr s2]. injection Hm as _ <-.
  apply mthen_ok in Hr as ([] & st3 & Hm & Hr). apply mmap_err_ok in Hm.
  apply mthen_ok in Hr as (cnt & st4 & Hm2 & Hr). apply notify_restore_frame in Hm2 as [-> _].
  injection Hr as _ <-.
  unfold send_file_restore_notification, send_file_update_notification_with_options, notify in Hm.
  cbn [fs_notification_manager fs_storage negb] in Hm. rewrite Hn1, Hnm in Hm.
  destruct (broadcast_file_update_internal _ _ _ _ _ _ _) as [[r log]|] eqn:E; [|done].
  injection Hm as <-. exists log. cbn. split; [by rewrite Hd1|].
  rewrite (broadcast_log_keys _ _ _ _ _ _ _ _ _ E), elem_of_reached.
  match type of E with broadcast_file_update_internal _ _ _ _ ?n _ _ = _ =>
    pose proof (file_target_pair_key n false a d Hu Hdev Ha Hd) as Hft end.
  split.
  - intros (c' & _ & Hf & _). by apply Hft in Hf as [? _].
  - intros ->. exists c. split_and!; [done| |done]. by apply Hft.
Qed.

End restorations.


(** ** Examples

    The in-memory storage keeps no history; for evaluation it is extended with
    a fixed one. *)

Section examples.
#[local] Existing Instance canonical_iter.
#[local] Existing Instance chrono_range.
#[local] Existing Instance key_crypto.

Definition sample_version (rev secs : Z) : SyncFile :=
  mkSyncFile "id" "acc" "dev1" 1 1 7 "a.txt" "hash" "~/docs" 3 "text/plain" 0 false
    (mkDateTime secs 0) (mkDateTime secs 0) false rev.

Definition sample_history : list SyncFile :=
  [sample_version 1 100; sample_version 3 300; sample_version 2 200].

#[local] Instance history_storage : Storage StorageData | 0 :=
  let m := memory_storage in
  {| s_get_encryption_key := s_get_encryption_key;
     s_store_encryption_key := s_store_encryption_key; s_register_device := s_register_device;
     s_get_device := s_get_device; s_list_devices := s_list_devices;
     s_update_device := s_update_device; s_delete_device := s_delete_device;
     s_validate_device := s_validate_device; s_get_devices_for_account := s_get_devices_for_account;
     s_store_file_info := s_store_file_info; s_get_file_info := s_get_file_info;
     s_list_files := s_list_files; s_list_files_except_device := s_list_files_except_device;
     s_delete_file := s_delete_file; s_store_file_data := s_store_file_data;
     s_get_file_data := s_get_file_data;
     s_find_file_by_path_and_name := s_find_file_by_path_and_name;
     s_find_file_by_criteria := s_find_file_by_criteria;
     s_get_file_info_include_deleted := s_get_file_info_include_deleted;
     s_check_file_exists := s_check_file_exists;
     s_get_file_history _ _ _ _ := Ok sample_history;
     s_get_file_versions_by_id _ _ _ := Ok sample_history;
     s_get_file_by_revision _ _ rev _ :=
       match List.find (λ f, sf_revision f =? rev) sample_history with
       | Some f => Ok f
       | None => Err (NotFound "revision")
       end;
     s_store_file := s_store_file; s_get_server_group_id := s_get_server_group_id;
     s_get_server_ids := s_get_server_ids; s_find_watcher_by_folder := s_find_watcher_by_folder;
     s_create_watcher_with_conditions := s_create_watcher_with_conditions;
     s_save_watcher_conditions := s_save_watcher_conditions;
     s_get_watcher_group_by_account_and_id := s_get_watcher_group_by_account_and_id;
     s_get_watcher_groups := s_get_watcher_groups;
     s_register_watcher_group := s_register_watcher_group;
     s_get_user_watcher_group := s_get_user_watcher_group;
     s_update_watcher_group := s_update_watcher_group;
     s_delete_watcher_group := s_delete_watcher_group;
     s_get_watcher_preset := s_get_watcher_preset;
     s_register_watcher_preset_proto := s_register_watcher_preset_proto;
     s_update_watcher_preset_proto := s_update_watcher_preset_proto;
     s_get_client_watcher_id := s_get_client_watcher_id; s_get_auth_token := s_get_auth_token;
     s_get_account_by_hash := s_get_account_by_hash; s_create_account := s_create_account |}.

#[local] Instance history_storage_laws : @StorageLaws StorageData history_storage.
Proof. destruct memory_storage_laws; split; assumption. Qed.

(** A service whose file 7 has contents and whose account has three devices. *)
Definition version_svc : FileService StorageData (gmap Z bytes) :=
  mkFileService {[ 7 := some_bytes ]}
    (register_device (sample_device "acc" "dev2")
      (register_device (sample_device "acc" "dev1") StorageData_new).2).2
    (Some ({[ 7 := some_bytes ]} : gmap Z bytes)) (Some sample_manager) [].

Definition restore_request : RestoreFileVersionRequest :=
  mkRestoreFileVersionRequest "acc" "dev1" "token" 7 2 true "".

Definition history_request : GetFileHistoryRequest :=
  mkGetFileHistoryRequest "acc" "dev1" "token" "~/docs" None (Some (mkTimestamp 150 0)) None (Some 1) None 1
    None.

Definition restore_run :=
  version_restore_file_version all_open "closed" restore_request (mkDateTime 400 0) (mkDateTime 400 0)
    (mkDateTime 400 0) sample_nonces version_svc.

Lemma broadcast_file_restore_devices_witness :
  ∃ resp, broadcast_file_restore
    (mkBroadcastFileRestoreRequest "acc" "dev1" "token" 7 2 4 None "") version_svc
    = (Returned (Ok resp), version_svc) ∧ "dev2" ∈ brp_notified_device_hashes resp.
Proof.
  destruct (broadcast_file_restore_devices
    (mkBroadcastFileRestoreRequest "acc" "dev1" "token" 7 2 4 None "") version_svc
    (default [] (match s_get_devices_for_account "acc" (fs_storage version_svc) with
                 | Ok l => Some l | Err _ => None end)))
    as (resp & Hr & Hin & _); [reflexivity|vm_compute; discriminate|].
  exists resp. split; [exact Hr|]. apply Hin. split; [discriminate|].
  exists (sample_device "acc" "dev2"). split; [|reflexivity]. vm_compute.
  repeat constructor.
Defined.

Lemma get_file_history_response_witness :
  ∃ resp, version_get_file_history history_request (mkDateTime 400 0) version_svc
    = (Returned (Ok resp), version_svc) ∧ fvi_revision <$> ghp_versions resp = [3].
Proof.
  destruct (get_file_history_response history_request (mkDateTime 400 0) version_svc sample_history)
    as (resp & Hr & _ & Hv & _); [reflexivity|reflexivity|reflexivity|vm_compute; discriminate|].
  exists resp. split; [exact Hr|]. rewrite Hv. vm_compute. reflexivity.
Defined.

Lemma restore_notifies_all_witness :
  ∃ resp st' log, restore_run = (Returned (Ok resp), st') ∧ fs_delivered st' = log
  ∧ "acc:dev1" ∈ log.*1.
Proof.
  destruct restore_run as [o st'] eqn:E.
  destruct o as [[resp|e]|]; [|vm_compute in E; discriminate E..].
  destruct (restore_notifies_all all_open "closed" restore_request (mkDateTime 400 0)
    (mkDateTime 400 0) (mkDateTime 400 0) sample_nonces sample_manager version_svc resp st'
    (sample_version 2 200) "acc" "dev1" 1) as (log & Hd & Hin);
    [reflexivity|discriminate|reflexivity..|exact E|].
  exists resp, st', log. split; [reflexivity|]. split; [exact Hd|]. by apply Hin.
Defined.

End examples.
