(* ===== verification/Auth.v ===== *)
(** * Tokens (src/auth/oauth.rs, src/auth/token.rs, src/auth/mod.rs)

    Verification of the bearer token of a request against the storage.  The
    external authentication server is an argument; so are the build profile,
    the enabled log levels (a log line that slices the token can panic), random
    bytes, identifiers and the clock. *)

From S2P Require Import Prelude RustString Errors Models Memory MemoryProps StorageApi Effects Crypto.

Inductive AuthError :=
| AE_InvalidCredentials (s : string) | AE_InvalidToken (s : string)
| AE_AuthenticationRequired (s : string) | AE_PermissionDenied (s : string)
| AE_DatabaseError (s : string) | AE_ExternalServiceError (s : string)
| AE_AuthenticationError (s : string) | AE_UserNotFound (s : string)
| AE_MissingUserData (s : string) | AE_InvalidResponseFormat (s : string)
| AE_Unknown (s : string).

Definition AuthError_fmt (e : AuthError) : string :=
  match e with
  | AE_InvalidCredentials s => "Invalid credentials: " +:+ s
  | AE_InvalidToken s => "Invalid token: " +:+ s
  | AE_AuthenticationRequired s => "Authentication required: " +:+ s
  | AE_PermissionDenied s => "Permission denied: " +:+ s
  | AE_DatabaseError s => "Database error: " +:+ s
  | AE_ExternalServiceError s => "External service error: " +:+ s
  | AE_AuthenticationError s => "Authentication error: " +:+ s
  | AE_UserNotFound s => "User not found: " +:+ s
  | AE_MissingUserData s => "Missing user data: " +:+ s
  | AE_InvalidResponseFormat s => "Invalid response format: " +:+ s
  | AE_Unknown s => "Unknown error: " +:+ s
  end.

Record OAuthUserInfo := mkOAuthUserInfo {
  oui_id : string;
  oui_user_id : string;
  oui_name : string
}.

Record VerificationResult := mkVerificationResult {
  vr_valid : bool;
  vr_account_hash : string;
  vr_expiry : option DateTime
}.

(** ** Tokens *)

Section tokens.
Context `{CA : CryptoApi}.

Definition hash_token (token : string) : string := hex_encode (sha256_digest (as_bytes token)).

Definition generate_auth_token (buffer : bytes) (now : DateTime) : string :=
  let input := pair_key (hex_encode buffer) (pretty (dt_timestamp now)) in
  hex_encode (sha256_digest (as_bytes input)).

Definition generate_state_token (buffer : bytes) : string := hex_encode buffer.

Definition generate_session_token (now_secs random : Z) : string :=
  "token_" +:+ pretty now_secs +:+ "_" +:+ pretty random.

(** [split('_').next()] always yields a first piece. *)
Definition extract_account_hash (device_hash : string) : string :=
  match split_char "_" device_hash with
  | w :: _ => w
  | [] => device_hash
  end.

End tokens.

(** [s.is_char_boundary(n)]: the end, or a byte that does not continue a
    character. *)
Definition is_char_boundary (s : string) (n : nat) : bool :=
  match String.get n s with
  | Some a => negb ((128 <=? byte_val a) && (byte_val a <=? 191))
  | None => (n =? String.length s)%nat
  end.

(** [&token[..min(10, token.len())]] does not panic. *)
Definition prefix_ok (token : string) : bool :=
  is_char_boundary token (Nat.min 10 (String.length token)).

(** ** Verification *)

Section verification.
Context {S : Type} `{ST : Storage S}.
(** [cfg!(debug_assertions)] and the levels of the tracing subscriber. *)
Context (debug_assertions debug_enabled error_enabled : bool).
(** [get_user_info_from_external_server]. *)
Context (external_user_info : string → result OAuthUserInfo AuthError).
Implicit Types (s : S).

Definition validate_token (token : string) (now : DateTime) : ME S AuthError string := λ s,
  if str_is_empty token then (Returned (Err (AE_InvalidToken "Token is empty")), s)
  else if debug_enabled && negb (prefix_ok token) then (Panicked, s)
  else if debug_assertions && (token == "test_token") then (Returned (Ok "test_account_hash"), s)
  else
    match s_get_auth_token token s with
    | Ok (Some token_obj) =>
        if dt_ltb (at_expires_at token_obj) now
        then (Returned (Err (AE_InvalidToken "Token has expired")), s)
        else if negb (at_is_valid token_obj)
        then (Returned (Err (AE_InvalidToken "Token is deactivated")), s)
        else (Returned (Ok (at_account_hash token_obj)), s)
    | Ok None =>
        if error_enabled && negb (prefix_ok token) then (Panicked, s)
        else (Returned (Err (AE_InvalidToken "Token not found")), s)
    | Err e => (Returned (Err (AE_DatabaseError (StorageError_fmt e))), s)
    end.

(** The account created for a user the authentication server knows. *)
Definition auto_account (account_hash uuid : string) (user_info : OAuthUserInfo) (now : DateTime)
    : Account :=
  let email := if contains_char "@" (oui_user_id user_info) then oui_user_id user_info
               else oui_user_id user_info +:+ "@example.com" in
  {| a_account_hash := account_hash; a_id := uuid; a_email := email; a_name := oui_name user_info;
     a_user_type := "oauth"; a_password_hash := ""; a_salt := ""; a_is_active := true;
     a_created_at := now; a_last_login := now; a_updated_at := now;
     a_user_id := oui_user_id user_info |}.

(** The account is created when the storage does not have it and the external
    server answers; every failure is only logged. *)
Definition ensure_account (token account_hash uuid : string) (now : DateTime) s : S :=
  match s_get_account_by_hash account_hash s with
  | Ok None =>
      match external_user_info token with
      | Ok user_info => (s_create_account (auto_account account_hash uuid user_info now) s).2
      | Err _ => s
      end
  | _ => s
  end.

Definition verify_token (token uuid : string) (now1 now2 : DateTime)
    : ME S AuthError VerificationResult :=
  mtry (validate_token token now1) (λ r s,
    match r with
    | Ok account_hash =>
        (Returned (Ok (mkVerificationResult true account_hash None)),
         ensure_account token account_hash uuid now2 s)
    | Err _ => (Returned (Ok (mkVerificationResult false "" None)), s)
    end).

(** *** Properties *)

(** The stored token that makes a request valid. *)
Definition live_token (token : string) (now : DateTime) s (account : string) : Prop :=
  token ≠ "" ∧ ∃ t, s_get_auth_token token s = Ok (Some t)
  ∧ dt_leb now (at_expires_at t) = true ∧ at_is_valid t = true ∧ at_account_hash t = account.

Lemma verify_token_live token uuid now1 now2 s a :
  prefix_ok token = true → debug_assertions = false → live_token token now1 s a →
  verify_token token uuid now1 now2 s =
    (Returned (Ok (mkVerificationResult true a None)), ensure_account token a uuid now2 s).
Proof.
  intros Hp Hdbg (Hne & t & Ht & Hx & Hv & <-).
  unfold verify_token, mtry, validate_token. rewrite Hp, Hdbg, Ht.
  destruct (str_is_empty token) eqn:E; [by apply str_is_empty_true in E|].
  rewrite andb_false_r. cbn [andb]. unfold dt_ltb. by rewrite Hx, Hv.
Qed.

(** A token is live, or it is rejected without a change. *)
Lemma verify_token_cases token uuid now1 now2 s :
  debug_assertions = false → prefix_ok token = true →
  (∃ a, live_token token now1 s a)
  ∨ verify_token token uuid now1 now2 s = (Returned (Ok (mkVerificationResult false "" None)), s)
    ∧ ∀ a, ¬ live_token token now1 s a.
Proof.
  intros Hdbg Hp. unfold verify_token, mtry, validate_token, live_token.
  rewrite Hp, Hdbg, !andb_false_r. cbn [andb].
  destruct (str_is_empty token) eqn:Ee.
  { apply str_is_empty_true in Ee as ->. right. split; [done|]. by intros a [? _]. }
  destruct (s_get_auth_token token s) as [[t|]|e] eqn:Et;
    [|right; split; [done|]; by intros a (_ & t' & ? & _)..].
  unfold dt_ltb. destruct (dt_leb now1 (at_expires_at t)) eqn:Ex, (at_is_valid t) eqn:Ev; cbn;
    [left; exists (at_account_hash t); split; [by intros ->|]; by exists t|right..];
    (split; [done|]; intros a (_ & t' & Heq & ? & ? & _); injection Heq as <-; congruence).
Qed.

(** C33: in a release build a token is accepted exactly when it is stored, not
    expired and not deactivated, and then identifies the account it was issued
    for; a rejected token changes nothing. *)
Theorem verify_token_spec token uuid now1 now2 s :
  debug_assertions = false → prefix_ok token = true →
  ∃ v s', verify_token token uuid now1 now2 s = (Returned (Ok v), s')
  ∧ (∀ a, vr_valid v = true ∧ vr_account_hash v = a ↔ live_token token now1 s a)
  ∧ (vr_valid v = false → s' = s).
Proof.
  intros Hdbg Hp. destruct (verify_token_cases token uuid now1 now2 s Hdbg Hp) as [[a Ha]|[-> Hno]].
  - rewrite (verify_token_live token uuid now1 now2 s a Hp Hdbg Ha). do 2 eexists. split; [done|].
    split; [|done]. intros b. cbn. split; [by intros [_ <-]|].
    destruct Ha as (_ & t & Ht & _ & _ & <-). intros (_ & t' & Ht' & _ & _ & <-).
    rewrite Ht in Ht'. by simplify_eq.
  - do 2 eexists. split; [done|]. split; [|done].
    intros b. cbn. split; [by intros []|]. intros Hb. by destruct (Hno b).
Qed.

(** A token the storage does not know whose tenth byte is inside a character
    makes the request panic instead of being rejected. *)
Theorem unknown_token_panics token uuid now1 now2 s :
  error_enabled = true → debug_assertions = false → token ≠ "" → prefix_ok token = false →
  s_get_auth_token token s = Ok None →
  verify_token token uuid now1 now2 s = (Panicked, s).
Proof.
  intros He Hdbg Hne Hp Ht. unfold verify_token, mtry, validate_token.
  rewrite Hp, Hdbg, He, Ht. destruct (str_is_empty token) eqn:E; [by apply str_is_empty_true in E|].
  cbn. by destruct debug_enabled.
Qed.

End verification.

(** *** Examples *)

Section examples.
#[local] Existing Instance canonical_iter.
#[local] Existing Instance chrono_range.

Definition sample_token (account text : string) : AuthToken :=
  mkAuthToken "id" account text None (mkDateTime 100 0) (mkDateTime 900 0) true "Bearer" None.

Definition sample_tokens : StorageData :=
  (create_auth_token (sample_token "acc" "secret") StorageData_new).2.

Definition no_server (token : string) : result OAuthUserInfo AuthError :=
  Err (AE_ExternalServiceError "offline").

Lemma verify_token_spec_witness :
  ∃ v s', verify_token false false true no_server "secret" "uuid" (mkDateTime 500 0) (mkDateTime 500 0)
    sample_tokens = (Returned (Ok v), s') ∧ vr_valid v = true ∧ vr_account_hash v = "acc".
Proof.
  destruct (verify_token_spec false false true no_server "secret" "uuid" (mkDateTime 500 0)
    (mkDateTime 500 0) sample_tokens) as (v & s' & E & Hv & _); [reflexivity..|].
  exists v, s'. split; [exact E|]. apply Hv. split; [discriminate|].
  exists (sample_token "acc" "secret"). split_and!; reflexivity.
Defined.

(** Nine ASCII characters and a two-byte one. *)
Definition split_token : string := "123456789" +:+ String (Ascii.ascii_of_nat 195) (String (Ascii.ascii_of_nat 169) "").

Lemma unknown_token_panics_witness :
  verify_token false false true no_server split_token "uuid" (mkDateTime 500 0) (mkDateTime 500 0)
    sample_tokens = (Panicked, sample_tokens).
Proof.
  apply (unknown_token_panics false false true no_server split_token);
    first [reflexivity | vm_compute; discriminate | vm_compute; reflexivity].
Defined.

End examples.
