(* ===== verification/OAuth.v ===== *)
(** * Logging in with an OAuth code (src/auth/oauth.rs)

    The exchange of an authorisation code for an account: the authentication
    server is asked for an access token and for the user, the account is found or
    created, a token of the server's own is issued and the encryption key of the
    account is returned.  HTTP traffic is an argument: what [send] returned, and
    what the JSON parser made of the body. *)

From S2P Require Import Prelude RustString Errors Models Memory MemoryProps StorageApi Effects Crypto Auth.

(** The methods of the trait [Storage] on accounts and tokens that the log-in
    calls besides those of the class [Storage]. *)
Class AccountStorage (S : Type) := {
  s_get_account_by_email : string → S → Res (option Account);
  s_update_account : Account → S → Res unit * S;
  s_create_auth_token : AuthToken → S → Res unit * S;
  s_validate_auth_token : string → string → S → Res bool;
  s_delete_auth_token : string → S → Res unit * S
}.

#[global] Instance memory_account_storage `{HashIter} `{Unicode} : AccountStorage StorageData := {|
  s_get_account_by_email := get_account_by_email;
  s_update_account := update_account;
  s_create_auth_token := create_auth_token;
  s_validate_auth_token := validate_auth_token;
  s_delete_auth_token := delete_auth_token
|}.

(** ** The client of the authentication server *)

(** A response: its status code and its body, or why the body could not be read. *)
Record HttpResponse := mkHttpResponse { hr_status : Z; hr_text : result string string }.

Definition status_is_success (status : Z) : bool := (200 <=? status) && (status <? 300).
Definition status_is_client_error (status : Z) : bool := (400 <=? status) && (status <? 500).

Record TokenResponse := mkTokenResponse {
  tr_access_token : string; tr_refresh_token : option string; tr_expires_in : option Z
}.

Record NotificationPreferences := mkNotificationPreferences { np_two_factor : option string }.

Record UserInfo := mkUserInfo {
  ui_id : option Z;
  ui_email : option string;
  ui_first_name : option string;
  ui_last_name : option string;
  ui_company_name : option string;
  ui_newsletter : option bool;
  ui_staff : option bool;
  ui_stripe_id : option string;
  ui_third_party_login : option bool;
  ui_two_factor_enabled : option bool;
  ui_type : option string;
  ui_notification_preferences : option NotificationPreferences;
  ui_phone_number : option string
}.

Record System76UserSettings := mkSystem76UserSettings { sus_user : option UserInfo }.

(** The fields of [OAuthService] besides the storage. *)
Record OAuthService := mkOAuthService {
  oas_client_id : string; oas_client_secret : string; oas_redirect_uri : string;
  oas_auth_url : string; oas_token_url : string; oas_user_info_url : string; oas_scope : string
}.

Definition OAuthService_new (getenv : string → option string) : OAuthService :=
  {| oas_client_id := default "cosmic-sync" (getenv "OAUTH_CLIENT_ID");
     oas_client_secret := default "cosmicsecretsocmicsecret" (getenv "OAUTH_CLIENT_SECRET");
     oas_redirect_uri := default "http://localhost:8080/oauth/callback" (getenv "OAUTH_REDIRECT_URI");
     oas_auth_url := default "https://localhost:4000/oauth/authorize" (getenv "OAUTH_AUTH_URL");
     oas_token_url := default "https://localhost:4000/oauth/token" (getenv "OAUTH_TOKEN_URL");
     oas_user_info_url := default "https://localhost:4000/userinfo" (getenv "OAUTH_USER_INFO_URL");
     oas_scope := default "profile:read" (getenv "OAUTH_SCOPE") |}.

Definition generate_oauth_login_url `{CryptoApi} (oauth : OAuthService) (buffer : bytes) : string :=
  oas_auth_url oauth +:+ "?client_id=" +:+ oas_client_id oauth
  +:+ "&redirect_uri=" +:+ oas_redirect_uri oauth +:+ "&response_type=code&scope=" +:+ oas_scope oauth
  +:+ "&access_type=offline&state=" +:+ generate_state_token buffer.

Definition generate_oauth_login_url_with_device (oauth : OAuthService) (device_hash : string) : string :=
  oas_auth_url oauth +:+ "?client_id=" +:+ oas_client_id oauth
  +:+ "&redirect_uri=" +:+ oas_redirect_uri oauth +:+ "&response_type=code&scope=" +:+ oas_scope oauth
  +:+ "&state=" +:+ device_hash.

(** The names of a user, joined; [None] when there are none. *)
Definition full_name (user : UserInfo) : option string :=
  match ui_first_name user, ui_last_name user with
  | Some first, Some last => Some (first +:+ " " +:+ last)
  | Some first, None => Some first
  | None, Some last => Some last
  | None, None => None
  end.

Section http.
(** [Display] of a status code, the two uses of the JSON parser, and the requests:
    URL and form, or URL and authorisation header. *)
Context (status_fmt : Z → string).
Context (json_token : HttpResponse → result TokenResponse string).
Context (parse_settings : string → result System76UserSettings string).
Context (http_post : string → list (string * string) → result HttpResponse string).
Context (http_get : string → string → result HttpResponse string).
Context (getenv : string → option string).

Definition text_or (d : string) (r : HttpResponse) : string :=
  match hr_text r with Ok t => t | Err _ => d end.

(** [get_user_info_from_external_server]: the user must exist and have an e-mail
    address. *)
Definition get_user_info_from_external_server (token : string) : result OAuthUserInfo AuthError :=
  let auth_server_url := default "http://localhost:4000" (getenv "AUTH_SERVER_URL") in
  match http_get (auth_server_url +:+ "/api/user") ("Bearer " +:+ token) with
  | Err e => Err (AE_ExternalServiceError ("Failed to connect to auth server: " +:+ e))
  | Ok response =>
      let status := hr_status response in
      if status_is_client_error status
      then Err (AE_AuthenticationError ("Authentication failed: " +:+ status_fmt status))
      else if negb (status_is_success status)
      then Err (AE_ExternalServiceError ("Auth server returned error: " +:+ status_fmt status))
      else
        match hr_text response with
        | Err e => Err (AE_ExternalServiceError ("Failed to read response: " +:+ e))
        | Ok response_text =>
            match parse_settings response_text with
            | Err e => Err (AE_InvalidResponseFormat ("Failed to parse user info: " +:+ e))
            | Ok settings =>
                match sus_user settings with
                | None => Err (AE_UserNotFound "User not found or not available")
                | Some user =>
                    match ui_email user with
                    | None => Err (AE_MissingUserData "Email is required but not provided")
                    | Some user_id =>
                        Ok (mkOAuthUserInfo (default user_id (pretty <$> ui_id user)) user_id
                              (default user_id (full_name user)))
                    end
                end
            end
        end
  end.

(** A user from the settings, with defaults for everything that is missing. *)
Definition user_of_settings (settings : System76UserSettings) : OAuthUserInfo :=
  let user := sus_user settings in
  let user_id := default "unknown_user@example.com" (user ≫= ui_email) in
  let name := default user_id (user ≫= full_name) in
  let id := default user_id (user ≫= λ u, Some (default user_id (pretty <$> ui_id u))) in
  mkOAuthUserInfo id user_id name.

(** The request for the settings; [failed] starts the message of a refusal. *)
Definition settings_request (url failed access_token : string) : result OAuthUserInfo AuthError :=
  match http_get url ("Bearer " +:+ access_token) with
  | Err e => Err (AE_ExternalServiceError ("Failed to send settings request: " +:+ e))
  | Ok response =>
      if status_is_success (hr_status response) then
        match parse_settings (text_or "Unable to read response" response) with
        | Ok settings => Ok (user_of_settings settings)
        | Err e => Err (AE_ExternalServiceError ("Failed to parse settings response: " +:+ e))
        end
      else Err (AE_ExternalServiceError (failed +:+ ": " +:+ status_fmt (hr_status response)
                                           +:+ " - " +:+ text_or "Unknown error" response))
  end.

Definition get_user_info_with_token (oauth : OAuthService) (access_token : string)
    : result OAuthUserInfo AuthError :=
  settings_request (oas_user_info_url oauth) "Failed to fetch settings" access_token.

Definition get_oauth_user_info (access_token : string) : result OAuthUserInfo AuthError :=
  settings_request (default "http://10.17.89.63:4000/api/settings" (getenv "OAUTH_USER_INFO_URL"))
    "Settings request failed" access_token.

Definition exchange_oauth_code (oauth : OAuthService) (code : string) : result string AuthError :=
  let params := [("code", code); ("client_id", oas_client_id oauth);
                 ("client_secret", oas_client_secret oauth); ("redirect_uri", oas_redirect_uri oauth);
                 ("grant_type", "authorization_code")] in
  match http_post (oas_token_url oauth) params with
  | Ok response =>
      if status_is_success (hr_status response) then
        match json_token response with
        | Ok token_data => Ok (tr_access_token token_data)
        | Err e => Err (AE_ExternalServiceError ("Failed to parse token response: " +:+ e))
        end
      else Err (AE_ExternalServiceError ("OAuth token exchange failed: " +:+ status_fmt (hr_status response)
                                           +:+ " - " +:+ text_or "Unknown error" response))
  | Err e => Err (AE_ExternalServiceError ("Failed to send token request: " +:+ e))
  end.

Definition exchange_oauth_code_and_authenticate (oauth : OAuthService) (code : string)
    : result (string * OAuthUserInfo) AuthError :=
  token <-? exchange_oauth_code oauth code;
  user_info <-? get_user_info_with_token oauth token;
  Ok (token, user_info).

End http.

(** ** The log-in *)

(** What a log-in reads of the clock and draws at random, in the order of the
    code. *)
Record LoginEnv := mkLoginEnv {
  le_now : nat → DateTime;
  le_uuid : nat → string;
  le_buffer : bytes;
  le_key : bytes;
  le_spare_key : bytes
}.

Definition max_retries : nat := 3.

(** [now + Duration::seconds(secs)]; [None] is the panic of chrono. *)
Definition after_seconds `{Chrono} (now : DateTime) (secs : Z) : option DateTime := dt_add now (secs * 10 ^ 9).

Section login.
Context `{CA : CryptoApi} `{CH : Chrono} {S : Type} `{ST : Storage S} `{AST : AccountStorage S}.
Context (info_enabled : bool).
Implicit Types (s : S) (env : LoginEnv).

(** The e-mail address of a user. *)
Definition login_email (user_info : OAuthUserInfo) : string :=
  if contains_char "@" (oui_user_id user_info) then oui_user_id user_info
  else oui_user_id user_info +:+ "@example.com".

(** The account by the hash, or else by the e-mail address; errors count as
    absence. *)
Definition find_account (account_hash email : string) s : option Account :=
  match s_get_account_by_hash account_hash s with
  | Ok (Some account) => Some account
  | Ok None =>
      match s_get_account_by_email email s with
      | Ok (Some account) => Some account
      | _ => None
      end
  | Err _ => None
  end.

Definition login_account (account_hash : string) (env : LoginEnv) (account : Account) : Account :=
  {| a_account_hash := account_hash; a_id := a_id account; a_email := a_email account;
     a_name := a_name account; a_user_type := a_user_type account;
     a_password_hash := a_password_hash account; a_salt := a_salt account;
     a_is_active := a_is_active account; a_created_at := a_created_at account;
     a_last_login := le_now env 0; a_updated_at := le_now env 1; a_user_id := a_user_id account |}.

Definition new_login_account (account_hash email : string) (user_info : OAuthUserInfo) (env : LoginEnv)
    : Account :=
  {| a_account_hash := account_hash; a_id := le_uuid env 0; a_email := email;
     a_name := oui_name user_info; a_user_type := "oauth"; a_password_hash := ""; a_salt := "";
     a_is_active := true; a_created_at := le_now env 0; a_last_login := le_now env 0;
     a_updated_at := le_now env 0; a_user_id := oui_user_id user_info |}.

(** The loop that stores a new account: a duplicate ends it, any other error is
    tried again. *)
Fixpoint create_account_retry (attempts : nat) (account : Account) s : S :=
  match attempts with
  | O => s
  | Datatypes.S attempts =>
      match s_create_account account s with
      | (Ok _, s') => s'
      | (Err e, s') =>
          if str_contains "Duplicate" (StorageError_fmt e) then s'
          else create_account_retry attempts account s'
      end
  end.

Definition ensure_login_account (account_hash email : string) (user_info : OAuthUserInfo) (env : LoginEnv)
    s : S :=
  match find_account account_hash email s with
  | Some account => (s_update_account (login_account account_hash env account) s).2
  | None => create_account_retry max_retries (new_login_account account_hash email user_info env) s
  end.

(** The loop that stores the token: the last failure is reported. *)
Fixpoint save_token_retry (attempts : nat) (token : AuthToken) s : result unit AuthError * S :=
  match attempts with
  | O => (Ok tt, s)
  | Datatypes.S attempts =>
      match s_create_auth_token token s with
      | (Ok _, s') => (Ok tt, s')
      | (Err _, s') =>
          match attempts with
          | O => (Err (AE_DatabaseError ("Failed to save auth token after "
                                           +:+ pretty (Z.of_nat max_retries) +:+ " attempts")), s')
          | _ => save_token_retry attempts token s'
          end
      end
  end.

Definition login_token (account_hash auth_token : string) (env : LoginEnv) (expires_at : DateTime)
    : AuthToken :=
  mkAuthToken (le_uuid env 1) account_hash auth_token None (le_now env 3) expires_at true "Bearer" None.

(** [get_encryption_key]: the stored key, or a new one, which is stored; a failed
    look-up counts as absence.  The devices it lists only reach the log. *)
Definition get_encryption_key_or_new (account_hash : string) (random : bytes) s
    : result (option string) AuthError * S :=
  match s_get_encryption_key account_hash s with
  | Ok (Some key) => (Ok (Some key), s)
  | _ =>
      let encryption_key := hex_encode random in
      (Ok (Some encryption_key), (s_store_encryption_key account_hash encryption_key s).2)
  end.

(** [process_oauth_code], from the result of the exchange on. *)
Definition process_oauth_code (exchanged : result (string * OAuthUserInfo) AuthError)
    (client_account_hash : option string) (env : LoginEnv)
    : ME S AuthError (string * string * string) := λ s,
  match exchanged with
  | Err e => throw (AE_ExternalServiceError ("OAuth authentication failed: " +:+ AuthError_fmt e)) s
  | Ok (_, user_info) =>
      let email := login_email user_info in
      let account_hash :=
        match client_account_hash with
        | Some client_hash => client_hash
        | None => generate_account_hash_from_email_only email
        end in
      let s := ensure_login_account account_hash email user_info env s in
      let auth_token := generate_auth_token (le_buffer env) (le_now env 2) in
      match after_seconds (le_now env 4) (24 * 3600) with
      | None => (Panicked, s)
      | Some expires_at =>
          match save_token_retry max_retries (login_token account_hash auth_token env expires_at) s with
          | (Err e, s) => throw e s
          | (Ok _, s) =>
              let '(found, s) := get_encryption_key_or_new account_hash (le_key env) s in
              let encryption_key :=
                match found with
                | Ok (Some key) => key
                | _ => generate_encryption_key (le_spare_key env)
                end in
              if info_enabled && negb (prefix_ok auth_token && prefix_ok encryption_key)
              then (Panicked, s)
              else ret (auth_token, account_hash, encryption_key) s
          end
      end
  end.

End login.

(** ** Properties *)

(** What the log-in relies on: a stored token is found again, for the same
    account and up to the same second, and accounts, tokens and keys are kept
    apart. *)
Class AccountLaws (S : Type) `{ST : Storage S} `{AST : AccountStorage S} := {
  law_create_token : ∀ t s s', s_create_auth_token t s = (Ok tt, s') →
    (∃ t', s_get_auth_token (at_access_token t) s' = Ok (Some t')
     ∧ at_account_hash t' = at_account_hash t
     ∧ (at_is_valid t = true → at_is_valid t' = true)
     ∧ dt_timestamp (at_expires_at t') = dt_timestamp (at_expires_at t))
    ∧ (∀ a, s_get_encryption_key a s' = s_get_encryption_key a s);
  law_create_token_err : ∀ t s e s', s_create_auth_token t s = (Err e, s') → s' = s;
  law_store_key_tokens : ∀ a k s t,
    s_get_auth_token t (s_store_encryption_key a k s).2 = s_get_auth_token t s;
  law_update_account : ∀ a s,
    (∀ b, s_get_encryption_key b (s_update_account a s).2 = s_get_encryption_key b s)
    ∧ (∀ t, s_get_auth_token t (s_update_account a s).2 = s_get_auth_token t s)
}.

#[global] Instance memory_account_laws `{HI : HashIter} `{UC : Unicode} `{CH : Chrono} : AccountLaws StorageData.
Proof.
  split; cbn.
  - intros t s s' [= <-]. unfold get_auth_token, get_encryption_key; cbn. split; [|done].
    exists t. by rewrite lookup_insert_eq.
  - done.
  - done.
  - done.
Qed.

(** SHA-256 yields 32 bytes. *)
Class DigestLaws `{CryptoApi} := { sha256_length : ∀ bs, length (sha256_digest bs) = 32%nat }.

Lemma hex_digit_ascii n : (n < 16)%nat → (byte_val (hex_digit n) <? 128) = true.
Proof. intros Hn. by do 16 (destruct n as [|n]; [done|]); lia. Qed.

Lemma hex_text_ascii bs : str_all is_ascii_byte (hex_text bs) = true.
Proof.
  induction bs as [|b bs IH]; [done|]. pose proof (Byte.to_nat_bounded b) as Hb.
  assert (Byte.to_nat b / 16 < 16)%nat by (apply Nat.Div0.div_lt_upper_bound; lia).
  assert (Byte.to_nat b mod 16 < 16)%nat by (apply Nat.mod_upper_bound; lia).
  cbn [hex_text str_all]. unfold is_ascii_byte at 1 2. by rewrite IH, !hex_digit_ascii.
Qed.

Lemma str_all_get p s n a : str_all p s = true → String.get n s = Some a → p a = true.
Proof.
  revert n. induction s as [|b s IH]; intros n; [done|]. cbn. rewrite andb_true_iff. intros [Hb Hs].
  destruct n as [|n]; [by intros [= <-]|by apply IH].
Qed.

Lemma get_None s n : (String.length s <= n)%nat → String.get n s = None.
Proof. revert n. induction s as [|b s IH]; intros [|n]; cbn; try done; [lia|]. intros. apply IH. lia. Qed.

Lemma get_Some s n : (n < String.length s)%nat → is_Some (String.get n s).
Proof. revert n. induction s as [|b s IH]; intros [|n]; cbn; try lia; [eauto|]. intros. apply IH. lia. Qed.

(** An ASCII text is cut anywhere. *)
Lemma ascii_boundary s n : str_all is_ascii_byte s = true → (n <= String.length s)%nat → is_char_boundary s n = true.
Proof.
  intros Hs Hn. unfold is_char_boundary. destruct (String.get n s) as [a|] eqn:E.
  - pose proof (str_all_get _ _ _ _ Hs E) as Ha. unfold is_ascii_byte in Ha. apply Z.ltb_lt in Ha.
    rewrite (proj2 (Z.leb_gt 128 _)) by lia. done.
  - apply Nat.eqb_eq. destruct (decide (n < String.length s)%nat) as [Hlt|]; [|lia].
    destruct (get_Some s n Hlt). congruence.
Qed.

Lemma prefix_ok_ascii s : str_all is_ascii_byte s = true → prefix_ok s = true.
Proof. intros Hs. apply ascii_boundary; [done|lia]. Qed.

Section props.
Context `{CA : CryptoApi} `{CH : Chrono} `{HX : !HexLaws} `{DG : !DigestLaws}.

Lemma generated_token_ascii buffer now : str_all is_ascii_byte (generate_auth_token buffer now) = true.
Proof. unfold generate_auth_token. rewrite hex_encode_text. apply hex_text_ascii. Qed.

Lemma hex_digest_nonempty bs : hex_encode (sha256_digest bs) ≠ "".
Proof. rewrite hex_encode_text. pose proof (sha256_length bs). by destruct (sha256_digest bs). Qed.

Context {S : Type} `{ST : Storage S} `{AST : AccountStorage S}.
Context (info_enabled : bool).

(** Saving the token makes at most the given number of attempts: all but the
    last failed, and the answer is that of the last; a failure is reported only
    after the last allowed attempt. *)
Theorem save_token_retry_bounded n t (s s' : S) r :
  save_token_retry (Datatypes.S n) t s = (r, s') →
  let try := λ s, s_create_auth_token t s in
  ∃ k, (k <= n)%nat
  ∧ (∀ j, (j < k)%nat → ∃ e, (try (Nat.iter j (λ s, (try s).2) s)).1 = Err e)
  ∧ s' = (try (Nat.iter k (λ s, (try s).2) s)).2
  ∧ match r with
    | Ok _ => (try (Nat.iter k (λ s, (try s).2) s)).1 = Ok tt
    | Err _ => k = n ∧ ∃ e, (try (Nat.iter k (λ s, (try s).2) s)).1 = Err e
    end.
Proof.
  intros H try. revert s H. induction n as [|n IH]; intros s H; cbn in H;
    destruct (s_create_auth_token t s) as [[[]|e] s1] eqn:E;
    (assert (Htry : try s = s_create_auth_token t s) by done; rewrite E in Htry).
  - injection H as <- <-. exists O. cbn. rewrite Htry. split_and!; [done|intros; lia|done|done].
  - injection H as <- <-. exists O. cbn. rewrite Htry. split_and!; [done|intros; lia|done|done|eauto].
  - injection H as <- <-. exists O. cbn. rewrite Htry. split_and!; [lia|intros; lia|done|done].
  - destruct (IH s1 H) as (k & Hk & Hall & Hs & Hr). exists (Datatypes.S k).
    assert (Hiter : ∀ j, Nat.iter (Datatypes.S j) (λ s, (try s).2) s = Nat.iter j (λ s, (try s).2) s1).
    { intros j. induction j as [|j IHj]; [cbn; by rewrite Htry|]. cbn in *. by rewrite IHj. }
    rewrite Hiter. split_and!; [lia| |done|].
    + intros [|j] Hj; [cbn; rewrite Htry; eauto|]. rewrite Hiter. apply Hall. lia.
    + destruct r; [done|]. by destruct Hr as [-> He].
Qed.

Lemma after_seconds_timestamp now secs d :
  0 ≤ dt_nanosecond now → after_seconds now secs = Some d →
  dt_timestamp now + secs ≤ dt_timestamp d.
Proof.
  intros Hn H. apply from_timestamp_fields in H as ->. cbn [dt_timestamp].
  rewrite Z.div_add by lia. assert (0 ≤ dt_nanosecond now / 10 ^ 9) by (apply Z.div_pos; lia). lia.
Qed.

Lemma save_token_retry_stores `{AL : !AccountLaws S} n t (s s' : S) :
  save_token_retry (Datatypes.S n) t s = (Ok tt, s') → ∃ s0, s_create_auth_token t s0 = (Ok tt, s').
Proof.
  revert s. induction n as [|n IH]; intros s H; cbn in H;
    destruct (s_create_auth_token t s) as [[[]|e] s1] eqn:E; [by injection H as <-; eauto|done|
      by injection H as <-; eauto|by apply (IH s1)].
Qed.

Lemma get_encryption_key_or_new_tokens `{AL : !AccountLaws S} a r (s : S) t :
  s_get_auth_token t (get_encryption_key_or_new a r s).2 = s_get_auth_token t s.
Proof. unfold get_encryption_key_or_new. repeat case_match; cbn; done || apply law_store_key_tokens. Qed.

(** Whatever the storage, a successful log-in leaves a token that is accepted for
    a day. *)
Lemma login_token_live `{AL : !AccountLaws S} exchanged client env (s : S) t a k s' now :
  process_oauth_code info_enabled exchanged client env s = (Returned (Ok (t, a, k)), s') →
  0 ≤ dt_nanosecond (le_now env 4) →
  dt_timestamp now < dt_timestamp (le_now env 4) + 24 * 3600 →
  live_token t now s' a.
Proof.
  unfold process_oauth_code. intros H Hn Hnow. destruct exchanged as [[x u]|e]; [|done].
  destruct (after_seconds _ _) as [d|] eqn:Ed; [|done]. apply after_seconds_timestamp in Ed; [|done].
  destruct (save_token_retry _ _ _) as [[[]|e] s1] eqn:Es; [|done].
  apply save_token_retry_stores in Es as [s0 Es].
  apply law_create_token in Es as [(t' & Ht & Ha & Hv & Hx) _].
  match type of H with context [get_encryption_key_or_new ?a ?r ?s] =>
    pose proof (get_encryption_key_or_new_tokens a r s
                  (generate_auth_token (le_buffer env) (le_now env 2))) as Hk;
    destruct (get_encryption_key_or_new a r s) as [found s2] end.
  destruct (info_enabled && _); [done|]. injection H as <- <- _ <-.
  split; [apply hex_digest_nonempty|]. exists t'. cbn in *.
  split_and!; [by rewrite Hk| |by apply Hv|done].
  unfold dt_leb. rewrite Hx. by rewrite (proj2 (Z.ltb_lt _ _)) by lia.
Qed.

End props.

Section memory_login.
Context `{CA : CryptoApi} `{CH : Chrono} `{HX : !HexLaws} `{DG : !DigestLaws} `{HI : HashIter} `{UC : Unicode}.
Implicit Types (s : StorageData).

Lemma ensure_login_account_keys a email u env s :
  encryption_keys (ensure_login_account a email u env s) = encryption_keys s.
Proof. unfold ensure_login_account. by destruct (find_account _ _ _). Qed.

(** On the in-memory storage a log-in whose code the authentication server
    accepted succeeds in every state: the token it returns is accepted for the
    account for a day, and the key it returns is the stored key of the account,
    kept when there was one.  The account is the one the client named, if it
    named one, and only otherwise the user's. *)
Lemma login_issues_token info_enabled x u client env s :
  let a := match client with
           | Some c => c
           | None => generate_account_hash_from_email_only (login_email u)
           end in
  0 ≤ dt_timestamp (le_now env 4) ≤ 253402300799 - 24 * 3600 →
  0 ≤ dt_nanosecond (le_now env 4) < 10 ^ 9 →
  (∀ k, get_encryption_key a s = Ok (Some k) → prefix_ok k = true) →
  ∃ t k s', process_oauth_code info_enabled (Ok (x, u)) client env s = (Returned (Ok (t, a, k)), s')
  ∧ str_all is_ascii_byte t = true
  ∧ get_encryption_key a s' = Ok (Some k)
  ∧ (∀ k0, get_encryption_key a s = Ok (Some k0) → k = k0)
  ∧ (∀ now, dt_timestamp now < dt_timestamp (le_now env 4) + 24 * 3600 → live_token t now s' a).
Proof.
  intros a Ht Hn Hpre.
  assert (∃ t k s', process_oauth_code info_enabled (Ok (x, u)) client env s = (Returned (Ok (t, a, k)), s')
    ∧ str_all is_ascii_byte t = true ∧ get_encryption_key a s' = Ok (Some k)
    ∧ (∀ k0, get_encryption_key a s = Ok (Some k0) → k = k0)) as (t & k & s' & H & Hasc & Hk & Hk0).
  { unfold process_oauth_code. fold a.
    assert (∃ d, after_seconds (le_now env 4) (24 * 3600) = Some d) as [d ->].
    { eexists. unfold after_seconds, dt_add. rewrite Z.div_add, Z.mod_add by lia.
      rewrite Z.div_small, Z.mod_small by lia. apply from_timestamp_calendar; lia. }
    set (s0 := ensure_login_account a (login_email u) u env s).
    assert (Hs0 : encryption_keys s0 = encryption_keys s) by apply ensure_login_account_keys.
    cbn [max_retries save_token_retry s_create_auth_token memory_account_storage create_auth_token].
    unfold get_encryption_key_or_new; cbn. unfold get_encryption_key in *; cbn. rewrite Hs0.
    pose proof (generated_token_ascii (le_buffer env) (le_now env 2)) as Hasc.
    rewrite (prefix_ok_ascii _ Hasc). cbn [andb].
    destruct (encryption_keys s !! a) as [k0|] eqn:Ek.
    - rewrite (Hpre k0) by done. cbn. rewrite andb_false_r. do 3 eexists. split_and!; [done|done| |].
      + cbn. by rewrite Hs0, Ek.
      + by intros k1 [= ->].
    - rewrite prefix_ok_ascii by (rewrite hex_encode_text; apply hex_text_ascii).
      cbn. rewrite andb_false_r. do 3 eexists. split_and!; [done|done| |done].
      cbn. by rewrite lookup_insert_eq. }
  exists t, k, s'. split_and!; [done..|]. intros now Hnow. exact (login_token_live _ _ _ _ _ _ _ _ _ _ H ltac:(lia) Hnow).
Qed.

End memory_login.

(** ** Witnesses *)

(** A digest of the right length, for evaluation. *)
Definition digest_crypto : CryptoApi := {|
  aes_encrypt _ _ m _ := Some m; aes_decrypt _ _ c _ := Some c;
  hmac_sha256 k m := m; sha256_digest m := take 32 (m ++ replicate 32 Byte.x00); hex_encode := hex_text;
  hex_decode _ := None; b64_encode_no_pad bs := ""; b64_decode_no_pad s := None;
  b64_decode_std s := None |}.

Definition digest_hex : @HexLaws digest_crypto.
Proof. by split. Defined.

Definition digest_laws : @DigestLaws digest_crypto.
Proof. split. intros bs. unfold sha256_digest, digest_crypto. rewrite length_take, length_app, length_replicate. lia. Defined.

Definition login_env0 : LoginEnv := {|
  le_now i := mkDateTime (1700000000 + Z.of_nat i) 0;
  le_uuid i := "uuid" +:+ pretty (Z.of_nat i);
  le_buffer := as_bytes "buffer"; le_key := as_bytes "0123"; le_spare_key := as_bytes "4567" |}.

Definition login_user0 : OAuthUserInfo := mkOAuthUserInfo "7" "user@system76.com" "A User".

(** A storage whose log is full: every write of a token fails. *)
Definition failing_accounts : AccountStorage nat := {|
  s_get_account_by_email _ _ := Ok None; s_update_account _ s := (Ok tt, s);
  s_create_auth_token _ s := (Err (Database "disk full"), Datatypes.S s);
  s_validate_auth_token _ _ _ := Ok false; s_delete_auth_token _ s := (Ok tt, s) |}.

Lemma save_token_retry_bounded_witness :
  ∃ k, (k <= 2)%nat ∧ (∀ j, (j < k)%nat → ∃ e,
    (s_create_auth_token (AccountStorage := failing_accounts) (login_token "a" "t" login_env0 (mkDateTime 0 0))
       (Nat.iter j (λ s, (s_create_auth_token (AccountStorage := failing_accounts)
                            (login_token "a" "t" login_env0 (mkDateTime 0 0)) s).2) 0%nat)).1 = Err e) ∧ k = 2%nat.
Proof.
  destruct (save_token_retry_bounded (AST := failing_accounts) 2
              (login_token "a" "t" login_env0 (mkDateTime 0 0)) 0%nat 3%nat
              (Err (AE_DatabaseError "Failed to save auth token after 3 attempts")))
    as (k & Hk & Hj & _ & -> & _); [reflexivity|]. by exists 2%nat.
Defined.
