(* ===== verification/AuthHandlers.v ===== *)
(** * Authentication requests (src/handlers/auth_handler.rs, src/handlers/oauth.rs,
    src/services/auth_service.rs)

    A device asks for its authentication status until the OAuth callback has
    completed its session.  Sessions live in [AppState.auth_sessions], a map
    behind a mutex: every function below that stands for one locked section
    takes the whole map from one state to the next, and a panic inside a section
    poisons the lock. *)

From S2P Require Import Prelude RustString Errors Models Memory MemoryProps StorageApi Effects Crypto Auth OAuth.

Record AuthSession := mkAuthSession {
  ss_device_hash : string;
  ss_client_id : string;
  ss_auth_token : option string;
  ss_account_hash : option string;
  ss_encryption_key : option string;
  ss_created_at : DateTime;
  ss_expires_at : DateTime
}.

(** ** Messages *)

Record CheckAuthStatusRequest := mkCheckAuthStatusRequest {
  csr_account_hash : string; csr_device_hash : string
}.

Record CheckAuthStatusResponse := mkCheckAuthStatusResponse {
  csp_is_complete : bool;
  csp_success : bool;
  csp_auth_token : string;
  csp_account_hash : string;
  csp_encryption_key : string;
  csp_expires_in : Z;
  csp_return_message : string;
  csp_session_id : string
}.

Record ValidateTokenRequest := mkValidateTokenRequest { vtr_token : string }.
Record ValidateTokenResponse := mkValidateTokenResponse { vtp_is_valid : bool; vtp_account_hash : string }.

Record LoginRequest := mkLoginRequest { lr_email : string; lr_password : string }.
Record LoginResponse := mkLoginResponse {
  lp_success : bool; lp_auth_token : string; lp_account_hash : string; lp_return_message : string
}.

Record VerifyLoginRequest := mkVerifyLoginRequest { vlr_auth_token : string }.
Record VerifyLoginResponse := mkVerifyLoginResponse { vlp_valid : bool; vlp_account_hash : string }.

Record AuthSuccessNotification := mkAuthSuccessNotification {
  asn_session_id : string;
  asn_auth_token : string;
  asn_account_hash : string;
  asn_device_hash : string;
  asn_encryption_key : string;
  asn_expires_in : Z
}.
Record AuthNotificationResponse := mkAuthNotificationResponse {
  anr_success : bool; anr_return_message : string
}.

Record GetAccountInfoRequest := mkGetAccountInfoRequest { gar_auth_token : string }.
Record GetAccountInfoResponse := mkGetAccountInfoResponse {
  gap_success : bool; gap_account_hash : string; gap_encryption_key : string; gap_return_message : string
}.

Record OAuthExchangeRequest := mkOAuthExchangeRequest {
  oer_code : string; oer_auth_token : string; oer_device_hash : string;
  oer_os_version : string; oer_app_version : string
}.
Record OAuthExchangeResponse := mkOAuthExchangeResponse {
  oep_success : bool; oep_auth_token : string; oep_account_hash : string;
  oep_encryption_key : option string; oep_return_message : string
}.

(** The messages of the HTTP endpoints. *)
Record OAuthCallback := mkOAuthCallback { oc_code : string; oc_state : option string; oc_error : option string }.

Record AuthStatusResponse := mkAuthStatusResponse {
  asr_authenticated : bool;
  asr_token : option string;
  asr_error : option string;
  asr_account_hash : option string;
  asr_encryption_key : option string;
  asr_expires_in : option Z;
  asr_session_id : option string
}.

Record SessionRegistrationRequest := mkSessionRegistrationRequest {
  srr_device_hash : string; srr_client_id : string
}.
Record SessionRegistrationResponse := mkSessionRegistrationResponse {
  srp_success : bool; srp_message : string; srp_session_id : option string; srp_auth_url : option string
}.

(** What the callback reads of the request: [headers().get(name)], a value whose
    [to_str] may fail, and the cookie ["device_hash"]. *)
Record CallbackRequest := mkCallbackRequest {
  cb_header : string → option (option string);
  cb_cookie : option string
}.

(** The page the callback answers with, by the values it shows. *)
Inductive CallbackPage :=
| PageRefused (error : string)
| PageSuccess (account_hash token_prefix device_hash auth_token encryption_key : string)
| PageFailed (error : string).

(** [duration_seconds n] is [Duration::seconds(n)] in nanoseconds. *)
Definition duration_seconds (n : Z) : option Z :=
  if (- (i64_max / 1000) <=? n) && (n <=? i64_max / 1000) then Some (n * 10 ^ 9) else None.

(** [(later - now).num_seconds()]. *)
Definition num_seconds_between (later now : DateTime) : Z :=
  Z.quot ((dt_timestamp later - dt_timestamp now) * 10 ^ 9 + (dt_nanosecond later - dt_nanosecond now))
    (10 ^ 9).

(** ** The session table *)

Abbreviation Sessions := (gmap string AuthSession).

Section sessions.
Context `{HI : HashIter} `{CH : Chrono}.
Implicit Types (m : Sessions).

Definition new_session (device_hash client_id : string) (creds : option (string * string * string))
    (now expires_at : DateTime) : AuthSession :=
  mkAuthSession device_hash client_id ((λ c, c.1.1) <$> creds) ((λ c, c.1.2) <$> creds) (snd <$> creds)
    now expires_at.

(** [update_session]: an existing session is completed, else a complete one is
    created; [None] is the panic of [now + 24h]. *)
Definition update_session_locked (device_hash auth_token account_hash encryption_key uuid : string)
    (now : DateTime) m : option Sessions :=
  match m !! device_hash with
  | Some session =>
      Some (<[device_hash := mkAuthSession (ss_device_hash session) (ss_client_id session) (Some auth_token)
                               (Some account_hash) (Some encryption_key) (ss_created_at session)
                               (ss_expires_at session)]> m)
  | None =>
      match after_seconds now (24 * 3600) with
      | Some expires_at =>
          Some (<[device_hash := new_session device_hash ("client_" +:+ uuid)
                                   (Some (auth_token, account_hash, encryption_key)) now expires_at]> m)
      | None => None
      end
  end.

(** [clean_expired_sessions]. *)
Definition clean_expired_locked (now : DateTime) m : Sessions :=
  foldl (λ m id, delete id m) m
    (hm_filter_keys (λ _ session, dt_ltb (ss_expires_at session) now) m).

(** The section of [check_auth_status] that adds a pending session: it replaces
    whatever was added since the look-up. *)
Definition create_pending_locked (device_hash uuid : string) (now : DateTime) m : option Sessions :=
  match after_seconds now (24 * 3600) with
  | Some expires_at => Some (<[device_hash := new_session device_hash ("client_" +:+ uuid) None now expires_at]> m)
  | None => None
  end.

(** The section of [handle_register_session]: an existing session stays. *)
Definition register_locked (device_hash client_id : string) (now : DateTime) m : option Sessions :=
  match m !! device_hash with
  | Some _ => Some m
  | None =>
      match after_seconds now (24 * 3600) with
      | Some expires_at => Some (<[device_hash := new_session device_hash client_id None now expires_at]> m)
      | None => None
      end
  end.

(** The sessions a callback without a device completes. *)
Definition pending_sessions m : list string :=
  hm_filter_keys (λ id session, negb (starts_with "temp_" id)
                                && match ss_auth_token session with None => true | Some _ => false end) m.

End sessions.

(** ** The handlers *)

(** What the handlers read of [AppState], and whether the session lock is
    poisoned. *)
Record AuthState (S : Type) := mkAuthState {
  au_storage : S;
  au_sessions : Sessions;
  au_poisoned : bool
}.
Arguments mkAuthState {S}.
Arguments au_storage {S}.
Arguments au_sessions {S}.
Arguments au_poisoned {S}.

(** [Display] of [PoisonError]. *)
Definition poison_text : string := "poisoned lock: another task failed inside".

(** Clock and random texts of one request. *)
Record AuthEnv := mkAuthEnv { ae_now : nat → DateTime; ae_uuid : nat → string; ae_login : LoginEnv }.

Section handlers.
Context `{CA : CryptoApi} `{HI : HashIter} `{CH : Chrono} {S : Type} `{ST : Storage S} `{AST : AccountStorage S}.
Context (debug_assertions debug_enabled error_enabled info_enabled : bool).
Context (external_user_info : string → result OAuthUserInfo AuthError).
(** [exchange_oauth_code_and_authenticate] and [exchange_oauth_code] of the OAuth
    service, as the authentication server answers them. *)
Context (exchange_and_authenticate : string → result (string * OAuthUserInfo) AuthError).
Context (exchange_code : string → result string AuthError).
Context (oauth : OAuthService).
Implicit Types (st : AuthState S).

Definition au_with_storage (s : S) st : AuthState S := mkAuthState s (au_sessions st) (au_poisoned st).
Definition au_on_storage {E A} (m : ME S E A) : ME (AuthState S) E A := on_part au_storage au_with_storage m.
Definition au_with_sessions (m : Sessions) st : AuthState S := mkAuthState (au_storage st) m (au_poisoned st).

(** A locked section that may panic, which poisons the lock. *)
Definition locked {E} (failed : E) (section : Sessions → option Sessions) : ME (AuthState S) E unit := λ st,
  if au_poisoned st then (Returned (Err failed), st)
  else match section (au_sessions st) with
       | Some m => (Returned (Ok tt), au_with_sessions m st)
       | None => (Panicked, mkAuthState (au_storage st) (au_sessions st) true)
       end.

Definition verify (token : string) (env : AuthEnv) : ME (AuthState S) AuthError VerificationResult :=
  au_on_storage (verify_token debug_assertions debug_enabled error_enabled external_user_info token
                   (ae_uuid env 0) (ae_now env 0) (ae_now env 1)).

Definition update_session (device_hash auth_token account_hash encryption_key uuid : string) (now : DateTime)
    : ME (AuthState S) string unit :=
  locked ("Failed to acquire session lock: " +:+ poison_text)
    (update_session_locked device_hash auth_token account_hash encryption_key uuid now).

Definition clean_expired_sessions (now : DateTime) : ME (AuthState S) string unit :=
  locked ("Failed to acquire session lock during cleanup: " +:+ poison_text)
    (λ m, Some (clean_expired_locked now m)).

Definition session_answer (session : AuthSession) (now : DateTime) : CheckAuthStatusResponse :=
  match ss_auth_token session with
  | Some auth_token =>
      let expires_in := if dt_ltb now (ss_expires_at session)
                        then num_seconds_between (ss_expires_at session) now else 0 in
      mkCheckAuthStatusResponse true true auth_token (default "" (ss_account_hash session))
        (default "" (ss_encryption_key session)) expires_in "" (ss_device_hash session)
  | None => mkCheckAuthStatusResponse false true "" "" "" 0 "Authentication not yet complete" ""
  end.

Definition check_auth_status (req : CheckAuthStatusRequest) (env : AuthEnv)
    : ME (AuthState S) Status CheckAuthStatusResponse :=
  let device_hash := csr_device_hash req in
  mtry (clean_expired_sessions (ae_now env 0)) (λ _ st,
    if au_poisoned st then (Returned (Err (mkStatus Code_Internal "Session access error")), st)
    else
      match au_sessions st !! device_hash with
      | Some session => ret (session_answer session (ae_now env 1)) st
      | None =>
          (_ ←? (if str_is_empty device_hash then ret tt
                 else locked (mkStatus Code_Internal "Session management error")
                        (create_pending_locked device_hash (ae_uuid env 0) (ae_now env 1)));
           ret (mkCheckAuthStatusResponse false true "" "" "" 0 "Session not found or not yet complete"
                  device_hash)) st
      end).

(** Private to its module: the service does not reach it ([rpc_validate_token] of
    [Service.v]). *)
Definition handle_validate_token (req : ValidateTokenRequest) (env : AuthEnv)
    : ME (AuthState S) Status ValidateTokenResponse :=
  if str_is_empty (vtr_token req) then throw (mkStatus Code_InvalidArgument "Token is required")
  else mtry (verify (vtr_token req) env) (λ r,
    match r with
    | Ok result => ret (mkValidateTokenResponse (vr_valid result) (vr_account_hash result))
    | Err _ => ret (mkValidateTokenResponse false "")
    end).

Definition login (_ : LoginRequest) : ME (AuthState S) Status LoginResponse :=
  ret (mkLoginResponse false "" "" "Direct login is not supported. Please use OAuth authentication.").

Definition verify_login (req : VerifyLoginRequest) (env : AuthEnv)
    : ME (AuthState S) Status VerifyLoginResponse :=
  if str_is_empty (vlr_auth_token req) then ret (mkVerifyLoginResponse false "")
  else mtry (verify (vlr_auth_token req) env) (λ r,
    match r with
    | Ok result => ret (mkVerifyLoginResponse (vr_valid result) (vr_account_hash result))
    | Err _ => ret (mkVerifyLoginResponse false "")
    end).

Definition process_auth_notification (notification : AuthSuccessNotification) (env : AuthEnv)
    : ME (AuthState S) string AuthNotificationResponse :=
  _ ←? mmap_err (λ e, "Failed to update auth session: " +:+ e)
        (update_session (asn_device_hash notification) (asn_auth_token notification)
           (asn_account_hash notification) (asn_encryption_key notification) (ae_uuid env 0) (ae_now env 0));
  λ st,
    match duration_seconds (asn_expires_in notification) ≫= dt_add (ae_now env 2) with
    | None => (Panicked, st)
    | Some expires_at =>
        let token := mkAuthToken (asn_session_id notification) (asn_account_hash notification)
                       (asn_auth_token notification) None (ae_now env 1) expires_at true "Bearer" None in
        match s_create_auth_token token (au_storage st) with
        | (Ok _, s) => ret (mkAuthNotificationResponse true "") (au_with_storage s st)
        | (Err e, s) => throw ("Failed to save auth token: " +:+ StorageError_fmt e) (au_with_storage s st)
        end
    end.

Definition auto_register_or_update_device (account_hash device_hash os_version app_version : string)
    (now : DateTime) : ME (AuthState S) string unit := λ st,
  match s_get_device account_hash device_hash (au_storage st) with
  | Ok (Some existing_device) =>
      let device := Device_update_info existing_device (Some true) (Some os_version) (Some app_version) now in
      match s_register_device device (au_storage st) with
      | (Ok _, s) => ret tt (au_with_storage s st)
      | (Err e, s) => throw ("Failed to update existing device: " +:+ StorageError_fmt e) (au_with_storage s st)
      end
  | Ok None =>
      let device := Device_new account_hash device_hash true os_version app_version now in
      match s_register_device device (au_storage st) with
      | (Ok _, s) => ret tt (au_with_storage s st)
      | (Err e, s) => throw ("Failed to register new device: " +:+ StorageError_fmt e) (au_with_storage s st)
      end
  | Err e => throw ("Failed to check existing device: " +:+ StorageError_fmt e) st
  end.

Definition validate_token_internal (auth_token account_hash : string) (env : AuthEnv)
    : ME (AuthState S) Status unit :=
  mtry (verify auth_token env) (λ r,
    match r with
    | Ok auth_result =>
        if negb (vr_valid auth_result) || negb (vr_account_hash auth_result == account_hash)
        then throw (mkStatus Code_Unauthenticated "Invalid authentication token")
        else ret tt
    | Err e => throw (mkStatus Code_Unauthenticated ("Token validation failed: " +:+ AuthError_fmt e))
    end).

Definition get_account_info (req : GetAccountInfoRequest) (env : AuthEnv)
    : ME (AuthState S) Status GetAccountInfoResponse :=
  if str_is_empty (gar_auth_token req) then throw (mkStatus Code_InvalidArgument "Auth token is required")
  else mtry (verify (gar_auth_token req) env) (λ r st,
    match r with
    | Ok result =>
        if negb (vr_valid result) then throw (mkStatus Code_Unauthenticated "Invalid authentication token") st
        else
          let encryption_key := match s_get_encryption_key (vr_account_hash result) (au_storage st) with
                                | Ok (Some key) => key
                                | _ => ""
                                end in
          ret (mkGetAccountInfoResponse true (vr_account_hash result) encryption_key "") st
    | Err e => throw (mkStatus Code_Unauthenticated ("Authentication failed: " +:+ AuthError_fmt e)) st
    end).

(** [AuthHandler::handle_oauth_exchange], which the service calls. *)
Definition handle_oauth_exchange (req : OAuthExchangeRequest) (env : AuthEnv)
    : ME (AuthState S) Status OAuthExchangeResponse :=
  if str_is_empty (oer_code req) then throw (mkStatus Code_InvalidArgument "OAuth code is required")
  else
    mtry (au_on_storage (process_oauth_code info_enabled (exchange_and_authenticate (oer_code req)) None
                           (ae_login env))) (λ r,
      match r with
      | Ok (auth_token, account_hash, encryption_key) =>
          mtry (if str_is_empty (oer_device_hash req) then ret tt
                else auto_register_or_update_device account_hash (oer_device_hash req) (oer_os_version req)
                       (oer_app_version req) (ae_now env 0)) (λ _,
            ret (mkOAuthExchangeResponse true auth_token account_hash (Some encryption_key) ""))
      | Err e =>
          ret (mkOAuthExchangeResponse false "" "" None ("OAuth code exchange failed: " +:+ AuthError_fmt e))
      end).

(** The implementation of the trait [OAuthHandler], which nothing calls: the
    access token of the authentication server is returned as the account. *)
Definition service_oauth_exchange (req : OAuthExchangeRequest) : OAuthExchangeResponse :=
  match exchange_code (oer_code req) with
  | Ok account_hash => mkOAuthExchangeResponse true (oer_auth_token req) account_hash None ""
  | Err error => mkOAuthExchangeResponse false "" "" None (AuthError_fmt error)
  end.

(** *** HTTP endpoints *)

Definition status_refused (error : string) : AuthStatusResponse :=
  mkAuthStatusResponse false None (Some error) None None None None.

Definition handle_check_auth_status (status_fmt : Status → string) (device_hash : string) (env : AuthEnv)
    : ME (AuthState S) Status AuthStatusResponse :=
  mtry (check_auth_status (mkCheckAuthStatusRequest "" device_hash) env) (λ r,
    match r with
    | Ok resp =>
        if csp_is_complete resp && negb (str_is_empty (csp_auth_token resp))
        then ret (mkAuthStatusResponse true (Some (csp_auth_token resp)) None (Some (csp_account_hash resp))
                    (Some (csp_encryption_key resp)) (Some (csp_expires_in resp)) (Some (csp_session_id resp)))
        else ret (status_refused "Authentication not complete")
    | Err e => ret (status_refused ("Failed to check authentication status: " +:+ status_fmt e))
    end).

(** The answer and its HTTP status. *)
Definition handle_register_session (request : SessionRegistrationRequest) (env : AuthEnv)
    : ME (AuthState S) Status (Z * SessionRegistrationResponse) :=
  mtry (locked tt (register_locked (srr_device_hash request) (srr_client_id request) (ae_now env 0))) (λ r,
    match r with
    | Ok _ =>
        ret (200, mkSessionRegistrationResponse true "Session registered successfully"
                    (Some (srr_device_hash request))
                    (Some (generate_oauth_login_url_with_device oauth (srr_device_hash request))))
    | Err _ => ret (500, mkSessionRegistrationResponse false "Session management error" None None)
    end).

(** The [Location] of the redirect. *)
Definition handle_oauth_login (device_hash : option string) (buffer : bytes) : string :=
  match device_hash with
  | Some device_hash => generate_oauth_login_url_with_device oauth device_hash
  | None => generate_oauth_login_url oauth buffer
  end.

(** [headers.get(n1).or_else(|| headers.get(n2))..and_then(|v| v.to_str().ok())]:
    the first header present decides. *)
Fixpoint first_header (req : CallbackRequest) (names : list string) : option string :=
  match names with
  | [] => None
  | n :: names => match cb_header req n with Some v => v | None => first_header req names end
  end.

(** The device a callback is for. *)
Definition callback_device (query : OAuthCallback) (req : CallbackRequest) (now : DateTime) : string :=
  match oc_state query with
  | Some token => token
  | None =>
      match first_header req ["X-Device-Hash"; "X-Client-Device-Hash"] with
      | Some h => h
      | None =>
          match cb_cookie req with
          | Some v => v
          | None => "temp_" +:+ pretty (dt_timestamp now)
          end
      end
  end.

(** [state.len() == 64 && state.chars().all(|c| c.is_ascii_hexdigit())]. *)
Definition is_account_hash (state : string) : bool :=
  (str_len state =? 64) && str_all is_ascii_hexdigit state.

Definition callback_account (query : OAuthCallback) (req : CallbackRequest) : option string :=
  match first_header req ["X-Client-Account-Hash"; "X-Account-Hash"; "Account-Hash"] with
  | Some hash => Some hash
  | None =>
      match oc_state query with
      | Some state => if is_account_hash state then Some state else None
      | None => None
      end
  end.

(** [&token[..20.min(token.len())]]. *)
Definition token_prefix (token : string) : option string :=
  let n := Nat.min 20 (String.length token) in
  if is_char_boundary token n then Some (String.substring 0 n token) else None.

(** [for session_id in pending_sessions { update_session(..) }]; a failure is
    only logged. *)
Fixpoint update_each (ids : list string) (auth_token account_hash encryption_key : string) (env : AuthEnv)
    (i : nat) : ME (AuthState S) Status unit :=
  match ids with
  | [] => ret tt
  | id :: ids =>
      mtry (update_session id auth_token account_hash encryption_key (ae_uuid env i) (ae_now env i)) (λ _,
        update_each ids auth_token account_hash encryption_key env (Datatypes.S i))
  end.

Definition handle_oauth_callback (query : OAuthCallback) (req : CallbackRequest) (env : AuthEnv)
    : ME (AuthState S) Status (Z * CallbackPage) :=
  match oc_error query with
  | Some error => ret (400, PageRefused error)
  | None =>
      let device_hash := callback_device query req (ae_now env 0) in
      mtry (au_on_storage (process_oauth_code info_enabled (exchange_and_authenticate (oc_code query))
                             (callback_account query req) (ae_login env))) (λ r st,
        match r with
        | Ok (auth_token, account_hash, encryption_key) =>
            if au_poisoned st then (Panicked, st)
            else
              mtry (update_session device_hash auth_token account_hash encryption_key (ae_uuid env 0)
                      (ae_now env 1)) (λ _ st,
                mtry (if starts_with "temp_" device_hash
                      then update_each (if au_poisoned st then [] else pending_sessions (au_sessions st))
                             auth_token account_hash encryption_key env 2
                      else ret tt) (λ _ st,
                  match token_prefix auth_token with
                  | Some prefix =>
                      ret (200, PageSuccess account_hash prefix device_hash auth_token encryption_key) st
                  | None => (Panicked, st)
                  end) st) st
        | Err e => ret (500, PageFailed (AuthError_fmt e)) st
        end)
  end.

End handlers.

(** ** The authentication service *)

Section auth_service.
Context `{CA : CryptoApi} `{CH : Chrono} {S : Type} `{ST : Storage S} `{AST : AccountStorage S}.
(** The encoder of the padded base64 alphabet. *)
Context (b64_encode_std : bytes → string).
Implicit Types (s : S).

Definition generate_salt (random : bytes) : string := b64_encode_std random.

Definition hash_password (password salt : string) : string :=
  hex_encode (sha256_digest (as_bytes (password +:+ salt))).

Definition verify_password (password hash salt : string) : bool := hash_password password salt == hash.

(** [AuthService::create_auth_token]; [None] is the panic of [now + 30 days]. *)
Definition service_create_auth_token (account_hash token uuid : string) (now : DateTime) : option AuthToken :=
  match after_seconds now (30 * 86400) with
  | Some expires_at => Some (mkAuthToken uuid account_hash token None now expires_at true "Bearer" None)
  | None => None
  end.

Definition service_validate_token (token account_hash : string) s : bool :=
  match s_validate_auth_token token account_hash s with Ok valid => valid | Err _ => false end.

Definition save_token (auth_token : AuthToken) s : Res unit * S := s_create_auth_token auth_token s.
Definition delete_token (token : string) s : Res unit * S := s_delete_auth_token token s.

Definition authenticate (email password uuid : string) s : Res (Account * string) :=
  match s_get_account_by_email email s with
  | Ok (Some account) =>
      if verify_password password (a_password_hash account) (a_salt account) then Ok (account, uuid)
      else Err (PermissionDenied "Invalid credentials")
  | Ok None => Err (NotFound ("Account not found for email: " +:+ email))
  | Err e => Err e
  end.

End auth_service.
