(* ===== verification/AuthHandlersProps.v ===== *)
(** * Properties of the authentication requests

    The session table is shared by concurrent requests, so its invariants are
    proved for every interleaving of locked sections; the table then refines the
    log-in protocol it implements.  The log-in of a device is followed through
    the handlers from the registration to the token. *)

From S2P Require Import Prelude RustString Errors Models Memory MemoryProps StorageApi Effects Crypto Auth OAuth AuthHandlers.

(** ** The protocol of one device

    What a device's session is follows from the events alone, each with the time on the
    clock: a registration or a status check makes a session that waits for a log-in, a
    log-in completes it, a cleaning removes it once it has expired.  A session lasts a
    day from the event that made it; a status check that found none makes a new one even
    if a log-in was completed meanwhile ([status_check_discards_login]). *)

Abbreviation creds := (string * string * string)%type.

Inductive session_event :=
| EvRegister (d : string) (now : DateTime)
| EvAsk (d : string) (now : DateTime)
| EvComplete (d : string) (c : creds) (now : DateTime)
| EvClean (now : DateTime).

(** The credentials, when the log-in is complete, and the time of expiry. *)
Abbreviation phase := (option creds * DateTime)%type.

Definition next_day (now : DateTime) : DateTime :=
  mkDateTime (dt_timestamp now + 24 * 3600 + dt_nanosecond now / 10 ^ 9) (dt_nanosecond now mod 10 ^ 9).

Definition before (x y : DateTime) : Prop :=
  dt_timestamp x < dt_timestamp y ∨ dt_timestamp x = dt_timestamp y ∧ dt_nanosecond x < dt_nanosecond y.
#[global] Instance before_dec x y : Decision (before x y).
Proof. unfold before. apply _. Defined.

Definition device_step (d : string) (p : option phase) (e : session_event) : option phase :=
  match e with
  | EvRegister d' now => if decide (d' = d) then Some (default (None, next_day now) p) else p
  | EvAsk d' now => if decide (d' = d) then Some (None, next_day now) else p
  | EvComplete d' c now => if decide (d' = d) then Some (Some c, default (next_day now) (snd <$> p)) else p
  | EvClean now => p ≫= λ q, if decide (before q.2 now) then None else p
  end.

Definition device_phase (d : string) (es : list session_event) : option phase := foldl (device_step d) None es.

(** The events that end a session that expires at [x]. *)
Definition ends_session (d : string) (x : DateTime) (e : session_event) : Prop :=
  match e with
  | EvRegister _ _ => False
  | EvAsk d' _ | EvComplete d' _ _ => d' = d
  | EvClean now => before x now
  end.

Lemma device_phase_snoc d es e : device_phase d (es ++ [e])%list = device_step d (device_phase d es) e.
Proof. unfold device_phase. by rewrite foldl_app. Qed.

Lemma device_step_kept d c x e : ¬ ends_session d x e → device_step d (Some (Some c, x)) e = Some (Some c, x).
Proof. destruct e; cbn; intros; repeat case_decide; done. Qed.

Lemma device_step_creds d p e c x : device_step d p e = Some (Some c, x) →
  (∃ now, e = EvComplete d c now ∧ x = default (next_day now) (snd <$> p)) ∨ p = Some (Some c, x) ∧ ¬ ends_session d x e.
Proof.
  destruct e as [d' now|d' now|d' c' now|now]; cbn.
  - intros H. right. case_decide; [|tauto]. destruct p as [q|]; cbn in H; [|done]. split; [congruence|tauto].
  - case_decide; [done|]. by right.
  - case_decide as Hd; [|by right]. subst d'. intros [= -> <-]. left. eauto.
  - intros H. right. destruct p as [q|]; cbn in H; [|done]. case_decide; [done|]. by simplify_eq.
Qed.

(** A session has the credentials of the last log-in of the device, until the device asks
    again or the session has expired. *)
Lemma device_credentials d es c x :
  device_phase d es = Some (Some c, x) ↔
  ∃ es1 now es2, es = (es1 ++ EvComplete d c now :: es2)%list
    ∧ x = default (next_day now) (snd <$> device_phase d es1) ∧ Forall (λ e, ¬ ends_session d x e) es2.
Proof.
  split.
  - induction es as [|e es IH] using rev_ind; [done|]. rewrite device_phase_snoc.
    intros [(now & -> & ->)|[Hp He]]%device_step_creds; [by exists es, now, []|].
    destruct (IH Hp) as (es1 & now & es2 & -> & Hx & Hall). exists es1, now, (es2 ++ [e])%list.
    split; [by rewrite <- app_assoc|]. split; [done|]. by apply Forall_app_2; [|constructor].
  - intros (es1 & now & es2 & -> & Hx & Hall). unfold device_phase in *. rewrite foldl_app. cbn [foldl].
    cbn [device_step]. rewrite decide_True by done. rewrite <- Hx.
    induction Hall as [|e es2 He _ IH]; [done|]. cbn [foldl]. by rewrite device_step_kept.
Qed.

(** ** The table runs the protocol of every device *)

Section sessions.
Context `{HI : HashIter} `{CH : Chrono}.
Implicit Types (m : Sessions) (s : AuthSession).

(** One locked section of a request. *)
Inductive session_step : Sessions → session_event → Sessions → Prop :=
| ss_register d client now m m' :
    register_locked d client now m = Some m' → session_step m (EvRegister d now) m'
| ss_ask d uuid now m m' :
    create_pending_locked d uuid now m = Some m' → session_step m (EvAsk d now) m'
| ss_complete d t a k uuid now m m' :
    update_session_locked d t a k uuid now m = Some m' → session_step m (EvComplete d (t, a, k) now) m'
| ss_clean now m : session_step m (EvClean now) (clean_expired_locked now m).

Inductive session_run : Sessions → list session_event → Prop :=
| srun_start : session_run ∅ []
| srun_step m es e m' : session_run m es → session_step m e m' → session_run m' (es ++ [e])%list.

(** The fields a log-in sets are set together, the entry is filed under its
    device, and it lasts a day. *)
Definition session_ok (d : string) (s : AuthSession) : Prop :=
  ss_device_hash s = d
  ∧ (is_Some (ss_auth_token s) ↔ is_Some (ss_account_hash s))
  ∧ (is_Some (ss_auth_token s) ↔ is_Some (ss_encryption_key s))
  ∧ after_seconds (ss_created_at s) (24 * 3600) = Some (ss_expires_at s).

Definition sessions_ok m : Prop := map_Forall session_ok m.

Definition session_phase (s : AuthSession) : phase :=
  (match ss_auth_token s, ss_account_hash s, ss_encryption_key s with
   | Some t, Some a, Some k => Some (t, a, k)
   | _, _, _ => None
   end, ss_expires_at s).

Lemma clean_expired_lookup now m d :
  clean_expired_locked now m !! d = m !! d ≫= λ s, if dt_ltb (ss_expires_at s) now then None else Some s.
Proof.
  unfold clean_expired_locked. set (P := λ (_ : string) session, dt_ltb (ss_expires_at session) now).
  assert (Hdel : ∀ ids m0, foldl (λ m id, delete id m) m0 ids !! d = if decide (d ∈ ids) then None else m0 !! d).
  { clear. induction ids as [|i ids IH]; intros m0; [done|]. cbn [foldl]. rewrite IH.
    destruct (decide (d = i)) as [->|Hne].
    - rewrite lookup_delete_eq. rewrite (decide_True (P := i ∈ i :: ids)) by set_solver. by case_decide.
    - rewrite lookup_delete_ne by done. by do 2 case_decide; set_solver. }
  rewrite Hdel. destruct (m !! d) as [s|] eqn:Hd; cbn.
  - unfold P in *. destruct (dt_ltb (ss_expires_at s) now) eqn:Hx; case_decide as Hin; try done.
    + destruct Hin. apply elem_of_hm_filter_keys. eauto.
    + apply elem_of_hm_filter_keys in Hin as (s' & Hs' & HP). congruence.
  - by case_decide.
Qed.

Lemma new_session_ok d client c now expires_at :
  after_seconds now (24 * 3600) = Some expires_at → session_ok d (new_session d client c now expires_at).
Proof. intros H. split_and!; [done|destruct c; done..|done]. Qed.

Lemma session_step_ok m e m' : sessions_ok m → session_step m e m' → sessions_ok m'.
Proof.
  unfold sessions_ok. intros Hok Hstep. revert Hok.
  destruct Hstep as [d client now m0 m1 H|d uuid now m0 m1 H|d t a k uuid now m0 m1 H|now m0]; intros Hok.
  - unfold register_locked in H. repeat case_match; simplify_eq; [done|].
    apply map_Forall_insert_2; [by apply new_session_ok|done].
  - unfold create_pending_locked in H. repeat case_match; simplify_eq.
    apply map_Forall_insert_2; [by apply new_session_ok|done].
  - unfold update_session_locked in H. destruct (m0 !! d) as [s|] eqn:Hd.
    + simplify_eq. apply map_Forall_insert_2; [|done]. destruct (Hok d s Hd) as (? & _ & _ & ?).
      by split_and!.
    + repeat case_match; simplify_eq. apply map_Forall_insert_2; [by apply new_session_ok|done].
  - intros d s. rewrite clean_expired_lookup. intros (s' & Hs' & H)%bind_Some.
    case_match; simplify_eq. by apply Hok.
Qed.

Lemma dt_ltb_before x y : dt_ltb x y = bool_decide (before x y).
Proof.
  apply eq_true_iff_eq. rewrite bool_decide_eq_true. unfold dt_ltb, dt_leb, before.
  rewrite negb_true_iff, orb_false_iff, andb_false_iff, Z.ltb_ge, Z.eqb_neq, Z.leb_gt. lia.
Qed.

Lemma after_day now x : after_seconds now (24 * 3600) = Some x → x = next_day now.
Proof.
  unfold after_seconds, dt_add, next_day. intros ->%from_timestamp_fields. f_equal.
  - rewrite Z.div_add by lia. lia.
  - by rewrite Z.mod_add.
Qed.

(** The simulation, device by device. *)
Lemma session_step_device m e m' d :
  session_step m e m' → session_phase <$> m' !! d = device_step d (session_phase <$> m !! d) e.
Proof.
  intros [d' client now m0 m1 H|d' uuid now m0 m1 H|d' t a k uuid now m0 m1 H|now m0]; cbn [device_step].
  - unfold register_locked in H. destruct (decide (d' = d)) as [->|Hne].
    + destruct (m0 !! d) as [s|] eqn:Hd; [simplify_eq; by rewrite Hd|]. case_match; simplify_eq.
      rewrite lookup_insert_eq. cbn. by erewrite <- after_day.
    + repeat case_match; simplify_eq; [done|]. by rewrite lookup_insert_ne.
  - unfold create_pending_locked in H. case_match; simplify_eq. case_decide as Hd; [|by rewrite lookup_insert_ne].
    subst d'. rewrite lookup_insert_eq. cbn. by erewrite <- after_day.
  - unfold update_session_locked in H. case_decide as Hd.
    + subst d'. repeat case_match; simplify_eq; rewrite lookup_insert_eq; cbn; [done|].
      by erewrite <- after_day.
    + repeat case_match; simplify_eq; by rewrite lookup_insert_ne.
  - rewrite clean_expired_lookup. destruct (m0 !! d) as [s|]; [|done]. cbn. rewrite dt_ltb_before.
    by case_bool_decide; case_decide.
Qed.

Lemma session_run_inv m es :
  session_run m es → sessions_ok m ∧ ∀ d, session_phase <$> m !! d = device_phase d es.
Proof.
  induction 1 as [|m es e m' _ [IHok IH] Hstep].
  - split; [apply map_Forall_empty|]. intros d. by rewrite lookup_empty.
  - split; [by eapply session_step_ok|]. intros d. rewrite device_phase_snoc, <- IH. by apply session_step_device.
Qed.


(** Whatever the interleaving of requests, a session holds credentials only if
    a log-in for that very device produced them. *)
Theorem session_provenance m es d s t :
  session_run m es → m !! d = Some s → ss_auth_token s = Some t →
  ∃ a k now, ss_account_hash s = Some a ∧ ss_encryption_key s = Some k ∧ EvComplete d (t, a, k) now ∈ es.
Proof.
  intros [Hok Hp]%session_run_inv Hd Ht. destruct (Hok d s Hd) as (_ & [Ha _] & [Hk _] & _).
  destruct Ha as [a Ha]; [eauto|]. destruct Hk as [k Hk]; [eauto|]. specialize (Hp d).
  rewrite Hd in Hp. cbn in Hp. unfold session_phase in Hp. rewrite Ht, Ha, Hk in Hp. symmetry in Hp.
  apply device_credentials in Hp as (es1 & now & es2 & -> & _). exists a, k, now. split_and!; [done..|].
  apply elem_of_app. right. left.
Qed.

(** A status check that found no session adds a pending one without looking
    again: a log-in completed between its two locked sections is lost, and the
    device is told to wait. *)
Theorem status_check_discards_login m d uuid t a k m1 uuid' now now' m2 now'' :
  m !! d = None →
  update_session_locked d t a k uuid now m = Some m1 →
  create_pending_locked d uuid' now' m1 = Some m2 →
  (∃ s, m1 !! d = Some s ∧ csp_auth_token (session_answer s now'') = t)
  ∧ ∃ s, m2 !! d = Some s ∧ csp_is_complete (session_answer s now'') = false.
Proof.
  unfold update_session_locked, create_pending_locked. intros -> H1 H2.
  repeat case_match; simplify_eq. split; eexists; (split; [apply lookup_insert_eq|done]).
Qed.

End sessions.

(** ** The handlers *)

Section handlers.
Context `{CA : CryptoApi} `{HI : HashIter} `{CH : Chrono} {S : Type} `{ST : Storage S} `{AST : AccountStorage S}.
Context (info_enabled : bool).
Context (exchange_and_authenticate : string → result (string * OAuthUserInfo) AuthError).
Context (oauth : OAuthService).
Implicit Types (st : AuthState S) (m : Sessions) (log : list (string * creds)).

Abbreviation callback := (handle_oauth_callback info_enabled exchange_and_authenticate).

(** What a callback obtained, and for which device. *)
Definition issued (query : OAuthCallback) (req : CallbackRequest) (env : AuthEnv) st : list (string * creds) :=
  match oc_error query with
  | Some _ => []
  | None =>
      match process_oauth_code info_enabled (exchange_and_authenticate (oc_code query))
              (callback_account query req) (ae_login env) (au_storage st) with
      | (Returned (Ok c), _) => [(callback_device query req (ae_now env 0), c)]
      | _ => []
      end
  end.

(** Sequences of requests, with the log-ins they made; between them every other
    request may change the storage. *)
Inductive auth_run : AuthState S → list (string * creds) → Prop :=
| arun_start s : auth_run (mkAuthState s ∅ false) []
| arun_storage st log s : auth_run st log → auth_run (au_with_storage s st) log
| arun_check st log req env r st' :
    auth_run st log → check_auth_status req env st = (r, st') → auth_run st' log
| arun_register st log req env r st' :
    auth_run st log → handle_register_session oauth req env st = (r, st') → auth_run st' log
| arun_callback st log query req env r st' :
    auth_run st log → callback query req env st = (r, st') →
    auth_run st' (log ++ issued query req env st)%list.

(** The credentials of a session come from a callback for the device, or from one for a
    name that begins with temp_, which the device's own does not. *)
Definition sessions_from log m : Prop := ∀ d s t, m !! d = Some s → ss_auth_token s = Some t →
  ∃ a k d', ss_account_hash s = Some a ∧ ss_encryption_key s = Some k ∧ (d', (t, a, k)) ∈ log
  ∧ (d' = d ∨ starts_with "temp_" d' = true ∧ starts_with "temp_" d = false).

Lemma sessions_from_app log log' m : sessions_from log m → sessions_from (log ++ log') m.
Proof.
  intros H d s t Hd Ht. destruct (H d s t Hd Ht) as (a & k & d' & ? & ? & ? & ?).
  exists a, k, d'. rewrite elem_of_app. eauto 10.
Qed.

(** A new entry that is pending, or that carries what a callback obtained. *)
Lemma sessions_from_insert log d s m :
  (∀ t, ss_auth_token s = Some t → ∃ a k d', ss_account_hash s = Some a ∧ ss_encryption_key s = Some k
     ∧ (d', (t, a, k)) ∈ log ∧ (d' = d ∨ starts_with "temp_" d' = true ∧ starts_with "temp_" d = false)) →
  sessions_from log m → sessions_from log (<[d := s]> m).
Proof.
  intros Hs H d0 s0 t Hd Ht. apply lookup_insert_Some in Hd as [[<- <-]|[_ Hd]]; [by apply Hs|by eapply H].
Qed.

Lemma update_session_from log d t a k uuid now m m' d' :
  (d', (t, a, k)) ∈ log → d' = d ∨ starts_with "temp_" d' = true ∧ starts_with "temp_" d = false →
  sessions_from log m → update_session_locked d t a k uuid now m = Some m' → sessions_from log m'.
Proof.
  unfold update_session_locked. intros Hin Hd H Hm. repeat case_match; simplify_eq;
    (apply sessions_from_insert; [cbn; intros t0 [= <-]; eauto 10|done]).
Qed.

Lemma clean_expired_from log now m : sessions_from log m → sessions_from log (clean_expired_locked now m).
Proof.
  intros H d s t. rewrite clean_expired_lookup. intros (s' & Hs' & Hx)%bind_Some Ht.
  case_match; simplify_eq. by eapply H.
Qed.

Lemma create_pending_from log d uuid now m m' :
  sessions_from log m → create_pending_locked d uuid now m = Some m' → sessions_from log m'.
Proof.
  unfold create_pending_locked. intros H Hm. case_match; simplify_eq. by apply sessions_from_insert.
Qed.

Lemma register_from log d client now m m' :
  sessions_from log m → register_locked d client now m = Some m' → sessions_from log m'.
Proof.
  unfold register_locked. intros H Hm. repeat case_match; simplify_eq; [done|]. by apply sessions_from_insert.
Qed.

(** A locked section keeps what it keeps on the table. *)
Lemma locked_inv {E} (P : Sessions → Prop) (e : E) f st r st' :
  locked e f st = (r, st') → P (au_sessions st) → (∀ m', f (au_sessions st) = Some m' → P m') →
  P (au_sessions st').
Proof.
  unfold locked. intros H Hst Hf. repeat case_match; injection H as <- <-; cbn; auto.
Qed.

Lemma check_auth_status_from log req env st r st' :
  sessions_from log (au_sessions st) → check_auth_status req env st = (r, st') →
  sessions_from log (au_sessions st').
Proof.
  intros Hst. unfold check_auth_status, mtry.
  destruct (clean_expired_sessions _ st) as [r1 st1] eqn:E1.
  eapply (locked_inv (sessions_from log)) in E1; [|done|intros m' [= <-]; by apply clean_expired_from].
  destruct r1; [|by intros [= _ <-]]. destruct (au_poisoned st1); [by intros [= _ <-]|].
  destruct (au_sessions st1 !! _); [by intros [= _ <-]|]. unfold mthen, ret.
  destruct (str_is_empty _); [by intros [= _ <-]|].
  destruct (locked _ _ st1) as [r2 st2] eqn:E2.
  eapply (locked_inv (sessions_from log)) in E2; [|done|intros m'; by apply create_pending_from].
  intros H. repeat case_match; by simplify_eq.
Qed.

Lemma pending_not_temp m : Forall (λ d, starts_with "temp_" d = false) (pending_sessions m).
Proof.
  apply Forall_forall. intros d. unfold pending_sessions. rewrite elem_of_hm_filter_keys.
  intros (s & _ & [Ht%negb_true_iff _]%andb_true_iff). exact Ht.
Qed.

Lemma update_each_from log ids t a k env i st r st' d' :
  (d', (t, a, k)) ∈ log → starts_with "temp_" d' = true → Forall (λ d, starts_with "temp_" d = false) ids →
  sessions_from log (au_sessions st) → update_each ids t a k env i st = (r, st') → sessions_from log (au_sessions st').
Proof.
  intros Hin Htemp Hids. revert i st. induction Hids as [|d ids Hd _ IH]; intros i st Hst; [by intros [= _ <-]|].
  cbn [update_each]. unfold mtry. destruct (update_session _ _ _ _ _ _ st) as [r1 st1] eqn:E1.
  eapply (locked_inv (sessions_from log)) in E1; [|done|].
  2:{ intros m'. eapply update_session_from; [done|right; by split|done]. }
  destruct r1; [by apply IH|by intros [= _ <-]].
Qed.

Lemma callback_from log query req env st r st' :
  sessions_from log (au_sessions st) → callback query req env st = (r, st') →
  sessions_from (log ++ issued query req env st) (au_sessions st').
Proof.
  unfold handle_oauth_callback, issued, mtry, au_on_storage, on_part. intros Hst.
  destruct (oc_error query); [intros [= _ <-]; by rewrite app_nil_r|].
  destruct (process_oauth_code _ _ _ _ (au_storage st)) as [r0 s0].
  destruct r0 as [[c|e]|]; [|intros [= _ <-]; by rewrite app_nil_r..].
  destruct c as [[t a] k]. set (d := callback_device query req (ae_now env 0)).
  cbn [au_poisoned au_with_storage]. destruct (au_poisoned st); [intros [= _ <-]; by apply sessions_from_app|].
  set (log' := (log ++ [(d, (t, a, k))])%list).
  assert (Hin : (d, (t, a, k)) ∈ log') by (apply elem_of_app; right; by apply list_elem_of_singleton).
  assert (Hst' : sessions_from log' (au_sessions (au_with_storage s0 st))) by (by apply sessions_from_app).
  destruct (update_session _ _ _ _ _ _ _) as [r1 st1] eqn:E1.
  eapply (locked_inv (sessions_from log')) in E1; [|done|].
  2:{ intros m'. eapply update_session_from; [done|by left|done]. }
  destruct r1; [|by intros [= _ <-]].
  destruct (starts_with "temp_" d) eqn:Htemp; unfold ret.
  - destruct (update_each _ _ _ _ _ _ st1) as [r2 st2] eqn:E2. eapply update_each_from in E2;
      [|done|done|by case_match; [constructor|apply pending_not_temp]|done].
    intros H. repeat case_match; by simplify_eq.
  - intros H. repeat case_match; by simplify_eq.
Qed.

(** C11: a device that asks for its status is only ever handed a token, account and
    key that one OAuth callback obtained, all three from the same one: one for that device,
    or one for a name that begins with temp_, when the device's own does not.  Such a name
    is what the server makes up for a callback that names no device, and its credentials
    go to every waiting device; but the state parameter of a callback may have it too. *)
Theorem status_answer_provenance st log req env resp st' :
  auth_run st log → check_auth_status req env st = (Returned (Ok resp), st') →
  csp_is_complete resp = true →
  ∃ d', (d', (csp_auth_token resp, csp_account_hash resp, csp_encryption_key resp)) ∈ log
  ∧ (d' = csr_device_hash req
     ∨ starts_with "temp_" d' = true ∧ starts_with "temp_" (csr_device_hash req) = false).
Proof.
  intros Hrun. assert (Hfrom : sessions_from log (au_sessions st)).
  { clear -Hrun. induction Hrun as [s|st log s _ IH|st log req env r st' _ IH H|st log req env r st' _ IH H
                            |st log query req env r st' _ IH H].
    - intros d s0 t Hd. cbn in Hd; by rewrite lookup_empty in Hd.
    - exact IH.
    - by eapply check_auth_status_from.
    - unfold handle_register_session, mtry, ret in H. destruct (locked _ _ st) as [r1 st1] eqn:E1.
      eapply (locked_inv (sessions_from log)) in E1; [|done|intros m'; by apply register_from].
      repeat case_match; by simplify_eq.
    - by eapply callback_from. }
  unfold check_auth_status, mtry. destruct (clean_expired_sessions _ st) as [r1 st1] eqn:E1.
  eapply (locked_inv (sessions_from log)) in E1; [|done|intros m' [= <-]; by apply clean_expired_from].
  destruct r1; [|done]. destruct (au_poisoned st1); [done|].
  destruct (au_sessions st1 !! csr_device_hash req) as [s|] eqn:Hd.
  - intros [= <- <-]. unfold session_answer. destruct (ss_auth_token s) as [t|] eqn:Ht; [|done]. intros _.
    destruct (E1 _ s t Hd Ht) as (a & k & d' & Ha & Hk & ? & ?). cbn. rewrite Ha, Hk. eauto.
  - unfold mthen, ret. intros H Hc. repeat case_match; by simplify_eq.
Qed.

End handlers.

(** ** The log-in of a device, on the in-memory storage *)

Section device_login.
Context `{CA : CryptoApi} `{CH : Chrono} `{HX : !HexLaws} `{DG : !DigestLaws} `{HI : HashIter} `{UC : Unicode}.
Context (info_enabled : bool).
Context (exchange_and_authenticate : string → result (string * OAuthUserInfo) AuthError).
Implicit Types (st : AuthState StorageData).

Abbreviation callback := (handle_oauth_callback (S := StorageData) info_enabled exchange_and_authenticate).

(** The account a callback logs in to. *)
Definition login_target (query : OAuthCallback) (req : CallbackRequest) (u : OAuthUserInfo) : string :=
  match callback_account query req with
  | Some c => c
  | None => generate_account_hash_from_email_only (login_email u)
  end.

(** What a log-in needs of the clock and of the stored key. *)
Definition login_ready (a : string) (env : LoginEnv) (s : StorageData) : Prop :=
  0 ≤ dt_timestamp (le_now env 4) ≤ 253402300799 - 24 * 3600
  ∧ 0 ≤ dt_nanosecond (le_now env 4) < 10 ^ 9
  ∧ ∀ k, get_encryption_key a s = Ok (Some k) → prefix_ok k = true.

Lemma token_prefix_ascii t : str_all is_ascii_byte t = true → is_Some (token_prefix t).
Proof. intros Ht. unfold token_prefix. rewrite ascii_boundary; [eauto|done|lia]. Qed.

(** A callback whose code was accepted, up to its effect on the sessions. *)
Lemma callback_ok query req env st x u :
  let a := login_target query req u in
  let d := callback_device query req (ae_now env 0) in
  oc_error query = None → au_poisoned st = false →
  exchange_and_authenticate (oc_code query) = Ok (x, u) → login_ready a (ae_login env) (au_storage st) →
  ∃ t k s', str_all is_ascii_byte t = true
  ∧ get_encryption_key a s' = Ok (Some k)
  ∧ (∀ k0, get_encryption_key a (au_storage st) = Ok (Some k0) → k = k0)
  ∧ (∀ now, dt_timestamp now < dt_timestamp (le_now (ae_login env) 4) + 24 * 3600 → live_token t now s' a)
  ∧ callback query req env st =
      mtry (update_session d t a k (ae_uuid env 0) (ae_now env 1)) (λ _ st,
        mtry (if starts_with "temp_" d
              then update_each (if au_poisoned st then [] else pending_sessions (au_sessions st)) t a k env 2
              else ret tt) (λ _ st,
          match token_prefix t with
          | Some prefix => ret (200, PageSuccess a prefix d t k) st
          | None => (Panicked, st)
          end) st) (au_with_storage s' st).
Proof.
  intros a d Herr Hp Hx (Ht & Hn & Hk).
  destruct (login_issues_token info_enabled x u (callback_account query req) (ae_login env) (au_storage st)
              Ht Hn Hk) as (t & k & s' & H & Hasc & Hkey & Hk0 & Hlive).
  exists t, k, s'. split_and!; [done..|]. unfold handle_oauth_callback. rewrite Herr, Hx.
  unfold mtry at 1. unfold au_on_storage, on_part. rewrite H. cbn [au_poisoned au_with_storage].
  by rewrite Hp.
Qed.

Lemma update_session_existing d t a k uuid now st s :
  au_poisoned st = false → au_sessions st !! d = Some s →
  update_session d t a k uuid now st =
    (Returned (Ok tt), au_with_sessions (<[d := mkAuthSession (ss_device_hash s) (ss_client_id s) (Some t) (Some a)
       (Some k) (ss_created_at s) (ss_expires_at s)]> (au_sessions st)) st).
Proof. intros Hp Hd. unfold update_session, locked, update_session_locked. by rewrite Hp, Hd. Qed.

(** A status check of a session that is complete and has not expired. *)
Lemma check_auth_status_complete d s t a k env st :
  au_poisoned st = false → au_sessions st !! d = Some s →
  ss_auth_token s = Some t → ss_account_hash s = Some a → ss_encryption_key s = Some k →
  dt_ltb (ss_expires_at s) (ae_now env 0) = false →
  ∃ resp st', check_auth_status (mkCheckAuthStatusRequest "" d) env st = (Returned (Ok resp), st')
  ∧ au_storage st' = au_storage st
  ∧ csp_is_complete resp = true ∧ csp_auth_token resp = t ∧ csp_account_hash resp = a
  ∧ csp_encryption_key resp = k.
Proof.
  intros Hp Hd Ht Ha Hk Hx. unfold check_auth_status, mtry, clean_expired_sessions, locked.
  rewrite Hp. cbn [au_poisoned au_with_sessions au_sessions csr_device_hash]. rewrite Hp.
  rewrite clean_expired_lookup, Hd. cbn [mbind option_bind]. rewrite Hx.
  do 2 eexists. split; [done|]. unfold session_answer. rewrite Ht, Ha, Hk. done.
Qed.

(** C10: on the in-memory storage, once a device is registered under a name that does not
    begin with temp_ and its user has logged in through the callback that names it: the
    account has a key, which is the one it had if it had one; the token is accepted for
    the account until it expires, a day after the log-in; and as long as no other request
    changed the session of the device and the session has not expired, a status check
    hands out that token, the account and that stored key. *)
Theorem device_login_completes query req env env' st x u d s :
  let a := login_target query req u in
  au_poisoned st = false → au_sessions st !! d = Some s → starts_with "temp_" d = false →
  oc_state query = Some d → oc_error query = None →
  exchange_and_authenticate (oc_code query) = Ok (x, u) → login_ready a (ae_login env) (au_storage st) →
  dt_ltb (ss_expires_at s) (ae_now env' 0) = false →
  ∃ prefix t k st', callback query req env st = (Returned (Ok (200, PageSuccess a prefix d t k)), st')
  ∧ get_encryption_key a (au_storage st') = Ok (Some k)
  ∧ (∀ k0, get_encryption_key a (au_storage st) = Ok (Some k0) → k = k0)
  ∧ (∀ now, dt_timestamp now < dt_timestamp (le_now (ae_login env) 4) + 24 * 3600 →
       live_token t now (au_storage st') a)
  ∧ ∀ st1, au_poisoned st1 = false → au_sessions st1 !! d = au_sessions st' !! d →
      ∃ resp st2, check_auth_status (mkCheckAuthStatusRequest "" d) env' st1 = (Returned (Ok resp), st2)
      ∧ csp_is_complete resp = true ∧ csp_auth_token resp = t ∧ csp_account_hash resp = a
      ∧ csp_encryption_key resp = k.
Proof.
  intros a Hp Hd Htemp Hstate Herr Hx Hready Hexp.
  destruct (callback_ok query req env st x u Herr Hp Hx Hready)
    as (t & k & s' & Hasc & Hkey & Hk0 & Hlive & Hcb). fold a in Hcb, Hlive, Hk0, Hkey.
  unfold callback_device in Hcb. rewrite Hstate, Htemp in Hcb.
  unfold mtry at 1 in Hcb. rewrite (update_session_existing d t a k _ _ (au_with_storage s' st) s Hp Hd) in Hcb.
  unfold mtry, ret in Hcb. destruct (token_prefix_ascii t Hasc) as [prefix Hpre]. rewrite Hpre in Hcb.
  exists prefix, t, k. eexists. split; [exact Hcb|]. split; [exact Hkey|]. split; [exact Hk0|]. split; [exact Hlive|].
  intros st1 Hp1. cbn [au_sessions au_with_sessions]. rewrite lookup_insert_eq. intros Hd1.
  edestruct (check_auth_status_complete d) as (resp & st2 & Hc & _ & Hr); [exact Hp1|exact Hd1|done..|].
  exists resp, st2. by split.
Qed.

(** The callback takes the account to log in to from its [state] parameter
    whenever that looks like an account hash: any user whose code is accepted gets
    a token for any account, and the encryption key stored for it. *)
Theorem callback_takes_over_account query req env st x u victim key :
  oc_state query = Some victim → is_account_hash victim = true → oc_error query = None →
  (∀ name, cb_header req name = None) →
  au_poisoned st = false → exchange_and_authenticate (oc_code query) = Ok (x, u) →
  is_Some (after_seconds (ae_now env 1) (24 * 3600)) →
  login_ready victim (ae_login env) (au_storage st) →
  get_encryption_key victim (au_storage st) = Ok (Some key) →
  ∃ prefix t st', callback query req env st = (Returned (Ok (200, PageSuccess victim prefix victim t key)), st')
  ∧ ∀ now, dt_timestamp now < dt_timestamp (le_now (ae_login env) 4) + 24 * 3600 →
      live_token t now (au_storage st') victim.
Proof.
  intros Hstate Hhash Herr Hh Hp Hx [e He] Hready Hkey.
  assert (Ha : login_target query req u = victim).
  { unfold login_target, callback_account, first_header. by rewrite !Hh, Hstate, Hhash. }
  destruct (callback_ok query req env st x u) as (t & k & s' & Hasc & _ & Hk0 & Hlive & Hcb);
    rewrite ?Ha; [done..|]. rewrite Ha in Hcb, Hlive, Hk0. rewrite (Hk0 key Hkey) in Hcb.
  assert (Htemp : starts_with "temp_" victim = false).
  { apply andb_true_iff in Hhash as [_ Hhex]. destruct victim as [|c victim]; [done|]. cbn in Hhex |- *.
    case_bool_decide as Hc; [|done]. by rewrite <-Hc in Hhex. }
  unfold callback_device in Hcb. rewrite Hstate, Htemp in Hcb.
  destruct (token_prefix_ascii t Hasc) as [prefix Hpre]. rewrite Hpre in Hcb.
  unfold mtry, ret, update_session, locked, update_session_locked in Hcb. cbn [au_poisoned au_with_storage] in Hcb.
  rewrite Hp, He in Hcb. destruct (au_sessions (au_with_storage s' st) !! victim);
    (exists prefix, t; eexists; split; [exact Hcb|exact Hlive]).
Qed.

(** Completing the listed sessions, all of which exist. *)
Lemma update_each_spec ids t a k env i st :
  au_poisoned st = false → (∀ d, d ∈ ids → is_Some (au_sessions st !! d)) →
  ∃ m', update_each ids t a k env i st = (Returned (Ok tt), au_with_sessions m' st)
  ∧ ∀ d, m' !! d = (if decide (d ∈ ids)
                    then λ s, mkAuthSession (ss_device_hash s) (ss_client_id s) (Some t) (Some a) (Some k)
                                (ss_created_at s) (ss_expires_at s)
                    else id) <$> au_sessions st !! d.
Proof.
  revert i st. induction ids as [|d0 ids IH]; intros i st Hp Hids.
  - exists (au_sessions st). split; [by destruct st|]. intros d. cbn. by rewrite option_fmap_id.
  - cbn [update_each]. destruct (Hids d0) as [s0 Hs0]; [set_solver|].
    unfold mtry. rewrite (update_session_existing _ _ _ _ _ _ _ s0 Hp Hs0).
    match goal with |- context [update_each ids t a k env _ ?st1] =>
      destruct (IH (Datatypes.S i) st1) as (m' & Hm' & Hlook); [exact Hp| |] end.
    2:{ exists m'. split; [exact Hm'|]. intros d. rewrite Hlook. cbn [au_sessions au_with_sessions].
        destruct (decide (d = d0)) as [->|Hne].
        - rewrite lookup_insert_eq, Hs0. rewrite (decide_True (P := d0 ∈ d0 :: ids)) by set_solver.
          by case_decide.
        - rewrite lookup_insert_ne by done. by do 2 case_decide; set_solver. }
    intros d Hd. cbn. destruct (decide (d = d0)) as [->|Hne]; [rewrite lookup_insert_eq; eauto|].
    rewrite lookup_insert_ne by done. apply Hids. set_solver.
Qed.

Lemma elem_of_pending m d :
  d ∈ pending_sessions m ↔ ∃ s, m !! d = Some s ∧ starts_with "temp_" d = false ∧ ss_auth_token s = None.
Proof.
  unfold pending_sessions. rewrite elem_of_hm_filter_keys. f_equiv. intros s.
  rewrite andb_true_iff, negb_true_iff. by destruct (ss_auth_token s); naive_solver.
Qed.

(** A callback that names no device completes every session that waits for a
    log-in with its own credentials: another user's device is logged in to the
    account of whoever made the callback. *)
Theorem stateless_callback_completes_all query req env st x u d s :
  let a := login_target query req u in
  oc_state query = None → (∀ name, cb_header req name = None) → cb_cookie req = None →
  oc_error query = None → au_poisoned st = false →
  exchange_and_authenticate (oc_code query) = Ok (x, u) → login_ready a (ae_login env) (au_storage st) →
  is_Some (after_seconds (ae_now env 1) (24 * 3600)) →
  au_sessions st !! d = Some s → starts_with "temp_" d = false → ss_auth_token s = None →
  ∃ prefix t k d' st', callback query req env st = (Returned (Ok (200, PageSuccess a prefix d' t k)), st')
  ∧ au_sessions st' !! d = Some (mkAuthSession (ss_device_hash s) (ss_client_id s) (Some t) (Some a) (Some k)
                                   (ss_created_at s) (ss_expires_at s)).
Proof.
  intros a Hstate Hh Hc Herr Hp Hx Hready [e He] Hd Htemp Htok.
  destruct (callback_ok query req env st x u Herr Hp Hx Hready)
    as (t & k & s' & Hasc & _ & _ & _ & Hcb). fold a in Hcb.
  set (d' := callback_device query req (ae_now env 0)) in *.
  assert (Hd' : starts_with "temp_" d' = true).
  { unfold d', callback_device, first_header. by rewrite Hstate, !Hh, Hc. }
  assert (Hne : d ≠ d') by (intros ->; congruence). rewrite Hd' in Hcb.
  assert (∃ s1, update_session d' t a k (ae_uuid env 0) (ae_now env 1) (au_with_storage s' st) =
    (Returned (Ok tt), au_with_sessions (<[d' := s1]> (au_sessions st)) (au_with_storage s' st))) as [s1 Hup].
  { unfold update_session, locked, update_session_locked. cbn [au_poisoned au_with_storage]. rewrite Hp, He.
    cbn [au_sessions au_with_storage]. destruct (au_sessions st !! d'); by eexists. }
  unfold mtry at 1 in Hcb. rewrite Hup in Hcb. cbn [au_poisoned au_with_sessions au_with_storage] in Hcb.
  rewrite Hp in Hcb. unfold mtry in Hcb.
  destruct (update_each_spec (pending_sessions (<[d' := s1]> (au_sessions st))) t a k env 2
              (au_with_sessions (<[d' := s1]> (au_sessions st)) (au_with_storage s' st)))
    as (m' & Hm' & Hlook); [exact Hp|cbn; intros d0; rewrite elem_of_pending; intros (s2 & Hs2 & _); eauto|].
  cbn [au_sessions au_with_sessions] in Hcb. rewrite Hm' in Hcb.
  destruct (token_prefix_ascii t Hasc) as [prefix Hpre]. rewrite Hpre in Hcb.
  exists prefix, t, k, d'. eexists. split; [exact Hcb|]. cbn [au_sessions au_with_sessions].
  rewrite Hlook. cbn [au_sessions au_with_sessions]. rewrite lookup_insert_ne, Hd by done.
  rewrite decide_True; [done|]. apply elem_of_pending. exists s. by rewrite lookup_insert_ne.
Qed.

End device_login.

(** ** Tokens and passwords *)

Section tokens.
Context `{CA : CryptoApi} `{CH : Chrono} {S : Type} `{ST : Storage S} `{AST : AccountStorage S}.
Context (debug_enabled error_enabled : bool).
Context (external_user_info : string → result OAuthUserInfo AuthError).
Implicit Types (st : AuthState S).

Abbreviation account_info := (get_account_info false debug_enabled error_enabled external_user_info).

(** The account information, with the encryption key, is given out for the
    account of a live token and for no other; without a live token the request is
    refused, as invalid when the token is empty and as unauthenticated otherwise. *)
Theorem account_info_needs_token req env st :
  prefix_ok (gar_auth_token req) = true →
  ∃ r st', account_info req env st = (Returned r, st')
  ∧ match r with
    | Ok resp =>
        live_token (gar_auth_token req) (ae_now env 0) (au_storage st) (gap_account_hash resp)
        ∧ gap_encryption_key resp = match s_get_encryption_key (gap_account_hash resp) (au_storage st') with
                                    | Ok (Some key) => key
                                    | _ => ""
                                    end
    | Err status =>
        (∀ a, ¬ live_token (gar_auth_token req) (ae_now env 0) (au_storage st) a) ∧ st' = st
        ∧ st_code status = if str_is_empty (gar_auth_token req) then Code_InvalidArgument else Code_Unauthenticated
    end.
Proof.
  intros Hp. unfold get_account_info, mtry, verify, au_on_storage, on_part.
  destruct (str_is_empty (gar_auth_token req)) eqn:He.
  { do 2 eexists. split; [done|]. apply str_is_empty_true in He. split_and!; [|done..].
    intros a [Hne _]. by rewrite He in Hne. }
  destruct (verify_token_cases false debug_enabled error_enabled external_user_info (gar_auth_token req)
              (ae_uuid env 0) (ae_now env 0) (ae_now env 1) (au_storage st) eq_refl Hp) as [[a Ha]|[Hv Hno]].
  - rewrite (verify_token_live _ _ _ _ _ _ _ _ _ a Hp eq_refl Ha). do 2 eexists. split; [done|]. by split.
  - rewrite Hv. do 2 eexists. split; [done|]. split_and!; [done|by destruct st|done].
Qed.

(** A password log-in succeeds for an account with a password only: an account
    made by an OAuth log-in, whose password hash is empty, cannot be entered with
    any password. *)
Theorem password_login_needs_password `{HX : !HexLaws} `{DG : !DigestLaws} email password uuid (s : S) account token :
  authenticate email password uuid s = Ok (account, token) →
  s_get_account_by_email email s = Ok (Some account)
  ∧ hash_password password (a_salt account) = a_password_hash account ∧ a_password_hash account ≠ "".
Proof.
  unfold authenticate, verify_password. intros H. repeat case_match; simplify_eq. split; [done|].
  match goal with H : (_ == _) = true |- _ => apply bool_decide_eq_true in H as Heq end.
  split; [done|]. rewrite <-Heq. apply hex_digest_nonempty.
Qed.

End tokens.

(** ** Witnesses *)

#[local] Existing Instance digest_crypto.
#[local] Existing Instance digest_hex.
#[local] Existing Instance digest_laws.
#[local] Existing Instance chrono_range.
#[local] Existing Instance canonical_iter.
#[local] Existing Instance ascii_unicode.

Definition auth_env0 : AuthEnv :=
  mkAuthEnv (λ i, mkDateTime (1700000000 + Z.of_nat i) 0) (λ i, "u" +:+ pretty (Z.of_nat i)) login_env0.
Definition accept_code (code : string) : result (string * OAuthUserInfo) AuthError := Ok ("access", login_user0).
Definition no_headers : CallbackRequest := mkCallbackRequest (λ _, None) None.
Definition hex64 : string := "0123456789abcdef0123456789abcdef0123456789abcdef0123456789abcdef".
Definition pending0 : AuthSession :=
  new_session "device-1" "client" None (mkDateTime 1700000000 0) (mkDateTime 1700086400 0).
Definition auth_st0 : AuthState StorageData :=
  mkAuthState (store_encryption_key hex64 "victim-key" StorageData_new).2 {["device-1" := pending0]} false.




Definition complete0 : AuthSession :=
  new_session "device-1" "client_u" (Some ("t", "a", "k")) (mkDateTime 1700000000 0) (mkDateTime 1700086400 0).

Lemma session_provenance_witness :
  session_run {["device-1" := complete0]} [EvComplete "device-1" ("t", "a", "k") (mkDateTime 1700000000 0)]
  ∧ ∃ a k now, ss_account_hash complete0 = Some a ∧ ss_encryption_key complete0 = Some k
    ∧ EvComplete "device-1" ("t", a, k) now ∈ [EvComplete "device-1" ("t", "a", "k") (mkDateTime 1700000000 0)].
Proof.
  assert (H : session_run {["device-1" := complete0]}
                ([] ++ [EvComplete "device-1" ("t", "a", "k") (mkDateTime 1700000000 0)])%list).
  { eapply srun_step; [constructor|].
    by apply (ss_complete "device-1" "t" "a" "k" "u" (mkDateTime 1700000000 0)). }
  split; [exact H|]. by apply (session_provenance _ _ "device-1" complete0 "t" H).
Defined.

Lemma status_check_discards_login_witness :
  ∃ m1 m2, update_session_locked "d" "t" "a" "k" "u" (mkDateTime 1700000000 0) ∅ = Some m1
  ∧ create_pending_locked "d" "v" (mkDateTime 1700000001 0) m1 = Some m2
  ∧ ∃ s, m2 !! "d" = Some s ∧ csp_is_complete (session_answer s (mkDateTime 1700000002 0)) = false.
Proof.
  do 2 eexists. split; [reflexivity|]. split; [reflexivity|].
  by eapply (status_check_discards_login ∅ "d" "u" "t" "a" "k" _ "v" (mkDateTime 1700000000 0)
               (mkDateTime 1700000001 0)).
Defined.

Definition state_query (state : option string) : OAuthCallback := mkOAuthCallback "code" state None.

Definition callback_st : AuthState StorageData :=
  (handle_oauth_callback true accept_code (state_query (Some "device-1")) no_headers auth_env0
     (mkAuthState StorageData_new ∅ false)).2.
Definition callback_log : list (string * creds) :=
  issued true accept_code (state_query (Some "device-1")) no_headers auth_env0
    (mkAuthState StorageData_new ∅ false).
Definition status_outcome := check_auth_status (mkCheckAuthStatusRequest "" "device-1") auth_env0 callback_st.

Lemma status_answer_provenance_witness :
  ∃ resp st', status_outcome = (Returned (Ok resp), st')
  ∧ ∃ d', (d', (csp_auth_token resp, csp_account_hash resp, csp_encryption_key resp)) ∈ callback_log
    ∧ (d' = "device-1" ∨ starts_with "temp_" d' = true ∧ starts_with "temp_" "device-1" = false).
Proof.
  assert (Hc : match status_outcome with (Returned (Ok resp), _) => csp_is_complete resp | _ => false end = true)
    by (vm_compute; reflexivity).
  destruct status_outcome as [[[resp|]|] st'] eqn:E; [|discriminate Hc..].
  exists resp, st'. split; [reflexivity|].
  refine (status_answer_provenance true accept_code (OAuthService_new (λ _, None)) callback_st callback_log
            (mkCheckAuthStatusRequest "" "device-1") auth_env0 resp st' _ E Hc).
  change callback_log with ([] ++ callback_log)%list.
  eapply arun_callback; [apply (arun_start _ _ _ StorageData_new)|]. apply surjective_pairing.
Defined.

Lemma login_ready0 a s : get_encryption_key a s = Ok (Some "victim-key") ∨ get_encryption_key a s = Ok None →
  login_ready a login_env0 s.
Proof.
  intros Hk. split_and!; [done..|]. intros k. destruct Hk as [-> | ->]; [|done].
  by intros [= <-].
Qed.

(** The first log-in of the account, whose key is drawn by the log-in. *)
Lemma device_login_completes_witness :
  ∃ prefix t k st', handle_oauth_callback true accept_code (state_query (Some "device-1")) no_headers auth_env0
    auth_st0 = (Returned (Ok (200, PageSuccess (generate_account_hash_from_email_only "user@system76.com")
                                     prefix "device-1" t k)), st')
  ∧ get_encryption_key (generate_account_hash_from_email_only "user@system76.com") (au_storage auth_st0) = Ok None
  ∧ get_encryption_key (generate_account_hash_from_email_only "user@system76.com") (au_storage st') = Ok (Some k)
  ∧ ∃ resp st2, check_auth_status (mkCheckAuthStatusRequest "" "device-1") auth_env0 st' = (Returned (Ok resp), st2)
    ∧ csp_encryption_key resp = k.
Proof.
  destruct (device_login_completes true accept_code (state_query (Some "device-1")) no_headers auth_env0 auth_env0
              auth_st0 "access" login_user0 "device-1" pending0)
    as (prefix & t & k & st' & H & Hk & _ & _ & Hc); [done..| |done|].
  - apply login_ready0. right. vm_compute. reflexivity.
  - exists prefix, t, k, st'. split; [exact H|]. split; [vm_compute; reflexivity|]. split; [exact Hk|].
    destruct (Hc st') as (resp & st2 & Hr & _ & _ & _ & Hkey); [vm_compute in H; by injection H as _ _ _ <-|done|].
    by exists resp, st2.
Defined.

Lemma callback_takes_over_account_witness :
  ∃ prefix t st', handle_oauth_callback true accept_code (state_query (Some hex64)) no_headers auth_env0 auth_st0
    = (Returned (Ok (200, PageSuccess hex64 prefix hex64 t "victim-key")), st')
  ∧ live_token t (mkDateTime 1700000100 0) (au_storage st') hex64.
Proof.
  destruct (callback_takes_over_account true accept_code (state_query (Some hex64)) no_headers auth_env0 auth_st0
              "access" login_user0 hex64 "victim-key")
    as (prefix & t & st' & H & Hl); [done..|eexists; reflexivity| |vm_compute; reflexivity|].
  - apply login_ready0. left. vm_compute. reflexivity.
  - exists prefix, t, st'. split; [exact H|]. apply Hl. vm_compute. reflexivity.
Defined.

Lemma stateless_callback_completes_all_witness :
  ∃ prefix t k d' st', handle_oauth_callback true accept_code (state_query None) no_headers auth_env0 auth_st0
    = (Returned (Ok (200, PageSuccess (generate_account_hash_from_email_only "user@system76.com")
                            prefix d' t k)), st')
  ∧ is_Some (au_sessions st' !! "device-1").
Proof.
  destruct (stateless_callback_completes_all true accept_code (state_query None) no_headers auth_env0 auth_st0
              "access" login_user0 "device-1" pending0)
    as (prefix & t & k & d' & st' & H & Hd);
    [done|done|done|done|done|done| |eexists; reflexivity|done|done|done|].
  - apply login_ready0. right. vm_compute. reflexivity.
  - exists prefix, t, k, d', st'. split; [exact H|]. rewrite Hd. eauto.
Defined.

Lemma account_info_needs_token_witness :
  ∃ resp st', get_account_info false true true no_server (mkGetAccountInfoRequest "secret")
    (mkAuthEnv (λ _, mkDateTime 500 0) (λ _, "u") login_env0) (mkAuthState sample_tokens ∅ false)
    = (Returned (Ok resp), st')
  ∧ live_token "secret" (mkDateTime 500 0) sample_tokens (gap_account_hash resp).
Proof.
  destruct (account_info_needs_token true true no_server (mkGetAccountInfoRequest "secret")
              (mkAuthEnv (λ _, mkDateTime 500 0) (λ _, "u") login_env0) (mkAuthState sample_tokens ∅ false))
    as ([resp|e] & st' & H & Hr); [done| |vm_compute in H; congruence].
  exists resp, st'. split; [exact H|]. apply Hr.
Defined.

Definition password_account : Account :=
  {| a_account_hash := "acc"; a_id := "1"; a_email := "u@x"; a_name := "u"; a_user_type := "local";
     a_password_hash := hash_password "pw" "salt"; a_salt := "salt"; a_is_active := true;
     a_created_at := mkDateTime 0 0; a_last_login := mkDateTime 0 0; a_updated_at := mkDateTime 0 0;
     a_user_id := "u" |}.

Lemma password_login_needs_password_witness :
  ∃ account, authenticate "u@x" "pw" "uuid" (create_account password_account StorageData_new).2
             = Ok (account, "uuid")
  ∧ a_password_hash account ≠ "".
Proof.
  eexists. split; [vm_compute; reflexivity|].
  eapply (password_login_needs_password "u@x" "pw" "uuid" (create_account password_account StorageData_new).2
            _ "uuid"). vm_compute. reflexivity.
Defined.
