(* ===== verification/Domain.v ===== *)
(** * The domain layer (src/domain)

    Entities that record what happened to them as events, value objects that
    cannot be built from bad input, the rules of the domain services and the
    dispatch of domain events. *)

From S2P Require Import Prelude RustString Errors Models.

(** ** Value objects (src/domain/value_objects.rs) *)

Definition invalid {A} (msg : string) : result A SyncError := Err (SE_Validation msg).

Definition EmailAddress_validate (email : string) : result unit SyncError :=
  if str_is_empty email then invalid "Email cannot be empty"
  else if negb (contains_char "@" email) then invalid "Email must contain @"
  else
    match split_char "@" email with
    | [local; domain] =>
        if str_is_empty local || str_is_empty domain
        then invalid "Email local and domain parts cannot be empty"
        else if negb (contains_char "." domain) then invalid "Email domain must contain a dot"
        else Ok tt
    | _ => invalid "Email must have exactly one @"
    end.

Definition EmailAddress_new (email : string) : result string SyncError :=
  _ <-? EmailAddress_validate email; Ok email.

Definition EmailAddress_domain (email : string) : option string := split_char "@" email !! 1%nat.
Definition EmailAddress_local_part (email : string) : option string := split_char "@" email !! 0%nat.

Definition FilePath_validate (path : string) : result unit SyncError :=
  if str_is_empty path then invalid "File path cannot be empty"
  else if str_contains ".." path then invalid "File path cannot contain '..'"
  else if existsb (λ c, contains_char c path) ["<"; ">"; ":"; Ascii.ascii_of_nat 34; "|"; "?"; "*"]%char
  then invalid "File path contains forbidden characters"
  else Ok tt.

Definition FilePath_new (path : string) : result string SyncError :=
  _ <-? FilePath_validate path; Ok path.

(** [s.replace("//", "/")]: from left to right, without overlap. *)
Fixpoint replace_slashes (s : string) : string :=
  match s with
  | EmptyString => EmptyString
  | String a s' =>
      match s' with
      | String b s'' =>
          if bool_decide (a = "/"%char) && bool_decide (b = "/"%char) then String "/" (replace_slashes s'')
          else String a (replace_slashes s')
      | EmptyString => String a EmptyString
      end
  end.

Definition FilePath_normalize (path : string) : result string SyncError := FilePath_new (replace_slashes path).

Inductive HashAlgorithm := Md5 | Sha1 | Sha256 | Sha512.

Definition HashAlgorithm_debug (a : HashAlgorithm) : string :=
  match a with Md5 => "Md5" | Sha1 => "Sha1" | Sha256 => "Sha256" | Sha512 => "Sha512" end.

Record FileHash := mkFileHash { fh_algorithm : HashAlgorithm; fh_value : string }.

Definition expected_length (a : HashAlgorithm) : Z :=
  match a with Md5 => 32 | Sha1 => 40 | Sha256 => 64 | Sha512 => 128 end.

Definition FileHash_validate (h : FileHash) : result unit SyncError :=
  if str_is_empty (fh_value h) then invalid "Hash value cannot be empty"
  else if negb (str_len (fh_value h) =? expected_length (fh_algorithm h))
  then invalid ("Hash value length " +:+ pretty (str_len (fh_value h)) +:+ " does not match expected length "
                +:+ pretty (expected_length (fh_algorithm h)) +:+ " for " +:+ HashAlgorithm_debug (fh_algorithm h))
  else if negb (str_all is_ascii_hexdigit (fh_value h))
  then invalid "Hash value must contain only hexadecimal characters"
  else Ok tt.

Definition FileHash_new (algorithm : HashAlgorithm) (value : string) : result FileHash SyncError :=
  _ <-? FileHash_validate (mkFileHash algorithm value); Ok (mkFileHash algorithm value).

Definition FileHash_sha256 : string → result FileHash SyncError := FileHash_new Sha256.
Definition FileHash_md5 : string → result FileHash SyncError := FileHash_new Md5.

Definition FileHash_fmt (h : FileHash) : string := HashAlgorithm_debug (fh_algorithm h) +:+ ":" +:+ fh_value h.

Definition Timestamp_validate (t : Z) : result unit SyncError :=
  if t <? 0 then invalid "Timestamp cannot be negative"
  else if 4102444800 <? t then invalid "Timestamp is too far in the future"
  else Ok tt.

Definition Timestamp_from_unix (t : Z) : result Z SyncError := _ <-? Timestamp_validate t; Ok t.
Definition Timestamp_to_datetime `{Chrono} (t : Z) : option DateTime := from_timestamp t 0.

(** [to_rfc3339] is an argument. *)
Definition Timestamp_to_iso8601 `{Chrono} (to_rfc3339 : DateTime → string) (t : Z) : string :=
  match Timestamp_to_datetime t with
  | Some dt => to_rfc3339 dt
  | None => "invalid-timestamp-" +:+ pretty t
  end.

(** ** Entities (src/domain/entities.rs) *)

Inductive AccountEvent :=
| AE_Created (account_id email : string) (timestamp : Z)
| AE_EmailUpdated (account_id old_email new_email : string) (timestamp : Z)
| AE_Deactivated (account_id : string) (timestamp : Z).

Definition AccountEvent_type (e : AccountEvent) : string :=
  match e with
  | AE_Created _ _ _ => "account.created"
  | AE_EmailUpdated _ _ _ _ => "account.email_updated"
  | AE_Deactivated _ _ => "account.deactivated"
  end.

Definition AccountEvent_timestamp (e : AccountEvent) : Z :=
  match e with AE_Created _ _ t => t | AE_EmailUpdated _ _ _ t => t | AE_Deactivated _ t => t end.

Record AccountEntity := mkAccountEntity {
  ea_id : string;
  ea_email : string;
  ea_account_hash : string;
  ea_created_at : Z;
  ea_updated_at : Z;
  ea_is_active : bool;
  ea_events : list AccountEvent
}.

Definition AccountEntity_validate (a : AccountEntity) : result unit SyncError :=
  if str_is_empty (ea_id a) then invalid "Account ID cannot be empty"
  else if str_is_empty (ea_email a) || negb (contains_char "@" (ea_email a)) then invalid "Invalid email address"
  else if str_is_empty (ea_account_hash a) then invalid "Account hash cannot be empty"
  else if (ea_created_at a <=? 0) || (ea_updated_at a <=? 0) then invalid "Invalid timestamps"
  else if ea_updated_at a <? ea_created_at a then invalid "Updated time cannot be before created time"
  else Ok tt.

(** [Account::create]; [uuid] and [now] are the fresh identifier and the clock. *)
Definition AccountEntity_create (email account_hash uuid : string) (now : Z) : result AccountEntity SyncError :=
  let account := mkAccountEntity uuid email account_hash now now true [AE_Created uuid email now] in
  _ <-? AccountEntity_validate account; Ok account.

Definition AccountEntity_deactivate (now : Z) (a : AccountEntity) : result AccountEntity SyncError :=
  if negb (ea_is_active a) then invalid "Account is already inactive"
  else Ok (mkAccountEntity (ea_id a) (ea_email a) (ea_account_hash a) (ea_created_at a) now false
             (ea_events a ++ [AE_Deactivated (ea_id a) now])).

Definition AccountEntity_update_email (new_email : string) (now : Z) (a : AccountEntity)
    : result AccountEntity SyncError :=
  if new_email == ea_email a then Ok a
  else if negb (contains_char "@" new_email) then invalid "Invalid email format"
  else Ok (mkAccountEntity (ea_id a) new_email (ea_account_hash a) (ea_created_at a) now (ea_is_active a)
             (ea_events a ++ [AE_EmailUpdated (ea_id a) (ea_email a) new_email now])).

Definition AccountEntity_clear_events (a : AccountEntity) : AccountEntity :=
  mkAccountEntity (ea_id a) (ea_email a) (ea_account_hash a) (ea_created_at a) (ea_updated_at a)
    (ea_is_active a) [].

Inductive DeviceType := Desktop | Laptop | Mobile | Tablet | Server | OtherType (name : string).

Definition DeviceType_validate (t : DeviceType) : result unit SyncError :=
  match t with
  | OtherType name => if str_is_empty name then invalid "Device type name cannot be empty" else Ok tt
  | _ => Ok tt
  end.

Inductive DeviceEvent :=
| DE_Registered (device_hash account_hash device_name : string) (device_type : DeviceType) (timestamp : Z)
| DE_ActivityUpdated (device_hash : string) (timestamp : Z)
| DE_Deactivated (device_hash : string) (timestamp : Z).

Definition DeviceEvent_type (e : DeviceEvent) : string :=
  match e with
  | DE_Registered _ _ _ _ _ => "device.registered"
  | DE_ActivityUpdated _ _ => "device.activity_updated"
  | DE_Deactivated _ _ => "device.deactivated"
  end.

Definition DeviceEvent_timestamp (e : DeviceEvent) : Z :=
  match e with DE_Registered _ _ _ _ t => t | DE_ActivityUpdated _ t => t | DE_Deactivated _ t => t end.

Record DeviceEntity := mkDeviceEntity {
  ed_device_hash : string;
  ed_account_hash : string;
  ed_device_name : string;
  ed_device_type : DeviceType;
  ed_last_seen : Z;
  ed_is_active : bool;
  ed_created_at : Z;
  ed_events : list DeviceEvent
}.

Definition DeviceEntity_validate (d : DeviceEntity) : result unit SyncError :=
  if str_is_empty (ed_device_hash d) then invalid "Device hash cannot be empty"
  else if str_is_empty (ed_account_hash d) then invalid "Account hash cannot be empty"
  else if str_is_empty (ed_device_name d) then invalid "Device name cannot be empty"
  else if (ed_created_at d <=? 0) || (ed_last_seen d <=? 0) then invalid "Invalid timestamps"
  else DeviceType_validate (ed_device_type d).

Definition DeviceEntity_register (device_hash account_hash device_name : string) (device_type : DeviceType)
    (now : Z) : result DeviceEntity SyncError :=
  _ <-? DeviceType_validate device_type;
  let device := mkDeviceEntity device_hash account_hash device_name device_type now true now
                  [DE_Registered device_hash account_hash device_name device_type now] in
  _ <-? DeviceEntity_validate device; Ok device.

Definition DeviceEntity_update_activity (now : Z) (d : DeviceEntity) : DeviceEntity :=
  mkDeviceEntity (ed_device_hash d) (ed_account_hash d) (ed_device_name d) (ed_device_type d) now
    (ed_is_active d) (ed_created_at d) (ed_events d ++ [DE_ActivityUpdated (ed_device_hash d) now]).

Definition DeviceEntity_deactivate (now : Z) (d : DeviceEntity) : result DeviceEntity SyncError :=
  if negb (ed_is_active d) then invalid "Device is already inactive"
  else Ok (mkDeviceEntity (ed_device_hash d) (ed_account_hash d) (ed_device_name d) (ed_device_type d)
             (ed_last_seen d) false (ed_created_at d) (ed_events d ++ [DE_Deactivated (ed_device_hash d) now])).

Definition DeviceEntity_clear_events (d : DeviceEntity) : DeviceEntity :=
  mkDeviceEntity (ed_device_hash d) (ed_account_hash d) (ed_device_name d) (ed_device_type d) (ed_last_seen d)
    (ed_is_active d) (ed_created_at d) [].

(** *** Conversions from and to the models *)

Definition AccountEntity_of_model (m : Account) : AccountEntity :=
  mkAccountEntity (a_id m) (a_email m) (a_account_hash m) (dt_timestamp (a_created_at m))
    (dt_timestamp (a_updated_at m)) (a_is_active m) [].

(** [timestamp_opt(t, 0).single().unwrap_or_else(Utc::now)]. *)
Definition datetime_or `{Chrono} (t : Z) (now : DateTime) : DateTime := default now (from_timestamp t 0).

Definition model_of_AccountEntity `{Chrono} (e : AccountEntity) (now : nat → DateTime) : Account :=
  {| a_account_hash := ea_account_hash e; a_id := ea_id e; a_email := ea_email e; a_name := "Unknown";
     a_user_type := "user"; a_password_hash := ""; a_salt := ""; a_is_active := ea_is_active e;
     a_created_at := datetime_or (ea_created_at e) (now 0%nat); a_last_login := now 1%nat;
     a_updated_at := datetime_or (ea_updated_at e) (now 2%nat); a_user_id := ea_id e |}.

Definition DeviceType_of_os `{Unicode} (os_version : string) : DeviceType :=
  let os := to_lowercase os_version in
  if str_contains "desktop" os then Desktop
  else if str_contains "laptop" os then Laptop
  else if str_contains "mobile" os then Mobile
  else if str_contains "tablet" os then Tablet
  else OtherType os_version.

Definition DeviceEntity_of_model `{Unicode} (m : Device) : DeviceEntity :=
  mkDeviceEntity (d_device_hash m) (d_account_hash m) (d_user_id m) (DeviceType_of_os (d_os_version m))
    (dt_timestamp (d_last_sync m)) (d_is_active m) (dt_timestamp (d_registered_at m)) [].

Definition os_of_DeviceType (t : DeviceType) : string :=
  match t with
  | Desktop => "Desktop OS" | Laptop => "Laptop OS" | Mobile => "Mobile OS" | Tablet => "Tablet OS"
  | Server => "Server OS" | OtherType name => name
  end.

Definition model_of_DeviceEntity `{Chrono} (e : DeviceEntity) (now : nat → DateTime) : Device :=
  {| d_user_id := ed_device_name e; d_account_hash := ed_account_hash e; d_device_hash := ed_device_hash e;
     d_updated_at := now 0%nat; d_registered_at := datetime_or (ed_created_at e) (now 1%nat);
     d_last_sync := datetime_or (ed_last_seen e) (now 2%nat); d_is_active := ed_is_active e;
     d_os_version := os_of_DeviceType (ed_device_type e); d_app_version := "1.0.0" |}.

(** ** Domain services (src/domain/services.rs) *)

Definition is_valid_email (email : string) : bool :=
  contains_char "@" email && contains_char "." email && (5 <? str_len email).

Definition is_valid_account_hash (hash : string) : bool :=
  (32 <=? str_len hash) && str_all is_ascii_alphanumeric hash.

Definition is_valid_device_hash (hash : string) : bool :=
  (32 <=? str_len hash) && str_all is_ascii_alphanumeric hash.

Definition create_account_with_validation (email account_hash uuid : string) (now : Z)
    : result AccountEntity SyncError :=
  if negb (is_valid_email email) then invalid "Invalid email format"
  else if negb (is_valid_account_hash account_hash) then invalid "Invalid account hash format"
  else AccountEntity_create email account_hash uuid now.

Definition infer_device_type `{Unicode} (device_name : string) (user_agent : option string) : DeviceType :=
  let name := to_lowercase device_name in
  let by_name :=
    if str_contains "desktop" name || str_contains "pc" name then Desktop
    else if str_contains "laptop" name || str_contains "notebook" name then Laptop
    else if str_contains "server" name then Server
    else if str_contains "mobile" name || str_contains "phone" name then Mobile
    else if str_contains "tablet" name || str_contains "pad" name then Tablet
    else OtherType device_name in
  match user_agent with
  | Some ua =>
      let ua := to_lowercase ua in
      if str_contains "mobile" ua || str_contains "android" ua || str_contains "iphone" ua then Mobile
      else if str_contains "tablet" ua || str_contains "ipad" ua then Tablet
      else by_name
  | None => by_name
  end.

Definition register_device_safely `{Unicode} (device_hash account_hash device_name : string)
    (user_agent : option string) (now : Z) : result DeviceEntity SyncError :=
  if negb (is_valid_device_hash device_hash) then invalid "Invalid device hash format"
  else if str_is_empty (trim device_name) then invalid "Device name cannot be empty"
  else DeviceEntity_register device_hash account_hash device_name (infer_device_type device_name user_agent) now.

Definition can_register_device (account_hash device_hash : string) : result bool SyncError :=
  if str_is_empty account_hash || str_is_empty device_hash then Ok false else Ok true.

Inductive ConflictResolutionStrategy := UseLocal | UseRemote | CreateBothVersions | MergeChanges | AskUser.

Definition determine_conflict_resolution_strategy (local_timestamp remote_timestamp local_size remote_size : Z)
    : ConflictResolutionStrategy :=
  if remote_timestamp <? local_timestamp then UseLocal
  else if local_timestamp <? remote_timestamp then UseRemote
  else if negb (local_size =? remote_size) then CreateBothVersions
  else UseLocal.

Inductive SyncPriority := Low | Medium | High | Critical.

Definition calculate_sync_priority (file_size file_age_seconds : Z) (is_user_initiated : bool) : SyncPriority :=
  if is_user_initiated then High
  else if 100 * 1024 * 1024 <? file_size then Low
  else if file_age_seconds <? 300 then High
  else if file_age_seconds <? 3600 then Medium
  else Low.

(** ** Search specifications (src/domain/repositories.rs) *)

Record AccountSearchSpec := mkAccountSearchSpec {
  as_email_pattern : option string; as_is_active : option bool;
  as_created_after : option Z; as_created_before : option Z
}.

Definition AccountSearchSpec_new : AccountSearchSpec := mkAccountSearchSpec None None None None.
Definition acc_with_email_pattern (p : string) (s : AccountSearchSpec) : AccountSearchSpec :=
  mkAccountSearchSpec (Some p) (as_is_active s) (as_created_after s) (as_created_before s).
Definition acc_with_active_status (b : bool) (s : AccountSearchSpec) : AccountSearchSpec :=
  mkAccountSearchSpec (as_email_pattern s) (Some b) (as_created_after s) (as_created_before s).
Definition acc_with_created_after (t : Z) (s : AccountSearchSpec) : AccountSearchSpec :=
  mkAccountSearchSpec (as_email_pattern s) (as_is_active s) (Some t) (as_created_before s).
Definition acc_with_created_before (t : Z) (s : AccountSearchSpec) : AccountSearchSpec :=
  mkAccountSearchSpec (as_email_pattern s) (as_is_active s) (as_created_after s) (Some t).

(** An early return for every condition that is set and not met. *)
Definition unless_met {A} (condition : option A) (met : A → bool) (rest : bool) : bool :=
  match condition with
  | Some x => if negb (met x) then false else rest
  | None => rest
  end.

Definition account_is_satisfied_by (spec : AccountSearchSpec) (account : AccountEntity) : bool :=
  unless_met (as_email_pattern spec) (λ p, str_contains p (ea_email account))
  (unless_met (as_is_active spec) (λ b, Bool.eqb (ea_is_active account) b)
  (unless_met (as_created_after spec) (λ t, t <? ea_created_at account)
  (unless_met (as_created_before spec) (λ t, ea_created_at account <? t) true))).

Record DeviceSearchSpec := mkDeviceSearchSpec {
  ds_account_hash : option string; ds_device_name_pattern : option string;
  ds_is_active : option bool; ds_last_seen_after : option Z
}.

Definition DeviceSearchSpec_new : DeviceSearchSpec := mkDeviceSearchSpec None None None None.
Definition dev_with_account_hash (a : string) (s : DeviceSearchSpec) : DeviceSearchSpec :=
  mkDeviceSearchSpec (Some a) (ds_device_name_pattern s) (ds_is_active s) (ds_last_seen_after s).
Definition dev_with_device_name_pattern (p : string) (s : DeviceSearchSpec) : DeviceSearchSpec :=
  mkDeviceSearchSpec (ds_account_hash s) (Some p) (ds_is_active s) (ds_last_seen_after s).
Definition dev_with_active_status (b : bool) (s : DeviceSearchSpec) : DeviceSearchSpec :=
  mkDeviceSearchSpec (ds_account_hash s) (ds_device_name_pattern s) (Some b) (ds_last_seen_after s).
Definition dev_with_last_seen_after (t : Z) (s : DeviceSearchSpec) : DeviceSearchSpec :=
  mkDeviceSearchSpec (ds_account_hash s) (ds_device_name_pattern s) (ds_is_active s) (Some t).

Definition device_is_satisfied_by (spec : DeviceSearchSpec) (device : DeviceEntity) : bool :=
  unless_met (ds_account_hash spec) (λ a, ed_account_hash device == a)
  (unless_met (ds_device_name_pattern spec) (λ p, str_contains p (ed_device_name device))
  (unless_met (ds_is_active spec) (λ b, Bool.eqb (ed_is_active device) b)
  (unless_met (ds_last_seen_after spec) (λ t, t <? ed_last_seen device) true))).

(** ** Domain events and their handlers (src/domain/events.rs) *)

Record BaseEvent := mkBaseEvent {
  be_event_id : string; be_timestamp : Z; be_event_type : string; be_aggregate_id : string; be_version : Z
}.

Definition BaseEvent_new (event_type aggregate_id uuid : string) (now : Z) : BaseEvent :=
  mkBaseEvent uuid now event_type aggregate_id 1.

Inductive AccountDomainEvent :=
| AccountCreated (base : BaseEvent) (account_id email account_hash : string)
| AccountEmailUpdated (base : BaseEvent) (account_id old_email new_email : string)
| AccountDeactivated (base : BaseEvent) (account_id : string) (reason : option string)
| AccountReactivated (base : BaseEvent) (account_id : string).

Inductive DeviceDomainEvent :=
| DeviceRegistered (base : BaseEvent) (device_hash account_hash device_name device_type : string)
| DeviceActivityUpdated (base : BaseEvent) (device_hash : string) (last_seen : Z)
| DeviceDeactivated (base : BaseEvent) (device_hash : string) (reason : option string)
| DeviceNameUpdated (base : BaseEvent) (device_hash old_name new_name : string).

Inductive FileSyncEvent :=
| FileUploaded (base : BaseEvent) (file_id : Z) (account_hash device_hash file_path : string) (file_size : Z)
    (file_hash : string)
| FileDownloaded (base : BaseEvent) (file_id : Z) (account_hash device_hash : string)
| FileDeleted (base : BaseEvent) (file_id : Z) (account_hash device_hash file_path : string)
| FileSyncConflictDetected (base : BaseEvent) (file_id : Z) (account_hash : string)
    (conflicting_devices : list string) (resolution_strategy : string)
| FileSyncCompleted (base : BaseEvent) (file_id : Z) (account_hash : string) (synced_devices : list string).

Inductive DomainEventWrapper :=
| WAccount (e : AccountDomainEvent) | WDevice (e : DeviceDomainEvent) | WFileSync (e : FileSyncEvent).

(** [event_type] of the three kinds of event. *)
Definition AccountDomainEvent_type (e : AccountDomainEvent) : string :=
  match e with
  | AccountCreated _ _ _ _ => "account.created"
  | AccountEmailUpdated _ _ _ _ => "account.email_updated"
  | AccountDeactivated _ _ _ => "account.deactivated"
  | AccountReactivated _ _ => "account.reactivated"
  end.

Definition DeviceDomainEvent_type (e : DeviceDomainEvent) : string :=
  match e with
  | DeviceRegistered _ _ _ _ _ => "device.registered"
  | DeviceActivityUpdated _ _ _ => "device.activity_updated"
  | DeviceDeactivated _ _ _ => "device.deactivated"
  | DeviceNameUpdated _ _ _ _ => "device.name_updated"
  end.

Definition FileSyncEvent_type (e : FileSyncEvent) : string :=
  match e with
  | FileUploaded _ _ _ _ _ _ _ => "file.uploaded"
  | FileDownloaded _ _ _ _ => "file.downloaded"
  | FileDeleted _ _ _ _ _ => "file.deleted"
  | FileSyncConflictDetected _ _ _ _ _ => "file.sync_conflict_detected"
  | FileSyncCompleted _ _ _ _ => "file.sync_completed"
  end.

(** The base event, from which [timestamp] and [event_id] are read. *)
Definition AccountDomainEvent_base (e : AccountDomainEvent) : BaseEvent :=
  match e with
  | AccountCreated b _ _ _ => b
  | AccountEmailUpdated b _ _ _ => b
  | AccountDeactivated b _ _ => b
  | AccountReactivated b _ => b
  end.

Definition DeviceDomainEvent_base (e : DeviceDomainEvent) : BaseEvent :=
  match e with
  | DeviceRegistered b _ _ _ _ => b
  | DeviceActivityUpdated b _ _ => b
  | DeviceDeactivated b _ _ => b
  | DeviceNameUpdated b _ _ _ => b
  end.

Definition FileSyncEvent_base (e : FileSyncEvent) : BaseEvent :=
  match e with
  | FileUploaded b _ _ _ _ _ _ => b
  | FileDownloaded b _ _ _ => b
  | FileDeleted b _ _ _ _ => b
  | FileSyncConflictDetected b _ _ _ _ => b
  | FileSyncCompleted b _ _ _ => b
  end.

Definition event_type (e : DomainEventWrapper) : string :=
  match e with
  | WAccount e => AccountDomainEvent_type e
  | WDevice e => DeviceDomainEvent_type e
  | WFileSync e => FileSyncEvent_type e
  end.

Definition event_base (e : DomainEventWrapper) : BaseEvent :=
  match e with
  | WAccount e => AccountDomainEvent_base e
  | WDevice e => DeviceDomainEvent_base e
  | WFileSync e => FileSyncEvent_base e
  end.

Definition event_timestamp (e : DomainEventWrapper) : Z := be_timestamp (event_base e).
Definition event_id (e : DomainEventWrapper) : string := be_event_id (event_base e).

Section registry.
(** A handler acts on a state of its own choice. *)
Context {St : Type}.
Abbreviation EventHandler := (DomainEventWrapper → St → result unit SyncError * St).
Abbreviation EventHandlerRegistry := (gmap string (list EventHandler)).

Definition register_handler (t : string) (handler : EventHandler) (r : EventHandlerRegistry)
    : EventHandlerRegistry := <[t := (default [] (r !! t) ++ [handler])%list]> r.

(** [for handler in handlers { handler.handle(event).await?; }]. *)
Fixpoint run_handlers (handlers : list EventHandler) (e : DomainEventWrapper) (s : St)
    : result unit SyncError * St :=
  match handlers with
  | [] => (Ok tt, s)
  | handler :: handlers =>
      match handler e s with
      | (Ok _, s') => run_handlers handlers e s'
      | (Err err, s') => (Err err, s')
      end
  end.

Definition handle_event (r : EventHandlerRegistry) (e : DomainEventWrapper) (s : St)
    : result unit SyncError * St :=
  match r !! event_type e with
  | Some handlers => run_handlers handlers e s
  | None => (Ok tt, s)
  end.

End registry.
