(* ===== verification/DomainProps.v ===== *)
(** * Properties of the domain layer

    What the value objects accept, the event log of the entities, the conversions
    from and to the models, and the dispatch of events. *)

From S2P Require Import Prelude RustString Errors Models Domain.

(** ** Value objects *)

(** C38: an e-mail address is accepted exactly when it is two non-empty parts
    without an [@], joined by one, with a dot in the second; the two parts are
    what [local_part] and [domain] return. *)
Theorem email_address_exact email :
  EmailAddress_new email = Ok email ↔
  ∃ l d, email = l +:+ "@" +:+ d ∧ l ≠ "" ∧ d ≠ ""
  ∧ contains_char "@" l = false ∧ contains_char "@" d = false ∧ contains_char "." d = true
  ∧ EmailAddress_local_part email = Some l ∧ EmailAddress_domain email = Some d.
Proof.
  unfold EmailAddress_new, EmailAddress_validate, EmailAddress_local_part, EmailAddress_domain. split.
  - intros H. pose proof (join_split "@" email) as Hj.
    pose proof (split_char_pieces "@" email) as Hp.
    destruct (str_is_empty email), (negb (contains_char "@" email)); try done.
    destruct (split_char "@" email) as [|l [|d [|? ?]]]; try done.
    destruct (str_is_empty l) eqn:Hl, (str_is_empty d) eqn:Hd; try done.
    destruct (contains_char "." d) eqn:Hdot; [|done]. cbn in Hj. exists l, d.
    split_and!; [done|by intros ->|by intros ->|apply Hp; set_solver|apply Hp; set_solver|done..].
  - intros (l & d & -> & Hl & Hd & Hlat & Hdat & Hdot & _).
    change ("@" +:+ d) with (String "@" d).
    rewrite (split_char_app "@" l d Hlat), (split_char_none "@" d Hdat), contains_char_app.
    assert (Hempty : ∀ s, s ≠ "" → str_is_empty s = false) by (by intros []).
    rewrite (Hempty l), (Hempty d), (Hempty (l +:+ _)), Hlat, Hdot by (done || by destruct l). done.
Qed.

Lemma replace_slashes_cons a b s :
  replace_slashes (String a (String b s)) =
  if bool_decide (a = "/"%char) && bool_decide (b = "/"%char) then String "/" (replace_slashes s)
  else String a (replace_slashes (String b s)).
Proof. done. Qed.

Lemma contains_char_cons c a s : contains_char c (String a s) = bool_decide (a = c) || contains_char c s.
Proof. done. Qed.

Lemma contains_dots_cons a s :
  str_contains ".." (String a s) = (bool_decide ("."%char = a) && starts_with "." s) || str_contains ".." s.
Proof. done. Qed.

(** No piece of text is created by dropping a slash. *)
Lemma replace_slashes_starts s c :
  starts_with (String c "") (replace_slashes s) = starts_with (String c "") s.
Proof.
  destruct s as [|a [|b s]]; [done..|]. cbn [replace_slashes].
  destruct (bool_decide (a = "/"%char)) eqn:Ea, (bool_decide (b = "/"%char)); cbn; try done.
  apply bool_decide_eq_true in Ea as ->. done.
Qed.

Lemma replace_slashes_contains_char c s : contains_char c (replace_slashes s) = contains_char c s.
Proof.
  induction s as [s IH] using (induction_ltof1 _ String.length). unfold ltof in IH.
  destruct s as [|a [|b s]]; [done..|]. rewrite replace_slashes_cons.
  destruct (bool_decide (a = "/"%char)) eqn:Ea, (bool_decide (b = "/"%char)) eqn:Eb; cbn [andb];
    [|rewrite (contains_char_cons c a), (contains_char_cons c a), (IH (String b s)) by (cbn; lia); done..].
  apply bool_decide_eq_true in Ea as ->. apply bool_decide_eq_true in Eb as ->.
  rewrite !contains_char_cons, (IH s) by (cbn; lia). by destruct (bool_decide _).
Qed.

Lemma replace_slashes_dots s : str_contains ".." (replace_slashes s) = str_contains ".." s.
Proof.
  induction s as [s IH] using (induction_ltof1 _ String.length). unfold ltof in IH.
  destruct s as [|a [|b s]]; [done..|]. rewrite replace_slashes_cons.
  destruct (bool_decide (a = "/"%char)) eqn:Ea, (bool_decide (b = "/"%char)) eqn:Eb; cbn [andb];
    [|rewrite (contains_dots_cons a), (contains_dots_cons a), (IH (String b s)), replace_slashes_starts by (cbn; lia);
      done..].
  apply bool_decide_eq_true in Ea as ->. apply bool_decide_eq_true in Eb as ->.
  by rewrite !contains_dots_cons, (IH s) by (cbn; lia).
Qed.

(** Normalising an accepted path gives an accepted path. *)
Theorem normalize_total path :
  FilePath_new path = Ok path → FilePath_normalize path = Ok (replace_slashes path).
Proof.
  unfold FilePath_normalize, FilePath_new, FilePath_validate. intros H.
  rewrite replace_slashes_dots. cbn [existsb]. rewrite !replace_slashes_contains_char.
  assert (Hne : str_is_empty (replace_slashes path) = str_is_empty path).
  { destruct path as [|a [|b s]]; [done..|]. cbn. by destruct (_ && _). }
  rewrite Hne. cbn [existsb] in H. repeat case_match; done.
Qed.

(** A file hash is accepted exactly when it has the length of its algorithm and
    only hexadecimal digits; everything else is a validation error. *)
Theorem file_hash_exact algorithm value :
  match FileHash_new algorithm value with
  | Ok h => h = mkFileHash algorithm value ∧ str_len value = expected_length algorithm
            ∧ str_all is_ascii_hexdigit value = true
  | Err e => (∃ msg, e = SE_Validation msg)
             ∧ (str_len value ≠ expected_length algorithm ∨ str_all is_ascii_hexdigit value = false)
  end.
Proof.
  unfold FileHash_new, FileHash_validate; cbn [fh_value fh_algorithm].
  destruct (str_is_empty value) eqn:He.
  { apply str_is_empty_true in He as ->. split; [by eexists|left]. by destruct algorithm. }
  destruct (str_len value =? expected_length algorithm) eqn:Hlen; cbn [negb].
  - apply Z.eqb_eq in Hlen. destruct (str_all is_ascii_hexdigit value) eqn:Hx; cbn; eauto.
  - apply Z.eqb_neq in Hlen. cbn. eauto.
Qed.

(** A timestamp is accepted exactly between the epoch and the year 2100, and an
    accepted one has a calendar date, at the same second. *)
Theorem timestamp_bounds `{CH : Chrono} t :
  match Timestamp_from_unix t with
  | Ok u => u = t ∧ 0 ≤ t ≤ 4102444800
            ∧ ∃ d, Timestamp_to_datetime u = Some d ∧ dt_timestamp d = t ∧ dt_nanosecond d = 0
  | Err e => (∃ msg, e = SE_Validation msg) ∧ ¬ 0 ≤ t ≤ 4102444800
  end.
Proof.
  unfold Timestamp_from_unix, Timestamp_validate. destruct (t <? 0) eqn:H0.
  { apply Z.ltb_lt in H0. cbn. split; [eauto|lia]. }
  destruct (4102444800 <? t) eqn:H1; [apply Z.ltb_lt in H1|apply Z.ltb_ge in H0, H1]; cbn.
  - split; [eauto|lia].
  - split; [done|]. split; [lia|]. exists (mkDateTime t 0). split; [|done].
    apply from_timestamp_calendar; lia.
Qed.

(** ** The event logs *)

(** Accounts over time; a failing operation leaves the account as it is. *)
Inductive account_history : Z → AccountEntity → Prop :=
| history_create email hash uuid now a :
    AccountEntity_create email hash uuid now = Ok a → account_history now a
| history_deactivate now now' a a' :
    account_history now a → now ≤ now' → AccountEntity_deactivate now' a = Ok a' → account_history now' a'
| history_email now now' new_email a a' :
    account_history now a → now ≤ now' → AccountEntity_update_email new_email now' a = Ok a' →
    account_history now' a'.

(** What the log alone says of an account: identifier, e-mail address, times of
    creation and of the last change, and whether it is active. *)
Definition replay_event (e : AccountEvent) (st : option (string * string * Z * Z * bool))
    : option (string * string * Z * Z * bool) :=
  match e, st with
  | AE_Created id email t, None => Some (id, email, t, t, true)
  | AE_EmailUpdated id old new t, Some (id', email, c, _, active) =>
      if (id == id') && (old == email) then Some (id, new, c, t, active) else None
  | AE_Deactivated id t, Some (id', email, c, _, active) =>
      if (id == id') && active then Some (id, email, c, t, false) else None
  | _, _ => None
  end.

Definition replay (es : list AccountEvent) : option (string * string * Z * Z * bool) :=
  foldl (λ st e, replay_event e st) None es.

Lemma AccountEntity_validate_ok a :
  AccountEntity_validate a = Ok tt ↔
  ea_id a ≠ "" ∧ contains_char "@" (ea_email a) = true ∧ ea_account_hash a ≠ ""
  ∧ 0 < ea_created_at a ≤ ea_updated_at a.
Proof.
  unfold AccountEntity_validate.
  destruct (str_is_empty (ea_id a)) eqn:H1; [apply str_is_empty_true in H1; naive_solver|].
  destruct (str_is_empty (ea_email a)) eqn:H2;
    [apply str_is_empty_true in H2; rewrite H2; naive_solver|].
  destruct (contains_char "@" (ea_email a)) eqn:H3; cbn; [|naive_solver].
  destruct (str_is_empty (ea_account_hash a)) eqn:H4; [apply str_is_empty_true in H4; naive_solver|].
  destruct (Z.leb_spec (ea_created_at a) 0), (Z.leb_spec (ea_updated_at a) 0),
    (Z.ltb_spec (ea_updated_at a) (ea_created_at a)); cbn; (split; [intros ?; try done|]);
    try (intros (_ & _ & _ & ?); lia || done).
  split_and!; try done; try lia; intros Hx; [rewrite Hx in H1|rewrite Hx in H4]; done.
Qed.

(** An account stays valid through its whole life, and its event log determines
    it: replaying the log gives its identifier, e-mail address, times and state. *)
Theorem account_log_replays now a :
  account_history now a →
  AccountEntity_validate a = Ok tt ∧ ea_updated_at a ≤ now
  ∧ replay (ea_events a) = Some (ea_id a, ea_email a, ea_created_at a, ea_updated_at a, ea_is_active a).
Proof.
  rewrite AccountEntity_validate_ok. induction 1 as [email hash uuid now a Hc|now now' a a' _ IH Hle Hd
                                      |now now' email a a' _ IH Hle Hu].
  - unfold AccountEntity_create in Hc. destruct (AccountEntity_validate _) as [[]|] eqn:Hv; [|done].
    injection Hc as <-. apply AccountEntity_validate_ok in Hv. cbn in *. split_and!; naive_solver lia.
  - destruct IH as ((Hid & Hem & Hh & Ht) & Hup & Hr).
    unfold AccountEntity_deactivate in Hd. destruct (ea_is_active a) eqn:Ha; [|done]. injection Hd as <-.
    cbn. unfold replay in *. rewrite foldl_app, Hr. cbn.
    rewrite (bool_decide_eq_true_2 (ea_id a = ea_id a)) by done. split_and!; [done..|lia|lia|lia|done].
  - destruct IH as ((Hid & Hem & Hh & Ht) & Hup & Hr). unfold AccountEntity_update_email in Hu.
    destruct (email == ea_email a); [injection Hu as <-; split_and!; (done || lia)|].
    destruct (contains_char "@" email) eqn:Hat; [|done]. injection Hu as <-. cbn.
    unfold replay in *. rewrite foldl_app, Hr. cbn.
    rewrite !bool_decide_eq_true_2 by done. split_and!; [done..|lia|lia|lia|done].
Qed.

(** Devices over time. *)
Inductive device_history : DeviceEntity → Prop :=
| dhistory_register hash account name t now d :
    DeviceEntity_register hash account name t now = Ok d → device_history d
| dhistory_activity now d : 0 < now → device_history d → device_history (DeviceEntity_update_activity now d)
| dhistory_deactivate now d d' : device_history d → DeviceEntity_deactivate now d = Ok d' → device_history d'.

Definition is_deactivation (e : DeviceEvent) : bool :=
  match e with DE_Deactivated _ _ => true | _ => false end.

Lemma DeviceEntity_validate_seen d now b es :
  0 < now → DeviceEntity_validate d = Ok tt →
  DeviceEntity_validate (mkDeviceEntity (ed_device_hash d) (ed_account_hash d) (ed_device_name d)
    (ed_device_type d) now b (ed_created_at d) es) = Ok tt.
Proof.
  intros Hn. unfold DeviceEntity_validate; cbn. repeat (case_match; try done).
  all: repeat match goal with
         | H : (_ || _) = true |- _ => apply orb_true_iff in H as [?%Z.leb_le|?%Z.leb_le]
         | H : (_ || _) = false |- _ => apply orb_false_iff in H as [?%Z.leb_gt ?%Z.leb_gt]
         end; lia || done.
Qed.

(** A device stays valid through its whole life; its log records at most one
    deactivation, exactly when the device is inactive. *)
Theorem device_log_consistent d :
  device_history d →
  DeviceEntity_validate d = Ok tt
  ∧ length (List.filter is_deactivation (ed_events d)) = if ed_is_active d then 0%nat else 1%nat.
Proof.
  induction 1 as [hash account name t now d Hr|now d Hn _ [IHv IHl]|now d d' _ [IHv IHl] Hd].
  - unfold DeviceEntity_register in Hr. destruct (DeviceType_validate t) as [[]|]; [|done]. cbn in Hr.
    destruct (DeviceEntity_validate _) as [[]|] eqn:Hv; [|done]. by injection Hr as <-.
  - split; [by apply DeviceEntity_validate_seen|]. cbn. by rewrite List.filter_app, length_app, IHl, Nat.add_0_r.
  - unfold DeviceEntity_deactivate in Hd. destruct (ed_is_active d) eqn:Ha; [|done]. injection Hd as <-.
    split; [done|]. cbn. by rewrite List.filter_app, length_app, IHl.
Qed.

(** ** Conversions *)

(** The types of device whose name survives the trip through the model. *)
Definition named_type (t : DeviceType) : bool :=
  match t with Desktop | Laptop | Mobile | Tablet => true | _ => false end.

Lemma datetime_or_timestamp `{CH : Chrono} t now :
  0 ≤ t ≤ 253402300799 → dt_timestamp (datetime_or t now) = t.
Proof. intros H. unfold datetime_or. by rewrite from_timestamp_calendar by lia. Qed.

(** A device entity stored as a model and read back is the same device, for the
    four types the reader knows by name; its log is not kept.  A server comes back
    as an unnamed type of device. *)
Theorem device_entity_roundtrip `{CH : Chrono} `{UC : Unicode} e now :
  0 ≤ ed_created_at e ≤ 253402300799 → 0 ≤ ed_last_seen e ≤ 253402300799 →
  (named_type (ed_device_type e) = true →
   DeviceEntity_of_model (model_of_DeviceEntity e now) = DeviceEntity_clear_events e)
  ∧ (ed_device_type e = Server →
     ed_device_type (DeviceEntity_of_model (model_of_DeviceEntity e now)) = OtherType "Server OS").
Proof.
  intros Hc Hl. unfold DeviceEntity_of_model, model_of_DeviceEntity, DeviceEntity_clear_events; cbn.
  rewrite !datetime_or_timestamp by done.
  split; [destruct (ed_device_type e); try done; intros _; cbn; unfold DeviceType_of_os;
          by rewrite to_lowercase_ascii|].
  intros ->. cbn. unfold DeviceType_of_os. by rewrite to_lowercase_ascii.
Qed.

(** ** Rules *)

Definition mirrored (s : ConflictResolutionStrategy) : ConflictResolutionStrategy :=
  match s with UseLocal => UseRemote | UseRemote => UseLocal | s => s end.

(** Two devices that resolve the same conflict, each with its own copy as the
    local one, choose the same copy or both keep both, unless the copies have the
    same time and size: then each keeps its own. *)
Theorem conflict_resolution_agrees t1 t2 n1 n2 :
  let mine := determine_conflict_resolution_strategy t1 t2 n1 n2 in
  let theirs := determine_conflict_resolution_strategy t2 t1 n2 n1 in
  if (t1 =? t2) && (n1 =? n2) then mine = UseLocal ∧ theirs = UseLocal else theirs = mirrored mine.
Proof.
  unfold determine_conflict_resolution_strategy. rewrite (Z.eqb_sym n2 n1).
  destruct (Z.ltb_spec t2 t1), (Z.ltb_spec t1 t2), (Z.eqb_spec t1 t2), (Z.eqb_spec n1 n2); cbn; done || lia.
Qed.

Definition priority_rank (p : SyncPriority) : nat :=
  match p with Low => 0 | Medium => 1 | High => 2 | Critical => 3 end.

(** A file that is no larger and no older never gets a lower priority. *)
Theorem sync_priority_monotone size size' age age' user user' :
  size' ≤ size → age' ≤ age → (user = true → user' = true) →
  (priority_rank (calculate_sync_priority size age user)
   <= priority_rank (calculate_sync_priority size' age' user'))%nat.
Proof.
  intros Hs Ha Hu. unfold calculate_sync_priority. destruct user; [by rewrite Hu|].
  destruct user'; [by repeat case_match; cbn; lia|].
  destruct (Z.ltb_spec (100 * 1024 * 1024) size), (Z.ltb_spec (100 * 1024 * 1024) size'),
    (Z.ltb_spec age 300), (Z.ltb_spec age' 300), (Z.ltb_spec age 3600), (Z.ltb_spec age' 3600); cbn; lia.
Qed.

(** ** Handlers *)

Section registry.
Context {St : Type}.
Abbreviation EventHandler := (DomainEventWrapper → St → result unit SyncError * St).
Implicit Types (r : gmap string (list EventHandler)) (s : St).

(** Handlers registered one after the other. *)
Definition register_all (hs : list (string * EventHandler)) : gmap string (list EventHandler) :=
  foldl (λ r h, register_handler h.1 h.2 r) ∅ hs.

Lemma register_all_lookup hs t :
  default [] (register_all hs !! t) = (List.filter (λ h, h.1 == t) hs).*2.
Proof.
  unfold register_all. induction hs as [|[t' h] hs IH] using rev_ind; [done|].
  rewrite foldl_app, List.filter_app, fmap_app, <-IH. cbn [foldl List.filter fst snd].
  unfold register_handler at 1. destruct (decide (t' = t)) as [->|Hne].
  - by rewrite lookup_insert_eq, bool_decide_eq_true_2.
  - rewrite lookup_insert_ne, bool_decide_eq_false_2 by done. by rewrite app_nil_r.
Qed.

(** An event reaches the handlers of its type, in the order they were
    registered and up to the first that fails, whose error is the answer; handlers
    of other types do not run. *)
Theorem event_dispatch hs e s :
  let mine := (List.filter (λ h, h.1 == event_type e) hs).*2 in
  ∃ ran skipped, mine = (ran ++ skipped)%list
  ∧ (handle_event (register_all hs) e s).2 = foldl (λ s h, (h e s).2) s ran
  ∧ match (handle_event (register_all hs) e s).1 with
    | Ok _ => skipped = []
    | Err err => ∃ ran' h, ran = (ran' ++ [h])%list ∧ (h e (foldl (λ s h, (h e s).2) s ran')).1 = Err err
    end.
Proof.
  intros mine.
  assert (H : handle_event (register_all hs) e s = run_handlers mine e s).
  { unfold handle_event, mine. rewrite <-register_all_lookup. by destruct (register_all hs !! event_type e). }
  rewrite H. clearbody mine. clear H hs. revert s. induction mine as [|h hs IH]; intros s.
  - by exists [], [].
  - cbn. destruct (h e s) as [[[]|err] s'] eqn:Eh.
    + destruct (IH s') as (ran & skipped & -> & Hs & Hr). exists (h :: ran), skipped. cbn. rewrite Eh.
      split_and!; [done|done|]. destruct (run_handlers _ e s') as [[|err] ?]; [done|]. cbn in *.
      destruct Hr as (ran' & h' & -> & Hh). exists (h :: ran'), h'. cbn. by rewrite Eh.
    + exists [h], hs. cbn. rewrite Eh. split_and!; [done|done|]. exists [], h. cbn. by rewrite Eh.
Qed.

End registry.

(** ** Witnesses *)

Lemma normalize_total_witness :
  FilePath_new "/home//user/f.txt" = Ok "/home//user/f.txt"
  ∧ FilePath_normalize "/home//user/f.txt" = Ok "/home/user/f.txt".
Proof. split; [reflexivity|]. apply (normalize_total "/home//user/f.txt"). reflexivity. Defined.

Definition account0 : AccountEntity :=
  mkAccountEntity "id" "a@b.c" "hash" 100 100 true [AE_Created "id" "a@b.c" 100].

Lemma account_log_replays_witness :
  ∃ a, AccountEntity_deactivate 150 account0 = Ok a
  ∧ replay (ea_events a) = Some ("id", "a@b.c", 100, 150, false).
Proof.
  eexists. split; [reflexivity|].
  apply (account_log_replays 150).
  apply (history_deactivate 100 150 account0); [|lia|reflexivity].
  by apply (history_create "a@b.c" "hash" "id").
Defined.

Definition device0 : DeviceEntity :=
  mkDeviceEntity "dev" "acc" "Laptop" Laptop 100 true 100 [DE_Registered "dev" "acc" "Laptop" Laptop 100].

Lemma device_log_consistent_witness :
  device_history device0 ∧ DeviceEntity_validate device0 = Ok tt.
Proof.
  assert (H : device_history device0) by by apply (dhistory_register "dev" "acc" "Laptop" Laptop 100).
  split; [exact H|]. apply (device_log_consistent device0 H).
Defined.

Lemma device_entity_roundtrip_witness :
  DeviceEntity_of_model (H := ascii_unicode)
    (model_of_DeviceEntity (H := chrono_range) device0 (λ _, mkDateTime 0 0)) = DeviceEntity_clear_events device0.
Proof.
  apply (device_entity_roundtrip (CH := chrono_range) (UC := ascii_unicode) device0 (λ _, mkDateTime 0 0));
    cbn; lia || reflexivity.
Defined.

Lemma sync_priority_monotone_witness :
  (priority_rank (calculate_sync_priority 2000 4000 false)
   <= priority_rank (calculate_sync_priority 1000 100 false))%nat.
Proof. apply (sync_priority_monotone 2000 1000 4000 100 false false); [lia|lia|done]. Defined.
