(* ===== verification/EventBus.v ===== *)
(** * The event bus and its consumer (src/server/event_bus.rs,
    src/bin/rabbit_consumer.rs)

    The server publishes events to a topic exchange; the consumer binds durable
    queues to it and handles what they deliver: it skips messages it has seen,
    acknowledges those it can parse, and sends the others round again or to the
    dead-letter exchange.  The broker is outside: the model says what the program
    asks of it. *)

From S2P Require Import Prelude RustString Errors.

Abbreviation bytes := (list Byte.byte).

(** ** Requests to the broker *)

(** The values of a header the consumer distinguishes. *)
Inductive AMQPValue := LongInt (n : Z) | LongUInt (n : Z) | LongString (s : string) | OtherValue.

Inductive AmqpRequest :=
| ExchangeDeclare (exchange : string) (durable : bool)
| QueueDeclare (queue : string) (durable exclusive auto_delete : bool) (arguments : list (string * AMQPValue))
| QueueBind (queue exchange routing_key : string)
| BasicPublish (exchange routing_key : string) (body : bytes) (headers : list (string * AMQPValue))
| BasicAck (delivery_tag : Z).

Record Delivery := mkDelivery {
  dl_tag : Z; dl_routing_key : string; dl_headers : option (gmap string AMQPValue); dl_data : bytes
}.

(** ** The event bus *)

Record RabbitMqEventBus := mkRabbitMqEventBus { rb_exchange : string; rb_queue_prefix : string; rb_prefetch : Z }.

(** What [connect] asks for once connection and channel are open. *)
Definition connect (exchange queue_prefix : string) (prefetch : Z) (durable : bool)
    : RabbitMqEventBus * list AmqpRequest :=
  (mkRabbitMqEventBus exchange queue_prefix prefetch, [ExchangeDeclare exchange durable]).

Definition publish_event (bus : RabbitMqEventBus) (routing_key : string) (payload : bytes) : AmqpRequest :=
  BasicPublish (rb_exchange bus) routing_key payload [].

(** [subscribe]: a queue of its own, named with a random suffix. *)
Definition subscribe_requests (bus : RabbitMqEventBus) (binding_key nanoid : string) : list AmqpRequest :=
  let qname := rb_queue_prefix bus +:+ "." +:+ nanoid in
  [QueueDeclare qname true true true []; QueueBind qname (rb_exchange bus) binding_key].

(** The task of [subscribe]: every delivery is passed on, if the receiver is still
    there, and acknowledged in any case. *)
Fixpoint forward (receiver_alive : nat → bool) (i : nat) (deliveries : list (result Delivery string))
    : list bytes * list AmqpRequest :=
  match deliveries with
  | [] => ([], [])
  | Err _ :: ds => forward receiver_alive (S i) ds
  | Ok d :: ds =>
      let '(sent, acks) := forward receiver_alive (S i) ds in
      (if receiver_alive i then dl_data d :: sent else sent, BasicAck (dl_tag d) :: acks)
  end.

(** ** The consumer *)

(** [s.replace(c, by)]. *)
Fixpoint replace_char (c : ascii) (by_ : string) (s : string) : string :=
  match s with
  | EmptyString => EmptyString
  | String a s' => if bool_decide (a = c) then by_ +:+ replace_char c by_ s' else String a (replace_char c by_ s')
  end.

Definition sanitize_binding_key (key : string) : string :=
  replace_char "." "_" (replace_char "#" "hash" (replace_char "*" "star" key)).

Definition binding_keys : list string := ["file.*.#"; "version.*.#"; "device.*.#"; "watcher.*.update.#"].

Definition queue_base (queue_prefix key : string) : string :=
  queue_prefix +:+ ".consumer." +:+ sanitize_binding_key key.

(** The queues and bindings of one key. *)
Definition key_topology (exchange queue_prefix : string) (retry_ttl_ms : Z) (key : string) : list AmqpRequest :=
  let dlx_exchange := exchange +:+ ".dlx" in
  let qmain := queue_base queue_prefix key in
  let qretry := qmain +:+ ".retry" in
  let qdlq := qmain +:+ ".dlq" in
  [ QueueDeclare qmain true false false [("x-dead-letter-exchange", LongString dlx_exchange)];
    QueueBind qmain exchange key;
    QueueDeclare qretry true false false
      [("x-dead-letter-exchange", LongString exchange); ("x-message-ttl", LongUInt retry_ttl_ms)];
    QueueBind qretry exchange key;
    QueueDeclare qdlq true false false [];
    QueueBind qdlq dlx_exchange "#" ].

Definition consumer_topology (exchange queue_prefix : string) (retry_ttl_ms : Z) : list AmqpRequest :=
  ExchangeDeclare (exchange +:+ ".dlx") true
  :: concat (map (key_topology exchange queue_prefix retry_ttl_ms) binding_keys).

Section consumer.
(** The decoder of UTF-8 and the JSON parser: [json_id s] is [None] when [s] is not
    JSON, and else the text of its field ["id"], if it has one.  [json_ok] is the
    parser on bytes. *)
Context (from_utf8 : bytes → option string) (json_id : string → option (option string)) (json_ok : bytes → bool).

Definition payload_id (body : bytes) : string :=
  match from_utf8 body ≫= json_id with
  | Some (Some id) => id
  | _ => "h:" +:+ pretty (Z.of_nat (length body))
  end.

(** [mark_seen_id_async] without Redis: whether the identifier is new. *)
Definition mark_seen (id : string) (seen : gset string) : bool * gset string :=
  (negb (bool_decide (id ∈ seen)), {[id]} ∪ seen).

(** [mark_seen_id_async] with Redis.  [None]: no host is configured; else what
    [SET id 1 NX EX ttl] answered. *)
Definition mark_seen_redis (reply : option (result (option string) string)) : bool :=
  match reply with
  | Some (Ok (Some _)) => true
  | Some (Ok None) => false
  | Some (Err _) => false
  | None => false
  end.

(** The header ["x-retry-count"] as a [u32]. *)
Definition retry_count (d : Delivery) : Z :=
  match dl_headers d ≫= lookup "x-retry-count" with
  | Some (LongInt n) => Z.max n 0
  | Some (LongUInt n) => n
  | _ => 0
  end.

(** What happens to a delivery whose identifier is new, in a build without overflow
    checks. *)
Definition handle_new (exchange : string) (max_retries : Z) (d : Delivery) : list AmqpRequest :=
  if json_ok (dl_data d) then [BasicAck (dl_tag d)]
  else
    let next := wrap_u32 (retry_count d + 1) in
    let target := if max_retries <=? next then exchange +:+ ".dlx" else exchange in
    [BasicPublish target (dl_routing_key d) (dl_data d) [("x-retry-count", LongUInt next)]; BasicAck (dl_tag d)].

(** One turn of the loop. *)
Definition consume (exchange : string) (max_retries : Z) (d : Delivery) (seen : gset string)
    : list AmqpRequest * gset string :=
  let '(is_new, seen') := mark_seen (payload_id (dl_data d)) seen in
  (if is_new then handle_new exchange max_retries d else [BasicAck (dl_tag d)], seen').

Fixpoint consume_all (exchange : string) (max_retries : Z) (ds : list Delivery) (seen : gset string)
    : list AmqpRequest * gset string :=
  match ds with
  | [] => ([], seen)
  | d :: ds =>
      let '(rs, seen) := consume exchange max_retries d seen in
      let '(rs', seen) := consume_all exchange max_retries ds seen in
      ((rs ++ rs')%list, seen)
  end.

End consumer.

(** ** Properties *)

Lemma replace_char_absent c by_ s : contains_char c by_ = false → contains_char c (replace_char c by_ s) = false.
Proof.
  intros Hb. induction s as [|a s IH]; [done|]. cbn. case_bool_decide as Ha.
  - by rewrite contains_char_app, Hb.
  - cbn. by rewrite bool_decide_eq_false_2.
Qed.

Lemma replace_char_keeps_absent c c' by_ s :
  contains_char c' by_ = false → contains_char c' s = false → contains_char c' (replace_char c by_ s) = false.
Proof.
  intros Hb. induction s as [|a s IH]; [done|]. cbn. rewrite orb_false_iff. intros [Ha Hs].
  destruct (a == c); [by rewrite contains_char_app, Hb, IH|]. cbn. by rewrite Ha, IH.
Qed.

(** The name of a queue has none of the characters that mean something in a
    binding key. *)
Lemma sanitize_plain key c : c ∈ ["*"; "#"; "."]%char → contains_char c (sanitize_binding_key key) = false.
Proof.
  unfold sanitize_binding_key. intros Hc. repeat (apply elem_of_cons in Hc as [->|Hc]); [..|set_solver].
  - do 2 (apply replace_char_keeps_absent; [done|]). by apply replace_char_absent.
  - apply replace_char_keeps_absent; [done|]. by apply replace_char_absent.
  - by apply replace_char_absent.
Qed.

Section consumer_props.
Context (from_utf8 : bytes → option string) (json_id : string → option (option string)) (json_ok : bytes → bool).
Context (exchange : string) (max_retries : Z).
Implicit Types (d : Delivery) (ds : list Delivery) (seen : gset string).

Abbreviation id_of := (payload_id from_utf8 json_id).
Abbreviation consume1 := (consume from_utf8 json_id json_ok exchange max_retries).
Abbreviation consumes := (consume_all from_utf8 json_id json_ok exchange max_retries).

Definition ack_of (r : AmqpRequest) : option Z := match r with BasicAck t => Some t | _ => None end.
Definition published (r : AmqpRequest) : option bytes :=
  match r with BasicPublish _ _ body _ => Some body | _ => None end.

Lemma consume_cases d seen :
  (id_of (dl_data d) ∈ seen ∧ consume1 d seen = ([BasicAck (dl_tag d)], seen))
  ∨ ((id_of (dl_data d) ∉ seen)
     ∧ consume1 d seen = (handle_new json_ok exchange max_retries d, {[id_of (dl_data d)]} ∪ seen)).
Proof.
  unfold consume, mark_seen. case_bool_decide as H; [left|right]; split; try done. cbn.
  f_equal. set_solver.
Qed.

Lemma consume_all_seen ds seen : seen ⊆ (consumes ds seen).2.
Proof.
  revert seen. induction ds as [|d ds IH]; intros seen; [done|]. cbn [consume_all].
  destruct (consume_cases d seen) as [[_ ->]|[_ ->]];
    match goal with |- context [consumes ds ?x] => specialize (IH x); destruct (consumes ds x) end; cbn in *;
    set_solver.
Qed.

(** Every delivery is acknowledged exactly once, in the order of delivery,
    whatever becomes of it. *)
Theorem every_delivery_acked ds seen :
  omap ack_of (consumes ds seen).1 = dl_tag <$> ds.
Proof.
  revert seen. induction ds as [|d ds IH]; intros seen; [done|]. cbn [consume_all].
  destruct (consume_cases d seen) as [[_ ->]|[_ ->]];
    match goal with |- context [consumes ds ?x] => specialize (IH x); destruct (consumes ds x) end; cbn in *.
  - by rewrite IH.
  - rewrite omap_app, IH. unfold handle_new. by destruct (json_ok _).
Qed.

(** The consumer cannot feed itself forever: whatever is delivered, it publishes
    at most one message for each identifier, and none for one it has seen. *)
Theorem published_once_per_id ds seen i :
  (length (filter (λ body, id_of body = i) (omap published (consumes ds seen).1))
   <= if bool_decide (i ∈ seen) then 0 else 1)%nat.
Proof.
  revert seen. induction ds as [|d ds IH]; intros seen; [cbn; lia|]. cbn [consume_all].
  destruct (consume_cases d seen) as [[Hin ->]|[Hin ->]].
  - specialize (IH seen). destruct (consumes ds seen). exact IH.
  - specialize (IH ({[id_of (dl_data d)]} ∪ seen)). destruct (consumes ds _) as [rs ?]. cbn in *.
    rewrite omap_app, filter_app, length_app. unfold handle_new.
    assert (Hi : id_of (dl_data d) = i → i ∉ seen) by (intros <-; exact Hin).
    assert (Hu : i ∈ {[id_of (dl_data d)]} ∪ seen ↔ id_of (dl_data d) = i ∨ i ∈ seen) by set_solver.
    rewrite (bool_decide_ext _ _ Hu) in IH. destruct (json_ok (dl_data d)); cbn; [|case_decide; cbn];
      repeat case_bool_decide; naive_solver lia.
Qed.

(** The parser on bytes accepts the texts the parser on strings accepts. *)
Hypothesis json_ok_utf8 : ∀ body, json_ok body = true ↔ is_Some (from_utf8 body ≫= json_id).

(** A message that cannot be parsed and is sent round again is lost: its next
    delivery has the identifier of the first, is taken for a duplicate and
    acknowledged, so that it never reaches the dead-letter queue. *)
Theorem retried_message_is_lost d d' ds seen :
  json_ok (dl_data d) = false → id_of (dl_data d) ∉ seen →
  0 ≤ retry_count d → retry_count d + 1 < max_retries → max_retries < 2 ^ 32 →
  json_ok (dl_data d') = false → length (dl_data d') = length (dl_data d) →
  let '(rs, seen1) := consume1 d seen in
  rs = [BasicPublish exchange (dl_routing_key d) (dl_data d) [("x-retry-count", LongUInt (retry_count d + 1))];
        BasicAck (dl_tag d)]
  ∧ (consume1 d' (consumes ds seen1).2).1 = [BasicAck (dl_tag d')].
Proof.
  intros Hj Hnew Hr0 Hr Hmax Hj' Hlen.
  assert (Hid : ∀ body, json_ok body = false → id_of body = "h:" +:+ pretty (Z.of_nat (length body))).
  { intros body Hb. unfold payload_id. destruct (from_utf8 body ≫= json_id) as [o|] eqn:E; [|done].
    rewrite (proj2 (json_ok_utf8 body)) in Hb; [done|]. rewrite E. eauto. }
  destruct (consume_cases d seen) as [[? _]|[_ Hc]]; [done|]. rewrite Hc. split.
  - unfold handle_new. rewrite Hj. unfold wrap_u32. rewrite Z.mod_small by lia.
    by rewrite (proj2 (Z.leb_gt _ _)) by lia.
  - destruct (consume_cases d' (consumes ds ({[id_of (dl_data d)]} ∪ seen)).2) as [[_ ->]|[Hn _]]; [done|].
    destruct Hn. apply consume_all_seen. rewrite !Hid, Hlen by done. set_solver.
Qed.

End consumer_props.


(** ** Witness *)

(** A parser that takes texts in braces for JSON without an identifier. *)
Definition utf8_0 (b : bytes) : option string := Some (String.string_of_list_byte b).
Definition json_id_0 (s : string) : option (option string) := if starts_with "{" s then Some None else None.
Definition json_ok_0 (b : bytes) : bool := starts_with "{" (String.string_of_list_byte b).
Definition broken (tag : Z) (text : string) : Delivery :=
  mkDelivery tag "file.acc" None (String.list_byte_of_string text).

Lemma retried_message_is_lost_witness :
  let '(rs, seen1) := consume utf8_0 json_id_0 json_ok_0 "cosmic.sync" 3 (broken 1 "oops") ∅ in
  (consume utf8_0 json_id_0 json_ok_0 "cosmic.sync" 3 (broken 2 "oops") seen1).1 = [BasicAck 2].
Proof.
  assert (Hlaw : ∀ body, json_ok_0 body = true ↔ is_Some (utf8_0 body ≫= json_id_0)).
  { intros body. unfold json_ok_0, utf8_0, json_id_0. cbn [mbind option_bind].
    destruct (starts_with "{" _); (split; [intros ?; done || eauto|intros [? ?]; done]). }
  pose proof (retried_message_is_lost utf8_0 json_id_0 json_ok_0 "cosmic.sync" 3 Hlaw (broken 1 "oops")
                (broken 2 "oops") [] ∅ eq_refl) as H.
  destruct (consume utf8_0 json_id_0 json_ok_0 "cosmic.sync" 3 (broken 1 "oops") ∅) as [rs seen1].
  apply H; [apply not_elem_of_empty|vm_compute; congruence|reflexivity..].
Defined.
