(* ===== verification/MySql.v ===== *)
(** * The MySQL storage: connection, accounts, tokens, devices, keys, contents
    (src/storage/mysql.rs, mysql_account.rs, mysql_auth.rs, mysql_device.rs and
    the tables [file_data] and [encryption_keys] of mysql_file.rs)

    The database is a record of tables, a table the list of its rows in the order
    of insertion.  Every statement may fail: [fault n] is the error of the [n]-th
    statement sent, if any, which covers lost connections as well as the
    constraints of the tables.  A transaction is rolled back when it is dropped; a
    failed commit may or may not have taken effect. *)

From S2P Require Import Prelude RustString Errors Models Memory StorageApi Effects Crypto.

(** ** Rows *)

Record account_row := mkAccountRow {
  ar_id : string; ar_account_hash : string; ar_email : string; ar_name : string;
  ar_password_hash : option string; ar_salt : option string;
  ar_created_at : Z; ar_updated_at : Z; ar_last_login : option Z; ar_is_active : bool
}.

Record token_row := mkTokenRow {
  tk_id : string; tk_account_hash : string; tk_access_token : string; tk_refresh_token : option string;
  tk_token_type : string; tk_expires_at : Z; tk_created_at : Z
}.

Record device_row := mkDeviceRow {
  vr_id : string; vr_acc_hash : string; vr_device_hash : string; vr_device_name : string;
  vr_device_type : string; vr_os_type : string; vr_os_version : string; vr_app_version : string;
  vr_last_sync : Z; vr_created_at : Z; vr_updated_at : Z; vr_is_active : bool
}.

Record key_row := mkKeyRow { kr_account_hash : string; kr_encryption_key : string; kr_created_at : Z; kr_updated_at : Z }.

Record data_row := mkDataRow { dr_file_id : Z; dr_data : bytes; dr_created_at : Z; dr_updated_at : Z }.

(** A row of [files]; the columns a statement does not set have their defaults. *)
Record file_row := mkFileRow {
  fr_file_id : Z; fr_account_hash : string; fr_device_hash : string;
  fr_file_path : bytes; fr_filename : bytes; fr_file_hash : string; fr_size : Z;
  fr_is_deleted : bool; fr_revision : Z; fr_created_time : option Z; fr_updated_time : option Z;
  fr_group_id : Z; fr_watcher_id : Z; fr_server_group_id : Z; fr_server_watcher_id : Z;
  fr_eq_index : bytes; fr_token_path : string; fr_key_id : option string
}.

(** Rows of the watcher tables; [id] is the column the database numbers. *)
Record groups_row := mkGroupRow {
  gr_id : Z; gr_group_id : Z; gr_account_hash : string; gr_device_hash : string; gr_title : string;
  gr_created_at : option Z; gr_updated_at : option Z; gr_is_active : bool
}.

Record watchers_row := mkWatcherRow {
  wr_id : Z; wr_watcher_id : Z; wr_account_hash : string; wr_group_id : Z; wr_local_group_id : Z;
  wr_folder : string; wr_title : string; wr_is_recursive : bool; wr_created_at : Z; wr_updated_at : Z;
  wr_is_active : bool; wr_extra_json : string
}.

Record conditions_row := mkConditionRow {
  cr_id : Z; cr_account_hash : string; cr_watcher_id : Z; cr_local_watcher_id : option Z; cr_local_group_id : Z;
  cr_condition_type : string; cr_key : string; cr_value : string; cr_operator : string;
  cr_created_at : Z; cr_updated_at : Z
}.

Record presets_row := mkPresetRow {
  pr_account_hash : string; pr_preset_json : string; pr_created_at : Z; pr_updated_at : Z
}.

Record WatchDb := mkWatchDb {
  t_watcher_groups : list groups_row;
  t_watchers : list watchers_row;
  t_watcher_conditions : list conditions_row;
  t_watcher_presets : list presets_row;
  t_file_notices : list FileNotice
}.

Record Db := mkDb {
  t_accounts : list account_row;
  t_auth_tokens : list token_row;
  t_devices : list device_row;
  t_encryption_keys : list key_row;
  t_file_data : list data_row;
  t_files : list file_row;
  t_watch : WatchDb
}.

Definition with_accounts (l : list account_row) (d : Db) : Db :=
  mkDb l (t_auth_tokens d) (t_devices d) (t_encryption_keys d) (t_file_data d) (t_files d) (t_watch d).
Definition with_tokens (l : list token_row) (d : Db) : Db :=
  mkDb (t_accounts d) l (t_devices d) (t_encryption_keys d) (t_file_data d) (t_files d) (t_watch d).
Definition with_devices (l : list device_row) (d : Db) : Db :=
  mkDb (t_accounts d) (t_auth_tokens d) l (t_encryption_keys d) (t_file_data d) (t_files d) (t_watch d).
Definition with_keys (l : list key_row) (d : Db) : Db :=
  mkDb (t_accounts d) (t_auth_tokens d) (t_devices d) l (t_file_data d) (t_files d) (t_watch d).
Definition with_data (l : list data_row) (d : Db) : Db :=
  mkDb (t_accounts d) (t_auth_tokens d) (t_devices d) (t_encryption_keys d) l (t_files d) (t_watch d).
Definition with_files (l : list file_row) (d : Db) : Db :=
  mkDb (t_accounts d) (t_auth_tokens d) (t_devices d) (t_encryption_keys d) (t_file_data d) l (t_watch d).
Definition with_watch (f : WatchDb → WatchDb) (d : Db) : Db :=
  mkDb (t_accounts d) (t_auth_tokens d) (t_devices d) (t_encryption_keys d) (t_file_data d) (t_files d)
    (f (t_watch d)).

(** [UPDATE .. SET f WHERE p]. *)
Definition sql_update {R} (p : R → bool) (f : R → R) (l : list R) : list R := map (λ r, if p r then f r else r) l.

(** [=] on text columns follows the collation of the database. *)
Class Collation := {
  coll_eq : string → string → bool;
  coll_eq_refl : ∀ s, coll_eq s s = true;
  coll_eq_sym : ∀ s t, coll_eq s t = true → coll_eq t s = true;
  coll_eq_trans : ∀ s t u, coll_eq s t = true → coll_eq t u = true → coll_eq s u = true
}.
Infix "≈c" := coll_eq (at level 70).

(** The error texts of sqlx for a [NULL] in a column whose type does not admit it,
    and of the database when the numbers of a column have run out. *)
Class Sqlx := { unexpected_null : nat → string; numbers_exhausted : string }.

Definition not_null `{Sqlx} {A} (column : nat) (v : option A) : result A string :=
  match v with Some a => Ok a | None => Err (unexpected_null column) end.

(** ** Statements and transactions *)

Record Conn := mkConn { cn_db : Db; cn_step : nat }.

Section sql.
Context (fault : nat → option string) (commit_applied : bool).

(** One statement on a connection of its own; [err] makes the storage error. *)
Definition exec {A} (err : string → StorageError) (f : Db → A * Db) : M Conn A := λ c,
  match fault (cn_step c) with
  | Some e => (Returned (Err (err e)), mkConn (cn_db c) (S (cn_step c)))
  | None => let '(a, d) := f (cn_db c) in (Returned (Ok a), mkConn d (S (cn_step c)))
  end.

Definition query {A} (err : string → StorageError) (f : Db → A) : M Conn A := exec err (λ d, (f d, d)).

(** [fetch_optional] of a row that is decoded with [dec]. *)
Definition fetch_optional {R A} (err : string → StorageError) (dec : R → result A string) (f : Db → option R)
    : M Conn (option A) :=
  row ←? query err f;
  match row with
  | None => ret None
  | Some r => match dec r with Ok a => ret (Some a) | Err e => throw (err e) end
  end.

(** [begin], a body in which [?] drops the transaction, and [commit]. *)
Definition transaction {A} (begin_err commit_err : string → StorageError) (body : M Conn A) : M Conn A := λ c,
  match fault (cn_step c) with
  | Some e => (Returned (Err (begin_err e)), mkConn (cn_db c) (S (cn_step c)))
  | None =>
      match body (mkConn (cn_db c) (S (cn_step c))) with
      | (Returned (Ok a), c1) =>
          match fault (cn_step c1) with
          | Some e => (Returned (Err (commit_err e)),
                       mkConn (if commit_applied then cn_db c1 else cn_db c) (S (cn_step c1)))
          | None => (Returned (Ok a), mkConn (cn_db c1) (S (cn_step c1)))
          end
      | (r, c1) => (r, mkConn (cn_db c) (cn_step c1))
      end
  end.

(** [StorageError::Database(e.to_string())], and with a text before it. *)
Definition db_err (e : string) : StorageError := Database e.
Definition db_err_at (what : string) (e : string) : StorageError := Database (what +:+ e).

Section tables.
Context `{CO : Collation} `{SX : Sqlx} `{CH : Chrono}.

(** ** Accounts (mysql_account.rs) *)

Definition row_of_account (account : Account) : account_row :=
  mkAccountRow (a_id account) (a_account_hash account) (a_email account) (a_name account)
    (Some (a_password_hash account)) (Some (a_salt account)) (dt_timestamp (a_created_at account))
    (dt_timestamp (a_updated_at account)) (Some (dt_timestamp (a_last_login account))) (a_is_active account).

(** The columns are decoded from left to right; [NULL] is an error. *)
Definition account_of_row (now : nat → DateTime) (r : account_row) : result Account string :=
  password_hash <-? not_null 4 (ar_password_hash r);
  salt <-? not_null 5 (ar_salt r);
  last_login <-? not_null 8 (ar_last_login r);
  Ok {| a_account_hash := ar_account_hash r; a_id := ar_id r; a_email := ar_email r; a_name := ar_name r;
     a_user_type := "oauth"; a_password_hash := password_hash; a_salt := salt;
     a_is_active := ar_is_active r;
     a_created_at := default (now 0%nat) (from_timestamp (ar_created_at r) 0);
     a_last_login := default (now 2%nat) (from_timestamp last_login 0);
     a_updated_at := default (now 1%nat) (from_timestamp (ar_updated_at r) 0);
     a_user_id := "" |}.

(** The outcome of one attempt of [create_account]: it is done, it is given up, or
    the table was made anew and the attempt is repeated. *)
Inductive attempt := Done | GiveUp (e : StorageError) | Again (count_it_twice : bool).

(** One turn of the loop; [retry_count] turns came before. *)
Definition create_account_attempt (account : Account) (retry_count : Z) : M Conn attempt := λ c,
  match fault (cn_step c) with
  | Some e => (Returned (Err (db_err_at "Failed to start transaction: " e)), mkConn (cn_db c) (S (cn_step c)))
  | None =>
      let insert := S (cn_step c) in
      match fault insert with
      | None =>
          let db := with_accounts (t_accounts (cn_db c) ++ [row_of_account account]) (cn_db c) in
          match fault (S insert) with
          | Some e => (Returned (Ok (GiveUp (db_err_at "Failed to commit transaction: " e))),
                       mkConn (if commit_applied then db else cn_db c) (S (S insert)))
          | None => (Returned (Ok Done), mkConn db (S (S (S insert))))
          end
      | Some e =>
          (* the rollback is statement [S insert], whose outcome is ignored *)
          let probe := S (S insert) in
          if str_contains "Duplicate entry" e
          then (Returned (Ok (GiveUp (Database ("Duplicate entry: " +:+ e)))), mkConn (cn_db c) probe)
          else
            match fault probe with
            | None =>
                (* [DESCRIBE] is the next statement, only logged *)
                (Returned (Ok (if 2 <=? retry_count
                               then GiveUp (Database ("Failed to insert account after 2 retries: " +:+ e))
                               else Again false)), mkConn (cn_db c) (S (S probe)))
            | Some _ =>
                match fault (S probe) with
                | None => (Returned (Ok (Again true)), mkConn (cn_db c) (S (S probe)))
                | Some e' => (Returned (Ok (GiveUp (db_err_at "Failed to create accounts table: " e'))),
                              mkConn (cn_db c) (S (S probe)))
                end
            end
      end
  end.

(** The loop; a turn that created the table goes on without the final test. *)
Fixpoint create_account_loop (fuel : nat) (account : Account) (retry_count : Z) : M Conn unit :=
  match fuel with
  | O => λ c, (Panicked, c)
  | S fuel =>
      a ←? create_account_attempt account retry_count;
      match a with
      | Done => ret tt
      | GiveUp e => throw e
      | Again true => create_account_loop fuel account (retry_count + 1)
      | Again false =>
          if 2 <=? retry_count + 1 then throw (Database "Failed to insert account after maximum retries")
          else create_account_loop fuel account (retry_count + 1)
      end
  end.

Definition my_get_account_by_email (email : string) (now : nat → DateTime) : M Conn (option Account) :=
  fetch_optional (db_err_at "Failed to query account by email: ") (account_of_row now) (λ d,
    List.find (λ r, ar_email r ≈c email) (t_accounts d)).

Definition my_get_account_by_hash (account_hash : string) (now : nat → DateTime) : M Conn (option Account) :=
  fetch_optional (db_err_at "Failed to query account: ") (account_of_row now) (λ d,
    List.find (λ r, ar_account_hash r ≈c account_hash) (t_accounts d)).

Definition my_get_account_by_id (id : string) : M Conn (option Account) :=
  throw (NotImplemented "get_account_by_id not implemented for MySQL storage").

Definition my_update_account (account : Account) : M Conn unit :=
  exec (db_err_at "Failed to update account: ") (λ d,
    (tt, with_accounts (sql_update (λ r, ar_account_hash r ≈c a_account_hash account)
           (λ r, mkAccountRow (ar_id r) (ar_account_hash r) (a_email account) (a_name account)
                   (Some (a_password_hash account)) (Some (a_salt account)) (ar_created_at r)
                   (dt_timestamp (a_updated_at account)) (Some (dt_timestamp (a_last_login account)))
                   (a_is_active account)) (t_accounts d)) d)).

Definition my_delete_account (account_hash : string) : M Conn unit :=
  throw (NotImplemented "delete_account not implemented for MySQL storage").

(** ** Tokens (mysql_auth.rs) *)

Definition my_create_auth_token (t : AuthToken) : M Conn unit :=
  exec (db_err_at "Failed to insert auth token: ") (λ d,
    (tt, with_tokens (t_auth_tokens d ++
           [mkTokenRow (at_token_id t) (at_account_hash t) (at_access_token t)
              (Some (default "" (at_refresh_token t))) (at_token_type t)
              (dt_timestamp (at_expires_at t)) (dt_timestamp (at_created_at t))]) d)).

Definition my_get_auth_token (token : string) : M Conn (option AuthToken) :=
  row ←? query (db_err_at "토큰 조회 쿼리 실패: ") (λ d,
           List.find (λ r, tk_access_token r ≈c token) (t_auth_tokens d));
  match row with
  | None => ret None
  | Some r =>
      match from_timestamp (tk_expires_at r) 0 with
      | None => throw (General ("만료 시간 변환 실패: " +:+ pretty (tk_expires_at r)))
      | Some expires_at =>
          match from_timestamp (tk_created_at r) 0 with
          | None => throw (General ("생성 시간 변환 실패: " +:+ pretty (tk_created_at r)))
          | Some created_at =>
              ret (Some (mkAuthToken (tk_id r) (tk_account_hash r) (tk_access_token r) (tk_refresh_token r)
                           created_at expires_at true (tk_token_type r) None))
          end
      end
  end.

Definition my_validate_auth_token (token account_hash : string) (now : DateTime) : M Conn bool :=
  query db_err (λ d,
    existsb (λ r, (tk_access_token r ≈c token) && (tk_account_hash r ≈c account_hash)
                  && (dt_timestamp now <? tk_expires_at r)) (t_auth_tokens d)).

Definition my_update_auth_token (t : AuthToken) : M Conn unit :=
  throw (NotImplemented "update_auth_token not implemented yet for MySQL storage").

Definition my_delete_auth_token (token : string) : M Conn unit :=
  exec db_err (λ d,
    (tt, with_tokens (List.filter (λ r, negb (tk_access_token r ≈c token)) (t_auth_tokens d)) d)).

(** ** Devices (mysql_device.rs) *)

Definition same_device (account_hash device_hash : string) (r : device_row) : bool :=
  (vr_acc_hash r ≈c account_hash) && (vr_device_hash r ≈c device_hash).

Definition device_of_row (now : nat → DateTime) (r : device_row) : Device :=
  {| d_user_id := vr_device_name r; d_account_hash := vr_acc_hash r; d_device_hash := vr_device_hash r;
     d_updated_at := default (now 1%nat) (from_timestamp (vr_updated_at r) 0);
     d_registered_at := default (now 0%nat) (from_timestamp (vr_created_at r) 0);
     d_last_sync := default (now 2%nat) (from_timestamp (vr_last_sync r) 0);
     d_is_active := vr_is_active r; d_os_version := vr_os_version r; d_app_version := vr_app_version r |}.

Definition my_register_device (device : Device) (now : DateTime) (uuid : string) : M Conn unit :=
  transaction (db_err_at "Transaction start failed: ") (db_err_at "Transaction commit failed: ")
    (exists_ ←? query db_err (λ d,
        existsb (same_device (d_account_hash device) (d_device_hash device)) (t_devices d));
     if exists_ : bool then
       exec db_err (λ d,
         (tt, with_devices (sql_update (same_device (d_account_hash device) (d_device_hash device))
                (λ r, mkDeviceRow (vr_id r) (vr_acc_hash r) (vr_device_hash r) (d_user_id device) "desktop"
                        "Linux" (d_os_version device) (d_app_version device)
                        (dt_timestamp (d_last_sync device)) (vr_created_at r) (dt_timestamp now)
                        (d_is_active device)) (t_devices d)) d))
     else
       exec db_err (λ d,
         (tt, with_devices (t_devices d ++
                [mkDeviceRow uuid (d_account_hash device) (d_device_hash device) (d_user_id device) "desktop"
                   "Linux" (d_os_version device) (d_app_version device) (dt_timestamp (d_last_sync device))
                   (dt_timestamp (d_registered_at device)) (dt_timestamp now) (d_is_active device)]) d))).

Definition my_get_device (account_hash device_hash : string) (now : nat → DateTime) : M Conn (option Device) :=
  query db_err (λ d,
    device_of_row now <$> List.find (same_device account_hash device_hash) (t_devices d)).

Definition my_update_device (device : Device) (now : DateTime) : M Conn unit :=
  exec db_err (λ d,
    (tt, with_devices (sql_update (same_device (d_account_hash device) (d_device_hash device))
           (λ r, mkDeviceRow (vr_id r) (vr_acc_hash r) (vr_device_hash r) (d_user_id device) (vr_device_type r)
                   (vr_os_type r) (d_os_version device) (d_app_version device)
                   (dt_timestamp (d_last_sync device)) (vr_created_at r) (dt_timestamp now)
                   (d_is_active device)) (t_devices d)) d)).

Definition my_delete_device (account_hash device_hash : string) : M Conn unit :=
  exec db_err (λ d,
    (tt, with_devices (List.filter (λ r, negb (same_device account_hash device_hash r)) (t_devices d)) d)).

Definition my_validate_device (account_hash device_hash : string) : M Conn bool :=
  query db_err (λ d,
    existsb (λ r, same_device account_hash device_hash r && vr_is_active r) (t_devices d)).

(** [ORDER BY created_at DESC] on devices: [order] is any ordering the database
    chooses among the rows that agree on the column. *)
Definition my_list_devices (order : list device_row → list device_row) (account_hash : string)
    (now : nat → nat → DateTime) : M Conn (list Device) :=
  query db_err (λ d,
    imap (λ i r, device_of_row (now i) r)
      (order (List.filter (λ r, (vr_acc_hash r ≈c account_hash) && vr_is_active r) (t_devices d)))).

(** ** Encryption keys and file contents (mysql_file.rs) *)

Definition my_get_encryption_key (account_hash : string) : M Conn (option string) :=
  query db_err (λ d,
    kr_encryption_key <$> List.find (λ r, kr_account_hash r ≈c account_hash) (t_encryption_keys d)).

Definition my_store_encryption_key (account_hash encryption_key : string) (now : DateTime) : M Conn unit :=
  exists_ ←? query db_err (λ d, existsb (λ r, kr_account_hash r ≈c account_hash) (t_encryption_keys d));
  if exists_ : bool then
    exec db_err (λ d,
      (tt, with_keys (sql_update (λ r, kr_account_hash r ≈c account_hash)
             (λ r, mkKeyRow (kr_account_hash r) encryption_key (kr_created_at r) (dt_timestamp now))
             (t_encryption_keys d)) d))
  else
    exec db_err (λ d,
      (tt, with_keys (t_encryption_keys d ++
             [mkKeyRow account_hash encryption_key (dt_timestamp now) (dt_timestamp now)]) d)).

Definition my_store_file_data (file_id : Z) (data_bytes : bytes) (now : DateTime) : M Conn unit :=
  exists_ ←? query db_err (λ d, existsb (λ r, dr_file_id r =? file_id) (t_file_data d));
  if exists_ : bool then
    exec db_err (λ d,
      (tt, with_data (sql_update (λ r, dr_file_id r =? file_id)
             (λ r, mkDataRow (dr_file_id r) data_bytes (dr_created_at r) (dt_timestamp now)) (t_file_data d)) d))
  else
    exec db_err (λ d,
      (tt, with_data (t_file_data d ++ [mkDataRow file_id data_bytes (dt_timestamp now) (dt_timestamp now)]) d)).

(** The identifier is bound as an [i64]. *)
Definition my_get_file_data (file_id : Z) : M Conn (option bytes) :=
  query db_err (λ d, dr_data <$> List.find (λ r, dr_file_id r =? wrap_i64 file_id) (t_file_data d)).

End tables.
End sql.

(** ** Statements that fail *)

(** When a computation succeeds although statements may fail, it did what it does when
    none fails: no failure is swallowed on the way to a success. *)
Definition succeeds_alike {A} (m m0 : M Conn A) : Prop :=
  ∀ c a c', m c = (Returned (Ok a), c') → m0 c = (Returned (Ok a), c').

Definition no_fault (n : nat) : option string := None.

Create HintDb alike.

Lemma alike_refl {A} (m : M Conn A) : succeeds_alike m m.
Proof. by intros c a c'. Qed.

Lemma alike_mthen {A B} (m m0 : M Conn A) (k k0 : A → M Conn B) :
  succeeds_alike m m0 → (∀ a, succeeds_alike (k a) (k0 a)) → succeeds_alike (mthen m k) (mthen m0 k0).
Proof. intros Hm Hk c b c' H. bind_ok H. unfold mthen. rewrite (Hm _ _ _ Ha). by apply Hk. Qed.

Lemma alike_exec {A} fault err (f : Db → A * Db) : succeeds_alike (exec fault err f) (exec no_fault err f).
Proof. intros c a c'. unfold exec. by destruct (fault (cn_step c)). Qed.

Lemma alike_query {A} fault err (f : Db → A) : succeeds_alike (query fault err f) (query no_fault err f).
Proof. apply alike_exec. Qed.

#[export] Hint Resolve alike_refl alike_mthen alike_exec alike_query : alike.

(** What a computation on the database may leave behind, [full] being what it does when
    nothing fails: on success all of it; otherwise nothing, or all of it when a commit
    whose failure is reported was applied. *)
Definition all_or_nothing {A} (commit_applied : bool) (c : Conn) (out full : outcome A StorageError * Conn) : Prop :=
  match out.1 with
  | Returned (Ok _) => out = full
  | _ => cn_db out.2 = cn_db c
         ∨ commit_applied = true ∧ (∃ a, full.1 = Returned (Ok a)) ∧ cn_db out.2 = cn_db full.2
  end.

Lemma transaction_all_or_nothing {A} fault commit_applied be ce (body body0 : M Conn A) c :
  succeeds_alike body body0 →
  all_or_nothing commit_applied c (transaction fault commit_applied be ce body c)
    (transaction no_fault commit_applied be ce body0 c).
Proof.
  intros Hb. unfold all_or_nothing, transaction. destruct (fault (cn_step c)); cbn; [by left|].
  destruct (body _) as [[[a|e]|] c1] eqn:E; cbn; [|by left..]. rewrite (Hb _ _ _ E).
  destruct (fault (cn_step c1)); cbn; [|done]. destruct commit_applied; [right; eauto|by left].
Qed.
