(* ===== verification/MySqlFile.v ===== *)
(** * The MySQL storage: the table [files] (src/storage/mysql_file.rs and
    [decrypt_text] of src/storage/mysql.rs)

    Paths and names are stored as bytes: as they are, or encrypted when the server
    has a key of 32 bytes.  How a column decodes is an argument where it depends
    on the type the table was created with. *)

From S2P Require Import Prelude RustString Errors Models Memory StorageApi Effects Crypto MySql.

#[global] Instance byte_eq_decision : EqDecision Byte.byte := Byte.byte_eq_dec.

(** [String::from_utf8_lossy]: the identity on valid text, and always valid text. *)
Class Utf8 := {
  valid_text : string → bool;
  from_utf8_lossy : bytes → string;
  from_utf8_lossy_valid : ∀ s, valid_text s = true → from_utf8_lossy (as_bytes s) = s;
  valid_from_utf8_lossy : ∀ b, valid_text (from_utf8_lossy b) = true
}.

(** [FROM_UNIXTIME], and the decoding of the two columns whose type decides:
    [try_get::<u64>("size")], and a [String] from the binary path and name. *)
Class FileColumns := {
  from_unixtime : Z → option Z;
  from_unixtime_calendar : ∀ t, 0 ≤ t ≤ 2147483647 → from_unixtime t = Some t;
  size_column : Z → option Z;
  text_column : bytes → option string
}.

Section files.
Context (fault : nat → option string) (commit_applied : bool).
Context `{CO : Collation} `{CA : CryptoApi} `{UC : Unicode} `{UT : Utf8} `{FC : FileColumns}.
(** [AppState::get_config().server_encode_key]. *)
Context (server_encode_key : option bytes).

(** The key, when it is usable. *)
Definition server_key : option bytes :=
  match server_encode_key with
  | Some kv => if (length kv =? 32)%nat then Some kv else None
  | None => None
  end.

Definition file_aad (account_hash : string) (group_id watcher_id : Z) : bytes :=
  as_bytes (account_hash +:+ ":" +:+ pretty group_id +:+ ":" +:+ pretty watcher_id).

Definition decrypt_text (account_hash : string) (group_id watcher_id : Z) (data : bytes) : string :=
  match server_key with
  | Some key =>
      match aead_decrypt key data (file_aad account_hash group_id watcher_id) with
      | Ok pt => from_utf8_lossy pt
      | Err _ => from_utf8_lossy data
      end
  | None => from_utf8_lossy data
  end.

(** The salt of the path index. *)
Definition index_salt (account_hash : string) : bytes :=
  match server_key with
  | Some key => derive_salt key "meta-index" account_hash
  | None => as_bytes account_hash
  end.

Definition eq_index_of (account_hash file_path : string) : bytes := make_eq_index (index_salt account_hash) file_path.

(** Path, name and the two indices of a new row; [None] is the panic of the
    cipher. *)
Definition file_columns (f : FileInfo) (nonces : nat → bytes) : option (bytes * bytes * bytes * string) :=
  let eq_index := eq_index_of (fi_account_hash f) (fi_file_path f) in
  let token_path := make_token_path (index_salt (fi_account_hash f)) (fi_file_path f) in
  match server_key with
  | Some key =>
      let aad := file_aad (fi_account_hash f) (fi_group_id f) (fi_watcher_id f) in
      match aead_encrypt (nonces 0%nat) key (as_bytes (fi_file_path f)) aad,
            aead_encrypt (nonces 1%nat) key (as_bytes (fi_filename f)) aad with
      | Some ct_path, Some ct_name => Some (ct_path, ct_name, eq_index, token_path)
      | _, _ => None
      end
  | None => Some (as_bytes (fi_file_path f), as_bytes (fi_filename f), eq_index, token_path)
  end.

(** The rows that share account, path, name and group, as a statement with the
    plain texts compares them. *)
Definition same_file (account_hash file_path filename : string) (group_id : Z) (r : file_row) : bool :=
  (fr_account_hash r ≈c account_hash) && (fr_file_path r == as_bytes file_path)
  && (fr_filename r == as_bytes filename) && (fr_server_group_id r =? group_id).

(** [COALESCE(MAX(revision), 0)]. *)
Definition max_revision (l : list file_row) : Z := foldr Z.max 0 (fr_revision <$> l).

Definition mark_deleted (r : file_row) : file_row :=
  mkFileRow (fr_file_id r) (fr_account_hash r) (fr_device_hash r) (fr_file_path r) (fr_filename r)
    (fr_file_hash r) (fr_size r) true (fr_revision r) (fr_created_time r) (fr_updated_time r) (fr_group_id r)
    (fr_watcher_id r) (fr_server_group_id r) (fr_server_watcher_id r) (fr_eq_index r) (fr_token_path r)
    (fr_key_id r).

(** The row of a new file. *)
Definition new_file_row (f : FileInfo) (columns : bytes * bytes * bytes * string) (revision now : Z) : file_row :=
  let '(path, name, eq_index, token_path) := columns in
  mkFileRow (wrap_i64 (fi_file_id f)) (fi_account_hash f) (fi_device_hash f) path name (fi_file_hash f)
    (wrap_i64 (fi_size f)) false revision (from_unixtime now) (from_unixtime (ts_seconds (fi_updated_time f)))
    (fi_group_id f) (fi_watcher_id f) (fi_group_id f) (fi_watcher_id f) eq_index token_path (fi_key_id f).

(** The row of a file stored again under its identifier. *)
Definition updated_file_row (f : FileInfo) (r : file_row) : file_row :=
  mkFileRow (fr_file_id r) (fr_account_hash r) (fi_device_hash f) (fr_file_path r) (fr_filename r)
    (fi_file_hash f) (wrap_i64 (fi_size f)) (fr_is_deleted r) (fr_revision r + 1) (fr_created_time r)
    (from_unixtime (ts_seconds (fi_updated_time f))) (fr_group_id r) (fr_watcher_id r) (fr_server_group_id r)
    (fr_server_watcher_id r) (fr_eq_index r) (fr_token_path r)
    (match fi_key_id f with Some k => Some k | None => fr_key_id r end).

Definition my_store_file_info (f : FileInfo) (now : DateTime) (nonces : nat → bytes) : M Conn Z :=
  transaction fault commit_applied (db_err_at "트랜잭션 시작 실패(sqlx): ") (db_err_at "트랜잭션 커밋 실패: ")
    (known ←? query fault (db_err_at "file_id로 파일 확인 실패: ") (λ d,
        existsb (λ r, (fr_file_id r =? fi_file_id f) && negb (fr_is_deleted r)) (t_files d));
     if known : bool then
       _ ←? exec fault (db_err_at "파일 정보 업데이트 실패: ") (λ d,
              (tt, with_files (sql_update (λ r, fr_file_id r =? fi_file_id f) (updated_file_row f) (t_files d)) d));
       ret (fi_file_id f)
     else
       last ←? query fault (db_err_at "최대 revision 조회 실패: ") (λ d,
         max_revision (List.filter (same_file (fi_account_hash f) (fi_file_path f) (fi_filename f) (fi_group_id f))
                         (t_files d)));
       active ←? query fault (db_err_at "활성 파일 존재 여부 확인 실패: ") (λ d,
         fr_file_id <$> List.find (λ r, same_file (fi_account_hash f) (fi_file_path f) (fi_filename f)
                                          (fi_group_id f) r && negb (fr_is_deleted r)) (t_files d));
       _ ←? match active with
            | Some id =>
                exec fault (db_err_at "기존 파일 삭제 표시 실패: ") (λ d,
                  (tt, with_files (sql_update (λ r, fr_file_id r =? id) mark_deleted (t_files d)) d))
            | None => ret tt
            end;
       match file_columns f nonces with
       | None => λ c, (Panicked, c)
       | Some columns =>
           _ ←? exec fault (db_err_at "새 파일 정보 삽입 실패: ") (λ d,
                  (tt, with_files (t_files d ++ [new_file_row f columns (last + 1) (dt_timestamp now)]) d));
           ret (fi_file_id f)
       end).

(** A row as the application sees it. *)
Definition file_of_row (r : file_row) : FileInfo :=
  {| fi_file_id := fr_file_id r;
     fi_filename := decrypt_text (fr_account_hash r) (fr_group_id r) (fr_watcher_id r) (fr_filename r);
     fi_file_hash := fr_file_hash r; fi_device_hash := fr_device_hash r; fi_group_id := fr_group_id r;
     fi_watcher_id := fr_watcher_id r; fi_is_encrypted := false;
     fi_file_path := decrypt_text (fr_account_hash r) (fr_group_id r) (fr_watcher_id r) (fr_file_path r);
     fi_updated_time := mkTimestamp (default 0 (fr_updated_time r)) 0;
     fi_revision := fr_revision r; fi_account_hash := fr_account_hash r;
     fi_size := default 0 (size_column (fr_size r)); fi_key_id := fr_key_id r |}.

Definition my_get_file_info (file_id : Z) : M Conn (option FileInfo) :=
  query fault (db_err_at "파일 정보 조회 실패(sqlx): ") (λ d,
    file_of_row <$> List.find (λ r, (fr_file_id r =? file_id) && negb (fr_is_deleted r)) (t_files d)).

Definition my_get_file_info_include_deleted (file_id : Z) : M Conn (option (FileInfo * bool)) :=
  query fault (db_err_at "파일 정보 조회 실패(sqlx): ") (λ d,
    (λ r, (file_of_row r, fr_is_deleted r)) <$> List.find (λ r, fr_file_id r =? file_id) (t_files d)).

(** [ORDER BY revision DESC LIMIT 1]: a row of the greatest revision. *)
Definition top_revision (l : list file_row) : option file_row :=
  foldr (λ r best, match best with
                   | Some b => if fr_revision r <? fr_revision b then Some b else Some r
                   | None => Some r
                   end) None l.

Definition my_get_file_info_by_path (account_hash file_path : string) (group_id : Z) : M Conn (option FileInfo) :=
  query fault (db_err_at "파일 정보 조회 실패(sqlx): ") (λ d,
    file_of_row <$> top_revision (List.filter (λ r,
      (fr_account_hash r ≈c account_hash) && (fr_eq_index r == eq_index_of account_hash file_path)
      && (fr_server_group_id r =? group_id) && negb (fr_is_deleted r)) (t_files d))).

Definition my_get_file_by_hash (account_hash file_hash : string) : M Conn (option FileInfo) :=
  query fault (db_err_at "파일 검색 실패(sqlx): ") (λ d,
    file_of_row <$> top_revision (List.filter (λ r,
      (fr_account_hash r ≈c account_hash) && (fr_file_hash r ≈c file_hash) && negb (fr_is_deleted r)) (t_files d))).

(** The name is not part of the search. *)
Definition my_find_file_by_path_and_name (account_hash file_path filename : string) (revision : Z)
    : M Conn (option FileInfo) :=
  query fault (db_err_at "파일 검색 실패(정확한 검색, sqlx): ") (λ d,
    file_of_row <$> top_revision (List.filter (λ r,
      (fr_account_hash r ≈c account_hash) && (fr_eq_index r == eq_index_of account_hash file_path)
      && negb (fr_is_deleted r) && (if 0 <? revision then fr_revision r =? revision else true)) (t_files d))).

(** The path and name a search by criteria looks for first. *)
Fixpoint rsplit_slash (s : string) : option (string * string) :=
  match s with
  | EmptyString => None
  | String a s' =>
      match rsplit_slash s' with
      | Some (p, n) => Some (String a p, n)
      | None => if bool_decide (a = "/"%char) then Some ("", s') else None
      end
  end.

Definition search_terms (file_path filename : string) : string * string :=
  if ends_with ("/" +:+ filename) file_path || ends_with filename file_path then
    match rsplit_slash file_path with
    | Some (path, name) => (path, name)
    | None => ("", file_path)
    end
  else (file_path, filename).

(** The columns are read as text, without decryption. *)
Definition plain_file_of_row (r : file_row) : FileInfo :=
  {| fi_file_id := fr_file_id r; fi_filename := default "" (text_column (fr_filename r));
     fi_file_hash := fr_file_hash r; fi_device_hash := fr_device_hash r; fi_group_id := fr_group_id r;
     fi_watcher_id := fr_watcher_id r; fi_is_encrypted := false;
     fi_file_path := default "" (text_column (fr_file_path r));
     fi_updated_time := mkTimestamp (default 0 (fr_updated_time r)) 0;
     fi_revision := fr_revision r; fi_account_hash := fr_account_hash r;
     fi_size := default 0 (size_column (fr_size r)); fi_key_id := fr_key_id r |}.

Definition my_find_file_by_criteria (account_hash : string) (group_id watcher_id : Z) (file_path filename : string)
    : M Conn (option FileInfo) :=
  let '(search_path, search_filename) := search_terms file_path filename in
  query fault (db_err_at "파일 검색 쿼리 실행 실패: ") (λ d,
    plain_file_of_row <$> top_revision (List.filter (λ r,
      (fr_account_hash r ≈c account_hash) && (fr_server_group_id r =? group_id)
      && (fr_server_watcher_id r =? watcher_id) && negb (fr_is_deleted r)
      && (((fr_file_path r == as_bytes search_path) && (fr_filename r == as_bytes search_filename))
          || ((fr_file_path r == as_bytes file_path) && (fr_filename r == as_bytes filename)))) (t_files d))).

Definition my_delete_file (account_hash : string) (file_id : Z) (now : DateTime) (new_file_id : Z) : M Conn unit :=
  transaction fault commit_applied (db_err_at "트랜잭션 시작 실패(sqlx): ") (db_err_at "트랜잭션 커밋 실패(sqlx): ")
    (found ←? query fault (db_err_at "파일 존재 여부 확인 실패(sqlx): ") (λ d,
        List.find (λ r, (fr_file_id r =? file_id) && (fr_account_hash r ≈c account_hash)) (t_files d));
     match found with
     | None => throw (NotFound ("파일을 찾을 수 없음: " +:+ pretty file_id))
     | Some r =>
         match text_column (fr_file_path r), text_column (fr_filename r) with
         | Some file_path, Some filename =>
             _ ←? exec fault (db_err_at "기존 파일 삭제 표시 실패(sqlx): ") (λ d,
                    (tt, with_files (sql_update (λ r, fr_file_id r =? file_id) mark_deleted (t_files d)) d));
             _ ←? exec fault (db_err_at "이전 버전 파일 삭제 표시 실패(sqlx): ") (λ d,
                    (tt, with_files (sql_update (λ r', (fr_account_hash r' ≈c account_hash)
                           && (fr_file_path r' == as_bytes file_path) && (fr_filename r' == as_bytes filename)
                           && (fr_group_id r' =? fr_group_id r)) mark_deleted (t_files d)) d));
             _ ←? exec fault (db_err_at "삭제 이력 추가 실패 (1단계, sqlx): ") (λ d,
                    (tt, with_files (t_files d ++
                           [mkFileRow new_file_id account_hash (fr_device_hash r) (as_bytes file_path)
                              (as_bytes filename) file_path 0 false 1 None None 0 0 0 0 [] "" None]) d));
             exec fault (db_err_at "삭제 이력 추가 실패 (2단계, sqlx): ") (λ d,
               (tt, with_files (sql_update (λ r', fr_file_id r' =? new_file_id) (λ r',
                      mkFileRow (fr_file_id r') (fr_account_hash r') (fr_device_hash r') (fr_file_path r')
                        (fr_filename r') (fr_file_hash r') (fr_size r') true (fr_revision r + 1)
                        (from_unixtime (dt_timestamp now)) (from_unixtime (dt_timestamp now)) (fr_group_id r)
                        (fr_watcher_id r) (fr_server_group_id r') (fr_server_watcher_id r') (fr_eq_index r')
                        (fr_token_path r') (fr_key_id r')) (t_files d)) d))
         | _, _ => throw (db_err_at "파일 존재 여부 확인 실패(sqlx): " "error occurred while decoding column")
         end
     end).

(** [ORDER BY updated_time DESC] is an argument, as for devices; the time the
    caller asks for is not used. *)
Definition my_list_files (order : list file_row → list file_row) (account_hash : string) (group_id : Z)
    (upload_time_from : option Z) : M Conn (list FileInfo) :=
  query fault (db_err_at "파일 목록 조회 실패(sqlx): ") (λ d,
    file_of_row <$> order (List.filter (λ r,
      (fr_account_hash r ≈c account_hash) && (fr_server_group_id r =? group_id) && negb (fr_is_deleted r))
      (t_files d))).

Definition my_list_files_except_device (order : list file_row → list file_row) (account_hash : string)
    (group_id : Z) (exclude_device_hash : string) (upload_time_from : option Z) : M Conn (list FileInfo) :=
  query fault (db_err_at "파일 목록 조회 실패(sqlx): ") (λ d,
    file_of_row <$> order (List.filter (λ r,
      (fr_account_hash r ≈c account_hash) && (fr_server_group_id r =? group_id)
      && negb (fr_device_hash r ≈c exclude_device_hash) && negb (fr_is_deleted r)) (t_files d))).

Definition my_check_file_exists (file_id : Z) : M Conn (bool * bool) :=
  query fault (db_err_at "파일 존재 조회 SQL 오류: ") (λ d,
    match List.find (λ r, fr_file_id r =? wrap_i64 file_id) (t_files d) with
    | Some r => (true, fr_is_deleted r)
    | None => (false, false)
    end).

(** [updated_time < FROM_UNIXTIME(now - ttl)]: false when either is NULL. *)
Definition expired (now ttl_secs : Z) (r : file_row) : bool :=
  match fr_updated_time r, from_unixtime (now - ttl_secs) with
  | Some t, Some limit => t <? limit
  | _, _ => false
  end.

Definition my_purge_deleted_files_older_than (ttl_secs now : Z) : M Conn Z :=
  exec fault (db_err_at "Failed to purge deleted files: ") (λ d,
    let gone r := fr_is_deleted r && expired now ttl_secs r in
    (Z.of_nat (length (List.filter gone (t_files d))),
     with_files (List.filter (λ r, negb (gone r)) (t_files d)) d)).

(** The active rows of the same account, path and group that are as recent. *)
Definition rivals (l : list file_row) (t : file_row) : list file_row :=
  List.filter (λ i, (fr_account_hash i ≈c fr_account_hash t) && (fr_file_path i == fr_file_path t)
    && (fr_server_group_id i =? fr_server_group_id t) && negb (fr_is_deleted i)
    && match fr_updated_time i, fr_updated_time t with Some a, Some b => b <=? a | _, _ => false end) l.

Definition surplus (max_revisions : Z) (l : list file_row) : list file_row :=
  List.filter (λ t, negb (fr_is_deleted t) && (max_revisions <? Z.of_nat (length (rivals l t)))) l.

Definition my_trim_old_revisions (max_revisions : Z) : M Conn Z :=
  exec fault (db_err_at "Failed to trim old revisions: ") (λ d,
    let x := surplus max_revisions (t_files d) in
    let hit f := existsb (λ t, (fr_account_hash f ≈c fr_account_hash t) && (fr_file_path f == fr_file_path t)
                   && (fr_server_group_id f =? fr_server_group_id t) && (fr_file_id f =? fr_file_id t)
                   && (fr_revision f =? fr_revision t)) x in
    (Z.of_nat (length (List.filter (λ f, hit f && negb (fr_is_deleted f)) (t_files d))),
     with_files (sql_update hit mark_deleted (t_files d)) d)).

End files.
