(* ===== verification/MySqlWatcher.v ===== *)
(** * The MySQL storage: watcher groups, watchers, conditions, presets
    (src/storage/mysql_watcher.rs; [ensure_server_ids_for], the identifier and
    duplicate look-ups and the notices of src/storage/mysql.rs)

    A group and a watcher have two numbers: the one the client chose and the one
    the database gave its row.  The tables number their rows: [auto_id n] is the
    number an insertion by the [n]-th statement receives.  Where a look-up waits for
    another connection, [others k] is what the other connections commit during the
    [k]-th wait. *)

From S2P Require Import Prelude RustString Errors Models Paths Memory StorageApi Effects Crypto MySql MySqlFile.

(** What the columns and the serialiser do: [UNIX_TIMESTAMP] of a column that was
    set to the text of a time, the text of the JSON column as it is read, the JSON
    text of a list of strings (serialising it cannot fail) and its parser, and the
    [last_insert_id] of an upsert that updated the row with the given number. *)
Class WatcherColumns := {
  time_text_column : DateTime → option Z;
  json_column : string → result string string;
  to_json : list string → string;
  of_json : string → result (list string) string;
  upsert_id : Z → Z
}.

Definition with_groups (l : list groups_row) (w : WatchDb) : WatchDb :=
  mkWatchDb l (t_watchers w) (t_watcher_conditions w) (t_watcher_presets w) (t_file_notices w).
Definition with_watchers (l : list watchers_row) (w : WatchDb) : WatchDb :=
  mkWatchDb (t_watcher_groups w) l (t_watcher_conditions w) (t_watcher_presets w) (t_file_notices w).
Definition with_conditions (l : list conditions_row) (w : WatchDb) : WatchDb :=
  mkWatchDb (t_watcher_groups w) (t_watchers w) l (t_watcher_presets w) (t_file_notices w).
Definition with_presets (l : list presets_row) (w : WatchDb) : WatchDb :=
  mkWatchDb (t_watcher_groups w) (t_watchers w) (t_watcher_conditions w) l (t_file_notices w).
Definition with_notices (l : list FileNotice) (w : WatchDb) : WatchDb :=
  mkWatchDb (t_watcher_groups w) (t_watchers w) (t_watcher_conditions w) (t_watcher_presets w) l.

(** [ORDER BY id]. *)
Definition by_id {R} (id : R → Z) : list R → list R :=
  @merge_sort _ (λ a b, id a ≤ id b) (λ a b, Z_le_dec (id a) (id b)).

(** [split('/').last().unwrap_or("Watcher")] in the title of a watcher. *)
Definition watcher_title (folder : string) : string :=
  "Watcher for " +:+ default "Watcher" (last (split_char "/" folder)).

(** A row number as an [i32]. *)
Definition clamp_i32 (id : Z) : Z := if i32_max <? id then i32_max else id.

Section watchers.
Context (fault : nat → option string) (commit_applied : bool) (auto_id : nat → Z).
Context `{CO : Collation} `{SX : Sqlx} `{CH : Chrono} `{UC : Unicode} `{FC : FileColumns} `{WC : WatcherColumns}.

(** A statement that may insert a numbered row; it fails when the numbers of the
    column have run out. *)
Definition exec_id {A} (limit : Z) (err : string → StorageError) (f : Z → WatchDb → A * WatchDb) : M Conn A := λ c,
  exec (λ n, match fault n with
             | Some e => Some e
             | None => if limit <? auto_id n then Some numbers_exhausted else None
             end) err
    (λ d, let '(a, w) := f (auto_id (cn_step c)) (t_watch d) in (a, with_watch (λ _, w) d)) c.

Definition wexec (err : string → StorageError) (f : WatchDb → WatchDb) : M Conn unit :=
  exec fault err (λ d, (tt, with_watch f d)).
Definition wquery {A} (err : string → StorageError) (f : WatchDb → A) : M Conn A :=
  query fault err (λ d, f (t_watch d)).

(** ** Look-ups *)

Definition of_group (account_hash : string) (group_id : Z) (r : groups_row) : bool :=
  (gr_account_hash r ≈c account_hash) && (gr_group_id r =? group_id).

Definition find_group (account_hash : string) (group_id : Z) (w : WatchDb) : option groups_row :=
  List.find (of_group account_hash group_id) (t_watcher_groups w).

Definition of_watcher (account_hash : string) (local_group_id watcher_id : Z) (r : watchers_row) : bool :=
  (wr_account_hash r ≈c account_hash) && (wr_local_group_id r =? local_group_id) && (wr_watcher_id r =? watcher_id).

Definition find_watcher (account_hash : string) (local_group_id watcher_id : Z) (w : WatchDb) : option watchers_row :=
  List.find (of_watcher account_hash local_group_id watcher_id) (t_watchers w).

(** [query_scalar] of a nullable time column. *)
Definition time_scalar (err : string → StorageError) (f : WatchDb → option (option Z)) : M Conn (option Z) :=
  fetch_optional fault err (not_null 0) (λ d, f (t_watch d)).

(** ** Conditions *)

Definition condition_of_row (now : nat → DateTime) (r : conditions_row) : result WatcherCondition string :=
  value_json <-? map_err (λ e, "Row get value: " +:+ e) (json_column (cr_value r));
  condition_type <-? map_err (λ e, "Invalid condition type: " +:+ e) (ConditionType_from_str (cr_condition_type r));
  value <-? map_err (λ e, "Failed to deserialize condition values: " +:+ e) (of_json value_json);
  Ok {| wc_id := Some (cr_id r); wc_account_hash := cr_account_hash r; wc_watcher_id := cr_watcher_id r;
        wc_local_watcher_id := default 0 (cr_local_watcher_id r); wc_local_group_id := cr_local_group_id r;
        wc_condition_type := condition_type; wc_key := cr_key r; wc_value := value; wc_operator := cr_operator r;
        wc_created_at := default (now 0%nat) (from_timestamp (cr_created_at r) 0);
        wc_updated_at := default (now 1%nat) (from_timestamp (cr_updated_at r) 0) |}.

(** The loop over the rows: the first that cannot be read ends it. *)
Fixpoint conditions_of_rows (now : nat → nat → DateTime) (i : nat) (rows : list conditions_row)
    : result (list WatcherCondition) string :=
  match rows with
  | [] => Ok []
  | r :: rows =>
      c <-? condition_of_row (now i) r;
      cs <-? conditions_of_rows now (Datatypes.S i) rows;
      Ok (c :: cs)
  end.

Definition my_get_watcher_conditions (account_hash : string) (watcher_id : Z) (now : nat → nat → DateTime)
    : M Conn (list WatcherCondition) :=
  rows ←? wquery (db_err_at "Failed to query watcher conditions (sqlx): ") (λ w,
            by_id cr_id (List.filter (λ r, (cr_account_hash r ≈c account_hash) && (cr_watcher_id r =? watcher_id))
                           (t_watcher_conditions w)));
  match conditions_of_rows now 0 rows with
  | Ok conditions => ret conditions
  | Err e => throw (Database e)
  end.

(** The row of a condition; [save_watcher_conditions] leaves out the client's
    watcher number. *)
Definition row_of_condition (local_watcher_id : option Z) (local_group_id : Z) (c : WatcherCondition) (id : Z)
    : conditions_row :=
  mkConditionRow id (wc_account_hash c) (wc_watcher_id c) local_watcher_id local_group_id
    (ConditionType_fmt (wc_condition_type c)) (wc_key c) (to_json (wc_value c)) (wc_operator c)
    (dt_timestamp (wc_created_at c)) (dt_timestamp (wc_updated_at c)).

Definition add_condition (err : string → StorageError) (row : Z → conditions_row) : M Conn Z :=
  exec_id i64_max err (λ id w, (id, with_conditions (t_watcher_conditions w ++ [row id])%list w)).

Definition my_create_watcher_condition (c : WatcherCondition) : M Conn Z :=
  local_group_id ←?
    (if wc_local_group_id c =? 0 then
       watcher ←? wquery (db_err_at "Failed to get watcher_id for watcher (sqlx): ") (λ w,
                    List.find (λ r, wr_id r =? wc_watcher_id c) (t_watchers w));
       match watcher with
       | Some r => ret (wr_watcher_id r)
       | None => throw (NotFound ("Watcher with ID " +:+ pretty (wc_watcher_id c) +:+ " not found"))
       end
     else ret (wc_local_group_id c));
  transaction fault commit_applied (db_err_at "Failed to start transaction (sqlx): ")
    (db_err_at "Failed to commit transaction (sqlx): ")
    (new_id ←? add_condition (db_err_at "Failed to insert watcher condition (sqlx): ")
                 (row_of_condition (Some (wc_local_watcher_id c)) local_group_id c);
     if new_id =? 0 then throw (Database "Failed to create watcher condition: Invalid ID") else ret new_id).

Definition my_update_watcher_condition (c : WatcherCondition) : M Conn unit :=
  match wc_id c with
  | None => throw (ValidationError "Condition ID is required for update")
  | Some condition_id =>
      transaction fault commit_applied (db_err_at "Failed to start transaction: ")
        (db_err_at "Failed to commit transaction: ")
        (wexec (db_err_at "Failed to update watcher condition: ") (λ w,
           with_conditions (sql_update (λ r, cr_id r =? condition_id)
             (λ r, mkConditionRow (cr_id r) (cr_account_hash r) (cr_watcher_id r) (Some (wc_local_watcher_id c))
                     (wc_local_group_id c) (ConditionType_fmt (wc_condition_type c)) (wc_key c)
                     (to_json (wc_value c)) (wc_operator c) (cr_created_at r) (dt_timestamp (wc_updated_at c)))
             (t_watcher_conditions w)) w))
  end.

Definition my_delete_watcher_condition (condition_id : Z) : M Conn unit :=
  wexec (db_err_at "Failed to delete watcher condition: ") (λ w,
    with_conditions (List.filter (λ r, negb (cr_id r =? condition_id)) (t_watcher_conditions w)) w).

Definition my_delete_all_watcher_conditions (watcher_id : Z) : M Conn unit :=
  wexec (db_err_at "Failed to delete all watcher conditions: ") (λ w,
    with_conditions (List.filter (λ r, negb (cr_watcher_id r =? watcher_id)) (t_watcher_conditions w)) w).

Fixpoint save_conditions_loop (conditions : list WatcherCondition) : M Conn unit :=
  match conditions with
  | [] => ret tt
  | c :: conditions =>
      _ ←? add_condition (db_err_at "Failed to insert watcher condition (sqlx): ")
             (row_of_condition None (wc_local_group_id c) c);
      save_conditions_loop conditions
  end.

Definition my_save_watcher_conditions (watcher_id : Z) (conditions : list WatcherCondition) : M Conn unit :=
  transaction fault commit_applied (db_err_at "Failed to start transaction (sqlx): ")
    (db_err_at "Failed to commit transaction (sqlx): ")
    (_ ←? wexec (db_err_at "Failed to delete existing conditions (sqlx): ") (λ w,
            with_conditions (List.filter (λ r, negb (cr_watcher_id r =? watcher_id)) (t_watcher_conditions w)) w);
     save_conditions_loop conditions).

(** [get_watcher_condition] of mysql.rs: text that is no JSON list is the only
    value. *)
Definition condition_by_id_of_row (now : nat → DateTime) (r : conditions_row) : result WatcherCondition string :=
  value_str <-? json_column (cr_value r);
  Ok {| wc_id := Some (cr_id r); wc_account_hash := cr_account_hash r; wc_watcher_id := cr_watcher_id r;
        wc_local_watcher_id := 0; wc_local_group_id := 0;
        wc_condition_type := (if cr_condition_type r == "subtract" then Subtract else Union);
        wc_key := cr_key r;
        wc_value := (match of_json value_str with Ok v => v | Err _ => [value_str] end);
        wc_operator := cr_operator r;
        wc_created_at := default (now 0%nat) (from_timestamp (cr_created_at r) 0);
        wc_updated_at := default (now 1%nat) (from_timestamp (cr_updated_at r) 0) |}.

Definition my_get_watcher_condition (condition_id : Z) (now : nat → DateTime) : M Conn (option WatcherCondition) :=
  fetch_optional fault (db_err_at "Failed to get watcher condition: ") (condition_by_id_of_row now) (λ d,
    List.find (λ r, cr_id r =? condition_id) (t_watcher_conditions (t_watch d))).

(** ** Watchers *)

(** Conditions by type; a failed look-up counts as none. *)
Definition watcher_message (r : watchers_row) (conditions : list WatcherCondition) : sync_WatcherData :=
  let typed ty := (λ c, mk_sync_ConditionData (wc_key c) (wc_value c)) <$>
                 List.filter (λ c, wc_condition_type c == ty) conditions in
  mk_sync_WatcherData (wr_watcher_id r) (wr_folder r) (typed Union) (typed Subtract) (wr_is_recursive r)
    false "" "" true "".

Definition with_conditions_of (account_hash : string) (r : watchers_row) (now : nat → nat → DateTime)
    : M Conn sync_WatcherData :=
  mtry (my_get_watcher_conditions account_hash (wr_id r) now) (λ cs,
    ret (watcher_message r (match cs with Ok l => l | Err _ => [] end))).

Definition my_get_watcher (watcher_id : Z) (now : nat → nat → DateTime) : M Conn sync_WatcherData :=
  row ←? wquery (db_err_at "Failed to query watcher (sqlx): ") (λ w,
           List.find (λ r, wr_id r =? watcher_id) (t_watchers w));
  match row with
  | Some r => with_conditions_of (wr_account_hash r) r now
  | None => throw (NotFound ("Watcher with id " +:+ pretty watcher_id +:+ " not found"))
  end.

Definition my_get_watcher_by_group_and_id (account_hash : string) (group_id watcher_id : Z)
    (now : nat → nat → DateTime) : M Conn (option sync_WatcherData) :=
  row ←? wquery (db_err_at "Failed to query watcher: ") (find_watcher account_hash group_id watcher_id);
  match row with
  | Some r => data ←? with_conditions_of account_hash r now; ret (Some data)
  | None => ret None
  end.

Definition my_find_watcher_by_folder (account_hash : string) (group_id : Z) (folder : string)
    : M Conn (option Z) :=
  wquery (db_err_at "Failed to query watcher: ") (λ w,
    wr_id <$> List.find (λ r, (wr_account_hash r ≈c account_hash) && (wr_group_id r =? group_id)
                              && (wr_folder r ≈c normalize_uncached folder)) (t_watchers w)).

(** The wait for the group: fifteen look-ups with a pause after each but the last.
    The answer comes with the milliseconds spent waiting. *)
Definition pause_ms (attempt : nat) : Z := Z.min (300 * Z.of_nat attempt) 2000.

Fixpoint wait_for_group (others : nat → WatchDb → WatchDb) (tries : nat) (account_hash : string) (group_id : Z)
    (waited : Z) : M Conn (option Z * Z) :=
  match tries with
  | O => ret (None, waited)
  | Datatypes.S tries =>
      let attempt := (15 - tries)%nat in
      row ←? wquery (db_err_at "Failed to get DB group ID: ") (find_group account_hash group_id);
      match row with
      | Some r => ret (Some (gr_id r), waited)
      | None =>
          if (attempt <? 15)%nat then λ c,
            wait_for_group others tries account_hash group_id (waited + pause_ms attempt)
              (mkConn (with_watch (others attempt) (cn_db c)) (cn_step c))
          else wait_for_group others tries account_hash group_id waited
      end
  end.

(** [INSERT .. ON DUPLICATE KEY UPDATE] on [watchers]: [unique] says whether the
    index on account, group and number of the client could be created. *)
Definition upsert_watcher (unique : bool) (account_hash : string) (db_group_id group_id : Z) (folder : string)
    (watcher_data : sync_WatcherData) (timestamp : Z) (id : Z) (w : WatchDb) : Z * WatchDb :=
  match (if unique then find_watcher account_hash group_id (swd_watcher_id watcher_data) w else None) with
  | Some old =>
      (upsert_id (wr_id old),
       with_watchers (sql_update (λ r, wr_id r =? wr_id old)
         (λ r, mkWatcherRow (wr_id r) (wr_watcher_id r) (wr_account_hash r) db_group_id (wr_local_group_id r) folder
                 (watcher_title folder) (swd_recursive_path watcher_data) (wr_created_at r) timestamp true
                 (swd_extra_json watcher_data)) (t_watchers w)) w)
  | None =>
      (id, with_watchers (t_watchers w ++
             [mkWatcherRow id (swd_watcher_id watcher_data) account_hash db_group_id group_id folder
                (watcher_title folder) (swd_recursive_path watcher_data) timestamp timestamp true
                (swd_extra_json watcher_data)])%list w)
  end.

(** The conditions of one type of a created watcher, the [k]-th first. *)
Fixpoint insert_conditions_loop (what : string) (row : nat → sync_ConditionData → Z → conditions_row) (k : nat)
    (conditions : list sync_ConditionData) : M Conn unit :=
  match conditions with
  | [] => ret tt
  | c :: conditions =>
      _ ←? add_condition (db_err_at what) (row k c);
      insert_conditions_loop what row (Datatypes.S k) conditions
  end.

Definition created_condition (account_hash : string) (new_id group_id : Z) (watcher_data : sync_WatcherData)
    (timestamp : Z) (now : nat → DateTime) (ty : ConditionType) (k : nat) (c : sync_ConditionData)
    : Z → conditions_row :=
  row_of_condition (Some (swd_watcher_id watcher_data)) group_id
    (mkWatcherCondition None account_hash new_id (swd_watcher_id watcher_data) group_id ty (scd_key c) (scd_value c)
       "equals" (default (now (2 + 2 * k)%nat) (from_timestamp timestamp 0))
       (default (now (3 + 2 * k)%nat) (from_timestamp timestamp 0))).

(** The watcher that is kept because the server's row is at least as new. *)
Definition kept_watcher (account_hash : string) (group_id watcher_id timestamp : Z) (now : nat → DateTime)
    : M Conn (option Z) :=
  existing ←? wquery (db_err_at "Failed to check existing watcher: ") (λ w,
                wr_updated_at <$> find_watcher account_hash group_id watcher_id w);
  match existing with
  | Some updated_at =>
      let existing_datetime := default (now 0%nat) (from_timestamp updated_at 0) in
      let client_datetime := default (now 1%nat) (from_timestamp timestamp 0) in
      if dt_ltb existing_datetime client_datetime then ret None
      else wquery (db_err_at "Failed to get existing watcher ID: ") (λ w,
             wr_id <$> find_watcher account_hash group_id watcher_id w)
  | None => ret None
  end.

Definition my_create_watcher_with_conditions (others : nat → WatchDb → WatchDb) (unique : bool)
    (account_hash : string) (group_id : Z) (watcher_data : sync_WatcherData) (timestamp : Z) (now : nat → DateTime)
    : M Conn Z :=
  let folder := normalize_uncached (swd_folder watcher_data) in
  found ←? wait_for_group others 15 account_hash group_id 0;
  match found.1 with
  | None => throw (Database ("Watcher group with client group_id " +:+ pretty group_id
                             +:+ " not found after waiting"))
  | Some db_group_id =>
      transaction fault commit_applied (db_err_at "Failed to start transaction: ")
        (db_err_at "Failed to commit transaction: ")
        (kept ←? kept_watcher account_hash group_id (swd_watcher_id watcher_data) timestamp now;
         match kept with
         | Some existing_id => ret existing_id
         | None =>
             last_id ←? exec_id i32_max (db_err_at "Failed to insert watcher: ")
                          (upsert_watcher unique account_hash db_group_id group_id folder watcher_data timestamp);
             let new_id := clamp_i32 last_id in
             if new_id =? 0 then throw (Database "Failed to create watcher: Invalid ID")
             else
               let row := created_condition account_hash new_id group_id watcher_data timestamp now in
               _ ←? insert_conditions_loop "Failed to save union condition: " (row Union) 0
                      (swd_union_conditions watcher_data);
               _ ←? insert_conditions_loop "Failed to save subtracting condition: " (row Subtract)
                      (length (swd_union_conditions watcher_data)) (swd_subtracting_conditions watcher_data);
               ret new_id
         end)
  end.

(** ** Groups *)

Definition upsert_group (account_hash device_hash : string) (g : WatcherGroup) (id : Z) (w : WatchDb) : unit * WatchDb :=
  (tt, match find_group account_hash (wg_group_id g) w with
       | Some old =>
           with_groups (sql_update (λ r, gr_id r =? gr_id old)
             (λ r, mkGroupRow (gr_id r) (gr_group_id r) (gr_account_hash r) (gr_device_hash r) (wg_title g)
                     (gr_created_at r) (from_unixtime (dt_timestamp (wg_updated_at g))) (wg_is_active g))
             (t_watcher_groups w)) w
       | None =>
           with_groups (t_watcher_groups w ++
             [mkGroupRow id (wg_group_id g) account_hash device_hash (wg_title g)
                (from_unixtime (dt_timestamp (wg_created_at g))) (from_unixtime (dt_timestamp (wg_updated_at g)))
                (wg_is_active g)])%list w
       end).

(** The statement is sent twice; the outcome of the first is ignored. *)
Definition my_register_watcher_group (account_hash device_hash : string) (g : WatcherGroup) : M Conn Z :=
  transaction fault commit_applied (db_err_at "Failed to start transaction: ")
    (db_err_at "Failed to commit transaction: ")
    (existing ←? time_scalar (db_err_at "Failed to check existing watcher group: ") (λ w,
                   gr_updated_at <$> find_group account_hash (wg_group_id g) w);
     let insert := exec_id i32_max (db_err_at "Failed to insert watcher group: ")
                     (upsert_group account_hash device_hash g) in
     if match existing with
        | Some server_ts => dt_timestamp (wg_updated_at g) <=? server_ts
        | None => false
        end
     then ret (wg_group_id g)
     else mtry insert (λ _, _ ←? insert; ret (wg_group_id g))).

(** The watchers of a group row. *)
Definition group_watcher_ids (account_hash : string) (id : Z) : M Conn (list Z) :=
  wquery (db_err_at "Failed to query group watchers (sqlx): ") (λ w,
    map wr_id (List.filter (λ r, (wr_group_id r =? id) && (wr_account_hash r ≈c account_hash)) (t_watchers w))).

Definition group_of_row (now : nat → DateTime) (r : groups_row) (watcher_ids : list Z) : WatcherGroup :=
  {| wg_id := gr_id r; wg_group_id := gr_group_id r; wg_account_hash := gr_account_hash r; wg_title := gr_title r;
     wg_created_at := default (now 0%nat) (gr_created_at r ≫= λ ts, from_timestamp ts 0);
     wg_updated_at := default (now 1%nat) (gr_updated_at r ≫= λ ts, from_timestamp ts 0);
     wg_is_active := gr_is_active r; wg_watcher_ids := watcher_ids |}.

Fixpoint groups_of_rows (account_hash : string) (now : nat → nat → DateTime) (i : nat) (rows : list groups_row)
    : M Conn (list WatcherGroup) :=
  match rows with
  | [] => ret []
  | r :: rows =>
      ids ←? group_watcher_ids account_hash (gr_id r);
      gs ←? groups_of_rows account_hash now (Datatypes.S i) rows;
      ret (group_of_row (now i) r ids :: gs)
  end.

Definition my_get_watcher_groups (account_hash : string) (now : nat → nat → DateTime) : M Conn (list WatcherGroup) :=
  rows ←? wquery (db_err_at "Failed to query watcher groups (sqlx): ") (λ w,
            by_id gr_id (List.filter (λ r, gr_account_hash r ≈c account_hash) (t_watcher_groups w)));
  groups_of_rows account_hash now 0 rows.

Definition my_get_user_watcher_group (account_hash : string) (group_id : Z) (now : nat → DateTime)
    : M Conn (option WatcherGroup) :=
  row ←? wquery (db_err_at "Failed to query watcher group (sqlx): ") (find_group account_hash group_id);
  match row with
  | Some r => ids ←? group_watcher_ids account_hash (gr_id r); ret (Some (group_of_row now r ids))
  | None => ret None
  end.

(** The watchers that can be read, in order. *)
Fixpoint get_watchers_loop (ids : list Z) (i : nat) (now : nat → nat → nat → DateTime)
    : M Conn (list sync_WatcherData) :=
  match ids with
  | [] => ret []
  | id :: ids =>
      mtry (my_get_watcher id (now i)) (λ w,
        ws ←? get_watchers_loop ids (Datatypes.S i) now;
        ret (match w with Ok w => w :: ws | Err _ => ws end))
  end.

Definition my_get_watcher_group_by_account_and_id (account_hash : string) (group_id : Z) (now : DateTime)
    (now_w : nat → nat → nat → DateTime) : M Conn (option sync_WatcherGroupData) :=
  row ←? wquery (db_err_at "Failed to query watcher group (sqlx): ") (find_group account_hash group_id);
  match row with
  | Some r =>
      ids ←? group_watcher_ids account_hash (gr_id r);
      watchers ←? get_watchers_loop ids 0 now_w;
      let updated_at := default now (gr_updated_at r ≫= λ ts, from_timestamp ts 0) in
      ret (Some (mk_sync_WatcherGroupData (gr_group_id r) (gr_title r) watchers
                   (Some (datetime_to_timestamp updated_at))))
  | None => ret None
  end.

Definition my_update_watcher_group (account_hash : string) (g : WatcherGroup) : M Conn unit :=
  let hit r := (gr_id r =? wg_id g) && (gr_account_hash r ≈c account_hash) in
  existing ←? time_scalar (db_err_at "Failed to check existing watcher group timestamp: ") (λ w,
                gr_updated_at <$> List.find hit (t_watcher_groups w));
  if match existing with
     | Some server_ts => dt_timestamp (wg_updated_at g) <=? server_ts
     | None => false
     end
  then ret tt
  else
    transaction fault commit_applied (db_err_at "Failed to start transaction: ")
      (db_err_at "Failed to commit transaction: ")
      (wexec (db_err_at "Failed to update watcher group: ") (λ w,
         with_groups (sql_update hit
           (λ r, mkGroupRow (gr_id r) (gr_group_id r) (gr_account_hash r) (gr_device_hash r) (wg_title g)
                   (gr_created_at r) (from_unixtime (dt_timestamp (wg_updated_at g))) (wg_is_active g))
           (t_watcher_groups w)) w)).

(** [ON DELETE CASCADE] of the foreign keys, where they exist: watchers follow
    their group, conditions their watcher. *)
Definition remove_watchers (cascade : bool) (hit : watchers_row → bool) (w : WatchDb) : WatchDb :=
  let gone := List.filter hit (t_watchers w) in
  with_watchers (List.filter (λ r, negb (hit r)) (t_watchers w))
    (if cascade
     then with_conditions (List.filter (λ r, negb (existsb (λ x, wr_id x =? cr_watcher_id r) gone))
                             (t_watcher_conditions w)) w
     else w).

Definition remove_groups (cascade : bool) (hit : groups_row → bool) (w : WatchDb) : WatchDb :=
  let gone := List.filter hit (t_watcher_groups w) in
  let w' := if cascade then remove_watchers true (λ r, existsb (λ g, gr_id g =? wr_group_id r) gone) w else w in
  with_groups (List.filter (λ r, negb (hit r)) (t_watcher_groups w)) w'.

Definition my_delete_watcher_group (cascade : bool) (account_hash : string) (group_id : Z) : M Conn unit :=
  transaction fault commit_applied (db_err_at "Failed to start transaction: ")
    (db_err_at "Failed to commit transaction: ")
    (row ←? wquery (db_err_at "Failed to select watcher_group id: ") (find_group account_hash group_id);
     match row with
     | None => ret tt
     | Some g =>
         let mine r := (wr_account_hash r ≈c account_hash) && (wr_group_id r =? gr_id g) in
         _ ←? wexec (db_err_at "Failed to delete watcher conditions: ") (λ w,
                with_conditions (List.filter (λ r, negb (existsb (λ x, mine x && (wr_id x =? cr_watcher_id r))
                                                           (t_watchers w))) (t_watcher_conditions w)) w);
         _ ←? wexec (db_err_at "Failed to delete watchers: ") (remove_watchers cascade mine);
         wexec (db_err_at "Failed to delete watcher group: ")
           (remove_groups cascade (λ r, (gr_id r =? gr_id g) && (gr_account_hash r ≈c account_hash)))
     end).

(** ** Presets *)

(** [ORDER BY updated_at DESC LIMIT 1]. *)
Definition newest_preset (l : list presets_row) : option presets_row :=
  foldr (λ r best, match best with
                   | Some b => if pr_updated_at b <=? pr_updated_at r then Some r else best
                   | None => Some r
                   end) None l.

Definition my_get_watcher_preset (account_hash : string) : M Conn (list string) :=
  row ←? wquery (db_err_at "Failed to query watcher preset: ") (λ w,
           newest_preset (List.filter (λ r, pr_account_hash r ≈c account_hash) (t_watcher_presets w)));
  match row with
  | None => ret []
  | Some r =>
      match of_json (pr_preset_json r) with
      | Ok presets => ret presets
      | Err e => throw (General ("Failed to deserialize presets: " +:+ e))
      end
  end.

(** [INSERT IGNORE] of an account with nothing but its hash and times. *)
Definition ensure_account_row (account_hash : string) (now : Z) (d : Db) : Db :=
  if existsb (λ r, ar_account_hash r ≈c account_hash) (t_accounts d) then d
  else with_accounts (t_accounts d ++ [mkAccountRow "" account_hash "" "" None None now now None true])%list d.

Definition upsert_preset (account_hash preset_json : string) (now : Z) (w : WatchDb) : WatchDb :=
  let mine r := pr_account_hash r ≈c account_hash in
  with_presets
    (if existsb mine (t_watcher_presets w)
     then sql_update mine (λ r, mkPresetRow (pr_account_hash r) preset_json (pr_created_at r) now)
            (t_watcher_presets w)
     else t_watcher_presets w ++ [mkPresetRow account_hash preset_json now now])%list w.

Definition my_register_watcher_preset_proto (account_hash device_hash : string) (presets : list string)
    (now : DateTime) : M Conn unit :=
  mtry (exec fault db_err (λ d, (tt, ensure_account_row account_hash (dt_timestamp now) d))) (λ _,
    wexec (db_err_at "Failed to register watcher presets: ")
      (upsert_preset account_hash (to_json presets) (dt_timestamp now))).

Definition my_update_watcher_preset_proto : string → string → list string → DateTime → M Conn unit :=
  my_register_watcher_preset_proto.

(** ** Identifiers of the client and of the server *)

Definition my_get_server_group_id (account_hash : string) (client_group_id : Z) : M Conn (option Z) :=
  wquery (db_err_at "Failed to get server group ID: ") (λ w, gr_id <$> find_group account_hash client_group_id w).

Definition my_get_server_ids (account_hash : string) (client_group_id client_watcher_id : Z)
    : M Conn (option (Z * Z)) :=
  group ←? my_get_server_group_id account_hash client_group_id;
  match group with
  | Some group_id =>
      watcher ←? wquery (db_err_at "Failed to get server watcher ID: ") (λ w,
                   wr_id <$> find_watcher account_hash client_group_id client_watcher_id w);
      ret ((λ watcher_id, (group_id, watcher_id)) <$> watcher)
  | None => ret None
  end.

Definition my_get_client_watcher_id (account_hash : string) (server_group_id server_watcher_id : Z)
    : M Conn (option (Z * Z)) :=
  if server_watcher_id =? 0 then ret (Some (0, 0))
  else
    wquery (db_err_at "Failed to get client watcher_id: ") (λ w,
      (λ r, (wr_local_group_id r, wr_watcher_id r)) <$>
        List.find (λ r, (wr_id r =? server_watcher_id) && (wr_account_hash r ≈c account_hash)) (t_watchers w)).

Definition my_check_duplicate_watcher_group (account_hash : string) (local_group_id : Z) : M Conn (option Z) :=
  wquery (db_err_at "Failed to check duplicate watcher group: ") (λ w,
    gr_id <$> find_group account_hash local_group_id w).

Definition my_check_duplicate_watcher (account_hash : string) (local_watcher_id : Z) : M Conn (option Z) :=
  wquery (db_err_at "Failed to check duplicate watcher: ") (λ w,
    wr_id <$> List.find (λ r, (wr_account_hash r ≈c account_hash) && (wr_watcher_id r =? local_watcher_id))
                (t_watchers w)).

(** The group row that [ensure_server_ids_for] finds or inserts; its number is
    asked for with [SELECT LAST_INSERT_ID()]. *)
Definition ensure_group (account_hash device_hash : string) (client_group_id : Z) (now : DateTime) : M Conn Z :=
  existing ←? wquery (db_err_at "Failed to query watcher_groups: ") (λ w,
                gr_id <$> find_group account_hash client_group_id w);
  match existing with
  | Some id => ret id
  | None =>
      id ←? exec_id i32_max (db_err_at "Failed to insert watcher_group: ") (λ id w,
              (id, with_groups (t_watcher_groups w ++
                 [mkGroupRow id client_group_id account_hash device_hash ("Client Group " +:+ pretty client_group_id)
                    (time_text_column now) (time_text_column now) true])%list w));
      last_id ←? wquery (db_err_at "Failed to get last insert id: ") (λ _, id);
      ret (clamp_i32 last_id)
  end.

Definition ensure_watcher (account_hash : string) (server_group_id client_group_id client_watcher_id : Z)
    (folder_hint : option string) (now : DateTime) : M Conn Z :=
  existing ←? wquery (db_err_at "Failed to query watchers: ") (λ w,
                wr_id <$> find_watcher account_hash client_group_id client_watcher_id w);
  match existing with
  | Some id => ret id
  | None =>
      let folder := default "~/" folder_hint in
      id ←? exec_id i32_max (db_err_at "Failed to insert watcher: ") (λ id w,
              (id, with_watchers (t_watchers w ++
                 [mkWatcherRow id client_watcher_id account_hash server_group_id client_group_id folder
                    (watcher_title folder) true (dt_timestamp now) (dt_timestamp now) true "{}"])%list w));
      last_id ←? wquery (db_err_at "Failed to get last insert id: ") (λ _, id);
      ret (clamp_i32 last_id)
  end.

(** The second look-up of a group numbered 0 has no effect on the answer. *)
Definition my_ensure_server_ids_for (account_hash device_hash : string) (client_group_id client_watcher_id : Z)
    (folder_hint : option string) (now : nat → DateTime) : M Conn (Z * Z) :=
  transaction fault commit_applied (db_err_at "Failed to start transaction: ")
    (db_err_at "Failed to commit ensure_server_ids_for: ")
    (server_group_id ←? ensure_group account_hash device_hash client_group_id (now 0%nat);
     if server_group_id =? 0 then
       _ ←? wquery (db_err_at "Failed to reselect watcher_groups: ") (λ w,
              gr_id <$> find_group account_hash client_group_id w);
       throw (Database "Failed to ensure watcher_group id")
     else
       server_watcher_id ←? ensure_watcher account_hash server_group_id client_group_id client_watcher_id
                              folder_hint (now 1%nat);
       if server_watcher_id =? 0 then throw (Database "Failed to ensure watcher id")
       else ret (server_group_id, server_watcher_id)).

(** ** Notices *)

(** [INSERT .. ON DUPLICATE KEY UPDATE]: [same_key] is the unique key of the
    table, which the program does not create. *)
Definition my_store_file_notice (same_key : FileNotice → FileNotice → bool) (n : FileNotice) : M Conn unit :=
  wexec (db_err_at "Failed to store file notice: ") (λ w,
    with_notices
      (if existsb (same_key n) (t_file_notices w)
       then sql_update (same_key n)
              (λ r, mkFileNotice (fn_account_hash r) (fn_device_hash r) (fn_path r) (fn_action n) (fn_timestamp n)
                      (fn_file_id r) (fn_group_id n) (fn_watcher_id n) (fn_revision n)) (t_file_notices w)
       else t_file_notices w ++ [n])%list w).

Definition my_get_file_notices (account_hash device_hash : string) : M Conn (list FileNotice) :=
  wquery (db_err_at "Failed to get file notices: ") (λ w,
    List.filter (λ r, (fn_account_hash r ≈c account_hash) && (fn_device_hash r ≈c device_hash)) (t_file_notices w)).

Definition my_delete_file_notice (account_hash device_hash : string) (file_id : Z) : M Conn unit :=
  wexec (db_err_at "Failed to delete file notice: ") (λ w,
    with_notices (List.filter (λ r, negb ((fn_account_hash r ≈c account_hash) && (fn_device_hash r ≈c device_hash)
                                          && (fn_file_id r =? file_id))) (t_file_notices w)) w).

End watchers.
