(* ===== verification/MySqlProps.v ===== *)
(** * Properties of the MySQL storage

    What a failing statement leaves behind, what is read back after a write, the
    numbering of revisions, and the maintenance of the table of files. *)

From S2P Require Import Prelude RustString Errors Models Memory StorageApi Effects Crypto MySql MySqlFile.

(** ** Tables *)

Lemma elem_of_filter_In {A} (p : A → bool) l x : x ∈ List.filter p l ↔ x ∈ l ∧ p x = true.
Proof. by rewrite !list_elem_of_In, filter_In. Qed.

Lemma elem_of_sql_update {R} (p : R → bool) f l x :
  x ∈ sql_update p f l → ∃ y, y ∈ l ∧ x = if p y then f y else y.
Proof.
  unfold sql_update. intros Hx%list_elem_of_In. apply in_map_iff in Hx as (y & <- & Hy%list_elem_of_In). by exists y.
Qed.

Lemma find_spec {A} (p : A → bool) l x : List.find p l = Some x → x ∈ l ∧ p x = true.
Proof. intros [H ?]%find_some. by rewrite list_elem_of_In. Qed.

Lemma filter_all {A} (p : A → bool) l : (∀ x, x ∈ l → p x = true) → List.filter p l = l.
Proof.
  induction l as [|x l IH]; intros H; [done|]. cbn. rewrite H by (by left). f_equal. apply IH. intros; apply H; by right.
Qed.

Lemma list_empty_of_none {A} (l : list A) : (∀ x, x ∈ l → False) → l = [].
Proof. destruct l as [|x l]; [done|]. intros H. destruct (H x). by left. Qed.

Lemma filter_implied {A} (p q : A → bool) l :
  (∀ x, x ∈ l → q x = true → p x = true) → List.filter p (List.filter q l) = List.filter q l.
Proof. intros H. apply filter_all. intros x [Hx Hq]%elem_of_filter_In. by apply H. Qed.

Lemma filter_ext_elem {A} (p q : A → bool) l : (∀ x, x ∈ l → p x = q x) → List.filter p l = List.filter q l.
Proof. intros H. apply filter_ext_in. intros x Hx. by apply H, list_elem_of_In. Qed.

(** A row is known by its number. *)
Lemma row_of_id {R} (id : R → Z) l x y : NoDup (map id l) → x ∈ l → y ∈ l → id x = id y → x = y.
Proof.
  intros Hnd [i Hi]%list_elem_of_lookup_1 [j Hj]%list_elem_of_lookup_1 E.
  assert (i = j) as ->; [|congruence].
  eapply (NoDup_lookup _ _ _ (id y) Hnd); rewrite (list_lookup_fmap id); [rewrite Hi|rewrite Hj]; cbn; congruence.
Qed.

(** ** Failures *)

Section failures.
Context (fault : nat → option string).

Context (commit_applied : bool).
Context `{CO : Collation} `{CA : CryptoApi} `{UC : Unicode} `{UT : Utf8} `{FC : FileColumns}.
Context (key : option bytes).

Lemma store_file_info_alike f now nonces c :
  all_or_nothing commit_applied c (my_store_file_info fault commit_applied key f now nonces c)
    (my_store_file_info no_fault commit_applied key f now nonces c).
Proof.
  apply transaction_all_or_nothing, alike_mthen; [auto with alike|]. intros [|]; [auto with alike|].
  do 2 (apply alike_mthen; [auto with alike|intros ?]).
  apply alike_mthen; [case_match; auto with alike|intros ?]. case_match; auto with alike.
Qed.

(** C13: storing a file, deleting a file and registering a device happen as a whole or
    not at all, whichever statements fail and wherever the operation panics: a success
    means that everything was done that is done when nothing fails; an error or a panic
    leaves the database as it was, unless it is the failure of a commit that was applied,
    and then everything was done. *)
Theorem mysql_writes_atomic f nonces account id new_id device uuid now c :
  all_or_nothing commit_applied c (my_store_file_info fault commit_applied key f now nonces c)
    (my_store_file_info no_fault commit_applied key f now nonces c)
  ∧ all_or_nothing commit_applied c (my_delete_file fault commit_applied account id now new_id c)
      (my_delete_file no_fault commit_applied account id now new_id c)
  ∧ all_or_nothing commit_applied c (my_register_device fault commit_applied device now uuid c)
      (my_register_device no_fault commit_applied device now uuid c).
Proof.
  split_and!; [apply store_file_info_alike|apply transaction_all_or_nothing..].
  - apply alike_mthen; [auto with alike|]. intros [r|]; [|auto with alike]. repeat case_match; auto 10 with alike.
  - apply alike_mthen; [auto with alike|]. intros [|]; auto with alike.
Qed.

End failures.

(** ** Reading back *)

Lemma find_app_skip {R} (p : R → bool) l x :
  (∀ r, r ∈ l → p r = false) → p x = true → List.find p (l ++ [x]) = Some x.
Proof.
  intros Hl Hx. induction l as [|r l IH]; cbn; [by rewrite Hx|].
  rewrite Hl by set_solver. apply IH. set_solver.
Qed.


Lemma max_revision_ge l r : r ∈ l → fr_revision r ≤ max_revision l.
Proof.
  unfold max_revision. induction l as [|x l IH]; [by intros ?%elem_of_nil|]. cbn.
  intros [->|H]%elem_of_cons; [lia|]. specialize (IH H). lia.
Qed.

(** The row of a freshly stored file. *)
Definition stored_row (f : FileInfo) (c' : Conn) : option file_row := last (t_files (cn_db c')).

(** What the cipher, the columns and the collation must do for texts to survive. *)
Section roundtrip.
Context (fault : nat → option string) (commit_applied : bool) (Hfault : ∀ n, fault n = None).
Context `{CO : Collation} `{CA : CryptoApi} `{AL : !AeadLaws} `{UC : Unicode} `{UT : Utf8} `{FC : FileColumns}.
Context (key : option bytes).

Lemma exec_ok {A} err (g : Db → A * Db) c :
  exec fault err g c = (Returned (Ok (g (cn_db c)).1), mkConn (g (cn_db c)).2 (S (cn_step c))).
Proof. unfold exec. rewrite Hfault. by destruct (g (cn_db c)). Qed.

Lemma query_ok {A} err (g : Db → A) c :
  query fault err g c = (Returned (Ok (g (cn_db c))), mkConn (cn_db c) (S (cn_step c))).
Proof. unfold query. by rewrite exec_ok. Qed.

Lemma transaction_ok {A} be ce (body : M Conn A) c a c1 :
  body (mkConn (cn_db c) (S (cn_step c))) = (Returned (Ok a), c1) →
  transaction fault commit_applied be ce body c = (Returned (Ok a), mkConn (cn_db c1) (S (cn_step c1))).
Proof. intros H. unfold transaction. by rewrite Hfault, H, Hfault. Qed.

(** Texts that fit a row: valid, and short enough for the cipher. *)
Definition storable (f : FileInfo) : Prop :=
  valid_text (fi_file_path f) = true ∧ valid_text (fi_filename f) = true
  ∧ Z.of_nat (length (as_bytes (fi_file_path f))) ≤ 2 ^ 36 ∧ Z.of_nat (length (as_bytes (fi_filename f))) ≤ 2 ^ 36
  ∧ Z.of_nat (length (file_aad (fi_account_hash f) (fi_group_id f) (fi_watcher_id f))) ≤ 2 ^ 36.

Lemma file_columns_ok f nonces :
  storable f → length (nonces 0%nat) = 12%nat → length (nonces 1%nat) = 12%nat →
  ∃ path name eq token, file_columns key f nonces = Some (path, name, eq, token)
  ∧ eq = eq_index_of key (fi_account_hash f) (fi_file_path f)
  ∧ decrypt_text key (fi_account_hash f) (fi_group_id f) (fi_watcher_id f) path = fi_file_path f
  ∧ decrypt_text key (fi_account_hash f) (fi_group_id f) (fi_watcher_id f) name = fi_filename f.
Proof.
  intros (Hp & Hn & Lp & Ln & La) N0 N1. unfold file_columns, decrypt_text.
  destruct (server_key key) as [k|] eqn:Hk.
  - assert (length k = 32%nat) as Lk.
    { unfold server_key in Hk. destruct key as [kv|]; [|done]. destruct (length kv =? 32)%nat eqn:E; [|done].
      injection Hk as <-. by apply Nat.eqb_eq. }
    destruct (aes_encrypt_total k (nonces 0%nat) (as_bytes (fi_file_path f))
                (file_aad (fi_account_hash f) (fi_group_id f) (fi_watcher_id f)) Lk N0 Lp La) as [cp Ep].
    destruct (aes_encrypt_total k (nonces 1%nat) (as_bytes (fi_filename f))
                (file_aad (fi_account_hash f) (fi_group_id f) (fi_watcher_id f)) Lk N1 Ln La) as [cn En].
    unfold aead_encrypt. rewrite Ep, En. do 4 eexists. split_and!; [done|done|..].
    + rewrite (aead_roundtrip (nonces 0%nat) k (as_bytes (fi_file_path f))); [by apply from_utf8_lossy_valid|done|].
      unfold aead_encrypt. by rewrite Ep.
    + rewrite (aead_roundtrip (nonces 1%nat) k (as_bytes (fi_filename f))); [by apply from_utf8_lossy_valid|done|].
      unfold aead_encrypt. by rewrite En.
  - do 4 eexists. split_and!; [done|done|by apply from_utf8_lossy_valid..].
Qed.

(** A new file, up to its revision: the table after the store. *)
Lemma store_new_file f now nonces c :
  storable f → length (nonces 0%nat) = 12%nat → length (nonces 1%nat) = 12%nat →
  (∀ r, r ∈ t_files (cn_db c) → fr_file_id r ≠ fi_file_id f) →
  ∃ columns (marked : file_row → bool) c', file_columns key f nonces = Some columns
  ∧ my_store_file_info fault commit_applied key f now nonces c = (Returned (Ok (fi_file_id f)), c')
  ∧ t_files (cn_db c') = (map (λ r, if marked r then mark_deleted r else r) (t_files (cn_db c))
      ++ [new_file_row f columns
            (max_revision (List.filter (same_file (fi_account_hash f) (fi_file_path f) (fi_filename f) (fi_group_id f))
                             (t_files (cn_db c))) + 1) (dt_timestamp now)])%list
  ∧ match List.find (λ r, same_file (fi_account_hash f) (fi_file_path f) (fi_filename f) (fi_group_id f) r
                          && negb (fr_is_deleted r)) (t_files (cn_db c)) with
    | Some old => marked = λ r, fr_file_id r =? fr_file_id old
    | None => marked = λ _, false
    end.
Proof.
  intros Hst N0 N1 Hnew. destruct (file_columns_ok f nonces Hst N0 N1) as (path & name & eq & token & Hcols & _).
  assert (Hno : existsb (λ r, (fr_file_id r =? fi_file_id f) && negb (fr_is_deleted r)) (t_files (cn_db c)) = false).
  { apply not_true_is_false. rewrite existsb_exists. intros (r & Hin & Hr).
    apply andb_true_iff in Hr as [Hr%Z.eqb_eq _]. by apply (Hnew r); [apply list_elem_of_In|]. }
  unfold my_store_file_info.
  destruct (List.find _ (t_files (cn_db c))) as [old|] eqn:Hold.
  - exists (path, name, eq, token), (λ r, fr_file_id r =? fr_file_id old). eexists.
    split; [done|]. split; [apply transaction_ok|split; [|done]].
    { unfold mthen at 1. rewrite query_ok. cbn [cn_db]. rewrite Hno.
      unfold mthen at 1. rewrite query_ok. unfold mthen at 1. rewrite query_ok. cbn [cn_db]. rewrite Hold.
      cbn [fmap option_fmap option_map]. unfold mthen at 1. rewrite exec_ok. rewrite Hcols.
      unfold mthen at 1. rewrite exec_ok. reflexivity. }
    done.
  - exists (path, name, eq, token), (λ _ : file_row, false). eexists.
    split; [done|]. split; [apply transaction_ok|split; [|done]].
    { unfold mthen at 1. rewrite query_ok. cbn [cn_db]. rewrite Hno.
      unfold mthen at 1. rewrite query_ok. unfold mthen at 1. rewrite query_ok. cbn [cn_db]. rewrite Hold.
      cbn [fmap option_fmap option_map]. unfold mthen at 1, ret at 1. rewrite Hcols.
      unfold mthen at 1. rewrite exec_ok. reflexivity. }
    cbn. by rewrite map_id.
Qed.


End roundtrip.


(** Without a server key the revisions of a path grow: a file stored under a new
    identifier gets a revision above all earlier ones of its account, path, name
    and group. *)
Theorem mysql_revision_grows fault commit_applied (Hfault : ∀ n, fault n = None)
    `{CO : Collation} `{CA : CryptoApi} `{AL : !AeadLaws} `{UC : Unicode} `{UT : Utf8} `{FC : FileColumns}
    f now nonces c old :
  storable f → length (nonces 0%nat) = 12%nat → length (nonces 1%nat) = 12%nat →
  (∀ r, r ∈ t_files (cn_db c) → fr_file_id r ≠ fi_file_id f) →
  old ∈ t_files (cn_db c) → fr_account_hash old = fi_account_hash f →
  fr_file_path old = as_bytes (fi_file_path f) → fr_filename old = as_bytes (fi_filename f) →
  fr_server_group_id old = fi_group_id f →
  ∃ c' new, my_store_file_info fault commit_applied None f now nonces c = (Returned (Ok (fi_file_id f)), c')
  ∧ stored_row f c' = Some new ∧ fr_file_path new = as_bytes (fi_file_path f)
  ∧ fr_revision old < fr_revision new.
Proof.
  intros Hst N0 N1 Hnew Hold Ha Hp Hn Hg.
  destruct (store_new_file fault commit_applied Hfault None f now nonces c Hst N0 N1 Hnew)
    as (columns & marked & c' & Hcols & Hs & Hfiles & _).
  unfold file_columns in Hcols. cbn in Hcols. injection Hcols as <-.
  exists c'. eexists. split; [done|]. unfold stored_row. rewrite Hfiles, last_snoc. split; [done|].
  split; [done|]. cbn [fr_revision new_file_row].
  assert (fr_revision old ≤ max_revision (List.filter (same_file (fi_account_hash f) (fi_file_path f)
            (fi_filename f) (fi_group_id f)) (t_files (cn_db c)))); [|lia].
  apply max_revision_ge, list_elem_of_In, filter_In. split; [by apply list_elem_of_In|].
  unfold same_file. rewrite Ha, Hp, Hn, Hg, coll_eq_refl, Z.eqb_refl. by rewrite !bool_decide_eq_true_2.
Qed.

(** The statements that look for earlier versions compare the stored ciphertext
    with the plain path. *)
Lemma store_encrypted_path fault commit_applied (Hfault : ∀ n, fault n = None)
    `{CO : Collation} `{CA : CryptoApi} `{AL : !AeadLaws} `{UC : Unicode} `{UT : Utf8} `{FC : FileColumns}
    key f now nonces c :
  storable f → length (nonces 0%nat) = 12%nat → length (nonces 1%nat) = 12%nat →
  (∀ r, r ∈ t_files (cn_db c) → fr_file_id r ≠ fi_file_id f) →
  (∀ r, r ∈ t_files (cn_db c) → fr_file_path r ≠ as_bytes (fi_file_path f)) →
  ∃ c' columns, my_store_file_info fault commit_applied (Some key) f now nonces c
                = (Returned (Ok (fi_file_id f)), c')
  ∧ file_columns (Some key) f nonces = Some columns
  ∧ t_files (cn_db c') = (t_files (cn_db c) ++ [new_file_row f columns 1 (dt_timestamp now)])%list.
Proof.
  intros Hst N0 N1 Hnew Hct.
  destruct (store_new_file fault commit_applied Hfault (Some key) f now nonces c Hst N0 N1 Hnew)
    as (columns & marked & c' & Hcols & Hs & Hfiles & Hmarked).
  assert (Hnone : ∀ r, r ∈ t_files (cn_db c) →
    same_file (fi_account_hash f) (fi_file_path f) (fi_filename f) (fi_group_id f) r = false).
  { intros r Hr. unfold same_file. rewrite (bool_decide_eq_false_2 _ (Hct r Hr)). by rewrite andb_false_r. }
  assert (Hfilter : List.filter (same_file (fi_account_hash f) (fi_file_path f) (fi_filename f) (fi_group_id f))
                      (t_files (cn_db c)) = []).
  { clear -Hnone. induction (t_files (cn_db c)) as [|r l IH]; [done|]. cbn. rewrite Hnone by set_solver.
    apply IH. set_solver. }
  assert (Hfind : List.find (λ r, same_file (fi_account_hash f) (fi_file_path f) (fi_filename f) (fi_group_id f) r
                                  && negb (fr_is_deleted r)) (t_files (cn_db c)) = None).
  { clear -Hnone. induction (t_files (cn_db c)) as [|r l IH]; [done|]. cbn. rewrite Hnone by set_solver.
    apply IH. set_solver. }
  rewrite Hfind in Hmarked. subst marked. rewrite Hfilter in Hfiles. exists c', columns.
  split; [done|]. split; [done|]. by rewrite Hfiles, map_id.
Qed.

(** A ciphertext is at least as long as its plaintext. *)
Class AeadLength `{CryptoApi} := {
  aes_encrypt_length : ∀ key nonce m aad c, aes_encrypt key nonce m aad = Some c → (length m <= length c)%nat
}.

(** With a server key the revisions stand still: of two versions of one file,
    stored one after the other, both get revision 1 and both stay active. *)
Theorem mysql_encrypted_versions_pile_up fault commit_applied (Hfault : ∀ n, fault n = None)
    `{CO : Collation} `{CA : CryptoApi} `{AL : !AeadLaws} `{AN : !AeadLength} `{UC : Unicode} `{UT : Utf8}
    `{FC : FileColumns} key f1 f2 now1 now2 nonces1 nonces2 c :
  length key = 32%nat →
  storable f1 → length (nonces1 0%nat) = 12%nat → length (nonces1 1%nat) = 12%nat →
  storable f2 → length (nonces2 0%nat) = 12%nat → length (nonces2 1%nat) = 12%nat →
  fi_account_hash f1 = fi_account_hash f2 → fi_file_path f1 = fi_file_path f2 →
  fi_filename f1 = fi_filename f2 → fi_group_id f1 = fi_group_id f2 →
  0 ≤ fi_file_id f1 ≤ i64_max → fi_file_id f1 ≠ fi_file_id f2 → t_files (cn_db c) = [] →
  ∃ c1 c2 r1 r2,
    my_store_file_info fault commit_applied (Some key) f1 now1 nonces1 c = (Returned (Ok (fi_file_id f1)), c1)
    ∧ my_store_file_info fault commit_applied (Some key) f2 now2 nonces2 c1 = (Returned (Ok (fi_file_id f2)), c2)
    ∧ t_files (cn_db c2) = [r1; r2]
    ∧ fr_revision r1 = 1 ∧ fr_revision r2 = 1 ∧ fr_is_deleted r1 = false ∧ fr_is_deleted r2 = false.
Proof.
  intros Lk S1 N10 N11 S2 N20 N21 Ha Hp Hn Hg Hid Hne Hempty.
  destruct (store_encrypted_path fault commit_applied Hfault key f1 now1 nonces1 c S1 N10 N11)
    as (c1 & cols1 & Hs1 & Hc1 & Hf1); [rewrite Hempty; set_solver..|]. rewrite Hempty in Hf1.
  destruct cols1 as [[[path1 name1] eq1] token1].
  assert (Hpath : path1 ≠ as_bytes (fi_file_path f2)).
  { unfold file_columns, server_key in Hc1. rewrite Lk in Hc1. cbn [Nat.eqb] in Hc1. unfold aead_encrypt in Hc1.
    destruct (aes_encrypt key (nonces1 0%nat) _ _) as [ct|] eqn:E; [|done].
    destruct (aes_encrypt key (nonces1 1%nat) _ _); [|done]. injection Hc1 as <- _ _ _.
    apply aes_encrypt_length in E. intros Heq%(f_equal length). rewrite length_app, N10, <-Hp in Heq. lia. }
  destruct (store_encrypted_path fault commit_applied Hfault key f2 now2 nonces2 c1 S2 N20 N21)
    as (c2 & cols2 & Hs2 & _ & Hf2).
  - rewrite Hf1. intros r [->|?%elem_of_nil]%elem_of_cons; [|done]. cbn.
    by rewrite wrap_i64_id by (unfold i64_min; lia).
  - rewrite Hf1. by intros r [->|?%elem_of_nil]%elem_of_cons.
  - rewrite Hf1 in Hf2. destruct cols2 as [[[path2 name2] eq2] token2].
    exists c1, c2. do 2 eexists. split_and!; [done|done|exact Hf2|done..].
Qed.

(** ** Tokens *)

(** A token is read back for its account with its times cut to the second; it
    always reads as valid, also when it was stored as revoked. *)
Theorem mysql_token_roundtrip fault (Hfault : ∀ n, fault n = None) `{CO : Collation} `{CH : Chrono} t c :
  (∀ r, r ∈ t_auth_tokens (cn_db c) → coll_eq (tk_access_token r) (at_access_token t) = false) →
  0 ≤ dt_timestamp (at_created_at t) ≤ 253402300799 → 0 ≤ dt_timestamp (at_expires_at t) ≤ 253402300799 →
  ∃ c', my_create_auth_token fault t c = (Returned (Ok tt), c')
  ∧ (my_get_auth_token fault (at_access_token t) c').1 =
    Returned (Ok (Some (mkAuthToken (at_token_id t) (at_account_hash t) (at_access_token t)
      (Some (default "" (at_refresh_token t))) (mkDateTime (dt_timestamp (at_created_at t)) 0)
      (mkDateTime (dt_timestamp (at_expires_at t)) 0) true (at_token_type t) None))).
Proof.
  intros Hnew Hc He. unfold my_create_auth_token. rewrite exec_ok by done. eexists. split; [done|].
  unfold my_get_auth_token, mthen. rewrite query_ok by done. cbn [cn_db fst snd t_auth_tokens with_tokens].
  rewrite find_app_skip; [|done|apply coll_eq_refl]. cbn.
  by rewrite !from_timestamp_calendar by lia.
Qed.

(** ** Accounts *)

Section create_account.
Context `{CO : Collation} `{CH : Chrono}.

(** A turn answers within five statements. *)
Lemma create_account_attempt_step fault commit_applied account rc c r c' :
  create_account_attempt fault commit_applied account rc c = (r, c') →
  (cn_step c < cn_step c' <= cn_step c + 5)%nat ∧ r ≠ Panicked.
Proof.
  unfold create_account_attempt. intros H.
  repeat (case_match; try (injection H as <- <-; cbn [cn_step]; split; [lia|done])).
Qed.

Lemma create_account_attempt_ok fault commit_applied account rc c :
  fault (cn_step c) = None → fault (S (cn_step c)) = None → fault (S (S (cn_step c))) = None →
  create_account_attempt fault commit_applied account rc c =
    (Returned (Ok Done), mkConn (with_accounts (t_accounts (cn_db c) ++ [row_of_account account]) (cn_db c))
                           (4 + cn_step c)).
Proof. intros H1 H2 H3. unfold create_account_attempt. by rewrite H1, H2, H3. Qed.

Lemma create_account_loop_more fault commit_applied account rc c r fuel fuel' c' :
  (fuel <= fuel')%nat → create_account_loop fault commit_applied fuel account rc c = (Returned r, c') →
  create_account_loop fault commit_applied fuel' account rc c = (Returned r, c').
Proof.
  revert fuel' rc c. induction fuel as [|fuel IH]; intros [|fuel'] rc c Hle; [done|done|lia|].
  cbn [create_account_loop]. unfold mthen.
  destruct (create_account_attempt fault commit_applied account rc c) as [[[a|e]|] c1]; [|done..].
  destruct a as [|e|[]]; [done..| |]; [apply IH; lia|]. case_match; [done|apply IH; lia].
Qed.

(** As many turns as statements can fail, and one more, are enough. *)
Lemma create_account_fuel fault commit_applied account n c :
  (∀ m, (n <= m)%nat → fault m = None) →
  ∀ rc, ∃ r c', create_account_loop fault commit_applied (S (n - cn_step c)) account rc c = (Returned r, c').
Proof.
  intros Hn.
  remember (n - cn_step c)%nat as left eqn:Hleft. revert c Hleft.
  induction left as [left IH] using lt_wf_ind. intros c Hleft rc.
  cbn [create_account_loop]. unfold mthen at 1.
  destruct (create_account_attempt fault commit_applied account rc c) as [r c1] eqn:E.
  pose proof (create_account_attempt_step _ _ _ _ _ _ _ E) as [Hstep Hr].
  destruct r as [[a|e]|]; [|by do 2 eexists|done].
  destruct left as [|left].
  { rewrite create_account_attempt_ok in E by (apply Hn; lia). injection E as <- <-. by do 2 eexists. }
  assert (Hnext : ∀ rc, ∃ r c', create_account_loop fault commit_applied (S left) account rc c1 = (Returned r, c')).
  { intros rc'. destruct (IH (n - cn_step c1)%nat) with (c := c1) (rc := rc') as (r & c' & H); [lia|done|].
    exists r, c'. apply (create_account_loop_more _ _ _ _ _ _ (S (n - cn_step c1))); [lia|done]. }
  destruct a as [|e|[]]; [by do 2 eexists..| |]; [apply Hnext|].
  destruct (2 <=? rc + 1); [by do 2 eexists|apply Hnext].
Qed.

(** C37: creating an account comes to an end once statements stop failing, after at most
    one attempt more than there are statements before that: when statement [n] and the
    later ones do not fail, every number of attempts greater than the statements left
    until [n] is enough. *)
Theorem create_account_terminates fault commit_applied account n c :
  (∀ m, (n <= m)%nat → fault m = None) →
  ∃ r c', ∀ attempts, (n - cn_step c < attempts)%nat →
    create_account_loop fault commit_applied attempts account 0 c = (Returned r, c').
Proof.
  intros Hn. destruct (create_account_fuel fault commit_applied account n c Hn 0) as (r & c' & H).
  exists r, c'. intros attempts Ha. by apply (create_account_loop_more _ _ _ _ _ _ (S (n - cn_step c))).
Qed.

(** A user who may create tables but not use them: the insertion and the look at
    the tables fail, and the creation of the table succeeds. *)
Definition no_access (n : nat) : option string :=
  if (n mod 5 =? 1)%nat || (n mod 5 =? 3)%nat then Some "command denied" else None.

Lemma no_access_turn k i : (i < 5)%nat → no_access (5 * k + i) = no_access i.
Proof. intros Hi. unfold no_access. by rewrite Nat.add_comm, Nat.mul_comm, Nat.Div0.mod_add. Qed.

(** The number of attempts to create an account is not bounded by the limit in
    the code: a turn that creates the table skips the test, so with such a user the
    loop goes on for as long as it is given fuel. *)
Theorem create_account_unbounded commit_applied account db fuel :
  create_account_loop no_access commit_applied fuel account 0 (mkConn db 0) = (Panicked, mkConn db (5 * fuel)).
Proof.
  assert (H : ∀ k rc, create_account_loop no_access commit_applied fuel account rc (mkConn db (5 * k))
                      = (Panicked, mkConn db (5 * (k + fuel)))); [|by apply (H 0%nat 0)].
  induction fuel as [|fuel IH]; intros k rc; [by rewrite Nat.add_0_r|].
  cbn [create_account_loop]. unfold mthen, create_account_attempt. cbn [cn_step cn_db].
  replace (S (5 * k)) with (5 * k + 1)%nat by lia.
  replace (S (S (5 * k + 1))) with (5 * k + 3)%nat by lia.
  replace (S (5 * k + 3)) with (5 * k + 4)%nat by lia.
  rewrite !no_access_turn by lia. replace (no_access (5 * k)) with (no_access 0).
  2:{ rewrite <-(no_access_turn k 0) by lia. by rewrite Nat.add_0_r. }
  change (no_access 0) with (@None string). change (no_access 1) with (Some "command denied").
  change (no_access 3) with (Some "command denied"). change (no_access 4) with (@None string).
  replace (S (5 * k + 4)) with (5 * S k)%nat by lia.
  change (str_contains "Duplicate entry" "command denied") with false. cbn match.
  rewrite IH. do 2 f_equal. lia.
Qed.

End create_account.

(** ** Maintenance of the table of files *)

Section maintenance.
Context (fault : nat → option string) (Hfault : ∀ n, fault n = None) `{CO : Collation}.
Implicit Types (l : list file_row) (r t : file_row).

(** What the join of [trim_old_revisions] hits. *)
Definition trim_hit (max_revisions : Z) l r : bool :=
  existsb (λ t, (coll_eq (fr_account_hash r) (fr_account_hash t)) && (fr_file_path r == fr_file_path t)
    && (fr_server_group_id r =? fr_server_group_id t) && (fr_file_id r =? fr_file_id t)
    && (fr_revision r =? fr_revision t)) (surplus max_revisions l).

Lemma trim_files max_revisions c :
  t_files (cn_db (my_trim_old_revisions fault max_revisions c).2) =
  sql_update (trim_hit max_revisions (t_files (cn_db c))) mark_deleted (t_files (cn_db c)).
Proof. unfold my_trim_old_revisions. by rewrite exec_ok. Qed.

Lemma trim_hit_surplus max_revisions l t : t ∈ surplus max_revisions l → trim_hit max_revisions l t = true.
Proof.
  intros Ht. apply existsb_exists. exists t. split; [by apply list_elem_of_In|].
  by rewrite coll_eq_refl, !Z.eqb_refl, bool_decide_eq_true_2.
Qed.

Lemma elem_of_surplus max_revisions l t :
  t ∈ surplus max_revisions l ↔
  t ∈ l ∧ fr_is_deleted t = false ∧ max_revisions < Z.of_nat (length (rivals l t)).
Proof.
  unfold surplus. rewrite list_elem_of_In, filter_In, <-list_elem_of_In, andb_true_iff, negb_true_iff, Z.ltb_lt.
  done.
Qed.

(** Trimming marks exactly the rows that are active and have more than the
    allowed number of active rows of their account, path and group that are as
    recent; everything else stays. *)
Theorem trim_exact max_revisions c i r :
  NoDup (fr_file_id <$> t_files (cn_db c)) → t_files (cn_db c) !! i = Some r →
  t_files (cn_db (my_trim_old_revisions fault max_revisions c).2) !! i =
    Some (if negb (fr_is_deleted r) && (max_revisions <? Z.of_nat (length (rivals (t_files (cn_db c)) r)))
          then mark_deleted r else r).
Proof.
  intros Hnd Hi. rewrite trim_files. unfold sql_update. rewrite (list_lookup_fmap _ (t_files (cn_db c))), Hi. cbn [fmap option_fmap option_map].
  set (l := t_files (cn_db c)) in *.
  assert (Hin : r ∈ l) by (by eapply list_elem_of_lookup_2).
  destruct (negb (fr_is_deleted r) && (max_revisions <? _)) eqn:E.
  - apply andb_true_iff in E as [Hd%negb_true_iff Hm%Z.ltb_lt].
    rewrite trim_hit_surplus; [done|]. by apply elem_of_surplus.
  - destruct (trim_hit max_revisions l r) eqn:Hh; [|done].
    apply existsb_exists in Hh as (t & Ht & Hrt). apply list_elem_of_In, elem_of_surplus in Ht as (Hlt & Hd & Hm).
    rewrite !andb_true_iff in Hrt. destruct Hrt as [[_ Hid%Z.eqb_eq] _].
    assert (t = r) as ->.
    { apply list_elem_of_lookup_1 in Hlt as [j Hj].
      assert (j = i) as ->; [|congruence]. eapply (NoDup_lookup _ _ _ _ Hnd); rewrite list_lookup_fmap.
      - by rewrite Hj.
      - rewrite Hi. cbn. by rewrite Hid. }
    rewrite Hd in E. cbn in E. apply Z.ltb_ge in E. lia.
Qed.

(** Rows that are equally recent do not break their tie: when more than the
    allowed number of active rows of a path were updated in the same second,
    trimming marks all of them, the newest included. *)
Theorem trim_tie_deletes_all max_revisions c a p g u :
  (∀ r, r ∈ t_files (cn_db c) → fr_account_hash r = a ∧ fr_file_path r = p ∧ fr_server_group_id r = g
     ∧ fr_updated_time r = Some u ∧ fr_is_deleted r = false) →
  max_revisions < Z.of_nat (length (t_files (cn_db c))) →
  ∀ r, r ∈ t_files (cn_db (my_trim_old_revisions fault max_revisions c).2) → fr_is_deleted r = true.
Proof.
  intros Hall Hmax r. rewrite trim_files. set (l := t_files (cn_db c)) in *. unfold sql_update.
  intros Hr. apply list_elem_of_In, in_map_iff in Hr as (r0 & <- & Hr0%list_elem_of_In).
  rewrite trim_hit_surplus; [done|]. destruct (Hall r0 Hr0) as (Ha & Hp & Hg & Hu & Hd).
  apply elem_of_surplus. split; [done|]. split; [done|].
  assert (Hriv : rivals l r0 = l); [|by rewrite Hriv].
  unfold rivals. rewrite Ha, Hp, Hg, Hu. clear Hr0 Hmax. induction l as [|x l IH]; [done|].
  destruct (Hall x) as (Ha' & Hp' & Hg' & Hu' & Hd'); [set_solver|]. cbn.
  rewrite Ha', Hp', Hg', Hu', Hd', coll_eq_refl, Z.eqb_refl, Z.leb_refl, bool_decide_eq_true_2 by done. cbn.
  f_equal. apply IH. set_solver.
Qed.

End maintenance.

(** ** Witnesses *)

Definition exact_collation : Collation.
Proof.
  refine {| coll_eq s t := bool_decide (s = t) |}.
  - intros s. by apply bool_decide_eq_true_2.
  - intros s t H%bool_decide_eq_true. by apply bool_decide_eq_true_2.
  - intros s t u H1%bool_decide_eq_true H2%bool_decide_eq_true. apply bool_decide_eq_true_2. congruence.
Defined.

Definition all_utf8 : Utf8.
Proof.
  refine {| valid_text _ := true; from_utf8_lossy := String.string_of_list_byte |}.
  - intros s _. apply String.string_of_list_byte_of_string.
  - done.
Defined.

Definition text_columns : FileColumns.
Proof.
  refine {| from_unixtime t := if (0 <=? t) && (t <=? 2147483647) then Some t else None;
            size_column := Some; text_column b := Some (String.string_of_list_byte b) |}.
  intros t Ht. by rewrite (proj2 (Z.leb_le 0 t)), (proj2 (Z.leb_le t 2147483647)) by lia.
Defined.

Definition plain_length : @AeadLength plain_crypto.
Proof. split. cbn. by intros ????? [= <-]. Defined.

#[local] Existing Instance exact_collation.
#[local] Existing Instance all_utf8.
#[local] Existing Instance text_columns.
#[local] Existing Instance plain_crypto.
#[local] Existing Instance plain_aead.
#[local] Existing Instance plain_length.
#[local] Existing Instance ascii_unicode.
#[local] Existing Instance chrono_range.

Definition calm (n : nat) : option string := None.
Definition empty_db : Db := mkDb [] [] [] [] [] [] (mkWatchDb [] [] [] [] []).
Definition upload (id : Z) : FileInfo :=
  mkFileInfo id "f.txt" "hash" "dev" 1 2 true "~/docs" (mkTimestamp 1700000000 5) 0 "acc" 10 None.
Definition nonces_0 (i : nat) : bytes := nonce0.
Definition t_now : DateTime := mkDateTime 1700000000 0.

Lemma upload_storable id : storable (upload id).
Proof. split_and!; done. Qed.

(** The third statement fails. *)
Definition third_fails (n : nat) : option string := if (n =? 3)%nat then Some "gone away" else None.

(** The third statement of a first upload fails, and nothing was written. *)
Example failed_upload_leaves_nothing :
  ∃ e c', my_store_file_info third_fails false None (upload 7) t_now nonces_0 (mkConn empty_db 0)
          = (Returned (Err e), c') ∧ cn_db c' = empty_db.
Proof. do 2 eexists. split; vm_compute; reflexivity. Qed.


Definition old_row : file_row := new_file_row (upload 6) (as_bytes "~/docs", as_bytes "f.txt", [], "") 3 1600000000.

Lemma mysql_revision_grows_witness :
  ∃ c' new, my_store_file_info calm false None (upload 7) t_now nonces_0
              (mkConn (with_files [old_row] empty_db) 0) = (Returned (Ok 7), c')
  ∧ stored_row (upload 7) c' = Some new ∧ 3 < fr_revision new.
Proof.
  destruct (mysql_revision_grows calm false (λ _, eq_refl) (upload 7) t_now nonces_0
              (mkConn (with_files [old_row] empty_db) 0) old_row) as (c' & new & H1 & H2 & _ & H3);
    [apply upload_storable|reflexivity|reflexivity| |by apply list_elem_of_singleton|reflexivity..|].
  - intros r ->%list_elem_of_singleton. vm_compute. congruence.
  - exists c', new. split; [exact H1|]. split; [exact H2|exact H3].
Defined.

Lemma mysql_encrypted_versions_pile_up_witness :
  ∃ c1 c2 r1 r2, my_store_file_info calm false (Some zero_key) (upload 7) t_now nonces_0 (mkConn empty_db 0)
                 = (Returned (Ok 7), c1)
  ∧ my_store_file_info calm false (Some zero_key) (upload 8) t_now nonces_0 c1 = (Returned (Ok 8), c2)
  ∧ t_files (cn_db c2) = [r1; r2] ∧ fr_revision r2 = 1.
Proof.
  destruct (mysql_encrypted_versions_pile_up calm false (λ _, eq_refl) zero_key (upload 7) (upload 8) t_now t_now
              nonces_0 nonces_0 (mkConn empty_db 0)) as (c1 & c2 & r1 & r2 & H1 & H2 & H3 & _ & H4 & _);
    [reflexivity|apply upload_storable|reflexivity|reflexivity|apply upload_storable|reflexivity|reflexivity
    |reflexivity|reflexivity|reflexivity|reflexivity|vm_compute; split; congruence|vm_compute; congruence
    |reflexivity|].
  exists c1, c2, r1, r2. split_and!; assumption.
Defined.

Definition revoked_token : AuthToken := mkAuthToken "id" "acc" "secret" None t_now t_now false "Bearer" None.

Lemma mysql_token_roundtrip_witness :
  ∃ c', my_create_auth_token calm revoked_token (mkConn empty_db 0) = (Returned (Ok tt), c')
  ∧ (my_get_auth_token calm "secret" c').1 =
    Returned (Ok (Some (mkAuthToken "id" "acc" "secret" (Some "") t_now t_now true "Bearer" None))).
Proof.
  apply (mysql_token_roundtrip calm (λ _, eq_refl) revoked_token (mkConn empty_db 0));
    [by intros r ?%elem_of_nil|vm_compute; split; congruence..].
Defined.

Definition account_0 : Account := mkAccount "acc" "1" "u@x" "U" "oauth" "" "" true t_now t_now t_now "u".

Lemma create_account_terminates_witness :
  ∃ r c', ∀ attempts, (4 < attempts)%nat →
    create_account_loop third_fails false attempts account_0 0 (mkConn empty_db 0) = (Returned r, c').
Proof.
  apply (create_account_terminates third_fails false account_0 4 (mkConn empty_db 0)).
  intros m Hm. unfold third_fails. by rewrite (proj2 (Nat.eqb_neq m 3)) by lia.
Defined.

Definition two_rows : Db := with_files [old_row; new_file_row (upload 9) (as_bytes "~/docs", as_bytes "g.txt", [], "") 1 0] empty_db.

Lemma trim_exact_witness :
  t_files (cn_db (my_trim_old_revisions calm 2 (mkConn two_rows 0)).2) !! 0%nat = Some old_row.
Proof.
  etransitivity; [apply (trim_exact calm (λ _, eq_refl) 2 (mkConn two_rows 0) 0 old_row); [|reflexivity]
                 |vm_compute; reflexivity].
  by apply (bool_decide_unpack _); vm_compute.
Defined.

Lemma trim_tie_deletes_all_witness :
  Forall (λ r, fr_is_deleted r = true) (t_files (cn_db (my_trim_old_revisions calm 1 (mkConn two_rows 0)).2)).
Proof.
  apply List.Forall_forall. intros r0 Hr0. revert r0 Hr0.
  refine (λ r0 Hr0, trim_tie_deletes_all calm (λ _, eq_refl) 1 (mkConn two_rows 0) "acc" (as_bytes "~/docs") 1
            1700000000 _ _ r0 (proj2 (list_elem_of_In _ _) Hr0)); [|vm_compute; reflexivity].
  intros r [->|[->|?%elem_of_nil]%elem_of_cons]%elem_of_cons; try done; (split_and!; reflexivity).
Defined.
