(* ===== verification/MySqlWatcherProps.v ===== *)
(** * Properties of the watcher tables of the MySQL storage

    The tables stay consistent whatever operations run and whichever statements
    fail; what the identifiers of the client and of the server have to do with each
    other; what a created watcher is read back as. *)

From S2P Require Import Prelude RustString Errors Models Paths Memory StorageApi Effects Crypto MySql MySqlFile.
From S2P Require Import MySqlWatcher MySqlProps.

(** A table in the order of its numbers is not reordered. *)
Lemma by_id_sorted {R} (id : R → Z) l : StronglySorted (λ a b, id a < id b) l → by_id id l = l.
Proof.
  intros Hl. unfold by_id. set (D := λ a b, Z_le_dec (id a) (id b)).
  assert (Hinj : ∀ x y, x ∈ l → y ∈ l → id x ≤ id y → id y ≤ id x → x = y).
  { clear D. induction Hl as [|a l Hl IH Ha]; [by intros x y ?%elem_of_nil|].
    rewrite List.Forall_forall in Ha. intros x y [->|Hx]%elem_of_cons [->|Hy]%elem_of_cons H1 H2; [done| | |by apply IH].
    - apply list_elem_of_In in Hy. specialize (Ha y Hy). lia.
    - apply list_elem_of_In in Hx. specialize (Ha x Hx). lia. }
  assert (Total (λ a b, id a ≤ id b)) by (intros x y; lia). assert (Transitive (λ a b, id a ≤ id b)) by (intros x y z; lia).
  pose proof (@merge_sort_Permutation _ (λ a b, id a ≤ id b) D l) as Hp.
  apply (StronglySorted_unique_strong (λ a b, id a ≤ id b)); [|apply Sorted_StronglySorted| |done].
  - intros x y Hx Hy. apply Hinj; [by rewrite <-Hp|done].
  - done.
  - apply (Sorted_merge_sort (λ a b, id a ≤ id b)).
  - clear -Hl. induction Hl as [|a l Hl IH Ha]; constructor; [done|]. eapply Forall_impl; [done|]. cbn. lia.
Qed.

Lemma sorted_lookup {R} (id : R → Z) l :
  (∀ i j x y, l !! i = Some x → l !! j = Some y → (i < j)%nat → id x < id y) → StronglySorted (λ a b, id a < id b) l.
Proof.
  induction l as [|a l IH]; intros H; constructor.
  - apply IH. intros i j x y Hi Hj Hij. apply (H (S i) (S j)); [done..|lia].
  - apply Forall_lookup. intros j y Hj. apply (H 0%nat (S j)); [done..|lia].
Qed.

Lemma Forall2_imap_l {A B} (P : B → A → Prop) (f : nat → A → B) l : (∀ i x, P (f i x) x) → Forall2 P (imap f l) l.
Proof. revert f. induction l as [|x l IH]; intros f H; [constructor|]. rewrite imap_cons. constructor; [apply H|]. apply IH. intros; apply H. Qed.

(** ** Consistent tables *)

Section consistency.
Context (auto_id : nat → Z).
Context `{CO : Collation} `{SX : Sqlx}.

(** No later row has the key of an earlier one. *)
Definition keys_unique {R} (same : R → R → bool) (l : list R) : Prop :=
  ∀ i j ri rj, l !! i = Some ri → l !! j = Some rj → (i < j)%nat → same rj ri = false.

Definition same_group_key (a b : groups_row) : bool := of_group (gr_account_hash a) (gr_group_id a) b.

(** A watcher belongs to a group of its own account, under the client's number of
    that group. *)
Definition has_group (l : list groups_row) (r : watchers_row) : Prop :=
  ∃ g, g ∈ l ∧ gr_id g = wr_group_id r ∧ gr_group_id g = wr_local_group_id r
       ∧ coll_eq (gr_account_hash g) (wr_account_hash r) = true.

(** Row numbers differ, the next to be given out is new, and they fit the protocol. *)
Definition numbered {R} (id : R → Z) (n : nat) (l : list R) : Prop :=
  NoDup (map id l) ∧ ∀ r, r ∈ l → 0 < id r < auto_id n ∧ id r ≤ i32_max.

Record watch_ok (n : nat) (w : WatchDb) : Prop := {
  ok_group_ids : numbered gr_id n (t_watcher_groups w);
  ok_watcher_ids : numbered wr_id n (t_watchers w);
  ok_group_keys : keys_unique same_group_key (t_watcher_groups w);
  ok_watcher_groups : ∀ r, r ∈ t_watchers w → has_group (t_watcher_groups w) r
}.

Context (auto_id_pos : ∀ n, 0 < auto_id n) (auto_id_grows : ∀ m n, (m < n)%nat → auto_id m < auto_id n).

Lemma numbered_more {R} (id : R → Z) n n' l : (n <= n')%nat → numbered id n l → numbered id n' l.
Proof.
  intros Hn [? H]. split; [done|]. intros r Hr. specialize (H r Hr). destruct (decide (n = n')) as [<-|]; [done|].
  pose proof (auto_id_grows n n'). lia.
Qed.

Lemma watch_ok_more n n' w : (n <= n')%nat → watch_ok n w → watch_ok n' w.
Proof. intros Hn []. split; eauto using numbered_more. Qed.

Lemma numbered_filter {R} (id : R → Z) n p l : numbered id n l → numbered id n (List.filter p l).
Proof.
  intros [Hd H]. split.
  - induction l as [|x l IH]; [done|]. cbn. apply NoDup_cons in Hd as [Hx Hd].
    assert (∀ r, r ∈ l → 0 < id r < auto_id n ∧ id r ≤ i32_max) as H' by (intros; apply H; by right).
    destruct (p x); [|by apply IH]. cbn. apply NoDup_cons. split; [|by apply IH].
    contradict Hx. apply list_elem_of_In, in_map_iff in Hx as (y & Hy & [Hin _]%filter_In).
    apply list_elem_of_In, in_map_iff. by exists y.
  - intros r [Hr _]%elem_of_filter_In. by apply H.
Qed.

Lemma numbered_update {R} (id : R → Z) n p f l : (∀ r, id (f r) = id r) → numbered id n l → numbered id n (sql_update p f l).
Proof.
  intros Hf [Hd H]. assert (Hid : map id (sql_update p f l) = map id l).
  { unfold sql_update. rewrite map_map. apply map_ext. intros r. by destruct (p r). }
  split; [by rewrite Hid|]. intros r (y & Hy & ->)%elem_of_sql_update. destruct (p y); [rewrite Hf|]; by apply H.
Qed.

Lemma numbered_snoc {R} (id : R → Z) n l x :
  id x = auto_id n → auto_id n ≤ i32_max → numbered id n l → numbered id (S n) (l ++ [x]).
Proof.
  intros Hx Hmax [Hd H]. split.
  - rewrite map_app. apply NoDup_app. split; [done|]. split; [|apply NoDup_singleton].
    intros i Hi. apply list_elem_of_In, in_map_iff in Hi as (r & <- & Hr%list_elem_of_In).
    intros Ei%list_elem_of_singleton. specialize (H r Hr). lia.
  - pose proof (auto_id_grows n (S n)). pose proof (auto_id_pos n).
    intros r [Hr| ->%list_elem_of_singleton]%elem_of_app; [specialize (H r Hr)|]; lia.
Qed.

Lemma keys_unique_snoc {R} (same : R → R → bool) l x :
  (∀ r, r ∈ l → same x r = false) → keys_unique same l → keys_unique same (l ++ [x]).
Proof.
  intros Hx H i j ri rj Hi Hj Hij. apply lookup_snoc_Some in Hj as [[Hjl Hj]|[-> ->]].
  - rewrite lookup_app_l in Hi by lia. by eapply H.
  - rewrite lookup_app_l in Hi by done. apply Hx. by eapply list_elem_of_lookup_2.
Qed.

Lemma keys_unique_update {R} (same : R → R → bool) p f l :
  (∀ a b, same (f a) b = same a b) → (∀ a b, same a (f b) = same a b) →
  keys_unique same l → keys_unique same (sql_update p f l).
Proof.
  intros H1 H2 H i j ri rj Hi Hj Hij. unfold sql_update in *.
  apply list_lookup_fmap_Some in Hi as (a & -> & Ha). apply list_lookup_fmap_Some in Hj as (b & -> & Hb).
  pose proof (H i j a b Ha Hb Hij). destruct (p a), (p b); by rewrite ?H1, ?H2.
Qed.

Lemma keys_unique_filter {R} (same : R → R → bool) p l : keys_unique same l → keys_unique same (List.filter p l).
Proof.
  induction l as [|x l IH]; [done|]. intros H. cbn.
  assert (Hl : keys_unique same l).
  { intros i j ri rj Hi Hj Hij. apply (H (S i) (S j) ri rj); [done..|lia]. }
  destruct (p x); [|by apply IH]. intros [|i] [|j] ri rj Hi Hj Hij; try lia.
  - injection Hi as <-. cbn in Hj. apply list_elem_of_lookup_2, elem_of_filter_In in Hj as [Hj _].
    apply list_elem_of_lookup_1 in Hj as [k Hk]. apply (H 0%nat (S k) x rj); [done|done|lia].
  - cbn in Hi, Hj. apply (IH Hl i j); [done..|lia].
Qed.

(** ** Operations that keep the tables consistent

    [safe Pre m Q]: from consistent tables where [Pre] holds, [m] leaves consistent
    tables, also when it fails, and [Q] holds of its answer. *)

Context (fault : nat → option string) (commit_applied : bool).
Implicit Types (w : WatchDb).

Definition conn_ok (c : Conn) : Prop := watch_ok (cn_step c) (t_watch (cn_db c)).

Lemma conn_ok_more c n : (cn_step c <= n)%nat → conn_ok c → conn_ok (mkConn (cn_db c) n).
Proof. intros Hn Hc. by apply (watch_ok_more (cn_step c)). Qed.

Definition safe {A} (Pre : WatchDb → Prop) (m : M Conn A) (Q : A → WatchDb → Prop) : Prop :=
  ∀ c r c', conn_ok c → Pre (t_watch (cn_db c)) → m c = (r, c') →
    conn_ok c' ∧ (cn_step c <= cn_step c')%nat ∧ ∀ a, r = Returned (Ok a) → Q a (t_watch (cn_db c')).

Lemma safe_ret {A} (a : A) (Pre : WatchDb → Prop) (Q : A → WatchDb → Prop) : (∀ w, Pre w → Q a w) → safe Pre (ret a) Q.
Proof. intros HQ c r c' Hc HP [= <- <-]. split; [done|]. split; [done|]. intros ? [= <-]. by apply HQ. Qed.

Lemma safe_throw {A} e (Pre : WatchDb → Prop) (Q : A → WatchDb → Prop) : safe Pre (throw e) Q.
Proof. intros c r c' Hc _ [= <- <-]. by split_and!. Qed.

Lemma safe_weaken {A} (Pre Pre' : WatchDb → Prop) (m : M Conn A) (Q Q' : A → WatchDb → Prop) :
  (∀ w, Pre' w → Pre w) → (∀ a w, Q a w → Q' a w) → safe Pre m Q → safe Pre' m Q'.
Proof.
  intros HP HQ Hm c r c' Hc Hpre E. destruct (Hm c r c' Hc (HP _ Hpre) E) as (? & ? & H). split; [done|].
  split; [done|]. intros a Ha. by apply HQ, H.
Qed.

Lemma safe_bind {A B} Pre (m : M Conn A) Q (k : A → M Conn B) Q' :
  safe Pre m Q → (∀ a, safe (Q a) (k a) Q') → safe Pre (mthen m k) Q'.
Proof.
  intros Hm Hk c r c' Hc Hpre E. unfold mthen in E. destruct (m c) as [r1 c1] eqn:E1.
  destruct (Hm c r1 c1 Hc Hpre E1) as (H1 & Hs & HQ). destruct r1 as [[a|e]|].
  - destruct (Hk a c1 r c' H1 (HQ a eq_refl) E) as (? & ? & ?). split; [done|]. split; [lia|done].
  - injection E as <- <-. by split_and!.
  - injection E as <- <-. by split_and!.
Qed.

Lemma safe_try {A B} Pre (m : M Conn A) (k : result A StorageError → M Conn B) Q' :
  safe Pre m (λ _ _, True) → (∀ a, safe (λ _, True) (k a) Q') → safe Pre (mtry m k) Q'.
Proof.
  intros Hm Hk c r c' Hc Hpre E. unfold mtry in E. destruct (m c) as [r1 c1] eqn:E1.
  destruct (Hm c r1 c1 Hc Hpre E1) as (H1 & Hs & _). destruct r1 as [r1|].
  - destruct (Hk r1 c1 r c' H1 I E) as (? & ? & ?). split; [done|]. split; [lia|done].
  - injection E as <- <-. by split_and!.
Qed.

Lemma safe_exec_id {A} limit err (Pre : WatchDb → Prop) (f : Z → WatchDb → A * WatchDb) (Q : A → WatchDb → Prop) :
  (∀ n w, watch_ok n w → Pre w → auto_id n ≤ limit →
     watch_ok (S n) (f (auto_id n) w).2 ∧ Q (f (auto_id n) w).1 (f (auto_id n) w).2) →
  safe Pre (exec_id fault auto_id limit err f) Q.
Proof.
  intros Hf c r c' Hc Hpre E. unfold exec_id, exec in E.
  destruct (match fault (cn_step c) with Some e => Some e | None => _ end) eqn:Ef.
  - injection E as <- <-. split; [apply conn_ok_more; [lia|done]|]. split; [cbn; lia|done].
  - assert (auto_id (cn_step c) ≤ limit) as Hl.
    { destruct (fault (cn_step c)); [done|]. destruct (limit <? auto_id (cn_step c)) eqn:El; [done|]. lia. }
    destruct (Hf _ _ Hc Hpre Hl) as [H1 H2]. destruct (f (auto_id (cn_step c)) (t_watch (cn_db c))) as [a w'] eqn:Ew.
    injection E as <- <-. split; [done|]. split; [cbn; lia|]. by intros ? [= <-].
Qed.

Lemma safe_exec {A} err (Pre : WatchDb → Prop) (f : Db → A * Db) (Q : A → WatchDb → Prop) :
  (∀ n d, watch_ok n (t_watch d) → Pre (t_watch d) →
     watch_ok (S n) (t_watch (f d).2) ∧ Q (f d).1 (t_watch (f d).2)) →
  safe Pre (exec fault err f) Q.
Proof.
  intros Hf c r c' Hc Hpre E. unfold exec in E. destruct (fault (cn_step c)).
  - injection E as <- <-. split; [apply conn_ok_more; [lia|done]|]. split; [cbn; lia|done].
  - destruct (Hf _ _ Hc Hpre) as [H1 H2]. destruct (f (cn_db c)) as [a d'] eqn:Ed.
    injection E as <- <-. split; [done|]. split; [cbn; lia|]. by intros ? [= <-].
Qed.

Lemma safe_wquery {A} err (Pre : WatchDb → Prop) (f : WatchDb → A) :
  safe Pre (wquery fault err f) (λ a w, Pre w ∧ a = f w).
Proof.
  apply safe_exec. intros n d Hd Hpre. cbn. split; [|by split]. by apply (watch_ok_more n); [lia|].
Qed.

Lemma safe_wexec err Pre f (Q : unit → WatchDb → Prop) :
  (∀ n w, watch_ok n w → Pre w → watch_ok n (f w) ∧ Q tt (f w)) → safe Pre (wexec fault err f) Q.
Proof.
  intros Hf. apply safe_exec. intros n d Hd Hpre. cbn. destruct (Hf n _ Hd Hpre) as [H1 H2].
  split; [|done]. by apply (watch_ok_more n); [lia|].
Qed.

Lemma safe_transaction {A} be ce (Pre : WatchDb → Prop) (body : M Conn A) (Q : A → WatchDb → Prop) :
  safe Pre body Q → safe Pre (transaction fault commit_applied be ce body) Q.
Proof.
  intros Hb c r c' Hc Hpre E. unfold transaction in E.
  assert (Hup : ∀ n, (cn_step c <= n)%nat → conn_ok (mkConn (cn_db c) n)) by (intros; by apply conn_ok_more).
  destruct (fault (cn_step c)).
  { injection E as <- <-. split; [by apply Hup; lia|]. split; [cbn; lia|done]. }
  destruct (body _) as [r1 c1] eqn:E1.
  destruct (Hb _ r1 c1 (Hup (S (cn_step c)) ltac:(lia)) Hpre E1) as (H1 & Hs & HQ). cbn [cn_step] in Hs.
  assert (Hroll : conn_ok (mkConn (cn_db c) (cn_step c1))) by (apply Hup; lia).
  assert (Hdone : conn_ok (mkConn (cn_db c1) (S (cn_step c1)))) by (apply conn_ok_more; [lia|done]).
  destruct r1 as [[a|e]|].
  - destruct (fault (cn_step c1)); injection E as <- <-; cbn [cn_step cn_db].
    + destruct commit_applied; [by split_and!; [|cbn; lia|]|]. split; [apply Hup; lia|]. split; [cbn; lia|done].
    + split; [done|]. split; [cbn; lia|]. intros ? [= <-]. by apply HQ.
  - injection E as <- <-. split; [done|]. split; [cbn; lia|done].
  - injection E as <- <-. split; [done|]. split; [cbn; lia|done].
Qed.

(** *** Changes of the tables *)

Lemma watch_ok_add_group n w g :
  watch_ok n w → gr_id g = auto_id n → auto_id n ≤ i32_max → find_group (gr_account_hash g) (gr_group_id g) w = None →
  watch_ok (S n) (with_groups (t_watcher_groups w ++ [g]) w).
Proof.
  intros [] Hid Hmax Hnone. split; cbn.
  - by apply numbered_snoc.
  - by apply (numbered_more _ n); [lia|].
  - apply keys_unique_snoc; [|done]. intros r Hr%list_elem_of_In. exact (find_none _ _ Hnone r Hr).
  - intros r Hr. destruct (ok_watcher_groups0 r Hr) as (g' & ? & ?). exists g'. split; [|done].
    apply elem_of_app. by left.
Qed.

Lemma watch_ok_update_groups n w p f :
  (∀ r, gr_id (f r) = gr_id r ∧ gr_group_id (f r) = gr_group_id r ∧ gr_account_hash (f r) = gr_account_hash r) →
  watch_ok n w → watch_ok n (with_groups (sql_update p f (t_watcher_groups w)) w).
Proof.
  intros Hf []. assert (Hid : ∀ r, gr_id (f r) = gr_id r) by (intros r; apply Hf). split; cbn; [by apply numbered_update|done| |].
  - apply keys_unique_update; [| |done]; intros a b; unfold same_group_key, of_group.
    + by destruct (Hf a) as (_ & -> & ->).
    + by destruct (Hf b) as (_ & -> & ->).
  - intros r Hr. destruct (ok_watcher_groups0 r Hr) as (g & Hg & H). exists (if p g then f g else g). split.
    + apply list_elem_of_In, in_map_iff. exists g. split; [done|]. by apply list_elem_of_In.
    + destruct (p g); [|done]. destruct (Hf g) as (-> & -> & ->). done.
Qed.

Lemma watch_ok_add_watcher n w r :
  watch_ok n w → wr_id r = auto_id n → auto_id n ≤ i32_max → has_group (t_watcher_groups w) r →
  watch_ok (S n) (with_watchers (t_watchers w ++ [r]) w).
Proof.
  intros [] Hid Hmax Hg. split; cbn; [by apply (numbered_more _ n); [lia|]|by apply numbered_snoc|done|].
  intros x [Hx| ->%list_elem_of_singleton]%elem_of_app; [by apply ok_watcher_groups0|done].
Qed.

Lemma watch_ok_update_watchers n w p f :
  (∀ r, wr_id (f r) = wr_id r) → (∀ r, r ∈ t_watchers w → p r = true → has_group (t_watcher_groups w) (f r)) →
  watch_ok n w → watch_ok n (with_watchers (sql_update p f (t_watchers w)) w).
Proof.
  intros Hf Hg []. split; cbn; [done|by apply numbered_update|done|].
  intros r (y & Hy & ->)%elem_of_sql_update. destruct (p y) eqn:E; [by apply Hg|by apply ok_watcher_groups0].
Qed.

Lemma watch_ok_conditions n w l : watch_ok n w → watch_ok n (with_conditions l w).
Proof. intros []. by split. Qed.

Lemma watch_ok_remove_watchers n w cascade hit : watch_ok n w → watch_ok n (remove_watchers cascade hit w).
Proof.
  intros []. unfold remove_watchers. destruct cascade; (split; cbn; [done|by apply numbered_filter|done|]);
    intros r [Hr _]%elem_of_filter_In; by apply ok_watcher_groups0.
Qed.

(** A group may go when no watcher is left in it. *)
Lemma watch_ok_remove_groups n w cascade hit :
  (∀ r g, r ∈ t_watchers w → g ∈ t_watcher_groups w → hit g = true → wr_group_id r ≠ gr_id g) →
  watch_ok n w → watch_ok n (remove_groups cascade hit w).
Proof.
  intros Hfree [Hg Hw Hk Href].
  assert (Hok : ∀ l, (∀ r, r ∈ l → r ∈ t_watchers w) → numbered wr_id n l →
    watch_ok n (with_groups (List.filter (λ r, negb (hit r)) (t_watcher_groups w)) (with_watchers l w))).
  { intros l Hl Hn. split; cbn; [by apply numbered_filter|done|by apply keys_unique_filter|].
    intros r Hr. destruct (Href r (Hl r Hr)) as (g & Hgin & Hid & H). exists g. split; [|done].
    apply elem_of_filter_In. split; [done|]. apply negb_true_iff, not_true_is_false. intros Hh.
    by destruct (Hfree r g (Hl r Hr) Hgin Hh). }
  unfold remove_groups. destruct cascade; cbn.
  - unfold remove_watchers. set (l := List.filter _ (t_watchers w)).
    destruct (Hok l) as [? ? ? ?]; [by intros r [? _]%elem_of_filter_In|by apply numbered_filter|]. by split.
  - destruct (Hok (t_watchers w)) as [? ? ? ?]; [done|done|]. by split.
Qed.

Lemma has_group_found w account group_id g wr_i wid lg folder title rec c u a x :
  find_group account group_id w = Some g → lg = group_id →
  ∀ acc, coll_eq acc account = true →
  has_group (t_watcher_groups w) (mkWatcherRow wr_i wid acc (gr_id g) lg folder title rec c u a x).
Proof.
  intros [Hin Hp]%find_spec -> acc Hacc. apply andb_true_iff in Hp as [Ha Hi%Z.eqb_eq].
  exists g. split_and!; [done..|]. cbn. eapply coll_eq_trans; [done|by apply coll_eq_sym].
Qed.

(** *** The operations *)

Context `{CH : Chrono} `{UC : Unicode} `{FC : FileColumns} `{WC : WatcherColumns}.
Let anything {A} : A → WatchDb → Prop := λ _ _, True.

Lemma safe_time_scalar err Pre f : safe Pre (time_scalar fault err f) (λ _, Pre).
Proof.
  eapply safe_bind; [apply (safe_wquery err Pre f)|]. intros [v|]; [destruct (not_null 0 v)|].
  - apply safe_ret. by intros w [? _].
  - apply safe_throw.
  - apply safe_ret. by intros w [? _].
Qed.

Lemma upsert_group_ok account device g n w :
  watch_ok n w → auto_id n ≤ i32_max → watch_ok (S n) (upsert_group account device g (auto_id n) w).2.
Proof.
  intros Hw Hmax. unfold upsert_group; cbn. destruct (find_group account (wg_group_id g) w) as [old|] eqn:E.
  - apply (watch_ok_more n); [lia|]. by apply watch_ok_update_groups.
  - by apply watch_ok_add_group.
Qed.

Lemma register_watcher_group_safe account device g :
  safe (λ _, True) (my_register_watcher_group fault commit_applied auto_id account device g) anything.
Proof.
  apply safe_transaction. eapply safe_bind; [apply safe_time_scalar|]. intros existing. cbn zeta.
  assert (Hi : ∀ err, safe (λ _, True) (exec_id fault auto_id i32_max err (upsert_group account device g)) anything).
  { intros err. apply safe_exec_id. intros n w Hw _ Hl. split; [by apply upsert_group_ok|done]. }
  case_match; [by apply safe_ret|]. apply safe_try; [apply Hi|]. intros ?.
  eapply safe_bind; [apply Hi|]. intros ?. by apply safe_ret.
Qed.

Lemma update_watcher_group_safe account g :
  safe (λ _, True) (my_update_watcher_group fault commit_applied account g) anything.
Proof.
  eapply safe_bind; [apply safe_time_scalar|]. intros existing. case_match; [by apply safe_ret|].
  apply safe_transaction, safe_wexec. intros n w Hw _. split; [|done]. by apply watch_ok_update_groups.
Qed.

(** The watchers of a group are those of its account. *)
Lemma watcher_of_found w n account group_id g r :
  watch_ok n w → find_group account group_id w = Some g → r ∈ t_watchers w → wr_group_id r = gr_id g →
  coll_eq (wr_account_hash r) account = true.
Proof.
  intros [Hg _ _ Href] [Hin Hp]%find_spec Hr Hid. destruct (Href r Hr) as (g' & Hin' & Hid' & _ & Hacc).
  assert (g' = g) as -> by (eapply (row_of_id gr_id); [apply Hg|done|done|congruence]).
  apply andb_true_iff in Hp as [Ha _]. eapply coll_eq_trans; [by apply coll_eq_sym|done].
Qed.

Lemma delete_watcher_group_safe cascade account group_id :
  safe (λ _, True) (my_delete_watcher_group fault commit_applied cascade account group_id) anything.
Proof.
  apply safe_transaction. eapply safe_bind; [apply safe_wquery|]. intros [g|].
  2: by apply safe_ret.
  cbn zeta. set (mine := λ r : watchers_row, _ && _).
  eapply (safe_bind _ _ (λ _ w, find_group account group_id w = Some g)).
  { apply safe_wexec. intros n w Hw [_ E]. split; [by apply watch_ok_conditions|done]. }
  intros ?. eapply (safe_bind _ _ (λ _ w, ∀ r, r ∈ t_watchers w → wr_group_id r ≠ gr_id g)).
  { apply safe_wexec. intros n w Hw E. split; [by apply watch_ok_remove_watchers|].
    assert (Hf : ∀ r, r ∈ List.filter (λ r, negb (mine r)) (t_watchers w) → wr_group_id r ≠ gr_id g).
    { intros r [Hr Hm%negb_true_iff]%elem_of_filter_In Hid. unfold mine in Hm.
      rewrite (watcher_of_found w n account group_id g r Hw E Hr Hid), Hid, Z.eqb_refl in Hm. done. }
    unfold remove_watchers. by destruct cascade. }
  intros ?. apply safe_wexec. intros n w Hw Hfree. split; [|done]. apply watch_ok_remove_groups; [|done].
  intros r x Hr Hx Hh. apply andb_true_iff in Hh as [->%Z.eqb_eq _]. by apply Hfree.
Qed.

Context (others : nat → WatchDb → WatchDb) (others_ok : ∀ k n w, watch_ok n w → watch_ok n (others k w)).

Lemma wait_for_group_safe tries account group_id waited :
  safe (λ _, True) (wait_for_group fault others tries account group_id waited)
    (λ a w, ∀ id, a.1 = Some id → ∃ g, find_group account group_id w = Some g ∧ gr_id g = id).
Proof.
  revert waited. induction tries as [|tries IH]; intros waited; [by apply safe_ret|].
  cbn [wait_for_group]. eapply safe_bind; [apply safe_wquery|]. intros [g|].
  { apply safe_ret. intros w [_ Hg] id [= <-]. by exists g. }
  case_match; [|eapply safe_weaken; [| |apply IH]; done].
  intros c r c' Hc _ E. refine (IH _ (mkConn _ (cn_step c)) r c' _ I E). by apply others_ok.
Qed.

Lemma kept_watcher_safe account group_id watcher_id timestamp now Pre :
  safe Pre (kept_watcher fault account group_id watcher_id timestamp now) (λ _, Pre).
Proof.
  eapply safe_bind; [apply safe_wquery|]. intros [u|]; [|apply safe_ret; by intros w [? _]].
  cbn zeta. case_match; [apply safe_ret; by intros w [? _]|].
  eapply safe_weaken; [| |apply (safe_wquery _ Pre)]; [by intros w [? _]|by intros a w [? _]].
Qed.

Lemma add_condition_safe err row Pre : (∀ w l, Pre w → Pre (with_conditions l w)) →
  safe Pre (add_condition fault auto_id err row) (λ _, Pre).
Proof.
  intros HP. apply safe_exec_id. intros n w Hw HPw _. cbn. split; [|by apply HP].
  apply watch_ok_conditions, (watch_ok_more n); [lia|done].
Qed.

Lemma insert_conditions_loop_safe what row k l :
  safe (λ _, True) (insert_conditions_loop fault auto_id what row k l) anything.
Proof.
  revert k. induction l as [|x l IH]; intros k; [by apply safe_ret|]. cbn.
  eapply safe_bind; [by apply add_condition_safe|]. intros ?. apply IH.
Qed.

Lemma upsert_watcher_ok unique account g group_id folder data timestamp n w :
  watch_ok n w → auto_id n ≤ i32_max → find_group account group_id w = Some g →
  watch_ok (S n) (upsert_watcher unique account (gr_id g) group_id folder data timestamp (auto_id n) w).2.
Proof.
  intros Hw Hmax Hg. unfold upsert_watcher.
  destruct (if unique then _ else None) as [old|] eqn:E; cbn.
  - apply (watch_ok_more n); [lia|]. apply watch_ok_update_watchers; [done| |done].
    destruct unique; [|done]. apply find_spec in E as [Hin Hp].
    unfold of_watcher in Hp. rewrite !andb_true_iff in Hp. destruct Hp as [[Ha Hl%Z.eqb_eq] _].
    intros r Hr Hid%Z.eqb_eq. assert (r = old) as ->; [|by apply has_group_found with (account := account) (group_id := group_id)].
    eapply (row_of_id wr_id); [apply Hw|done..].
  - apply watch_ok_add_watcher; [done..|].
    apply has_group_found with (account := account) (group_id := group_id); [done|done|apply coll_eq_refl].
Qed.

Lemma create_watcher_safe unique account group_id data timestamp now :
  safe (λ _, True) (my_create_watcher_with_conditions fault commit_applied auto_id others unique account group_id data
                      timestamp now) anything.
Proof.
  unfold my_create_watcher_with_conditions. cbn zeta. eapply safe_bind; [apply wait_for_group_safe|].
  intros [[id|] waited]; cbn [fst]; [|apply safe_throw].
  apply safe_transaction. eapply safe_bind; [apply kept_watcher_safe|]. intros [kept|]; [by apply safe_ret|].
  eapply (safe_bind _ _ anything).
  { apply safe_exec_id. intros n w Hw HP Hl. split; [|done].
    destruct (HP id eq_refl) as (g & Hg & <-). by apply upsert_watcher_ok. }
  intros new_id. case_match; [apply safe_throw|].
  eapply safe_bind; [apply insert_conditions_loop_safe|]. intros ?.
  eapply safe_bind; [apply insert_conditions_loop_safe|]. intros ?. by apply safe_ret.
Qed.

Lemma clamp_i32_id id : id ≤ i32_max → clamp_i32 id = id.
Proof. unfold clamp_i32. intros. destruct (i32_max <? id) eqn:E; lia. Qed.

Lemma find_app_new {R} (p : R → bool) l x : List.find p l = None → p x = true → List.find p (l ++ [x]) = Some x.
Proof. intros Hn Hx. apply find_app_skip; [|done]. intros r Hr%list_elem_of_In. by apply (find_none p l). Qed.

Lemma ensure_group_safe account device group_id now :
  safe (λ _, True) (ensure_group fault auto_id account device group_id now)
    (λ id w, ∃ g, find_group account group_id w = Some g ∧ gr_id g = id).
Proof.
  eapply safe_bind; [apply safe_wquery|]. intros [id|].
  { apply safe_ret. intros w [_ Hg]. symmetry in Hg. by apply fmap_Some in Hg as (g & ? & ->); exists g. }
  eapply (safe_bind _ _ (λ id w, id ≤ i32_max ∧ ∃ g, find_group account group_id w = Some g ∧ gr_id g = id)).
  { apply safe_exec_id. intros n w Hw [_ Hnone] Hl. cbn. symmetry in Hnone. apply fmap_None in Hnone. split.
    - by apply watch_ok_add_group.
    - split; [done|]. eexists. split; [apply find_app_new; [done|]|reflexivity].
      unfold of_group. cbn. by rewrite coll_eq_refl, Z.eqb_refl. }
  intros id. eapply safe_bind; [apply safe_wquery|]. intros id'. apply safe_ret.
  intros w [[Hl Hg] ->]. by rewrite clamp_i32_id.
Qed.

Lemma ensure_watcher_safe account server_group_id group_id watcher_id hint now :
  safe (λ w, ∃ g, find_group account group_id w = Some g ∧ gr_id g = server_group_id)
    (ensure_watcher fault auto_id account server_group_id group_id watcher_id hint now) anything.
Proof.
  eapply safe_bind; [apply safe_wquery|]. intros [id|]; [by apply safe_ret|]. cbn zeta.
  eapply (safe_bind _ _ anything).
  { apply safe_exec_id. intros n w Hw [(g & Hg & <-) _] Hl. split; [|done]. apply watch_ok_add_watcher; [done..|].
    apply has_group_found with (account := account) (group_id := group_id); [done|done|apply coll_eq_refl]. }
  intros id. eapply safe_bind; [apply safe_wquery|]. intros id'. by apply safe_ret.
Qed.

Lemma ensure_server_ids_safe account device group_id watcher_id hint now :
  safe (λ _, True) (my_ensure_server_ids_for fault commit_applied auto_id account device group_id watcher_id hint now)
    anything.
Proof.
  apply safe_transaction. eapply safe_bind; [apply ensure_group_safe|]. intros id.
  case_match; [eapply safe_bind; [apply safe_wquery|]; intros ?; apply safe_throw|].
  eapply safe_bind; [apply ensure_watcher_safe|]. intros id'. case_match; [apply safe_throw|by apply safe_ret].
Qed.

Lemma create_watcher_condition_safe x :
  safe (λ _, True) (my_create_watcher_condition fault commit_applied auto_id x) anything.
Proof.
  eapply (safe_bind _ _ anything).
  - case_match; [|by apply safe_ret]. eapply safe_bind; [apply safe_wquery|].
    intros [r|]; [by apply safe_ret|apply safe_throw].
  - intros lg. apply safe_transaction. eapply safe_bind; [by apply add_condition_safe|]. intros id.
    case_match; [apply safe_throw|by apply safe_ret].
Qed.

Lemma save_conditions_loop_safe l : safe (λ _, True) (save_conditions_loop fault auto_id l) anything.
Proof.
  induction l as [|x l IH]; [by apply safe_ret|]. cbn.
  eapply safe_bind; [by apply add_condition_safe|]. intros ?. apply IH.
Qed.

(** The requests that change the tables. *)
Inductive watch_op :=
| RegisterGroup (account device : string) (g : WatcherGroup)
| UpdateGroup (account : string) (g : WatcherGroup)
| DeleteGroup (cascade : bool) (account : string) (group_id : Z)
| CreateWatcher (unique : bool) (account : string) (group_id : Z) (data : sync_WatcherData) (timestamp : Z)
    (now : nat → DateTime)
| EnsureServerIds (account device : string) (group_id watcher_id : Z) (hint : option string) (now : nat → DateTime)
| CreateCondition (x : WatcherCondition)
| UpdateCondition (x : WatcherCondition)
| DeleteCondition (id : Z)
| DeleteConditions (watcher_id : Z)
| SaveConditions (watcher_id : Z) (l : list WatcherCondition)
| RegisterPreset (account device : string) (presets : list string) (now : DateTime)
| StoreNotice (same_key : FileNotice → FileNotice → bool) (x : FileNotice)
| DeleteNotice (account device : string) (file_id : Z).

(** The connection after a request, whatever it answered. *)
Definition run_op (op : watch_op) (c : Conn) : Conn :=
  match op with
  | RegisterGroup a d g => (my_register_watcher_group fault commit_applied auto_id a d g c).2
  | UpdateGroup a g => (my_update_watcher_group fault commit_applied a g c).2
  | DeleteGroup b a i => (my_delete_watcher_group fault commit_applied b a i c).2
  | CreateWatcher u a i x t n =>
      (my_create_watcher_with_conditions fault commit_applied auto_id others u a i x t n c).2
  | EnsureServerIds a d i j h n => (my_ensure_server_ids_for fault commit_applied auto_id a d i j h n c).2
  | CreateCondition x => (my_create_watcher_condition fault commit_applied auto_id x c).2
  | UpdateCondition x => (my_update_watcher_condition fault commit_applied x c).2
  | DeleteCondition i => (my_delete_watcher_condition fault i c).2
  | DeleteConditions i => (my_delete_all_watcher_conditions fault i c).2
  | SaveConditions i l => (my_save_watcher_conditions fault commit_applied auto_id i l c).2
  | RegisterPreset a d l n => (my_register_watcher_preset_proto fault a d l n c).2
  | StoreNotice k x => (my_store_file_notice fault k x c).2
  | DeleteNotice a d i => (my_delete_file_notice fault a d i c).2
  end.

Lemma safe_run {A} (m : M Conn A) Q c : safe (λ _, True) m Q → conn_ok c → conn_ok (m c).2.
Proof. intros Hm Hc. destruct (m c) as [r c'] eqn:E. by destruct (Hm c r c' Hc I E). Qed.

Lemma run_op_ok op c : conn_ok c → conn_ok (run_op op c).
Proof.
  destruct op; cbn [run_op].
  - apply (safe_run _ _ _ (register_watcher_group_safe _ _ _)).
  - apply (safe_run _ _ _ (update_watcher_group_safe _ _)).
  - apply (safe_run _ _ _ (delete_watcher_group_safe _ _ _)).
  - apply (safe_run _ _ _ (create_watcher_safe _ _ _ _ _ _)).
  - apply (safe_run _ _ _ (ensure_server_ids_safe _ _ _ _ _ _)).
  - apply (safe_run _ _ _ (create_watcher_condition_safe _)).
  - apply (safe_run _ anything). unfold my_update_watcher_condition. destruct (wc_id x); [|apply safe_throw].
    apply safe_transaction, safe_wexec. intros n w Hw _. split; [by apply watch_ok_conditions|done].
  - apply (safe_run _ anything), safe_wexec. intros n w Hw _. split; [by apply watch_ok_conditions|done].
  - apply (safe_run _ anything), safe_wexec. intros n w Hw _. split; [by apply watch_ok_conditions|done].
  - apply (safe_run _ anything), safe_transaction. eapply safe_bind; [|intros ?; apply save_conditions_loop_safe].
    apply safe_wexec. intros n w Hw _. split; [by apply watch_ok_conditions|done].
  - apply (safe_run _ anything). apply safe_try.
    + apply safe_exec. intros n d Hd _. split; [|done]. apply (watch_ok_more n); [lia|].
      unfold ensure_account_row; cbn. by destruct (existsb _ _).
    + intros ?. apply safe_wexec. intros n w [] _. split; [by split|done].
  - apply (safe_run _ anything), safe_wexec. intros n w [] _. split; [by split|done].
  - apply (safe_run _ anything), safe_wexec. intros n w [] _. split; [by split|done].
Qed.

(** C8: whatever requests run, in whatever order, and whichever statements and
    commits fail, the watcher tables stay consistent: the numbers of the rows are
    distinct and fit the [i32] of the protocol, an account has one group for each number of the client, and every
    watcher is in a group of its own account that has the client's number it was
    created under. *)
Theorem mysql_watchers_consistent ops d n :
  t_watch d = mkWatchDb [] [] [] [] [] →
  let c := foldl (λ c op, run_op op c) (mkConn d n) ops in watch_ok (cn_step c) (t_watch (cn_db c)).
Proof.
  intros Hd. cbn zeta. assert (H0 : conn_ok (mkConn d n)).
  { unfold conn_ok; cbn. rewrite Hd.
    split; cbn; [split; [constructor|by intros r ?%elem_of_nil]..|by intros i j ri rj ?|by intros r ?%elem_of_nil]. }
  revert H0. generalize (mkConn d n). induction ops as [|op ops IH]; intros c Hc; [done|].
  apply IH. by apply run_op_ok.
Qed.

End consistency.

(** ** Without failures *)

Section calm.
Context (fault : nat → option string) (commit_applied : bool) (Hfault : ∀ n, fault n = None).
Context (auto_id : nat → Z) (auto_id_pos : ∀ n, 0 < auto_id n)
  (auto_id_grows : ∀ m n, (m < n)%nat → auto_id m < auto_id n).
Context `{CO : Collation} `{SX : Sqlx} `{CH : Chrono} `{UC : Unicode} `{FC : FileColumns} `{WC : WatcherColumns}.
Implicit Types (w : WatchDb) (c : Conn).

Lemma exec_id_ok {A} limit err (f : Z → WatchDb → A * WatchDb) c :
  auto_id (cn_step c) ≤ limit →
  exec_id fault auto_id limit err f c =
    (Returned (Ok (f (auto_id (cn_step c)) (t_watch (cn_db c))).1),
     mkConn (with_watch (λ w, (f (auto_id (cn_step c)) w).2) (cn_db c)) (S (cn_step c))).
Proof.
  intros Hl. unfold exec_id, exec. rewrite Hfault.
  replace (limit <? auto_id (cn_step c)) with false by (symmetry; lia). unfold with_watch.
  by destruct (f (auto_id (cn_step c)) (t_watch (cn_db c))).
Qed.

Lemma wquery_ok {A} err (f : WatchDb → A) c :
  wquery fault err f c = (Returned (Ok (f (t_watch (cn_db c)))), mkConn (cn_db c) (S (cn_step c))).
Proof. unfold wquery. by rewrite query_ok. Qed.

Lemma wexec_ok err f c :
  wexec fault err f c = (Returned (Ok tt), mkConn (with_watch f (cn_db c)) (S (cn_step c))).
Proof. unfold wexec. by rewrite exec_ok. Qed.

(** *** Numbers of the client and of the server *)

Lemma ensure_group_found account device gid now c g :
  find_group account gid (t_watch (cn_db c)) = Some g →
  ensure_group fault auto_id account device gid now c = (Returned (Ok (gr_id g)), mkConn (cn_db c) (S (cn_step c))).
Proof. intros Hg. unfold ensure_group, mthen. rewrite wquery_ok, Hg. done. Qed.

Lemma ensure_group_ok account device gid now c :
  auto_id (S (cn_step c)) ≤ i32_max →
  ∃ g c', ensure_group fault auto_id account device gid now c = (Returned (Ok (gr_id g)), c')
  ∧ find_group account gid (t_watch (cn_db c')) = Some g
  ∧ (cn_step c' <= 3 + cn_step c)%nat ∧ t_watchers (t_watch (cn_db c')) = t_watchers (t_watch (cn_db c)).
Proof.
  intros Hl. destruct (find_group account gid (t_watch (cn_db c))) as [g|] eqn:Hg.
  { exists g. eexists. split; [by apply ensure_group_found|]. split; [done|]. split; [cbn; lia|done]. }
  unfold ensure_group, mthen. rewrite wquery_ok, Hg. cbn [fmap option_fmap option_map].
  rewrite exec_id_ok by done. cbn [fst snd cn_step cn_db]. rewrite wquery_ok, clamp_i32_id by done.
  exists (mkGroupRow (auto_id (S (cn_step c))) gid account device ("Client Group " +:+ pretty gid)
            (time_text_column now) (time_text_column now) true). eexists.
  split; [reflexivity|]. split; [apply find_app_new; [exact Hg|]|].
  - unfold of_group; cbn. by rewrite coll_eq_refl, Z.eqb_refl.
  - split; [cbn; lia|done].
Qed.

Lemma ensure_watcher_found account sg gid wid hint now c r :
  find_watcher account gid wid (t_watch (cn_db c)) = Some r →
  ensure_watcher fault auto_id account sg gid wid hint now c
    = (Returned (Ok (wr_id r)), mkConn (cn_db c) (S (cn_step c))).
Proof. intros Hr. unfold ensure_watcher, mthen. rewrite wquery_ok, Hr. done. Qed.

Lemma ensure_watcher_ok account sg gid wid hint now c :
  auto_id (S (cn_step c)) ≤ i32_max →
  ∃ r c', ensure_watcher fault auto_id account sg gid wid hint now c = (Returned (Ok (wr_id r)), c')
  ∧ find_watcher account gid wid (t_watch (cn_db c')) = Some r
  ∧ t_watcher_groups (t_watch (cn_db c')) = t_watcher_groups (t_watch (cn_db c)).
Proof.
  intros Hl. destruct (find_watcher account gid wid (t_watch (cn_db c))) as [r|] eqn:Hr.
  { exists r. eexists. split; [by apply ensure_watcher_found|]. by split. }
  unfold ensure_watcher, mthen. rewrite wquery_ok, Hr. cbn [fmap option_fmap option_map].
  rewrite exec_id_ok by done. cbn [fst snd cn_step cn_db]. rewrite wquery_ok, clamp_i32_id by done.
  exists (mkWatcherRow (auto_id (S (cn_step c))) wid account sg gid (default "~/" hint)
            (watcher_title (default "~/" hint)) true (dt_timestamp now) (dt_timestamp now) true "{}"). eexists.
  split; [reflexivity|]. split; [apply find_app_new; [exact Hr|]|].
  - unfold of_watcher; cbn. by rewrite coll_eq_refl, !Z.eqb_refl.
  - done.
Qed.

(** Numbers in consistent tables are positive, and name one row. *)
Lemma found_group_pos n w account gid g :
  watch_ok auto_id n w → find_group account gid w = Some g → 0 < gr_id g.
Proof. intros [[_ H] _ _ _] [Hin _]%find_spec. apply (H g Hin). Qed.

Lemma found_watcher_pos n w account gid wid r :
  watch_ok auto_id n w → find_watcher account gid wid w = Some r → 0 < wr_id r.
Proof. intros [_ [_ H] _ _] [Hin _]%find_spec. apply (H r Hin). Qed.

Lemma find_by_id n w account gid wid r :
  watch_ok auto_id n w → find_watcher account gid wid w = Some r →
  ∃ x, List.find (λ x, (wr_id x =? wr_id r) && (coll_eq (wr_account_hash x) account)) (t_watchers w) = Some x
  ∧ wr_local_group_id x = gid ∧ wr_watcher_id x = wid.
Proof.
  intros [_ [Hnd _] _ _] [Hin Hp]%find_spec. unfold of_watcher in Hp. rewrite !andb_true_iff in Hp.
  destruct Hp as [[Ha Hg%Z.eqb_eq] Hw%Z.eqb_eq].
  destruct (List.find _ (t_watchers w)) as [x|] eqn:E.
  - exists x. split; [done|]. apply find_spec in E as [Hx [Hid%Z.eqb_eq _]%andb_true_iff].
    by rewrite (row_of_id wr_id _ x r Hnd Hx Hin Hid).
  - apply list_elem_of_In in Hin. pose proof (find_none _ _ E r Hin) as H. cbn in H. by rewrite Z.eqb_refl, Ha in H.
Qed.

(** A group and a watcher that are known are found without a change. *)
Lemma ensure_known account device gid wid hint now c g r :
  watch_ok auto_id (cn_step c) (t_watch (cn_db c)) →
  find_group account gid (t_watch (cn_db c)) = Some g →
  find_watcher account gid wid (t_watch (cn_db c)) = Some r →
  my_ensure_server_ids_for fault commit_applied auto_id account device gid wid hint now c
    = (Returned (Ok (gr_id g, wr_id r)), mkConn (cn_db c) (4 + cn_step c)).
Proof.
  intros Hok Hg Hr. unfold my_ensure_server_ids_for. erewrite transaction_ok; [|done|].
  2:{ unfold mthen at 1. rewrite (ensure_group_found _ _ _ _ _ g) by done.
      pose proof (found_group_pos _ _ _ _ _ Hok Hg). replace (gr_id g =? 0) with false by (symmetry; lia).
      unfold mthen at 1. rewrite (ensure_watcher_found _ _ _ _ _ _ _ r) by done.
      pose proof (found_watcher_pos _ _ _ _ _ _ Hok Hr). replace (wr_id r =? 0) with false by (symmetry; lia).
      reflexivity. }
  done.
Qed.

(** C17: the numbers of the client and of the server translate into each other: when no statement
    fails, for any group and watcher of a client the server finds or makes rows, answers their
    numbers, finds the same numbers when asked again, without a change, and
    translates them back to those of the client. *)
Theorem mysql_ids_roundtrip account device gid wid hint now device' hint' now' c :
  watch_ok auto_id (cn_step c) (t_watch (cn_db c)) → auto_id (5 + cn_step c) ≤ i32_max →
  ∃ sg sw c', my_ensure_server_ids_for fault commit_applied auto_id account device gid wid hint now c
              = (Returned (Ok (sg, sw)), c')
  ∧ (my_get_server_ids fault account gid wid c').1 = Returned (Ok (Some (sg, sw)))
  ∧ (my_get_client_watcher_id fault account sg sw c').1 = Returned (Ok (Some (gid, wid)))
  ∧ my_ensure_server_ids_for fault commit_applied auto_id account device' gid wid hint' now' c'
    = (Returned (Ok (sg, sw)), mkConn (cn_db c') (4 + cn_step c')).
Proof.
  intros Hok Hl.
  assert (Hlow : ∀ k, (k <= 5 + cn_step c)%nat → auto_id k ≤ i32_max).
  { intros k Hk. destruct (decide (k = 5 + cn_step c)%nat) as [->|]; [done|].
    pose proof (auto_id_grows k (5 + cn_step c)). lia. }
  set (c0 := mkConn (cn_db c) (S (cn_step c))).
  destruct (ensure_group_ok account device gid (now 0%nat) c0) as (g & c1 & E1 & Hg & Hs & Hw).
  { apply Hlow. cbn. lia. }
  destruct (ensure_watcher_ok account (gr_id g) gid wid hint (now 1%nat) c1) as (r & c2 & E2 & Hr & Hgs).
  { apply Hlow. cbn in Hs. lia. }
  assert (Hg2 : find_group account gid (t_watch (cn_db c2)) = Some g) by (unfold find_group; by rewrite Hgs).
  assert (Hok0 : conn_ok auto_id c0) by (by apply (watch_ok_more auto_id auto_id_grows (cn_step c)); [cbn; lia|]).
  destruct (ensure_group_safe auto_id auto_id_pos auto_id_grows fault account device gid (now 0%nat) c0 _ c1 Hok0 I E1)
    as (Hok1 & _ & _).
  destruct (ensure_watcher_safe auto_id auto_id_pos auto_id_grows fault account (gr_id g) gid wid hint (now 1%nat) c1 _ c2
              Hok1 ltac:(by exists g) E2) as (Hok2 & _ & _).
  set (c' := mkConn (cn_db c2) (S (cn_step c2))).
  assert (Hok' : watch_ok auto_id (cn_step c') (t_watch (cn_db c')))
    by (by apply (watch_ok_more auto_id auto_id_grows (cn_step c2)); [cbn; lia|]).
  exists (gr_id g), (wr_id r), c'. split_and!.
  - apply transaction_ok; [done|]. fold c0. unfold mthen at 1. rewrite E1.
    pose proof (found_group_pos _ _ _ _ _ Hok1 Hg). replace (gr_id g =? 0) with false by (symmetry; lia).
    unfold mthen at 1. rewrite E2.
    pose proof (found_watcher_pos _ _ _ _ _ _ Hok2 Hr). by replace (wr_id r =? 0) with false by (symmetry; lia).
  - unfold my_get_server_ids, my_get_server_group_id, mthen. rewrite wquery_ok. subst c'. cbn [cn_db].
    rewrite Hg2. cbn [fmap option_fmap option_map]. rewrite wquery_ok. cbn [cn_db]. by rewrite Hr.
  - unfold my_get_client_watcher_id. pose proof (found_watcher_pos _ _ _ _ _ _ Hok2 Hr).
    replace (wr_id r =? 0) with false by (symmetry; lia). rewrite wquery_ok. subst c'. cbn [cn_db].
    destruct (find_by_id _ _ _ _ _ _ Hok2 Hr) as (x & -> & <- & <-). done.
  - by apply ensure_known.
Qed.

(** *** Deletion of a group *)

(** The condition belongs to a watcher of the group. *)
Definition in_group (w : WatchDb) (id : Z) (r : conditions_row) : bool :=
  existsb (λ x, (wr_group_id x =? id) && (wr_id x =? cr_watcher_id r)) (t_watchers w).

(** The cascades find nothing left to delete. *)
Lemma cascade_nothing w (mine : watchers_row → bool) (hit : groups_row → bool) g cs :
  (∀ x, x ∈ t_watchers w → mine x = (wr_group_id x =? gr_id g)) →
  (∀ x, x ∈ t_watcher_groups w → hit x = (gr_id x =? gr_id g)) →
  cs = List.filter (λ x, negb (existsb (λ y, mine y && (wr_id y =? cr_watcher_id x)) (t_watchers w)))
         (t_watcher_conditions w) →
  remove_groups true hit (remove_watchers true mine (with_conditions cs w))
  = mkWatchDb (List.filter (λ x, negb (hit x)) (t_watcher_groups w))
      (List.filter (λ x, negb (mine x)) (t_watchers w)) cs (t_watcher_presets w) (t_file_notices w).
Proof.
  intros Hmine Hhit Hcs. unfold remove_groups, remove_watchers. cbn.
  set (gone := List.filter hit (t_watcher_groups w)).
  assert (Hnone : List.filter (λ r, existsb (λ x, gr_id x =? wr_group_id r) gone)
                    (List.filter (λ r, negb (mine r)) (t_watchers w)) = []).
  { apply list_empty_of_none. intros x [[Hx Hm%negb_true_iff]%elem_of_filter_In He]%elem_of_filter_In.
    rewrite Hmine in Hm by done. apply existsb_exists in He as (y & [Hy Hh]%filter_In & E%Z.eqb_eq).
    rewrite Hhit in Hh by (by apply list_elem_of_In). lia. }
  rewrite Hnone. cbn. unfold with_groups, with_watchers, with_conditions. cbn. f_equal.
  - apply filter_implied. intros x Hx Hm%negb_true_iff. apply negb_true_iff, not_true_is_false. intros He.
    assert (x ∈ []) as []%elem_of_nil. rewrite <-Hnone. rewrite !elem_of_filter_In. by rewrite Hm.
  - rewrite filter_all by done. apply filter_all. intros x Hx. apply negb_true_iff, not_true_is_false.
    intros (y & [Hy Hm]%filter_In & E)%existsb_exists. subst cs. apply elem_of_filter_In in Hx as [_ Hx].
    apply negb_true_iff in Hx. apply not_true_iff_false in Hx. apply Hx, existsb_exists. exists y. by rewrite Hm, E.
Qed.

(** Deleting a group deletes its row, its watchers and their conditions and
    nothing else, whether or not the tables have the cascading foreign keys. *)
Theorem mysql_delete_group_exact cascade account gid c g :
  watch_ok auto_id (cn_step c) (t_watch (cn_db c)) → find_group account gid (t_watch (cn_db c)) = Some g →
  let w := t_watch (cn_db c) in
  let '(r, c') := my_delete_watcher_group fault commit_applied cascade account gid c in
  r = Returned (Ok tt)
  ∧ t_watch (cn_db c') = mkWatchDb
      (List.filter (λ x, negb (gr_id x =? gr_id g)) (t_watcher_groups w))
      (List.filter (λ x, negb (wr_group_id x =? gr_id g)) (t_watchers w))
      (List.filter (λ x, negb (in_group w (gr_id g) x)) (t_watcher_conditions w))
      (t_watcher_presets w) (t_file_notices w).
Proof.
  intros Hok Hg w.
  set (mine := λ x : watchers_row, coll_eq (wr_account_hash x) account && (wr_group_id x =? gr_id g)).
  assert (Hmine : ∀ x, x ∈ t_watchers w → mine x = (wr_group_id x =? gr_id g)).
  { intros x Hx. unfold mine. destruct (wr_group_id x =? gr_id g) eqn:E; [|by rewrite andb_false_r].
    by rewrite (watcher_of_found auto_id w _ account gid g x Hok Hg Hx (proj1 (Z.eqb_eq _ _) E)). }
  assert (Hhit : ∀ x, x ∈ t_watcher_groups w →
    (gr_id x =? gr_id g) && coll_eq (gr_account_hash x) account = (gr_id x =? gr_id g)).
  { intros x Hx. destruct (gr_id x =? gr_id g) eqn:E; [|done]. cbn. apply Z.eqb_eq in E.
    destruct (find_spec _ _ _ Hg) as [Hin [Ha _]%andb_true_iff].
    destruct Hok as [[Hnd _] _ _ _]. by rewrite (row_of_id gr_id _ x g Hnd Hx Hin E). }
  set (cs := List.filter (λ x, negb (existsb (λ y, mine y && (wr_id y =? cr_watcher_id x)) (t_watchers w)))
               (t_watcher_conditions w)).
  assert (Hcs : cs = List.filter (λ x, negb (in_group w (gr_id g) x)) (t_watcher_conditions w)).
  { apply filter_ext_elem. intros x _. f_equal. unfold in_group. clear -Hmine. induction (t_watchers w) as [|y l IH]; [done|].
    cbn. rewrite Hmine by (by left). f_equal. apply IH. intros; apply Hmine; by right. }
  unfold my_delete_watcher_group. erewrite transaction_ok; [|done|].
  2:{ unfold mthen at 1. rewrite wquery_ok. cbn [cn_db]. rewrite Hg. cbn zeta. fold mine.
      unfold mthen at 1. rewrite wexec_ok. unfold mthen at 1. rewrite wexec_ok, wexec_ok. reflexivity. }
  split; [done|]. cbn [cn_db t_watch with_watch]. fold w cs. rewrite <-Hcs.
  assert (Hws : List.filter (λ x, negb (mine x)) (t_watchers w)
                = List.filter (λ x, negb (wr_group_id x =? gr_id g)) (t_watchers w)).
  { apply filter_ext_elem. intros x Hx. by rewrite Hmine. }
  assert (Hgs : List.filter (λ x, negb ((gr_id x =? gr_id g) && coll_eq (gr_account_hash x) account)) (t_watcher_groups w)
                = List.filter (λ x, negb (gr_id x =? gr_id g)) (t_watcher_groups w)).
  { apply filter_ext_elem. intros x Hx. by rewrite Hhit. }
  rewrite <-Hws, <-Hgs. destruct cascade; [|done].
  by apply (cascade_nothing w mine _ g cs Hmine Hhit).
Qed.

(** *** The wait for a group *)

(** The tables after the first [k] pauses, and how long these last. *)
Fixpoint after_pauses (others : nat → WatchDb → WatchDb) (k : nat) (w : WatchDb) : WatchDb :=
  match k with O => w | S k' => others k (after_pauses others k' w) end.
Fixpoint total_pause (k : nat) : Z :=
  match k with O => 0 | S k' => total_pause k' + pause_ms k end.

Lemma wait_step others a account gid c :
  (a < 15)%nat →
  wait_for_group fault others (15 - a) account gid (total_pause a) c =
    match find_group account gid (t_watch (cn_db c)) with
    | Some g => (Returned (Ok (Some (gr_id g), total_pause a)), mkConn (cn_db c) (S (cn_step c)))
    | None =>
        if (S a <? 15)%nat
        then wait_for_group fault others (15 - S a) account gid (total_pause (S a))
               (mkConn (with_watch (others (S a)) (cn_db c)) (S (cn_step c)))
        else (Returned (Ok (None, total_pause a)), mkConn (cn_db c) (S (cn_step c)))
    end.
Proof.
  intros Ha. replace (15 - a)%nat with (S (15 - S a)) by lia. cbn [wait_for_group]. unfold mthen. rewrite wquery_ok.
  destruct (find_group account gid (t_watch (cn_db c))) as [g|]; [done|].
  replace (15 - (15 - S a))%nat with (S a) by lia. destruct (S a <? 15)%nat eqn:E; [done|].
  apply Nat.ltb_ge in E. by replace (15 - S a)%nat with 0%nat by lia.
Qed.

Lemma wait_until others account gid w n m : ∀ a c,
  n = (a + m)%nat → (n < 15)%nat → t_watch (cn_db c) = after_pauses others a w →
  (∀ k, (k < n)%nat → find_group account gid (after_pauses others k w) = None) →
  (wait_for_group fault others (15 - a) account gid (total_pause a) c).1 =
    match find_group account gid (after_pauses others n w) with
    | Some g => Returned (Ok (Some (gr_id g), total_pause n))
    | None => (wait_for_group fault others (15 - n) account gid (total_pause n)
                 (mkConn (with_watch (λ _, after_pauses others n w) (cn_db c)) (cn_step c + m))).1
    end.
Proof.
  induction m as [|m IH]; intros a c Hn Hlt Hc Hnone.
  - assert (n = a) as -> by lia. destruct (find_group account gid (after_pauses others a w)) as [g|] eqn:Eg.
    + by rewrite wait_step, Hc, Eg by done.
    + do 2 f_equal. rewrite <-Hc, Nat.add_0_r. by destruct c as [[] ?].
  - rewrite wait_step by lia. rewrite Hc, Hnone by lia. replace (S a <? 15)%nat with true by (symmetry; apply Nat.ltb_lt; lia).
    rewrite (IH (S a)); [|lia|done|cbn; by rewrite Hc|done]. cbn [cn_step cn_db]. unfold with_watch at 2; cbn.
    by rewrite <-plus_n_Sm.
Qed.

(** The creation of a watcher waits for its group: a group that is there after
    at most fourteen pauses is found, and the wait lasts as long as the pauses it
    took; otherwise the wait gives up after 22.3 seconds. *)
Theorem group_wait_exact others account gid c n :
  (n < 15)%nat →
  (∀ k, (k < n)%nat → find_group account gid (after_pauses others k (t_watch (cn_db c))) = None) →
  (∀ g, find_group account gid (after_pauses others n (t_watch (cn_db c))) = Some g →
     (wait_for_group fault others 15 account gid 0 c).1 = Returned (Ok (Some (gr_id g), total_pause n)))
  ∧ (n = 14%nat → find_group account gid (after_pauses others n (t_watch (cn_db c))) = None →
     (wait_for_group fault others 15 account gid 0 c).1 = Returned (Ok (None, 22300)))
  ∧ total_pause n ≤ 22300.
Proof.
  intros Hn Hnone. pose proof (wait_until others account gid (t_watch (cn_db c)) n n 0 c eq_refl Hn eq_refl Hnone) as H.
  split_and!.
  - intros g Hg. by rewrite Hg in H.
  - intros -> Hg. rewrite Hg in H. etransitivity; [exact H|]. rewrite wait_step by lia. cbn [cn_db t_watch with_watch].
    by rewrite Hg.
  - do 15 (destruct n as [|n]; [vm_compute; discriminate|]). lia.
Qed.

(** *** Presets *)

(** Setting the presets of an account that has no row inserts one without
    password, salt and log-in time, and from then on the account cannot be read:
    every look-up of it is an error. *)
Theorem preset_account_unreadable account device presets now now' c :
  (∀ r, r ∈ t_accounts (cn_db c) → coll_eq (ar_account_hash r) account = false) →
  ∃ c', my_register_watcher_preset_proto fault account device presets now c = (Returned (Ok tt), c')
  ∧ (my_get_account_by_hash fault account now' c').1 =
      Returned (Err (Database ("Failed to query account: " +:+ unexpected_null 4))).
Proof.
  intros Hnew. unfold my_register_watcher_preset_proto, mtry. rewrite exec_ok, wexec_ok by done. eexists. split; [done|].
  unfold my_get_account_by_hash, fetch_optional, mthen. rewrite query_ok by done.
  cbn [cn_db fst snd with_watch t_accounts]. unfold ensure_account_row.
  replace (existsb _ (t_accounts (cn_db c))) with false.
  - cbn [t_accounts with_accounts]. rewrite find_app_skip; [done|done|apply coll_eq_refl].
  - symmetry. apply not_true_is_false. intros (r & Hr & E)%existsb_exists. rewrite Hnew in E; [done|].
    by apply list_elem_of_In.
Qed.

(** *** A watcher and its conditions *)

(** The conditions of a request, with their types, in the order they are stored. *)
Definition tagged (data : sync_WatcherData) : list (ConditionType * sync_ConditionData) :=
  ((λ x, (Union, x)) <$> swd_union_conditions data) ++ ((λ x, (Subtract, x)) <$> swd_subtracting_conditions data).

(** The rows they become, with the numbers of the statements from [s] on. *)
Definition created_rows (account : string) (new_id gid : Z) (data : sync_WatcherData) (timestamp : Z)
    (now : nat → DateTime) (s : nat) : list conditions_row :=
  imap (λ i tx, created_condition account new_id gid data timestamp now tx.1 i tx.2 (auto_id (s + i))) (tagged data).

Lemma insert_loop_ok what row l : ∀ k c,
  (∀ i, (i < length l)%nat → auto_id (cn_step c + i) ≤ i64_max) →
  insert_conditions_loop fault auto_id what row k l c =
    (Returned (Ok tt),
     mkConn (with_watch (λ w, with_conditions (t_watcher_conditions w ++
               imap (λ i x, row (k + i)%nat x (auto_id (cn_step c + i))) l) w) (cn_db c)) (cn_step c + length l)).
Proof.
  induction l as [|x l IH]; intros k c Hl; cbn [insert_conditions_loop imap length].
  - unfold ret. do 2 f_equal. destruct c as [[? ? ? ? ? ? []] ?]; unfold with_watch, with_conditions; cbn.
    by rewrite app_nil_r, Nat.add_0_r.
  - unfold mthen, add_condition. rewrite exec_id_ok by (rewrite <-(Nat.add_0_r (cn_step c)); apply Hl; cbn; lia).
    rewrite IH.
    2:{ cbn [cn_step]. intros i Hi. replace (S (cn_step c) + i)%nat with (cn_step c + S i)%nat by lia. apply Hl. cbn. lia. }
    cbn [cn_step cn_db]. unfold with_watch; cbn. do 2 f_equal; [|lia]. f_equal. unfold with_conditions; cbn.
    rewrite <-app_assoc, !Nat.add_0_r. cbn. do 3 f_equal. apply imap_ext. intros i y _. cbn. by rewrite <-!plus_n_Sm.
Qed.

Lemma imap_app_tagged {B} (f : nat → ConditionType * sync_ConditionData → B) data :
  imap f (tagged data) =
    (imap (λ i x, f i (Union, x)) (swd_union_conditions data)
     ++ imap (λ i x, f (length (swd_union_conditions data) + i)%nat (Subtract, x)) (swd_subtracting_conditions data))%list.
Proof.
  unfold tagged. by rewrite imap_app, !imap_fmap, length_fmap.
Qed.

Lemma auto_id_le k n : (k <= n)%nat → auto_id k ≤ auto_id n.
Proof. intros H. destruct (decide (k = n)) as [->|]; [lia|]. pose proof (auto_id_grows k n). lia. Qed.

(** The part of the creation after the look at the existing watcher. *)
Lemma created_body unique account db_group_id gid folder data timestamp now w1 new_id c w :
  w = t_watch (cn_db c) →
  upsert_watcher unique account db_group_id gid folder data timestamp (auto_id (cn_step c)) w = (new_id, w1) →
  0 < new_id ≤ i32_max → auto_id (1 + length (tagged data) + cn_step c) ≤ i32_max →
  (last_id ←? exec_id fault auto_id i32_max (db_err_at "Failed to insert watcher: ")
                (upsert_watcher unique account db_group_id gid folder data timestamp);
   let new_id := clamp_i32 last_id in
   if new_id =? 0 then throw (Database "Failed to create watcher: Invalid ID")
   else
     let row := created_condition account new_id gid data timestamp now in
     _ ←? insert_conditions_loop fault auto_id "Failed to save union condition: " (row Union) 0
            (swd_union_conditions data);
     _ ←? insert_conditions_loop fault auto_id "Failed to save subtracting condition: " (row Subtract)
            (length (swd_union_conditions data)) (swd_subtracting_conditions data);
     ret new_id) c =
  (Returned (Ok new_id),
   mkConn (with_watch (λ _, with_conditions (t_watcher_conditions w1
             ++ created_rows account new_id gid data timestamp now (S (cn_step c))) w1) (cn_db c))
     (1 + length (tagged data) + cn_step c)).
Proof.
  intros -> Hup Hid Hl.
  assert (Hlen : length (tagged data)
    = (length (swd_union_conditions data) + length (swd_subtracting_conditions data))%nat).
  { unfold tagged. by rewrite length_app, !length_fmap. }
  assert (Hb : ∀ k, (k <= 1 + length (tagged data) + cn_step c)%nat → auto_id k ≤ i32_max).
  { intros k Hk. pose proof (auto_id_le k _ Hk). lia. }
  assert (i32_max ≤ i64_max) as H32 by (vm_compute; discriminate).
  unfold mthen at 1. rewrite exec_id_ok by (apply Hb; lia). rewrite Hup. cbn [fst]. rewrite clamp_i32_id by lia.
  cbn zeta. replace (new_id =? 0) with false by (symmetry; lia).
  unfold mthen at 1. rewrite insert_loop_ok.
  2:{ cbn [cn_step]. intros i Hi. pose proof (Hb (S (cn_step c) + i)%nat). lia. }
  unfold mthen. rewrite insert_loop_ok.
  2:{ cbn [cn_step]. intros i Hi. pose proof (Hb (S (cn_step c) + length (swd_union_conditions data) + i)%nat). lia. }
  unfold ret. cbn [cn_step cn_db]. do 2 f_equal; [|lia]. unfold with_watch; cbn. rewrite Hup. cbn.
  unfold with_conditions; cbn. do 2 f_equal. unfold created_rows. rewrite <-app_assoc. f_equal.
  rewrite imap_app_tagged. cbn. f_equal. apply imap_ext. intros i x _. cbn. do 2 f_equal. lia.
Qed.

Lemma create_watcher_run others unique account gid data timestamp now c g new_id w1 :
  let w := t_watch (cn_db c) in
  let at_ t i := default (now i) (from_timestamp t 0) in
  find_group account gid w = Some g →
  (∀ old, find_watcher account gid (swd_watcher_id data) w = Some old →
     dt_ltb (at_ (wr_updated_at old) 0%nat) (at_ timestamp 1%nat) = true) →
  upsert_watcher unique account (gr_id g) gid (normalize_uncached (swd_folder data)) data timestamp
    (auto_id (3 + cn_step c)) w = (new_id, w1) →
  0 < new_id ≤ i32_max → auto_id (4 + length (tagged data) + cn_step c) ≤ i32_max →
  my_create_watcher_with_conditions fault commit_applied auto_id others unique account gid data timestamp now c =
    (Returned (Ok new_id),
     mkConn (with_watch (λ _, with_conditions (t_watcher_conditions w1
               ++ created_rows account new_id gid data timestamp now (4 + cn_step c)) w1) (cn_db c))
       (5 + length (tagged data) + cn_step c)).
Proof.
  intros w at_ Hg Hold Hup Hid Hl. unfold my_create_watcher_with_conditions. cbn zeta.
  unfold mthen at 1. change (wait_for_group fault others 15 account gid 0 c)
    with (wait_for_group fault others (15 - 0) account gid (total_pause 0) c).
  rewrite wait_step by lia. fold w. rewrite Hg. cbn [fst].
  assert (Hlen : length (tagged data)
    = (length (swd_union_conditions data) + length (swd_subtracting_conditions data))%nat).
  { unfold tagged. by rewrite length_app, !length_fmap. }
  replace (4 + length (tagged data) + cn_step c)%nat with (1 + length (tagged data) + (3 + cn_step c))%nat in Hl by lia.
  erewrite transaction_ok; [|done|].
  2:{ unfold mthen at 1. unfold kept_watcher, mthen at 1. rewrite wquery_ok. cbn [cn_db]. fold w.
      destruct (find_watcher account gid (swd_watcher_id data) w) as [old|] eqn:Eo; cbn [fmap option_fmap option_map].
      - specialize (Hold old eq_refl). unfold at_ in Hold. rewrite Hold. unfold ret at 1.
        by apply (created_body _ _ _ _ _ _ _ _ w1 new_id _ w).
      - unfold ret at 1. by apply (created_body _ _ _ _ _ _ _ _ w1 new_id _ w). }
  cbn [cn_db cn_step]. do 2 f_equal. lia.
Qed.

(** What the columns must do for conditions to survive. *)
Class JsonLaws `{WatcherColumns} := {
  json_roundtrip : ∀ l, ∃ t, json_column (to_json l) = Ok t ∧ of_json t = Ok l
}.
Context `{JL : !JsonLaws}.

Definition represents (r : conditions_row) (tx : ConditionType * sync_ConditionData) : Prop :=
  cr_condition_type r = ConditionType_fmt tx.1 ∧ cr_key r = scd_key tx.2 ∧ cr_value r = to_json (scd_value tx.2).

Lemma conditions_of_rows_ok now rows txs : Forall2 represents rows txs → ∀ i,
  ∃ cs, conditions_of_rows now i rows = Ok cs
  ∧ (λ x, (wc_condition_type x, mk_sync_ConditionData (wc_key x) (wc_value x))) <$> cs = txs.
Proof.
  induction 1 as [|r [ty x] rows txs (Ht & Hk & Hv) _ IH]; intros i; [by exists []|].
  destruct (IH (S i)) as (cs & E & Hcs). cbn [conditions_of_rows]. unfold condition_of_row.
  rewrite Hv, Ht. destruct (json_roundtrip (scd_value x)) as (t & Hj & Ho). cbn [fst snd] in *. rewrite Hj. cbn [map_err res_bind].
  rewrite ConditionType_roundtrip. cbn [map_err res_bind]. rewrite Ho. cbn [map_err res_bind]. rewrite E. cbn [res_bind].
  eexists. split; [done|]. cbn. rewrite Hcs, Hk. by destruct x.
Qed.

Lemma typed_conditions (ty : ConditionType) (cs : list WatcherCondition) txs :
  (λ x, (wc_condition_type x, mk_sync_ConditionData (wc_key x) (wc_value x))) <$> cs = txs →
  (λ y, mk_sync_ConditionData (wc_key y) (wc_value y)) <$> List.filter (λ y, wc_condition_type y == ty) cs
  = (List.filter (λ tx : ConditionType * sync_ConditionData, tx.1 == ty) txs).*2.
Proof.
  intros <-. induction cs as [|x cs IH]; [done|]. cbn. destruct (wc_condition_type x == ty); cbn; [f_equal|]; exact IH.
Qed.

Definition of_type (ty : ConditionType) (txs : list (ConditionType * sync_ConditionData)) : list sync_ConditionData :=
  (List.filter (λ tx, tx.1 == ty) txs).*2.

Lemma tagged_of_type data :
  of_type Union (tagged data) = swd_union_conditions data
  ∧ of_type Subtract (tagged data) = swd_subtracting_conditions data.
Proof.
  unfold of_type, tagged. rewrite !List.filter_app, !fmap_app.
  assert (H : ∀ (t t' : ConditionType) (l : list sync_ConditionData),
    (List.filter (λ tx, tx.1 == t) ((λ x, (t', x)) <$> l)).*2 = if t' == t then l else []).
  { intros t t' l. induction l as [|x l IH]; [by destruct (t' == t)|]. cbn. destruct (t' == t); cbn; [by rewrite IH|done]. }
  rewrite !H. cbn. by rewrite app_nil_r.
Qed.

Lemma of_type_app ty l l' : of_type ty (l ++ l') = (of_type ty l ++ of_type ty l')%list.
Proof. unfold of_type. by rewrite List.filter_app, fmap_app. Qed.

Lemma read_watcher account gid wid now c r rows txs :
  find_watcher account gid wid (t_watch (cn_db c)) = Some r →
  List.filter (λ x, coll_eq (cr_account_hash x) account && (cr_watcher_id x =? wr_id r))
    (t_watcher_conditions (t_watch (cn_db c))) = rows →
  StronglySorted (λ a b, cr_id a < cr_id b) rows → Forall2 represents rows txs →
  (my_get_watcher_by_group_and_id fault account gid wid now c).1 =
    Returned (Ok (Some (mk_sync_WatcherData (wr_watcher_id r) (wr_folder r) (of_type Union txs) (of_type Subtract txs)
      (wr_is_recursive r) false "" "" true ""))).
Proof.
  intros Hr Hrows Hs Ht. unfold my_get_watcher_by_group_and_id, mthen at 1. rewrite wquery_ok, Hr.
  unfold mthen at 1, with_conditions_of, mtry, my_get_watcher_conditions, mthen at 1. rewrite wquery_ok. cbn [cn_db].
  rewrite Hrows, by_id_sorted by done. destruct (conditions_of_rows_ok now rows txs Ht 0) as (cs & -> & Hcs).
  cbn. unfold watcher_message. by rewrite !(typed_conditions _ cs txs Hcs).
Qed.

Section created.
Context (account : string) (id gid : Z) (data : sync_WatcherData) (timestamp : Z) (now : nat → DateTime).

Lemma created_rows_lookup s i x :
  created_rows account id gid data timestamp now s !! i = Some x →
  cr_id x = auto_id (s + i) ∧ (i < length (tagged data))%nat ∧ cr_account_hash x = account ∧ cr_watcher_id x = id.
Proof.
  unfold created_rows. rewrite list_lookup_imap. intros (tx & Htx & ->)%fmap_Some. split_and!; try done.
  by eapply lookup_lt_Some.
Qed.

Lemma created_rows_sorted s : StronglySorted (λ a b, cr_id a < cr_id b) (created_rows account id gid data timestamp now s).
Proof.
  apply sorted_lookup. intros i j x y (-> & _)%created_rows_lookup (-> & _)%created_rows_lookup Hij.
  apply auto_id_grows. lia.
Qed.

Lemma created_rows_represent s : Forall2 represents (created_rows account id gid data timestamp now s) (tagged data).
Proof. apply Forall2_imap_l. by intros i tx. Qed.

Lemma created_rows_mine s :
  List.filter (λ x, coll_eq (cr_account_hash x) account && (cr_watcher_id x =? id))
    (created_rows account id gid data timestamp now s) = created_rows account id gid data timestamp now s.
Proof.
  apply filter_all. intros x [i (_ & _ & -> & ->)%created_rows_lookup]%list_elem_of_lookup_1.
  by rewrite coll_eq_refl, Z.eqb_refl.
Qed.

End created.

(** The watcher of the request is stored under [id], with the conditions [txs]. *)
Definition holds_watcher (account : string) (gid : Z) (data : sync_WatcherData) (c : Conn) (id : Z)
    (txs : list (ConditionType * sync_ConditionData)) : Prop :=
  let w := t_watch (cn_db c) in
  ∃ r rows, find_watcher account gid (swd_watcher_id data) w = Some r ∧ wr_id r = id
  ∧ wr_folder r = normalize_uncached (swd_folder data) ∧ wr_is_recursive r = swd_recursive_path data
  ∧ (∀ x, x ∈ t_watchers w → wr_id x = id → x = r)
  ∧ List.filter (λ x, coll_eq (cr_account_hash x) account && (cr_watcher_id x =? id)) (t_watcher_conditions w) = rows
  ∧ StronglySorted (λ a b, cr_id a < cr_id b) rows ∧ (∀ x, x ∈ rows → cr_id x < auto_id (cn_step c))
  ∧ Forall2 represents rows txs.

Lemma holds_watcher_read account gid data c id txs now :
  holds_watcher account gid data c id txs →
  (my_get_watcher_by_group_and_id fault account gid (swd_watcher_id data) now c).1 =
    Returned (Ok (Some (mk_sync_WatcherData (swd_watcher_id data) (normalize_uncached (swd_folder data))
      (of_type Union txs) (of_type Subtract txs) (swd_recursive_path data) false "" "" true ""))).
Proof.
  intros (r & rows & Hr & <- & Hf & Hrec & _ & Hrows & Hs & _ & Hrep).
  erewrite read_watcher by done. destruct (find_spec _ _ _ Hr) as [_ [_ Hw%Z.eqb_eq]%andb_true_iff].
  by rewrite Hf, Hrec, Hw.
Qed.

(** One more creation adds the conditions of the request to those [rows0] of the
    watcher's row. *)
Lemma holds_watcher_after account gid data timestamp now db w1 r id rows0 txs s :
  find_watcher account gid (swd_watcher_id data) w1 = Some r → wr_id r = id →
  wr_folder r = normalize_uncached (swd_folder data) → wr_is_recursive r = swd_recursive_path data →
  (∀ x, x ∈ t_watchers w1 → wr_id x = id → x = r) →
  List.filter (λ x, coll_eq (cr_account_hash x) account && (cr_watcher_id x =? id)) (t_watcher_conditions w1) = rows0 →
  StronglySorted (λ a b, cr_id a < cr_id b) rows0 → (∀ x, x ∈ rows0 → cr_id x < auto_id s) → Forall2 represents rows0 txs →
  holds_watcher account gid data
    (mkConn (with_watch (λ _, with_conditions (t_watcher_conditions w1
               ++ created_rows account id gid data timestamp now (4 + s)) w1) db) (5 + length (tagged data) + s))
    id (txs ++ tagged data).
Proof.
  intros Hr Hid Hf Hrec Huniq Hrows Hs Hlow Hrep. eexists r, _. split_and!; [done..| | | |]; cbn [cn_db t_watch with_watch].
  - cbn. rewrite List.filter_app, created_rows_mine, Hrows. reflexivity.
  - apply StronglySorted_app_2; [|done|apply created_rows_sorted].
    intros x y Hx [i (Hy & _)%created_rows_lookup]%list_elem_of_lookup_1. cbn beta. rewrite Hy.
    eapply Z.lt_trans; [by apply Hlow|]. apply auto_id_grows. lia.
  - intros x [Hx|[i (-> & ? & _)%created_rows_lookup]%list_elem_of_lookup_1]%elem_of_app; cbn [cn_step].
    + eapply Z.lt_trans; [by apply Hlow|]. apply auto_id_grows. lia.
    + apply auto_id_grows. lia.
  - apply Forall2_app; [done|apply created_rows_represent].
Qed.

Lemma create_new_watcher others account gid data t now c g :
  let id := auto_id (3 + cn_step c) in
  watch_ok auto_id (cn_step c) (t_watch (cn_db c)) → find_group account gid (t_watch (cn_db c)) = Some g →
  find_watcher account gid (swd_watcher_id data) (t_watch (cn_db c)) = None →
  (∀ r, r ∈ t_watcher_conditions (t_watch (cn_db c)) → cr_watcher_id r ≠ id) →
  auto_id (4 + length (tagged data) + cn_step c) ≤ i32_max →
  ∃ c', my_create_watcher_with_conditions fault commit_applied auto_id others true account gid data t now c
        = (Returned (Ok id), c')
  ∧ holds_watcher account gid data c' id (tagged data)
  ∧ find_group account gid (t_watch (cn_db c')) = Some g ∧ cn_step c' = (5 + length (tagged data) + cn_step c)%nat
  ∧ (wr_updated_at <$> find_watcher account gid (swd_watcher_id data) (t_watch (cn_db c'))) = Some t.
Proof.
  intros id Hok Hg Hnew Hfree Hl. set (w := t_watch (cn_db c)) in *.
  set (row := mkWatcherRow id (swd_watcher_id data) account (gr_id g) gid (normalize_uncached (swd_folder data))
    (watcher_title (normalize_uncached (swd_folder data))) (swd_recursive_path data) t t true (swd_extra_json data)).
  assert (Hf : List.find (of_watcher account gid (swd_watcher_id data)) (t_watchers w ++ [row])%list = Some row).
  { apply find_app_new; [done|]. unfold of_watcher; cbn. by rewrite coll_eq_refl, !Z.eqb_refl. }
  set (w1 := with_watchers (t_watchers w ++ [row])%list w). eexists. split.
  { apply (create_watcher_run others true account gid data t now c g id w1).
    - done.
    - fold w. by rewrite Hnew.
    - fold w. unfold upsert_watcher. by rewrite Hnew.
    - split; [apply auto_id_pos|]. pose proof (auto_id_le (3 + cn_step c) (4 + length (tagged data) + cn_step c)). lia.
    - done. }
  split; [|split; [exact Hg|split; [done|]]].
  - apply (holds_watcher_after _ _ _ _ _ _ w1 row id [] []); try done.
    + intros x [Hx| ->%list_elem_of_singleton]%elem_of_app Hid; [|done].
      destruct Hok as [_ [_ Hlt] _ _]. specialize (Hlt x Hx). pose proof (auto_id_grows (cn_step c) (3 + cn_step c)). lia.
    + apply list_empty_of_none. intros x [Hx [_ E%Z.eqb_eq]%andb_true_iff]%elem_of_filter_In. by destruct (Hfree x Hx).
    + constructor.
    + by intros x ?%elem_of_nil.
  - cbn. unfold find_watcher. cbn. by rewrite Hf.
Qed.

Lemma create_known_watcher others account gid data t now c g id txs old_t :
  (∀ i, upsert_id i = i) → 0 < id ≤ i32_max →
  find_group account gid (t_watch (cn_db c)) = Some g → holds_watcher account gid data c id txs →
  (wr_updated_at <$> find_watcher account gid (swd_watcher_id data) (t_watch (cn_db c))) = Some old_t →
  0 ≤ old_t < t → t ≤ 253402300799 → auto_id (4 + length (tagged data) + cn_step c) ≤ i32_max →
  ∃ c', my_create_watcher_with_conditions fault commit_applied auto_id others true account gid data t now c
        = (Returned (Ok id), c')
  ∧ holds_watcher account gid data c' id (txs ++ tagged data).
Proof.
  intros Hups Hid Hg (r & rows & Hr & Hri & Hf & Hrec & Huniq & Hrows & Hs & Hlow & Hrep) Hold Ht Hmax Hl.
  set (w := t_watch (cn_db c)) in *. rewrite Hr in Hold. injection Hold as Hold.
  set (f := λ r, mkWatcherRow (wr_id r) (wr_watcher_id r) (wr_account_hash r) (gr_id g) (wr_local_group_id r)
        (normalize_uncached (swd_folder data)) (watcher_title (normalize_uncached (swd_folder data)))
        (swd_recursive_path data) (wr_created_at r) t true (swd_extra_json data)).
  set (w1 := with_watchers (sql_update (λ r, wr_id r =? id) f (t_watchers w)) w).
  eexists. split.
  { apply (create_watcher_run others true account gid data t now c g id w1); [done| | |done|done].
    - fold w. rewrite Hr. intros ? [= <-]. rewrite Hold, !from_timestamp_calendar by lia.
      unfold dt_ltb, dt_leb; cbn. lia.
    - fold w. unfold upsert_watcher. by rewrite Hr, Hups, Hri. }
  apply (holds_watcher_after _ _ _ _ _ _ w1 (f r) id rows txs); try done.
  - assert (Hfind : ∀ l, List.find (of_watcher account gid (swd_watcher_id data)) (sql_update (λ r, wr_id r =? id) f l)
                         = (λ x, if wr_id x =? id then f x else x)
                             <$> List.find (of_watcher account gid (swd_watcher_id data)) l).
    { clear. induction l as [|x l IH]; [done|]. cbn. destruct (wr_id x =? id) eqn:E.
      - change (of_watcher account gid (swd_watcher_id data) (f x)) with (of_watcher account gid (swd_watcher_id data) x).
        destruct (of_watcher account gid (swd_watcher_id data) x); [cbn; by rewrite E|exact IH].
      - destruct (of_watcher account gid (swd_watcher_id data) x); [cbn; by rewrite E|exact IH]. }
    unfold find_watcher, w1. cbn. rewrite Hfind. unfold find_watcher in Hr. rewrite Hr. cbn. by rewrite Hri, Z.eqb_refl.
  - cbn. intros x (y & Hy & ->)%elem_of_sql_update. destruct (wr_id y =? id) eqn:E.
    + apply Z.eqb_eq in E. intros _. by rewrite (Huniq y Hy E).
    + intros E'. lia.
Qed.

(** A watcher is read back as it was sent, with its folder normalised; sent
    again with a later time it keeps its number, and every condition is then read
    back twice, because the old ones stay. *)
Theorem mysql_watcher_resent others account gid data t1 t2 now1 now2 now c g :
  (∀ i, upsert_id i = i) →
  watch_ok auto_id (cn_step c) (t_watch (cn_db c)) → find_group account gid (t_watch (cn_db c)) = Some g →
  find_watcher account gid (swd_watcher_id data) (t_watch (cn_db c)) = None →
  (∀ r, r ∈ t_watcher_conditions (t_watch (cn_db c)) → cr_watcher_id r ≠ auto_id (3 + cn_step c)) →
  0 ≤ t1 < t2 → t2 ≤ 253402300799 → auto_id (9 + 2 * length (tagged data) + cn_step c) ≤ i32_max →
  let create := my_create_watcher_with_conditions fault commit_applied auto_id others true account gid data in
  let read c := (my_get_watcher_by_group_and_id fault account gid (swd_watcher_id data) now c).1 in
  let answer us ss := Returned (Ok (Some (mk_sync_WatcherData (swd_watcher_id data)
        (normalize_uncached (swd_folder data)) us ss (swd_recursive_path data) false "" "" true ""))) in
  let us := swd_union_conditions data in let ss := swd_subtracting_conditions data in
  ∃ id c1 c2, create t1 now1 c = (Returned (Ok id), c1) ∧ read c1 = answer us ss
  ∧ create t2 now2 c1 = (Returned (Ok id), c2) ∧ read c2 = answer (us ++ us)%list (ss ++ ss)%list.
Proof.
  intros Hups Hok Hg Hnew Hfree Ht Ht2 Hl create read answer us ss.
  assert (Hb : ∀ k, (k <= 9 + 2 * length (tagged data) + cn_step c)%nat → auto_id k ≤ i32_max).
  { intros k Hk. pose proof (auto_id_le k _ Hk). lia. }
  destruct (tagged_of_type data) as [Hu Hs].
  destruct (create_new_watcher others account gid data t1 now1 c g Hok Hg Hnew Hfree) as (c1 & E1 & H1 & Hg1 & Hs1 & Hu1).
  { apply Hb. lia. }
  destruct (create_known_watcher others account gid data t2 now2 c1 g (auto_id (3 + cn_step c)) (tagged data) t1)
    as (c2 & E2 & H2); [done| |done..|lia|lia|apply Hb; rewrite Hs1; lia|].
  { split; [apply auto_id_pos|apply Hb; lia]. }
  exists (auto_id (3 + cn_step c)), c1, c2. split_and!; [done| |done|]; unfold read, answer.
  - by rewrite (holds_watcher_read _ _ _ _ _ _ now H1), Hu, Hs.
  - by rewrite (holds_watcher_read _ _ _ _ _ _ now H2), !of_type_app, Hu, Hs.
Qed.

End calm.

(** ** Witnesses *)

(** A serialiser of lists of strings: every byte is marked with 1, and 0 ends a
    string. *)
Fixpoint mark_string (s rest : string) : string :=
  match s with
  | "" => String "0" rest
  | String a s => String "1" (String a (mark_string s rest))
  end.
Fixpoint mark_strings (l : list string) : string :=
  match l with [] => "" | s :: l => mark_string s (mark_strings l) end.
Fixpoint unmark_strings (s : string) : list string :=
  match s with
  | "" => []
  | String b s =>
      if b == "0"%char then "" :: unmark_strings s
      else match s with
           | "" => []
           | String a s => match unmark_strings s with [] => [] | x :: l => String a x :: l end
           end
  end.

Lemma unmark_mark_string s rest : unmark_strings (mark_string s rest) = s :: unmark_strings rest.
Proof. induction s as [|a s IH]; cbn; [done|]. by rewrite IH. Qed.

Lemma unmark_mark l : unmark_strings (mark_strings l) = l.
Proof. induction l as [|s l IH]; cbn; [done|]. by rewrite unmark_mark_string, IH. Qed.

Definition sqlx_texts : Sqlx :=
  {| unexpected_null _ := "unexpected null"; numbers_exhausted := "Failed to read auto-increment value" |}.

Definition marked_columns : WatcherColumns :=
  {| time_text_column d := Some (dt_timestamp d); json_column := Ok; to_json := mark_strings;
     of_json t := Ok (unmark_strings t); upsert_id i := i |}.

#[local] Existing Instance sqlx_texts.
#[local] Existing Instance marked_columns.

Definition marked_json : JsonLaws.
Proof. split. intros l. exists (mark_strings l). cbn. by rewrite unmark_mark. Defined.

#[local] Existing Instance exact_collation.
#[local] Existing Instance text_columns.
#[local] Existing Instance ascii_unicode.
#[local] Existing Instance chrono_range.
#[local] Existing Instance marked_json.

Definition auto_0 (n : nat) : Z := 100 + Z.of_nat n.
Lemma auto_0_pos n : 0 < auto_0 n.
Proof. unfold auto_0. lia. Qed.
Lemma auto_0_grows m n : (m < n)%nat → auto_0 m < auto_0 n.
Proof. unfold auto_0. lia. Qed.

Definition alone (k : nat) (w : WatchDb) : WatchDb := w.
Definition group_0 : WatcherGroup := mkWatcherGroup 0 4 "acc" "Docs" t_now t_now true [].
Definition watcher_0 : sync_WatcherData :=
  mk_sync_WatcherData 6 "/home/u/docs" [mk_sync_ConditionData "ext" ["txt"; "md"]] [mk_sync_ConditionData "name" [".git"]]
    true false "" "" true "{}".

(** The tables after the registration of a group. *)
Definition one_group : Conn := (my_register_watcher_group calm false auto_0 "acc" "dev" group_0 (mkConn empty_db 0)).2.

Definition group_row_0 : groups_row :=
  mkGroupRow 102 4 "acc" "dev" "Docs" (Some 1700000000) (Some 1700000000) true.

Lemma one_group_ok : watch_ok auto_0 (cn_step one_group) (t_watch (cn_db one_group)).
Proof.
  apply (safe_run auto_0 _ _ _ (register_watcher_group_safe auto_0 auto_0_pos auto_0_grows calm false "acc" "dev" group_0)).
  unfold conn_ok. cbn.
  split; cbn; [split; [constructor|by intros r ?%elem_of_nil]..|by intros i j ri rj ?|by intros r ?%elem_of_nil].
Qed.

Lemma mysql_watchers_consistent_witness :
  let c := foldl (λ c op, run_op auto_0 third_fails false alone op c) (mkConn empty_db 0)
             [RegisterGroup "acc" "dev" group_0; CreateWatcher true "acc" 4 watcher_0 1700000000 (λ _, t_now);
              EnsureServerIds "acc" "dev" 4 6 None (λ _, t_now); DeleteGroup true "acc" 4] in
  watch_ok auto_0 (cn_step c) (t_watch (cn_db c)).
Proof.
  apply (mysql_watchers_consistent auto_0 auto_0_pos auto_0_grows third_fails false alone (λ _ _ _ H, H)).
  reflexivity.
Defined.

Lemma mysql_ids_roundtrip_witness :
  ∃ sg sw c', my_ensure_server_ids_for calm false auto_0 "acc" "dev" 4 6 None (λ _, t_now) one_group
              = (Returned (Ok (sg, sw)), c')
  ∧ (my_get_client_watcher_id calm "acc" sg sw c').1 = Returned (Ok (Some (4, 6))).
Proof.
  destruct (mysql_ids_roundtrip calm false (λ _, eq_refl) auto_0 auto_0_pos auto_0_grows "acc" "dev" 4 6 None
              (λ _, t_now) "dev" None (λ _, t_now) one_group one_group_ok) as (sg & sw & c' & H1 & _ & H2 & _);
    [vm_compute; discriminate|].
  exists sg, sw, c'. split; [exact H1|exact H2].
Defined.

Lemma mysql_delete_group_exact_witness :
  ∃ g, find_group "acc" 4 (t_watch (cn_db one_group)) = Some g
  ∧ (my_delete_watcher_group calm false true "acc" 4 one_group).1 = Returned (Ok tt).
Proof.
  eexists. split; [vm_compute; reflexivity|].
  pose proof (mysql_delete_group_exact calm false (λ _, eq_refl) auto_0 true "acc" 4 one_group _ one_group_ok eq_refl) as H.
  cbn zeta in H. destruct (my_delete_watcher_group calm false true "acc" 4 one_group) as [r c']. exact (proj1 H).
Defined.

Lemma group_wait_exact_witness :
  (wait_for_group calm alone 15 "acc" 4 0 one_group).1 = Returned (Ok (Some 102, 0)).
Proof.
  refine (proj1 (group_wait_exact calm (λ _, eq_refl) alone "acc" 4 one_group 0 _ _) group_row_0 _);
    [lia|intros k Hk; lia|vm_compute; reflexivity].
Defined.

Lemma preset_account_unreadable_witness :
  ∃ c', my_register_watcher_preset_proto calm "acc" "dev" ["*.txt"] t_now (mkConn empty_db 0) = (Returned (Ok tt), c')
  ∧ (my_get_account_by_hash calm "acc" (λ _, t_now) c').1 =
      Returned (Err (Database ("Failed to query account: " +:+ unexpected_null 4))).
Proof.
  apply (preset_account_unreadable calm (λ _, eq_refl) "acc" "dev" ["*.txt"] t_now (λ _, t_now) (mkConn empty_db 0)).
  by intros r ?%elem_of_nil.
Defined.

Lemma mysql_watcher_resent_witness :
  ∃ id c1 c2,
    my_create_watcher_with_conditions calm false auto_0 alone true "acc" 4 watcher_0 1700000000 (λ _, t_now) one_group
    = (Returned (Ok id), c1)
  ∧ my_create_watcher_with_conditions calm false auto_0 alone true "acc" 4 watcher_0 1700000001 (λ _, t_now) c1
    = (Returned (Ok id), c2).
Proof.
  destruct (mysql_watcher_resent calm false (λ _, eq_refl) auto_0 auto_0_pos auto_0_grows alone "acc" 4 watcher_0
              1700000000 1700000001 (λ _, t_now) (λ _, t_now) (λ _ _, t_now) one_group
              group_row_0)
    as (id & c1 & c2 & H1 & _ & H2 & _);
    [reflexivity|exact one_group_ok|vm_compute; reflexivity|vm_compute; reflexivity|by intros r ?%elem_of_nil|lia|lia
    |vm_compute; discriminate|].
  exists id, c1, c2. split; [exact H1|exact H2].
Defined.
