(* ===== verification/MySqlVersions.v ===== *)
(** * The MySQL storage: versions and the encryption of old rows
    (src/storage/mysql.rs)

    The history, the versions of an identifier, the storing of a restored version,
    the operations the storage declines, and [migrate_encrypt_paths], which
    encrypts the paths and names of rows without an index. *)

From S2P Require Import Prelude RustString Errors Models Memory StorageApi Effects Crypto MySql MySqlFile MySqlProps.

Section versions.
Context (fault : nat → option string) (commit_applied : bool).
Context `{CO : Collation} `{CH : Chrono} `{CA : CryptoApi} `{UC : Unicode} `{UT : Utf8} `{FC : FileColumns}.
Context (server_encode_key : option bytes).

(** A row as a version; what cannot be read has the default of its type. *)
Definition version_of_row (now : nat → DateTime) (r : file_row) : SyncFile :=
  let created_ts := default 0 (fr_created_time r) in
  let updated_ts := default 0 (fr_updated_time r) in
  {| sf_id := pretty (fr_file_id r) +:+ "_" +:+ pretty (fr_revision r); sf_user_id := fr_account_hash r;
     sf_device_hash := fr_device_hash r; sf_group_id := fr_group_id r; sf_watcher_id := fr_watcher_id r;
     sf_file_id := fr_file_id r; sf_filename := default "" (text_column (fr_filename r));
     sf_file_hash := fr_file_hash r; sf_file_path := default "" (text_column (fr_file_path r));
     sf_file_size := fr_size r; sf_mime_type := "application/octet-stream"; sf_modified_time := updated_ts;
     sf_is_encrypted := false;
     sf_upload_time := default (now 0%nat) (from_timestamp created_ts 0);
     sf_last_updated := default (now 1%nat) (from_timestamp updated_ts 0);
     sf_is_deleted := fr_is_deleted r; sf_revision := fr_revision r |}.

(** [ORDER BY revision DESC]: [order] is any ordering the database chooses among
    rows of one revision. *)
Definition my_get_file_history (order : list file_row → list file_row) (account_hash file_path : string)
    (group_id : Z) (now : nat → nat → DateTime) : M Conn (list SyncFile) :=
  query fault (db_err_at "Failed to get file history: ") (λ d,
    imap (λ i, version_of_row (now i))
      (order (List.filter (λ r, (fr_account_hash r ≈c account_hash) && (fr_file_path r == as_bytes file_path)
                                && (fr_group_id r =? group_id)) (t_files d)))).

Definition my_get_file_versions_by_id (order : list file_row → list file_row) (account_hash : string) (file_id : Z)
    (now : nat → nat → DateTime) : M Conn (list SyncFile) :=
  query fault (db_err_at "Failed to get file versions: ") (λ d,
    imap (λ i, version_of_row (now i))
      (order (List.filter (λ r, (fr_account_hash r ≈c account_hash) && (fr_file_id r =? wrap_i64 file_id))
                (t_files d)))).

Definition my_get_file_by_revision (account_hash : string) (file_id revision : Z) (now : nat → DateTime)
    : M Conn SyncFile :=
  row ←? query fault (db_err_at "Failed to get file by revision: ") (λ d,
           List.find (λ r, (fr_account_hash r ≈c account_hash) && (fr_file_id r =? wrap_i64 file_id)
                           && (fr_revision r =? revision)) (t_files d));
  match row with
  | Some r => ret (version_of_row now r)
  | None => throw (NotFound ("File not found: file_id=" +:+ pretty file_id +:+ ", revision=" +:+ pretty revision))
  end.

(** [ORDER BY updated_time DESC LIMIT 1]; [NULL] comes last. *)
Definition latest (l : list file_row) : option file_row :=
  foldr (λ r best, match best with
                   | Some b => if (match fr_updated_time b, fr_updated_time r with
                                   | Some tb, Some tr => tb <=? tr
                                   | Some _, None => false
                                   | None, _ => true
                                   end) then Some r else best
                   | None => Some r
                   end) None l.

(** The key identifier of the latest version is carried over; the indices are left
    to the defaults of the table. *)
Definition row_of_version (file : SyncFile) (key_id : option string) : file_row :=
  mkFileRow (sf_file_id file) (sf_user_id file) (sf_device_hash file) (as_bytes (sf_file_path file))
    (as_bytes (sf_filename file)) (sf_file_hash file) (sf_file_size file) (sf_is_deleted file) (sf_revision file)
    (from_unixtime (dt_timestamp (sf_upload_time file))) (from_unixtime (dt_timestamp (sf_last_updated file)))
    (sf_group_id file) (sf_watcher_id file) (sf_group_id file) (sf_watcher_id file) [] "" key_id.

Definition my_store_file (file : SyncFile) : M Conn unit :=
  prev ←? query fault (db_err_at "Failed to fetch previous key_id: ") (λ d,
            latest (List.filter (λ r, (fr_account_hash r ≈c sf_user_id file) && (fr_file_id r =? sf_file_id file))
                      (t_files d)));
  exec fault (db_err_at "Failed to store file: ") (λ d,
    (tt, with_files (t_files d ++ [row_of_version file (prev ≫= fr_key_id)])%list d)).

(** ** Operations the storage declines *)

Definition my_batch_create_accounts (accounts : list Account) : M Conn (list bool) :=
  throw (NotImplemented "batch_create_accounts not implemented").
Definition my_list_accounts (limit offset : option Z) : M Conn (list Account) :=
  throw (NotImplemented "list_accounts not implemented").
Definition my_cleanup_expired_tokens : M Conn Z := ret 0.
Definition my_batch_store_files (files : list FileInfo) : M Conn (list (Z * bool)) :=
  throw (NotImplemented "batch_store_files not implemented").
Definition my_batch_delete_files (account_hash : string) (file_ids : list Z) : M Conn (list bool) :=
  throw (NotImplemented "batch_delete_files not implemented").
Definition my_update_encryption_key (account_hash encryption_key : string) : M Conn unit :=
  throw (NotImplemented "update_encryption_key not implemented").
Definition my_delete_encryption_key (account_hash : string) : M Conn unit :=
  throw (NotImplemented "delete_encryption_key not implemented").

(** ** The migration *)

(** The rows without an index. *)
Definition unindexed (r : file_row) : bool := (fr_eq_index r == []) || (fr_token_path r == "").

(** Path, name and indices of a migrated row; [None] is the panic of the cipher. *)
Definition migrated_columns (key : bytes) (nonces : nat → bytes) (r : file_row)
    : option (bytes * bytes * bytes * string) :=
  let aad := file_aad (fr_account_hash r) (fr_group_id r) (fr_watcher_id r) in
  let salt := derive_salt key "meta-index" (fr_account_hash r) in
  match aead_decrypt key (fr_file_path r) aad, aead_decrypt key (fr_filename r) aad with
  | Ok plain, Ok _ =>
      let plain_path := from_utf8_lossy plain in
      Some (fr_file_path r, fr_filename r, make_eq_index salt plain_path, make_token_path salt plain_path)
  | _, _ =>
      let plain_path := from_utf8_lossy (fr_file_path r) in
      let plain_name := from_utf8_lossy (fr_filename r) in
      match aead_encrypt (nonces 0%nat) key (as_bytes plain_path) aad,
            aead_encrypt (nonces 1%nat) key (as_bytes plain_name) aad with
      | Some ct_path, Some ct_name =>
          Some (ct_path, ct_name, make_eq_index salt plain_path, make_token_path salt plain_path)
      | _, _ => None
      end
  end.

Definition with_columns (columns : bytes * bytes * bytes * string) (r : file_row) : file_row :=
  let '(path, name, eq_index, token_path) := columns in
  mkFileRow (fr_file_id r) (fr_account_hash r) (fr_device_hash r) path name (fr_file_hash r) (fr_size r)
    (fr_is_deleted r) (fr_revision r) (fr_created_time r) (fr_updated_time r) (fr_group_id r) (fr_watcher_id r)
    (fr_server_group_id r) (fr_server_watcher_id r) eq_index token_path (fr_key_id r).

Fixpoint migrate_loop (key : bytes) (nonces : nat → nat → bytes) (i : nat) (rows : list file_row) : M Conn Z :=
  match rows with
  | [] => ret (Z.of_nat i)
  | r :: rows =>
      match migrated_columns key (nonces i) r with
      | None => λ c, (Panicked, c)
      | Some columns =>
          _ ←? exec fault db_err (λ d,
                 (tt, with_files (sql_update (λ x, fr_file_id x =? fr_file_id r) (with_columns columns) (t_files d)) d));
          migrate_loop key nonces (Datatypes.S i) rows
      end
  end.

Definition my_migrate_encrypt_paths (batch_size : nat) (nonces : nat → nat → bytes) : M Conn Z :=
  match server_key server_encode_key with
  | None => ret 0
  | Some key =>
      transaction fault commit_applied db_err db_err
        (rows ←? query fault db_err (λ d, take batch_size (List.filter unindexed (t_files d)));
         migrate_loop key nonces 0 rows)
  end.

End versions.

(** ** Properties *)

Section props.
Context (fault : nat → option string) (commit_applied : bool) (Hfault : ∀ n, fault n = None).
Context `{CO : Collation} `{CH : Chrono} `{CA : CryptoApi} `{AL : !AeadLaws} `{UC : Unicode} `{UT : Utf8}
  `{FC : FileColumns}.

(** A version that is stored is read back under its revision as it was, with
    its times cut to the second and its identifier, media type and encryption flag
    replaced by those every version has. *)
Theorem mysql_version_roundtrip file now c :
  (∀ r, r ∈ t_files (cn_db c) → fr_file_id r = sf_file_id file → fr_revision r ≠ sf_revision file) →
  0 ≤ sf_file_id file ≤ i64_max →
  0 ≤ dt_timestamp (sf_upload_time file) ≤ 2147483647 → 0 ≤ dt_timestamp (sf_last_updated file) ≤ 2147483647 →
  text_column (as_bytes (sf_file_path file)) = Some (sf_file_path file) →
  text_column (as_bytes (sf_filename file)) = Some (sf_filename file) →
  ∃ c', my_store_file fault file c = (Returned (Ok tt), c')
  ∧ (my_get_file_by_revision fault (sf_user_id file) (sf_file_id file) (sf_revision file) now c').1 =
    Returned (Ok (mkSyncFile (pretty (sf_file_id file) +:+ "_" +:+ pretty (sf_revision file)) (sf_user_id file)
      (sf_device_hash file) (sf_group_id file) (sf_watcher_id file) (sf_file_id file) (sf_filename file)
      (sf_file_hash file) (sf_file_path file) (sf_file_size file) "application/octet-stream"
      (dt_timestamp (sf_last_updated file)) false (mkDateTime (dt_timestamp (sf_upload_time file)) 0)
      (mkDateTime (dt_timestamp (sf_last_updated file)) 0) (sf_is_deleted file) (sf_revision file))).
Proof.
  intros Hnew Hid Hu Hl Hp Hn. unfold my_store_file, mthen. rewrite query_ok by done. rewrite exec_ok by done.
  eexists. split; [done|]. unfold my_get_file_by_revision, mthen. rewrite query_ok by done. cbn [cn_db snd].
  rewrite wrap_i64_id by (unfold i64_min; lia). cbn [t_files with_files].
  rewrite find_app_skip.
  - unfold ret, version_of_row. cbn. rewrite Hp, Hn, !from_unixtime_calendar by lia. cbn.
    by rewrite !from_timestamp_calendar by lia.
  - intros r Hr. destruct (fr_file_id r =? sf_file_id file) eqn:E; [|by rewrite andb_false_r].
    apply Z.eqb_eq in E. specialize (Hnew r Hr E). replace (fr_revision r =? sf_revision file) with false by (symmetry; lia).
    by rewrite andb_false_r.
  - cbn. by rewrite coll_eq_refl, !Z.eqb_refl.
Qed.

(** With a server key the history of a file is empty: it is looked for by the
    plain path, and the row of the file has the encrypted one. *)
Theorem mysql_encrypted_history_empty `{AN : !AeadLength} key order f now nonces now' c :
  length key = 32%nat → storable f → length (nonces 0%nat) = 12%nat → length (nonces 1%nat) = 12%nat →
  (∀ l, order l ≡ₚ l) →
  (∀ r, r ∈ t_files (cn_db c) → fr_file_id r ≠ fi_file_id f) →
  (∀ r, r ∈ t_files (cn_db c) → fr_file_path r ≠ as_bytes (fi_file_path f)) →
  ∃ c', my_store_file_info fault commit_applied (Some key) f now nonces c = (Returned (Ok (fi_file_id f)), c')
  ∧ (my_get_file_history fault order (fi_account_hash f) (fi_file_path f) (fi_group_id f) now' c').1 = Returned (Ok []).
Proof.
  intros Hk Hst N0 N1 Hord Hnew Hpath.
  destruct (store_encrypted_path fault commit_applied Hfault key f now nonces c Hst N0 N1 Hnew Hpath)
    as (c' & columns & Hs & Hcols & Hfiles).
  exists c'. split; [done|]. unfold my_get_file_history. rewrite query_ok by done. cbn [fst]. do 2 f_equal.
  assert (Hnone : List.filter (λ r, coll_eq (fr_account_hash r) (fi_account_hash f)
             && (fr_file_path r == as_bytes (fi_file_path f)) && (fr_group_id r =? fi_group_id f))
             (t_files (cn_db c')) = []).
  { apply list_empty_of_none. intros r [Hr Hb]%elem_of_filter_In. rewrite !andb_true_iff in Hb.
    destruct Hb as [[_ Hb%bool_decide_eq_true] _]. rewrite Hfiles in Hr.
    apply elem_of_app in Hr as [Hr| ->%list_elem_of_singleton]; [by apply (Hpath r)|].
    unfold file_columns, server_key in Hcols. rewrite (proj2 (Nat.eqb_eq _ _) Hk) in Hcols. unfold aead_encrypt in Hcols.
    destruct (aes_encrypt key (nonces 0%nat) _ _) as [ct|] eqn:Ec; [|done].
    destruct (aes_encrypt key (nonces 1%nat) _ _) as [cn|]; [|done]. injection Hcols as <-. cbn in Hb.
    apply aes_encrypt_length in Ec. apply (f_equal length) in Hb. rewrite length_app in Hb. lia. }
  rewrite Hnone. by rewrite (proj1 (Permutation_nil_r (order [])) (Hord [])).
Qed.

(** *** The migration *)

Section migration.
Context (key : bytes) (Hkey : length key = 32%nat).

(** The text of a path or name, as every look-up reads it. *)
Definition text_of (r : file_row) (data : bytes) : string :=
  decrypt_text (Some key) (fr_account_hash r) (fr_group_id r) (fr_watcher_id r) data.

Definition row_aad (r : file_row) : bytes := file_aad (fr_account_hash r) (fr_group_id r) (fr_watcher_id r).

(** A row is encrypted or plain as a whole, and short enough for the cipher. *)
Definition migratable (r : file_row) : Prop :=
  (is_ok (aead_decrypt key (fr_file_path r) (row_aad r)) = is_ok (aead_decrypt key (fr_filename r) (row_aad r)))
  ∧ Z.of_nat (length (as_bytes (from_utf8_lossy (fr_file_path r)))) ≤ 2 ^ 36
  ∧ Z.of_nat (length (as_bytes (from_utf8_lossy (fr_filename r)))) ≤ 2 ^ 36
  ∧ Z.of_nat (length (row_aad r)) ≤ 2 ^ 36.

(** The texts and all the other columns of a row are kept. *)
Definition same_texts (x y : file_row) : Prop :=
  text_of y (fr_file_path y) = text_of x (fr_file_path x) ∧ text_of y (fr_filename y) = text_of x (fr_filename x)
  ∧ with_columns (fr_file_path x, fr_filename x, fr_eq_index x, fr_token_path x) y = x.

(** The row can be found by its path. *)
Definition indexed (y : file_row) : Prop :=
  fr_eq_index y = eq_index_of (Some key) (fr_account_hash y) (text_of y (fr_file_path y)).

Lemma server_key_some : server_key (Some key) = Some key.
Proof. unfold server_key. by rewrite (proj2 (Nat.eqb_eq _ _) Hkey). Qed.

Lemma text_of_decrypted r data :
  text_of r data = match aead_decrypt key data (row_aad r) with Ok pt => from_utf8_lossy pt | Err _ => from_utf8_lossy data end.
Proof. unfold text_of, decrypt_text. by rewrite server_key_some. Qed.

Lemma encrypted_text nonce r data s :
  length nonce = 12%nat → valid_text s = true → aead_encrypt nonce key (as_bytes s) (row_aad r) = Some data →
  text_of r data = s.
Proof.
  intros Hn Hs He. rewrite text_of_decrypted. unfold aead_encrypt in He.
  destruct (aes_encrypt key nonce (as_bytes s) (row_aad r)) as [ct|] eqn:E; [|done]. injection He as <-.
  unfold aead_decrypt. rewrite length_app, Hn. cbn -[take drop].
  rewrite <-Hn, take_app_length, drop_app_length, (aes_decrypt_encrypt _ _ _ _ _ E). by apply from_utf8_lossy_valid.
Qed.

Lemma migrated_row nonces r :
  migratable r → length (nonces 0%nat) = 12%nat → length (nonces 1%nat) = 12%nat →
  ∃ columns, migrated_columns key nonces r = Some columns
  ∧ same_texts r (with_columns columns r) ∧ indexed (with_columns columns r).
Proof.
  intros (Hboth & Lp & Ln & La) N0 N1. unfold migrated_columns. fold (row_aad r).
  set (salt := derive_salt key "meta-index" (fr_account_hash r)).
  assert (Hidx : ∀ path name token, text_of r path = text_of r (fr_file_path r) →
    indexed (with_columns (path, name, make_eq_index salt (text_of r (fr_file_path r)), token) r)).
  { intros path name token E. unfold indexed, text_of in *; cbn. rewrite E. unfold eq_index_of, index_salt.
    by rewrite server_key_some. }
  pose proof (text_of_decrypted r (fr_file_path r)) as Tp. pose proof (text_of_decrypted r (fr_filename r)) as Tn.
  destruct (aead_decrypt key (fr_file_path r) (row_aad r)) as [pp|ep],
    (aead_decrypt key (fr_filename r) (row_aad r)) as [pn|en]; try done.
  - eexists. split; [done|]. rewrite <-Tp. split; [|by apply Hidx]. split_and!; [done..|]. by destruct r.
  - destruct (aes_encrypt_total key (nonces 0%nat) (as_bytes (from_utf8_lossy (fr_file_path r))) (row_aad r) Hkey N0 Lp La) as [cp Ep].
    destruct (aes_encrypt_total key (nonces 1%nat) (as_bytes (from_utf8_lossy (fr_filename r))) (row_aad r) Hkey N1 Ln La) as [cn En].
    assert (Ep' : aead_encrypt (nonces 0%nat) key (as_bytes (from_utf8_lossy (fr_file_path r))) (row_aad r)
                  = Some (nonces 0%nat ++ cp)%list) by (unfold aead_encrypt; by rewrite Ep).
    assert (En' : aead_encrypt (nonces 1%nat) key (as_bytes (from_utf8_lossy (fr_filename r))) (row_aad r)
                  = Some (nonces 1%nat ++ cn)%list) by (unfold aead_encrypt; by rewrite En).
    rewrite Ep', En'. eexists. split; [done|].
    pose proof (encrypted_text _ r _ _ N0 (valid_from_utf8_lossy _) Ep') as Xp.
    pose proof (encrypted_text _ r _ _ N1 (valid_from_utf8_lossy _) En') as Xn.
    split; [|rewrite <-Tp; apply Hidx; by rewrite Xp, Tp].
    split_and!; [unfold text_of in *; cbn; congruence..|]. by destruct r.
Qed.

(** What the migration of [rows] makes of a row: nothing, when it is not one of
    them. *)
Definition outcome_of (rows : list file_row) (x y : file_row) : Prop :=
  same_texts x y ∧ (x ∈ rows → indexed y) ∧ (x ∉ rows → y = x).

Lemma file_id_with_columns columns r : fr_file_id (with_columns columns r) = fr_file_id r.
Proof. by destruct columns as [[[? ?] ?] ?]. Qed.

Lemma map_id_update p (f : file_row → file_row) l :
  (∀ r, fr_file_id (f r) = fr_file_id r) → map fr_file_id (sql_update p f l) = map fr_file_id l.
Proof. intros Hf. unfold sql_update. rewrite map_map. apply map_ext. intros r. by destruct (p r). Qed.

Lemma migrate_loop_ok nonces rows : (∀ i k, length (nonces i k) = 12%nat) → ∀ i c,
  NoDup (map fr_file_id (t_files (cn_db c))) → NoDup (map fr_file_id rows) →
  (∀ r, r ∈ rows → r ∈ t_files (cn_db c) ∧ migratable r) →
  ∃ c', migrate_loop fault key nonces i rows c = (Returned (Ok (Z.of_nat (i + length rows))), c')
  ∧ Forall2 (outcome_of rows) (t_files (cn_db c)) (t_files (cn_db c')).
Proof.
  intros HN. induction rows as [|r rows IH]; intros i c Hnd Hnr Hrows.
  { exists c. split; [by rewrite Nat.add_0_r|]. apply Forall2_same_length_lookup_2; [done|].
    intros k x y Hx Hy. rewrite Hx in Hy. injection Hy as <-. split; [|split; [by intros ?%elem_of_nil|done]].
    split_and!; [done..|]. by destruct x. }
  destruct (Hrows r) as [Hr Hm]; [by left|]. apply NoDup_cons in Hnr as [Hfresh Hnr].
  destruct (migrated_row (nonces i) r Hm) as (columns & Hc & Htexts & Hidx); [apply HN..|].
  cbn [migrate_loop]. rewrite Hc. unfold mthen. rewrite exec_ok by done. cbn [snd].
  set (files1 := sql_update (λ x, fr_file_id x =? fr_file_id r) (with_columns columns) (t_files (cn_db c))).
  set (c1 := mkConn (with_files files1 (cn_db c)) (S (cn_step c))).
  assert (Hone : ∀ x, x ∈ t_files (cn_db c) → fr_file_id x = fr_file_id r → x = r).
  { intros x Hx E. by apply (row_of_id fr_file_id (t_files (cn_db c))). }
  assert (Hother : ∀ x, x ∈ rows → fr_file_id x ≠ fr_file_id r).
  { intros x Hx E. apply Hfresh. rewrite <-E. apply list_elem_of_In, in_map. by apply list_elem_of_In. }
  destruct (IH (S i) c1) as (c' & E' & HF).
  - cbn. unfold files1. rewrite map_id_update; [done|]. apply file_id_with_columns.
  - done.
  - intros x Hx. destruct (Hrows x) as [Hxf Hxm]; [by right|]. split; [|done]. cbn.
    apply list_elem_of_In, in_map_iff. exists x. split; [|by apply list_elem_of_In].
    by rewrite (proj2 (Z.eqb_neq _ _) (Hother x Hx)).
  - exists c'. split; [rewrite E'; do 3 f_equal; cbn; lia|].
    apply Forall2_same_length_lookup_2.
    { apply Forall2_length in HF. rewrite <-HF. cbn. unfold files1, sql_update. by rewrite length_map. }
    intros k x y Hx Hy.
    assert (Hx1 : files1 !! k = Some (if fr_file_id x =? fr_file_id r then with_columns columns x else x)).
    { unfold files1, sql_update. rewrite (list_lookup_fmap _ (t_files (cn_db c))), Hx. done. }
    pose proof (Forall2_lookup_lr _ _ _ _ _ _ HF Hx1 Hy) as (H1 & H2 & H3). clear HF.
    assert (Hxin : x ∈ t_files (cn_db c)) by (by eapply list_elem_of_lookup_2).
    destruct (fr_file_id x =? fr_file_id r) eqn:E.
    + apply Z.eqb_eq in E. rewrite (Hone x Hxin E) in *. rewrite H3.
      * split; [done|]. split; [done|]. intros Hn. destruct Hn. by left.
      * intros Hin. apply (Hother _ Hin). apply file_id_with_columns.
    + apply Z.eqb_neq in E. split; [done|]. split.
      * intros [->|Hin]%elem_of_cons; [done|]. by apply H2.
      * intros Hn. apply H3. intros Hin. apply Hn. by right.
Qed.

Lemma migrate_faultless batch_size nonces c :
  (∀ i k, length (nonces i k) = 12%nat) → NoDup (map fr_file_id (t_files (cn_db c))) →
  (∀ r, r ∈ t_files (cn_db c) → migratable r) →
  let rows := take batch_size (List.filter unindexed (t_files (cn_db c))) in
  ∃ c', my_migrate_encrypt_paths fault commit_applied (Some key) batch_size nonces c
        = (Returned (Ok (Z.of_nat (length rows))), c')
  ∧ Forall2 (outcome_of rows) (t_files (cn_db c)) (t_files (cn_db c')).
Proof.
  intros HN Hnd Hm rows. unfold my_migrate_encrypt_paths. rewrite server_key_some.
  assert (Hsub : ∀ r, r ∈ rows → r ∈ t_files (cn_db c)).
  { intros r Hr. apply elem_of_take in Hr as (k & Hk & _). apply list_elem_of_lookup_2 in Hk.
    by apply elem_of_filter_In in Hk as [? _]. }
  destruct (migrate_loop_ok nonces rows HN 0 (mkConn (cn_db c) (S (S (cn_step c))))) as (c1 & E & HF).
  - done.
  - assert (Hf : sublist rows (t_files (cn_db c))).
    { etransitivity; [apply sublist_take|]. clear. induction (t_files (cn_db c)) as [|x l IH]; [constructor|]. cbn.
      destruct (unindexed x); by constructor. }
    eapply sublist_NoDup; [exact Hnd|exact (fmap_sublist fr_file_id _ _ Hf)].
  - intros r Hr. split; [by apply Hsub|]. apply Hm. by apply Hsub.
  - eexists. split; [apply transaction_ok; [done|]|exact HF].
    unfold mthen. rewrite query_ok by done. exact E.
Qed.

End migration.
End props.

(** ** The migration when statements fail *)

Section failing.
Context (fault : nat → option string) (commit_applied : bool).
Context `{CO : Collation} `{CH : Chrono} `{CA : CryptoApi} `{AL : !AeadLaws} `{UC : Unicode} `{UT : Utf8}
  `{FC : FileColumns}.
Context (key : bytes) (Hkey : length key = 32%nat).

Lemma migrate_loop_alike nonces i rows :
  succeeds_alike (migrate_loop fault key nonces i rows) (migrate_loop no_fault key nonces i rows).
Proof.
  revert i. induction rows as [|r rows IH]; intros i; cbn; [auto with alike|].
  destruct (migrated_columns key (nonces i) r); auto with alike.
Qed.

(** C19: the migration keeps every path and name as it is read, and every other
    column; the rows it takes up can then be found by their path, and the others are
    left as they are.  This needs that no two rows share a file identifier and that no
    row has only one of path and name encrypted; it holds whichever statements fail: a
    migration that reports an error has changed nothing, or everything when the commit
    whose failure it reports was applied, and one of which nothing fails succeeds. *)
Theorem migration_keeps_texts batch_size nonces c :
  (∀ i k, length (nonces i k) = 12%nat) → NoDup (map fr_file_id (t_files (cn_db c))) →
  (∀ r, r ∈ t_files (cn_db c) → migratable key r) →
  let rows := take batch_size (List.filter unindexed (t_files (cn_db c))) in
  let '(r, c') := my_migrate_encrypt_paths fault commit_applied (Some key) batch_size nonces c in
  let migrated := Forall2 (outcome_of key rows) (t_files (cn_db c)) (t_files (cn_db c')) in
  match r with
  | Returned (Ok n) => n = Z.of_nat (length rows) ∧ migrated
  | _ => (cn_db c' = cn_db c ∨ commit_applied = true ∧ migrated) ∧ ¬ (∀ n, fault n = None)
  end.
Proof.
  intros HN Hnd Hm rows.
  destruct (migrate_faultless no_fault commit_applied (λ _, eq_refl) key Hkey batch_size nonces c HN Hnd Hm) as (c1 & E & HF).
  assert (Hall : all_or_nothing commit_applied c (my_migrate_encrypt_paths fault commit_applied (Some key) batch_size nonces c)
                   (my_migrate_encrypt_paths no_fault commit_applied (Some key) batch_size nonces c)).
  { unfold my_migrate_encrypt_paths. rewrite server_key_some by done. apply transaction_all_or_nothing, alike_mthen;
      [auto with alike|intros ?; apply migrate_loop_alike]. }
  assert (Hok : (∀ n, fault n = None) → (my_migrate_encrypt_paths fault commit_applied (Some key) batch_size nonces c).1
                                        = Returned (Ok (Z.of_nat (length rows)))).
  { intros Hf. by destruct (migrate_faultless fault commit_applied Hf key Hkey batch_size nonces c HN Hnd Hm) as (c2 & -> & _). }
  rewrite E in Hall. unfold all_or_nothing in Hall.
  destruct (my_migrate_encrypt_paths fault _ _ _ _ c) as [[[n|e]|] c']; cbn in *; [by simplify_eq|..].
  - split; [destruct Hall as [|(? & _ & ->)]; auto|]. intros Hf. by apply Hok in Hf.
  - split; [destruct Hall as [|(? & _ & ->)]; auto|]. intros Hf. by apply Hok in Hf.
Qed.

End failing.

(** ** Witnesses *)

#[local] Existing Instance exact_collation.
#[local] Existing Instance all_utf8.
#[local] Existing Instance text_columns.
#[local] Existing Instance plain_crypto.
#[local] Existing Instance plain_aead.
#[local] Existing Instance plain_length.
#[local] Existing Instance ascii_unicode.
#[local] Existing Instance chrono_range.

Definition version_0 : SyncFile :=
  mkSyncFile "x" "acc" "dev" 1 2 7 "f.txt" "hash" "~/docs" 10 "text/plain" 1700000000 true t_now t_now false 4.

Lemma mysql_version_roundtrip_witness :
  ∃ c', my_store_file calm version_0 (mkConn empty_db 0) = (Returned (Ok tt), c')
  ∧ (my_get_file_by_revision calm "acc" 7 4 (λ _, t_now) c').1 =
    Returned (Ok (mkSyncFile (pretty 7 +:+ "_" +:+ pretty 4) "acc" "dev" 1 2 7 "f.txt" "hash" "~/docs" 10
      "application/octet-stream" 1700000000 false (mkDateTime 1700000000 0) (mkDateTime 1700000000 0) false 4)).
Proof.
  apply (mysql_version_roundtrip calm (λ _, eq_refl) version_0 (λ _, t_now) (mkConn empty_db 0));
    [by intros r ?%elem_of_nil|vm_compute; split; congruence..|reflexivity|reflexivity].
Defined.

Lemma mysql_encrypted_history_empty_witness :
  ∃ c', my_store_file_info calm false (Some zero_key) (upload 7) t_now nonces_0 (mkConn empty_db 0)
        = (Returned (Ok 7), c')
  ∧ (my_get_file_history calm id "acc" "~/docs" 1 (λ _ _, t_now) c').1 = Returned (Ok []).
Proof.
  apply (mysql_encrypted_history_empty calm false (λ _, eq_refl) zero_key id (upload 7) t_now nonces_0 (λ _ _, t_now)
           (mkConn empty_db 0));
    [reflexivity|apply upload_storable|reflexivity|reflexivity|done|by intros r ?%elem_of_nil..].
Defined.

(** A short plain row, which the cipher does not take for one of its own. *)
Definition plain_row : file_row := row_of_version (mkSyncFile "x" "acc" "dev" 1 2 7 "f" "h" "~/d" 1 "" 0 false t_now t_now false 1) None.

Lemma migration_keeps_texts_witness :
  let '(r, c') := my_migrate_encrypt_paths calm false (Some zero_key) 10 (λ _ _, nonce0) (mkConn (with_files [plain_row] empty_db) 0) in
  let migrated := Forall2 (outcome_of zero_key [plain_row]) [plain_row] (t_files (cn_db c')) in
  match r with
  | Returned (Ok n) => n = 1 ∧ migrated
  | _ => (cn_db c' = with_files [plain_row] empty_db ∨ false = true ∧ migrated) ∧ ¬ (∀ n, calm n = None)
  end.
Proof.
  apply (migration_keeps_texts calm false zero_key eq_refl 10 (λ _ _, nonce0)
           (mkConn (with_files [plain_row] empty_db) 0)).
  - done.
  - by apply (bool_decide_unpack _); vm_compute.
  - intros r ->%list_elem_of_singleton. split_and!; [vm_compute; reflexivity|vm_compute; discriminate..].
Defined.
