(* ===== verification/ConfigProps.v ===== *)
(** * Properties of the configuration

    Numbers are read back from their texts, both loaders agree wherever Secrets
    Manager adds nothing, and an outage of it is not told from its absence. *)

From S2P Require Import Prelude RustString Errors Crypto Config.

(** ** Numbers and their texts *)

Lemma digit_of_char x : (x < 10)%N →
  is_ascii_digit (pretty_N_char x) = true ∧ byte_val (pretty_N_char x) - 48 = Z.of_N x.
Proof.
  intros Hx. assert (Hc : x ∈ (N.of_nat <$> seq 0 10)).
  { apply list_elem_of_fmap. exists (N.to_nat x). split; [lia|]. apply elem_of_seq. lia. }
  revert x Hx Hc. assert (H : Forall (λ x, is_ascii_digit (pretty_N_char x) = true
                          ∧ byte_val (pretty_N_char x) - 48 = Z.of_N x) (N.of_nat <$> seq 0 10)).
  { repeat (constructor; [by split; vm_compute|]). constructor. }
  intros x _ Hx. rewrite Forall_forall in H. by apply H.
Qed.

Lemma digits_value_go x s : digits_value 0 (pretty_N_go x s) = digits_value (Z.of_N x) s.
Proof.
  revert s. induction (N.lt_wf_0 x) as [x _ IH]; intros s.
  destruct (decide (x = 0)%N) as [->|Hx]; [by rewrite pretty_N_go_0|].
  rewrite pretty_N_go_step by lia. rewrite IH by (apply N.div_lt; lia). cbn [digits_value].
  destruct (digit_of_char (x mod 10)) as [-> ->]; [apply N.mod_lt; lia|]. f_equal.
  rewrite N2Z.inj_div, N2Z.inj_mod. change (Z.of_N 10) with 10. pose proof (Z.div_mod (Z.of_N x) 10). lia.
Qed.

Lemma pretty_Z_nonneg n : 0 ≤ n → pretty n = pretty (Z.to_N n).
Proof. by destruct n. Qed.

Lemma digits_value_pretty n : 0 ≤ n → digits_value 0 (pretty n) = Some n.
Proof.
  intros Hn. rewrite pretty_Z_nonneg by done. unfold pretty, pretty_N.
  destruct (decide (Z.to_N n = 0)%N) as [E|E].
  - assert (n = 0) as -> by lia. done.
  - rewrite digits_value_go. cbn. f_equal. lia.
Qed.

(** The text of a number starts with a digit. *)
Lemma go_head x s : (x ≠ 0)%N → ∃ a t, pretty_N_go x s = String a t ∧ is_ascii_digit a = true.
Proof.
  revert s. induction (N.lt_wf_0 x) as [x _ IH]; intros s Hx.
  rewrite pretty_N_go_step by lia. destruct (decide (x `div` 10 = 0)%N) as [->|E].
  - rewrite pretty_N_go_0. eexists _, _. split; [done|]. apply digit_of_char, N.mod_lt. lia.
  - apply IH; [apply N.div_lt; lia|done].
Qed.

Lemma pretty_head n : 0 ≤ n → ∃ a t, pretty n = String a t ∧ is_ascii_digit a = true.
Proof.
  intros Hn. rewrite pretty_Z_nonneg by done. unfold pretty, pretty_N.
  destruct (decide (Z.to_N n = 0)%N) as [E|E]; [by eexists _, _|by apply go_head].
Qed.

(** A number in the range of its type is read back from its text. *)
Lemma parse_unsigned_pretty hi n : 0 ≤ n ≤ hi → parse_unsigned hi (pretty n) = Some n.
Proof.
  intros Hn. destruct (pretty_head n) as (a & t & E & Ha); [lia|].
  assert (H : digits_in 0 hi 1 (pretty n) = Some n).
  { unfold digits_in. rewrite digits_value_pretty by lia. rewrite E. cbn [str_is_empty]. rewrite Z.mul_1_l.
    rewrite (proj2 (Z.leb_le 0 n)), (proj2 (Z.leb_le n hi)) by lia. done. }
  rewrite <- H. rewrite E. unfold parse_unsigned. destruct a as [[] [] [] [] [] [] [] []]; try done;
    cbn in Ha; discriminate Ha.
Qed.

(** ** Sizes *)

Section sizes.
Context `{U : Unicode}.

(** Digits are their own lower case. *)
Lemma digit_facts a : is_ascii_digit a = true →
  is_ascii_byte a = true ∧ ascii_lower a = a ∧ a ≠ "b"%char.
Proof. destruct a as [[] [] [] [] [] [] [] []]; cbn; intros H; try discriminate H; done. Qed.

Definition all_digits (s : string) : Prop := str_all is_ascii_digit s = true.

Lemma all_digits_go x s : all_digits s → all_digits (pretty_N_go x s).
Proof.
  revert s. induction (N.lt_wf_0 x) as [x _ IH]; intros s Hs.
  destruct (decide (x = 0)%N) as [->|Hx]; [by rewrite pretty_N_go_0|].
  rewrite pretty_N_go_step by lia. apply IH; [apply N.div_lt; lia|]. unfold all_digits. cbn [str_all].
  destruct (digit_of_char (x mod 10)) as [-> _]; [apply N.mod_lt; lia|done].
Qed.

Lemma all_digits_pretty n : 0 ≤ n → all_digits (pretty n).
Proof.
  intros Hn. rewrite pretty_Z_nonneg by done. unfold pretty, pretty_N.
  destruct (decide (Z.to_N n = 0)%N); [done|by apply all_digits_go].
Qed.

Lemma str_all_app p s t : str_all p (s +:+ t) = str_all p s && str_all p t.
Proof. induction s as [|a s IH]; [done|]. cbn. rewrite IH. by destruct (p a). Qed.

Lemma str_map_app f s t : str_map f (s +:+ t) = str_map f s +:+ str_map f t.
Proof. induction s as [|a s IH]; [done|]. cbn. by rewrite IH. Qed.

Lemma all_digits_ascii s : all_digits s → str_all is_ascii_byte s = true ∧ str_map ascii_lower s = s.
Proof.
  unfold all_digits. induction s as [|a s IH]; [done|]. cbn [str_all str_map].
  intros [Ha Hs]%andb_true_iff. destruct (IH Hs) as [-> ->]. by destruct (digit_facts a Ha) as (-> & -> & _).
Qed.

Lemma lower_with_unit s unit lower : all_digits s → str_all is_ascii_byte unit = true →
  str_map ascii_lower unit = lower → to_lowercase (s +:+ unit) = s +:+ lower.
Proof.
  intros Hs Hu <-. destruct (all_digits_ascii s Hs) as [Ha Hm].
  rewrite to_lowercase_ascii by (by rewrite str_all_app, Ha, Hu). by rewrite str_map_app, Hm.
Qed.

Lemma ends_with_unit s u v : String.length u = String.length v →
  ends_with u (s +:+ v) = bool_decide (u = v).
Proof.
  intros Hl. apply Bool.eq_true_iff_eq. rewrite ends_with_spec, bool_decide_eq_true. split.
  - intros [t Ht]. apply (f_equal String.length) in Ht as Hlen. rewrite !length_app_str in Hlen.
    apply app_str_eq_inv_len in Ht as [_ E]; [done|lia].
  - intros ->. by exists s.
Qed.

(** A text of digits ends in no unit. *)
Lemma digits_no_unit s u : all_digits s → ends_with (u +:+ "b") s = false.
Proof.
  intros Hs. apply not_true_iff_false. intros [t ->]%ends_with_spec. unfold all_digits in Hs.
  rewrite !str_all_app in Hs. cbn in Hs. by rewrite !andb_false_r in Hs.
Qed.

Lemma substring_app s t : String.substring 0 (String.length s) (s +:+ t) = s.
Proof. induction s as [|a s IH]; cbn; [by destruct t|]. by rewrite IH. Qed.

Lemma trim_unit s u : all_digits s →
  trim_end_matches (String.length (s +:+ u +:+ "b")) (u +:+ "b") (s +:+ u +:+ "b") = s.
Proof.
  intros Hs. assert (Hl : String.length (s +:+ u +:+ "b") = S (String.length (s +:+ u)))
    by (rewrite !length_app_str; cbn; lia).
  rewrite Hl. cbn [trim_end_matches]. rewrite ends_with_unit, bool_decide_eq_true_2 by done.
  replace (String.length (s +:+ u +:+ "b") - String.length (u +:+ "b"))%nat with (String.length s)
    by (rewrite !length_app_str; lia).
  rewrite substring_app. destruct (String.length (s +:+ u)); cbn [trim_end_matches]; [done|].
  by rewrite digits_no_unit.
Qed.

Lemma size_with_unit_spec n u k : 0 ≤ n ≤ u64_max →
  size_with_unit (u +:+ "b") k (pretty n +:+ u +:+ "b") = Some (wrap_u64 (n * k)).
Proof.
  intros Hn. unfold size_with_unit. rewrite trim_unit by (apply all_digits_pretty; lia).
  unfold parse_usize. by rewrite parse_unsigned_pretty.
Qed.

(** The number of bytes of each unit, in either case. *)
Definition units : list (string * Z) :=
  [("GB", 1024 * 1024 * 1024); ("gb", 1024 * 1024 * 1024); ("MB", 1024 * 1024); ("mb", 1024 * 1024);
   ("KB", 1024); ("kb", 1024)].

(** The size of a text: a number with a unit is that many units, as far as it
    fits 64 bits (beyond, the product wraps around), and a plain number is read
    as bytes. *)
Theorem file_size_exact n : 0 ≤ n ≤ u64_max →
  file_size_of_text (pretty n) = n
  ∧ Forall (λ u, file_size_of_text (pretty n +:+ u.1) = wrap_u64 (n * u.2)) units.
Proof.
  intros Hn. assert (Hd : all_digits (pretty n)) by (apply all_digits_pretty; lia). split.
  - unfold file_size_of_text. rewrite (to_lowercase_ascii (pretty n)) by (by apply all_digits_ascii).
    rewrite (proj2 (all_digits_ascii (pretty n) Hd)).
    rewrite (digits_no_unit _ "g"), (digits_no_unit _ "m"), (digits_no_unit _ "k") by done.
    unfold parse_usize. by rewrite parse_unsigned_pretty.
  - assert (HU : ∀ unit c k, str_all is_ascii_byte unit = true → str_map ascii_lower unit = c +:+ "b" →
      (c = "g" ∧ k = 1024 * 1024 * 1024 ∨ c = "m" ∧ k = 1024 * 1024 ∨ c = "k" ∧ k = 1024) →
      file_size_of_text (pretty n +:+ unit) = wrap_u64 (n * k)).
    { intros unit c k Ha Hl Hc. unfold file_size_of_text. rewrite (lower_with_unit _ unit _ Hd Ha Hl).
      destruct Hc as [[-> ->]|[[-> ->]|[-> ->]]].
      - rewrite (ends_with_unit _ "gb" ("g" +:+ "b")) by done. cbn [bool_decide].
        rewrite bool_decide_eq_true_2 by done. by rewrite (size_with_unit_spec n "g").
      - rewrite (ends_with_unit _ "gb" ("m" +:+ "b")), (ends_with_unit _ "mb" ("m" +:+ "b")) by done.
        rewrite bool_decide_eq_false_2, bool_decide_eq_true_2 by done. by rewrite (size_with_unit_spec n "m").
      - rewrite (ends_with_unit _ "gb" ("k" +:+ "b")), (ends_with_unit _ "mb" ("k" +:+ "b")),
          (ends_with_unit _ "kb" ("k" +:+ "b")) by done.
        rewrite !bool_decide_eq_false_2, bool_decide_eq_true_2 by done. by rewrite (size_with_unit_spec n "k"). }
    repeat constructor; cbn [fst snd]; [eapply (HU _ "g")|eapply (HU _ "g")|eapply (HU _ "m")|eapply (HU _ "m")
      |eapply (HU _ "k")|eapply (HU _ "k")]; auto.
Qed.

End sizes.

Lemma file_size_exact_witness :
  file_size_of_text (U := ascii_unicode) (pretty (2 ^ 34)) = 2 ^ 34
  ∧ Forall (λ u, file_size_of_text (U := ascii_unicode) (pretty (2 ^ 34) +:+ u.1) = wrap_u64 (2 ^ 34 * u.2)) units.
Proof. apply (file_size_exact (U := ascii_unicode) (2 ^ 34)). unfold u64_max. lia. Defined.

(** Seventeen thousand million gigabytes are no bytes at all. *)
Example file_size_wraps : file_size_of_text (U := ascii_unicode) "17179869184GB" = 0.
Proof. vm_compute. reflexivity. Qed.

Example file_size_unreadable : file_size_of_text (U := ascii_unicode) "10 MB" = 50 * 1024 * 1024.
Proof. vm_compute. reflexivity. Qed.

(** ** The loaders *)

Section loaders.
Context `{U : Unicode} (env : string → option string) (redis_cache : bool).
Context (secret_value : nat → string → result (option string) string)
        (create_secrets_client : result unit string)
        (from_json : string → option (string → option Value))
        (from_hex : string → option bytes).

Abbreviation value_of := (get_config_value env secret_value from_json).

(** Secrets Manager has nothing to say: it is not asked, or no request succeeds. *)
Definition no_secrets (l : ConfigLoader) : Prop :=
  is_cloud (cl_environment l) = false ∨ ∀ n name, ∃ e, secret_value n name = Err e.

(** The value of a computation does not depend on the number of requests made. *)
Definition answers {A} (m : Requests A) (a : A) : Prop := ∀ n, (m n).1 = a.

Lemma answers_ret {A} (a : A) : answers (rret a) a.
Proof. done. Qed.

Lemma answers_bind {A B} (m : Requests A) (k : A → Requests B) a b :
  answers m a → answers (k a) b → answers (rbind m k) b.
Proof. intros Hm Hk n. unfold rbind. specialize (Hm n). destruct (m n) as [x n1]. cbn in Hm. subst. apply Hk. Qed.

(** Where a value comes from: the environment, the secret, the default. *)
Lemma config_value_cases l key d n :
  (value_of l key d n).1 =
  match env key with
  | Some v => Some v
  | None =>
      match (if is_cloud (cl_environment l)
             then (get_from_secrets_manager env secret_value from_json l key n).1 else None) with
      | Some v => Some v
      | None => d
      end
  end.
Proof.
  unfold get_config_value. destruct (env key); [done|]. destruct (is_cloud _); [|done].
  unfold rbind. by destruct (get_from_secrets_manager _ _ _ _ _ _) as [[v|] n1].
Qed.

Lemma value_without_secrets l key d : no_secrets l →
  answers (value_of l key d) (match env key with Some v => Some v | None => d end).
Proof.
  intros Hl n. rewrite config_value_cases. destruct (env key); [done|].
  destruct (is_cloud _) eqn:Ec; [|done]. destruct Hl as [?|Hl]; [congruence|].
  unfold get_from_secrets_manager. destruct (cl_secrets_client l); [|done].
  destruct (get_secret_name env l) as [name|]; [|done]. cbn. by destruct (Hl n name) as [e ->].
Qed.

Lemma option_without_secrets l key : no_secrets l → answers (value_of l key None) (env key).
Proof. intros Hl n. rewrite value_without_secrets by done. by destruct (env key). Qed.

Lemma text_without_secrets l key d : no_secrets l →
  answers (config_text env secret_value from_json l key d) (env_or env key d).
Proof.
  intros Hl. eapply answers_bind; [by apply value_without_secrets|]. unfold env_or. by destruct (env key).
Qed.

Lemma parse_without_secrets parse l key d : no_secrets l → parse (pretty d) = Some d →
  answers (config_parse env secret_value from_json parse l key d) (env_parse env parse key d).
Proof.
  intros Hl Hd. eapply answers_bind; [by apply value_without_secrets|]. unfold env_parse.
  destruct (env key); [done|]. cbn. by rewrite Hd.
Qed.

Lemma flag_texts : flag "true" = true ∧ flag "false" = false.
Proof. unfold flag. by rewrite !to_lowercase_ascii. Qed.

Lemma flag_without_secrets l key d : no_secrets l →
  answers (config_flag env secret_value from_json l key d) (env_flag env key d).
Proof.
  intros Hl. eapply answers_bind; [by apply value_without_secrets|]. unfold env_flag.
  destruct (env key); [done|]. destruct flag_texts as [Ht Hf]. by destruct d; cbn [default]; rewrite ?Ht, ?Hf.
Qed.

Create HintDb loader.
Hint Resolve option_without_secrets text_without_secrets flag_without_secrets : loader.
Hint Extern 1 (answers (config_parse _ _ _ _ _ _ _) _) =>
  (apply parse_without_secrets; [assumption|vm_compute; reflexivity]) : loader.

(** The fields that the loader treats in its own way: sizes with units, an empty
    Redis host, and the key. *)
Definition loader_server : ServerConfig :=
  let c := ServerConfig_load env in
  mkServerConfig (sv_host c) (sv_port c) (sv_storage_path c) (sv_worker_threads c) (sv_auth_token_expiry_hours c)
    (file_size_of_text (env_or env "MAX_FILE_SIZE" (pretty DEFAULT_MAX_FILE_SIZE_BYTES)))
    (sv_max_concurrent_requests c) (sv_heartbeat_interval_secs c).

Definition loader_redis : RedisConfig :=
  let c := RedisConfig_load env redis_cache in
  mkRedisConfig (rc_enabled c)
    (match env "REDIS_HOST" with Some h => if str_is_empty h then None else rc_url c | None => None end)
    (rc_key_prefix c).

Definition loader_config : Config :=
  mkConfig loader_server (DatabaseConfig_load env) (StorageConfig_load env) (LoggingConfig_load env)
    (FeatureFlags_load env) (MessageBrokerConfig_load env) loader_redis (env "SERVER_ENCODE_KEY" ≫= from_hex).

Ltac load_fields := repeat (eapply answers_bind; [solve [auto with loader]|]); try apply answers_ret.

(** C22: where Secrets Manager is not asked, and also where every request to it
    fails, the loader answers the configuration of the environment variables with
    their defaults, up to three fields: in the cloud an outage is not told from an
    empty secret, and the server goes on with the default data-base user, password
    and host and without a key. *)
Theorem secrets_outage_loads_environment l : no_secrets l →
  ∀ n, (load_config env redis_cache secret_value from_json from_hex l n).1 = loader_config.
Proof.
  intros Hl. apply answers_bind with (a := loader_server).
  { unfold get_server_config, parse_file_size. load_fields. eapply answers_bind.
    - eapply answers_bind; [by apply text_without_secrets|apply answers_ret].
    - load_fields. }
  apply answers_bind with (a := DatabaseConfig_load env); [unfold get_database_config; load_fields|].
  apply answers_bind with (a := StorageConfig_load env); [unfold get_storage_config; load_fields|].
  apply answers_bind with (a := LoggingConfig_load env); [unfold get_logging_config; load_fields|].
  apply answers_bind with (a := FeatureFlags_load env); [unfold get_feature_flags; load_fields|].
  apply answers_bind with (a := loader_redis).
  { unfold get_redis_config. load_fields.
    apply answers_bind with
      (a := match env "REDIS_HOST" with
            | Some h => if str_is_empty h then None else rc_url (RedisConfig_load env redis_cache) | None => None end).
    - cbn [RedisConfig_load rc_url]. destruct (env "REDIS_HOST") as [h|]; [|done]. cbn [fmap option_fmap option_map].
      destruct (str_is_empty h); [done|]. cbn [negb]. load_fields.
    - load_fields. }
  eapply answers_bind; [|apply answers_ret]. unfold get_server_encode_key.
  destruct (env "SERVER_ENCODE_KEY" ≫= from_hex); [done|]. destruct (is_cloud _) eqn:Ec; [|done].
  destruct Hl as [?|Hl]; [congruence|]. destruct (get_secret_name env l) as [name|]; [|done].
  intros n. unfold rbind, get_from_secrets_manager_key_value. destruct (cl_secrets_client l); [|done].
  by destruct (Hl n name) as [e ->].
Qed.

End loaders.

(** ** The range of the numbers *)

Lemma parse_unsigned_range hi s v : parse_unsigned hi s = Some v → 0 ≤ v ≤ hi.
Proof.
  assert (H : ∀ s, digits_in 0 hi 1 s = Some v → 0 ≤ v ≤ hi).
  { intros t. unfold digits_in. destruct (str_is_empty t); [done|]. destruct (digits_value 0 t) as [x|]; [|done].
    case_match eqn:E; [|done]. intros [= <-]. simplify_bool. lia. }
  unfold parse_unsigned. repeat case_match; eauto.
Qed.

(** What the types of the source guarantee for a server's numbers. *)
Definition unsigned_config (c : ServerConfig) : Prop :=
  0 ≤ sv_port c ∧ 0 ≤ sv_worker_threads c ∧ 0 ≤ sv_max_concurrent_requests c ∧ 0 ≤ sv_max_file_size c.

Section range.
Context `{U : Unicode} (env : string → option string) (redis_cache : bool).
Context (secret_value : nat → string → result (option string) string)
        (create_secrets_client : result unit string)
        (from_json : string → option (string → option Value))
        (from_hex : string → option bytes).

(** Every value of a computation, whatever the secrets answer. *)
Definition always {A} (m : Requests A) (P : A → Prop) : Prop := ∀ n, P (m n).1.

Lemma always_ret {A} (a : A) (P : A → Prop) : P a → always (rret a) P.
Proof. by intros H n. Qed.

Lemma always_bind {A B} (m : Requests A) (k : A → Requests B) (Q : A → Prop) P :
  always m Q → (∀ a, Q a → always (k a) P) → always (rbind m k) P.
Proof. intros Hm Hk n. unfold rbind. specialize (Hm n). destruct (m n) as [a n1]. by apply Hk. Qed.

Lemma always_any {A} (m : Requests A) : always m (λ _, True).
Proof. by intros n. Qed.

Lemma config_parse_range hi l key d : 0 ≤ d →
  always (config_parse env secret_value from_json (parse_unsigned hi) l key d) (λ v, 0 ≤ v).
Proof.
  intros Hd. eapply always_bind; [apply always_any|]. intros [s|] _; apply always_ret; cbn; [|done].
  destruct (parse_unsigned hi s) eqn:E; cbn; [|done]. apply parse_unsigned_range in E. lia.
Qed.

Lemma file_size_nonneg s : 0 ≤ file_size_of_text s.
Proof.
  assert (Hu : ∀ u k l v, size_with_unit u k l = Some v → 0 ≤ v).
  { intros u k l v. unfold size_with_unit. destruct (parse_usize _); [|done]. intros [= <-]. apply wrap_u64_range. }
  unfold file_size_of_text. case_match eqn:E; [|].
  - repeat case_match; try done; eauto.
  - destruct (parse_usize s) eqn:Ep; cbn; [|lia]. apply parse_unsigned_range in Ep. lia.
Qed.

Lemma env_parse_range hi key d : 0 ≤ d → 0 ≤ env_parse env (parse_unsigned hi) key d.
Proof.
  intros Hd. unfold env_parse. destruct (env key) as [s|]; cbn; [|done].
  destruct (parse_unsigned hi s) eqn:E; cbn; [|done]. apply parse_unsigned_range in E. lia.
Qed.

Lemma server_config_unsigned l :
  always (get_server_config env secret_value from_json l) unsigned_config.
Proof.
  unfold get_server_config. eapply always_bind; [apply always_any|intros ? _].
  eapply always_bind; [by apply (config_parse_range u16_max)|intros ? ?].
  eapply always_bind; [apply always_any|intros ? _].
  eapply always_bind; [by apply (config_parse_range u64_max)|intros ? ?].
  eapply always_bind; [apply always_any|intros ? _].
  eapply always_bind with (Q := λ v, 0 ≤ v).
  { eapply always_bind; [apply always_any|intros ? _]. apply always_ret, file_size_nonneg. }
  intros ? ?. eapply always_bind; [by apply (config_parse_range u64_max)|intros ? ?].
  eapply always_bind; [apply always_any|intros ? _]. by apply always_ret.
Qed.

(** Whatever the environment and the secret say, the numbers are those of their
    types. *)
Lemma loaded_config_unsigned n :
  match load_async env redis_cache secret_value create_secrets_client from_json from_hex n with
  | Ok (c, _) => unsigned_config (cf_server c)
  | Err _ => True
  end.
Proof.
  unfold load_async. destruct (ConfigLoader_new _ _) as [l|e]; [|done].
  assert (H : always (load_config env redis_cache secret_value from_json from_hex l)
                (λ c, unsigned_config (cf_server c))).
  { unfold load_config. eapply always_bind; [apply server_config_unsigned|intros ? ?].
    repeat (eapply always_bind; [apply always_any|intros ? _]). by apply always_ret. }
  specialize (H n). by destruct (load_config _ _ _ _ _ _ _) as [c n'].
Qed.

Lemma environment_config_unsigned : unsigned_config (cf_server (Config_load env redis_cache)).
Proof. split_and!; by apply env_parse_range. Qed.

End range.

Definition empty_env : string → option string := λ _, None.

(** A server in production whose requests for the secret all time out. *)
Definition production : ConfigLoader := mkConfigLoader Production (Some tt).
Definition outage (n : nat) (name : string) : result (option string) string := Err "timeout".

Lemma secrets_outage_loads_environment_witness :
  (load_config (U := ascii_unicode) empty_env false outage (λ _, None) (λ _, None) production 0%nat).1
  = loader_config (U := ascii_unicode) empty_env false (λ _, None).
Proof.
  apply (secrets_outage_loads_environment (U := ascii_unicode) empty_env false outage (λ _, None) (λ _, None)
           production).
  right. intros n name. exists "timeout". reflexivity.
Defined.

Example production_outage_password :
  let c := (load_config (U := ascii_unicode) empty_env false outage (λ _, None) (λ _, None) production 0%nat).1 in
  (dbc_user (cf_database c), dbc_password (cf_database c), dbc_host (cf_database c), cf_server_encode_key c)
  = ("user", "password", "localhost", None).
Proof. vm_compute. reflexivity. Qed.

(** ** The address of the database *)

Lemma app_char_inj a s s' t t' :
  contains_char a s = false → contains_char a s' = false →
  s +:+ String a t = s' +:+ String a t' → s = s' ∧ t = t'.
Proof.
  revert s'. induction s as [|b s IH]; intros [|b' s'] Hs Hs' E; cbn in *; try (injection E as <- E; cbn in *).
  - by injection E as <-.
  - by rewrite bool_decide_eq_true_2 in Hs'.
  - by rewrite bool_decide_eq_true_2 in Hs.
  - apply orb_false_iff in Hs as [_ Hs], Hs' as [_ Hs']. by destruct (IH s' Hs Hs' E) as [-> ->].
Qed.

(** The parts of the address that are delimited by a character do not contain it. *)
Definition url_safe (c : DatabaseConfig) : Prop :=
  contains_char ":" (dbc_user c) = false ∧ contains_char "@" (dbc_password c) = false
  ∧ contains_char ":" (dbc_host c) = false ∧ 0 ≤ dbc_port c ∧ contains_char "?" (dbc_name c) = false.

Lemma digits_no_slash s : all_digits s → contains_char "/" s = false.
Proof.
  unfold all_digits. induction s as [|a s IH]; [done|]. cbn [str_all contains_char]. intros [Ha Hs]%andb_true_iff.
  rewrite (IH Hs), orb_false_r. apply bool_decide_eq_false_2. by intros ->.
Qed.

(** Between addresses of such parts the address determines the parts. *)
Theorem database_url_injective c c' :
  url_safe c → url_safe c' → dbc_ssl_mode c = None → dbc_ssl_ca_path c = None →
  dbc_ssl_mode c' = None → dbc_ssl_ca_path c' = None →
  DatabaseConfig_url c = DatabaseConfig_url c' →
  dbc_user c = dbc_user c' ∧ dbc_password c = dbc_password c' ∧ dbc_host c = dbc_host c'
  ∧ dbc_port c = dbc_port c' ∧ dbc_name c = dbc_name c'.
Proof.
  intros (Hu & Hp & Hh & Ho & _) (Hu' & Hp' & Hh' & Ho' & _) S1 S2 S1' S2'.
  unfold DatabaseConfig_url. rewrite S1, S2, S1', S2'. cbn [app]. intros E. apply app_str_inv_l in E.
  cbn [String.append] in E. apply app_char_inj in E as [-> E]; [|done..].
  apply app_char_inj in E as [-> E]; [|done..]. apply app_char_inj in E as [-> E]; [|done..].
  apply app_char_inj in E as [E ->]; [|by apply digits_no_slash, all_digits_pretty..].
  by apply (inj pretty) in E as ->.
Qed.

(** A password with an [@] is taken for the end of the credentials: the address is
    that of another host. *)
Example password_names_host :
  DatabaseConfig_url (mkDatabaseConfig "u" "p@evil:1/x" "db" "localhost" 3306 5 30 false None None)
  = DatabaseConfig_url (mkDatabaseConfig "u" "p" "x@localhost:3306/db" "evil" 1 5 30 false None None).
Proof. reflexivity. Qed.
