(* ===== verification/FileStore.v ===== *)
(** * Storage of file contents (src/storage/file_storage.rs)

    The two implementations of the trait [FileStorage]: rows of the table
    [file_data], and objects of an S3 bucket.  The S3 storage makes its client and
    checks its bucket once, in cells that are filled by the first call that needs
    them.  The service itself is the class [S3Api]; every request of the SDK
    answers a value or an [SdkError]. *)

From S2P Require Import Prelude RustString Errors Models Memory Crypto Effects FileService MySql Config.

(** ** The trait *)

(** Requests and answers of the trait [FileStorage]. *)
Inductive FsOp :=
| OpStore (file_id : Z) (data : bytes)
| OpStoreWithOptions (file_id : Z) (data : bytes) (compress : bool)
| OpGet (file_id : Z)
| OpDelete (file_id : Z)
| OpBatchDelete (file_ids : list Z)
| OpExists (file_id : Z)
| OpSize (file_id : Z)
| OpHealth.

Inductive FsAnswer :=
| AStored (r : Res string)
| AGot (r : Res (option bytes))
| ADeleted (r : Res unit)
| ABatchDeleted (r : Res (list (Z * bool)))
| AExists (r : Res bool)
| ASize (r : Res (option Z))
| AHealth (r : Res unit).

(** The trait, over a state that its calls may change. *)
Class ContentStore (St : Type) := {
  c_store_file_data : Z → bytes → M St string;
  c_store_file_data_with_options : Z → bytes → bool → M St string;
  c_get_file_data : Z → M St (option bytes);
  c_delete_file_data : Z → M St unit;
  c_batch_delete_file_data : list Z → M St (list (Z * bool));
  c_file_data_exists : Z → M St bool;
  c_get_file_size : Z → M St (option Z);
  c_health_check : M St unit
}.

(** A request and its answer; [None] is a panic. *)
Definition answer {St A} (tag : Res A → FsAnswer) (m : M St A) : St → option FsAnswer * St := λ st,
  match m st with
  | (Returned r, st') => (Some (tag r), st')
  | (Panicked, st') => (None, st')
  end.

Definition fs_call `{ContentStore St} (op : FsOp) : St → option FsAnswer * St :=
  match op with
  | OpStore i data => answer AStored (c_store_file_data i data)
  | OpStoreWithOptions i data compress => answer AStored (c_store_file_data_with_options i data compress)
  | OpGet i => answer AGot (c_get_file_data i)
  | OpDelete i => answer ADeleted (c_delete_file_data i)
  | OpBatchDelete ids => answer ABatchDeleted (c_batch_delete_file_data ids)
  | OpExists i => answer AExists (c_file_data_exists i)
  | OpSize i => answer ASize (c_get_file_size i)
  | OpHealth => answer AHealth c_health_check
  end.

Fixpoint fs_calls `{ContentStore St} (ops : list FsOp) (st : St) : list (option FsAnswer) * St :=
  match ops with
  | [] => ([], st)
  | op :: ops =>
      let '(a, st1) := fs_call op st in
      let '(l, st2) := fs_calls ops st1 in (a :: l, st2)
  end.

(** The loop of [batch_delete_file_data], the same in both implementations. *)
Fixpoint batch_delete_loop {St} (delete_file_data : Z → M St unit) (file_ids : list Z)
    : M St (list (Z * bool)) :=
  match file_ids with
  | [] => ret []
  | file_id :: file_ids =>
      mtry (delete_file_data file_id) (λ r,
        results ←? batch_delete_loop delete_file_data file_ids;
        ret ((file_id, match r with Ok _ => true | Err _ => false end) :: results))
  end.

(** ** In the database *)

Section database.
Context (fault : nat → option string) (now : DateTime).

Definition db_store_file_data (file_id : Z) (data : bytes) : M Conn string :=
  _ ←? my_store_file_data fault file_id data now;
  ret ("db:" +:+ pretty file_id).

Definition db_store_file_data_with_options (file_id : Z) (data : bytes) (compress : bool) : M Conn string :=
  db_store_file_data file_id data.

Definition db_get_file_data (file_id : Z) : M Conn (option bytes) := my_get_file_data fault file_id.

Definition db_delete_file_data (file_id : Z) : M Conn unit := ret tt.

Definition db_batch_delete_file_data (file_ids : list Z) : M Conn (list (Z * bool)) :=
  batch_delete_loop db_delete_file_data file_ids.

Definition db_file_data_exists (file_id : Z) : M Conn bool :=
  data ←? my_get_file_data fault file_id;
  match data with Some _ => ret true | None => ret false end.

Definition db_get_file_size (file_id : Z) : M Conn (option Z) :=
  data ←? my_get_file_data fault file_id;
  match data with Some data => ret (Some (Z.of_nat (length data))) | None => ret None end.

Definition db_health_check : M Conn unit :=
  mtry (my_get_file_data fault 0) (λ r,
    match r with
    | Ok _ => ret tt
    | Err (NotFound _) => ret tt
    | Err e => throw e
    end).

Definition database_content_store : ContentStore Conn := {|
  c_store_file_data := db_store_file_data;
  c_store_file_data_with_options := db_store_file_data_with_options;
  c_get_file_data := db_get_file_data;
  c_delete_file_data := db_delete_file_data;
  c_batch_delete_file_data := db_batch_delete_file_data;
  c_file_data_exists := db_file_data_exists;
  c_get_file_size := db_get_file_size;
  c_health_check := db_health_check
|}.

End database.

(** ** In S3 *)

(** What the client is built from; without credentials of its own it looks them up
    the way the SDK does. *)
Record S3Client := mkS3Client {
  sc_region : string;
  sc_credentials : option (string * string * option string);
  sc_endpoint_url : option string;
  sc_force_path_style : bool
}.

(** The errors of the SDK: the modelled variant of a service error, if it is one,
    and the text of [Display]. *)
Inductive ServiceErr := ErrNotFound | NoSuchKey | BucketAlreadyExists | BucketAlreadyOwnedByYou | OtherServiceErr.
Record SdkError := mkSdkError { sdk_service : option ServiceErr; sdk_text : string }.

(** The S3 service behind the SDK, with a state [B] of its own. *)
Class S3Api (B : Type) := {
  head_bucket : S3Client → string → B → result unit SdkError * B;
  create_bucket_with : S3Client → string → option string → B → result unit SdkError * B;
  put_object : S3Client → string → string → bytes → B → result unit SdkError * B;
  get_object : S3Client → string → string → B → result (result bytes string) SdkError * B;
  delete_object : S3Client → string → string → B → result unit SdkError * B;
  head_object : S3Client → string → string → B → result (option Z) SdkError * B;
  list_objects_v2 : S3Client → string → Z → B → result unit SdkError * B
}.

(** [S3FileStorage], with the contents of its cells. *)
Record S3FileStorage := mkS3FileStorage {
  s3_config : S3Config;
  s3_client : option (Res S3Client);
  s3_bucket_ready : option (Res unit)
}.

Definition S3FileStorage_new (config : S3Config) : S3FileStorage := mkS3FileStorage config None None.

(** The storage and the service it talks to. *)
Record S3World (B : Type) := mkS3World { w_s3 : S3FileStorage; w_remote : B }.
Arguments mkS3World {B}.
Arguments w_s3 {B}.
Arguments w_remote {B}.

Definition create_s3_client (config : S3Config) : Res S3Client :=
  Ok (mkS3Client (s3c_region config)
        (match s3c_access_key_id config, s3c_secret_access_key config with
         | Some access_key_id, Some secret_access_key =>
             Some (access_key_id, secret_access_key, s3c_session_token config)
         | _, _ => None
         end)
        (s3c_endpoint_url config) (s3c_force_path_style config)).

Definition is_minio (config : S3Config) : bool :=
  match s3c_endpoint_url config with
  | Some url => str_contains "minio" url || str_contains "localhost" url || str_contains "127.0.0.1" url
  | None => false
  end.

Definition generate_s3_key (config : S3Config) (file_id : Z) : string :=
  s3c_key_prefix config +:+ pretty file_id.

Definition s3_err {A} (what : string) (text : string) : Res A := Err (S3Error (what +:+ text)).

Section s3.
Context {B : Type} `{S3Api B}.
Implicit Types (w : S3World B).

(** A request on the wire. *)
Definition send {A} (request : B → result A SdkError * B) : M (S3World B) (result A SdkError) := λ w,
  let '(r, b) := request (w_remote w) in (Returned (Ok r), mkS3World (w_s3 w) b).

Definition the_config : M (S3World B) S3Config := λ w, (Returned (Ok (s3_config (w_s3 w))), w).

(** [client.get_or_init(..)]. *)
Definition get_client : M (S3World B) S3Client := λ w,
  let s := w_s3 w in
  let cell := match s3_client s with Some r => r | None => create_s3_client (s3_config s) end in
  (Returned (match cell with
             | Ok client => Ok client
             | Err e => s3_err "Failed to initialize S3 client: " (StorageError_fmt e)
             end),
   mkS3World (mkS3FileStorage (s3_config s) (Some cell) (s3_bucket_ready s)) (w_remote w)).

Definition create_bucket : M (S3World B) unit :=
  config ←? the_config;
  client ←? get_client;
  r ←? send (create_bucket_with client (s3c_bucket config)
               (if negb (s3c_region config == "us-east-1") && negb (is_minio config)
                then Some (s3c_region config) else None));
  match r with
  | Ok _ => ret tt
  | Err e =>
      match sdk_service e with
      | Some BucketAlreadyExists => throw (S3Error ("Bucket already exists: " +:+ s3c_bucket config))
      | Some BucketAlreadyOwnedByYou => ret tt
      | _ => throw (S3Error ("Failed to create bucket: " +:+ sdk_text e))
      end
  end.

Definition ensure_bucket_exists : M (S3World B) unit :=
  config ←? the_config;
  client ←? get_client;
  r ←? send (head_bucket client (s3c_bucket config));
  match r with
  | Ok _ => ret tt
  | Err e =>
      match sdk_service e with
      | Some ErrNotFound => create_bucket
      | _ => throw (S3Error ("Failed to check bucket existence: " +:+ sdk_text e))
      end
  end.

(** [bucket_ready.get_or_init(..)]: the first outcome is kept, an error as well. *)
Definition ensure_bucket_exists_once : M (S3World B) unit := λ w,
  let '(o, w1) := match s3_bucket_ready (w_s3 w) with
                  | Some r => (Returned r, w)
                  | None => ensure_bucket_exists w
                  end in
  match o with
  | Panicked => (Panicked, w1)
  | Returned r =>
      (Returned (match r with
                 | Ok _ => Ok tt
                 | Err e => s3_err "Bucket ensure failed: " (StorageError_fmt e)
                 end),
       mkS3World (mkS3FileStorage (s3_config (w_s3 w1)) (s3_client (w_s3 w1)) (Some r)) (w_remote w1))
  end.

Definition upload_to_s3 (s3_key : string) (stream : bytes) : M (S3World B) string :=
  config ←? the_config;
  _ ←? ensure_bucket_exists_once;
  client ←? get_client;
  r ←? send (put_object client (s3c_bucket config) s3_key stream);
  match r with
  | Ok _ => ret ("s3:" +:+ s3_key)
  | Err e => throw (S3Error ("Failed to store file in S3: " +:+ sdk_text e))
  end.

(** The test for a missing bucket. *)
Definition says_no_bucket (e : StorageError) : bool :=
  match e with
  | S3Error msg => str_contains "NoSuchBucket" msg || str_contains "BucketNotFound" msg
  | _ => false
  end.

Definition s3_store_file_data (file_id : Z) (data : bytes) : M (S3World B) string :=
  config ←? the_config;
  let s3_key := generate_s3_key config file_id in
  mtry (upload_to_s3 s3_key data) (λ r,
    match r with
    | Ok result => ret result
    | Err e =>
        if says_no_bucket e then
          mtry create_bucket (λ created,
            match created with
            | Err create_err => throw create_err
            | Ok _ => upload_to_s3 s3_key data
            end)
        else throw e
    end).

Definition s3_get_file_data (file_id : Z) : M (S3World B) (option bytes) :=
  config ←? the_config;
  client ←? get_client;
  r ←? send (get_object client (s3c_bucket config) (generate_s3_key config file_id));
  match r with
  | Ok (Ok data) => ret (Some data)
  | Ok (Err e) => throw (S3Error ("Failed to read response: " +:+ e))
  | Err e =>
      match sdk_service e with
      | Some NoSuchKey => ret None
      | _ => throw (S3Error ("Failed to download file: " +:+ sdk_text e))
      end
  end.

(** The outcome of the request is only logged. *)
Definition s3_delete_file_data (file_id : Z) : M (S3World B) unit :=
  config ←? the_config;
  client ←? get_client;
  r ←? send (delete_object client (s3c_bucket config) (generate_s3_key config file_id));
  match r with Ok _ => ret tt | Err _ => ret tt end.

Definition s3_file_data_exists (file_id : Z) : M (S3World B) bool :=
  config ←? the_config;
  client ←? get_client;
  r ←? send (head_object client (s3c_bucket config) (generate_s3_key config file_id));
  match r with
  | Ok _ => ret true
  | Err e =>
      match sdk_service e with
      | Some ErrNotFound => ret false
      | _ => throw (S3Error ("Failed to check file existence: " +:+ sdk_text e))
      end
  end.

(** [content_length] is an [i64]. *)
Definition s3_get_file_size (file_id : Z) : M (S3World B) (option Z) :=
  config ←? the_config;
  client ←? get_client;
  r ←? send (head_object client (s3c_bucket config) (generate_s3_key config file_id));
  match r with
  | Ok content_length => ret (Some (wrap_u64 (default 0 content_length)))
  | Err e =>
      match sdk_service e with
      | Some ErrNotFound => ret None
      | _ => throw (S3Error ("Failed to get file size: " +:+ sdk_text e))
      end
  end.

Definition s3_health_check : M (S3World B) unit :=
  config ←? the_config;
  client ←? get_client;
  r ←? send (head_bucket client (s3c_bucket config));
  match r with
  | Err e => throw (S3Error ("Bucket health check failed: " +:+ sdk_text e))
  | Ok _ =>
      client ←? get_client;
      r ←? send (list_objects_v2 client (s3c_bucket config) 1);
      match r with
      | Ok _ => ret tt
      | Err e => throw (S3Error ("Health check failed: " +:+ sdk_text e))
      end
  end.

Definition s3_store_file_data_with_options (file_id : Z) (data : bytes) (compress : bool)
    : M (S3World B) string := s3_store_file_data file_id data.

Definition s3_batch_delete_file_data (file_ids : list Z) : M (S3World B) (list (Z * bool)) :=
  batch_delete_loop s3_delete_file_data file_ids.

#[global] Instance s3_content_store : ContentStore (S3World B) := {|
  c_store_file_data := s3_store_file_data;
  c_store_file_data_with_options := s3_store_file_data_with_options;
  c_get_file_data := s3_get_file_data;
  c_delete_file_data := s3_delete_file_data;
  c_batch_delete_file_data := s3_batch_delete_file_data;
  c_file_data_exists := s3_file_data_exists;
  c_get_file_size := s3_get_file_size;
  c_health_check := s3_health_check
|}.

End s3.
