(* ===== verification/FileStoreProps.v ===== *)
(** * Properties of the contents storages

    One specification, [fs_allowed], says which answers a storage may give and
    what they tell about the contents it holds; the class [ContentLaws] promises
    it to a client.  The database and S3 both satisfy it, whatever fails. *)

From S2P Require Import Prelude RustString Errors Models Memory Crypto Effects FileService MySql MySqlProps.
From S2P Require Import Config FileStore.

(** ** The specification *)

Abbreviation contents := (Z → option bytes).

Definition same_contents (m m' : contents) : Prop := ∀ j, m' j = m j.
Definition set_content (i : Z) (v : option bytes) (m : contents) : contents :=
  λ j, if decide (j = i) then v else m j.

(** A write that was lost or not. *)
Definition maybe_set (i : Z) (v : option bytes) (m m' : contents) : Prop :=
  same_contents m m' ∨ same_contents (set_content i v m) m'.

Definition fs_allowed (location : Z → string) (m : contents) (op : FsOp) (a : FsAnswer) (m' : contents) : Prop :=
  match op, a with
  | (OpStore i data | OpStoreWithOptions i data _), AStored r =>
      match r with
      | Ok l => l = location i ∧ same_contents (set_content i (Some data) m) m'
      | Err _ => maybe_set i (Some data) m m'
      end
  | OpGet i, AGot r => same_contents m m' ∧ ∀ v, r = Ok v → v = m i
  | OpDelete i, ADeleted r => r = Ok tt ∧ maybe_set i None m m'
  | OpBatchDelete ids, ABatchDeleted r =>
      r = Ok (map (λ i, (i, true)) ids) ∧ ∀ j, m' j = m j ∨ (j ∈ ids ∧ m' j = None)
  | OpExists i, AExists r => same_contents m m' ∧ ∀ b, r = Ok b → (b = true ↔ is_Some (m i))
  | OpSize i, ASize r =>
      same_contents m m' ∧ ∀ v, r = Ok v → v = (λ data : bytes, Z.of_nat (length data)) <$> m i
  | OpHealth, AHealth _ => same_contents m m'
  | _, _ => False
  end.

(** The files a request names. *)
Definition op_ids (op : FsOp) : list Z :=
  match op with
  | OpStore i _ | OpStoreWithOptions i _ _ | OpGet i | OpDelete i | OpExists i | OpSize i => [i]
  | OpBatchDelete ids => ids
  | OpHealth => []
  end.

(** Sequences of requests. *)
Inductive fs_run (location : Z → string) : contents → list FsOp → list (option FsAnswer) → contents → Prop :=
| fs_run_nil m : fs_run location m [] [] m
| fs_run_cons m op ops a l m1 m2 :
    fs_allowed location m op a m1 → fs_run location m1 ops l m2 →
    fs_run location m (op :: ops) (Some a :: l) m2.

Class ContentLaws (St : Type) `{ContentStore St} := {
  c_contents : St → contents;
  c_location : St → Z → string;
  c_valid : Z → Prop;
  c_inv : St → Prop;
  law_call : ∀ op st, c_inv st → Forall c_valid (op_ids op) →
    ∃ a st', fs_call op st = (Some a, st')
      ∧ fs_allowed (c_location st) (c_contents st) op a (c_contents st')
      ∧ c_inv st' ∧ c_location st' = c_location st
}.

Section client.
Context `{CL : ContentLaws St}.

Lemma calls_refine ops st :
  c_inv st → Forall (λ op, Forall c_valid (op_ids op)) ops →
  ∃ l st', fs_calls ops st = (l, st') ∧ fs_run (c_location st) (c_contents st) ops l (c_contents st')
    ∧ c_inv st' ∧ c_location st' = c_location st.
Proof.
  revert st. induction ops as [|op ops IH]; intros st Hi Hv; cbn [fs_calls].
  { exists [], st. split; [done|]. split; [constructor|done]. }
  apply Forall_cons in Hv as [Hop Hops].
  destruct (law_call op st Hi Hop) as (a & st1 & -> & Ha & Hi1 & Hl).
  destruct (IH st1 Hi1 Hops) as (l & st' & -> & Hrun & Hi' & Hl').
  exists (Some a :: l), st'. split_and!; [done| |done|congruence]. rewrite Hl in Hrun. by econstructor.
Qed.

End client.

(** A file that the requests do not name keeps its contents. *)
Lemma set_content_other i j v m : i ≠ j → set_content j v m i = m i.
Proof. intros. unfold set_content. by rewrite decide_False. Qed.

Lemma maybe_set_other i j v m m' : i ≠ j → maybe_set j v m m' → m' i = m i.
Proof. intros Hij [E|E]; rewrite E; [done|]. by apply set_content_other. Qed.

Lemma fs_allowed_other location m op a m' i :
  fs_allowed location m op a m' → i ∉ op_ids op → m' i = m i.
Proof.
  destruct op, a; cbn; try done; intros Ha Hn; try (rewrite list_elem_of_singleton in Hn).
  1,2: destruct r as [l|e]; [destruct Ha as [-> Ha]; rewrite Ha; by apply set_content_other
                            |by eapply maybe_set_other].
  - by destruct Ha as [-> _].
  - destruct Ha as [_ Ha]. by eapply maybe_set_other.
  - destruct Ha as [_ Ha]. by destruct (Ha i) as [|[]].
  - by destruct Ha as [-> _].
  - by destruct Ha as [-> _].
Qed.

Lemma fs_run_cons_inv location m op ops l m' :
  fs_run location m (op :: ops) l m' →
  ∃ a l' m1, l = Some a :: l' ∧ fs_allowed location m op a m1 ∧ fs_run location m1 ops l' m'.
Proof. inversion 1; subst. eauto 10. Qed.

Lemma fs_run_app location m ops1 ops2 l m' :
  fs_run location m (ops1 ++ ops2)%list l m' →
  ∃ l1 l2 m1, l = (l1 ++ l2)%list ∧ fs_run location m ops1 l1 m1 ∧ fs_run location m1 ops2 l2 m'.
Proof.
  revert m l. induction ops1 as [|op ops1 IH]; intros m l Hr.
  { exists [], l, m. split_and!; [done|constructor|done]. }
  inversion Hr as [|? ? ? a l0 m1 ? Ha Hr1]; subst. destruct (IH _ _ Hr1) as (l1 & l2 & m3 & -> & ? & ?).
  eexists (_ :: l1)%list, l2, m3. split_and!; [done|by econstructor|done].
Qed.

Lemma fs_run_other location m ops l m' i :
  fs_run location m ops l m' → Forall (λ op, i ∉ op_ids op) ops → m' i = m i.
Proof.
  induction 1 as [|m op ops a l m1 m2 Ha _ IH]; [done|]. intros [Hop Hops]%Forall_cons.
  rewrite IH by done. by eapply fs_allowed_other.
Qed.

(** A confirmed store, requests on other files, and a read. *)
Lemma confirmed_store_kept `{CL : ContentLaws St} st i data ops l loc r :
  c_inv st → Forall (λ op, Forall c_valid (op_ids op)) (OpStore i data :: ops) →
  Forall (λ op, i ∉ op_ids op) ops →
  (fs_calls (OpStore i data :: ops ++ [OpGet i]) st).1 = (Some (AStored (Ok loc)) :: l ++ [Some (AGot r)])%list →
  loc = c_location st i ∧ ∀ v, r = Ok v → v = Some data.
Proof.
  intros Hi Hv Ho. destruct (calls_refine (OpStore i data :: ops ++ [OpGet i]) st) as (l' & st' & E & Hr & _).
  { done. }
  { rewrite Forall_cons, Forall_app. apply Forall_cons in Hv as [Hv Hvs]. split_and!; try done. by constructor. }
  rewrite E. cbn [fst]. intros ->. apply fs_run_cons_inv in Hr as (? & ? & m1 & [= <- <-] & [-> Ha] & Hr1).
  split; [done|]. apply fs_run_app in Hr1 as (l1 & l2 & m2 & El & Hr1 & Hr2).
  apply fs_run_cons_inv in Hr2 as (a2 & l3 & m3 & -> & Ha2 & Hr3). inversion Hr3; subst.
  apply app_inj_tail in El as [-> [= <-]]. destruct Ha2 as [_ Ha2]. intros v Hv'.
  rewrite (Ha2 v Hv'), (fs_run_other _ _ _ _ _ _ Hr1 Ho), Ha. unfold set_content. by rewrite decide_True.
Qed.

(** ** S3 *)

(** What S3 documents of its requests, for one bucket and key at a time: reads
    and the requests on buckets leave the objects alone, a confirmed write is
    applied, one that was not confirmed may be. *)
Section laws.
Context {B : Type} (object : B → string → string → option bytes).

Definition same_objects (s s' : B) : Prop := ∀ b k, object s' b k = object s b k.
Definition object_set (bucket key : string) (v : option bytes) (s s' : B) : Prop :=
  object s' bucket key = v ∧ ∀ b k, (b, k) ≠ (bucket, key) → object s' b k = object s b k.

(** The outcome [ok] of a write of [v]. *)
Definition object_written (ok : bool) (bucket key : string) (v : option bytes) (s s' : B) : Prop :=
  object_set bucket key v s s' ∨ ok = false ∧ same_objects s s'.

End laws.

(** The bucket of a storage. *)
Abbreviation bucket_of w := (s3c_bucket (s3_config (w_s3 w))).

Class S3Laws (B : Type) `{S3Api B} := {
  s3_object : B → string → string → option bytes;
  law_head_bucket : ∀ c b s r s', head_bucket c b s = (r, s') → same_objects s3_object s s';
  law_create_bucket : ∀ c b constraint s r s', create_bucket_with c b constraint s = (r, s') →
    same_objects s3_object s s';
  law_list_objects : ∀ c b n s r s', list_objects_v2 c b n s = (r, s') → same_objects s3_object s s';
  law_put_object : ∀ c b k data s r s', put_object c b k data s = (r, s') →
    object_written s3_object (is_ok r) b k (Some data) s s';
  law_delete_object : ∀ c b k s r s', delete_object c b k s = (r, s') →
    object_written s3_object (is_ok r) b k None s s';
  law_get_object : ∀ c b k s r s', get_object c b k s = (r, s') →
    same_objects s3_object s s'
    ∧ match r with
      | Ok (Ok data) => s3_object s b k = Some data
      | Ok (Err _) => True
      | Err e => sdk_service e = Some NoSuchKey → s3_object s b k = None
      end;
  law_head_object : ∀ c b k s r s', head_object c b k s = (r, s') →
    same_objects s3_object s s'
    ∧ match r with
      | Ok len => ∃ data, s3_object s b k = Some data ∧ len = Some (Z.of_nat (length data))
                          ∧ Z.of_nat (length data) ≤ i64_max
      | Err e => sdk_service e = Some ErrNotFound → s3_object s b k = None
      end
}.

Lemma generate_s3_key_inj config i j : generate_s3_key config i = generate_s3_key config j → i = j.
Proof. unfold generate_s3_key. intros E%app_str_inv_l. by apply (inj pretty) in E. Qed.

Section s3.
Context `{SL : S3Laws B}.
Implicit Types (w : S3World B).

(** The cell of the client, when it is filled, holds a client. *)
Definition client_cell_ok (s : S3FileStorage) : Prop :=
  s3_client s = None ∨ s3_client s = Some (create_s3_client (s3_config s)).

Definition s3_contents w : contents := λ i,
  s3_object (w_remote w) (s3c_bucket (s3_config (w_s3 w))) (generate_s3_key (s3_config (w_s3 w)) i).

Definition s3_location w (i : Z) : string := "s3:" +:+ generate_s3_key (s3_config (w_s3 w)) i.

(** Steps that keep the configuration and the client cell in order. *)
Definition keeps w w' : Prop :=
  client_cell_ok (w_s3 w') ∧ s3_config (w_s3 w') = s3_config (w_s3 w).
Definition quiet w w' : Prop := keeps w w' ∧ same_objects s3_object (w_remote w) (w_remote w').

Lemma quiet_refl w : client_cell_ok (w_s3 w) → quiet w w.
Proof. intros. by repeat split. Qed.

Lemma quiet_trans w1 w2 w3 : quiet w1 w2 → quiet w2 w3 → quiet w1 w3.
Proof.
  intros [[_ C1] O1] [[I2 C2] O2]. split; [split; [done|by rewrite C2]|].
  intros b k. by rewrite O2.
Qed.

Lemma quiet_contents w w' : quiet w w' → same_contents (s3_contents w) (s3_contents w').
Proof. intros [[_ C] O] i. unfold s3_contents. by rewrite O, C. Qed.

(** The steps of an operation. *)
Definition the_client w : S3Client :=
  match create_s3_client (s3_config (w_s3 w)) with Ok c => c | Err _ => mkS3Client "" None None false end.

Lemma then_config {A} (k : S3Config → M (S3World B) A) w : mthen the_config k w = k (s3_config (w_s3 w)) w.
Proof. done. Qed.

(** A request made with the client. *)
Lemma then_request {A C} (req : S3Client → B → result A SdkError * B)
    (k : result A SdkError → M (S3World B) C) w :
  client_cell_ok (w_s3 w) →
  ∃ r w', mthen get_client (λ client, mthen (send (req client)) k) w = k r w'
    ∧ req (the_client w) (w_remote w) = (r, w_remote w') ∧ keeps w w'
    ∧ s3_bucket_ready (w_s3 w') = s3_bucket_ready (w_s3 w).
Proof.
  intros Hc. destruct (req (the_client w) (w_remote w)) as [r b] eqn:E.
  exists r, (mkS3World (mkS3FileStorage (s3_config (w_s3 w)) (Some (create_s3_client (s3_config (w_s3 w))))
                     (s3_bucket_ready (w_s3 w))) b).
  unfold the_client in E. unfold mthen, get_client, send.
  destruct Hc as [-> | ->]; cbn in *; rewrite E; (split; [done|]); (split; [done|]); (split; [|done]);
    (split; [by right|done]).
Qed.

End s3.

Ltac request := rewrite ?then_config;
  lazymatch goal with
  | Hc : client_cell_ok (w_s3 ?w) |- context [mthen get_client (λ c, mthen (send (@?req c)) ?k) ?w] =>
      let r := fresh "r" in let w' := fresh "w" in let E := fresh "E" in let Hq := fresh "Hq" in
      let K := fresh "K" in let Hr := fresh "Hr" in
      destruct (then_request req k w Hc) as (r & w' & E & Hq & K & Hr); rewrite E; clear E
  end.

Section s3_operations.
Context `{SL : S3Laws B}.
Implicit Types (w : S3World B).

(** Both cells keep their contents, the objects stay. *)
Definition returns_quietly {A} (m : M (S3World B) A) w : Prop :=
  ∃ r w', m w = (Returned r, w') ∧ quiet w w' ∧ s3_bucket_ready (w_s3 w') = s3_bucket_ready (w_s3 w).

Lemma create_bucket_quiet w : client_cell_ok (w_s3 w) → returns_quietly create_bucket w.
Proof.
  intros Hc. unfold returns_quietly, create_bucket. request.
  assert (Q : quiet w w0) by (split; [done|by apply law_create_bucket in Hq]).
  destruct r as [[]|e]; [by eexists _, w0|]. by destruct (sdk_service e) as [[]|]; eexists _, w0.
Qed.

Lemma ensure_bucket_exists_quiet w : client_cell_ok (w_s3 w) → returns_quietly ensure_bucket_exists w.
Proof.
  intros Hc. unfold returns_quietly, ensure_bucket_exists. request.
  assert (Q : quiet w w0) by (split; [done|by apply law_head_bucket in Hq]).
  destruct r as [[]|e]; [by eexists _, w0|]. destruct (sdk_service e) as [[]|]; try by eexists _, w0.
  destruct (create_bucket_quiet w0) as (r & w' & -> & Q' & Hr'); [apply K|].
  exists r, w'. split_and!; [done|by eapply quiet_trans|congruence].
Qed.

Lemma ensure_once_quiet w : client_cell_ok (w_s3 w) →
  ∃ r w', ensure_bucket_exists_once w = (Returned r, w') ∧ quiet w w'.
Proof.
  intros Hc. unfold ensure_bucket_exists_once. destruct (s3_bucket_ready (w_s3 w)) as [r|].
  { eexists _, _. split; [done|]. by repeat split. }
  destruct (ensure_bucket_exists_quiet w Hc) as (r & w' & -> & [[Hc' Hf] Ho] & _).
  eexists _, _. split; [done|]. by repeat split.
Qed.

Lemma upload_spec key data w : client_cell_ok (w_s3 w) →
  ∃ r w', upload_to_s3 key data w = (Returned r, w') ∧ keeps w w'
    ∧ object_written s3_object (is_ok r) (bucket_of w) key (Some data) (w_remote w) (w_remote w')
    ∧ ∀ l, r = Ok l → l = "s3:" +:+ key.
Proof.
  intros Hc. unfold upload_to_s3. rewrite then_config. unfold mthen at 1.
  destruct (ensure_once_quiet w Hc) as ([u|e] & w1 & -> & Q).
  - destruct Q as [[Hc1 Hf1] Ho1]. request. apply law_put_object in Hq.
    assert (Hw : object_written s3_object (is_ok r) (bucket_of w) key (Some data) (w_remote w) (w_remote w0)).
    { destruct Hq as [[Hq1 Hq2]|[Hq1 Hq2]]; [left|right]; (split; [done|]); intros b k; [intros Hne|];
        by rewrite Hq2. }
    assert (Hk : keeps w w0) by (split; [apply K|]; destruct K as [_ ->]; done).
    destruct r as [[]|e]; eexists _, w0; (split; [done|]); (split; [done|]); (split; [done|]); congruence.
  - exists (Err e), w1. destruct Q as [Hk Ho]. split_and!; [done|done|by right|done].
Qed.

Lemma object_written_again ok bucket key v s1 s2 s3 :
  object_written s3_object false bucket key v s1 s2 → object_written s3_object ok bucket key v s2 s3 →
  object_written s3_object ok bucket key v s1 s3.
Proof.
  intros [[E1 O1]|[_ O1]] [[E2 O2]|[-> O2]].
  - left. split; [done|]. intros b k Hne. by rewrite O2, O1.
  - left. split; [by rewrite O2|]. intros b k Hne. by rewrite O2, O1.
  - left. split; [done|]. intros b k Hne. by rewrite O2.
  - right. split; [done|]. intros b k. by rewrite O2.
Qed.

Lemma store_spec i data w : client_cell_ok (w_s3 w) →
  ∃ r w', s3_store_file_data i data w = (Returned r, w') ∧ keeps w w'
    ∧ object_written s3_object (is_ok r) (bucket_of w) (generate_s3_key (s3_config (w_s3 w)) i) (Some data)
        (w_remote w) (w_remote w')
    ∧ ∀ l, r = Ok l → l = s3_location w i.
Proof.
  intros Hc. unfold s3_store_file_data. rewrite then_config. cbn zeta.
  set (key := generate_s3_key _ i). unfold mtry at 1.
  destruct (upload_spec key data w Hc) as ([l|e] & w1 & -> & K1 & Ho1 & Hl1).
  { exists (Ok l), w1. split_and!; done. }
  destruct (says_no_bucket e); [|by exists (Err e), w1].
  unfold mtry. destruct K1 as [Hc1 Hf1].
  destruct (create_bucket_quiet w1 Hc1) as ([u|e'] & w2 & -> & [[Hc2 Hf2] Ho2] & _).
  - destruct (upload_spec key data w2 Hc2) as (r & w3 & -> & [Hc3 Hf3] & Ho3 & Hl3).
    exists r, w3. split; [done|]. split; [split; congruence|]. split; [|done].
    rewrite Hf2, Hf1 in Ho3. eapply object_written_again; [exact Ho1|].
    eapply object_written_again; [by right|]. done.
  - exists (Err e'), w2. split; [done|]. split; [split; congruence|]. split; [|done].
    eapply object_written_again; [exact Ho1|]. by right.
Qed.

(** From the objects to the contents. *)
Lemma set_contents i v w w' :
  keeps w w' →
  object_set s3_object (bucket_of w) (generate_s3_key (s3_config (w_s3 w)) i) v (w_remote w) (w_remote w') →
  same_contents (set_content i v (s3_contents w)) (s3_contents w').
Proof.
  intros [_ Hf] [E O] j. unfold s3_contents, set_content. rewrite Hf.
  destruct (decide (j = i)) as [->|Hj]; [done|]. apply O. intros [= Ek]. by apply generate_s3_key_inj in Ek.
Qed.

Lemma written_contents ok i v w w' :
  keeps w w' →
  object_written s3_object ok (bucket_of w) (generate_s3_key (s3_config (w_s3 w)) i) v (w_remote w) (w_remote w') →
  maybe_set i v (s3_contents w) (s3_contents w')
  ∧ (ok = true → same_contents (set_content i v (s3_contents w)) (s3_contents w')).
Proof.
  intros K [O|[-> O]].
  - split; [right|intros _]; by apply set_contents.
  - split; [left|done]. by apply quiet_contents.
Qed.

Lemma delete_spec i w : client_cell_ok (w_s3 w) →
  ∃ w', s3_delete_file_data i w = (Returned (Ok tt), w') ∧ keeps w w'
    ∧ maybe_set i None (s3_contents w) (s3_contents w').
Proof.
  intros Hc. unfold s3_delete_file_data. request. exists w0. apply law_delete_object in Hq.
  apply written_contents in Hq as [Hq _]; [|done]. by destruct r as [[]|e].
Qed.

Lemma batch_delete_spec ids w : client_cell_ok (w_s3 w) →
  ∃ w', s3_batch_delete_file_data ids w = (Returned (Ok (map (λ i, (i, true)) ids)), w') ∧ keeps w w'
    ∧ ∀ j, s3_contents w' j = s3_contents w j ∨ (j ∈ ids ∧ s3_contents w' j = None).
Proof.
  unfold s3_batch_delete_file_data. revert w. induction ids as [|i ids IH]; intros w Hc; cbn [batch_delete_loop].
  { exists w. split; [done|]. split; [done|]. by left. }
  unfold mtry. destruct (delete_spec i w Hc) as (w1 & -> & [Hc1 Hf1] & D). unfold mthen.
  destruct (IH w1 Hc1) as (w2 & -> & [Hc2 Hf2] & O). exists w2. split; [done|]. split; [split; congruence|].
  intros j. destruct (O j) as [Hj|[Hj Hn]]; [|right; split; [by right|done]]. rewrite Hj.
  destruct D as [D|D]; rewrite D; [by left|]. unfold set_content.
  destruct (decide (j = i)) as [->|]; [right; split; [left|done]|by left].
Qed.

Lemma get_spec i w : client_cell_ok (w_s3 w) →
  ∃ r w', s3_get_file_data i w = (Returned r, w') ∧ quiet w w' ∧ ∀ v, r = Ok v → v = s3_contents w i.
Proof.
  intros Hc. unfold s3_get_file_data. request. apply law_get_object in Hq as [Ho Hq].
  assert (Q : quiet w w0) by done.
  destruct r as [[data|e]|e]; [|by eexists _, w0|].
  - eexists _, w0. split; [done|]. split; [done|]. intros v [= <-]. by rewrite <- Hq.
  - destruct (sdk_service e) as [[]|]; try (by eexists _, w0).
    eexists _, w0. split; [done|]. split; [done|]. intros v [= <-]. by rewrite <- Hq.
Qed.

Lemma exists_spec i w : client_cell_ok (w_s3 w) →
  ∃ r w', s3_file_data_exists i w = (Returned r, w') ∧ quiet w w'
    ∧ ∀ b, r = Ok b → (b = true ↔ is_Some (s3_contents w i)).
Proof.
  intros Hc. unfold s3_file_data_exists. request. apply law_head_object in Hq as [Ho Hq].
  assert (Q : quiet w w0) by done. destruct r as [len|e].
  - destruct Hq as (data & Hd & _). eexists _, w0. split; [done|]. split; [done|]. intros b [= <-].
    unfold s3_contents. rewrite Hd. split; [intros; by eexists|done].
  - destruct (sdk_service e) as [[]|]; try (by eexists _, w0).
    eexists _, w0. split; [done|]. split; [done|]. intros b [= <-].
    unfold s3_contents. rewrite Hq by done. split; [done|by intros []].
Qed.

Lemma size_spec i w : client_cell_ok (w_s3 w) →
  ∃ r w', s3_get_file_size i w = (Returned r, w') ∧ quiet w w'
    ∧ ∀ v, r = Ok v → v = (λ data : bytes, Z.of_nat (length data)) <$> s3_contents w i.
Proof.
  intros Hc. unfold s3_get_file_size. request. apply law_head_object in Hq as [Ho Hq].
  assert (Q : quiet w w0) by done. destruct r as [len|e].
  - destruct Hq as (data & Hd & -> & Hl). eexists _, w0. split; [done|]. split; [done|]. intros v [= <-].
    unfold s3_contents. rewrite Hd. cbn [fmap option_fmap option_map default]. do 2 f_equal.
    unfold wrap_u64. apply Z.mod_small. unfold i64_max in Hl. lia.
  - destruct (sdk_service e) as [[]|]; try (by eexists _, w0).
    eexists _, w0. split; [done|]. split; [done|]. intros v [= <-]. unfold s3_contents. by rewrite Hq.
Qed.

Lemma health_quiet w : client_cell_ok (w_s3 w) → ∃ r w', s3_health_check w = (Returned r, w') ∧ quiet w w'.
Proof.
  intros Hc. unfold s3_health_check. request.
  assert (Q : quiet w w0) by (split; [done|by apply law_head_bucket in Hq]).
  destruct r as [u|e]; [|by eexists _, w0]. assert (Hc0 := proj1 K). request.
  assert (Q' : quiet w0 w1) by (split; [done|by apply law_list_objects in Hq0]).
  exists (match r with Ok _ => Ok tt | Err e => Err (S3Error ("Health check failed: " +:+ sdk_text e)) end), w1.
  split; [by destruct r|]. by eapply quiet_trans.
Qed.

Lemma s3_call op w : client_cell_ok (w_s3 w) →
  ∃ a w', fs_call op w = (Some a, w') ∧ keeps w w'
    ∧ fs_allowed (s3_location w) (s3_contents w) op a (s3_contents w').
Proof.
  intros Hc.
  assert (HS : ∀ i data, ∃ r w', s3_store_file_data i data w = (Returned r, w') ∧ keeps w w'
    ∧ fs_allowed (s3_location w) (s3_contents w) (OpStore i data) (AStored r) (s3_contents w')).
  { intros i data. destruct (store_spec i data w Hc) as (r & w' & -> & K & O & Hl). exists r, w'.
    apply written_contents in O as [O1 O2]; [|done]. split_and!; [done|done|].
    destruct r as [l|e]; [|done]. cbn. split; [by apply Hl|by apply O2]. }
  unfold fs_call, answer; destruct op; cbn [c_store_file_data c_store_file_data_with_options c_get_file_data
    c_delete_file_data c_batch_delete_file_data c_file_data_exists c_get_file_size c_health_check s3_content_store].
  - destruct (HS file_id data) as (r & w' & -> & K & O). eauto.
  - unfold s3_store_file_data_with_options. destruct (HS file_id data) as (r & w' & -> & K & O). eauto.
  - destruct (get_spec file_id w Hc) as (r & w' & -> & Q & Hv). eexists _, w'.
    split_and!; [done|apply Q|]. split; [by apply quiet_contents|done].
  - destruct (delete_spec file_id w Hc) as (w' & -> & K & D). eexists _, w'. by split_and!.
  - destruct (batch_delete_spec file_ids w Hc) as (w' & -> & K & D). eexists _, w'. by split_and!.
  - destruct (exists_spec file_id w Hc) as (r & w' & -> & Q & Hv). eexists _, w'.
    split_and!; [done|apply Q|]. split; [by apply quiet_contents|done].
  - destruct (size_spec file_id w Hc) as (r & w' & -> & Q & Hv). eexists _, w'.
    split_and!; [done|apply Q|]. split; [by apply quiet_contents|done].
  - destruct (health_quiet w Hc) as (r & w' & -> & Q). eexists _, w'.
    split_and!; [done|apply Q|]. by apply quiet_contents.
Qed.

Lemma s3_law_call op w : client_cell_ok (w_s3 w) → Forall (λ _, True) (op_ids op) →
  ∃ a w', fs_call op w = (Some a, w')
    ∧ fs_allowed (s3_location w) (s3_contents w) op a (s3_contents w')
    ∧ client_cell_ok (w_s3 w') ∧ s3_location w' = s3_location w.
Proof.
  intros Hc _. destruct (s3_call op w Hc) as (a & w' & E & [Hc' Hf] & Ha). exists a, w'.
  split_and!; [done|done|done|]. unfold s3_location. by rewrite Hf.
Qed.

#[global] Instance s3_content_laws : ContentLaws (S3World B) := {|
  c_contents := s3_contents; c_location := s3_location; c_valid _ := True;
  c_inv w := client_cell_ok (w_s3 w); law_call := s3_law_call
|}.

(** C15: S3 behind its cells behaves as a map of contents, whatever requests the
    service or the network refuses and whether or not a refused write was applied:
    from a storage just made, every request of a sequence returns, a confirmed
    store is in the map under the location [s3:<prefix><id>], successful reads,
    tests and sizes answer the map, and only the named files change. *)
Theorem s3_refines_contents config remote ops :
  let w := mkS3World (S3FileStorage_new config) remote in
  ∃ l w', fs_calls ops w = (l, w')
    ∧ fs_run (λ i, "s3:" +:+ s3c_key_prefix config +:+ pretty i) (s3_contents w) ops l (s3_contents w').
Proof.
  intros w. destruct (calls_refine ops w) as (l & w' & E & Hr & _); [by left| |by exists l, w'].
  apply Forall_forall. intros. apply Forall_forall. done.
Qed.

End s3_operations.

(** ** The database *)

Section database.
Context (fault : nat → option string) (now : DateTime).

Definition db_contents (c : Conn) : contents := λ i,
  dr_data <$> List.find (λ r, dr_file_id r =? i) (t_file_data (cn_db c)).

Definition db_location (c : Conn) (i : Z) : string := "db:" +:+ pretty i.

(** Identifiers that an [i64] holds. *)
Definition db_id_ok (i : Z) : Prop := 0 ≤ i ≤ i64_max.

Lemma find_updated (i j : Z) (data : bytes) (l : list data_row) :
  existsb (λ r, dr_file_id r =? i) l = true →
  dr_data <$> List.find (λ r, dr_file_id r =? j)
    (sql_update (λ r, dr_file_id r =? i) (λ r, mkDataRow (dr_file_id r) data (dr_created_at r) (dt_timestamp now)) l)
  = if decide (j = i) then Some data else dr_data <$> List.find (λ r, dr_file_id r =? j) l.
Proof.
  induction l as [|r l IH]; [done|]. cbn [existsb]. unfold sql_update. cbn [map List.find].
  fold (sql_update (λ r, dr_file_id r =? i)
          (λ r, mkDataRow (dr_file_id r) data (dr_created_at r) (dt_timestamp now)) l).
  destruct (Z.eqb_spec (dr_file_id r) i) as [Er|Er]; cbn [orb dr_file_id].
  - intros _. rewrite Er. destruct (Z.eqb_spec i j) as [->|Hij].
    { by rewrite decide_True. }
    rewrite decide_False by done. clear IH. induction l as [|r' l IH]; [done|].
    cbn [sql_update map List.find]. destruct (Z.eqb_spec (dr_file_id r') i) as [Er'|]; cbn [dr_file_id].
    + rewrite Er', (proj2 (Z.eqb_neq i j)) by done. apply IH.
    + destruct (dr_file_id r' =? j); [done|]. apply IH.
  - intros Hex. destruct (Z.eqb_spec (dr_file_id r) j) as [Ej|Ej]; [|by apply IH].
    rewrite decide_False; [done|]. congruence.
Qed.

Lemma find_appended (i j : Z) (data : bytes) a b (l : list data_row) :
  existsb (λ r, dr_file_id r =? i) l = false →
  dr_data <$> List.find (λ r, dr_file_id r =? j) (l ++ [mkDataRow i data a b])%list
  = if decide (j = i) then Some data else dr_data <$> List.find (λ r, dr_file_id r =? j) l.
Proof.
  induction l as [|r l IH]; cbn [app List.find existsb dr_file_id].
  { intros _. destruct (Z.eqb_spec i j) as [->|]; [by rewrite decide_True|by rewrite decide_False]. }
  intros [Er El]%orb_false_iff. destruct (Z.eqb_spec (dr_file_id r) j) as [Ej|]; [|by apply IH].
  rewrite decide_False; [done|]. apply Z.eqb_neq in Er. congruence.
Qed.

(** A statement fails and changes nothing, or it is executed. *)
Lemma exec_cases {A} err (g : Db → A * Db) c :
  ∃ r c', exec fault err g c = (Returned r, c')
    ∧ match r with
      | Ok a => g (cn_db c) = (a, cn_db c')
      | Err _ => cn_db c' = cn_db c
      end.
Proof.
  unfold exec. destruct (fault (cn_step c)) as [e|]; [by eexists _, _|].
  destruct (g (cn_db c)) as [a d] eqn:E. by eexists _, (mkConn d _).
Qed.

Lemma db_get_spec i c :
  ∃ r c', my_get_file_data fault i c = (Returned r, c') ∧ cn_db c' = cn_db c
    ∧ (db_id_ok i → ∀ v, r = Ok v → v = db_contents c i).
Proof.
  unfold my_get_file_data, query.
  destruct (exec_cases db_err (λ d,
    (dr_data <$> List.find (λ r, dr_file_id r =? wrap_i64 i) (t_file_data d), d)) c) as (r & c' & -> & H).
  exists r, c'. split; [done|]. destruct r as [v'|e]; [|done]. injection H as Hv Hd. split; [done|].
  intros Hi v [= <-]. rewrite <- Hv. unfold db_contents. rewrite wrap_i64_id; [done|].
  unfold db_id_ok, i64_min, i64_max in *. lia.
Qed.

Lemma db_store_spec i data c :
  ∃ r c', db_store_file_data fault now i data c = (Returned r, c')
    ∧ match r with
      | Ok l => l = db_location c i ∧ same_contents (set_content i (Some data) (db_contents c)) (db_contents c')
      | Err _ => maybe_set i (Some data) (db_contents c) (db_contents c')
      end.
Proof.
  unfold db_store_file_data, my_store_file_data, query. unfold mthen at 1. unfold mthen at 1.
  destruct (exec_cases db_err (λ d, (existsb (λ r, dr_file_id r =? i) (t_file_data d), d)) c)
    as ([ex|e] & c1 & -> & H1); cbn beta iota.
  2:{ eexists _, c1. split; [done|]. left. intros j. unfold db_contents. by rewrite H1. }
  injection H1 as Hex Hd1. destruct ex.
  - destruct (exec_cases db_err (λ d, (tt, with_data (sql_update (λ r, dr_file_id r =? i)
      (λ r, mkDataRow (dr_file_id r) data (dr_created_at r) (dt_timestamp now)) (t_file_data d)) d)) c1)
      as ([u|e] & c2 & -> & H2).
    + injection H2 as _ H2. eexists _, c2. split; [done|]. split; [done|]. intros j.
      unfold db_contents, set_content. rewrite <- H2, <- Hd1. cbn [with_data t_file_data]. by apply find_updated.
    + eexists _, c2. split; [done|]. left. intros j. unfold db_contents. by rewrite H2, Hd1.
  - destruct (exec_cases db_err (λ d, (tt, with_data (t_file_data d ++
      [mkDataRow i data (dt_timestamp now) (dt_timestamp now)])%list d)) c1) as ([u|e] & c2 & -> & H2).
    + injection H2 as _ H2. eexists _, c2. split; [done|]. split; [done|]. intros j.
      unfold db_contents, set_content. rewrite <- H2, <- Hd1. cbn [with_data t_file_data]. by apply find_appended.
    + eexists _, c2. split; [done|]. left. intros j. unfold db_contents. by rewrite H2, Hd1.
Qed.

Lemma db_batch_delete ids c :
  db_batch_delete_file_data ids c = (Returned (Ok (map (λ i, (i, true)) ids)), c).
Proof.
  unfold db_batch_delete_file_data. induction ids as [|i ids IH]; [done|].
  cbn [batch_delete_loop]. unfold mtry, db_delete_file_data at 1, ret at 1, mthen. by rewrite IH.
Qed.

Lemma db_law_call op c : True → Forall db_id_ok (op_ids op) →
  ∃ a c', fs_call (H := database_content_store fault now) op c = (Some a, c')
    ∧ fs_allowed (db_location c) (db_contents c) op a (db_contents c')
    ∧ True ∧ db_location c' = db_location c.
Proof.
  intros _ Hv.
  assert (HG : ∀ i, db_id_ok i → ∃ r c', my_get_file_data fault i c = (Returned r, c')
      ∧ same_contents (db_contents c) (db_contents c') ∧ ∀ v, r = Ok v → v = db_contents c i).
  { intros i Hi. destruct (db_get_spec i c) as (r & c' & E & Hd & Hr). exists r, c'. split_and!; [done| |auto].
    intros j. unfold db_contents. by rewrite Hd. }
  unfold fs_call, answer; destruct op; cbn [c_store_file_data c_store_file_data_with_options c_get_file_data
    c_delete_file_data c_batch_delete_file_data c_file_data_exists c_get_file_size c_health_check
    database_content_store op_ids] in *; try rewrite Forall_singleton in Hv.
  - destruct (db_store_spec file_id data c) as (r & c' & -> & O). by eexists _, c'.
  - unfold db_store_file_data_with_options. destruct (db_store_spec file_id data c) as (r & c' & -> & O).
    by eexists _, c'.
  - destruct (HG file_id Hv) as (r & c' & E & Hs & Hr). unfold db_get_file_data. rewrite E. by eexists _, c'.
  - eexists _, c. split; [done|]. repeat split. by left.
  - rewrite db_batch_delete. eexists _, c. split; [done|]. repeat split. by left.
  - destruct (HG file_id Hv) as (r & c' & E & Hs & Hr). unfold db_file_data_exists, mthen. rewrite E.
    destruct r as [[data|]|e]; eexists _, c'; (split; [done|]); split_and!; try done;
      (split; [done|]); intros b [= <-]; rewrite <- (Hr _ eq_refl); split; try done; by intros [].
  - destruct (HG file_id Hv) as (r & c' & E & Hs & Hr). unfold db_get_file_size, mthen. rewrite E.
    destruct r as [[data|]|e]; eexists _, c'; (split; [done|]); split_and!; try done;
      (split; [done|]); intros b [= <-]; by rewrite <- (Hr _ eq_refl).
  - destruct (HG 0) as (r & c' & E & Hs & Hr); [unfold db_id_ok, i64_max; lia|].
    unfold db_health_check, mtry. rewrite E. destruct r as [v|[]]; by eexists _, c'.
Qed.

Definition database_content_laws : ContentLaws Conn (H := database_content_store fault now) := {|
  c_contents := db_contents; c_location := db_location; c_valid := db_id_ok;
  c_inv _ := True; law_call := db_law_call
|}.

End database.

(** ** What was confirmed is read back *)

(** C18: data whose storing was confirmed is what every later successful read of the file
    answers, however many requests on other files (failing or not) lie between, and the
    confirmation names the location of the file: for the S3 storage at any point of its
    life, whatever requests the service or the network refuses and whether or not a refused
    write was applied, and for the database, whichever statements fail, for identifiers an
    [i64] holds. *)
Theorem confirmed_data_read_back `{SL : S3Laws B} config (remote : B) before (fault : nat → option string) now (c : Conn)
    i data ops l loc r :
  let w := (fs_calls before (mkS3World (S3FileStorage_new config) remote)).2 in
  let requests := (OpStore i data :: ops ++ [OpGet i])%list in
  let answers := (Some (AStored (Ok loc)) :: l ++ [Some (AGot r)])%list in
  Forall (λ op, i ∉ op_ids op) ops →
  ((fs_calls requests w).1 = answers →
     loc = "s3:" +:+ s3c_key_prefix config +:+ pretty i ∧ ∀ v, r = Ok v → v = Some data)
  ∧ (Forall (λ op, Forall db_id_ok (op_ids op)) requests →
     (fs_calls (H := database_content_store fault now) requests c).1 = answers →
     loc = "db:" +:+ pretty i ∧ ∀ v, r = Ok v → v = Some data).
Proof.
  intros w requests answers Ho. split.
  - destruct (calls_refine before (mkS3World (S3FileStorage_new config) remote)) as (l0 & w0 & E0 & _ & Hi & Hloc);
      [by left|by apply Forall_forall; intros; apply Forall_forall|].
    intros [Hl Hr]%(confirmed_store_kept w); [|unfold w; by rewrite E0|by apply Forall_forall; intros; apply Forall_forall|done].
    split; [|done]. rewrite Hl. unfold w. rewrite E0. cbn [snd]. by rewrite Hloc.
  - intros Hv. apply (confirmed_store_kept (CL := database_content_laws fault now) c); [done| |done].
    unfold requests in Hv. apply Forall_cons in Hv as [? [? _]%Forall_app]. by constructor.
Qed.

(** ** The cell of the bucket *)

Section bucket_cell.
Context {B : Type} `{S3Api B}.

(** Stores of one storage, each with the service in the state it has by then. *)
Fixpoint stores_over (requests : list (B * Z * bytes)) (s : S3FileStorage) : list (option FsAnswer) :=
  match requests with
  | [] => []
  | (b, i, data) :: requests =>
      let '(a, w) := fs_call (OpStore i data) (mkS3World s b) in a :: stores_over requests (w_s3 w)
  end.

Lemma create_bucket_returns (w : S3World B) :
  ∃ r w', create_bucket w = (Returned r, w') ∧ s3_bucket_ready (w_s3 w') = s3_bucket_ready (w_s3 w).
Proof.
  unfold create_bucket, mthen, the_config, get_client, send. cbn [w_s3 w_remote s3_config].
  destruct (match s3_client (w_s3 w) with Some r => r | None => _ end) as [c|e]; [|by eexists _, _].
  destruct (create_bucket_with _ _ _ _) as [[u|e] b]; [by eexists _, _|].
  by destruct (sdk_service e) as [[]|]; eexists _, _.
Qed.

Lemma upload_after_failed_check key data (w : S3World B) e :
  s3_bucket_ready (w_s3 w) = Some (Err e) →
  upload_to_s3 key data w = (Returned (s3_err "Bucket ensure failed: " (StorageError_fmt e)), w).
Proof.
  intros Hr. unfold upload_to_s3, mthen, the_config, ensure_bucket_exists_once. rewrite Hr.
  destruct w as [[cfg cl br] b]. cbn in *. by rewrite Hr.
Qed.

(** With a failed check in the cell no store succeeds. *)
Lemma store_after_failed_check i data (w : S3World B) e :
  s3_bucket_ready (w_s3 w) = Some (Err e) →
  ∃ e' w', s3_store_file_data i data w = (Returned (Err e'), w') ∧ s3_bucket_ready (w_s3 w') = Some (Err e).
Proof.
  intros Hr. unfold s3_store_file_data. rewrite then_config. cbn zeta. unfold mtry at 1.
  rewrite (upload_after_failed_check _ _ _ e) by done. unfold s3_err.
  destruct (says_no_bucket _); [|by eexists _, w]. unfold mtry.
  destruct (create_bucket_returns w) as ([u|e'] & w1 & -> & Hr1).
  - rewrite (upload_after_failed_check _ _ _ e) by congruence. eexists _, w1. split; [done|congruence].
  - eexists _, w1. split; [done|congruence].
Qed.

(** The answers of stores that failed. *)
Definition store_failed (a : option FsAnswer) : Prop := ∃ e, a = Some (AStored (Err e)).

Lemma stores_fail_over requests s e :
  s3_bucket_ready s = Some (Err e) → Forall store_failed (stores_over requests s).
Proof.
  revert s. induction requests as [|[[b i] data] requests IH]; intros s Hr; cbn [stores_over]; [done|].
  unfold fs_call, answer. cbn [c_store_file_data s3_content_store].
  destruct (store_after_failed_check i data (mkS3World s b) e Hr) as (e' & w' & -> & Hr').
  constructor; [by exists e'|by apply IH].
Qed.

(** The first check of the bucket decides for the life of the process: when the
    service answers the check of the first store with anything but success or "not
    found", this store and every later one fail, whatever state the service is in
    by then, because the cell [bucket_ready] keeps the error. *)
Theorem failed_bucket_check_is_final config b i data later err b' :
  (∀ client, head_bucket client (s3c_bucket config) b = (Err err, b')) →
  sdk_service err ≠ Some ErrNotFound →
  Forall store_failed (stores_over ((b, i, data) :: later) (S3FileStorage_new config)).
Proof.
  intros Hb Hn. cbn [stores_over]. unfold fs_call, answer. cbn [c_store_file_data s3_content_store].
  set (w := mkS3World (S3FileStorage_new config) b).
  set (e := S3Error ("Failed to check bucket existence: " +:+ sdk_text err)).
  assert (∃ w1, ensure_bucket_exists_once w =
                (Returned (s3_err "Bucket ensure failed: " (StorageError_fmt e)), w1)
                ∧ s3_bucket_ready (w_s3 w1) = Some (Err e)) as (w1 & Eu & Hr).
  { unfold ensure_bucket_exists_once, ensure_bucket_exists, mthen, the_config, get_client, send.
    cbn -[String.append]. rewrite Hb. destruct (sdk_service err) as [[]|]; try done; by eexists. }
  assert (∃ e' w', s3_store_file_data i data w = (Returned (Err e'), w')
                   ∧ s3_bucket_ready (w_s3 w') = Some (Err e)) as (e' & w' & -> & Hr').
  { unfold s3_store_file_data. rewrite then_config. cbn zeta. unfold mtry at 1.
    unfold upload_to_s3 at 1. rewrite then_config. unfold mthen at 1. rewrite Eu. unfold s3_err.
    destruct (says_no_bucket _); [|by eexists _, w1]. unfold mtry.
    destruct (create_bucket_returns w1) as ([u|e'] & w2 & -> & Hr2).
    - rewrite (upload_after_failed_check _ _ _ e) by congruence. eexists _, w2. split; [done|congruence].
    - eexists _, w2. split; [done|congruence]. }
  constructor; [by exists e'|by apply (stores_fail_over _ _ e)].
Qed.

(** The SDK prints every error the service itself reports as [service error], so
    the test for a missing bucket is never met: once the bucket was seen, a store
    into a bucket that has been removed is one request, and its failure. *)
Theorem missing_bucket_not_recreated i data (w : S3World B) err b' :
  let config := s3_config (w_s3 w) in
  s3_client (w_s3 w) = Some (create_s3_client config) → s3_bucket_ready (w_s3 w) = Some (Ok tt) →
  (∀ client, put_object client (s3c_bucket config) (generate_s3_key config i) data (w_remote w) = (Err err, b')) →
  sdk_text err = "service error" →
  s3_store_file_data i data w
    = (Returned (Err (S3Error "Failed to store file in S3: service error")), mkS3World (w_s3 w) b').
Proof.
  intros config Hc Hr Hp Ht. unfold s3_store_file_data. rewrite then_config. cbn zeta. unfold mtry at 1.
  unfold upload_to_s3, mthen, the_config, ensure_bucket_exists_once. rewrite Hr. cbn -[String.append put_object].
  unfold get_client, send. cbn -[String.append]. rewrite Hc. cbn -[String.append]. rewrite Hp, Ht.
  destruct w as [[cfg cl br] b]. cbn in *. by subst.
Qed.

End bucket_cell.

(** ** As the contents storage of the file service *)

(** A service that answers every request on a bucket it has. *)
Class S3Reliable (B : Type) `{S3Laws B} := {
  bucket_exists : B → string → Prop;
  rel_head_bucket : ∀ c b s, bucket_exists s b → head_bucket c b s = (Ok tt, s);
  rel_put_object : ∀ c b k data s, bucket_exists s b →
    ∃ s', put_object c b k data s = (Ok tt, s') ∧ bucket_exists s' b;
  rel_get_object : ∀ c b k s, bucket_exists s b →
    (get_object c b k s).1 = match s3_object s b k with
                             | Some data => Ok (Ok data)
                             | None => Err (mkSdkError (Some NoSuchKey) "service error")
                             end
}.

Section reliable.
Context `{SR : S3Reliable B}.

(** The bucket is there, and no check of it has failed. *)
Definition in_service (w : S3World B) : Prop :=
  client_cell_ok (w_s3 w) ∧ bucket_exists (w_remote w) (bucket_of w)
  ∧ ∀ e, s3_bucket_ready (w_s3 w) ≠ Some (Err e).

Lemma upload_in_service key data w : in_service w →
  ∃ w', upload_to_s3 key data w = (Returned (Ok ("s3:" +:+ key)), w') ∧ in_service w'.
Proof.
  intros (Hc & Hb & Hr). unfold upload_to_s3. rewrite then_config. unfold mthen at 1.
  assert (∃ w1, ensure_bucket_exists_once w = (Returned (Ok tt), w1) ∧ in_service w1
                ∧ bucket_of w1 = bucket_of w) as (w1 & -> & (Hc1 & Hb1 & Hr1) & Hbk).
  { unfold ensure_bucket_exists_once. destruct (s3_bucket_ready (w_s3 w)) as [[[]|e]|] eqn:Er; [|by destruct (Hr e)|].
    - eexists. split; [done|]. by repeat split.
    - unfold ensure_bucket_exists. request. rewrite rel_head_bucket in Hq by done. injection Hq as <- Hw.
      eexists. split; [done|]. destruct K as [Hc0 Hf0]. split; [|by cbn; rewrite Hf0].
      split; [done|]. split; [|done]. cbn. by rewrite Hf0, <- Hw. }
  request. rewrite <- Hbk in Hq. destruct (rel_put_object (the_client w1) (bucket_of w1) key data _ Hb1) as (s' & E & Hs').
  rewrite E in Hq. injection Hq as <- Hw. eexists. split; [done|]. destruct K as [Hc2 Hf2].
  split; [done|]. split; [by rewrite Hf2, <- Hw|]. congruence.
Qed.

Lemma store_in_service i data w : in_service w →
  ∃ w', s3_store_file_data i data w = (Returned (Ok (s3_location w i)), w') ∧ in_service w'.
Proof.
  intros Hi. unfold s3_store_file_data. rewrite then_config. cbn zeta. unfold mtry at 1.
  destruct (upload_in_service (generate_s3_key (s3_config (w_s3 w)) i) data w Hi) as (w' & -> & Hi').
  by exists w'.
Qed.

Lemma get_in_service i w : in_service w → (s3_get_file_data i w).1 = Returned (Ok (s3_contents w i)).
Proof.
  intros (Hc & Hb & _). unfold s3_get_file_data. request.
  pose proof (rel_get_object (the_client w) (bucket_of w) (generate_s3_key (s3_config (w_s3 w)) i) _ Hb) as Hg.
  rewrite Hq in Hg. cbn in Hg. subst r. unfold s3_contents. by destruct (s3_object _ _ _).
Qed.

(** The storage of a server whose bucket was there when it started. *)
Definition S3InService : Type := { w : S3World B | in_service w }.

Lemma store_keeps_service i data (w : S3InService) : in_service (s3_store_file_data i data (`w)).2.
Proof. destruct (store_in_service i data _ (proj2_sig w)) as (w' & -> & Hi). done. Qed.

#[global] Instance s3_file_storage : FileStorage S3InService := {|
  f_store_file_data i data (w : S3InService) :=
    (match (s3_store_file_data i data (`w)).1 with Returned r => r | Panicked => Err (Internal "panic") end,
     exist _ (s3_store_file_data i data (`w)).2 (store_keeps_service i data w));
  f_get_file_data i (w : S3InService) :=
    match (s3_get_file_data i (`w)).1 with Returned r => r | Panicked => Err (Internal "panic") end
|}.

(** What the file service relies on. *)
#[global] Instance s3_file_storage_laws : FileStorageLaws S3InService.
Proof.
  split; cbn [f_store_file_data f_get_file_data s3_file_storage]; intros i data w ? f' [= Hr Hf];
    destruct (store_in_service i data _ (proj2_sig w)) as (w' & E & Hi); rewrite E in Hr; [|done].
  assert (`f' = w') as Hw by (rewrite <- Hf; cbn [proj1_sig]; by rewrite E). rewrite Hw.
  assert (same_contents (set_content i (Some data) (s3_contents (`w))) (s3_contents w')) as Hs.
  { destruct (store_spec i data (`w)) as (r & w2 & E2 & K & O & _); [apply (proj2_sig w)|].
    rewrite E in E2. injection E2 as <- <-. by eapply written_contents. }
  rewrite (get_in_service i w' Hi), Hs. unfold set_content. rewrite decide_True by done.
  split; [done|]. intros j Hj. rewrite (get_in_service j w' Hi), (get_in_service j _ (proj2_sig w)), Hs.
  by rewrite set_content_other.
Qed.

End reliable.

(** ** A service for evaluation *)

Module SimpleS3.

(** Buckets, objects, and what befalls the next requests: [Some applied] is a
    request that times out, carried out or not. *)
Record Remote := mkRemote {
  buckets : list string;
  objects : gmap (string * string) bytes;
  faults : list (option bool)
}.

Definition timeout : SdkError := mkSdkError None "request has timed out".
Definition no_bucket : SdkError := mkSdkError (Some OtherServiceErr) "service error".

Definition has (s : Remote) (bucket : string) : bool := bool_decide (bucket ∈ buckets s).

Definition request {A} (s : Remote) (fine : result A SdkError * Remote) : result A SdkError * Remote :=
  let later s := mkRemote (buckets s) (objects s) (tail (faults s)) in
  match faults s with
  | Some applied :: _ => (Err timeout, later (if applied then fine.2 else s))
  | _ => (fine.1, later fine.2)
  end.

Definition with_object (s : Remote) (f : gmap (string * string) bytes → gmap (string * string) bytes) : Remote :=
  mkRemote (buckets s) (f (objects s)) (faults s).

Definition in_bucket {A} (s : Remote) (bucket : string) (err : SdkError) (r : result A SdkError * Remote) :=
  if has s bucket then r else (Err err, s).

#[global] Instance api : S3Api Remote := {|
  head_bucket _ b s := request s (in_bucket s b (mkSdkError (Some ErrNotFound) "service error") (Ok tt, s));
  create_bucket_with _ b _ s :=
    request s (if has s b then (Err (mkSdkError (Some BucketAlreadyOwnedByYou) "service error"), s)
               else (Ok tt, mkRemote (b :: buckets s) (objects s) (faults s)));
  put_object _ b k data s := request s (in_bucket s b no_bucket (Ok tt, with_object s <[(b, k) := data]>));
  get_object _ b k s :=
    request s (in_bucket s b no_bucket
      (match objects s !! (b, k) with
       | Some data => Ok (Ok data)
       | None => Err (mkSdkError (Some NoSuchKey) "service error")
       end, s));
  delete_object _ b k s := request s (in_bucket s b no_bucket (Ok tt, with_object s (delete (b, k))));
  head_object _ b k s :=
    request s (match objects s !! (b, k) with
               | Some data =>
                   if Z.of_nat (length data) <=? i64_max then (Ok (Some (Z.of_nat (length data))), s)
                   else (Err no_bucket, s)
               | None => (Err (mkSdkError (Some ErrNotFound) "service error"), s)
               end);
  list_objects_v2 _ b _ s := request s (in_bucket s b no_bucket (Ok tt, s))
|}.

Definition object (s : Remote) (bucket key : string) : option bytes := objects s !! (bucket, key).

Lemma request_same {A} s (fine : result A SdkError * Remote) r s' :
  request s fine = (r, s') → objects fine.2 = objects s →
  same_objects object s s' ∧ (r = fine.1 ∨ r = Err timeout).
Proof.
  unfold request. intros E Ho.
  assert (objects s' = objects s) as Hs by (destruct (faults s) as [|[[]|] l]; by injection E as <- <-).
  split; [intros b k; unfold object; by rewrite Hs|].
  destruct (faults s) as [|[[]|] l]; injection E as <- <-; auto.
Qed.

Lemma request_written s b k err v g r s' :
  request s (in_bucket s b err (Ok tt, with_object s g)) = (r, s') →
  (∀ m, g m !! (b, k) = v) → (∀ m i, i ≠ (b, k) → g m !! i = m !! i) →
  object_written object (is_ok r) b k v s s'.
Proof.
  unfold request, in_bucket. intros E Hv Ho.
  assert (HS : ∀ s1, objects s1 = g (objects s) → object_set object b k v s s1).
  { intros s1 H1. split; [unfold object; by rewrite H1|]. intros b' k' Hne. unfold object. rewrite H1. by apply Ho. }
  destruct (has s b); destruct (faults s) as [|[[]|] l]; injection E as <- <-;
    first [left; by apply HS | by right].
Qed.

(** Requests that look at the service, and what they answer. *)
Lemma request_read {A} s b err (fine : result A SdkError) r s' :
  request s (in_bucket s b err (fine, s)) = (r, s') →
  same_objects object s s' ∧ (r = fine ∨ r = Err err ∨ r = Err timeout).
Proof.
  intros E. apply request_same in E as [E [-> | ->]]; [| |by unfold in_bucket; destruct (has s b)]; (split; [done|]);
    [unfold in_bucket; destruct (has s b); auto|auto].
Qed.

#[global] Instance laws : S3Laws Remote.
Proof.
  refine (Build_S3Laws Remote api object _ _ _ _ _ _ _); cbn [head_bucket create_bucket_with list_objects_v2
    put_object delete_object get_object head_object api].
  - intros c b s r s' E. by apply request_read in E as [? _].
  - intros c b _ s r s' E. apply request_same in E; [by destruct E|]. by destruct (has s b).
  - intros c b n s r s' E. by apply request_read in E as [? _].
  - intros c b k data s r s' E. apply (request_written s b k no_bucket _ _ _ _ E).
    + intros m. apply lookup_insert_eq.
    + intros m i Hi. by apply lookup_insert_ne.
  - intros c b k s r s' E. apply (request_written s b k no_bucket _ _ _ _ E).
    + intros m. apply lookup_delete_eq.
    + intros m i Hi. by apply lookup_delete_ne.
  - intros c b k s r s' E. apply request_read in E as [E Hr]. split; [done|].
    unfold object. destruct (objects s !! (b, k)); by destruct Hr as [-> |[-> | ->]].
  - intros c b k s r s' E.
    assert (Hf : objects (match objects s !! (b, k) with
       | Some data => if Z.of_nat (length data) <=? i64_max then (Ok (Some (Z.of_nat (length data))), s)
                      else (Err no_bucket, s)
       | None => (Err (mkSdkError (Some ErrNotFound) "service error"), s) end : result (option Z) SdkError * Remote).2
       = objects s) by (by repeat case_match).
    apply request_same in E as [E Hr]; [|done]. split; [done|]. unfold object.
    destruct Hr as [-> | ->]; [|done]. destruct (objects s !! (b, k)) as [data|]; [|done].
    destruct (Z.leb_spec (Z.of_nat (length data)) i64_max); [|done]. by exists data.
Defined.

(** Without faults it answers every request. *)
#[global] Instance reliable : S3Reliable Remote.
Proof.
  refine (Build_S3Reliable Remote api laws (λ s b, has s b = true ∧ faults s = []) _ _ _);
    intros; destruct s as [bs os fs]; cbn in *;
    repeat match goal with H : _ ∧ _ |- _ => destruct H end; subst fs; unfold request, in_bucket; cbn.
  - by rewrite H.
  - rewrite H. cbn. eexists. split; [done|]. by split.
  - rewrite H. cbn. unfold object. cbn. by destruct (os !! (b, k)).
Defined.

(** A bucket to be made, and a fault at the fourth request. *)
Definition flaky : S3World Remote :=
  mkS3World (S3FileStorage_new S3Config_default) (mkRemote [] ∅ [None; None; None; Some false]).

End SimpleS3.

(** A bucket is made, a file is stored, another store times out, the first file is
    read back. *)
Lemma confirmed_data_read_back_witness :
  "s3:files/1" = "s3:" +:+ "files/" +:+ pretty 1
  ∧ ∀ v, Ok (E := StorageError) (Some [Byte.x2a]) = Ok v → v = Some [Byte.x2a].
Proof.
  destruct (confirmed_data_read_back S3Config_default (w_remote SimpleS3.flaky) [] (λ _, None) (mkDateTime 0 0)
           (mkConn empty_db 0) 1 [Byte.x2a] [OpStore 2 [Byte.x2b]; OpExists 2]
           [Some (AStored (Err (S3Error "Failed to store file in S3: request has timed out")));
            Some (AExists (Ok false))] "s3:files/1" (Ok (Some [Byte.x2a]))) as [H _].
  - repeat constructor; cbn; rewrite list_elem_of_singleton; discriminate.
  - apply H. vm_compute. reflexivity.
Defined.

(** The same storage on a sequence of its own. *)
Lemma s3_refines_contents_witness :
  ∃ l w', fs_calls [OpStore 1 [Byte.x2a]; OpDelete 1; OpSize 1; OpHealth] SimpleS3.flaky = (l, w')
    ∧ fs_run (λ i, "s3:" +:+ "files/" +:+ pretty i) (s3_contents SimpleS3.flaky)
        [OpStore 1 [Byte.x2a]; OpDelete 1; OpSize 1; OpHealth] l (s3_contents w').
Proof. exact (s3_refines_contents S3Config_default (w_remote SimpleS3.flaky) _). Defined.

(** The first check times out; afterwards the service is well and its bucket is
    there. *)
Lemma failed_bucket_check_is_final_witness :
  let well := SimpleS3.mkRemote ["cosmic-sync-files"] ∅ [] in
  Forall store_failed
    (stores_over [(SimpleS3.mkRemote [] ∅ [Some false], 1, [Byte.x2a]); (well, 1, [Byte.x2a]); (well, 2, [])]
       (S3FileStorage_new S3Config_default)).
Proof.
  intros well.
  apply (failed_bucket_check_is_final S3Config_default _ 1 [Byte.x2a] [(well, 1, [Byte.x2a]); (well, 2, [])]
           SimpleS3.timeout (SimpleS3.mkRemote [] ∅ [])); [reflexivity|discriminate].
Defined.
