(* ===== verification/Schema.v ===== *)
(** * The schema of the database (src/storage/mysql.rs, the start in src/storage/mod.rs)

    [init_schema] creates the tables a server needs and [migrate_schema] brings
    older ones up to date; both run at every start.  A schema is a map from table
    names to columns, indexes and foreign keys.  A statement is refused by the
    database when the schema does not admit it, and may fail for any other reason
    ([fault]). *)

From S2P Require Import Prelude RustString Errors Memory Effects.

(** ** Tables *)

Inductive SqlType :=
| Int | BigInt | BigIntUnsigned | Boolean | Varchar (n : Z) | Varbinary (n : Z) | Text | Json
| Enum (values : list string).
#[global] Instance SqlType_eq_dec : EqDecision SqlType.
Proof. solve_decision. Defined.

Record Column := mkColumn {
  col_name : string; col_type : SqlType; col_not_null : bool; col_default : option string; col_auto : bool
}.

(** The forms of a column definition. *)
Definition nullable (name : string) (ty : SqlType) : Column := mkColumn name ty false None false.
Definition not_null (name : string) (ty : SqlType) : Column := mkColumn name ty true None false.
Definition defaulted (name : string) (ty : SqlType) (d : string) : Column := mkColumn name ty true (Some d) false.
Definition auto_increment (name : string) (ty : SqlType) : Column := mkColumn name ty true None true.

(** An index without a name in the statement has the empty name. *)
Record Index := mkIndex { ix_name : string; ix_columns : list string; ix_unique : bool }.
Record ForeignKey := mkForeignKey { fk_name : string; fk_column : string; fk_table : string; fk_ref : string }.

Record Table := mkTable { tb_columns : list Column; tb_indexes : list Index; tb_foreign : list ForeignKey }.

Abbreviation Schema := (gmap string Table).

Definition index (columns : list string) : Index := mkIndex "" columns false.
Definition unique (columns : list string) : Index := mkIndex "" columns true.
Definition primary_key (column : string) : Index := mkIndex "PRIMARY" [column] true.
Definition of_account : ForeignKey := mkForeignKey "" "account_hash" "accounts" "account_hash".

Definition table_column (t : Table) (c : string) : option Column :=
  List.find (λ col, col_name col == c) (tb_columns t).
Definition has_table (s : Schema) (t : string) : bool := bool_decide (is_Some (s !! t)).
Definition column (s : Schema) (t c : string) : option Column := s !! t ≫= λ tb, table_column tb c.
Definition has_column (s : Schema) (t c : string) : bool := bool_decide (is_Some (column s t c)).

(** ** Statements *)

Inductive Statement :=
| CreateTable (if_not_exists : bool) (name : string) (columns : list Column) (indexes : list Index)
    (foreign : list ForeignKey)
| AddColumn (table : string) (c : Column) (after : option string)
| ChangeColumn (table old : string) (c : Column)
| ModifyColumn (table : string) (c : Column)
| CreateIndex (table : string) (i : Index)
| AddForeignKey (table : string) (f : ForeignKey)
| UpdateRows (columns : list (string * string)).

Fixpoint insert_after (after : string) (c : Column) (l : list Column) : list Column :=
  match l with
  | [] => [c]
  | x :: l => if col_name x == after then x :: c :: l else x :: insert_after after c l
  end.

Definition rename_in (old new : string) (i : Index) : Index :=
  mkIndex (ix_name i) (map (λ c, if c == old then new else c) (ix_columns i)) (ix_unique i).

(** A constraint name may be used once in a database. *)
Definition constraint_used (s : Schema) (name : string) : bool :=
  existsb (λ p : string * Table, existsb (λ f, fk_name f == name) (tb_foreign p.2)) (map_to_list s).

(** Older settings of the server admit a default value for a [TEXT] column. *)
Definition default_admitted (text_default : bool) (c : Column) : bool :=
  match col_type c, col_default c with
  | (Text | Json), Some _ => text_default
  | _, _ => true
  end.

(** A foreign key refers to a column of a type like its own that heads an index. *)
Definition comparable (a b : SqlType) : bool :=
  match a, b with Varchar _, Varchar _ => true | _, _ => bool_decide (a = b) end.

Definition heads_index (t : Table) (c : string) : bool :=
  existsb (λ i, match ix_columns i with d :: _ => d == c | [] => false end) (tb_indexes t).

Definition reference_admitted (s : Schema) (columns : list Column) (f : ForeignKey) : bool :=
  match List.find (λ c, col_name c == fk_column f) columns, s !! fk_table f with
  | Some c, Some t =>
      match table_column t (fk_ref f) with
      | Some r => comparable (col_type c) (col_type r) && heads_index t (fk_ref f)
      | None => false
      end
  | _, _ => false
  end.

(** What a statement does to a schema; [None] when the database refuses it. *)
Definition run_statement (text_default : bool) (d : Statement) (s : Schema) : option Schema :=
  match d with
  | CreateTable if_not_exists name columns indexes foreign =>
      if has_table s name then if if_not_exists then Some s else None
      else if forallb (reference_admitted s columns) foreign && forallb (default_admitted text_default) columns
      then Some (<[name := mkTable columns indexes foreign]> s)
      else None
  | AddColumn t c after =>
      match s !! t with
      | Some tb =>
          if has_column s t (col_name c) || negb (default_admitted text_default c) then None
          else match after with
               | Some a =>
                   if has_column s t a
                   then Some (<[t := mkTable (insert_after a c (tb_columns tb)) (tb_indexes tb) (tb_foreign tb)]> s)
                   else None
               | None => Some (<[t := mkTable (tb_columns tb ++ [c]) (tb_indexes tb) (tb_foreign tb)]> s)
               end
      | None => None
      end
  | ChangeColumn t old c =>
      match s !! t with
      | Some tb =>
          if has_column s t old && negb (has_column s t (col_name c)) && default_admitted text_default c
          then Some (<[t := mkTable (map (λ x, if col_name x == old then c else x) (tb_columns tb))
                              (map (rename_in old (col_name c)) (tb_indexes tb)) (tb_foreign tb)]> s)
          else None
      | None => None
      end
  | ModifyColumn t c =>
      match s !! t with
      | Some tb =>
          if has_column s t (col_name c) && default_admitted text_default c
          then Some (<[t := mkTable (map (λ x, if col_name x == col_name c then c else x) (tb_columns tb))
                              (tb_indexes tb) (tb_foreign tb)]> s)
          else None
      | None => None
      end
  | CreateIndex t i =>
      match s !! t with
      | Some tb =>
          if forallb (has_column s t) (ix_columns i)
             && negb (existsb (λ j, ix_name j == ix_name i) (tb_indexes tb))
          then Some (<[t := mkTable (tb_columns tb) (tb_indexes tb ++ [i]) (tb_foreign tb)]> s)
          else None
      | None => None
      end
  | AddForeignKey t f =>
      match s !! t with
      | Some tb =>
          if reference_admitted s (tb_columns tb) f && negb (constraint_used s (fk_name f))
          then Some (<[t := mkTable (tb_columns tb) (tb_indexes tb) (tb_foreign tb ++ [f])]> s)
          else None
      | None => None
      end
  | UpdateRows columns => if forallb (λ p, has_column s p.1 p.2) columns then Some s else None
  end.

(** The connection: the schema and the number of the next statement. *)
Record SchemaConn := mkSchemaConn { sc_schema : Schema; sc_step : nat }.

Section schema.
Context (fault : nat → option string) (refusal : Statement → string) (text_default : bool).

Definition execute (d : Statement) : ME SchemaConn string unit := λ c,
  match fault (sc_step c) with
  | Some e => (Returned (Err e), mkSchemaConn (sc_schema c) (S (sc_step c)))
  | None =>
      match run_statement text_default d (sc_schema c) with
      | Some s => (Returned (Ok tt), mkSchemaConn s (S (sc_step c)))
      | None => (Returned (Err (refusal d)), mkSchemaConn (sc_schema c) (S (sc_step c)))
      end
  end.

(** A query on [information_schema]. *)
Definition inspect {A} (f : Schema → A) : ME SchemaConn string A := λ c,
  match fault (sc_step c) with
  | Some e => (Returned (Err e), mkSchemaConn (sc_schema c) (S (sc_step c)))
  | None => (Returned (Ok (f (sc_schema c))), mkSchemaConn (sc_schema c) (S (sc_step c)))
  end.

(** [.map_err(|e| StorageError::Database(format!("{}: {}", what, e)))?]. *)
Definition db_step {A} (what : string) (m : ME SchemaConn string A) : M SchemaConn A :=
  mmap_err (λ e, Database (what +:+ ": " +:+ e)) m.
(** [.ok()], and a failure that is only logged. *)
Definition ignored {A} (m : ME SchemaConn string A) : M SchemaConn unit := mtry m (λ _, ret tt).
(** [.unwrap_or(d)]. *)
Definition or_else {A} (d : A) (m : ME SchemaConn string A) : M SchemaConn A :=
  mtry m (λ r, ret (match r with Ok a => a | Err _ => d end)).

Fixpoint run_steps {A} (steps : list (M A unit)) : M A unit :=
  match steps with
  | [] => ret tt
  | m :: steps => _ ←? m; run_steps steps
  end.

(** ** [init_schema] *)

Definition accounts_table : Statement :=
  CreateTable true "accounts"
    [not_null "id" (Varchar 36); not_null "email" (Varchar 255); not_null "account_hash" (Varchar 255);
     not_null "name" (Varchar 255); nullable "password_hash" (Varchar 255); nullable "salt" (Varchar 255);
     not_null "created_at" BigInt; not_null "updated_at" BigInt; nullable "last_login" BigInt;
     defaulted "is_active" Boolean "TRUE"]
    [primary_key "account_hash"] [].

Definition auth_tokens_table : Statement :=
  CreateTable true "auth_tokens"
    [not_null "id" (Varchar 36); not_null "token" (Varchar 255); not_null "account_hash" (Varchar 255);
     not_null "created_at" BigInt; not_null "expires_at" BigInt; defaulted "is_active" Boolean "TRUE"]
    [primary_key "token"; index ["account_hash"]] [of_account].

Definition devices_table : Statement :=
  CreateTable true "devices"
    [not_null "id" (Varchar 36); not_null "account_hash" (Varchar 255); not_null "device_hash" (Varchar 255);
     not_null "device_name" (Varchar 255); nullable "device_type" (Varchar 50); nullable "os_type" (Varchar 50);
     nullable "os_version" (Varchar 50); nullable "app_version" (Varchar 50); nullable "last_sync" BigInt;
     not_null "created_at" BigInt; not_null "updated_at" BigInt; defaulted "is_active" Boolean "TRUE"]
    [primary_key "device_hash"; index ["account_hash"]] [of_account].

Definition files_table : Statement :=
  CreateTable true "files"
    [auto_increment "id" BigIntUnsigned; not_null "file_id" BigIntUnsigned;
     not_null "account_hash" (Varchar 255); not_null "device_hash" (Varchar 255);
     not_null "file_path" (Varbinary 2048); not_null "filename" (Varbinary 512);
     not_null "file_hash" (Varchar 255); defaulted "size" BigInt "0"; defaulted "is_deleted" Boolean "FALSE";
     defaulted "is_encrypted" Boolean "FALSE"; defaulted "revision" BigInt "1";
     not_null "modified_time" BigInt; not_null "upload_time" BigInt; defaulted "group_id" Int "0";
     defaulted "watcher_id" Int "0"; defaulted "server_group_id" Int "0"; defaulted "server_watcher_id" Int "0";
     not_null "eq_index" (Varbinary 32); not_null "token_path" (Varchar 4096); nullable "key_id" (Varchar 64)]
    [primary_key "id"; index ["account_hash"]; index ["file_id"]; index ["file_hash"];
     index ["account_hash"; "group_id"]; index ["eq_index"]; mkIndex "token_path_prefix" ["token_path"] false;
     index ["account_hash"; "key_id"]] [of_account].

Definition encryption_keys_table : Statement :=
  CreateTable true "encryption_keys"
    [auto_increment "id" BigIntUnsigned; not_null "account_hash" (Varchar 255);
     not_null "encryption_key" (Varchar 255); not_null "created_at" BigInt; not_null "updated_at" BigInt]
    [primary_key "id"; unique ["account_hash"]] [of_account].

Definition init_schema : M SchemaConn unit :=
  _ ←? db_step "Failed to create accounts table" (execute accounts_table);
  _ ←? db_step "Failed to create auth_tokens table" (execute auth_tokens_table);
  _ ←? db_step "Failed to create devices table" (execute devices_table);
  _ ←? db_step "Failed to create files table" (execute files_table);
  db_step "Failed to create encryption_keys table" (execute encryption_keys_table).

(** ** [migrate_schema] *)

Definition rename_presets : M SchemaConn unit :=
  has_presets_column ←? db_step "컬럼 존재 여부 확인 실패" (inspect (λ s, has_column s "watcher_presets" "presets"));
  if has_presets_column : bool then
    db_step "presets 컬럼 이름 변경 실패"
      (execute (ChangeColumn "watcher_presets" "presets" (not_null "preset_json" Text)))
  else ret tt.

Definition add_is_encrypted : M SchemaConn unit :=
  has_is_encrypted ←? db_step "컬럼 존재 여부 확인 실패" (inspect (λ s, has_column s "files" "is_encrypted"));
  if has_is_encrypted : bool then ret tt
  else db_step "is_encrypted 컬럼 추가 실패"
         (execute (AddColumn "files" (defaulted "is_encrypted" Boolean "FALSE") None)).

Definition add_operation_type : M SchemaConn unit :=
  has_operation_type ←? db_step "컬럼 존재 여부 확인 실패" (inspect (λ s, has_column s "files" "operation_type"));
  if has_operation_type : bool then ret tt
  else
    _ ←? db_step "operation_type 컬럼 추가 실패"
           (execute (AddColumn "files" (defaulted "operation_type" (Varchar 20) "UPLOAD") None));
    db_step "operation_type 기본값 설정 실패" (execute (UpdateRows [("files", "operation_type")])).

(** Some index of the table has the column. *)
Definition column_indexed (s : Schema) (t c : string) (unique_only : bool) : bool :=
  match s !! t with
  | Some tb => existsb (λ i, (negb unique_only || ix_unique i) && bool_decide (c ∈ ix_columns i)) (tb_indexes tb)
  | None => false
  end.

Definition add_eq_index : M SchemaConn unit :=
  has_eq_index ←? db_step "컬럼 존재 여부 확인 실패" (inspect (λ s, has_column s "files" "eq_index"));
  if has_eq_index : bool then ret tt
  else
    _ ←? db_step "eq_index 컬럼 추가 실패"
           (execute (AddColumn "files" (nullable "eq_index" (Varbinary 32)) None));
    has_eq_index_idx ←? db_step "eq_index 인덱스 확인 실패"
                          (inspect (λ s, column_indexed s "files" "eq_index" false));
    if has_eq_index_idx : bool then ret tt
    else db_step "eq_index 인덱스 생성 실패"
           (execute (CreateIndex "files" (mkIndex "idx_files_eq_index" ["eq_index"] false))).

Definition account_keyid_index : Statement :=
  CreateIndex "files" (mkIndex "idx_files_account_keyid" ["account_hash"; "key_id"] false).
Definition server_group_id_column : Statement :=
  AddColumn "files" (defaulted "server_group_id" Int "0") None.

Definition add_token_path : M SchemaConn unit :=
  has_token_path ←? db_step "컬럼 존재 여부 확인 실패" (inspect (λ s, has_column s "files" "token_path"));
  if has_token_path : bool then ret tt
  else
    _ ←? ignored (execute (AddColumn "files" (nullable "token_path" (Varchar 4096)) None));
    _ ←? ignored (execute account_keyid_index);
    ignored (execute server_group_id_column).

Definition add_key_id : M SchemaConn unit :=
  has_key_id ←? db_step "컬럼 존재 여부 확인 실패" (inspect (λ s, has_column s "files" "key_id"));
  if has_key_id : bool then ret tt
  else
    _ ←? db_step "key_id 컬럼 추가 실패" (execute (AddColumn "files" (nullable "key_id" (Varchar 64)) None));
    ignored (execute account_keyid_index).

Definition add_server_group_id : M SchemaConn unit :=
  has_server_group_id ←? db_step "server_group_id 컬럼 존재 여부 확인 실패"
                           (inspect (λ s, has_column s "files" "server_group_id"));
  if has_server_group_id : bool then ret tt
  else db_step "server_group_id 컬럼 추가 실패" (execute server_group_id_column).

Definition add_server_watcher_id : M SchemaConn unit :=
  has_server_watcher_id ←? db_step "server_watcher_id 컬럼 존재 여부 확인 실패"
                             (inspect (λ s, has_column s "files" "server_watcher_id"));
  if has_server_watcher_id : bool then ret tt
  else db_step "server_watcher_id 컬럼 추가 실패"
         (execute (AddColumn "files" (defaulted "server_watcher_id" Int "0") None)).

(** [SELECT DATA_TYPE = 'varbinary' ..]; no row is an error as well. *)
Definition is_varbinary (s : Schema) (t c : string) : bool :=
  match column s t c with
  | Some col => match col_type col with Varbinary _ => true | _ => false end
  | None => false
  end.

Definition make_path_binary : M SchemaConn unit :=
  path_is_varbinary ←? or_else false (inspect (λ s, is_varbinary s "files" "file_path"));
  if path_is_varbinary : bool then ret tt
  else db_step "file_path 컬럼 형식 변경 실패"
         (execute (ModifyColumn "files" (not_null "file_path" (Varbinary 2048)))).

Definition make_name_binary : M SchemaConn unit :=
  name_is_varbinary ←? or_else false (inspect (λ s, is_varbinary s "files" "filename"));
  if name_is_varbinary : bool then ret tt
  else db_step "filename 컬럼 형식 변경 실패"
         (execute (ModifyColumn "files" (not_null "filename" (Varbinary 512)))).

Definition watcher_conditions_table : Statement :=
  CreateTable false "watcher_conditions"
    [auto_increment "id" BigInt; not_null "account_hash" (Varchar 255); not_null "watcher_id" Int;
     not_null "condition_type" (Enum ["union"; "subtract"]); not_null "key" (Varchar 255); not_null "value" Json;
     defaulted "operator" (Varchar 50) "equals"; not_null "created_at" BigInt; not_null "updated_at" BigInt]
    [primary_key "id"; index ["account_hash"]; index ["watcher_id"]; index ["account_hash"; "watcher_id"]]
    [of_account].

Definition ensure_watcher_conditions : M SchemaConn unit :=
  has_watcher_conditions_table ←? db_step "테이블 존재 여부 확인 실패"
                                    (inspect (λ s, has_table s "watcher_conditions"));
  if negb has_watcher_conditions_table
  then db_step "watcher_conditions 테이블 생성 실패" (execute watcher_conditions_table)
  else
    has_account_hash_in_conditions ←? db_step "컬럼 존재 여부 확인 실패"
      (inspect (λ s, has_column s "watcher_conditions" "account_hash"));
    if has_account_hash_in_conditions : bool then ret tt
    else
      _ ←? db_step "account_hash 컬럼 추가 실패"
             (execute (AddColumn "watcher_conditions" (defaulted "account_hash" (Varchar 255) "") None));
      _ ←? db_step "account_hash 업데이트 실패"
             (execute (UpdateRows [("watcher_conditions", "watcher_id"); ("watchers", "id");
                                   ("watcher_conditions", "account_hash"); ("watchers", "account_hash")]));
      _ ←? db_step "외래키 제약조건 추가 실패"
             (execute (AddForeignKey "watcher_conditions"
                         (mkForeignKey "fk_watcher_conditions_account" "account_hash" "accounts" "account_hash")));
      _ ←? db_step "인덱스 추가 실패"
             (execute (CreateIndex "watcher_conditions"
                         (mkIndex "idx_watcher_conditions_account_hash" ["account_hash"] false)));
      db_step "복합 인덱스 추가 실패"
        (execute (CreateIndex "watcher_conditions"
                    (mkIndex "idx_watcher_conditions_account_watcher" ["account_hash"; "watcher_id"] false))).

Definition watcher_groups_table : Statement :=
  CreateTable false "watcher_groups"
    [auto_increment "id" Int; not_null "account_hash" (Varchar 255); not_null "group_id" Int;
     not_null "title" (Varchar 255); not_null "created_at" BigInt; not_null "updated_at" BigInt;
     defaulted "is_active" Boolean "TRUE"]
    [primary_key "id"; mkIndex "uniq_account_group" ["account_hash"; "group_id"] true; index ["account_hash"]]
    [of_account].

Definition ensure_watcher_groups : M SchemaConn unit :=
  has_watcher_groups_table ←? db_step "테이블 존재 여부 확인 실패" (inspect (λ s, has_table s "watcher_groups"));
  if has_watcher_groups_table : bool then ret tt
  else db_step "watcher_groups 테이블 생성 실패" (execute watcher_groups_table).

Definition watchers_table : Statement :=
  CreateTable false "watchers"
    [auto_increment "id" Int; defaulted "watcher_id" Int "0"; not_null "account_hash" (Varchar 255);
     not_null "group_id" Int; not_null "local_group_id" Int; not_null "folder" (Varchar 2048);
     not_null "title" (Varchar 255); defaulted "is_recursive" Boolean "TRUE"; not_null "created_at" BigInt;
     not_null "updated_at" BigInt; defaulted "is_active" Boolean "TRUE"; not_null "extra_json" Text]
    [primary_key "id"; index ["account_hash"]; index ["group_id"];
     index ["account_hash"; "local_group_id"; "watcher_id"]]
    [of_account; mkForeignKey "" "group_id" "watcher_groups" "id"].

Definition ensure_watchers : M SchemaConn unit :=
  has_watchers_table ←? db_step "테이블 존재 여부 확인 실패" (inspect (λ s, has_table s "watchers"));
  if has_watchers_table : bool then ret tt
  else
    _ ←? db_step "watchers 테이블 생성 실패" (execute watchers_table);
    ignored (execute (AddForeignKey "watcher_conditions"
                        (mkForeignKey "fk_watcher_conditions_watcher" "watcher_id" "watchers" "id"))).

Definition uniq_watchers : Index :=
  mkIndex "uniq_watchers_acc_local_wid" ["account_hash"; "local_group_id"; "watcher_id"] true.

Definition has_index (s : Schema) (t name : string) : bool :=
  match s !! t with
  | Some tb => existsb (λ i, (ix_name i == name) && ix_unique i) (tb_indexes tb)
  | None => false
  end.

Definition ensure_unique_watchers : M SchemaConn unit :=
  has_unique_acc_local_wid ←? or_else false (inspect (λ s, has_index s "watchers" (ix_name uniq_watchers)));
  if has_unique_acc_local_wid : bool then ret tt else ignored (execute (CreateIndex "watchers" uniq_watchers)).

Definition add_watcher_id : M SchemaConn unit :=
  has_watcher_id_in_watchers ←? db_step "컬럼 존재 여부 확인 실패" (inspect (λ s, has_column s "watchers" "watcher_id"));
  if has_watcher_id_in_watchers : bool then ret tt
  else
    _ ←? db_step "watcher_id 컬럼 추가 실패"
           (execute (AddColumn "watchers" (defaulted "watcher_id" Int "0") (Some "id")));
    db_step "watcher_id 기본값 설정 실패" (execute (UpdateRows [("watchers", "watcher_id"); ("watchers", "id")])).

(** The remaining columns of [watchers]; a failed query counts as "not needed". *)
Definition needs (c : string) : M SchemaConn bool :=
  or_else false (inspect (λ s, negb (has_column s "watchers" c))).

Definition add_local_group_id : M SchemaConn unit :=
  need_local_group_id ←? needs "local_group_id";
  if need_local_group_id : bool then
    _ ←? db_step "local_group_id 추가 실패"
           (execute (AddColumn "watchers" (defaulted "local_group_id" Int "0") (Some "group_id")));
    ignored (execute (CreateIndex "watchers"
      (mkIndex "idx_watchers_account_local_wid" ["account_hash"; "local_group_id"; "watcher_id"] false)))
  else ret tt.

Definition add_is_recursive : M SchemaConn unit :=
  need_is_recursive ←? needs "is_recursive";
  if need_is_recursive : bool
  then db_step "is_recursive 추가 실패"
         (execute (AddColumn "watchers" (defaulted "is_recursive" Boolean "TRUE") None))
  else ret tt.

Definition add_extra_json : M SchemaConn unit :=
  need_extra_json ←? needs "extra_json";
  if need_extra_json : bool
  then db_step "extra_json 추가 실패" (execute (AddColumn "watchers" (defaulted "extra_json" Text "") None))
  else ret tt.

Definition add_title : M SchemaConn unit :=
  need_title ←? needs "title";
  if need_title : bool
  then db_step "title 추가 실패"
         (execute (AddColumn "watchers" (defaulted "title" (Varchar 255) "Watcher") (Some "folder")))
  else ret tt.

Definition add_folder : M SchemaConn unit :=
  need_folder ←? needs "folder";
  if need_folder : bool
  then db_step "folder 추가 실패"
         (execute (AddColumn "watchers" (defaulted "folder" (Varchar 2048) "") (Some "local_group_id")))
  else ret tt.

(** [created_at], [updated_at] and [is_active]: a failure is ignored. *)
Definition add_optional (c : Column) : M SchemaConn unit :=
  need ←? needs (col_name c);
  if need : bool then ignored (execute (AddColumn "watchers" c None)) else ret tt.

Definition watcher_presets_table : Statement :=
  CreateTable false "watcher_presets"
    [auto_increment "id" BigInt; not_null "account_hash" (Varchar 255); not_null "preset_json" Text;
     not_null "created_at" BigInt; not_null "updated_at" BigInt]
    [primary_key "id"; unique ["account_hash"]] [of_account].

Definition ensure_watcher_presets : M SchemaConn unit :=
  has_watcher_presets ←? db_step "watcher_presets 테이블 확인 실패"
                           (inspect (λ s, has_table s "watcher_presets"));
  if negb has_watcher_presets
  then db_step "watcher_presets 테이블 생성 실패" (execute watcher_presets_table)
  else
    has_preset_json ←? or_else false (inspect (λ s, has_column s "watcher_presets" "preset_json"));
    _ ←? (if has_preset_json : bool then ret tt
          else ignored (execute (AddColumn "watcher_presets" (not_null "preset_json" Text) None)));
    has_unique ←? db_step "watcher_presets 인덱스 확인 실패"
                    (inspect (λ s, column_indexed s "watcher_presets" "account_hash" true));
    if has_unique : bool then ret tt
    else ignored (execute (CreateIndex "watcher_presets" (mkIndex "uniq_account_hash" ["account_hash"] true))).

Definition migrate_steps : list (M SchemaConn unit) :=
  [rename_presets; add_is_encrypted; add_operation_type; add_eq_index; add_token_path; add_key_id;
   add_server_group_id; add_server_watcher_id; make_path_binary; make_name_binary;
   ensure_watcher_conditions; ensure_watcher_groups; ensure_watchers; ensure_unique_watchers;
   add_watcher_id; add_local_group_id; add_is_recursive; add_extra_json; add_title; add_folder;
   add_optional (defaulted "created_at" BigInt "0"); add_optional (defaulted "updated_at" BigInt "0");
   add_optional (defaulted "is_active" Boolean "TRUE"); ensure_watcher_presets].

Definition migrate_schema : M SchemaConn unit := run_steps migrate_steps.

(** The start of a server ([StorageFactory::create_mysql_storage]): failures of both
    are logged, and the storage is used all the same. *)
Definition prepare_schema : M SchemaConn unit :=
  mtry init_schema (λ _, mtry migrate_schema (λ _, ret tt)).

End schema.

(** ** The insertions of the storage

    Table and columns of the statements with which the storage writes new rows. *)

Record Insert := mkInsert { in_table : string; in_columns : list string }.

Definition insert_account : Insert :=
  mkInsert "accounts" ["id"; "account_hash"; "email"; "name"; "password_hash"; "salt"; "created_at"; "updated_at";
                       "last_login"; "is_active"].
Definition insert_token : Insert :=
  mkInsert "auth_tokens" ["id"; "account_hash"; "access_token"; "refresh_token"; "token_type"; "expires_at";
                          "created_at"].
Definition insert_device : Insert :=
  mkInsert "devices" ["id"; "account_hash"; "device_hash"; "device_name"; "device_type"; "os_type"; "os_version";
                      "app_version"; "last_sync"; "created_at"; "updated_at"; "is_active"].
Definition insert_file : Insert :=
  mkInsert "files" ["file_id"; "account_hash"; "device_hash"; "file_path"; "filename"; "file_hash"; "size";
                    "is_deleted"; "revision"; "created_time"; "updated_time"; "group_id"; "watcher_id";
                    "server_group_id"; "server_watcher_id"; "eq_index"; "token_path"; "key_id"].
Definition insert_version : Insert :=
  mkInsert "files" ["file_id"; "account_hash"; "device_hash"; "file_path"; "filename"; "file_hash"; "size";
                    "is_deleted"; "revision"; "created_time"; "updated_time"; "group_id"; "watcher_id";
                    "server_group_id"; "server_watcher_id"; "key_id"].
Definition insert_data : Insert := mkInsert "file_data" ["file_id"; "data"; "created_at"; "updated_at"].
Definition insert_key : Insert :=
  mkInsert "encryption_keys" ["account_hash"; "encryption_key"; "created_at"; "updated_at"].
Definition insert_group : Insert :=
  mkInsert "watcher_groups" ["group_id"; "account_hash"; "device_hash"; "title"; "created_at"; "updated_at";
                             "is_active"].
Definition insert_watcher : Insert :=
  mkInsert "watchers" ["watcher_id"; "account_hash"; "group_id"; "local_group_id"; "folder"; "title";
                       "is_recursive"; "created_at"; "updated_at"; "is_active"; "extra_json"].
Definition insert_condition : Insert :=
  mkInsert "watcher_conditions" ["account_hash"; "watcher_id"; "local_watcher_id"; "local_group_id";
                                 "condition_type"; "key"; "value"; "operator"; "created_at"; "updated_at"].
Definition insert_preset : Insert :=
  mkInsert "watcher_presets" ["account_hash"; "preset_json"; "created_at"; "updated_at"].
Definition insert_notice : Insert :=
  mkInsert "file_notices" ["account_hash"; "device_hash"; "path"; "action"; "timestamp"; "file_id"; "group_id";
                           "watcher_id"; "revision"].

(** The database admits the statement: the columns are there, and those it leaves
    out may be left out. *)
Definition optional_column (c : Column) : bool :=
  negb (col_not_null c) || bool_decide (is_Some (col_default c)) || col_auto c.

Definition admits (s : Schema) (i : Insert) : bool :=
  match s !! in_table i with
  | Some t =>
      forallb (has_column s (in_table i)) (in_columns i)
      && forallb (λ c, optional_column c || bool_decide (col_name c ∈ in_columns i)) (tb_columns t)
  | None => false
  end.
