(* ===== verification/SchemaProps.v ===== *)
(** * Properties of the schema migrations

    What a start can and cannot do to a schema, by invariants that every statement
    keeps, and what a start that nothing disturbs establishes. *)

From S2P Require Import Prelude RustString Errors Memory Effects Schema.

Create HintDb schema.

(** ** Invariants of schemas *)

Section invariants.
Context (fault : nat → option string) (refusal : Statement → string) (text_default : bool).

(** A computation keeps a predicate on the schema. *)
Definition keeps {E A} (P : Schema → Prop) (m : ME SchemaConn E A) : Prop :=
  ∀ c, P (sc_schema c) → P (sc_schema (m c).2).

(** A statement keeps it, when the database runs it. *)
Definition statement_keeps (P : Schema → Prop) (d : Statement) : Prop :=
  ∀ s s', P s → run_statement text_default d s = Some s' → P s'.

Lemma keeps_ret {E A} P (a : A) : keeps (E := E) P (ret a).
Proof. by intros c. Qed.

Lemma keeps_then {E A B} P (m : ME SchemaConn E A) (k : A → ME SchemaConn E B) :
  keeps P m → (∀ a, keeps P (k a)) → keeps P (mthen m k).
Proof.
  intros Hm Hk c HP. unfold mthen. specialize (Hm c HP). destruct (m c) as [[[a|e]|] c']; [|done..].
  by apply Hk.
Qed.

Lemma keeps_try {E E' A B} P (m : ME SchemaConn E A) (k : result A E → ME SchemaConn E' B) :
  keeps P m → (∀ r, keeps P (k r)) → keeps P (mtry m k).
Proof.
  intros Hm Hk c HP. unfold mtry. specialize (Hm c HP). destruct (m c) as [[r|] c']; [|done].
  by apply Hk.
Qed.

Lemma keeps_map_err {E E' A} P (f : E → E') (m : ME SchemaConn E A) : keeps P m → keeps P (mmap_err f m).
Proof. intros Hm c HP. unfold mmap_err. specialize (Hm c HP). by destruct (m c) as [[r|] c']. Qed.

Lemma keeps_inspect {A} P (f : Schema → A) : keeps P (inspect fault f).
Proof. intros c HP. unfold inspect. by destruct (fault (sc_step c)). Qed.

Lemma keeps_execute P d : statement_keeps P d → keeps P (execute fault refusal text_default d).
Proof.
  intros Hd c HP. unfold execute. destruct (fault (sc_step c)); [done|].
  destruct (run_statement text_default d (sc_schema c)) eqn:E; [|done]. by eapply Hd.
Qed.

Lemma keeps_if {E A} P (b : bool) (m n : ME SchemaConn E A) : keeps P m → keeps P n → keeps P (if b then m else n).
Proof. by destruct b. Qed.

Lemma keeps_steps P l : Forall (keeps P) l → keeps P (run_steps l).
Proof. induction 1; [apply keeps_ret|by apply keeps_then]. Qed.

(** The statements of a start, up to the step [add_title] and after it. *)
Definition early_statements : list Statement :=
  [accounts_table; auth_tokens_table; devices_table; files_table; encryption_keys_table;
   ChangeColumn "watcher_presets" "presets" (not_null "preset_json" Text);
   AddColumn "files" (defaulted "is_encrypted" Boolean "FALSE") None;
   AddColumn "files" (defaulted "operation_type" (Varchar 20) "UPLOAD") None;
   UpdateRows [("files", "operation_type")];
   AddColumn "files" (nullable "eq_index" (Varbinary 32)) None;
   CreateIndex "files" (mkIndex "idx_files_eq_index" ["eq_index"] false);
   AddColumn "files" (nullable "token_path" (Varchar 4096)) None;
   account_keyid_index; server_group_id_column;
   AddColumn "files" (nullable "key_id" (Varchar 64)) None;
   AddColumn "files" (defaulted "server_watcher_id" Int "0") None;
   ModifyColumn "files" (not_null "file_path" (Varbinary 2048));
   ModifyColumn "files" (not_null "filename" (Varbinary 512));
   watcher_conditions_table;
   AddColumn "watcher_conditions" (defaulted "account_hash" (Varchar 255) "") None;
   UpdateRows [("watcher_conditions", "watcher_id"); ("watchers", "id");
               ("watcher_conditions", "account_hash"); ("watchers", "account_hash")];
   AddForeignKey "watcher_conditions"
     (mkForeignKey "fk_watcher_conditions_account" "account_hash" "accounts" "account_hash");
   CreateIndex "watcher_conditions" (mkIndex "idx_watcher_conditions_account_hash" ["account_hash"] false);
   CreateIndex "watcher_conditions"
     (mkIndex "idx_watcher_conditions_account_watcher" ["account_hash"; "watcher_id"] false);
   watcher_groups_table; watchers_table;
   AddForeignKey "watcher_conditions" (mkForeignKey "fk_watcher_conditions_watcher" "watcher_id" "watchers" "id");
   CreateIndex "watchers" uniq_watchers;
   AddColumn "watchers" (defaulted "watcher_id" Int "0") (Some "id");
   UpdateRows [("watchers", "watcher_id"); ("watchers", "id")];
   AddColumn "watchers" (defaulted "local_group_id" Int "0") (Some "group_id");
   CreateIndex "watchers"
     (mkIndex "idx_watchers_account_local_wid" ["account_hash"; "local_group_id"; "watcher_id"] false);
   AddColumn "watchers" (defaulted "is_recursive" Boolean "TRUE") None;
   AddColumn "watchers" (defaulted "extra_json" Text "") None;
   AddColumn "watchers" (defaulted "title" (Varchar 255) "Watcher") (Some "folder")].
Definition late_statements : list Statement :=
  [AddColumn "watchers" (defaulted "folder" (Varchar 2048) "") (Some "local_group_id");
   AddColumn "watchers" (defaulted "created_at" BigInt "0") None;
   AddColumn "watchers" (defaulted "updated_at" BigInt "0") None;
   AddColumn "watchers" (defaulted "is_active" Boolean "TRUE") None;
   watcher_presets_table;
   AddColumn "watcher_presets" (not_null "preset_json" Text) None;
   CreateIndex "watcher_presets" (mkIndex "uniq_account_hash" ["account_hash"] true)].

Definition start_statements : list Statement := early_statements ++ late_statements.

Ltac keep_steps :=
  unfold rename_presets, add_is_encrypted, add_operation_type, add_eq_index, add_token_path, add_key_id,
    add_server_group_id, add_server_watcher_id, make_path_binary, make_name_binary,
    ensure_watcher_conditions, ensure_watcher_groups, ensure_watchers, ensure_unique_watchers,
    add_watcher_id, add_local_group_id, add_is_recursive, add_extra_json, add_title, add_folder,
    add_optional, ensure_watcher_presets, needs, db_step, ignored, or_else;
  repeat first
    [ apply keeps_ret | apply keeps_inspect
    | apply keeps_execute; eassumption
    | apply keeps_map_err | apply keeps_if
    | apply keeps_then; [|intros ?] | apply keeps_try; [|intros ?] ].

(** The steps keep what their statements keep. *)
Lemma early_steps_keep P : Forall (statement_keeps P) early_statements →
  keeps P (init_schema fault refusal text_default)
  ∧ Forall (keeps P) (take 19 (migrate_steps fault refusal text_default)).
Proof.
  unfold early_statements. intros HP. repeat (apply Forall_cons in HP as [? HP]). split.
  - unfold init_schema. keep_steps.
  - unfold migrate_steps. cbn [take]. repeat (constructor; [|]); [..|constructor]. all: keep_steps.
Qed.

Lemma late_steps_keep P : Forall (statement_keeps P) late_statements →
  Forall (keeps P) (drop 19 (migrate_steps fault refusal text_default)).
Proof.
  unfold late_statements. intros HP. repeat (apply Forall_cons in HP as [? HP]).
  unfold migrate_steps. cbn [drop]. repeat (constructor; [|]); [..|constructor]. all: keep_steps.
Qed.

Lemma start_keeps P : Forall (statement_keeps P) start_statements →
  keeps P (init_schema fault refusal text_default)
  ∧ Forall (keeps P) (migrate_steps fault refusal text_default).
Proof.
  unfold start_statements. intros [He Hl]%Forall_app. destruct (early_steps_keep P He) as [Hi Hs].
  split; [done|]. rewrite <- (take_drop 19 (migrate_steps fault refusal text_default)).
  apply Forall_app. split; [done|by apply late_steps_keep].
Qed.

End invariants.

(** ** Columns *)

Lemma table_column_spec tb c col : table_column tb c = Some col → In col (tb_columns tb) ∧ col_name col = c.
Proof.
  unfold table_column. intros H. apply List.find_some in H as [Hi Hc]. split; [done|].
  by apply bool_decide_eq_true in Hc.
Qed.

Lemma has_column_true s t c :
  has_column s t c = true ↔ ∃ tb col, s !! t = Some tb ∧ In col (tb_columns tb) ∧ col_name col = c.
Proof.
  unfold has_column, column. rewrite bool_decide_eq_true. split.
  - intros [col E]. destruct (s !! t) as [tb|] eqn:Et; [|done]. apply table_column_spec in E as [? ?].
    by exists tb, col.
  - intros (tb & col & -> & Hi & <-). cbn. destruct (table_column tb (col_name col)) eqn:E; [by eexists|].
    unfold table_column in E. eapply List.find_none in E; [|exact Hi]. by rewrite bool_decide_eq_false in E.
Qed.

Lemma has_column_insert s t tb t' c :
  has_column (<[t := tb]> s) t' c = true ↔
  if decide (t' = t) then ∃ col, In col (tb_columns tb) ∧ col_name col = c else has_column s t' c = true.
Proof.
  destruct (decide (t' = t)) as [->|Hne].
  - rewrite has_column_true. setoid_rewrite lookup_insert_eq. split.
    + intros (? & col & [= <-] & ?). by exists col.
    + intros (col & ?). by exists tb, col.
  - unfold has_column, column. by rewrite lookup_insert_ne.
Qed.

(** Whether a statement may bring or take a column. *)
Definition brings (d : Statement) (t c : string) : bool :=
  match d with
  | CreateTable _ name columns _ _ => (name == t) && existsb (λ col, col_name col == c) columns
  | AddColumn t' col _ | ChangeColumn t' _ col => (t' == t) && (col_name col == c)
  | _ => false
  end.
Definition takes (d : Statement) (t c : string) : bool :=
  match d with ChangeColumn t' old _ => (t' == t) && (old == c) | _ => false end.

Lemma in_insert_after a c x l : In x (insert_after a c l) ↔ x = c ∨ In x l.
Proof.
  induction l as [|y l IH]; cbn; [intuition|]. destruct (col_name y == a); cbn; rewrite ?IH; intuition.
Qed.

Lemma create_columns td ine t' cols idx fks s s' t c :
  run_statement td (CreateTable ine t' cols idx fks) s = Some s' →
  s' = s ∨ (s !! t' = None ∧ has_column s' t c
                = if decide (t = t') then existsb (λ col, col_name col == c) cols else has_column s t c).
Proof.
  cbn. unfold has_table. destruct (bool_decide (is_Some (s !! t'))) eqn:Ht.
  { destruct ine; [|done]. intros [= <-]. by left. }
  destruct (_ && _); [|done]. intros [= <-]. right. apply bool_decide_eq_false in Ht.
  split; [by apply eq_None_not_Some|]. apply Bool.eq_true_iff_eq. rewrite has_column_insert.
  destruct (decide (t = t')); [|done]. rewrite existsb_exists. cbn. by setoid_rewrite bool_decide_eq_true.
Qed.

(** A statement keeps the columns it does not take. *)
Lemma statement_keeps_column td d t c :
  takes d t c = false → statement_keeps td (λ s, has_column s t c = true) d.
Proof.
  intros Hk s s' Hc. destruct d as [ine t' cols idx fks|t' col after|t' old col|t' col|t' i|t' f|l].
  { intros E. destruct (create_columns _ _ _ _ _ _ _ _ t c E) as [->|[Hn ->]]; [done|].
    rewrite decide_False; [done|]. intros ->. apply has_column_true in Hc as (tb & _ & E' & _). congruence. }
  all: cbn; try (destruct (s !! t') as [tb|] eqn:Et; [|done]); repeat case_match; try done; intros [= <-];
    try done; apply has_column_insert; destruct (decide (t = t')) as [->|]; try done; cbn;
    apply has_column_true in Hc as (tb' & x & Et' & Hx & <-); rewrite Et in Et'; injection Et' as <-.
  - exists x. rewrite in_insert_after. auto.
  - exists x. rewrite in_app_iff. auto.
  - exists x. split; [|done]. apply in_map_iff. exists x. split; [|done]. cbn in Hk.
    rewrite bool_decide_eq_true_2 in Hk by done. cbn in Hk. apply bool_decide_eq_false in Hk.
    by rewrite bool_decide_eq_false_2.
  - destruct (decide (col_name x = col_name col)) as [E|E].
    + exists col. split; [|done]. apply in_map_iff. exists x. by rewrite bool_decide_eq_true_2.
    + exists x. split; [|done]. apply in_map_iff. exists x. by rewrite bool_decide_eq_false_2.
  - by exists x.
  - by exists x.
Qed.

(** A column that a statement does not bring stays away. *)
Lemma statement_lacks_column td d t c :
  brings d t c = false → statement_keeps td (λ s, has_column s t c = false) d.
Proof.
  intros Hb s s' Hc E. destruct (has_column s' t c) eqn:Hc'; [|done]. exfalso. revert E.
  destruct d as [ine t' cols idx fks|t' col after|t' old col|t' col|t' i|t' f|l].
  { intros E. destruct (create_columns _ _ _ _ _ _ _ _ t c E) as [->|[Hn Hs]]; [congruence|].
    rewrite Hs in Hc'. cbn in Hb. destruct (decide (t = t')) as [->|]; [|congruence].
    rewrite bool_decide_eq_true_2 in Hb by done. cbn in Hb. congruence. }
  all: cbn; try (destruct (s !! t') as [tb|] eqn:Et; [|done]); repeat case_match; try done; intros [= <-];
    try congruence; apply has_column_insert in Hc'; destruct (decide (t = t')) as [->|]; try congruence; cbn in Hc', Hb;
    rewrite ?bool_decide_eq_true_2 in Hb by done; cbn in Hb; rewrite ?bool_decide_eq_false in Hb;
    destruct Hc' as (x & Hx & Ex);
    assert (Hold : ∀ y, In y (tb_columns tb) → col_name y = c → False)
      by (intros y Hy Ey; assert (has_column s t' c = true) by (apply has_column_true; by exists tb, y); congruence).
  - apply in_insert_after in Hx as [->|Hx]; [done|by eapply Hold].
  - apply in_app_iff in Hx as [Hx|[<-|[]]]; [by eapply Hold|done].
  - apply in_map_iff in Hx as (y & Ey & Hy). destruct (col_name y == old); subst; [done|by eapply Hold].
  - apply in_map_iff in Hx as (y & Ey & Hy). destruct (bool_decide (col_name y = col_name col)) eqn:Eb; subst x.
    + apply bool_decide_eq_true in Eb. eapply Hold; [done|congruence].
    + by eapply Hold.
  - by eapply Hold.
  - by eapply Hold.
Qed.

Lemma start_statements_keep_column td t c :
  (t, c) ≠ ("watcher_presets", "presets") →
  Forall (statement_keeps td (λ s, has_column s t c = true)) start_statements.
Proof.
  intros Hne. unfold start_statements, early_statements, late_statements. cbn [app].
  repeat constructor; apply statement_keeps_column; try done.
  cbn. destruct (bool_decide ("watcher_presets" = t)) eqn:E1; [|done].
  destruct (bool_decide ("presets" = c)) eqn:E2; [|done].
  apply bool_decide_eq_true in E1, E2. congruence.
Qed.

(** ** Starts *)

Definition no_fault : nat → option string := λ _, None.

Section starts.
Context (refusal : Statement → string) (text_default : bool).

(** The schema after a number of starts, each with its own faults. *)
Fixpoint after_starts (starts : list (nat → option string)) (s : Schema) : Schema :=
  match starts with
  | [] => s
  | fault :: starts =>
      after_starts starts (sc_schema (prepare_schema fault refusal text_default (mkSchemaConn s 0)).2)
  end.

Lemma starts_keep P starts s : Forall (statement_keeps text_default P) start_statements →
  P s → P (after_starts starts s).
Proof.
  intros HP. revert s. induction starts as [|fault starts IH]; intros s Hs; [done|]. cbn. apply IH.
  destruct (start_keeps fault refusal text_default P HP) as [Hi Hm%keeps_steps]. unfold prepare_schema.
  assert (keeps P (mtry (init_schema fault refusal text_default)
    (λ _, mtry (migrate_schema fault refusal text_default) (λ _, ret (E := StorageError) tt)))) as K.
  { apply keeps_try; [done|]. intros _. apply keeps_try; [done|]. intros _. apply keeps_ret. }
  by apply K.
Qed.

Lemma starts_keep_column starts s t c :
  (t, c) ≠ ("watcher_presets", "presets") → has_column s t c = true → has_column (after_starts starts s) t c = true.
Proof. intros Hne. by apply (starts_keep (λ s, has_column s t c = true)), start_statements_keep_column. Qed.

Lemma starts_lack_column starts s t c :
  forallb (λ d, negb (brings d t c)) start_statements = true →
  has_column s t c = false → has_column (after_starts starts s) t c = false.
Proof.
  intros Hb. apply (starts_keep (λ s, has_column s t c = false)).
  apply Forall_forall. intros d Hd. apply statement_lacks_column.
  rewrite forallb_forall in Hb. apply negb_true_iff, Hb. by apply list_elem_of_In.
Qed.

Lemma admits_needs_column s i c : c ∈ in_columns i → has_column s (in_table i) c = false → admits s i = false.
Proof.
  intros Hc Hn. unfold admits. destruct (s !! in_table i); [|done]. apply andb_false_iff. left.
  apply not_true_iff_false. rewrite forallb_forall. intros H. apply list_elem_of_In in Hc.
  specialize (H c Hc). congruence.
Qed.

(** The insertions that name a column no start creates, each with that column. *)
Definition unmet : list (Insert * string) :=
  [(insert_file, "created_time"); (insert_version, "created_time"); (insert_token, "access_token");
   (insert_group, "device_hash"); (insert_condition, "local_watcher_id"); (insert_data, "data");
   (insert_notice, "path")].

(** C16: A database that the server itself has set up, starting from an empty one,
    never admits the insertions of a file, a file version, file contents, a token,
    a watcher group, a condition or a notice, whatever happened during any number
    of starts: the statements name columns that neither [init_schema] nor
    [migrate_schema] creates, and [file_data] and [file_notices] are no tables. *)
Theorem fresh_database_refuses_inserts starts :
  Forall (λ i, admits (after_starts starts ∅) i = false)
    [insert_file; insert_version; insert_token; insert_group; insert_condition; insert_data; insert_notice].
Proof.
  assert (Hu : forallb (λ p, forallb (λ d, negb (brings d (in_table p.1) p.2)) start_statements
                             && bool_decide (p.2 ∈ in_columns p.1)) unmet = true) by (vm_compute; reflexivity).
  assert (H : Forall (λ p, admits (after_starts starts ∅) p.1 = false) unmet).
  { apply Forall_forall. intros p Hp. apply list_elem_of_In in Hp. rewrite forallb_forall in Hu.
    apply Hu, andb_true_iff in Hp as [Hb Hc]. apply bool_decide_eq_true in Hc.
    eapply admits_needs_column; [exact Hc|]. by apply starts_lack_column. }
  exact (proj2 (Forall_fmap fst (λ i, admits (after_starts starts ∅) i = false) unmet) H).
Qed.

(** No start loses a column, whatever fails: what a table had before any number
    of starts it has afterwards, the renamed [watcher_presets.presets] apart. *)
Theorem starts_lose_no_column starts s t c :
  (t, c) ≠ ("watcher_presets", "presets") → has_column s t c = true →
  has_column (after_starts starts s) t c = true.
Proof. apply starts_keep_column. Qed.

End starts.

Lemma starts_lose_no_column_witness :
  let s : Schema := {[ "files" := mkTable [not_null "created_time" BigInt] [] [] ]} in
  let broken : nat → option string := λ n, if (n =? 9)%nat then Some "connection lost" else None in
  ("files", "created_time") ≠ ("watcher_presets", "presets")
  ∧ has_column (after_starts (λ _, "refused") true [broken; broken] s) "files" "created_time" = true.
Proof.
  intros s broken. split; [discriminate|].
  apply (starts_lose_no_column (λ _, "refused") true [broken; broken] s "files" "created_time");
    [discriminate|vm_compute; reflexivity].
Defined.

(** A start of a fresh database that nothing disturbs completes; the other
    insertions are admitted, and a second start changes nothing. *)

Example fresh_start :
  let run := init_schema no_fault (λ _, "") false (mkSchemaConn ∅ 0) in
  let run' := migrate_schema no_fault (λ _, "") false run.2 in
  let s := sc_schema run'.2 in
  run.1 = Returned (Ok tt) ∧ run'.1 = Returned (Ok tt)
  ∧ forallb (admits s) [insert_account; insert_device; insert_key; insert_watcher; insert_preset] = true
  ∧ map_to_list (sc_schema (prepare_schema no_fault (λ _, "") false (mkSchemaConn s 0)).2) = map_to_list s.
Proof. vm_compute. split_and!; reflexivity. Qed.

(** ** Migrations that never finish *)

Section stuck.
Context (refusal : Statement → string).

(** A table [watchers] from before a column was introduced. *)
Definition lacks (columns : list string) (s : Schema) : Prop :=
  has_column s "watchers" "id" = true ∧ ∀ c, c ∈ columns → has_column s "watchers" c = false.

Lemma lacks_kept td columns d :
  takes d "watchers" "id" = false →
  (∀ c s, c ∈ columns → lacks columns s → brings d "watchers" c = true → run_statement td d s = None) →
  statement_keeps td (lacks columns) d.
Proof.
  intros Ht Hd s s' [Hi Hl] E. split; [by eapply statement_keeps_column|]. intros c Hc.
  destruct (brings d "watchers" c) eqn:Eb; [|by eapply (statement_lacks_column td d); [done|by apply Hl|done]].
  rewrite (Hd c s Hc) in E; [done|by split|done].
Qed.

Lemma existing_table_refused td s cols idx fks :
  has_column s "watchers" "id" = true → run_statement td (CreateTable false "watchers" cols idx fks) s = None.
Proof.
  intros Hi. cbn. apply has_column_true in Hi as (tb & _ & E & _). unfold has_table.
  rewrite bool_decide_eq_true_2 by (rewrite E; by eexists). done.
Qed.

(** Where the server admits no default for a [TEXT] column, a table [watchers] from
    before [extra_json] never gets the column, and so never takes a watcher. *)
Theorem extra_json_never_added starts s :
  has_column s "watchers" "id" = true → has_column s "watchers" "extra_json" = false →
  let s' := after_starts refusal false starts s in
  has_column s' "watchers" "extra_json" = false ∧ admits s' insert_watcher = false.
Proof.
  intros Hi Hl s'.
  assert (H : lacks ["extra_json"] s').
  { apply starts_keep; [|split; [done|]; by intros c ->%list_elem_of_singleton].
    apply Forall_forall. intros d Hd. apply lacks_kept.
    - revert d Hd. apply Forall_forall. unfold start_statements, early_statements, late_statements. cbn [app].
      repeat constructor.
    - intros c s0 ->%list_elem_of_singleton [Hi0 _]. revert d Hd.
      refine (proj1 (Forall_forall (λ d, brings d "watchers" "extra_json" = true →
                                         run_statement false d s0 = None) _) _).
      unfold start_statements, early_statements, late_statements. cbn [app].
      repeat (apply Forall_cons; split); try apply Forall_nil; try exact I; try (intros Hb; vm_compute in Hb; discriminate Hb).
      + intros _. by apply existing_table_refused.
      + intros _. cbn. destruct (s0 !! "watchers"); [|done]. by rewrite orb_true_r. }
  destruct H as [_ H]. split; [by apply H, list_elem_of_singleton|].
  apply (admits_needs_column s' insert_watcher "extra_json"); [|by apply H, list_elem_of_singleton].
  apply list_elem_of_In. cbn. tauto.
Qed.

(** The result of a sequence of steps that ends in a refused one. *)
Lemma run_steps_app_err {A} (l1 l2 : list (M A unit)) c c' :
  run_steps (l1 ++ l2) c = (Returned (Ok tt), c') →
  ∃ c1, run_steps l1 c = (Returned (Ok tt), c1) ∧ run_steps l2 c1 = (Returned (Ok tt), c').
Proof.
  revert c. induction l1 as [|m l1 IH]; intros c; cbn [run_steps app]; [intros; by exists c|].
  intros E. bind_ok E. destruct a, (IH _ E) as (c1 & E1 & E2). exists c1. split; [|done].
  unfold mthen. by rewrite Ha.
Qed.

Lemma execute_no_fault td d c c' :
  execute no_fault refusal td d c = (Returned (Ok tt), c') → run_statement td d (sc_schema c) = Some (sc_schema c').
Proof.
  unfold execute, no_fault. destruct (run_statement td d (sc_schema c)) as [s|]; [|done]. by intros [= <-].
Qed.

Lemma run_steps_stop {A} (l1 l2 : list (M A unit)) c :
  (∀ c', run_steps l1 c ≠ (Returned (Ok tt), c')) → run_steps (l1 ++ l2) c = run_steps l1 c.
Proof.
  revert c. induction l1 as [|m l1 IH]; intros c Hn; [by destruct (Hn c)|]. cbn [app run_steps] in *.
  unfold mthen in *. destruct (m c) as [[[a|e]|] c1]; [|done..]. by apply IH.
Qed.

Context (td : bool).

Abbreviation quiet_migration := (migrate_schema no_fault refusal td).

Lemma early_keep_lacks : Forall (statement_keeps td (lacks ["title"; "folder"])) early_statements.
Proof.
  apply Forall_forall. intros d Hd. apply lacks_kept.
  - revert d Hd. apply Forall_forall. unfold early_statements. repeat constructor.
  - intros c s Hc [Hi Hl] Hb. revert d Hd Hb.
    refine (proj1 (Forall_forall (λ d, brings d "watchers" c = true → run_statement td d s = None) _) _).
    apply elem_of_cons in Hc as [-> | ->%list_elem_of_singleton]; unfold early_statements;
      repeat (apply Forall_cons; split); try apply Forall_nil; try exact I; try (intros Hb; vm_compute in Hb; discriminate Hb).
    1,3: intros _; by apply existing_table_refused.
    intros _. cbn. destruct (s !! "watchers"); [|done].
    rewrite (Hl "folder") by (apply list_elem_of_In; cbn; tauto). by destruct (_ || _).
Qed.

(** The migration adds [title] behind [folder] before it adds [folder]: a table
    [watchers] with neither column fails every start, even an undisturbed one, and
    has neither of them afterwards. *)
Theorem migration_stuck_without_folder n s :
  has_column s "watchers" "id" = true → has_column s "watchers" "title" = false →
  has_column s "watchers" "folder" = false →
  let s' := after_starts refusal td (replicate n no_fault) s in
  has_column s' "watchers" "title" = false ∧ has_column s' "watchers" "folder" = false
  ∧ ∀ c', quiet_migration (mkSchemaConn s' 0) ≠ (Returned (Ok tt), c').
Proof.
  assert (HM : ∀ c, lacks ["title"; "folder"] (sc_schema c) →
    lacks ["title"; "folder"] (sc_schema (quiet_migration c).2)
    ∧ ∀ c', quiet_migration c ≠ (Returned (Ok tt), c')).
  { destruct (early_steps_keep no_fault refusal td _ early_keep_lacks) as [_ Hs].
    intros c Hc. set (steps := migrate_steps no_fault refusal td) in *.
    assert (Hst : ∀ c', run_steps (take 19 steps) c ≠ (Returned (Ok tt), c')).
    { intros c' E. change (take 19 steps) with (take 18 steps ++ [add_title no_fault refusal td])%list in E.
      apply run_steps_app_err in E as (c1 & E1 & E2).
      assert (Hc1 : lacks ["title"; "folder"] (sc_schema c1)).
      { assert (K : keeps (lacks ["title"; "folder"]) (run_steps (take 18 steps))).
        { apply keeps_steps. change (take 18 steps) with (take 18 (take 19 steps)). by apply Forall_take. }
        specialize (K c Hc). by rewrite E1 in K. }
      revert E2. destruct Hc1 as [Hi Hl].
      cbn [run_steps]. unfold add_title, needs, or_else, inspect, no_fault, mthen, mtry, db_step, mmap_err, execute.
      cbn [sc_schema sc_step ret]. rewrite (Hl "title") by (apply list_elem_of_In; cbn; tauto).
      cbn. destruct (sc_schema c1 !! "watchers"); [|done].
      rewrite (Hl "folder") by (apply list_elem_of_In; cbn; tauto). by destruct (_ || _). }
    unfold migrate_schema. fold steps. rewrite <- (take_drop 19 steps), run_steps_stop by done.
    split; [|done]. by apply keeps_steps. }
  intros Hi Ht Hf s'.
  assert (H : lacks ["title"; "folder"] s').
  { assert (H : lacks ["title"; "folder"] s).
    { split; [done|]. by intros c [-> | ->%list_elem_of_singleton]%elem_of_cons. }
    unfold s'. clear -H HM. revert s H. induction n as [|n IH]; intros s H; [done|]. cbn [replicate after_starts].
    apply IH. unfold prepare_schema, mtry.
    destruct (early_steps_keep no_fault refusal td _ early_keep_lacks) as [Hinit _].
    specialize (Hinit (mkSchemaConn s 0) H).
    destruct (init_schema no_fault refusal td (mkSchemaConn s 0)) as [[r|] c1]; [|done].
    destruct (HM c1 Hinit) as [H2 _]. by destruct (quiet_migration c1) as [[r'|] c2]. }
  split_and!; [| |by apply HM]; apply H, list_elem_of_In; cbn; tauto.
Qed.

End stuck.

(** ** What a completed migration establishes *)

Section complete.
Context (refusal : Statement → string) (td : bool).

Abbreviation exec := (execute no_fault refusal td).

Definition has_all (l : list (string * string)) (s : Schema) : Prop := Forall (λ p, has_column s p.1 p.2 = true) l.

(** Given some columns, a step that ends well has seen to others. *)
Definition ensures (have l : list (string * string)) (m : M SchemaConn unit) : Prop :=
  ∀ c c', has_all have (sc_schema c) → m c = (Returned (Ok tt), c') → has_all l (sc_schema c').

Fixpoint chain (have : list (string * string)) (steps : list (list (string * string) * M SchemaConn unit)) : Prop :=
  match steps with
  | [] => True
  | (l, m) :: steps => ensures have l m ∧ chain (have ++ l) steps
  end.

(** A column of [start_statements], kept by all of them. *)
Lemma step_keeps_column m t c :
  m ∈ migrate_steps no_fault refusal td → (t, c) ≠ ("watcher_presets", "presets") →
  keeps (λ s, has_column s t c = true) m.
Proof.
  intros Hm Hne. destruct (start_keeps no_fault refusal td (λ s, has_column s t c = true)) as [_ Hs].
  - by apply start_statements_keep_column.
  - rewrite Forall_forall in Hs. by apply Hs.
Qed.

Lemma run_chain steps : ∀ have c c',
  chain have steps → (∀ p, p ∈ steps → p.2 ∈ migrate_steps no_fault refusal td) →
  Forall (λ p, p ≠ ("watcher_presets", "presets")) (have ++ concat (map fst steps)) →
  has_all have (sc_schema c) → run_steps (map snd steps) c = (Returned (Ok tt), c') →
  has_all (have ++ concat (map fst steps)) (sc_schema c').
Proof.
  induction steps as [|[l m] steps IH]; intros have c c' Hch Hin Hne Hh E.
  { injection E as <-. cbn. by rewrite app_nil_r. }
  destruct Hch as (He & Hch). cbn [map snd run_steps] in E. bind_ok E. destruct a.
  cbn [map fst concat] in Hne |- *. rewrite app_assoc in Hne |- *. eapply IH; [done| |done| |done].
  { intros p Hp. apply Hin. by right. }
  apply Forall_app. split; [|by eapply He].
  apply Forall_forall. intros [t x] Hp. unfold has_all in Hh. rewrite Forall_forall in Hh, Hne.
  pose proof (step_keeps_column m t x (Hin (l, m) ltac:(left))) as K. cbn [fst snd].
  specialize (K (Hne (t, x) ltac:(apply elem_of_app; left; apply elem_of_app; by left)) c).
  rewrite Ha in K. apply K. by apply (Hh (t, x)).
Qed.

Lemma added_column t col after s s' :
  run_statement td (AddColumn t col after) s = Some s' → has_column s' t (col_name col) = true.
Proof.
  cbn. destruct (s !! t) as [tb|] eqn:Et; [|done]. destruct (_ || _); [done|].
  destruct after as [a|]; [destruct (has_column s t a); [|done]|]; intros [= <-]; apply has_column_insert;
    rewrite decide_True by done; exists col; (split; [|done]); cbn.
  - apply in_insert_after. by left.
  - apply in_app_iff. right. by left.
Qed.

(** A query without faults. *)
Lemma then_inspect {A B} (g : A → M SchemaConn B) (f : Schema → A) what c :
  mthen (db_step what (inspect no_fault f)) g c = g (f (sc_schema c)) (mkSchemaConn (sc_schema c) (S (sc_step c))).
Proof. done. Qed.

Lemma then_or_else {A B} (g : A → M SchemaConn B) (f : Schema → A) d c :
  mthen (or_else d (inspect no_fault f)) g c = g (f (sc_schema c)) (mkSchemaConn (sc_schema c) (S (sc_step c))).
Proof. done. Qed.

Lemma db_step_ok what d c c' :
  db_step what (exec d) c = (Returned (Ok tt), c') → run_statement td d (sc_schema c) = Some (sc_schema c').
Proof. unfold db_step. intros E. apply mmap_err_ok in E. by eapply execute_no_fault. Qed.

Lemma has_one s t c : has_column s t c = true → has_all [(t, c)] s.
Proof. intros H. by apply Forall_singleton. Qed.

(** The shapes of the steps. *)
Lemma ensures_add_then have t col after what what' (rest : M SchemaConn unit) :
  keeps (λ s, has_column s t (col_name col) = true) rest →
  ensures have [(t, col_name col)]
    (has ←? db_step what (inspect no_fault (λ s, has_column s t (col_name col)));
     if has : bool then ret tt else _ ←? db_step what' (exec (AddColumn t col after)); rest).
Proof.
  intros Hr c c' _. rewrite then_inspect. destruct (has_column _ _ _) eqn:E.
  { intros [= <-]. by apply has_one. }
  intros E'. bind_ok E'. destruct a. apply db_step_ok in Ha. apply added_column in Ha.
  specialize (Hr st Ha). rewrite E' in Hr. by apply has_one.
Qed.

Lemma ensures_add have t col after what what' :
  ensures have [(t, col_name col)]
    (has ←? db_step what (inspect no_fault (λ s, has_column s t (col_name col)));
     if has : bool then ret tt else db_step what' (exec (AddColumn t col after))).
Proof.
  intros c c' _. rewrite then_inspect. destruct (has_column _ _ _) eqn:E.
  { intros [= <-]. by apply has_one. }
  intros E'. apply db_step_ok, added_column in E'. by apply has_one.
Qed.

Lemma ensures_need have col after what (rest : M SchemaConn unit) :
  keeps (λ s, has_column s "watchers" (col_name col) = true) rest →
  ensures have [("watchers", col_name col)]
    (need ←? needs no_fault (col_name col);
     if need : bool then _ ←? db_step what (exec (AddColumn "watchers" col after)); rest else ret tt).
Proof.
  intros Hr c c' _. unfold needs. rewrite then_or_else. destruct (has_column _ _ _) eqn:E; cbn [negb].
  { intros [= <-]. by apply has_one. }
  intros E'. bind_ok E'. destruct a. apply db_step_ok, added_column in Ha.
  specialize (Hr st Ha). rewrite E' in Hr. by apply has_one.
Qed.

(** [m] is [m; ret tt]. *)
Lemma ensures_ext have l m m' : (∀ c, m c = m' c) → ensures have l m' → ensures have l m.
Proof. intros E H c c'. rewrite E. apply H. Qed.

Lemma then_ret_tt {A} (m : M A unit) c : mthen m (λ _, ret tt) c = m c.
Proof. unfold mthen, ret. by destruct (m c) as [[[[]|e]|] c']. Qed.

(** An addition whose failure is ignored fails only when the table is missing. *)
Lemma ignored_add t col c c' :
  is_Some (sc_schema c !! t) → default_admitted td col = true →
  ignored (exec (AddColumn t col None)) c = (Returned (Ok tt), c') → has_column (sc_schema c') t (col_name col) = true.
Proof.
  intros [tb Ht] Hd. unfold ignored, mtry, execute. cbn [no_fault]. unfold no_fault.
  destruct (run_statement td (AddColumn t col None) (sc_schema c)) as [s'|] eqn:E; intros [= <-].
  - by eapply added_column.
  - revert E. cbn. rewrite Ht, Hd. cbn [negb]. rewrite orb_false_r. by destruct (has_column _ _ _).
Qed.

Lemma column_table s t c : has_column s t c = true → is_Some (s !! t).
Proof. intros (tb & ? & E & _)%has_column_true. by eexists. Qed.

Lemma has_all_column l s t c : has_all l s → (t, c) ∈ l → has_column s t c = true.
Proof. unfold has_all. rewrite Forall_forall. intros H Hi. by apply (H (t, c)). Qed.

Lemma ensures_optional have col :
  ("watchers", "watcher_id") ∈ have → default_admitted td col = true →
  ensures have [("watchers", col_name col)] (add_optional no_fault refusal td col).
Proof.
  intros Hh Hd c c' Hall. unfold add_optional, needs. rewrite then_or_else.
  destruct (has_column _ _ _) eqn:E; cbn [negb]; [intros [= <-]; by apply has_one|].
  intros E'. apply has_one. eapply ignored_add; [|exact Hd|exact E'].
  by eapply column_table, has_all_column.
Qed.

Lemma created_has t cols idx fks c s s' :
  has_table s t = false → existsb (λ col, col_name col == c) cols = true →
  run_statement td (CreateTable false t cols idx fks) s = Some s' → has_column s' t c = true.
Proof.
  intros Ht Hc E. destruct (create_columns _ _ _ _ _ _ _ _ t c E) as [->|[_ ->]].
  - revert E. cbn. rewrite Ht. destruct (_ && _); [|done]. intros [= E].
    assert (Hn : s !! t = None) by (apply eq_None_not_Some; unfold has_table in Ht; by apply bool_decide_eq_false in Ht).
    rewrite <- E, lookup_insert_eq in Hn. done.
  - by rewrite decide_True.
Qed.

(** The columns the steps see to. *)
Definition ensured : list (list (string * string)) :=
  [[]; [("files", "is_encrypted")]; [("files", "operation_type")]; [("files", "eq_index")];
   [("files", "token_path")]; [("files", "key_id")]; [("files", "server_group_id")];
   [("files", "server_watcher_id")]; []; []; [("watcher_conditions", "account_hash")]; []; []; [];
   [("watchers", "watcher_id")]; [("watchers", "local_group_id")]; [("watchers", "is_recursive")];
   [("watchers", "extra_json")]; [("watchers", "title")]; [("watchers", "folder")];
   [("watchers", "created_at")]; [("watchers", "updated_at")]; [("watchers", "is_active")];
   [("watcher_presets", "preset_json")]].

Ltac keep_rest :=
  unfold ignored, db_step;
  repeat first
    [ apply keeps_ret | apply keeps_inspect
    | apply keeps_execute, statement_keeps_column; reflexivity
    | apply keeps_map_err | apply keeps_if
    | apply keeps_then; [|intros ?] | apply keeps_try; [|intros ?] ].

Lemma keeps_at {E A} (P : Schema → Prop) (m : ME SchemaConn E A) c o c' :
  keeps P m → m c = (o, c') → P (sc_schema c) → P (sc_schema c').
Proof. intros K Em HP. specialize (K c HP). by rewrite Em in K. Qed.

Lemma ensures_nothing have m : ensures have [] m.
Proof. intros c c' _ _. apply Forall_nil. exact I. Qed.

Lemma ensures_token_path have : ("files", "is_encrypted") ∈ have →
  ensures have [("files", "token_path")] (add_token_path no_fault refusal td).
Proof.
  intros Hh c c' Hall. unfold add_token_path. rewrite then_inspect. destruct (has_column _ _ _) eqn:E.
  { intros [= <-]. by apply has_one. }
  intros E'. bind_ok E'. destruct a.
  assert (Hc : has_column (sc_schema st) "files" "token_path" = true).
  { apply (ignored_add _ (nullable "token_path" (Varchar 4096))) in Ha; [done| |done].
    by eapply column_table, has_all_column. }
  apply has_one. refine (keeps_at (λ s, has_column s "files" "token_path" = true) _ _ _ _ _ E' Hc). keep_rest.
Qed.

Lemma ensures_conditions have :
  ensures have [("watcher_conditions", "account_hash")] (ensure_watcher_conditions no_fault refusal td).
Proof.
  intros c c' Hall. unfold ensure_watcher_conditions. rewrite then_inspect.
  destruct (has_table _ _) eqn:Ht; cbn [negb].
  - revert Hall. set (c1 := mkSchemaConn _ _). intros Hall. apply (ensures_add_then have "watcher_conditions"
      (defaulted "account_hash" (Varchar 255) "")); [keep_rest|done].
  - intros E. apply db_step_ok, (created_has _ _ _ _ "account_hash") in E; [by apply has_one|done|reflexivity].
Qed.

Lemma ensures_presets have :
  ensures have [("watcher_presets", "preset_json")] (ensure_watcher_presets no_fault refusal td).
Proof.
  intros c c' Hall. unfold ensure_watcher_presets. rewrite then_inspect.
  destruct (has_table _ _) eqn:Ht; cbn [negb].
  - rewrite then_or_else. set (c1 := mkSchemaConn _ _). intros E. bind_ok E. destruct a.
    assert (Hc : has_column (sc_schema st) "watcher_presets" "preset_json" = true).
    { destruct (has_column (sc_schema _) _ _) eqn:Hc; [by injection Ha as <-|].
      apply (ignored_add _ (not_null "preset_json" Text)) in Ha; [done| |done].
      unfold has_table in Ht. by apply bool_decide_eq_true in Ht. }
    apply has_one.
    refine (keeps_at (λ s, has_column s "watcher_presets" "preset_json" = true) _ _ _ _ _ E Hc). keep_rest.
  - intros E. apply db_step_ok, (created_has _ _ _ _ "preset_json") in E; [by apply has_one|done|reflexivity].
Qed.

Lemma ensures_need_only have col after what :
  ensures have [("watchers", col_name col)]
    (need ←? needs no_fault (col_name col);
     if need : bool then db_step what (exec (AddColumn "watchers" col after)) else ret tt).
Proof.
  intros c c' _. unfold needs. rewrite then_or_else. destruct (has_column _ _ _) eqn:E; cbn [negb].
  { intros [= <-]. by apply has_one. }
  intros E'. apply db_step_ok, added_column in E'. by apply has_one.
Qed.

Lemma migration_chain : chain [] (combine ensured (migrate_steps no_fault refusal td)).
Proof.
  unfold ensured, migrate_steps. cbn [combine chain app]. repeat (split; [|]); try exact I; try apply ensures_nothing.
  - apply (ensures_add _ "files" (defaulted "is_encrypted" Boolean "FALSE")).
  - apply (ensures_add_then _ "files" (defaulted "operation_type" (Varchar 20) "UPLOAD")). keep_rest.
  - apply (ensures_add_then _ "files" (nullable "eq_index" (Varbinary 32))). keep_rest.
  - apply ensures_token_path. by left.
  - apply (ensures_add_then _ "files" (nullable "key_id" (Varchar 64))). keep_rest.
  - apply (ensures_add _ "files" (defaulted "server_group_id" Int "0")).
  - apply (ensures_add _ "files" (defaulted "server_watcher_id" Int "0")).
  - apply ensures_conditions.
  - apply (ensures_add_then _ "watchers" (defaulted "watcher_id" Int "0")). keep_rest.
  - apply (ensures_need _ (defaulted "local_group_id" Int "0")). keep_rest.
  - apply (ensures_need_only _ (defaulted "is_recursive" Boolean "TRUE")).
  - apply (ensures_need_only _ (defaulted "extra_json" Text "")).
  - apply (ensures_need_only _ (defaulted "title" (Varchar 255) "Watcher")).
  - apply (ensures_need_only _ (defaulted "folder" (Varchar 2048) "")).
  - apply (ensures_optional _ (defaulted "created_at" BigInt "0")); [|done]. apply list_elem_of_In. cbn. tauto.
  - apply (ensures_optional _ (defaulted "updated_at" BigInt "0")); [|done]. apply list_elem_of_In. cbn. tauto.
  - apply (ensures_optional _ (defaulted "is_active" Boolean "TRUE")); [|done]. apply list_elem_of_In. cbn. tauto.
  - apply ensures_presets.
Qed.

(** A migration that completes undisturbed leaves every column it looks after in
    place, whatever the schema was before. *)
Theorem complete_migration_has_columns c c' :
  migrate_schema no_fault refusal td c = (Returned (Ok tt), c') → has_all (concat ensured) (sc_schema c').
Proof.
  intros E. apply (run_chain (combine ensured (migrate_steps no_fault refusal td)) [] c c' migration_chain).
  - intros [l m] Hp. apply list_elem_of_In, in_combine_r in Hp. by apply list_elem_of_In.
  - cbn. repeat constructor; done.
  - apply Forall_nil. exact I.
  - exact E.
Qed.

End complete.

Lemma complete_migration_has_columns_witness :
  ∃ c', migrate_schema no_fault (λ _, "") false (init_schema no_fault (λ _, "") false (mkSchemaConn ∅ 0)).2
          = (Returned (Ok tt), c') ∧ has_all (concat ensured) (sc_schema c').
Proof.
  eexists. split; [vm_compute; reflexivity|].
  apply (complete_migration_has_columns (λ _, "") false
           (init_schema no_fault (λ _, "") false (mkSchemaConn ∅ 0)).2). vm_compute. reflexivity.
Defined.

(** A table [watchers] from before both columns. *)
Definition old_watchers : Schema :=
  {[ "watchers" := mkTable [auto_increment "id" Int; not_null "account_hash" (Varchar 255)] [primary_key "id"] [] ]}.

Lemma migration_stuck_without_folder_witness :
  let s' := after_starts (λ _, "") true [no_fault; no_fault] old_watchers in
  has_column s' "watchers" "title" = false ∧ has_column s' "watchers" "folder" = false.
Proof.
  destruct (migration_stuck_without_folder (λ _, "") true 2 old_watchers) as (Ht & Hf & _);
    [vm_compute; reflexivity..|]. split; [exact Ht|exact Hf].
Defined.
