(* ===== verification/Startup.v ===== *)
(** * Start-up (src/main.rs, server/startup.rs, server/app_state.rs,
    container/, storage/mod.rs, server/components/sync_server.rs)

    How a process becomes a server: the configuration is read, the storage and the
    contents storage are connected, the application state is put together, and the
    two servers are run until one of them stops or a signal arrives.  The state of
    a process is the cell [APP_CONFIG], the background tasks it started, and how
    often it asked the outside: requests for secrets, clients, connections. *)

From S2P Require Import Prelude RustString Errors Models Memory Crypto Effects Connections Notify AuthHandlers.
From S2P Require Import FileService Schema Config MySql FileStore.

(** ** The process *)

Inductive Task :=
| ClientCleanupTask
| RetentionCleanupTask (file_ttl_secs max_revisions : Z)
| ConnectionCleanupTask
| StatsReporterTask.

Record Process := mkProcess {
  pr_app_config : option Config;
  pr_tasks : list Task;
  pr_requests : nat;
  pr_clients : nat;
  pr_connections : nat;
  (** The schema of the database at an address. *)
  pr_schemas : gmap string SchemaConn
}.

(** A process that has just been started. *)
Definition Process_start (schemas : gmap string SchemaConn) : Process := mkProcess None [] 0 0 0 schemas.

Definition set_app_config (c : Config) (p : Process) : Process :=
  mkProcess (match pr_app_config p with Some c' => Some c' | None => Some c end)
    (pr_tasks p) (pr_requests p) (pr_clients p) (pr_connections p) (pr_schemas p).
Definition add_tasks (tasks : list Task) (p : Process) : Process :=
  mkProcess (pr_app_config p) (pr_tasks p ++ tasks) (pr_requests p) (pr_clients p) (pr_connections p) (pr_schemas p).
Definition with_schemas (s : gmap string SchemaConn) (p : Process) : Process :=
  mkProcess (pr_app_config p) (pr_tasks p) (pr_requests p) (pr_clients p) (pr_connections p) s.
Definition count_loads (requests : nat) (p : Process) : Process :=
  mkProcess (pr_app_config p) (pr_tasks p) requests (Datatypes.S (pr_clients p)) (pr_connections p) (pr_schemas p).
Definition count_connection (p : Process) : Process :=
  mkProcess (pr_app_config p) (pr_tasks p) (pr_requests p) (pr_clients p) (Datatypes.S (pr_connections p)) (pr_schemas p).

Definition effect {E} (f : Process → Process) : ME Process E unit := λ p, (Returned (Ok tt), f p).

(** ** Handles *)

(** A database is known by the address it was connected with. *)
Inductive StorageHandle := MySqlHandle (url : string) | MemoryHandle.
Inductive FileStorageHandle := DatabaseContents (url : string) | S3Contents (config : S3Config) | SimpleInMemoryContents.
Inductive EventBusHandle := RabbitMqBus (config : MessageBrokerConfig) | NoopBus.

Record AppState := mkAppState {
  as_config : Config;
  as_storage : StorageHandle;
  as_file_storage : FileStorageHandle;
  as_notification_manager : NotificationManager;
  as_event_bus : EventBusHandle;
  as_auth_sessions : Sessions;
  as_connection_tracker : Tracker;
  as_client_store : ClientStore
}.

Definition assemble (config : Config) (storage : StorageHandle) (file_storage : FileStorageHandle)
    (nm : NotificationManager) (bus : EventBusHandle) : AppState :=
  mkAppState config storage file_storage nm bus ∅ ConnectionTracker_new ClientStore_new.

(** [SimpleInMemoryFileStorage]: every request succeeds and nothing is kept. *)
#[local] Instance SimpleInMemoryFileStorage : ContentStore unit := {|
  c_store_file_data := λ file_id data, ret "mem";
  c_store_file_data_with_options := λ file_id data compress, ret "mem";
  c_get_file_data := λ file_id, ret None;
  c_delete_file_data := λ file_id, ret tt;
  c_batch_delete_file_data := λ file_ids, ret (map (λ i, (i, true)) file_ids);
  c_file_data_exists := λ file_id, ret false;
  c_get_file_size := λ file_id, ret None;
  c_health_check := ret tt
|}.

(** An address as the [url] crate takes it apart. *)
Record Url := mkUrl {
  url_host : option string; url_port : option Z; url_username : string; url_password : option string;
  url_path : string
}.

(** [s.trim_start_matches('/')]. *)
Fixpoint trim_start_slash (s : string) : string :=
  match s with String a t => if (a == "/"%char) then trim_start_slash t else s | EmptyString => s end.

(** What the servers are run with. *)
Record GrpcSettings := mkGrpcSettings {
  gr_address : string; gr_timeout_secs : Z; gr_max_concurrent_streams : Z
}.
Record HttpSettings := mkHttpSettings { ht_address : string; ht_workers : Z }.

(** How the [select!] of the two servers and the signal ends. *)
Inductive Finish :=
| GrpcFinished (r : result unit SyncError)
| HttpFinished (r : result unit SyncError)
| SignalReceived.


(** ** Validation of the configuration (main.rs) *)

(** [test_database_connection] has no influence: its failure is logged. *)
Definition check_database_config (config : DatabaseConfig) : result unit SyncError :=
  if str_is_empty (dbc_host config) then Err (SE_Config "Database host cannot be empty")
  else if str_is_empty (dbc_name config) then Err (SE_Config "Database name cannot be empty")
  else if str_is_empty (dbc_user config) then Err (SE_Config "Database username cannot be empty")
  else Ok tt.

Definition validate_server_config (config : ServerConfig) : result unit SyncError :=
  if str_is_empty (sv_host config) then Err (SE_Config "Server host cannot be empty")
  else if (sv_port config <? MIN_VALID_PORT) || (MAX_VALID_PORT <? sv_port config) then
    Err (SE_Config ("Invalid port: " +:+ pretty (sv_port config) +:+ ". Must be between "
                    +:+ pretty MIN_VALID_PORT +:+ " and " +:+ pretty MAX_VALID_PORT))
  else if (sv_worker_threads config =? 0) || (256 <? sv_worker_threads config) then
    Err (SE_Config ("Invalid worker_threads: " +:+ pretty (sv_worker_threads config)
                    +:+ ". Must be between 1 and 256"))
  else if sv_max_concurrent_requests config =? 0 then
    Err (SE_Config "max_concurrent_requests must be greater than 0")
  else if (sv_max_file_size config =? 0) || (1024 * 1024 * 1024 <? sv_max_file_size config) then
    Err (SE_Config ("Invalid max_file_size: " +:+ pretty (sv_max_file_size config)
                    +:+ ". Must be between 1 byte and 1GB"))
  else Ok tt.

Section startup.
Context `{U : Unicode}.
(** The configuration is read as in [Config.v]; the [k]-th client for secrets can be
    made or not. *)
Context (env : string → option string) (redis_cache : bool)
        (secret_value : nat → string → result (option string) string)
        (create_secrets_client : nat → result unit string)
        (from_json : string → option (string → option Value))
        (from_hex : string → option bytes).
(** The [k]-th connection to an address is refused with an error or made; statements
    of the schema fail, are refused and treat defaults as in [Schema.v]. *)
Context (refuse : nat → string → option string)
        (schema_fault : nat → option string) (refusal : Statement → string) (text_default : bool).
(** The answer of the health check of a contents storage ([FileStore.v]), the broker,
    the [url] crate, socket addresses, and how the servers end. *)
Context (contents_health : FileStorageHandle → Res unit)
        (connect_bus : MessageBrokerConfig → option string)
        (url_parse : string → result Url string)
        (socket_addr : string → result string string)
        (select : result GrpcSettings SyncError → HttpSettings → Finish).

(** [AppState::get_config]. *)
Definition get_config (p : Process) : Config :=
  match pr_app_config p with Some c => c | None => Config_load env redis_cache end.

(** One [Config::load_async]. *)
Definition load_config_async : ME Process string Config := λ p,
  match load_async env redis_cache secret_value (create_secrets_client (pr_clients p)) from_json from_hex
          (pr_requests p) with
  | Ok (c, n) => (Returned (Ok c), count_loads n p)
  | Err e => (Returned (Err e), count_loads (pr_requests p) p)
  end.

(** [Config::load_async().await] with [Config::load()] for an error. *)
Definition load_or_environment {E} : ME Process E Config :=
  mtry load_config_async (λ r, ret (match r with Ok c => c | Err _ => Config_load env redis_cache end)).

(** *** The storage *)

Definition MySqlStorage_new_with_url (url : string) : M Process StorageHandle := λ p,
  match refuse (pr_connections p) url with
  | Some e => (Returned (Err (Connection ("Failed to connect via sqlx: " +:+ e))), count_connection p)
  | None => (Returned (Ok (MySqlHandle url)), count_connection p)
  end.

(** Statements on the schema of a database. *)
Definition on_schema {A} (url : string) (m : M SchemaConn A) : M Process A :=
  on_part (λ p, default (mkSchemaConn ∅ 0) (pr_schemas p !! url))
    (λ c p, with_schemas (<[url := c]> (pr_schemas p)) p) m.

(** [health_check] and [close] of both storages. *)
Definition storage_health_check (storage : StorageHandle) : Res bool := Ok true.
Definition storage_close (storage : StorageHandle) : Res unit := Ok tt.

(** [StorageFactory::create_mysql_storage]. *)
Definition create_mysql_storage (config : DatabaseConfig) : ME Process SyncError StorageHandle :=
  let connection_url := DatabaseConfig_url config in
  storage ←? mmap_err (λ e, SE_Storage ("Failed to create MySQL storage: " +:+ StorageError_fmt e))
               (MySqlStorage_new_with_url connection_url);
  mtry (on_schema connection_url (init_schema schema_fault refusal text_default)) (λ _,
    mtry (on_schema connection_url (migrate_schema schema_fault refusal text_default)) (λ _,
      ret storage)).

Definition init_storage (config : DatabaseConfig) : ME Process SyncError StorageHandle :=
  storage ←? create_mysql_storage config;
  match storage_health_check storage with
  | Ok _ => ret storage
  | Err e => throw (SE_Storage ("Storage health check failed: " +:+ StorageError_fmt e))
  end.

(** [AppState::initialize_storage]: here a failure of the schema is final. *)
Definition initialize_storage (url : string) : ME Process SyncError StorageHandle :=
  if starts_with "mysql://" url then
    storage ←? mmap_err (λ e, SE_Storage ("Failed to connect to MySQL: " +:+ StorageError_fmt e))
                 (MySqlStorage_new_with_url url);
    _ ←? mmap_err (λ e, SE_Storage ("Failed to initialize MySQL schema: " +:+ StorageError_fmt e))
           (on_schema url (init_schema schema_fault refusal text_default));
    _ ←? mmap_err (λ e, SE_Storage ("Failed to migrate MySQL schema: " +:+ StorageError_fmt e))
           (on_schema url (migrate_schema schema_fault refusal text_default));
    ret storage
  else ret MemoryHandle.

(** *** The contents storage *)

(** [DatabaseFileStorage::new] reads the configuration once more. *)
Definition DatabaseFileStorage_new : M Process FileStorageHandle :=
  config ←? load_or_environment;
  match parse_mysql_url (DatabaseConfig_url (cf_database config)) with
  | Ok url => _ ←? MySqlStorage_new_with_url url; ret (DatabaseContents url)
  | Err e => throw e
  end.

Definition create_file_storage (config : StorageConfig) : ME Process SyncError FileStorageHandle :=
  file_storage ←? match stc_storage_type config with
                  | StorageType_Database =>
                      mmap_err (λ e, SE_Storage ("Failed to create DB file storage: " +:+ StorageError_fmt e))
                        DatabaseFileStorage_new
                  | StorageType_S3 => ret (S3Contents (stc_s3 config))
                  end;
  match contents_health file_storage with
  | Ok _ => ret file_storage
  | Err e => throw (SE_Storage ("File storage health check failed: " +:+ StorageError_fmt e))
  end.

(** [create_file_storage_with_mysql], for a storage connected with [url]. *)
Definition create_file_storage_with_mysql (config : StorageConfig) (url : string) : FileStorageHandle :=
  match stc_storage_type config with
  | StorageType_Database => DatabaseContents url
  | StorageType_S3 => S3Contents (stc_s3 config)
  end.

Definition initialize_file_storage : ME Process SyncError FileStorageHandle :=
  mmap_err (λ e, SE_Storage ("Failed to initialize file storage: " +:+ SyncError_fmt e))
    (create_file_storage (StorageConfig_load env)).

(** Beside the in-memory storage the contents go to a storage that keeps nothing. *)
Definition initialize_file_storage_with_storage (storage : StorageHandle) : ME Process SyncError FileStorageHandle :=
  match storage with
  | MemoryHandle => ret SimpleInMemoryContents
  | MySqlHandle _ => initialize_file_storage
  end.

Definition create_event_bus : EventBusHandle :=
  let cfg := MessageBrokerConfig_load env in
  if mb_enabled cfg then
    match connect_bus cfg with
    | None => RabbitMqBus cfg
    | Some e => NoopBus
    end
  else NoopBus.

(** *** The application state *)

Definition new_with_storage_and_server_config (storage : StorageHandle) (config : ServerConfig)
    : ME Process SyncError AppState :=
  loaded ←? load_or_environment;
  let full_config := mkConfig config (cf_database loaded) (cf_storage loaded) (cf_logging loaded)
                       (cf_features loaded) (cf_message_broker loaded) (cf_redis loaded)
                       (cf_server_encode_key loaded) in
  file_storage ←? initialize_file_storage_with_storage storage;
  ret (assemble full_config storage file_storage NotificationManager_new create_event_bus).

Definition initialize_services (storage_url : option string)
    : ME Process SyncError (StorageHandle * FileStorageHandle * EventBusHandle) :=
  storage ←? match storage_url with
             | Some url => initialize_storage url
             | None => ret MemoryHandle
             end;
  let bus := create_event_bus in
  file_storage ←? initialize_file_storage;
  ret (storage, file_storage, bus).

(** [AppState::new]. *)
Definition AppState_new (config : Config) : ME Process SyncError AppState :=
  parts ←? initialize_services (sv_storage_path (cf_server config));
  let '(storage, file_storage, bus) := parts in
  let state := assemble config storage file_storage NotificationManager_new bus in
  _ ←? effect (set_app_config (as_config state));
  ret state.

(** [AppState::new_from_server_config]. *)
Definition new_from_server_config (config : ServerConfig) : ME Process SyncError AppState :=
  let full_config := mkConfig config DatabaseConfig_default StorageConfig_default LoggingConfig_default
                       FeatureFlags_default (MessageBrokerConfig_load env) (RedisConfig_load env redis_cache) None in
  parts ←? initialize_services (sv_storage_path config);
  let '(storage, file_storage, bus) := parts in
  let nm := set_transport_encrypt_metadata (ff_transport_encrypt_metadata (cf_features full_config))
              NotificationManager_new in
  let app_state := assemble full_config storage file_storage nm bus in
  _ ←? effect (add_tasks [ConnectionCleanupTask; StatsReporterTask]);
  _ ←? effect (set_app_config (as_config app_state));
  ret app_state.

(** *** The background tasks of app_state.rs *)

Definition start_client_cleanup_task : ME Process SyncError unit := effect (add_tasks [ClientCleanupTask]).
Definition start_retention_cleanup_task (state : AppState) : ME Process SyncError unit :=
  effect (add_tasks [RetentionCleanupTask (stc_file_ttl_secs (cf_storage (as_config state)))
                       (stc_max_file_revisions (cf_storage (as_config state)))]).

(** ** The servers (server/startup.rs) *)

Definition start_grpc_server (config : ServerConfig) : result GrpcSettings SyncError :=
  match socket_addr (sv_host config +:+ ":" +:+ pretty (sv_port config)) with
  | Ok addr => Ok (mkGrpcSettings addr (wrap_u64 (sv_auth_token_expiry_hours config))
                     (wrap_u32 (sv_max_concurrent_requests config)))
  | Err e => Err (SE_Config ("Invalid server address: " +:+ e))
  end.

Definition start_http_server (config : ServerConfig) : HttpSettings :=
  mkHttpSettings (sv_host config +:+ ":" +:+ pretty DEFAULT_HTTP_PORT) (sv_worker_threads config).

(** The loop of [graceful_shutdown]: [active n] is the number of active connections at
    the [n]-th look; the answer is the number of waits. *)
Fixpoint shutdown_wait (active : nat → Z) (fuel wait_count : nat) : nat :=
  match fuel with
  | O => wait_count
  | Datatypes.S fuel =>
      if (0 <? active wait_count) && (wait_count <? 100)%nat
      then shutdown_wait active fuel (Datatypes.S wait_count) else wait_count
  end.

(** Errors of the two [close] calls are logged. *)
Definition graceful_shutdown (active : nat → Z) (state : AppState) : nat * result unit SyncError :=
  (shutdown_wait active 101 0, match storage_close (as_storage state) with _ => Ok tt end).

(** Both servers, the signal, and the clean-up; [active] as above. *)
Definition run_servers (active : nat → Z) (config : ServerConfig) (state : AppState) : ME Process SyncError AppState :=
  match select (start_grpc_server config) (start_http_server config) with
  | GrpcFinished (Err e) => throw e
  | HttpFinished (Err e) => throw e
  | _ => match (graceful_shutdown active state).2 with Ok _ => ret state | Err e => throw e end
  end.

Definition startup_parse_mysql_url (text : string) : result DatabaseConfig SyncError :=
  match url_parse text with
  | Err e => Err (SE_Config ("Invalid MySQL URL: " +:+ e))
  | Ok url =>
      match url_host url with
      | None => Err (SE_Config "Missing host in MySQL URL")
      | Some host =>
          let database := trim_start_slash (url_path url) in
          if str_is_empty database then Err (SE_Config "Missing database name in MySQL URL")
          else Ok (mkDatabaseConfig (url_username url) (default "" (url_password url)) database host
                     (default 3306 (url_port url)) 50 30 false None None)
      end
  end.

Definition init_storage_from_config (config : ServerConfig) : ME Process SyncError StorageHandle :=
  match sv_storage_path config with
  | Some storage_path =>
      if starts_with "mysql://" storage_path then
        match startup_parse_mysql_url storage_path with
        | Ok database_config => init_storage database_config
        | Err e => throw e
        end
      else ret MemoryHandle
  | None => ret MemoryHandle
  end.

Definition init_storage_legacy (db_url : option string) : ME Process SyncError StorageHandle :=
  match db_url with
  | Some url =>
      if starts_with "mysql://" url then
        match startup_parse_mysql_url url with
        | Ok config => mtry (init_storage config) (λ r, ret (match r with Ok s => s | Err _ => MemoryHandle end))
        | Err _ => ret MemoryHandle
        end
      else ret MemoryHandle
  | None => ret MemoryHandle
  end.

Definition start_server (active : nat → Z) (config : ServerConfig) : ME Process SyncError AppState :=
  storage ←? init_storage_from_config config;
  app_state ←? new_with_storage_and_server_config storage config;
  run_servers active config app_state.

Definition start_server_with_storage (active : nat → Z) (config : ServerConfig) (storage : StorageHandle)
    : ME Process SyncError AppState :=
  app_state ←? new_with_storage_and_server_config storage config;
  run_servers active config app_state.

Definition server_ready_check (storage : StorageHandle) : result unit SyncError :=
  match storage_health_check storage with
  | Ok _ => Ok tt
  | Err e => Err (SE_ServiceUnavailable ("Storage not ready: " +:+ StorageError_fmt e))
  end.

(** ** The two ways of main.rs *)

(** The test connection is made and its outcome ignored. *)
Definition validate_database_config (config : DatabaseConfig) : ME Process SyncError unit :=
  match check_database_config config with
  | Ok _ => mtry (MySqlStorage_new_with_url (DatabaseConfig_url config)) (λ _, ret tt)
  | Err e => throw e
  end.

Definition build_config : ME Process SyncError Config :=
  config ←? load_or_environment;
  _ ←? validate_database_config (cf_database config);
  match validate_server_config (cf_server config) with
  | Ok _ => ret config
  | Err e => throw e
  end.

Definition start_legacy (active : nat → Z) : ME Process SyncError AppState :=
  config ←? build_config;
  storage ←? init_storage (cf_database config);
  start_server_with_storage active (cf_server config) storage.

(** container/builder.rs, container/mod.rs; the services of the container are built on
    its storage. *)
Record ContainerBuilder := mkContainerBuilder {
  cb_config : option Config;
  cb_storage : option StorageHandle
}.
Record AppContainer := mkAppContainer { ac_storage : StorageHandle; ac_config : Config }.

Definition ContainerBuilder_new : ContainerBuilder := mkContainerBuilder None None.
Definition with_config (config : Config) (b : ContainerBuilder) : ContainerBuilder :=
  mkContainerBuilder (Some config) (cb_storage b).
Definition with_container_storage (storage : StorageHandle) (b : ContainerBuilder) : ContainerBuilder :=
  mkContainerBuilder (cb_config b) (Some storage).

Definition build (b : ContainerBuilder) : ME Process SyncError AppContainer :=
  let config := match cb_config b with Some c => c | None => Config_load env redis_cache end in
  storage ←? match cb_storage b with
             | Some storage => ret storage
             | None => if ff_test_mode (cf_features config) then ret MemoryHandle
                       else init_storage (cf_database config)
             end;
  ret (mkAppContainer storage config).

Definition build_dev : ME Process SyncError AppContainer :=
  build (with_container_storage MemoryHandle (with_config (Config_load env redis_cache) ContainerBuilder_new)).
Definition build_production : ME Process SyncError AppContainer :=
  build (with_config (Config_load env redis_cache) ContainerBuilder_new).

Definition container_health_check (c : AppContainer) : bool :=
  match storage_health_check (ac_storage c) with Ok b => b | Err _ => false end.
Definition container_shutdown (c : AppContainer) : result unit SyncError :=
  map_err SyncError_from_StorageError (storage_close (ac_storage c)).

Definition start_with_container (active : nat → Z) : ME Process SyncError AppState :=
  container ←? build_production;
  if negb (container_health_check container) then throw (SE_ServiceUnavailable "Health check failed")
  else mtry (start_server_with_storage active (cf_server (ac_config container)) (ac_storage container)) (λ r,
         match r with
         | Ok state => match container_shutdown container with Ok _ => ret state | Err e => throw e end
         | Err e => throw e
         end).

(** [main]; the state it answers is that of the server that ran. *)
Definition main (active : nat → Z) : ME Process SyncError AppState :=
  if env_flag env "COSMIC_SYNC_USE_CONTAINER" false then start_with_container active else start_legacy active.

(** ** A server as a component (server/components/sync_server.rs) *)

Inductive SyncServerError := StartupError (s : string) | ShutdownError (s : string) | ConfigError (s : string)
| InternalError (s : string).

Definition component_app_state (config : ServerConfig) : ME Process SyncServerError AppState :=
  mmap_err (λ e, ConfigError (SyncError_fmt e))
    (storage ←? init_storage_legacy (sv_storage_path config);
     new_with_storage_and_server_config storage config).

End startup.
