(* ===== verification/Http.v ===== *)
(** * The HTTP endpoints (src/server/startup.rs, handlers/health.rs, api.rs,
    metrics.rs)

    The routes of the application, what their handlers ask the framework for, and
    the endpoints that report on the server.  The framework looks up shared data by
    its type: a handler whose data is not registered is not run, and the answer is
    an internal error.  The log-in endpoints are those of [AuthHandlers.v]. *)

From S2P Require Import Prelude RustString Errors Memory Config.

(** ** Responses *)

Inductive Json :=
| JText (s : string)
| JInt (n : Z)
| JFlag (b : bool)
| JObject (fields : list (string * Json)).

(** The body of an error that the framework makes itself is not of interest. *)
Record HttpResponse := mkHttpResponse { hr_status : Z; hr_body : option Json }.

Definition ok_json (body : Json) : HttpResponse := mkHttpResponse 200 (Some body).
Definition unavailable_json (body : Json) : HttpResponse := mkHttpResponse 503 (Some body).

(** [SyncError::to_json], at the second [now]. *)
Definition SyncError_to_json (now : Z) (e : SyncError) : Json :=
  JObject [("error", JText (SyncError_category e)); ("message", JText (SyncError_fmt e));
           ("code", JInt (http_status_code e)); ("retryable", JFlag (SyncError_is_retryable e));
           ("timestamp", JInt now)].

(** ** Endpoints *)

Section endpoints.
(** The version of the package, of the compiler, the number of processors; the clock
    as text and in seconds since 1970, which the metrics call the uptime. *)
Context (pkg_version rust_version : string) (cpu_cores : Z) (now_text : string) (now_secs : Z).

Definition health_check : HttpResponse :=
  ok_json (JObject [("status", JText "healthy"); ("version", JText pkg_version); ("timestamp", JText now_text)]).

(** [storage_ok]: the storage says it is in health. *)
Definition readiness_check (storage_health : Res bool) (get_config : Config) : HttpResponse :=
  let storage_ok := match storage_health with Ok b => b | Err _ => false end in
  let body := JObject [("status", JText (if storage_ok then "ready" else "degraded")); ("version", JText pkg_version);
                       ("timestamp", JText now_text);
                       ("dependencies", JObject [("database", JFlag storage_ok);
                          ("message_broker_enabled", JFlag (mb_enabled (cf_message_broker get_config)))])] in
  if storage_ok then ok_json body else unavailable_json body.

Definition liveness_check : HttpResponse :=
  ok_json (JObject [("status", JText "alive"); ("version", JText pkg_version); ("timestamp", JText now_text)]).

Definition storage_type_debug (t : StorageType) : string :=
  match t with StorageType_Database => "Database" | StorageType_S3 => "S3" end.

Definition health_details (storage_health : Res bool) (cfg : Config) : HttpResponse :=
  let storage_ok := match storage_health with Ok b => b | Err _ => false end in
  let details := JObject [
    ("app", JObject [("version", JText pkg_version); ("time", JText now_text)]);
    ("config", JObject [("host", JText (sv_host (cf_server cfg))); ("grpc_port", JInt (sv_port (cf_server cfg)));
       ("http_port", JInt DEFAULT_HTTP_PORT);
       ("storage_type", JText (storage_type_debug (stc_storage_type (cf_storage cfg))));
       ("message_broker_enabled", JFlag (mb_enabled (cf_message_broker cfg)))]);
    ("dependencies", JObject [("database", JFlag storage_ok); ("redis_enabled", JFlag (rc_enabled (cf_redis cfg)))])] in
  if storage_ok then ok_json details else unavailable_json details.

Definition newline : string := String (Ascii.ascii_of_nat 10) "".

Definition prometheus_metrics : HttpResponse :=
  ok_json (JText (
    "# HELP cosmic_sync_server_info Server information" +:+ newline
    +:+ "# TYPE cosmic_sync_server_info gauge" +:+ newline
    +:+ "cosmic_sync_server_info{version=" +:+ String (Ascii.ascii_of_nat 34) "" +:+ pkg_version
    +:+ String (Ascii.ascii_of_nat 34) "" +:+ "} 1" +:+ newline +:+ newline
    +:+ "# HELP cosmic_sync_server_uptime_seconds Server uptime in seconds" +:+ newline
    +:+ "# TYPE cosmic_sync_server_uptime_seconds gauge" +:+ newline
    +:+ "cosmic_sync_server_uptime_seconds " +:+ pretty now_secs +:+ newline)).

Definition detailed_metrics : HttpResponse :=
  ok_json (JObject [
    ("server", JObject [("version", JText pkg_version); ("uptime_seconds", JInt now_secs);
                        ("rust_version", JText rust_version)]);
    ("system", JObject [("cpu_cores", JInt cpu_cores); ("timestamp", JText now_text)])]).

Definition api_info : HttpResponse :=
  ok_json (JObject [("name", JText "Cosmic Sync Server"); ("version", JText pkg_version);
    ("description", JText "High-performance synchronization server for COSMIC Desktop Environment")]).
Definition api_version : HttpResponse :=
  ok_json (JObject [("version", JText pkg_version); ("api_version", JText "v1")]).
Definition api_status : HttpResponse :=
  ok_json (JObject [("status", JText "healthy"); ("timestamp", JText now_text)]).

(** ** Routes *)

Inductive Method := GET | POST | OtherMethod.
#[global] Instance Method_eq_dec : EqDecision Method.
Proof. solve_decision. Defined.

Inductive Endpoint :=
| HealthCheck | ReadinessCheck | LivenessCheck | HealthDetails | PrometheusMetrics | DetailedMetrics
| OAuthLogin | OAuthCallback | RegisterSession | CheckAuthStatus | ApiInfo | ApiVersion | ApiStatus.
#[global] Instance Endpoint_eq_dec : EqDecision Endpoint.
Proof. solve_decision. Defined.

Definition routes : list (Method * string * Endpoint) := [
  (GET, "/health", HealthCheck); (GET, "/health/ready", ReadinessCheck); (GET, "/health/live", LivenessCheck);
  (GET, "/health/details", HealthDetails); (GET, "/metrics", PrometheusMetrics);
  (GET, "/metrics/detailed", DetailedMetrics); (GET, "/oauth/login", OAuthLogin);
  (GET, "/oauth/callback", OAuthCallback); (POST, "/auth/session", RegisterSession);
  (GET, "/auth/status", CheckAuthStatus); (GET, "/api/info", ApiInfo); (GET, "/api/version", ApiVersion);
  (GET, "/api/status", ApiStatus)].

(** The types of shared data: [Arc<AppState>], [AppState] and [AuthHandler]. *)
Inductive DataType := ArcAppState | PlainAppState | TheAuthHandler.
#[global] Instance DataType_eq_dec : EqDecision DataType.
Proof. solve_decision. Defined.

(** The types of the two [app_data] calls. *)
Definition app_data : list DataType := [ArcAppState; TheAuthHandler].

(** What a handler asks for: shared data, the query or the body in its form. *)
Inductive Extractor := FromData (t : DataType) | FromQuery | FromJson.

(** The parameters of the handlers, in their order. *)
Definition parameters (e : Endpoint) : list Extractor :=
  match e with
  | ReadinessCheck | HealthDetails => [FromData PlainAppState]
  | OAuthLogin => [FromQuery; FromData ArcAppState]
  | OAuthCallback => [FromQuery; FromData ArcAppState; FromData TheAuthHandler]
  | RegisterSession => [FromJson; FromData ArcAppState; FromData TheAuthHandler]
  | CheckAuthStatus => [FromQuery; FromData TheAuthHandler]
  | _ => []
  end.

(** Whether query and body of a request have the form that the endpoint asks for. *)
Record HttpRequest := mkHttpRequest {
  hq_method : Method; hq_path : string; hq_query_ok : Endpoint → bool; hq_json_ok : Endpoint → bool
}.

(** The status of the error with which the framework refuses a parameter. *)
Definition extraction_error (q : HttpRequest) (e : Endpoint) (x : Extractor) : option Z :=
  match x with
  | FromData t => if bool_decide (t ∈ app_data) then None else Some 500
  | FromQuery => if hq_query_ok q e then None else Some 400
  | FromJson => if hq_json_ok q e then None else Some 400
  end.

Fixpoint first_error {A} (l : list (option A)) : option A :=
  match l with [] => None | Some a :: _ => Some a | None :: l => first_error l end.

Definition extract (q : HttpRequest) (e : Endpoint) : option Z :=
  first_error (extraction_error q e <$> parameters e).

Definition route_of (q : HttpRequest) : option Endpoint :=
  snd <$> List.find (λ r, (r.1.1 == hq_method q) && (r.1.2 == hq_path q)) routes.

(** The answers of the endpoints of this file; the log-in endpoints are a parameter. *)
Definition respond (storage_health : Res bool) (get_config : Config) (log_in : Endpoint → HttpResponse)
    (e : Endpoint) : HttpResponse :=
  match e with
  | HealthCheck => health_check
  | ReadinessCheck => readiness_check storage_health get_config
  | LivenessCheck => liveness_check
  | HealthDetails => health_details storage_health get_config
  | PrometheusMetrics => prometheus_metrics
  | DetailedMetrics => detailed_metrics
  | ApiInfo => api_info
  | ApiVersion => api_version
  | ApiStatus => api_status
  | OAuthLogin | OAuthCallback | RegisterSession | CheckAuthStatus => log_in e
  end.

(** [None]: no route; the framework answers 404 or 405. *)
Definition dispatch (storage_health : Res bool) (get_config : Config) (log_in : Endpoint → HttpResponse)
    (q : HttpRequest) : option HttpResponse :=
  e ← route_of q;
  Some (match extract q e with
        | Some status => mkHttpResponse status None
        | None => respond storage_health get_config log_in e
        end).

(** ** Properties *)

Lemma route_paths : NoDup (map (λ r, r.1.2) routes).
Proof. apply (bool_decide_unpack _). vm_compute. done. Qed.

(** A probe of readiness and a request for the details are answered with an internal
    error, whatever the state of the storage: their handlers ask for data that is
    not registered.  They are the only such endpoints: every other request that
    finds a route and has a well-formed query and body reaches its handler. *)
Theorem readiness_is_never_answered storage_health get_config log_in q :
  (hq_method q = GET → hq_path q ∈ ["/health/ready"; "/health/details"] →
   dispatch storage_health get_config log_in q = Some (mkHttpResponse 500 None))
  ∧ (∀ e, route_of q = Some e → e ≠ ReadinessCheck → e ≠ HealthDetails →
       hq_query_ok q e = true → hq_json_ok q e = true →
       dispatch storage_health get_config log_in q = Some (respond storage_health get_config log_in e)).
Proof.
  split.
  - destruct q as [m p qo jo]. cbn [hq_method hq_path]. intros -> Hp.
    apply list_elem_of_In in Hp as [<-|[<-|[]]]; reflexivity.
  - intros e He H1 H2 Hq Hj. unfold dispatch. rewrite He. cbn. unfold extract.
    destruct e; try done; cbn [parameters fmap list_fmap extraction_error]; rewrite ?Hq, ?Hj; reflexivity.
Qed.

(** What the handler would have said. *)
Lemma readiness_check_status storage_health cfg :
  hr_status (readiness_check storage_health cfg)
  = match storage_health with Ok true => 200 | _ => 503 end.
Proof. by destruct storage_health as [[]|]. Qed.

End endpoints.

Module HttpSample.
Definition get (path : string) : HttpRequest := mkHttpRequest GET path (λ _, true) (λ _, true).
Definition config : Config :=
  mkConfig ServerConfig_default DatabaseConfig_default StorageConfig_default LoggingConfig_default
    FeatureFlags_default (mkMessageBrokerConfig false "" "" "" 200 true) (mkRedisConfig false None "") None.
Definition answer (path : string) : option HttpResponse :=
  dispatch "1.0" "1.80" 4 "now" 0 (Ok true) config (λ _, mkHttpResponse 200 None) (get path).
End HttpSample.

Lemma readiness_is_never_answered_witness :
  HttpSample.answer "/health/ready" = Some (mkHttpResponse 500 None)
  ∧ HttpSample.answer "/api/version" = Some (api_version "1.0").
Proof.
  split.
  - apply (proj1 (readiness_is_never_answered "1.0" "1.80" 4 "now" 0 (Ok true) HttpSample.config
      (λ _, mkHttpResponse 200 None) (HttpSample.get "/health/ready"))); [reflexivity|apply (bool_decide_unpack _); vm_compute; done].
  - apply (proj2 (readiness_is_never_answered "1.0" "1.80" 4 "now" 0 (Ok true) HttpSample.config
      (λ _, mkHttpResponse 200 None) (HttpSample.get "/api/version")) ApiVersion); done.
Defined.
