(* ===== verification/Lifecycle.v ===== *)
(** * Managed components (src/server/common/, server/components/sync_server.rs)

    A [ServiceManager] starts, stops and restarts a component, keeps its status, and
    runs two background tasks that record the component's metrics and health.  A
    task is known by a number; aborting it takes it out of the running tasks,
    while a handle that is only forgotten leaves it running. *)

From S2P Require Import Prelude RustString Errors Models Memory Crypto Effects Connections Notify AuthHandlers.
From S2P Require Import MySql MySqlFile MySqlVersions Schema Config Startup.

(** ** Components *)

Inductive ComponentStatus := Stopped | Starting | Running | Stopping | Error (message : string).
#[global] Instance ComponentStatus_eq_dec : EqDecision ComponentStatus.
Proof. solve_decision. Defined.

Definition ComponentStatus_default : ComponentStatus := Stopped.

Record ComponentHealth := mkComponentHealth {
  ch_is_healthy : bool;
  ch_message : option string;
  ch_last_check : DateTime;
  ch_dependencies : gmap string bool
}.

Definition ComponentHealth_default (now : DateTime) : ComponentHealth := mkComponentHealth false None now ∅.

(** The trait [ComponentMetrics]. *)
Class ComponentMetrics (Mt : Type) := {
  metrics_reset : Mt → Mt;
  metrics_merge : Mt → Mt → Mt
}.

(** The trait [Component]; errors are their texts. *)
Class Component (C Cfg Mt : Type) := {
  co_name : C → string;
  co_config : C → Cfg;
  co_start : DateTime → ME C string unit;
  co_stop : ME C string unit;
  co_health_check : DateTime → C → ComponentHealth;
  co_status : C → ComponentStatus;
  co_metrics : DateTime → C → Mt;
  co_update_config : Cfg → ME C string unit
}.

(** The default implementation of [restart]. *)
Definition Component_restart `{Component C Cfg Mt} (now : DateTime) : ME C string unit := λ c,
  if co_status c != Stopped then mthen co_stop (λ _, co_start now) c else co_start now c.

(** ** Status, metrics, health *)

Record StatusManager (Cfg : Type) := mkStatusManager { st_status : ComponentStatus; st_config : Cfg }.
Arguments mkStatusManager {Cfg}. Arguments st_status {Cfg}. Arguments st_config {Cfg}.

Definition StatusManager_new {Cfg} (config : Cfg) : StatusManager Cfg := mkStatusManager ComponentStatus_default config.
Definition set_status {Cfg} (s : ComponentStatus) (m : StatusManager Cfg) : StatusManager Cfg :=
  mkStatusManager s (st_config m).
Definition status_update_config {Cfg} (c : Cfg) (m : StatusManager Cfg) : StatusManager Cfg :=
  mkStatusManager (st_status m) c.

(** [history.push(x)], and the oldest entry is dropped above [max_history]. *)
Definition push_history {A} (max_history : nat) (history : list A) (x : A) : list A :=
  let history := (history ++ [x])%list in
  if (max_history <? length history)%nat then tail history else history.

Record MetricsCollector (Mt : Type) := mkMetricsCollector {
  mc_current : option Mt; mc_history : list Mt; mc_max_history : nat
}.
Arguments mkMetricsCollector {Mt}. Arguments mc_current {Mt}.
Arguments mc_history {Mt}. Arguments mc_max_history {Mt}.

Section metrics.
Context `{ComponentMetrics Mt}.
Implicit Types m : MetricsCollector Mt.

Definition metrics_with_history_size (max_history : nat) : MetricsCollector Mt := mkMetricsCollector None [] max_history.
Definition MetricsCollector_new : MetricsCollector Mt := metrics_with_history_size 100.

Definition metrics_update (x : Mt) m : MetricsCollector Mt :=
  mkMetricsCollector (Some x) (push_history (mc_max_history m) (mc_history m) x) (mc_max_history m).

(** The merge of the history, from its oldest entry. *)
Definition get_aggregated m : option Mt :=
  match mc_history m with
  | [] => None
  | x :: rest => Some (foldl metrics_merge x rest)
  end.

Definition metrics_collector_reset m : MetricsCollector Mt :=
  mkMetricsCollector (metrics_reset <$> mc_current m) [] (mc_max_history m).
End metrics.

Record HealthMonitor := mkHealthMonitor {
  hm_current : ComponentHealth; hm_history : list ComponentHealth; hm_max_history : nat; hm_threshold : nat
}.

Definition health_with_settings (max_history unhealthy_threshold : nat) (now : DateTime) : HealthMonitor :=
  mkHealthMonitor (ComponentHealth_default now) [] max_history unhealthy_threshold.
Definition HealthMonitor_new (now : DateTime) : HealthMonitor := health_with_settings 50 3 now.

Definition health_update (health : ComponentHealth) (m : HealthMonitor) : HealthMonitor :=
  mkHealthMonitor health (push_history (hm_max_history m) (hm_history m) health) (hm_max_history m) (hm_threshold m).

(** Consecutive failures, counted from the end. *)
Fixpoint leading_failures (l : list ComponentHealth) : nat :=
  match l with
  | h :: l => if negb (ch_is_healthy h) then Datatypes.S (leading_failures l) else 0
  | [] => 0
  end.
Definition count_recent_failures (m : HealthMonitor) : nat := leading_failures (rev (hm_history m)).

(** The time [minutes] before [now]; [None] is the panic of an unrepresentable date. *)
Definition minutes_before `{Chrono} (now : DateTime) (minutes : Z) : option DateTime :=
  from_timestamp (dt_timestamp now - 60 * minutes) (dt_nanosecond now).

Definition is_consistently_healthy `{Chrono} (duration_minutes : Z) (now : DateTime) (m : HealthMonitor) : option bool :=
  threshold_time ← minutes_before now duration_minutes;
  Some (forallb ch_is_healthy (List.filter (λ h, dt_leb threshold_time (ch_last_check h)) (hm_history m))).

Definition health_reset (now : DateTime) (m : HealthMonitor) : HealthMonitor :=
  mkHealthMonitor (ComponentHealth_default now) [] (hm_max_history m) (hm_threshold m).

(** ** The service manager *)

Inductive MonitoringTask := MetricsCollection | HealthMonitoring.

Record ServiceManager (C Cfg Mt : Type) := mkServiceManager {
  sm_component : C;
  sm_status_manager : StatusManager Cfg;
  sm_metrics_collector : MetricsCollector Mt;
  sm_health_monitor : HealthMonitor;
  (** The handles of the task manager, the running tasks, and the next number. *)
  sm_tasks : gmap string nat;
  sm_running : gmap nat MonitoringTask;
  sm_next_task : nat;
  sm_name : string
}.
Arguments mkServiceManager {C Cfg Mt}. Arguments sm_component {C Cfg Mt}. Arguments sm_status_manager {C Cfg Mt}.
Arguments sm_metrics_collector {C Cfg Mt}. Arguments sm_health_monitor {C Cfg Mt}. Arguments sm_tasks {C Cfg Mt}.
Arguments sm_running {C Cfg Mt}. Arguments sm_next_task {C Cfg Mt}. Arguments sm_name {C Cfg Mt}.

Section manager.
Context `{CO : Component C Cfg Mt} `{CM : ComponentMetrics Mt}.
Abbreviation Manager := (ServiceManager C Cfg Mt).
Implicit Types m : Manager.

Definition ServiceManager_new (now : DateTime) (component : C) : Manager :=
  mkServiceManager component (StatusManager_new (co_config component)) MetricsCollector_new (HealthMonitor_new now)
    ∅ ∅ 0 (co_name component).

Definition with_component (c : C) m : Manager :=
  mkServiceManager c (sm_status_manager m) (sm_metrics_collector m) (sm_health_monitor m) (sm_tasks m)
    (sm_running m) (sm_next_task m) (sm_name m).
Definition with_status (f : StatusManager Cfg → StatusManager Cfg) m : Manager :=
  mkServiceManager (sm_component m) (f (sm_status_manager m)) (sm_metrics_collector m) (sm_health_monitor m)
    (sm_tasks m) (sm_running m) (sm_next_task m) (sm_name m).
Definition with_tasks (tasks : gmap string nat) (running : gmap nat MonitoringTask) (next : nat) m : Manager :=
  mkServiceManager (sm_component m) (sm_status_manager m) (sm_metrics_collector m) (sm_health_monitor m)
    tasks running next (sm_name m).
Definition with_records (metrics : MetricsCollector Mt) (health : HealthMonitor) m : Manager :=
  mkServiceManager (sm_component m) (sm_status_manager m) metrics health (sm_tasks m) (sm_running m)
    (sm_next_task m) (sm_name m).

(** [tokio::spawn] and [TaskManager::add_task]: a handle of the same name is dropped,
    its task goes on. *)
Definition add_task (name : string) (kind : MonitoringTask) m : Manager :=
  with_tasks (<[name := sm_next_task m]> (sm_tasks m)) (<[sm_next_task m := kind]> (sm_running m))
    (Datatypes.S (sm_next_task m)) m.

Definition stop_task (name : string) m : bool * Manager :=
  match sm_tasks m !! name with
  | Some handle => (true, with_tasks (delete name (sm_tasks m)) (delete handle (sm_running m)) (sm_next_task m) m)
  | None => (false, m)
  end.

Definition stop_all m : Manager :=
  with_tasks ∅ (filter (λ p, p.1 ∉ (map_to_list (sm_tasks m)).*2) (sm_running m)) (sm_next_task m) m.

Definition start_monitoring_tasks m : Manager :=
  add_task "health_monitoring" HealthMonitoring (add_task "metrics_collection" MetricsCollection m).

(** One round of a running task. *)
Definition task_round (id : nat) (now : DateTime) m : Manager :=
  match sm_running m !! id with
  | Some MetricsCollection =>
      with_records (metrics_update (co_metrics now (sm_component m)) (sm_metrics_collector m)) (sm_health_monitor m) m
  | Some HealthMonitoring =>
      with_records (sm_metrics_collector m)
        (health_update (co_health_check now (sm_component m)) (sm_health_monitor m)) m
  | None => m
  end.

Definition modify (f : Manager → Manager) : ME Manager string unit := λ m, (Returned (Ok tt), f m).
Definition on_component {A} (x : ME C string A) : ME Manager string A := on_part sm_component with_component x.

(** A step of the component whose failure becomes the status. *)
Definition component_step (verb : string) (x : ME C string unit) : ME Manager string unit := λ m,
  mtry (on_component x) (λ r,
    match r with
    | Ok _ => ret tt
    | Err e =>
        _ ←? modify (with_status (set_status (Error ("Failed to " +:+ verb +:+ " " +:+ sm_name m +:+ ": " +:+ e))));
        throw e
    end) m.

Definition start (now : DateTime) : ME Manager string unit :=
  _ ←? modify (with_status (set_status Starting));
  _ ←? modify start_monitoring_tasks;
  _ ←? component_step "start" (co_start now);
  modify (with_status (set_status Running)).

Definition stop : ME Manager string unit :=
  _ ←? modify (with_status (set_status Stopping));
  _ ←? modify stop_all;
  _ ←? component_step "stop" co_stop;
  modify (with_status (set_status Stopped)).

Definition restart (now : DateTime) : ME Manager string unit := λ m,
  (_ ←? (if st_status (sm_status_manager m) != Stopped then stop else ret tt); start now) m.

Definition status m : ComponentStatus := st_status (sm_status_manager m).
Definition health (now : DateTime) m : ComponentHealth := co_health_check now (sm_component m).
Definition metrics (now : DateTime) m : Mt := co_metrics now (sm_component m).

Definition update_config (config : Cfg) : ME Manager string unit :=
  _ ←? on_component (co_update_config config);
  modify (with_status (status_update_config config)).

End manager.

(** ** The server as a component *)

Record SyncServerMetrics := mkSyncServerMetrics {
  sm_total_requests : Z;
  sm_active_connections : Z;
  sm_uptime_seconds : Z;
  sm_sync_operations : Z;
  sm_failed_operations : Z;
  sm_data_transferred_bytes : Z
}.

Definition SyncServerMetrics_default : SyncServerMetrics := mkSyncServerMetrics 0 0 0 0 0 0.

(** Counters are added, the latest connections and uptime are kept. *)
Definition SyncServerMetrics_merge (self other : SyncServerMetrics) : SyncServerMetrics :=
  mkSyncServerMetrics (wrap_u64 (sm_total_requests self + sm_total_requests other)) (sm_active_connections other)
    (sm_uptime_seconds other) (wrap_u64 (sm_sync_operations self + sm_sync_operations other))
    (wrap_u64 (sm_failed_operations self + sm_failed_operations other))
    (wrap_u64 (sm_data_transferred_bytes self + sm_data_transferred_bytes other)).

#[export] Instance SyncServerMetrics_component : ComponentMetrics SyncServerMetrics := {|
  metrics_reset := λ _, SyncServerMetrics_default;
  metrics_merge := SyncServerMetrics_merge
|}.

(** The component, beside the process it runs in and the database of its storage. *)
Record SyncServerComponent := mkSyncServerComponent {
  ss_config : ServerConfig;
  ss_app_state : AppState;
  ss_status : ComponentStatus;
  ss_metrics : SyncServerMetrics;
  ss_start_time : option DateTime;
  ss_process : Process;
  ss_conn : Conn
}.

Definition ss_set (status : ComponentStatus) (start_time : option DateTime) (s : SyncServerComponent)
    : SyncServerComponent :=
  mkSyncServerComponent (ss_config s) (ss_app_state s) status (ss_metrics s) start_time (ss_process s) (ss_conn s).
Definition ss_with_metrics (x : SyncServerMetrics) (s : SyncServerComponent) : SyncServerComponent :=
  mkSyncServerComponent (ss_config s) (ss_app_state s) (ss_status s) x (ss_start_time s) (ss_process s) (ss_conn s).
Definition ss_with_config (c : ServerConfig) (s : SyncServerComponent) : SyncServerComponent :=
  mkSyncServerComponent c (ss_app_state s) (ss_status s) (ss_metrics s) (ss_start_time s) (ss_process s) (ss_conn s).
Definition ss_with_process (p : Process) (s : SyncServerComponent) : SyncServerComponent :=
  mkSyncServerComponent (ss_config s) (ss_app_state s) (ss_status s) (ss_metrics s) (ss_start_time s) p (ss_conn s).
Definition ss_with_conn (c : Conn) (s : SyncServerComponent) : SyncServerComponent :=
  mkSyncServerComponent (ss_config s) (ss_app_state s) (ss_status s) (ss_metrics s) (ss_start_time s) (ss_process s) c.

(** [(now - start).num_seconds() as u64]. *)
Definition elapsed_seconds (start now : DateTime) : Z :=
  wrap_u64 (Z.quot ((dt_timestamp now - dt_timestamp start) * 10 ^ 9 + (dt_nanosecond now - dt_nanosecond start))
              (10 ^ 9)).

Section sync_server.
Context `{U : Unicode} `{HI : HashIter} `{CA : CryptoApi} `{UT : Utf8}.
Context (env : string → option string) (redis_cache : bool) (fault : nat → option string) (commit_applied : bool)
        (nonces : nat → nat → bytes) (socket_addr : string → result string string).

(** [SyncServerComponent::new], with the application state it made. *)
Definition SyncServerComponent_new (config : ServerConfig) (app_state : AppState) (p : Process) (c : Conn)
    : SyncServerComponent :=
  mkSyncServerComponent config app_state Stopped SyncServerMetrics_default None p c.

(** Nothing calls it. *)
Definition update_metrics (now : DateTime) (s : SyncServerComponent) : SyncServerComponent :=
  let m := ss_metrics s in
  let '(total, connected, disconnected) := get_connection_stats (as_client_store (ss_app_state s)) in
  ss_with_metrics (mkSyncServerMetrics (sm_total_requests m) (wrap_u32 (total + connected + disconnected))
      (match ss_start_time s with Some t => elapsed_seconds t now | None => sm_uptime_seconds m end)
      (sm_sync_operations m) (sm_failed_operations m) (sm_data_transferred_bytes m)) s.

Definition sync_modify (f : SyncServerComponent → SyncServerComponent) : ME SyncServerComponent string unit :=
  λ s, (Returned (Ok tt), f s).

(** The migration of old rows at the start: its failure is logged. *)
Definition encrypt_old_rows : ME SyncServerComponent string unit := λ s,
  match cf_server_encode_key (as_config (ss_app_state s)), as_storage (ss_app_state s) with
  | Some key, MySqlHandle _ =>
      if (length key =? 32)%nat then
        mtry (on_part ss_conn ss_with_conn
                (my_migrate_encrypt_paths fault commit_applied
                   (cf_server_encode_key (get_config env redis_cache (ss_process s))) 1000 nonces))
          (λ _, ret tt) s
      else ret tt s
  | _, _ => ret tt s
  end.

Definition sync_start (now : DateTime) : ME SyncServerComponent string unit :=
  _ ←? sync_modify (ss_set Starting (Some now));
  _ ←? sync_modify (λ s, ss_with_process (start_client_cleanup_task (ss_process s)).2 s);
  _ ←? encrypt_old_rows;
  sync_modify (λ s, ss_set Running (ss_start_time s) s).

Definition sync_stop : ME SyncServerComponent string unit :=
  _ ←? sync_modify (λ s, ss_set Stopping (ss_start_time s) s);
  sync_modify (ss_set Stopped None).

Definition sync_health_check (now : DateTime) (s : SyncServerComponent) : ComponentHealth :=
  let is_running := ss_status s == Running in
  let dependencies : gmap string bool := <["storage" := true]> (<["database" := true]> (<["app_state" := true]> ∅)) in
  let is_healthy := is_running && forallb id (map_to_list dependencies).*2 in
  mkComponentHealth is_healthy (if is_healthy then None else Some "One or more dependencies are unhealthy")
    now dependencies.

Definition sync_metrics (now : DateTime) (s : SyncServerComponent) : SyncServerMetrics :=
  let m := ss_metrics s in
  match ss_start_time s with
  | Some t => mkSyncServerMetrics (sm_total_requests m) (sm_active_connections m) (elapsed_seconds t now)
                (sm_sync_operations m) (sm_failed_operations m) (sm_data_transferred_bytes m)
  | None => m
  end.

(** [ServerConfig::address]. *)
Definition ServerConfig_address (c : ServerConfig) : result string string :=
  socket_addr (sv_host c +:+ ":" +:+ pretty (sv_port c)).

Definition sync_update_config (config : ServerConfig) : ME SyncServerComponent string unit :=
  match ServerConfig_address config with
  | Err e => throw ("Configuration error: Invalid address: " +:+ e)
  | Ok _ => sync_modify (ss_with_config config)
  end.

Definition sync_server_component : Component SyncServerComponent ServerConfig SyncServerMetrics := {|
  co_name := λ _, "SyncServer";
  co_config := ss_config;
  co_start := sync_start;
  co_stop := sync_stop;
  co_health_check := sync_health_check;
  co_status := ss_status;
  co_metrics := sync_metrics;
  co_update_config := sync_update_config
|}.

End sync_server.
