(* ===== verification/LifecycleProps.v ===== *)
(** * Properties of managed components

    The histories are the last entries of what was recorded, every running task of
    a service that is started when it is stopped has a handle, and what is lost
    when it is started twice. *)

From S2P Require Import Prelude RustString Errors Models Memory Crypto Effects Connections Notify AuthHandlers.
From S2P Require Import MySql MySqlFile MySqlVersions Schema Config ConfigProps Startup StartupProps Lifecycle.

(** ** Histories *)

Lemma push_history_window {A} n (l : list A) x :
  push_history n (drop (length l - n) l) x = drop (length (l ++ [x]) - n) (l ++ [x])%list.
Proof.
  unfold push_history. rewrite length_app, length_app, length_drop. cbn [length].
  destruct (decide (n ≤ length l)%nat) as [Hn|Hn].
  - rewrite (proj2 (Nat.ltb_lt _ _)) by lia.
    rewrite <- (drop_app_le _ [x] (length l - n)) by lia.
    replace (length l + 1 - n)%nat with (Datatypes.S (length l - n)) by lia.
    generalize (length l - n)%nat (l ++ [x])%list. clear. intros k l. revert l.
    induction k as [|k IH]; intros [|y l]; cbn; [done|by rewrite drop_0|done|]. apply IH.
  - rewrite (proj2 (Nat.ltb_ge _ _)) by lia.
    replace (length l - n)%nat with 0%nat by lia. by replace (length l + 1 - n)%nat with 0%nat by lia.
Qed.

Lemma foldl_constant {A B S} (get : S → B) (f : S → A → S) s l :
  (∀ s x, get (f s x) = get s) → get (foldl f s l) = get s.
Proof. intros Hf. revert s. induction l as [|x l IH]; intros s; [done|]. cbn. by rewrite IH, Hf. Qed.

(** The metrics after any updates: the history holds the last of them, oldest first,
    at most as many as asked for, and the last one is current. *)
Theorem metrics_history_window {Mt} n (l : list Mt) :
  let m := foldl (λ m x, metrics_update x m) (metrics_with_history_size n) l in
  mc_history m = drop (length l - n) l ∧ (length (mc_history m) ≤ n)%nat ∧ mc_current m = last l.
Proof.
  cbn zeta. assert (Hm : ∀ l : list Mt, mc_max_history (foldl (λ m x, metrics_update x m) (metrics_with_history_size n) l) = n).
  { intros k. by rewrite (foldl_constant (@mc_max_history Mt)). }
  assert (Hh : mc_history (foldl (λ m x, metrics_update x m) (metrics_with_history_size n) l) = drop (length l - n) l).
  { induction l as [|x l IH] using rev_ind; [done|]. rewrite foldl_app. cbn [foldl metrics_update mc_history].
    by rewrite Hm, IH, push_history_window. }
  rewrite Hh, length_drop. split_and!; [done|lia|].
  destruct l as [|x l _] using rev_ind; [done|]. by rewrite foldl_app, last_snoc.
Qed.

(** Health: the same, and the failures counted are the unbroken run of failures at the
    end of the history. *)
Lemma leading_failures_spec l :
  ∃ bad rest, l = (bad ++ rest)%list ∧ length bad = leading_failures l
    ∧ Forall (λ h, ch_is_healthy h = false) bad
    ∧ match rest with h :: _ => ch_is_healthy h = true | [] => True end.
Proof.
  induction l as [|h l (bad & rest & E & Hl & Hb & Hr)]; [by exists [], []|]. cbn [leading_failures].
  destruct (ch_is_healthy h) eqn:Eh; cbn [negb].
  - exists [], (h :: l). auto.
  - exists (h :: bad), rest. subst l. split_and!; cbn; [done|by rewrite Hl|by constructor|done].
Qed.

Theorem health_history_window n threshold now l :
  let m := foldl (λ m h, health_update h m) (health_with_settings n threshold now) l in
  hm_history m = drop (length l - n) l
  ∧ ∃ rest bad, hm_history m = (rest ++ bad)%list ∧ length bad = count_recent_failures m
      ∧ Forall (λ h, ch_is_healthy h = false) bad
      ∧ match last rest with Some h => ch_is_healthy h = true | None => True end.
Proof.
  cbn zeta.
  assert (Hm : ∀ l, hm_max_history (foldl (λ m h, health_update h m) (health_with_settings n threshold now) l) = n).
  { intros k. by rewrite (foldl_constant hm_max_history). }
  split.
  - induction l as [|x l IH] using rev_ind; [done|]. rewrite foldl_app. cbn [foldl health_update hm_history].
    by rewrite Hm, IH, push_history_window.
  - unfold count_recent_failures.
    set (h := hm_history _). destruct (leading_failures_spec (rev h)) as (bad & rest & E & Hl & Hb & Hr).
    exists (rev rest), (rev bad). split_and!.
    + apply (f_equal (@rev _)) in E. by rewrite rev_involutive, rev_app_distr in E.
    + by rewrite length_rev.
    + apply Forall_forall. intros x Hx. rewrite Forall_forall in Hb. apply Hb.
      apply list_elem_of_In. apply in_rev. by apply list_elem_of_In.
    + destruct rest as [|y rest]; [done|]. cbn. by rewrite last_snoc.
Qed.

Lemma size_list_to_set_le (l : list nat) : (size (list_to_set l : gset nat) ≤ length l)%nat.
Proof.
  induction l as [|x l IH]; [done|]. cbn [list_to_set length foldr]. rewrite size_union_alt, size_singleton.
  etrans; [|apply le_n_S, IH]. apply le_n_S, subseteq_size. set_solver.
Qed.

(** ** The tasks of a service *)

Section service.
Context `{CO : Component C Cfg Mt} `{CM : ComponentMetrics Mt}.
Abbreviation Manager := (ServiceManager C Cfg Mt).
Implicit Types m : Manager.

Definition task_names : list string := ["metrics_collection"; "health_monitoring"].

(** The handles of a service are those of its two tasks. *)
Definition handles_ok m : Prop :=
  ∀ name id, sm_tasks m !! name = Some id → name ∈ task_names ∧ (id < sm_next_task m)%nat.

(** The running tasks that no handle reaches any more. *)
Definition unhandled m : gmap nat MonitoringTask :=
  filter (λ p, p.1 ∉ (map_to_list (sm_tasks m)).*2) (sm_running m).

(** The part of a manager that the tasks make up. *)
Definition task_part m : gmap string nat * gmap nat MonitoringTask * nat := (sm_tasks m, sm_running m, sm_next_task m).

Lemma modify_part (f : Manager → Manager) m : task_part (f m) = task_part m → task_part (modify f m).2 = task_part m.
Proof. done. Qed.

Lemma on_component_part {A} (x : ME C string A) m : task_part (on_component x m).2 = task_part m.
Proof. unfold on_component, on_part. by destruct (x (sm_component m)). Qed.

Lemma component_step_part verb x m : task_part (component_step verb x m).2 = task_part m.
Proof.
  unfold component_step, mtry. pose proof (on_component_part x m) as H.
  by destruct (on_component x m) as [[[|]|] m1].
Qed.

(** After the first two statements of [start] only the status and the component change. *)
Lemma start_part now m : task_part (start now m).2 = task_part (start_monitoring_tasks m).
Proof.
  unfold start, mthen. cbn [modify].
  set (m1 := start_monitoring_tasks _). pose proof (component_step_part "start" (co_start now) m1) as H.
  change (task_part (start_monitoring_tasks m)) with (task_part m1).
  by destruct (component_step _ _ m1) as [[[|]|] m2].
Qed.

Lemma stop_part m : task_part (stop m).2 = task_part (stop_all m).
Proof.
  unfold stop, mthen. cbn [modify].
  set (m1 := stop_all _). pose proof (component_step_part "stop" co_stop m1) as H.
  change (task_part (stop_all m)) with (task_part m1).
  by destruct (component_step _ _ m1) as [[[|]|] m2].
Qed.

Lemma elem_of_handles m id : id ∈ (map_to_list (sm_tasks m)).*2 ↔ ∃ name, sm_tasks m !! name = Some id.
Proof.
  rewrite list_elem_of_fmap. split.
  - intros ([name id'] & -> & Hin). apply elem_of_map_to_list in Hin. eauto.
  - intros [name Hl]. exists (name, id). split; [done|]. by apply elem_of_map_to_list.
Qed.

Lemma lookup_unhandled m id kind :
  unhandled m !! id = Some kind ↔ sm_running m !! id = Some kind ∧ ∀ name, sm_tasks m !! name ≠ Some id.
Proof.
  unfold unhandled. rewrite map_lookup_filter_Some. cbn. rewrite elem_of_handles. naive_solver.
Qed.

Lemma stop_all_running m id kind :
  sm_running (stop_all m) !! id = Some kind ↔
  sm_running m !! id = Some kind ∧ ∀ name, sm_tasks m !! name ≠ Some id.
Proof. apply (lookup_unhandled m). Qed.

Lemma unhandled_no_tasks m : sm_tasks m = ∅ → unhandled m = sm_running m.
Proof.
  intros E. apply map_eq. intros id. apply option_eq. intros kind. rewrite lookup_unhandled, E.
  split; [by intros []|]. intros H. split; [done|]. intros name. by rewrite lookup_empty.
Qed.

(** The tasks that run are the unhandled ones and two more at most. *)
Lemma running_bound m : handles_ok m → (size (sm_running m) ≤ size (unhandled m) + 2)%nat.
Proof.
  intros Hh. rewrite <- !(size_dom (D := gset nat)).
  set (known := list_to_set (omap (λ name, sm_tasks m !! name) task_names) : gset nat).
  assert (dom (sm_running m) ⊆ dom (unhandled m) ∪ known) as Hsub.
  { intros id [kind Hr]%elem_of_dom. destruct (decide (id ∈ (map_to_list (sm_tasks m)).*2)) as [Hin|Hout].
    - apply elem_of_union_r, elem_of_list_to_set, list_elem_of_omap. apply elem_of_handles in Hin as [name Hn].
      exists name. split; [|done]. by eapply Hh.
    - apply elem_of_union_l, elem_of_dom. exists kind. apply lookup_unhandled. split; [done|].
      intros name Hn. apply Hout, elem_of_handles. eauto. }
  etrans; [by apply subseteq_size|]. rewrite size_union_alt. apply Nat.add_le_mono_l.
  etrans; [apply subseteq_size; by apply subseteq_difference_l|]. etrans; [apply size_list_to_set_le|].
  cbn. repeat case_match; cbn; lia.
Qed.

Lemma start_tasks_spec m : handles_ok m →
  handles_ok (start_monitoring_tasks m) ∧ (size (unhandled (start_monitoring_tasks m)) ≤ size (sm_running m))%nat.
Proof.
  intros Hh. unfold start_monitoring_tasks, add_task, handles_ok.
  set (m' := with_tasks _ _ _ _). cbn [with_tasks sm_tasks sm_running sm_next_task] in m'. split.
  - cbn. intros name id [[<- <-]|[_ [[<- <-]|[_ Hn]]%lookup_insert_Some]]%lookup_insert_Some.
    + split; [right; left|lia].
    + split; [left|lia].
    + destruct (Hh _ _ Hn). split; [done|lia].
  - apply map_subseteq_size, map_subseteq_spec. intros id kind [Hr Hn]%lookup_unhandled.
    assert (id ≠ Datatypes.S (sm_next_task m)) as H1.
    { intros ->. apply (Hn "health_monitoring"). cbn. by rewrite lookup_insert_eq. }
    assert (id ≠ sm_next_task m) as H2.
    { intros ->. apply (Hn "metrics_collection"). cbn. rewrite lookup_insert_ne by done. by rewrite lookup_insert_eq. }
    cbn in Hr. by rewrite !lookup_insert_ne in Hr by done.
Qed.

(** ** Reachable services

    Calls of a client, one after the other, with the rounds of the tasks in between.  The
    code does not stop a client from starting a service that was not stopped; the number
    counts these starts. *)

Inductive service_step : Manager → nat → Manager → Prop :=
| step_start now m : service_step m (if decide (status m = Stopped) then 0 else 1) (start now m).2
| step_stop m : service_step m 0 (stop m).2
| step_restart now m : service_step m 0 (restart now m).2
| step_update config m : service_step m 0 (update_config config m).2
| step_stop_task name m : service_step m 0 (stop_task name m).2
| step_round id now m : service_step m 0 (task_round id now m).

Inductive service_run (m0 : Manager) : nat → Manager → Prop :=
| service_run_start : service_run m0 0 m0
| service_run_step k n m m' : service_run m0 k m → service_step m n m' → service_run m0 (k + n) m'.

Definition service_inv (k : nat) m : Prop :=
  handles_ok m ∧ (size (unhandled m) ≤ 2 * k)%nat ∧ (status m = Stopped → sm_tasks m = ∅).

Lemma unhandled_part m m' : task_part m' = task_part m → handles_ok m →
  handles_ok m' ∧ unhandled m' = unhandled m.
Proof. unfold task_part, handles_ok, unhandled. by intros [= -> -> ->]. Qed.

Lemma start_status now m :
  match (start now m).1 with
  | Returned (Ok _) => status (start now m).2 = Running
  | Returned (Err _) => ∃ e, status (start now m).2 = Error e
  | Panicked => status (start now m).2 = Starting
  end.
Proof.
  unfold start, mthen, component_step, mtry, on_component, on_part. cbn [modify].
  destruct (co_start now _) as [[[[]|e]|] c1]; cbn; [done|by eexists|done].
Qed.

Lemma stop_status m :
  match (stop m).1 with
  | Returned (Ok _) => status (stop m).2 = Stopped
  | Returned (Err _) => ∃ e, status (stop m).2 = Error e
  | Panicked => status (stop m).2 = Stopping
  end.
Proof.
  unfold stop, mthen, component_step, mtry, on_component, on_part. cbn [modify].
  destruct (co_stop _) as [[[[]|e]|] c1]; cbn; [done|by eexists|done].
Qed.

Lemma stop_inv k m : service_inv k m → service_inv k (stop m).2 ∧ sm_tasks (stop m).2 = ∅.
Proof.
  intros (Hh & Hu & _). pose proof (stop_part m) as Hp. unfold task_part in Hp. injection Hp as Ht Hr Hn.
  unfold service_inv, handles_ok. rewrite Ht. cbn [stop_all with_tasks sm_tasks]. split_and!; [done| |done|done].
  rewrite unhandled_no_tasks by (by rewrite Ht). rewrite Hr. exact Hu.
Qed.

Lemma start_inv now k k' m : handles_ok m → (size (sm_running m) ≤ 2 * k')%nat → service_inv k m →
  service_inv k' (start now m).2.
Proof.
  intros Hh Hr _. destruct (start_tasks_spec m Hh) as [Hh' Hu'].
  destruct (unhandled_part _ _ (start_part now m) Hh') as [H1 H2]. split; [done|]. split; [rewrite H2; lia|].
  pose proof (start_status now m) as Hs.
  destruct (start now m).1 as [[[]|e]|]; intros E; [congruence|destruct Hs; congruence|congruence].
Qed.

(** Nothing is lost by a start when there are no handles. *)
Lemma start_stopped_inv now k m : sm_tasks m = ∅ → service_inv k m → service_inv k (start now m).2.
Proof.
  intros E Hi. destruct (Hi) as (Hh & Hu & _). rewrite unhandled_no_tasks in Hu by done. by eapply start_inv.
Qed.

Lemma service_step_inv k n m m' : service_step m n m' → service_inv k m → service_inv (k + n) m'.
Proof.
  destruct 1 as [now m|m|now m|config m|name m|id now m]; intros Hi; rewrite ?Nat.add_0_r.
  - case_decide as Hs; rewrite ?Nat.add_0_r; destruct (Hi) as (Hh & Hu & Ht); [apply start_stopped_inv; auto|].
    eapply start_inv; [done| |done]. pose proof (running_bound m Hh). lia.
  - by apply stop_inv.
  - unfold restart, mthen. destruct (decide (st_status (sm_status_manager m) = Stopped)) as [Es|Es].
    + rewrite bool_decide_eq_true_2 by done. apply start_stopped_inv; [by apply Hi|done].
    + rewrite bool_decide_eq_false_2 by done. destruct (stop_inv k m Hi) as [Hi' E]. cbn [negb].
      destruct (stop m) as [[[[]|e]|] m1]; [|done..]. by apply start_stopped_inv.
  - unfold update_config, mthen. destruct Hi as (Hh & Hu & Hs).
    pose proof (on_component_part (co_update_config config) m) as Hp.
    assert (He : status (on_component (co_update_config config) m).2 = status m).
    { unfold on_component, on_part. by destruct (co_update_config config _). }
    destruct (on_component _ m) as [[[|]|] m1]; cbn in *; destruct (unhandled_part _ _ Hp Hh) as [H1 H2];
      (split; [exact H1|]; split; [by rewrite <- H2 in Hu|]); injection Hp as Ht _ _;
      unfold status in *; cbn; rewrite He, Ht; done.
  - unfold stop_task. destruct (sm_tasks m !! name) as [handle|] eqn:En; [|done]. destruct Hi as (Hh & Hu & Hs).
    cbn [snd]. split; [|split].
    + intros name' id Hn. cbn in Hn |- *. apply lookup_delete_Some in Hn as [_ Hn]. by eapply Hh.
    + etrans; [|exact Hu]. apply map_subseteq_size, map_subseteq_spec. intros id kind [Hr Hn]%lookup_unhandled.
      cbn in Hr, Hn. apply lookup_delete_Some in Hr as [Hne Hr]. apply lookup_unhandled. split; [done|].
      intros name' Hn'. apply (Hn name'). rewrite lookup_delete_ne; [done|]. intros ->. congruence.
    + unfold status. cbn. intros E. by rewrite (Hs E), delete_empty.
  - unfold task_round. destruct (sm_running m !! id) as [[]|]; [|..]; done.
Qed.

(** C21: whatever calls a client makes one after the other, with failures of the component
    at any point: the handles of a service are those of its two tasks, and of the running
    tasks at most two for each start of a service that was not stopped have no handle; a
    stopped service has no running tasks but these.  So a client that starts a service only
    when it is stopped never has a task without a handle, nor more than two, nor any when it
    has stopped the service. *)
Theorem service_tasks_tracked now c k m :
  service_run (ServiceManager_new now c) k m →
  (∀ name id, sm_tasks m !! name = Some id → name ∈ task_names)
  ∧ (size (filter (λ p, p.1 ∉ (map_to_list (sm_tasks m)).*2) (sm_running m)) ≤ 2 * k)%nat
  ∧ (size (sm_running m) ≤ 2 * k + 2)%nat
  ∧ (status m = Stopped → (size (sm_running m) ≤ 2 * k)%nat).
Proof.
  intros Hr. assert (service_inv k m) as (Hh & Hu & Hs).
  { induction Hr as [|k n m1 m2 _ IH Hs]; [|by eapply service_step_inv].
    split; [by intros name id ?|]. split; [done|done]. }
  split; [intros name id Hn; by apply (Hh name id)|]. split; [exact Hu|].
  pose proof (running_bound m Hh). split; [lia|]. intros E. by rewrite <- unhandled_no_tasks by auto.
Qed.

(** A service that is started while it is started loses the handles of its tasks: they
    still run when it has been stopped. *)
Theorem second_start_leaks_tasks now m id kind :
  handles_ok m → sm_running m !! id = Some kind → (id < sm_next_task m)%nat →
  sm_running (stop (start now m).2).2 !! id = Some kind.
Proof.
  intros H2 Hid Hlt.
  pose proof (stop_part (start now m).2) as Hp. pose proof (start_part now m) as Hq.
  unfold task_part in Hp, Hq. injection Hp as _ -> _. apply stop_all_running.
  injection Hq as -> -> _. unfold start_monitoring_tasks, add_task.
  cbn [with_tasks sm_tasks sm_running sm_next_task]. split.
  - rewrite !lookup_insert_ne by lia. done.
  - intros name' [[_ ?]|[Hne1 [[_ ?]|[Hne2 Hl]]%lookup_insert_Some]]%lookup_insert_Some; [lia..|].
    destruct (H2 _ _ Hl) as [Hin _]. apply list_elem_of_In in Hin as [<-|[<-|[]]]; done.
Qed.

End service.

(** ** The server as a component *)

Section sync_server.
Context `{U : Unicode} `{HI : HashIter} `{CA : CryptoApi} `{UT : Utf8}.
Context (env : string → option string) (redis_cache : bool) (fault : nat → option string) (commit_applied : bool)
        (nonces : nat → nat → bytes) (socket_addr : string → result string string).

Abbreviation component_start := (sync_start env redis_cache fault commit_applied nonces).

(** The migration of old rows reads the key of [APP_CONFIG], not that of the application
    state that decides to run it: where the first is empty it changes nothing. *)
Lemma encrypt_old_rows_idle s :
  cf_server_encode_key (get_config env redis_cache (ss_process s)) = None →
  (encrypt_old_rows env redis_cache fault commit_applied nonces s) = (Returned (Ok tt), s).
Proof.
  intros Hk. unfold encrypt_old_rows. repeat case_match; try done. unfold mtry, on_part. rewrite Hk.
  cbn. by destruct s.
Qed.

(** A start adds a clean-up task, and no stop ends it. *)
Lemma component_start_spec now s :
  pr_app_config (ss_process s) = None →
  component_start now s
  = (Returned (Ok tt),
     ss_set Running (Some now) (ss_with_process (add_tasks [ClientCleanupTask] (ss_process s)) s)).
Proof.
  intros Hp. unfold sync_start, mthen. cbn [sync_modify].
  rewrite encrypt_old_rows_idle; [by destruct s|]. unfold get_config. cbn. by rewrite Hp.
Qed.

Fixpoint start_stop (times : list DateTime) : ME SyncServerComponent string unit :=
  match times with
  | [] => ret tt
  | now :: times => _ ←? component_start now; _ ←? sync_stop; start_stop times
  end.

(** After [n] starts and stops the server runs [n] clean-up tasks. *)
Theorem restarts_pile_up_tasks times s : pr_app_config (ss_process s) = None →
  (start_stop times s).1 = Returned (Ok tt)
  ∧ pr_tasks (ss_process (start_stop times s).2)
    = (pr_tasks (ss_process s) ++ replicate (length times) ClientCleanupTask)%list.
Proof.
  revert s. induction times as [|now times IH]; intros s Hs; [by rewrite app_nil_r|].
  set (s1 := ss_set Stopped None (ss_with_process (add_tasks [ClientCleanupTask] (ss_process s)) s)).
  assert (E : start_stop (now :: times) s = start_stop times s1).
  { cbn [start_stop]. unfold mthen at 1. rewrite component_start_spec by done. by destruct s. }
  rewrite E. destruct (IH s1) as [H1 H2]; [done|]. split; [done|]. rewrite H2. cbn. by rewrite <- app_assoc.
Qed.

(** The active connections reported are twice the clients ever seen, connected or not. *)
Theorem active_connections_doubled `{CH : Chrono} now s :
  sm_active_connections (ss_metrics (update_metrics now s))
  = wrap_u32 (2 * Z.of_nat (size (as_client_store (ss_app_state s)))).
Proof.
  unfold update_metrics. destruct (get_connection_stats_spec (as_client_store (ss_app_state s))) as [-> _].
  cbn. f_equal. lia.
Qed.

End sync_server.

(** ** A component that fails now and then *)

Module Flaky.
(** The number of starts so far; every second start fails. *)
Definition start_flaky (now : DateTime) : ME nat string unit := λ n,
  (Returned (if Nat.even n then Ok tt else Err "port in use"), Datatypes.S n).
#[global] Instance component : Component nat unit SyncServerMetrics := {|
  co_name := λ _, "flaky"; co_config := λ _, tt; co_start := start_flaky; co_stop := ret tt;
  co_health_check := λ now n, mkComponentHealth (Nat.odd n) None now ∅; co_status := λ _, Stopped;
  co_metrics := λ _ _, SyncServerMetrics_default; co_update_config := λ _, ret tt |}.
Definition now : DateTime := mkDateTime 0 0.
Definition fresh : ServiceManager nat unit SyncServerMetrics := ServiceManager_new now 0%nat.
Definition failed : ServiceManager nat unit SyncServerMetrics := (restart now (start now fresh).2).2.
Definition restarted : ServiceManager nat unit SyncServerMetrics := (restart now failed).2.
End Flaky.

Lemma service_tasks_tracked_witness :
  status Flaky.failed = Error "Failed to start flaky: port in use"
  ∧ status Flaky.restarted = Running
  ∧ (size (sm_running Flaky.restarted) ≤ 2)%nat
  ∧ (size (sm_running (start Flaky.now Flaky.restarted).2) ≤ 4)%nat.
Proof.
  assert (H : service_run Flaky.fresh 0 Flaky.restarted).
  { apply (service_run_step _ 0 0 Flaky.failed); [|apply step_restart].
    apply (service_run_step _ 0 0 (start Flaky.now Flaky.fresh).2); [|apply step_restart].
    apply (service_run_step _ 0 0 Flaky.fresh); [apply service_run_start|]. apply step_start. }
  split_and!; [vm_compute; reflexivity..| |].
  - apply (service_tasks_tracked Flaky.now 0%nat 0 Flaky.restarted H).
  - apply (service_tasks_tracked Flaky.now 0%nat 1 (start Flaky.now Flaky.restarted).2).
    apply (service_run_step _ 0 1 Flaky.restarted); [exact H|]. apply step_start.
Defined.

(** Started twice and stopped: the first two tasks are still running. *)
Example two_tasks_leak :
  map_to_list (sm_running (stop (start Flaky.now (start Flaky.now Flaky.fresh).2).2).2)
  = [(1%nat, HealthMonitoring); (0%nat, MetricsCollection)].
Proof. vm_compute. reflexivity. Qed.
