(* ===== verification/Monitor.v ===== *)
(** * Performance counters (src/monitoring.rs)

    A set of atomic counters with one definition per recording method.  The rates
    of the summary are floating-point numbers and are left out. *)

From S2P Require Import Prelude RustString Errors.

(** ** Counters *)

Inductive Counter :=
| total_requests | successful_requests | failed_requests | active_requests
| total_response_time | max_response_time | min_response_time
| bytes_transferred | files_processed
| memory_usage_bytes | cpu_usage_percent
| db_connections_active | db_connections_idle | db_query_count | db_slow_queries
| cache_hits | cache_misses | cache_evictions
| timeout_count | rate_limit_hits.
#[global] Instance Counter_eq_dec : EqDecision Counter.
Proof. solve_decision. Defined.

(** [usize] has 64 bits, like [u64]. *)
Definition PerformanceMetrics : Type := Counter → Z.
Definition PerformanceMetrics_default : PerformanceMetrics := λ _, 0.
Implicit Types m : PerformanceMetrics.

Definition store (c : Counter) (v : Z) m : PerformanceMetrics := λ c', if c' == c then v else m c'.
Definition fetch_add (c : Counter) (n : Z) m : PerformanceMetrics := store c (wrap_u64 (m c + n)) m.
Definition fetch_sub (c : Counter) (n : Z) m : PerformanceMetrics := store c (wrap_u64 (m c - n)) m.

Definition record_request_start m : PerformanceMetrics := fetch_add active_requests 1 (fetch_add total_requests 1 m).

Definition update_max (duration_ms : Z) m : PerformanceMetrics :=
  if m max_response_time <? duration_ms then store max_response_time duration_ms m else m.

(** Zero stands for no value yet. *)
Definition update_min (duration_ms : Z) m : PerformanceMetrics :=
  let current_min := m min_response_time in
  if (current_min =? 0) || (duration_ms <? current_min) then store min_response_time duration_ms m else m.

(** [duration_ms]: the milliseconds of the duration, as [u64]. *)
Definition record_request_complete (duration_ms : Z) (success : bool) m : PerformanceMetrics :=
  let m := fetch_sub active_requests 1 m in
  let m := fetch_add (if success then successful_requests else failed_requests) 1 m in
  let m := fetch_add total_response_time duration_ms m in
  update_min duration_ms (update_max duration_ms m).

Definition record_bytes_transferred (bytes : Z) m : PerformanceMetrics := fetch_add bytes_transferred bytes m.
Definition record_file_processed m : PerformanceMetrics := fetch_add files_processed 1 m.
Definition update_memory_usage (bytes : Z) m : PerformanceMetrics := store memory_usage_bytes bytes m.
Definition update_db_connections (active idle : Z) m : PerformanceMetrics :=
  store db_connections_idle idle (store db_connections_active active m).
Definition record_db_query (is_slow : bool) m : PerformanceMetrics :=
  let m := fetch_add db_query_count 1 m in
  if is_slow then fetch_add db_slow_queries 1 m else m.
Definition record_cache_hit m : PerformanceMetrics := fetch_add cache_hits 1 m.
Definition record_cache_miss m : PerformanceMetrics := fetch_add cache_misses 1 m.
Definition record_cache_eviction m : PerformanceMetrics := fetch_add cache_evictions 1 m.
Definition record_timeout m : PerformanceMetrics := fetch_add timeout_count 1 m.
Definition record_rate_limit_hit m : PerformanceMetrics := fetch_add rate_limit_hits 1 m.

(** [avg_response_time_ms] of the summary. *)
Definition avg_response_time_ms m : Z :=
  if 0 <? m total_requests then m total_response_time / m total_requests else 0.

(** The argument is not used. *)
Definition calculate_percentile (percentile : Z) m : Z :=
  wrap_u64 (m min_response_time
            + wrap_u64 (wrap_u64 (m max_response_time - m min_response_time) * 95) / 100).

(** The counters that [reset_metrics] leaves alone. *)
Definition kept_counters : list Counter :=
  [memory_usage_bytes; cpu_usage_percent; db_connections_active; db_connections_idle].
Definition reset_metrics m : PerformanceMetrics := λ c, if bool_decide (c ∈ kept_counters) then m c else 0.

(** ** Properties *)

Inductive MonitorOp := OpStart | OpComplete (duration_ms : Z) (success : bool).

Definition run_op (op : MonitorOp) m : PerformanceMetrics :=
  match op with
  | OpStart => record_request_start m
  | OpComplete d success => record_request_complete d success m
  end.

Definition started (l : list MonitorOp) : Z :=
  Z.of_nat (length (List.filter (λ op, match op with OpStart => true | _ => false end) l)).
Definition completed (l : list MonitorOp) : Z :=
  Z.of_nat (length (List.filter (λ op, match op with OpStart => false | _ => true end) l)).
Definition durations (l : list MonitorOp) : list Z :=
  omap (λ op, match op with OpComplete d _ => Some d | OpStart => None end) l.

(** The least value since the last zero, and the rest of the durations. *)
Fixpoint tracked_min (cur : Z) (l : list Z) : Z :=
  match l with
  | [] => cur
  | d :: l => tracked_min (if (cur =? 0) || (d <? cur) then d else cur) l
  end.

Lemma store_other c c' v m : c' ≠ c → store c v m c' = m c'.
Proof. intros H. unfold store. by rewrite bool_decide_eq_false_2. Qed.

Lemma update_max_other d m c : c ≠ max_response_time → update_max d m c = m c.
Proof. intros H. unfold update_max. destruct (_ <? _); [by apply store_other|done]. Qed.

Lemma update_min_other d m c : c ≠ min_response_time → update_min d m c = m c.
Proof. intros H. unfold update_min. cbn zeta. destruct (_ || _); [by apply store_other|done]. Qed.

Lemma update_max_value d m : update_max d m max_response_time = Z.max (m max_response_time) d.
Proof.
  unfold update_max. destruct (Z.ltb_spec (m max_response_time) d) as [H|H]; [|lia].
  change (d = m max_response_time `max` d). lia.
Qed.

Lemma complete_max d b m : record_request_complete d b m max_response_time = Z.max (m max_response_time) d.
Proof.
  unfold record_request_complete. cbn zeta. rewrite update_min_other by done. rewrite update_max_value. by destruct b.
Qed.

Lemma complete_min d b m :
  record_request_complete d b m min_response_time =
  (if (m min_response_time =? 0) || (d <? m min_response_time) then d else m min_response_time).
Proof.
  unfold record_request_complete, update_min. cbn zeta. rewrite update_max_other by done.
  set (m1 := fetch_add _ d _). assert (E : m1 min_response_time = m min_response_time) by (subst m1; by destruct b).
  rewrite E. destruct (_ || _); [done|]. by rewrite update_max_other.
Qed.

Lemma wrap_add_l a b : wrap_u64 (wrap_u64 a + b) = wrap_u64 (a + b).
Proof. unfold wrap_u64. by rewrite Zplus_mod_idemp_l. Qed.
Lemma wrap_add_r a b : wrap_u64 (a + wrap_u64 b) = wrap_u64 (a + b).
Proof. unfold wrap_u64. by rewrite Zplus_mod_idemp_r. Qed.
Lemma wrap_sub_l a b : wrap_u64 (wrap_u64 a - b) = wrap_u64 (a - b).
Proof. unfold wrap_u64. by rewrite Zminus_mod_idemp_l. Qed.

Lemma complete_others d b m c : c ≠ max_response_time → c ≠ min_response_time →
  record_request_complete d b m c =
  match c with
  | active_requests => wrap_u64 (m active_requests - 1)
  | successful_requests => if b then wrap_u64 (m successful_requests + 1) else m successful_requests
  | failed_requests => if b then m failed_requests else wrap_u64 (m failed_requests + 1)
  | total_response_time => wrap_u64 (m total_response_time + d)
  | _ => m c
  end.
Proof.
  intros H1 H2. unfold record_request_complete. cbn zeta. rewrite update_min_other, update_max_other by done.
  by destruct b, c.
Qed.

Lemma start_counters m c :
  record_request_start m c =
  match c with
  | total_requests => wrap_u64 (m total_requests + 1)
  | active_requests => wrap_u64 (m active_requests + 1)
  | _ => m c
  end.
Proof. by destruct c. Qed.

Lemma tracked_min_snoc cur l d :
  tracked_min cur (l ++ [d]) = (if (tracked_min cur l =? 0) || (d <? tracked_min cur l) then d else tracked_min cur l).
Proof. revert cur. induction l as [|x l IH]; intros cur; [done|]. cbn. apply IH. Qed.

(** The counters after any sequence of starts and completions: requests, active ones and
    the sum of the durations up to wrap-around, the largest duration, and the least
    one since the last that was zero. *)
Theorem counters_after_run l : Forall (λ d, 0 ≤ d) (durations l) →
  let m := foldl (λ m op, run_op op m) PerformanceMetrics_default l in
  m total_requests = wrap_u64 (started l)
  ∧ m active_requests = wrap_u64 (started l - completed l)
  ∧ wrap_u64 (m successful_requests + m failed_requests) = wrap_u64 (completed l)
  ∧ m total_response_time = wrap_u64 (foldr Z.add 0 (durations l))
  ∧ m max_response_time = foldr Z.max 0 (durations l)
  ∧ m min_response_time = tracked_min 0 (durations l).
Proof.
  cbn zeta. induction l as [|op l IH] using rev_ind; [done|]. unfold started, completed, durations in *.
  rewrite omap_app, Forall_app, foldl_app, !List.filter_app, !length_app. intros [Hl Hop].
  destruct (IH Hl) as (H1 & H2 & H3 & H4 & H5 & H6). cbn [foldl].
  set (m := foldl _ _ l) in *. destruct op as [|d b].
  - cbn [run_op List.filter length omap list_omap]. rewrite !start_counters.
    rewrite app_nil_r, H1, H2, !wrap_add_l, Nat.add_0_r. split_and!; try done; f_equal; lia.
  - cbn [run_op]. rewrite complete_max, complete_min, !complete_others by done. cbn [List.filter length].
    change (omap _ [OpComplete d b]) with [d] in *. apply Forall_cons in Hop as [Hd _].
    rewrite !foldr_app, tracked_min_snoc, H1, H2, H4, H5, H6, wrap_sub_l, wrap_add_l. cbn [foldr].
    assert (Hsum : ∀ k, foldr Z.add (d + 0) k = foldr Z.add 0 k + d) by (induction k; cbn; lia).
    assert (Hmax : ∀ k, foldr Z.max (d `max` 0) k = foldr Z.max 0 k `max` d) by (induction k; cbn; lia).
    rewrite Hsum, Hmax. split_and!; try done; try (f_equal; lia).
    transitivity (wrap_u64 (wrap_u64 (m successful_requests + m failed_requests) + 1)).
    + destruct b; rewrite ?wrap_add_l, ?wrap_add_r; f_equal; lia.
    + rewrite H3, wrap_add_l. f_equal. lia.
Qed.

(** The estimate of every percentile lies between the least and the largest duration,
    as far as the product fits 64 bits. *)
Theorem percentile_between p m :
  0 ≤ m min_response_time ≤ m max_response_time → m max_response_time * 95 ≤ u64_max →
  m min_response_time ≤ calculate_percentile p m ≤ m max_response_time.
Proof.
  intros Hm Hx. unfold calculate_percentile. set (a := m min_response_time) in *. set (b := m max_response_time) in *.
  rewrite (wrap_u64_id (b - a)), (wrap_u64_id ((b - a) * 95)) by (unfold u64_max in *; lia).
  assert (0 ≤ (b - a) * 95 / 100 ≤ b - a).
  { split; [apply Z.div_pos; lia|]. apply Z.div_le_upper_bound; lia. }
  rewrite wrap_u64_id by (unfold u64_max in *; lia). lia.
Qed.

(** A request that takes less than a millisecond is the least one until the next. *)
Example minimum_is_forgotten :
  foldl (λ m op, run_op op m) PerformanceMetrics_default [OpComplete 0 true; OpComplete 50 true] min_response_time = 50.
Proof. reflexivity. Qed.

(** The counters are reset while a request runs: when it ends, 2^64 - 1 are active. *)
Example reset_during_request :
  run_op (OpComplete 5 true) (reset_metrics (run_op OpStart PerformanceMetrics_default)) active_requests = u64_max.
Proof. reflexivity. Qed.
