(* ===== verification/Registry.v ===== *)
(** * The service registry (src/container/registry.rs)

    Shared services by their type, and factories that make a service when it is
    asked for the first time.  The registry is two maps behind locks of their own:
    [get] reads both, calls the factory, and stores the new service in a later
    critical section. *)

From S2P Require Import Prelude RustString Errors Effects.

Section registry.
(** [TypeId], the identities of [Arc] values, and the state that factories act on. *)
Context {TypeId : Type} `{Countable TypeId} {Instance_ World : Type} (type_name : TypeId → string).

(** A factory makes a service or fails. *)
Abbreviation Factory := (ME World SyncError Instance_).

Record ServiceRegistry := mkServiceRegistry {
  rg_services : gmap TypeId Instance_;
  rg_factories : gmap TypeId Factory
}.

Record RegistryState := mkRegistryState { rs_registry : ServiceRegistry; rs_world : World }.
Abbreviation RM A := (ME RegistryState SyncError A).
Implicit Types (t : TypeId) (st : RegistryState).

Definition ServiceRegistry_new : ServiceRegistry := mkServiceRegistry ∅ ∅.

Definition register t (service : Instance_) (r : ServiceRegistry) : ServiceRegistry :=
  mkServiceRegistry (<[t := service]> (rg_services r)) (rg_factories r).

Definition register_factory t (factory : Factory) (r : ServiceRegistry) : ServiceRegistry :=
  mkServiceRegistry (rg_services r) (<[t := factory]> (rg_factories r)).

Definition on_registry (f : ServiceRegistry → ServiceRegistry) : RM unit := λ st,
  (Returned (Ok tt), mkRegistryState (f (rs_registry st)) (rs_world st)).
Definition on_world {A} (m : ME World SyncError A) : RM A :=
  on_part rs_world (λ w st, mkRegistryState (rs_registry st) w) m.

(** The part of [get] before a new service is stored: a stored service, or a new one
    and whether it is to be stored. *)
Definition find_or_create t : RM (Instance_ * bool) := λ st,
  match rg_services (rs_registry st) !! t with
  | Some service => (Returned (Ok (service, false)), st)
  | None =>
      match rg_factories (rs_registry st) !! t with
      | Some factory => mthen (on_world factory) (λ service, ret (service, true)) st
      | None => (Returned (Err (SE_NotFound ("Service not found for type: " +:+ type_name t))), st)
      end
  end.

Definition store_created t (found : Instance_ * bool) : RM Instance_ :=
  if found.2 then _ ←? on_registry (register t found.1); ret found.1 else ret found.1.

Definition get t : RM Instance_ := found ←? find_or_create t; store_created t found.

(** Two requests of which the second reads the maps before the first has stored. *)
Definition get_twice_interleaved t : RM (Instance_ * Instance_) :=
  first ←? find_or_create t;
  second ←? find_or_create t;
  a ←? store_created t first;
  b ←? store_created t second;
  ret (a, b).

Definition contains t (r : ServiceRegistry) : bool :=
  bool_decide (is_Some (rg_services r !! t)) || bool_decide (is_Some (rg_factories r !! t)).
Definition registry_clear (r : ServiceRegistry) : ServiceRegistry := mkServiceRegistry ∅ ∅.
Definition service_count (r : ServiceRegistry) : nat := size (rg_services r).
Definition factory_count (r : ServiceRegistry) : nat := size (rg_factories r).

(** ** Properties *)

(** A registered service is what is found, and no factory runs. *)
Lemma get_registered t service st : rg_services (rs_registry st) !! t = Some service → get t st = (Returned (Ok service), st).
Proof. intros Hs. unfold get, find_or_create, mthen. by rewrite Hs. Qed.

(** Asked one after the other, a type has one service: once a request has been answered,
    every later one answers the same, without a factory, until another service is
    registered for the type or the registry is cleared. *)
Theorem get_is_stable t service st st' :
  get t st = (Returned (Ok service), st') →
  get t st' = (Returned (Ok service), st')
  ∧ (∀ t' other, t' ≠ t → get t (mkRegistryState (register t' other (rs_registry st')) (rs_world st'))
       = (Returned (Ok service), mkRegistryState (register t' other (rs_registry st')) (rs_world st')))
  ∧ contains t (rs_registry st') = true.
Proof.
  intros Hg. assert (Hs : rg_services (rs_registry st') !! t = Some service).
  { unfold get in Hg. bind_ok Hg. unfold find_or_create in Ha.
    destruct (rg_services (rs_registry st) !! t) as [s|] eqn:E.
    - injection Ha as <- <-. by injection Hg as <- <-.
    - destruct (rg_factories (rs_registry st) !! t) as [factory|]; [|done].
      bind_ok Ha. injection Ha as <- <-. injection Hg as <- <-. cbn. by rewrite lookup_insert_eq. }
  split_and!; [by apply get_registered| |].
  - intros t' other Hne. apply get_registered. cbn. by rewrite lookup_insert_ne.
  - unfold contains. rewrite Hs. by rewrite bool_decide_eq_true_2.
Qed.

(** Without a service, a request answers what the factory makes; its error is passed on
    and nothing is stored. *)
Theorem get_uses_factory t (factory : Factory) st :
  rg_services (rs_registry st) !! t = None → rg_factories (rs_registry st) !! t = Some factory →
  get t st =
  match factory (rs_world st) with
  | (Returned (Ok service), w) => (Returned (Ok service), mkRegistryState (register t service (rs_registry st)) w)
  | (Returned (Err e), w) => (Returned (Err e), mkRegistryState (rs_registry st) w)
  | (Panicked, w) => (Panicked, mkRegistryState (rs_registry st) w)
  end.
Proof.
  intros Hs Hf. unfold get, mthen at 1, find_or_create. rewrite Hs, Hf. unfold on_world, on_part, mthen.
  by destruct (factory (rs_world st)) as [[[service|e]|] w].
Qed.

End registry.

(** ** Requests at the same time *)

Module Counting.
(** A factory that numbers the services it makes. *)
Definition factory : ME nat SyncError nat := λ n, (Returned (Ok n), Datatypes.S n).
Definition start : RegistryState (TypeId := nat) (Instance_ := nat) (World := nat) :=
  mkRegistryState (register_factory 0%nat factory ServiceRegistry_new) 0%nat.
End Counting.

(** Two first requests at the same time make two services: the first caller keeps one
    that the registry does not have. *)
Theorem concurrent_gets_create_twice :
  let '(r, st) := get_twice_interleaved (λ _, "Service") 0%nat Counting.start in
  r = Returned (Ok (0%nat, 1%nat)) ∧ rg_services (rs_registry st) !! 0%nat = Some 1%nat ∧ rs_world st = 2%nat.
Proof. vm_compute. done. Qed.

Lemma get_is_stable_witness :
  let st' := (get (λ _, "Service") 0%nat Counting.start).2 in
  get (λ _, "Service") 0%nat st' = (Returned (Ok 0%nat), st').
Proof. exact (proj1 (get_is_stable (λ _, "Service") 0%nat 0%nat Counting.start _ eq_refl)). Defined.
