(* ===== verification/FileHandlers.v ===== *)
(** * File requests (src/handlers/file, src/handlers/file_handler.rs,
    src/utils/response.rs)

    Each handler takes the request message and runs on the application state:
    the file service with the storage behind it, and the events published on
    the bus, which are recorded in order (a failed publication is only logged
    by the source).  A handler returns a response or a gRPC status.  What a
    request draws from outside (clock, random values, identifiers) is the
    record [ReqEnv]. *)

From S2P Require Import Prelude RustString Errors Models Paths Memory MemoryProps StorageApi Effects Crypto Notify FileService Auth.

Record DownloadFileRequest := mkDownloadFileRequest {
  dfr_account_hash : string;
  dfr_device_hash : string;
  dfr_group_id : Z;
  dfr_watcher_id : Z;
  dfr_file_id : Z;
  dfr_auth_token : string;
  dfr_revision : Z
}.

Record DownloadFileResponse := mkDownloadFileResponse {
  dfp_success : bool;
  dfp_filename : string;
  dfp_file_path : string;
  dfp_file_data : bytes;
  dfp_file_hash : string;
  dfp_is_encrypted : bool;
  dfp_return_message : string;
  dfp_updated_time : option Timestamp;
  dfp_file_size : Z;
  dfp_key_id : string
}.

Record UploadFileResponse := mkUploadFileResponse {
  ufp_success : bool;
  ufp_file_id : Z;
  ufp_new_revision : Z;
  ufp_return_message : string
}.

Record ListFilesRequest := mkListFilesRequest {
  lfr_account_hash : string;
  lfr_device_hash : string;
  lfr_group_id : Z;
  lfr_auth_token : string;
  lfr_upload_time_from : option Timestamp
}.

Record ListFilesResponse := mkListFilesResponse {
  lfp_success : bool;
  lfp_files : list sync_FileInfo;
  lfp_return_message : string
}.

Record DeleteFileRequest := mkDeleteFileRequest {
  xfr_account_hash : string;
  xfr_device_hash : string;
  xfr_filename : string;
  xfr_file_path : string;
  xfr_file_id : Z;
  xfr_revision : Z;
  xfr_auth_token : string
}.

Record DeleteFileResponse := mkDeleteFileResponse {
  xfp_success : bool;
  xfp_return_message : string
}.

Record FindFileRequest := mkFindFileRequest {
  ffr_account_hash : string;
  ffr_device_hash : string;
  ffr_auth_token : string;
  ffr_group_id : Z;
  ffr_watcher_id : Z;
  ffr_file_path : string;
  ffr_file_name : string
}.

Record FindFileResponse := mkFindFileResponse {
  ffp_success : bool;
  ffp_return_message : string;
  ffp_file_id : Z;
  ffp_revision : Z;
  ffp_file_info : option sync_FileInfo
}.

Record CheckFileExistsRequest := mkCheckFileExistsRequest {
  cer_account_hash : string;
  cer_device_hash : string;
  cer_file_id : Z;
  cer_auth_token : string
}.

Record CheckFileExistsResponse := mkCheckFileExistsResponse {
  cep_success : bool;
  cep_exists : bool;
  cep_is_deleted : bool;
  cep_return_message : string
}.

(** ** Responses (src/utils/response.rs) *)

Definition file_upload_error (message : string) : UploadFileResponse :=
  mkUploadFileResponse false 0 0 message.
Definition file_upload_success (file_id new_revision : Z) : UploadFileResponse :=
  mkUploadFileResponse true file_id new_revision "OK".
Definition file_download_error (message : string) : DownloadFileResponse :=
  mkDownloadFileResponse false "" "" [] "" false message None 0 "".
Definition file_delete_error (message : string) : DeleteFileResponse := mkDeleteFileResponse false message.
Definition file_delete_success (message : string) : DeleteFileResponse := mkDeleteFileResponse true message.

(** ** Input checks (src/handlers/file_handler.rs) *)

Definition validate_upload_input (req : UploadFileRequest) : result unit string :=
  if str_is_empty (ufr_account_hash req) || str_is_empty (ufr_device_hash req)
     || str_is_empty (ufr_file_hash req)
  then Err "Missing required fields: account_hash/device_hash/file_hash"
  else if (ufr_group_id req <=? 0) || (ufr_watcher_id req <=? 0)
  then Err "Invalid group_id/watcher_id"
  else if str_is_empty (trim (ufr_filename req)) || str_is_empty (trim (ufr_file_path req))
  then Err "filename/file_path must not be empty"
  else if ufr_is_encrypted req && str_is_empty (trim (ufr_key_id req))
  then Err "key_id is required when is_encrypted is true"
  else if negb (ufr_is_encrypted req) && negb (str_is_empty (trim (ufr_key_id req)))
  then Err "key_id must be empty when is_encrypted is false"
  else Ok tt.

(** The normalisation never panics, so that the [catch_unwind] always succeeds. *)
Definition normalize_file_path (file_path : string) : result string string :=
  let normalized_file_path :=
    if str_is_empty file_path then "~/" else normalize_uncached file_path in
  if 1024 <? str_len normalized_file_path then Err "File path too long"
  else Ok normalized_file_path.

(** ** State and environment *)

(** Values of a published payload. *)
Inductive json := JStr (s : string) | JInt (z : Z) | JBool (b : bool).

Definition Event : Type := string * list (string * json).

Record ReqEnv := mkReqEnv {
  env_now : nat → DateTime;
  env_uuid : string;
  env_random_part : Z;
  env_nanoid : nat → string;
  env_device_nonces : string → bytes * bytes;
  env_file_nonces : Z → bytes * bytes
}.

Section handlers.
Context `{HI : HashIter} `{CA : CryptoApi} `{CH : Chrono} {S : Type} `{ST : Storage S}
  {F : Type} `{FST : FileStorage F}.
Context (is_open : Sender → bool) (send_error : string).
Context (debug_assertions debug_enabled error_enabled : bool).
Context (external_user_info : string → result OAuthUserInfo AuthError).
(** [config.features.transport_encrypt_metadata] and the MySQL method of
    [ensure_server_ids_for_upload]. *)
Context (transport_encrypt_metadata : bool).
Context (mysql : option (string → string → Z → Z → option string → S → Res (Z * Z) * S)).

Record AppState := mkAppState {
  as_file : FileService S F;
  as_events : list Event
}.
Implicit Types (st : AppState).

Abbreviation HM A := (ME AppState Status A).

Definition on_file {E A} (m : ME (FileService S F) E A) : ME AppState E A :=
  on_part as_file (λ f st, mkAppState f (as_events st)) m.

Definition with_storage (s : S) (f : FileService S F) : FileService S F :=
  mkFileService (fs_files f) s (fs_file_storage f) (fs_notification_manager f) (fs_delivered f).

Definition on_storage {E A} (m : ME S E A) : ME AppState E A :=
  on_file (on_part fs_storage with_storage m).

Definition publish (routing_key : string) (payload : list (string * json)) : HM unit := λ st,
  (Returned (Ok tt), mkAppState (as_file st) (as_events st ++ [(routing_key, payload)])%list).

(** [match oauth.verify_token(..) { Ok(v) if v.valid => k(v), _ => return fail }]. *)
Definition authenticated {A} (token : string) (env : ReqEnv) (fail : A)
    (k : VerificationResult → HM A) : HM A :=
  mtry (on_storage (verify_token debug_assertions debug_enabled error_enabled external_user_info
                      token (env_uuid env) (env_now env 0) (env_now env 1)))
    (λ r, match r with
          | Ok v => if vr_valid v then k v else ret fail
          | Err _ => ret fail
          end).

(** ** Upload *)

Definition handler_generate_file_id (req : UploadFileRequest) (env : ReqEnv) : Z :=
  generate_file_id (dt_timestamp (env_now env 2)) (dt_nanosecond (env_now env 2))
    (env_random_part env) (ufr_account_hash req) (ufr_filename req) (ufr_file_hash req).

Definition with_account (req : UploadFileRequest) (account_hash : string) : UploadFileRequest :=
  mkUploadFileRequest account_hash (ufr_device_hash req) (ufr_filename req) (ufr_file_path req)
    (ufr_file_data req) (ufr_file_hash req) (ufr_auth_token req) (ufr_group_id req)
    (ufr_watcher_id req) (ufr_is_encrypted req) (ufr_revision req) (ufr_updated_time req)
    (ufr_file_size req) (ufr_key_id req).

(** The two events of a successful upload. *)
Definition upload_event (req : UploadFileRequest) (kind nanoid account_hash : string)
    (group_id watcher_id file_id : Z) (now : DateTime) : list (string * json) :=
  [("type", JStr kind); ("id", JStr nanoid); ("account_hash", JStr account_hash);
   ("device_hash", JStr (ufr_device_hash req)); ("group_id", JInt group_id);
   ("watcher_id", JInt watcher_id); ("file_path", JStr "***"); ("filename", JStr "***");
   ("file_id", JInt file_id)]
  ++ (if kind == "file_uploaded" then [("file_size", JInt (ufr_file_size req))] else [])
  ++ [("revision", JInt (wrap_i64 (ufr_revision req + 1))); ("timestamp", JInt (dt_timestamp now))].

(** Steps 6 to 8 of the upload. *)
Definition store_upload (req : UploadFileRequest) (server_account_hash normalized_file_path : string)
    (file_id : Z) (env : ReqEnv) : HM UploadFileResponse :=
  mtry (on_file (ensure_server_ids_for_upload mysql server_account_hash (ufr_device_hash req)
                   (ufr_group_id req) (ufr_watcher_id req) (Some normalized_file_path)))
    (λ r, match r with
    | Err e => ret (file_upload_error ("Failed to ensure server IDs: " +:+ StorageError_fmt e))
    | Ok (server_group_id, server_watcher_id) =>
        let file_info := build_file_info_for_upload (with_account req server_account_hash) file_id
          normalized_file_path server_group_id server_watcher_id (env_now env 3) in
        mtry (on_file (svc_store_file is_open send_error file_info (ufr_file_data req) (env_now env 4)
                         (env_device_nonces env)))
          (λ r, match r with
          | Ok _ =>
              _ ←? publish ("file.uploaded." +:+ server_account_hash +:+ "." +:+ pretty server_group_id
                            +:+ "." +:+ pretty server_watcher_id)
                     (upload_event req "file_uploaded" (env_nanoid env 0) server_account_hash
                        server_group_id server_watcher_id file_id (env_now env 5));
              _ ←? publish ("version.created." +:+ server_account_hash +:+ "." +:+ pretty file_id)
                     (upload_event req "version_created" (env_nanoid env 1) server_account_hash
                        server_group_id server_watcher_id file_id (env_now env 6));
              ret (file_upload_success file_id (wrap_i64 (ufr_revision req + 1)))
          | Err e => ret (file_upload_error ("File storage failed: " +:+ StorageError_fmt e))
          end)
    end).

(** The watcher-folder check of step 4 reads the storage and its outcome is only
    logged. *)
Definition handle_upload_file (req : UploadFileRequest) (env : ReqEnv) : HM UploadFileResponse :=
  if negb (Z.of_nat (length (ufr_file_data req)) =? ufr_file_size req)
  then ret (file_upload_error "File data size mismatch")
  else
    authenticated (ufr_auth_token req) env (file_upload_error "Authentication failed") (λ verified,
      match validate_upload_input req with
      | Err msg => ret (file_upload_error msg)
      | Ok _ =>
          match normalize_file_path (ufr_file_path req) with
          | Err msg => ret (file_upload_error msg)
          | Ok normalized_file_path =>
              store_upload req (vr_account_hash verified) normalized_file_path
                (handler_generate_file_id req env) env
          end
      end).

(** ** Download *)

Definition download_parse_account_key (k : string) : option bytes :=
  match hex_decode k with
  | Some bs => if (length bs =? 32)%nat then Some bs else parse_account_key k
  | None => parse_account_key k
  end.

(** Path and name for transport; [None] is the panic of [aead_encrypt]. *)
Definition transport_names (key : option bytes) (nonces : bytes * bytes) (aad path name : string)
    : option (string * string) :=
  match key with
  | Some key =>
      match aead_encrypt nonces.1 key (as_bytes path) (as_bytes aad),
            aead_encrypt nonces.2 key (as_bytes name) (as_bytes aad) with
      | Some ct_path, Some ct_name => Some (b64_encode_no_pad ct_path, b64_encode_no_pad ct_name)
      | _, _ => None
      end
  | None => Some (path, name)
  end.

(** The transport key of an account, when encryption is configured. *)
Definition account_transport_key (parse : string → option bytes) (account_hash : string) (s : S)
    : option bytes :=
  if transport_encrypt_metadata then
    match s_get_encryption_key account_hash s with
    | Ok (Some k) => parse k
    | _ => None
    end
  else None.

Definition panic {A} : HM A := λ st, (Panicked, st).

Definition handle_download_file (req : DownloadFileRequest) (env : ReqEnv) : HM DownloadFileResponse :=
  let file_id := dfr_file_id req in
  authenticated (dfr_auth_token req) env (file_download_error "Authentication failed") (λ _,
    mtry (on_file (svc_get_file_info file_id)) (λ r,
      match r with
      | Ok None => ret (file_download_error "File not found")
      | Err e => ret (file_download_error ("Failed to get file info: " +:+ StorageError_fmt e))
      | Ok (Some file_info) => λ st,
          let account_key := account_transport_key download_parse_account_key
                               (fi_account_hash file_info) (fs_storage (as_file st)) in
          let aad := pair_key (fi_account_hash file_info) (dfr_device_hash req) in
          mtry (on_file (svc_get_file_data file_id)) (λ r,
            match r with
            | Ok (Some data) =>
                match transport_names account_key (env_file_nonces env file_id) aad
                        (fi_file_path file_info) (fi_filename file_info) with
                | Some (enc_path, enc_name) =>
                    ret (mkDownloadFileResponse true enc_name enc_path data (fi_file_hash file_info)
                           (fi_is_encrypted file_info) ""
                           (Some (mkTimestamp (ts_seconds (fi_updated_time file_info)) 0))
                           (fi_size file_info) (default "" (fi_key_id file_info)))
                | None => panic
                end
            | Ok None => ret (file_download_error "File data not found")
            | Err e => ret (file_download_error ("Failed to get file data: " +:+ StorageError_fmt e))
            end) st
      end)).

(** ** Listing *)

(** One iteration of the loop: [Some None] is a [continue], [None] a panic. *)
Definition list_entry (req : ListFilesRequest) (server_group_id : Z) (account_key : option bytes)
    (time_filter : option DateTime) (env : ReqEnv) (s : S) (file : FileInfo)
    : option (option sync_FileInfo) :=
  let skip := match time_filter with
    | Some filter_time =>
        dt_leb (timestamp_to_datetime (mkTimestamp (ts_seconds (fi_updated_time file)) 0) (env_now env 3))
          filter_time
    | None => false
    end in
  if skip then Some None
  else
    let client_watcher_id :=
      match s_get_client_watcher_id (lfr_account_hash req) server_group_id (fi_watcher_id file) s with
      | Ok (Some (_, watcher_id)) => watcher_id
      | _ => fi_watcher_id file
      end in
    match transport_names account_key (env_file_nonces env (fi_file_id file))
            (pair_key (lfr_account_hash req) (lfr_device_hash req)) (fi_file_path file) (fi_filename file) with
    | Some (enc_path, enc_name) =>
        Some (Some (mk_sync_FileInfo (fi_file_id file) enc_name (fi_file_hash file)
          (Some (mkTimestamp (ts_seconds (fi_updated_time file)) 0)) (fi_device_hash file)
          (lfr_group_id req) client_watcher_id (fi_is_encrypted file) enc_path (fi_revision file)
          (fi_size file)))
    | None => None
    end.

Fixpoint list_loop (req : ListFilesRequest) (server_group_id : Z) (account_key : option bytes)
    (time_filter : option DateTime) (env : ReqEnv) (s : S) (files : list FileInfo)
    : option (list sync_FileInfo) :=
  match files with
  | [] => Some []
  | file :: files =>
      match list_entry req server_group_id account_key time_filter env s file with
      | None => None
      | Some entry =>
          match list_loop req server_group_id account_key time_filter env s files with
          | Some out => Some (match entry with Some info => info :: out | None => out end)
          | None => None
          end
      end
  end.

Definition handle_list_files (req : ListFilesRequest) (env : ReqEnv) : HM ListFilesResponse :=
  authenticated (lfr_auth_token req) env (mkListFilesResponse false [] "Authentication failed") (λ _,
    mtry (on_file (convert_client_group_to_server (lfr_account_hash req) (lfr_group_id req))) (λ r,
      match r with
      | Ok None => ret (mkListFilesResponse true [] "No files found")
      | Err e => throw (mkStatus Code_Internal ("Failed to convert group_id: " +:+ StorageError_fmt e))
      | Ok (Some server_group_id) => λ st,
          let time_filter := (λ ts, timestamp_to_datetime ts (env_now env 2)) <$> lfr_upload_time_from req in
          let s := fs_storage (as_file st) in
          let account_key := account_transport_key parse_account_key (lfr_account_hash req) s in
          mtry (on_file (list_files_filtered_by_device server_group_id (lfr_account_hash req)
                           (lfr_device_hash req))) (λ r,
            match r with
            | Ok files =>
                match list_loop req server_group_id account_key time_filter env s files with
                | Some sync_files => ret (mkListFilesResponse true sync_files "")
                | None => panic
                end
            | Err e => throw (mkStatus Code_Internal ("File list retrieval failed: " +:+ StorageError_fmt e))
            end) st
      end)).

(** ** Deletion *)

(** [Err] is the response to return at once. *)
Definition validate_file_for_deletion (file_id : Z) st : result Z DeleteFileResponse :=
  match svc_check_file_exists file_id (as_file st) with
  | Ok (exists_, is_deleted) =>
      if negb exists_ then Err (file_delete_error "File not found")
      else if is_deleted then Err (file_delete_success "File already deleted")
      else Ok file_id
  | Err e => Err (file_delete_error ("Failed to check file status: " +:+ e))
  end.

Definition find_file_by_path (req : DeleteFileRequest) : HM (result Z DeleteFileResponse) :=
  let normalized_file_path := normalize_uncached (xfr_file_path req) in
  mtry (on_file (find_file_by_local_path (xfr_account_hash req) normalized_file_path
                   (xfr_filename req) (xfr_revision req))) (λ r,
    match r with
    | Ok (Some info) => ret (Ok (fi_file_id info))
    | Ok None => ret (Err (file_delete_error ("File not found: " +:+ xfr_filename req)))
    | Err e => ret (Err (file_delete_error ("Failed to search file: " +:+ StorageError_fmt e)))
    end).

Definition delete_event (req : DeleteFileRequest) (kind nanoid : string) (file_id : Z) (now : DateTime)
    : list (string * json) :=
  [("type", JStr kind); ("id", JStr nanoid); ("account_hash", JStr (xfr_account_hash req));
   ("device_hash", JStr (xfr_device_hash req)); ("file_path", JStr (xfr_file_path req));
   ("filename", JStr (xfr_filename req)); ("file_id", JInt file_id);
   ("revision", JInt (wrap_i64 (xfr_revision req + 1))); ("timestamp", JInt (dt_timestamp now))].

Definition execute_delete (req : DeleteFileRequest) (file_id : Z) (env : ReqEnv) : HM DeleteFileResponse :=
  mtry (on_file (svc_delete_file is_open send_error file_id (env_now env 2) (env_device_nonces env)))
    (λ r, match r with
    | Ok _ =>
        _ ←? publish ("file.deleted." +:+ xfr_account_hash req)
               (delete_event req "file_deleted" (env_nanoid env 0) file_id (env_now env 3));
        _ ←? publish ("version.deleted." +:+ xfr_account_hash req +:+ "." +:+ pretty file_id)
               (delete_event req "version_deleted" (env_nanoid env 1) file_id (env_now env 4));
        ret (file_delete_success "File deleted successfully")
    | Err e => ret (file_delete_error ("File deletion failed: " +:+ StorageError_fmt e))
    end).

Definition handle_delete_file (req : DeleteFileRequest) (env : ReqEnv) : HM DeleteFileResponse :=
  authenticated (xfr_auth_token req) env (file_delete_error "Authentication failed") (λ _,
    file_id ←? (if 0 <? xfr_file_id req
                then λ st, (Returned (Ok (validate_file_for_deletion (xfr_file_id req) st)), st)
                else find_file_by_path req);
    match file_id with
    | Ok id => execute_delete req id env
    | Err resp => ret resp
    end).

(** ** Search and existence *)

Definition find_error (message : string) : FindFileResponse := mkFindFileResponse false message 0 0 None.

Definition handle_find_file_by_criteria (req : FindFileRequest) (env : ReqEnv) : HM FindFileResponse :=
  authenticated (ffr_auth_token req) env (find_error "Authentication failed") (λ _,
    ids ←? (if (0 <? ffr_group_id req) && (0 <? ffr_watcher_id req) then
              mtry (on_file (convert_client_ids_to_server (ffr_account_hash req) (ffr_group_id req)
                               (ffr_watcher_id req))) (λ r,
                match r with
                | Ok (Some ids) => ret (Ok ids)
                | Ok None => ret (Err (find_error "Group or watcher not found"))
                | Err e => ret (Err (find_error ("Failed to convert IDs: " +:+ StorageError_fmt e)))
                end)
            else ret (Ok (0, 0)));
    match ids with
    | Err resp => ret resp
    | Ok (server_group_id, server_watcher_id) =>
        let normalized_file_path := normalize_uncached (ffr_file_path req) in
        mtry (on_file (svc_find_file_by_criteria (ffr_account_hash req) server_group_id
                         server_watcher_id normalized_file_path (ffr_file_name req))) (λ r,
          match r with
          | Ok (Some fi) =>
              ret (mkFindFileResponse true "File found" (fi_file_id fi) (fi_revision fi)
                (Some (mk_sync_FileInfo (fi_file_id fi) (fi_filename fi) (fi_file_hash fi)
                  (Some (mkTimestamp (ts_seconds (fi_updated_time fi)) 0)) (fi_device_hash fi)
                  (ffr_group_id req) (ffr_watcher_id req) (fi_is_encrypted fi) (fi_file_path fi)
                  (fi_revision fi) (fi_size fi))))
          | Ok None => ret (find_error "File not found")
          | Err e => ret (find_error ("File search error: " +:+ StorageError_fmt e))
          end)
    end).

Definition handle_check_file_exists (req : CheckFileExistsRequest) (env : ReqEnv)
    : HM CheckFileExistsResponse :=
  authenticated (cer_auth_token req) env
    (mkCheckFileExistsResponse false false false "Authentication failed") (λ _ st,
    match svc_check_file_exists (cer_file_id req) (as_file st) with
    | Ok (exists_, is_deleted) =>
        ret (mkCheckFileExistsResponse true exists_ is_deleted
          (if exists_ then if is_deleted then "File exists but is deleted"
                           else "File exists and is active"
           else "File does not exist")) st
    | Err e => ret (mkCheckFileExistsResponse false false false
                      ("Failed to check file existence: " +:+ e)) st
    end).

End handlers.

Arguments AppState : clear implicits.
