(* ===== verification/FileHandlersProps.v ===== *)
(** * Correctness of the file requests

    What a request without a valid token can do, what an upload stores and for
    whom, what a listing contains, and where a handler checks the token but not
    the owner of the file. *)

From S2P Require Import Prelude RustString Errors Models Paths Memory MemoryProps StorageApi Effects Crypto Notify NotifyProps FileService FileServiceProps Auth FileHandlers.

Section props.
Context `{HI : HashIter} `{CA : CryptoApi} `{CH : Chrono} {S : Type} `{SL : StorageLaws S}
  {F : Type} `{FL : FileStorageLaws F}.
Context (is_open : Sender → bool) (send_error : string).
Context (debug_enabled error_enabled : bool).
Context (external_user_info : string → result OAuthUserInfo AuthError).
Context (transport_encrypt_metadata : bool).
Context (mysql : option (string → string → Z → Z → option string → S → Res (Z * Z) * S)).
Abbreviation AS := (AppState S F).
Implicit Types (st : AS) (env : ReqEnv).

(** The state after the account of a valid token was ensured. *)
Definition after_auth (token a : string) env st : AS :=
  mkAppState (with_storage (ensure_account external_user_info token a (env_uuid env) (env_now env 1)
                              (fs_storage (as_file st))) (as_file st)) (as_events st).

Abbreviation live token env st := (live_token token (env_now env 0) (fs_storage (as_file st))).

Lemma authenticated_live {A} token env (fail : A) k st a :
  prefix_ok token = true → live token env st a →
  authenticated false debug_enabled error_enabled external_user_info token env fail k st =
    k (mkVerificationResult true a None) (after_auth token a env st).
Proof.
  intros Hp Hl. unfold authenticated, mtry, on_storage, on_file, on_part.
  by rewrite (verify_token_live false debug_enabled error_enabled external_user_info _ _ _ _ _ a).
Qed.

Lemma with_storage_same (f : FileService S F) : with_storage (fs_storage f) f = f.
Proof. by destruct f. Qed.

Lemma authenticated_dead {A} token env (fail : A) k st :
  prefix_ok token = true → (∀ a, ¬ live token env st a) →
  authenticated false debug_enabled error_enabled external_user_info token env fail k st =
    (Returned (Ok fail), st).
Proof.
  intros Hp Hno. unfold authenticated, mtry, on_storage, on_file, on_part.
  destruct (verify_token_cases false debug_enabled error_enabled external_user_info token (env_uuid env)
    (env_now env 0) (env_now env 1) (fs_storage (as_file st)) eq_refl Hp) as [[a Ha]|[-> _]].
  { by destruct (Hno a). }
  cbn. rewrite with_storage_same. by destruct st.
Qed.

(** Without a valid token no file request succeeds, reveals anything or
    changes the state. *)
Theorem unauthenticated_rejected token env st ureq dreq lreq xreq freq creq :
  prefix_ok token = true → (∀ a, ¬ live token env st a) →
  ufr_auth_token ureq = token → dfr_auth_token dreq = token → lfr_auth_token lreq = token →
  xfr_auth_token xreq = token → ffr_auth_token freq = token → cer_auth_token creq = token →
  (∃ msg, handle_upload_file is_open send_error false debug_enabled error_enabled external_user_info
            mysql ureq env st = (Returned (Ok (file_upload_error msg)), st))
  ∧ handle_download_file false debug_enabled error_enabled external_user_info
      transport_encrypt_metadata dreq env st
    = (Returned (Ok (file_download_error "Authentication failed")), st)
  ∧ handle_list_files false debug_enabled error_enabled external_user_info
      transport_encrypt_metadata lreq env st
    = (Returned (Ok (mkListFilesResponse false [] "Authentication failed")), st)
  ∧ handle_delete_file is_open send_error false debug_enabled error_enabled external_user_info xreq env st
    = (Returned (Ok (file_delete_error "Authentication failed")), st)
  ∧ handle_find_file_by_criteria false debug_enabled error_enabled external_user_info freq env st
    = (Returned (Ok (find_error "Authentication failed")), st)
  ∧ handle_check_file_exists false debug_enabled error_enabled external_user_info creq env st
    = (Returned (Ok (mkCheckFileExistsResponse false false false "Authentication failed")), st).
Proof.
  intros Hp Hno Hu Hd Hl Hx Hf Hc.
  assert (Hno' : ∀ A tok (fail : A) k, tok = token →
    authenticated false debug_enabled error_enabled external_user_info tok env fail k st
    = (Returned (Ok fail), st)) by (intros A tok fail k ->; by apply authenticated_dead).
  split_and!; try (by apply Hno').
  unfold handle_upload_file. destruct (negb _); [by eexists|]. eexists. by apply Hno'.
Qed.

(** *** Upload *)

(** A request that passes the checks reaches the steps that store. *)
Lemma upload_checked req env st a :
  prefix_ok (ufr_auth_token req) = true → live (ufr_auth_token req) env st a →
  handle_upload_file is_open send_error false debug_enabled error_enabled external_user_info mysql req env st
  = if negb (Z.of_nat (length (ufr_file_data req)) =? ufr_file_size req)
    then (Returned (Ok (file_upload_error "File data size mismatch")), st)
    else match validate_upload_input req, normalize_file_path (ufr_file_path req) with
         | Ok _, Ok path => store_upload is_open send_error mysql req a path (handler_generate_file_id req env)
                              env (after_auth (ufr_auth_token req) a env st)
         | Err msg, _ | Ok _, Err msg =>
             (Returned (Ok (file_upload_error msg)), after_auth (ufr_auth_token req) a env st)
         end.
Proof.
  intros Hp Hl. unfold handle_upload_file. destruct (negb _); [done|].
  rewrite (authenticated_live _ _ _ _ _ a Hp Hl). cbn [vr_account_hash]. by repeat case_match.
Qed.

(** *** Download, listing *)

Lemma ensure_account_frame token a uuid now (s : S) :
  let s' := ensure_account external_user_info token a uuid now s in
  (∀ j, s_get_file_info j s' = s_get_file_info j s) ∧ (∀ j, s_get_file_data j s' = s_get_file_data j s)
  ∧ (∀ b, s_get_encryption_key b s' = s_get_encryption_key b s).
Proof.
  unfold ensure_account. destruct (s_get_account_by_hash a s) as [[|]|]; [done| |done].
  destruct (external_user_info token); [|done].
  destruct (law_create_account (auto_account a uuid a0 now) s) as (? & ? & _ & _ & ?). done.
Qed.

(** A download needs a valid token and the identifier of the file, and
    nothing else: the owner of the file is not compared with the account of the
    token. *)
Theorem download_any_owner req env st a f bs :
  prefix_ok (dfr_auth_token req) = true → live (dfr_auth_token req) env st a →
  s_get_file_info (dfr_file_id req) (fs_storage (as_file st)) = Ok (Some f) →
  svc_get_file_data (dfr_file_id req) (as_file st) = (Returned (Ok (Some bs)), as_file st) →
  ∃ resp st', handle_download_file false debug_enabled error_enabled external_user_info false req env st
    = (Returned (Ok resp), st')
  ∧ dfp_success resp = true ∧ dfp_file_data resp = bs ∧ dfp_file_hash resp = fi_file_hash f
  ∧ dfp_file_path resp = fi_file_path f ∧ dfp_filename resp = fi_filename f.
Proof.
  intros Hp Hl Hi Hd. unfold handle_download_file. rewrite (authenticated_live _ _ _ _ _ a Hp Hl).
  destruct (ensure_account_frame (dfr_auth_token req) a (env_uuid env) (env_now env 1)
    (fs_storage (as_file st))) as (Hi' & Hd' & _).
  set (st1 := after_auth _ a env st).
  assert (H1 : svc_get_file_data (dfr_file_id req) (as_file st1) = (Returned (Ok (Some bs)), as_file st1)).
  { unfold svc_get_file_data, mthen, files_get, read in Hd |- *. cbn.
    destruct (fs_files (as_file st) !! dfr_file_id req); [by injection Hd as ->|].
    rewrite Hd'. by injection Hd as ->. }
  assert (H2 : s_get_file_info (dfr_file_id req) (fs_storage (as_file st1)) = Ok (Some f))
    by (cbn; by rewrite Hi').
  clearbody st1. unfold mtry, on_file, on_part, svc_get_file_info, read. rewrite H2. cbn [as_file].
  rewrite H1. cbn. do 2 eexists. by split_and!.
Qed.

(** The time filter of a listing: the stored time has whole seconds. *)
Definition updated_after (time_filter : option DateTime) env (f : FileInfo) : bool :=
  match time_filter with
  | Some t => negb (dt_leb (timestamp_to_datetime (mkTimestamp (ts_seconds (fi_updated_time f)) 0)
                      (env_now env 3)) t)
  | None => true
  end.

(** A file updated in the same second as the requested time is left out of a
    recovery listing, even when it was updated later in that second. *)
Theorem recovery_misses_same_second env f secs nanos :
  0 ≤ secs ≤ 253402300799 → 0 ≤ nanos < 10 ^ 9 →
  ts_seconds (fi_updated_time f) = secs →
  updated_after (Some (timestamp_to_datetime (mkTimestamp secs nanos) (env_now env 2))) env f = false.
Proof.
  intros Hs Hn Hf. unfold updated_after, timestamp_to_datetime. cbn [ts_seconds ts_nanos].
  change (wrap_u32 0) with 0. unfold wrap_u32. rewrite Z.mod_small by lia.
  rewrite Hf, !from_timestamp_calendar by lia. unfold dt_leb; cbn.
  rewrite Z.eqb_refl, (proj2 (Z.leb_le 0 nanos)) by lia. by rewrite Z.ltb_irrefl.
Qed.

End props.

(** ** With the in-memory storage *)

Section memory.
Context `{HI : HashIter} `{CA : CryptoApi} `{CH : Chrono}.
Context (is_open : Sender → bool) (send_error : string).
Context (debug_enabled error_enabled : bool).

(** A deletion needs a valid token and the identifier of the file: the
    service deletes in the name of the file's owner, so that a request of any
    account removes any file. *)
Theorem delete_any_owner req env d a f (external : string → result OAuthUserInfo AuthError) files0 events :
  prefix_ok (xfr_auth_token req) = true →
  live_token (xfr_auth_token req) (env_now env 0) d a →
  0 < xfr_file_id req → files d !! xfr_file_id req = Some f →
  let st := mkAppState (mkFileService (F := gmap Z bytes) files0 d None None []) events in
  ∃ st', handle_delete_file is_open send_error false debug_enabled error_enabled external req env st
    = (Returned (Ok (file_delete_success "File deleted successfully")), st')
  ∧ files (fs_storage (as_file st')) !! xfr_file_id req = None.
Proof.
  intros Hp Hl Hid Hf st. unfold handle_delete_file.
  rewrite (authenticated_live debug_enabled error_enabled external _ env _ _ st a Hp Hl).
  set (st1 := after_auth external _ a env st).
  assert (Hf1 : files (fs_storage (as_file st1)) !! xfr_file_id req = Some f).
  { unfold st1, after_auth, ensure_account; cbn. by repeat case_match. }
  assert (Hnm : fs_notification_manager (as_file st1) = None) by done.
  clearbody st1. rewrite (proj2 (Z.ltb_lt _ _) Hid). unfold mthen at 1.
  unfold validate_file_for_deletion, svc_check_file_exists; cbn [s_check_file_exists memory_storage].
  unfold check_file_exists. rewrite Hf1. cbn [negb].
  unfold execute_delete, mtry, on_file, on_part, svc_delete_file, mthen at 1, read.
  cbn [s_get_file_info_include_deleted memory_storage].
  unfold get_file_info_include_deleted, get_file_info. cbn [res_bind]. rewrite Hf1.
  unfold mthen at 1, write. cbn [s_delete_file memory_storage]. unfold delete_file. rewrite Hf1.
  rewrite bool_decide_eq_true_2 by done. unfold mthen, files_remove, notify. cbn.
  rewrite Hnm. cbn. eexists. split; [done|]. cbn. by rewrite lookup_delete_eq.
Qed.

End memory.

(** ** With the in-memory storage alone *)

Section in_memory.
Context `{HI : HashIter} `{CA : CryptoApi} `{CH : Chrono}.
Context (is_open : Sender → bool) (send_error : string).
Context (debug_enabled error_enabled : bool).
Context (transport_encrypt_metadata : bool) (external : string → result OAuthUserInfo AuthError).
Implicit Types (st : AppState StorageData Empty_set) (env : ReqEnv).

(** The account a token check may create touches nothing else. *)
Lemma ensured_storage token a env st :
  let d := fs_storage (as_file st) in
  let d' := fs_storage (as_file (after_auth external token a env st)) in
  files d' = files d ∧ file_data d' = file_data d ∧ watcher_groups d' = watcher_groups d
  ∧ watchers d' = watchers d ∧ encryption_keys d' = encryption_keys d.
Proof. cbn. unfold ensure_account. by repeat case_match. Qed.

(** A store of the service on this storage, unless a broadcast panics. *)
Lemma memory_store f bs ty now nonces (sv sv' : FileService StorageData Empty_set) r :
  fi_file_id f ≠ 0 →
  store_file_with_update_type is_open send_error f bs ty now nonces sv = (Returned r, sv') →
  r = Ok tt
  ∧ files (fs_storage sv') = <[fi_file_id f := f]> (files (fs_storage sv))
  ∧ file_data (fs_storage sv') = <[fi_file_id f := bs]> (file_data (fs_storage sv)).
Proof.
  intros Hid%Z.eqb_neq. unfold store_file_with_update_type, mthen at 1, write.
  cbn [s_store_file_info memory_storage]. unfold store_file_info. rewrite Hid.
  unfold mthen at 1, store_file_data_internal. cbn [fs_file_storage].
  destruct (fs_file_storage sv) as [[]|]. unfold write. cbn [s_store_file_data memory_storage].
  unfold mthen, files_insert. cbn.
  unfold send_file_update_notification, send_file_update_notification_with_options, notify.
  replace (fi_with_file_id f (fi_file_id f)) with f by (by destruct f).
  repeat case_match; by intros [= <- <-].
Qed.

Lemma server_ids_memory a dev g w p sv o sv' :
  ensure_server_ids_for_upload (F := Empty_set) None a dev g w p sv = (o, sv') →
  o = Returned (Ok match get_server_ids a g w (fs_storage sv) with Ok (Some ids) => ids | _ => (0, 0) end)
  ∧ sv' = sv.
Proof.
  unfold ensure_server_ids_for_upload, mthen, read. cbn [s_get_server_ids memory_storage].
  destruct (get_server_ids a g w (fs_storage sv)) as [[[]|]|] eqn:E; [by intros [= <- <-]..|].
  unfold get_server_ids in E. by case_match.
Qed.

(** C31: uploads on the in-memory storage without a separate storage of contents (the MySQL
    storage numbers the revisions itself), in a release build, where the identifier drawn
    for the file is not 0.  A request with a valid token succeeds exactly when the size,
    the fields and the path are acceptable.  The one row it then writes is given in full:
    the account is the one of the token, whatever account the request names, the path is
    normalised, the identifiers of group and watcher are those of the server or 0, and the
    revision is the one of the request although the answer announces the next one; the
    contents are those of the request.  A refused upload leaves all files and contents. *)
Theorem upload_stores_for_token_account req env st a resp st' :
  prefix_ok (ufr_auth_token req) = true →
  live_token (ufr_auth_token req) (env_now env 0) (fs_storage (as_file st)) a →
  let id := handler_generate_file_id req env in
  let d := fs_storage (as_file st) in
  let d' := fs_storage (as_file st') in
  id ≠ 0 →
  handle_upload_file is_open send_error false debug_enabled error_enabled external None
    req env st = (Returned (Ok resp), st') →
  (ufp_success resp = true ↔
     Z.of_nat (length (ufr_file_data req)) = ufr_file_size req
     ∧ validate_upload_input req = Ok tt ∧ ∃ path, normalize_file_path (ufr_file_path req) = Ok path)
  ∧ (ufp_success resp = false → files d' = files d ∧ file_data d' = file_data d)
  ∧ (ufp_success resp = true →
     ufp_file_id resp = id ∧ ufp_new_revision resp = wrap_i64 (ufr_revision req + 1)
     ∧ ∃ path g w, normalize_file_path (ufr_file_path req) = Ok path
       ∧ (g, w) = match get_server_ids a (ufr_group_id req) (ufr_watcher_id req) d with
                  | Ok (Some ids) => ids | _ => (0, 0) end
       ∧ files d' = <[id := mkFileInfo id (ufr_filename req) (ufr_file_hash req) (ufr_device_hash req) g w
                              (ufr_is_encrypted req) path (mkTimestamp (dt_timestamp (env_now env 3)) 0)
                              (ufr_revision req) a (Z.of_nat (length (ufr_file_data req)))
                              (if str_is_empty (ufr_key_id req) then None else Some (ufr_key_id req))]>
                       (files d)
       ∧ file_data d' = <[id := ufr_file_data req]> (file_data d)).
Proof.
  intros Hp Hl id d d' Hid. rewrite (upload_checked _ _ _ _ _ _ _ _ _ a Hp Hl). subst d d'.
  destruct (ensured_storage (ufr_auth_token req) a env st) as (Hf & Hd & Hg & Hw & _).
  set (st1 := after_auth _ _ a env st) in *. clearbody st1.
  destruct (Z.eqb_spec (Z.of_nat (length (ufr_file_data req))) (ufr_file_size req)) as [Hsz|Hsz]; cbn [negb];
    [|intros [= <- <-]; cbn; naive_solver].
  destruct (validate_upload_input req) as [[]|]; [|intros [= <- <-]; cbn; naive_solver].
  destruct (normalize_file_path (ufr_file_path req)) as [path|]; [|intros [= <- <-]; cbn; naive_solver].
  unfold store_upload, mtry at 1, on_file at 1, on_part at 1.
  destruct (ensure_server_ids_for_upload _ _ _ _ _ _ _) as [o f1] eqn:E1.
  apply server_ids_memory in E1 as [-> ->].
  replace (get_server_ids _ _ _ _) with (get_server_ids a (ufr_group_id req) (ufr_watcher_id req)
    (fs_storage (as_file st))) by (unfold get_server_ids; by rewrite Hg, Hw).
  set (ids := match get_server_ids _ _ _ _ with Ok (Some ids) => ids | _ => _ end).
  destruct ids as [g w] eqn:Eids.
  unfold mtry, on_file, on_part. cbn [as_file].
  destruct (svc_store_file _ _ _ _ _ _ _) as [[r|] f2] eqn:E2; [|done].
  apply memory_store in E2 as (-> & Hf2 & Hd2); [|done].
  intros [= <- <-]. cbn [ufp_success ufp_file_id ufp_new_revision file_upload_success as_file].
  split; [naive_solver|]. split; [done|]. intros _. split_and!; [done..|].
  exists path, g, w. rewrite Hf2, Hd2, Hf, Hd, Hsz. by split_and!.
Qed.

(** *** Listing *)

(** A text as the listing sends it: sealed under the key of the account, if any. *)
Definition sent_as (key : option bytes) (aad text sent : string) : Prop :=
  match key with Some k => open_field k aad sent = Some (as_bytes text) | None => sent = text end.

(** The entry of a listing for a stored file. *)
Definition entry_of (req : ListFilesRequest) (key : option bytes) (f : FileInfo) (e : sync_FileInfo) : Prop :=
  let aad := pair_key (lfr_account_hash req) (lfr_device_hash req) in
  ∃ path name, sent_as key aad (fi_file_path f) path ∧ sent_as key aad (fi_filename f) name
  ∧ e = mk_sync_FileInfo (fi_file_id f) name (fi_file_hash f)
          (Some (mkTimestamp (ts_seconds (fi_updated_time f)) 0)) (fi_device_hash f) (lfr_group_id req)
          (fi_watcher_id f) (fi_is_encrypted f) path (fi_revision f) (fi_size f).

(** Texts AES-GCM takes: up to 64 GiB. *)
Definition fits (s : string) : Prop := Z.of_nat (length (as_bytes s)) ≤ 2 ^ 36.

Lemma sealed_names `{!AeadLaws} `{!Base64RoundTrip} key nonces aad path name :
  (∀ k, key = Some k → length k = 32%nat) → length nonces.1 = 12%nat → length nonces.2 = 12%nat →
  fits aad → fits path → fits name →
  ∃ p n, transport_names key nonces aad path name = Some (p, n) ∧ sent_as key aad path p ∧ sent_as key aad name n.
Proof.
  intros Hk Hn1 Hn2 Ha Hp Hn. destruct key as [k|]; cbn; [|eauto].
  destruct (aes_encrypt_total k _ _ _ (Hk k eq_refl) Hn1 Hp Ha) as [c1 E1].
  destruct (aes_encrypt_total k _ _ _ (Hk k eq_refl) Hn2 Hn Ha) as [c2 E2].
  unfold aead_encrypt. rewrite E1, E2. do 2 eexists. split; [done|].
  by split; (eapply open_sealed; [|unfold aead_encrypt; first [rewrite E1|rewrite E2]; reflexivity]).
Qed.

Lemma list_loop_spec `{!AeadLaws} `{!Base64RoundTrip} req g key t env (d : StorageData) l :
  (∀ k, key = Some k → length k = 32%nat) →
  (∀ i, length (env_file_nonces env i).1 = 12%nat ∧ length (env_file_nonces env i).2 = 12%nat) →
  fits (pair_key (lfr_account_hash req) (lfr_device_hash req)) →
  Forall (λ f, fits (fi_file_path f) ∧ fits (fi_filename f)) l →
  ∃ out, list_loop req g key t env d l = Some out
  ∧ Forall2 (entry_of req key) (List.filter (updated_after t env) l) out.
Proof.
  intros Hk Hn Ha. induction 1 as [|f l [Hp Hf] _ (out & Hl & Hout)]; [by exists []|].
  cbn [list_loop List.filter]. unfold list_entry.
  set (skip := match t with Some _ => _ | None => false end).
  assert (updated_after t env f = negb skip) as -> by (by destruct t). rewrite Hl.
  destruct skip; cbn [negb]; [by eexists|].
  destruct (Hn (fi_file_id f)) as [Hn1 Hn2].
  destruct (sealed_names key _ _ _ _ Hk Hn1 Hn2 Ha Hp Hf) as (p & n & -> & Hsp & Hsn).
  cbn [s_get_client_watcher_id memory_storage]. cbn.
  eexists. split; [done|]. constructor; [|done]. by exists p, n.
Qed.

Lemma transport_key_length acc (d : StorageData) k :
  account_transport_key transport_encrypt_metadata parse_account_key acc d = Some k → length k = 32%nat.
Proof.
  unfold account_transport_key. destruct transport_encrypt_metadata; [|done].
  destruct (s_get_encryption_key acc d) as [[text|]|]; [|done..]. unfold parse_account_key.
  repeat case_match; intros [= <-]; by apply Nat.eqb_eq.
Qed.

(** C34: listings on the in-memory storage, in a release build, in a well-formed state.
    With a valid token the answer is a success; it is empty when the account of the request
    has no group of the requested client number, and otherwise lists, each once, exactly
    the files of that account and of the group the number stands for that another device
    uploaded and whose stored time, in whole seconds, is after the requested one.  Path and
    name are sealed under the account's key when metadata encryption is configured, as it
    is by default, and the account has a usable key, and in clear otherwise; the other
    fields are those of the file, and the group is the one the client named.  The account
    is the one the request names, not the one of the token. *)
Theorem list_files_filtered `{!AeadLaws} `{!Base64RoundTrip} req env st a :
  prefix_ok (lfr_auth_token req) = true →
  live_token (lfr_auth_token req) (env_now env 0) (fs_storage (as_file st)) a →
  let acc := lfr_account_hash req in
  let d := fs_storage (as_file st) in
  let key := account_transport_key transport_encrypt_metadata parse_account_key acc d in
  let from := (λ ts, timestamp_to_datetime ts (env_now env 2)) <$> lfr_upload_time_from req in
  wf d → (∀ i f, files d !! i = Some f → fits (fi_file_path f) ∧ fits (fi_filename f)) →
  fits (pair_key acc (lfr_device_hash req)) →
  (∀ i, length (env_file_nonces env i).1 = 12%nat ∧ length (env_file_nonces env i).2 = 12%nat) →
  ∃ resp st', handle_list_files false debug_enabled error_enabled external transport_encrypt_metadata req env st
    = (Returned (Ok resp), st')
  ∧ lfp_success resp = true
  ∧ match get_server_group_id acc (lfr_group_id req) d with
    | Ok (Some g) => ∃ listed, NoDup listed ∧ Forall2 (entry_of req key) listed (lfp_files resp)
        ∧ ∀ f, f ∈ listed ↔ files d !! fi_file_id f = Some f ∧ fi_account_hash f = acc ∧ fi_group_id f = g
                 ∧ fi_device_hash f ≠ lfr_device_hash req ∧ updated_after from env f = true
    | _ => lfp_files resp = []
    end.
Proof.
  intros Hp Hl acc d key from Hwf Hfits Ha Hn. unfold handle_list_files.
  rewrite (authenticated_live debug_enabled error_enabled external _ env _ _ st a Hp Hl).
  destruct (ensured_storage (lfr_auth_token req) a env st) as (Hf & _ & Hg & _ & Hk).
  set (st1 := after_auth _ _ a env st) in *. set (d1 := fs_storage (as_file st1)) in *.
  assert (account_transport_key transport_encrypt_metadata parse_account_key acc d1 = key) as Hkey.
  { unfold key, account_transport_key. cbn [s_get_encryption_key memory_storage]. unfold get_encryption_key.
    by rewrite Hk. }
  unfold mtry, on_file, on_part, convert_client_group_to_server, list_files_filtered_by_device, read.
  cbn [s_get_server_group_id s_list_files_except_device memory_storage]. fold d1.
  replace (get_server_group_id _ _ d1) with (get_server_group_id acc (lfr_group_id req) d)
    by (unfold get_server_group_id; by rewrite Hg).
  destruct (get_server_group_id acc (lfr_group_id req) d) as [[g|]|] eqn:Eg; [| |done].
  2: { do 2 eexists. by split_and!. }
  cbn [as_file]. unfold list_files_except_device. fold d1. rewrite Hf. fold d acc.
  set (fs := hm_filter_values _ _). fold d1. rewrite Hkey.
  destruct (list_loop_spec req g key from env d1 fs) as (out & Hout & Hes); [|done|done| |].
  { intros k. apply transport_key_length. }
  { apply Forall_forall. intros f [[i Hi] _]%elem_of_hm_filter_values. by apply (Hfits i). }
  unfold from in Hout. rewrite Hout. do 2 eexists. split; [done|]. split; [done|].
  exists (List.filter (updated_after from env) fs). split_and!; [|done|].
  - apply NoDup_ListNoDup, List.NoDup_filter, NoDup_ListNoDup, (hm_filter_values_NoDup fi_file_id).
    intros i f Hi. by destruct (wf_files _ Hwf _ _ Hi).
  - intros f. rewrite list_elem_of_In, filter_In, <-list_elem_of_In. unfold fs.
    rewrite elem_of_hm_filter_values. autorewrite with rust_bool. split.
    + intros [[[i Hi] (((? & ?) & ?) & _)] ?]. destruct (wf_files _ Hwf _ _ Hi) as [<- _]. auto.
    + intros (? & ? & ? & ? & ?). eauto 10.
Qed.

End in_memory.

(** *** Examples *)

Section examples.
#[local] Existing Instance canonical_iter.
#[local] Existing Instance chrono_range.
#[local] Existing Instance key_crypto.

Definition env0 : ReqEnv :=
  mkReqEnv (λ _, mkDateTime 500 0) "uuid" 7 (λ _, "id") sample_nonces (λ _, (nonce0, nonce0)).

(** A valid token of account acc, and one file of account bob. *)
Definition app0 : AppState StorageData (gmap Z bytes) :=
  mkAppState (mkFileService {[ 7 := some_bytes ]}
    (store_file_info (sample_file 7 "bob" "b.txt") sample_tokens).2 None None []) [].

Definition upload_req (token : string) : UploadFileRequest :=
  mkUploadFileRequest "someone" "dev1" "a.txt" "/home/me/docs" some_bytes "hash" token 1 1 false 4 None 8 "".
Definition download_req (token : string) : DownloadFileRequest := mkDownloadFileRequest "acc" "dev1" 1 1 7 token 0.
Definition list_req (token : string) (from : option Timestamp) : ListFilesRequest :=
  mkListFilesRequest "bob" "dev9" 1 token from.
Definition delete_req (token : string) : DeleteFileRequest := mkDeleteFileRequest "acc" "dev1" "" "" 7 0 token.

Lemma app0_live : live_token "secret" (env_now env0 0) (fs_storage (as_file app0)) "acc".
Proof.
  split; [discriminate|]. exists (sample_token "acc" "secret"). split_and!; vm_compute; reflexivity.
Qed.

Lemma unauthenticated_rejected_witness :
  handle_download_file false false true no_server true (download_req "wrong") env0 app0
  = (Returned (Ok (file_download_error "Authentication failed")), app0).
Proof.
  apply (unauthenticated_rejected all_open "closed" false true no_server true None "wrong" env0 app0
    (upload_req "wrong") (download_req "wrong") (list_req "wrong" None) (delete_req "wrong")
    (mkFindFileRequest "" "" "wrong" 0 0 "" "") (mkCheckFileExistsRequest "" "" 0 "wrong"));
    try reflexivity.
  intros a (_ & t & Ht & _). vm_compute in Ht. discriminate Ht.
Defined.

(** The same tokens, files and a key and a group of bob, without a separate storage. *)
Definition app2 : AppState StorageData Empty_set :=
  mkAppState (FileService_with
    (set_watcher_groups {[ 1 := mkWatcherGroup 1 1 "bob" "" (mkDateTime 0 0) (mkDateTime 0 0) true [] ]}
       (store_encryption_key "bob" (str_join "" (replicate 4 "12345678"))
          (store_file_info (sample_file 7 "bob" "b.txt") sample_tokens).2).2) None None) [].

Lemma app2_live : live_token "secret" (env_now env0 0) (fs_storage (as_file app2)) "acc".
Proof.
  split; [discriminate|]. exists (sample_token "acc" "secret"). split_and!; vm_compute; reflexivity.
Qed.

Lemma upload_stores_for_token_account_witness :
  ∃ resp st', handle_upload_file all_open "closed" false false true no_server None (upload_req "secret")
    env0 app2 = (Returned (Ok resp), st')
  ∧ ufp_new_revision resp = 5
  ∧ ∃ info, files (fs_storage (as_file st')) !! ufp_file_id resp = Some info
     ∧ fi_account_hash info = "acc" ∧ fi_revision info = 4.
Proof.
  destruct (handle_upload_file all_open "closed" false false true no_server None (upload_req "secret")
    env0 app2) as [o st'] eqn:E.
  assert (∃ resp, o = Returned (Ok resp) ∧ ufp_success resp = true) as (resp & -> & Hs).
  { vm_compute in E. injection E as <- _. by eexists. }
  exists resp, st'. split; [reflexivity|].
  destruct (upload_stores_for_token_account all_open "closed" false true no_server
    (upload_req "secret") env0 app2 "acc" resp st') as (_ & _ & H);
    [reflexivity|exact app2_live|vm_compute; discriminate|exact E|].
  destruct (H Hs) as (Hid & Hr & path & g & w & _ & _ & Hf & _). split; [exact Hr|].
  eexists. split; [rewrite Hf, Hid; apply lookup_insert_eq|]. split; reflexivity.
Defined.

Lemma download_any_owner_witness :
  ∃ resp st', handle_download_file false false true no_server false (download_req "secret") env0 app0
    = (Returned (Ok resp), st') ∧ dfp_file_data resp = some_bytes.
Proof.
  destruct (download_any_owner false true no_server (download_req "secret") env0 app0 "acc"
    (sample_file 7 "bob" "b.txt") some_bytes) as (resp & st' & Hr & _ & Hd & _);
    [reflexivity|exact app0_live|vm_compute; reflexivity|vm_compute; reflexivity|].
  exists resp, st'. split; [exact Hr|exact Hd].
Defined.

Lemma app2_wf : wf (fs_storage (as_file app2)).
Proof.
  assert (wf (store_file_info (sample_file 7 "bob" "b.txt") sample_tokens).2) as [].
  { apply (store_file_info_wf (sample_file 7 "bob" "b.txt")); [split; vm_compute; discriminate|].
    eapply step_wf; [apply step_create_auth_token|apply wf_new]. }
  split; try assumption. apply map_Forall_singleton. by split; vm_compute.
Qed.

(** Metadata is sealed here: the account has a key of 32 bytes. *)
Lemma list_files_filtered_witness :
  ∃ resp st', handle_list_files (CA := plain_crypto) false false true no_server true
    (list_req "secret" (Some (mkTimestamp 50 0))) env0 app2 = (Returned (Ok resp), st')
  ∧ ∃ f e, files (fs_storage (as_file app2)) !! fi_file_id f = Some f ∧ lfp_files resp = [e]
    ∧ sfi_file_id e = fi_file_id f
    ∧ open_field (CA := plain_crypto) (as_bytes (str_join "" (replicate 4 "12345678"))) "bob:dev9"
        (sfi_file_path e) = Some (as_bytes (fi_file_path f)).
Proof.
  destruct (list_files_filtered (CA := plain_crypto) (H := plain_aead) (H0 := plain_base64)
    false true true no_server (list_req "secret" (Some (mkTimestamp 50 0))) env0 app2 "acc")
    as (resp & st' & Hr & _ & listed & _ & Hes & Hin);
    [reflexivity|exact app2_live|exact app2_wf| |vm_compute; discriminate|intros i; split; reflexivity|].
  - intros i f Hf. cbn in Hf. apply lookup_insert_Some in Hf as [[_ <-]|[_ Hf]]; [split; vm_compute; discriminate|].
    vm_compute in Hf. discriminate Hf.
  - assert (∃ e, lfp_files resp = [e]) as [e He].
    { vm_compute in Hr. injection Hr as <- _. eexists. reflexivity. }
    cbn in Hes. rewrite He in Hes. apply Forall2_cons_inv_r in Hes as (f & l & (path & name & Hp & _ & ->) & _ & ->).
    exists resp, st'. split; [exact Hr|]. exists f. eexists. split; [apply Hin; left|].
    split; [exact He|]. split; [reflexivity|exact Hp].
Defined.

Lemma recovery_misses_same_second_witness :
  updated_after (Some (timestamp_to_datetime (mkTimestamp 100 1) (env_now env0 2))) env0
    (sample_file 7 "bob" "b.txt") = false.
Proof. apply (recovery_misses_same_second env0 (sample_file 7 "bob" "b.txt") 100 1); [lia|lia|reflexivity]. Defined.

Lemma delete_any_owner_witness :
  ∃ st', handle_delete_file all_open "closed" false false true no_server (delete_req "secret") env0 app0
    = (Returned (Ok (file_delete_success "File deleted successfully")), st')
  ∧ files (fs_storage (as_file st')) !! 7 = None.
Proof.
  apply (delete_any_owner all_open "closed" false true (delete_req "secret") env0
    (fs_storage (as_file app0)) "acc" (sample_file 7 "bob" "b.txt") no_server {[ 7 := some_bytes ]} []);
    [reflexivity|exact app0_live|reflexivity|vm_compute; reflexivity].
Defined.

End examples.
