(* ===== verification/ServerState.v ===== *)
(** * Application state (src/server/app_state.rs, connection_handler.rs)

    Creation of watchers on behalf of a client, broadcasts of watcher changes,
    and the loss and recovery of a client's connection, across the notification
    manager and the client store. *)

From S2P Require Import Prelude RustString Errors Models Paths Memory MemoryProps Connections StorageApi Effects Crypto Notify NotifyProps FileHandlers.

(** ** Watchers *)

Section watchers.
Context {S : Type} `{ST : Storage S}.
(** The regex crate and the process environment of [validate_watcher_folder]. *)
Context (regex_new : string → option (string → bool)) (env : string → option string).
Implicit Types (s : S).

(** The conditions of the request as rows of an existing watcher. *)
Definition upsert_condition (account_hash : string) (watcher_id local_watcher_id group_id : Z)
    (ty : ConditionType) (now : DateTime) (cd : sync_ConditionData) : WatcherCondition :=
  {| wc_id := None; wc_account_hash := account_hash; wc_watcher_id := watcher_id;
     wc_local_watcher_id := local_watcher_id; wc_local_group_id := group_id;
     wc_condition_type := ty; wc_key := scd_key cd; wc_value := scd_value cd;
     wc_operator := "equals"; wc_created_at := now; wc_updated_at := now |}.

Definition upsert_conditions (account_hash : string) (watcher_id group_id : Z)
    (watcher_data : sync_WatcherData) (now : DateTime) : list WatcherCondition :=
  let row := upsert_condition account_hash watcher_id (swd_watcher_id watcher_data) group_id in
  ((λ cd, row Union now cd) <$> swd_union_conditions watcher_data)
  ++ ((λ cd, row Subtract now cd) <$> swd_subtracting_conditions watcher_data).

(** [Vec::is_empty]. *)
Definition vec_is_empty {A} (l : list A) : bool := match l with [] => true | _ => false end.

Definition create_or_get_watcher (account_hash : string) (group_id : Z)
    (watcher_data : sync_WatcherData) (now : DateTime) : M S Z := λ s,
  match validate_watcher_folder regex_new env (swd_folder watcher_data) with
  | Err msg => (Returned (Err (ValidationError msg)), s)
  | Ok _ =>
      match s_find_watcher_by_folder account_hash group_id (swd_folder watcher_data) s with
      | Err e => (Returned (Err e), s)
      | Ok (Some watcher_id) =>
          let incoming_empty := vec_is_empty (swd_union_conditions watcher_data)
                                && vec_is_empty (swd_subtracting_conditions watcher_data) in
          if negb incoming_empty then
            match s_save_watcher_conditions watcher_id
                    (upsert_conditions account_hash watcher_id group_id watcher_data now) s with
            | (Ok _, s') => (Returned (Ok watcher_id), s')
            | (Err e, s') => (Returned (Err e), s')
            end
          else (Returned (Ok watcher_id), s)
      | Ok None =>
          let '(r, s') := s_create_watcher_with_conditions account_hash group_id watcher_data
                            (dt_timestamp now) now s in
          (Returned r, s')
      end
  end.

(** A folder has one watcher per group: once a request for a folder returned
    a watcher, every later successful request for the same folder returns the
    same one. *)
Theorem create_or_get_watcher_unique `{!StorageLaws S} a g w now s id s' :
  create_or_get_watcher a g w now s = (Returned (Ok id), s') →
  ∀ w2 now2 id2 s2, swd_folder w2 = swd_folder w →
  create_or_get_watcher a g w2 now2 s' = (Returned (Ok id2), s2) → id2 = id.
Proof.
  intros H1.
  assert (Hfind : s_find_watcher_by_folder a g (swd_folder w) s' = Ok (Some id)).
  { unfold create_or_get_watcher in H1.
    destruct (validate_watcher_folder _ _ _); [|done].
    destruct (s_find_watcher_by_folder a g (swd_folder w) s) as [[i|]|e] eqn:E; [| |done].
    - destruct (negb _); [|by injection H1 as -> ->].
      destruct (s_save_watcher_conditions _ _ s) as [[[]|e] s1] eqn:Es; [|done].
      injection H1 as -> ->. by rewrite (law_save_conditions _ _ _ _ _ _ _ Es).
    - destruct (s_create_watcher_with_conditions _ _ _ _ _ s) as [r s1] eqn:Ec.
      injection H1 as -> ->. by apply law_create_watcher in Ec. }
  intros w2 now2 id2 s2 Hf. unfold create_or_get_watcher. rewrite Hf.
  destruct (validate_watcher_folder _ _ _); [|done]. rewrite Hfind.
  destruct (negb _); [|by intros [= <- <-]].
  destruct (s_save_watcher_conditions _ _ s') as [[[]|e] s3]; by intros [= <- <-].
Qed.

End watchers.

(** A request that names no conditions leaves those of the watcher in place. *)
Section memory_watchers.
Context `{HI : HashIter} `{CH : Chrono}.
Context (regex_new : string → option (string → bool)) (env : string → option string).

(** A request for an existing folder replaces the conditions of its watcher
    by those of the request, except that a request without any condition keeps
    the existing ones. *)
Theorem create_or_get_watcher_conditions a g w now d id :
  wf d → fresh_conditions d →
  next_condition_id d + Z.of_nat (length (swd_union_conditions w)
                                  + length (swd_subtracting_conditions w)) ≤ i64_max →
  validate_watcher_folder regex_new env (swd_folder w) = Ok tt →
  find_watcher_by_folder a g (swd_folder w) d = Ok (Some id) →
  ∃ d', create_or_get_watcher regex_new env a g w now d = (Returned (Ok id), d')
  ∧ watchers d' = watchers d
  ∧ (∀ k c, watcher_conditions d' !! k = Some c →
       watcher_conditions d !! k = Some c
       ∨ (wc_watcher_id c = id ∧ wc_account_hash c = a))
  ∧ (swd_union_conditions w = [] → swd_subtracting_conditions w = [] → d' = d)
  ∧ (swd_union_conditions w ≠ [] ∨ swd_subtracting_conditions w ≠ [] →
     ∀ k c, watcher_conditions d' !! k = Some c → wc_watcher_id c = id →
       ∃ cd, cd ∈ (swd_union_conditions w ++ swd_subtracting_conditions w)%list
       ∧ wc_key c = scd_key cd ∧ wc_value c = scd_value cd).
Proof.
  intros Hwf Hfr Hhi Hval Hfind. unfold create_or_get_watcher. rewrite Hval.
  cbn [s_find_watcher_by_folder memory_storage]. rewrite Hfind.
  destruct (vec_is_empty (swd_union_conditions w) && vec_is_empty (swd_subtracting_conditions w)) eqn:E.
  { cbn [negb]. exists d. split_and!; [done|done|auto|done|].
    destruct (swd_union_conditions w), (swd_subtracting_conditions w); try done. by intros [|]. }
  cbn [negb s_save_watcher_conditions memory_storage]. unfold save_watcher_conditions.
  eexists. split; [done|].
  set (rows := upsert_conditions a id g w now).
  assert (Hlen : length rows = (length (swd_union_conditions w) + length (swd_subtracting_conditions w))%nat).
  { unfold rows, upsert_conditions. by rewrite length_app, !length_fmap. }
  assert (Hrows : ∀ c, c ∈ rows → ∃ cd, cd ∈ (swd_union_conditions w ++ swd_subtracting_conditions w)%list
    ∧ wc_key c = scd_key cd ∧ wc_value c = scd_value cd ∧ wc_account_hash c = a).
  { intros c. unfold rows, upsert_conditions. rewrite elem_of_app, !list_elem_of_fmap.
    intros [(cd & -> & Hcd)|(cd & -> & Hcd)]; exists cd; rewrite elem_of_app; auto. }
  assert (Hlook : ∀ k c, watcher_conditions (insert_conditions
      ((λ condition new_id, wc_with_id condition (Some new_id) id) <$> rows)
      (remove_conditions_of id d)) !! k = Some c →
    (watcher_conditions d !! k = Some c ∧ wc_watcher_id c ≠ id)
    ∨ ∃ c0, c0 ∈ rows ∧ c = wc_with_id c0 (Some k) id).
  { intros k c. rewrite insert_conditions_elem;
      [|apply (wf_next_condition_id _ Hwf)|by rewrite length_fmap, Hlen|by apply remove_conditions_of_fresh].
    rewrite lookup_remove_conditions_of. intros [?|(i & mk & Hi & -> & ->)]; [by left|right].
    apply list_lookup_fmap_Some in Hi as (c0 & -> & Hc0). exists c0. split; [|done].
    by eapply list_elem_of_lookup_2. }
  split_and!.
  - by rewrite insert_conditions_watchers.
  - intros k c [[? _]|(c0 & Hin & ->)]%Hlook; [by left|right].
    apply Hrows in Hin as (cd & _ & _ & _ & ?). done.
  - intros HU HS. by rewrite HU, HS in E.
  - intros _ k c [[_ ?]|(c0 & Hin & ->)]%Hlook Hid; [done|].
    apply Hrows in Hin as (cd & ? & ? & ? & _). exists cd. done.
Qed.

End memory_watchers.

(** ** Broadcasts of watcher changes *)

Section broadcasts.
Context `{HI : HashIter} {S : Type} `{ST : Storage S}.
Context (is_open : Sender → bool).

(** The payload published for other instances of the server; [nanoid] is drawn
    at random. *)
Definition watcher_event (kind nanoid account_hash device_hash : string) (now : DateTime)
    : list (string * json) :=
  [("type", JStr kind); ("id", JStr nanoid); ("account_hash", JStr account_hash);
   ("device_hash", JStr device_hash); ("timestamp", JInt (dt_timestamp now))].

(** The deliveries to subscribers, and the routing key and payload handed to the
    bus; a failure of either is logged and ignored. *)
Definition app_broadcast_watcher_group_update (nm : NotificationManager) (s : S)
    (account_hash device_hash : string) (group_id update_type : Z) (now : DateTime) (nanoid : string)
    : Res (list (string * WatcherGroupUpdateNotification) * Event) :=
  group_data <-? s_get_watcher_group_by_account_and_id account_hash group_id s;
  let notification := mkWatcherGroupUpdateNotification account_hash device_hash group_data update_type
                        (dt_timestamp now) in
  let '(_, log) := broadcast_watcher_group_update is_open nm account_hash (Some device_hash) notification in
  let routing_key := "watcher.group.update." +:+ account_hash in
  let payload := watcher_event "watcher_group_update" nanoid account_hash device_hash now in
  Ok (log, (routing_key, payload)).

Definition app_broadcast_watcher_preset_update (nm : NotificationManager)
    (account_hash device_hash : string) (presets : list string) (update_type : Z) (now : DateTime)
    (nanoid : string)
    : Res (list (string * WatcherPresetUpdateNotification) * Event) :=
  let notification := mkWatcherPresetUpdateNotification account_hash device_hash presets update_type
                        (dt_timestamp now) in
  let '(_, log) := broadcast_watcher_preset_update is_open nm account_hash (Some device_hash) notification in
  let routing_key := "watcher.preset.update." +:+ account_hash in
  let payload := watcher_event "watcher_preset_update" nanoid account_hash device_hash now in
  Ok (log, (routing_key, payload)).

(** A change of a group is announced to the other connected devices of the
    account and to no one else, with the stored data of the group. *)
Theorem group_update_announced nm s acc dev g ty now id log event a d c :
  plain a → plain d → is_open c = true →
  watcher_group_update_subscribers nm !! pair_key a d = Some c →
  app_broadcast_watcher_group_update nm s acc dev g ty now id = Ok (log, event) →
  ((∃ m, (pair_key a d, m) ∈ log) ↔ a = acc ∧ d ≠ dev)
  ∧ ∀ k m, (k, m) ∈ log →
      s_get_watcher_group_by_account_and_id acc g s = Ok (wgn_group_data m) ∧ wgn_update_type m = ty.
Proof.
  intros Ha Hd Ho Hc. unfold app_broadcast_watcher_group_update, res_bind.
  destruct (s_get_watcher_group_by_account_and_id acc g s) as [data|]; [|done].
  cbn. intros [= <- _]. setoid_rewrite elem_of_watcher_loop.
  split; [|intros k m [-> _]; done].
  pose proof (watcher_target_pair_key acc (Some dev) a d Ha Hd) as Ht. split.
  - intros (m & _ & c' & _ & Htt & _). apply Ht in Htt as [? Hne]. split; [done|]. congruence.
  - intros [? ?]. eexists. split; [done|]. exists c. split_and!; [done| |done]. apply Ht.
    split; [done|]. congruence.
Qed.

End broadcasts.

(** ** The connection handler (src/server/connection_handler.rs) *)

(** The part of the application state the handler uses; [None] when it was never
    set. *)
Record HandlerState := mkHandlerState {
  hs_clients : ClientStore;
  hs_nm : NotificationManager
}.

Definition handle_disconnect (client_id : string) (now : DateTime) (st : option HandlerState)
    : option HandlerState :=
  match st with
  | Some st =>
      let '(_, nm) := unregister_file_update_subscriber client_id (hs_nm st) in
      Some (mkHandlerState (set_client_connected client_id false now (hs_clients st)) nm)
  | None => None
  end.

(** [get_client_store] is always [Some]. *)
Definition try_reconnect (client_id : string) (now : DateTime) (st : option HandlerState)
    : bool * option HandlerState :=
  match st with
  | Some st => (true, Some (mkHandlerState (set_client_connected client_id true now (hs_clients st)) (hs_nm st)))
  | None => (false, None)
  end.

(** The loop, with the waits in seconds it sleeps; [2u64.pow] wraps. *)
Fixpoint reconnect_loop (client_id : string) (now : nat → DateTime) (attempts remaining : nat)
    (st : option HandlerState) : bool * list Z * option HandlerState :=
  match remaining with
  | O => (false, [], st)
  | Datatypes.S remaining =>
      let attempts := Datatypes.S attempts in
      let wait_time := wrap_u64 (2 ^ wrap_u32 (Z.of_nat attempts)) in
      let '(ok, st') := try_reconnect client_id (now attempts) st in
      if ok then (true, [wait_time], st')
      else let '(ok, waits, st'') := reconnect_loop client_id now attempts remaining st' in
           (ok, wait_time :: waits, st'')
  end.

Definition handle_reconnect (client_id : string) (max_attempts : nat) (now : nat → DateTime)
    (st : option HandlerState) : bool * list Z * option HandlerState :=
  reconnect_loop client_id now 0 max_attempts st.

Lemma reconnect_loop_none id now k n :
  reconnect_loop id now k n None = (false, (λ i, wrap_u64 (2 ^ wrap_u32 (Z.of_nat i))) <$> seq (Datatypes.S k) n, None).
Proof.
  revert k. induction n as [|n IH]; intros k; [done|]. cbn [reconnect_loop try_reconnect].
  rewrite IH. done.
Qed.

(** A reconnection succeeds at the first attempt when the handler has its
    state, and marks the client connected; without it every attempt fails after
    waits of 2, 4, 8, ... seconds. *)
Theorem handle_reconnect_spec id n now st :
  match st with
  | Some hs => (0 < n)%nat →
      ∃ hs', handle_reconnect id n now st = (true, [2], Some hs')
      ∧ is_client_connected id (hs_clients hs') = true
  | None => handle_reconnect id n now st =
      (false, (λ i, wrap_u64 (2 ^ wrap_u32 (Z.of_nat i))) <$> seq 1 n, None)
  end.
Proof.
  destruct st as [hs|]; [|apply reconnect_loop_none].
  intros Hn. destruct n as [|n]; [lia|]. eexists. split; [reflexivity|]. apply is_client_connected_set.
Qed.

(** A disconnected client is neither listed as connected nor subscribed, and
    no other subscriber is touched. *)
Theorem handle_disconnect_spec id now hs :
  ∃ hs', handle_disconnect id now (Some hs) = Some hs'
  ∧ is_client_connected id (hs_clients hs') = false
  ∧ file_update_subscribers (hs_nm hs') = delete id (file_update_subscribers (hs_nm hs))
  ∧ get_file_update_alias_account id (hs_nm hs') = None.
Proof.
  eexists. split; [reflexivity|]. cbn. split_and!; [|done|].
  - apply is_client_connected_set.
  - apply lookup_delete_eq.
Qed.

(** *** Examples *)

Section examples.
#[local] Existing Instance canonical_iter.
#[local] Existing Instance chrono_range.

Definition no_regex (pat : string) : option (string → bool) := None.
Definition no_env (name : string) : option string := None.

(** A group of alice with the watcher 9 of the folder of [sample_watcher]. *)
Definition sample_watchers : StorageData :=
  set_watchers {[ 9 := watcher_row "alice" 1 9 sample_watcher (mkDateTime 0 0) ]} (sample_groups 1).

Lemma sample_watchers_wf : wf sample_watchers.
Proof.
  destruct (sample_groups_wf 1) as []; [done|]. constructor; cbn; auto. by apply map_Forall_insert_2.
Qed.

Lemma create_or_get_watcher_unique_witness :
  ∃ d' d'', create_or_get_watcher no_regex no_env "alice" 1 sample_watcher (mkDateTime 5 0) (sample_groups 1)
    = (Returned (Ok 1), d')
  ∧ create_or_get_watcher no_regex no_env "alice" 1 sample_watcher (mkDateTime 9 0) d'
    = (Returned (Ok 1), d'').
Proof.
  destruct (create_or_get_watcher no_regex no_env "alice" 1 sample_watcher (mkDateTime 5 0) (sample_groups 1))
    as [o d'] eqn:E.
  destruct (create_or_get_watcher no_regex no_env "alice" 1 sample_watcher (mkDateTime 9 0) d')
    as [o2 d''] eqn:E2.
  assert (o = Returned (Ok 1)) as -> by (vm_compute in E; by injection E).
  assert (∃ id, o2 = Returned (Ok id)) as [id ->].
  { vm_compute in E. injection E as <-. vm_compute in E2. injection E2 as <- _. by eexists. }
  exists d', d''. split; [reflexivity|]. rewrite E2. do 3 f_equal.
  exact (create_or_get_watcher_unique no_regex no_env "alice" 1 sample_watcher (mkDateTime 5 0)
    (sample_groups 1) 1 d' E sample_watcher (mkDateTime 9 0) id d'' eq_refl E2).
Defined.

Lemma create_or_get_watcher_conditions_witness :
  ∃ d', create_or_get_watcher no_regex no_env "alice" 1 sample_watcher (mkDateTime 5 0) sample_watchers
    = (Returned (Ok 9), d') ∧ watchers d' = watchers sample_watchers.
Proof.
  destruct (create_or_get_watcher_conditions no_regex no_env "alice" 1 sample_watcher (mkDateTime 5 0)
    sample_watchers 9) as (d' & H & Hw & _).
  - exact sample_watchers_wf.
  - intros k c. cbn. by rewrite lookup_empty.
  - done.
  - vm_compute. reflexivity.
  - vm_compute. reflexivity.
  - exists d'. split; [exact H|exact Hw].
Defined.

Lemma group_update_announced_witness :
  ∃ log event, app_broadcast_watcher_group_update (λ _, true) sample_manager (sample_groups 1)
    "acc" "dev1" 3 1 (mkDateTime 5 0) "id" = Ok (log, event)
  ∧ ∃ m, (pair_key "acc" "dev2", m) ∈ log.
Proof.
  destruct (app_broadcast_watcher_group_update (λ _, true) sample_manager (sample_groups 1)
    "acc" "dev1" 3 1 (mkDateTime 5 0) "id") as [[log event]|e] eqn:E; [|vm_compute in E; discriminate E].
  exists log, event. split; [reflexivity|].
  destruct (group_update_announced (λ _, true) sample_manager (sample_groups 1) "acc" "dev1" 3 1
    (mkDateTime 5 0) "id" log event "acc" "dev2" 4) as [H _];
    [vm_compute; reflexivity|vm_compute; reflexivity|reflexivity|vm_compute; reflexivity|exact E|].
  apply H. split; [reflexivity|discriminate].
Defined.

Lemma handle_reconnect_spec_witness :
  ∃ hs', handle_reconnect "acc:dev1" 3 (λ _, mkDateTime 5 0)
    (Some (mkHandlerState ∅ sample_manager)) = (true, [2], Some hs')
  ∧ is_client_connected "acc:dev1" (hs_clients hs') = true.
Proof.
  apply (handle_reconnect_spec "acc:dev1" 3 (λ _, mkDateTime 5 0) (Some (mkHandlerState ∅ sample_manager))).
  lia.
Defined.

End examples.
