(* ===== verification/Subscriptions.v ===== *)
(** * Subscriptions (src/server/service.rs)

    The streams a client opens: file updates, with the initial transfer of the
    files the device has not seen, watcher groups and presets, with the device
    check and the monitor that pings a subscriber.  A channel is created in the
    handler and its receiving half is handed to the client when the handler
    returns, so that nothing drains it before: a send to a full channel waits
    for ever, which is the outcome [Blocked]. *)

From S2P Require Import Prelude RustString Errors Models Paths Memory MemoryProps Connections StorageApi Effects Crypto Notify NotifyProps Auth FileHandlers.

Record SubscribeRequest := mkSubscribeRequest {
  sr_account_hash : string;
  sr_device_hash : string;
  sr_auth_token : string;
  sr_since_ts : Z
}.

(** How a handler that sends on a bounded channel ends. *)
Inductive run (A : Type) :=
| Answered (r : result A Status)
| Died
| Blocked.
Arguments Answered {A} r.
Arguments Died {A}.
Arguments Blocked {A}.

(** [slice::chunks]; as much fuel as elements is enough. *)
Fixpoint chunks_fuel {A} (fuel n : nat) (l : list A) : list (list A) :=
  match fuel, l with
  | Datatypes.S fuel, _ :: _ => take n l :: chunks_fuel fuel n (drop n l)
  | _, _ => []
  end.
Definition chunks {A} (n : nat) (l : list A) : list (list A) := chunks_fuel (length l) n l.

Lemma concat_chunks_fuel {A} fuel n (l : list A) :
  (0 < n)%nat → (length l ≤ fuel)%nat → concat (chunks_fuel fuel n l) = l.
Proof.
  intros Hn. revert l. induction fuel as [|fuel IH]; intros l Hl.
  - by destruct l; [|cbn in Hl; lia].
  - destruct l as [|x l]; [done|]. cbn [chunks_fuel concat]. rewrite IH; [apply take_drop|].
    rewrite length_drop. cbn in *. lia.
Qed.

Lemma concat_chunks {A} n (l : list A) : (0 < n)%nat → concat (chunks n l) = l.
Proof. intros. by apply concat_chunks_fuel. Qed.

Section subscriptions.
Context `{HI : HashIter} `{CA : CryptoApi} {S : Type} `{ST : Storage S}.
Context (is_open : Sender → bool).
Context (debug_assertions debug_enabled error_enabled : bool).
Context (external_user_info : string → result OAuthUserInfo AuthError).
(** [config.features]. *)
Context (transport_encrypt_metadata dev_mode test_mode : bool).

Record Server := mkServer {
  sv_storage : S;
  sv_nm : NotificationManager;
  sv_tracker : Tracker;
  sv_sent : list (string * FileUpdateNotification)
}.
Implicit Types (sv : Server) (s : S) (nm : NotificationManager).

(** ** The initial transfer *)

Definition BATCH_SIZE : nat := 50.
(** [mpsc::channel(1024)]. *)
Definition channel_capacity : nat := 1024.

Definition stored_last_sync (account_hash device_hash : string) s : Z :=
  match s_get_device account_hash device_hash s with
  | Ok (Some dev) => dt_timestamp (d_last_sync dev)
  | _ => 0
  end.

(** The files of all groups of the account from [effective_since] on. *)
Definition collect_files (account_hash : string) (effective_since : Z) (groups : list WatcherGroup) s
    : list FileInfo :=
  foldl (λ files group,
    match s_list_files account_hash (wg_id group) (Some effective_since) s with
    | Ok fs => (files ++ fs)%list
    | Err _ => files
    end) [] groups.

(** The notification for one file; [None] is the panic of [aead_encrypt]. *)
Definition sync_message (account_hash device_hash : string) (nonces : Z → bytes * bytes) nm s
    (file : FileInfo) : option FileUpdateNotification :=
  let subscriber_key := pair_key account_hash device_hash in
  let file_info := to_sync_file file in
  let key := account_transport_key transport_encrypt_metadata parse_account_key account_hash s in
  let sealed := match key with
    | Some key => seal_file_info (nonces (fi_file_id file)) key (pair_key account_hash device_hash) file_info
    | None => Some file_info
    end in
  match sealed with
  | Some file_info =>
      Some (mkFileUpdateNotification
              (default account_hash (get_file_update_alias_account subscriber_key nm))
              (fi_device_hash file) (Some file_info) 0 (ts_seconds (fi_updated_time file)))
  | None => None
  end.

(** What was sent so far and [max_delivered_ts]. *)
Record Progress := mkProgress {
  pr_sent : list FileUpdateNotification;
  pr_max : Z
}.

Inductive flow := Next | Stuck | Panic.

(** One batch; [break] leaves the batch only.  The channel is new, so that it
    holds what this loop has sent. *)
Fixpoint batch_loop (account_hash device_hash : string) (nonces : Z → bytes * bytes) nm s
    (batch : list FileInfo) (pr : Progress) : Progress * flow :=
  match batch with
  | [] => (pr, Next)
  | file :: batch =>
      if fi_device_hash file == device_hash
      then batch_loop account_hash device_hash nonces nm s batch pr
      else
        match sync_message account_hash device_hash nonces nm s file with
        | None => (pr, Panic)
        | Some message =>
            match file_update_subscribers nm !! pair_key account_hash device_hash with
            | Some sender =>
                if negb (is_open sender) then (pr, Next)
                else if (channel_capacity <=? length (pr_sent pr))%nat then (pr, Stuck)
                else batch_loop account_hash device_hash nonces nm s batch
                       (mkProgress (pr_sent pr ++ [message])
                          (if pr_max pr <? ts_seconds (fi_updated_time file)
                           then ts_seconds (fi_updated_time file) else pr_max pr))
            | None => (pr, Next)
            end
        end
  end.

Fixpoint batches_loop (account_hash device_hash : string) (nonces : Z → bytes * bytes) nm s
    (batches : list (list FileInfo)) (pr : Progress) : Progress * flow :=
  match batches with
  | [] => (pr, Next)
  | batch :: batches =>
      match batch_loop account_hash device_hash nonces nm s batch pr with
      | (pr, Next) => batches_loop account_hash device_hash nonces nm s batches pr
      | r => r
      end
  end.

Definition set_last_sync (t : DateTime) (dev : Device) : Device :=
  mkDevice (d_user_id dev) (d_account_hash dev) (d_device_hash dev) (d_updated_at dev)
    (d_registered_at dev) t (d_is_active dev) (d_os_version dev) (d_app_version dev).

(** The update of the device after the loop. *)
Definition save_watermark (account_hash device_hash : string) (stored max_delivered_ts : Z)
    (now : DateTime) s : S :=
  if stored <? max_delivered_ts then
    match s_get_device account_hash device_hash s with
    | Ok (Some dev) => (s_update_device (set_last_sync now dev) s).2
    | _ => s
    end
  else s.

Definition send_initial_file_sync (account_hash device_hash : string) (since_ts : option Z)
    (now_start now_end : DateTime) (nonces : Z → bytes * bytes) sv : run unit * Server :=
  let subscriber_key := pair_key account_hash device_hash in
  let tracker := update_sync_time subscriber_key now_start (sv_tracker sv) in
  let s := sv_storage sv in
  let stored := stored_last_sync account_hash device_hash s in
  let effective_since := Z.max (default 0 since_ts) stored in
  match s_get_watcher_groups account_hash s with
  | Err _ =>
      (Answered (Err (mkStatus Code_Internal "Failed to retrieve watcher groups for initial sync")),
       mkServer s (sv_nm sv) tracker (sv_sent sv))
  | Ok groups =>
      let files := collect_files account_hash effective_since groups s in
      let '(pr, fl) := batches_loop account_hash device_hash nonces (sv_nm sv) s
                         (chunks BATCH_SIZE files) (mkProgress [] effective_since) in
      let sent := (sv_sent sv ++ (pair subscriber_key <$> pr_sent pr))%list in
      match fl with
      | Next => (Answered (Ok tt),
                 mkServer (save_watermark account_hash device_hash stored (pr_max pr) now_end s)
                   (sv_nm sv) tracker sent)
      | Stuck => (Blocked, mkServer s (sv_nm sv) tracker sent)
      | Panic => (Died, mkServer s (sv_nm sv) tracker sent)
      end
  end.

(** ** Opening a stream *)

(** The check of the token every stream starts with. *)
Definition with_verified_token {A} (token : string) (env : ReqEnv)
    (k : VerificationResult → Server → run A * Server) sv : run A * Server :=
  let '(o, s) := verify_token debug_assertions debug_enabled error_enabled external_user_info
                   token (env_uuid env) (env_now env 0) (env_now env 1) (sv_storage sv) in
  let sv := mkServer s (sv_nm sv) (sv_tracker sv) (sv_sent sv) in
  match o with
  | Panicked => (Died, sv)
  | Returned (Err _) => (Answered (Err (mkStatus Code_Unauthenticated "Invalid authentication")), sv)
  | Returned (Ok v) =>
      if vr_valid v then k v sv
      else (Answered (Err (mkStatus Code_Unauthenticated "Invalid authentication token")), sv)
  end.

(** [tx] is the channel the handler creates, and stands for the stream it
    returns.  The registrations always return [Ok]; a failed transfer is only
    logged. *)
Definition subscribe_to_file_updates (req : SubscribeRequest) (tx : Sender) (env : ReqEnv) sv
    : run Sender * Server :=
  with_verified_token (sr_auth_token req) env (λ v sv,
    let account_hash := vr_account_hash v in
    let device_hash := sr_device_hash req in
    let subscriber_key := pair_key account_hash device_hash in
    let '(_, tracker) := register_connection device_hash account_hash (env_now env 2) (sv_tracker sv) in
    let '(_, nm) := register_file_update_subscriber_with_alias subscriber_key tx (sr_account_hash req)
                      (sv_nm sv) in
    let sv := mkServer (sv_storage sv) nm tracker (sv_sent sv) in
    let since_ts := if 0 <? sr_since_ts req then Some (sr_since_ts req) else None in
    match send_initial_file_sync account_hash device_hash since_ts (env_now env 3) (env_now env 4)
            (env_file_nonces env) sv with
    | (Answered _, sv) => (Answered (Ok tx), sv)
    | (Died, sv) => (Died, sv)
    | (Blocked, sv) => (Blocked, sv)
    end) sv.

(** The task spawned by a file subscription, seven days later. *)
Definition subscription_timeout (account_hash device_hash : string) (now : DateTime) sv : Server :=
  let key := pair_key account_hash device_hash in
  let '(_, nm) := unregister_file_update_subscriber key (sv_nm sv) in
  mkServer (sv_storage sv) nm (mark_disconnected key now (sv_tracker sv)) (sv_sent sv).

(** The device check of the watcher streams, outside development and test
    mode. *)
Definition with_valid_device {A} (account_hash device_hash : string)
    (k : Server → run A * Server) sv : run A * Server :=
  if negb dev_mode && negb test_mode then
    match s_validate_device account_hash device_hash (sv_storage sv) with
    | Ok true => k sv
    | Ok false => (Answered (Err (mkStatus Code_Unauthenticated "Invalid device")), sv)
    | Err _ => (Answered (Err (mkStatus Code_Internal "Error validating device")), sv)
    end
  else k sv.

Definition with_nm nm sv : Server := mkServer (sv_storage sv) nm (sv_tracker sv) (sv_sent sv).

Definition subscribe_to_watcher_preset_updates (req : SubscribeRequest) (tx : Sender) (env : ReqEnv) sv
    : run Sender * Server :=
  with_verified_token (sr_auth_token req) env (λ v,
    with_valid_device (vr_account_hash v) (sr_device_hash req) (λ sv,
      let sub_key := pair_key (vr_account_hash v) (sr_device_hash req) in
      let '(_, nm) := unregister_watcher_preset_update_subscriber sub_key (sv_nm sv) in
      let '(_, nm) := register_watcher_preset_update_subscriber sub_key tx nm in
      (Answered (Ok tx), with_nm nm sv))) sv.

Definition subscribe_to_watcher_group_updates (req : SubscribeRequest) (tx : Sender) (env : ReqEnv) sv
    : run Sender * Server :=
  with_verified_token (sr_auth_token req) env (λ v,
    with_valid_device (vr_account_hash v) (sr_device_hash req) (λ sv,
      let sub_key := pair_key (vr_account_hash v) (sr_device_hash req) in
      let '(_, nm) := unregister_watcher_group_update_subscriber sub_key (sv_nm sv) in
      let '(_, nm) := register_watcher_group_update_subscriber sub_key tx nm in
      (Answered (Ok tx), with_nm nm sv))) sv.

End subscriptions.

Arguments Server : clear implicits.

(** ** The monitor of a watcher-group stream *)

Section monitor.
Context (send_error : string).

Definition max_failures : nat := 3.

(** One tick of the interval, for the channels open at that time: the next
    failure count, or [None] to leave the loop. *)
Definition monitor_tick (account_hash device_hash : string) (is_open : Sender → bool) (now : DateTime)
    (nm : NotificationManager) (failure_count : nat) : option nat :=
  let sub_key := pair_key account_hash device_hash in
  if negb (is_watcher_group_subscriber_active sub_key nm) then None
  else
    let ping := mkWatcherGroupUpdateNotification account_hash device_hash None 0 (dt_timestamp now) in
    match (ping_watcher_group_subscriber is_open send_error nm sub_key ping).1 with
    | Ok _ => Some O
    | Err _ =>
        let failure_count := Datatypes.S failure_count in
        if (max_failures <=? failure_count)%nat then None else Some failure_count
    end.

(** The task, tick by tick; leaving the loop unregisters the subscriber. *)
Fixpoint monitor (account_hash device_hash : string) (ticks : list ((Sender → bool) * DateTime))
    (failure_count : nat) (nm : NotificationManager) : NotificationManager :=
  match ticks with
  | [] => nm
  | (is_open, now) :: ticks =>
      match monitor_tick account_hash device_hash is_open now nm failure_count with
      | Some failure_count => monitor account_hash device_hash ticks failure_count nm
      | None => (unregister_watcher_group_update_subscriber (pair_key account_hash device_hash) nm).2
      end
  end.

End monitor.
