(* ===== verification/SubscriptionsProps.v ===== *)
(** * Correctness of the subscriptions

    Which files the initial transfer announces, when it blocks, what its
    watermark does to later transfers; who may open a stream and what opening,
    timing out and monitoring a stream change. *)

From S2P Require Import Prelude RustString Errors Models Paths Memory MemoryProps Connections StorageApi Effects Crypto Notify NotifyProps Auth FileHandlers Subscriptions.

(** ** The loops *)

Section loops.
Context `{HI : HashIter} `{CA : CryptoApi} {S : Type} `{ST : Storage S}.
Context (is_open : Sender → bool) (enc : bool).
Context (acc dev : string) (nonces : Z → bytes * bytes) (nm : NotificationManager) (s : S) (c : Sender).
Hypothesis Hsub : file_update_subscribers nm !! pair_key acc dev = Some c.
Hypothesis Hopen : is_open c = true.

Abbreviation loop := (batch_loop is_open enc acc dev nonces nm s).
Abbreviation message := (sync_message enc acc dev nonces nm s).

(** The files of other devices. *)
Definition of_others (d : string) (files : list FileInfo) : list FileInfo :=
  filter (λ f, fi_device_hash f ≠ d) files.

Definition newest (t : Z) (files : list FileInfo) : Z :=
  foldl (λ m f, Z.max m (ts_seconds (fi_updated_time f))) t files.

Lemma batch_loop_own f batch pr : fi_device_hash f = dev → loop (f :: batch) pr = loop batch pr.
Proof. intros <-. cbn [batch_loop]. by rewrite bool_decide_eq_true_2. Qed.

Lemma batch_loop_other f batch pr m :
  fi_device_hash f ≠ dev → message f = Some m →
  loop (f :: batch) pr =
    if (channel_capacity <=? length (pr_sent pr))%nat then (pr, Stuck)
    else loop batch (mkProgress (pr_sent pr ++ [m]) (Z.max (pr_max pr) (ts_seconds (fi_updated_time f)))).
Proof.
  intros Hne Hm. cbn [batch_loop]. rewrite bool_decide_eq_false_2, Hm, Hsub, Hopen by done. cbn [negb].
  case_match; [done|]. do 2 f_equal. destruct (Z.ltb_spec (pr_max pr) (ts_seconds (fi_updated_time f))); lia.
Qed.

Lemma of_others_cons_own f files : fi_device_hash f = dev → of_others dev (f :: files) = of_others dev files.
Proof. intros Hf. unfold of_others. rewrite filter_cons_False; [done|]. by intros []. Qed.

Lemma of_others_cons f files :
  fi_device_hash f ≠ dev → of_others dev (f :: files) = f :: of_others dev files.
Proof. intros Hf. unfold of_others. by rewrite filter_cons_True. Qed.

(** The channel has room: every file of another device is announced in order. *)
Lemma batch_loop_room files pr msgs :
  mapM message (of_others dev files) = Some msgs →
  (length (pr_sent pr) + length msgs ≤ channel_capacity)%nat →
  loop files pr = (mkProgress (pr_sent pr ++ msgs) (newest (pr_max pr) (of_others dev files)), Next).
Proof using Hsub Hopen.
  revert pr msgs. induction files as [|f files IH]; intros pr msgs Hm Hlen.
  { injection Hm as <-. rewrite app_nil_r. by destruct pr. }
  destruct (decide (fi_device_hash f = dev)) as [Hf|Hf].
  { rewrite batch_loop_own by done. rewrite of_others_cons_own in Hm |- * by done. by apply IH. }
  rewrite of_others_cons in Hm |- * by done.
  apply mapM_Some in Hm. inversion Hm as [|? m ? msgs' Hfm Hrest]; subst.
  rewrite (batch_loop_other _ _ _ m) by done. cbn [length] in Hlen.
  rewrite (proj2 (Nat.leb_gt _ _)) by lia. rewrite (IH _ msgs').
  - cbn. by rewrite <- app_assoc.
  - by apply mapM_Some.
  - cbn. rewrite length_app. cbn. lia.
Qed.

(** It does not: the loop stops at a full channel. *)
Lemma batch_loop_full files pr msgs :
  mapM message (of_others dev files) = Some msgs →
  (length (pr_sent pr) ≤ channel_capacity)%nat →
  (channel_capacity < length (pr_sent pr) + length msgs)%nat →
  ∃ pr', loop files pr = (pr', Stuck) ∧ length (pr_sent pr') = channel_capacity.
Proof using Hsub Hopen.
  revert pr msgs. induction files as [|f files IH]; intros pr msgs Hm Hle Hlen.
  { injection Hm as <-. cbn in Hlen. lia. }
  destruct (decide (fi_device_hash f = dev)) as [Hf|Hf].
  { rewrite batch_loop_own by done. rewrite of_others_cons_own in Hm by done. by eapply IH. }
  rewrite of_others_cons in Hm by done.
  apply mapM_Some in Hm. inversion Hm as [|? m ? msgs' Hfm Hrest]; subst. cbn [length] in Hlen.
  rewrite (batch_loop_other _ _ _ m) by done. destruct (Nat.leb_spec channel_capacity (length (pr_sent pr))).
  { exists pr. split; [done|]. lia. }
  apply (IH _ msgs'); [by apply mapM_Some|cbn; rewrite length_app; cbn; lia..].
Qed.

(** Conversely, a loop that ends announced every file of another device. *)
Lemma batch_loop_next files pr pr' :
  loop files pr = (pr', Next) → pr_max pr' = newest (pr_max pr) (of_others dev files).
Proof using Hsub Hopen.
  revert pr. induction files as [|f files IH]; intros pr Hl; [by injection Hl as <-|].
  destruct (decide (fi_device_hash f = dev)) as [Hf|Hf].
  { rewrite batch_loop_own in Hl by done. rewrite of_others_cons_own by done. by apply IH. }
  rewrite of_others_cons by done. destruct (message f) as [m|] eqn:Em.
  - rewrite (batch_loop_other _ _ _ m) in Hl by done. case_match; [done|]. by apply IH in Hl.
  - cbn [batch_loop] in Hl. by rewrite bool_decide_eq_false_2, Em in Hl.
Qed.

(** Batches make no difference while the channel is open. *)
Lemma batch_loop_app l1 l2 pr :
  loop (l1 ++ l2)%list pr = match loop l1 pr with (pr, Next) => loop l2 pr | r => r end.
Proof using Hsub Hopen.
  revert pr. induction l1 as [|f l1 IH]; intros pr; [by destruct pr|].
  cbn [app batch_loop]. case_match; [apply IH|]. destruct (message f); [|done].
  rewrite Hsub, Hopen. cbn [negb]. case_match; [done|apply IH].
Qed.

Lemma batches_loop_concat batches pr :
  batches_loop is_open enc acc dev nonces nm s batches pr = loop (concat batches) pr.
Proof using Hsub Hopen.
  revert pr. induction batches as [|b bs IH]; intros pr; [done|].
  cbn [batches_loop concat]. rewrite batch_loop_app. destruct (loop b pr) as [pr' []]; [apply IH|done..].
Qed.

End loops.

(** A message carries the time of its file. *)
Lemma sync_message_timestamp `{CryptoApi} {S} `{Storage S} enc acc dev nonces nm (s : S) f m :
  sync_message enc acc dev nonces nm s f = Some m → fun_timestamp m = ts_seconds (fi_updated_time f).
Proof. unfold sync_message. case_match; by intros [= <-]. Qed.

(** The announcements carry the times of the collected files, in any case. *)
Lemma batch_loop_times `{CryptoApi} {S} `{Storage S} is_open enc acc dev nonces nm (s : S) files pr t :
  (∀ f, f ∈ files → t ≤ ts_seconds (fi_updated_time f)) →
  (∀ m, m ∈ pr_sent pr → t ≤ fun_timestamp m) →
  ∀ m, m ∈ pr_sent (batch_loop is_open enc acc dev nonces nm s files pr).1 → t ≤ fun_timestamp m.
Proof.
  revert pr. induction files as [|f files IH]; intros pr Hf Hpr m; [apply Hpr|]. cbn [batch_loop].
  assert (Hf' : ∀ g, g ∈ files → t ≤ ts_seconds (fi_updated_time g)) by (intros; apply Hf; set_solver).
  case_match; [by apply IH|]. case_match eqn:Hm; [|apply Hpr].
  do 2 (case_match; try apply Hpr). case_match; [apply Hpr|]. apply IH; [done|]. cbn.
  intros m' [?|Hm']%elem_of_app; [by apply Hpr|]. apply list_elem_of_singleton in Hm' as ->.
  erewrite sync_message_timestamp by done. apply Hf. set_solver.
Qed.

Lemma batches_loop_times `{CryptoApi} {S} `{Storage S} is_open enc acc dev nonces nm (s : S) batches pr t :
  (∀ f, f ∈ concat batches → t ≤ ts_seconds (fi_updated_time f)) →
  (∀ m, m ∈ pr_sent pr → t ≤ fun_timestamp m) →
  ∀ m, m ∈ pr_sent (batches_loop is_open enc acc dev nonces nm s batches pr).1 → t ≤ fun_timestamp m.
Proof.
  revert pr. induction batches as [|b bs IH]; intros pr Hf Hpr m; [apply Hpr|]. cbn [batches_loop].
  assert (Hb : ∀ m, m ∈ pr_sent (batch_loop is_open enc acc dev nonces nm s b pr).1 → t ≤ fun_timestamp m).
  { apply batch_loop_times; [|done]. intros f Hin. apply Hf. cbn. set_solver. }
  destruct (batch_loop is_open enc acc dev nonces nm s b pr) as [pr' []]; cbn in Hb; [|apply Hb..].
  apply IH; [|done]. intros f Hin. apply Hf. cbn. set_solver.
Qed.

(** ** The initial transfer *)

(** The files an initial transfer has to announce. *)
Definition pending_files {S} `{Storage S} (acc dev : string) (since : Z) (s : S) : list FileInfo :=
  match s_get_watcher_groups acc s with
  | Ok groups => of_others dev (collect_files acc (Z.max since (stored_last_sync acc dev s)) groups s)
  | Err _ => []
  end.

Section transfer.
Context `{HI : HashIter} `{CA : CryptoApi} {S : Type} `{ST : Storage S}.
Context (is_open : Sender → bool) (enc : bool).
Context (acc dev : string) (since : option Z) (t1 t2 : DateTime) (nonces : Z → bytes * bytes).
Context (sv : Server S) (c : Sender) (groups : list WatcherGroup) (msgs : list FileUpdateNotification).
Hypothesis Hsub : file_update_subscribers (sv_nm sv) !! pair_key acc dev = Some c.
Hypothesis Hopen : is_open c = true.
Hypothesis Hgroups : s_get_watcher_groups acc (sv_storage sv) = Ok groups.
Hypothesis Hmsgs : mapM (sync_message enc acc dev nonces (sv_nm sv) (sv_storage sv))
  (pending_files acc dev (default 0 since) (sv_storage sv)) = Some msgs.

Lemma send_initial_room :
  (length msgs ≤ channel_capacity)%nat →
  let stored := stored_last_sync acc dev (sv_storage sv) in
  send_initial_file_sync is_open enc acc dev since t1 t2 nonces sv =
    (Answered (Ok tt),
     mkServer (save_watermark acc dev stored
         (newest (Z.max (default 0 since) stored)
            (pending_files acc dev (default 0 since) (sv_storage sv))) t2 (sv_storage sv))
       (sv_nm sv) (update_sync_time (pair_key acc dev) t1 (sv_tracker sv))
       (sv_sent sv ++ (pair (pair_key acc dev) <$> msgs))%list).
Proof using Hsub Hopen Hgroups Hmsgs.
  intros Hlen. unfold send_initial_file_sync. unfold pending_files in *. rewrite Hgroups in *.
  rewrite (batches_loop_concat is_open enc acc dev nonces (sv_nm sv) (sv_storage sv) c) by done.
  rewrite concat_chunks by (unfold BATCH_SIZE; lia).
  by rewrite (batch_loop_room is_open enc acc dev nonces (sv_nm sv) (sv_storage sv) c Hsub Hopen _ _ msgs).
Qed.

Lemma send_initial_full :
  (channel_capacity < length msgs)%nat →
  ∃ sv', send_initial_file_sync is_open enc acc dev since t1 t2 nonces sv = (Blocked, sv')
  ∧ sv_storage sv' = sv_storage sv ∧ length (sv_sent sv') = (length (sv_sent sv) + channel_capacity)%nat.
Proof using Hsub Hopen Hgroups Hmsgs.
  intros Hlen. unfold send_initial_file_sync. unfold pending_files in *. rewrite Hgroups in *.
  rewrite (batches_loop_concat is_open enc acc dev nonces (sv_nm sv) (sv_storage sv) c) by done.
  rewrite concat_chunks by (unfold BATCH_SIZE; lia).
  destruct (batch_loop_full is_open enc acc dev nonces (sv_nm sv) (sv_storage sv) c Hsub Hopen
    _ (mkProgress [] (Z.max (default 0 since) (stored_last_sync acc dev (sv_storage sv)))) _ Hmsgs)
    as (pr & -> & Hpr); [cbn; lia|cbn; lia|].
  eexists. split; [done|]. split; [done|]. cbn. rewrite length_app, length_fmap. lia.
Qed.

End transfer.

Lemma send_initial_answered `{HashIter} `{CryptoApi} {S} `{Storage S} is_open enc acc dev since t1 t2 nonces
    (sv : Server S) c groups sv' :
  file_update_subscribers (sv_nm sv) !! pair_key acc dev = Some c → is_open c = true →
  s_get_watcher_groups acc (sv_storage sv) = Ok groups →
  send_initial_file_sync is_open enc acc dev since t1 t2 nonces sv = (Answered (Ok tt), sv') →
  let stored := stored_last_sync acc dev (sv_storage sv) in
  sv_storage sv' = save_watermark acc dev stored
    (newest (Z.max (default 0 since) stored) (pending_files acc dev (default 0 since) (sv_storage sv)))
    t2 (sv_storage sv).
Proof.
  intros Hsub Ho Hg. unfold send_initial_file_sync, pending_files. rewrite Hg. cbv zeta.
  rewrite (batches_loop_concat is_open enc acc dev nonces (sv_nm sv) (sv_storage sv) c) by done.
  rewrite concat_chunks by (unfold BATCH_SIZE; lia).
  destruct (batch_loop _ _ _ _ _ _ _ _ _) as [pr []] eqn:E; [|done..]. intros [= <-]. cbn [sv_storage].
  by apply (batch_loop_next _ _ _ _ _ _ _ c) in E as ->.
Qed.

(** The token check of a stream. *)
Section token.
Context {S : Type} `{ST : Storage S} (de ee : bool) (ext : string → result OAuthUserInfo AuthError).

Definition with_account_ensured (token a : string) (env : ReqEnv) (sv : Server S) : Server S :=
  mkServer (ensure_account ext token a (env_uuid env) (env_now env 1) (sv_storage sv))
    (sv_nm sv) (sv_tracker sv) (sv_sent sv).

Lemma with_verified_token_live {A} token env (k : VerificationResult → Server S → run A * Server S) sv a :
  prefix_ok token = true → live_token token (env_now env 0) (sv_storage sv) a →
  with_verified_token false de ee ext token env k sv =
    k (mkVerificationResult true a None) (with_account_ensured token a env sv).
Proof.
  intros Hp Hl. unfold with_verified_token.
  by rewrite (verify_token_live false de ee ext _ _ _ _ _ a) by done.
Qed.

Lemma with_verified_token_dead {A} token env (k : VerificationResult → Server S → run A * Server S) sv :
  prefix_ok token = true → (∀ a, ¬ live_token token (env_now env 0) (sv_storage sv) a) →
  with_verified_token false de ee ext token env k sv =
    (Answered (Err (mkStatus Code_Unauthenticated "Invalid authentication token")), sv).
Proof.
  intros Hp Hno. unfold with_verified_token.
  destruct (verify_token_cases false de ee ext token (env_uuid env) (env_now env 0) (env_now env 1)
    (sv_storage sv) eq_refl Hp) as [[a Ha]|[-> _]]; [by destruct (Hno a)|]. by destruct sv.
Qed.

End token.

(** ** The file stream *)

Section file_stream.
Context `{HI : HashIter} `{CA : CryptoApi} {S : Type} `{ST : Storage S}.
Context (is_open : Sender → bool) (de ee : bool) (ext : string → result OAuthUserInfo AuthError).
Context (enc : bool).
Implicit Types (sv : Server S) (req : SubscribeRequest) (env : ReqEnv).

(** A transfer only touches the tracker, the device and the channel. *)
Lemma send_initial_frame acc dev since t1 t2 nonces sv r sv' :
  send_initial_file_sync is_open enc acc dev since t1 t2 nonces sv = (r, sv') →
  sv_nm sv' = sv_nm sv ∧ sv_tracker sv' = update_sync_time (pair_key acc dev) t1 (sv_tracker sv).
Proof. unfold send_initial_file_sync. repeat case_match; intros [= _ <-]; done. Qed.

(** The manager once the stream of a request is registered. *)
Definition nm_with (acc : string) req (tx : Sender) (nm : NotificationManager) : NotificationManager :=
  (register_file_update_subscriber_with_alias (pair_key acc (sr_device_hash req)) tx
     (sr_account_hash req) nm).2.

Definition since_of req : Z := if 0 <? sr_since_ts req then sr_since_ts req else 0.

Lemma subscribe_live req tx env sv acc :
  prefix_ok (sr_auth_token req) = true →
  live_token (sr_auth_token req) (env_now env 0) (sv_storage sv) acc →
  subscribe_to_file_updates is_open false de ee ext enc req tx env sv =
  let since := if 0 <? sr_since_ts req then Some (sr_since_ts req) else None in
  match send_initial_file_sync is_open enc acc (sr_device_hash req) since (env_now env 3) (env_now env 4)
          (env_file_nonces env)
          (mkServer (ensure_account ext (sr_auth_token req) acc (env_uuid env) (env_now env 1) (sv_storage sv))
             (nm_with acc req tx (sv_nm sv))
             (register_connection (sr_device_hash req) acc (env_now env 2) (sv_tracker sv)).2 (sv_sent sv)) with
  | (Answered _, sv) => (Answered (Ok tx), sv)
  | (Died, sv) => (Died, sv)
  | (Blocked, sv) => (Blocked, sv)
  end.
Proof.
  intros Hp Hl. unfold subscribe_to_file_updates.
  rewrite (with_verified_token_live de ee ext _ _ _ _ acc) by done.
  unfold nm_with. cbn.
  by destruct (register_connection (sr_device_hash req) acc (env_now env 2) (sv_tracker sv)).
Qed.

Lemma default_since req :
  default 0 (if 0 <? sr_since_ts req then Some (sr_since_ts req) else None) = since_of req.
Proof. unfold since_of. by destruct (0 <? sr_since_ts req). Qed.

(** What the stream leaves in the manager and the tracker, however the transfer
    ends. *)
Lemma subscribe_state req tx env sv acc r sv' :
  prefix_ok (sr_auth_token req) = true →
  live_token (sr_auth_token req) (env_now env 0) (sv_storage sv) acc →
  subscribe_to_file_updates is_open false de ee ext enc req tx env sv = (r, sv') →
  sv_nm sv' = nm_with acc req tx (sv_nm sv)
  ∧ sv_tracker sv' = update_sync_time (pair_key acc (sr_device_hash req)) (env_now env 3)
      (register_connection (sr_device_hash req) acc (env_now env 2) (sv_tracker sv)).2.
Proof.
  intros Hp Hl. rewrite (subscribe_live _ _ _ _ acc) by done. cbv zeta.
  destruct (send_initial_file_sync _ _ _ _ _ _ _ _ _) as [r0 sv0] eqn:Hs.
  apply send_initial_frame in Hs. destruct r0; by intros [= _ <-].
Qed.

Lemma register_connection_active dev acc now t :
  ∃ c, (register_connection dev acc now t).2 !! pair_key acc dev = Some c ∧ cs_is_active c = true.
Proof. unfold register_connection. case_match; cbn; rewrite lookup_insert_eq; eauto. Qed.

End file_stream.

(** ** Over the in-memory storage *)

Section memory.
Context `{HI : HashIter} `{CH : Chrono} `{CA : CryptoApi}.
Context (is_open : Sender → bool) (de ee : bool) (ext : string → result OAuthUserInfo AuthError).
Context (enc : bool).
Implicit Types (d : StorageData) (sv : Server StorageData) (req : SubscribeRequest) (env : ReqEnv).

(** A file the device [dev] of [acc] has to hear of. *)
Definition pending (acc dev : string) (since : Z) d (f : FileInfo) : Prop :=
  files d !! fi_file_id f = Some f ∧ fi_account_hash f = acc ∧ fi_device_hash f ≠ dev
  ∧ (∃ g, watcher_groups d !! fi_group_id f = Some g ∧ wg_account_hash g = acc)
  ∧ Z.max since (stored_last_sync acc dev d) ≤ ts_seconds (fi_updated_time f).

Lemma elem_of_collect_files acc t groups d f :
  f ∈ collect_files acc t groups d ↔
  (∃ k, files d !! k = Some f) ∧ fi_account_hash f = acc ∧ t ≤ ts_seconds (fi_updated_time f)
  ∧ ∃ g, g ∈ groups ∧ wg_id g = fi_group_id f.
Proof using HI CH.
  clear is_open ext. unfold collect_files. cbn [s_list_files memory_storage]. unfold list_files.
  assert (Hacc : ∀ l, f ∈ foldl (λ files group, (files ++ hm_filter_values (λ file,
      (fi_account_hash file == acc) && (fi_group_id file =? wg_id group) && since (Some t) file)
      (Memory.files d))%list) l groups ↔
    f ∈ l ∨ (∃ k, files d !! k = Some f) ∧ fi_account_hash f = acc ∧ t ≤ ts_seconds (fi_updated_time f)
      ∧ ∃ g, g ∈ groups ∧ wg_id g = fi_group_id f).
  { induction groups as [|g groups IH]; intros l; cbn [foldl]; [set_solver|].
    rewrite IH, elem_of_app, elem_of_hm_filter_values. unfold since. autorewrite with rust_bool.
    set_solver. }
  rewrite Hacc. set_solver.
Qed.

Lemma elem_of_pending_files acc dev since d f :
  wf d → f ∈ pending_files acc dev since d ↔ pending acc dev since d f.
Proof.
  intros Hwf. unfold pending_files. cbn [s_get_watcher_groups memory_storage].
  unfold get_watcher_groups, of_others. rewrite list_elem_of_filter, elem_of_collect_files. unfold pending.
  setoid_rewrite elem_of_hm_filter_values. setoid_rewrite bool_decide_eq_true.
  split.
  - intros (Hne & [k Hk] & Ha & Ht & g & [[i Hi] Hg] & Hid).
    destruct (wf_files _ Hwf _ _ Hk) as [<- _]. destruct (wf_groups _ Hwf _ _ Hi) as [Heq _].
    rewrite <- Hid, Heq. eauto 10.
  - intros (Hk & Ha & Hne & (g & Hi & Hg) & Ht). destruct (wf_groups _ Hwf _ _ Hi) as [Heq _].
    split_and!; eauto 10.
Qed.

(** The account a token check may create changes nothing a transfer reads. *)
Lemma ensured_pending token a uuid now acc dev since d :
  let d' := ensure_account ext token a uuid now d in
  pending_files acc dev since d' = pending_files acc dev since d
  ∧ stored_last_sync acc dev d' = stored_last_sync acc dev d
  ∧ encryption_keys d' = encryption_keys d.
Proof. unfold ensure_account. repeat case_match; done. Qed.

Lemma sync_message_keys acc dev nonces nm d d' f :
  encryption_keys d' = encryption_keys d →
  sync_message enc acc dev nonces nm d' f = sync_message enc acc dev nonces nm d f.
Proof.
  intros Hk. unfold sync_message, account_transport_key. cbn [s_get_encryption_key memory_storage].
  unfold get_encryption_key. by rewrite Hk.
Qed.

(** The messages of a transfer, when none of them panics. *)
Lemma pending_messages acc dev since nonces nm d token uuid now :
  let d' := ensure_account ext token acc uuid now d in
  let message := sync_message enc acc dev nonces nm d in
  wf d → (∀ f, pending acc dev since d f → is_Some (message f)) →
  ∃ msgs, mapM (sync_message enc acc dev nonces nm d') (pending_files acc dev since d') = Some msgs
  ∧ length msgs = length (pending_files acc dev since d)
  ∧ mapM message (pending_files acc dev since d) = Some msgs.
Proof.
  intros d' message Hwf Hsome.
  destruct (ensured_pending token acc uuid now acc dev since d) as (Hpf & _ & Hk). fold d' in Hpf, Hk.
  rewrite Hpf.
  destruct (mapM_is_Some_2 message (pending_files acc dev since d)) as [msgs Hm].
  { apply Forall_forall. intros f Hf. apply Hsome. by apply elem_of_pending_files. }
  exists msgs. split; [|split].
  - rewrite <- Hm. apply mapM_ext. intros f. by apply sync_message_keys.
  - by rewrite (length_mapM _ _ _ Hm).
  - done.
Qed.

(** Every file is collected once: groups have different numbers. *)
Lemma pending_once acc dev since d : wf d → NoDup (pending_files acc dev since d).
Proof.
  intros Hwf. unfold pending_files. cbn [s_get_watcher_groups memory_storage]. unfold get_watcher_groups.
  apply NoDup_filter. generalize (Z.max since (stored_last_sync acc dev d)) as t. intros t.
  set (groups := hm_filter_values _ _).
  assert (NoDup (wg_id <$> groups)) as Hg.
  { apply NoDup_fmap_2_strong; [|apply (hm_filter_values_NoDup wg_id); intros i g Hi; by destruct (wf_groups _ Hwf _ _ Hi)].
    intros g h [[i Hi] _]%elem_of_hm_filter_values [[j Hj] _]%elem_of_hm_filter_values Heq.
    destruct (wf_groups _ Hwf _ _ Hi) as [Ei _], (wf_groups _ Hwf _ _ Hj) as [Ej _]. congruence. }
  unfold collect_files. cbn [s_list_files memory_storage]. unfold list_files. clearbody groups.
  assert (∀ l, NoDup l → (∀ f, f ∈ l → fi_group_id f ∉ wg_id <$> groups) → NoDup (foldl (λ files group,
      (files ++ hm_filter_values (λ file, (fi_account_hash file == acc) && (fi_group_id file =? wg_id group)
        && Memory.since (Some t) file) (Memory.files d))%list) l groups)) as H; [|apply H; [constructor|by intros f ?%elem_of_nil]].
  induction groups as [|g groups IH]; intros l Hl Hout; cbn [foldl]; [done|].
  apply NoDup_cons in Hg as [Hg1 Hg2]. apply IH; [done| |].
  - apply NoDup_app. split_and!; [done| |apply (hm_filter_values_NoDup fi_file_id); intros i f Hi; by destruct (wf_files _ Hwf _ _ Hi)].
    intros f Hf [_ Hq]%elem_of_hm_filter_values. autorewrite with rust_bool in Hq. destruct Hq as [[_ Hq] _].
    apply (Hout f Hf). rewrite Hq. left.
  - intros f [Hf|[_ Hq]%elem_of_hm_filter_values]%elem_of_app; [intros Hin; apply (Hout f Hf); by right|].
    autorewrite with rust_bool in Hq. destruct Hq as [[_ ->] _]. done.
Qed.

(** C30: on the in-memory storage, in a release build and a well-formed state: a device that
    subscribes with a valid token is announced, each once, exactly the files of the
    account's groups that other devices uploaded and whose time stamp is not before the
    later of the requested time and its last transfer, when they fit the channel.  The
    stamp is the second in which the server built the row of the upload, before it was
    stored.  (The MySQL storage ignores the time, so that it announces all files.) *)
Theorem initial_transfer_exact req tx env sv acc :
  let dev := sr_device_hash req in
  let d := sv_storage sv in
  let message := sync_message enc acc dev (env_file_nonces env) (nm_with acc req tx (sv_nm sv)) d in
  prefix_ok (sr_auth_token req) = true → live_token (sr_auth_token req) (env_now env 0) d acc →
  wf d → is_open tx = true →
  (∀ f, pending acc dev (since_of req) d f → is_Some (message f)) →
  (length (pending_files acc dev (since_of req) d) ≤ channel_capacity)%nat →
  ∃ sv' fs msgs,
    subscribe_to_file_updates is_open false de ee ext enc req tx env sv = (Answered (Ok tx), sv')
    ∧ NoDup fs ∧ (∀ f, f ∈ fs ↔ pending acc dev (since_of req) d f)
    ∧ mapM message fs = Some msgs
    ∧ sv_sent sv' = (sv_sent sv ++ (pair (pair_key acc dev) <$> msgs))%list.
Proof.
  intros dev d message Hp Hl Hwf Ho Hsome Hlen. rewrite (subscribe_live is_open de ee ext enc _ _ _ _ acc) by done. cbv zeta.
  destruct (pending_messages acc dev (since_of req) (env_file_nonces env) (nm_with acc req tx (sv_nm sv)) d
    (sr_auth_token req) (env_uuid env) (env_now env 1) Hwf Hsome) as (msgs & Hm & Hmlen & Hmsg).
  erewrite (send_initial_room _ _ _ _ _ _ _ _ _ tx _ msgs);
    [|apply lookup_insert_eq|done|reflexivity|by rewrite default_since|by rewrite Hmlen].
  eexists _, (pending_files acc dev (since_of req) d), msgs. split; [done|].
  split; [by apply pending_once|]. split; [intros f; by apply elem_of_pending_files|]. by split.
Qed.

(** A device with more pending files than the channel holds never gets its
    stream: the handler fills the channel, which nobody reads before the handler
    returns, and waits for ever. *)
Theorem initial_transfer_blocks req tx env sv acc :
  let dev := sr_device_hash req in
  let d := sv_storage sv in
  let message := sync_message enc acc dev (env_file_nonces env) (nm_with acc req tx (sv_nm sv)) d in
  prefix_ok (sr_auth_token req) = true → live_token (sr_auth_token req) (env_now env 0) d acc →
  wf d → is_open tx = true →
  (∀ f, pending acc dev (since_of req) d f → is_Some (message f)) →
  (channel_capacity < length (pending_files acc dev (since_of req) d))%nat →
  ∃ sv', subscribe_to_file_updates is_open false de ee ext enc req tx env sv = (Blocked, sv')
  ∧ length (sv_sent sv') = (length (sv_sent sv) + channel_capacity)%nat
  ∧ stored_last_sync acc dev (sv_storage sv') = stored_last_sync acc dev d.
Proof.
  intros dev d message Hp Hl Hwf Ho Hsome Hlen. rewrite (subscribe_live is_open de ee ext enc _ _ _ _ acc) by done. cbv zeta.
  destruct (pending_messages acc dev (since_of req) (env_file_nonces env) (nm_with acc req tx (sv_nm sv)) d
    (sr_auth_token req) (env_uuid env) (env_now env 1) Hwf Hsome) as (msgs & Hm & Hmlen & _).
  edestruct (send_initial_full is_open enc acc dev) as (sv' & -> & Hst & Hs);
    [apply lookup_insert_eq|done|reflexivity|by rewrite default_since|by rewrite Hmlen|].
  eexists. split; [done|]. split; [done|]. rewrite Hst. apply (ensured_pending _ _ _ _ _ _ 0).
Qed.

(** Every announcement of a transfer is at least as recent as the stored time of
    the last one. *)
Lemma transfer_times acc dev since t1 t2 nonces sv r sv' k m :
  send_initial_file_sync is_open enc acc dev since t1 t2 nonces sv = (r, sv') →
  (k, m) ∈ sv_sent sv' →
  (k, m) ∈ sv_sent sv ∨ k = pair_key acc dev ∧ stored_last_sync acc dev (sv_storage sv) ≤ fun_timestamp m.
Proof.
  unfold send_initial_file_sync. destruct (s_get_watcher_groups acc (sv_storage sv)) as [groups|].
  2:{ intros [= <- <-]. auto. }
  set (stored := stored_last_sync acc dev (sv_storage sv)).
  set (files := collect_files acc _ groups (sv_storage sv)).
  set (pr0 := mkProgress [] _).
  pose proof (batches_loop_times is_open enc acc dev nonces (sv_nm sv) (sv_storage sv)
    (chunks BATCH_SIZE files) pr0 stored) as Ht.
  rewrite concat_chunks in Ht by (unfold BATCH_SIZE; lia). cbv zeta.
  destruct (batches_loop _ _ _ _ _ _ _ _ _) as [pr fl]. intros Heq Hin.
  assert (sv_sent sv' = (sv_sent sv ++ (pair (pair_key acc dev) <$> pr_sent pr))%list) as Hs
    by (destruct fl; by injection Heq as <- <-).
  rewrite Hs, elem_of_app, list_elem_of_fmap in Hin. destruct Hin as [?|(m' & [= -> ->] & Hm)]; [auto|].
  right. split; [done|]. apply Ht; [|by intros ? ?%elem_of_nil|done].
  intros f (_ & _ & ? & _)%elem_of_collect_files. lia.
Qed.

Lemma newest_above t files f : f ∈ files → ts_seconds (fi_updated_time f) ≤ newest t files.
Proof.
  unfold newest. revert t. induction files as [|g files IH]; intros t; [by intros ?%elem_of_nil|].
  cbn [foldl]. intros [->|Hf]%elem_of_cons; [|by apply IH]. clear IH.
  assert (Hmono : ∀ l a, a ≤ foldl (λ m f, Z.max m (ts_seconds (fi_updated_time f))) a l).
  { induction l as [|h l IH]; intros a; cbn; [lia|]. etrans; [|apply IH]. lia. }
  etrans; [|apply Hmono]. lia.
Qed.

(** A transfer that announced something new moves the time of the device to
    the current time, not to that of the newest file it announced: whatever is
    stored afterwards with an earlier time of its own is never announced by a
    later transfer, for any time the device asks for. *)
Theorem transfer_watermark_skips acc dev since t1 t2 nonces sv c device f sv1 :
  devices (sv_storage sv) !! pair_key acc dev = Some device →
  d_account_hash device = acc → d_device_hash device = dev →
  file_update_subscribers (sv_nm sv) !! pair_key acc dev = Some c → is_open c = true →
  pending acc dev (default 0 since) (sv_storage sv) f → wf (sv_storage sv) →
  dt_timestamp (d_last_sync device) < ts_seconds (fi_updated_time f) →
  send_initial_file_sync is_open enc acc dev since t1 t2 nonces sv = (Answered (Ok tt), sv1) →
  stored_last_sync acc dev (sv_storage sv1) = dt_timestamp t2
  ∧ ∀ sv2 since' t1' t2' nonces' r sv3 k m,
      devices (sv_storage sv2) !! pair_key acc dev = devices (sv_storage sv1) !! pair_key acc dev →
      send_initial_file_sync is_open enc acc dev since' t1' t2' nonces' sv2 = (r, sv3) →
      (k, m) ∈ sv_sent sv3 → (k, m) ∈ sv_sent sv2 ∨ dt_timestamp t2 ≤ fun_timestamp m.
Proof.
  intros Hdev Ha Hd Hsub Ho Hpend Hwf Hnew Hsend.
  assert (Hst : stored_last_sync acc dev (sv_storage sv1) = dt_timestamp t2).
  { eapply send_initial_answered in Hsend; [|done|done|reflexivity]. cbv zeta in Hsend. rewrite Hsend.
    assert (Hs : stored_last_sync acc dev (sv_storage sv) = dt_timestamp (d_last_sync device)).
    { unfold stored_last_sync. cbn. by rewrite Hdev. }
    rewrite Hs. unfold save_watermark. rewrite (proj2 (Z.ltb_lt _ _)).
    - cbn. rewrite Hdev. unfold stored_last_sync. cbn. by rewrite Ha, Hd, lookup_insert_eq.
    - eapply Z.lt_le_trans; [exact Hnew|]. apply newest_above. by apply elem_of_pending_files. }
  split; [done|]. intros sv2 since' t1' t2' nonces' r sv3 k m Hrow Hs3 Hin.
  destruct (transfer_times _ _ _ _ _ _ _ _ _ _ _ Hs3 Hin) as [?|[_ Hle]]; [auto|right].
  revert Hle Hst. unfold stored_last_sync. cbn. rewrite Hrow. lia.
Qed.

End memory.

(** ** Streams *)

Section streams.
Context `{HI : HashIter} `{CA : CryptoApi} {S : Type} `{ST : Storage S}.
Context (is_open : Sender → bool) (de ee : bool) (ext : string → result OAuthUserInfo AuthError).
Context (enc dev_mode test_mode : bool).
Implicit Types (sv : Server S) (req : SubscribeRequest) (env : ReqEnv).

Abbreviation subscribe_files := (subscribe_to_file_updates is_open false de ee ext enc).
Abbreviation subscribe_groups := (subscribe_to_watcher_group_updates false de ee ext dev_mode test_mode).
Abbreviation subscribe_presets := (subscribe_to_watcher_preset_updates false de ee ext dev_mode test_mode).

(** No stream is opened without a valid token: the request is answered with
    UNAUTHENTICATED and nothing changes. *)
Theorem stream_requires_token req tx env sv :
  prefix_ok (sr_auth_token req) = true →
  (∀ a, ¬ live_token (sr_auth_token req) (env_now env 0) (sv_storage sv) a) →
  let denied := (Answered (Err (mkStatus Code_Unauthenticated "Invalid authentication token")), sv) in
  subscribe_files req tx env sv = denied ∧ subscribe_groups req tx env sv = denied
  ∧ subscribe_presets req tx env sv = denied.
Proof. intros Hp Hno. split_and!; by apply with_verified_token_dead. Qed.

(** A file stream belongs to the account of the token, under the account name
    the client used, and makes the device an active connection; the streams of
    other devices are untouched. *)
Theorem file_stream_registered req tx env sv acc r sv' :
  let key := pair_key acc (sr_device_hash req) in
  prefix_ok (sr_auth_token req) = true →
  live_token (sr_auth_token req) (env_now env 0) (sv_storage sv) acc →
  subscribe_files req tx env sv = (r, sv') →
  file_update_subscribers (sv_nm sv') = <[key := tx]> (file_update_subscribers (sv_nm sv))
  ∧ get_file_update_alias_account key (sv_nm sv') = Some (sr_account_hash req)
  ∧ ∃ c, get_connection_state key (sv_tracker sv') = Some c ∧ cs_is_active c = true
         ∧ cs_last_sync_time c = Some (env_now env 3).
Proof.
  intros key Hp Hl [-> ->]%(subscribe_state is_open de ee ext enc _ _ _ _ acc); [|done..].
  split; [done|]. split; [apply lookup_insert_eq|].
  destruct (register_connection_active (sr_device_hash req) acc (env_now env 2) (sv_tracker sv))
    as (c & Hc & Ha).
  unfold get_connection_state, update_sync_time, with_connection. fold key in Hc |- *. rewrite Hc.
  rewrite lookup_insert_eq. eexists. split; [done|]. cbn. auto.
Qed.

(** Outside development and test mode a watcher-group stream is opened exactly
    for the devices the storage accepts for the account of the token. *)
Theorem watcher_stream_requires_device req tx env sv acc ok :
  let key := pair_key acc (sr_device_hash req) in
  let s := ensure_account ext (sr_auth_token req) acc (env_uuid env) (env_now env 1) (sv_storage sv) in
  dev_mode = false → test_mode = false →
  prefix_ok (sr_auth_token req) = true →
  live_token (sr_auth_token req) (env_now env 0) (sv_storage sv) acc →
  s_validate_device acc (sr_device_hash req) s = Ok ok →
  let '(r, sv') := subscribe_groups req tx env sv in
  if ok
  then r = Answered (Ok tx)
       ∧ watcher_group_update_subscribers (sv_nm sv')
         = <[key := tx]> (watcher_group_update_subscribers (sv_nm sv))
  else r = Answered (Err (mkStatus Code_Unauthenticated "Invalid device")) ∧ sv_nm sv' = sv_nm sv.
Proof.
  intros key s -> -> Hp Hl Hv. unfold subscribe_to_watcher_group_updates.
  rewrite (with_verified_token_live de ee ext _ _ _ _ acc) by done.
  unfold with_valid_device. cbn. fold s. rewrite Hv.
  destruct ok; [|done]. split; [done|]. cbn. by rewrite insert_delete_eq.
Qed.

(** The timer of an earlier stream ends the later one: seven days after a
    device subscribed, the timer of that subscription removes whatever channel
    the device has by then and marks it as disconnected. *)
Theorem stale_timeout_unsubscribes req1 req2 tx1 tx2 env1 env2 now sv acc r1 sv1 r2 sv2 :
  let key := pair_key acc (sr_device_hash req1) in
  let sv3 := subscription_timeout acc (sr_device_hash req1) now sv2 in
  sr_device_hash req2 = sr_device_hash req1 →
  prefix_ok (sr_auth_token req2) = true →
  live_token (sr_auth_token req2) (env_now env2 0) (sv_storage sv1) acc →
  subscribe_files req1 tx1 env1 sv = (r1, sv1) →
  subscribe_files req2 tx2 env2 sv1 = (r2, sv2) →
  file_update_subscribers (sv_nm sv2) !! key = Some tx2
  ∧ file_update_subscribers (sv_nm sv3) !! key = None
  ∧ ∃ c, get_connection_state key (sv_tracker sv3) = Some c ∧ cs_is_active c = false.
Proof.
  intros key sv3 Hd Hp Hl _ [Hnm Ht]%(subscribe_state is_open de ee ext enc _ _ _ _ acc); [|done..].
  rewrite Hd in Ht. fold key in Ht.
  destruct (register_connection_active (sr_device_hash req1) acc (env_now env2 2) (sv_tracker sv1))
    as (c & Hc & Ha). fold key in Hc.
  unfold sv3, subscription_timeout. cbn. fold key. rewrite Hnm. unfold nm_with. rewrite Hd. fold key. cbn.
  split; [apply lookup_insert_eq|]. split; [by rewrite lookup_delete_eq|].
  rewrite Ht. unfold get_connection_state, update_sync_time, mark_disconnected, with_connection.
  rewrite Hc, lookup_insert_eq, lookup_insert_eq. by eexists.
Qed.

End streams.

(** ** The monitor *)

Section monitor_props.
Context (send_error acc dev : string) (nm : NotificationManager) (c : Sender).
Hypothesis Hsub : watcher_group_update_subscribers nm !! pair_key acc dev = Some c.

(** Some three pings in a row failed. *)
Definition three_failures (pings : list bool) : Prop :=
  ∃ pre post, pings = (pre ++ [false; false; false] ++ post)%list.

Lemma three_failures_short n : (n < max_failures)%nat → ¬ three_failures (replicate n false).
Proof.
  unfold max_failures. intros Hn (pre & post & Heq). apply (f_equal length) in Heq.
  rewrite length_replicate, !length_app in Heq. cbn in Heq. lia.
Qed.

Lemma three_failures_reset n pings :
  (n < max_failures)%nat →
  three_failures (replicate n false ++ true :: pings)%list ↔ three_failures pings.
Proof.
  unfold max_failures. intros Hn. split.
  - intros (pre & post & Heq). destruct n as [|[|[|n]]]; [| | |lia];
      destruct pre as [|? [|? [|? pre]]]; cbn in Heq; simplify_eq;
      first [by exists [], post | by eexists [_], post | by eexists (_ :: _ :: _), post | by eexists (_ :: _), post
            | by exists pre, post].
  - intros (pre & post & ->). exists (replicate n false ++ true :: pre)%list, post.
    by rewrite <- !app_assoc.
Qed.

Lemma monitor_tick_open (is_open : Sender → bool) now n :
  monitor_tick send_error acc dev is_open now nm n =
    if is_open c then Some O
    else if (max_failures <=? Datatypes.S n)%nat then None else Some (Datatypes.S n).
Proof using Hsub.
  unfold monitor_tick, is_watcher_group_subscriber_active, hm_contains, ping_watcher_group_subscriber.
  rewrite Hsub. cbn. by destruct (is_open c).
Qed.

Lemma monitor_run ticks n :
  (n < max_failures)%nat →
  watcher_group_update_subscribers (monitor send_error acc dev ticks n nm) !! pair_key acc dev = None ↔
  three_failures (replicate n false ++ ((λ t, t.1 c) <$> ticks))%list.
Proof using Hsub.
  revert n. induction ticks as [|[o now] ticks IH]; intros n Hn; cbn [monitor].
  { rewrite Hsub, app_nil_r. split; [done|]. by intros ?%three_failures_short. }
  rewrite monitor_tick_open. cbn [fmap list_fmap fst]. destruct (o c) eqn:Ho.
  { rewrite IH by (unfold max_failures; lia). rewrite three_failures_reset by done. done. }
  destruct (Nat.leb_spec max_failures (Datatypes.S n)) as [Hm|Hm].
  - cbn. rewrite lookup_delete_eq. split; [|done]. intros _. exists [], ((λ t, t.1 c) <$> ticks).
    unfold max_failures in *. assert (n = 2%nat) as -> by lia. done.
  - rewrite IH by done. f_equiv. by rewrite replicate_S_end, <- app_assoc.
Qed.

(** The monitor removes a subscriber exactly when three pings in a row failed;
    a successful ping starts the count again. *)
Theorem monitor_three_strikes ticks :
  watcher_group_update_subscribers (monitor send_error acc dev ticks 0 nm) !! pair_key acc dev = None ↔
  three_failures ((λ t, t.1 c) <$> ticks).
Proof using Hsub. apply monitor_run. unfold max_failures. lia. Qed.

End monitor_props.

(** *** Examples *)

Section examples.
#[local] Existing Instance canonical_iter.
#[local] Existing Instance chrono_range.
#[local] Existing Instance key_crypto.

Definition stream_env : ReqEnv :=
  mkReqEnv (λ _, mkDateTime 500 0) "uuid" 7 (λ _, "id") sample_nonces (λ _, (nonce0, nonce0)).

Definition stream_req (token : string) : SubscribeRequest := mkSubscribeRequest "alias" "dev2" token 0.

(** [n] files of the device dev1 in a group of the account acc; dev2 synced at
    time 50. *)
Definition stream_storage (n : nat) : StorageData :=
  foldr (λ i d, (store_file_info (sample_file (Z.of_nat i) "acc" "a.txt") d).2)
    (register_device (set_last_sync (mkDateTime 50 0) (sample_device "acc" "dev2"))
      (register_watcher_group "acc" "dev1"
        (mkWatcherGroup 0 1 "acc" "" (mkDateTime 0 0) (mkDateTime 0 0) true []) sample_tokens).2).2
    (seq 1 n).

Definition stream_server (n : nat) : Server StorageData :=
  mkServer (stream_storage n) sample_manager ∅ [].

Lemma stream_storage_wf n : (n < 2000)%nat → wf (stream_storage n).
Proof.
  intros Hn. unfold stream_storage.
  assert (Hl : ∀ i, i ∈ seq 1 n → u64 (Z.of_nat i)).
  { intros i [? ?]%elem_of_seq. unfold u64, u64_max. lia. }
  induction (seq 1 n) as [|i l IH]; cbn [foldr].
  - apply (step_wf _ _ (step_register_device _ _)), (step_wf _ _ (step_register_watcher_group _ _ _ _)).
    apply (step_wf _ _ (step_create_auth_token _ _)), wf_new.
  - apply store_file_info_wf; [apply Hl; set_solver|]. apply IH. set_solver.
Qed.

Lemma store_file_info_tokens f d : auth_tokens (store_file_info f d).2 = auth_tokens d.
Proof. unfold store_file_info. by destruct (fi_file_id f =? 0). Qed.

Lemma stream_live n :
  live_token "secret" (env_now stream_env 0) (stream_storage n) "acc".
Proof.
  split; [discriminate|]. exists (sample_token "acc" "secret"). split; [|by split].
  unfold stream_storage. induction (seq 1 n) as [|i l IH]; [by vm_compute|]. cbn [foldr].
  cbn [s_get_auth_token memory_storage]. unfold get_auth_token. rewrite store_file_info_tokens. exact IH.
Qed.

Lemma initial_transfer_exact_witness :
  ∃ sv' fs, subscribe_to_file_updates (λ _, true) false false true no_server false (stream_req "secret") 9
    stream_env (stream_server 3) = (Answered (Ok 9), sv')
  ∧ (∀ f, f ∈ fs ↔ pending "acc" "dev2" 0 (sv_storage (stream_server 3)) f)
  ∧ ∃ msgs, length fs = length msgs ∧ sv_sent sv' = ([] ++ (pair "acc:dev2" <$> msgs))%list.
Proof.
  destruct (initial_transfer_exact (λ _, true) false true no_server false (stream_req "secret") 9 stream_env
    (stream_server 3) "acc") as (sv' & fs & msgs & H & _ & Hfs & Hm & Hs).
  - reflexivity.
  - apply stream_live.
  - apply stream_storage_wf. lia.
  - reflexivity.
  - intros f _. by eexists.
  - vm_compute. lia.
  - exists sv', fs. split; [exact H|]. split; [exact Hfs|]. exists msgs. split; [|exact Hs].
    exact (length_mapM _ _ _ Hm).
Defined.

Lemma initial_transfer_blocks_witness :
  ∃ sv', subscribe_to_file_updates (λ _, true) false false true no_server false (stream_req "secret") 9
    stream_env (stream_server 1025) = (Blocked, sv').
Proof.
  destruct (initial_transfer_blocks (λ _, true) false true no_server false (stream_req "secret") 9 stream_env
    (stream_server 1025) "acc") as (sv' & H & _).
  - reflexivity.
  - apply stream_live.
  - apply stream_storage_wf. lia.
  - reflexivity.
  - intros f _. by eexists.
  - apply Nat.leb_le. vm_compute. reflexivity.
  - exists sv'. exact H.
Defined.

(** The transfer of the next witness. *)
Definition first_transfer : run unit * Server StorageData :=
  send_initial_file_sync (λ _, true) false "acc" "dev2" None (mkDateTime 600 0) (mkDateTime 600 0)
    (λ _, (nonce0, nonce0)) (stream_server 1).

Lemma transfer_watermark_skips_witness :
  stored_last_sync "acc" "dev2" (sv_storage first_transfer.2) = 600.
Proof.
  apply (transfer_watermark_skips (λ _, true) false "acc" "dev2" None (mkDateTime 600 0) (mkDateTime 600 0)
    (λ _, (nonce0, nonce0)) (stream_server 1) 2 (set_last_sync (mkDateTime 50 0) (sample_device "acc" "dev2"))
    (sample_file 1 "acc" "a.txt")); try (vm_compute; reflexivity).
  - split_and!; [vm_compute; reflexivity|reflexivity|vm_compute; discriminate| |vm_compute; discriminate].
    eexists. split; vm_compute; reflexivity.
  - apply stream_storage_wf. lia.
Defined.

Lemma stream_requires_token_witness :
  subscribe_to_file_updates (λ _, true) false false true no_server false (stream_req "wrong") 9
    stream_env (stream_server 1)
  = (Answered (Err (mkStatus Code_Unauthenticated "Invalid authentication token")), stream_server 1).
Proof.
  apply (stream_requires_token (λ _, true) false true no_server false false false (stream_req "wrong") 9
    stream_env (stream_server 1)); [reflexivity|].
  intros a (_ & t & Ht & _). vm_compute in Ht. discriminate Ht.
Defined.

Lemma file_stream_registered_witness :
  file_update_subscribers (sv_nm (subscribe_to_file_updates (λ _, true) false false true no_server false
    (stream_req "secret") 9 stream_env (stream_server 1)).2)
  = <["acc:dev2" := 9]> (file_update_subscribers sample_manager).
Proof.
  destruct (subscribe_to_file_updates (λ _, true) false false true no_server false
    (stream_req "secret") 9 stream_env (stream_server 1)) as [r sv'] eqn:E.
  apply (file_stream_registered (λ _, true) false true no_server false (stream_req "secret") 9 stream_env
    (stream_server 1) "acc" r sv'); [reflexivity|apply stream_live|exact E].
Defined.

Lemma watcher_stream_requires_device_witness :
  (subscribe_to_watcher_group_updates false false true no_server false false
    (stream_req "secret") 9 stream_env (stream_server 1)).1 = Answered (Ok 9).
Proof.
  pose proof (watcher_stream_requires_device false true no_server false false (stream_req "secret") 9
    stream_env (stream_server 1) "acc" true eq_refl eq_refl eq_refl (stream_live 1)) as H.
  destruct (subscribe_to_watcher_group_updates false false true no_server false false
    (stream_req "secret") 9 stream_env (stream_server 1)) as [r sv'].
  apply H. vm_compute. reflexivity.
Defined.

Definition streams_twice : (run Sender * Server StorageData) * (run Sender * Server StorageData) :=
  let subscribe tx := subscribe_to_file_updates (λ _, true) false false true no_server false
    (stream_req "secret") tx stream_env in
  let r1 := subscribe 8 (stream_server 1) in (r1, subscribe 9 r1.2).

Lemma stale_timeout_unsubscribes_witness :
  file_update_subscribers (sv_nm (subscription_timeout "acc" "dev2" (mkDateTime 900 0) streams_twice.2.2))
    !! "acc:dev2" = None.
Proof.
  destruct streams_twice as [[r1 sv1] [r2 sv2]] eqn:E. unfold streams_twice in E. cbv zeta in E.
  destruct (subscribe_to_file_updates (λ _, true) false false true no_server false
    (stream_req "secret") 8 stream_env (stream_server 1)) as [r1' sv1'] eqn:E1.
  destruct (subscribe_to_file_updates (λ _, true) false false true no_server false
    (stream_req "secret") 9 stream_env sv1') as [r2' sv2'] eqn:E2.
  cbn in E. rewrite E2 in E. injection E as <- <- <- <-.
  apply (stale_timeout_unsubscribes (λ _, true) false true no_server false (stream_req "secret")
    (stream_req "secret") 8 9 stream_env stream_env (mkDateTime 900 0) (stream_server 1) "acc" r1' sv1'
    r2' sv2'); [reflexivity|reflexivity| |exact E1|exact E2].
  vm_compute in E1. injection E1 as _ <-. split; [discriminate|].
  exists (sample_token "acc" "secret"). split_and!; vm_compute; reflexivity.
Defined.

Lemma monitor_three_strikes_witness :
  watcher_group_update_subscribers (monitor "closed" "acc" "dev2"
    (replicate 3 ((λ _, false), mkDateTime 500 0)) 0 sample_manager) !! "acc:dev2" = None.
Proof.
  apply (monitor_three_strikes "closed" "acc" "dev2" sample_manager 4); [vm_compute; reflexivity|].
  exists [], []. reflexivity.
Defined.

End examples.
