(* ===== verification/DeviceHandlers.v ===== *)
(** * Device, key and version requests (src/handlers/device_handler.rs,
    src/handlers/sync_handler.rs)

    The handlers run on the application state of the file requests.  Devices are
    registered, changed, listed and deleted through the device service; keys,
    histories and restores go through the services of their own, for the account
    of the token only. *)

From S2P Require Import Prelude RustString Errors Models Paths Memory MemoryProps StorageApi Effects Crypto Notify NotifyProps AccountServices FileService FileServiceProps VersionService Auth FileHandlers FileHandlersProps.

Record RegisterDeviceRequest := mkRegisterDeviceRequest {
  rdr_account_hash : string;
  rdr_device_hash : string;
  rdr_is_active : bool;
  rdr_os_version : string;
  rdr_app_version : string;
  rdr_auth_token : string
}.

Record RegisterDeviceResponse := mkRegisterDeviceResponse {
  rdp_success : bool;
  rdp_device_hash : string;
  rdp_return_message : string
}.

Record UpdateDeviceInfoRequest := mkUpdateDeviceInfoRequest {
  udr_account_hash : string;
  udr_device_hash : string;
  udr_is_active : bool;
  udr_os_version : string;
  udr_app_version : string
}.

Record UpdateDeviceInfoResponse := mkUpdateDeviceInfoResponse {
  udp_success : bool;
  udp_return_message : string
}.

Record ListDevicesRequest := mkListDevicesRequest {
  ldr_account_hash : string;
  ldr_auth_token : string
}.

Record ListDevicesResponse := mkListDevicesResponse {
  ldp_success : bool;
  ldp_devices : list sync_DeviceInfo;
  ldp_return_message : string
}.

Record DeleteDeviceRequest := mkDeleteDeviceRequest {
  ddr_account_hash : string;
  ddr_device_hash : string;
  ddr_auth_token : string
}.

Record DeleteDeviceResponse := mkDeleteDeviceResponse {
  ddp_success : bool;
  ddp_return_message : string
}.

Record RequestEncryptionKeyRequest := mkRequestEncryptionKeyRequest {
  rkr_account_hash : string;
  rkr_device_hash : string;
  rkr_auth_token : string
}.

Record RequestEncryptionKeyResponse := mkRequestEncryptionKeyResponse {
  rkp_success : bool;
  rkp_encryption_key : string;
  rkp_return_message : string
}.

Section handlers.
Context `{HI : HashIter} `{CA : CryptoApi} `{CH : Chrono} {S : Type} `{ST : Storage S}
  {F : Type} `{FST : FileStorage F}.
Context (is_open : Sender → bool) (send_error : string).
Context (debug_assertions debug_enabled error_enabled : bool).
Context (external_user_info : string → result OAuthUserInfo AuthError).
(** [DeviceService::device_registrations], which nothing writes. *)
Context (regs : gmap string Device).

Abbreviation HM A := (ME (AppState S F) Status A).

(** A storage operation inside a handler. *)
Definition storage_op {A} (f : S → Res A * S) : ME (AppState S F) StorageError A :=
  on_storage (λ s, let '(r, s') := f s in (Returned r, s')).

Definition storage_read {A} (f : S → Res A) : ME (AppState S F) StorageError A :=
  storage_op (λ s, (f s, s)).

Definition validated (token : string) (now : DateTime) : ME (AppState S F) AuthError string :=
  on_storage (validate_token debug_assertions debug_enabled error_enabled token now).

(** ** Devices *)

Definition device_event (kind nanoid account_hash : string) (device : Device) (now : DateTime)
    : list (string * json) :=
  [("type", JStr kind); ("id", JStr nanoid); ("account_hash", JStr account_hash);
   ("device_hash", JStr (d_device_hash device)); ("os_version", JStr (d_os_version device));
   ("app_version", JStr (d_app_version device)); ("is_active", JBool (d_is_active device));
   ("timestamp", JInt (dt_timestamp now))].

Definition register_failure (message : string) : RegisterDeviceResponse :=
  mkRegisterDeviceResponse false "" message.

Definition handle_register_device (req : RegisterDeviceRequest) (env : ReqEnv)
    : HM RegisterDeviceResponse :=
  if str_is_empty (rdr_account_hash req) then ret (register_failure "Account hash cannot be empty")
  else if str_is_empty (rdr_device_hash req) then ret (register_failure "Device hash cannot be empty")
  else if 128 <? str_len (rdr_device_hash req)
  then ret (register_failure "Device hash too long (max 128 characters)")
  else if str_is_empty (rdr_auth_token req) then ret (register_failure "Authentication token required")
  else
    mtry (validated (rdr_auth_token req) (env_now env 0)) (λ r,
      match r with
      | Err e => ret (register_failure ("authentication failed: " +:+ AuthError_fmt e))
      | Ok server_account_hash =>
          let device := Device_new server_account_hash (rdr_device_hash req) (rdr_is_active req)
                          (rdr_os_version req) (rdr_app_version req) (env_now env 1) in
          mtry (storage_op (device_register device)) (λ r,
            match r with
            | Ok _ =>
                _ ←? publish ("device.registered." +:+ server_account_hash)
                       (device_event "device_registered" (env_nanoid env 0) server_account_hash device
                          (env_now env 2));
                ret (mkRegisterDeviceResponse true (d_device_hash device)
                       "device registration/update successful")
            | Err e => ret (register_failure ("device registration/update failed: " +:+ StorageError_fmt e))
            end)
      end).

(** The new row of a device that exists. *)
Definition updated_device (req : UpdateDeviceInfoRequest) (now : DateTime) (device : Device) : Device :=
  mkDevice (d_user_id device) (d_account_hash device) (d_device_hash device) now
    (d_registered_at device) (d_last_sync device) (udr_is_active req) (udr_os_version req)
    (udr_app_version req).

(** The request has no token. *)
Definition handle_update_device_info (req : UpdateDeviceInfoRequest) (env : ReqEnv)
    : HM UpdateDeviceInfoResponse :=
  mtry (storage_read (device_get regs (udr_device_hash req) (udr_account_hash req))) (λ r,
    match r with
    | Ok (Some device) =>
        let device := updated_device req (env_now env 0) device in
        mtry (storage_op (device_update device)) (λ r,
          match r with
          | Ok _ =>
              _ ←? publish ("device.updated." +:+ udr_account_hash req)
                     (device_event "device_updated" (env_nanoid env 0) (udr_account_hash req) device
                        (env_now env 1));
              ret (mkUpdateDeviceInfoResponse true "device info updated successfully")
          | Err e => ret (mkUpdateDeviceInfoResponse false
                            ("device info update failed: " +:+ StorageError_fmt e))
          end)
    | Ok None =>
        let new_device := Device_new (udr_account_hash req) (udr_device_hash req) (udr_is_active req)
                            (udr_os_version req) (udr_app_version req) (env_now env 0) in
        mtry (storage_op (device_register new_device)) (λ r,
          match r with
          | Ok _ =>
              _ ←? publish ("device.registered." +:+ udr_account_hash req)
                     (device_event "device_registered" (env_nanoid env 0) (udr_account_hash req)
                        new_device (env_now env 1));
              ret (mkUpdateDeviceInfoResponse true "new device registered successfully")
          | Err e => ret (mkUpdateDeviceInfoResponse false
                            ("device registration failed: " +:+ StorageError_fmt e))
          end)
    | Err e => ret (mkUpdateDeviceInfoResponse false ("device info lookup failed: " +:+ StorageError_fmt e))
    end).

Definition handle_list_devices (req : ListDevicesRequest) (env : ReqEnv) : HM ListDevicesResponse :=
  mtry (validated (ldr_auth_token req) (env_now env 0)) (λ r,
    match r with
    | Err _ => throw (mkStatus Code_Unauthenticated "Authentication failed")
    | Ok account_hash =>
        mtry (storage_read (device_list account_hash)) (λ r,
          match r with
          | Ok device_list => ret (mkListDevicesResponse true (to_proto_device_info <$> device_list) "")
          | Err e => ret (mkListDevicesResponse false [] ("Failed to get devices: " +:+ StorageError_fmt e))
          end)
    end).

Definition handle_delete_device (req : DeleteDeviceRequest) (env : ReqEnv) : HM DeleteDeviceResponse :=
  mtry (validated (ddr_auth_token req) (env_now env 0)) (λ r,
    match r with
    | Ok account_hash =>
        mtry (storage_op (device_delete account_hash (ddr_device_hash req))) (λ r,
          match r with
          | Ok _ => ret (mkDeleteDeviceResponse true "")
          | Err e => ret (mkDeleteDeviceResponse false ("Device deletion failed: " +:+ StorageError_fmt e))
          end)
    | Err e => ret (mkDeleteDeviceResponse false ("Authentication failed: " +:+ AuthError_fmt e))
    end).

(** ** Keys and versions *)

(** The checks the requests of src/handlers/sync_handler.rs start with. *)
Definition account_checked {A} (token account_hash : string) (env : ReqEnv) (failed mismatch : A)
    (k : VerificationResult → HM A) : HM A :=
  if str_is_empty token
  then throw (mkStatus Code_Unauthenticated "Authentication token is required")
  else
    mtry (on_storage (verify_token debug_assertions debug_enabled error_enabled external_user_info
                        token (env_uuid env) (env_now env 0) (env_now env 1)))
      (λ r, match r with
            | Ok v => if negb (vr_valid v) || (vr_account_hash v != account_hash) then ret mismatch else k v
            | Err _ => ret failed
            end).

Definition key_failure (message : string) : RequestEncryptionKeyResponse :=
  mkRequestEncryptionKeyResponse false "" message.

Definition handle_request_encryption_key (req : RequestEncryptionKeyRequest) (env : ReqEnv)
    (draw : nat → ascii) : HM RequestEncryptionKeyResponse :=
  account_checked (rkr_auth_token req) (rkr_account_hash req) env (key_failure "Authentication failed")
    (key_failure "Account authentication failed") (λ v,
    mtry (storage_op (get_or_create_key (vr_account_hash v) draw)) (λ r,
      match r with
      | Ok key => ret (mkRequestEncryptionKeyResponse true key "")
      | Err e => ret (key_failure ("Encryption key processing error: " +:+ StorageError_fmt e))
      end)).

Definition history_failure (message : string) : GetFileHistoryResponse :=
  mkGetFileHistoryResponse false message [] 0 false.

Definition handle_get_file_history (req : GetFileHistoryRequest) (env : ReqEnv)
    : HM GetFileHistoryResponse :=
  account_checked (ghr_auth_token req) (ghr_account_hash req) env (history_failure "Authentication failed")
    (history_failure "Account authentication failed") (λ _,
    mtry (on_file (version_get_file_history req (env_now env 2))) (λ r,
      match r with
      | Ok response => ret response
      | Err e => ret (history_failure ("Failed to get file history: " +:+ SyncError_fmt e))
      end)).

Definition restore_failure (message : string) : RestoreFileVersionResponse :=
  mkRestoreFileVersionResponse false message 0 None 0.

Definition handle_restore_file_version (req : RestoreFileVersionRequest) (env : ReqEnv)
    : HM RestoreFileVersionResponse :=
  account_checked (rvr_auth_token req) (rvr_account_hash req) env (restore_failure "Authentication failed")
    (restore_failure "Account authentication failed") (λ _,
    mtry (on_file (version_restore_file_version is_open send_error req (env_now env 2) (env_now env 3)
                     (env_now env 4) (env_device_nonces env))) (λ r,
      match r with
      | Ok response => ret response
      | Err e => ret (restore_failure ("Failed to restore file version: " +:+ SyncError_fmt e))
      end)).

Definition broadcast_failure (message : string) : BroadcastFileRestoreResponse :=
  mkBroadcastFileRestoreResponse false message [] 0.

Definition handle_broadcast_file_restore (req : BroadcastFileRestoreRequest) (env : ReqEnv)
    : HM BroadcastFileRestoreResponse :=
  account_checked (brr_auth_token req) (brr_account_hash req) env (broadcast_failure "Authentication failed")
    (broadcast_failure "Account authentication failed") (λ v,
    mtry (on_file (broadcast_file_restore req)) (λ r,
      match r with
      | Ok response =>
          _ ←? publish ("version.restored." +:+ vr_account_hash v +:+ "." +:+ pretty (brr_file_id req))
                 [("type", JStr "version_restored"); ("id", JStr (env_nanoid env 0));
                  ("account_hash", JStr (vr_account_hash v)); ("file_id", JInt (brr_file_id req));
                  ("target_revision", JInt (brr_new_revision req));
                  ("source_device_hash", JStr (brr_source_device_hash req));
                  ("timestamp", JInt (dt_timestamp (env_now env 2)))];
          ret response
      | Err e => ret (broadcast_failure ("Failed to broadcast file restore: " +:+ SyncError_fmt e))
      end)).

End handlers.

(** ** Properties *)

Section props.
Context `{HI : HashIter} `{CA : CryptoApi} `{CH : Chrono} {S : Type} `{ST : Storage S}
  {F : Type} `{FST : FileStorage F}.
Context (is_open : Sender → bool) (send_error : string).
Context (de ee : bool) (ext : string → result OAuthUserInfo AuthError).
Context (regs : gmap string Device).
Implicit Types (st : AppState S F) (env : ReqEnv).

Lemma validated_dead token now st :
  prefix_ok token = true → (∀ a, ¬ live_token token now (fs_storage (as_file st)) a) →
  ∃ e, validated false de ee token now st = (Returned (Err e), st).
Proof.
  intros Hp Hno. unfold validated, on_storage, on_file, on_part.
  pose proof (verify_token_cases false de ee ext token "" now now (fs_storage (as_file st)) eq_refl Hp)
    as [[a Ha]|[Hv _]]; [by destruct (Hno a)|].
  unfold verify_token, mtry in Hv.
  destruct (validate_token false de ee token now (fs_storage (as_file st))) as [[[a|e]|] s'] eqn:E;
    simplify_eq.
  exists e. cbn. rewrite with_storage_same. by destruct st.
Qed.

Lemma validated_live token now st a :
  prefix_ok token = true → live_token token now (fs_storage (as_file st)) a →
  validated false de ee token now st = (Returned (Ok a), st).
Proof.
  intros Hp (Hne & t & Ht & Hx & Hv & <-). unfold validated, on_storage, on_file, on_part, validate_token.
  rewrite Hp, Ht. destruct (str_is_empty token) eqn:E; [by apply str_is_empty_true in E|].
  rewrite andb_false_r. cbn [andb]. unfold dt_ltb. rewrite Hx, Hv. cbn.
  rewrite with_storage_same. by destruct st.
Qed.

(** Without a valid token no device is registered, listed or deleted and the
    state is unchanged. *)
Theorem device_requests_need_token token env st rreq lreq xreq :
  prefix_ok token = true →
  (∀ a, ¬ live_token token (env_now env 0) (fs_storage (as_file st)) a) →
  rdr_auth_token rreq = token → ldr_auth_token lreq = token → ddr_auth_token xreq = token →
  (∃ resp, handle_register_device false de ee rreq env st = (Returned (Ok resp), st) ∧ rdp_success resp = false)
  ∧ handle_list_devices false de ee lreq env st
      = (Returned (Err (mkStatus Code_Unauthenticated "Authentication failed")), st)
  ∧ (∃ resp, handle_delete_device false de ee xreq env st = (Returned (Ok resp), st)
             ∧ ddp_success resp = false).
Proof.
  intros Hp Hno Hr Hl Hx. destruct (validated_dead token (env_now env 0) st Hp Hno) as [e He].
  split_and!.
  - unfold handle_register_device. rewrite Hr.
    repeat (case_match; [by eexists|]). unfold mtry. rewrite He. by eexists.
  - unfold handle_list_devices, mtry. by rewrite Hl, He.
  - unfold handle_delete_device, mtry. rewrite Hx, He. by eexists.
Qed.

Lemma account_checked_live {A} token acc env (failed mismatch : A) k st :
  prefix_ok token = true → live_token token (env_now env 0) (fs_storage (as_file st)) acc →
  account_checked false de ee ext token acc env failed mismatch k st =
    k (mkVerificationResult true acc None) (after_auth ext token acc env st).
Proof.
  intros Hp Hl. unfold account_checked. destruct (str_is_empty token) eqn:Ee.
  { apply str_is_empty_true in Ee as ->. by destruct Hl. }
  unfold mtry, on_storage, on_file, on_part.
  rewrite (verify_token_live false de ee ext _ _ _ _ _ acc) by done. cbn.
  by rewrite bool_decide_eq_true_2.
Qed.

(** The account of a valid token had no record and was given one, with what the login
    server tells of the token; it is not the account [acc]. *)
Definition own_account_created token acc env st st' : Prop := ∃ b info,
  b ≠ acc ∧ live_token token (env_now env 0) (fs_storage (as_file st)) b
  ∧ s_get_account_by_hash b (fs_storage (as_file st)) = Ok None ∧ ext token = Ok info
  ∧ st' = mkAppState (with_storage (s_create_account (auto_account b (env_uuid env) info (env_now env 1))
                                      (fs_storage (as_file st))).2 (as_file st)) (as_events st).

Lemma ensured_or_same token b acc env st :
  live_token token (env_now env 0) (fs_storage (as_file st)) b → b ≠ acc →
  after_auth ext token b env st = st ∨ own_account_created token acc env st (after_auth ext token b env st).
Proof.
  intros Hl Hne. unfold after_auth, ensure_account.
  destruct (s_get_account_by_hash b _) as [[|]|] eqn:E; [| |].
  1, 3: left; rewrite with_storage_same; by destruct st.
  destruct (ext token) as [info|] eqn:Ee; [right; by exists b, info|].
  left. rewrite with_storage_same. by destruct st.
Qed.

(** Without a live token of the account a request ends at once. *)
Lemma account_checked_dead {A} token acc env (failed mismatch : A) k st :
  prefix_ok token = true →
  ¬ live_token token (env_now env 0) (fs_storage (as_file st)) acc →
  ∃ r st', account_checked false de ee ext token acc env failed mismatch k st = (Returned r, st')
  ∧ (r = Ok mismatch ∨ ∃ e, r = Err e)
  ∧ (st' = st ∨ own_account_created token acc env st st').
Proof.
  intros Hp Hno. unfold account_checked. destruct (str_is_empty token); [eauto 10|].
  unfold mtry, on_storage, on_file, on_part.
  destruct (verify_token_cases false de ee ext token (env_uuid env) (env_now env 0) (env_now env 1)
    (fs_storage (as_file st)) eq_refl Hp) as [[b Hb]|[-> _]].
  - rewrite (verify_token_live false de ee ext _ _ _ _ _ b) by done. cbn.
    rewrite bool_decide_eq_false_2 by (by intros ->). cbn. do 2 eexists. split; [done|].
    split; [by left|]. by apply (ensured_or_same _ b); [|intros ->].
  - cbn. do 2 eexists. split; [done|]. rewrite with_storage_same. destruct st. eauto.
Qed.

(** C32: keys, histories and restores are given only to the account of the token:
    with any other token no key is revealed, nothing is restored or announced, and
    the state stays as it is, except that the account of the token, which is another
    than the requested one, gets a record when it had none. *)
Theorem account_requests_need_own_token token acc env st kreq hreq rreq breq draw :
  prefix_ok token = true →
  ¬ live_token token (env_now env 0) (fs_storage (as_file st)) acc →
  rkr_auth_token kreq = token → rkr_account_hash kreq = acc →
  ghr_auth_token hreq = token → ghr_account_hash hreq = acc →
  rvr_auth_token rreq = token → rvr_account_hash rreq = acc →
  brr_auth_token breq = token → brr_account_hash breq = acc →
  let ends {A} (m : ME (AppState S F) Status A) (refused : A) :=
    ∃ r st', m st = (Returned r, st') ∧ (r = Ok refused ∨ ∃ e, r = Err e)
    ∧ (st' = st ∨ own_account_created token acc env st st') in
  ends (handle_request_encryption_key false de ee ext kreq env draw)
    (key_failure "Account authentication failed")
  ∧ ends (handle_get_file_history false de ee ext hreq env)
      (history_failure "Account authentication failed")
  ∧ ends (handle_restore_file_version is_open send_error false de ee ext rreq env)
      (restore_failure "Account authentication failed")
  ∧ ends (handle_broadcast_file_restore false de ee ext breq env)
      (broadcast_failure "Account authentication failed").
Proof.
  intros Hp Hno <- <- Hh1 Hh2 Hr1 Hr2 Hb1 Hb2 ends.
  unfold handle_request_encryption_key, handle_get_file_history, handle_restore_file_version,
    handle_broadcast_file_restore. rewrite Hh1, Hh2, Hr1, Hr2, Hb1, Hb2.
  split_and!; by apply account_checked_dead.
Qed.

(** A key request of the account returns the stored key, or creates one that
    every later request returns. *)
Theorem key_request_stable `{!StorageLaws S} req env st draw key st' :
  prefix_ok (rkr_auth_token req) = true →
  live_token (rkr_auth_token req) (env_now env 0) (fs_storage (as_file st)) (rkr_account_hash req) →
  handle_request_encryption_key false de ee ext req env draw st
    = (Returned (Ok (mkRequestEncryptionKeyResponse true key "")), st') →
  s_get_encryption_key (rkr_account_hash req) (fs_storage (as_file st')) = Ok (Some key)
  ∧ (∀ k, s_get_encryption_key (rkr_account_hash req) (fs_storage (as_file st)) = Ok (Some k) → k = key).
Proof.
  intros Hp Hl. unfold handle_request_encryption_key. rewrite account_checked_live by done.
  unfold mtry, storage_op, on_storage, on_file, on_part. cbn.
  set (s1 := ensure_account _ _ _ _ _ _).
  assert (Hs1 : s_get_encryption_key (rkr_account_hash req) s1
    = s_get_encryption_key (rkr_account_hash req) (fs_storage (as_file st))).
  { unfold s1, ensure_account. repeat case_match; try done. by apply law_create_account. }
  unfold get_or_create_key. rewrite <- Hs1.
  destruct (s_get_encryption_key (rkr_account_hash req) s1) as [[k0|]|e] eqn:E; cbn.
  - intros [= <- <-]. cbn. split; [by rewrite E|]. by intros k [= ->].
  - destruct (s_store_encryption_key _ _ s1) as [[[]|e] s2] eqn:Es; cbn; intros [= <- <-]. cbn.
    split; [|done]. by destruct (law_store_encryption_key _ _ _ _ Es).
  - done.
Qed.

End props.

Section memory_props.
Context `{HI : HashIter} `{CH : Chrono} {F : Type} `{FST : FileStorage F}.
Context (de ee : bool) (regs : gmap string Device).
Implicit Types (st : AppState StorageData F) (env : ReqEnv).

(** A device is registered for the account of the token, whatever account the
    request names, and replaces an earlier registration; every other device is
    kept. *)
Theorem register_device_for_token_account req env st acc :
  str_is_empty (rdr_account_hash req) = false → str_is_empty (rdr_device_hash req) = false →
  str_len (rdr_device_hash req) ≤ 128 → prefix_ok (rdr_auth_token req) = true →
  live_token (rdr_auth_token req) (env_now env 0) (fs_storage (as_file st)) acc →
  ∃ resp st', handle_register_device false de ee req env st = (Returned (Ok resp), st')
  ∧ rdp_success resp = true
  ∧ devices (fs_storage (as_file st')) =
      <[pair_key acc (rdr_device_hash req) :=
          Device_new acc (rdr_device_hash req) (rdr_is_active req) (rdr_os_version req)
            (rdr_app_version req) (env_now env 1)]> (devices (fs_storage (as_file st)))
  ∧ (∃ payload, as_events st' = (as_events st ++ [("device.registered." +:+ acc, payload)])%list).
Proof.
  intros Ha Hd Hlen Hp Hl. unfold handle_register_device. rewrite Ha, Hd, (proj2 (Z.ltb_ge _ _) Hlen).
  destruct (str_is_empty (rdr_auth_token req)) eqn:Et.
  { apply str_is_empty_true in Et. by destruct Hl. }
  unfold mtry at 1. rewrite (validated_live de ee _ _ _ acc) by done.
  do 2 eexists. split; [reflexivity|]. split; [done|]. split; [done|]. by eexists.
Qed.

(** Device information needs no token: a request that names any account and
    device makes the device a valid one of that account. *)
Theorem update_device_info_unauthenticated req env st :
  (∀ k v, devices (fs_storage (as_file st)) !! k = Some v →
     pair_key (d_account_hash v) (d_device_hash v) = k) →
  (∀ k v, regs !! k = Some v → d_device_hash v = k) →
  ∃ resp st', handle_update_device_info regs req env st = (Returned (Ok resp), st')
  ∧ udp_success resp = true
  ∧ validate_device (udr_account_hash req) (udr_device_hash req) (fs_storage (as_file st')) = Ok true
  ∧ watcher_groups (fs_storage (as_file st')) = watcher_groups (fs_storage (as_file st))
  ∧ fs_notification_manager (as_file st') = fs_notification_manager (as_file st).
Proof.
  intros Hkeys Hregs. unfold handle_update_device_info, storage_read, storage_op, mtry at 1.
  unfold on_storage at 1, on_file at 1, on_part at 1 2, device_get. cbn [s_get_device memory_storage].
  unfold get_device. cbn [res_bind].
  destruct (devices (fs_storage (as_file st)) !! pair_key (udr_account_hash req) (udr_device_hash req))
    as [device|] eqn:E.
  - do 2 eexists. split; [reflexivity|]. unfold validate_device, hm_contains. cbn -[pair_key].
    by rewrite (Hkeys _ _ E), lookup_insert_eq, bool_decide_eq_true_2.
  - destruct (regs !! udr_device_hash req) as [device|] eqn:Er;
      [case_bool_decide as Hacc|];
      (do 2 eexists; split; [reflexivity|]; unfold validate_device, hm_contains; cbn -[pair_key]).
    + by rewrite Hacc, (Hregs _ _ Er), lookup_insert_eq, bool_decide_eq_true_2.
    + by rewrite lookup_insert_eq, bool_decide_eq_true_2.
    + by rewrite lookup_insert_eq, bool_decide_eq_true_2.
Qed.

End memory_props.

(** *** Examples *)

Section examples.
#[local] Existing Instance canonical_iter.
#[local] Existing Instance chrono_range.
#[local] Existing Instance key_crypto.

Definition device_req (token : string) : RegisterDeviceRequest :=
  mkRegisterDeviceRequest "someone" "dev9" true "os" "1.0" token.
Definition info_req : UpdateDeviceInfoRequest := mkUpdateDeviceInfoRequest "bob" "dev9" true "os" "1.0".

Lemma device_requests_need_token_witness :
  ∃ resp, handle_register_device false false true (device_req "wrong") env0 app0
    = (Returned (Ok resp), app0) ∧ rdp_success resp = false.
Proof.
  apply (device_requests_need_token false true no_server "wrong" env0 app0 (device_req "wrong")
    (mkListDevicesRequest "acc" "wrong") (mkDeleteDeviceRequest "acc" "dev9" "wrong")); try reflexivity.
  intros a (_ & t & Ht & _). vm_compute in Ht. discriminate Ht.
Defined.

Lemma account_requests_need_own_token_witness :
  ∃ r st', handle_request_encryption_key false false true no_server
    (mkRequestEncryptionKeyRequest "bob" "dev1" "secret") env0 draw_a app0 = (Returned r, st')
  ∧ (r = Ok (key_failure "Account authentication failed") ∨ ∃ e, r = Err e).
Proof.
  destruct (account_requests_need_own_token all_open "closed" false true no_server "secret" "bob" env0 app0
    (mkRequestEncryptionKeyRequest "bob" "dev1" "secret")
    (mkGetFileHistoryRequest "bob" "dev1" "secret" "~/docs" None None None None None 1 None)
    (mkRestoreFileVersionRequest "bob" "dev1" "secret" 7 1 true "")
    (mkBroadcastFileRestoreRequest "bob" "dev1" "secret" 7 1 2 None "") draw_a)
    as ((r & st' & H & Hr & _) & _); try reflexivity.
  - intros (_ & t & Ht & _ & _ & Ha). vm_compute in Ht. injection Ht as <-. discriminate Ha.
  - exists r, st'. split; [exact H|exact Hr].
Defined.

Lemma key_request_stable_witness :
  ∃ key st', handle_request_encryption_key false false true no_server
    (mkRequestEncryptionKeyRequest "acc" "dev1" "secret") env0 draw_a app0
    = (Returned (Ok (mkRequestEncryptionKeyResponse true key "")), st')
  ∧ get_encryption_key "acc" (fs_storage (as_file st')) = Ok (Some key).
Proof.
  destruct (handle_request_encryption_key false false true no_server
    (mkRequestEncryptionKeyRequest "acc" "dev1" "secret") env0 draw_a app0) as [o st'] eqn:E.
  assert (∃ key, o = Returned (Ok (mkRequestEncryptionKeyResponse true key ""))) as [key ->].
  { vm_compute in E. injection E as <- _. by eexists. }
  exists key, st'. split; [reflexivity|].
  destruct (key_request_stable false true no_server (mkRequestEncryptionKeyRequest "acc" "dev1" "secret") env0
    app0 draw_a key st') as [H _]; [reflexivity|exact app0_live|exact E|exact H].
Defined.

Lemma register_device_for_token_account_witness :
  ∃ resp st', handle_register_device false false true (device_req "secret") env0 app0
    = (Returned (Ok resp), st') ∧ rdp_success resp = true.
Proof.
  destruct (register_device_for_token_account false true (device_req "secret") env0 app0 "acc")
    as (resp & st' & H & Hs & _);
    [reflexivity|reflexivity|vm_compute; discriminate|reflexivity|exact app0_live|].
  exists resp, st'. split; [exact H|exact Hs].
Defined.

Lemma update_device_info_unauthenticated_witness :
  ∃ resp st', handle_update_device_info ∅ info_req env0 app0 = (Returned (Ok resp), st')
  ∧ validate_device "bob" "dev9" (fs_storage (as_file st')) = Ok true.
Proof.
  destruct (update_device_info_unauthenticated ∅ info_req env0 app0) as (resp & st' & H & _ & Hv & _).
  - intros k v Hk. apply elem_of_map_to_list in Hk. vm_compute in Hk. by apply elem_of_nil in Hk.
  - intros k v. by rewrite lookup_empty.
  - exists resp, st'. split; [exact H|exact Hv].
Defined.

End examples.
