(* ===== verification/WatcherHandlers.v ===== *)
(** * Watcher requests (src/handlers/watcher_handler.rs, src/utils/auth.rs)

    Groups of watched folders and presets: registration, update, deletion,
    listing and the combined synchronisation of a client's configuration.  The
    state is the storage, the notification manager, the events published on the
    bus and what was delivered to subscribers.  Readings of the clock are numbered
    in the order of a request; those of one step of a loop share a number. *)

From S2P Require Import Prelude RustString Errors Models Paths Memory MemoryProps Connections StorageApi Effects Crypto Notify NotifyProps Auth FileHandlers ServerState.

Record GetWatcherGroupRequest := mkGetWatcherGroupRequest {
  ggr_account_hash : string; ggr_device_hash : string; ggr_group_id : Z; ggr_auth_token : string
}.
Record GetWatcherGroupResponse := mkGetWatcherGroupResponse {
  ggp_success : bool; ggp_watchergroup : option sync_WatcherGroupData; ggp_return_message : string
}.
Record GetWatcherGroupsRequest := mkGetWatcherGroupsRequest {
  gsr_account_hash : string; gsr_device_hash : string; gsr_auth_token : string
}.
Record GetWatcherGroupsResponse := mkGetWatcherGroupsResponse {
  gsp_success : bool; gsp_watchergroup : list sync_WatcherGroupData; gsp_return_message : string
}.
(** [RegisterWatcherPresetRequest] and [UpdateWatcherPresetRequest]. *)
Record WatcherPresetRequest := mkWatcherPresetRequest {
  wpr_account_hash : string; wpr_device_hash : string; wpr_presets : list string; wpr_auth_token : string
}.
Record WatcherPresetResponse := mkWatcherPresetResponse {
  wpp_success : bool; wpp_return_message : string
}.
Record GetWatcherPresetRequest := mkGetWatcherPresetRequest {
  gpr_account_hash : string; gpr_device_hash : string; gpr_auth_token : string
}.
Record GetWatcherPresetResponse := mkGetWatcherPresetResponse {
  gpp_success : bool; gpp_presets : list string; gpp_return_message : string
}.
(** [RegisterWatcherGroupRequest] and [UpdateWatcherGroupRequest]. *)
Record WatcherGroupRequest := mkWatcherGroupRequest {
  wgr_account_hash : string; wgr_device_hash : string; wgr_group_id : Z; wgr_title : string;
  wgr_watcher_data : option sync_WatcherData; wgr_auth_token : string
}.
(** The responses to a registration, an update and a deletion of a group. *)
Record WatcherGroupResponse := mkWatcherGroupResponse {
  wgp_success : bool; wgp_group_id : Z; wgp_return_message : string
}.
Record DeleteWatcherGroupRequest := mkDeleteWatcherGroupRequest {
  xgr_account_hash : string; xgr_device_hash : string; xgr_group_id : Z; xgr_auth_token : string
}.
Record SyncConfigurationRequest := mkSyncConfigurationRequest {
  scr_account_hash : string; scr_device_hash : string; scr_auth_token : string;
  scr_watcher_groups : list sync_WatcherGroupData; scr_presets : list string;
  scr_incremental : bool; scr_force_update : bool; scr_client_timestamp : Z
}.
(** [sync_duration_ms] is in milliseconds. *)
Record SyncStats := mkSyncStats {
  st_groups_updated : Z; st_groups_created : Z; st_groups_deleted : Z; st_presets_updated : Z;
  st_sync_timestamp : Z; st_total_operations : Z; st_sync_duration_ms : Z
}.
Record SyncConfigurationResponse := mkSyncConfigurationResponse {
  scp_success : bool; scp_return_message : string; scp_stats : option SyncStats;
  scp_server_watcher_groups : list sync_WatcherGroupData; scp_server_presets : list string;
  scp_server_timestamp : Z; scp_conflicts_detected : bool; scp_conflict_details : list string
}.

(** The values of the two enums [UpdateType]. *)
Definition WG_Created : Z := 0.
Definition WG_Updated : Z := 1.
Definition WG_Deleted : Z := 2.

Section handlers.
Context `{HI : HashIter} {S : Type} `{ST : Storage S}.
Context (is_open : Sender → bool).
Context (debug_assertions debug_enabled error_enabled : bool).
Context (external_user_info : string → result OAuthUserInfo AuthError).
(** The regex crate, the process environment, and the order in which a
    [FuturesUnordered] completes. *)
Context (regex_new : string → option (string → bool)) (getenv : string → option string).
Context (completion : list (option sync_WatcherGroupData) → list (option sync_WatcherGroupData)).

Record WatcherState := mkWatcherState {
  ws_storage : S;
  ws_nm : NotificationManager;
  ws_events : list Event;
  ws_group_log : list (string * WatcherGroupUpdateNotification);
  ws_preset_log : list (string * WatcherPresetUpdateNotification)
}.
Implicit Types (st : WatcherState).

Abbreviation WM A := (ME WatcherState Status A).

Definition ws_with_storage (s : S) st : WatcherState :=
  mkWatcherState s (ws_nm st) (ws_events st) (ws_group_log st) (ws_preset_log st).

Definition on_ws {E A} (m : ME S E A) : ME WatcherState E A := on_part ws_storage ws_with_storage m.

Definition ws_op {A} (f : S → Res A * S) : ME WatcherState StorageError A :=
  on_ws (λ s, let '(r, s') := f s in (Returned r, s')).

Definition ws_read {A} (f : S → Res A) : ME WatcherState StorageError A := ws_op (λ s, (f s, s)).

(** ** Checks *)

(** [is_dev_or_test_mode]. *)
Definition is_dev_or_test_mode : bool :=
  (default "" (getenv "COSMIC_SYNC_DEV_MODE") == "1")
  || (default "" (getenv "COSMIC_SYNC_TEST_MODE") == "1").

Definition validate_device_if_required (account_hash device_hash : string) : WM unit :=
  if is_dev_or_test_mode then ret tt
  else
    mtry (ws_read (s_validate_device account_hash device_hash)) (λ r,
      match r with
      | Ok valid => if negb valid then throw (mkStatus Code_Unauthenticated "Invalid device or account")
                    else ret tt
      | Err _ => throw (mkStatus Code_Internal "Error validating device")
      end).

(** The account of the token; the field [valid] of the result is not read. *)
Definition verified_account (token : string) (env : ReqEnv) : WM string :=
  mtry (on_ws (verify_token debug_assertions debug_enabled error_enabled external_user_info
                 token (env_uuid env) (env_now env 0) (env_now env 1))) (λ r,
    match r with
    | Ok verified => ret (vr_account_hash verified)
    | Err _ => throw (mkStatus Code_Unauthenticated "Invalid authentication token")
    end).

(** ** Broadcasts: failures are logged and ignored *)

Definition broadcast_group (account_hash device_hash : string) (group_id update_type : Z) (now : DateTime)
    (nanoid : string) : WM unit := λ st,
  match app_broadcast_watcher_group_update is_open (ws_nm st) (ws_storage st) account_hash device_hash
          group_id update_type now nanoid with
  | Ok (log, event) =>
      (Returned (Ok tt), mkWatcherState (ws_storage st) (ws_nm st) (ws_events st ++ [event])%list
                           (ws_group_log st ++ log)%list (ws_preset_log st))
  | Err _ => (Returned (Ok tt), st)
  end.

Definition broadcast_preset (account_hash device_hash : string) (presets : list string)
    (update_type : Z) (now : DateTime) (nanoid : string) : WM unit := λ st,
  match app_broadcast_watcher_preset_update is_open (ws_nm st) account_hash device_hash presets
          update_type now nanoid with
  | Ok (log, event) =>
      (Returned (Ok tt), mkWatcherState (ws_storage st) (ws_nm st) (ws_events st ++ [event])%list
                           (ws_group_log st) (ws_preset_log st ++ log)%list)
  | Err _ => (Returned (Ok tt), st)
  end.

(** ** Reading *)

Definition handle_get_watcher_group (req : GetWatcherGroupRequest) (env : ReqEnv)
    : WM GetWatcherGroupResponse :=
  account_hash ←? verified_account (ggr_auth_token req) env;
  _ ←? validate_device_if_required account_hash (ggr_device_hash req);
  mtry (ws_read (s_get_watcher_group_by_account_and_id account_hash (ggr_group_id req))) (λ r,
    match r with
    | Ok (Some group) => ret (mkGetWatcherGroupResponse true (Some group) "")
    | Ok None => throw (mkStatus Code_NotFound ("Watcher group not found: " +:+ pretty (ggr_group_id req)))
    | Err _ => throw (mkStatus Code_Internal "Error getting watcher group")
    end).

(** The data of the groups, looked up by the client's number of each. *)
Definition groups_data (account_hash : string) (s : S) (groups : list WatcherGroup)
    : list sync_WatcherGroupData :=
  omap (λ group, match s_get_watcher_group_by_account_and_id account_hash (wg_group_id group) s with
                 | Ok (Some data) => Some data
                 | _ => None
                 end) groups.

Definition handle_get_watcher_groups (req : GetWatcherGroupsRequest) (env : ReqEnv)
    : WM GetWatcherGroupsResponse :=
  user_id ←? verified_account (gsr_auth_token req) env;
  _ ←? validate_device_if_required user_id (gsr_device_hash req);
  λ st,
    match s_get_watcher_groups user_id (ws_storage st) with
    | Ok groups => ret (mkGetWatcherGroupsResponse true (groups_data user_id (ws_storage st) groups) "") st
    | Err _ => throw (mkStatus Code_Internal "Error getting watcher groups") st
    end.

Definition handle_get_watcher_preset (req : GetWatcherPresetRequest) (env : ReqEnv)
    : WM GetWatcherPresetResponse :=
  account_hash ←? verified_account (gpr_auth_token req) env;
  _ ←? validate_device_if_required account_hash (gpr_device_hash req);
  mtry (ws_read (s_get_watcher_preset account_hash)) (λ r,
    ret (mkGetWatcherPresetResponse true (match r with Ok presets => presets | Err _ => [] end) "")).

(** ** Presets *)

(** The two preset requests differ in the storage method, its error message and
    the kind of the notification. *)
Definition store_preset (store : string → string → list string → S → Res unit * S) (error : string)
    (update_type : Z) (req : WatcherPresetRequest) (env : ReqEnv) : WM WatcherPresetResponse :=
  account_hash ←? verified_account (wpr_auth_token req) env;
  _ ←? validate_device_if_required account_hash (wpr_device_hash req);
  mtry (ws_op (store account_hash (wpr_device_hash req) (wpr_presets req))) (λ r,
    match r with
    | Err _ => throw (mkStatus Code_Internal error)
    | Ok _ =>
        _ ←? broadcast_preset account_hash (wpr_device_hash req) (wpr_presets req) update_type
               (env_now env 2) (env_nanoid env 0);
        ret (mkWatcherPresetResponse true "")
    end).

Definition handle_register_watcher_preset : WatcherPresetRequest → ReqEnv → WM WatcherPresetResponse :=
  store_preset s_register_watcher_preset_proto "Error registering watcher preset" WG_Created.

Definition handle_update_watcher_preset : WatcherPresetRequest → ReqEnv → WM WatcherPresetResponse :=
  store_preset s_update_watcher_preset_proto "Error updating watcher preset" WG_Updated.

(** ** Groups: the token of these requests is not read *)

Definition new_group (account_hash title : string) (group_id : Z) (created updated : DateTime)
    : WatcherGroup := mkWatcherGroup 0 group_id account_hash title created updated true [].

Definition handle_register_watcher_group (req : WatcherGroupRequest) (env : ReqEnv)
    : WM WatcherGroupResponse :=
  let account_hash := wgr_account_hash req in
  let device_hash := wgr_device_hash req in
  _ ←? validate_device_if_required account_hash device_hash;
  let group := new_group account_hash (wgr_title req) (wgr_group_id req) (env_now env 0) (env_now env 1) in
  let checked := match wgr_watcher_data req with
    | Some watcher_data => validate_watcher_folder regex_new getenv (swd_folder watcher_data)
    | None => Ok tt
    end in
  match checked with
  | Err msg => throw (mkStatus Code_InvalidArgument msg)
  | Ok _ =>
      mtry (ws_op (s_register_watcher_group account_hash device_hash group)) (λ r,
        match r with
        | Err e => throw (mkStatus Code_Internal ("Failed to register watcher group: " +:+ StorageError_fmt e))
        | Ok registered_group_id =>
            _ ←? match wgr_watcher_data req with
                 | Some watcher_data =>
                     mtry (ws_op (s_create_watcher_with_conditions account_hash registered_group_id
                                    watcher_data (dt_timestamp (env_now env 2)) (env_now env 3))) (λ r,
                       match r with
                       | Ok _ => ret tt
                       | Err e => throw (mkStatus Code_Internal
                                           ("Failed to create watcher: " +:+ StorageError_fmt e))
                       end)
                 | None => ret tt
                 end;
            _ ←? broadcast_group account_hash device_hash registered_group_id WG_Created (env_now env 4)
                   (env_nanoid env 0);
            ret (mkWatcherGroupResponse true (wgr_group_id req) "")
        end)
  end.

(** The watcher of an update: created or found, added to the ids of the group,
    its conditions stored once more unless the request has none. *)
Definition apply_watcher (account_hash : string) (group_id : Z) (watcher_ids : list Z)
    (watcher_data : sync_WatcherData) (env : ReqEnv) : WM (list Z) :=
  mtry (on_ws (create_or_get_watcher regex_new getenv account_hash group_id watcher_data (env_now env 0)))
    (λ r, match r with
    | Err e => throw (mkStatus Code_Internal ("Failed to create watcher: " +:+ StorageError_fmt e))
    | Ok watcher_id =>
        let watcher_ids := if bool_decide (watcher_id ∈ watcher_ids) then watcher_ids
                           else (watcher_ids ++ [watcher_id])%list in
        if negb (vec_is_empty (swd_union_conditions watcher_data)
                 && vec_is_empty (swd_subtracting_conditions watcher_data))
        then
          mtry (ws_op (s_save_watcher_conditions watcher_id
                         (upsert_conditions account_hash watcher_id group_id watcher_data (env_now env 1))))
            (λ r, match r with
                  | Ok _ => ret watcher_ids
                  | Err _ => throw (mkStatus Code_Internal "Failed to save watcher conditions")
                  end)
        else ret watcher_ids
    end).

Definition handle_update_watcher_group (req : WatcherGroupRequest) (env : ReqEnv)
    : WM WatcherGroupResponse :=
  let account_hash := wgr_account_hash req in
  let device_hash := wgr_device_hash req in
  let group_id := wgr_group_id req in
  _ ←? validate_device_if_required account_hash device_hash;
  mtry (ws_read (s_get_user_watcher_group account_hash group_id)) (λ r,
    match r with
    | Ok None => throw (mkStatus Code_NotFound ("Watcher group " +:+ pretty group_id +:+ " not found"))
    | Err _ => throw (mkStatus Code_Internal "Error getting watcher group")
    | Ok (Some existing_group) =>
        watcher_ids ←? match wgr_watcher_data req with
                       | Some watcher_data =>
                           apply_watcher account_hash group_id (wg_watcher_ids existing_group) watcher_data env
                       | None => ret (wg_watcher_ids existing_group)
                       end;
        let watcher_group := mkWatcherGroup group_id (wg_group_id existing_group) account_hash
          (wgr_title req) (wg_created_at existing_group) (env_now env 2) true watcher_ids in
        mtry (ws_op (s_update_watcher_group account_hash watcher_group)) (λ r,
          match r with
          | Err e => throw (mkStatus Code_Internal ("Failed to update watcher group: " +:+ StorageError_fmt e))
          | Ok _ =>
              _ ←? broadcast_group account_hash device_hash group_id WG_Created (env_now env 3)
                     (env_nanoid env 0);
              ret (mkWatcherGroupResponse true group_id "")
          end)
    end).

Definition handle_delete_watcher_group (req : DeleteWatcherGroupRequest) (env : ReqEnv)
    : WM WatcherGroupResponse :=
  let account_hash := xgr_account_hash req in
  let device_hash := xgr_device_hash req in
  let group_id := xgr_group_id req in
  _ ←? validate_device_if_required account_hash device_hash;
  mtry (ws_read (s_get_watcher_group_by_account_and_id account_hash group_id)) (λ r,
    match r with
    | Ok None => throw (mkStatus Code_NotFound ("Watcher group " +:+ pretty group_id +:+ " not found"))
    | Err _ => throw (mkStatus Code_Internal "Error getting watcher group")
    | Ok (Some group_data) =>
        mtry (ws_op (s_delete_watcher_group account_hash group_id)) (λ r,
          match r with
          | Err _ => throw (mkStatus Code_Internal "Error deleting watcher group")
          | Ok _ => λ st,
              let notification := mkWatcherGroupUpdateNotification account_hash device_hash
                (Some group_data) WG_Deleted (dt_timestamp (env_now env 0)) in
              let '(_, log) := broadcast_watcher_group_update is_open (ws_nm st) account_hash
                                 (Some device_hash) notification in
              ret (mkWatcherGroupResponse true group_id "")
                (mkWatcherState (ws_storage st) (ws_nm st) (ws_events st) (ws_group_log st ++ log)%list
                   (ws_preset_log st))
          end)
    end).
(** ** The combined synchronisation of a client's configuration *)

(** The local variables [stats], [conflicts_detected] and [conflict_details]. *)
Record SyncProgress := mkSyncProgress {
  sp_stats : SyncStats; sp_conflicts : bool; sp_details : list string
}.

Definition sync_conflict (detail : string) (p : SyncProgress) : SyncProgress :=
  mkSyncProgress (sp_stats p) true (sp_details p ++ [detail])%list.

(** The counters are [i32]. *)
Definition count_updated (x : SyncStats) : SyncStats :=
  mkSyncStats (wrap_i32 (st_groups_updated x + 1)) (st_groups_created x) (st_groups_deleted x)
    (st_presets_updated x) (st_sync_timestamp x) (wrap_i32 (st_total_operations x + 1))
    (st_sync_duration_ms x).
Definition count_created (x : SyncStats) : SyncStats :=
  mkSyncStats (st_groups_updated x) (wrap_i32 (st_groups_created x + 1)) (st_groups_deleted x)
    (st_presets_updated x) (st_sync_timestamp x) (wrap_i32 (st_total_operations x + 1))
    (st_sync_duration_ms x).
Definition count_presets (x : SyncStats) : SyncStats :=
  mkSyncStats (st_groups_updated x) (st_groups_created x) (st_groups_deleted x)
    1 (st_sync_timestamp x) (wrap_i32 (st_total_operations x + 1)) (st_sync_duration_ms x).
Definition set_duration (ms : Z) (x : SyncStats) : SyncStats :=
  mkSyncStats (st_groups_updated x) (st_groups_created x) (st_groups_deleted x)
    (st_presets_updated x) (st_sync_timestamp x) (st_total_operations x) ms.
Definition on_stats (f : SyncStats → SyncStats) (p : SyncProgress) : SyncProgress :=
  mkSyncProgress (f (sp_stats p)) (sp_conflicts p) (sp_details p).

Definition option_ok {A} (r : Res (option A)) : option A :=
  match r with Ok a => a | Err _ => None end.
Definition unwrap_or_default {A} (r : Res (list A)) : list A :=
  match r with Ok a => a | Err _ => [] end.

(** The watchers sent with a group; [label] starts the text of a conflict. *)
Fixpoint sync_watchers (label account_hash : string) (group_id : Z) (now : DateTime)
    (watchers : list sync_WatcherData) (p : SyncProgress) : WM SyncProgress :=
  match watchers with
  | [] => ret p
  | watcher :: rest =>
      mtry (on_ws (create_or_get_watcher regex_new getenv account_hash group_id watcher now)) (λ r,
        sync_watchers label account_hash group_id now rest
          match r with
          | Ok _ => p
          | Err e => sync_conflict (label +:+ " " +:+ pretty group_id +:+ ": " +:+ StorageError_fmt e) p
          end)
  end.

(** One turn of the loop over the groups of the client. *)
Definition sync_group (account_hash device_hash : string) (incremental force_update : bool)
    (now : DateTime) (nanoid : string) (group_data : sync_WatcherGroupData) (p : SyncProgress)
    : WM SyncProgress :=
  let group_id := swgd_group_id group_data in
  mtry (ws_read (s_get_user_watcher_group account_hash group_id)) (λ existing_group,
    match existing_group with
    | Ok (Some existing) =>
        if force_update || negb incremental then
          let updated_group := mkWatcherGroup (wg_id existing) (wg_group_id existing) account_hash
            (if str_is_empty (swgd_title group_data) then wg_title existing else swgd_title group_data)
            (wg_created_at existing) now true (wg_watcher_ids existing) in
          mtry (ws_op (s_update_watcher_group account_hash updated_group)) (λ r,
            match r with
            | Err e => ret (sync_conflict ("Failed to update group " +:+ pretty group_id +:+ ": "
                                            +:+ StorageError_fmt e) p)
            | Ok _ =>
                p ←? sync_watchers "Watcher upsert failed in group" account_hash group_id now
                       (swgd_watchers group_data) (on_stats count_updated p);
                _ ←? broadcast_group account_hash device_hash group_id WG_Updated now nanoid;
                ret p
            end)
        else ret p
    | Ok None =>
        let group := new_group account_hash
          (if str_is_empty (swgd_title group_data) then "Synced Group" else swgd_title group_data)
          group_id now now in
        mtry (ws_op (s_register_watcher_group account_hash device_hash group)) (λ r,
          match r with
          | Err e => ret (sync_conflict ("Failed to create group " +:+ pretty group_id +:+ ": "
                                          +:+ StorageError_fmt e) p)
          | Ok _ =>
              p ←? sync_watchers "Watcher create failed in new group" account_hash group_id now
                     (swgd_watchers group_data) (on_stats count_created p);
              _ ←? broadcast_group account_hash device_hash group_id WG_Created now nanoid;
              ret p
          end)
    | Err e => ret (sync_conflict ("Error checking group " +:+ pretty group_id +:+ ": "
                                    +:+ StorageError_fmt e) p)
    end).

(** The loop; turn [i] reads the clock and the id generator at [10 + i]. *)
Fixpoint sync_groups (account_hash device_hash : string) (incremental force_update : bool)
    (env : ReqEnv) (i : nat) (groups : list sync_WatcherGroupData) (p : SyncProgress)
    : WM SyncProgress :=
  match groups with
  | [] => ret p
  | group_data :: rest =>
      p ←? sync_group account_hash device_hash incremental force_update (env_now env (10 + i))
             (env_nanoid env (10 + i)) group_data p;
      sync_groups account_hash device_hash incremental force_update env (Datatypes.S i) rest p
  end.

Definition sync_presets (account_hash device_hash : string) (presets : list string) (env : ReqEnv)
    (p : SyncProgress) : WM SyncProgress :=
  if negb (vec_is_empty presets) then
    mtry (ws_op (s_register_watcher_preset_proto account_hash device_hash presets)) (λ r,
      match r with
      | Ok _ =>
          _ ←? broadcast_preset account_hash device_hash presets WG_Updated (env_now env 3) (env_nanoid env 0);
          ret (on_stats count_presets p)
      | Err e => ret (sync_conflict ("Failed to sync presets: " +:+ StorageError_fmt e) p)
      end)
  else ret p.

(** The state of the server after the changes, and the report. *)
Definition sync_response (account_hash : string) (env : ReqEnv) (elapsed_ms : Z) (p : SyncProgress)
    : WM SyncConfigurationResponse := λ st,
  let s := ws_storage st in
  let server_groups := unwrap_or_default (s_get_watcher_groups account_hash s) in
  let items := completion (map (λ group, option_ok
    (s_get_watcher_group_by_account_and_id account_hash (wg_group_id group) s)) server_groups) in
  let server_watcher_groups := omap id items in
  let server_presets := unwrap_or_default (s_get_watcher_preset account_hash s) in
  let message :=
    if sp_conflicts p
    then "Partial sync completed with " +:+ pretty (Z.of_nat (length (sp_details p))) +:+ " conflicts"
    else "Configuration sync completed successfully" in
  ret (mkSyncConfigurationResponse (negb (sp_conflicts p)) message
         (Some (set_duration elapsed_ms (sp_stats p))) server_watcher_groups server_presets
         (dt_timestamp (env_now env 4)) (sp_conflicts p) (sp_details p)) st.

Definition handle_sync_configuration (req : SyncConfigurationRequest) (env : ReqEnv) (elapsed_ms : Z)
    : WM SyncConfigurationResponse :=
  account_hash ←? verified_account (scr_auth_token req) env;
  let device_hash := scr_device_hash req in
  _ ←? validate_device_if_required account_hash device_hash;
  let p0 := mkSyncProgress (mkSyncStats 0 0 0 0 (dt_timestamp (env_now env 2)) 0 0) false [] in
  p ←? sync_groups account_hash device_hash (scr_incremental req) (scr_force_update req) env 0
         (scr_watcher_groups req) p0;
  p ←? sync_presets account_hash device_hash (scr_presets req) env p;
  sync_response account_hash env elapsed_ms p.

End handlers.
