(* ===== verification/WatcherHandlersProps.v ===== *)
(** * Correctness of the watcher requests

    What the combined synchronisation reports, which groups the requests of an
    account can change, the round trip of presets, and what a request without a
    valid token can reach. *)

From S2P Require Import Prelude RustString Errors Models Paths Memory MemoryProps Connections StorageApi Effects Crypto Notify NotifyProps AccountServices FileService FileServiceProps Auth FileHandlers FileHandlersProps ServerState DeviceHandlers WatcherHandlers.

(** ** The report of a synchronisation, for any storage *)

Section report.
Context `{HI : HashIter} {S : Type} `{ST : Storage S}.
Context (is_open : Sender → bool) (da de ee : bool).
Context (ext : string → result OAuthUserInfo AuthError).
Context (regex_new : string → option (string → bool)) (getenv : string → option string).
Context (completion : list (option sync_WatcherGroupData) → list (option sync_WatcherGroupData)).
Implicit Types (st : WatcherState (S:=S)) (p : SyncProgress).

(** The counters after [n] groups, and the flag of the list of conflicts. *)
Record progress_ok (n : Z) p : Prop := {
  po_flag : sp_conflicts p = true ↔ sp_details p ≠ [];
  po_updated : 0 ≤ st_groups_updated (sp_stats p);
  po_created : 0 ≤ st_groups_created (sp_stats p);
  po_presets : 0 ≤ st_presets_updated (sp_stats p) ≤ 1;
  po_deleted : st_groups_deleted (sp_stats p) = 0;
  po_bound : st_groups_updated (sp_stats p) + st_groups_created (sp_stats p) ≤ n;
  po_total : st_total_operations (sp_stats p) =
    st_groups_updated (sp_stats p) + st_groups_created (sp_stats p) + st_presets_updated (sp_stats p)
}.

Lemma sync_conflict_ok n detail p : progress_ok n p → progress_ok n (sync_conflict detail p).
Proof. intros []. split; cbn; try done. split; [|done]. intros _ ?%app_nil. naive_solver. Qed.

Lemma progress_ok_le n m p : n ≤ m → progress_ok n p → progress_ok m p.
Proof. intros ? []. split; try done. lia. Qed.

Lemma count_ok n p f :
  n + 2 ≤ i32_max → f = count_updated ∨ f = count_created →
  progress_ok n p → progress_ok (n + 1) (on_stats f p).
Proof.
  intros Hn Hf []. unfold i32_max in *.
  destruct Hf as [-> | ->]; split; cbn; rewrite ?wrap_i32_id by (unfold i32_min, i32_max; lia);
    first [done|lia].
Qed.

Lemma count_presets_ok n p :
  n + 1 ≤ i32_max → st_presets_updated (sp_stats p) = 0 → progress_ok n p →
  progress_ok n (on_stats count_presets p).
Proof.
  intros Hn H0 []. unfold i32_max in *.
  split; cbn; rewrite ?wrap_i32_id by (unfold i32_min, i32_max; lia); first [done|lia].
Qed.

Lemma broadcast_group_returns acc dev g ty now id st :
  ∃ st', broadcast_group is_open acc dev g ty now id st = (Returned (Ok tt), st')
  ∧ ws_storage st' = ws_storage st.
Proof. unfold broadcast_group. case_match; [case_match|]; eauto. Qed.

Lemma broadcast_preset_returns acc dev presets ty now id st :
  ∃ st', broadcast_preset is_open acc dev presets ty now id st = (Returned (Ok tt), st')
  ∧ ws_storage st' = ws_storage st.
Proof. unfold broadcast_preset. case_match; [case_match|]; eauto. Qed.

Lemma create_or_get_watcher_returns a g w now (s : S) :
  ∃ r s', create_or_get_watcher regex_new getenv a g w now s = (Returned r, s').
Proof. unfold create_or_get_watcher. repeat case_match; eauto. Qed.

Lemma sync_watchers_returns label a g now n ws : ∀ p st, progress_ok n p →
  ∃ p' st', sync_watchers regex_new getenv label a g now ws p st = (Returned (Ok p'), st')
  ∧ progress_ok n p' ∧ sp_stats p' = sp_stats p.
Proof.
  induction ws as [|w ws IH]; intros p st Hp; [by exists p, st|].
  cbn. unfold mtry, on_ws, on_part.
  destruct (create_or_get_watcher_returns a g w now (ws_storage st)) as (r & s' & ->).
  destruct r as [i|e]; [by apply IH|].
  destruct (IH (sync_conflict (label +:+ " " +:+ pretty g +:+ ": " +:+ StorageError_fmt e) p)
    (ws_with_storage s' st)) as (p' & st' & H & Hok & Hs); [by apply sync_conflict_ok|].
  by exists p', st'.
Qed.

Lemma sync_watchers_completes label a g now ws : ∀ p st,
  ∃ p' st', sync_watchers regex_new getenv label a g now ws p st = (Returned (Ok p'), st').
Proof.
  induction ws as [|w ws IH]; intros p st; [by exists p, st|]. cbn. unfold mtry, on_ws, on_part.
  destruct (create_or_get_watcher_returns a g w now (ws_storage st)) as (r & s' & ->). apply IH.
Qed.

Ltac conflict := do 2 eexists; split; [done|]; split;
  [apply sync_conflict_ok; (eapply progress_ok_le; [|done]; lia)|done].

(** The end of both branches that store a group. *)
Lemma sync_group_tail label ty acc dev now id gd n p st :
  progress_ok n p →
  ∃ p' st',
    (p ←? sync_watchers regex_new getenv label acc (swgd_group_id gd) now (swgd_watchers gd) p;
     _ ←? broadcast_group is_open acc dev (swgd_group_id gd) ty now id;
     ret p) st = (Returned (Ok p'), st')
  ∧ progress_ok n p' ∧ sp_stats p' = sp_stats p.
Proof.
  intros Hp. destruct (sync_watchers_returns label acc (swgd_group_id gd) now n (swgd_watchers gd) p st Hp)
    as (p' & st1 & H1 & Hok & Hs).
  destruct (broadcast_group_returns acc dev (swgd_group_id gd) ty now id st1) as (st2 & H2 & _).
  exists p', st2. unfold mthen. rewrite H1, H2. done.
Qed.

Lemma sync_group_returns acc dev inc force now id gd n p st :
  n + 2 ≤ i32_max → progress_ok n p →
  ∃ p' st', sync_group is_open regex_new getenv acc dev inc force now id gd p st = (Returned (Ok p'), st')
  ∧ progress_ok (n + 1) p' ∧ st_presets_updated (sp_stats p') = st_presets_updated (sp_stats p).
Proof.
  intros Hn Hp. unfold sync_group. unfold mtry at 1, ws_read, ws_op at 1, on_ws at 1, on_part at 1.
  destruct (s_get_user_watcher_group acc (swgd_group_id gd) (ws_storage st)) as [[g|]|e]; [| |conflict].
  - destruct (force || negb inc).
    2: { do 2 eexists. split; [done|]. split; [|done]. eapply progress_ok_le; [|done]. lia. }
    unfold mtry at 1, ws_op at 1, on_ws at 1, on_part at 1.
    destruct (s_update_watcher_group _ _ _) as [[[]|e] s']; [|conflict].
    match goal with |- ∃ _ _, _ ?s = _ ∧ _ =>
      destruct (sync_group_tail "Watcher upsert failed in group" WG_Updated acc dev now id gd (n + 1)
        (on_stats count_updated p) s) as (p' & st' & H & Hok & Hs) end; [apply count_ok; auto|].
    exists p', st'. by rewrite Hs.
  - unfold mtry at 1, ws_op at 1, on_ws at 1, on_part at 1.
    destruct (s_register_watcher_group _ _ _ _) as [[i|e] s']; [|conflict].
    match goal with |- ∃ _ _, _ ?s = _ ∧ _ =>
      destruct (sync_group_tail "Watcher create failed in new group" WG_Created acc dev now id gd (n + 1)
        (on_stats count_created p) s) as (p' & st' & H & Hok & Hs) end; [apply count_ok; auto|].
    exists p', st'. by rewrite Hs.
Qed.

Lemma sync_groups_returns acc dev inc force env gs : ∀ i n p st,
  n + Z.of_nat (length gs) + 1 ≤ i32_max → progress_ok n p →
  ∃ p' st', sync_groups is_open regex_new getenv acc dev inc force env i gs p st = (Returned (Ok p'), st')
  ∧ progress_ok (n + Z.of_nat (length gs)) p'
  ∧ st_presets_updated (sp_stats p') = st_presets_updated (sp_stats p).
Proof.
  induction gs as [|gd gs IH]; intros i n p st Hn Hp.
  { exists p, st. split; [done|]. split; [|done]. by rewrite Z.add_0_r. }
  cbn [length sync_groups] in *. unfold mthen.
  destruct (sync_group_returns acc dev inc force (env_now env (10 + i)) (env_nanoid env (10 + i)) gd n p st)
    as (p1 & st1 & -> & Hok & Hs); [lia|done|].
  destruct (IH (Datatypes.S i) (n + 1) p1 st1) as (p2 & st2 & -> & Hok2 & Hs2); [lia|done|].
  exists p2, st2. split; [done|]. split; [|congruence]. eapply progress_ok_le; [|done]. lia.
Qed.

Lemma sync_presets_returns acc dev presets env n p st :
  n + 1 ≤ i32_max → st_presets_updated (sp_stats p) = 0 → progress_ok n p →
  ∃ p' st', sync_presets is_open acc dev presets env p st = (Returned (Ok p'), st') ∧ progress_ok n p'.
Proof.
  intros Hn H0 Hp. unfold sync_presets. destruct (negb _); [|by exists p, st].
  unfold mtry, ws_op, on_ws, on_part.
  destruct (s_register_watcher_preset_proto _ _ _ _) as [[[]|e] s'].
  - unfold mthen. destruct (broadcast_preset_returns acc dev presets WG_Updated (env_now env 3)
      (env_nanoid env 0) (ws_with_storage s' st)) as (st' & -> & _).
    do 2 eexists. split; [done|]. by apply count_presets_ok.
  - do 2 eexists. split; [done|]. by apply sync_conflict_ok.
Qed.

(** C35: an authenticated synchronisation always answers: it succeeds exactly when
    the list of conflicts is empty, every group is counted at most once, and the
    number of operations is the sum of the counters. *)
Theorem sync_configuration_report req env ms acc st st1 st2 :
  verified_account da de ee ext (scr_auth_token req) env st = (Returned (Ok acc), st1) →
  validate_device_if_required getenv acc (scr_device_hash req) st1 = (Returned (Ok tt), st2) →
  Z.of_nat (length (scr_watcher_groups req)) < i32_max →
  ∃ resp stats st', handle_sync_configuration is_open da de ee ext regex_new getenv completion req env ms st
    = (Returned (Ok resp), st')
  ∧ scp_stats resp = Some stats
  ∧ scp_success resp = negb (scp_conflicts_detected resp)
  ∧ (scp_success resp = true ↔ scp_conflict_details resp = [])
  ∧ st_groups_updated stats + st_groups_created stats ≤ Z.of_nat (length (scr_watcher_groups req))
  ∧ st_total_operations stats =
      st_groups_updated stats + st_groups_created stats + st_presets_updated stats
  ∧ 0 ≤ st_groups_updated stats ∧ 0 ≤ st_groups_created stats ∧ 0 ≤ st_presets_updated stats ≤ 1.
Proof.
  intros Hv Hd Hlen. unfold handle_sync_configuration, mthen. rewrite Hv, Hd.
  match goal with |- context [sync_groups _ _ _ _ _ _ _ _ _ _ ?p0] => set (p := p0) end.
  destruct (sync_groups_returns acc (scr_device_hash req) (scr_incremental req) (scr_force_update req) env
    (scr_watcher_groups req) 0 0 p st2) as (p1 & st3 & -> & Hok & Hs); [lia|by split; cbn; try lia|].
  destruct (sync_presets_returns acc (scr_device_hash req) (scr_presets req) env
    (0 + Z.of_nat (length (scr_watcher_groups req))) p1 st3) as (p2 & st4 & -> & Hok2); [lia|done|done|].
  destruct Hok2 as [Hflag]. do 3 eexists. split; [reflexivity|]. split; [reflexivity|].
  unfold set_duration. cbn. split_and!; try (done || lia).
  destruct (sp_conflicts p2), (sp_details p2); cbn in *; naive_solver.
Qed.

End report.

(** ** Whose groups and presets change, with the memory storage *)

Section memory.
Context `{HI : HashIter} `{CH : Chrono}.
Context (is_open : Sender → bool) (de ee : bool).
Context (ext : string → result OAuthUserInfo AuthError).
Context (regex_new : string → option (string → bool)) (getenv : string → option string).
Context (completion : list (option sync_WatcherGroupData) → list (option sync_WatcherGroupData)).
Implicit Types (st : WatcherState (S:=StorageData)) (d : StorageData) (env : ReqEnv).

Abbreviation groups st := (watcher_groups (ws_storage st)).

(** [f] changes only the list of watchers of a group. *)
Definition ids_only (f : WatcherGroup → WatcherGroup) : Prop :=
  ∀ g, ∃ ids, f g = wg_with_id g (wg_id g) ids.

Lemma ids_only_id : ids_only id.
Proof. intros []. by eexists. Qed.

Lemma ids_only_compose f h : ids_only f → ids_only h → ids_only (f ∘ h).
Proof.
  intros Hf Hh g. destruct (Hh g) as [ids Hg], (Hf (h g)) as [ids' Hfg].
  exists ids'. unfold compose. rewrite Hfg, Hg. done.
Qed.

Lemma ids_only_account f g : ids_only f → wg_account_hash (f g) = wg_account_hash g.
Proof. intros Hf. by destruct (Hf g) as [ids ->]. Qed.

Lemma alter_alter (f h : WatcherGroup → WatcherGroup) (g : Z) (m : gmap Z WatcherGroup) :
  alter f g (alter h g m) = alter (f ∘ h) g m.
Proof.
  apply map_eq. intros k. destruct (decide (k = g)) as [->|Hne].
  - rewrite !lookup_alter_eq. by destruct (m !! g).
  - by rewrite !lookup_alter_ne.
Qed.

(** A watcher created for group [g], whoever owns it, is added to its list. *)
Lemma add_watcher_to_group_groups g i d :
  ∃ f, ids_only f ∧ watcher_groups (add_watcher_to_group g i d) = alter f g (watcher_groups d).
Proof.
  unfold add_watcher_to_group. destruct (watcher_groups d !! g) as [grp|] eqn:E;
    [case_bool_decide|].
  - exists id. split; [apply ids_only_id|]. by rewrite alter_id.
  - exists (λ grp, wg_with_id grp (wg_id grp) (wg_watcher_ids grp ++ [i])). split; [by eexists|].
    cbn. apply map_eq. intros k. destruct (decide (k = g)) as [->|Hne].
    + by rewrite lookup_insert_eq, lookup_alter_eq, E.
    + by rewrite lookup_insert_ne, lookup_alter_ne.
  - exists id. split; [apply ids_only_id|]. by rewrite alter_id.
Qed.

Lemma create_watcher_groups a g w t now d :
  ∃ f, ids_only f
  ∧ watcher_groups (create_watcher_with_conditions a g w t now d).2 = alter f g (watcher_groups d).
Proof.
  rewrite create_watcher_unfold. cbn [snd].
  match goal with |- context [add_watcher_to_group ?g ?i ?d0] =>
    destruct (add_watcher_to_group_groups g i d0) as (f & Hf & ->) end.
  exists f. split; [done|]. by rewrite insert_conditions_groups.
Qed.

Lemma save_conditions_groups i cs d :
  watcher_groups (save_watcher_conditions i cs d).2 = watcher_groups d.
Proof. cbn. by rewrite insert_conditions_groups. Qed.

Lemma create_or_get_watcher_groups a g w now d :
  ∃ f, ids_only f
  ∧ watcher_groups (create_or_get_watcher regex_new getenv a g w now d).2 = alter f g (watcher_groups d).
Proof.
  assert (Hid : ∃ f, ids_only f ∧ watcher_groups d = alter f g (watcher_groups d)).
  { exists id. split; [apply ids_only_id|]. by rewrite alter_id. }
  unfold create_or_get_watcher.
  destruct (validate_watcher_folder _ _ _); [|done]. cbn -[create_watcher_with_conditions save_watcher_conditions].
  destruct (fst <$> _) as [i|].
  - destruct (negb _); [|done].
    pose proof (save_conditions_groups i (upsert_conditions a i g w now) d) as Hs.
    destruct (save_watcher_conditions _ _ d) as [[[]|] d']; cbn in *; by rewrite Hs.
  - pose proof (create_watcher_groups a g w (dt_timestamp now) now d) as Hc.
    by destruct (create_watcher_with_conditions _ _ _ _ _ d).
Qed.

Lemma sync_watchers_groups label a g now ws : ∀ p st,
  ∃ f, ids_only f
  ∧ groups (sync_watchers regex_new getenv label a g now ws p st).2 = alter f g (groups st).
Proof.
  induction ws as [|w ws IH]; intros p st.
  { exists id. split; [apply ids_only_id|]. by rewrite alter_id. }
  cbn. unfold mtry, on_ws, on_part.
  destruct (create_or_get_watcher_groups a g w now (ws_storage st)) as (f & Hf & Hg).
  destruct (create_or_get_watcher_returns regex_new getenv a g w now (ws_storage st)) as (r & s' & E).
  rewrite E in *. cbn in Hg.
  match goal with |- context [sync_watchers _ _ _ _ _ _ _ ?p1 ?st1] =>
    destruct (IH p1 st1) as (f' & Hf' & ->) end.
  exists (f' ∘ f). split; [by apply ids_only_compose|]. cbn. by rewrite Hg, alter_alter.
Qed.

(** *** Groups of other accounts *)

Definition foreign_kept (a : string) (m m' : gmap Z WatcherGroup) : Prop :=
  ∀ k grp, m !! k = Some grp → wg_account_hash grp ≠ a → m' !! k = Some grp.

Lemma foreign_kept_refl a m : foreign_kept a m m.
Proof. by intros k grp. Qed.

Lemma foreign_kept_trans a m1 m2 m3 : foreign_kept a m1 m2 → foreign_kept a m2 m3 → foreign_kept a m1 m3.
Proof. intros H1 H2 k grp Hk Hne. apply H2; [by apply H1|done]. Qed.

Lemma foreign_kept_insert a m k grp :
  (∀ grp0, m !! k = Some grp0 → wg_account_hash grp0 = a) → foreign_kept a m (<[k := grp]> m).
Proof. intros Hk j g Hj Hne. rewrite lookup_insert_ne; [done|]. intros <-. by apply Hne, Hk. Qed.

Lemma foreign_kept_alter a m k f :
  (∀ grp0, m !! k = Some grp0 → wg_account_hash grp0 = a) → foreign_kept a m (alter f k m).
Proof. intros Hk j g Hj Hne. rewrite lookup_alter_ne; [done|]. intros <-. by apply Hne, Hk. Qed.

Lemma foreign_kept_delete a m k :
  (∀ grp0, m !! k = Some grp0 → wg_account_hash grp0 = a) → foreign_kept a m (delete k m).
Proof. intros Hk j g Hj Hne. rewrite lookup_delete_ne; [done|]. intros <-. by apply Hne, Hk. Qed.

Lemma validate_device_keeps a h st : (validate_device_if_required getenv a h st).2 = st.
Proof.
  unfold validate_device_if_required. destruct (is_dev_or_test_mode getenv); [done|].
  unfold mtry, ws_read, ws_op, on_ws, on_part, ws_with_storage. destruct st. cbn.
  by destruct (hm_contains _ _).
Qed.

(** What holds after the rest of a request holds after the request. *)
Lemma after_device_check {A} (P : WatcherState (S:=StorageData) → Prop) a h (k : unit → ME _ Status A) st :
  P st → P (k tt st).2 → P (mthen (validate_device_if_required getenv a h) k st).2.
Proof.
  intros H1 H2. pose proof (validate_device_keeps a h st) as E. unfold mthen.
  destruct (validate_device_if_required getenv a h st) as [[[[]|e]|] st']; cbn in *; by subst.
Qed.

Lemma after_broadcast {A} (P : StorageData → Prop) acc dev g ty now i (x : A) st :
  P (ws_storage st) →
  P (ws_storage ((_ ←? broadcast_group is_open acc dev g ty now i; ret (E:=Status) x) st).2).
Proof.
  intros HP. unfold mthen. destruct (broadcast_group_returns is_open acc dev g ty now i st) as (st' & -> & E).
  cbn. by rewrite E.
Qed.

Lemma register_group_keeps req env st :
  (∀ k v, groups st !! k = Some v → i32_min ≤ k < i32_max) →
  foreign_kept (wgr_account_hash req) (groups st)
    (groups (handle_register_watcher_group is_open regex_new getenv req env st).2).
Proof.
  intros Hk. unfold handle_register_watcher_group. set (a := wgr_account_hash req).
  apply (after_device_check (λ st', foreign_kept a (groups st) (groups st'))); [apply foreign_kept_refl|].
  destruct (match wgr_watcher_data req with Some _ => _ | None => _ end) as [|msg];
    [|apply foreign_kept_refl].
  unfold mtry at 1, ws_op at 1, on_ws at 1, on_part at 1.
  cbn [s_register_watcher_group memory_storage]. unfold register_watcher_group.
  set (i := next_key_i32 (groups st)).
  assert (Hi : groups st !! i = None) by (by apply next_key_i32_fresh).
  assert (Hins : ∀ grp, foreign_kept a (groups st) (<[i := grp]> (groups st))).
  { intros grp. apply foreign_kept_insert. by rewrite Hi. }
  destruct (wgr_watcher_data req) as [w|].
  2: { apply (after_broadcast (λ d, foreign_kept a (groups st) (watcher_groups d))). apply Hins. }
  unfold mthen at 1, mtry at 1, ws_op at 1, on_ws at 1, on_part at 1.
  cbn [s_create_watcher_with_conditions memory_storage ws_storage ws_with_storage].
  match goal with |- context [create_watcher_with_conditions ?a ?g ?w ?t ?n ?d] =>
    destruct (create_watcher_groups a g w t n d) as (f & Hf & Hg);
    destruct (create_watcher_with_conditions a g w t n d) as [[wid|e] d'] end; cbn in Hg;
    [apply (after_broadcast (λ d, foreign_kept a (groups st) (watcher_groups d)))|]; cbn; rewrite Hg;
    (eapply foreign_kept_trans; [apply Hins|]; apply foreign_kept_alter; intros grp;
     rewrite lookup_insert_eq; by intros [= <-]).
Qed.

Lemma apply_watcher_groups a g ids w env st :
  ∃ f, ids_only f
  ∧ groups (apply_watcher regex_new getenv a g ids w env st).2 = alter f g (groups st).
Proof.
  unfold apply_watcher, mtry at 1, on_ws at 1, on_part at 1.
  destruct (create_or_get_watcher_groups a g w (env_now env 0) (ws_storage st)) as (f & Hf & Hg).
  destruct (create_or_get_watcher_returns regex_new getenv a g w (env_now env 0) (ws_storage st))
    as (r & s' & E). rewrite E in *. cbn in Hg.
  exists f. split; [done|]. destruct r as [i|e]; [|done]. destruct (negb _); [|done].
  unfold mtry, ws_op, on_ws, on_part. cbn [s_save_watcher_conditions memory_storage ws_storage ws_with_storage].
  match goal with |- context [save_watcher_conditions ?i ?cs ?d] =>
    pose proof (save_conditions_groups i cs d) as Hs;
    destruct (save_watcher_conditions i cs d) as [[[]|] d'] end; cbn in *; congruence.
Qed.

Lemma update_group_keeps req env st :
  foreign_kept (wgr_account_hash req) (groups st)
    (groups (handle_update_watcher_group is_open regex_new getenv req env st).2).
Proof.
  unfold handle_update_watcher_group. set (a := wgr_account_hash req). set (g := wgr_group_id req).
  apply (after_device_check (λ st', foreign_kept a (groups st) (groups st'))); [apply foreign_kept_refl|].
  unfold mtry at 1, ws_read, ws_op at 1, on_ws at 1, on_part at 1.
  cbn [s_get_user_watcher_group memory_storage]. unfold get_user_watcher_group.
  replace (ws_with_storage (ws_storage st) st) with st by (by destruct st).
  destruct (groups st !! g) as [grp|] eqn:E; [|apply foreign_kept_refl].
  case_bool_decide as Hacc; [|apply foreign_kept_refl].
  assert (Hw : ∀ m : ME _ Status (list Z),
    (m = match wgr_watcher_data req with
         | Some w => apply_watcher regex_new getenv a g (wg_watcher_ids grp) w env
         | None => ret (wg_watcher_ids grp) end) →
    foreign_kept a (groups st) (groups (m st).2)).
  { intros m ->. destruct (wgr_watcher_data req) as [w|]; [|apply foreign_kept_refl].
    destruct (apply_watcher_groups a g (wg_watcher_ids grp) w env st) as (f & _ & ->).
    apply foreign_kept_alter. by rewrite E; intros grp0 [= <-]. }
  specialize (Hw _ eq_refl). unfold mthen at 1.
  match type of Hw with foreign_kept _ _ (watcher_groups (ws_storage (snd ?x))) =>
    destruct x as [[[ids|e]|] st1] end; cbn in Hw; try done.
  unfold mtry at 1, ws_op at 1, on_ws at 1, on_part at 1. cbn [s_update_watcher_group memory_storage].
  match goal with |- context [update_watcher_group a ?x ?d] =>
    pose proof (update_watcher_group_spec a x d) as Hu;
    destruct (update_watcher_group a x d) as [[[]|e] d'] end; cbn in Hu.
  - destruct Hu as [(g0 & Hg0 & Ha0) ->].
    apply (after_broadcast (λ d, foreign_kept a (groups st) (watcher_groups d))). cbn.
    eapply foreign_kept_trans; [done|]. apply foreign_kept_insert. rewrite Hg0. by intros ? [= <-].
  - by destruct Hu as [-> _].
Qed.

Lemma delete_group_keeps req env st :
  foreign_kept (xgr_account_hash req) (groups st)
    (groups (handle_delete_watcher_group is_open getenv req env st).2).
Proof.
  unfold handle_delete_watcher_group. set (a := xgr_account_hash req). set (g := xgr_group_id req).
  apply (after_device_check (λ st', foreign_kept a (groups st) (groups st'))); [apply foreign_kept_refl|].
  unfold mtry at 1, ws_read, ws_op at 1, on_ws at 1, on_part at 1.
  replace (ws_with_storage (ws_storage st) st) with st by (by destruct st).
  cbn [s_get_watcher_group_by_account_and_id memory_storage]. unfold get_watcher_group_by_account_and_id.
  destruct (groups st !! g) as [grp|] eqn:E; [|apply foreign_kept_refl].
  case_bool_decide as Hacc; [|apply foreign_kept_refl]. cbn [negb].
  unfold mtry, ws_op, on_ws, on_part. cbn [s_delete_watcher_group memory_storage].
  unfold delete_watcher_group. rewrite E, bool_decide_eq_true_2 by done. cbn.
  apply foreign_kept_delete. rewrite E. by intros ? [= <-].
Qed.

(** The group requests of an account never change, replace or remove a group
    of another account, whatever they answer. *)
Theorem group_requests_isolated acc req xreq env st :
  wgr_account_hash req = acc → xgr_account_hash xreq = acc →
  (∀ k v, groups st !! k = Some v → i32_min ≤ k < i32_max) →
  foreign_kept acc (groups st) (groups (handle_register_watcher_group is_open regex_new getenv req env st).2)
  ∧ foreign_kept acc (groups st) (groups (handle_update_watcher_group is_open regex_new getenv req env st).2)
  ∧ foreign_kept acc (groups st) (groups (handle_delete_watcher_group is_open getenv xreq env st).2).
Proof.
  intros <- Hx Hk. split_and!.
  - by apply register_group_keeps.
  - apply update_group_keeps.
  - rewrite <- Hx. apply delete_group_keeps.
Qed.

(** *** The two numberings of groups in a synchronisation *)

(** A group the client knows by number [g] is looked up under the server's
    number [g]: when that is not a group of the account, every synchronisation of
    the same configuration stores one more group, which the next one does not
    find either. *)
Theorem sync_duplicates_group acc dev inc force now i gd p st :
  (∀ k v, groups st !! k = Some v → i32_min ≤ k < i32_max) →
  next_key_i32 (groups st) ≠ swgd_group_id gd →
  (∀ grp, groups st !! swgd_group_id gd = Some grp → wg_account_hash grp ≠ acc) →
  ∃ p' st' grp', sync_group is_open regex_new getenv acc dev inc force now i gd p st
    = (Returned (Ok p'), st')
  ∧ groups st !! next_key_i32 (groups st) = None
  ∧ groups st' !! next_key_i32 (groups st) = Some grp'
  ∧ wg_account_hash grp' = acc ∧ wg_group_id grp' = swgd_group_id gd
  ∧ (∀ grp, groups st' !! swgd_group_id gd = Some grp → wg_account_hash grp ≠ acc).
Proof.
  intros Hk Hne Hg. unfold sync_group. unfold mtry at 1, ws_read, ws_op at 1, on_ws at 1, on_part at 1.
  set (g := swgd_group_id gd) in *. set (k := next_key_i32 (groups st)) in *.
  assert (get_user_watcher_group acc g (ws_storage st) = Ok None) as E.
  { unfold get_user_watcher_group. destruct (groups st !! g) as [grp|] eqn:Eg; [|done].
    rewrite bool_decide_eq_false_2; [done|]. by apply Hg. }
  cbn [s_get_user_watcher_group memory_storage]. rewrite E.
  unfold mtry at 1, ws_op at 1, on_ws at 1, on_part at 1.
  cbn [s_register_watcher_group memory_storage ws_storage ws_with_storage]. unfold register_watcher_group.
  fold k. match goal with |- context [set_watcher_groups ?m _] => set (m1 := m) end.
  unfold mthen at 1.
  match goal with |- context [sync_watchers _ _ ?l _ _ _ ?ws ?p1 ?st1] =>
    destruct (sync_watchers_groups l acc g now ws p1 st1) as (f & Hf & Hgr);
    destruct (sync_watchers_completes regex_new getenv l acc g now ws p1 st1) as (p2 & st2 & Hs) end.
  rewrite Hs in Hgr |- *. cbn in Hgr. unfold mthen.
  destruct (broadcast_group_returns is_open acc dev g WG_Created now i st2) as (st3 & -> & Est).
  do 3 eexists. split; [reflexivity|]. rewrite Est, Hgr. unfold m1.
  split; [by apply next_key_i32_fresh|]. rewrite lookup_alter_ne, lookup_insert_eq by done.
  split_and!; try done. intros grp. rewrite lookup_alter_eq, lookup_insert_ne by done.
  destruct (groups st !! g) as [g0|] eqn:Eg; [|done]. cbn. intros [= <-].
  rewrite ids_only_account by done. by apply Hg.
Qed.

(** A synchronisation that names the server's number of another account's
    group adds the watcher it creates to that group. *)
Theorem sync_changes_foreign_group acc dev inc force now i gd w p st grp :
  (∀ k v, groups st !! k = Some v → i32_min ≤ k < i32_max) →
  groups st !! swgd_group_id gd = Some grp → wg_account_hash grp ≠ acc →
  swgd_watchers gd = [w] →
  validate_watcher_folder regex_new getenv (swd_folder w) = Ok tt →
  find_watcher_by_folder acc (swgd_group_id gd) (swd_folder w) (ws_storage st) = Ok None →
  let wid := next_key_i32 (watchers (ws_storage st)) in
  wid ∉ wg_watcher_ids grp →
  ∃ p' st', sync_group is_open regex_new getenv acc dev inc force now i gd p st = (Returned (Ok p'), st')
  ∧ sp_conflicts p' = sp_conflicts p
  ∧ groups st' !! swgd_group_id gd = Some (wg_with_id grp (wg_id grp) (wg_watcher_ids grp ++ [wid])).
Proof.
  intros Hk Hg Hacc Hws Hval Hfind wid Hwid. unfold sync_group. rewrite Hws.
  set (g := swgd_group_id gd) in *.
  assert (Hne : next_key_i32 (groups st) ≠ g).
  { intros E. pose proof (next_key_i32_fresh (groups st) Hk) as H. rewrite E in H. congruence. }
  unfold mtry at 1, ws_read, ws_op at 1, on_ws at 1, on_part at 1.
  cbn [s_get_user_watcher_group memory_storage]. unfold get_user_watcher_group.
  rewrite Hg, bool_decide_eq_false_2 by done.
  unfold mtry at 1, ws_op at 1, on_ws at 1, on_part at 1.
  cbn [s_register_watcher_group memory_storage ws_storage ws_with_storage]. unfold register_watcher_group.
  unfold mthen at 1. cbn [sync_watchers]. unfold mtry, on_ws, on_part, create_or_get_watcher.
  cbn [s_find_watcher_by_folder s_create_watcher_with_conditions memory_storage ws_storage ws_with_storage].
  rewrite Hval. unfold find_watcher_by_folder in *. apply (inj Ok) in Hfind.
  cbn [watchers set_watcher_groups]. rewrite Hfind.
  rewrite create_watcher_unfold. cbn [watchers set_watcher_groups]. fold wid. cbn [ret]. unfold ret, mthen.
  match goal with |- context [broadcast_group _ _ _ _ _ _ _ ?s] =>
    destruct (broadcast_group_returns is_open acc dev g WG_Created now i s) as (st3 & -> & Est) end.
  do 2 eexists. split; [reflexivity|]. split; [done|]. rewrite Est. cbn. unfold add_watcher_to_group.
  rewrite insert_conditions_groups. cbn. rewrite lookup_insert_ne, Hg by done.
  rewrite bool_decide_eq_false_2 by done. cbn. by rewrite lookup_insert_eq.
Qed.

(** *** Presets *)

Lemma verified_account_live token env st a :
  prefix_ok token = true → live_token token (env_now env 0) (ws_storage st) a →
  verified_account false de ee ext token env st = (Returned (Ok a),
    ws_with_storage (ensure_account ext token a (env_uuid env) (env_now env 1) (ws_storage st)) st).
Proof.
  intros Hp Hl. unfold verified_account, mtry, on_ws, on_part.
  by rewrite (verify_token_live false de ee ext _ _ _ _ _ a).
Qed.

Lemma verified_account_dead token env st :
  prefix_ok token = true → (∀ a, ¬ live_token token (env_now env 0) (ws_storage st) a) →
  verified_account false de ee ext token env st = (Returned (Ok ""), st).
Proof.
  intros Hp Hno. unfold verified_account, mtry, on_ws, on_part.
  destruct (verify_token_cases false de ee ext token (env_uuid env) (env_now env 0) (env_now env 1)
    (ws_storage st) eq_refl Hp) as [[a Ha]|[-> _]]; [by destruct (Hno a)|]. by destruct st.
Qed.

Definition device_accepted (a h : string) d : Prop :=
  is_dev_or_test_mode getenv = true ∨ validate_device a h d = Ok true.

Lemma device_accepted_devices a h d d' :
  devices d' = devices d → device_accepted a h d → device_accepted a h d'.
Proof. unfold device_accepted, validate_device. by intros ->. Qed.

Lemma validate_device_accepted a h st :
  device_accepted a h (ws_storage st) → validate_device_if_required getenv a h st = (Returned (Ok tt), st).
Proof.
  unfold device_accepted, validate_device_if_required. destruct (is_dev_or_test_mode getenv); [done|].
  intros [?|Hv]; [done|]. unfold mtry, ws_read, ws_op, on_ws, on_part.
  cbn [s_validate_device memory_storage]. rewrite Hv. by destruct st.
Qed.

(** Storing the presets of the request for account [a]. *)
Lemma store_preset_stores store error ty req env st st1 a :
  (store = register_watcher_preset_proto ∨ store = update_watcher_preset_proto) →
  verified_account false de ee ext (wpr_auth_token req) env st = (Returned (Ok a), st1) →
  device_accepted a (wpr_device_hash req) (ws_storage st1) →
  ∃ st', store_preset is_open false de ee ext getenv store error ty req env st
    = (Returned (Ok (mkWatcherPresetResponse true "")), st')
  ∧ ws_storage st' = set_watcher_presets (<[a := wpr_presets req]> (watcher_presets (ws_storage st1)))
                       (ws_storage st1).
Proof.
  intros Hs Hv Hd. unfold store_preset, mthen at 1 2. rewrite Hv, validate_device_accepted by done.
  destruct Hs as [-> | ->]; unfold mtry, ws_op, on_ws, on_part, mthen; cbn -[broadcast_preset];
  match goal with |- context [broadcast_preset _ ?a ?h ?x ?ty ?n ?i ?s] =>
    destruct (broadcast_preset_returns is_open a h x ty n i s) as (st' & -> & Est) end;
  by exists st'.
Qed.

(** The presets registered or updated with a token are the ones the account of
    the token reads back, and the presets of every other account stay. *)
Theorem preset_roundtrip req greq env st a handle :
  handle = handle_register_watcher_preset is_open false de ee ext getenv
  ∨ handle = handle_update_watcher_preset is_open false de ee ext getenv →
  prefix_ok (wpr_auth_token req) = true →
  live_token (wpr_auth_token req) (env_now env 0) (ws_storage st) a →
  device_accepted a (wpr_device_hash req) (ws_storage st) →
  gpr_auth_token greq = wpr_auth_token req → gpr_device_hash greq = wpr_device_hash req →
  ∃ st' st'', handle req env st = (Returned (Ok (mkWatcherPresetResponse true "")), st')
  ∧ handle_get_watcher_preset false de ee ext getenv greq env st' =
      (Returned (Ok (mkGetWatcherPresetResponse true (wpr_presets req) "")), st'')
  ∧ ∀ b, b ≠ a → get_watcher_preset b (ws_storage st') = get_watcher_preset b (ws_storage st).
Proof.
  intros Hh Hp Hl Hd Ht Hdev. set (d := ws_storage st) in *.
  set (d1 := ensure_account ext (wpr_auth_token req) a (env_uuid env) (env_now env 1) d).
  assert (Hd1 : watcher_presets d1 = watcher_presets d ∧ devices d1 = devices d ∧ auth_tokens d1 = auth_tokens d).
  { unfold d1, ensure_account. cbn. by repeat case_match. }
  destruct Hd1 as (Hpre & Hdv & Htok).
  assert (Hstore : ∃ st', handle req env st = (Returned (Ok (mkWatcherPresetResponse true "")), st')
    ∧ ws_storage st' = set_watcher_presets (<[a := wpr_presets req]> (watcher_presets d1)) d1).
  { destruct Hh as [-> | ->];
      [apply (store_preset_stores register_watcher_preset_proto _ _ req env st (ws_with_storage d1 st) a)
      |apply (store_preset_stores update_watcher_preset_proto _ _ req env st (ws_with_storage d1 st) a)];
      solve [by auto|by apply verified_account_live|by apply (device_accepted_devices _ _ d)]. }
  destruct Hstore as (st' & Hst & Hs'). exists st'. eexists. split; [done|]. split.
  - unfold handle_get_watcher_preset, mthen. rewrite Ht, Hdev.
    rewrite (verified_account_live _ _ _ a); [|done|].
    2: { rewrite Hs'. destruct Hl as (? & t & Hl & ?). split; [done|]. exists t. split; [|done].
         cbn in *. unfold get_auth_token in *. cbn. by rewrite Htok. }
    match goal with |- context [ensure_account ?e ?t ?a ?u ?n ?d] =>
      assert (He : watcher_presets (ensure_account e t a u n d) = watcher_presets d
        ∧ devices (ensure_account e t a u n d) = devices d)
        by (unfold ensure_account; cbn; by repeat case_match) end.
    destruct He as [He1 He2]. rewrite validate_device_accepted.
    2: { apply (device_accepted_devices _ _ d); [|done]. cbn [ws_storage ws_with_storage].
         rewrite He2, Hs'. done. }
    unfold mtry, ws_read, ws_op, on_ws, on_part. cbn [ws_storage ws_with_storage s_get_watcher_preset memory_storage].
    unfold get_watcher_preset. rewrite He1, Hs'. cbn [watcher_presets set_watcher_presets].
    rewrite lookup_insert_eq. reflexivity.
  - intros b Hb. unfold get_watcher_preset. rewrite Hs'. cbn [watcher_presets set_watcher_presets].
    by rewrite lookup_insert_ne, Hpre.
Qed.

(** A preset request with a token that is not valid is not refused: it is
    carried out for the account with the empty name. *)
Theorem invalid_token_acts_as_empty_account req env st :
  prefix_ok (wpr_auth_token req) = true →
  (∀ a, ¬ live_token (wpr_auth_token req) (env_now env 0) (ws_storage st) a) →
  device_accepted "" (wpr_device_hash req) (ws_storage st) →
  ∃ st', handle_register_watcher_preset is_open false de ee ext getenv req env st
    = (Returned (Ok (mkWatcherPresetResponse true "")), st')
  ∧ get_watcher_preset "" (ws_storage st') = Ok (wpr_presets req).
Proof.
  intros Hp Hno Hd.
  destruct (store_preset_stores register_watcher_preset_proto "Error registering watcher preset" WG_Created
    req env st st "") as (st' & H & Hs); [by left|by apply verified_account_dead|done|].
  exists st'. split; [done|]. unfold get_watcher_preset. rewrite Hs. cbn. by rewrite lookup_insert_eq.
Qed.

(** *** Deletion *)

(** The token of the request is not read. *)
Lemma delete_group_deletes req env st grp :
  device_accepted (xgr_account_hash req) (xgr_device_hash req) (ws_storage st) →
  groups st !! xgr_group_id req = Some grp → wg_account_hash grp = xgr_account_hash req →
  ∃ st', handle_delete_watcher_group is_open getenv req env st
    = (Returned (Ok (mkWatcherGroupResponse true (xgr_group_id req) "")), st')
  ∧ groups st' = delete (xgr_group_id req) (groups st).
Proof.
  intros Hd Hg Ha. unfold handle_delete_watcher_group, mthen. rewrite validate_device_accepted by done.
  unfold mtry, ws_read, ws_op, on_ws, on_part.
  cbn [s_get_watcher_group_by_account_and_id s_delete_watcher_group memory_storage ws_storage ws_with_storage].
  unfold get_watcher_group_by_account_and_id, delete_watcher_group.
  rewrite Hg, bool_decide_eq_true_2 by done. cbn [negb ws_storage ws_with_storage].
  rewrite Hg, bool_decide_eq_true_2 by done. cbn -[broadcast_watcher_group_update].
  match goal with |- context [broadcast_watcher_group_update ?o ?n ?a ?e ?x] =>
    destruct (broadcast_watcher_group_update o n a e x) end.
  by eexists.
Qed.

Context {F : Type} `{FST : FileStorage F}.

(** Two requests without a token delete any group of any account: one that
    reports device information for the account, and the deletion from that
    device. *)
Theorem unauthenticated_group_deletion regs req xreq env nm (app : AppState StorageData F) grp :
  (∀ k v, devices (fs_storage (as_file app)) !! k = Some v →
     pair_key (d_account_hash v) (d_device_hash v) = k) →
  (∀ k v, regs !! k = Some v → d_device_hash v = k) →
  watcher_groups (fs_storage (as_file app)) !! xgr_group_id xreq = Some grp →
  udr_account_hash req = wg_account_hash grp → xgr_account_hash xreq = wg_account_hash grp →
  xgr_device_hash xreq = udr_device_hash req →
  ∃ resp app' st', handle_update_device_info regs req env app = (Returned (Ok resp), app')
  ∧ handle_delete_watcher_group is_open getenv xreq env
      (mkWatcherState (fs_storage (as_file app')) nm [] [] [])
    = (Returned (Ok (mkWatcherGroupResponse true (xgr_group_id xreq) "")), st')
  ∧ groups st' = delete (xgr_group_id xreq) (watcher_groups (fs_storage (as_file app))).
Proof.
  intros Hk Hr Hg Ha Hx Hd.
  destruct (update_device_info_unauthenticated regs req env app Hk Hr) as (resp & app' & H & _ & Hv & Hgr & _).
  exists resp, app'.
  destruct (delete_group_deletes xreq env (mkWatcherState (fs_storage (as_file app')) nm [] [] []) grp)
    as (st' & H' & Hs); cbn.
  - right. by rewrite Hx, Hd, <- Ha.
  - by rewrite Hgr.
  - done.
  - exists st'. cbn in Hs. rewrite Hgr in Hs. done.
Qed.

End memory.

(** *** Examples *)

Section examples.
#[local] Existing Instance canonical_iter.
#[local] Existing Instance chrono_range.

(** A valid token and no devices; group 1 belongs to alice. *)
Definition watch_storage : StorageData :=
  set_watcher_groups {[ 1 := wg_with_id (sample_group 3) 1 [] ]} sample_tokens.
Definition watch_state : WatcherState (S:=StorageData) :=
  mkWatcherState watch_storage sample_manager [] [] [].
Definition dev_env (name : string) : option string :=
  if name == "COSMIC_SYNC_DEV_MODE" then Some "1" else None.

Definition client_group : sync_WatcherGroupData := mk_sync_WatcherGroupData 1 "Mine" [sample_watcher] None.
Definition start_progress : SyncProgress := mkSyncProgress (mkSyncStats 0 0 0 0 0 0 0) false [].
Definition sync_req : SyncConfigurationRequest :=
  mkSyncConfigurationRequest "acc" "dev1" "secret" [client_group] ["docs"] false false 0.
Definition preset_req (token : string) : WatcherPresetRequest :=
  mkWatcherPresetRequest "acc" "dev1" ["docs"; "music"] token.
Definition group_req : WatcherGroupRequest :=
  mkWatcherGroupRequest "acc" "dev1" 1 "Mine" (Some sample_watcher) "".

Lemma watch_groups_range k v :
  watcher_groups watch_storage !! k = Some v → i32_min ≤ k < i32_max.
Proof.
  cbn [watcher_groups watch_storage set_watcher_groups]. rewrite lookup_singleton_Some.
  intros [<- _]. vm_compute. split; [discriminate|reflexivity].
Qed.

Lemma watch_live : live_token "secret" (env_now env0 0) watch_storage "acc".
Proof.
  split; [discriminate|]. exists (sample_token "acc" "secret"). split_and!; vm_compute; reflexivity.
Qed.

Lemma sync_configuration_report_witness :
  ∃ resp st', handle_sync_configuration (λ _, true) false false true no_server no_regex dev_env id sync_req
    env0 3 watch_state = (Returned (Ok resp), st')
  ∧ scp_success resp = negb (scp_conflicts_detected resp).
Proof.
  destruct (sync_configuration_report (λ _, true) false false true no_server no_regex dev_env id sync_req
    env0 3 "acc" watch_state (verified_account false false true no_server "secret" env0 watch_state).2
    (verified_account false false true no_server "secret" env0 watch_state).2)
    as (resp & stats & st' & H & _ & Hs & _);
    [vm_compute; reflexivity|vm_compute; reflexivity|vm_compute; reflexivity|].
  exists resp, st'. split; [exact H|exact Hs].
Defined.

Lemma group_requests_isolated_witness :
  foreign_kept "acc" (watcher_groups watch_storage)
    (watcher_groups (ws_storage (handle_register_watcher_group (λ _, true) no_regex dev_env group_req env0
       watch_state).2)).
Proof.
  apply (group_requests_isolated (λ _, true) no_regex dev_env "acc" group_req
    (mkDeleteWatcherGroupRequest "acc" "dev1" 1 "") env0 watch_state); [reflexivity..|].
  exact watch_groups_range.
Defined.

Lemma watch_group_foreign grp :
  watcher_groups watch_storage !! swgd_group_id client_group = Some grp → wg_account_hash grp ≠ "acc".
Proof.
  cbn [watcher_groups watch_storage set_watcher_groups]. rewrite lookup_singleton_Some.
  intros [_ <-]. discriminate.
Qed.

Lemma sync_duplicates_group_witness :
  ∃ p' st' grp', sync_group (λ _, true) no_regex dev_env "acc" "dev1" false false (mkDateTime 5 0) "id"
    client_group start_progress watch_state = (Returned (Ok p'), st')
  ∧ watcher_groups (ws_storage st') !! 2 = Some grp' ∧ wg_account_hash grp' = "acc" ∧ wg_group_id grp' = 1.
Proof.
  destruct (sync_duplicates_group (λ _, true) no_regex dev_env "acc" "dev1" false false (mkDateTime 5 0) "id"
    client_group start_progress watch_state) as (p' & st' & grp' & H & _ & Hg & Ha & Hc & _).
  - exact watch_groups_range.
  - vm_compute. discriminate.
  - exact watch_group_foreign.
  - exists p', st', grp'. split; [exact H|]. split; [exact Hg|]. split; [exact Ha|exact Hc].
Defined.

Lemma sync_changes_foreign_group_witness :
  ∃ p' st', sync_group (λ _, true) no_regex dev_env "acc" "dev1" false false (mkDateTime 5 0) "id"
    client_group start_progress watch_state = (Returned (Ok p'), st')
  ∧ watcher_groups (ws_storage st') !! 1 = Some (wg_with_id (sample_group 3) 1 [1]).
Proof.
  destruct (sync_changes_foreign_group (λ _, true) no_regex dev_env "acc" "dev1" false false (mkDateTime 5 0)
    "id" client_group sample_watcher start_progress watch_state (wg_with_id (sample_group 3) 1 []))
    as (p' & st' & H & _ & Hg).
  - exact watch_groups_range.
  - vm_compute. reflexivity.
  - discriminate.
  - reflexivity.
  - vm_compute. reflexivity.
  - vm_compute. reflexivity.
  - apply not_elem_of_nil.
  - exists p', st'. split; [exact H|exact Hg].
Defined.

Lemma preset_roundtrip_witness :
  ∃ st' st'', handle_register_watcher_preset (λ _, true) false false true no_server dev_env
    (preset_req "secret") env0 watch_state = (Returned (Ok (mkWatcherPresetResponse true "")), st')
  ∧ handle_get_watcher_preset false false true no_server dev_env (mkGetWatcherPresetRequest "acc" "dev1" "secret")
      env0 st' = (Returned (Ok (mkGetWatcherPresetResponse true ["docs"; "music"] "")), st'').
Proof.
  destruct (preset_roundtrip (λ _, true) false true no_server dev_env (preset_req "secret")
    (mkGetWatcherPresetRequest "acc" "dev1" "secret") env0 watch_state "acc"
    (handle_register_watcher_preset (λ _, true) false false true no_server dev_env))
    as (st' & st'' & H & Hg & _);
    [left; reflexivity|reflexivity|exact watch_live|left; reflexivity|reflexivity|reflexivity|].
  exists st', st''. split; [exact H|exact Hg].
Defined.

Lemma invalid_token_acts_as_empty_account_witness :
  ∃ st', handle_register_watcher_preset (λ _, true) false false true no_server dev_env (preset_req "wrong")
    env0 watch_state = (Returned (Ok (mkWatcherPresetResponse true "")), st')
  ∧ get_watcher_preset "" (ws_storage st') = Ok ["docs"; "music"].
Proof.
  destruct (invalid_token_acts_as_empty_account (λ _, true) false true no_server dev_env (preset_req "wrong")
    env0 watch_state) as (st' & H & Hg).
  - reflexivity.
  - intros a (_ & t & Ht & _). vm_compute in Ht. discriminate Ht.
  - left. reflexivity.
  - exists st'. split; [exact H|exact Hg].
Defined.

Definition watch_app : AppState StorageData (gmap Z bytes) :=
  mkAppState (mkFileService ∅ watch_storage None None []) [].

Lemma unauthenticated_group_deletion_witness :
  ∃ resp app' st',
    handle_update_device_info ∅ (mkUpdateDeviceInfoRequest "alice" "dev9" true "os" "1.0") env0 watch_app
      = (Returned (Ok resp), app')
  ∧ handle_delete_watcher_group (λ _, true) no_env (mkDeleteWatcherGroupRequest "alice" "dev9" 1 "") env0
      (mkWatcherState (fs_storage (as_file app')) sample_manager [] [] [])
    = (Returned (Ok (mkWatcherGroupResponse true 1 "")), st')
  ∧ watcher_groups (ws_storage st') = ∅.
Proof.
  destruct (unauthenticated_group_deletion (λ _, true) no_env ∅
    (mkUpdateDeviceInfoRequest "alice" "dev9" true "os" "1.0")
    (mkDeleteWatcherGroupRequest "alice" "dev9" 1 "") env0 sample_manager watch_app
    (wg_with_id (sample_group 3) 1 [])) as (resp & app' & st' & H & H' & Hg).
  - intros k v. cbn. by rewrite lookup_empty.
  - intros k v. by rewrite lookup_empty.
  - vm_compute. reflexivity.
  - reflexivity.
  - reflexivity.
  - reflexivity.
  - exists resp, app', st'. split; [exact H|]. split; [exact H'|]. rewrite Hg. reflexivity.
Defined.

End examples.
