(* ===== verification/Service.v ===== *)
(** * The gRPC service (src/server/service.rs)

    One constructor of [Rpc] per method of the two services, with its request and the
    type of its response; [serve] hands a request to its handler on the part of the
    state the handler works on.  All handlers share the storage, the notification
    manager and the events of one server. *)

From S2P Require Import Prelude RustString Errors Models Memory Connections StorageApi Effects Crypto Notify FileService.
From S2P Require Import VersionService Auth OAuth AuthHandlers FileHandlers Subscriptions DeviceHandlers WatcherHandlers.

(** The default of each method of the trait [Handler] (src/services/mod.rs);
    [Unimplemented] is among the codes that [Code_Other] stands for. *)
Definition unimplemented (method : string) : Status := mkStatus Code_Other (method +:+ " method is not implemented").

Record HealthCheckResponse := mkHealthCheckResponse { hcp_status : string; hcp_version : string }.

(** What a subscription answers: the receiving half of the channel the handlers send
    on, or one whose sender is gone. *)
Inductive Stream := Live (tx : Sender) | Ended.

Inductive Rpc : Type → Type :=
| Login (req : LoginRequest) : Rpc LoginResponse
| VerifyLogin (req : VerifyLoginRequest) : Rpc VerifyLoginResponse
| ValidateToken (req : ValidateTokenRequest) : Rpc ValidateTokenResponse
| ExchangeOauthCode (req : OAuthExchangeRequest) : Rpc OAuthExchangeResponse
| CheckAuthStatus (req : CheckAuthStatusRequest) : Rpc CheckAuthStatusResponse
| GetAccountInfo (req : GetAccountInfoRequest) : Rpc GetAccountInfoResponse
| RegisterDevice (req : RegisterDeviceRequest) : Rpc RegisterDeviceResponse
| ListDevices (req : ListDevicesRequest) : Rpc ListDevicesResponse
| DeleteDevice (req : DeleteDeviceRequest) : Rpc DeleteDeviceResponse
| UpdateDeviceInfo (req : UpdateDeviceInfoRequest) : Rpc UpdateDeviceInfoResponse
| RequestEncryptionKey (req : RequestEncryptionKeyRequest) : Rpc RequestEncryptionKeyResponse
| UploadFile (req : UploadFileRequest) : Rpc UploadFileResponse
| DeleteFile (req : DeleteFileRequest) : Rpc DeleteFileResponse
| DownloadFile (req : DownloadFileRequest) : Rpc DownloadFileResponse
| ListFiles (req : ListFilesRequest) : Rpc ListFilesResponse
| FindFileByCriteria (req : FindFileRequest) : Rpc FindFileResponse
| CheckFileExists (req : CheckFileExistsRequest) : Rpc CheckFileExistsResponse
| GetFileHistory (req : GetFileHistoryRequest) : Rpc GetFileHistoryResponse
| RestoreFileVersion (req : RestoreFileVersionRequest) : Rpc RestoreFileVersionResponse
| BroadcastFileRestore (req : BroadcastFileRestoreRequest) : Rpc BroadcastFileRestoreResponse
| RegisterWatcherPreset (req : WatcherPresetRequest) : Rpc WatcherPresetResponse
| UpdateWatcherPreset (req : WatcherPresetRequest) : Rpc WatcherPresetResponse
| GetWatcherPreset (req : GetWatcherPresetRequest) : Rpc GetWatcherPresetResponse
| RegisterWatcherGroup (req : WatcherGroupRequest) : Rpc WatcherGroupResponse
| UpdateWatcherGroup (req : WatcherGroupRequest) : Rpc WatcherGroupResponse
| DeleteWatcherGroup (req : DeleteWatcherGroupRequest) : Rpc WatcherGroupResponse
| GetWatcherGroup (req : GetWatcherGroupRequest) : Rpc GetWatcherGroupResponse
| GetWatcherGroups (req : GetWatcherGroupsRequest) : Rpc GetWatcherGroupsResponse
| SyncConfiguration (req : SyncConfigurationRequest) : Rpc SyncConfigurationResponse
| HealthCheck : Rpc HealthCheckResponse
| SubscribeToFileUpdates (req : SubscribeRequest) : Rpc Stream
| SubscribeToWatcherPresetUpdates (req : SubscribeRequest) : Rpc Stream
| SubscribeToWatcherGroupUpdates (req : SubscribeRequest) : Rpc Stream
| SubscribeToAuthUpdates (req : SubscribeRequest) : Rpc Stream
| SubscribeToDeviceUpdates (req : SubscribeRequest) : Rpc Stream
| SubscribeToEncryptionKeyUpdates (req : SubscribeRequest) : Rpc Stream
| SubscribeToVersionUpdates (req : SubscribeRequest) : Rpc Stream
| NotifyAuthSuccess (req : AuthSuccessNotification) : Rpc AuthNotificationResponse.

(** What one request draws from outside: clock and identifiers, the letters of a new
    key, the channel of a subscription, the time it took. *)
Record RpcEnv := mkRpcEnv {
  re_req : ReqEnv;
  re_auth : AuthEnv;
  re_draw : nat → ascii;
  re_tx : Sender;
  re_elapsed_ms : Z
}.

(** Build and configuration of a server, and the code of other crates. *)
Record Setup (S : Type) := mkSetup {
  se_is_open : Sender → bool;
  se_send_error : string;
  se_debug_assertions : bool;
  se_debug_enabled : bool;
  se_error_enabled : bool;
  se_info_enabled : bool;
  se_external_user_info : string → result OAuthUserInfo AuthError;
  se_exchange_and_authenticate : string → result (string * OAuthUserInfo) AuthError;
  se_transport_encrypt_metadata : bool;
  se_dev_mode : bool;
  se_test_mode : bool;
  se_regex_new : string → option (string → bool);
  se_getenv : string → option string;
  se_completion : list (option sync_WatcherGroupData) → list (option sync_WatcherGroupData);
  se_mysql : option (string → string → Z → Z → option string → S → Res (Z * Z) * S);
  se_pkg_version : string
}.
Arguments mkSetup {S}.
Arguments se_is_open {S}.
Arguments se_send_error {S}.
Arguments se_debug_assertions {S}.
Arguments se_debug_enabled {S}.
Arguments se_error_enabled {S}.
Arguments se_info_enabled {S}.
Arguments se_external_user_info {S}.
Arguments se_exchange_and_authenticate {S}.
Arguments se_transport_encrypt_metadata {S}.
Arguments se_dev_mode {S}.
Arguments se_test_mode {S}.
Arguments se_regex_new {S}.
Arguments se_getenv {S}.
Arguments se_completion {S}.
Arguments se_mysql {S}.
Arguments se_pkg_version {S}.

Section service.
Context `{HI : HashIter} `{CA : CryptoApi} `{CH : Chrono} {S : Type} `{ST : Storage S} `{AST : AccountStorage S}
  {F : Type} `{FST : FileStorage F}.
Context (setup : Setup S).

(** ** The state the handlers share *)

(** The file service with the storage, the contents storage and the notification
    manager; the published events; the messages delivered on the watcher streams and by
    initial transfers; the log-in sessions with their lock; the connection tracker. *)
Record SyncServer := mkSyncServer {
  gs_app : AppState S F;
  gs_group_log : list (string * WatcherGroupUpdateNotification);
  gs_preset_log : list (string * WatcherPresetUpdateNotification);
  gs_sessions : Sessions;
  gs_poisoned : bool;
  gs_tracker : Tracker;
  gs_sent : list (string * FileUpdateNotification)
}.
Implicit Types (g : SyncServer).

Definition server_storage g : S := fs_storage (as_file (gs_app g)).

Definition server_nm g : NotificationManager :=
  default NotificationManager_new (fs_notification_manager (as_file (gs_app g))).

(** The file service with another storage and notification manager. *)
Definition shared (s : S) (nm : NotificationManager) (f : FileService S F) : FileService S F :=
  mkFileService (fs_files f) s (fs_file_storage f) ((λ _, nm) <$> fs_notification_manager f) (fs_delivered f).

Definition with_app (a : AppState S F) g : SyncServer :=
  mkSyncServer a (gs_group_log g) (gs_preset_log g) (gs_sessions g) (gs_poisoned g) (gs_tracker g) (gs_sent g).

Definition watcher_part g : WatcherState (S := S) :=
  mkWatcherState (server_storage g) (server_nm g) (as_events (gs_app g)) (gs_group_log g) (gs_preset_log g).
Definition with_watcher_part (w : WatcherState (S := S)) g : SyncServer :=
  mkSyncServer (mkAppState (shared (ws_storage w) (ws_nm w) (as_file (gs_app g))) (ws_events w))
    (ws_group_log w) (ws_preset_log w) (gs_sessions g) (gs_poisoned g) (gs_tracker g) (gs_sent g).

Definition auth_part g : AuthState S := mkAuthState (server_storage g) (gs_sessions g) (gs_poisoned g).
Definition with_auth_part (a : AuthState S) g : SyncServer :=
  mkSyncServer (mkAppState (with_storage (au_storage a) (as_file (gs_app g))) (as_events (gs_app g)))
    (gs_group_log g) (gs_preset_log g) (au_sessions a) (au_poisoned a) (gs_tracker g) (gs_sent g).

Definition stream_part g : Server S := mkServer (server_storage g) (server_nm g) (gs_tracker g) (gs_sent g).
Definition with_stream_part (sv : Server S) g : SyncServer :=
  mkSyncServer (mkAppState (shared (sv_storage sv) (sv_nm sv) (as_file (gs_app g))) (as_events (gs_app g)))
    (gs_group_log g) (gs_preset_log g) (gs_sessions g) (gs_poisoned g) (sv_tracker sv) (sv_sent sv).

(** ** Dispatch *)

Definition handled {A} (o : outcome A Status) : run A :=
  match o with Returned r => Answered r | Panicked => Died end.

Definition by_app {A} (m : ME (AppState S F) Status A) g : run A * SyncServer :=
  let '(o, g) := on_part gs_app with_app m g in (handled o, g).
Definition by_watchers {A} (m : ME (WatcherState (S := S)) Status A) g : run A * SyncServer :=
  let '(o, g) := on_part watcher_part with_watcher_part m g in (handled o, g).
Definition by_auth {A} (m : ME (AuthState S) Status A) g : run A * SyncServer :=
  let '(o, g) := on_part auth_part with_auth_part m g in (handled o, g).

Definition live_stream (r : run Sender) : run Stream :=
  match r with
  | Answered (Ok tx) => Answered (Ok (Live tx))
  | Answered (Err e) => Answered (Err e)
  | Died => Died
  | Blocked => Blocked
  end.
Definition by_stream (m : Server S → run Sender * Server S) g : run Stream * SyncServer :=
  let '(r, sv) := m (stream_part g) in (live_stream r, with_stream_part sv g).

(** A method that uses nothing of the server. *)
Definition constant {A} (a : A) g : run A * SyncServer := (Answered (Ok a), g).

(** [SyncServiceImpl::validate_auth], which nothing calls. *)
Definition validate_auth (auth_token account_hash : string) (env : ReqEnv) : ME (AppState S F) Status unit :=
  if str_is_empty auth_token then throw (mkStatus Code_Unauthenticated "Empty authentication token")
  else
    mtry (on_storage (verify_token (se_debug_assertions setup) (se_debug_enabled setup) (se_error_enabled setup)
                        (se_external_user_info setup) auth_token (env_uuid env) (env_now env 0) (env_now env 1)))
      (λ r, match r with
            | Ok v => if vr_valid v && (vr_account_hash v == account_hash) then ret tt
                      else throw (mkStatus Code_Unauthenticated "Invalid authentication")
            | Err _ => throw (mkStatus Code_Unauthenticated "Invalid authentication")
            end).

(** The settings of this server, as the handlers take them. *)
Abbreviation da := (se_debug_assertions setup).
Abbreviation de := (se_debug_enabled setup).
Abbreviation ee := (se_error_enabled setup).
Abbreviation ext := (se_external_user_info setup).
Abbreviation is_open := (se_is_open setup).
Abbreviation send_error := (se_send_error setup).
Abbreviation enc := (se_transport_encrypt_metadata setup).
Abbreviation getenv := (se_getenv setup).
Abbreviation regex := (se_regex_new setup).
Abbreviation Method A := (RpcEnv → SyncServer → run A * SyncServer).

(** *** Log-in *)

Definition rpc_login (req : LoginRequest) : Method LoginResponse := λ _,
  by_auth (login req).
Definition rpc_verify_login (req : VerifyLoginRequest) : Method VerifyLoginResponse := λ env,
  by_auth (verify_login da de ee ext req (re_auth env)).
(** The method of that name of [AuthHandler] is private to its module, so that the call
    reaches the default of the trait [Handler]. *)
Definition rpc_validate_token (_ : ValidateTokenRequest) : Method ValidateTokenResponse := λ _ g,
  (Answered (Err (unimplemented "handle_validate_token")), g).
Definition rpc_exchange_oauth_code (req : OAuthExchangeRequest) : Method OAuthExchangeResponse := λ env,
  by_auth (handle_oauth_exchange (se_info_enabled setup) (se_exchange_and_authenticate setup) req (re_auth env)).
Definition rpc_check_auth_status (req : CheckAuthStatusRequest) : Method CheckAuthStatusResponse := λ env,
  by_auth (check_auth_status req (re_auth env)).
Definition rpc_get_account_info (req : GetAccountInfoRequest) : Method GetAccountInfoResponse := λ env,
  by_auth (get_account_info da de ee ext req (re_auth env)).

(** *** Devices and keys *)

Definition rpc_register_device (req : RegisterDeviceRequest) : Method RegisterDeviceResponse := λ env,
  by_app (handle_register_device da de ee req (re_req env)).
Definition rpc_list_devices (req : ListDevicesRequest) : Method ListDevicesResponse := λ env,
  by_app (handle_list_devices da de ee req (re_req env)).
Definition rpc_delete_device (req : DeleteDeviceRequest) : Method DeleteDeviceResponse := λ env,
  by_app (handle_delete_device da de ee req (re_req env)).
Definition rpc_update_device_info (req : UpdateDeviceInfoRequest) : Method UpdateDeviceInfoResponse := λ env,
  by_app (handle_update_device_info ∅ req (re_req env)).
Definition rpc_request_encryption_key (req : RequestEncryptionKeyRequest)
    : Method RequestEncryptionKeyResponse := λ env,
  by_app (handle_request_encryption_key da de ee ext req (re_req env) (re_draw env)).

(** *** Files and versions *)

Definition rpc_upload_file (req : UploadFileRequest) : Method UploadFileResponse := λ env,
  by_app (handle_upload_file is_open send_error da de ee ext (se_mysql setup) req (re_req env)).
Definition rpc_delete_file (req : DeleteFileRequest) : Method DeleteFileResponse := λ env,
  by_app (handle_delete_file is_open send_error da de ee ext req (re_req env)).
Definition rpc_download_file (req : DownloadFileRequest) : Method DownloadFileResponse := λ env,
  by_app (handle_download_file da de ee ext enc req (re_req env)).
Definition rpc_list_files (req : ListFilesRequest) : Method ListFilesResponse := λ env,
  by_app (handle_list_files da de ee ext enc req (re_req env)).
Definition rpc_find_file_by_criteria (req : FindFileRequest) : Method FindFileResponse := λ env,
  by_app (handle_find_file_by_criteria da de ee ext req (re_req env)).
Definition rpc_check_file_exists (req : CheckFileExistsRequest) : Method CheckFileExistsResponse := λ env,
  by_app (handle_check_file_exists da de ee ext req (re_req env)).
Definition rpc_get_file_history (req : GetFileHistoryRequest) : Method GetFileHistoryResponse := λ env,
  by_app (handle_get_file_history da de ee ext req (re_req env)).
Definition rpc_restore_file_version (req : RestoreFileVersionRequest) : Method RestoreFileVersionResponse := λ env,
  by_app (handle_restore_file_version is_open send_error da de ee ext req (re_req env)).
Definition rpc_broadcast_file_restore (req : BroadcastFileRestoreRequest)
    : Method BroadcastFileRestoreResponse := λ env,
  by_app (handle_broadcast_file_restore da de ee ext req (re_req env)).

(** *** Presets, groups and the health check *)

Definition rpc_register_watcher_preset (req : WatcherPresetRequest) : Method WatcherPresetResponse := λ env,
  by_watchers (handle_register_watcher_preset is_open da de ee ext getenv req (re_req env)).
Definition rpc_update_watcher_preset (req : WatcherPresetRequest) : Method WatcherPresetResponse := λ env,
  by_watchers (handle_update_watcher_preset is_open da de ee ext getenv req (re_req env)).
Definition rpc_get_watcher_preset (req : GetWatcherPresetRequest) : Method GetWatcherPresetResponse := λ env,
  by_watchers (handle_get_watcher_preset da de ee ext getenv req (re_req env)).
Definition rpc_register_watcher_group (req : WatcherGroupRequest) : Method WatcherGroupResponse := λ env,
  by_watchers (handle_register_watcher_group is_open regex getenv req (re_req env)).
Definition rpc_update_watcher_group (req : WatcherGroupRequest) : Method WatcherGroupResponse := λ env,
  by_watchers (handle_update_watcher_group is_open regex getenv req (re_req env)).
Definition rpc_delete_watcher_group (req : DeleteWatcherGroupRequest) : Method WatcherGroupResponse := λ env,
  by_watchers (handle_delete_watcher_group is_open getenv req (re_req env)).
Definition rpc_get_watcher_group (req : GetWatcherGroupRequest) : Method GetWatcherGroupResponse := λ env,
  by_watchers (handle_get_watcher_group da de ee ext getenv req (re_req env)).
Definition rpc_get_watcher_groups (req : GetWatcherGroupsRequest) : Method GetWatcherGroupsResponse := λ env,
  by_watchers (handle_get_watcher_groups da de ee ext getenv req (re_req env)).
Definition rpc_sync_configuration (req : SyncConfigurationRequest) : Method SyncConfigurationResponse := λ env,
  by_watchers (handle_sync_configuration is_open da de ee ext regex getenv (se_completion setup) req
    (re_req env) (re_elapsed_ms env)).
Definition handle_health_check : HealthCheckResponse := mkHealthCheckResponse "SERVING" (se_pkg_version setup).
Definition rpc_health_check : Method HealthCheckResponse := λ _,
  constant handle_health_check.

(** *** Streams *)

Definition rpc_subscribe_to_file_updates (req : SubscribeRequest) : Method Stream := λ env,
  by_stream (subscribe_to_file_updates is_open da de ee ext enc req (re_tx env) (re_req env)).
Definition rpc_subscribe_to_watcher_preset_updates (req : SubscribeRequest) : Method Stream := λ env,
  by_stream (subscribe_to_watcher_preset_updates da de ee ext (se_dev_mode setup) (se_test_mode setup) req
    (re_tx env) (re_req env)).
Definition rpc_subscribe_to_watcher_group_updates (req : SubscribeRequest) : Method Stream := λ env,
  by_stream (subscribe_to_watcher_group_updates da de ee ext (se_dev_mode setup) (se_test_mode setup) req
    (re_tx env) (re_req env)).
Definition rpc_subscribe_to_auth_updates (_ : SubscribeRequest) : Method Stream := λ _,
  constant Ended.
Definition rpc_subscribe_to_device_updates (_ : SubscribeRequest) : Method Stream := λ _,
  constant Ended.
Definition rpc_subscribe_to_encryption_key_updates (_ : SubscribeRequest) : Method Stream := λ _,
  constant Ended.
Definition rpc_subscribe_to_version_updates (_ : SubscribeRequest) : Method Stream := λ _,
  constant Ended.

(** *** The client service *)

Definition rpc_notify_auth_success (_ : AuthSuccessNotification) : Method AuthNotificationResponse := λ _,
  constant (mkAuthNotificationResponse true "Notification received").

(** ** Dispatch by method *)

Definition serve {A} (r : Rpc A) (env : RpcEnv) : SyncServer → run A * SyncServer :=
  match r with
  | Login req => rpc_login req env
  | VerifyLogin req => rpc_verify_login req env
  | ValidateToken req => rpc_validate_token req env
  | ExchangeOauthCode req => rpc_exchange_oauth_code req env
  | CheckAuthStatus req => rpc_check_auth_status req env
  | GetAccountInfo req => rpc_get_account_info req env
  | RegisterDevice req => rpc_register_device req env
  | ListDevices req => rpc_list_devices req env
  | DeleteDevice req => rpc_delete_device req env
  | UpdateDeviceInfo req => rpc_update_device_info req env
  | RequestEncryptionKey req => rpc_request_encryption_key req env
  | UploadFile req => rpc_upload_file req env
  | DeleteFile req => rpc_delete_file req env
  | DownloadFile req => rpc_download_file req env
  | ListFiles req => rpc_list_files req env
  | FindFileByCriteria req => rpc_find_file_by_criteria req env
  | CheckFileExists req => rpc_check_file_exists req env
  | GetFileHistory req => rpc_get_file_history req env
  | RestoreFileVersion req => rpc_restore_file_version req env
  | BroadcastFileRestore req => rpc_broadcast_file_restore req env
  | RegisterWatcherPreset req => rpc_register_watcher_preset req env
  | UpdateWatcherPreset req => rpc_update_watcher_preset req env
  | GetWatcherPreset req => rpc_get_watcher_preset req env
  | RegisterWatcherGroup req => rpc_register_watcher_group req env
  | UpdateWatcherGroup req => rpc_update_watcher_group req env
  | DeleteWatcherGroup req => rpc_delete_watcher_group req env
  | GetWatcherGroup req => rpc_get_watcher_group req env
  | GetWatcherGroups req => rpc_get_watcher_groups req env
  | SyncConfiguration req => rpc_sync_configuration req env
  | HealthCheck => rpc_health_check env
  | SubscribeToFileUpdates req => rpc_subscribe_to_file_updates req env
  | SubscribeToWatcherPresetUpdates req => rpc_subscribe_to_watcher_preset_updates req env
  | SubscribeToWatcherGroupUpdates req => rpc_subscribe_to_watcher_group_updates req env
  | SubscribeToAuthUpdates req => rpc_subscribe_to_auth_updates req env
  | SubscribeToDeviceUpdates req => rpc_subscribe_to_device_updates req env
  | SubscribeToEncryptionKeyUpdates req => rpc_subscribe_to_encryption_key_updates req env
  | SubscribeToVersionUpdates req => rpc_subscribe_to_version_updates req env
  | NotifyAuthSuccess req => rpc_notify_auth_success req env
  end.

End service.

Arguments SyncServer : clear implicits.

Create HintDb rpc.
#[export] Hint Unfold serve rpc_login rpc_verify_login rpc_validate_token rpc_exchange_oauth_code
  rpc_check_auth_status rpc_get_account_info rpc_register_device rpc_list_devices rpc_delete_device
  rpc_update_device_info rpc_request_encryption_key rpc_upload_file rpc_delete_file rpc_download_file
  rpc_list_files rpc_find_file_by_criteria rpc_check_file_exists rpc_get_file_history
  rpc_restore_file_version rpc_broadcast_file_restore rpc_register_watcher_preset rpc_update_watcher_preset
  rpc_get_watcher_preset rpc_register_watcher_group rpc_update_watcher_group rpc_delete_watcher_group
  rpc_get_watcher_group rpc_get_watcher_groups rpc_sync_configuration rpc_health_check
  rpc_subscribe_to_file_updates rpc_subscribe_to_watcher_preset_updates
  rpc_subscribe_to_watcher_group_updates rpc_subscribe_to_auth_updates rpc_subscribe_to_device_updates
  rpc_subscribe_to_encryption_key_updates rpc_subscribe_to_version_updates rpc_notify_auth_success : rpc.
