(* ===== verification/ServiceProps.v ===== *)
(** * Properties of the gRPC service

    What a client without a live token can do and learn, over all requests at once. *)

From S2P Require Import Prelude RustString Errors Models Memory MemoryProps Connections StorageApi Effects Crypto Notify NotifyProps FileService FileServiceProps.
From S2P Require Import VersionService Auth OAuth AuthHandlers AuthHandlersProps FileHandlers FileHandlersProps Subscriptions SubscriptionsProps DeviceHandlers WatcherHandlers Service.

(** ** Requests that insist on a live token *)

(** The token a request has to carry.  The device requests answer why a token was
    refused and are in [device_requests_need_token]; the requests on presets and groups
    do not insist on one ([invalid_token_acts_as_empty_account],
    [unauthenticated_group_deletion]), nor do the log-in and the status. *)
Definition required_token {A} (r : Rpc A) : option string :=
  match r with
  | GetAccountInfo req => Some (gar_auth_token req)
  | ListDevices req => Some (ldr_auth_token req)
  | RequestEncryptionKey req => Some (rkr_auth_token req)
  | UploadFile req => Some (ufr_auth_token req)
  | DeleteFile req => Some (xfr_auth_token req)
  | DownloadFile req => Some (dfr_auth_token req)
  | ListFiles req => Some (lfr_auth_token req)
  | FindFileByCriteria req => Some (ffr_auth_token req)
  | CheckFileExists req => Some (cer_auth_token req)
  | GetFileHistory req => Some (ghr_auth_token req)
  | RestoreFileVersion req => Some (rvr_auth_token req)
  | BroadcastFileRestore req => Some (brr_auth_token req)
  | SubscribeToFileUpdates req | SubscribeToWatcherPresetUpdates req | SubscribeToWatcherGroupUpdates req =>
      Some (sr_auth_token req)
  | _ => None
  end.

(** The field [success] of an answer. *)
Definition succeeded {A} (r : Rpc A) : A → bool :=
  match r with
  | GetAccountInfo _ => gap_success
  | ListDevices _ => ldp_success
  | RequestEncryptionKey _ => rkp_success
  | UploadFile _ => ufp_success
  | DeleteFile _ => xfp_success
  | DownloadFile _ => dfp_success
  | ListFiles _ => lfp_success
  | FindFileByCriteria _ => ffp_success
  | CheckFileExists _ => cep_success
  | GetFileHistory _ => ghp_success
  | RestoreFileVersion _ => rvp_success
  | BroadcastFileRestore _ => brp_success
  | _ => λ _, true
  end.

Definition refused {A} (r : Rpc A) (x : run A) : Prop :=
  match x with
  | Answered (Ok a) => succeeded r a = false
  | Answered (Err _) => True
  | Died | Blocked => False
  end.

Section guard.
Context `{HI : HashIter} `{CA : CryptoApi} `{CH : Chrono} {S : Type} `{ST : Storage S} `{AST : AccountStorage S}
  {F : Type} `{FST : FileStorage F}.
Context (setup : Setup S).
Implicit Types (g : SyncServer S F).

(** The token is live for no account when the request reads the clock. *)
Definition dead_token (token : string) (env : RpcEnv) g : Prop :=
  (∀ a, ¬ live_token token (env_now (re_req env) 0) (server_storage g) a)
  ∧ (∀ a, ¬ live_token token (ae_now (re_auth env) 0) (server_storage g) a).

(** *** The parts put back unchanged *)

Lemma shared_same g : shared (server_storage g) (server_nm g) (as_file (gs_app g)) = as_file (gs_app g).
Proof. unfold shared, server_storage, server_nm. by destruct (as_file (gs_app g)) as [? ? ? [nm|] ?]. Qed.

Lemma by_app_ends {A} (m : ME (AppState S F) Status A) g o :
  m (gs_app g) = (o, gs_app g) → by_app m g = (handled o, g).
Proof. intros E. unfold by_app, on_part. rewrite E. by destruct g. Qed.

Lemma by_auth_ends {A} (m : ME (AuthState S) Status A) g o :
  m (auth_part g) = (o, auth_part g) → by_auth m g = (handled o, g).
Proof.
  intros E. unfold by_auth, on_part. rewrite E. unfold with_auth_part, auth_part, server_storage. cbn.
  rewrite with_storage_same. by destruct g as [[]].
Qed.

Lemma by_stream_ends (m : Server S → run Sender * Server S) g x :
  m (stream_part g) = (x, stream_part g) → by_stream m g = (live_stream x, g).
Proof.
  intros E. unfold by_stream. rewrite E. unfold with_stream_part, stream_part. cbn.
  rewrite shared_same. by destruct g as [[]].
Qed.

(** *** A dead token at each of the three checks *)

Lemma account_checked_none de ee ext {A} token acc (env : ReqEnv) (failed mismatch : A) k (st : AppState S F) :
  prefix_ok token = true → (∀ a, ¬ live_token token (env_now env 0) (fs_storage (as_file st)) a) →
  account_checked false de ee ext token acc env failed mismatch k st =
    (Returned (if str_is_empty token then Err (mkStatus Code_Unauthenticated "Authentication token is required")
               else Ok mismatch), st).
Proof.
  intros Hp Hno. unfold account_checked. destruct (str_is_empty token); [done|].
  unfold mtry, on_storage, on_file, on_part.
  destruct (verify_token_cases false de ee ext token (env_uuid env) (env_now env 0) (env_now env 1)
    (fs_storage (as_file st)) eq_refl Hp) as [[a Ha]|[-> _]]; [by destruct (Hno a)|].
  cbn. rewrite with_storage_same. by destruct st.
Qed.

Lemma account_info_dead de ee ext req env (st : AuthState S) :
  prefix_ok (gar_auth_token req) = true →
  (∀ a, ¬ live_token (gar_auth_token req) (ae_now env 0) (au_storage st) a) →
  get_account_info false de ee ext req env st =
    (Returned (Err (if str_is_empty (gar_auth_token req)
                    then mkStatus Code_InvalidArgument "Auth token is required"
                    else mkStatus Code_Unauthenticated "Invalid authentication token")), st).
Proof.
  intros Hp Hno. unfold get_account_info. destruct (str_is_empty _); [done|].
  unfold mtry, verify, au_on_storage, on_part.
  destruct (verify_token_cases false de ee ext (gar_auth_token req) (ae_uuid env 0) (ae_now env 0) (ae_now env 1)
    (au_storage st) eq_refl Hp) as [[a Ha]|[-> _]]; [by destruct (Hno a)|]. by destruct st.
Qed.

Section dead.
Context (token : string) (env : RpcEnv).
Hypothesis (Hp : prefix_ok token = true).
Abbreviation de := (se_debug_enabled setup).
Abbreviation ee := (se_error_enabled setup).
Abbreviation ext := (se_external_user_info setup).

Lemma file_request_dead {A} (fail : A) (k : VerificationResult → ME (AppState S F) Status A) g :
  dead_token token env g →
  by_app (authenticated false de ee ext token (re_req env) fail k) g = (Answered (Ok fail), g).
Proof. intros [Hd _]. apply (by_app_ends _ _ (Returned (Ok fail))). by apply authenticated_dead. Qed.

Lemma account_request_dead {A} acc (failed mismatch : A) (k : VerificationResult → ME (AppState S F) Status A) g :
  dead_token token env g →
  by_app (account_checked false de ee ext token acc (re_req env) failed mismatch k) g
  = (Answered (if str_is_empty token then Err (mkStatus Code_Unauthenticated "Authentication token is required")
               else Ok mismatch), g).
Proof. intros [Hd _]. apply (by_app_ends _ _ (Returned _)). by apply account_checked_none. Qed.

Lemma stream_request_dead (k : VerificationResult → Server S → run Sender * Server S) g : dead_token token env g →
  by_stream (with_verified_token false de ee ext token (re_req env) k) g
  = (Answered (Err (mkStatus Code_Unauthenticated "Invalid authentication token")), g).
Proof. intros [Hd _]. apply (by_stream_ends _ _ (Answered (Err _))). by apply with_verified_token_dead. Qed.

End dead.

Lemma upload_dead req env : se_debug_assertions setup = false → prefix_ok (ufr_auth_token req) = true →
  ∃ message, ∀ g, dead_token (ufr_auth_token req) env g →
    serve setup (UploadFile req) env g = (Answered (Ok (file_upload_error message)), g).
Proof.
  intros Hrel Hp. autounfold with rpc. rewrite Hrel. unfold handle_upload_file. destruct (negb _).
  - eexists. intros g _. by apply (by_app_ends _ _ (Returned (Ok _))).
  - eexists. intros g Hd. by apply file_request_dead.
Qed.

Lemma account_info_request_dead req env g :
  se_debug_assertions setup = false → prefix_ok (gar_auth_token req) = true → dead_token (gar_auth_token req) env g →
  serve setup (GetAccountInfo req) env g
  = (Answered (Err (if str_is_empty (gar_auth_token req)
                    then mkStatus Code_InvalidArgument "Auth token is required"
                    else mkStatus Code_Unauthenticated "Invalid authentication token")), g).
Proof.
  intros Hrel Hp [_ Hd]. autounfold with rpc. rewrite Hrel. apply (by_auth_ends _ _ (Returned (Err _))).
  by apply account_info_dead.
Qed.

Lemma list_devices_dead req env g :
  se_debug_assertions setup = false → prefix_ok (ldr_auth_token req) = true → dead_token (ldr_auth_token req) env g →
  serve setup (ListDevices req) env g
  = (Answered (Err (mkStatus Code_Unauthenticated "Authentication failed")), g).
Proof.
  intros Hrel Hp [Hd _]. autounfold with rpc. apply (by_app_ends _ _ (Returned _)).
  destruct (validated_dead (se_debug_enabled setup) (se_error_enabled setup) (se_external_user_info setup)
    (ldr_auth_token req) (env_now (re_req env) 0) (gs_app g) Hp Hd) as [e He].
  unfold handle_list_devices, mtry. by rewrite Hrel, He.
Qed.

(** C4: A client without a live token learns nothing and changes nothing: a request that
    insists on a token is refused with one and the same answer in every state of the
    server in which the token is dead, and leaves the state as it is. *)
Theorem dead_token_learns_nothing {A} (r : Rpc A) token env :
  se_debug_assertions setup = false → required_token r = Some token → prefix_ok token = true →
  ∃ x, refused r x ∧ ∀ g, dead_token token env g → serve setup r env g = (x, g).
Proof.
  intros Hrel Hreq Hp.
  destruct r; try discriminate Hreq; injection Hreq as <-;
    try (eexists; split; [|intros g Hd; first [by apply account_info_request_dead|by apply list_devices_dead|
           autounfold with rpc; rewrite Hrel;
           first [by apply file_request_dead|by apply account_request_dead|by apply stream_request_dead]]];
         unfold refused; try destruct (str_is_empty _); done).
  destruct (upload_dead req env Hrel Hp) as [message H]. eexists. split; [|exact H]. done.
Qed.

(** The check of the service lets a token pass exactly for the account it is live for. *)
Lemma validate_auth_exact token acc (env : ReqEnv) (st : AppState S F) :
  se_debug_assertions setup = false → prefix_ok token = true →
  ((validate_auth setup token acc env st).1 = Returned (Ok tt)
   ↔ live_token token (env_now env 0) (fs_storage (as_file st)) acc).
Proof.
  intros Hrel Hp. unfold validate_auth. rewrite Hrel. destruct (str_is_empty token) eqn:Ee.
  { apply str_is_empty_true in Ee as ->. split; [done|]. by intros [? _]. }
  unfold mtry, on_storage, on_file, on_part.
  destruct (verify_token_cases false (se_debug_enabled setup) (se_error_enabled setup) (se_external_user_info setup)
    token (env_uuid env) (env_now env 0) (env_now env 1) (fs_storage (as_file st)) eq_refl Hp)
    as [[a Ha]|[-> Hno]]; [|split; [done|by intros H; destruct (Hno acc)]].
  rewrite (verify_token_live _ _ _ _ _ _ _ _ _ a Hp eq_refl Ha). cbn. case_bool_decide as E.
  - subst a. by split.
  - split; [done|]. destruct Ha as (_ & t & Ht & _ & _ & <-). intros (_ & t' & Ht' & _ & _ & <-).
    rewrite Ht in Ht'. by simplify_eq.
Qed.

End guard.

(** *** Examples *)

Section examples.
#[local] Existing Instance canonical_iter.
#[local] Existing Instance chrono_range.
#[local] Existing Instance key_crypto.
#[local] Existing Instance ascii_unicode.

Definition setup0 : Setup StorageData :=
  mkSetup all_open "closed" false false true true no_server (λ _, Err (AE_ExternalServiceError "offline"))
    true false false (λ _, None) (λ _, None) id None "2.0.0".

Definition rpc_env0 : RpcEnv :=
  mkRpcEnv env0 (mkAuthEnv (λ _, mkDateTime 500 0) (λ _, "uuid") (mkLoginEnv (λ _, mkDateTime 500 0) (λ _, "id") [] [] []))
    (λ _, "a"%char) 3 12.

(** One live token and one file of somebody else. *)
Definition server0 : SyncServer StorageData (gmap Z bytes) := mkSyncServer app0 [] [] ∅ false ∅ [].

Lemma dead_token_learns_nothing_witness :
  (serve setup0 (UploadFile (upload_req "wrong")) rpc_env0 server0).2 = server0
  ∧ refused (UploadFile (upload_req "wrong")) (serve setup0 (UploadFile (upload_req "wrong")) rpc_env0 server0).1.
Proof.
  destruct (dead_token_learns_nothing (F := gmap Z bytes) setup0 (UploadFile (upload_req "wrong")) "wrong" rpc_env0)
    as (x & Hx & H); [reflexivity..|].
  rewrite (H server0); [split; [reflexivity|exact Hx]|].
  split; intros a (_ & t & Ht & _); vm_compute in Ht; discriminate Ht.
Defined.

End examples.
