(* ===== verification/StorageInvariant.v ===== *)
(** * Invariants of the storage under every request

    The handlers reach the storage through its trait only.  An assertion that the
    operations of the trait preserve is therefore preserved by every method of the
    service, however it ends, and whatever the client. *)

From S2P Require Import Prelude RustString Errors Models Paths Memory MemoryProps Connections StorageApi Effects Crypto Notify AccountServices FileService.
From S2P Require Import VersionService Auth OAuth AuthHandlers FileHandlers FileHandlersProps ServerState Subscriptions DeviceHandlers WatcherHandlers Service ServiceProps.

(** ** The interface *)

(** What every operation outside a log-in preserves.  The identifier of a stored file
    is a [u64] and the number of an updated group an [i32], as their types say; a group
    that is read has such a number. *)
Class StorageInvariant {S : Type} `{ST : Storage S} (P : S → Prop) := {
  inv_store_encryption_key a k s : P s → P (s_store_encryption_key a k s).2;
  inv_register_device d s : P s → P (s_register_device d s).2;
  inv_update_device d s : P s → P (s_update_device d s).2;
  inv_delete_device a h s : P s → P (s_delete_device a h s).2;
  inv_store_file_info f s : u64 (fi_file_id f) → P s → P (s_store_file_info f s).2;
  inv_delete_file a i s : P s → P (s_delete_file a i s).2;
  inv_store_file_data i bs s : P s → P (s_store_file_data i bs s).2;
  inv_store_file f s : P s → P (s_store_file f s).2;
  inv_create_watcher a g w t now s : P s → P (s_create_watcher_with_conditions a g w t now s).2;
  inv_save_conditions i cs s : P s → P (s_save_watcher_conditions i cs s).2;
  inv_register_group a h g s : P s → P (s_register_watcher_group a h g s).2;
  inv_get_user_group a i s g : P s → s_get_user_watcher_group a i s = Ok (Some g) → i32 (wg_id g);
  inv_update_group a g s : i32 (wg_id g) → P s → P (s_update_watcher_group a g s).2;
  inv_delete_group a i s : P s → P (s_delete_watcher_group a i s).2;
  inv_register_preset a h l s : P s → P (s_register_watcher_preset_proto a h l s).2;
  inv_update_preset a h l s : P s → P (s_update_watcher_preset_proto a h l s).2;
  inv_create_account a s : P s → P (s_create_account a s).2
}.

(** What the operations of a log-in preserve besides. *)
Class LoginInvariant {S : Type} `{ST : Storage S} `{AST : AccountStorage S} (P : S → Prop) := {
  inv_update_account a s : P s → P (s_update_account a s).2;
  inv_create_auth_token t s : P s → P (s_create_auth_token t s).2
}.

(** Walks through a computation: the monad, its conditionals, and calls the database
    knows. *)
Create HintDb service.

Ltac preserve :=
  repeat first
    [ solve [auto with preserves]
    | apply preserves_ret | apply preserves_throw
    | apply preserves_mthen; [|intros ?] | apply preserves_mtry; [|intros ?] | apply preserves_mmap_err
    | progress intros
    | case_match ].

Section invariant.
Context `{HI : HashIter} `{CA : CryptoApi} `{CH : Chrono} {S : Type} `{ST : Storage S} `{AST : AccountStorage S}
  {F : Type} `{FST : FileStorage F}.
Context (P : S → Prop) `{SI : !StorageInvariant P}.
Implicit Types (s : S).

Ltac storage_step :=
  first [ simple apply inv_store_encryption_key | simple apply inv_register_device | simple apply inv_update_device
        | simple apply inv_delete_device | simple apply inv_store_file_info | simple apply inv_delete_file
        | simple apply inv_store_file_data | simple apply inv_store_file | simple apply inv_create_watcher
        | simple apply inv_save_conditions | simple apply inv_register_group | simple apply inv_update_group
        | simple apply inv_delete_group | simple apply inv_register_preset | simple apply inv_update_preset
        | simple apply inv_create_account ].
Hint Extern 2 (P _) => storage_step : preserves.

(** ** Tokens and accounts *)

Section tokens.
Context (da de ee : bool) (ext : string → result OAuthUserInfo AuthError).

Lemma inv_validate_token token now : preserves P (validate_token da de ee token now).
Proof. intros s Hs. unfold validate_token. repeat case_match; done. Qed.

Lemma inv_ensure_account token a uuid now s : P s → P (ensure_account ext token a uuid now s).
Proof. intros Hs. unfold ensure_account. repeat case_match; auto with preserves. Qed.

Lemma inv_verify_token token uuid now1 now2 : preserves P (verify_token da de ee ext token uuid now1 now2).
Proof.
  apply preserves_mtry; [apply inv_validate_token|]. intros [a|e] s Hs; [by apply inv_ensure_account|done].
Qed.

End tokens.

Section login.
Context `{LI : !LoginInvariant P}.

Lemma inv_create_account_retry n account s : P s → P (create_account_retry n account s).
Proof.
  revert s. induction n as [|n IH]; intros s Hs; cbn; [done|].
  pose proof (inv_create_account account s Hs) as H. destruct (s_create_account account s) as [[] s']; [done|].
  destruct (str_contains _ _); [done|by apply IH].
Qed.

Lemma inv_ensure_login_account a email info env s : P s → P (ensure_login_account a email info env s).
Proof.
  intros Hs. unfold ensure_login_account. case_match; [by apply inv_update_account|].
  by apply inv_create_account_retry.
Qed.

Lemma inv_save_token_retry n token s : P s → P (save_token_retry n token s).2.
Proof.
  revert s. induction n as [|n IH]; intros s Hs; cbn; [done|].
  pose proof (inv_create_auth_token token s Hs) as H. destruct (s_create_auth_token token s) as [[] s']; [done|].
  destruct n; [done|by apply IH].
Qed.

Lemma inv_process_oauth_code info exchanged client env : preserves P (process_oauth_code info exchanged client env).
Proof.
  intros s Hs. unfold process_oauth_code. destruct exchanged as [[t user]|]; [|done]. cbv zeta.
  match goal with |- context [ensure_login_account ?a ?e ?u ?v ?s] =>
    pose proof (inv_ensure_login_account a e u v s Hs) as H1; set (s1 := ensure_login_account a e u v s) in *;
    set (a0 := a) in * end.
  clearbody s1. destruct (after_seconds _ _); [|done].
  match goal with |- context [save_token_retry ?n ?t ?s] =>
    pose proof (inv_save_token_retry n t s H1) as H2; destruct (save_token_retry n t s) as [[[]|e] s2] end; [|done].
  cbn [snd] in H2. unfold get_encryption_key_or_new.
  destruct (s_get_encryption_key a0 s2) as [[k|]|e]; repeat case_match; cbn; auto with preserves.
Qed.

End login.

(** ** The file service *)

Section file_service.
Context (is_open : Sender → bool) (send_error : string).
Abbreviation PF := (λ f : FileService S F, P (fs_storage f)).

Lemma inv_read {A} (q : S → Res A) : preserves PF (read q).
Proof. by intros f Hf. Qed.

Lemma inv_write {A} (u : S → Res A * S) : (∀ s, P s → P (u s).2) → preserves PF (write u).
Proof. intros Hu f Hf. unfold write. specialize (Hu _ Hf). by destruct (u (fs_storage f)). Qed.

Lemma inv_files_insert i bs : preserves PF (files_insert i bs).
Proof. by intros f Hf. Qed.
Lemma inv_files_remove i : preserves PF (files_remove i).
Proof. by intros f Hf. Qed.
Lemma inv_files_get i : preserves PF (files_get i).
Proof. by intros f Hf. Qed.
Lemma inv_notify n b nonces : preserves PF (notify is_open send_error n b nonces).
Proof. intros f Hf. unfold notify. by repeat case_match. Qed.

Lemma inv_store_internal i bs : preserves PF (store_file_data_internal i bs).
Proof.
  intros f Hf. unfold store_file_data_internal. destruct (fs_file_storage f).
  - by destruct (f_store_file_data _ _ _).
  - apply (inv_write (s_store_file_data i bs)); [|done]. intros s Hs. auto with preserves.
Qed.

Lemma inv_write_hint {A} (u : S → Res A * S) : (∀ s, P s → P (u s).2) → preserves PF (write u).
Proof. apply inv_write. Qed.

Hint Resolve inv_read inv_write_hint inv_files_insert inv_files_remove inv_files_get inv_notify inv_store_internal
  : preserves.

Lemma inv_store_file_svc info bs now nonces : u64 (fi_file_id info) →
  preserves PF (svc_store_file is_open send_error info bs now nonces).
Proof.
  intros Hi. unfold svc_store_file, store_file_with_update_type, send_file_update_notification,
    send_file_update_notification_with_options. preserve.
Qed.

Lemma inv_svc_get_file_data i : preserves PF (svc_get_file_data i).
Proof. unfold svc_get_file_data. preserve. Qed.

Lemma inv_svc_delete_file i now nonces : preserves PF (svc_delete_file is_open send_error i now nonces).
Proof. unfold svc_delete_file. preserve. Qed.

Lemma inv_svc_restore src dst : preserves PF (svc_restore_file_version src dst).
Proof. unfold svc_restore_file_version, copy_file_data, svc_get_file_data. preserve. Qed.

Lemma inv_ensure_server_ids mysql a h g w path :
  (∀ m, mysql = Some m → ∀ a h g w p s, P s → P (m a h g w p s).2) →
  preserves PF (ensure_server_ids_for_upload mysql a h g w path).
Proof.
  intros Hm. unfold ensure_server_ids_for_upload. destruct mysql as [m|]; [|preserve].
  apply inv_write. intros s Hs. by apply Hm.
Qed.

Lemma inv_version_history req now : preserves PF (version_get_file_history req now).
Proof. unfold version_get_file_history. preserve. Qed.

Lemma inv_broadcast_restore req : preserves PF (broadcast_file_restore req).
Proof. unfold broadcast_file_restore. preserve. Qed.

Hint Resolve inv_svc_restore inv_broadcast_restore : preserves.

Lemma inv_version_restore req now1 now2 now3 nonces :
  preserves PF (version_restore_file_version is_open send_error req now1 now2 now3 nonces).
Proof.
  unfold version_restore_file_version, notify_restore, send_file_restore_notification,
    send_file_update_notification_with_options. preserve.
Qed.

End file_service.

(** ** The handlers on the application state *)

Section app.
Context (is_open : Sender → bool) (send_error : string) (da de ee enc : bool).
Context (ext : string → result OAuthUserInfo AuthError).
Abbreviation PA := (λ st : AppState S F, P (fs_storage (as_file st))).
Implicit Types (env : ReqEnv).

Lemma inv_on_file {E A} (m : ME (FileService S F) E A) :
  preserves (λ f, P (fs_storage f)) m → preserves PA (on_file m).
Proof. intros Hm. by apply (preserves_on_part PA (λ f, P (fs_storage f))). Qed.

Lemma inv_on_storage {E A} (m : ME S E A) : preserves P m → preserves PA (on_storage m).
Proof. intros Hm. unfold on_storage. apply inv_on_file. by apply (preserves_on_part _ P). Qed.

Lemma inv_publish key payload : preserves PA (publish key payload).
Proof. by intros st Hst. Qed.

Lemma inv_storage_op {A} (f : S → Res A * S) : (∀ s, P s → P (f s).2) → preserves PA (storage_op f).
Proof. intros Hf. apply inv_on_storage. intros s Hs. specialize (Hf s Hs). by destruct (f s). Qed.

Lemma inv_storage_read {A} (f : S → Res A) : preserves PA (storage_read f).
Proof. by apply inv_storage_op. Qed.

Lemma inv_validated token now : preserves PA (validated da de ee token now).
Proof. apply inv_on_storage, inv_validate_token. Qed.

Lemma inv_authenticated {A} token env (fail : A) k :
  (∀ v, preserves PA (k v)) → preserves PA (authenticated da de ee ext token env fail k).
Proof.
  intros Hk. unfold authenticated. apply preserves_mtry; [apply inv_on_storage, inv_verify_token|].
  intros [v|e]; [destruct (vr_valid v)|]; auto using preserves_ret.
Qed.

Lemma inv_account_checked {A} token acc env (failed mismatch : A) k :
  (∀ v, preserves PA (k v)) → preserves PA (account_checked da de ee ext token acc env failed mismatch k).
Proof.
  intros Hk. unfold account_checked. destruct (str_is_empty token); [apply preserves_throw|].
  apply preserves_mtry; [apply inv_on_storage, inv_verify_token|].
  intros [v|e]; [destruct (_ || _)|]; auto using preserves_ret.
Qed.

Lemma inv_get_or_create_key a draw s : P s → P (get_or_create_key a draw s).2.
Proof.
  intros Hs. unfold get_or_create_key. destruct (s_get_encryption_key a s) as [[k|]|e]; [done| |done]. cbn zeta.
  pose proof (inv_store_encryption_key a (generate_account_key draw) s Hs) as H.
  by destruct (s_store_encryption_key _ _ s) as [[] s'].
Qed.

Hint Resolve inv_on_file inv_publish inv_storage_op inv_storage_read inv_validated inv_get_or_create_key
  inv_read inv_svc_get_file_data inv_svc_delete_file inv_version_history inv_version_restore
  inv_broadcast_restore : preserves.

Lemma inv_upload mysql req env :
  (∀ m, mysql = Some m → ∀ a h g w p s, P s → P (m a h g w p s).2) → u64 (handler_generate_file_id req env) →
  preserves PA (handle_upload_file is_open send_error da de ee ext mysql req env).
Proof.
  intros Hm Hid. unfold handle_upload_file. destruct (negb _); [apply preserves_ret|].
  apply inv_authenticated. intros v. destruct (validate_upload_input req); [|apply preserves_ret].
  destruct (normalize_file_path _); [|apply preserves_ret]. unfold store_upload.
  apply preserves_mtry; [by apply inv_on_file, inv_ensure_server_ids|]. intros [[g w]|e]; [|apply preserves_ret].
  apply preserves_mtry; [by apply inv_on_file, inv_store_file_svc|]. preserve.
Qed.

(** A computation that reads the state it starts in. *)
Lemma inv_from_state {E A} (k : AppState S F → ME (AppState S F) E A) :
  (∀ st, preserves PA (k st)) → preserves PA (λ st, k st st).
Proof. intros Hk st. apply Hk. Qed.

Lemma inv_panic {A} : preserves PA (panic (A := A)).
Proof. by intros st Hst. Qed.

Lemma inv_download req env : preserves PA (handle_download_file da de ee ext enc req env).
Proof.
  apply inv_authenticated. intros v. unfold svc_get_file_info. apply preserves_mtry; [auto with preserves|].
  intros [[info|]|e]; [|apply preserves_ret..]. cbv zeta.
  apply (inv_from_state (λ st, mtry _ (λ r, _))). intros st. pose proof (@inv_panic DownloadFileResponse). preserve.
Qed.

Lemma inv_list req env : preserves PA (handle_list_files da de ee ext enc req env).
Proof.
  apply inv_authenticated. intros v. unfold convert_client_group_to_server, list_files_filtered_by_device.
  apply preserves_mtry; [auto with preserves|]. intros [[g|]|e]; [|apply preserves_ret|apply preserves_throw]. cbv zeta.
  apply (inv_from_state (λ st, mtry _ (λ r, _))). intros st. pose proof (@inv_panic ListFilesResponse). preserve.
Qed.

Lemma inv_register_device_request req env : preserves PA (handle_register_device da de ee req env).
Proof. unfold handle_register_device. preserve. Qed.

Lemma inv_update_device_info regs req env : preserves PA (handle_update_device_info regs req env).
Proof. unfold handle_update_device_info. preserve. Qed.

Lemma inv_list_devices req env : preserves PA (handle_list_devices da de ee req env).
Proof. unfold handle_list_devices. preserve. Qed.

Lemma inv_delete_device_request req env : preserves PA (handle_delete_device da de ee req env).
Proof. unfold handle_delete_device. preserve. Qed.

Lemma inv_key_request req env draw : preserves PA (handle_request_encryption_key da de ee ext req env draw).
Proof. apply inv_account_checked. intros v. preserve. Qed.

Lemma inv_history_request req env : preserves PA (handle_get_file_history da de ee ext req env).
Proof. apply inv_account_checked. intros v. preserve. Qed.

Lemma inv_restore_request req env :
  preserves PA (handle_restore_file_version is_open send_error da de ee ext req env).
Proof. apply inv_account_checked. intros v. preserve. Qed.

Lemma inv_broadcast_request req env : preserves PA (handle_broadcast_file_restore da de ee ext req env).
Proof. apply inv_account_checked. intros v. preserve. Qed.

Lemma inv_delete_file_request req env : preserves PA (handle_delete_file is_open send_error da de ee ext req env).
Proof.
  apply inv_authenticated. intros v. unfold find_file_by_path, find_file_by_local_path, execute_delete.
  apply preserves_mthen; [|preserve]. destruct (0 <? xfr_file_id req); [by intros st Hst|preserve].
Qed.

Lemma inv_find_request req env : preserves PA (handle_find_file_by_criteria da de ee ext req env).
Proof.
  apply inv_authenticated. intros v. unfold convert_client_ids_to_server, svc_find_file_by_criteria. preserve.
Qed.

Lemma inv_exists_request req env : preserves PA (handle_check_file_exists da de ee ext req env).
Proof. apply inv_authenticated. intros v st Hst. by repeat case_match. Qed.

End app.

(** ** The watcher handlers *)

Section watchers.
Context (is_open : Sender → bool) (da de ee : bool) (ext : string → result OAuthUserInfo AuthError).
Context (regex_new : string → option (string → bool)) (getenv : string → option string).
Context (completion : list (option sync_WatcherGroupData) → list (option sync_WatcherGroupData)).
Abbreviation PW := (λ w : WatcherState (S := S), P (ws_storage w)).
Implicit Types (env : ReqEnv).

Lemma inv_on_ws {E A} (m : ME S E A) : preserves P m → preserves PW (on_ws m).
Proof. intros Hm. by apply (preserves_on_part PW P). Qed.

Lemma inv_ws_op {A} (f : S → Res A * S) : (∀ s, P s → P (f s).2) → preserves PW (ws_op f).
Proof. intros Hf. apply inv_on_ws. intros s Hs. specialize (Hf s Hs). by destruct (f s). Qed.

Lemma inv_ws_read {A} (f : S → Res A) : preserves PW (ws_read f).
Proof. by apply inv_ws_op. Qed.

Lemma inv_validate_device a h : preserves PW (validate_device_if_required getenv a h).
Proof.
  unfold validate_device_if_required. case_match; [apply preserves_ret|].
  apply preserves_mtry; [apply inv_ws_read|]. preserve.
Qed.

Lemma inv_verified_account token env : preserves PW (verified_account da de ee ext token env).
Proof. apply preserves_mtry; [apply inv_on_ws, inv_verify_token|]. preserve. Qed.

Lemma inv_broadcast_group a h i ty now id : preserves PW (broadcast_group is_open a h i ty now id).
Proof. intros w Hw. unfold broadcast_group. by repeat case_match. Qed.

Lemma inv_broadcast_preset a h l ty now id : preserves PW (broadcast_preset is_open a h l ty now id).
Proof. intros w Hw. unfold broadcast_preset. by repeat case_match. Qed.

Lemma inv_create_or_get_watcher a g w now : preserves P (create_or_get_watcher regex_new getenv a g w now).
Proof.
  intros s Hs. unfold create_or_get_watcher. destruct (validate_watcher_folder _ _ _); [|done].
  destruct (s_find_watcher_by_folder a g (swd_folder w) s) as [[i|]|e]; [| |done].
  - destruct (negb _); [|done].
    pose proof (inv_save_conditions i (upsert_conditions a i g w now) s Hs) as H.
    by destruct (s_save_watcher_conditions _ _ s) as [[] s'].
  - pose proof (inv_create_watcher a g w (dt_timestamp now) now s Hs) as H.
    by destruct (s_create_watcher_with_conditions _ _ _ _ _ s).
Qed.

(** A group that was read has a number of its type. *)
Lemma inv_group_read {E B} a i (k : Res (option WatcherGroup) → ME (WatcherState (S := S)) E B) :
  (∀ r, (∀ g, r = Ok (Some g) → i32 (wg_id g)) → preserves PW (k r)) →
  preserves PW (mtry (ws_read (s_get_user_watcher_group a i)) k).
Proof.
  intros Hk w Hw. unfold mtry, ws_read, ws_op, on_ws, on_part. apply Hk; [|done].
  intros g E0. by eapply inv_get_user_group.
Qed.

Hint Resolve inv_on_ws inv_ws_op inv_ws_read inv_validate_device inv_verified_account inv_broadcast_group
  inv_broadcast_preset inv_create_or_get_watcher : preserves.

Lemma inv_get_group req env : preserves PW (handle_get_watcher_group da de ee ext getenv req env).
Proof. unfold handle_get_watcher_group. preserve. Qed.

Lemma inv_get_groups req env : preserves PW (handle_get_watcher_groups da de ee ext getenv req env).
Proof.
  unfold handle_get_watcher_groups. do 2 (apply preserves_mthen; [auto with preserves|intros ?]).
  intros w Hw. by case_match.
Qed.

Lemma inv_get_preset req env : preserves PW (handle_get_watcher_preset da de ee ext getenv req env).
Proof. unfold handle_get_watcher_preset. preserve. Qed.

Lemma inv_store_preset store error ty req env : (∀ a h l s, P s → P (store a h l s).2) →
  preserves PW (store_preset is_open da de ee ext getenv store error ty req env).
Proof. intros Hs. unfold store_preset. preserve. Qed.

Lemma inv_register_group_request req env : preserves PW (handle_register_watcher_group is_open regex_new getenv req env).
Proof. unfold handle_register_watcher_group. preserve. Qed.

Lemma inv_apply_watcher a g ids w env : preserves PW (apply_watcher regex_new getenv a g ids w env).
Proof. unfold apply_watcher. preserve. Qed.

Hint Resolve inv_apply_watcher : preserves.

Lemma inv_update_group_request req env : i32 (wgr_group_id req) →
  preserves PW (handle_update_watcher_group is_open regex_new getenv req env).
Proof. intros Hg. unfold handle_update_watcher_group. preserve. Qed.

Lemma inv_delete_group_request req env : preserves PW (handle_delete_watcher_group is_open getenv req env).
Proof.
  unfold handle_delete_watcher_group. apply preserves_mthen; [auto with preserves|intros _].
  apply preserves_mtry; [auto with preserves|]. intros [[g|]|e]; [|apply preserves_throw..].
  apply preserves_mtry; [auto with preserves|]. intros [[]|e]; [|apply preserves_throw].
  intros w Hw. by case_match.
Qed.

Lemma inv_sync_watchers label a g now ws : ∀ p, preserves PW (sync_watchers regex_new getenv label a g now ws p).
Proof.
  induction ws as [|w ws IH]; intros p; [apply preserves_ret|]. apply preserves_mtry; [auto with preserves|].
  intros r. apply IH.
Qed.

Hint Resolve inv_sync_watchers : preserves.

Lemma inv_sync_group a h inc force now id gd p :
  preserves PW (sync_group is_open regex_new getenv a h inc force now id gd p).
Proof.
  unfold sync_group. apply inv_group_read. intros r Hr. destruct r as [[g|]|e]; [|preserve..].
  specialize (Hr g eq_refl). preserve.
Qed.

Lemma inv_sync_groups a h inc force env gs : ∀ i p,
  preserves PW (sync_groups is_open regex_new getenv a h inc force env i gs p).
Proof.
  induction gs as [|gd gs IH]; intros i p; [apply preserves_ret|].
  apply preserves_mthen; [apply inv_sync_group|]. intros p'. apply IH.
Qed.

Hint Resolve inv_sync_groups : preserves.

Lemma inv_sync_configuration req env ms :
  preserves PW (handle_sync_configuration is_open da de ee ext regex_new getenv completion req env ms).
Proof.
  unfold handle_sync_configuration, sync_presets.
  do 3 (apply preserves_mthen; [auto with preserves|intros ?]).
  apply preserves_mthen; [preserve|]. intros p. by intros w Hw.
Qed.

End watchers.

(** ** Log-in requests and streams *)

Section auth.
Context (da de ee info : bool) (ext : string → result OAuthUserInfo AuthError).
Context (exchange : string → result (string * OAuthUserInfo) AuthError).
Abbreviation PU := (λ a : AuthState S, P (au_storage a)).
Implicit Types (env : AuthEnv).

Lemma inv_au_on_storage {E A} (m : ME S E A) : preserves P m → preserves PU (au_on_storage m).
Proof. intros Hm. by apply (preserves_on_part PU P). Qed.

Lemma inv_verify token env : preserves PU (verify da de ee ext token env).
Proof. apply inv_au_on_storage, inv_verify_token. Qed.

Lemma inv_locked {E} (e : E) f : preserves PU (locked (S := S) e f).
Proof. intros a Ha. unfold locked. by repeat case_match. Qed.

Lemma inv_auto_register a h os app now : preserves PU (auto_register_or_update_device a h os app now).
Proof.
  intros st Hst. unfold auto_register_or_update_device.
  destruct (s_get_device a h (au_storage st)) as [[d|]|e]; [| |done];
    match goal with |- context [s_register_device ?d ?s] =>
      pose proof (inv_register_device d s Hst) as H; by destruct (s_register_device d s) as [[] s'] end.
Qed.

Hint Resolve inv_verify inv_locked inv_auto_register inv_au_on_storage : preserves.

Lemma inv_check_status req env : preserves PU (check_auth_status req env).
Proof.
  unfold check_auth_status, clean_expired_sessions. apply preserves_mtry; [auto with preserves|].
  intros r st Hst. destruct (au_poisoned st); [done|]. destruct (au_sessions st !! _); [done|].
  match goal with |- P (au_storage (?m st).2) => enough (preserves PU m) as H by exact (H st Hst) end. preserve.
Qed.

Lemma inv_login req : preserves PU (login req).
Proof. apply preserves_ret. Qed.

Lemma inv_verify_login req env : preserves PU (verify_login da de ee ext req env).
Proof. unfold verify_login. preserve. Qed.

Lemma inv_account_info req env : preserves PU (get_account_info da de ee ext req env).
Proof.
  unfold get_account_info. case_match; [apply preserves_throw|]. apply preserves_mtry; [auto with preserves|].
  intros r st Hst. by repeat case_match.
Qed.

Lemma inv_oauth_exchange `{!LoginInvariant P} req env : preserves PU (handle_oauth_exchange info exchange req env).
Proof.
  unfold handle_oauth_exchange. case_match; [apply preserves_throw|].
  apply preserves_mtry; [by apply inv_au_on_storage, inv_process_oauth_code|]. preserve.
Qed.

End auth.

Section streams.
Context (is_open : Sender → bool) (da de ee enc dev_mode test_mode : bool).
Context (ext : string → result OAuthUserInfo AuthError).
Abbreviation PS := (λ x : run Sender * Server S, P (sv_storage x.2)).
Implicit Types (env : ReqEnv) (sv : Server S).

Lemma inv_with_verified_token token env (k : VerificationResult → Server S → run Sender * Server S) sv :
  (∀ v sv, P (sv_storage sv) → PS (k v sv)) → P (sv_storage sv) →
  PS (with_verified_token da de ee ext token env k sv).
Proof.
  intros Hk Hs. unfold with_verified_token.
  pose proof (inv_verify_token da de ee ext token (env_uuid env) (env_now env 0) (env_now env 1) _ Hs) as H.
  destruct (verify_token _ _ _ _ _ _ _ _ (sv_storage sv)) as [[[v|e]|] s]; cbn in *; [|done..].
  destruct (vr_valid v); [by apply Hk|done].
Qed.

Lemma inv_send_initial a h since t1 t2 nonces sv : P (sv_storage sv) →
  P (sv_storage (send_initial_file_sync is_open enc a h since t1 t2 nonces sv).2).
Proof.
  intros Hs. unfold send_initial_file_sync, save_watermark. repeat case_match; cbn; auto with preserves.
Qed.

Lemma inv_file_stream req tx env sv : P (sv_storage sv) →
  PS (subscribe_to_file_updates is_open da de ee ext enc req tx env sv).
Proof.
  apply inv_with_verified_token. intros v sv' Hs. cbv zeta.
  destruct (register_connection _ _ _ _), (register_file_update_subscriber_with_alias _ _ _ _).
  match goal with |- context [send_initial_file_sync ?o ?e ?a ?h ?si ?t1 ?t2 ?n ?x] =>
    pose proof (inv_send_initial a h si t1 t2 n x Hs) as H;
    by destruct (send_initial_file_sync o e a h si t1 t2 n x) as [[]] end.
Qed.

Lemma inv_preset_stream req tx env sv : P (sv_storage sv) →
  PS (subscribe_to_watcher_preset_updates da de ee ext dev_mode test_mode req tx env sv).
Proof.
  apply inv_with_verified_token. intros v sv' Hs. unfold with_valid_device. by repeat case_match.
Qed.

Lemma inv_group_stream req tx env sv : P (sv_storage sv) →
  PS (subscribe_to_watcher_group_updates da de ee ext dev_mode test_mode req tx env sv).
Proof.
  apply inv_with_verified_token. intros v sv' Hs. unfold with_valid_device. by repeat case_match.
Qed.

End streams.

(** ** Every method of the service *)

Context (setup : Setup S).
Implicit Types (g : SyncServer S F) (env : RpcEnv).

(** The numbers of a request have the types of the protocol, and the clock and the
    random number are not negative. *)
Definition well_typed {A} (r : Rpc A) : Prop :=
  match r with UpdateWatcherGroup req => i32 (wgr_group_id req) | _ => True end.

Definition sane_env env : Prop :=
  0 ≤ dt_timestamp (env_now (re_req env) 2) ∧ 0 ≤ dt_nanosecond (env_now (re_req env) 2)
  ∧ 0 ≤ env_random_part (re_req env).

(** The MySQL method behind an upload preserves the assertion too. *)
Definition mysql_preserves : Prop :=
  ∀ m, se_mysql setup = Some m → ∀ a h i w p s, P s → P (m a h i w p s).2.

Abbreviation PG := (λ g : SyncServer S F, P (server_storage g)).

Lemma inv_by_app {A} (m : ME (AppState S F) Status A) g :
  preserves (λ st, P (fs_storage (as_file st))) m → PG g → PG (by_app m g).2.
Proof.
  intros Hm Hg. unfold by_app, on_part. specialize (Hm (gs_app g) Hg). by destruct (m (gs_app g)).
Qed.

Lemma inv_by_watchers {A} (m : ME (WatcherState (S := S)) Status A) g :
  preserves (λ w, P (ws_storage w)) m → PG g → PG (by_watchers m g).2.
Proof.
  intros Hm Hg. unfold by_watchers, on_part. specialize (Hm (watcher_part g) Hg). by destruct (m (watcher_part g)).
Qed.

Lemma inv_by_auth {A} (m : ME (AuthState S) Status A) g :
  preserves (λ a, P (au_storage a)) m → PG g → PG (by_auth m g).2.
Proof.
  intros Hm Hg. unfold by_auth, on_part. specialize (Hm (auth_part g) Hg). by destruct (m (auth_part g)).
Qed.

Lemma inv_by_stream (m : Server S → run Sender * Server S) g :
  (∀ sv, P (sv_storage sv) → P (sv_storage (m sv).2)) → PG g → PG (by_stream m g).2.
Proof.
  intros Hm Hg. unfold by_stream. specialize (Hm (stream_part g) Hg). by destruct (m (stream_part g)).
Qed.

Lemma file_id_u64 req env : sane_env env → u64 (handler_generate_file_id req (re_req env)).
Proof.
  intros (H1 & H2 & H3). unfold handler_generate_file_id.
  match goal with |- u64 (generate_file_id ?a ?b ?c ?d ?e ?f) =>
    pose proof (generate_file_id_range a b c d e f H1 H2 H3) end.
  unfold u64, i64_max, u64_max in *. lia.
Qed.

Hint Resolve file_id_u64 inv_login inv_verify_login inv_check_status
  inv_account_info inv_register_device_request inv_list_devices inv_delete_device_request inv_update_device_info
  inv_key_request inv_upload inv_delete_file_request inv_download inv_list inv_find_request inv_exists_request
  inv_history_request inv_restore_request inv_broadcast_request inv_store_preset inv_get_preset
  inv_register_group_request inv_update_group_request inv_delete_group_request inv_get_group inv_get_groups
  inv_sync_configuration inv_file_stream inv_preset_stream inv_group_stream : service.

(** The request that logs a user in. *)
Definition is_login {A} (r : Rpc A) : bool := match r with ExchangeOauthCode _ => true | _ => false end.

(** A request ends with the assertion whatever its kind and its outcome. *)
Lemma serve_preserves {A} (r : Rpc A) env g :
  mysql_preserves → (is_login r = true → LoginInvariant P) → well_typed r → sane_env env →
  PG g → PG (serve setup r env g).2.
Proof.
  intros Hm Hl Ht He Hg. destruct r; autounfold with rpc; try done;
    try (apply inv_by_auth; [apply inv_oauth_exchange; by apply Hl|done]);
    first [apply inv_by_app|apply inv_by_auth|apply inv_by_watchers|apply inv_by_stream]; try done;
    unfold handle_register_watcher_preset, handle_update_watcher_preset; auto with service preserves.
Qed.

(** A request of any kind with what it draws from outside. *)
Definition Request : Type := {A : Type & Rpc A} * RpcEnv.

Definition serve_any (r : Request) g : SyncServer S F := (serve setup (projT2 r.1) r.2 g).2.

(** Requests one after the other. *)
Definition serve_all (rs : list Request) g : SyncServer S F := foldl (λ g r, serve_any r g) g rs.

Definition proper_request (r : Request) : Prop := well_typed (projT2 r.1) ∧ sane_env r.2.

Lemma serve_all_preserves rs g :
  mysql_preserves → Forall proper_request rs →
  (Exists (λ r, is_login (projT2 r.1) = true) rs → LoginInvariant P) → PG g → PG (serve_all rs g).
Proof.
  intros Hm Hrs. revert g. induction Hrs as [|r rs [Ht He] _ IH]; intros g Hl Hg; [done|].
  apply IH; [intros H; apply Hl; by right|]. apply serve_preserves; try done. intros H. apply Hl. by left.
Qed.

End invariant.

(** ** The in-memory storage *)

Section memory.
Context `{HI : HashIter} `{CA : CryptoApi} `{CH : Chrono} `{UC : Unicode} {F : Type} `{FST : FileStorage F}.

#[export] Instance memory_wf_invariant : StorageInvariant (S := StorageData) wf.
Proof.
  split; intros; try (by eapply step_wf; [constructor|]); try done.
  match goal with H : wf _, E : _ = Ok (Some _) |- _ => cbn in E; unfold get_user_watcher_group in E;
    pose proof (wf_groups _ H) as Hg; revert E end.
  repeat case_match; intros E; simplify_eq. by match goal with H : _ !! _ = Some _ |- _ => apply Hg in H as [-> ?] end.
Qed.

#[export] Instance memory_wf_login : LoginInvariant (S := StorageData) wf.
Proof. split; intros; by eapply step_wf; [constructor|]. Qed.

Lemma insert_conditions_tokens mks d : auth_tokens (insert_conditions mks d) = auth_tokens d.
Proof. by rewrite insert_conditions_frame. Qed.

Lemma create_watcher_tokens a g w t now d :
  auth_tokens (create_watcher_with_conditions a g w t now d).2 = auth_tokens d.
Proof.
  unfold create_watcher_with_conditions, add_watcher_to_group. cbn.
  repeat case_match; cbn; by rewrite !insert_conditions_tokens.
Qed.

(** No operation outside a log-in touches the tokens. *)
#[export] Instance memory_tokens_invariant (tokens : gmap string AuthToken) :
  StorageInvariant (S := StorageData) (λ d, wf d ∧ auth_tokens d = tokens).
Proof.
  split; intros; try (match goal with H : wf _ ∧ _ |- _ => destruct H as [Hwf Ht] end;
    first [by eapply inv_get_user_group|split; [by eapply step_wf; [constructor|]|]|done]).
  all: rewrite <- Ht; cbn; try (by apply create_watcher_tokens); try (by rewrite insert_conditions_tokens); try done.
  all: unfold delete_device, delete_file, delete_watcher_group, update_watcher_group; try by repeat case_match.
  unfold store_file_info. by destruct (fi_file_id _ =? 0).
Qed.

(** A server that has just been started, with an empty in-memory storage. *)
Definition fresh_server (f : option F) (nm : NotificationManager) : SyncServer StorageData F :=
  mkSyncServer (mkAppState (FileService_with StorageData_new f (Some nm)) []) [] [] ∅ false ∅ [].

(** C2: whatever requests of whatever kind reach a server with the in-memory storage, in
    any number and order, from clients with or without a token, and however each of them
    ends: every account, token, device, file, group, watcher and condition is stored under
    the key it carries, and every identifier is in the range of its type. *)
Theorem server_storage_wf (setup : Setup StorageData) (f : option F) nm rs :
  se_mysql setup = None → Forall proper_request rs →
  wf (server_storage (serve_all setup rs (fresh_server f nm))).
Proof.
  intros Hm Hrs. apply (serve_all_preserves wf); [|done|by intros _; apply memory_wf_login|apply wf_new].
  intros m. by rewrite Hm.
Qed.

(** Only a log-in gives out tokens: whatever other requests reach a server, from
    whomever and in any order, a token is live for an account at some time afterwards
    exactly when it was before, and the table of tokens is the same. *)
Theorem tokens_only_from_login (setup : Setup StorageData) (g : SyncServer StorageData F) rs :
  se_mysql setup = None → wf (server_storage g) →
  Forall (λ r, proper_request r ∧ is_login (projT2 r.1) = false) rs →
  let g' := serve_all setup rs g in
  auth_tokens (server_storage g') = auth_tokens (server_storage g)
  ∧ ∀ token now a, live_token token now (server_storage g') a ↔ live_token token now (server_storage g) a.
Proof.
  intros Hm Hwf Hrs g'. assert (E : auth_tokens (server_storage g') = auth_tokens (server_storage g)).
  { apply (serve_all_preserves (λ d, wf d ∧ auth_tokens d = auth_tokens (server_storage g))); [| | |done].
    - intros m. by rewrite Hm.
    - eapply Forall_impl; [exact Hrs|]. by intros r [? _].
    - intros Hl. apply Exists_exists in Hl as (r & Hr & E). rewrite Forall_forall in Hrs.
      destruct (Hrs r Hr) as [_ E']. by rewrite E in E'. }
  split; [done|]. intros token now a. unfold live_token. cbn. unfold get_auth_token. by rewrite E.
Qed.

End memory.

(** *** Examples *)

Section examples.
#[local] Existing Instance canonical_iter.
#[local] Existing Instance chrono_range.
#[local] Existing Instance key_crypto.
#[local] Existing Instance ascii_unicode.

(** A device registers itself and a group without a token and then updates the group. *)
Definition requests0 : list Request :=
  [(existT _ (UpdateDeviceInfo (mkUpdateDeviceInfoRequest "acc" "dev1" true "os" "1")), rpc_env0);
   (existT _ (RegisterWatcherGroup (mkWatcherGroupRequest "acc" "dev1" 5 "docs" None "")), rpc_env0);
   (existT _ (UpdateWatcherGroup (mkWatcherGroupRequest "acc" "dev1" 1 "papers" None "")), rpc_env0);
   (existT _ (UploadFile (upload_req "wrong")), rpc_env0)].

Lemma server_storage_wf_witness :
  let s := server_storage (serve_all setup0 requests0 (fresh_server (F := gmap Z bytes) None NotificationManager_new)) in
  wf s ∧ (wg_title <$> watcher_groups s !! 1) = Some "papers".
Proof.
  split; [|vm_compute; reflexivity]. apply server_storage_wf; [reflexivity|].
  repeat (constructor; [split; [|split_and!; vm_compute; discriminate]|]); try exact I; try constructor;
    vm_compute; discriminate.
Defined.

Lemma app0_wf : wf (fs_storage (as_file app0)).
Proof.
  apply (store_file_info_wf (sample_file 7 "bob" "b.txt")); [split; vm_compute; discriminate|].
  eapply step_wf; [apply step_create_auth_token|apply wf_new].
Qed.

(** The requests of the example leave the token of the sample server the only one. *)
Lemma tokens_only_from_login_witness :
  let g := serve_all setup0 requests0 server0 in
  live_token "secret" (mkDateTime 500 0) (server_storage g) "acc"
  ∧ dom (auth_tokens (server_storage g)) = {["secret"]}.
Proof.
  destruct (tokens_only_from_login setup0 server0 requests0) as [E H]; [reflexivity|exact app0_wf| |].
  - repeat (constructor; [split; [split; [|split_and!; vm_compute; discriminate]|reflexivity]|]); try exact I;
      try constructor; vm_compute; discriminate.
  - cbv zeta. rewrite E. split; [apply H, app0_live|]. vm_compute. reflexivity.
Defined.

End examples.
