(* ===== verification/MySqlServer.v ===== *)
(** * The server on the MySQL storage (impl Storage for MySqlStorage in
    src/storage/mysql.rs)

    The methods of the trait delegate to the traits of the tables; here they become
    an instance of the interface that services and handlers are written against, so
    that the whole server runs on the MySQL storage.  What comes from outside is
    collected in the class [World]: failures, clocks, drawn numbers, the work of other
    connections. *)

From S2P Require Import Prelude RustString Errors Models Paths Memory StorageApi Effects Crypto Auth OAuth MySql MySqlFile.
From S2P Require Import MySqlProps MySqlWatcher MySqlVersions MySqlWatcherProps.

(** ** What the storage meets *)

(** [fault] and [read_fault] are the failures of the statements of an update and of a
    look-up: an update counts its statements on from the ones before, a look-up from 0,
    by the name of the method and the number of the next update.  [clock n] are the
    readings of the clock after [n] statements. *)
Class World := {
  fault : nat → option string;
  read_fault : string → nat → nat → option string;
  commit_applied : bool;
  auto_id : nat → Z;
  others : nat → WatchDb → WatchDb;
  clock : nat → nat → nat → nat → DateTime;
  uuid : nat → string;
  nonces : nat → nat → bytes;
  random_id : nat → Z;
  devices_order : list device_row → list device_row;
  files_order : list file_row → list file_row;
  versions_order : list file_row → list file_row;
  watcher_index : bool;
  cascade : bool;
  server_encode_key : option bytes;
  account_attempts : nat
}.

(** The error that stands for no answer at all: a panic, or a loop that goes on. *)
Definition no_answer : StorageError := General "no answer".

Definition answer {A} (o : outcome A StorageError) : Res A :=
  match o with Returned r => r | Panicked => Err no_answer end.

(** A method that changes the state. *)
Definition my_write {A} (m : nat → M Conn A) : Conn → Res A * Conn := λ c,
  let '(r, c') := m (cn_step c) c in (answer r, c').

Section impl.
Context `{WO : World}.
Context `{CO : Collation} `{SX : Sqlx} `{CH : Chrono} `{CA : CryptoApi} `{UC : Unicode} `{UT : Utf8}
  `{FC : FileColumns} `{WC : WatcherColumns}.

(** A method that only looks: its statements are on a connection of its own. *)
Definition my_read {A} (name : string) (m : (nat → option string) → nat → M Conn A) : Conn → Res A := λ c,
  answer (m (read_fault name (cn_step c)) (cn_step c) (mkConn (cn_db c) 0)).1.

(** ** Accounts and tokens *)

Definition impl_create_account (account : Account) : Conn → Res unit * Conn :=
  my_write (λ n, create_account_loop fault commit_applied account_attempts account 0).
Definition impl_get_account_by_email (email : string) : Conn → Res (option Account) :=
  my_read "get_account_by_email" (λ f n, my_get_account_by_email f email (clock n 0 0)).
Definition impl_get_account_by_hash (account_hash : string) : Conn → Res (option Account) :=
  my_read "get_account_by_hash" (λ f n, my_get_account_by_hash f account_hash (clock n 0 0)).
Definition impl_update_account (account : Account) : Conn → Res unit * Conn :=
  my_write (λ n, my_update_account fault account).
Definition impl_create_auth_token (auth_token : AuthToken) : Conn → Res unit * Conn :=
  my_write (λ n, my_create_auth_token fault auth_token).
Definition impl_get_auth_token (token : string) : Conn → Res (option AuthToken) :=
  my_read "get_auth_token" (λ f n, my_get_auth_token f token).
Definition impl_validate_auth_token (token account_hash : string) : Conn → Res bool :=
  my_read "validate_auth_token" (λ f n, my_validate_auth_token f token account_hash (clock n 0 0 0)).
Definition impl_delete_auth_token (token : string) : Conn → Res unit * Conn :=
  my_write (λ n, my_delete_auth_token fault token).

(** ** Devices *)

Definition impl_register_device (device : Device) : Conn → Res unit * Conn :=
  my_write (λ n, my_register_device fault commit_applied device (clock n 0 0 0) (uuid n)).
Definition impl_get_device (account_hash device_hash : string) : Conn → Res (option Device) :=
  my_read "get_device" (λ f n, my_get_device f account_hash device_hash (clock n 0 0)).
Definition impl_list_devices (account_hash : string) : Conn → Res (list Device) :=
  my_read "list_devices" (λ f n, my_list_devices f devices_order account_hash (clock n 0)).
Definition impl_update_device (device : Device) : Conn → Res unit * Conn :=
  my_write (λ n, my_update_device fault device (clock n 0 0 0)).
Definition impl_delete_device (account_hash device_hash : string) : Conn → Res unit * Conn :=
  my_write (λ n, my_delete_device fault account_hash device_hash).
Definition impl_validate_device (account_hash device_hash : string) : Conn → Res bool :=
  my_read "validate_device" (λ f n, my_validate_device f account_hash device_hash).
Definition impl_get_devices_for_account (account_hash : string) : Conn → Res (list Device) :=
  my_read "get_devices_for_account" (λ f n, my_list_devices f devices_order account_hash (clock n 0)).

(** ** Files *)

Definition impl_store_file_info (file_info : FileInfo) : Conn → Res Z * Conn :=
  my_write (λ n, my_store_file_info fault commit_applied server_encode_key file_info (clock n 0 0 0) (nonces n)).
Definition impl_get_file_info (file_id : Z) : Conn → Res (option FileInfo) :=
  my_read "get_file_info" (λ f n, my_get_file_info f server_encode_key file_id).
Definition impl_get_file_info_include_deleted (file_id : Z) : Conn → Res (option (FileInfo * bool)) :=
  my_read "get_file_info_include_deleted" (λ f n, my_get_file_info_include_deleted f server_encode_key file_id).
Definition impl_find_file_by_path_and_name (account_hash file_path filename : string) (revision : Z)
    : Conn → Res (option FileInfo) :=
  my_read "find_file_by_path_and_name" (λ f n,
    my_find_file_by_path_and_name f server_encode_key account_hash file_path filename revision).
Definition impl_find_file_by_criteria (account_hash : string) (group_id watcher_id : Z) (file_path filename : string)
    : Conn → Res (option FileInfo) :=
  my_read "find_file_by_criteria" (λ f n,
    my_find_file_by_criteria f account_hash group_id watcher_id file_path filename).
Definition impl_delete_file (account_hash : string) (file_id : Z) : Conn → Res unit * Conn :=
  my_write (λ n, my_delete_file fault commit_applied account_hash file_id (clock n 0 0 0) (random_id n)).
Definition impl_list_files (account_hash : string) (group_id : Z) (upload_time_from : option Z)
    : Conn → Res (list FileInfo) :=
  my_read "list_files" (λ f n, my_list_files f server_encode_key files_order account_hash group_id upload_time_from).
Definition impl_list_files_except_device (account_hash : string) (group_id : Z) (exclude_device_hash : string)
    (upload_time_from : option Z) : Conn → Res (list FileInfo) :=
  my_read "list_files_except_device" (λ f n,
    my_list_files_except_device f server_encode_key files_order account_hash group_id exclude_device_hash
      upload_time_from).
Definition impl_store_file_data (file_id : Z) (data_bytes : bytes) : Conn → Res unit * Conn :=
  my_write (λ n, my_store_file_data fault file_id data_bytes (clock n 0 0 0)).
Definition impl_get_file_data (file_id : Z) : Conn → Res (option bytes) :=
  my_read "get_file_data" (λ f n, my_get_file_data f file_id).
Definition impl_check_file_exists (file_id : Z) : Conn → Res (bool * bool) :=
  my_read "check_file_exists" (λ f n, my_check_file_exists f file_id).
Definition impl_get_encryption_key (account_hash : string) : Conn → Res (option string) :=
  my_read "get_encryption_key" (λ f n, my_get_encryption_key f account_hash).
Definition impl_store_encryption_key (account_hash encryption_key : string) : Conn → Res unit * Conn :=
  my_write (λ n, my_store_encryption_key fault account_hash encryption_key (clock n 0 0 0)).

(** Versions; these methods hold their statements themselves. *)
Definition impl_get_file_history (account_hash file_path : string) (group_id : Z) : Conn → Res (list SyncFile) :=
  my_read "get_file_history" (λ f n, my_get_file_history f versions_order account_hash file_path group_id (clock n 0)).
Definition impl_get_file_versions_by_id (account_hash : string) (file_id : Z) : Conn → Res (list SyncFile) :=
  my_read "get_file_versions_by_id" (λ f n, my_get_file_versions_by_id f versions_order account_hash file_id (clock n 0)).
Definition impl_get_file_by_revision (account_hash : string) (file_id revision : Z) : Conn → Res SyncFile :=
  my_read "get_file_by_revision" (λ f n, my_get_file_by_revision f account_hash file_id revision (clock n 0 0)).
Definition impl_store_file (file : SyncFile) : Conn → Res unit * Conn := my_write (λ n, my_store_file fault file).

(** ** Groups, watchers, conditions, presets *)

Definition impl_register_watcher_group (account_hash device_hash : string) (watcher_group : WatcherGroup)
    : Conn → Res Z * Conn :=
  my_write (λ n, my_register_watcher_group fault commit_applied auto_id account_hash device_hash watcher_group).
Definition impl_get_watcher_groups (account_hash : string) : Conn → Res (list WatcherGroup) :=
  my_read "get_watcher_groups" (λ f n, my_get_watcher_groups f account_hash (clock n 0)).
Definition impl_get_user_watcher_group (account_hash : string) (group_id : Z) : Conn → Res (option WatcherGroup) :=
  my_read "get_user_watcher_group" (λ f n, my_get_user_watcher_group f account_hash group_id (clock n 0 0)).
Definition impl_update_watcher_group (account_hash : string) (watcher_group : WatcherGroup) : Conn → Res unit * Conn :=
  my_write (λ n, my_update_watcher_group fault commit_applied account_hash watcher_group).
Definition impl_delete_watcher_group (account_hash : string) (group_id : Z) : Conn → Res unit * Conn :=
  my_write (λ n, my_delete_watcher_group fault commit_applied cascade account_hash group_id).
Definition impl_get_watcher_group_by_account_and_id (account_hash : string) (group_id : Z)
    : Conn → Res (option sync_WatcherGroupData) :=
  my_read "get_watcher_group_by_account_and_id" (λ f n,
    my_get_watcher_group_by_account_and_id f account_hash group_id (clock n 1 0 0) (clock n)).
Definition impl_get_watcher_preset (account_hash : string) : Conn → Res (list string) :=
  my_read "get_watcher_preset" (λ f n, my_get_watcher_preset f account_hash).
Definition impl_register_watcher_preset_proto (account_hash device_hash : string) (presets : list string)
    : Conn → Res unit * Conn :=
  my_write (λ n, my_register_watcher_preset_proto fault account_hash device_hash presets (clock n 0 0 0)).
Definition impl_update_watcher_preset_proto (account_hash device_hash : string) (presets : list string)
    : Conn → Res unit * Conn :=
  my_write (λ n, my_update_watcher_preset_proto fault account_hash device_hash presets (clock n 0 0 0)).
Definition impl_find_watcher_by_folder (account_hash : string) (group_id : Z) (folder : string)
    : Conn → Res (option Z) :=
  my_read "find_watcher_by_folder" (λ f n, my_find_watcher_by_folder f account_hash group_id folder).
Definition impl_create_watcher_with_conditions (account_hash : string) (group_id : Z) (watcher_data : sync_WatcherData)
    (timestamp : Z) : Conn → Res Z * Conn :=
  my_write (λ n, my_create_watcher_with_conditions fault commit_applied auto_id others watcher_index account_hash
                   group_id watcher_data timestamp (clock n 0 0)).
Definition impl_get_watcher_by_group_and_id (account_hash : string) (group_id watcher_id : Z)
    : Conn → Res (option sync_WatcherData) :=
  my_read "get_watcher_by_group_and_id" (λ f n,
    my_get_watcher_by_group_and_id f account_hash group_id watcher_id (clock n 0)).
Definition impl_get_server_group_id (account_hash : string) (client_group_id : Z) : Conn → Res (option Z) :=
  my_read "get_server_group_id" (λ f n, my_get_server_group_id f account_hash client_group_id).
Definition impl_get_server_ids (account_hash : string) (client_group_id client_watcher_id : Z)
    : Conn → Res (option (Z * Z)) :=
  my_read "get_server_ids" (λ f n, my_get_server_ids f account_hash client_group_id client_watcher_id).
Definition impl_get_client_watcher_id (account_hash : string) (server_group_id server_watcher_id : Z)
    : Conn → Res (option (Z * Z)) :=
  my_read "get_client_watcher_id" (λ f n, my_get_client_watcher_id f account_hash server_group_id server_watcher_id).
Definition impl_save_watcher_conditions (watcher_id : Z) (conditions : list WatcherCondition) : Conn → Res unit * Conn :=
  my_write (λ n, my_save_watcher_conditions fault commit_applied auto_id watcher_id conditions).

(** Methods that no service calls. *)
Definition impl_get_account_by_id (id : string) : Conn → Res (option Account) :=
  my_read "get_account_by_id" (λ f n, my_get_account_by_id id).
Definition impl_delete_account (account_hash : string) : Conn → Res unit * Conn :=
  my_write (λ n, my_delete_account account_hash).
Definition impl_update_auth_token (auth_token : AuthToken) : Conn → Res unit * Conn :=
  my_write (λ n, my_update_auth_token auth_token).
Definition impl_get_file_info_by_path (account_hash file_path : string) (group_id : Z) : Conn → Res (option FileInfo) :=
  my_read "get_file_info_by_path" (λ f n, my_get_file_info_by_path f server_encode_key account_hash file_path group_id).
Definition impl_get_file_by_hash (account_hash file_hash : string) : Conn → Res (option FileInfo) :=
  my_read "get_file_by_hash" (λ f n, my_get_file_by_hash f server_encode_key account_hash file_hash).
Definition impl_create_watcher_condition (condition : WatcherCondition) : Conn → Res Z * Conn :=
  my_write (λ n, my_create_watcher_condition fault commit_applied auto_id condition).
Definition impl_get_watcher_conditions (account_hash : string) (watcher_id : Z) : Conn → Res (list WatcherCondition) :=
  my_read "get_watcher_conditions" (λ f n, my_get_watcher_conditions f account_hash watcher_id (clock n 0)).
Definition impl_update_watcher_condition (condition : WatcherCondition) : Conn → Res unit * Conn :=
  my_write (λ n, my_update_watcher_condition fault commit_applied condition).
Definition impl_delete_watcher_condition (condition_id : Z) : Conn → Res unit * Conn :=
  my_write (λ n, my_delete_watcher_condition fault condition_id).
Definition impl_delete_all_watcher_conditions (watcher_id : Z) : Conn → Res unit * Conn :=
  my_write (λ n, my_delete_all_watcher_conditions fault watcher_id).
Definition impl_get_watcher_condition (condition_id : Z) : Conn → Res (option WatcherCondition) :=
  my_read "get_watcher_condition" (λ f n, my_get_watcher_condition f condition_id (clock n 0 0)).

(** The method of the storage itself that an upload calls. *)
Definition ensure_server_ids_for (account_hash device_hash : string) (client_group_id client_watcher_id : Z)
    (folder_hint : option string) : Conn → Res (Z * Z) * Conn :=
  my_write (λ n, my_ensure_server_ids_for fault commit_applied auto_id account_hash device_hash client_group_id
                   client_watcher_id folder_hint (clock n 0 0)).

(** ** The interface *)

#[global] Instance mysql_storage : Storage Conn := {|
  s_get_encryption_key := impl_get_encryption_key;
  s_store_encryption_key := impl_store_encryption_key;
  s_register_device := impl_register_device;
  s_get_device := impl_get_device;
  s_list_devices := impl_list_devices;
  s_update_device := impl_update_device;
  s_delete_device := impl_delete_device;
  s_validate_device := impl_validate_device;
  s_get_devices_for_account := impl_get_devices_for_account;
  s_store_file_info := impl_store_file_info;
  s_get_file_info := impl_get_file_info;
  s_list_files := impl_list_files;
  s_list_files_except_device := impl_list_files_except_device;
  s_delete_file := impl_delete_file;
  s_store_file_data := impl_store_file_data;
  s_get_file_data := impl_get_file_data;
  s_find_file_by_path_and_name := impl_find_file_by_path_and_name;
  s_find_file_by_criteria := impl_find_file_by_criteria;
  s_get_file_info_include_deleted := impl_get_file_info_include_deleted;
  s_check_file_exists := impl_check_file_exists;
  s_get_file_history := impl_get_file_history;
  s_get_file_versions_by_id := impl_get_file_versions_by_id;
  s_get_file_by_revision := impl_get_file_by_revision;
  s_store_file := impl_store_file;
  s_get_server_group_id := impl_get_server_group_id;
  s_get_server_ids := impl_get_server_ids;
  s_find_watcher_by_folder := impl_find_watcher_by_folder;
  s_create_watcher_with_conditions := λ a g w t _, impl_create_watcher_with_conditions a g w t;
  s_save_watcher_conditions := impl_save_watcher_conditions;
  s_get_watcher_group_by_account_and_id := impl_get_watcher_group_by_account_and_id;
  s_get_watcher_groups := impl_get_watcher_groups;
  s_register_watcher_group := impl_register_watcher_group;
  s_get_user_watcher_group := impl_get_user_watcher_group;
  s_update_watcher_group := impl_update_watcher_group;
  s_delete_watcher_group := impl_delete_watcher_group;
  s_get_watcher_preset := impl_get_watcher_preset;
  s_register_watcher_preset_proto := impl_register_watcher_preset_proto;
  s_update_watcher_preset_proto := impl_update_watcher_preset_proto;
  s_get_client_watcher_id := impl_get_client_watcher_id;
  s_get_auth_token := impl_get_auth_token;
  s_get_account_by_hash := impl_get_account_by_hash;
  s_create_account := impl_create_account
|}.

#[global] Instance mysql_account_storage : AccountStorage Conn := {|
  s_get_account_by_email := impl_get_account_by_email;
  s_update_account := impl_update_account;
  s_create_auth_token := impl_create_auth_token;
  s_validate_auth_token := impl_validate_auth_token;
  s_delete_auth_token := impl_delete_auth_token
|}.

End impl.
