(* ===== verification/MySqlServerProps.v ===== *)
(** * The server on the MySQL storage: what every request preserves

    The watcher tables stay consistent and the tokens are given out by log-ins only,
    whatever requests a server on the MySQL storage serves and whichever statements
    fail. *)

From S2P Require Import Prelude RustString Errors Models Paths Memory MemoryProps StorageApi Effects Crypto Notify NotifyProps FileService.
From S2P Require Import FileServiceProps VersionService Auth OAuth AuthHandlers FileHandlers FileHandlersProps ServerState Subscriptions DeviceHandlers WatcherHandlers Service ServiceProps StorageInvariant.
From S2P Require Import MySql MySqlFile MySqlProps MySqlWatcher MySqlVersions MySqlWatcherProps MySqlServer.

(** ** What a method leaves alone

    A part [π] of the database is left as it is, however the method ends, and
    statements are only added. *)

Create HintDb frames.

Section frames.
Context {X : Type} (π : Db → X).

Definition frames {A} (m : M Conn A) : Prop :=
  ∀ c, π (cn_db (m c).2) = π (cn_db c) ∧ (cn_step c <= cn_step (m c).2)%nat.

Lemma frames_ret {A} (a : A) : frames (ret a).
Proof. by intros c. Qed.

Lemma frames_throw {A} e : frames (throw (A := A) e).
Proof. by intros c. Qed.

Lemma frames_panic {A} : frames (λ c, (Panicked, c) : outcome A StorageError * Conn).
Proof. by intros c. Qed.

Lemma frames_mthen {A B} (m : M Conn A) (k : A → M Conn B) : frames m → (∀ a, frames (k a)) → frames (mthen m k).
Proof.
  intros Hm Hk c. unfold mthen. destruct (Hm c) as [E Hs]. destruct (m c) as [[[a|e]|] c1]; [|done..].
  destruct (Hk a c1) as [E' Hs']. cbn [snd] in *. split; [congruence|lia].
Qed.

Lemma frames_mtry {A B} (m : M Conn A) (k : result A StorageError → M Conn B) :
  frames m → (∀ r, frames (k r)) → frames (mtry m k).
Proof.
  intros Hm Hk c. unfold mtry. destruct (Hm c) as [E Hs]. destruct (m c) as [[r|] c1]; [|done].
  destruct (Hk r c1) as [E' Hs']. cbn [snd] in *. split; [congruence|lia].
Qed.

Lemma frames_exec {A} fault err (f : Db → A * Db) : (∀ d, π (f d).2 = π d) → frames (exec fault err f).
Proof.
  intros Hf c. unfold exec. destruct (fault _); cbn; [split; [done|lia]|].
  specialize (Hf (cn_db c)). destruct (f (cn_db c)) as [a d]; cbn in *. split; [done|lia].
Qed.

Lemma frames_query {A} fault err (f : Db → A) : frames (query fault err f).
Proof. by apply frames_exec. Qed.

Lemma frames_fetch_optional {R A} fault err (dec : R → result A string) f :
  frames (fetch_optional fault err dec f).
Proof.
  apply frames_mthen; [apply frames_query|]. intros [r|]; [destruct (dec r)|]; [apply frames_ret|apply frames_throw|apply frames_ret].
Qed.

Lemma frames_transaction {A} fault commit_applied be ce (body : M Conn A) :
  frames body → frames (transaction fault commit_applied be ce body).
Proof.
  intros Hb c. unfold transaction. destruct (fault _); cbn; [split; [done|lia]|].
  destruct (Hb (mkConn (cn_db c) (S (cn_step c)))) as [E Hs]. cbn [cn_db cn_step] in *.
  destruct (body _) as [[[a|e]|] c1]; cbn in *; [|split; [done|lia]..].
  destruct (fault _); cbn; [|split; [done|lia]]. destruct commit_applied; split; done || lia.
Qed.

Context `{CO : Collation} `{SX : Sqlx} `{CH : Chrono} `{UC : Unicode} `{FC : FileColumns} `{WC : WatcherColumns}.
Context (Hwatch : ∀ f d, π (with_watch f d) = π d).

Lemma frames_exec_id {A} fault auto_id limit err (f : Z → WatchDb → A * WatchDb) :
  frames (exec_id fault auto_id limit err f).
Proof.
  intros c. unfold exec_id. apply frames_exec. intros d. destruct (f _ _). apply Hwatch.
Qed.

Lemma frames_wexec fault err f : frames (wexec fault err f).
Proof. apply frames_exec. intros d. apply Hwatch. Qed.

Lemma frames_insert_conditions fault auto_id what row k l : frames (insert_conditions_loop fault auto_id what row k l).
Proof.
  revert k. induction l as [|x l IH]; intros k; [apply frames_ret|].
  apply frames_mthen; [apply frames_exec_id|]. intros _. apply IH.
Qed.

Lemma frames_save_conditions fault auto_id l : frames (save_conditions_loop fault auto_id l).
Proof.
  induction l as [|x l IH]; [apply frames_ret|]. apply frames_mthen; [apply frames_exec_id|]. intros _. apply IH.
Qed.

Lemma frames_wait fault others tries account group_id waited :
  frames (wait_for_group fault others tries account group_id waited).
Proof.
  revert waited. induction tries as [|tries IH]; intros waited; [apply frames_ret|]. cbn [wait_for_group].
  apply frames_mthen; [apply frames_query|]. intros [g|]; [apply frames_ret|]. case_match; [|apply IH].
  intros c. destruct (IH (waited + pause_ms (15 - tries)) (mkConn (with_watch (others (15 - tries)%nat) (cn_db c)) (cn_step c)))
    as [E Hs]. exact (conj (eq_trans E (Hwatch _ _)) Hs).
Qed.

End frames.

#[export] Hint Resolve frames_ret frames_throw frames_panic frames_query frames_fetch_optional frames_exec_id frames_wexec
  frames_insert_conditions frames_save_conditions frames_wait : frames.
#[export] Hint Unfold wquery time_scalar kept_watcher ensure_group ensure_watcher : frames.

(** Walks through a method, statement by statement. *)
Ltac framed :=
  repeat first
    [ solve [auto with frames]
    | apply frames_mthen; [|intros ?] | apply frames_mtry; [|intros ?] | apply frames_transaction
    | apply frames_exec; intros ?
    | progress autounfold with frames
    | case_match
    | progress cbv zeta
    | reflexivity ].

(** ** Every update of the storage *)

Section updates.
Context `{WO : World}.
Context `{CO : Collation} `{SX : Sqlx} `{CH : Chrono} `{CA : CryptoApi} `{UC : Unicode} `{UT : Utf8}
  `{FC : FileColumns} `{WC : WatcherColumns}.

Lemma frames_write {X A} (π : Db → X) (m : nat → M Conn A) : (∀ n, frames π (m n)) →
  ∀ c, π (cn_db (my_write m c).2) = π (cn_db c) ∧ (cn_step c <= cn_step (my_write m c).2)%nat.
Proof. intros Hm c. unfold my_write. specialize (Hm (cn_step c) c). by destruct (m _ c). Qed.

Section accounts.
Context {X : Type} (π : Db → X).

Lemma frames_create_account fault commit_applied fuel account rc :
  (∀ l d, π (with_accounts l d) = π d) → frames π (create_account_loop fault commit_applied fuel account rc).
Proof.
  intros Hl. revert rc. induction fuel as [|fuel IH]; intros rc; [apply frames_panic|]. cbn [create_account_loop].
  apply frames_mthen; [|intros []; framed; apply IH].
  intros c. unfold create_account_attempt. repeat (case_match; cbn [snd cn_db cn_step]); rewrite ?Hl; split; done || lia.
Qed.

End accounts.

(** *** Updates without an answer

    Two updates can be without one: a file is stored with a key that the cipher does
    not accept, and the attempts to create an account go on.  A server without a key
    does not know the first, and with statements that fail only for some time the second
    does not occur either, given enough attempts. *)

Lemma store_file_info_answers f now nonces c :
  server_encode_key = None →
  (my_store_file_info fault commit_applied server_encode_key f now nonces c).1 ≠ Panicked.
Proof.
  intros ->. unfold my_store_file_info, transaction, mthen, query, exec, file_columns, server_key.
  repeat (case_match; simplify_eq); done.
Qed.

Lemma create_account_answers account rc n c :
  (∀ m, (n <= m)%nat → fault m = None) → (n < account_attempts)%nat →
  (create_account_loop fault commit_applied account_attempts account rc c).1 ≠ Panicked.
Proof.
  intros Hn Hlt. destruct (create_account_fuel fault commit_applied account n c Hn rc) as (r & c' & E).
  rewrite (create_account_loop_more _ _ _ _ _ r (S (n - cn_step c)) account_attempts c'); [done|lia|done].
Qed.

(** *** Other connections

    What another server on the same database may commit meanwhile: a group with a new
    number under a key that is free (the table has a UNIQUE index), a watcher with a new
    number in a group of its account, the deletion of a group with its watchers, changes of
    other columns, and anything in the tables of conditions, presets and notices. *)
Inductive foreign_step (n : nat) : WatchDb → WatchDb → Prop :=
| foreign_group gs ws cs ps ns cs' ps' ns' g :
    0 < gr_id g < auto_id n → gr_id g ≤ i32_max → gr_id g ∉ map gr_id gs → (∀ r, r ∈ gs → same_group_key g r = false) →
    foreign_step n (mkWatchDb gs ws cs ps ns) (mkWatchDb (gs ++ [g]) ws cs' ps' ns')
| foreign_watcher gs ws cs ps ns cs' ps' ns' r :
    0 < wr_id r < auto_id n → wr_id r ≤ i32_max → wr_id r ∉ map wr_id ws → has_group gs r →
    foreign_step n (mkWatchDb gs ws cs ps ns) (mkWatchDb gs (ws ++ [r]) cs' ps' ns')
| foreign_deletion gs ws cs ps ns cs' ps' ns' i :
    foreign_step n (mkWatchDb gs ws cs ps ns)
      (mkWatchDb (List.filter (λ g, negb (gr_id g =? i)) gs) (List.filter (λ r, negb (wr_group_id r =? i)) ws) cs' ps' ns')
| foreign_columns gs ws cs ps ns cs' ps' ns' p f q h :
    (∀ g, gr_id (f g) = gr_id g ∧ gr_account_hash (f g) = gr_account_hash g ∧ gr_group_id (f g) = gr_group_id g) →
    (∀ r, wr_id (h r) = wr_id r ∧ wr_account_hash (h r) = wr_account_hash r ∧ wr_group_id (h r) = wr_group_id r
          ∧ wr_local_group_id (h r) = wr_local_group_id r) →
    foreign_step n (mkWatchDb gs ws cs ps ns) (mkWatchDb (sql_update p f gs) (sql_update q h ws) cs' ps' ns').

Lemma numbered_insert {R} (id : R → Z) n l x :
  0 < id x < auto_id n → id x ≤ i32_max → id x ∉ map id l → numbered auto_id id n l → numbered auto_id id n (l ++ [x]).
Proof.
  intros Hx Hmax Hf [Hd H]. split.
  - rewrite map_app. apply NoDup_app. split; [done|]. split; [|apply NoDup_singleton].
    intros i Hi ->%list_elem_of_singleton. done.
  - intros r [Hr| ->%list_elem_of_singleton]%elem_of_app; [by apply H|done].
Qed.

Lemma foreign_step_ok n w w' : foreign_step n w w' → watch_ok auto_id n w → watch_ok auto_id n w'.
Proof.
  intros Hs [Hg Hw Hk Hh]. destruct Hs; cbn in *.
  - split; cbn; [by apply numbered_insert|done|by apply keys_unique_snoc|].
    intros r Hr. destruct (Hh r Hr) as (g' & Hg' & ?). exists g'. split; [set_solver|done].
  - split; cbn; [done|by apply numbered_insert|done|].
    intros r' [Hr'| ->%list_elem_of_singleton]%elem_of_app; [by apply Hh|done].
  - split; cbn; [by apply numbered_filter|by apply numbered_filter|by apply keys_unique_filter|].
    intros r [Hr Hi]%elem_of_filter_In. destruct (Hh r Hr) as (g & Hg' & E & ?). exists g. split; [|done].
    apply elem_of_filter_In. by rewrite E.
  - split; cbn.
    + apply numbered_update; [intros g; apply H|done].
    + apply numbered_update; [intros r; apply H0|done].
    + apply keys_unique_update; [..|done]; intros a b; unfold same_group_key, of_group;
        [by destruct (H a) as (_ & -> & ->)|by destruct (H b) as (_ & -> & ->)].
    + intros r (r0 & Hr0 & ->)%elem_of_sql_update. destruct (Hh r0 Hr0) as (g & Hg' & E1 & E2 & E3).
      exists (if p g then f g else g). split; [apply list_elem_of_In, in_map_iff; exists g; by rewrite <-list_elem_of_In|].
      destruct (H g) as (A1 & A2 & A3), (H0 r0) as (B1 & B2 & B3 & B4).
      by destruct (p g), (q r0); rewrite ?A1, ?A2, ?A3, ?B2, ?B3, ?B4.
Qed.

Lemma foreign_steps_ok n w w' : rtc (foreign_step n) w w' → watch_ok auto_id n w → watch_ok auto_id n w'.
Proof. induction 1 as [w|w1 w2 w3 Hs _ IH]; [done|]. intros Hw. by apply IH, (foreign_step_ok n w1). Qed.

(** The storage, and the database behind it. *)
Context (auto_id_pos : ∀ n, 0 < auto_id n) (auto_id_grows : ∀ m n, (m < n)%nat → auto_id m < auto_id n).
Context (others_ok : ∀ k n w, watch_ok auto_id n w → watch_ok auto_id n (others k w)).
Abbreviation consistent := (conn_ok auto_id).

(** A method that leaves the watcher tables alone keeps them consistent. *)
Lemma write_outside {A} (m : nat → M Conn A) c :
  (∀ n, frames t_watch (m n)) → consistent c → consistent (my_write m c).2.
Proof.
  intros Hm Hc. destruct (frames_write t_watch m Hm c) as [E Hs]. unfold conn_ok in *. rewrite E.
  by apply (watch_ok_more auto_id auto_id_grows (cn_step c)).
Qed.

(** A method that is one of the operations on the watcher tables. *)
Lemma write_watch_op {A} (op : nat → watch_op) (m : nat → M Conn A) c :
  (∀ n c, (m n c).2 = run_op auto_id fault commit_applied others (op n) c) → consistent c →
  consistent (my_write m c).2.
Proof.
  intros Hm Hc. unfold my_write. pose proof (Hm (cn_step c) c) as E. destruct (m _ c) as [r c']. cbn [snd] in *.
  rewrite E. by apply run_op_ok.
Qed.

(** The number of a group that is read. *)
Lemma user_group_number account group_id c g :
  consistent c → impl_get_user_watcher_group account group_id c = Ok (Some g) → i32 (wg_id g).
Proof.
  intros Hc. unfold impl_get_user_watcher_group, my_read, my_get_user_watcher_group, group_watcher_ids, wquery, query,
    exec, mthen. cbn [cn_db cn_step].
  destruct (read_fault _ _ _); [done|]. destruct (find_group account group_id _) as [r|] eqn:E; [|done]. cbn [cn_db cn_step].
  destruct (read_fault _ _ _); [done|]. intros [= <-]. cbn.
  apply find_some in E as [Hin%list_elem_of_In _].
  destruct (ok_group_ids _ _ _ Hc) as [_ H]. specialize (H r Hin). unfold i32, i32_min, i32_max in *. lia.
Qed.

#[export] Instance mysql_consistent_invariant : StorageInvariant (S := Conn) consistent.
Proof.
  split.
  - intros a k c. apply write_outside. intros n. unfold my_store_encryption_key. framed.
  - intros d c. apply write_outside. intros n. unfold my_register_device. framed.
  - intros d c. apply write_outside. intros n. unfold my_update_device. framed.
  - intros a h c. apply write_outside. intros n. unfold my_delete_device. framed.
  - intros f c _. apply write_outside. intros n. unfold my_store_file_info. framed.
  - intros a i c. apply write_outside. intros n. unfold my_delete_file. framed.
  - intros i bs c. apply write_outside. intros n. unfold my_store_file_data. framed.
  - intros f c. apply write_outside. intros n. unfold my_store_file. framed.
  - intros a g w ts now c. by apply (write_watch_op (λ n, CreateWatcher watcher_index a g w ts (clock n 0 0))).
  - intros i cs c. by apply (write_watch_op (λ n, SaveConditions i cs)).
  - intros a h g c. by apply (write_watch_op (λ n, RegisterGroup a h g)).
  - intros a i c g. by apply user_group_number.
  - intros a g c _. by apply (write_watch_op (λ n, UpdateGroup a g)).
  - intros a i c. by apply (write_watch_op (λ n, DeleteGroup cascade a i)).
  - intros a h l c. by apply (write_watch_op (λ n, RegisterPreset a h l (clock n 0 0 0))).
  - intros a h l c. by apply (write_watch_op (λ n, RegisterPreset a h l (clock n 0 0 0))).
  - intros a c. apply write_outside. intros n. by apply frames_create_account.
Qed.

#[export] Instance mysql_consistent_login : LoginInvariant (S := Conn) consistent.
Proof.
  split.
  - intros a c. apply write_outside. intros n. unfold my_update_account. framed.
  - intros x c. apply write_outside. intros n. unfold my_create_auth_token. framed.
Qed.

(** *** The tokens *)

Section tokens.
Context (tokens : list token_row).
Abbreviation same_tokens := (λ c, t_auth_tokens (cn_db c) = tokens).

Lemma write_tokens {A} (m : nat → M Conn A) c :
  (∀ n, frames t_auth_tokens (m n)) → same_tokens c → same_tokens (my_write m c).2.
Proof. intros Hm <-. apply (frames_write t_auth_tokens m Hm c). Qed.

Lemma ensure_server_ids_tokens a h g w hint c :
  same_tokens c → same_tokens (ensure_server_ids_for a h g w hint c).2.
Proof. apply write_tokens. intros n. unfold my_ensure_server_ids_for. framed. Qed.

(** No update outside a log-in touches them. *)
Lemma mysql_tokens_kept : StorageInvariant (S := Conn) (λ c, consistent c ∧ same_tokens c).
Proof.
  assert (Hp : ∀ a h l n, frames t_auth_tokens (my_register_watcher_preset_proto fault a h l (clock n 0 0 0))).
  { intros a h l n. unfold my_register_watcher_preset_proto. apply frames_mtry; [apply frames_exec|framed].
    intros d. unfold ensure_account_row; cbn. by case_match. }
  split; intros; try (match goal with H : _ ∧ _ |- _ => destruct H as [Hc Ht] end);
    try (match goal with E : _ = Ok (Some _) |- _ => exact (user_group_number _ _ _ _ Hc E) end); (split; [by apply mysql_consistent_invariant|]);
    (apply write_tokens; [intros n|done]).
  - unfold my_store_encryption_key. framed.
  - unfold my_register_device. framed.
  - unfold my_update_device. framed.
  - unfold my_delete_device. framed.
  - unfold my_store_file_info. framed.
  - unfold my_delete_file. framed.
  - unfold my_store_file_data. framed.
  - unfold my_store_file. framed.
  - unfold my_create_watcher_with_conditions. framed.
  - unfold my_save_watcher_conditions. framed.
  - unfold my_register_watcher_group. framed.
  - unfold my_update_watcher_group. framed.
  - unfold my_delete_watcher_group. framed.
  - apply Hp.
  - apply Hp.
  - by apply frames_create_account.
Qed.

End tokens.

(** ** The server *)

Section server.
Context `{HI : HashIter} {F : Type} `{FST : FileStorage F}.
(** The setup of a server on this storage. *)
Context (setup : Setup Conn) (Hsetup : se_mysql setup = Some ensure_server_ids_for).
Abbreviation database := (λ g : SyncServer Conn F, cn_db (server_storage g)).

(** A server that has just been started on a database with these tables. *)
Definition mysql_server (d : Db) (f : option F) (nm : NotificationManager) : SyncServer Conn F :=
  mkSyncServer (mkAppState (FileService_with (mkConn d 0) f (Some nm)) []) [] [] ∅ false ∅ [].

Lemma ensure_server_ids_consistent a h g w hint c :
  consistent c → consistent (ensure_server_ids_for a h g w hint c).2.
Proof. by apply (write_watch_op (λ n, EnsureServerIds a h g w hint (clock n 0 0))). Qed.

Lemma empty_consistent d n : t_watch d = mkWatchDb [] [] [] [] [] → consistent (mkConn d n).
Proof.
  intros Hd. unfold conn_ok; cbn. rewrite Hd.
  split; cbn; [split; [constructor|by intros r ?%elem_of_nil]..|by intros i j ri rj ?|by intros r ?%elem_of_nil].
Qed.

(** The watcher tables as another server leaves them. *)
Definition with_tables (w : WatchDb) (g : SyncServer Conn F) : SyncServer Conn F :=
  let c := server_storage g in
  mkSyncServer (mkAppState (with_storage (mkConn (with_watch (λ _, w) (cn_db c)) (cn_step c)) (as_file (gs_app g)))
                  (as_events (gs_app g)))
    (gs_group_log g) (gs_preset_log g) (gs_sessions g) (gs_poisoned g) (gs_tracker g) (gs_sent g).

(** What may happen to a server and its database: requests, and between them the work of
    other servers on the watcher tables. *)
Inductive shared_run (g0 : SyncServer Conn F) : SyncServer Conn F → Prop :=
| shared_start : shared_run g0 g0
| shared_request g r : shared_run g0 g → proper_request r → shared_run g0 (serve_all setup [r] g)
| shared_foreign g w : shared_run g0 g →
    foreign_step (cn_step (server_storage g)) (t_watch (cn_db (server_storage g))) w → shared_run g0 (with_tables w g).

Lemma shared_requests g0 rs : ∀ g, shared_run g0 g → Forall proper_request rs → shared_run g0 (serve_all setup rs g).
Proof.
  induction rs as [|r rs IH]; intros g Hg Hrs; [done|]. apply Forall_cons in Hrs as [Hr Hrs].
  apply (IH (serve_all setup [r] g)); [by apply shared_request|done].
Qed.

Lemma server_consistent d f nm g :
  watch_ok auto_id 0 (t_watch d) → shared_run (mysql_server d f nm) g → consistent (server_storage g).
Proof.
  intros Hd Hrun. induction Hrun as [|g r _ IH Hr|g w _ IH Hw]; [done| |].
  - apply (serve_all_preserves consistent); [|by constructor| |done].
    + intros m. rewrite Hsetup. intros [= <-]. apply ensure_server_ids_consistent.
    + intros _. apply mysql_consistent_login.
  - by apply (foreign_step_ok _ _ _ Hw).
Qed.

(** C5: on the MySQL storage only a log-in gives out tokens: whatever other requests reach
    the server and whichever statements fail, the table of tokens is the same
    afterwards; while the look-up of tokens does not fail, a token is live for an account
    exactly when it was before. *)
Theorem mysql_tokens_only_from_login (g : SyncServer Conn F) rs :
  consistent (server_storage g) → Forall (λ r, proper_request r ∧ is_login (projT2 r.1) = false) rs →
  let g' := serve_all setup rs g in
  t_auth_tokens (database g') = t_auth_tokens (database g)
  ∧ ((∀ n k, read_fault "get_auth_token" n k = None) →
     ∀ token now a, live_token token now (server_storage g') a ↔ live_token token now (server_storage g) a).
Proof.
  intros Hg Hrs g'. assert (E : t_auth_tokens (database g') = t_auth_tokens (database g)).
  { apply (serve_all_preserves (λ c, consistent c ∧ t_auth_tokens (cn_db c) = t_auth_tokens (database g))
             (SI := mysql_tokens_kept _)); [| | |done].
    - intros m. rewrite Hsetup. intros [= <-] a h i w p c [Hc Ht].
      split; [by apply ensure_server_ids_consistent|by apply ensure_server_ids_tokens].
    - eapply Forall_impl; [exact Hrs|]. by intros r [? _].
    - intros Hl. apply Exists_exists in Hl as (r & Hr & El). rewrite Forall_forall in Hrs.
      destruct (Hrs r Hr) as [_ E']. by rewrite El in E'. }
  split; [done|]. intros Hcalm token now a. unfold live_token. cbn.
  assert (Hget : ∀ c, impl_get_auth_token token c =
    answer (my_get_auth_token (λ _, None) token (mkConn (cn_db c) 0)).1).
  { intros c. unfold impl_get_auth_token, my_read, my_get_auth_token, mthen, query, exec. cbn [cn_step].
    by rewrite Hcalm. }
  rewrite !Hget. unfold my_get_auth_token, mthen, query, exec. cbn [cn_db cn_step]. rewrite E.
  by destruct (List.find _ _) as [r|]; [destruct (from_timestamp (tk_expires_at r) 0), (from_timestamp (tk_created_at r) 0)|].
Qed.

End server.

End updates.

(** C3: from consistent tables, such as empty ones: whatever requests of whatever kind
    reach a server on the MySQL storage, in any number and order, whichever statements
    fail, and whatever another server on the database does to the watcher tables (new
    groups and watchers, deletions, changes of columns) between the requests and while the
    creation of a watcher waits for its group: the row numbers of the watcher tables are
    distinct and fit the protocol, an account has one group for each number of the client,
    and every watcher is in a group of its own account. *)
Theorem mysql_server_consistent `{WO : World} `{CO : Collation} `{SX : Sqlx} `{CH : Chrono} `{CA : CryptoApi}
    `{UC : Unicode} `{UT : Utf8} `{FC : FileColumns} `{WC : WatcherColumns} `{HI : HashIter} {F : Type} `{FST : FileStorage F}
    (setup : Setup Conn) d (f : option F) nm g :
  (∀ n, 0 < auto_id n) → (∀ m n, (m < n)%nat → auto_id m < auto_id n) →
  (∀ k n w, watch_ok auto_id n w → rtc (foreign_step n) w (others k w)) →
  se_mysql setup = Some ensure_server_ids_for →
  watch_ok auto_id 0 (t_watch d) → shared_run setup (mysql_server d f nm) g →
  let c := server_storage g in
  watch_ok auto_id (cn_step c) (t_watch (cn_db c)).
Proof.
  intros Hpos Hgrows Hothers Hsetup Hd Hrun. eapply server_consistent; try done.
  intros k n w Hw. by apply (foreign_steps_ok n w); [apply Hothers|].
Qed.

(** ** Restorations *)

Section restorations.
Context `{WO : World}.
Context `{CO : Collation} `{SX : Sqlx} `{CH : Chrono} `{CA : CryptoApi} `{UC : Unicode} `{UT : Utf8}
  `{FC : FileColumns} `{WC : WatcherColumns}.
Context `{HI : HashIter} {F : Type} `{FST : FileStorage F}.
Context (is_open : Sender → bool) (send_error : string).
Implicit Types (st : FileService Conn F).

(** Contents are stored without touching the rows of the files. *)
Lemma store_data_files i bs st r st' :
  store_file_data_internal i bs st = (r, st') → t_files (cn_db (fs_storage st')) = t_files (cn_db (fs_storage st)).
Proof.
  unfold store_file_data_internal. destruct (fs_file_storage st).
  { destruct (f_store_file_data _ _ _). by intros [= _ <-]. }
  unfold write. cbn [s_store_file_data mysql_storage]. unfold impl_store_file_data.
  match goal with |- context [my_write ?m ?c] => pose proof (frames_write t_files m) as Hw; specialize (Hw ltac:(
    intros n; unfold my_store_file_data; framed) c); destruct (my_write m c) end.
  intros [= _ <-]. apply Hw.
Qed.

(** A restoration copies the contents of the identifier, which the service then has
    cached, and leaves the rows. *)
Lemma restore_contents f1 f2 st st' :
  svc_restore_file_version f1 f2 st = (Returned (Ok tt), st') →
  t_files (cn_db (fs_storage st')) = t_files (cn_db (fs_storage st))
  ∧ ∃ bs, (svc_get_file_data (fi_file_id f1) st).1 = Returned (Ok (Some bs))
    ∧ fs_files st' !! fi_file_id f2 = Some bs.
Proof.
  assert (Hg : ∀ i st r st', svc_get_file_data i st = (r, st') → st' = st).
  { intros i s r s'. unfold svc_get_file_data, mthen, files_get, read, ret. case_match; by intros [= _ <-]. }
  unfold svc_restore_file_version, copy_file_data. intros H. bind_ok H. bind_ok Ha.
  pose proof (Hg _ _ _ _ Ha0) as ->. destruct a0 as [bs|]; [|done]. bind_ok Ha. destruct a0.
  apply store_data_files in Ha1. unfold files_insert in Ha. simplify_eq.
  bind_ok H. pose proof (Hg _ _ _ _ Ha) as ->. unfold svc_get_file_data, mthen, files_get in Ha. cbn in Ha.
  rewrite lookup_insert_eq in Ha. cbn in Ha. unfold ret in Ha. simplify_eq. unfold files_insert in H. simplify_eq.
  split; [exact Ha1|]. exists bs. rewrite Ha0. split; [done|]. apply lookup_insert_eq.
Qed.

(** The rows a history lists. *)
Definition version_row (account path : string) (group_id : Z) (r : file_row) : bool :=
  (fr_account_hash r ≈c account) && (fr_file_path r == as_bytes path) && (fr_group_id r =? group_id).

Lemma history_revisions (order : list file_row → list file_row) a p g now c l r :
  (∀ l, order l ≡ₚ l) →
  answer (my_get_file_history (read_fault "get_file_history" (cn_step c)) order a p g now (mkConn (cn_db c) 0)).1 = Ok l →
  r ∈ t_files (cn_db c) → version_row a p g r = true → ∃ f, f ∈ l ∧ sf_revision f = fr_revision r.
Proof.
  intros Ho. unfold my_get_file_history, query, exec. destruct (read_fault _ _ _); [done|]. intros [= <-] Hr Hv.
  assert (r ∈ order (List.filter (version_row a p g) (t_files (cn_db c)))) as [i Hi]%list_elem_of_lookup.
  { rewrite Ho, list_elem_of_In, filter_In, <- list_elem_of_In. done. }
  exists (version_of_row (now i) r). split; [|done]. apply list_elem_of_lookup. exists i.
  rewrite list_lookup_imap. cbn [cn_db]. exact (f_equal (fmap (version_of_row (now i))) Hi).
Qed.

Lemma history_rows (order : list file_row → list file_row) a p g now c l f :
  (∀ l, order l ≡ₚ l) →
  answer (my_get_file_history (read_fault "get_file_history" (cn_step c)) order a p g now (mkConn (cn_db c) 0)).1 = Ok l →
  f ∈ l → ∃ r, r ∈ t_files (cn_db c) ∧ version_row a p g r = true ∧ sf_revision f = fr_revision r.
Proof.
  intros Ho. unfold my_get_file_history, query, exec. destruct (read_fault _ _ _); [done|]. intros [= <-].
  intros [i Hi]%list_elem_of_lookup. rewrite list_lookup_imap in Hi. apply fmap_Some in Hi as (r & Hr & ->).
  exists r. apply list_elem_of_lookup_2 in Hr. rewrite Ho, list_elem_of_In, filter_In, <- list_elem_of_In in Hr. tauto.
Qed.

(** C29: a successful restoration on the MySQL storage, whichever statements fail, for a
    request that names an account and an identifier other than 0 (others are refused):
    the requested revision is a row of the account; exactly one row is added, which has the
    path, name, hash, size, group and watcher of the old one as the driver decodes its
    texts, is not deleted, belongs to the requesting device and has the answered revision;
    that revision is above those of all rows of the account with this path and group
    unless one has the largest number.  The answer carries the same values.  The contents
    are kept per identifier: those read after the restoration are the ones read before. *)
Theorem restore_creates_newest_revision request now1 now2 now3 nonces st resp st' :
  let account := rvr_account_hash request in
  let before := t_files (cn_db (fs_storage st)) in
  let device := rvr_device_hash request in
  let revision := rvp_new_revision resp in
  (∀ l, versions_order l ≡ₚ l) →
  str_is_empty account = false → rvr_file_id request ≠ 0 →
  version_restore_file_version is_open send_error request now1 now2 now3 nonces st = (Returned (Ok resp), st') →
  rvp_success resp = true ∧
  ∃ old key_id, old ∈ before ∧ (fr_account_hash old ≈c account) = true
  ∧ fr_file_id old = wrap_i64 (rvr_file_id request) ∧ fr_revision old = rvr_target_revision request
  ∧ let path := default "" (text_column (fr_file_path old)) in
    let name := default "" (text_column (fr_filename old)) in
    t_files (cn_db (fs_storage st')) =
      (before ++ [mkFileRow (fr_file_id old) (fr_account_hash old) device (as_bytes path) (as_bytes name)
                    (fr_file_hash old) (fr_size old) false revision
                    (from_unixtime (dt_timestamp now1)) (from_unixtime (dt_timestamp now2))
                    (fr_group_id old) (fr_watcher_id old) (fr_group_id old) (fr_watcher_id old) [] "" key_id])%list
    ∧ (let versions r := r ∈ before ∧ version_row account path (fr_group_id old) r = true in
       (∀ r, versions r → i64_min ≤ fr_revision r < i64_max) → ∀ r, versions r → fr_revision r < revision)
    ∧ rvp_restored_file_info resp = Some (mk_sync_FileInfo (fr_file_id old) name (fr_file_hash old)
        (Some (datetime_to_timestamp now2)) device (fr_group_id old) (fr_watcher_id old) false path revision
        (wrap_u64 (fr_size old)))
    ∧ ∃ bs, (svc_get_file_data (fr_file_id old) st).1 = Returned (Ok (Some bs))
      ∧ (svc_get_file_data (fr_file_id old) st').1 = Returned (Ok (Some bs)).
Proof.
  intros account before device revision Hord Hacc Hid (target & current & st1 & s2 & Ht & Hc & Hr & Hs & <- & Hf' & Hok & Hrev & Hinfo)%restore_ok;
    [|done..].
  split; [done|]. apply restore_contents in Hr as (Hf & bs & Hb & Hb'). cbn in Hb, Hb'.
  cbn [s_get_file_by_revision mysql_storage] in Ht. unfold impl_get_file_by_revision, my_read, my_get_file_by_revision in Ht.
  unfold mthen, query, exec in Ht. destruct (read_fault _ _ _); [done|]. cbn [cn_db] in Ht.
  destruct (List.find _ _) as [old|] eqn:E; [|done]. injection Ht as <-.
  apply find_some in E as [Hold%list_elem_of_In [[Ha Hi]%andb_true_iff Hrv]%andb_true_iff].
  cbn [s_store_file mysql_storage] in Hs. unfold impl_store_file, my_write, my_store_file, mthen, query, exec in Hs.
  destruct (fault _); [done|]. cbn [cn_db cn_step] in Hs. destruct (fault _); [done|]. injection Hs as Hs2.
  exists old, (latest (List.filter (λ r, (fr_account_hash r ≈c fr_account_hash old) && (fr_file_id r =? fr_file_id old))
             (t_files (cn_db (fs_storage st1)))) ≫= fr_key_id).
  split; [done|]. split; [done|]. split; [lia|]. split; [lia|]. cbv zeta.
  rewrite <- Hs2. cbn [cn_db with_files t_files]. rewrite Hf. unfold revision. rewrite Hrev. split; [reflexivity|].
  split; [|split; [done|]].
  - cbn [s_get_file_history mysql_storage] in Hc. unfold impl_get_file_history, my_read in Hc.
    intros Hbd r Hv. destruct Hv as [Hin Hv].
    destruct (history_revisions versions_order _ _ _ _ _ _ r Hord Hc Hin Hv) as (f & Hfin & <-).
    pose proof (max_revision_spec current f Hfin) as Hmax.
    assert (i64_min ≤ VersionService.max_revision current < i64_max) as Hm; [|rewrite wrap_i64_id; unfold i64_min, i64_max in *; lia].
    destruct (max_revision_elem current f Hfin) as (f' & Hf2 & <-).
    destruct (history_rows versions_order _ _ _ _ _ _ f' Hord Hc Hf2) as (r' & Hr' & Hv' & ->). by apply Hbd.
  - exists bs. split; [done|]. unfold svc_get_file_data, mthen, files_get. change (sf_file_id _) with (fr_file_id old) in Hb'. cbn. by rewrite Hf', Hb'.
Qed.

End restorations.

(** *** Examples *)

Section examples.
#[local] Existing Instance canonical_iter.
#[local] Existing Instance chrono_range.
#[local] Existing Instance key_crypto.
#[local] Existing Instance ascii_unicode.
#[local] Existing Instance sqlx_texts.
#[local] Existing Instance exact_collation.
#[local] Existing Instance text_columns.
#[local] Existing Instance marked_columns.
#[local] Existing Instance all_utf8.

(** While a creation waits for its group, another server registers group 5, unless it is
    there or the number is taken. *)
Definition foreign_row : groups_row := mkGroupRow 3 5 "acc" "other" "theirs" None None true.
Definition registered_elsewhere (k : nat) (w : WatchDb) : WatchDb :=
  if forallb (λ r, negb (same_group_key foreign_row r) && negb (gr_id r =? 3)) (t_watcher_groups w)
  then mkWatchDb (t_watcher_groups w ++ [foreign_row]) (t_watchers w) (t_watcher_conditions w) (t_watcher_presets w)
         (t_file_notices w)
  else w.

(** The fifth statement of the updates fails. *)
#[local] Instance world0 : World := {|
  fault n := if (n =? 4)%nat then Some "lost connection" else None;
  read_fault _ _ _ := None; commit_applied := false; auto_id := auto_0; others := registered_elsewhere;
  clock _ _ _ _ := mkDateTime 500 0; uuid _ := "uuid"; nonces _ _ := []; random_id := λ n, 1000 + Z.of_nat n;
  devices_order := id; files_order := id; versions_order := id; watcher_index := true; cascade := true;
  server_encode_key := None; account_attempts := 9
|}.

Lemma registered_elsewhere_foreign k n w :
  watch_ok auto_id n w → rtc (foreign_step n) w (registered_elsewhere k w).
Proof.
  intros _. unfold registered_elsewhere. destruct (forallb _ _) eqn:E; [|done].
  rewrite forallb_forall in E. destruct w as [gs ws cs ps ns]; cbn in *. apply rtc_once, foreign_group.
  - cbn. unfold auto_id. cbn. unfold auto_0. lia.
  - vm_compute. discriminate.
  - cbn. intros (r & Hr & Hin)%list_elem_of_In%in_map_iff. specialize (E r Hin).
    apply andb_true_iff in E as [_ E]. rewrite Hr in E. done.
  - intros r Hr%list_elem_of_In. specialize (E r Hr). apply andb_true_iff in E as [E _]. by apply negb_true_iff in E.
Qed.

Definition mysql_setup0 : Setup Conn :=
  mkSetup all_open "closed" false false true true no_server (λ _, Err (AE_ExternalServiceError "offline"))
    true false false (λ _, None) (λ _, None) id (Some ensure_server_ids_for) "2.0.0".

Definition token_db : Db := with_tokens [mkTokenRow "id" "acc" "secret" None "Bearer" 1000 0] empty_db.

Definition mysql0 : SyncServer Conn (gmap Z bytes) := mysql_server token_db None NotificationManager_new.

(** A device registers itself and, as the first attempt fails, twice its group; the
    upload has the stored token. *)
Definition mysql_requests0 : list Request :=
  [(existT _ (UpdateDeviceInfo (mkUpdateDeviceInfoRequest "acc" "dev1" true "os" "1")), rpc_env0);
   (existT _ (RegisterWatcherGroup (mkWatcherGroupRequest "acc" "dev1" 5 "docs" None "")), rpc_env0);
   (existT _ (RegisterWatcherGroup (mkWatcherGroupRequest "acc" "dev1" 5 "papers" None "")), rpc_env0);
   (existT _ (UploadFile (upload_req "secret")), rpc_env0)].

Lemma mysql_requests_proper :
  Forall (λ r, proper_request r ∧ is_login (projT2 r.1) = false) mysql_requests0.
Proof.
  repeat (constructor; [split; [split; [exact I|split_and!; vm_compute; discriminate]|reflexivity]|]). constructor.
Qed.

(** Two of the requests, the other server, and the rest: the group is there once, and the
    upload has made another for its folder. *)
Definition first_requests : SyncServer Conn (gmap Z bytes) :=
  serve_all mysql_setup0 (take 2 mysql_requests0) mysql0.
Definition foreign_tables : WatchDb :=
  let w := t_watch (cn_db (server_storage first_requests)) in
  mkWatchDb (t_watcher_groups w ++ [foreign_row]) (t_watchers w) [] [] [].

Lemma mysql_server_consistent_witness :
  let c := server_storage (serve_all mysql_setup0 (drop 2 mysql_requests0) (with_tables foreign_tables first_requests)) in
  watch_ok auto_id (cn_step c) (t_watch (cn_db c))
  ∧ (gr_title <$> t_watcher_groups (t_watch (cn_db c))) = ["theirs"; "Client Group 1"]
  ∧ (fr_revision <$> t_files (cn_db c)) = [1].
Proof.
  split; [|split; vm_compute; reflexivity].
  eapply (mysql_server_consistent (WO := world0) mysql_setup0 token_db None NotificationManager_new);
    [exact auto_0_pos|exact auto_0_grows|exact registered_elsewhere_foreign|reflexivity| |].
  { split; cbn; [split; [constructor|by intros r ?%elem_of_nil]..|by intros i j ri rj ?|by intros r ?%elem_of_nil]. }
  pose proof (Forall_impl _ _ _ mysql_requests_proper (λ r H, proj1 H)) as Hproper.
  apply shared_requests; [|exact (Forall_drop _ 2 _ Hproper)].
  apply shared_foreign; [apply shared_requests; [apply shared_start|exact (Forall_take _ 2 _ Hproper)]|].
  assert (E : t_watch (cn_db (server_storage first_requests)) = mkWatchDb [] [] [] [] []) by (vm_compute; reflexivity).
  unfold foreign_tables. fold first_requests. rewrite E.
  apply foreign_group; [split; vm_compute; reflexivity|vm_compute; discriminate|by apply not_elem_of_nil|].
  by intros r ?%elem_of_nil.
Defined.

Lemma elsewhere_ok k n w : watch_ok auto_0 n w → watch_ok auto_0 n (registered_elsewhere k w).
Proof. intros Hw. by apply (foreign_steps_ok (WO := world0) n w); [apply registered_elsewhere_foreign|]. Qed.

Lemma mysql_tokens_only_from_login_witness :
  live_token "secret" (mkDateTime 500 0) (server_storage (serve_all mysql_setup0 mysql_requests0 mysql0)) "acc".
Proof.
  destruct (mysql_tokens_only_from_login (WO := world0) auto_0_pos auto_0_grows elsewhere_ok mysql_setup0 eq_refl mysql0
              mysql_requests0) as [_ H];
    [exact (empty_consistent token_db 0 eq_refl)|exact mysql_requests_proper|].
  apply (H (λ _ _, eq_refl)). split; [discriminate|]. eexists. split; [vm_compute; reflexivity|]. by split_and!.
Defined.

(** Two versions of file 7 of account acc; the older one is restored. *)
Definition version_of (revision : Z) (hash : string) : file_row :=
  mkFileRow 7 "acc" "dev1" (as_bytes "~/docs") (as_bytes "a.txt") hash 3 false revision (Some 100) (Some 100) 1 1 1 1
    [] "" None.
Definition versions_svc : FileService Conn (gmap Z bytes) :=
  FileService_with (mkConn (with_data [mkDataRow 7 some_bytes 100 100]
                              (with_files [version_of 1 "old"; version_of 3 "new"] token_db)) 10) None None.

Lemma restore_creates_newest_revision_witness :
  ∃ resp st', version_restore_file_version all_open "closed" (mkRestoreFileVersionRequest "acc" "dev2" "secret" 7 1 true "")
      (mkDateTime 400 0) (mkDateTime 400 0) (mkDateTime 400 0) sample_nonces versions_svc = (Returned (Ok resp), st')
  ∧ rvp_success resp = true ∧ 3 < rvp_new_revision resp.
Proof.
  destruct (version_restore_file_version all_open "closed" (mkRestoreFileVersionRequest "acc" "dev2" "secret" 7 1 true "")
      (mkDateTime 400 0) (mkDateTime 400 0) (mkDateTime 400 0) sample_nonces versions_svc) as [o st'] eqn:E.
  destruct o as [[resp|e]|]; [|vm_compute in E; discriminate E..]. exists resp, st'. split; [reflexivity|].
  destruct (restore_creates_newest_revision all_open "closed" (mkRestoreFileVersionRequest "acc" "dev2" "secret" 7 1 true "")
      (mkDateTime 400 0) (mkDateTime 400 0) (mkDateTime 400 0) sample_nonces versions_svc resp st')
    as (Hs & old & key_id & Hold & _ & _ & Hrev & _ & Hnew & _);
    [intros l; reflexivity|reflexivity|discriminate|exact E|]. split; [exact Hs|].
  apply list_elem_of_In in Hold. destruct Hold as [<-|[<-|[]]]; [|discriminate Hrev].
  apply (Hnew) with (r := version_of 3 "new"); [|split; [right; left|vm_compute; reflexivity]].
  intros r [Hr _]. apply list_elem_of_In in Hr. destruct Hr as [<-|[<-|[]]]; split; vm_compute; (discriminate || reflexivity).
Defined.

End examples.
