(* ===== verification/Interleave.v ===== *)
(** * Requests that overlap (src/services/encryption_service.rs,
    src/auth/oauth.rs, the keys of src/storage/mysql_file.rs)

    Between two awaits of a request other requests run.  A request is a program: it
    runs one statement and goes on with its answer, and a pool of programs takes turns
    at every statement.  The requests for the key of an account are programs of this
    kind: they look for the key, and when there is none store a new one, without a
    transaction. *)

From stdpp Require Import relations.
From S2P Require Import Prelude RustString Errors Models Memory StorageApi Effects Crypto Notify AccountServices OAuth.
From S2P Require Import MySql MySqlProps MySqlWatcherProps MySqlServer.

(** ** Programs *)

(** [Stmt m k]: run the statement [m] on the shared state, and go on with [k] of its
    answer. *)
Inductive prog (St A : Type) : Type :=
| Answer (a : A)
| Stmt {X : Type} (m : St → X * St) (k : X → prog St A).
Arguments Answer {St A} a.
Arguments Stmt {St A X} m k.

(** A program with nothing between its statements. *)
Fixpoint run_alone {St A} (p : prog St A) (s : St) : A * St :=
  match p with
  | Answer a => (a, s)
  | Stmt m k => let '(x, s') := m s in run_alone (k x) s'
  end.

(** One program of the pool runs its next statement. *)
Inductive pool_step {St A} : list (prog St A) * St → list (prog St A) * St → Prop :=
| pool_turn ts i X (m : St → X * St) k s x s' :
    ts !! i = Some (Stmt m k) → m s = (x, s') → pool_step (ts, s) (<[i := k x]> ts, s').

Abbreviation pool_steps := (rtc pool_step).

(** The pool after the turns of a schedule; turns of programs that have answered are
    skipped. *)
Fixpoint run_schedule {St A} (sched : list nat) (ts : list (prog St A)) (s : St) : list (prog St A) * St :=
  match sched with
  | [] => (ts, s)
  | i :: sched =>
      match ts !! i with
      | Some (Stmt m k) => let '(x, s') := m s in run_schedule sched (<[i := k x]> ts) s'
      | _ => run_schedule sched ts s
      end
  end.

Section pool.
Context {St A : Type}.
Implicit Types (ts : list (prog St A)) (s : St).

Lemma run_schedule_steps sched ts s : pool_steps (ts, s) (run_schedule sched ts s).
Proof.
  revert ts s. induction sched as [|i sched IH]; intros ts s; [done|]. cbn.
  destruct (ts !! i) as [[a|X m k]|] eqn:E; [by apply IH| |by apply IH].
  destruct (m s) as [x s'] eqn:Em. eapply rtc_l; [by econstructor|]. apply IH.
Qed.

(** What a program may rely on and guarantees: every statement keeps [I], whoever ran
    before it, and the answer satisfies [Q]. *)
Fixpoint respects (I : St → Prop) (Q : A → Prop) (p : prog St A) : Prop :=
  match p with
  | Answer a => Q a
  | Stmt m k => ∀ s, I s → I (m s).2 ∧ respects I Q (k (m s).1)
  end.

(** Programs that respect an assertion keep it in whatever order they take turns. *)
Lemma pool_respects (I : St → Prop) (Qs : list (A → Prop)) ts s ts' s' :
  Forall2 (respects I) Qs ts → I s → pool_steps (ts, s) (ts', s') → Forall2 (respects I) Qs ts' ∧ I s'.
Proof.
  intros Hts Hs Hsteps.
  enough (∀ c c', pool_steps c c' → Forall2 (respects I) Qs c.1 ∧ I c.2 → Forall2 (respects I) Qs c'.1 ∧ I c'.2) as H
    by exact (H _ _ Hsteps (conj Hts Hs)).
  clear. induction 1 as [c|c c1 c2 Hstep _ IH]; [done|]. intros [Hts Hs]. apply IH. clear IH.
  destruct Hstep as [ts i X m k s x s1 Hi Hm]. cbn [fst snd] in *.
  destruct (Forall2_lookup_r _ _ _ _ _ Hts Hi) as (Q & HQ & Hp). cbn [respects] in Hp.
  destruct (Hp s Hs) as [HI Hk]. rewrite Hm in HI, Hk. cbn [fst snd] in HI, Hk. split; [|done].
  rewrite <- (list_insert_id Qs i Q) by done. by apply Forall2_insert.
Qed.

(** The answer of a program that has finished. *)
Lemma pool_answer (I : St → Prop) Qs ts s ts' s' i Q a :
  Forall2 (respects I) Qs ts → I s → pool_steps (ts, s) (ts', s') →
  Qs !! i = Some Q → ts' !! i = Some (Answer a) → Q a.
Proof.
  intros Hts Hs Hsteps HQ Ha. destruct (pool_respects I Qs ts s ts' s' Hts Hs Hsteps) as [H _].
  exact (Forall2_lookup_lr _ _ _ _ _ _ H HQ Ha).
Qed.

(** Weakening, and programs that respect every assertion of a family. *)
Lemma respects_weaken (I : St → Prop) (Q Q' : A → Prop) p : (∀ a, Q a → Q' a) → respects I Q p → respects I Q' p.
Proof.
  intros HQ. induction p as [a|X m k IH]; cbn; [apply HQ|]. intros Hp s Hs. destruct (Hp s Hs). split; [done|by apply IH].
Qed.

(** A turn taken up by a program of the pool to its end. *)
Lemma pool_run_alone ts s i p a s' :
  ts !! i = Some p → run_alone p s = (a, s') → pool_steps (ts, s) (<[i := Answer a]> ts, s').
Proof.
  revert ts s. induction p as [a'|X m k IH]; intros ts s Hi; cbn.
  - intros [= <- <-]. by rewrite list_insert_id.
  - destruct (m s) as [x s1] eqn:Em. intros Hr. eapply rtc_l; [by econstructor|].
    replace (<[i:=Answer a]> ts) with (<[i:=Answer a]> (<[i:=k x]> ts)) by apply list_insert_insert_eq.
    apply (IH x); [|done]. apply list_lookup_insert_eq. by eapply lookup_lt_Some.
Qed.

End pool.

(** ** The key of an account *)

Section keys.
Context (fault : nat → option string) (duplicate : string).
Context `{CO : Collation} `{SX : Sqlx} `{CH : Chrono} `{CA : CryptoApi}.
Implicit Types (c : Conn) (d : Db).

(** One statement on the database. *)
Definition sql {X A} (m : M Conn X) (k : Res X → prog Conn A) : prog Conn A :=
  Stmt (λ c, let '(o, c') := m c in (answer o, c')) k.

Definition has_key (account_hash : string) d : bool :=
  existsb (λ r, kr_account_hash r ≈c account_hash) (t_encryption_keys d).

Definition update_key_row (account_hash encryption_key : string) (now : DateTime) : M Conn unit :=
  exec fault db_err (λ d,
    (tt, with_keys (sql_update (λ r, kr_account_hash r ≈c account_hash)
           (λ r, mkKeyRow (kr_account_hash r) encryption_key (kr_created_at r) (dt_timestamp now))
           (t_encryption_keys d)) d)).

(** The column [account_hash] is UNIQUE. *)
Definition insert_key_row (account_hash encryption_key : string) (now : DateTime) : M Conn unit := λ c,
  exec (λ n, match fault n with
             | Some e => Some e
             | None => if has_key account_hash (cn_db c) then Some duplicate else None
             end) db_err (λ d,
    (tt, with_keys (t_encryption_keys d ++
           [mkKeyRow account_hash encryption_key (dt_timestamp now) (dt_timestamp now)])%list d)) c.

(** [store_encryption_key], statement by statement. *)
Definition store_key {A} (account_hash encryption_key : string) (now : DateTime) (k : Res unit → prog Conn A)
    : prog Conn A :=
  sql (query fault db_err (has_key account_hash)) (λ r,
    match r with
    | Ok true => sql (update_key_row account_hash encryption_key now) k
    | Ok false => sql (insert_key_row account_hash encryption_key now) k
    | Err e => k (Err e)
    end).

(** [EncryptionService::get_or_create_key] on the MySQL storage. *)
Definition key_request (account_hash : string) (draw : nat → ascii) (now : DateTime) : prog Conn (Res string) :=
  sql (my_get_encryption_key fault account_hash) (λ r,
    match r with
    | Ok (Some key) => Answer (Ok key)
    | Ok None =>
        let new_key := generate_account_key draw in
        store_key account_hash new_key now (λ r, Answer (match r with Ok _ => Ok new_key | Err e => Err e end))
    | Err e => Answer (Err e)
    end).

(** [get_encryption_key] of the log-in; the devices are only logged. *)
Definition login_key (order : list device_row → list device_row) (account_hash : string) (random : bytes)
    (now : DateTime) (now_devices : nat → nat → DateTime) : prog Conn (Res string) :=
  sql (my_get_encryption_key fault account_hash) (λ r,
    match r with
    | Ok (Some key) => Answer (Ok key)
    | _ =>
        sql (my_list_devices fault order account_hash now_devices) (λ _,
          let encryption_key := hex_encode random in
          store_key account_hash encryption_key now (λ _, Answer (Ok encryption_key)))
    end).

(** [EncryptionService::update_key]; the answer of success is the key. *)
Definition key_update (account_hash new_key : string) (now : DateTime) : prog Conn (Res string) :=
  if str_len new_key <? Z.of_nat ENCRYPTION_KEY_LENGTH
  then Answer (Err (ValidationError ("Encryption key must be at least " +:+ pretty ENCRYPTION_KEY_LENGTH
                                     +:+ " characters")))
  else store_key account_hash new_key now (λ r, Answer (match r with Ok _ => Ok new_key | Err e => Err e end)).

(** *** Alone, the programs are the methods *)

Lemma store_key_alone {A} a key now (k : Res unit → prog Conn A) c :
  run_alone (store_key a key now k) c =
    let '(o, c') := my_store_encryption_key fault a key now c in run_alone (k (answer o)) c'.
Proof.
  unfold my_store_encryption_key, mthen, store_key, sql. cbn [run_alone].
  change (query fault db_err _ c) with (query fault db_err (has_key a) c) at 2.
  unfold query at 1 2, exec at 1 2. destruct (fault (cn_step c)) as [e|]; [done|].
  destruct (has_key a (cn_db c)) eqn:E; cbn -[exec].
  - unfold update_key_row. by destruct (exec _ _ _ _) as [o c'].
  - unfold insert_key_row, exec. cbn. rewrite E. by destruct (fault _).
Qed.

(** A request that meets no other is [get_or_create_key] of the service on this storage. *)
Theorem key_request_alone a draw now c :
  run_alone (key_request a draw now) c =
    let new_key := generate_account_key draw in
    let '(o, c') := mthen (my_get_encryption_key fault a) (λ found,
                      match found with
                      | Some key => ret key
                      | None => mthen (my_store_encryption_key fault a new_key now) (λ _, ret new_key)
                      end) c in
    (answer o, c').
Proof.
  cbv zeta. unfold mthen at 1. unfold key_request, sql. cbn [run_alone].
  destruct (my_get_encryption_key fault a c) as [[[[key|]|e]|] c1] eqn:Eg; [done| |done|].
  - cbn [answer]. rewrite store_key_alone. unfold mthen.
    destruct (my_store_encryption_key fault a _ now c1) as [[[[]|e]|] c2] eqn:Es; [done..|].
    exfalso. revert Es. unfold my_store_encryption_key, mthen, query, exec.
    repeat (case_match; simplify_eq); try done.
  - exfalso. revert Eg. unfold my_get_encryption_key, query, exec. by repeat case_match.
Qed.

(** *** In any company *)

(** The calls that touch keys. *)
Inductive key_call :=
| RequestKey (account : string) (draw : nat → ascii) (now : DateTime)
| LoginKey (order : list device_row → list device_row) (account : string) (random : bytes) (now : DateTime)
    (now_devices : nat → nat → DateTime)
| UpdateKey (account new_key : string) (now : DateTime).

Definition call_account (x : key_call) : string :=
  match x with RequestKey a _ _ => a | LoginKey _ a _ _ _ => a | UpdateKey a _ _ => a end.

Definition call_prog (x : key_call) : prog Conn (Res string) :=
  match x with
  | RequestKey a draw now => key_request a draw now
  | LoginKey order a random now now' => login_key order a random now now'
  | UpdateKey a key now => key_update a key now
  end.

(** The key the program would store. *)
Definition call_key (x : key_call) : string :=
  match x with
  | RequestKey _ draw _ => generate_account_key draw
  | LoginKey _ _ random _ _ => hex_encode random
  | UpdateKey _ key _ => key
  end.

Definition key_of (account_hash : string) d : option string :=
  kr_encryption_key <$> List.find (λ r, kr_account_hash r ≈c account_hash) (t_encryption_keys d).

Definition on_db (J : Db → Prop) c : Prop := J (cn_db c).

(** An assertion on the tables that the two changes of a store keep. *)
Definition stores_keep (J : Db → Prop) (account key : string) (now : DateTime) : Prop :=
  (∀ d, J d → J (with_keys (sql_update (λ r, kr_account_hash r ≈c account)
                              (λ r, mkKeyRow (kr_account_hash r) key (kr_created_at r) (dt_timestamp now))
                              (t_encryption_keys d)) d))
  ∧ (∀ d, J d → has_key account d = false →
       J (with_keys (t_encryption_keys d ++ [mkKeyRow account key (dt_timestamp now) (dt_timestamp now)])%list d)).

Lemma respects_query {X A} (J : Db → Prop) (Q : A → Prop) err (f : Db → X) k :
  (∀ d r, J d → (r = Ok (f d) ∨ ∃ e, r = Err (err e)) → respects (on_db J) Q (k r)) →
  respects (on_db J) Q (sql (query fault err f) k).
Proof.
  intros Hk c Hc. unfold query, exec. destruct (fault (cn_step c)) as [e|]; cbn; (split; [done|]);
    apply (Hk (cn_db c)); [done|eauto|done|eauto].
Qed.

Lemma respects_store_key {A} (J : Db → Prop) (Q : A → Prop) a key now k :
  stores_keep J a key now → (∀ r, respects (on_db J) Q (k r)) → respects (on_db J) Q (store_key a key now k).
Proof.
  intros [Hu Hi] Hk. apply respects_query. intros d [[]|e] _ _; [| |done]; intros c Hc.
  - unfold update_key_row, exec. destruct (fault (cn_step c)); cbn; (split; [|done]); [done|by apply Hu].
  - unfold insert_key_row, exec. destruct (fault (cn_step c)); cbn; [by split|].
    destruct (has_key a (cn_db c)) eqn:E; cbn; (split; [|done]); [done|by apply Hi].
Qed.

(** A call respects what its store keeps, and answers with a key that was stored, its own
    one or an error. *)
Lemma call_respects (J : Db → Prop) (Q : Res string → Prop) x :
  (∀ now, stores_keep J (call_account x) (call_key x) now) →
  (∀ d key, J d → key_of (call_account x) d = Some key → Q (Ok key)) → Q (Ok (call_key x)) → (∀ e, Q (Err e)) →
  respects (on_db J) Q (call_prog x).
Proof.
  intros HJ Hfound Hown Herr. destruct x as [a draw t|order a random t t'|a key t]; cbn [call_prog call_key] in *.
  - apply respects_query. intros d [[key|]|e] Hd Hr; [|by apply respects_store_key; [|intros []; cbn]|apply Herr].
    destruct Hr as [[= E]|(e & [=])]. by apply (Hfound d).
  - apply respects_query. intros d [[key|]|e] Hd Hr;
      [|by (apply respects_query; intros ????; by apply respects_store_key)..].
    destruct Hr as [[= E]|(e & [=])]. by apply (Hfound d).
  - unfold key_update. case_match; [apply Herr|]. by apply respects_store_key; [|intros []; cbn].
Qed.

Lemma calls_respect (J : Db → Prop) (Qs : key_call → Res string → Prop) xs :
  Forall (λ x, respects (on_db J) (Qs x) (call_prog x)) xs →
  Forall2 (respects (on_db J)) (Qs <$> xs) (call_prog <$> xs).
Proof. induction 1; cbn; by constructor. Qed.

(** *** One key for an account *)

Definition same_account (r r' : key_row) : bool := kr_account_hash r' ≈c kr_account_hash r.

Lemma stores_keep_unique a key now : stores_keep (λ d, keys_unique same_account (t_encryption_keys d)) a key now.
Proof.
  split; intros d Hd; cbn.
  - by apply keys_unique_update.
  - intros Hno. apply keys_unique_snoc; [|done]. intros r Hr. cbn. unfold has_key in Hno.
    apply not_true_is_false. intros E. assert (existsb (λ r, kr_account_hash r ≈c a) (t_encryption_keys d) = true) as H.
    { apply existsb_exists. exists r. by rewrite <- list_elem_of_In. }
    congruence.
Qed.

(** Where a key comes from: it was there, or one of the calls for the account made it. *)
Definition known_key (d0 : Db) (xs : list key_call) (account key : string) : Prop :=
  (∃ r, r ∈ t_encryption_keys d0 ∧ (kr_account_hash r ≈c account) = true ∧ kr_encryption_key r = key)
  ∨ ∃ x, x ∈ xs ∧ (call_account x ≈c account) = true ∧ call_key x = key.

Definition keys_known (d0 : Db) (xs : list key_call) d : Prop :=
  ∀ r, r ∈ t_encryption_keys d → known_key d0 xs (kr_account_hash r) (kr_encryption_key r).

Lemma stores_keep_known d0 xs x now : x ∈ xs → stores_keep (keys_known d0 xs) (call_account x) (call_key x) now.
Proof.
  intros Hx. split; intros d Hd.
  - intros r (y & Hy & ->)%elem_of_sql_update. destruct (kr_account_hash y ≈c call_account x) eqn:E; [|by apply Hd].
    cbn. right. exists x. split_and!; [done| |done]. by apply coll_eq_sym.
  - intros _ r [Hr| ->%list_elem_of_singleton]%elem_of_app; [by apply Hd|].
    cbn. right. exists x. by rewrite coll_eq_refl.
Qed.

Lemma key_of_row a d key :
  key_of a d = Some key → ∃ r, r ∈ t_encryption_keys d ∧ (kr_account_hash r ≈c a) = true ∧ kr_encryption_key r = key.
Proof. unfold key_of. intros (r & [Hr Ha]%find_spec & ->)%fmap_Some. by exists r. Qed.

Lemma known_key_account d0 xs a b key :
  (a ≈c b) = true → known_key d0 xs a key → known_key d0 xs b key.
Proof.
  intros Hab [(r & ? & ? & ?)|(x & ? & ? & ?)]; [left; exists r|right; exists x];
    (split_and!; [done| |done]); by eapply coll_eq_trans.
Qed.

Lemma keys_known_of d0 xs d a key : keys_known d0 xs d → key_of a d = Some key → known_key d0 xs a key.
Proof.
  intros Hd (r & Hr & Ha & <-)%key_of_row. by apply (known_key_account _ _ (kr_account_hash r)); [|apply Hd].
Qed.

(** C12: whatever calls for keys overlap, in whatever order their statements run and
    whichever fail: an account has at most one key, and a key that is stored or handed
    out for it was there before or was made by one of the calls for this account. *)
Theorem overlapping_keys_consistent xs c ts' c' :
  keys_unique same_account (t_encryption_keys (cn_db c)) →
  pool_steps (call_prog <$> xs, c) (ts', c') →
  keys_unique same_account (t_encryption_keys (cn_db c'))
  ∧ (∀ a key, key_of a (cn_db c') = Some key → known_key (cn_db c) xs a key)
  ∧ ∀ i x key, xs !! i = Some x → ts' !! i = Some (Answer (Ok key)) → known_key (cn_db c) xs (call_account x) key.
Proof.
  intros Hu Hsteps.
  set (J := λ d, keys_unique same_account (t_encryption_keys d) ∧ keys_known (cn_db c) xs d).
  set (Qs := λ x (r : Res string), match r with Ok key => known_key (cn_db c) xs (call_account x) key | Err _ => True end).
  assert (Hr : Forall2 (respects (on_db J)) (Qs <$> xs) (call_prog <$> xs)).
  { apply calls_respect, Forall_forall. intros x Hx. apply call_respects; [| | |done].
    - intros now. destruct (stores_keep_unique (call_account x) (call_key x) now) as [Hu1 Hu2].
      destruct (stores_keep_known (cn_db c) xs x now Hx) as [Hk1 Hk2].
      split; [intros d [? ?]|intros d [? ?] ?]; split; auto.
    - intros d key [_ Hd]. by apply keys_known_of.
    - right. exists x. by rewrite coll_eq_refl. }
  assert (HJ : on_db J c).
  { split; [done|]. intros r Hin. left. exists r. by rewrite coll_eq_refl. }
  split_and!.
  - apply (pool_respects _ _ _ _ _ _ Hr HJ Hsteps).
  - intros a key. apply keys_known_of. apply (pool_respects _ _ _ _ _ _ Hr HJ Hsteps).
  - intros i x key Hx Ha.
    apply (pool_answer _ _ _ _ _ _ i (Qs x) (Ok key) Hr HJ Hsteps); [|done]. by rewrite list_lookup_fmap, Hx.
Qed.


(** *** A key that is there *)

Lemma key_of_ext a b d : (a ≈c b) = true → key_of a d = key_of b d.
Proof.
  intros Hab. unfold key_of. f_equal. induction (t_encryption_keys d) as [|r l IH]; [done|]. cbn.
  replace (kr_account_hash r ≈c b) with (kr_account_hash r ≈c a); [by rewrite IH|].
  apply eq_true_iff_eq. split; intros H; [by eapply coll_eq_trans|].
  eapply coll_eq_trans; [done|by apply coll_eq_sym].
Qed.

(** The calls of other accounts leave it alone. *)
Lemma stores_keep_other a b key k now :
  (b ≈c a) = false → stores_keep (λ d, key_of a d = Some k) b key now.
Proof.
  intros Hba. split; intros d Hd; unfold key_of in *; cbn.
  - revert Hd. induction (t_encryption_keys d) as [|r l IH]; [done|]. cbn.
    destruct (kr_account_hash r ≈c b) eqn:Hb; cbn; destruct (kr_account_hash r ≈c a) eqn:Ha; try done.
    assert ((b ≈c a) = true); [|congruence]. eapply coll_eq_trans; [by apply coll_eq_sym|done].
  - intros _. revert Hd. induction (t_encryption_keys d) as [|r l IH]; [done|]. cbn. destruct (kr_account_hash r ≈c a); [done|exact IH].
Qed.

(** The calls that may meet a stored key: no update of it, and a log-in only while no
    statement fails. *)
Definition spares (a : string) (x : key_call) : Prop :=
  (call_account x ≈c a) = true →
  match x with RequestKey _ _ _ => True | LoginKey _ _ _ _ _ => ∀ n, fault n = None | UpdateKey _ _ _ => False end.

Lemma call_spares a k x : spares a x →
  respects (on_db (λ d, key_of a d = Some k))
    (λ r, (call_account x ≈c a) = true → r = Ok k ∨ ∃ e, r = Err e) (call_prog x).
Proof.
  intros Hx. destruct (call_account x ≈c a) eqn:Ha.
  2:{ apply call_respects; [|done..]. intros now. by apply stores_keep_other. }
  specialize (Hx Ha). destruct x as [b draw t|order b random t t'|b key t]; cbn [call_prog call_account] in *; [| |done].
  - apply respects_query. intros d r Hd. fold (key_of b d). rewrite (key_of_ext b a), Hd by done.
    intros [->|(e & ->)]; cbn; eauto.
  - intros c Hc. unfold my_get_encryption_key, query, exec. rewrite Hx. cbn.
    change (kr_encryption_key <$> _) with (key_of b (cn_db c)). rewrite (key_of_ext b a), Hc by done. cbn. eauto.
Qed.

(** Once an account has a key, the requests for it agree: whatever requests and log-ins
    overlap, and whatever is done for other accounts, everyone who is answered receives
    this key, and it stays. *)
Theorem stored_key_is_shared xs a k c ts' c' :
  key_of a (cn_db c) = Some k → Forall (spares a) xs →
  pool_steps (call_prog <$> xs, c) (ts', c') →
  key_of a (cn_db c') = Some k
  ∧ ∀ i x key, xs !! i = Some x → (call_account x ≈c a) = true → ts' !! i = Some (Answer (Ok key)) → key = k.
Proof.
  intros Hk Hxs Hsteps.
  set (Qs := λ x (r : Res string), (call_account x ≈c a) = true → r = Ok k ∨ ∃ e, r = Err e).
  assert (Hr : Forall2 (respects (on_db (λ d, key_of a d = Some k))) (Qs <$> xs) (call_prog <$> xs)).
  { apply calls_respect. eapply Forall_impl; [exact Hxs|]. intros x. apply call_spares. }
  split; [apply (pool_respects _ _ _ _ _ _ Hr Hk Hsteps)|]. intros i x key Hx Hax Ha.
  destruct (pool_answer _ _ _ _ _ _ i (Qs x) (Ok key) Hr Hk Hsteps) as [[=]|(e & [=])]; [|done..].
  by rewrite list_lookup_fmap, Hx.
Qed.

(** *** A key that is not there *)

Lemma has_key_none a d : key_of a d = None → has_key a d = false.
Proof.
  unfold key_of, has_key. intros Hk%fmap_None. apply not_true_is_false. intros (r & Hr & E)%existsb_exists.
  by rewrite (find_none _ _ Hk r Hr) in E.
Qed.

Lemma update_inserted a k k' now now' (l : list key_row) :
  (∀ r, r ∈ l → (kr_account_hash r ≈c a) = false) →
  kr_encryption_key <$> List.find (λ r, kr_account_hash r ≈c a)
    (sql_update (λ r, kr_account_hash r ≈c a)
       (λ r, mkKeyRow (kr_account_hash r) k' (kr_created_at r) now') (l ++ [mkKeyRow a k now now])) = Some k'.
Proof.
  induction l as [|r l IH]; intros Hl; cbn.
  - rewrite coll_eq_refl. cbn. by rewrite coll_eq_refl.
  - rewrite (Hl r) by (by left). rewrite (Hl r) by (by left). apply IH. intros; apply Hl. by right.
Qed.

(** Turns while no statement fails. *)
Section calm.
Context (Hcalm : ∀ n, fault n = None).
Context {A : Type}.
Implicit Types (ts : list (prog Conn A)).

Lemma turn_query {X} i sched ts c err (f : Db → X) k :
  ts !! i = Some (sql (query fault err f) k) →
  run_schedule (i :: sched) ts c =
    run_schedule sched (<[i := k (Ok (f (cn_db c)))]> ts) (mkConn (cn_db c) (S (cn_step c))).
Proof. intros Hi. cbn [run_schedule]. rewrite Hi. unfold sql, query, exec. by rewrite Hcalm. Qed.

Lemma turn_update i sched ts c a key now k :
  ts !! i = Some (sql (update_key_row a key now) k) →
  run_schedule (i :: sched) ts c =
    run_schedule sched (<[i := k (Ok tt)]> ts)
      (mkConn (with_keys (sql_update (λ r, kr_account_hash r ≈c a)
                (λ r, mkKeyRow (kr_account_hash r) key (kr_created_at r) (dt_timestamp now))
                (t_encryption_keys (cn_db c))) (cn_db c)) (S (cn_step c))).
Proof. intros Hi. cbn [run_schedule]. rewrite Hi. unfold sql, update_key_row, exec. by rewrite Hcalm. Qed.

Lemma turn_insert i sched ts c a key now k :
  ts !! i = Some (sql (insert_key_row a key now) k) → has_key a (cn_db c) = false →
  run_schedule (i :: sched) ts c =
    run_schedule sched (<[i := k (Ok tt)]> ts)
      (mkConn (with_keys (t_encryption_keys (cn_db c) ++ [mkKeyRow a key (dt_timestamp now) (dt_timestamp now)])%list
                (cn_db c)) (S (cn_step c))).
Proof. intros Hi Hno. cbn [run_schedule]. rewrite Hi. unfold sql, insert_key_row, exec. by rewrite Hcalm, Hno. Qed.

Lemma turn_refused i sched ts c a key now k :
  ts !! i = Some (sql (insert_key_row a key now) k) → has_key a (cn_db c) = true →
  run_schedule (i :: sched) ts c =
    run_schedule sched (<[i := k (Err (db_err duplicate))]> ts) (mkConn (cn_db c) (S (cn_step c))).
Proof. intros Hi Hno. cbn [run_schedule]. rewrite Hi. unfold sql, insert_key_row, exec. by rewrite Hcalm, Hno. Qed.

End calm.

Lemma key_of_inserted a key now d :
  key_of a d = None →
  key_of a (with_keys (t_encryption_keys d ++ [mkKeyRow a key now now])%list d) = Some key.
Proof.
  unfold key_of. intros Hn%fmap_None. cbn. rewrite (find_app_new _ _ _ Hn); [done|]. cbn. apply coll_eq_refl.
Qed.

Lemma has_key_inserted a key now d : has_key a (with_keys (t_encryption_keys d ++ [mkKeyRow a key now now])%list d) = true.
Proof. unfold has_key. cbn. rewrite existsb_app. cbn. rewrite coll_eq_refl. apply orb_true_r. Qed.

(** Two first requests of an account may both be granted, with different keys: both are
    answered with success, but only the second key is stored. *)
Theorem first_requests_disagree a draw0 draw1 now0 now1 c :
  (∀ n, fault n = None) → key_of a (cn_db c) = None →
  ∃ c', pool_steps ([key_request a draw0 now0; key_request a draw1 now1], c)
          ([Answer (Ok (generate_account_key draw0)); Answer (Ok (generate_account_key draw1))], c')
        ∧ key_of a (cn_db c') = Some (generate_account_key draw1).
Proof.
  intros Hf Hk. pose proof (has_key_none a (cn_db c) Hk) as Hno.
  pose proof (run_schedule_steps [0; 1; 0; 0; 1; 1]%nat [key_request a draw0 now0; key_request a draw1 now1] c) as H.
  revert H. erewrite (turn_query Hf 0) by reflexivity. cbn [list_insert insert cn_db cn_step].
  fold (key_of a (cn_db c)). rewrite Hk.
  erewrite (turn_query Hf 1) by reflexivity. cbn [list_insert insert cn_db cn_step]. fold (key_of a (cn_db c)). rewrite Hk.
  erewrite (turn_query Hf 0) by reflexivity. cbn [list_insert insert cn_db cn_step]. rewrite Hno.
  erewrite (turn_insert Hf 0) by (reflexivity || exact Hno). cbn [list_insert insert cn_db cn_step].
  erewrite (turn_query Hf 1) by reflexivity. cbn [list_insert insert cn_db cn_step]. rewrite has_key_inserted.
  erewrite (turn_update Hf 1) by reflexivity. cbn [list_insert insert cn_db cn_step run_schedule].
  intros H. eexists. split; [exact H|]. cbn [cn_db]. unfold key_of. cbn [t_encryption_keys with_keys].
  apply update_inserted. intros r Hr. apply not_true_is_false. intros E.
  unfold has_key in Hno. assert (existsb (λ r, kr_account_hash r ≈c a) (t_encryption_keys (cn_db c)) = true) as E'; [|congruence].
  apply existsb_exists. exists r. by rewrite <- list_elem_of_In.
Qed.

(** Or the second is refused by the database, and has to ask again. *)
Theorem first_request_refused a draw0 draw1 now0 now1 c :
  (∀ n, fault n = None) → key_of a (cn_db c) = None →
  ∃ c', pool_steps ([key_request a draw0 now0; key_request a draw1 now1], c)
          ([Answer (Ok (generate_account_key draw0)); Answer (Err (db_err duplicate))], c')
        ∧ key_of a (cn_db c') = Some (generate_account_key draw0).
Proof.
  intros Hf Hk. pose proof (has_key_none a (cn_db c) Hk) as Hno.
  pose proof (run_schedule_steps [0; 1; 0; 1; 0; 1]%nat [key_request a draw0 now0; key_request a draw1 now1] c) as H.
  revert H. erewrite (turn_query Hf 0) by reflexivity. cbn [list_insert insert cn_db cn_step].
  fold (key_of a (cn_db c)). rewrite Hk.
  erewrite (turn_query Hf 1) by reflexivity. cbn [list_insert insert cn_db cn_step]. fold (key_of a (cn_db c)). rewrite Hk.
  erewrite (turn_query Hf 0) by reflexivity. cbn [list_insert insert cn_db cn_step]. rewrite Hno.
  erewrite (turn_query Hf 1) by reflexivity. cbn [list_insert insert cn_db cn_step]. rewrite Hno.
  erewrite (turn_insert Hf 0) by (reflexivity || exact Hno). cbn [list_insert insert cn_db cn_step].
  erewrite (turn_refused Hf 1) by (reflexivity || apply has_key_inserted). cbn [list_insert insert cn_db cn_step run_schedule].
  intros H. eexists. split; [exact H|]. by apply key_of_inserted.
Qed.

(** A log-in whose look-up of the key fails stores a new key over the old one: every
    device that has the old one can no longer read what is encrypted from now on. *)
Theorem failed_lookup_replaces_key order a random now now' c k :
  key_of a (cn_db c) = Some k →
  (∃ e, fault (cn_step c) = Some e) → (∀ n, (cn_step c < n)%nat → fault n = None) →
  ∃ c', run_alone (login_key order a random now now') c = (Ok (hex_encode random), c')
        ∧ key_of a (cn_db c') = Some (hex_encode random).
Proof.
  intros Hk [e He] Hf. unfold login_key, sql. cbn [run_alone].
  unfold my_get_encryption_key, query, exec at 1. rewrite He. cbn [answer run_alone].
  unfold my_list_devices, query, exec at 1. cbn [cn_step cn_db]. rewrite Hf by lia.
  cbn [run_alone answer]. rewrite store_key_alone. unfold my_store_encryption_key, mthen, query, exec. cbn [cn_step cn_db].
  rewrite Hf by lia. unfold key_of in Hk. apply fmap_Some in Hk as (r & Hr & ->).
  assert (existsb (λ r, kr_account_hash r ≈c a) (t_encryption_keys (cn_db c)) = true) as ->.
  { apply existsb_exists. exists r. apply find_some in Hr. done. }
  cbn [cn_step cn_db]. rewrite Hf by lia. cbn. eexists. split; [done|]. unfold key_of. cbn.
  clear -Hr. induction (t_encryption_keys (cn_db c)) as [|x l IH]; [done|]. cbn in *.
  destruct (kr_account_hash x ≈c a) eqn:E; cbn; rewrite E; [done|by apply IH].
Qed.

End keys.

(** ** On any storage

    The calls of the trait are the steps; what a step does is known by the laws only. *)

Section any_storage.
Context {S : Type} `{SL : StorageLaws S}.
Implicit Types (s : S).

Definition request_methods (account_hash : string) (draw : nat → ascii) : prog S (Res string) :=
  Stmt (λ s, (s_get_encryption_key account_hash s, s)) (λ found,
    match found with
    | Ok (Some key) => Answer (Ok key)
    | Ok None =>
        let new_key := generate_account_key draw in
        Stmt (s_store_encryption_key account_hash new_key) (λ r,
          Answer (match r with Ok _ => Ok new_key | Err e => Err e end))
    | Err e => Answer (Err e)
    end).

Theorem request_methods_alone a draw s : run_alone (request_methods a draw) s = get_or_create_key a draw s.
Proof.
  unfold get_or_create_key. cbn. destruct (s_get_encryption_key a s) as [[key|]|e]; [done| |done].
  cbn. by destruct (s_store_encryption_key _ _ _) as [[] s'].
Qed.

(** Whatever the storage, two first requests can both be granted, and only one of the
    keys is stored. *)
Theorem first_requests_disagree_anywhere a draw0 draw1 s s1 s2 :
  s_get_encryption_key a s = Ok None →
  s_store_encryption_key a (generate_account_key draw0) s = (Ok tt, s1) →
  s_store_encryption_key a (generate_account_key draw1) s1 = (Ok tt, s2) →
  pool_steps ([request_methods a draw0; request_methods a draw1], s)
    ([Answer (Ok (generate_account_key draw0)); Answer (Ok (generate_account_key draw1))], s2)
  ∧ s_get_encryption_key a s2 = Ok (Some (generate_account_key draw1)).
Proof.
  intros Hnone H0 H1. split; [|by destruct (law_store_encryption_key _ _ _ _ H1)].
  pose proof (run_schedule_steps [0; 1; 0; 1]%nat [request_methods a draw0; request_methods a draw1] s) as Hrun.
  cbn -[generate_account_key] in Hrun. rewrite Hnone in Hrun. cbn -[generate_account_key] in Hrun.
  rewrite ?Hnone in Hrun. cbn -[generate_account_key] in Hrun. rewrite H0 in Hrun. cbn -[generate_account_key] in Hrun.
  by rewrite H1 in Hrun.
Qed.

End any_storage.

(** *** Examples *)

Section examples.
#[local] Existing Instance exact_collation.
#[local] Existing Instance sqlx_texts.
#[local] Existing Instance chrono_range.
#[local] Existing Instance plain_crypto.
#[local] Existing Instance canonical_iter.

Definition letter (a : ascii) (n : nat) : ascii := a.

(** The third statement is refused. *)
Definition overlap_calls : list key_call :=
  [RequestKey "acc" (letter "a") t_now; LoginKey id "acc" [] t_now (λ _ _, t_now); RequestKey "acc" (letter "b") t_now].

Definition overlap_result := run_schedule [0; 1; 2; 2; 0; 2; 0; 1; 1; 1]%nat
  (call_prog third_fails "Duplicate entry" <$> overlap_calls) (mkConn empty_db 0).

Example overlap_answers :
  overlap_result.1 = [Answer (Ok (generate_account_key (letter "a"))); Answer (Ok ""); Answer (Err (Database "gone away"))]
  ∧ key_of "acc" (cn_db overlap_result.2) = Some "".
Proof. by vm_compute. Qed.

Lemma overlapping_keys_consistent_witness :
  keys_unique same_account (t_encryption_keys (cn_db overlap_result.2))
  ∧ known_key empty_db overlap_calls "acc" (generate_account_key (letter "a")).
Proof.
  destruct (overlapping_keys_consistent third_fails "Duplicate entry" overlap_calls (mkConn empty_db 0)
              overlap_result.1 overlap_result.2) as (H1 & _ & H3).
  - by intros i j ri rj ?.
  - rewrite <- surjective_pairing. apply run_schedule_steps.
  - split; [exact H1|]. refine (H3 0%nat _ _ eq_refl _). vm_compute. reflexivity.
Defined.

Definition keyed : Conn := mkConn (with_keys [mkKeyRow "acc" "secret" 0 0] empty_db) 0.

Lemma stored_key_is_shared_witness :
  key_of "acc" (cn_db (run_schedule [0; 1; 1]%nat
    (call_prog calm "Duplicate entry" <$> overlap_calls) keyed).2) = Some "secret".
Proof.
  eapply (stored_key_is_shared calm "Duplicate entry" overlap_calls "acc" "secret" keyed); [reflexivity| |].
  - by repeat constructor.
  - rewrite <- surjective_pairing. apply run_schedule_steps.
Defined.

Lemma first_requests_disagree_witness :
  ∃ c', pool_steps ([key_request calm "Duplicate entry" "acc" (letter "a") t_now;
                     key_request calm "Duplicate entry" "acc" (letter "b") t_now], mkConn empty_db 0)
          ([Answer (Ok (generate_account_key (letter "a"))); Answer (Ok (generate_account_key (letter "b")))], c')
        ∧ key_of "acc" (cn_db c') = Some (generate_account_key (letter "b")).
Proof. by apply first_requests_disagree. Defined.

Lemma first_requests_disagree_anywhere_witness :
  s_get_encryption_key "acc" (store_encryption_key "acc" (generate_account_key (letter "b"))
    (store_encryption_key "acc" (generate_account_key (letter "a")) StorageData_new).2).2
  = Ok (Some (generate_account_key (letter "b"))).
Proof.
  apply (first_requests_disagree_anywhere (S := StorageData) "acc" (letter "a") (letter "b") StorageData_new
           (store_encryption_key "acc" (generate_account_key (letter "a")) StorageData_new).2); reflexivity.
Defined.

End examples.
