(* ===== verification/Middleware.v ===== *)
(** * The middleware pipeline (src/abstractions/middleware.rs)

    Requests pass the middleware of a pipeline in the order of priorities, responses in
    the reverse order.  A middleware is a record of its three functions; what they ask
    other services, tokens and rates, is a state [W] that is passed along. *)

From stdpp Require Import sorting.
From S2P Require Import Prelude RustString Errors Http.

(** ** Contexts *)

Record RequestContext := mkRequestContext {
  rq_request_id : string; rq_user_id : option string; rq_device_id : option string;
  rq_headers : gmap string string; rq_metadata : gmap string Json; rq_timestamp : Z
}.

Definition RequestContext_new (request_id : string) (now : Z) : RequestContext :=
  mkRequestContext request_id None None ∅ ∅ now.

Definition with_user_id (user_id : string) (c : RequestContext) : RequestContext :=
  mkRequestContext (rq_request_id c) (Some user_id) (rq_device_id c) (rq_headers c) (rq_metadata c) (rq_timestamp c).

Definition with_device_id (device_id : string) (c : RequestContext) : RequestContext :=
  mkRequestContext (rq_request_id c) (rq_user_id c) (Some device_id) (rq_headers c) (rq_metadata c) (rq_timestamp c).

Definition request_add_header (key value : string) (c : RequestContext) : RequestContext :=
  mkRequestContext (rq_request_id c) (rq_user_id c) (rq_device_id c) (<[key := value]> (rq_headers c)) (rq_metadata c)
    (rq_timestamp c).

Definition request_add_metadata (key : string) (value : Json) (c : RequestContext) : RequestContext :=
  mkRequestContext (rq_request_id c) (rq_user_id c) (rq_device_id c) (rq_headers c) (<[key := value]> (rq_metadata c))
    (rq_timestamp c).

Definition get_metadata (key : string) (c : RequestContext) : option Json := rq_metadata c !! key.

Record ResponseContext := mkResponseContext {
  rs_status_code : Z; rs_headers : gmap string string; rs_metadata : gmap string Json; rs_processing_time_ms : Z
}.

Definition ResponseContext_new (status_code : Z) : ResponseContext := mkResponseContext status_code ∅ ∅ 0.

Definition response_add_header (key value : string) (c : ResponseContext) : ResponseContext :=
  mkResponseContext (rs_status_code c) (<[key := value]> (rs_headers c)) (rs_metadata c) (rs_processing_time_ms c).

Definition response_add_metadata (key : string) (value : Json) (c : ResponseContext) : ResponseContext :=
  mkResponseContext (rs_status_code c) (rs_headers c) (<[key := value]> (rs_metadata c)) (rs_processing_time_ms c).

(** The objects behind the traits [MiddlewareRequest] and [MiddlewareResponse]. *)
Record MiddlewareRequest := mkMiddlewareRequest {
  mq_method : string; mq_path : string; mq_body : list Byte.byte; mq_headers : gmap string string
}.

Record MiddlewareResponse := mkMiddlewareResponse {
  mp_status_code : Z; mp_body : list Byte.byte; mp_headers : gmap string string
}.

Definition response_set_header (key value : string) (r : MiddlewareResponse) : MiddlewareResponse :=
  mkMiddlewareResponse (mp_status_code r) (mp_body r) (<[key := value]> (mp_headers r)).

(** ** Middleware *)

Inductive MiddlewareAction := Continue | Stop | Skip.
Inductive ErrorHandlingAction := EH_Continue | EH_Handle | EH_Transform (error : SyncError).

Abbreviation SRes A := (result A SyncError).

Record Middleware (W : Type) := mkMiddleware {
  mw_name : string;
  mw_priority : Z;
  process_request : RequestContext → MiddlewareRequest → W →
    SRes MiddlewareAction * (RequestContext * MiddlewareRequest * W);
  process_response : RequestContext → MiddlewareResponse → ResponseContext → W →
    SRes MiddlewareAction * (MiddlewareResponse * ResponseContext * W);
  mw_handle_error : RequestContext → SyncError → W → SRes ErrorHandlingAction * W
}.
Arguments mkMiddleware {W}.
Arguments mw_name {W}.
Arguments mw_priority {W}.
Arguments process_request {W}.
Arguments process_response {W}.
Arguments mw_handle_error {W}.

(** The defaults of the trait. *)
Definition default_priority : Z := 100.
Definition default_handle_error {W} (context : RequestContext) (error : SyncError) (w : W)
    : SRes ErrorHandlingAction * W := (Ok EH_Continue, w).

Section pipeline.
Context {W : Type}.
Implicit Types (m : Middleware W) (l : list (Middleware W)) (w : W).

Definition MiddlewarePipeline : Type := list (Middleware W).
Definition MiddlewarePipeline_new : MiddlewarePipeline := [].

(** [sort_by_key]: a stable sort. *)
Fixpoint insert_by_priority m l : list (Middleware W) :=
  match l with
  | [] => [m]
  | m' :: l => if mw_priority m <=? mw_priority m' then m :: m' :: l else m' :: insert_by_priority m l
  end.

Definition sort_by_priority l : list (Middleware W) := foldr insert_by_priority [] l.

Definition add_middleware m (p : MiddlewarePipeline) : MiddlewarePipeline := sort_by_priority (p ++ [m]).

(** The request and its context come back changed, whatever the outcome. *)
Fixpoint execute_request (p : MiddlewarePipeline) (context : RequestContext) (request : MiddlewareRequest) w
    : SRes (RequestContext * MiddlewareAction) * (MiddlewareRequest * W) :=
  match p with
  | [] => (Ok (context, Continue), (request, w))
  | m :: p =>
      let '(r, (context, request, w)) := process_request m context request w in
      match r with
      | Err e => (Err e, (request, w))
      | Ok Continue => execute_request p context request w
      | Ok Stop => (Ok (context, Stop), (request, w))
      | Ok Skip => (Ok (context, Continue), (request, w))
      end
  end.

Fixpoint response_loop (p : MiddlewarePipeline) (context : RequestContext) (response : MiddlewareResponse)
    (response_context : ResponseContext) w : SRes (ResponseContext * MiddlewareAction) * (MiddlewareResponse * W) :=
  match p with
  | [] => (Ok (response_context, Continue), (response, w))
  | m :: p =>
      let '(r, (response, response_context, w)) := process_response m context response response_context w in
      match r with
      | Err e => (Err e, (response, w))
      | Ok Continue => response_loop p context response response_context w
      | Ok Stop => (Ok (response_context, Stop), (response, w))
      | Ok Skip => (Ok (response_context, Continue), (response, w))
      end
  end.

Definition execute_response (p : MiddlewarePipeline) := response_loop (rev p).

Fixpoint handle_error (p : MiddlewarePipeline) (context : RequestContext) (error : SyncError) w : SRes SyncError * W :=
  match p with
  | [] => (Ok error, w)
  | m :: p =>
      let '(r, w) := mw_handle_error m context error w in
      match r with
      | Err e => (Err e, w)
      | Ok EH_Continue => handle_error p context error w
      | Ok EH_Handle => (Ok error, w)
      | Ok (EH_Transform new_error) => handle_error p context new_error w
      end
  end.

(** ** The middleware of the module *)

Record UserInfo := mkUserInfo { ui_user_id : string; ui_device_id : option string; ui_permissions : list string }.

Definition protected_paths : list string := ["/api/files"; "/api/devices"; "/api/sync"; "/api/account"].

Definition requires_authentication (path : string) : bool := existsb (λ p, starts_with p path) protected_paths.

Definition auth_header (request : MiddlewareRequest) : option string :=
  match mq_headers request !! "Authorization" with
  | Some v => Some v
  | None => mq_headers request !! "authorization"
  end.

Definition pass_response (context : RequestContext) (response : MiddlewareResponse) (rc : ResponseContext) w
    : SRes MiddlewareAction * (MiddlewareResponse * ResponseContext * W) := (Ok Continue, (response, rc, w)).

(** [AuthenticationMiddleware] over the method [validate_token] of its service. *)
Definition AuthenticationMiddleware (validate_token : string → W → SRes UserInfo * W) : Middleware W :=
  mkMiddleware "AuthenticationMiddleware" 10
    (λ context request w,
      match auth_header request with
      | Some auth_value =>
          let '(r, w) := validate_token auth_value w in
          match r with
          | Ok user_info =>
              (Ok Continue,
               (request_add_metadata "auth_type" (JText "token")
                  (mkRequestContext (rq_request_id context) (Some (ui_user_id user_info)) (ui_device_id user_info)
                     (rq_headers context) (rq_metadata context) (rq_timestamp context)), request, w))
          | Err _ => (Err (SE_Authorization "Invalid authentication token"), (context, request, w))
          end
      | None =>
          (if requires_authentication (mq_path request) then Err (SE_Authorization "Authentication required")
           else Ok Continue, (context, request, w))
      end)
    pass_response default_handle_error.

(** [Value::as_i64] of serde. *)
Definition as_i64 (v : Json) : option Z :=
  match v with
  | JInt n => if (i64_min <=? n) && (n <=? i64_max) then Some n else None
  | _ => None
  end.

(** [LoggingMiddleware]: [now_ms] are the two readings of the clock; the messages are
    left out. *)
Definition LoggingMiddleware (now_ms now_ms' : Z) (log_requests log_responses : bool) : Middleware W :=
  mkMiddleware "LoggingMiddleware" 1
    (λ context request w, (Ok Continue, (request_add_metadata "start_time" (JInt now_ms) context, request, w)))
    (λ context response rc w,
      (Ok Continue,
       (response,
        if log_responses then
          match get_metadata "start_time" context ≫= as_i64 with
          | Some start_ms =>
              mkResponseContext (rs_status_code rc) (rs_headers rc) (rs_metadata rc) (wrap_u64 (now_ms' - start_ms))
          | None => rc
          end
        else rc, w)))
    default_handle_error.

(** [RateLimitingMiddleware] over the method [is_allowed] of its limiter. *)
Definition RateLimitingMiddleware (is_allowed : string → W → SRes bool * W) : Middleware W :=
  mkMiddleware "RateLimitingMiddleware" 20
    (λ context request w,
      let key := default (rq_request_id context) (rq_user_id context) in
      let '(r, w) := is_allowed key w in
      (match r with
       | Ok true => Ok Continue
       | Ok false => Err (SE_RateLimit "Rate limit exceeded")
       | Err e => Err e
       end, (context, request, w)))
    (λ context response rc w,
      (Ok Continue,
       (response_set_header "X-RateLimit-Remaining" "99" (response_set_header "X-RateLimit-Limit" "100" response), rc, w)))
    default_handle_error.

(** ** The order of a pipeline *)

#[local] Open Scope list_scope.

Definition pipeline_of l : MiddlewarePipeline := foldl (λ p m, add_middleware m p) MiddlewarePipeline_new l.

Definition runs_before m m' : Prop := mw_priority m ≤ mw_priority m'.
Definition of_priority (k : Z) l : list (Middleware W) := List.filter (λ m, mw_priority m =? k) l.

Lemma insert_by_priority_perm m l : insert_by_priority m l ≡ₚ m :: l.
Proof. induction l as [|m' l IH]; cbn; [done|]. case_match; [done|]. rewrite IH. apply Permutation_swap. Qed.

Lemma sort_by_priority_perm l : sort_by_priority l ≡ₚ l.
Proof. induction l as [|m l IH]; cbn; [done|]. by rewrite insert_by_priority_perm, IH. Qed.

Lemma insert_by_priority_sorted m l :
  StronglySorted runs_before l → StronglySorted runs_before (insert_by_priority m l).
Proof.
  induction 1 as [|m' l HS IH HF]; cbn; [repeat constructor|].
  destruct (mw_priority m <=? mw_priority m') eqn:E.
  - apply Z.leb_le in E. constructor; [by constructor|].
    constructor; [done|]. eapply Forall_impl; [exact HF|]. unfold runs_before. cbn. lia.
  - apply Z.leb_gt in E. constructor; [done|]. rewrite insert_by_priority_perm.
    constructor; [unfold runs_before; lia|done].
Qed.

Lemma sort_by_priority_sorted l : StronglySorted runs_before (sort_by_priority l).
Proof. induction l; cbn; [constructor|by apply insert_by_priority_sorted]. Qed.

Lemma insert_by_priority_stable k m l : of_priority k (insert_by_priority m l) = of_priority k (m :: l).
Proof.
  induction l as [|m' l IH]; cbn; [done|].
  destruct (mw_priority m <=? mw_priority m') eqn:E; cbn; [done|].
  fold (of_priority k (insert_by_priority m l)). rewrite IH. cbn.
  destruct (mw_priority m =? k) eqn:E1; destruct (mw_priority m' =? k) eqn:E2; cbn; try done; lia.
Qed.

Lemma sort_by_priority_stable k l : of_priority k (sort_by_priority l) = of_priority k l.
Proof.
  induction l as [|m l IH]; [done|].
  change (sort_by_priority (m :: l)) with (insert_by_priority m (sort_by_priority l)).
  rewrite insert_by_priority_stable. unfold of_priority in *. cbn. by rewrite IH.
Qed.

Lemma pipeline_of_snoc l m : pipeline_of (l ++ [m]) = sort_by_priority (pipeline_of l ++ [m]).
Proof. unfold pipeline_of. by rewrite foldl_app. Qed.

Lemma pipeline_of_perm l : pipeline_of l ≡ₚ l.
Proof.
  induction l as [|m l IH] using rev_ind; [done|]. by rewrite pipeline_of_snoc, sort_by_priority_perm, IH.
Qed.

Lemma pipeline_of_sorted l : StronglySorted runs_before (pipeline_of l).
Proof.
  destruct l as [|l m _] using rev_ind; [constructor|]. rewrite pipeline_of_snoc. apply sort_by_priority_sorted.
Qed.

(** A pipeline holds exactly the middleware that were added, in the order of their
    priorities, and those of the same priority in the order in which they were added. *)
Theorem pipeline_order l :
  pipeline_of l ≡ₚ l ∧ StronglySorted runs_before (pipeline_of l) ∧ ∀ k, of_priority k (pipeline_of l) = of_priority k l.
Proof.
  split_and!; [apply pipeline_of_perm|apply pipeline_of_sorted|]. intros k.
  induction l as [|m l IH] using rev_ind; [done|].
  rewrite pipeline_of_snoc, sort_by_priority_stable. unfold of_priority in *. by rewrite !List.filter_app, IH.
Qed.

(** ** Protected paths *)

(** What the guard of a pipeline needs of the members around it: those before it never
    skip the rest and leave the path and the headers of the request alone, those after it
    leave the user alone.  Both members of the module do. *)
Definition lets_through m : Prop := ∀ context request w,
  let '(r, (_, request', _)) := process_request m context request w in
  r ≠ Ok Skip ∧ mq_path request' = mq_path request ∧ mq_headers request' = mq_headers request.

Definition keeps_user m : Prop := ∀ context request w,
  let '(_, (context', _, _)) := process_request m context request w in rq_user_id context' = rq_user_id context.

Lemma logging_lets_through now now' b b' : lets_through (LoggingMiddleware now now' b b').
Proof. intros c rq w. by cbn. Qed.

Lemma logging_keeps_user now now' b b' : keeps_user (LoggingMiddleware now now' b b').
Proof. intros c rq w. by cbn. Qed.

Lemma rate_limiting_lets_through is_allowed : lets_through (RateLimitingMiddleware is_allowed).
Proof. intros c rq w. cbn. destruct (is_allowed _ w) as [[[]|] ?]; by split_and!. Qed.

Lemma rate_limiting_keeps_user is_allowed : keeps_user (RateLimitingMiddleware is_allowed).
Proof. intros c rq w. cbn. by destruct (is_allowed _ w). Qed.

Lemma execute_request_past l1 l2 c rq w c' out :
  Forall lets_through l1 → execute_request (l1 ++ l2) c rq w = (Ok (c', Continue), out) →
  ∃ c1 rq1 w1, mq_path rq1 = mq_path rq ∧ mq_headers rq1 = mq_headers rq
    ∧ execute_request l2 c1 rq1 w1 = (Ok (c', Continue), out).
Proof.
  intros HF. revert c rq w. induction HF as [|m l1 Hm HF IH]; intros c rq w; cbn; [eauto 10|].
  specialize (Hm c rq w). destruct (process_request m c rq w) as [[[]|] [[c1 rq1] w1]]; try done; [|naive_solver].
  destruct Hm as (_ & <- & <-). apply IH.
Qed.

Lemma execute_request_keeps_user l c rq w c' a out :
  Forall keeps_user l → execute_request l c rq w = (Ok (c', a), out) → rq_user_id c' = rq_user_id c.
Proof.
  intros HF. revert c rq w. induction HF as [|m l Hm HF IH]; intros c rq w; cbn; [by intros [=-> <-]|].
  specialize (Hm c rq w). destruct (process_request m c rq w) as [[[]|] [[c1 rq1] w1]]; try naive_solver.
  intros H. rewrite <-Hm. by eapply IH.
Qed.

Lemma pipeline_split m l l' :
  ∃ l1 l2, pipeline_of (l ++ m :: l') = l1 ++ m :: l2 ∧ l1 ++ l2 ≡ₚ l ++ l'
    ∧ Forall (λ m', mw_priority m' ≤ mw_priority m) l1 ∧ Forall (λ m', mw_priority m ≤ mw_priority m') l2.
Proof.
  pose proof (pipeline_of_perm (l ++ m :: l')) as Hp. pose proof (pipeline_of_sorted (l ++ m :: l')) as Hs.
  assert (Hin : m ∈ pipeline_of (l ++ m :: l')) by (rewrite Hp; set_solver).
  apply list_elem_of_split in Hin as (l1 & l2 & E). rewrite E in *. exists l1, l2. split_and!; [done| | |].
  - by apply (Permutation_app_inv _ _ _ _ m).
  - apply Forall_forall. intros x Hx. apply (StronglySorted_app_1_elem_of _ _ _ x m Hs Hx). set_solver.
  - apply StronglySorted_app_1_r, StronglySorted_cons in Hs as [Hs _]. done.
Qed.

(** C39: whatever else is in a pipeline and in whatever order its members were added: a
    request for a protected path is handed on to the handler only when it carries a token
    that the authentication service accepted, and then as the user of that token.  The
    members that run before the guard must not skip the others or rewrite the request, the
    members after it must not change the user. *)
Theorem protected_requests_authenticated validate_token l l' context request w context' out :
  Forall (λ m, mw_priority m ≤ 10 → lets_through m) (l ++ l') →
  Forall (λ m, 10 ≤ mw_priority m → keeps_user m) (l ++ l') →
  requires_authentication (mq_path request) = true →
  execute_request (pipeline_of (l ++ AuthenticationMiddleware validate_token :: l')) context request w
    = (Ok (context', Continue), out) →
  ∃ token user w1 w2, auth_header request = Some token ∧ validate_token token w1 = (Ok user, w2)
    ∧ rq_user_id context' = Some (ui_user_id user).
Proof.
  intros Ht Hk Hreq.
  destruct (pipeline_split (AuthenticationMiddleware validate_token) l l') as (l1 & l2 & -> & Hp & H1 & H2).
  rewrite <-Hp in Ht, Hk. apply Forall_app in Ht as [Ht _], Hk as [_ Hk]. intros H.
  apply execute_request_past in H as (c1 & rq1 & w1 & Ep & Eh & H); [|rewrite Forall_forall in *; naive_solver].
  cbn -[requires_authentication auth_header] in H.
  assert (Ea : auth_header rq1 = auth_header request) by (unfold auth_header; by rewrite Eh).
  rewrite Ea, Ep, Hreq in H.
  destruct (auth_header request) as [token|]; [|done].
  destruct (validate_token token w1) as [[user|e] w2] eqn:E; [|done].
  exists token, user, w1, w2. split_and!; [done..|].
  apply execute_request_keeps_user in H as ->; [done|]. rewrite Forall_forall in *. naive_solver.
Qed.

(** ** The three members of the module together *)

(** What becomes of a request, in words: a token is validated before anything else, a
    request without one passes unless the path is protected, and what passed is counted
    under its user, or under its own id when it has none. *)
Definition builtin_outcome (validate_token : string → W → SRes UserInfo * W) (is_allowed : string → W → SRes bool * W)
    (context : RequestContext) (request : MiddlewareRequest) w : SRes (option string) * W :=
  let '(who, w) :=
    match auth_header request with
    | Some token =>
        let '(r, w) := validate_token token w in
        (match r with Ok user => Ok (Some (ui_user_id user)) | Err _ => Err (SE_Authorization "Invalid authentication token") end, w)
    | None =>
        (if requires_authentication (mq_path request) then Err (SE_Authorization "Authentication required")
         else Ok (rq_user_id context), w)
    end in
  match who with
  | Err e => (Err e, w)
  | Ok user =>
      let '(r, w) := is_allowed (default (rq_request_id context) user) w in
      (match r with
       | Ok true => Ok user
       | Ok false => Err (SE_RateLimit "Rate limit exceeded")
       | Err e => Err e
       end, w)
  end.

(** The user as whom a pipeline hands a request on; [None] when it ends it otherwise. *)
Definition handed_on (r : SRes (RequestContext * MiddlewareAction)) : option (SRes (option string)) :=
  match r with
  | Ok (context, Continue) => Some (Ok (rq_user_id context))
  | Ok _ => None
  | Err e => Some (Err e)
  end.

(** In whatever order the three were added. *)
Lemma builtin_order validate_token is_allowed now now' b b' l :
  l ≡ₚ [LoggingMiddleware now now' b b'; AuthenticationMiddleware validate_token; RateLimitingMiddleware is_allowed] →
  pipeline_of l = [LoggingMiddleware now now' b b'; AuthenticationMiddleware validate_token; RateLimitingMiddleware is_allowed].
Proof.
  intros Hl. apply (StronglySorted_unique_strong runs_before).
  - intros m m'. rewrite pipeline_of_perm, Hl, !elem_of_cons. unfold runs_before.
    intros Hm Hm'. destruct Hm as [->|[->|[->|?%not_elem_of_nil]]]; [..|done];
      destruct Hm' as [->|[->|[->|?%not_elem_of_nil]]]; cbn; try done; lia.
  - apply pipeline_of_sorted.
  - repeat constructor; unfold runs_before; cbn; lia.
  - by rewrite pipeline_of_perm.
Qed.

(** A pipeline of the three members of the module answers, in whatever order they were
    added, as the plain description says: it hands the request on as the user found, or
    refuses it with that error, and leaves the services behind it in the same state. *)
Theorem builtin_pipeline_outcome validate_token is_allowed now now' b b' l context request w :
  l ≡ₚ [LoggingMiddleware now now' b b'; AuthenticationMiddleware validate_token; RateLimitingMiddleware is_allowed] →
  let '(r, (request', w')) := execute_request (pipeline_of l) context request w in
  (handed_on r, w') = prod_map Some id (builtin_outcome validate_token is_allowed context request w)
  ∧ request' = request.
Proof.
  intros ->%builtin_order. unfold builtin_outcome. cbn -[auth_header requires_authentication].
  destruct (auth_header request) as [token|].
  - destruct (validate_token token w) as [[user|e] w1]; cbn; [|done]. by destruct (is_allowed _ w1) as [[[]|] ?].
  - destruct (requires_authentication _); [done|]. cbn. by destruct (is_allowed _ w) as [[[]|] ?].
Qed.

End pipeline.

(** ** Anonymous requests and the rate limiter *)

Section anonymous.
Context {W : Type} (is_allowed : string → W → SRes bool * W).

(** A limiter that lets the first request of a key pass and counts the keys apart. *)
Context (unseen : string → W → Prop).
Hypothesis first_allowed : ∀ key w, unseen key w →
  ∃ w', is_allowed key w = (Ok true, w') ∧ ∀ key', key' ≠ key → unseen key' w → unseen key' w'.

Fixpoint send_all (requests : list (RequestContext * MiddlewareRequest)) (w : W) : list bool :=
  match requests with
  | [] => []
  | (context, request) :: requests =>
      let '(r, (_, w)) := execute_request [RateLimitingMiddleware is_allowed] context request w in
      (match r with Ok _ => true | Err _ => false end) :: send_all requests w
  end.

(** However small the limit: any number of requests without a user pass, since each is
    counted under its own id. *)
Lemma anonymous_requests_unlimited requests w :
  NoDup (rq_request_id ∘ fst <$> requests) →
  Forall (λ r, rq_user_id r.1 = None ∧ unseen (rq_request_id r.1) w) requests →
  Forall (λ b, b = true) (send_all requests w).
Proof using first_allowed.
  revert w. induction requests as [|[c rq] requests IH]; intros w; [constructor|].
  cbn -[execute_request]. intros [Hn Hd]%NoDup_cons [[Hu Hf] HF]%Forall_cons. cbn. cbn in Hu, Hf. rewrite Hu. cbn.
  destruct (first_allowed _ _ Hf) as (w' & -> & Hk). constructor; [done|]. apply IH; [done|].
  rewrite Forall_forall in *. intros r Hr. destruct (HF _ Hr) as [? ?]. split; [done|]. apply Hk; [|done].
  intros E. apply Hn. rewrite <-E. by apply (list_elem_of_fmap_2' _ _ r).
Qed.

End anonymous.

(** ** Witnesses *)

Definition demo_validate (token : string) (calls : nat) : SRes UserInfo * nat :=
  (if bool_decide (token = "good") then Ok (mkUserInfo "ada" None []) else Err (SE_Authentication "no"), Datatypes.S calls).
Definition demo_allowed (key : string) (calls : nat) : SRes bool * nat := (Ok (bool_decide (calls < 3)%nat), calls).
Definition demo_request (headers : gmap string string) : MiddlewareRequest := mkMiddlewareRequest "GET" "/api/files/7" [] headers.
Definition demo_context : RequestContext := RequestContext_new "r1" 0.

Definition demo_reached (token : string) : RequestContext :=
  match execute_request (pipeline_of [RateLimitingMiddleware demo_allowed; AuthenticationMiddleware demo_validate;
                                      LoggingMiddleware 5 9 true true])
          demo_context (demo_request {["authorization" := token]}) O with
  | (Ok (c, _), _) => c
  | _ => demo_context
  end.

Lemma protected_requests_authenticated_witness :
  ∃ token user w1 w2, auth_header (demo_request {["authorization" := "good"]}) = Some token
    ∧ demo_validate token w1 = (Ok user, w2) ∧ rq_user_id (demo_reached "good") = Some (ui_user_id user).
Proof.
  apply (protected_requests_authenticated demo_validate [RateLimitingMiddleware demo_allowed]
           [LoggingMiddleware 5 9 true true] demo_context (demo_request {["authorization" := "good"]}) O
           (demo_reached "good") (demo_request {["authorization" := "good"]}, 1%nat)).
  - constructor; [intros _; apply rate_limiting_lets_through|].
    constructor; [intros _; apply logging_lets_through|constructor].
  - constructor; [intros _; apply rate_limiting_keeps_user|].
    constructor; [intros _; apply logging_keeps_user|constructor].
  - reflexivity.
  - reflexivity.
Defined.

Example refused_without_token :
  (execute_request (pipeline_of [RateLimitingMiddleware demo_allowed; AuthenticationMiddleware demo_validate])
     demo_context (demo_request ∅) O).1 = Err (SE_Authorization "Authentication required").
Proof. reflexivity. Qed.

(** The guarded paths are prefixes of strings, not of segments, and the case counts. *)
Example protected_prefixes :
  requires_authentication "/api/filesystem" = true ∧ requires_authentication "/api/Files" = false
  ∧ requires_authentication "/api/versions" = false.
Proof. repeat split. Qed.

(** A clock that went back makes the time of a request enormous. *)
Example processing_time_wraps :
  (process_response (LoggingMiddleware 9 8 true true (W := unit))
     (request_add_metadata "start_time" (JInt 9) demo_context) (mkMiddlewareResponse 200 [] ∅) (ResponseContext_new 200) tt).2.1.2
  = mkResponseContext 200 ∅ ∅ (2 ^ 64 - 1).
Proof. reflexivity. Qed.

Lemma builtin_pipeline_outcome_witness :
  let '(r, (request', w')) :=
    execute_request (pipeline_of [RateLimitingMiddleware demo_allowed; AuthenticationMiddleware demo_validate;
                                  LoggingMiddleware 5 9 true true])
      demo_context (demo_request {["authorization" := "good"]}) O in
  (handed_on r, w') = prod_map Some id (builtin_outcome demo_validate demo_allowed demo_context (demo_request {["authorization" := "good"]}) O)
  ∧ request' = demo_request {["authorization" := "good"]}.
Proof.
  apply (builtin_pipeline_outcome demo_validate demo_allowed 5 9 true true).
  etransitivity; [|apply (Permutation_app_comm [_] [_; _])]. apply perm_skip, perm_swap.
Defined.
