(* ===== verification/Plugins.v ===== *)
(** * The plugin manager (src/abstractions/plugins.rs, the data of src/abstractions/mod.rs)

    A manager keeps a container for every loaded plugin, a registry of their metadata and
    a factory of plugin types.  What a plugin does is behind an interface, [Plugin]: its
    methods work on the plugin and on a state [W] of what is outside it. *)

From S2P Require Import Prelude RustString Errors Http.

(** ** Data *)

Record PluginMetadata := mkPluginMetadata {
  pm_name : string; pm_version : string; pm_description : string; pm_author : string;
  pm_dependencies : list string; pm_capabilities : list string
}.

Definition PluginConfig : Type := gmap string Json.

Inductive HealthStatus := Healthy | Warning | Unhealthy | HealthUnknown.

Record PluginHealth := mkPluginHealth { ph_status : HealthStatus; ph_message : option string; ph_last_check : Z }.

Inductive LifecycleState := Created | Initialized | Starting | Started | Stopping | Stopped | Failed (msg : string).

#[global] Instance LifecycleState_eq_dec : EqDecision LifecycleState.
Proof. solve_decision. Defined.

(** [{:?}] of a state, for the states without an argument. *)
Definition state_debug (s : LifecycleState) : string :=
  match s with
  | Created => "Created" | Initialized => "Initialized" | Starting => "Starting" | Started => "Started"
  | Stopping => "Stopping" | Stopped => "Stopped" | Failed _ => "Failed"
  end.

Abbreviation PRes A := (result A SyncError).

(** The trait [Plugin]; [health_check] is asked at a time. *)
Class Plugin (P W : Type) := {
  metadata : P → PluginMetadata;
  initialize : PluginConfig → P → W → PRes () * (P * W);
  plugin_start : P → W → PRes () * (P * W);
  plugin_stop : P → W → PRes () * (P * W);
  health_check : Z → P → W → PRes PluginHealth * W;
  configure : PluginConfig → P → W → PRes () * (P * W)
}.

(** ** The plugin of the module *)

Record BasePlugin := mkBasePlugin { bp_metadata : PluginMetadata; bp_config : PluginConfig; bp_state : LifecycleState }.

Definition BasePlugin_new (m : PluginMetadata) : BasePlugin := mkBasePlugin m ∅ Created.
Definition set_state (s : LifecycleState) (p : BasePlugin) : BasePlugin := mkBasePlugin (bp_metadata p) (bp_config p) s.
Definition base_initialize (config : PluginConfig) (p : BasePlugin) : BasePlugin :=
  mkBasePlugin (bp_metadata p) config Initialized.
Definition base_start (p : BasePlugin) : BasePlugin := set_state Started p.
Definition base_stop (p : BasePlugin) : BasePlugin := set_state Stopped p.
Definition base_health_check (now : Z) (p : BasePlugin) : PluginHealth :=
  mkPluginHealth (match bp_state p with Started => Healthy | Failed _ => Unhealthy | _ => Warning end) None now.
Definition base_configure (config : PluginConfig) (p : BasePlugin) : BasePlugin :=
  mkBasePlugin (bp_metadata p) config (bp_state p).

#[export] Instance BasePlugin_plugin {W} : Plugin BasePlugin W := {
  metadata := bp_metadata;
  initialize config p w := (Ok tt, (base_initialize config p, w));
  plugin_start p w := (Ok tt, (base_start p, w));
  plugin_stop p w := (Ok tt, (base_stop p, w));
  health_check now p w := (Ok (base_health_check now p), w);
  configure config p w := (Ok tt, (base_configure config p, w))
}.

(** ** The manager *)

Section manager.
Context {P W : Type} `{Plugin P W}.
Implicit Types (p : P) (w : W).

Record PluginContainer := mkPluginContainer { pc_plugin : P; pc_state : LifecycleState }.

Definition PluginContainer_new p : PluginContainer := mkPluginContainer p Created.

(** The states [Starting] and [Stopping] last as long as the call of the plugin. *)
Definition container_start (c : PluginContainer) w : PRes () * (PluginContainer * W) :=
  let c := mkPluginContainer (pc_plugin c) Starting in
  let '(r, (p, w)) := plugin_start (pc_plugin c) w in
  match r with
  | Ok _ => (Ok tt, (mkPluginContainer p Started, w))
  | Err e => (Err e, (mkPluginContainer p (Failed (SyncError_fmt e)), w))
  end.

Definition container_stop (c : PluginContainer) w : PRes () * (PluginContainer * W) :=
  let c := mkPluginContainer (pc_plugin c) Stopping in
  let '(r, (p, w)) := plugin_stop (pc_plugin c) w in
  match r with
  | Ok _ => (Ok tt, (mkPluginContainer p Stopped, w))
  | Err e => (Err e, (mkPluginContainer p (Failed (SyncError_fmt e)), w))
  end.

Definition container_health (now : Z) (c : PluginContainer) w : PRes PluginHealth * W :=
  match pc_state c with
  | Started => health_check now (pc_plugin c) w
  | Failed msg => (Ok (mkPluginHealth Unhealthy (Some msg) now), w)
  | s => (Ok (mkPluginHealth Warning (Some ("Plugin in state: " +:+ state_debug s)) now), w)
  end.

(** [PluginRegistry] *)
Definition PluginRegistry : Type := gmap string PluginMetadata.
Definition registry_register (key : string) (item : PluginMetadata) (r : PluginRegistry) : PluginRegistry := <[key := item]> r.
Definition registry_unregister (key : string) (r : PluginRegistry) : option PluginMetadata * PluginRegistry :=
  (r !! key, delete key r).
Definition registry_get (key : string) (r : PluginRegistry) : option PluginMetadata := r !! key.
Definition registry_contains (key : string) (r : PluginRegistry) : bool := bool_decide (is_Some (r !! key)).
Definition registry_clear (r : PluginRegistry) : PluginRegistry := ∅.

(** [PluginFactory] *)
Definition PluginFactory : Type := gmap string (W → PRes P * W).
Definition factory_register (plugin_type : string) (factory : W → PRes P * W) (f : PluginFactory) : PluginFactory :=
  <[plugin_type := factory]> f.
Definition factory_create (plugin_type : string) (f : PluginFactory) w : PRes P * W :=
  match f !! plugin_type with
  | Some factory => factory w
  | None => (Err (SE_NotFound ("Plugin type not found: " +:+ plugin_type)), w)
  end.

Record PluginManager := mkPluginManager {
  mg_plugins : gmap string PluginContainer; mg_registry : PluginRegistry; mg_factory : PluginFactory
}.

Definition PluginManager_new : PluginManager := mkPluginManager ∅ ∅ ∅.

Definition register_plugin_type (plugin_type : string) (factory : W → PRes P * W) (m : PluginManager) : PluginManager :=
  mkPluginManager (mg_plugins m) (mg_registry m) (factory_register plugin_type factory (mg_factory m)).

Fixpoint check_dependencies (dependencies : list string) (m : PluginManager) : PRes () :=
  match dependencies with
  | [] => Ok tt
  | dep :: dependencies =>
      if registry_contains dep (mg_registry m) then check_dependencies dependencies m
      else Err (SE_Validation ("Missing dependency: " +:+ dep))
  end.

Definition load_plugin (plugin_type plugin_name : string) (config : PluginConfig) (m : PluginManager) w
    : PRes () * (PluginManager * W) :=
  let '(created, w) := factory_create plugin_type (mg_factory m) w in
  match created with
  | Err e => (Err e, (m, w))
  | Ok plugin =>
      let '(r, (plugin, w)) := initialize config plugin w in
      match r with
      | Err e => (Err e, (m, w))
      | Ok _ =>
          let meta := metadata plugin in
          match check_dependencies (pm_dependencies meta) m with
          | Err e => (Err e, (m, w))
          | Ok _ =>
              (Ok tt, (mkPluginManager (<[plugin_name := PluginContainer_new plugin]> (mg_plugins m))
                         (registry_register plugin_name meta (mg_registry m)) (mg_factory m), w))
          end
      end
  end.

(** A call of the container of a name. *)
Definition on_container (plugin_name : string) (f : PluginContainer → W → PRes () * (PluginContainer * W))
    (m : PluginManager) w : PRes () * (PluginManager * W) :=
  match mg_plugins m !! plugin_name with
  | Some container =>
      let '(r, (container, w)) := f container w in
      (r, (mkPluginManager (<[plugin_name := container]> (mg_plugins m)) (mg_registry m) (mg_factory m), w))
  | None => (Err (SE_NotFound ("Plugin not found: " +:+ plugin_name)), (m, w))
  end.

Definition start_plugin (plugin_name : string) := on_container plugin_name container_start.
Definition stop_plugin (plugin_name : string) := on_container plugin_name container_stop.

Definition get_plugin_health (plugin_name : string) (now : Z) (m : PluginManager) w : PRes PluginHealth * W :=
  match mg_plugins m !! plugin_name with
  | Some container => container_health now container w
  | None => (Err (SE_NotFound ("Plugin not found: " +:+ plugin_name)), w)
  end.

(** The order of [list_plugins] is that of the hash map: it is an argument of the calls
    that go through all plugins, any order of these names. *)
Definition list_plugins (m : PluginManager) : list string := (map_to_list (mg_plugins m)).*1.

Definition get_plugin (plugin_name : string) (m : PluginManager) : option P := pc_plugin <$> mg_plugins m !! plugin_name.

Definition start_all_plugins (plugin_names : list string) (m : PluginManager) w : PRes () * (PluginManager * W) :=
  (Ok tt, foldl (λ '(m, w) name, (start_plugin name m w).2) (m, w) plugin_names).

Definition stop_all_plugins (plugin_names : list string) (m : PluginManager) w : PRes () * (PluginManager * W) :=
  (Ok tt, foldl (λ '(m, w) name, (stop_plugin name m w).2) (m, w) (rev plugin_names)).

(** What a caller does with the handle that [get_plugin] gave it, behind the back of the
    container. *)
Definition use_plugin (plugin_name : string) (f : P → W → P * W) (m : PluginManager) w : PluginManager * W :=
  match mg_plugins m !! plugin_name with
  | Some container =>
      let '(p, w) := f (pc_plugin container) w in
      (mkPluginManager (<[plugin_name := mkPluginContainer p (pc_state container)]> (mg_plugins m)) (mg_registry m)
         (mg_factory m), w)
  | None => (m, w)
  end.

(** The calls of a manager, and the managers they lead to. *)
Inductive manager_step : PluginManager * W → PluginManager * W → Prop :=
| step_register m w t f : manager_step (m, w) (register_plugin_type t f m, w)
| step_load m w t n c : manager_step (m, w) (load_plugin t n c m w).2
| step_start m w n : manager_step (m, w) (start_plugin n m w).2
| step_stop m w n : manager_step (m, w) (stop_plugin n m w).2
| step_start_all m w ns : ns ≡ₚ list_plugins m → manager_step (m, w) (start_all_plugins ns m w).2
| step_stop_all m w ns : ns ≡ₚ list_plugins m → manager_step (m, w) (stop_all_plugins ns m w).2
| step_use m w n f : manager_step (m, w) (use_plugin n f m w).

Definition reachable (s : PluginManager * W) : Prop := ∃ w, rtc manager_step (PluginManager_new, w) s.

End manager.
Arguments PluginContainer : clear implicits.
Arguments PluginManager : clear implicits.
Arguments PluginFactory : clear implicits.

(** ** Discovery *)

Record PluginDescriptor := mkPluginDescriptor {
  pd_plugin_type : string; pd_path : option string; pd_metadata : PluginMetadata; pd_config : PluginConfig
}.

(** [FileSystemPluginDiscovery::discover], over its directories. *)
Definition discover (plugin_directories : list string) : PRes (list PluginDescriptor) :=
  Ok (foldl (λ descriptors directory, descriptors) [] plugin_directories).

(** ** What holds of every manager *)

Section properties.
Context {P W : Type} `{Plugin P W}.
Implicit Types (m : PluginManager P W) (w : W) (c : PluginContainer P).

Definition at_rest (s : LifecycleState) : Prop :=
  match s with Created | Started | Stopped | Failed _ => True | _ => False end.

Record manager_ok m : Prop := mk_manager_ok {
  ok_same_names : dom (mg_plugins m) = dom (mg_registry m);
  ok_dependencies : map_Forall (λ _ meta, Forall (λ d, d ∈ dom (mg_registry m)) (pm_dependencies meta)) (mg_registry m);
  ok_at_rest : map_Forall (λ _ c, at_rest (pc_state c)) (mg_plugins m)
}.

Lemma manager_new_ok : manager_ok PluginManager_new.
Proof. split; cbn; [set_solver|apply map_Forall_empty..]. Qed.

Lemma check_dependencies_ok deps m :
  check_dependencies deps m = Ok tt ↔ Forall (λ d, d ∈ dom (mg_registry m)) deps.
Proof.
  induction deps as [|d deps IH]; cbn; [by split; [constructor|]|]. unfold registry_contains.
  rewrite Forall_cons, (elem_of_dom (M := gmap string) (mg_registry m)), <-IH. case_bool_decide; naive_solver.
Qed.

(** Putting a container that rests back under its name. *)
Lemma put_container_ok n c c' m :
  manager_ok m → mg_plugins m !! n = Some c → at_rest (pc_state c') →
  manager_ok (mkPluginManager (<[n := c']> (mg_plugins m)) (mg_registry m) (mg_factory m)).
Proof.
  intros [Hd Hdep Hr] Hn Hc. split; cbn; [|done|by apply map_Forall_insert_2].
  rewrite dom_insert_lookup_L; [done|by exists c].
Qed.

Definition settles (f : PluginContainer P → W → PRes () * (PluginContainer P * W)) : Prop :=
  ∀ c w, at_rest (pc_state (f c w).2.1).

Lemma container_start_settles : settles container_start.
Proof. intros c w. unfold container_start. by destruct (plugin_start _ _) as [[] [? ?]]. Qed.

Lemma container_stop_settles : settles container_stop.
Proof. intros c w. unfold container_stop. by destruct (plugin_stop _ _) as [[] [? ?]]. Qed.

Hint Resolve manager_new_ok container_start_settles container_stop_settles : core.

Lemma on_container_ok n f m w : settles f → manager_ok m → manager_ok (on_container n f m w).2.1.
Proof.
  intros Hf Hm. unfold on_container. destruct (mg_plugins m !! n) as [c|] eqn:E; [|done].
  specialize (Hf c w). destruct (f c w) as [r [c' w']]; cbn in *. by eapply put_container_ok.
Qed.

Lemma on_containers_ok f ns m w :
  settles f → manager_ok m → manager_ok (foldl (λ '(m, w) name, (on_container name f m w).2) (m, w) ns).1.
Proof.
  intros Hf. revert m w. induction ns as [|n ns IH]; intros m w Hm; [done|]. cbn.
  pose proof (on_container_ok n f m w Hf Hm) as Hok. destruct (on_container n f m w) as [r [m' w']]. by apply IH.
Qed.

Lemma load_plugin_ok t n cfg m w : manager_ok m → manager_ok (load_plugin t n cfg m w).2.1.
Proof.
  intros Hm. unfold load_plugin. destruct (factory_create t (mg_factory m) w) as [[p|e] w1]; [|done].
  destruct (initialize cfg p w1) as [[u|e] [p' w2]]; [|done].
  destruct (check_dependencies _ m) as [[]|e] eqn:Hc; [|done]. apply check_dependencies_ok in Hc.
  destruct Hm as [Hd Hdep Hr]. split; cbn; unfold registry_register, PluginRegistry in *.
  - rewrite !dom_insert_L. by rewrite Hd.
  - apply map_Forall_insert_2; [eapply Forall_impl; [exact Hc|]; set_solver|].
    intros k meta Hk. eapply Forall_impl; [exact (Hdep _ _ Hk)|]. set_solver.
  - by apply map_Forall_insert_2.
Qed.

Lemma manager_step_ok s s' : manager_step s s' → manager_ok s.1 → manager_ok s'.1.
Proof.
  intros Hs Hm. destruct Hs; cbn in Hm |- *.
  - destruct Hm. by split.
  - by apply load_plugin_ok.
  - by apply on_container_ok.
  - by apply on_container_ok.
  - by apply on_containers_ok.
  - by apply on_containers_ok.
  - unfold use_plugin. destruct (mg_plugins m !! n) as [c|] eqn:E; [|done].
    destruct (f _ _) as [p' w']. cbn. apply (put_container_ok n c); [done..|]. exact (ok_at_rest _ Hm n c E).
Qed.

(** C40: whatever is registered, loaded, started and stopped, and whatever callers do with
    the plugins they were handed: the registry knows exactly the loaded plugins, the
    dependencies of every one of them are loaded, and between two calls no plugin is left
    starting or stopping. *)
Theorem reachable_manager_ok s : reachable s → manager_ok s.1.
Proof.
  intros [w Hr]. assert (Hw : manager_ok (@PluginManager_new P W, w).1) by done. revert Hw.
  induction Hr as [|s1 s2 s3 Hs Hr IH]; [done|]. intros Hw. apply IH. by eapply manager_step_ok.
Qed.

(** ** Loading *)

(** A plugin is loaded exactly when its type is known, it could be made and
    initialised, and all it depends on is loaded; then it is there, not started, under its
    name, with its metadata, and the others are as before.  Any failure leaves the manager
    as it was, though the plugin was already made, or initialised. *)
Theorem load_plugin_spec t n cfg m w :
  let '(r, (m', w')) := load_plugin t n cfg m w in
  match r with
  | Err _ => m' = m
  | Ok _ => ∃ factory p w1 p',
      mg_factory m !! t = Some factory ∧ factory w = (Ok p, w1) ∧ initialize cfg p w1 = (Ok tt, (p', w'))
      ∧ Forall (λ d, d ∈ dom (mg_registry m)) (pm_dependencies (metadata p'))
      ∧ mg_plugins m' = <[n := PluginContainer_new p']> (mg_plugins m)
      ∧ mg_registry m' = <[n := metadata p']> (mg_registry m) ∧ mg_factory m' = mg_factory m
  end.
Proof.
  unfold load_plugin, factory_create. destruct (mg_factory m !! t) as [factory|] eqn:Ef; [|done].
  destruct (factory w) as [[p|e] w1] eqn:Ew; [|done].
  destruct (initialize cfg p w1) as [[[]|e] [p' w2]] eqn:Ei; [|done].
  destruct (check_dependencies _ m) as [[]|e] eqn:Hc; [|done]. apply check_dependencies_ok in Hc. eauto 15.
Qed.

(** ** Starting all plugins *)

(** A call through containers that touches nothing else. *)
Lemma on_containers_isolated f g ns m w :
  (∀ c w, (f c w).2 = (g c, w)) → NoDup ns →
  foldl (λ '(m, w) name, (on_container name f m w).2) (m, w) ns
  = (mkPluginManager (map_imap (λ n c, Some (if bool_decide (n ∈ ns) then g c else c)) (mg_plugins m)) (mg_registry m)
       (mg_factory m), w).
Proof.
  intros Hf. revert m. induction ns as [|n ns IH]; intros m Hn; cbn.
  - f_equal. destruct m as [ps r fs]; cbn. f_equal. apply map_eq. intros k. rewrite map_lookup_imap. by destruct (ps !! k).
  - apply NoDup_cons in Hn as [Hin Hn]. unfold on_container at 2.
    destruct (mg_plugins m !! n) as [c|] eqn:E.
    + specialize (Hf c w). destruct (f c w) as [r [c' w']]; cbn in Hf. simplify_eq. cbn. rewrite IH by done. cbn. f_equal. f_equal.
      apply map_eq. intros k. rewrite !map_lookup_imap. destruct (decide (k = n)) as [->|Hk].
      * rewrite lookup_insert_eq, E. cbn. f_equal. rewrite (bool_decide_eq_false_2 _ Hin), bool_decide_eq_true_2; [done|set_solver].
      * rewrite lookup_insert_ne by done. destruct (mg_plugins m !! k); cbn; [|done]. f_equal.
        rewrite (bool_decide_ext (k ∈ n :: ns) (k ∈ ns)) by set_solver. done.
    + cbn. rewrite IH by done. f_equal. f_equal. apply map_eq. intros k. rewrite !map_lookup_imap.
      destruct (mg_plugins m !! k) eqn:Ek; cbn; [|done]. f_equal.
      assert (k ≠ n) by congruence. rewrite (bool_decide_ext (k ∈ n :: ns) (k ∈ ns)) by set_solver. done.
Qed.

Lemma on_all_isolated f g ns m w :
  (∀ c w, (f c w).2 = (g c, w)) → ns ≡ₚ list_plugins m →
  foldl (λ '(m, w) name, (on_container name f m w).2) (m, w) ns
  = (mkPluginManager (g <$> mg_plugins m) (mg_registry m) (mg_factory m), w).
Proof.
  intros Hf Hns. rewrite (on_containers_isolated f g) by (done || (rewrite Hns; apply NoDup_fst_map_to_list)).
  f_equal. f_equal. apply map_eq. intros k. rewrite map_lookup_imap, lookup_fmap.
  destruct (mg_plugins m !! k) as [c|] eqn:E; cbn; [|done]. rewrite bool_decide_eq_true_2; [done|].
  rewrite Hns. apply (list_elem_of_fmap_2' _ _ (k, c)); [by apply elem_of_map_to_list|done].
Qed.

(** The state a container takes from the answer of its plugin. *)
Definition settled (done : LifecycleState) (answer : P → PRes () * P) c : PluginContainer P :=
  let '(r, p) := answer (pc_plugin c) in
  mkPluginContainer p (match r with Ok _ => done | Err e => Failed (SyncError_fmt e) end).

(** When plugins keep to themselves, the order in which the hash map gives their names
    does not matter: starting all calls every plugin once, each ends started or failed by
    its own answer, one that fails keeps no other from starting, and the call succeeds. *)
Theorem start_all_any_order answer ns m w :
  (∀ p w, plugin_start p w = ((answer p).1, ((answer p).2, w))) → ns ≡ₚ list_plugins m →
  start_all_plugins ns m w
  = (Ok tt, (mkPluginManager (settled Started answer <$> mg_plugins m) (mg_registry m) (mg_factory m), w)).
Proof.
  intros Ha Hns. unfold start_all_plugins, start_plugin. rewrite (on_all_isolated _ (settled Started answer)); [done| |done].
  intros c w'. unfold container_start, settled. cbn. rewrite Ha. by destruct (answer (pc_plugin c)) as [[[]|e] p'].
Qed.

Lemma stop_all_any_order answer ns m w :
  (∀ p w, plugin_stop p w = ((answer p).1, ((answer p).2, w))) → ns ≡ₚ list_plugins m →
  stop_all_plugins ns m w
  = (Ok tt, (mkPluginManager (settled Stopped answer <$> mg_plugins m) (mg_registry m) (mg_factory m), w)).
Proof.
  intros Ha Hns. unfold stop_all_plugins, stop_plugin. rewrite (on_all_isolated _ (settled Stopped answer)); [done| |].
  - intros c w'. unfold container_stop, settled. cbn. rewrite Ha. by destruct (answer (pc_plugin c)) as [[[]|e] p'].
  - by rewrite <-Permutation_rev.
Qed.

End properties.

(** ** The life of a plugin that does not fail *)

(** Load, start, ask for the health, stop: the run of the module's own test. *)
Definition base_factory {W} (m : PluginMetadata) (w : W) : PRes BasePlugin * W := (Ok (BasePlugin_new m), w).
Definition meta_of (name : string) (deps : list string) : PluginMetadata := mkPluginMetadata name "1.0.0" "" "" deps [].

(** Start all, ask, stop all: every plugin of the module is healthy, then stopped and
    reported with a warning. *)
Lemma base_plugins_cycle {W} (m : PluginManager BasePlugin W) ns w now n :
  ns ≡ₚ list_plugins m → n ∈ list_plugins m →
  let m1 := (start_all_plugins ns m w).2.1 in
  let m2 := (stop_all_plugins ns m1 w).2.1 in
  (get_plugin_health n now m1 w).1 = Ok (mkPluginHealth Healthy None now)
  ∧ (get_plugin_health n now m2 w).1 = Ok (mkPluginHealth Warning (Some "Plugin in state: Stopped") now).
Proof.
  intros Hns (p & -> & Hp%elem_of_map_to_list')%list_elem_of_fmap.
  cbv zeta. rewrite (start_all_any_order (λ p, (Ok tt, base_start p))) by done. cbn [fst snd].
  rewrite (stop_all_any_order (λ p, (Ok tt, base_stop p))); [|done|].
  - unfold get_plugin_health. cbn. rewrite !lookup_fmap, Hp. by cbn.
  - rewrite Hns. unfold list_plugins.
    apply NoDup_Permutation; [apply NoDup_fst_map_to_list..|]. intros x. rewrite !list_elem_of_fmap.
    setoid_rewrite elem_of_map_to_list'. setoid_rewrite lookup_fmap. split.
    + intros ([k c] & -> & Hk). cbn in Hk. exists (k, settled Started (λ p, (Ok tt, base_start p)) c). cbn. by rewrite Hk.
    + intros ([k c] & -> & Hk). cbn in Hk. apply fmap_Some in Hk as (c0 & ? & ?). by exists (k, c0).
Qed.

(** ** Where the order matters *)

(** A plugin that needs the ones it depends on to run: the state outside is the list of
    the plugins that run. *)
Definition starts_after_dependencies (p : BasePlugin) (running : list string) : PRes () * (BasePlugin * list string) :=
  if forallb (λ d, bool_decide (d ∈ running)) (pm_dependencies (bp_metadata p))
  then (Ok tt, (base_start p, running ++ [pm_name (bp_metadata p)])%list)
  else (Err (SE_ServiceUnavailable "dependency is not running"), (p, running)).

#[local] Instance dependent_plugin : Plugin BasePlugin (list string) | 0 := {
  metadata := bp_metadata;
  initialize config p w := (Ok tt, (base_initialize config p, w));
  plugin_start := starts_after_dependencies;
  plugin_stop p w := (Ok tt, (base_stop p, w));
  health_check now p w := (Ok (base_health_check now p), w);
  configure config p w := (Ok tt, (base_configure config p, w))
}.

Definition demo_types : PluginManager BasePlugin (list string) :=
  register_plugin_type "b" (base_factory (meta_of "b" ["a"]))
    (register_plugin_type "a" (base_factory (meta_of "a" [])) PluginManager_new).
Definition demo_manager_a : PluginManager BasePlugin (list string) := (load_plugin "a" "a" ∅ demo_types []).2.1.
Definition demo_manager : PluginManager BasePlugin (list string) := (load_plugin "b" "b" ∅ demo_manager_a []).2.1.

(** [b] depends on [a]; whether it starts is up to the order of the hash map. *)
Example start_order_matters :
  (["a"; "b"] ≡ₚ list_plugins demo_manager ∧ ["b"; "a"] ≡ₚ list_plugins demo_manager)
  ∧ (pc_state <$> mg_plugins (start_all_plugins ["a"; "b"] demo_manager []).2.1 !! "b") = Some Started
  ∧ (pc_state <$> mg_plugins (start_all_plugins ["b"; "a"] demo_manager []).2.1 !! "b")
    = Some (Failed "Service unavailable: dependency is not running").
Proof.
  assert (E : list_plugins demo_manager = ["a"; "b"]) by reflexivity.
  rewrite E. repeat split; solve [reflexivity | apply perm_swap].
Qed.

(** Loading under the name of a running plugin replaces its container: nothing stops it
    ([running] still lists it), and no call of the manager reaches it any more. *)
Example reload_drops_running :
  let '(m, running) := (start_plugin "a" demo_manager []).2 in
  let '(m', running') := (load_plugin "a" "a" ∅ m running).2 in
  (pc_state <$> mg_plugins m !! "a") = Some Started ∧ (pc_state <$> mg_plugins m' !! "a") = Some Created
  ∧ running = ["a"] ∧ running' = ["a"].
Proof. repeat split; reflexivity. Qed.

(** Two plugins may come to depend on each other, when one is loaded again. *)
Example dependency_cycle :
  let m := register_plugin_type "a2" (base_factory (meta_of "a" ["b"])) demo_manager in
  let m := (load_plugin "a2" "a" ∅ m []).2.1 in
  (pm_dependencies <$> mg_registry m !! "a") = Some ["b"] ∧ (pm_dependencies <$> mg_registry m !! "b") = Some ["a"].
Proof. split; reflexivity. Qed.

(** A plugin stopped through its handle still counts as started. *)
Example stopped_behind_the_back :
  let m := (start_plugin "a" demo_manager []).2.1 in
  let m := (use_plugin "a" (λ p w, (base_stop p, w)) m []).1 in
  (pc_state <$> mg_plugins m !! "a") = Some Started
  ∧ (get_plugin_health "a" 7 m []).1 = Ok (mkPluginHealth Warning None 7).
Proof. split; reflexivity. Qed.

(** Nothing is ever discovered. *)
Lemma discover_nothing dirs : discover dirs = Ok [].
Proof. unfold discover. f_equal. by induction dirs. Qed.

Definition demo_started : PluginManager BasePlugin (list string) * list string :=
  (start_all_plugins ["b"; "a"] demo_manager []).2.

Lemma reachable_manager_ok_witness : reachable demo_started ∧ manager_ok demo_started.1.
Proof.
  assert (Hr : reachable demo_started).
  { exists []. eapply rtc_l; [apply (step_register _ _ "a")|]. eapply rtc_l; [apply (step_register _ _ "b")|].
    apply (rtc_l _ _ (demo_manager_a, [])); [exact (step_load demo_types [] "a" "a" ∅)|].
    apply (rtc_l _ _ (demo_manager, [])); [exact (step_load demo_manager_a [] "b" "b" ∅)|].
    apply rtc_once. apply (step_start_all demo_manager [] ["b"; "a"]). apply perm_swap. }
  split; [exact Hr|]. exact (reachable_manager_ok demo_started Hr).
Defined.
