(* ===== verification/WatchPath.v ===== *)
(** * Is an uploaded file inside the folder of its watcher?
    (validate_file_path_with_watcher of src/handlers/file_handler.rs)

    The upload handler asks once, and only logs the answer.  The question needs
    [std::path::Path::parent], which is modelled on its documentation: components are
    separated by slashes, empty ones and dots after the first do not count. *)

From S2P Require Import Prelude RustString Errors Models Paths Memory Effects FileService FileHandlers.

(** ** [Path::parent] *)

(** The segments of a path from its end, without the ones that are no components. *)
Fixpoint trim_back (has_root : bool) (segments : list string) : list string :=
  match segments with
  | [] => []
  | w :: ws =>
      let leading := negb has_root && match ws with [] => true | _ => false end in
      if (w == "") || ((w == ".") && negb leading) then trim_back has_root ws else segments
  end.

Definition path_parent (path : string) : option string :=
  let has_root := starts_with "/" path in
  let body := if has_root then str_drop 1 path else path in
  match trim_back has_root (rev (split_char "/" body)) with
  | [] => None
  | _ :: ws => Some ((if has_root then "/" else "") +:+ str_join "/" (rev (trim_back has_root ws)))
  end.

Example parents :
  path_parent "~/docs/a.txt" = Some "~/docs" ∧ path_parent "~" = Some "" ∧ path_parent "/" = None
  ∧ path_parent "/a" = Some "/" ∧ path_parent "a//b/" = Some "a" ∧ path_parent "./a" = Some "."
  ∧ path_parent "a/./b" = Some "a" ∧ path_parent "" = None.
Proof. repeat split. Qed.

(** ** The check *)

(** [get_watcher_info_once], on the answer of the storage. *)
Definition get_watcher_info_once (found : Res (option sync_WatcherData)) (group_id watcher_id : Z)
    : result sync_WatcherData string :=
  match found with
  | Ok (Some watcher) => Ok watcher
  | Ok None => Err ("Watcher not found: group_id=" +:+ pretty group_id +:+ ", watcher_id=" +:+ pretty watcher_id)
  | Err e => Err ("Database error: " +:+ StorageError_fmt e)
  end.

Definition file_is_in_watcher_folder (recursive : bool) (normalized_watcher_folder normalized_file_path : string) : bool :=
  if recursive then
    starts_with normalized_watcher_folder normalized_file_path || (normalized_file_path == normalized_watcher_folder)
  else default "" (path_parent normalized_file_path) == normalized_watcher_folder.

Definition validate_file_path_with_watcher (found : Res (option sync_WatcherData)) (req : UploadFileRequest)
    (normalized_file_path : string) : result unit string :=
  match get_watcher_info_once found (ufr_group_id req) (ufr_watcher_id req) with
  | Err _ => Err "Watcher not found or validation failed"
  | Ok watcher =>
      let normalized_watcher_folder := normalize_uncached (swd_folder watcher) in
      if negb (file_is_in_watcher_folder (swd_recursive_path watcher) normalized_watcher_folder normalized_file_path) then
        Err ("File path '" +:+ normalized_file_path +:+ "' is not within watcher folder '" +:+ normalized_watcher_folder +:+ "'")
      else Ok tt
  end.

(** ** What it accepts *)

(** A folder that ends in a component, as every folder a user would name. *)
Definition names_folder (folder : string) : Prop := ∃ w ws, rev (split_char "/" folder) = w :: ws ∧ w ≠ "" ∧ w ≠ ".".

Lemma trim_back_component r w ws : w ≠ "" → w ≠ "." → trim_back r (w :: ws) = w :: ws.
Proof. intros H1 H2. cbn. by rewrite !bool_decide_eq_false_2. Qed.

Lemma trim_back_last r ws w vs : trim_back r ws = w :: vs → w ≠ "" ∧ (∀ x, x ∈ w :: vs → x ∈ ws).
Proof.
  induction ws as [|x ws IH]; cbn; [done|]. case_match eqn:E.
  - intros [? Hx]%IH. split; [done|]. set_solver.
  - intros [= -> ->]. split; [|done]. by intros ->.
Qed.

Lemma split_char_app_any c s t : split_char c (s +:+ String c t) = (split_char c s ++ split_char c t)%list.
Proof.
  induction s as [|a s IH]; cbn; [by rewrite bool_decide_eq_true_2|]. case_bool_decide; [by rewrite IH|].
  rewrite IH. pose proof (split_char_nonempty c s). by destruct (split_char c s).
Qed.

Lemma split_join c (l : list string) :
  l ≠ [] → (∀ w, w ∈ l → contains_char c w = false) → split_char c (str_join (String c "") l) = l.
Proof.
  induction l as [|w l IH]; [done|]. intros _ Hl. destruct (decide (l = (@nil string))) as [->|Hne].
  - cbn. apply split_char_none. set_solver.
  - rewrite str_join_cons by done. cbn. rewrite split_char_app by set_solver. f_equal. apply IH; set_solver.
Qed.

(** The parent of a path never ends in a slash, but for the root. *)
Lemma parent_no_slash path q : path_parent path = Some q → q ≠ "/" → ends_with "/" q = false.
Proof.
  unfold path_parent. generalize (starts_with "/" path). intros r. set (body := if r then str_drop 1 path else path).
  destruct (trim_back _ (rev _)) as [|w0 ws] eqn:E0; [done|]. intros [= <-] Hq.
  apply trim_back_last in E0 as [_ Hin0].
  destruct (trim_back _ ws) as [|w vs] eqn:E; [destruct r; [by cbn in Hq|done]|].
  apply trim_back_last in E as [Hw Hin].
  assert (Hs : split_char "/" (str_join "/" (rev (w :: vs))) = rev (w :: vs)).
  { apply split_join; [cbn; by destruct (rev vs)|]. intros x Hx. apply (split_char_pieces "/" body).
    apply list_elem_of_In, in_rev, list_elem_of_In. apply Hin0. right. apply Hin.
    by apply list_elem_of_In, in_rev, list_elem_of_In. }
  assert (El : rev (w :: vs) = (rev vs ++ [w])%list) by done. revert El Hs Hq. generalize (rev (w :: vs)).
  intros l El Hs Hq. apply not_true_iff_false. intros (t & Ht)%ends_with_spec. destruct r.
  - destruct t as [|a t]; [by destruct Hq|]. cbn in Ht. injection Ht as _ Ht.
    rewrite Ht, split_char_app_any, El in Hs. cbn in Hs. apply app_inj_tail in Hs as [_ Hs]. congruence.
  - cbn in Ht. rewrite Ht, split_char_app_any, El in Hs. cbn in Hs. apply app_inj_tail in Hs as [_ Hs]. congruence.
Qed.

Lemma parent_of_member folder name :
  names_folder folder → starts_with "/" folder = false →
  contains_char "/" name = false → name ≠ "" → name ≠ "." → path_parent (folder +:+ "/" +:+ name) = Some folder.
Proof.
  intros (w & ws & Hf & Hw & Hw') Hr Hn Hn1 Hn2. unfold path_parent.
  assert (Hr' : starts_with "/" (folder +:+ "/" +:+ name) = false) by (destruct folder; [by cbn in Hf; simplify_eq|done]).
  rewrite Hr'. cbn. rewrite split_char_app_any, (split_char_none _ name), rev_app_distr by done. cbn -[trim_back].
  rewrite (trim_back_component _ name), Hf, trim_back_component, <-Hf, rev_involutive by done. by rewrite join_split.
Qed.

(** The check accepts a file directly in the folder of a watcher, recursive or not,
    when the folder is written without a slash at its end; a watcher that is not recursive
    and whose folder is written with one accepts no file at all. *)
Theorem watcher_folder_check found req watcher name path :
  get_watcher_info_once found (ufr_group_id req) (ufr_watcher_id req) = Ok watcher →
  let folder := normalize_uncached (swd_folder watcher) in
  contains_char "/" name = false → name ≠ "" → name ≠ "." →
  (names_folder folder → starts_with "/" folder = false →
   validate_file_path_with_watcher found req (folder +:+ "/" +:+ name) = Ok tt)
  ∧ (swd_recursive_path watcher = false → folder ≠ "/" → ends_with "/" folder = true →
     ∃ e, validate_file_path_with_watcher found req path = Err e).
Proof.
  intros Hg folder Hn Hn1 Hn2. unfold validate_file_path_with_watcher. rewrite Hg. fold folder. split.
  - intros Hf Hr. unfold file_is_in_watcher_folder. rewrite starts_with_app, parent_of_member by done. cbn -[folder].
    rewrite bool_decide_eq_true_2 by done. by destruct (swd_recursive_path _).
  - intros -> Hne He. unfold file_is_in_watcher_folder. cbn. rewrite bool_decide_eq_false_2; [eauto|]. intros Hp.
    destruct (path_parent path) as [q|] eqn:Eq; cbn in Hp; [|by rewrite <-Hp in He].
    rewrite <-Hp in He, Hne. apply parent_no_slash in Eq; [congruence|done].
Qed.

(** A recursive watcher takes every path that its folder is a prefix of. *)
Example sibling_folder_accepted :
  file_is_in_watcher_folder true "~/docs" "~/docs-private/a.txt" = true
  ∧ file_is_in_watcher_folder false "~/docs/" "~/docs/a.txt" = false
  ∧ file_is_in_watcher_folder true "~" "~/anything" = true.
Proof. repeat split. Qed.
